(* ===== verification/_CoqProject ===== *)
-Q . S2P
Prelude.v
Float64.v
Digest.v
GoTime.v
Api.v
Json.v
JsonDecode.v
PlatformCrypto.v
Pricing.v
Calibration.v
Routes.v
AdmissionPolicy.v
Ledger.v
LedgerProofs.v
Cohorts.v
Engine.v
EngineProofs.v
EngineInvariants.v
EngineProperties.v
EngineExample.v
Wire.v
AuditChain.v
Checkpoints.v
Tokens.v
KeyRelease.v
Resources.v
ChangeApproval.v
Identity.v
AdmissionServer.v
AdmissionServerProofs.v
AdmissionServerExample.v
ExtProc.v
ExtProcProofs.v
ExtProcExample.v
Placement.v
PlacementProofs.v
Worker.v
WorkQueue.v
WorkQueueProofs.v
WorkQueueExample.v
Postgres.v
PostgresBooks.v
PostgresLedger.v
PostgresProofs.v
PostgresProperties.v
PostgresExample.v
Sovereignty.v
Catalog.v
GatewayRoutes.v
FinOps.v
GatewayRoutesProofs.v
PolicyControllers.v
PolicyProofs.v
PolicyExample.v
