(* ===== verification/Prelude.v ===== *)
(** * A verification of the GOV-AR platform

    The repository is a Kubernetes operator for the governance of AI workloads. Its
    core is GOV-AR: a ledger that admits a request for a model only against a
    reservation of its worst-case cost, follows the request through dispatch,
    settlement, cancellation and expiry, and keeps an audit trail of every step; an
    admission service that authenticates workloads in front of the ledger; an Envoy
    external processor that claims an admitted request before it is forwarded and
    settles its reported usage; workers that repair what a crash leaves open; and a
    scheduler that places confidential workloads on attested nodes and releases
    their keys. Beside it, policies of sovereignty and budget read the observed
    traffic and steer the routes of the gateway. All paths below are relative to [src/operateur/].

    ** Parts and files

    - [Prelude] (this file): results of fallible functions, record update, [int64]
      arithmetic with its wrap-around and the congruence modulo 2^64 under which it
      is ordinary arithmetic, byte strings, [sort.Slice], sums over maps.
      [Float64]: Go's [float64] on the Standard Library's [SpecFloat].
    - [Digest]: SHA-256 and HMAC computed in Rocq, and the three record encodings
      the program hashes; [PlatformCrypto]: hex-coded Ed25519, whose primitive is a
      parameter with its laws. [GoTime]: instants, the calendar, RFC 3339 and the
      budget windows. [Json], [JsonDecode]: [encoding/json] both ways. [Api]: the
      custom resources of [api/v1alpha1] that the ledger reads.
    - [Pricing] ([internal/govarpricing]): normalization of price snapshots, the
      reservation of a component vector and its settlement. [Calibration]
      ([internal/govarcalibration]): conformal and Wilson bounds, drift windows and
      the coverage gap. [Routes] ([internal/govar/snapshot.go]): candidates and
      route snapshots. [AdmissionPolicy] ([internal/govar/admission_policy.go]):
      which candidate is admitted, and for how much.
    - [Ledger], [LedgerProofs]: a reservation and its tenant, and the pure
      transitions of [internal/govar/engine.go]. [Cohorts]: frozen cohorts, budget
      adjustments and selected feedback ([ledger_extensions.go],
      [selected_feedback_postgres.go]). [Engine], [EngineProofs],
      [EngineInvariants], [EngineProperties], [EngineExample]: the in-memory engine,
      a [Record] with one [Definition] per method.
    - [Wire]: requests and responses as JSON. [AuditChain]: the tenant audit chain
      ([internal/govaraudit], [postgres_audit.go]). [Checkpoints]: the batch chain
      of [pkg/audit]. [Tokens], [KeyRelease]: placement tokens and the key
      release decision. [Postgres]: the SQL engine of
      [postgres_engine.go], [ledger_extensions_postgres.go], [postgres_audit.go] and
      [selected_feedback_postgres.go], one transaction a [tx]; [PostgresBooks] and
      [PostgresLedger]: the well-formed databases and the changes that keep them so;
      [PostgresProofs]: the change each transaction makes; [PostgresProperties],
      [PostgresExample].
    - [Resources], [ChangeApproval], [Identity], [AdmissionServer] (with its
      [Proofs] and [Example]): the Kubernetes objects and controllers that grant
      trust ([internal/controller], [internal/webhook]), and the service of
      [cmd/gov-ar-admission/main.go]. [ExtProc] (with its [Proofs] and [Example]):
      [internal/govarextproc/server.go].
    - [Placement], [PlacementProofs]: [internal/scheduler] and
      [internal/placement]. [Worker], [WorkQueue] (with its [Proofs] and
      [Example]): [internal/govarworker] and [internal/govar/worker_postgres.go].
    - [Sovereignty] ([internal/sovereigntyengine], [enforcementengine],
      [shadowengine]): zones, findings, decisions. [Catalog] ([internal/catalog],
      [internal/controller/catalog.go]): prices, zones and flows. [GatewayRoutes]
      (with its [Proofs]; [internal/gatewayreroute], [gatewayactuator.go]): controls
      on the rules of a route. [FinOps]: [internal/costengine], [budgetengine],
      [breakevenengine], [routingscore], [recommendationengine]. [PolicyControllers],
      [PolicyProofs], [PolicyExample]: the sovereignty and budget reconcilers.
    ** How the model corresponds to the code

    A definition bears the Go name of the function it translates, or describes a
    part of one. A method of a mutable
    receiver takes the state and returns it with the values Go returns, so a call is
    one step and a run is a list of calls ([EngineInvariants.run]). A mutex or a
    serializable transaction is what makes a call one step; the scheduler's phases
    and the SQL retry loop, which other actors may interleave with, take the states
    of the others as arguments. A Go error is the [Err] of a [result], or [Some] of
    an [option error]; a panic is [None] (of an HTTP
    handler the answer of [net/http], which recovers it; of a transaction a rollback). An [int64] is a [Z] under [+i], [-i]; a Go
    map is a [gmap]; a slice is a list. What the code calls outside [src/] is a
    parameter: Ed25519, the Kubernetes API, the approximate value of a quantity, the
    order of a [range] over a map, token review, the HTTP transport of the
    external processor, the order in which PostgreSQL returns unordered rows. Each
    class of laws about a parameter has an instance that the witnesses use.

    ** What the theorems show

    - Ledger transitions: the books balance modulo 2^64, states follow one life
      cycle, what a settlement does to the tenant's exposure, cancellation, expiry.
    - In-memory engine, over all runs: no fault and a well-formedness invariant, the
      tenant's reserved micros are what its reservations hold (up to a leak that is
      exhibited), history is immutable, events apply once, tenants are isolated,
      admissions fit the budget, cohort risk stays in its grant, the sweep expires
      what is due; the engine refines an abstract ledger of accounts.
    - SQL engine, over every database that committed transactions reach, in any
      order, by any number of processes with clocks of their own: the sums the
      schema script checks at start-up balance (and which rows it refuses all the same),
      the engine refines the same abstract
      ledger as the in-memory one, a call takes effect at most once whatever becomes
      of its attempts, a recorded event sent again changes nothing, an admission
      leaves the budget non-negative, the sweep expires exactly what is due, the
      stored audit verifies.
    - Pricing, calibration, routes, policy: settlement within the reservation,
      conformal coverage, integrity of snapshots, the choice of the candidate.
    - Digests, chains and tokens: encodings are injective up to collisions of
      SHA-256, a chain verifies exactly what was appended, a token releases a key
      only to the pod it was minted for.
    - Service and external processor: a request is authenticated before it reaches
      the ledger, one HTTP request makes at most one authorized ledger call, the
      service refines the engine, a forwarded request is admitted and claimed, its
      output cap is the admitted one, and usage is reported exactly.
    - Policies: enforcement leads the traffic of a forbidden model to a compliant one
      or to the reserved backend, a budget reroutes only within its guardrails, and
      the controls on a route come off without a trace.
    - Placement and work queue: a pod is bound only to an attested node its policy
      accepts, work is done at least once and never by two owners.

    ** Bounds, fuel and simplifications

    [json_parse] has fuel twice the length of the text plus two and [raw_members]
    the length plus one: a round consumes a byte ([JsonDecode] proves it is enough).
    SHA-256 runs over its blocks. [sort.Slice] is an insertion sort: where the
    comparison leaves ties the code promises no order. [ToLower], [EqualFold] and
    JSON escapes are those of ASCII text. A nil slice is the empty list. The clock is read once per call, per
    SQL transaction, per reconcile and per handler. Reads of one phase or one call
    see one state of the Kubernetes API. [float64] arithmetic is rounded to nearest
    even, without signalling. A [json.RawMessage] that [Wire] re-encodes is the text
    of the encoder. In the external processor, sends to Envoy always succeed, trace
    headers are left out, and a verified peer is the list of its URIs.

    ** Not modelled

    Kubernetes and process glue: the reconcile loops of [internal/controller] other
    than those named above, [cmd/], flags, health and metrics endpoints, the
    goroutines of [Run], [Start] and [Shutdown] of the worker, and the mutating
    webhooks and sidecar ([internal/webhook/podinjector], [internal/webhook/
    bootstrap], [internal/sidecarproxy]), which are API calls, HTTP and pod
    templates. [pkg/attestation]: certificate chains and remote attestation services.
    Of the database, the schema script itself, the catalog reads of
    [validateRuntimeSchema] (their results are a record), the connection pool, the
    evidence tables of [calibration_evidence_postgres.go] and the queue statistics;
    concurrent transactions appear as aborted attempts and as the commits between
    them. [internal/govarobservability], [internal/metrics], [internal/collectors],
    [internal/reporting]: telemetry, HTTP queries, rendering. [internal/govarexperiment], [internal/thesisbench],
    [internal/qualityeval], [internal/qualityengine], [internal/qualitygate] and
    [pkg/qualitystats]: the offline experiments and their statistics.
    [zz_generated.deepcopy.go] is generated. *)

From Stdlib Require Import ZArith Lia Ascii String SpecFloat.
From stdpp Require Import base gmap strings list pretty sorting.


(** ** Results of fallible Go functions *)

(** A Go function returning [(T, error)]: the value, or the error's message. *)
Inductive result (A : Type) : Type :=
| Ok (a : A)
| Err (message : string).
Arguments Ok {A} a.
Arguments Err {A} message.

Definition error := string.

Definition is_ok {A} (r : result A) : bool :=
  match r with Ok _ => true | Err _ => false end.

Definition result_or {A} (d : A) (r : result A) : A :=
  match r with Ok a => a | Err _ => d end.

Definition res_bind {A B} (r : result A) (k : A -> result B) : result B :=
  match r with Ok a => k a | Err m => Err m end.

Declare Scope go_scope.
Delimit Scope go_scope with go.
Open Scope go_scope.

Notation "'let?' x ':=' r 'in' k" := (res_bind r (fun x => k))
  (at level 10, x pattern, k at level 200) : go_scope.
(** An early return: [if !(b) { return errors.New(m) }; k]. *)
Notation "'ensure' b 'orelse' m ';' k" := (if (b : bool) then k else Err m%string)
  (at level 10, b at level 100, m at level 0, k at level 200) : go_scope.

Lemma res_bind_ok {A B} (r : result A) (k : A -> result B) b :
  res_bind r k = Ok b -> exists a, r = Ok a /\ k a = Ok b.
Proof. destruct r; simpl; [eauto | discriminate]. Qed.

(** ** Record update

    [r <| f := v |>] is Go's [r.f = v]. A record declares its fields with an
    [Eta] instance; the setter of a field is found from it. *)

Class Eta (R : Type) : Type := eta_expand : R -> R.
Class Setter {R T : Type} (f : R -> T) : Type := set_with : (T -> T) -> R -> R.
Arguments set_with {R T} f {Setter} g r /.

Ltac solve_setter :=
  match goal with
  | |- @Setter ?R ?T ?f =>
    let inst := constr:(_ : Eta R) in
    let e := eval hnf in inst in
    exact (fun (g : T -> T) (r : R) =>
      ltac:(let body := eval cbv beta in (e r) in
            match body with
            | context C [f r] => let u := context C [g (f r)] in exact u
            end))
  end.
#[export] Hint Extern 0 (Setter _) => solve_setter : typeclass_instances.

Notation "r <| f := v |>" := (set_with f (fun _ => v) r)
  (at level 1, left associativity, f at level 9, v at level 200) : go_scope.

(** [upd] computes the fields of updated records in the goal, [upd_in H] in a
    hypothesis: the updated record stays opaque, so large structs stay small. *)
Ltac upd_step p R T f S g tac :=
  is_const p;
  let H := fresh in
  first [ assert (H : forall x, p (@set_with R T f S g x) = p x) by (intros; reflexivity)
        | assert (H : forall x, p (@set_with R T f S g x) = g (p x)) by (intros; reflexivity) ];
  tac H; clear H; cbv beta.
Ltac upd :=
  repeat match goal with
  | |- context [?p (@set_with ?R ?T ?f ?S ?g ?r)] => upd_step p R T f S g ltac:(fun H => rewrite !H)
  end.
Ltac upd_in H0 :=
  repeat match type of H0 with
  | context [?p (@set_with ?R ?T ?f ?S ?g ?r)] => upd_step p R T f S g ltac:(fun H => rewrite !H in H0)
  end.

(** ** Machine integers: Go's [int64] as [Z] with two's-complement wrap-around *)

Definition int64_modulus : Z := 18446744073709551616.
Definition max_int64 : Z := 9223372036854775807.
Definition min_int64 : Z := -9223372036854775808.

(** [IsInt64] of math/big, and the range of every [int64] value. *)
Definition is_int64 (z : Z) : bool := (min_int64 <=? z)%Z && (z <=? max_int64)%Z.
Definition in64 (z : Z) : Prop := (min_int64 <= z <= max_int64)%Z.

Definition wrap64 (z : Z) : Z := ((z - min_int64) mod int64_modulus + min_int64)%Z.
Definition add64 (a b : Z) : Z := wrap64 (a + b).
Definition sub64 (a b : Z) : Z := wrap64 (a - b).
Definition mul64 (a b : Z) : Z := wrap64 (a * b).

(** Two's-complement wrap-around at width 32, for Go's [int32]. *)
Definition wrap32 (z : Z) : Z := ((z + 2147483648) mod 4294967296 - 2147483648)%Z.

Infix "+i" := add64 (at level 50, left associativity) : go_scope.
Infix "-i" := sub64 (at level 50, left associativity) : go_scope.

(** Congruence modulo 2^64: the equivalence under which wrapping arithmetic is
    ordinary integer arithmetic. *)
Definition eqm64 (a b : Z) : Prop := exists k : Z, (a = b + k * int64_modulus)%Z.
Infix "≡64" := eqm64 (at level 70, no associativity) : go_scope.

#[export] Instance eqm64_equiv : Equivalence eqm64.
Proof.
  split.
  - intros a. exists 0%Z. lia.
  - intros a b [k H]. exists (- k)%Z. lia.
  - intros a b c [k H] [l H']. exists (k + l)%Z. lia.
Qed.

#[export] Instance eqm64_add : Proper (eqm64 ==> eqm64 ==> eqm64) Z.add.
Proof. intros a b [k H] c d [l H']. exists (k + l)%Z. lia. Qed.

#[export] Instance eqm64_sub : Proper (eqm64 ==> eqm64 ==> eqm64) Z.sub.
Proof. intros a b [k H] c d [l H']. exists (k - l)%Z. lia. Qed.

#[export] Instance eqm64_opp : Proper (eqm64 ==> eqm64) Z.opp.
Proof. intros a b [k H]. exists (- k)%Z. lia. Qed.

Lemma wrap64_eqm (z : Z) : wrap64 z ≡64 z.
Proof.
  unfold wrap64, eqm64.
  exists (- ((z - min_int64) / int64_modulus))%Z.
  pose proof (Z.div_mod (z - min_int64) int64_modulus ltac:(unfold int64_modulus; lia)).
  lia.
Qed.

Lemma wrap64_range (z : Z) : in64 (wrap64 z).
Proof.
  unfold wrap64, in64.
  pose proof (Z.mod_pos_bound (z - min_int64) int64_modulus ltac:(unfold int64_modulus; lia)).
  unfold min_int64, max_int64, int64_modulus in *. lia.
Qed.

Lemma wrap64_id (z : Z) : in64 z -> wrap64 z = z.
Proof.
  unfold wrap64, in64. intros H. rewrite Z.mod_small; [lia |].
  unfold min_int64, max_int64, int64_modulus in *. lia.
Qed.

Lemma add64_eqm (a b : Z) : a +i b ≡64 (a + b)%Z.
Proof. apply wrap64_eqm. Qed.

Lemma sub64_eqm (a b : Z) : a -i b ≡64 (a - b)%Z.
Proof. apply wrap64_eqm. Qed.

Lemma strip_add a a' b b' : a ≡64 a' -> b ≡64 b' -> (a + b)%Z ≡64 (a' + b')%Z.
Proof. intros H1 H2. exact (eqm64_add _ _ H1 _ _ H2). Qed.
Lemma strip_sub a a' b b' : a ≡64 a' -> b ≡64 b' -> (a - b)%Z ≡64 (a' - b')%Z.
Proof. intros H1 H2. exact (eqm64_sub _ _ H1 _ _ H2). Qed.
Lemma strip_add64 a a' b b' : a ≡64 a' -> b ≡64 b' -> a +i b ≡64 (a' + b')%Z.
Proof. intros. rewrite add64_eqm. by apply strip_add. Qed.
Lemma strip_sub64 a a' b b' : a ≡64 a' -> b ≡64 b' -> a -i b ≡64 (a' - b')%Z.
Proof. intros. rewrite sub64_eqm. by apply strip_sub. Qed.
Lemma eqm64_via a a' b b' : a ≡64 a' -> b ≡64 b' -> a' = b' -> a ≡64 b.
Proof. intros -> -> ->. reflexivity. Qed.

Lemma add64_id (a b : Z) : in64 (a + b) -> a +i b = (a + b)%Z.
Proof. apply wrap64_id. Qed.

Lemma sub64_id (a b : Z) : in64 (a - b) -> a -i b = (a - b)%Z.
Proof. apply wrap64_id. Qed.

Lemma mul64_id (a b : Z) : in64 (a * b) -> mul64 a b = (a * b)%Z.
Proof. apply wrap64_id. Qed.

Lemma eqm64_eq (a b : Z) : a = b -> a ≡64 b.
Proof. intros ->. reflexivity. Qed.

(** In the [int64] range, congruence is equality. *)
Lemma eqm64_in64 (a b : Z) : in64 a -> in64 b -> a ≡64 b -> a = b.
Proof. intros Ha Hb [k H]. unfold in64, min_int64, max_int64, int64_modulus in *. lia. Qed.

Lemma is_int64_spec (z : Z) : is_int64 z = true <-> in64 z.
Proof. unfold is_int64, in64. lia. Qed.

Create HintDb go discriminated.
Create Rewrite HintDb eqm.
#[export] Hint Resolve wrap64_range eqm64_eq : go.
#[export] Hint Rewrite add64_eqm sub64_eqm wrap64_eqm : eqm.

(** Discharges a congruence after the wrapped operations are turned into plain
    ones: the two sides differ by a linear identity. *)
Ltac eqm_strip :=
  lazymatch goal with
  | |- _ +i _ ≡64 _ => apply strip_add64; eqm_strip
  | |- _ -i _ ≡64 _ => apply strip_sub64; eqm_strip
  | |- (_ + _)%Z ≡64 _ => apply strip_add; eqm_strip
  | |- (_ - _)%Z ≡64 _ => apply strip_sub; eqm_strip
  | |- ?a ≡64 _ => exact (reflexivity (R:=eqm64) a)
  end.
Ltac eqm_lia :=
  eapply eqm64_via; [eqm_strip | eqm_strip | lia].

(** Linear arithmetic with divisions and remainders by constants. *)
Ltac div_lia := Z.to_euclidean_division_equations; lia.

(** Proves a property of an [if]/[match] cascade by splitting on every test. *)
Ltac split_tests :=
  repeat match goal with
  | |- context [if ?b then _ else _] => destruct b eqn:?
  | H : context [if ?b then _ else _] |- _ => destruct b eqn:?
  end.

(** [peel H] follows a hypothesis [H : code = outcome] one test further: the
    branches whose outcome differs are discarded. *)
Ltac absurd_outcome H :=
  lazymatch type of H with
  | Err _ = Ok _ => discriminate H
  | Ok _ = Err _ => discriminate H
  | inl _ = inr _ => discriminate H
  | inr _ = inl _ => discriminate H
  | None = Some _ => discriminate H
  | Some _ = None => discriminate H
  | true = false => discriminate H
  | false = true => discriminate H
  end.
Ltac peel H :=
  lazymatch type of H with
  | (if ?b then _ else _) = _ => let E := fresh "E" in destruct b eqn:E; try absurd_outcome H
  | match ?x with _ => _ end = _ => let E := fresh "E" in destruct x eqn:E; try absurd_outcome H
  end.
Ltac peel_all H := repeat (peel H).

(** Turns boolean tests of the code into propositions. *)
Ltac bool_to_prop :=
  repeat match goal with
  | H : (_ && _)%bool = true |- _ => apply andb_prop in H; destruct H
  | H : (_ || _)%bool = false |- _ => apply orb_false_elim in H; destruct H
  | H : negb _ = true |- _ => apply negb_true_iff in H
  | H : negb _ = false |- _ => apply negb_false_iff in H
  | H : String.eqb _ _ = true |- _ => apply String.eqb_eq in H
  | H : String.eqb _ _ = false |- _ => apply String.eqb_neq in H
  | H : Z.eqb _ _ = true |- _ => apply Z.eqb_eq in H
  | H : Z.eqb _ _ = false |- _ => apply Z.eqb_neq in H
  | H : Z.ltb _ _ = true |- _ => apply Z.ltb_lt in H
  | H : Z.ltb _ _ = false |- _ => apply Z.ltb_ge in H
  | H : Z.leb _ _ = true |- _ => apply Z.leb_le in H
  | H : Z.leb _ _ = false |- _ => apply Z.leb_gt in H
  end.

(** ** Go strings: byte sequences *)

Definition bytes_of (s : string) : list N := map N_of_ascii (list_ascii_of_string s).
Definition string_of_bytes (l : list N) : string := string_of_list_ascii (map ascii_of_N l).

(** UTF-8 encodings of the runes for which [unicode.IsSpace] holds. *)
Definition is_space_rune (s : list N) : bool :=
  match s with
  | [b] => ((9 <=? b) && (b <=? 13) || (b =? 32))%N
  | [194; b]%N => ((b =? 133) || (b =? 160))%N
  | [225; 154; 128]%N => true
  | [226; 128; b]%N => ((128 <=? b) && (b <=? 138) || (b =? 168) || (b =? 169) || (b =? 175))%N
  | [226; 129; 159]%N => true
  | [227; 128; 128]%N => true
  | _ => false
  end.

(** Drops leading spaces; [o] restores the byte order of a rune when the string
    is scanned from its end. *)
Fixpoint trim_from (o : list N -> list N) (l : list N) : list N :=
  match l with
  | [] => []
  | a :: l1 =>
    if is_space_rune [a] then trim_from o l1
    else match l1 with
         | [] => l
         | b :: l2 =>
           if is_space_rune (o [a; b]) then trim_from o l2
           else match l2 with
                | [] => l
                | c :: l3 => if is_space_rune (o [a; b; c]) then trim_from o l3 else l
                end
         end
  end.

(** [strings.TrimSpace]. *)
Definition TrimSpace (s : string) : string :=
  string_of_bytes (rev (trim_from (@rev N) (rev (trim_from id (bytes_of s))))).

Definition lower_byte (b : N) : N := (if (65 <=? b) && (b <=? 90) then b + 32 else b)%N.
Definition upper_byte (b : N) : N := (if (97 <=? b) && (b <=? 122) then b - 32 else b)%N.

(** [strings.ToLower], [strings.ToUpper] and [strings.EqualFold] on ASCII
    letters (bytes of multi-byte runes are left as they are). *)
Definition ToLower (s : string) : string := string_of_bytes (map lower_byte (bytes_of s)).
Definition ToUpper (s : string) : string := string_of_bytes (map upper_byte (bytes_of s)).
Definition EqualFold (a b : string) : bool := String.eqb (ToLower a) (ToLower b).

(** [strings.TrimSpace(s) == ""], the blank test of the validators. *)
Definition blank (s : string) : bool := String.eqb (TrimSpace s) "".

(** Go's [<] on strings: byte-wise lexicographic. *)
Definition string_ltb (a b : string) : bool :=
  match String.compare a b with Lt => true | _ => false end.

(** [fmt.Sprint] of an integer and of a boolean. *)
Definition sprint (z : Z) : string := pretty z.
Definition sprint_bool (b : bool) : string := if b then "true" else "false".

(** [strings.HasPrefix(s, p)]. *)
Definition HasPrefix (s p : string) : bool := String.prefix p s.

(** [strings.Join(parts, sep)]. *)
Definition Join (parts : list string) (sep : string) : string := String.concat sep parts.

(** [strings.Contains(s, sub)]. *)
Fixpoint Contains (s sub : string) : bool :=
  String.prefix sub s ||
  match s with EmptyString => false | String _ s' => Contains s' sub end.

(** A regexp [^[first][rest]*$] over ASCII classes. *)
Definition match_class (first rest : N -> bool) (s : string) : bool :=
  match bytes_of s with
  | [] => false
  | b :: l => first b && forallb rest l
  end.
Definition alnum (b : N) : bool :=
  ((48 <=? b) && (b <=? 57) || (65 <=? b) && (b <=? 90) || (97 <=? b) && (b <=? 122))%N.
Definition lower_hex (b : N) : bool := ((48 <=? b) && (b <=? 57) || (97 <=? b) && (b <=? 102))%N.

(** The lower-case SHA-256 encodings: [^[0-9a-f]{64}$] and the [isSHA256] loops. *)
Definition is_sha256 (s : string) : bool :=
  (String.length s =? 64)%nat && forallb lower_hex (bytes_of s).

(** ** Trimming is idempotent *)

Definition starts_with_space (o : list N -> list N) (l : list N) : bool :=
  match l with
  | [] => false
  | a :: l1 => is_space_rune [a] ||
    match l1 with
    | [] => false
    | b :: l2 => is_space_rune (o [a; b]) ||
      match l2 with [] => false | c :: _ => is_space_rune (o [a; b; c]) end
    end
  end.

Lemma trim_from_fix o l : starts_with_space o l = false -> trim_from o l = l.
Proof.
  destruct l as [|a [|b [|c l]]]; cbn [starts_with_space trim_from]; [done|..];
    repeat (match goal with |- context [is_space_rune ?r] => destruct (is_space_rune r) end); cbn [orb]; done.
Qed.

Lemma trim_from_spec o n : forall l, length l <= n ->
  starts_with_space o (trim_from o l) = false /\ exists pre, l = pre ++ trim_from o l.
Proof.
  induction n as [|n IH]; intros l Hl.
  { destruct l; simpl in *; [split; [done|by exists []] | lia]. }
  destruct (starts_with_space o l) eqn:Hs.
  2:{ rewrite trim_from_fix by done. split; [done | by exists []]. }
  destruct l as [|a l1]; [done|]. cbn [starts_with_space trim_from length orb] in Hs, Hl |- *.
  destruct (is_space_rune [a]) eqn:Ha.
  { destruct (IH l1) as [H1 [pre H2]]; [lia|]. split; [done|]. exists (a :: pre). simpl. congruence. }
  destruct l1 as [|b l2]; [done|]. cbn [starts_with_space trim_from length orb] in Hs, Hl |- *.
  destruct (is_space_rune (o [a; b])) eqn:Hb.
  { destruct (IH l2) as [H1 [pre H2]]; [lia|]. split; [done|]. exists (a :: b :: pre). simpl. congruence. }
  destruct l2 as [|c l3]; [done|]. cbn [starts_with_space trim_from length orb] in Hs, Hl |- *. rewrite Hs.
  destruct (IH l3) as [H1 [pre H2]]; [lia|]. split; [done|]. exists (a :: b :: c :: pre). simpl. congruence.
Qed.

Lemma starts_with_space_prefix p q :
  starts_with_space id (p ++ q) = false -> starts_with_space id p = false.
Proof.
  destruct p as [|a [|b [|c p]]]; cbn [starts_with_space app]; [done|..];
    repeat (match goal with |- context [is_space_rune ?r] => destruct (is_space_rune r) end); cbn [orb]; done.
Qed.

Lemma bytes_of_string_of_bytes l : Forall (fun b => b < 256)%N l -> bytes_of (string_of_bytes l) = l.
Proof.
  unfold bytes_of, string_of_bytes. rewrite list_ascii_of_string_of_list_ascii.
  induction 1 as [|b l Hb _ IH]; simpl; [done|]. by rewrite IH, N_ascii_embedding.
Qed.

Lemma bytes_of_bounded s : Forall (fun b => b < 256)%N (bytes_of s).
Proof.
  unfold bytes_of. apply Forall_forall. intros b Hb.
  apply list_elem_of_fmap in Hb as (c & -> & _). apply N_ascii_bounded.
Qed.

Lemma TrimSpace_idemp s : TrimSpace (TrimSpace s) = TrimSpace s.
Proof.
  unfold TrimSpace. destruct (trim_from_spec id _ (bytes_of s) (le_n _)) as [Hx [pre Hpre]].
  set (x := trim_from id (bytes_of s)) in *.
  destruct (trim_from_spec (@rev N) _ (rev x) (le_n _)) as [Hy [pre' Hpre']].
  set (y := trim_from (@rev N) (rev x)) in *.
  assert (Hsplit : x = rev y ++ rev pre').
  { rewrite <- (rev_involutive x), Hpre'. by rewrite rev_app_distr. }
  assert (Hb : Forall (fun b => b < 256)%N (rev y)).
  { pose proof (bytes_of_bounded s) as Hall. rewrite Hpre, Hsplit, !Forall_app in Hall. tauto. }
  rewrite bytes_of_string_of_bytes by done.
  rewrite (trim_from_fix id) by (apply starts_with_space_prefix with (rev pre'); by rewrite <- Hsplit).
  by rewrite rev_involutive, trim_from_fix.
Qed.

Lemma blank_TrimSpace s : blank (TrimSpace s) = blank s.
Proof. unfold blank. by rewrite TrimSpace_idemp. Qed.

(** ** Concatenation *)

Lemma string_app_cons c (x y : string) : String c x +:+ y = String c (x +:+ y).
Proof. reflexivity. Qed.
Lemma string_app_nil (y : string) : "" +:+ y = y.
Proof. reflexivity. Qed.

Lemma string_app_assoc (x y z : string) : (x +:+ y) +:+ z = x +:+ (y +:+ z).
Proof.
  induction x as [|c x IH]; [done|]. rewrite !string_app_cons. by f_equal.
Qed.
Lemma string_length_app (x y : string) :
  String.length (x +:+ y) = (String.length x + String.length y)%nat.
Proof.
  induction x as [|c x IH]; [done|]. rewrite string_app_cons. simpl. by f_equal.
Qed.

Lemma string_app_inj (a a' b b' : string) :
  String.length a = String.length a' -> a +:+ b = a' +:+ b' -> a = a' /\ b = b'.
Proof.
  revert a'. induction a as [|c a IH]; intros [|c' a']; simpl; try discriminate.
  - auto.
  - rewrite !string_app_cons. intros Hl Heq. injection Heq as -> Heq. injection Hl as Hl.
    destruct (IH a' Hl Heq) as [-> ->]. auto.
Qed.

(** ** Sorting: the insertion sort of [sort.Slice] *)

Section sort.
Context {A : Type} (less : A -> A -> bool).

(** Moves [x] left over the elements it is less than; the sorted prefix is kept
    in reverse. *)
Fixpoint insert_back (x : A) (prefix_rev : list A) : list A :=
  match prefix_rev with
  | [] => [x]
  | y :: rest => if less x y then y :: insert_back x rest else x :: y :: rest
  end.

Definition sort_slice (l : list A) : list A :=
  rev (fold_left (fun acc x => insert_back x acc) l []).

Lemma insert_back_perm x l : insert_back x l ≡ₚ x :: l.
Proof.
  induction l as [|y l IH]; simpl; [done|].
  destruct (less x y); [|done]. rewrite IH. constructor.
Qed.

Lemma insert_fold_perm l acc :
  fold_left (fun acc x => insert_back x acc) l acc ≡ₚ l ++ acc.
Proof.
  revert acc. induction l as [|x l IH]; intros acc; simpl; [done|].
  rewrite IH, insert_back_perm. symmetry. apply Permutation_middle.
Qed.

Lemma sort_slice_perm l : sort_slice l ≡ₚ l.
Proof.
  unfold sort_slice. rewrite <- Permutation_rev, insert_fold_perm. by rewrite app_nil_r.
Qed.

Lemma sort_slice_in l x : x ∈ sort_slice l <-> x ∈ l.
Proof. by rewrite sort_slice_perm. Qed.

Lemma sort_slice_length l : length (sort_slice l) = length l.
Proof. apply Permutation_length, sort_slice_perm. Qed.

(** With a comparison that is a strict weak order on the elements sorted, no
    element is less than one before it. *)
Section ordered.
Context (P : A -> Prop)
  (less_negtrans : forall x y z, P x -> P y -> P z ->
     less x y = false -> less y z = false -> less x z = false)
  (less_asym : forall x y, P x -> P y -> less x y = true -> less y x = false).

Lemma insert_back_sorted x l :
  P x -> Forall P l ->
  StronglySorted (fun a b => less a b = false) l ->
  StronglySorted (fun a b => less a b = false) (insert_back x l).
Proof.
  intros Px Pl Hs. induction Hs as [|y l Hs IH Hall]; simpl.
  { repeat constructor. }
  inversion Pl as [|? ? Py Pl']; subst.
  destruct (less x y) eqn:Hxy.
  - constructor; [by apply IH|].
    rewrite insert_back_perm. constructor; [by apply less_asym | done].
  - constructor; [by constructor|]. constructor; [done|].
    rewrite Forall_forall in *. intros z Hz.
    apply less_negtrans with y; auto.
Qed.

Lemma sort_slice_sorted l :
  Forall P l -> StronglySorted (fun a b => less b a = false) (sort_slice l).
Proof.
  intros Pl. unfold sort_slice.
  assert (Hgen : forall acc, Forall P acc ->
    StronglySorted (fun a b => less a b = false) acc ->
    StronglySorted (fun a b => less a b = false)
      (fold_left (fun acc x => insert_back x acc) l acc)).
  { induction Pl as [|x l Px Pl IH]; simpl; [done|].
    intros acc Pacc Hacc. apply IH.
    - rewrite insert_back_perm. by constructor.
    - by apply insert_back_sorted. }
  specialize (Hgen [] (Forall_nil_2 _) (SSorted_nil _)).
  revert Hgen. generalize (fold_left (fun acc x => insert_back x acc) l []).
  intros r Hr. induction Hr as [|x r Hr IH Hall]; simpl; [constructor|].
  clear -IH Hall. revert IH. generalize (rev r) (Permutation_rev r). intros q Hq.
  rewrite Hq in Hall. clear Hq. induction q as [|y q IHq]; simpl; intros Hs.
  { repeat constructor. }
  inversion Hs; subst. inversion Hall; subst. constructor; [by apply IHq|].
  apply Forall_app. split; [done|]. by constructor.
Qed.
End ordered.
End sort.

(** Sorting does not depend on the order of its input when the comparison
    separates the elements. *)
Lemma sort_slice_unique {A} (less : A -> A -> bool) (l l' : list A) :
  (forall x y z, less x y = false -> less y z = false -> less x z = false) ->
  (forall x y, less x y = true -> less y x = false) ->
  (forall x y, x ∈ l -> y ∈ l -> less x y = false -> less y x = false -> x = y) ->
  l ≡ₚ l' -> sort_slice less l = sort_slice less l'.
Proof.
  intros Hneg Hasym Hanti Hp.
  apply (StronglySorted_unique_strong (fun a b => less b a = false)).
  - intros x y Hx Hy H1 H2. rewrite sort_slice_perm in Hx. rewrite sort_slice_perm, <- Hp in Hy. eauto.
  - apply (sort_slice_sorted less (fun _ => True)); eauto. by apply Forall_true.
  - apply (sort_slice_sorted less (fun _ => True)); eauto. by apply Forall_true.
  - by rewrite !sort_slice_perm.
Qed.

(** A list already in order is the result of sorting it. *)
Lemma sort_slice_id {A} (less : A -> A -> bool) (l : list A) :
  StronglySorted (fun a b => less b a = false) l -> sort_slice less l = l.
Proof.
  intros Hs.
  assert (Hgen : forall acc, (forall x y, x ∈ l -> y ∈ acc -> less x y = false) ->
            fold_left (fun acc x => insert_back less x acc) l acc = rev l ++ acc).
  { induction Hs as [|x l Hs IH Hall]; intros acc Hacc; [done|]. cbn [fold_left rev].
    assert (Hx : insert_back less x acc = x :: acc).
    { destruct acc as [|y acc]; [done|]. cbn [insert_back]. by rewrite (Hacc x y) by (by left). }
    rewrite Hx, IH, <- (app_assoc (rev l)); [done|].
    intros z y Hz [->|Hy]%elem_of_cons; [|apply Hacc; [by right | done]].
    rewrite Forall_forall in Hall. by apply Hall. }
  unfold sort_slice. rewrite Hgen, app_nil_r, rev_involutive; [done|]. intros x y _ Hy. by apply elem_of_nil in Hy.
Qed.

(** ** The order of strings *)

Lemma string_compare_cons c d s t :
  String.compare (String c s) (String d t) =
  match N.compare (N_of_ascii c) (N_of_ascii d) with Eq => String.compare s t | r => r end.
Proof. reflexivity. Qed.

Lemma string_ltb_cons c d s t :
  string_ltb (String c s) (String d t) =
  ((N_of_ascii c <? N_of_ascii d)%N || ((N_of_ascii c =? N_of_ascii d)%N && string_ltb s t))%bool.
Proof.
  unfold string_ltb. rewrite string_compare_cons.
  destruct (N.compare_spec (N_of_ascii c) (N_of_ascii d)) as [H|H|H];
    destruct (N.ltb_spec (N_of_ascii c) (N_of_ascii d)), (N.eqb_spec (N_of_ascii c) (N_of_ascii d));
    try lia; done.
Qed.

Ltac compare_bytes :=
  repeat match goal with
  | |- context [N.ltb ?a ?b] => destruct (N.ltb_spec a b)
  | |- context [N.eqb ?a ?b] => destruct (N.eqb_spec a b)
  end; cbn [orb andb]; try lia; try done.

Lemma string_ltb_asym s t : string_ltb s t = true -> string_ltb t s = false.
Proof.
  revert t. induction s as [|c s IH]; intros [|d t]; try done.
  rewrite !string_ltb_cons. specialize (IH t). compare_bytes; auto.
Qed.

Lemma string_ltb_negtrans s t u : string_ltb s t = false -> string_ltb t u = false -> string_ltb s u = false.
Proof.
  revert t u. induction s as [|c s IH]; intros [|d t] [|e u]; try done.
  rewrite !string_ltb_cons. specialize (IH t u). compare_bytes; auto.
Qed.

Lemma string_ltb_total s t : string_ltb s t = false -> string_ltb t s = false -> s = t.
Proof.
  revert t. induction s as [|c s IH]; intros [|d t]; try done.
  rewrite !string_ltb_cons. specialize (IH t). compare_bytes. intros H1 H2.
  assert (Hc : N_of_ascii c = N_of_ascii d) by lia.
  apply (f_equal ascii_of_N) in Hc. rewrite !ascii_N_embedding in Hc. subst d. f_equal. auto.
Qed.

(** ** Numerals *)

(** The characters of an integer in base ten. *)
Definition numeral (c : ascii) : bool := Ascii.eqb c "-" || (48 <=? N_of_ascii c)%N && (N_of_ascii c <=? 57)%N.

Lemma sprint_numeral z : Forall (fun c => numeral c = true) (list_ascii_of_string (sprint z)).
Proof.
  assert (Hd : forall n, numeral (pretty_N_char n) = true) by (intros n; unfold pretty_N_char; by repeat case_match).
  assert (Hgo : forall n s, Forall (fun c => numeral c = true) (list_ascii_of_string s) ->
            Forall (fun c => numeral c = true) (list_ascii_of_string (pretty_N_go n s))).
  { intros n. induction (N.lt_wf_0 n) as [n _ IH]. intros s Hs. destruct (decide (n = 0)%N) as [->|Hn]; [done|].
    rewrite pretty_N_go_step by lia. apply IH; [apply N.div_lt; lia|]. cbn. by constructor. }
  assert (Hn : forall n : N, Forall (fun c => numeral c = true) (list_ascii_of_string (pretty (n : N)))).
  { intros n. unfold pretty, pretty_N. destruct (decide _); [by repeat constructor | by apply Hgo]. }
  unfold sprint, pretty, pretty_Z. destruct z as [|p|p]; [by repeat constructor | apply Hn|].
  cbn. constructor; [done | apply Hn].
Qed.

(** Two texts over a class of characters, each followed by one outside it. *)
Lemma split_first (P : ascii -> bool) a : forall b x y c d,
  Forall (fun c => P c = true) (list_ascii_of_string a) -> Forall (fun c => P c = true) (list_ascii_of_string b) ->
  P c = false -> P d = false -> a +:+ String c x = b +:+ String d y -> a = b /\ String c x = String d y.
Proof.
  induction a as [|e a IH]; intros [|f b] x y c d; cbn [list_ascii_of_string]; intros Ha Hb Hc Hd E; rewrite ?string_app_cons in E.
  - done.
  - injection E as -> E. apply Forall_cons in Hb as [Hb _]. congruence.
  - injection E as -> E. apply Forall_cons in Ha as [Ha _]. congruence.
  - injection E as -> E. apply Forall_cons in Ha as [_ Ha], Hb as [_ Hb]. by destruct (IH b x y c d Ha Hb Hc Hd E) as [-> ->].
Qed.

(** ** Sums over lists *)

Definition zsum (l : list Z) : Z := foldr Z.add 0%Z l.

Lemma zsum_cons x l : zsum (x :: l) = (x + zsum l)%Z.
Proof. reflexivity. Qed.

Lemma zsum_app l l' : zsum (l ++ l') = (zsum l + zsum l')%Z.
Proof. induction l as [|x l IH]; [done|]. cbn [app]. rewrite !zsum_cons. lia. Qed.

Lemma zsum_perm l l' : l ≡ₚ l' -> zsum l = zsum l'.
Proof. induction 1; rewrite ?zsum_cons; lia. Qed.

Lemma zsum_nonneg l : Forall (fun m => 0 <= m)%Z l -> (0 <= zsum l)%Z.
Proof. induction 1 as [|m l Hm _ IH]; [done|]. rewrite zsum_cons. lia. Qed.

(** Elements matched one to one by key, each at most its match, sum to at most
    the matches' sum. *)
Lemma zsum_le_by_key {A B} (ka : A -> string) (kb : B -> string) (f : A -> Z) (g : B -> Z)
    (la : list A) : forall lb : list B,
  NoDup (map ka la) -> Forall (fun b => 0 <= g b)%Z lb ->
  (forall a, a ∈ la -> exists b, b ∈ lb /\ kb b = ka a /\ (f a <= g b)%Z) ->
  (zsum (map f la) <= zsum (map g lb))%Z.
Proof.
  induction la as [|a la IH]; intros lb Hnd Hg Hmatch.
  { apply zsum_nonneg. by apply Forall_map. }
  destruct (Hmatch a (list_elem_of_here _ _)) as (b & Hb & Hk & Hle).
  apply elem_of_Permutation in Hb as [lb' Hperm].
  rewrite (zsum_perm (map g lb) (map g (b :: lb'))) by (by apply Permutation_map).
  cbn [map] in Hnd |- *. inversion Hnd as [|? ? Hna Hnd']; subst.
  rewrite Hperm in Hg. inversion Hg; subst. rewrite !zsum_cons.
  enough (zsum (map f la) <= zsum (map g lb'))%Z by lia.
  apply IH; [done..|]. intros a' Ha'.
  destruct (Hmatch a' (list_elem_of_further _ _ _ Ha')) as (b' & Hb' & Hk' & Hle').
  exists b'. split; [|done]. rewrite Hperm in Hb'. apply elem_of_cons in Hb' as [->|]; [|done].
  exfalso. apply Hna. rewrite <- Hk, Hk'. by apply (list_elem_of_fmap_2 ka).
Qed.

(** ** Sums over finite maps *)

Definition map_sum {V} (f : V -> Z) (m : gmap string V) : Z :=
  map_fold (fun _ v acc => (f v + acc)%Z) 0%Z m.

Section map_sum.
Context {V : Type} (f : V -> Z).
Implicit Types m : gmap string V.

Lemma map_sum_empty : map_sum f ∅ = 0%Z.
Proof. reflexivity. Qed.

Lemma map_sum_insert_new m k v :
  m !! k = None -> map_sum f (<[k:=v]> m) = (f v + map_sum f m)%Z.
Proof.
  intros H. unfold map_sum.
  apply (map_fold_insert_L (fun _ v acc => (f v + acc)%Z)); [|done].
  intros. lia.
Qed.

Lemma map_sum_delete m k v :
  m !! k = Some v -> map_sum f m = (f v + map_sum f (delete k m))%Z.
Proof.
  intros H. rewrite <- (insert_delete_id m k v H) at 1.
  apply map_sum_insert_new, lookup_delete_eq.
Qed.

Lemma map_sum_insert m k old v :
  m !! k = Some old ->
  map_sum f (<[k:=v]> m) = (map_sum f m - f old + f v)%Z.
Proof.
  intros H. rewrite <- insert_delete_eq, map_sum_insert_new by apply lookup_delete_eq.
  rewrite (map_sum_delete m k old H). lia.
Qed.

Lemma map_sum_fmap (g : V -> V) m : map_sum f (g <$> m) = map_sum (fun v => f (g v)) m.
Proof. unfold map_sum. by rewrite map_fold_fmap. Qed.
End map_sum.

Lemma map_sum_ext {V} (f g : V -> Z) (m : gmap string V) :
  (forall k v, m !! k = Some v -> f v = g v) -> map_sum f m = map_sum g m.
Proof.
  induction m as [|k v m Hk IH] using map_ind; intros H; [done|].
  rewrite !map_sum_insert_new by done. f_equal.
  - apply (H k). apply lookup_insert_eq.
  - apply IH. intros k' v' H'. apply (H k'). rewrite lookup_insert_ne; [done|].
    intros ->. congruence.
Qed.

Lemma map_sum_add {V} (f g : V -> Z) (m : gmap string V) :
  map_sum (fun v => (f v + g v)%Z) m = (map_sum f m + map_sum g m)%Z.
Proof.
  induction m as [|k v m Hk IH] using map_ind; [done|].
  rewrite !map_sum_insert_new by done. lia.
Qed.

(** Sums modulo 2^64, as a loop over a map accumulates them. *)
Lemma map_sum_eqm64 {V} (f g : V -> Z) (m : gmap string V) :
  (forall k v, m !! k = Some v -> f v ≡64 g v) -> map_sum f m ≡64 map_sum g m.
Proof.
  induction m as [|k v m Hk IH] using map_ind; intros H; [done|].
  rewrite !map_sum_insert_new by done. apply eqm64_add.
  - apply (H k). apply lookup_insert_eq.
  - apply IH. intros k' v' H'. apply (H k'). rewrite lookup_insert_ne; [done|].
    intros ->. congruence.
Qed.

Lemma map_fold_add64 {V} (P : V -> bool) (f : V -> Z) (b : Z) (m : gmap string V) :
  map_fold (fun _ v acc => if P v then add64 acc (f v) else acc) b m
    ≡64 (b + map_sum (fun v => if P v then f v else 0%Z) m)%Z.
Proof.
  apply (map_fold_weak_ind (fun r m => r ≡64 (b + map_sum (fun v => if P v then f v else 0%Z) m)%Z)).
  - rewrite map_sum_empty. apply eqm64_eq. lia.
  - intros k v m' r Hk IH. rewrite map_sum_insert_new by done. destruct (P v).
    + eapply eqm64_via; [apply strip_add64; [exact IH | reflexivity] | reflexivity | lia].
    + eapply eqm64_via; [exact IH | reflexivity | lia].
Qed.
