(* ===== verification/Float64.v ===== *)
(** * Go's [float64]

    IEEE 754 binary64 with rounding to nearest even, by the operations of the
    Standard Library's [SpecFloat], one after the other as on amd64; [Sqrt],
    [Floor] and [Ceil] of [math] are exact, and a conversion to an integer
    truncates. *)

From Stdlib Require Import ZArith Lia SpecFloat.
From S2P Require Import Prelude.

Open Scope Z_scope.

Module Float.
Definition prec : Z := 53.
Definition emax : Z := 1024.
Definition of_Z (z : Z) : spec_float := binary_normalize prec emax z 0 false.
Definition add := SFadd prec emax.
Definition sub := SFsub prec emax.
Definition mul := SFmul prec emax.
Definition div := SFdiv prec emax.
Definition sqrt := SFsqrt prec emax.
Definition max (a b : spec_float) : spec_float := if SFltb a b then b else a.
Definition min (a b : spec_float) : spec_float := if SFltb b a then b else a.
(** [int64(math.Floor(x))] and [int64(math.Ceil(x))] of a finite value. *)
Definition floor (x : spec_float) : Z :=
  match x with
  | S754_finite s m e =>
    let v := if s then Z.neg m else Z.pos m in
    if 0 <=? e then Z.shiftl v e else v / 2 ^ (- e)
  | _ => 0
  end.
Definition ceil (x : spec_float) : Z := - floor (SFopp x).
(** [int(x)] of a finite value: truncated toward zero. *)
Definition trunc (x : spec_float) : Z :=
  match x with
  | S754_finite s m e =>
    let v := if s then Z.neg m else Z.pos m in
    if 0 <=? e then Z.shiftl v e else Z.quot v (2 ^ (- e))
  | _ => 0
  end.

(** *** The order of the values that are not NaN *)

(** A key whose lexicographic order is the order of the values. *)
Definition key (x : spec_float) : Z * Z * Z :=
  match x with
  | S754_infinity true => (-2, 0, 0)
  | S754_finite true m e => (-1, - e, - Z.pos m)
  | S754_zero _ | S754_nan => (0, 0, 0)
  | S754_finite false m e => (1, e, Z.pos m)
  | S754_infinity false => (2, 0, 0)
  end.
Definition key_compare (a b : Z * Z * Z) : comparison :=
  let '(a1, a2, a3) := a in
  let '(b1, b2, b3) := b in
  match a1 ?= b1 with
  | Eq => match a2 ?= b2 with Eq => a3 ?= b3 | c => c end
  | c => c
  end.

Lemma compare_key a b : a <> S754_nan -> b <> S754_nan -> SFcompare a b = Some (key_compare (key a) (key b)).
Proof.
  intros Ha Hb. destruct a as [sa|[|]| |[|] ma ea], b as [sb|[|]| |[|] mb eb]; try (exfalso; congruence);
    unfold SFcompare, key_compare, key; cbn [Z.compare Pos.compare Pos.compare_cont]; try reflexivity; try (now destruct sa); try (now destruct sb).
  - rewrite Z.compare_opp, (Z.compare_antisym ea eb). destruct (ea ?= eb); reflexivity.
Qed.

Lemma key_compare_lt a b : key_compare a b = Lt <->
  fst (fst a) < fst (fst b) \/ fst (fst a) = fst (fst b) /\ (snd (fst a) < snd (fst b) \/ snd (fst a) = snd (fst b) /\ snd a < snd b).
Proof.
  destruct a as [[a1 a2] a3], b as [[b1 b2] b3]. cbn [fst snd key_compare].
  destruct (Z.compare_spec a1 b1); [|split; [intros _; lia | reflexivity] | split; [discriminate | lia]].
  destruct (Z.compare_spec a2 b2); [|split; [intros _; lia | reflexivity] | split; [discriminate | lia]].
  destruct (Z.compare_spec a3 b3); split; (discriminate || reflexivity || lia).
Qed.
Lemma key_compare_eq a b : key_compare a b = Eq <-> a = b.
Proof.
  destruct a as [[a1 a2] a3], b as [[b1 b2] b3]. cbn [key_compare].
  destruct (Z.compare_spec a1 b1); [|split; [discriminate | intros [= -> -> ->]; lia]..].
  destruct (Z.compare_spec a2 b2); [|split; [discriminate | intros [= -> -> ->]; lia]..].
  destruct (Z.compare_spec a3 b3); [subst; split; reflexivity | split; [discriminate | intros [= -> -> ->]; lia]..].
Qed.
Lemma key_compare_antisym a b : key_compare b a = CompOpp (key_compare a b).
Proof.
  destruct a as [[a1 a2] a3], b as [[b1 b2] b3]. cbn [key_compare].
  rewrite (Z.compare_antisym a1 b1), (Z.compare_antisym a2 b2), (Z.compare_antisym a3 b3).
  now destruct (a1 ?= b1), (a2 ?= b2).
Qed.
(** From [a] to [b] to [c], neither of which goes down. *)
Lemma key_compare_trans a b c : key_compare a b <> Lt -> key_compare b c <> Lt ->
  key_compare a c = match key_compare a b with Eq => key_compare b c | o => o end.
Proof.
  destruct (key_compare a b) eqn:E1.
  - apply key_compare_eq in E1 as ->. reflexivity.
  - now intros [].
  - intros _ Hbc. destruct (key_compare b c) eqn:E2; [apply key_compare_eq in E2 as <-; exact E1 | now destruct Hbc |].
    rewrite key_compare_antisym in E1, E2 |- *.
    assert (Ha : key_compare b a = Lt) by now destruct (key_compare b a).
    assert (Hb : key_compare c b = Lt) by now destruct (key_compare c b).
    assert (Hc : key_compare c a = Lt) by (rewrite key_compare_lt in *; lia). now rewrite Hc.
Qed.
End Float.
