(* ===== verification/Digest.v ===== *)
(** * Digests: crypto/sha256, crypto/hmac and the platform's field hashes

    SHA-256 and HMAC-SHA-256 over byte strings, their lower-case hexadecimal
    form, and the two record encodings hashed by the platform:
    [eventPayloadHash] (NUL-prefixed parts, internal/govar/engine.go) and
    [fixedHash]/[fixedFieldHash]/[hashFields] (length-prefixed parts,
    internal/govarpricing, internal/govar, internal/govaraudit).

    The ledger, pricing and audit components are written against the class
    [Crypto]; [go_crypto] is the instance made of the concrete functions below.
    Theorems about digests therefore hold for any hash function, and name an
    explicit collision instead of assuming that there is none. *)

From Stdlib Require Import ZArith Lia Ascii String.
From stdpp Require Import base strings list pretty.
From S2P Require Import Prelude.
Open Scope N_scope.

(** ** SHA-256 (FIPS 180-4) on lists of bytes *)
Module Sha256.
Definition mask : N := 4294967295.
Definition add32 (a b : N) : N := N.land (a + b) mask.
Definition rotr (n x : N) : N :=
  N.lor (N.shiftr x n) (N.land (N.shiftl x (32 - n)) mask).

Definition K : list N :=
  [1116352408; 1899447441; 3049323471; 3921009573; 961987163; 1508970993; 2453635748; 2870763221;
   3624381080; 310598401; 607225278; 1426881987; 1925078388; 2162078206; 2614888103; 3248222580;
   3835390401; 4022224774; 264347078; 604807628; 770255983; 1249150122; 1555081692; 1996064986;
   2554220882; 2821834349; 2952996808; 3210313671; 3336571891; 3584528711; 113926993; 338241895;
   666307205; 773529912; 1294757372; 1396182291; 1695183700; 1986661051; 2177026350; 2456956037;
   2730485921; 2820302411; 3259730800; 3345764771; 3516065817; 3600352804; 4094571909; 275423344;
   430227734; 506948616; 659060556; 883997877; 958139571; 1322822218; 1537002063; 1747873779;
   1955562222; 2024104815; 2227730452; 2361852424; 2428436474; 2756734187; 3204031479; 3329325298].

Definition H0 : list N :=
  [1779033703; 3144134277; 1013904242; 2773480762; 1359893119; 2600822924; 528734635; 1541459225].

Definition sigma0 x := N.lxor (rotr 7 x) (N.lxor (rotr 18 x) (N.shiftr x 3)).
Definition sigma1 x := N.lxor (rotr 17 x) (N.lxor (rotr 19 x) (N.shiftr x 10)).
Definition Sigma0 x := N.lxor (rotr 2 x) (N.lxor (rotr 13 x) (rotr 22 x)).
Definition Sigma1 x := N.lxor (rotr 6 x) (N.lxor (rotr 11 x) (rotr 25 x)).
Definition Ch x y z := N.lxor (N.land x y) (N.land (N.lxor x mask) z).
Definition Maj x y z := N.lxor (N.land x y) (N.lxor (N.land x z) (N.land y z)).

(** The message schedule: the sixteen last words, oldest first. *)
Fixpoint schedule (n : nat) (w : list N) : list N :=
  match n with
  | O => []
  | S n' =>
    match w with
    | w0 :: w1 :: w2 :: w3 :: w4 :: w5 :: w6 :: w7 ::
      w8 :: w9 :: w10 :: w11 :: w12 :: w13 :: w14 :: w15 :: _ =>
      let next := add32 (add32 (sigma1 w14) w9) (add32 (sigma0 w1) w0) in
      w0 :: schedule n' [w1; w2; w3; w4; w5; w6; w7; w8; w9; w10; w11; w12; w13; w14; w15; next]
    | _ => []
    end
  end.

Fixpoint rounds (ks ws : list N) (a b c d e f g h : N) : list N :=
  match ks, ws with
  | k :: ks', w :: ws' =>
    let t1 := add32 (add32 (add32 h (Sigma1 e)) (add32 (Ch e f g) k)) w in
    let t2 := add32 (Sigma0 a) (Maj a b c) in
    rounds ks' ws' (add32 t1 t2) a b c (add32 d t1) e f g
  | _, _ => [a; b; c; d; e; f; g; h]
  end.

Definition compress (st block : list N) : list N :=
  match st with
  | [a; b; c; d; e; f; g; h] =>
    zip_with add32 st (rounds K (schedule 64 block) a b c d e f g h)
  | _ => st
  end.

Fixpoint words (l : list N) : list N :=
  match l with
  | a :: b :: c :: d :: r => (a * 16777216 + b * 65536 + c * 256 + d) :: words r
  | _ => []
  end.

Fixpoint blocks (n : nat) (st ws : list N) : list N :=
  match n with
  | O => st
  | S n' => blocks n' (compress st (take 16 ws)) (drop 16 ws)
  end.

(** [x] as [n] bytes, most significant first. *)
Fixpoint be_bytes (n : nat) (x : N) : list N :=
  match n with
  | O => []
  | S n' => be_bytes n' (N.shiftr x 8) ++ [N.land x 255]
  end.

Definition pad (msg : list N) : list N :=
  let n := length msg in
  let zeros := ((119 - n mod 64) mod 64)%nat in
  msg ++ [128] ++ replicate zeros 0 ++ be_bytes 8 (8 * N.of_nat n).

Definition sum256 (msg : list N) : list N :=
  let p := pad msg in
  mjoin (map (be_bytes 4) (blocks (length p / 64) H0 (words p))).
End Sha256.

(** ** HMAC (RFC 2104) with the SHA-256 block size *)
Definition hmac_sum256 (key msg : list N) : list N :=
  let k0 := if (64 <? length key)%nat then Sha256.sum256 key else key in
  let k := k0 ++ replicate (64 - length k0) 0 in
  Sha256.sum256 (map (N.lxor 92) k ++ Sha256.sum256 (map (N.lxor 54) k ++ msg)).

(** ** Hexadecimal *)
Definition hex_digit (n : N) : ascii := ascii_of_N (if n <? 10 then 48 + n else 87 + n).
Fixpoint hex_encode (l : list N) : string :=
  match l with
  | [] => ""
  | b :: r => String (hex_digit (N.shiftr b 4)) (String (hex_digit (N.land b 15)) (hex_encode r))
  end.

(** The hash functions a component is given: hexadecimal digests of byte strings. *)
Class Crypto : Type := {
  sha256_hex : string -> string;
  hmac_sha256_hex : string -> string -> string
}.

Definition go_crypto : Crypto := {|
  sha256_hex := fun s => hex_encode (Sha256.sum256 (bytes_of s));
  hmac_sha256_hex := fun key s => hex_encode (hmac_sum256 (bytes_of key) (bytes_of s))
|}.

(** The test vectors of FIPS 180-4 and RFC 4231. *)
Example sha256_abc :
  @sha256_hex go_crypto "abc" = "ba7816bf8f01cfea414140de5dae2223b00361a396177a9cb410ff61f20015ad".
Proof. vm_compute. reflexivity. Qed.
Example sha256_two_blocks :
  @sha256_hex go_crypto "abcdbcdecdefdefgefghfghighijhijkijkljklmklmnlmnomnopnopq"
  = "248d6a61d20638b8e5c026930c3e6039a33ce45964ff2167f6ecedd419db06c1".
Proof. vm_compute. reflexivity. Qed.
Example hmac_jefe :
  @hmac_sha256_hex go_crypto "Jefe" "what do ya want for nothing?"
  = "5bdcc146bf60754e6a042426089575c75a003f089d2739839dec58b964ec3843".
Proof. vm_compute. reflexivity. Qed.

(** ** Record encodings *)

(** The byte stream of [eventPayloadHash]: a NUL byte before every part. *)
Definition nul_stream (parts : list string) : string :=
  String.concat "" (map (fun part => String zero part) parts).

(** [binary.BigEndian.PutUint64(length, len(part))] before every part. *)
Definition put_uint64 (n : nat) : string := string_of_bytes (Sha256.be_bytes 8 (N.of_nat n)).
Definition length_stream (parts : list string) : string :=
  String.concat "" (map (fun part => (put_uint64 (String.length part) +:+ part)) parts).

Section hashes.
Context `{Crypto}.

Definition eventPayloadHash (parts : list string) : string := sha256_hex (nul_stream parts).

(** [govarpricing.fixedHash], [govar.fixedFieldHash] and [govaraudit.hashFields]
    are the same function. *)
Definition fixedHash (parts : list string) : string := sha256_hex (length_stream parts).

(** [authorityMAC(key, domain, parts...)]. *)
Definition authorityMAC (key domain : string) (parts : list string) : string :=
  hmac_sha256_hex key (domain +:+ nul_stream parts).

(** Two different inputs of SHA-256 with the same digest. *)
Definition sha256_collision : Prop := exists x y, x <> y /\ sha256_hex x = sha256_hex y.
End hashes.

(** ** Injectivity of the encodings *)

Lemma concat_cons (x : string) (l : list string) :
  String.concat "" (x :: l) = x +:+ String.concat "" l.
Proof.
  destruct l as [|y l]; simpl; [|done].
  induction x as [|c x IH]; [done|]. rewrite string_app_cons. by f_equal.
Qed.

Lemma string_of_bytes_length (l : list N) : String.length (string_of_bytes l) = length l.
Proof. unfold string_of_bytes. induction l; simpl; [done | by f_equal]. Qed.

Lemma be_bytes_length n x : length (Sha256.be_bytes n x) = n.
Proof.
  revert x. induction n; intros x; simpl; [done|].
  rewrite length_app, IHn. simpl. lia.
Qed.

Lemma string_of_bytes_inj (l l' : list N) :
  Forall (fun b => b < 256) l -> Forall (fun b => b < 256) l' ->
  string_of_bytes l = string_of_bytes l' -> l = l'.
Proof.
  intros Hl. revert l'. induction Hl as [|b l Hb Hl IH]; intros l' Hl'; destruct Hl' as [|b' l' Hb' Hl'];
    unfold string_of_bytes in *; simpl; try discriminate; [done|].
  intros Heq. injection Heq as Hc Hs.
  f_equal; [|by apply IH].
  apply (f_equal N_of_ascii) in Hc. rewrite !N_ascii_embedding in Hc; done.
Qed.

Lemma be_bytes_bounded n x : Forall (fun b => b < 256) (Sha256.be_bytes n x).
Proof.
  revert x. induction n; intros x; simpl; [constructor|].
  apply Forall_app. split; [done|]. constructor; [|constructor].
  change 255 with (N.ones 8). rewrite N.land_ones. by apply N.mod_lt.
Qed.

Lemma be_bytes_inj n x y :
  x < 256 ^ N.of_nat n -> y < 256 ^ N.of_nat n ->
  Sha256.be_bytes n x = Sha256.be_bytes n y -> x = y.
Proof.
  revert x y. induction n; intros x y Hx Hy Heq.
  { simpl in *. lia. }
  simpl in Heq. apply app_inj_tail in Heq as [Hhi Hlo].
  rewrite Nat2N.inj_succ, N.pow_succ_r' in Hx, Hy.
  change 255 with (N.ones 8) in Hlo. rewrite !N.land_ones in Hlo.
  apply IHn in Hhi; rewrite !N.shiftr_div_pow2 in *; change (2 ^ 8) with 256 in *.
  - rewrite (N.div_mod x 256), (N.div_mod y 256) by lia. congruence.
  - apply N.Div0.div_lt_upper_bound; lia.
  - apply N.Div0.div_lt_upper_bound; lia.
Qed.

Lemma put_uint64_length n : String.length (put_uint64 n) = 8%nat.
Proof. unfold put_uint64. by rewrite string_of_bytes_length, be_bytes_length. Qed.

(** The length of a Go string fits in 64 bits. *)
Definition go_length (s : string) : Prop := N.of_nat (String.length s) < 2 ^ 64.

Lemma put_uint64_inj n m :
  N.of_nat n < 2 ^ 64 -> N.of_nat m < 2 ^ 64 -> put_uint64 n = put_uint64 m -> n = m.
Proof.
  intros Hn Hm Heq. unfold put_uint64 in Heq.
  apply string_of_bytes_inj in Heq; [|apply be_bytes_bounded..].
  apply be_bytes_inj in Heq; [lia|..]; change (256 ^ N.of_nat 8) with (2 ^ 64); done.
Qed.

Lemma length_stream_cons p ps :
  length_stream (p :: ps) = put_uint64 (String.length p) +:+ (p +:+ length_stream ps).
Proof. unfold length_stream. cbn [map]. by rewrite concat_cons, string_app_assoc. Qed.

(** Length prefixes make the stream of a list of parts unambiguous. *)
Lemma length_stream_inj (ps qs : list string) :
  Forall go_length ps -> Forall go_length qs ->
  length_stream ps = length_stream qs -> ps = qs.
Proof.
  intros Hp. revert qs.
  induction Hp as [|p ps Hlp Hp IH]; intros qs Hq; destruct Hq as [|q qs Hlq Hq];
    rewrite ?length_stream_cons; intros Heq; [done|..].
  - apply (f_equal String.length) in Heq.
    rewrite !string_length_app, put_uint64_length in Heq. discriminate.
  - apply (f_equal String.length) in Heq.
    rewrite !string_length_app, put_uint64_length in Heq. discriminate.
  - apply string_app_inj in Heq as [Hlen Heq]; [|by rewrite !put_uint64_length].
    apply put_uint64_inj in Hlen; [|done..].
    apply string_app_inj in Heq as [-> Heq]; [|done].
    f_equal. by apply IH.
Qed.

Definition no_nul (s : string) : Prop := Forall (fun c => c <> zero) (list_ascii_of_string s).

(** The NUL-prefixed stream is unambiguous for parts without NUL bytes. *)
Lemma nul_stream_inj (ps qs : list string) :
  Forall no_nul ps -> Forall no_nul qs -> nul_stream ps = nul_stream qs -> ps = qs.
Proof.
  unfold nul_stream. intros Hp. revert qs.
  assert (Hsplit : forall a b p q, no_nul a -> no_nul b ->
    a +:+ String.concat "" (map (String zero) p) = b +:+ String.concat "" (map (String zero) q) ->
    a = b /\ String.concat "" (map (String zero) p) = String.concat "" (map (String zero) q)).
  { intros a. induction a as [|c a IHa]; intros [|d b] p q Ha Hb;
      rewrite ?string_app_cons, ?string_app_nil; intros Heq.
    - done.
    - exfalso. inversion Hb; subst. destruct p as [|p0 p]; simpl map in Heq; [done|].
      rewrite concat_cons, string_app_cons in Heq. congruence.
    - exfalso. inversion Ha; subst. destruct q as [|q0 q]; simpl map in Heq; [done|].
      rewrite concat_cons, string_app_cons in Heq. congruence.
    - injection Heq as -> Heq. inversion Ha; inversion Hb; subst.
      destruct (IHa b p q) as [-> ?]; auto. }
  induction Hp as [|p ps Hnp Hp IH]; intros qs Hq; destruct Hq as [|q qs Hnq Hq];
    simpl map; rewrite ?concat_cons, ?string_app_cons; try done.
  intros Heq. injection Heq as Heq. apply Hsplit in Heq as [-> Heq]; [|done..].
  f_equal. by apply IH.
Qed.

Section hash_theorems.
Context `{Crypto}.

(** Equal field hashes come from equal records, or exhibit a collision. *)
Lemma fixedHash_inj (ps qs : list string) :
  Forall go_length ps -> Forall go_length qs ->
  fixedHash ps = fixedHash qs -> ps = qs \/ sha256_collision.
Proof.
  intros Hp Hq Heq. destruct (decide (length_stream ps = length_stream qs)) as [He|Hne].
  - left. by apply length_stream_inj.
  - right. by exists (length_stream ps), (length_stream qs).
Qed.

Lemma eventPayloadHash_inj (ps qs : list string) :
  Forall no_nul ps -> Forall no_nul qs ->
  eventPayloadHash ps = eventPayloadHash qs -> ps = qs \/ sha256_collision.
Proof.
  intros Hp Hq Heq. destruct (decide (nul_stream ps = nul_stream qs)) as [He|Hne].
  - left. by apply nul_stream_inj.
  - right. by exists (nul_stream ps), (nul_stream qs).
Qed.
End hash_theorems.

(** ** Digests are well formed *)

(** What the validators rely on: a digest is 64 lower-case hexadecimal digits. *)
Class CryptoLaws `{Crypto} : Prop := sha256_hex_ok : forall s, is_sha256 (sha256_hex s) = true.

(** All that binding a chain to its hashes needs: a digest is not the empty text. Unlike the
    form above it bounds no length, so under it a collision is not there for the counting. *)
Class NonemptyDigests `{Crypto} : Prop := sha256_not_empty : forall s, sha256_hex s <> ""%string.
#[export] Instance laws_nonempty `{Crypto} `{!CryptoLaws} : NonemptyDigests.
Proof. intros s E. pose proof (sha256_hex_ok s) as Hs. by rewrite E in Hs. Qed.

Lemma hex_digit_lower n : n < 16 -> lower_hex (N_of_ascii (hex_digit n)) = true.
Proof.
  intros H. rewrite <- (N2Nat.id n). assert (Hn : (N.to_nat n < 16)%nat) by lia.
  generalize dependent (N.to_nat n). intros k Hk.
  do 16 (destruct k as [|k]; [reflexivity|]). lia.
Qed.

Lemma hex_encode_lower l :
  Forall (fun b => b < 256) l -> forallb lower_hex (bytes_of (hex_encode l)) = true.
Proof.
  induction 1 as [|b l Hb _ IH]; [done|]. unfold bytes_of in *. cbn [hex_encode list_ascii_of_string map forallb].
  rewrite IH, !hex_digit_lower; [done|..].
  - change 15 with (N.ones 4). rewrite N.land_ones. by apply N.mod_lt.
  - rewrite N.shiftr_div_pow2. apply N.Div0.div_lt_upper_bound. done.
Qed.

Lemma hex_encode_length l : String.length (hex_encode l) = (2 * length l)%nat.
Proof. induction l; simpl; [done|]. rewrite IHl. simpl. lia. Qed.

Lemma rounds_length ks : forall ws a b c d e f g h,
  length (Sha256.rounds ks ws a b c d e f g h) = 8%nat.
Proof. induction ks as [|k ks IH]; intros [|w ws] *; simpl; auto. Qed.

Lemma compress_length st block : length st = 8%nat -> length (Sha256.compress st block) = 8%nat.
Proof.
  intros Hst. unfold Sha256.compress. destruct st as [|a [|b [|c [|d [|e [|f [|g [|h [|]]]]]]]]]; try done.
  by rewrite length_zip_with, rounds_length.
Qed.

Lemma blocks_length n : forall st ws, length st = 8%nat -> length (Sha256.blocks n st ws) = 8%nat.
Proof. induction n; simpl; intros; auto using compress_length. Qed.

Lemma sum256_length msg : length (Sha256.sum256 msg) = 32%nat.
Proof.
  unfold Sha256.sum256. cbn zeta.
  pose proof (blocks_length (length (Sha256.pad msg) / 64) Sha256.H0 (Sha256.words (Sha256.pad msg)) eq_refl) as Hl.
  revert Hl. generalize (Sha256.blocks (length (Sha256.pad msg) / 64) Sha256.H0 (Sha256.words (Sha256.pad msg))).
  intros l Hl. destruct l as [|a [|b [|c [|d [|e [|f [|g [|h [|]]]]]]]]]; try done.
Qed.

Lemma sum256_bounded msg : Forall (fun b => b < 256) (Sha256.sum256 msg).
Proof.
  unfold Sha256.sum256. cbn zeta.
  generalize (Sha256.blocks (length (Sha256.pad msg) / 64) Sha256.H0 (Sha256.words (Sha256.pad msg))).
  intros l. apply Forall_forall. intros x Hx. apply list_elem_of_join in Hx as (l0 & Hx & Hl0).
  apply list_elem_of_fmap in Hl0 as (y & -> & _).
  pose proof (be_bytes_bounded 4 y) as Hb. rewrite Forall_forall in Hb. auto.
Qed.

#[export] Instance go_crypto_laws : @CryptoLaws go_crypto.
Proof.
  intros s. unfold is_sha256, sha256_hex, go_crypto.
  by rewrite hex_encode_length, sum256_length, hex_encode_lower by apply sum256_bounded.
Qed.

(** Short strings have a Go length. *)
Lemma go_length_small (l : list string) :
  forallb (fun s => (String.length s <=? 4096)%nat) l = true -> Forall go_length l.
Proof.
  intros H. apply Forall_forall. intros s Hs. rewrite forallb_forall in H.
  specialize (H s (proj1 (list_elem_of_In _ _) Hs)). apply Nat.leb_le in H.
  unfold go_length. change (2 ^ 64) with 18446744073709551616. lia.
Qed.
