(* ===== verification/GoTime.v ===== *)
(** * Instants, the UTC calendar and budget windows

    [time.Time] as nanoseconds since the Unix epoch, the UTC calendar of the
    [time] package that the ledger uses, and the budget windows of
    [govar/ledger_extensions.go] built on it. *)

From Stdlib Require Import ZArith Lia Ascii String.
From stdpp Require Import base strings list pretty.
From S2P Require Import Prelude.

Open Scope Z_scope.

(** ** Instants and durations *)

(** [time.Time], read in UTC. Monotonic clock readings and the range limits of
    the wall-clock encoding are left out. *)
Definition Time : Type := Z.
Definition Duration : Type := Z.

Definition Nanosecond : Duration := 1.
Definition Second : Duration := 1000000000.
Definition Minute : Duration := 60 * Second.
Definition Hour : Duration := 60 * Minute.
Definition Day : Duration := 24 * Hour.

(** 0001-01-01T00:00:00Z, the zero [time.Time]. *)
Definition zero_time : Time := -62135596800 * Second.
Definition IsZero (t : Time) : bool := t =? zero_time.
Definition After (t u : Time) : bool := u <? t.
Definition Before (t u : Time) : bool := t <? u.
Definition time_add (t : Time) (d : Duration) : Time := t + d.

(** [t.Sub(u)] saturates at the bounds of [time.Duration]. *)
Definition time_sub (t u : Time) : Duration :=
  if t - u <? min_int64 then min_int64
  else if max_int64 <? t - u then max_int64 else t - u.

(** [t.UnixNano()], whose result wraps outside the years 1678 to 2262. *)
Definition UnixNano (t : Time) : Z := wrap64 t.

(** ** The proleptic Gregorian calendar *)

Record civil : Type := Build_civil { civil_Year : Z; civil_Month : Z; civil_Day : Z }.

(** Days from 0000-03-01 to the first of March of year [y]. *)
Definition days_before_march (y : Z) : Z := 365 * y + y / 4 - y / 100 + y / 400.

(** Days from 0000-03-01 to 1970-01-01. *)
Definition unix_epoch_days : Z := 719468.

(** The year starting in March that contains day [z], and the day within it:
    400-year cycle, century, 4-year cycle, year. *)
Definition march_year (z : Z) : Z * Z :=
  let era := z / 146097 in
  let doe := z mod 146097 in
  let c := Z.min 3 (doe / 36524) in
  let doc := doe - 36524 * c in
  let q := doc / 1461 in
  let doq := doc - 1461 * q in
  let yy := Z.min 3 (doq / 365) in
  (400 * era + 100 * c + 4 * q + yy, doq - 365 * yy).

(** [t.Date()] of the day [day] since the Unix epoch. *)
Definition civil_of_day (day : Z) : civil :=
  let '(y, doy) := march_year (day + unix_epoch_days) in
  let mp := (5 * doy + 2) / 153 in
  let m := if mp <? 10 then mp + 3 else mp - 9 in
  Build_civil (if m <=? 2 then y + 1 else y) m (doy - (153 * mp + 2) / 5 + 1).

(** The day number of [time.Date(y, m, d, 0, 0, 0, 0, time.UTC)] for a month in
    1..12; a day outside the month is carried, as [time.Date] does. *)
Definition day_of_civil (y m d : Z) : Z :=
  let y' := if m <=? 2 then y - 1 else y in
  let mp := if m <=? 2 then m + 9 else m - 3 in
  days_before_march y' + (153 * mp + 2) / 5 + d - 1 - unix_epoch_days.

Definition day_number (t : Time) : Z := t / Day.
Definition midnight (day : Z) : Time := day * Day.

(** [t.Weekday()], Sunday = 0: 1970-01-01 was a Thursday. *)
Definition Weekday (day : Z) : Z := (day + 4) mod 7.

Definition is_leap (y : Z) : bool := (y mod 4 =? 0) && (negb (y mod 100 =? 0) || (y mod 400 =? 0)).

(** [daysIn] of the [time] package. *)
Definition days_in (m y : Z) : Z :=
  if m =? 2 then (if is_leap y then 29 else 28)
  else if (m =? 4) || (m =? 6) || (m =? 9) || (m =? 11) then 30 else 31.

(** ** Formatting and parsing *)

Definition digit (d : Z) : ascii := ascii_of_N (Z.to_N (48 + d)).
Definition digit_value (c : ascii) : option Z :=
  let n := Z.of_N (N_of_ascii c) in if (48 <=? n) && (n <=? 57) then Some (n - 48) else None.

Definition two_digits (n : Z) : string :=
  String (digit (n / 10)) (String (digit (n mod 10)) EmptyString).
Definition four_digits (n : Z) : string :=
  String (digit (n / 1000)) (String (digit (n / 100 mod 10))
    (String (digit (n / 10 mod 10)) (String (digit (n mod 10)) EmptyString))).

(** [appendInt(b, year, 4)]. *)
Definition format_year (y : Z) : string :=
  if y <? 0 then "-" +:+ (if -9999 <=? y then four_digits (- y) else pretty (- y))
  else if y <=? 9999 then four_digits y else pretty y.

(** [t.Format("2006-01-02")] of a day. *)
Definition format_date (day : Z) : string :=
  let c := civil_of_day day in
  format_year (civil_Year c) +:+ "-" +:+ two_digits (civil_Month c) +:+ "-" +:+ two_digits (civil_Day c).

(** [time.Parse("2006-01-02", s)]: the day number. *)
Definition parse_date (s : string) : option Z :=
  match list_ascii_of_string s with
  | [y1; y2; y3; y4; s1; m1; m2; s2; d1; d2] =>
    match digit_value y1, digit_value y2, digit_value y3, digit_value y4,
          digit_value m1, digit_value m2, digit_value d1, digit_value d2 with
    | Some y1, Some y2, Some y3, Some y4, Some m1, Some m2, Some d1, Some d2 =>
      let y := 1000 * y1 + 100 * y2 + 10 * y3 + y4 in
      let m := 10 * m1 + m2 in
      let d := 10 * d1 + d2 in
      if Ascii.eqb s1 "-" && Ascii.eqb s2 "-" && (1 <=? m) && (m <=? 12) && (1 <=? d) && (d <=? days_in m y)
      then Some (day_of_civil y m d) else None
    | _, _, _, _, _, _, _, _ => None
    end
  | _ => None
  end.

Definition format_clock (t : Time) : string :=
  let s := (t mod Day) / Second in
  two_digits (s / 3600) +:+ ":" +:+ two_digits (s / 60 mod 60) +:+ ":" +:+ two_digits (s mod 60).

(** [t.UTC().Format(time.RFC3339)]. *)
Definition RFC3339 (t : Time) : string :=
  format_date (day_number t) +:+ "T" +:+ format_clock t +:+ "Z".

(** The fractional seconds of [".999999999"]: nine digits, trailing zeros removed. *)
Fixpoint fraction_digits (n : nat) (frac : Z) : string :=
  match n with
  | O => EmptyString
  | S n' => if frac =? 0 then EmptyString
            else String (digit (frac / 10 ^ Z.of_nat n')) (fraction_digits n' (frac mod 10 ^ Z.of_nat n'))
  end.
Definition format_fraction (t : Time) : string :=
  let frac := t mod Second in
  if frac =? 0 then EmptyString else "." +:+ fraction_digits 9 frac.

(** [t.UTC().Format(time.RFC3339Nano)]. *)
Definition RFC3339Nano (t : Time) : string :=
  format_date (day_number t) +:+ "T" +:+ format_clock t +:+ format_fraction t +:+ "Z".

(** ** Budget windows *)

(** The first day of the window of [period] that contains [at]; [None] for a
    period outside the closed set. *)
Definition window_start (period : string) (at_ : Time) : option Z :=
  let day := day_number at_ in
  let c := civil_of_day day in
  let p := ToLower (TrimSpace period) in
  if String.eqb p "daily" then Some (day_of_civil (civil_Year c) (civil_Month c) (civil_Day c))
  else if String.eqb p "weekly" then
    let days := (Weekday day + 6) mod 7 in
    Some (day_of_civil (civil_Year c) (civil_Month c) (civil_Day c - days))
  else if String.eqb p "monthly" then Some (day_of_civil (civil_Year c) (civil_Month c) 1)
  else None.

Definition budgetWindowForPeriod (period : string) (at_ : Time) : result string :=
  match window_start period at_ with
  | Some start => Ok (ToLower period +:+ ":" +:+ format_date start)
  | None => Err "unsupported budget period"
  end.

(** The part of [strings.SplitN(v, ":", 2)] after the first colon. *)
Fixpoint after_colon (s : string) : option string :=
  match s with
  | EmptyString => None
  | String c s' => if Ascii.eqb c ":" then Some s' else after_colon s'
  end.

Definition parse_window (v : string) : option Z :=
  match after_colon v with Some d => parse_date d | None => None end.

Definition windowStartsAfter (next current : string) : bool :=
  match parse_window next, parse_window current with
  | Some n, Some c => c <? n
  | _, _ => false
  end.

Example rfc3339_example : RFC3339Nano 1784030399120000000 = "2026-07-14T11:59:59.12Z".
Proof. vm_compute. reflexivity. Qed.
Example zero_time_example : RFC3339 zero_time = "0001-01-01T00:00:00Z".
Proof. vm_compute. reflexivity. Qed.
Example window_example :
  budgetWindowForPeriod "Weekly" 1784030399120000000 = Ok "weekly:2026-07-13".
Proof. vm_compute. reflexivity. Qed.
Example leap_example : format_date (day_of_civil 2024 2 29) = "2024-02-29" /\ parse_date "2023-02-29" = None.
Proof. vm_compute. done. Qed.

(** ** The calendar is a bijection *)

Lemma march_year_spec z y doy :
  march_year z = (y, doy) ->
  days_before_march y + doy = z /\ 0 <= doy <= 365 /\ (doy = 365 -> is_leap (y + 1) = true).
Proof.
  unfold march_year, days_before_march. intros H. injection H as <- <-.
  set (e := z / 146097). set (doe := z mod 146097).
  assert (He : z = 146097 * e + doe /\ 0 <= doe < 146097) by (unfold e, doe; div_lia).
  set (c := Z.min 3 (doe / 36524)).
  assert (Hc : 0 <= c <= 3 /\ 0 <= doe - 36524 * c <= 36524
               /\ (c < 3 -> doe - 36524 * c < 36524)) by (unfold c; div_lia).
  set (doc := doe - 36524 * c) in *.
  set (q := doc / 1461).
  assert (Hq : 0 <= q <= 24 /\ 0 <= doc - 1461 * q <= 1460
               /\ (q = 24 -> c < 3 -> doc - 1461 * q < 1460)) by (unfold q; div_lia).
  set (doq := doc - 1461 * q) in *.
  set (yy := Z.min 3 (doq / 365)).
  assert (Hy : 0 <= yy <= 3 /\ 0 <= doq - 365 * yy <= 365
               /\ (yy < 3 -> doq - 365 * yy < 365)) by (unfold yy; div_lia).
  clearbody e c q yy.
  assert (H4 : (400 * e + 100 * c + 4 * q + yy) / 4 = 100 * e + 25 * c + q) by div_lia.
  assert (H100 : (400 * e + 100 * c + 4 * q + yy) / 100 = 4 * e + c) by div_lia.
  assert (H400 : (400 * e + 100 * c + 4 * q + yy) / 400 = e) by div_lia.
  rewrite H4, H100, H400. split; [unfold doq, doc in *; lia|].
  split; [lia|]. intros H365. unfold is_leap.
  assert (yy = 3 /\ doq = 1460) as [-> Hdoq] by lia.
  assert (q = 24 -> c = 3) by lia.
  assert ((400 * e + 100 * c + 4 * q + 3 + 1) mod 4 = 0) as -> by div_lia.
  destruct (Z.eq_dec q 24) as [->|].
  - assert (c = 3) as -> by auto.
    assert ((400 * e + 100 * 3 + 4 * 24 + 3 + 1) mod 400 = 0) as -> by div_lia.
    by rewrite orb_true_r.
  - assert ((400 * e + 100 * c + 4 * q + 3 + 1) mod 100 <> 0) by div_lia.
    destruct (_ mod 100 =? 0) eqn:E; [lia|done].
Qed.

(** Month arithmetic within a year starting in March. *)
Lemma month_of_doy doy :
  0 <= doy <= 365 ->
  let mp := (5 * doy + 2) / 153 in
  0 <= mp <= 11 /\ 1 <= doy - (153 * mp + 2) / 5 + 1 <= 31.
Proof. intros H mp. unfold mp. div_lia. Qed.

Lemma civil_month_range day : 1 <= civil_Month (civil_of_day day) <= 12.
Proof.
  unfold civil_of_day. destruct (march_year _) as [y doy] eqn:H.
  apply march_year_spec in H as (_ & Hd & _). simpl.
  destruct (month_of_doy doy Hd) as [Hm _]. destruct (_ <? 10) eqn:?; lia.
Qed.

Lemma civil_day_range day : 1 <= civil_Day (civil_of_day day) <= 31.
Proof.
  unfold civil_of_day. destruct (march_year _) as [y doy] eqn:H.
  apply march_year_spec in H as (_ & Hd & _). simpl. apply (month_of_doy doy Hd).
Qed.

(** [time.Date] of the components of a day is that day. *)
Lemma day_of_civil_of_day day :
  let c := civil_of_day day in day_of_civil (civil_Year c) (civil_Month c) (civil_Day c) = day.
Proof.
  unfold civil_of_day. destruct (march_year _) as [y doy] eqn:H.
  apply march_year_spec in H as (Hz & Hd & _). destruct (month_of_doy doy Hd) as [Hm _].
  unfold day_of_civil. simpl. set (mp := (5 * doy + 2) / 153) in *.
  destruct (Z.ltb_spec mp 10).
  - replace (mp + 3 <=? 2) with false by lia.
    replace (mp + 3 - 3) with mp by lia. lia.
  - replace (mp - 9 <=? 2) with true by lia.
    replace (mp - 9 + 9) with mp by lia. replace (y + 1 - 1) with y by lia. lia.
Qed.

Lemma day_of_civil_shift y m d k : day_of_civil y m (d + k) = day_of_civil y m d + k.
Proof. unfold day_of_civil. lia. Qed.

Lemma civil_day_in_month day :
  let c := civil_of_day day in civil_Day c <= days_in (civil_Month c) (civil_Year c).
Proof.
  unfold civil_of_day. destruct (march_year _) as [y doy] eqn:H.
  apply march_year_spec in H as (_ & Hd & Hleap). destruct (month_of_doy doy Hd) as [Hm _].
  cbn [civil_Day civil_Month civil_Year]. set (mp := (5 * doy + 2) / 153) in *.
  assert (Hmp : 153 * mp <= 5 * doy + 2 < 153 * mp + 153) by (unfold mp; div_lia).
  clearbody mp. unfold days_in.
  assert (Hcases : mp = 0 \/ mp = 1 \/ mp = 2 \/ mp = 3 \/ mp = 4 \/ mp = 5 \/ mp = 6 \/ mp = 7
                   \/ mp = 8 \/ mp = 9 \/ mp = 10 \/ mp = 11) by lia.
  destruct (Z.eq_dec doy 365) as [E|]; [specialize (Hleap E)|clear Hleap];
    repeat (destruct Hcases as [->|Hcases]); subst; split_tests; try div_lia; congruence.
Qed.

(** ** Parsing inverts formatting *)

Lemma four_digits_spec y :
  0 <= y <= 9999 ->
  (0 <= y / 1000 <= 9 /\ 0 <= y / 100 mod 10 <= 9 /\ 0 <= y / 10 mod 10 <= 9 /\ 0 <= y mod 10 <= 9) /\
  1000 * (y / 1000) + 100 * (y / 100 mod 10) + 10 * (y / 10 mod 10) + y mod 10 = y.
Proof.
  intros H.
  replace (y / 100) with (y / 10 / 10) by (rewrite Z.div_div by lia; reflexivity).
  replace (y / 1000) with (y / 10 / 10 / 10) by (rewrite !Z.div_div by lia; reflexivity).
  div_lia.
Qed.

Lemma digit_value_digit d : 0 <= d <= 9 -> digit_value (digit d) = Some d.
Proof.
  intros H. assert (Hc : d = 0 \/ d = 1 \/ d = 2
    \/ d = 3 \/ d = 4 \/ d = 5 \/ d = 6 \/ d = 7 \/ d = 8 \/ d = 9) by lia.
  repeat (destruct Hc as [->|Hc]); subst; reflexivity.
Qed.

Lemma two_digits_spec n :
  0 <= n <= 99 -> (0 <= n / 10 <= 9 /\ 0 <= n mod 10 <= 9) /\ 10 * (n / 10) + n mod 10 = n.
Proof. intros H. div_lia. Qed.

(** Years 0 to 9999, the ones a four-digit window id can express. *)
Definition four_digit_year (day : Z) : Prop := 0 <= civil_Year (civil_of_day day) <= 9999.

Lemma parse_format_date day : four_digit_year day -> parse_date (format_date day) = Some day.
Proof.
  unfold four_digit_year, format_date, format_year. intros Hy.
  pose proof (civil_month_range day) as Hm. pose proof (civil_day_range day) as Hd.
  pose proof (civil_day_in_month day) as Hin. pose proof (day_of_civil_of_day day) as Hback.
  cbn zeta in Hin, Hback. destruct (civil_of_day day) as [y m d].
  cbn [civil_Year civil_Month civil_Day] in *.
  replace (y <? 0) with false by lia. replace (y <=? 9999) with true by lia.
  unfold four_digits, two_digits. rewrite !string_app_cons, !string_app_nil, ?string_app_cons, ?string_app_nil.
  unfold parse_date. cbn [list_ascii_of_string].
  destruct (four_digits_spec y Hy) as [(? & ? & ? & ?) Hval].
  destruct (two_digits_spec m ltac:(lia)) as [(? & ?) Hvm].
  destruct (two_digits_spec d ltac:(lia)) as [(? & ?) Hvd].
  rewrite !digit_value_digit by assumption. cbn zeta. rewrite Hval, Hvm, Hvd.
  rewrite !Ascii.eqb_refl.
  replace (1 <=? m) with true by lia. replace (m <=? 12) with true by lia.
  replace (1 <=? d) with true by lia. replace (d <=? days_in m y) with true by lia.
  cbn [andb]. by rewrite Hback.
Qed.

Lemma day_of_civil_back y m d k : day_of_civil y m (d - k) = day_of_civil y m d - k.
Proof. apply (day_of_civil_shift y m d (- k)). Qed.

(** ** Months tile the days *)

(** The first day of the [k]-th month since January of year 0. *)
Definition month_first (k : Z) : Z := day_of_civil (k / 12) (k mod 12 + 1) 1.
Definition month_index (day : Z) : Z :=
  let c := civil_of_day day in 12 * civil_Year c + civil_Month c - 1.

Lemma days_before_march_succ y :
  days_before_march y = days_before_march (y - 1) + (if is_leap y then 366 else 365).
Proof. unfold days_before_march, is_leap. destruct (_ && _)%bool eqn:E; div_lia. Qed.

Lemma month_first_succ k :
  month_first (k + 1) = month_first k + days_in (k mod 12 + 1) (k / 12).
Proof.
  unfold month_first. set (y := k / 12). set (m := k mod 12).
  assert (Hk : k = 12 * y + m /\ 0 <= m <= 11) by (unfold y, m; div_lia).
  assert (Hy : (k + 1) / 12 = if m <=? 10 then y else y + 1)
    by (destruct (m <=? 10) eqn:?; bool_to_prop; div_lia).
  assert (Hm : (k + 1) mod 12 = if m <=? 10 then m + 1 else 0)
    by (destruct (m <=? 10) eqn:?; bool_to_prop; div_lia).
  rewrite Hy, Hm. clear Hy Hm. clearbody y m. destruct Hk as [_ Hk].
  unfold day_of_civil, days_in. pose proof (days_before_march_succ y) as Hyear.
  assert (Hcases : m = 0 \/ m = 1 \/ m = 2 \/ m = 3 \/ m = 4 \/ m = 5 \/ m = 6 \/ m = 7
                   \/ m = 8 \/ m = 9 \/ m = 10 \/ m = 11) by lia.
  repeat (destruct Hcases as [->|Hcases]); subst;
    split_tests; rewrite ?Z.add_simpl_r; div_lia.
Qed.

Lemma days_in_bounds m y : 28 <= days_in m y <= 31.
Proof. unfold days_in. split_tests; lia. Qed.

(** A day lies in the month with its index. *)
Lemma month_first_le day :
  month_first (month_index day) <= day < month_first (month_index day + 1).
Proof.
  rewrite month_first_succ.
  pose proof (day_of_civil_of_day day) as Hback. pose proof (civil_month_range day) as Hm.
  pose proof (civil_day_range day) as Hd. pose proof (civil_day_in_month day) as Hin.
  unfold month_index, month_first. cbn zeta in *. destruct (civil_of_day day) as [y m d].
  cbn [civil_Year civil_Month civil_Day] in *.
  replace ((12 * y + m - 1) / 12) with y by div_lia.
  replace ((12 * y + m - 1) mod 12 + 1) with m by div_lia.
  rewrite <- Hback. replace d with (1 + (d - 1)) by lia. rewrite day_of_civil_shift. lia.
Qed.

Lemma month_first_mono j k : j <= k -> month_first j <= month_first k.
Proof.
  intros H. replace k with (j + Z.of_nat (Z.to_nat (k - j))) by lia.
  induction (Z.to_nat (k - j)) as [|n IH]; [rewrite Z.add_0_r; lia|].
  replace (j + Z.of_nat (S n)) with (j + Z.of_nat n + 1) by lia.
  rewrite month_first_succ. pose proof (days_in_bounds ((j + Z.of_nat n) mod 12 + 1) ((j + Z.of_nat n) / 12)). lia.
Qed.

Lemma month_index_mono a b : a <= b -> month_index a <= month_index b.
Proof.
  intros H. destruct (Z.le_gt_cases (month_index a) (month_index b)) as [|Hgt]; [done|].
  pose proof (month_first_le a). pose proof (month_first_le b).
  pose proof (month_first_mono (month_index b + 1) (month_index a)). lia.
Qed.

Lemma month_start_index day :
  let c := civil_of_day day in
  day_of_civil (civil_Year c) (civil_Month c) 1 = month_first (month_index day).
Proof.
  pose proof (civil_month_range day) as Hm. unfold month_first, month_index. cbn zeta.
  destruct (civil_of_day day) as [y m d]. cbn [civil_Year civil_Month civil_Day] in *.
  by replace ((12 * y + m - 1) / 12) with y by div_lia;
    replace ((12 * y + m - 1) mod 12 + 1) with m by div_lia.
Qed.

(** ** Budget windows follow the clock *)

(** The values of [AIBudgetPolicySpec.Period] admitted by the CRD schema. *)
Definition billing_period (p : string) : Prop := p = "daily" \/ p = "weekly" \/ p = "monthly".

Lemma window_start_spec p t :
  billing_period p ->
  window_start p t = Some (let day := day_number t in
    if String.eqb p "daily" then day
    else if String.eqb p "weekly" then day - (Weekday day + 6) mod 7
    else month_first (month_index day)).
Proof.
  intros Hp. unfold window_start. cbn zeta.
  pose proof (day_of_civil_of_day (day_number t)) as Hday. pose proof (month_start_index (day_number t)) as Hmonth.
  cbn zeta in Hday, Hmonth. rewrite day_of_civil_back, Hday, Hmonth. clear Hday Hmonth.
  generalize (month_first (month_index (day_number t))). generalize (day_number t). intros d m.
  assert (Hid : ToLower (TrimSpace p) = p) by (destruct Hp as [-> | [-> | ->]]; reflexivity).
  rewrite Hid. destruct Hp as [-> | [-> | ->]]; reflexivity.
Qed.

Lemma window_start_range p t s :
  billing_period p -> window_start p t = Some s -> s <= day_number t <= s + 30.
Proof.
  intros Hp. rewrite window_start_spec by done. intros H. injection H as <-.
  destruct (String.eqb p "daily"); [lia|]. destruct (String.eqb p "weekly"); [div_lia|].
  pose proof (month_first_le (day_number t)) as Hm. rewrite month_first_succ in Hm.
  pose proof (days_in_bounds (month_index (day_number t) mod 12 + 1) (month_index (day_number t) / 12)). lia.
Qed.

Lemma window_start_mono p t u s s' :
  billing_period p -> t <= u -> window_start p t = Some s -> window_start p u = Some s' -> s <= s'.
Proof.
  intros Hp Htu. rewrite !window_start_spec by done. intros H H'. injection H as <-. injection H' as <-.
  assert (Hd : day_number t <= day_number u) by (apply Z.div_le_mono; [reflexivity|done]).
  destruct (String.eqb p "daily"); [done|].
  destruct (String.eqb p "weekly"); [unfold Weekday; div_lia|].
  by apply month_first_mono, month_index_mono.
Qed.

Lemma parse_window_id p t s w :
  billing_period p -> window_start p t = Some s -> four_digit_year s ->
  budgetWindowForPeriod p t = Ok w -> parse_window w = Some s.
Proof.
  intros Hp Hs Hy. unfold budgetWindowForPeriod. rewrite Hs. intros H. injection H as <-.
  rewrite <- (parse_format_date s Hy). unfold parse_window.
  assert (after_colon (ToLower p +:+ ":" +:+ format_date s) = Some (format_date s)) as ->; [|done].
  destruct Hp as [-> | [-> | ->]]; reflexivity.
Qed.

(** The years 1 to 9999. *)
Definition clock_range (t : Time) : Prop := zero_time <= t < 253402300800 * Second.

Lemma civil_year_mono a b : a <= b -> civil_Year (civil_of_day a) <= civil_Year (civil_of_day b).
Proof.
  intros H%month_index_mono. unfold month_index in H. cbn zeta in H.
  pose proof (civil_month_range a). pose proof (civil_month_range b). lia.
Qed.

Lemma clock_range_year p t s :
  billing_period p -> clock_range t -> window_start p t = Some s -> four_digit_year s.
Proof.
  intros Hp [Hlo Hhi] Hs. pose proof (window_start_range p t s Hp Hs) as Hr.
  assert (Hd : -719162 <= day_number t < 2932897).
  { unfold day_number, zero_time, Day, Hour, Minute, Second in *. div_lia. }
  pose proof (civil_year_mono (-719192) s ltac:(lia)) as Hl.
  pose proof (civil_year_mono s 2932896 ltac:(lia)) as Hu.
  vm_compute (civil_Year (civil_of_day (-719192))) in Hl.
  vm_compute (civil_Year (civil_of_day 2932896)) in Hu.
  unfold four_digit_year. lia.
Qed.

(** Windows of one period at two clock readings: they are the same, or the later
    one starts after the earlier one; the ledger's clock never finds its window
    in the future. *)
Lemma windows_follow_clock p t u wt wu :
  billing_period p -> clock_range t -> clock_range u -> t <= u ->
  budgetWindowForPeriod p t = Ok wt -> budgetWindowForPeriod p u = Ok wu ->
  wu = wt \/ windowStartsAfter wu wt = true.
Proof.
  intros Hp Ht Hu Htu Hwt Hwu.
  destruct (window_start p t) as [s|] eqn:Hs; [|unfold budgetWindowForPeriod in Hwt; by rewrite Hs in Hwt].
  destruct (window_start p u) as [s'|] eqn:Hs'; [|unfold budgetWindowForPeriod in Hwu; by rewrite Hs' in Hwu].
  pose proof (window_start_mono p t u s s' Hp Htu Hs Hs') as Hle.
  destruct (Z.eq_dec s s') as [->|Hne].
  - left. unfold budgetWindowForPeriod in *. rewrite Hs in Hwt. rewrite Hs' in Hwu. congruence.
  - right. unfold windowStartsAfter.
    rewrite (parse_window_id p u s' wu), (parse_window_id p t s wt); eauto using clock_range_year. lia.
Qed.

Lemma windowStartsAfter_irrefl w : windowStartsAfter w w = false.
Proof. unfold windowStartsAfter. destruct (parse_window w); [lia|done]. Qed.

Lemma windowStartsAfter_trans a b c :
  windowStartsAfter a b = true -> windowStartsAfter b c = true -> windowStartsAfter a c = true.
Proof.
  unfold windowStartsAfter. destruct (parse_window a), (parse_window b), (parse_window c); try done. lia.
Qed.

(** ** RFC 3339 texts *)

Lemma clock_range_date t : clock_range t -> four_digit_year (day_number t).
Proof.
  intros [Hlo Hhi].
  assert (Hd : -719162 <= day_number t < 2932897).
  { unfold day_number, zero_time, Day, Hour, Minute, Second in *. div_lia. }
  pose proof (civil_year_mono (-719192) (day_number t) ltac:(lia)) as Hl.
  pose proof (civil_year_mono (day_number t) 2932896 ltac:(lia)) as Hu.
  vm_compute (civil_Year (civil_of_day (-719192))) in Hl.
  vm_compute (civil_Year (civil_of_day 2932896)) in Hu.
  unfold four_digit_year. lia.
Qed.

Lemma format_date_length day : four_digit_year day -> String.length (format_date day) = 10%nat.
Proof.
  unfold four_digit_year, format_date, format_year. intros Hy. destruct (civil_of_day day) as [y m d].
  cbn [civil_Year civil_Month civil_Day] in *.
  replace (y <? 0) with false by lia. by replace (y <=? 9999) with true by lia.
Qed.

Lemma digit_inj a b : 0 <= a <= 9 -> 0 <= b <= 9 -> digit a = digit b -> a = b.
Proof. intros Ha Hb E. apply (f_equal digit_value) in E. rewrite !digit_value_digit in E by done. by injection E. Qed.

Lemma two_digits_inj a b : 0 <= a <= 99 -> 0 <= b <= 99 -> two_digits a = two_digits b -> a = b.
Proof.
  intros Ha Hb E. unfold two_digits in E. injection E as E1 E2.
  destruct (two_digits_spec a Ha) as [[] ?], (two_digits_spec b Hb) as [[] ?].
  apply digit_inj in E1, E2; lia.
Qed.

Lemma format_clock_inj t u : format_clock t = format_clock u -> (t mod Day) / Second = (u mod Day) / Second.
Proof.
  unfold format_clock. cbn zeta. intros E.
  assert (Hr : forall v, 0 <= v mod Day / Second < 86400).
  { intros v. unfold Day, Hour, Minute, Second. div_lia. }
  pose proof (Hr t). pose proof (Hr u).
  set (a := t mod Day / Second) in *. set (b := u mod Day / Second) in *. clearbody a b.
  apply string_app_inj in E as [E1 E]; [|done]. apply (string_app_inj ":" ":") in E as [_ E]; [|done].
  apply string_app_inj in E as [E2 E]; [|done]. apply (string_app_inj ":" ":") in E as [_ E3]; [|done].
  assert (a / 3600 = b / 3600) by (apply two_digits_inj; [div_lia | div_lia | done]).
  assert (a / 60 mod 60 = b / 60 mod 60) by (apply two_digits_inj; [div_lia | div_lia | done]).
  assert (a mod 60 = b mod 60) by (apply two_digits_inj; [div_lia | div_lia | done]).
  div_lia.
Qed.

Lemma fraction_digits_inj n : forall x y, 0 <= x < 10 ^ Z.of_nat n -> 0 <= y < 10 ^ Z.of_nat n ->
  fraction_digits n x +:+ "Z" = fraction_digits n y +:+ "Z" -> x = y.
Proof.
  induction n as [|n IH]; intros x y Hx Hy; [cbn in *; lia|].
  rewrite Nat2Z.inj_succ, Z.pow_succ_r in Hx, Hy by lia.
  assert (Hp : 0 < 10 ^ Z.of_nat n) by lia.
  assert (Hd : forall v, 0 <= v < 10 * 10 ^ Z.of_nat n -> 0 <= v / 10 ^ Z.of_nat n <= 9).
  { intros v Hv. pose proof (Z.div_lt_upper_bound v (10 ^ Z.of_nat n) 10). pose proof (Z.div_pos v (10 ^ Z.of_nat n)). lia. }
  assert (Hz : forall d, 0 <= d <= 9 -> digit d <> "Z"%char).
  { intros d Hdd E. apply (f_equal digit_value) in E. rewrite digit_value_digit in E by done. discriminate. }
  cbn [fraction_digits]. destruct (Z.eqb_spec x 0) as [->|Hx0], (Z.eqb_spec y 0) as [->|Hy0]; [done|..];
    rewrite ?string_app_cons, ?string_app_nil; intros E; injection E as E1 E2.
  - symmetry in E1. by apply Hz in E1; [|apply Hd; lia].
  - by apply Hz in E1; [|apply Hd; lia].
  - apply digit_inj in E1; [|apply Hd; lia..]. apply IH in E2; [|apply Z.mod_pos_bound; lia..].
    rewrite (Z.div_mod x (10 ^ Z.of_nat n)), (Z.div_mod y (10 ^ Z.of_nat n)) by lia. congruence.
Qed.

(** A time is determined by its RFC 3339 text. *)
Lemma RFC3339Nano_inj t u : four_digit_year (day_number t) -> four_digit_year (day_number u) ->
  RFC3339Nano t = RFC3339Nano u -> t = u.
Proof.
  intros Ht Hu. unfold RFC3339Nano. intros E.
  apply string_app_inj in E as [Ed E]; [|by rewrite !format_date_length].
  apply (string_app_inj "T" "T") in E as [_ E]; [|done].
  apply string_app_inj in E as [Ec E]; [|done].
  apply (f_equal parse_date) in Ed. rewrite !parse_format_date in Ed by done. injection Ed as Ed.
  apply format_clock_inj in Ec.
  assert (Ef : t mod Second = u mod Second).
  { assert (Hr : forall v, 0 <= v mod Second < 10 ^ Z.of_nat 9) by (intros v; apply Z.mod_pos_bound; done).
    unfold format_fraction in E. destruct (Z.eqb_spec (t mod Second) 0) as [H1|H1], (Z.eqb_spec (u mod Second) 0) as [H2|H2];
      rewrite ?string_app_nil, ?string_app_assoc in E; try discriminate; [congruence|].
    apply (string_app_inj "." ".") in E as [_ E]; [|done]. exact (fraction_digits_inj 9 _ _ (Hr t) (Hr u) E). }
  unfold day_number in Ed. unfold Day, Hour, Minute, Second in *. div_lia.
Qed.
