(* ===== verification/Api.v ===== *)
(** * The custom resources the GOV-AR ledger reads ([api/v1alpha1])

    One record per Go struct, with the struct's field names. [metav1.Time] is
    [Time], a pointer is an [option], [float64] is [spec_float], and the string
    enums stay strings with their named constants. Fields that only controllers
    write for display are left out of the status records. *)

From Stdlib Require Import ZArith Lia Ascii String SpecFloat.
From stdpp Require Import base strings list.
From S2P Require Import Prelude GoTime.

Open Scope string_scope.

(** ** Kubernetes machinery *)

Record ObjectMeta : Type := Build_ObjectMeta {
  om_Name : string;
  om_Namespace : string;
  om_UID : string;
  om_ResourceVersion : string;
  om_Generation : Z
}.

Record Condition : Type := Build_Condition { cond_Type : string; cond_Status : string }.
Definition ConditionReady : string := "Ready".
Definition ConditionTrue : string := "True".

(** [resource.Quantity] through [AsDec]: the exact decimal
    [qty_Unscaled / 10^qty_Scale]. *)
Record Quantity : Type := Build_Quantity { qty_Unscaled : Z; qty_Scale : Z }.

(** ** Float comparisons of the guardrails *)

Definition float64 : Type := spec_float.
Definition float_lt (a b : float64) : bool := SFltb a b.
Definition float_eq (a b : float64) : bool := SFeqb a b.

(** ** AIProvider *)

Definition Basis : Type := string.
Definition ProviderBasisInputTokens : Basis := "input_tokens".
Definition ProviderBasisCachedInputTokens : Basis := "cached_input_tokens".
Definition ProviderBasisOutputTokens : Basis := "output_tokens".
Definition ProviderBasisReasoningTokens : Basis := "reasoning_tokens".
Definition ProviderBasisRequest : Basis := "request".
Definition ProviderBasisToolCall : Basis := "tool_call".
Definition ProviderBasisMediaUnit : Basis := "media_unit".
Definition ProviderBasisBillableSecond : Basis := "billable_second".
Definition ProviderBasisCancellation : Basis := "cancellation".
Definition ProviderBasisRetryAttempt : Basis := "retry_attempt".

Definition ProviderChargeAlways : string := "always".
Definition ProviderChargeRequestDeclared : string := "request_declared".
Definition ProviderChargeProviderResponse : string := "provider_response".

Definition ProviderEvidenceCatalog : string := "provider_catalog".
Definition ProviderEvidenceAPI : string := "provider_api".
Definition ProviderEvidenceAdminAttested : string := "admin_attested".

Definition ProviderPricingComplete : string := "complete".

Record ProviderBillableCharge : Type := Build_ProviderBillableCharge {
  charge_Basis : Basis;
  charge_Applicability : string;
  charge_Price : Quantity;
  charge_UnitDenominator : Z;
  charge_SettlementUsageField : Basis;
  charge_IncludedIn : option Basis;
  charge_MaximumQuantity : option Z;
  charge_RequestBoundField : string;
  charge_DisjointUsage : bool
}.

Record PricingEvidenceSpec : Type := Build_PricingEvidenceSpec {
  pev_Mode : string;
  pev_SourceVersion : string;
  pev_EvidenceSHA256 : string;
  pev_ValidUntil : Time;
  pev_AdapterVersion : string
}.

Record AIProviderGOVARPricingSpec : Type := Build_AIProviderGOVARPricingSpec {
  gpr_Evidence : PricingEvidenceSpec;
  gpr_Charges : list ProviderBillableCharge;
  gpr_InapplicableBases : list Basis
}.

(** [AIProviderNormalizedChargeStatus]. *)
Record NormalizedCharge : Type := Build_NormalizedCharge {
  row_Basis : Basis;
  row_Applicability : string;
  row_PriceMicrosPerUnit : Z;
  row_UnitDenominator : Z;
  row_SettlementUsageField : Basis;
  row_IncludedIn : option Basis;
  row_MaximumQuantity : option Z;
  row_RequestBoundField : string;
  row_DisjointUsage : bool
}.

(** [AIProviderPricingSnapshotStatus]. *)
Record NormalizedPricingSnapshot : Type := Build_NormalizedPricingSnapshot {
  snap_SpecGeneration : Z;
  snap_Version : string;
  snap_ObservedAt : Time;
  snap_ValidUntil : Time;
  snap_Currency : string;
  snap_Completeness : string;
  snap_SnapshotSHA256 : string;
  snap_AdapterVersion : string;
  snap_EvidenceMode : string;
  snap_EvidenceSHA256 : string;
  snap_SourceVersion : string;
  snap_Charges : list NormalizedCharge;
  snap_InapplicableBases : list Basis
}.

Record ProviderBillableCategory : Type := Build_ProviderBillableCategory {
  cat_Name : string;
  cat_Unit : string;
  cat_Price : Quantity
}.

Record ProviderPricing : Type := Build_ProviderPricing {
  pp_Currency : string;
  pp_InputTokenPricePerMillion : Quantity;
  pp_OutputTokenPricePerMillion : Quantity;
  pp_FixedMonthlyCost : option Quantity;
  pp_Version : string;
  pp_ObservedAt : option Time;
  pp_Completeness : string;
  pp_BillableCategories : list ProviderBillableCategory
}.

Record ProviderCompliance : Type := Build_ProviderCompliance {
  comp_AllowedForSensitiveData : bool;
  comp_AllowedCountries : list string
}.

Record GatewayRouteBinding : Type := Build_GatewayRouteBinding {
  bind_Name : string;
  bind_ProviderDeployment : string;
  bind_Cluster : string;
  bind_Authority : string;
  bind_PathMode : string
}.

Record AIProviderGOVARSpec : Type := Build_AIProviderGOVARSpec {
  pgs_GatewayRoutes : list GatewayRouteBinding;
  pgs_Pricing : option AIProviderGOVARPricingSpec
}.

Record AIProviderSpec : Type := Build_AIProviderSpec {
  ps_Type : string;
  ps_Region : string;
  ps_DataResidency : string;
  ps_Managed : bool;
  ps_Pricing : ProviderPricing;
  ps_Compliance : ProviderCompliance;
  ps_GOVAR : option AIProviderGOVARSpec
}.

Record AIProviderStatus : Type := Build_AIProviderStatus {
  pst_ObservedGeneration : Z;
  pst_Conditions : list Condition;
  (** [Status.GOVAR]; inside it, [PricingSnapshot]. *)
  pst_GOVAR : option (option NormalizedPricingSnapshot)
}.

Record AIProvider : Type := Build_AIProvider {
  prov_Meta : ObjectMeta;
  prov_Spec : AIProviderSpec;
  prov_Status : AIProviderStatus
}.

(** ** AIModel *)

Definition TierLow : string := "low".
Definition TierMedium : string := "medium".
Definition TierHigh : string := "high".

Definition GOVARRouteOpenAIBody : string := "openai-body".
Definition GOVARRouteAzureDeploymentPath : string := "azure-deployment-path".

Record AIModelGOVARSpec : Type := Build_AIModelGOVARSpec {
  mgs_Routable : bool;
  mgs_RouteBindingRef : string
}.

Record VerifiedOutputCapStatus : Type := Build_VerifiedOutputCapStatus {
  cap_Verified : bool;
  cap_MaxOutputTokens : Z;
  cap_ObservedAt : Time;
  cap_SourceVersion : string;
  cap_ProviderUID : string;
  cap_ProviderGeneration : Z;
  cap_ProviderDeployment : string;
  cap_ModelVersion : string;
  cap_CapabilityAdapterVersion : string;
  cap_EvidenceMode : string;
  cap_EvidenceSHA256 : string;
  cap_PricingSnapshotSHA256 : string;
  cap_ValidUntil : Time;
  cap_RequestParameter : string;
  cap_EnforcedByPathAdapter : bool
}.

Record LatencyObservation : Type := Build_LatencyObservation {
  lat_MeanMillis : Z;
  lat_P95Millis : Z;
  lat_P99Millis : Z;
  lat_SampleCount : Z;
  lat_ObservedAt : Time
}.

Record AIModelGOVARStatus : Type := Build_AIModelGOVARStatus {
  mst_VerifiedOutputCap : option VerifiedOutputCapStatus;
  mst_Latency : option LatencyObservation
}.

Record AIModelSpec : Type := Build_AIModelSpec {
  ms_ProviderRef : string;
  ms_ModelName : string;
  ms_Type : string;
  ms_ContextWindow : Z;
  ms_QualityTier : string;
  ms_CostTier : string;
  ms_SensitiveDataAllowed : bool;
  ms_ServesNamespace : string;
  ms_ServesApplication : string;
  ms_ServesTeam : string;
  ms_GOVAR : option AIModelGOVARSpec
}.

Record AIModelStatus : Type := Build_AIModelStatus {
  mstat_ObservedGeneration : Z;
  mstat_LastQualityScore : float64;
  mstat_LastEvaluatedAt : option Time;
  mstat_Conditions : list Condition;
  mstat_GOVAR : option AIModelGOVARStatus
}.

Record AIModel : Type := Build_AIModel {
  model_Meta : ObjectMeta;
  model_Spec : AIModelSpec;
  model_Status : AIModelStatus
}.

(** ** AIRoutingPolicy *)

Definition GOVARReservationStrictProviderCap : string := "strict_provider_cap".
Definition GOVARReservationMean : string := "mean".
Definition GOVARReservationFixedMargin : string := "fixed_margin".
Definition GOVARReservationFixedQuantile : string := "fixed_quantile".
Definition GOVARReservationAdaptiveQuantile : string := "adaptive_quantile".
Definition GOVARReservationFixedCohort : string := "govar_fixed_cohort".

Record GOVARReservationPolicy : Type := Build_GOVARReservationPolicy {
  rp_Method : string;
  rp_MeanOutputTokens : option Z;
  rp_MarginOutputTokens : option Z;
  rp_FixedQuantileOutputTokens : option Z;
  rp_AdaptiveQuantileOutputTokens : option Z
}.

Record GOVARCalibrationPolicy : Type := Build_GOVARCalibrationPolicy {
  cp_ArtifactRef : string;
  cp_ArtifactSHA256 : string;
  cp_CalibrationDataRef : string;
  cp_CalibrationInputSHA256 : string;
  cp_MonitoringDataRef : string;
  cp_RegistryID : string;
  cp_Version : string;
  cp_FeatureSchemaVersion : string;
  cp_PriceRegimeSHA256 : string;
  cp_CapRegimeSHA256 : string;
  cp_ProducerSoftwareSHA256 : string;
  cp_CoverageTargetPPB : Z;
  cp_MinimumSupport : Z;
  cp_MaxAgeSeconds : Z
}.

Record GOVARDriftPolicy : Type := Build_GOVARDriftPolicy {
  dp_Detector : string;
  dp_ThresholdPPB : Z;
  dp_Fallback : string;
  dp_RevalidationMinimumSupport : Z
}.

Record GOVARCohortPolicy : Type := Build_GOVARCohortPolicy {
  chp_RegistryRef : string;
  chp_Size : Z;
  chp_OpportunitySetHash : string;
  chp_WeightsHash : string;
  chp_FrozenAt : Time
}.

Record GOVARRiskPolicy : Type := Build_GOVARRiskPolicy {
  rkp_TenantRiskPPB : Z;
  rkp_Allocation : string
}.

Record GOVARRoutingPolicySpec : Type := Build_GOVARRoutingPolicySpec {
  grs_Reservation : GOVARReservationPolicy;
  grs_Calibration : option GOVARCalibrationPolicy;
  grs_Drift : GOVARDriftPolicy;
  grs_Cohort : option GOVARCohortPolicy;
  grs_Risk : option GOVARRiskPolicy
}.

Record GOVARCalibrationStatus : Type := Build_GOVARCalibrationStatus {
  cs_EvidenceSource : string;
  cs_PublicationSHA256 : string;
  cs_SourceResourceVersion : string;
  cs_ArtifactRef : string;
  cs_Version : string;
  cs_ArtifactSHA256 : string;
  cs_CalibrationInputSHA256 : string;
  cs_FeatureSchemaVersion : string;
  cs_PriceRegimeSHA256 : string;
  cs_CapRegimeSHA256 : string;
  cs_ProducerSoftwareSHA256 : string;
  cs_CoverageTargetPPB : Z;
  cs_EmpiricalCoveragePPB : Z;
  cs_CalibrationMethod : string;
  cs_ExchangeableMarginalCoverageLowerPPB : Z;
  cs_ConformalRank : Z;
  cs_CoverageBoundKind : string;
  cs_CoverageBoundNumerator : Z;
  cs_CoverageBoundDenominator : Z;
  cs_CoverageIntervalLowerPPB : Z;
  cs_CoverageIntervalUpperPPB : Z;
  cs_CoverageConfidencePPB : Z;
  cs_FeatureRegimeSHA256 : string;
  cs_SplitOpportunityRegimeSHA256 : string;
  cs_CohortRegimeSHA256 : string;
  cs_Support : Z;
  cs_AdaptiveOutputTokens : Z;
  cs_Valid : bool;
  cs_Reason : string;
  cs_CalibrationWindowStart : Time;
  cs_CalibrationWindowEnd : Time;
  cs_ObservedAt : Time
}.

Record GOVARDriftStatus : Type := Build_GOVARDriftStatus {
  ds_DriftSHA256 : string;
  ds_Detected : bool;
  ds_ConservativeMode : bool;
  ds_Detector : string;
  ds_ThresholdPPB : Z;
  ds_MonitoringInputSHA256 : string;
  ds_Support : Z;
  ds_EmpiricalCoveragePPB : Z;
  ds_ConfidencePPB : Z;
  ds_IntervalLowerPPB : Z;
  ds_IntervalUpperPPB : Z;
  ds_Reason : string;
  ds_MonitoringWindowStart : Time;
  ds_MonitoringWindowEnd : Time;
  ds_ObservedAt : Time
}.

Record GOVARRoutingPolicyStatus : Type := Build_GOVARRoutingPolicyStatus {
  grst_Calibration : option GOVARCalibrationStatus;
  grst_Drift : option GOVARDriftStatus
}.

Record AIRoutingPolicyGuardrails : Type := Build_AIRoutingPolicyGuardrails {
  gr_MinQualityScore : float64;
  gr_MaxLatencyMillis : Z;
  gr_RequireSovereigntyCompliance : bool
}.

Record AIRoutingPolicyCanary : Type := Build_AIRoutingPolicyCanary {
  cn_Enabled : bool;
  cn_Percent : Z
}.

Record AIRoutingPolicySpec : Type := Build_AIRoutingPolicySpec {
  rs_Objective : string;
  rs_Guardrails : AIRoutingPolicyGuardrails;
  rs_Canary : AIRoutingPolicyCanary;
  rs_GOVAR : option GOVARRoutingPolicySpec
}.

Record AIRoutingPolicyStatus : Type := Build_AIRoutingPolicyStatus {
  rst_ObservedGeneration : Z;
  rst_LastEvaluatedAt : option Time;
  rst_Conditions : list Condition;
  rst_GOVAR : option GOVARRoutingPolicyStatus
}.

Record AIRoutingPolicy : Type := Build_AIRoutingPolicy {
  rpol_Meta : ObjectMeta;
  rpol_Spec : AIRoutingPolicySpec;
  rpol_Status : AIRoutingPolicyStatus
}.

(** [GOVARRoutingPolicySpec.Validate]: the fields that a reservation method
    requires and the policy lacks, as the paths of the reported errors. *)
Definition GOVARRoutingPolicySpec_Validate (s : GOVARRoutingPolicySpec) : list string :=
  let r := grs_Reservation s in
  let m := rp_Method r in
  let requireTokens (name : string) (value : option Z) :=
    match value with Some _ => [] | None => ["reservation." +:+ name] end in
  (if String.eqb m GOVARReservationMean then requireTokens "meanOutputTokens" (rp_MeanOutputTokens r)
   else if String.eqb m GOVARReservationFixedMargin then
     (requireTokens "meanOutputTokens" (rp_MeanOutputTokens r) ++
      requireTokens "marginOutputTokens" (rp_MarginOutputTokens r))%list
   else if String.eqb m GOVARReservationFixedQuantile then
     requireTokens "fixedQuantileOutputTokens" (rp_FixedQuantileOutputTokens r)
   else if String.eqb m GOVARReservationAdaptiveQuantile || String.eqb m GOVARReservationFixedCohort then
     match grs_Calibration s with Some _ => [] | None => ["calibration"] end
   else []) ++
  (if String.eqb m GOVARReservationFixedCohort then
     (match grs_Cohort s with Some _ => [] | None => ["cohort"] end ++
      match grs_Risk s with Some _ => [] | None => ["risk"] end)%list
   else []).

(** ** AIBudgetPolicy *)

Record BudgetTarget : Type := Build_BudgetTarget {
  tgt_Namespace : string;
  tgt_Team : string;
  tgt_Application : string
}.

Record BudgetActions : Type := Build_BudgetActions {
  ba_OnWarning : list string;
  ba_OnCritical : list string;
  ba_OnHardLimit : list string
}.

Record AIBudgetPolicySpec : Type := Build_AIBudgetPolicySpec {
  bs_Target : BudgetTarget;
  bs_Period : string;
  bs_BudgetEUR : Quantity;
  bs_WarningThresholdPercent : Z;
  bs_CriticalThresholdPercent : Z;
  bs_HardLimitPercent : Z;
  bs_Actions : BudgetActions;
  bs_FallbackModelRef : string;
  bs_EnforcementMode : string;
  bs_FallbackOnPhase : string;
  bs_MaxFallbackLatencyMillis : Z;
  bs_MaxFallbackErrorPercent : Z;
  bs_MinFallbackQualityTier : string
}.

Record AIBudgetPolicyStatus : Type := Build_AIBudgetPolicyStatus {
  bst_ObservedGeneration : Z;
  bst_Conditions : list Condition
}.

Record AIBudgetPolicy : Type := Build_AIBudgetPolicy {
  bpol_Meta : ObjectMeta;
  bpol_Spec : AIBudgetPolicySpec;
  bpol_Status : AIBudgetPolicyStatus
}.

(** ** GOVARRouteSnapshot *)

Record RouteSnapshot : Type := Build_RouteSnapshot {
  route_Namespace : string;
  route_ModelName : string;
  route_ModelUID : string;
  route_ModelGeneration : Z;
  route_ModelResourceVersion : string;
  route_ProviderName : string;
  route_ProviderUID : string;
  route_ProviderGeneration : Z;
  route_ProviderResourceVersion : string;
  route_PricingVersion : string;
  route_PricingComplianceHash : string;
  route_RouteBindingName : string;
  route_ProviderDeployment : string;
  route_Cluster : string;
  route_Authority : string;
  route_PathMode : string;
  route_SnapshotHash : string
}.
#[export] Instance route_eta : Eta RouteSnapshot := fun r =>
  Build_RouteSnapshot (route_Namespace r) (route_ModelName r) (route_ModelUID r) (route_ModelGeneration r)
    (route_ModelResourceVersion r) (route_ProviderName r) (route_ProviderUID r) (route_ProviderGeneration r)
    (route_ProviderResourceVersion r) (route_PricingVersion r) (route_PricingComplianceHash r)
    (route_RouteBindingName r) (route_ProviderDeployment r) (route_Cluster r) (route_Authority r)
    (route_PathMode r) (route_SnapshotHash r).

#[export] Instance snap_eta : Eta NormalizedPricingSnapshot := fun s =>
  Build_NormalizedPricingSnapshot (snap_SpecGeneration s) (snap_Version s) (snap_ObservedAt s)
    (snap_ValidUntil s) (snap_Currency s) (snap_Completeness s) (snap_SnapshotSHA256 s) (snap_AdapterVersion s)
    (snap_EvidenceMode s) (snap_EvidenceSHA256 s) (snap_SourceVersion s) (snap_Charges s)
    (snap_InapplicableBases s).

(** ** Functions of Kubernetes libraries the ledger calls

    [Quantity.String] and the JSON of structs with custom marshalers
    ([resource.Quantity], [metav1.Time]), and [fmt.Sprint] of a [float64]. Their
    output is only ever hashed. *)

Class Platform : Type := {
  quantity_String : Quantity -> string;
  json_BudgetSpec : AIBudgetPolicySpec -> string;
  json_GOVARSpec : option GOVARRoutingPolicySpec -> string;
  json_GOVARStatus : option GOVARRoutingPolicyStatus -> string;
  sprint_float : float64 -> string
}.
