(* ===== verification/Json.v ===== *)
(** * [encoding/json]: the encoder on the structs the platform hashes

    [json.Marshal] of structs made of strings, integers, booleans, times and
    lists of them: fields in declaration order, [omitempty] as an absent field.
    Strings are escaped byte by byte, exactly for ASCII; the replacement of
    invalid UTF-8 and the escaping of U+2028 and U+2029 are left out. *)

From Stdlib Require Import ZArith Lia Ascii String.
From stdpp Require Import base strings list pretty.
From S2P Require Import Prelude Digest GoTime.

Definition quote : string := String (ascii_of_N 34) EmptyString.
Definition backslash : string := String (ascii_of_N 92) EmptyString.

Definition json_escape (c : ascii) : string :=
  let n := N_of_ascii c in
  if (n =? 34)%N then backslash +:+ quote
  else if (n =? 92)%N then backslash +:+ backslash
  else if (n =? 8)%N then backslash +:+ "b"
  else if (n =? 12)%N then backslash +:+ "f"
  else if (n =? 10)%N then backslash +:+ "n"
  else if (n =? 13)%N then backslash +:+ "r"
  else if (n =? 9)%N then backslash +:+ "t"
  else if (n <? 32)%N || (n =? 60)%N || (n =? 62)%N || (n =? 38)%N
  then backslash +:+ "u00" +:+ hex_encode [n]
  else String c EmptyString.

Fixpoint json_escape_all (s : string) : string :=
  match s with
  | EmptyString => EmptyString
  | String c s' => json_escape c +:+ json_escape_all s'
  end.

Definition json_string (s : string) : string := quote +:+ json_escape_all s +:+ quote.
Definition json_int (z : Z) : string := pretty z.
Definition json_bool (b : bool) : string := sprint_bool b.
(** [time.Time.MarshalJSON]. *)
Definition json_time (t : Time) : string := json_string (RFC3339Nano t).
(** It fails for a year that takes more or less than four digits. *)
Definition json_time_error (t : Time) : option error :=
  let y := civil_Year (civil_of_day (day_number t)) in
  if (0 <=? y)%Z && (y <=? 9999)%Z then None
  else Some "json: error calling MarshalJSON for type time.Time: Time.MarshalJSON: year outside of range [0,9999]"%string.

(** A field, or nothing for an empty [omitempty] field. *)
Definition field : Type := option (string * string).
Definition fld (name value : string) : field := Some (name, value).
Definition omit_string (name value : string) : field :=
  if String.eqb value "" then None else Some (name, json_string value).
Definition omit_int (name : string) (value : Z) : field :=
  if (value =? 0)%Z then None else Some (name, json_int value).

Definition json_object (fields : list field) : string :=
  "{" +:+ Join (omap (fun f => '(name, value) ← f; Some (json_string name +:+ ":" +:+ value)) fields) "," +:+ "}".
Definition json_array (items : list string) : string := "[" +:+ Join items "," +:+ "]".

(** [strconv.Quote], the verb [%q], on ASCII strings. *)
Definition quote_escape (c : ascii) : string :=
  let n := N_of_ascii c in
  if (n =? 34)%N then backslash +:+ quote
  else if (n =? 92)%N then backslash +:+ backslash
  else if (n =? 7)%N then backslash +:+ "a"
  else if (n =? 8)%N then backslash +:+ "b"
  else if (n =? 12)%N then backslash +:+ "f"
  else if (n =? 10)%N then backslash +:+ "n"
  else if (n =? 13)%N then backslash +:+ "r"
  else if (n =? 9)%N then backslash +:+ "t"
  else if (n =? 11)%N then backslash +:+ "v"
  else if (n <? 32)%N || (n =? 127)%N then backslash +:+ "x" +:+ hex_encode [n]
  else String c EmptyString.
Definition Quote (s : string) : string :=
  quote +:+ Join (map quote_escape (list_ascii_of_string s)) "" +:+ quote.

Example json_example :
  json_object [fld "a" (json_string "x<y"); omit_int "b" 0; fld "c" (json_int (-3)%Z)]
  = "{" +:+ json_string "a" +:+ ":" +:+ quote +:+ "x" +:+ backslash +:+ "u003cy" +:+ quote +:+ ","
        +:+ json_string "c" +:+ ":-3}".
Proof. vm_compute. reflexivity. Qed.

(** ** Texts that delimit themselves *)

(** The text of a value of [P], whatever follows it, gives the value back. *)
Definition delimits {A} (P : A -> Prop) (text : A -> string) : Prop :=
  forall x y a b, P x -> P y -> text x +:+ a = text y +:+ b -> x = y /\ a = b.

(** Reads one character of a string literal back; [None] at the closing quote. *)
Definition hex_value (c : ascii) : N :=
  let n := N_of_ascii c in if (n <? 58)%N then (n - 48)%N else (n - 87)%N.
Definition unescape (s : string) : option (ascii * string) :=
  match s with
  | String c s1 =>
    if Ascii.eqb c (ascii_of_N 34) then None
    else if Ascii.eqb c (ascii_of_N 92) then
      match s1 with
      | String "b"%char s2 => Some (ascii_of_N 8, s2)
      | String "f"%char s2 => Some (ascii_of_N 12, s2)
      | String "n"%char s2 => Some (ascii_of_N 10, s2)
      | String "r"%char s2 => Some (ascii_of_N 13, s2)
      | String "t"%char s2 => Some (ascii_of_N 9, s2)
      | String "u"%char (String _ (String _ (String h (String l s2)))) =>
        Some (ascii_of_N (16 * hex_value h + hex_value l), s2)
      | String d s2 => Some (d, s2)
      | EmptyString => None
      end
    else Some (c, s1)
  | EmptyString => None
  end.

Lemma unescape_escape c s : unescape (json_escape c +:+ s) = Some (c, s).
Proof. by destruct c as [[] [] [] [] [] [] [] []]. Qed.

Lemma json_escape_all_delimits s : forall t a b,
  json_escape_all s +:+ quote +:+ a = json_escape_all t +:+ quote +:+ b -> s = t /\ a = b.
Proof.
  induction s as [|c s IH]; intros [|d t] a b; cbn [json_escape_all]; rewrite ?string_app_nil, ?string_app_assoc; intros E.
  - injection E as E. done.
  - apply (f_equal unescape) in E. rewrite unescape_escape in E. discriminate E.
  - apply (f_equal unescape) in E. rewrite unescape_escape in E. discriminate E.
  - apply (f_equal unescape) in E. rewrite !unescape_escape in E. injection E as -> E.
    by destruct (IH t a b E) as [-> ->].
Qed.

Lemma json_string_delimits : delimits (fun _ => True) json_string.
Proof.
  intros s t a b _ _ E. unfold json_string in E. rewrite !string_app_assoc in E. injection E as E.
  by apply json_escape_all_delimits.
Qed.

(** An integer is delimited by the comma after it. *)
Lemma json_int_delimits i j a b : json_int i +:+ "," +:+ a = json_int j +:+ "," +:+ b -> i = j /\ a = b.
Proof.
  intros E. apply (split_first numeral) in E; [|apply sprint_numeral..| done | done].
  destruct E as [Ei Ea]. apply (inj pretty) in Ei. by injection Ea.
Qed.

(** *** Objects whose values are all strings *)

Definition string_field (f : field) : Prop :=
  match f with Some (_, v) => exists s, v = json_string s | None => True end.
Definition present (fields : list field) : list (string * string) := omap id fields.

Definition json_pairs (l : list (string * string)) : string :=
  Join (map (fun '(name, value) => json_string name +:+ ":" +:+ value) l) ",".
Definition string_pair (p : string * string) : Prop := exists s, p.2 = json_string s.

Lemma Join_cons x y l sep : Join (x :: y :: l) sep = x +:+ sep +:+ Join (y :: l) sep.
Proof. reflexivity. Qed.

Lemma json_pairs_delimit l : forall m a b, Forall string_pair l -> Forall string_pair m ->
  json_pairs l +:+ "}" +:+ a = json_pairs m +:+ "}" +:+ b -> l = m /\ a = b.
Proof.
  unfold json_pairs.
  induction l as [|[n v] l IH]; intros [|[n' v'] m] a b Hl Hm; cbn [map]; intros E.
  - by injection E.
  - destruct m as [|[] m]; cbn [map] in E; rewrite ?Join_cons, ?string_app_assoc in E; discriminate E.
  - destruct l as [|[] l]; cbn [map] in E; rewrite ?Join_cons, ?string_app_assoc in E; discriminate E.
  - apply Forall_cons in Hl as [[s Hs] Hl], Hm as [[s' Hs'] Hm]. cbn [snd] in Hs, Hs'. subst v v'.
    assert (Hsplit : forall (k w : string) rest tail,
      (Join ((json_string k +:+ ":" +:+ w) :: map (fun '(name, value) => json_string name +:+ ":" +:+ value) rest) ",") +:+ tail
      = json_string k +:+ ":" +:+ w +:+ match rest with [] => tail | _ => "," +:+ json_pairs rest +:+ tail end).
    { intros k w [|[k2 w2] rest] tail; cbn [map]; [|rewrite Join_cons; unfold json_pairs; cbn [map]];
        unfold Join; cbn [String.concat]; by rewrite !string_app_assoc. }
    rewrite !Hsplit in E. apply json_string_delimits in E as [-> E]; [|done..].
    apply (string_app_inj ":" ":") in E as [_ E]; [|done].
    apply json_string_delimits in E as [-> E]; [|done..].
    destruct l as [|p l], m as [|q m]; try discriminate E.
    + by injection E.
    + apply (string_app_inj "," ",") in E as [_ E]; [|done]. destruct (IH (q :: m) a b Hl Hm E) as [-> ->]. done.
Qed.

Lemma present_string_pairs fields : Forall string_field fields -> Forall string_pair (present fields).
Proof. induction 1 as [|[[n v]|] l H _ IH]; cbn; [constructor | constructor; done | done]. Qed.

Lemma json_object_text fields : json_object fields = "{" +:+ json_pairs (present fields) +:+ "}".
Proof.
  unfold json_object, json_pairs. do 2 f_equal. unfold Join. f_equal.
  induction fields as [|[[n v]|] l IH]; [done | cbn; by f_equal | done].
Qed.

Lemma json_object_delimits f g a b : Forall string_field f -> Forall string_field g ->
  json_object f +:+ a = json_object g +:+ b -> present f = present g /\ a = b.
Proof.
  intros Hf Hg E. rewrite !json_object_text, !string_app_assoc in E. injection E as E.
  apply json_pairs_delimit; [by apply present_string_pairs..|done].
Qed.

(** Fields of different names, some of them left out, are the fields present. *)
Lemma present_inj names : forall f g, NoDup names ->
  Forall2 (fun n x => match x with Some (m, _) => m = n | None => True end) names f ->
  Forall2 (fun n x => match x with Some (m, _) => m = n | None => True end) names g ->
  present f = present g -> f = g.
Proof.
  induction names as [|n names IH]; intros f g Hnd Hf Hg E.
  { apply Forall2_nil_inv_l in Hf as ->, Hg as ->. done. }
  apply NoDup_cons in Hnd as [Hn Hnd].
  apply Forall2_cons_inv_l in Hf as (x & f' & Hx & Hf & ->), Hg as (y & g' & Hy & Hg & ->).
  assert (Hin : forall h, Forall2 (fun n x => match x with Some (m, _) => m = n | None => True end) names h ->
            forall v rest, present h <> (n, v) :: rest).
  { clear -Hn. intros h Hh v rest Eh. apply Hn.
    assert (Hm : (n, v) ∈ present h) by (rewrite Eh; constructor).
    clear Eh. induction Hh as [|m z names h Hz _ IHh]; [by apply not_elem_of_nil in Hm|].
    destruct z as [[k w]|]; cbn in Hm.
    - apply elem_of_cons in Hm as [Hm|Hm]; [injection Hm as -> ->; subst k; by left|].
      right. apply IHh; [intros H; apply Hn; by right | done].
    - right. apply IHh; [intros H; apply Hn; by right | done]. }
  destruct x as [[k v]|], y as [[k' v']|]; cbn in E.
  - injection E as -> -> E. f_equal. by apply IH.
  - subst k. by destruct (Hin g' Hg v (present f')).
  - subst k'. symmetry in E. by destruct (Hin f' Hf v' (present g')).
  - f_equal. by apply IH.
Qed.
