(* ===== verification/JsonDecode.v ===== *)
(** * [encoding/json]: the decoder

    [json.Unmarshal] into structs of strings, integers, booleans and other
    structs: the scanner, string literals with their escapes and the replacement
    of invalid UTF-8, numbers, nesting up to 10000 levels, and the assignment of
    object members to fields, whose names match exactly or up to case. The parser
    takes fuel, of which one unit per byte is enough; what the encoder of Json.v
    writes for ASCII strings is read back. *)

From Stdlib Require Import ZArith Lia Ascii String.
From stdpp Require Import base strings list pretty.
From S2P Require Import Prelude Digest GoTime Json.

Open Scope string_scope.
Open Scope list_scope.
Open Scope Z_scope.
Open Scope go_scope.

Inductive jvalue : Type :=
| JNull
| JBool (b : bool)
| JNumber (text : string)
| JString (s : string)
| JArray (items : list jvalue)
| JObject (members : list (string * jvalue)).

(** [Spent] is the end of the fuel, which no text reaches (parse_terminates). *)
Inductive parsed (A : Type) : Type :=
| Parsed (x : A) (rest : string)
| Bad
| Spent.
Arguments Parsed {A} x rest.
Arguments Bad {A}.
Arguments Spent {A}.

(** ** Bytes *)

Definition code (c : ascii) : N := N_of_ascii c.
Definition is_byte (n : N) (c : ascii) : bool := (code c =? n)%N.
Definition is_ws (c : ascii) : bool := is_byte 32 c || is_byte 9 c || is_byte 13 c || is_byte 10 c.
Definition is_digit (c : ascii) : bool := ((48 <=? code c) && (code c <=? 57))%N.
Definition between (a b : N) (c : ascii) : bool := ((a <=? code c) && (code c <=? b))%N.

Fixpoint skip_ws (s : string) : string :=
  match s with
  | String c s' => if is_ws c then skip_ws s' else s
  | EmptyString => s
  end.

Fixpoint span_digits (s : string) : string * string :=
  match s with
  | String c s' => if is_digit c then let '(d, r) := span_digits s' in (String c d, r) else (EmptyString, s)
  | EmptyString => (EmptyString, s)
  end.

(** ** String literals *)

Definition unhex_digit (c : ascii) : option N :=
  let n := code c in
  if between 48 57 c then Some (n - 48)%N
  else if between 97 102 c then Some (n - 87)%N
  else if between 65 70 c then Some (n - 55)%N
  else None.
Definition hex4 (a b c d : ascii) : option N :=
  a ← unhex_digit a; b ← unhex_digit b; c ← unhex_digit c; d ← unhex_digit d; Some (((a * 16 + b) * 16 + c) * 16 + d)%N.

(** [utf8.EncodeRune] of a code point. *)
Definition encode_rune (r : N) : string :=
  string_of_bytes
    (if r <? 128 then [r]
     else if r <? 2048 then [192 + r / 64; 128 + r mod 64]
     else if r <? 65536 then [224 + r / 4096; 128 + (r / 64) mod 64; 128 + r mod 64]
     else [240 + r / 262144; 128 + (r / 4096) mod 64; 128 + (r / 64) mod 64; 128 + r mod 64])%N.
Definition replacement : string := encode_rune 65533.
Definition is_surrogate (r : N) : bool := ((55296 <=? r) && (r <? 57344))%N.
Definition combine_surrogates (r1 r2 : N) : option N :=
  if ((55296 <=? r1) && (r1 <? 56320) && (56320 <=? r2) && (r2 <? 57344))%N
  then Some ((r1 - 55296) * 1024 + (r2 - 56320) + 65536)%N else None.

(** The character a one-letter escape stands for. *)
Definition short_escape (c : ascii) : option ascii :=
  if is_byte 34 c then Some c else if is_byte 92 c then Some c else if is_byte 47 c then Some c
  else if is_byte 98 c then Some (ascii_of_N 8) else if is_byte 102 c then Some (ascii_of_N 12)
  else if is_byte 110 c then Some (ascii_of_N 10) else if is_byte 114 c then Some (ascii_of_N 13)
  else if is_byte 116 c then Some (ascii_of_N 9) else None.

Definition tail_byte (c : ascii) : bool := between 128 191 c.
Definition two_bytes (a b : ascii) : bool := between 194 223 a && tail_byte b.
Definition three_bytes (a b c : ascii) : bool :=
  (is_byte 224 a && between 160 191 b || between 225 236 a && tail_byte b || is_byte 237 a && between 128 159 b
   || between 238 239 a && tail_byte b) && tail_byte c.
Definition four_bytes (a b c d : ascii) : bool :=
  (is_byte 240 a && between 144 191 b || between 241 243 a && tail_byte b || is_byte 244 a && between 128 143 b)
  && tail_byte c && tail_byte d.

Definition prepend (x : string) (o : option (string * string)) : option (string * string) :=
  '(s, rest) ← o; Some (x +:+ s, rest).

(** The literal up to its closing quote, and what follows it. *)
Fixpoint string_body (s : string) : option (string * string) :=
  match s with
  | EmptyString => None
  | String c s1 =>
    if is_byte 34 c then Some (EmptyString, s1)
    else if is_byte 92 c then
      match s1 with
      | EmptyString => None
      | String e s2 =>
        if is_byte 117 e then
          match s2 with
          | String h1 (String h2 (String h3 (String h4 s3))) =>
            match hex4 h1 h2 h3 h4 with
            | None => None
            | Some r =>
              if is_surrogate r then
                match s3 with
                | String b (String u (String k1 (String k2 (String k3 (String k4 s4))))) =>
                  match (if is_byte 92 b && is_byte 117 u then r2 ← hex4 k1 k2 k3 k4; combine_surrogates r r2 else None) with
                  | Some rune => prepend (encode_rune rune) (string_body s4)
                  | None => prepend replacement (string_body s3)
                  end
                | _ => prepend replacement (string_body s3)
                end
              else prepend (encode_rune r) (string_body s3)
            end
          | _ => None
          end
        else match short_escape e with
        | Some x => prepend (String x EmptyString) (string_body s2)
        | None => None
        end
      end
    else if (code c <? 32)%N then None
    else if (code c <? 128)%N then prepend (String c EmptyString) (string_body s1)
    else match s1 with
    | String b s2 =>
      if two_bytes c b then prepend (String c (String b EmptyString)) (string_body s2)
      else match s2 with
      | String d s3 =>
        if three_bytes c b d then prepend (String c (String b (String d EmptyString))) (string_body s3)
        else match s3 with
        | String e s4 =>
          if four_bytes c b d e then prepend (String c (String b (String d (String e EmptyString)))) (string_body s4)
          else prepend replacement (string_body s1)
        | EmptyString => prepend replacement (string_body s1)
        end
      | EmptyString => prepend replacement (string_body s1)
      end
    | EmptyString => prepend replacement (string_body s1)
    end
  end.

(** ** Numbers *)

Definition parse_fraction (s : string) : option (string * string) :=
  match s with
  | String c s' =>
    if is_byte 46 c then
      let '(d, rest) := span_digits s' in
      if String.eqb d "" then None else Some (String c d, rest)
    else Some (EmptyString, s)
  | EmptyString => Some (EmptyString, s)
  end.
Definition parse_exponent (s : string) : option (string * string) :=
  match s with
  | String c s' =>
    if is_byte 101 c || is_byte 69 c then
      let '(sign, s'') := match s' with
        | String x r => if is_byte 43 x || is_byte 45 x then (String x EmptyString, r) else (EmptyString, s')
        | EmptyString => (EmptyString, s')
        end in
      let '(d, rest) := span_digits s'' in
      if String.eqb d "" then None else Some (String c (sign +:+ d), rest)
    else Some (EmptyString, s)
  | EmptyString => Some (EmptyString, s)
  end.
Definition parse_integer (s : string) : option (string * string) :=
  match s with
  | String c s' =>
    if is_byte 48 c then Some (String c EmptyString, s')
    else if is_digit c then Some (span_digits s)
    else None
  | EmptyString => None
  end.
Definition parse_number (s : string) : option (string * string) :=
  let '(sign, s1) := match s with
    | String c r => if is_byte 45 c then (String c EmptyString, r) else (EmptyString, s)
    | EmptyString => (EmptyString, s)
    end in
  '(i, s2) ← parse_integer s1; '(f, s3) ← parse_fraction s2; '(e, s4) ← parse_exponent s3;
  Some (sign +:+ i +:+ f +:+ e, s4).

(** ** Values *)

Fixpoint strip_prefix (p s : string) : option string :=
  match p, s with
  | EmptyString, _ => Some s
  | String a p', String b s' => if Ascii.eqb a b then strip_prefix p' s' else None
  | _, EmptyString => None
  end.
Definition keyword (w : string) (v : jvalue) (s : string) : parsed jvalue :=
  match strip_prefix w s with Some rest => Parsed v rest | None => Bad end.

Definition maxNestingDepth : Z := 10000.

(** [parse_members] starts after the brace or the comma, [parse_items] after the
    bracket or the comma. *)
Fixpoint parse_value (n : nat) (depth : Z) (s : string) {struct n} : parsed jvalue :=
  match n with
  | O => Spent
  | S n =>
    match skip_ws s with
    | EmptyString => Bad
    | String c s1 =>
      if is_byte 123 c then
        if maxNestingDepth <? depth + 1 then Bad
        else match skip_ws s1 with
        | String d s2 =>
          if is_byte 125 d then Parsed (JObject []) s2
          else match parse_members n (depth + 1) s1 with
          | Parsed l rest => Parsed (JObject l) rest
          | Bad => Bad
          | Spent => Spent
          end
        | EmptyString => Bad
        end
      else if is_byte 91 c then
        if maxNestingDepth <? depth + 1 then Bad
        else match skip_ws s1 with
        | String d s2 =>
          if is_byte 93 d then Parsed (JArray []) s2
          else match parse_items n (depth + 1) s1 with
          | Parsed l rest => Parsed (JArray l) rest
          | Bad => Bad
          | Spent => Spent
          end
        | EmptyString => Bad
        end
      else if is_byte 34 c then
        match string_body s1 with Some (x, rest) => Parsed (JString x) rest | None => Bad end
      else if is_byte 116 c then keyword "true" (JBool true) (String c s1)
      else if is_byte 102 c then keyword "false" (JBool false) (String c s1)
      else if is_byte 110 c then keyword "null" JNull (String c s1)
      else match parse_number (String c s1) with Some (x, rest) => Parsed (JNumber x) rest | None => Bad end
    end
  end
with parse_members (n : nat) (depth : Z) (s : string) {struct n} : parsed (list (string * jvalue)) :=
  match n with
  | O => Spent
  | S n =>
    match skip_ws s with
    | String q s1 =>
      if is_byte 34 q then
        match string_body s1 with
        | Some (key, s2) =>
          match skip_ws s2 with
          | String colon s3 =>
            if is_byte 58 colon then
              match parse_value n depth s3 with
              | Parsed v s4 =>
                match skip_ws s4 with
                | String d s5 =>
                  if is_byte 125 d then Parsed [(key, v)] s5
                  else if is_byte 44 d then
                    match parse_members n depth s5 with
                    | Parsed l rest => Parsed ((key, v) :: l) rest
                    | Bad => Bad
                    | Spent => Spent
                    end
                  else Bad
                | EmptyString => Bad
                end
              | Bad => Bad
              | Spent => Spent
              end
            else Bad
          | EmptyString => Bad
          end
        | None => Bad
        end
      else Bad
    | EmptyString => Bad
    end
  end
with parse_items (n : nat) (depth : Z) (s : string) {struct n} : parsed (list jvalue) :=
  match n with
  | O => Spent
  | S n =>
    match parse_value n depth s with
    | Parsed v s1 =>
      match skip_ws s1 with
      | String d s2 =>
        if is_byte 93 d then Parsed [v] s2
        else if is_byte 44 d then
          match parse_items n depth s2 with
          | Parsed l rest => Parsed (v :: l) rest
          | Bad => Bad
          | Spent => Spent
          end
        else Bad
      | EmptyString => Bad
      end
    | Bad => Bad
    | Spent => Spent
    end
  end.

(** Two units per byte: an element of an array takes one for itself. *)
Definition fuel_for (s : string) : nat := 2 * String.length s + 2.

Definition json_parse (s : string) : option jvalue :=
  match parse_value (fuel_for s) 0 s with
  | Parsed v rest => if String.eqb (skip_ws rest) "" then Some v else None
  | Bad | Spent => None
  end.

(** ** Assignment to fields *)

Definition json_error : error := "json: cannot unmarshal".

(** [foldName]: simple case folding of the runes that fold to ASCII letters. *)
Fixpoint fold_name (s : string) : string :=
  match s with
  | String a (String b s1 as s0) =>
    if is_byte 197 a && is_byte 191 b then String "S" (fold_name s1)
    else match s1 with
    | String c s2 =>
      if is_byte 226 a && is_byte 132 b && is_byte 170 c then String "K" (fold_name s2)
      else String (ascii_of_N (upper_byte (code a))) (fold_name s0)
    | EmptyString => String (ascii_of_N (upper_byte (code a))) (fold_name s0)
    end
  | String a EmptyString => String (ascii_of_N (upper_byte (code a))) EmptyString
  | EmptyString => EmptyString
  end.

(** The field an object key names: the exact one, or the first up to case. *)
Definition field_named (names : list string) (key : string) : option string :=
  match List.find (String.eqb key) names with
  | Some n => Some n
  | None => List.find (fun n => String.eqb (fold_name key) (fold_name n)) names
  end.

(** Decoding into a value that is already there: [null] leaves it. *)
Definition decode_string (old : string) (v : jvalue) : result string :=
  match v with JString s => Ok s | JNull => Ok old | _ => Err json_error end.

(** [strconv.ParseInt(s, 10, 64)] of the text of a JSON number. *)
Fixpoint digits_value (acc : Z) (s : string) : option Z :=
  match s with
  | EmptyString => Some acc
  | String c s' => if is_digit c then digits_value (acc * 10 + Z.of_N (code c - 48)) s' else None
  end.
Definition parse_int64 (s : string) : option Z :=
  let '(neg, d) := match s with
    | String c r => if is_byte 45 c then (true, r) else (false, s)
    | EmptyString => (false, s)
    end in
  if String.eqb d "" then None
  else n ← digits_value 0 d; let z := if neg : bool then - n else n in if is_int64 z then Some z else None.
Definition decode_int64 (old : Z) (v : jvalue) : result Z :=
  match v with
  | JNumber s => match parse_int64 s with Some z => Ok z | None => Err json_error end
  | JNull => Ok old
  | _ => Err json_error
  end.

(** The members of an object, one after the other; [assign] sets a field by its
    name. *)
Fixpoint decode_members {A} (names : list string) (assign : string -> jvalue -> A -> result A) (old : A)
    (members : list (string * jvalue)) : result A :=
  match members with
  | [] => Ok old
  | (key, v) :: rest =>
    match field_named names key with
    | None => decode_members names assign old rest
    | Some name =>
      match assign name v old with
      | Ok x => decode_members names assign x rest
      | Err m => Err m
      end
    end
  end.
Definition decode_struct {A} (names : list string) (assign : string -> jvalue -> A -> result A) (old : A) (v : jvalue) : result A :=
  match v with
  | JObject members => decode_members names assign old members
  | JNull => Ok old
  | _ => Err json_error
  end.

(** ** Enough fuel *)

Abbreviation len := String.length.

Lemma skip_ws_len s : (len (skip_ws s) <= len s)%nat.
Proof. induction s as [|c s IH]; cbn; [done | destruct (is_ws c); cbn; lia]. Qed.

Lemma span_digits_len s : (len (span_digits s).2 <= len s)%nat.
Proof.
  induction s as [|c s IH]; cbn; [done|]. destruct (is_digit c); [|done]. destruct (span_digits s) as [d r]. cbn in *. lia.
Qed.

Lemma prepend_some x o y rest : prepend x o = Some (y, rest) -> exists z, o = Some (z, rest).
Proof. unfold prepend. destruct o as [[z r]|]; [|discriminate]. cbn. intros E. injection E as _ ->. by exists z. Qed.

Lemma string_body_len n : forall s x rest, (len s <= n)%nat -> string_body s = Some (x, rest) -> (len rest < len s)%nat.
Proof.
  induction n as [|n IH]; intros [|c s1] x rest Hn; cbn [len] in Hn; try lia; [done..|]. cbn [string_body].
  assert (Hrec : forall y s' k, prepend y (string_body s') = Some (x, rest) -> (len s' + k < len (String c s1))%nat ->
            (len s' <= n)%nat -> (len rest < len (String c s1))%nat).
  { intros y s' k [z E]%prepend_some Hk Hl. apply IH in E; cbn [len] in *; lia. }
  repeat first
    [ match goal with |- (if ?b then _ else _) = _ -> _ => destruct b end
    | match goal with |- Some _ = _ -> _ => intros E; injection E as _ <-; cbn [len]; lia end
    | match goal with |- None = _ -> _ => discriminate end
    | match goal with |- prepend _ (string_body _) = _ -> _ => intros E; eapply (Hrec _ _ O E); cbn [len] in *; lia end
    | match goal with |- match ?y with EmptyString => _ | String _ _ => _ end = _ -> _ => is_var y; destruct y end
    | match goal with |- match ?y with Some _ => _ | None => _ end = _ -> _ => destruct y end ].
Qed.

Lemma parse_number_len s x rest : parse_number s = Some (x, rest) -> (len rest < len s)%nat.
Proof.
  unfold parse_number. set (p := match s with EmptyString => _ | String _ _ => _ end).
  assert (Hp : (len p.2 <= len s)%nat) by (unfold p; destruct s as [|c r]; [done | destruct (is_byte 45 c); cbn; lia]).
  destruct p as [sign s1]. cbn [snd] in Hp.
  destruct (parse_integer s1) as [[i s2]|] eqn:Ei; [|discriminate]. cbn [mbind option_bind].
  assert (Hi : (len s2 < len s1)%nat).
  { unfold parse_integer in Ei. destruct s1 as [|c s']; [discriminate|]. destruct (is_byte 48 c); [injection Ei as _ <-; cbn; lia|].
    destruct (is_digit c) eqn:Ed; [|discriminate]. cbn in Ei. rewrite Ed in Ei. pose proof (span_digits_len s') as Hl.
    destruct (span_digits s') as [d r]. injection Ei as _ <-. cbn in *. lia. }
  destruct (parse_fraction s2) as [[f s3]|] eqn:Ef; [|discriminate]. cbn [mbind option_bind].
  assert (Hf : (len s3 <= len s2)%nat).
  { unfold parse_fraction in Ef. destruct s2 as [|c s']; [by injection Ef as _ <-|]. destruct (is_byte 46 c); [|by injection Ef as _ <-].
    pose proof (span_digits_len s') as Hl. destruct (span_digits s') as [d r]. destruct (String.eqb d ""); [discriminate|].
    injection Ef as _ <-. cbn in *. lia. }
  destruct (parse_exponent s3) as [[e s4]|] eqn:Ee; [|discriminate]. cbn [mbind option_bind]. intros E. injection E as _ <-.
  assert (He : (len s4 <= len s3)%nat); [|lia].
  unfold parse_exponent in Ee. destruct s3 as [|c s']; [by injection Ee as _ <-|]. destruct (_ || _); [|by injection Ee as _ <-].
  set (q := match s' with EmptyString => _ | String _ _ => _ end) in Ee.
  assert (Hq : (len q.2 <= len s')%nat) by (unfold q; destruct s' as [|y r]; [done | destruct (_ || _); cbn; lia]).
  destruct q as [sg s'']. cbn [snd] in Hq. pose proof (span_digits_len s'') as Hl. destruct (span_digits s'') as [d r].
  destruct (String.eqb d ""); [discriminate|]. injection Ee as _ <-. cbn in *. lia.
Qed.

Lemma strip_prefix_len p : forall s rest, strip_prefix p s = Some rest -> len s = (len p + len rest)%nat.
Proof.
  induction p as [|a p IH]; intros [|b s] rest; cbn; try discriminate; try (intros E; by injection E as <-).
  destruct (Ascii.eqb a b); [|discriminate]. intros E. by rewrite (IH _ _ E).
Qed.

(** What a parser that got enough fuel returns: never [Spent], and less text. *)
Definition consumes {A} (s : string) (p : parsed A) : Prop :=
  match p with Parsed _ rest => (len rest < len s)%nat | Bad => True | Spent => False end.

Lemma keyword_consumes w v c s : (0 < len w)%nat -> consumes (String c s) (keyword w v (String c s)).
Proof.
  intros Hw. unfold keyword. destruct (strip_prefix w (String c s)) as [rest|] eqn:E; [|done].
  apply strip_prefix_len in E. cbn [consumes]. lia.
Qed.

Lemma parse_consumes n : forall depth s,
  ((2 * len s < n)%nat -> consumes s (parse_value n depth s)) /\
  ((2 * len s < n)%nat -> consumes s (parse_members n depth s)) /\
  ((2 * len s + 1 < n)%nat -> consumes s (parse_items n depth s)).
Proof.
  induction n as [|n IH]; intros depth s; [lia|]. cbn [parse_value parse_members parse_items].
  pose proof (skip_ws_len s) as Hs. split; [|split]; intros Hn.
  - destruct (skip_ws s) as [|c s1] eqn:Ews; [done|]. cbn [len] in Hs.
    assert (Hup : forall p : parsed jvalue, consumes (String c s1) p -> consumes s p).
    { intros [v rest| |] Hp; cbn [consumes len] in *; try done; lia. }
    apply Hup. pose proof (skip_ws_len s1) as Hs1.
    destruct (is_byte 123 c).
    { destruct (_ <? _); [done|]. destruct (skip_ws s1) as [|d s2]; [done|]. cbn [len] in Hs1.
      destruct (is_byte 125 d); [cbn; lia|]. destruct (IH (depth + 1) s1) as (_ & Hm & _). specialize (Hm ltac:(lia)).
      destruct (parse_members n (depth + 1) s1) as [l rest| |]; cbn [consumes len] in *; [lia | done..]. }
    destruct (is_byte 91 c).
    { destruct (_ <? _); [done|]. destruct (skip_ws s1) as [|d s2]; [done|]. cbn [len] in Hs1.
      destruct (is_byte 93 d); [cbn; lia|]. destruct (IH (depth + 1) s1) as (_ & _ & Hm). specialize (Hm ltac:(lia)).
      destruct (parse_items n (depth + 1) s1) as [l rest| |]; cbn [consumes len] in *; [lia | done..]. }
    destruct (is_byte 34 c).
    { destruct (string_body s1) as [[x rest]|] eqn:E; [|done]. apply (string_body_len (len s1)) in E; [cbn; lia | done]. }
    do 3 (match goal with |- consumes _ (if ?b then _ else _) => destruct b end; [apply keyword_consumes; cbn; lia|]).
    destruct (parse_number _) as [[x rest]|] eqn:E; [by apply parse_number_len in E | done].
  - destruct (skip_ws s) as [|q s1]; [done|]. cbn [len] in Hs. destruct (is_byte 34 q); [|done].
    destruct (string_body s1) as [[key s2]|] eqn:Eb; [|done]. apply (string_body_len (len s1)) in Eb; [|done].
    pose proof (skip_ws_len s2) as Hs2. destruct (skip_ws s2) as [|colon s3]; [done|]. cbn [len] in Hs2.
    destruct (is_byte 58 colon); [|done]. destruct (IH depth s3) as (Hv & _ & _). specialize (Hv ltac:(lia)).
    destruct (parse_value n depth s3) as [v s4| |]; cbn [consumes] in Hv; [|done..].
    pose proof (skip_ws_len s4) as Hs4. destruct (skip_ws s4) as [|d s5]; [done|]. cbn [len] in Hs4.
    destruct (is_byte 125 d); [cbn; lia|]. destruct (is_byte 44 d); [|done].
    destruct (IH depth s5) as (_ & Hm & _). specialize (Hm ltac:(lia)).
    destruct (parse_members n depth s5); cbn [consumes] in *; [lia | done..].
  - destruct (IH depth s) as (Hv & _ & _). specialize (Hv ltac:(lia)).
    destruct (parse_value n depth s) as [v s1| |]; cbn [consumes] in Hv; [|done..].
    pose proof (skip_ws_len s1) as Hs1. destruct (skip_ws s1) as [|d s2]; [done|]. cbn [len] in Hs1.
    destruct (is_byte 93 d); [cbn; lia|]. destruct (is_byte 44 d); [|done].
    destruct (IH depth s2) as (_ & _ & Hm). specialize (Hm ltac:(lia)).
    destruct (parse_items n depth s2); cbn [consumes] in *; [lia | done..].
Qed.

(** The parser never runs out of the fuel it is given. *)
Lemma parse_terminates s depth : parse_value (fuel_for s) depth s <> Spent.
Proof.
  destruct (parse_consumes (fuel_for s) depth s) as (Hv & _). unfold fuel_for in *. specialize (Hv ltac:(lia)).
  by destruct (parse_value _ depth s).
Qed.

(** ** What is written is read back *)

Definition ascii_string (s : string) : bool := forallb (fun b => (b <? 128)%N) (bytes_of s).
Definition nonzero_digit (c : ascii) : bool := between 49 57 c.
Fixpoint all_digits (s : string) : bool :=
  match s with String c s' => is_digit c && all_digits s' | EmptyString => true end.
Definition natural_text (s : string) : bool :=
  match s with
  | String c s' => if is_byte 48 c then String.eqb s' "" else nonzero_digit c && all_digits s'
  | EmptyString => false
  end.
(** The texts of integers that the encoder writes. *)
Definition integer_text (s : string) : bool :=
  match s with String c s' => if is_byte 45 c then natural_text s' else natural_text s | EmptyString => false end.

Fixpoint jtext (v : jvalue) : string :=
  match v with
  | JNull => "null"
  | JBool b => json_bool b
  | JNumber t => t
  | JString s => json_string s
  | JArray l => "[" +:+ Join (map jtext l) "," +:+ "]"
  | JObject l => "{" +:+ json_pairs (map (fun '(k, v) => (k, jtext v)) l) +:+ "}"
  end.
Fixpoint jok (depth : Z) (v : jvalue) : bool :=
  match v with
  | JNumber t => integer_text t
  | JString s => ascii_string s
  | JArray l => (depth + 1 <=? maxNestingDepth) && forallb (jok (depth + 1)) l
  | JObject l => (depth + 1 <=? maxNestingDepth) && forallb (fun '(k, v) => ascii_string k && jok (depth + 1) v) l
  | _ => true
  end.

Lemma string_body_quote rest : string_body (quote +:+ rest) = Some ("", rest).
Proof. reflexivity. Qed.

Lemma string_body_escape c s : (code c <? 128)%N = true ->
  string_body (json_escape c +:+ s) = prepend (String c EmptyString) (string_body s).
Proof. destruct c as [[] [] [] [] [] [] [] []]; intros Hc; first [discriminate Hc | reflexivity]. Qed.

Lemma string_body_literal s rest : ascii_string s = true -> string_body (json_escape_all s +:+ quote +:+ rest) = Some (s, rest).
Proof.
  induction s as [|c s IH]; intros Hs; [apply string_body_quote|].
  unfold ascii_string in Hs. cbn [bytes_of list_ascii_of_string map forallb] in Hs. apply andb_prop in Hs as [Hc Hs].
  cbn [json_escape_all]. rewrite string_app_assoc, string_body_escape by exact Hc. by rewrite IH.
Qed.

Definition ends_number (s : string) : bool :=
  match s with String c _ => negb (is_digit c || is_byte 46 c || is_byte 101 c || is_byte 69 c) | EmptyString => true end.

Lemma span_digits_all d rest : all_digits d = true -> ends_number rest = true -> span_digits (d +:+ rest) = (d, rest).
Proof.
  intros Hd Hr. induction d as [|c d IH]; rewrite ?string_app_cons, ?string_app_nil.
  - destruct rest as [|c r]; [done|]. cbn [ends_number span_digits] in *.
    destruct (is_digit c) eqn:E; [discriminate Hr | reflexivity].
  - cbn [all_digits] in Hd. apply andb_prop in Hd as [Hc Hd]. cbn [span_digits]. by rewrite Hc, IH.
Qed.

Lemma natural_parses d rest : natural_text d = true -> ends_number rest = true ->
  parse_integer (d +:+ rest) = Some (d, rest).
Proof.
  intros Hd Hr. destruct d as [|c d]; [discriminate|]. cbn [natural_text] in Hd. rewrite string_app_cons. cbn [parse_integer]. destruct (is_byte 48 c) eqn:E0.
  - apply String.eqb_eq in Hd as ->. done.
  - apply andb_prop in Hd as [Hc Hd].
    assert (Hdig : is_digit c = true) by (revert Hc; unfold nonzero_digit, between, is_digit; destruct c as [[] [] [] [] [] [] [] []]; done).
    rewrite Hdig. f_equal. apply (span_digits_all (String c d)); [cbn [all_digits]; by rewrite Hdig | done].
Qed.

Lemma integer_parses t rest : integer_text t = true -> ends_number rest = true -> parse_number (t +:+ rest) = Some (t, rest).
Proof.
  intros Ht Hr. unfold parse_number.
  assert (Hend : forall i, parse_fraction rest = Some ("", rest) /\ parse_exponent rest = Some ("", rest) /\ i +:+ "" +:+ "" = i).
  { intros i. rewrite string_app_nil. split; [|split; [|by induction i as [|c i IH]; [|rewrite string_app_cons, IH]]].
    - destruct rest as [|c r]; [done|]. cbn [ends_number parse_fraction parse_exponent] in *. bool_to_prop.
      by repeat match goal with H : _ = false |- _ => rewrite H; clear H end.
    - destruct rest as [|c r]; [done|]. cbn [ends_number parse_fraction parse_exponent] in *. bool_to_prop.
      by repeat match goal with H : _ = false |- _ => rewrite H; clear H end. }
  destruct t as [|c t]; [discriminate|]. cbn [integer_text] in Ht. rewrite string_app_cons. destruct (is_byte 45 c) eqn:E.
  - cbn [mbind]. rewrite natural_parses by done. cbn [mbind option_bind].
    destruct (Hend t) as (Hf & He & Ha). rewrite Hf. cbn [mbind option_bind]. rewrite He. cbn [mbind option_bind]. by rewrite Ha.
  - change (String c (t +:+ rest)) with (String c t +:+ rest). rewrite natural_parses by done. cbn [mbind option_bind].
    destruct (Hend (String c t)) as (Hf & He & Ha). rewrite Hf. cbn [mbind option_bind]. rewrite He. cbn [mbind option_bind]. by rewrite Ha.
Qed.

Lemma skip_ws_not c s : is_ws c = false -> skip_ws (String c s) = String c s.
Proof. intros Hc. cbn [skip_ws]. by rewrite Hc. Qed.

(** The first character of a value decides how it is read. *)
Lemma integer_first t : integer_text t = true -> exists c t', t = String c t' /\
  is_ws c = false /\ is_byte 123 c = false /\ is_byte 91 c = false /\ is_byte 34 c = false /\ is_byte 116 c = false /\
  is_byte 102 c = false /\ is_byte 110 c = false.
Proof.
  destruct t as [|c t]; [discriminate|]. intros Ht. exists c, t. split; [done|].
  assert (Hc : is_byte 45 c = true \/ is_byte 48 c = true \/ nonzero_digit c = true).
  { cbn [integer_text] in Ht. destruct (is_byte 45 c); [by left|]. cbn [natural_text] in Ht.
    destruct (is_byte 48 c); [by right; left|]. apply andb_prop in Ht as [Ht _]. by right; right. }
  clear Ht. revert Hc. unfold nonzero_digit. by destruct c as [[] [] [] [] [] [] [] []]; intros [Hc | [Hc | Hc]]; try discriminate Hc.
Qed.

Definition members_text (l : list (string * jvalue)) : string := json_pairs (map (fun '(k, v) => (k, jtext v)) l).
Definition items_text (l : list jvalue) : string := Join (map jtext l) ",".

Lemma members_text_cons k v l rest : members_text ((k, v) :: l) +:+ "}" +:+ rest =
  json_string k +:+ ":" +:+ jtext v +:+ (match l with [] => "}" +:+ rest | _ => "," +:+ members_text l +:+ "}" +:+ rest end).
Proof.
  unfold members_text, json_pairs. destruct l as [|[k2 v2] l]; cbn [map]; [|rewrite Join_cons];
    unfold Join; cbn [String.concat]; by rewrite !string_app_assoc.
Qed.
Lemma items_text_cons v l rest : items_text (v :: l) +:+ "]" +:+ rest =
  jtext v +:+ (match l with [] => "]" +:+ rest | _ => "," +:+ items_text l +:+ "]" +:+ rest end).
Proof.
  unfold items_text. destruct l as [|v2 l]; cbn [map]; [done | rewrite Join_cons]. by rewrite !string_app_assoc.
Qed.

Lemma json_string_first k rest : skip_ws (json_string k +:+ rest) = String (ascii_of_N 34) (json_escape_all k +:+ quote +:+ rest).
Proof. unfold json_string. by rewrite !string_app_assoc. Qed.

Lemma members_text_first l rest : l <> [] -> exists s', members_text l +:+ "}" +:+ rest = String (ascii_of_N 34) s'.
Proof.
  destruct l as [|[k v] l]; [done|]. intros _. rewrite members_text_cons. unfold json_string. rewrite !string_app_assoc. by eexists.
Qed.

Lemma jtext_first depth v rest : jok depth v = true -> exists c s', jtext v +:+ rest = String c s' /\ is_ws c = false /\ is_byte 93 c = false.
Proof.
  destruct v as [|b|t|s|l|l]; cbn [jok jtext]; intros Hok.
  - by eexists _, _.
  - destruct b; by eexists _, _.
  - destruct (integer_first t Hok) as (c & t' & -> & Hw & H1 & H2 & _). exists c, (t' +:+ rest). split; [done|]. split; [done|].
    revert Hok. cbn [integer_text natural_text]. unfold nonzero_digit. by destruct c as [[] [] [] [] [] [] [] []].
  - unfold json_string. rewrite !string_app_assoc. by eexists _, _.
  - rewrite !string_app_assoc. by eexists _, _.
  - rewrite !string_app_assoc. by eexists _, _.
Qed.

Definition member_ok (depth : Z) (p : string * jvalue) : bool := ascii_string p.1 && jok depth p.2.

Lemma jok_members depth l : forallb (fun '(k, v) => ascii_string k && jok depth v) l = forallb (member_ok depth) l.
Proof. induction l as [|[k v] l IH]; [done|]. cbn [forallb]. by rewrite IH. Qed.

Lemma ends_after_member l rest : ends_number (match l : list (string * jvalue) with [] => "}" +:+ rest | _ => "," +:+ members_text l +:+ "}" +:+ rest end) = true.
Proof. by destruct l. Qed.
Lemma ends_after_item l rest : ends_number (match l : list jvalue with [] => "]" +:+ rest | _ => "," +:+ items_text l +:+ "]" +:+ rest end) = true.
Proof. by destruct l. Qed.

Lemma len_cons c s : len (String c s) = S (len s).
Proof. reflexivity. Qed.
Lemma len_json_string k : len (json_string k) = (2 + len (json_escape_all k))%nat.
Proof. unfold json_string, quote. rewrite !string_length_app. cbn. lia. Qed.

Lemma parse_jtext n :
  (forall depth v rest, (2 * len (jtext v +:+ rest) < n)%nat -> jok depth v = true -> ends_number rest = true ->
     parse_value n depth (jtext v +:+ rest) = Parsed v rest) /\
  (forall depth l rest, l <> [] -> (2 * len (members_text l +:+ "}" +:+ rest) < n)%nat -> forallb (member_ok depth) l = true ->
     parse_members n depth (members_text l +:+ "}" +:+ rest) = Parsed l rest) /\
  (forall depth l rest, l <> [] -> (2 * len (items_text l +:+ "]" +:+ rest) + 1 < n)%nat -> forallb (jok depth) l = true ->
     parse_items n depth (items_text l +:+ "]" +:+ rest) = Parsed l rest).
Proof.
  induction n as [|n [IHv [IHm IHi]]]; [split; [|split]; intros; lia|]. split; [|split].
  - intros depth v rest Hn Hok Hr. cbn [parse_value]. destruct v as [|b|t|s|l|l].
    + reflexivity.
    + destruct b; reflexivity.
    + cbn [jok jtext] in *. destruct (integer_first t Hok) as (c & t' & Et & Hw & H1 & H2 & H3 & H4 & H5 & H6).
      pose proof (integer_parses t rest Hok Hr) as Hp. rewrite Et in Hp |- *. rewrite string_app_cons in Hp |- *.
      rewrite skip_ws_not, H1, H2, H3, H4, H5, H6, Hp by done. done.
    + cbn [jok jtext] in *. rewrite json_string_first. cbn [is_byte code N_of_ascii]. 
      change (is_byte 123 (ascii_of_N 34)) with false. change (is_byte 91 (ascii_of_N 34)) with false.
      change (is_byte 34 (ascii_of_N 34)) with true. cbv iota. by rewrite string_body_literal.
    + cbn [jok jtext] in *. apply andb_prop in Hok as [Hd Hok]. rewrite !string_app_assoc in Hn |- *. rewrite string_app_cons, string_app_nil in Hn |- *.
      rewrite skip_ws_not by done. change (is_byte 123 "[") with false. change (is_byte 91 "[") with true. cbv iota.
      rewrite (proj2 (Z.ltb_ge _ _)) by lia. fold (items_text l) in *. destruct l as [|v l]; [done|].
      destruct (jtext_first (depth + 1) v (match l with [] => "]" +:+ rest | _ => "," +:+ items_text l +:+ "]" +:+ rest end)) as (c & s' & Ec & Hw & Hb);
        [cbn [forallb] in Hok; apply andb_prop in Hok as [Hv _]; exact Hv|].
      rewrite <- items_text_cons in Ec. rewrite Ec in Hn |- *. rewrite skip_ws_not, Hb by done. rewrite <- Ec in Hn |- *.
      rewrite len_cons in Hn. rewrite IHi by (done || lia). done.
    + cbn [jok jtext] in *. apply andb_prop in Hok as [Hd Hok]. rewrite !string_app_assoc in Hn |- *. rewrite string_app_cons, string_app_nil in Hn |- *.
      rewrite skip_ws_not by done. change (is_byte 123 "{") with true. cbv iota.
      rewrite (proj2 (Z.ltb_ge _ _)) by lia. fold (members_text l) in *. destruct l as [|p l]; [done|].
      destruct (members_text_first (p :: l) rest ltac:(done)) as (s' & Ec). rewrite Ec in Hn |- *. rewrite skip_ws_not by done.
      change (is_byte 125 (ascii_of_N 34)) with false. cbv iota. rewrite <- Ec in Hn |- *. rewrite jok_members in Hok.
      rewrite len_cons in Hn. rewrite IHm by (done || lia). done.
  - intros depth l rest Hne Hn Hok. destruct l as [|[k v] l]; [done|]. cbn [parse_members].
    cbn [forallb] in Hok. apply andb_prop in Hok as [Hkv Hok]. apply andb_prop in Hkv as [Hk Hv]. cbn [fst snd] in Hk, Hv.
    rewrite members_text_cons in Hn |- *. rewrite json_string_first. change (is_byte 34 (ascii_of_N 34)) with true. cbv iota.
    rewrite string_body_literal by done. rewrite string_app_cons, string_app_nil in Hn |- *. rewrite skip_ws_not by done.
    change (is_byte 58 ":") with true. cbv iota. rewrite string_length_app, len_cons, len_json_string in Hn.
    rewrite IHv by (try done; try apply ends_after_member; lia).
    rewrite string_length_app in Hn. destruct l as [|p l]; [done|]. rewrite string_app_cons, string_app_nil, len_cons in Hn.
    rewrite string_app_cons, string_app_nil. rewrite skip_ws_not by done. change (is_byte 125 ",") with false.
    change (is_byte 44 ",") with true. cbv iota. rewrite IHm by (done || lia). done.
  - intros depth l rest Hne Hn Hok. destruct l as [|v l]; [done|]. cbn [parse_items].
    cbn [forallb] in Hok. apply andb_prop in Hok as [Hv Hok]. rewrite items_text_cons in Hn |- *.
    rewrite IHv by (try done; try apply ends_after_item; lia).
    rewrite string_length_app in Hn. destruct l as [|p l]; [done|]. rewrite string_app_cons, string_app_nil, len_cons in Hn.
    rewrite string_app_cons, string_app_nil. rewrite skip_ws_not by done. change (is_byte 93 ",") with false.
    change (is_byte 44 ",") with true. cbv iota. rewrite IHi by (done || lia). done.
Qed.

Lemma string_app_nil_end s : s +:+ "" = s.
Proof. induction s as [|c s IH]; [done | by rewrite string_app_cons, IH]. Qed.

Theorem json_parse_jtext v : jok 0 v = true -> json_parse (jtext v) = Some v.
Proof.
  intros Hok. unfold json_parse. destruct (parse_jtext (fuel_for (jtext v))) as (Hv & _).
  specialize (Hv 0 v ""). rewrite !string_app_nil_end in Hv. rewrite Hv; [done | unfold fuel_for; lia | done..].
Qed.

(** *** Integers *)

Lemma pretty_digit x : (x < 10)%N -> pretty_N_char x = ascii_of_N (48 + x).
Proof. intros Hx. assert (Hc : (x = 0 \/ x = 1 \/ x = 2 \/ x = 3 \/ x = 4 \/ x = 5 \/ x = 6 \/ x = 7 \/ x = 8 \/ x = 9)%N) by lia.
  destruct Hc as [-> | [-> | [-> | [-> | [-> | [-> | [-> | [-> | [-> | ->]]]]]]]]]; reflexivity. Qed.

Lemma code_digit x : (x < 10)%N -> code (pretty_N_char x) = (48 + x)%N.
Proof. intros Hx. rewrite pretty_digit by done. unfold code. rewrite N_ascii_embedding; lia. Qed.

Lemma digit_is_digit x : (x < 10)%N -> is_digit (pretty_N_char x) = true.
Proof. intros Hx. unfold is_digit. rewrite code_digit by done. rewrite !(proj2 (N.leb_le _ _)) by lia. done. Qed.

(** The digits of a positive number: no leading zero, and they denote it. *)
Lemma pretty_N_go_spec x : forall s, (0 < x)%N -> all_digits s = true ->
  exists c d, pretty_N_go x s = String c d /\ is_byte 48 c = false /\ is_byte 45 c = false /\ nonzero_digit c = true /\ all_digits d = true /\
    digits_value 0 (pretty_N_go x s) = digits_value (Z.of_N x) s.
Proof.
  induction x as [x IH] using (well_founded_induction N.lt_wf_0). intros s Hx Hs.
  rewrite pretty_N_go_step by lia. assert (Hm : (x mod 10 < 10)%N) by (apply N.mod_lt; lia).
  assert (Hdm : (x = 10 * (x / 10) + x mod 10)%N) by (apply N.div_mod; lia).
  set (m := (x mod 10)%N) in *. clearbody m. set (ch := pretty_N_char m).
  assert (Hdig : is_digit ch = true) by by apply digit_is_digit.
  assert (Hval : forall acc, digits_value acc (String ch s) = digits_value (acc * 10 + Z.of_N m) s).
  { intros acc. cbn [digits_value]. rewrite Hdig. unfold ch. rewrite code_digit by done. f_equal. lia. }
  destruct (decide (x / 10 = 0)%N) as [E|E].
  - rewrite E, pretty_N_go_0. exists ch, s. split; [done|]. assert (Hc : code ch = (48 + m)%N) by by apply code_digit.
    unfold is_byte, nonzero_digit, between. rewrite Hc. rewrite E in Hdm.
    rewrite !(proj2 (N.eqb_neq _ _)), !(proj2 (N.leb_le _ _)) by lia. repeat split; try done.
    rewrite Hval. f_equal. lia.
  - destruct (IH (x / 10)%N ltac:(apply N.div_lt; lia) (String ch s) ltac:(lia)) as (c & d & E1 & H0 & H45 & Hn & Hd & Hv);
      [cbn [all_digits]; by rewrite Hdig|].
    exists c, d. rewrite E1 in Hv |- *. repeat split; try done. rewrite Hv, Hval. f_equal. lia.
Qed.

Lemma natural_pretty x : natural_text (pretty (x : N)) = true /\ digits_value 0 (pretty (x : N)) = Some (Z.of_N x) /\
  exists c d, pretty x = String c d /\ is_byte 45 c = false.
Proof.
  unfold pretty, pretty_N. destruct (decide (x = 0)%N) as [->|Hx]; [repeat split; by eexists _, _|].
  destruct (pretty_N_go_spec x "" ltac:(lia) eq_refl) as (c & d & E & H0 & H45 & Hn & Hd & Hv).
  rewrite Hv, E. cbn [natural_text]. rewrite H0, Hn, Hd. repeat split. by exists c, d.
Qed.

Lemma pretty_Z_cases (z : Z) : (exists x : N, z = Z.of_N x /\ pretty z = pretty x) \/
  (exists x : N, z = - Z.of_N x /\ (0 < x)%N /\ pretty z = String "-" (pretty x)).
Proof.
  destruct z as [|p|p]; [left; by exists 0%N | left; by exists (N.pos p) | right; exists (N.pos p); by repeat split].
Qed.

Lemma integer_pretty (z : Z) : integer_text (pretty z) = true.
Proof.
  destruct (pretty_Z_cases z) as [(x & _ & ->) | (x & _ & _ & ->)].
  - destruct (natural_pretty x) as (Hn & _ & c & d & E & H45). rewrite E in Hn |- *. cbn [integer_text]. by rewrite H45.
  - cbn [integer_text]. change (is_byte 45 "-") with true. cbv iota. apply natural_pretty.
Qed.

Lemma parse_int64_pretty (z : Z) : is_int64 z = true -> parse_int64 (pretty z) = Some z.
Proof.
  intros Hz. unfold parse_int64. destruct (pretty_Z_cases z) as [(x & Ez & ->) | (x & Ez & _ & ->)].
  - destruct (natural_pretty x) as (Hn & Hv & c & d & E & H45). rewrite E in Hn, Hv |- *. rewrite H45. cbn [String.eqb].
    rewrite Hv. cbn [mbind option_bind]. rewrite <- Ez. by rewrite Hz.
  - destruct (natural_pretty x) as (_ & Hv & c & d & E & _). change (is_byte 45 "-") with true. cbv iota.
    rewrite E in Hv |- *. cbn [String.eqb]. rewrite Hv. cbn [mbind option_bind]. rewrite <- Ez. by rewrite Hz.
Qed.
