(* ===== verification/PlatformCrypto.v ===== *)
(** * Signatures and canonical digests of the platform

    [pkg/crypto]: Ed25519 with its hex coding, and the canonical JSON text whose
    digest the scheduler compares: the members of every object sorted by key. *)

From Stdlib Require Import ZArith Lia Ascii String.
From stdpp Require Import base gmap strings list pretty.
From S2P Require Import Prelude Digest GoTime Json JsonDecode.

Open Scope string_scope.
Open Scope list_scope.
Open Scope Z_scope.
Open Scope go_scope.

(** ** Ed25519 *)

(** [crypto/ed25519] on byte strings. *)
Class Ed25519 : Type := {
  private_key : Type;
  public_key : Type;
  ed25519_sign : private_key -> string -> string;
  ed25519_verify : public_key -> string -> string -> bool
}.

(** What RFC 8032 promises: the signature of a private key verifies under its public
    key. *)
Class Ed25519Laws `{Ed25519} : Type := {
  public_of : private_key -> public_key;
  ed25519_correct : forall key message, ed25519_verify (public_of key) message (ed25519_sign key message) = true
}.

(** [hex.DecodeString], which accepts both cases. *)
Fixpoint hex_decode (s : string) : option (list N) :=
  match s with
  | EmptyString => Some []
  | String a (String b s') => a ← unhex_digit a; b ← unhex_digit b; l ← hex_decode s'; Some ((a * 16 + b)%N :: l)
  | String _ EmptyString => None
  end.

Section hex_coding.
Context `{Ed25519}.

Definition Ed25519Sign (priv : private_key) (data : string) : string := hex_encode (bytes_of (ed25519_sign priv data)).
Definition Ed25519Verify (pub : public_key) (data sigHex : string) : result bool :=
  match hex_decode sigHex with
  | None => Err "decode signature hex: encoding/hex: invalid text"
  | Some sig => Ok (ed25519_verify pub data (string_of_bytes sig))
  end.

Lemma unhex_hex n : (n < 16)%N -> unhex_digit (hex_digit n) = Some n.
Proof.
  intros Hn. rewrite <- (N2Nat.id n). assert (Hk : (N.to_nat n < 16)%nat) by lia. generalize dependent (N.to_nat n). intros k Hk.
  do 16 (destruct k as [|k]; [reflexivity|]). lia.
Qed.

Lemma hex_decode_encode l : Forall (fun b => (b < 256)%N) l -> hex_decode (hex_encode l) = Some l.
Proof.
  induction 1 as [|b l Hb _ IH]; [done|]. cbn [hex_encode hex_decode].
  change 15%N with (N.ones 4). rewrite N.land_ones, N.shiftr_div_pow2. change (2 ^ 4)%N with 16%N.
  rewrite !unhex_hex, IH by (try (apply N.mod_lt; lia); apply N.Div0.div_lt_upper_bound; lia).
  cbn [mbind option_bind]. do 2 f_equal. pose proof (N.div_mod b 16). lia.
Qed.

Lemma string_of_bytes_of s : string_of_bytes (bytes_of s) = s.
Proof.
  unfold string_of_bytes, bytes_of. rewrite map_map.
  rewrite (map_ext _ (fun c => c)) by apply ascii_N_embedding. by rewrite map_id, string_of_list_ascii_of_string.
Qed.

Lemma signature_verifies `{!Ed25519Laws} key message : Ed25519Verify (public_of key) message (Ed25519Sign key message) = Ok true.
Proof.
  unfold Ed25519Verify, Ed25519Sign. rewrite hex_decode_encode by apply bytes_of_bounded.
  by rewrite string_of_bytes_of, ed25519_correct.
Qed.

Lemma hex_ascii s : forallb lower_hex (bytes_of s) = true -> ascii_string s = true.
Proof.
  unfold ascii_string. generalize (bytes_of s). intros l Hl. apply forallb_forall. intros b Hb.
  rewrite forallb_forall in Hl. specialize (Hl b Hb). unfold lower_hex in Hl.
  apply N.ltb_lt. apply orb_prop in Hl as [Hl|Hl]; apply andb_prop in Hl as [_ Hl]; apply N.leb_le in Hl; lia.
Qed.

Lemma signature_ascii key message : ascii_string (Ed25519Sign key message) = true.
Proof. apply hex_ascii, hex_encode_lower, bytes_of_bounded. Qed.
End hex_coding.

(** ** Canonical JSON *)

Section canonical.
Context `{Crypto}.
(** The text [json.Marshal] gives for the [float64] that a number is decoded into. *)
Context (float_text : string -> string).

Definition sorted_members (l : list (string * string)) : list (string * string) :=
  sort_slice (fun a b => string_ltb a.1 b.1) (map_to_list (list_to_map (rev l) : gmap string string)).

(** [writeCanonicalJSON]; a key that occurs twice keeps its last value. *)
Fixpoint writeCanonicalJSON (v : jvalue) : string :=
  match v with
  | JNull => "null"
  | JBool b => json_bool b
  | JNumber t => float_text t
  | JString s => json_string s
  | JArray l => "[" +:+ Join (map writeCanonicalJSON l) "," +:+ "]"
  | JObject l => "{" +:+ json_pairs (sorted_members (map (fun '(k, v) => (k, writeCanonicalJSON v)) l)) +:+ "}"
  end.

(** [raw] is what [json.Marshal] wrote. *)
Definition CanonicalJSON (raw : result string) : result string :=
  match raw with
  | Err m => Err ("marshal canonical json input: " +:+ m)
  | Ok text =>
    match json_parse text with
    | None => Err ("unmarshal canonical json input: " +:+ json_error)
    | Some v => Ok (writeCanonicalJSON v)
    end
  end.
Definition CanonicalSHA256Hex (raw : result string) : result string :=
  match CanonicalJSON raw with Ok text => Ok (sha256_hex text) | Err m => Err m end.

(** *** The canonical text does not depend on the order of members *)

Lemma sorted_members_perm l m : NoDup l.*1 -> Permutation l m -> sorted_members l = sorted_members m.
Proof.
  intros Hnd Hp. unfold sorted_members. do 2 f_equal.
  assert (Hr : Permutation (rev l) l) by (symmetry; apply Permutation_rev).
  apply list_to_map_proper; [by rewrite Hr|]. by rewrite Hr, Hp, <- Permutation_rev.
Qed.

Lemma canonical_order l m : NoDup l.*1 -> Permutation l m ->
  writeCanonicalJSON (JObject l) = writeCanonicalJSON (JObject m).
Proof.
  intros Hnd Hp. cbn [writeCanonicalJSON]. do 3 f_equal. apply sorted_members_perm; [|by apply Permutation_map].
  replace (map _ l).*1 with l.*1; [done|]. clear. induction l as [|[k v] l IH]; [done|]. cbn. by f_equal.
Qed.
End canonical.

(** ** A scheme that satisfies the laws *)

Module SharedKey.
#[local] Existing Instance go_crypto.
(** A signature with one shared key in place of Ed25519; enough for the laws. *)
#[export] Instance mac_scheme : Ed25519 := {|
  private_key := string; public_key := string; ed25519_sign := hmac_sha256_hex;
  ed25519_verify := fun key message signature => String.eqb (hmac_sha256_hex key message) signature
|}.
#[export] Instance mac_scheme_laws : Ed25519Laws.
Proof.
  refine {| public_of := fun key : @private_key mac_scheme => key : @public_key mac_scheme |}.
  intros key message. cbn. by rewrite String.eqb_refl.
Defined.
End SharedKey.
