(* ===== verification/Pricing.v ===== *)
(** * Provider pricing: normalization, reservation and settlement of charges

    [internal/govarpricing/pricing.go] and [internal/govar/money.go]: the
    partition of the billable bases, the included-charge graph, the digest of a
    pricing snapshot, and the integer-micro arithmetic of reserved and actual
    charge components. *)

From Stdlib Require Import ZArith Lia Ascii String.
From stdpp Require Import base gmap strings list pretty sorting.
From S2P Require Import Prelude Digest GoTime Api.

Open Scope string_scope.
Open Scope list_scope.
Open Scope Z_scope.
Open Scope go_scope.

Definition CurrentAdapterVersion : string := "govar-pricing-v1".

Definition AllBases : list Basis :=
  [ProviderBasisInputTokens; ProviderBasisCachedInputTokens; ProviderBasisOutputTokens;
   ProviderBasisReasoningTokens; ProviderBasisRequest; ProviderBasisToolCall; ProviderBasisMediaUnit;
   ProviderBasisBillableSecond; ProviderBasisCancellation; ProviderBasisRetryAttempt].

Record Evidence : Type := Build_Evidence {
  ev_Mode : string;
  ev_SHA256 : string;
  ev_SourceVersion : string
}.

Record UsageQuantity : Type := Build_UsageQuantity { uq_Basis : Basis; uq_Quantity : Z }.

Record RequestChargeContext : Type := Build_RequestChargeContext {
  ctx_InputTokens : Z;
  ctx_OutputTokens : Z;
  ctx_MaxToolCalls : Z;
  ctx_MaxMediaUnits : Z;
  ctx_TimeoutSeconds : Z;
  ctx_MaxRetryAttempts : Z;
  ctx_CancellationPossible : bool;
  ctx_DeclaredBounds : list UsageQuantity
}.

Record ChargeComponent : Type := Build_ChargeComponent {
  cc_Basis : Basis;
  cc_Quantity : Z;
  cc_PriceMicrosPerUnit : Z;
  cc_UnitDenominator : Z;
  cc_ReservedMicros : Z
}.

Record ActualChargeComponent : Type := Build_ActualChargeComponent {
  ac_Basis : Basis;
  ac_Quantity : Z;
  ac_PriceMicrosPerUnit : Z;
  ac_UnitDenominator : Z;
  ac_ActualMicros : Z;
  ac_ReservedQuantity : Z;
  ac_ExceededBound : bool
}.

(** ** Closed sets *)

Definition isBasis (b : Basis) : bool := existsb (String.eqb b) AllBases.
Definition validEvidenceMode (m : string) : bool :=
  String.eqb m ProviderEvidenceCatalog || String.eqb m ProviderEvidenceAPI || String.eqb m ProviderEvidenceAdminAttested.
Definition validApplicability (a : string) : bool :=
  String.eqb a ProviderChargeAlways || String.eqb a ProviderChargeRequestDeclared
  || String.eqb a ProviderChargeProviderResponse.

(** [ForProviderType]: the adapter's family. *)
Definition ForProviderType (providerType : string) : result string :=
  let t := ToLower (TrimSpace providerType) in
  if String.eqb t "openai" || String.eqb t "azure-openai" then Ok t
  else Err "no closed GOV-AR pricing and authoritative-usage adapter for provider type".

Definition OutputCapRequestParameter (providerType pathMode : string) : string * bool :=
  let t := ToLower (TrimSpace providerType) in
  if String.eqb t "openai" && String.eqb pathMode GOVARRouteOpenAIBody then ("max_output_tokens", true)
  else if String.eqb t "azure-openai" && String.eqb pathMode GOVARRouteAzureDeploymentPath
       then ("max_output_tokens", true)
  else ("", false).

Definition legalIncludedPair (detail root : Basis) : bool :=
  (String.eqb detail ProviderBasisCachedInputTokens && String.eqb root ProviderBasisInputTokens)
  || (String.eqb detail ProviderBasisReasoningTokens && String.eqb root ProviderBasisOutputTokens).

Definition validRequestBound (basis : Basis) (field : string) : bool :=
  (String.eqb basis ProviderBasisInputTokens && String.eqb field "input_tokens")
  || (String.eqb basis ProviderBasisCachedInputTokens && String.eqb field "max_cached_input_tokens")
  || (String.eqb basis ProviderBasisOutputTokens && String.eqb field "max_output_tokens")
  || (String.eqb basis ProviderBasisReasoningTokens && String.eqb field "max_reasoning_tokens")
  || (String.eqb basis ProviderBasisToolCall && String.eqb field "max_tool_calls")
  || (String.eqb basis ProviderBasisMediaUnit && String.eqb field "max_media_units")
  || (String.eqb basis ProviderBasisBillableSecond && String.eqb field "timeout_seconds")
  || (String.eqb basis ProviderBasisRetryAttempt && String.eqb field "max_retry_attempts")
  || (String.eqb basis ProviderBasisCancellation && String.eqb field "cancellation_possible").

(** ** Exact decimals to micro-units *)

(** Numerator and denominator of the quantity times 10^6. *)
Definition micro_ratio (q : Quantity) : Z * Z :=
  (qty_Unscaled q * 10 ^ Z.max 0 (- qty_Scale q) * 1000000, 10 ^ Z.max 0 (qty_Scale q)).

Definition quantityToMicros (q : Quantity) : result Z :=
  let '(num, den) := micro_ratio q in
  if num <? 0 then Err "money quantity must be a non-negative decimal"
  else let quotient := Z.quot num den in
       ensure is_int64 quotient orelse "money quantity exceeds int64 micro-unit range";
       Ok quotient.

Definition exactMicros (q : Quantity) : result Z :=
  let '(num, den) := micro_ratio q in
  if num <? 0 then Err "price must be non-negative decimal"
  else if negb (Z.rem num den =? 0) then Err "price is not exactly representable in micros"
  else let quotient := Z.quot num den in
       ensure is_int64 quotient orelse "price exceeds int64";
       Ok quotient.

Definition quantityToExactMicros (q : Quantity) : result Z :=
  let '(num, den) := micro_ratio q in
  if num <? 0 then Err "money quantity must be a non-negative decimal"
  else if negb (Z.rem num den =? 0) then Err "money quantity is not exactly representable in integer micro-units"
  else let quotient := Z.quot num den in
       ensure is_int64 quotient orelse "money quantity exceeds int64 micro-unit range";
       Ok quotient.

(** [costFromPriceMicros] of money.go. *)
Definition costFromPriceMicros (inPrice outPrice inputTokens maxOutputTokens : Z) : result Z :=
  if (inputTokens <? 0) || (maxOutputTokens <? 0) then Err "token counts cannot be negative"
  else
    let total := inputTokens * inPrice + maxOutputTokens * outPrice in
    let q := Z.quot total 1000000 in
    let r := Z.rem total 1000000 in
    let q := if 0 <? r then q + 1 else q in
    ensure is_int64 q orelse "reservation exceeds int64 micro-unit range";
    Ok q.

Definition ceilingProduct (price quantity denominator : Z) : result Z :=
  if (price <? 0) || (quantity <? 0) || (denominator <=? 0)
  then Err "invalid price, quantity, or denominator"
  else
    let n := price * quantity in
    let q := Z.quot n denominator in
    let q := if negb (Z.rem n denominator =? 0) then q + 1 else q in
    ensure is_int64 q orelse "charge overflows int64";
    Ok q.

(** [SumComponents] and [SumActualComponents] are the same loop over the micros
    of the components. *)
Fixpoint sum_micros (message : string) (sum : Z) (micros : list Z) : result Z :=
  match micros with
  | [] => Ok sum
  | m :: rest =>
    if (m <? 0) || (max_int64 -i m <? sum) then Err message
    else sum_micros message (sum +i m) rest
  end.

Definition SumComponents (components : list ChargeComponent) : result Z :=
  sum_micros "component sum overflows int64" 0 (map cc_ReservedMicros components).
Definition SumActualComponents (components : list ActualChargeComponent) : result Z :=
  sum_micros "actual component sum overflows int64" 0 (map ac_ActualMicros components).

(** ** The included-charge graph *)

Definition charged_rows (rows : list NormalizedCharge) : gmap string NormalizedCharge :=
  fold_left (fun m row => <[row_Basis row := row]> m) rows ∅.

(** The walk [for current.IncludedIn != nil] from a detail row to its root;
    [None] when the fuel runs out. *)
Fixpoint resolve_root (fuel : nat) (charged : gmap string NormalizedCharge) (visited : gset string)
    (current : NormalizedCharge) : option (result NormalizedCharge) :=
  match row_IncludedIn current with
  | None => Some (Ok current)
  | Some parentBasis =>
    match fuel with
    | O => None
    | S fuel' =>
      if bool_decide (parentBasis ∈ visited) then Some (Err "included-charge cycle")
      else match charged !! parentBasis with
           | None => Some (Err "included basis has no charged parent")
           | Some parent => resolve_root fuel' charged ({[parentBasis]} ∪ visited) parent
           end
    end
  end.

Definition graph_fuel (charged : gmap string NormalizedCharge) : nat := S (size charged).

Fixpoint included_rows_ok (charged : gmap string NormalizedCharge) (rows : list NormalizedCharge)
    : option error :=
  match rows with
  | [] => None
  | row :: rest =>
    match row_IncludedIn row with
    | None => included_rows_ok charged rest
    | Some _ =>
      match resolve_root (graph_fuel charged) charged {[row_Basis row]} row with
      | Some (Ok root) =>
        if legalIncludedPair (row_Basis row) (row_Basis root) then included_rows_ok charged rest
        else Some "included basis cannot resolve to charged root"%string
      | Some (Err m) => Some m
      | None => Some "out of fuel"%string
      end
    end
  end.

(** [validateIncludedChargeGraph]: [None] is Go's nil error. *)
Definition validateIncludedChargeGraph (rows : list NormalizedCharge) (inapplicable : list Basis)
    : option error :=
  let charged := charged_rows rows in
  if existsb (fun basis => bool_decide (is_Some (charged !! basis))) inapplicable
  then Some "included-charge graph contains contradictory inapplicable basis"%string
  else included_rows_ok charged rows.

(** ** Snapshot digest and validation *)

Definition sort_rows (rows : list NormalizedCharge) : list NormalizedCharge :=
  sort_slice (fun i j => string_ltb (row_Basis i) (row_Basis j)) rows.
Definition sort_strings (l : list string) : list string := sort_slice string_ltb l.

Definition row_fields (r : NormalizedCharge) : list string :=
  [row_Basis r; row_Applicability r; sprint (row_PriceMicrosPerUnit r); sprint (row_UnitDenominator r);
   row_SettlementUsageField r;
   match row_IncludedIn r with Some b => b | None => "" end;
   match row_MaximumQuantity r with Some q => sprint q | None => "" end;
   row_RequestBoundField r; sprint_bool (row_DisjointUsage r)].

Definition snapshot_fields (s : NormalizedPricingSnapshot) : list string :=
  ["govar-normalized-pricing-v1"%string; sprint (snap_SpecGeneration s); snap_Version s;
   RFC3339Nano (snap_ObservedAt s); RFC3339Nano (snap_ValidUntil s); ToUpper (snap_Currency s);
   snap_Completeness s; snap_AdapterVersion s; snap_EvidenceMode s; snap_EvidenceSHA256 s; snap_SourceVersion s]
  ++ concat (map row_fields (sort_rows (snap_Charges s)))
  ++ concat (map (fun b => ["inapplicable"%string; b]) (sort_strings (snap_InapplicableBases s))).

Section pricing.
Context `{Crypto}.

Definition SnapshotDigest (s : NormalizedPricingSnapshot) : string := fixedHash (snapshot_fields s).

Definition snapshot_header_ok (s : NormalizedPricingSnapshot) : bool :=
  negb ((snap_SpecGeneration s <=? 0) || blank (snap_Version s)
        || negb (String.eqb (snap_Completeness s) ProviderPricingComplete)
        || negb (String.eqb (ToUpper (snap_Currency s)) "EUR")
        || negb (String.eqb (snap_AdapterVersion s) CurrentAdapterVersion)
        || negb (validEvidenceMode (snap_EvidenceMode s)) || negb (is_sha256 (snap_EvidenceSHA256 s))
        || blank (snap_SourceVersion s) || negb (After (snap_ValidUntil s) (snap_ObservedAt s))
        || negb (is_sha256 (snap_SnapshotSHA256 s))
        || negb (String.eqb (snap_SnapshotSHA256 s) (SnapshotDigest s))).

(** The row tests of [ValidateSnapshotIntegrity], given the bases already seen. *)
Definition check_row (seen : gset string) (row : NormalizedCharge) : option error :=
  if negb (isBasis (row_Basis row)) || bool_decide (row_Basis row ∈ seen)
     || negb (validApplicability (row_Applicability row))
     || negb (String.eqb (row_SettlementUsageField row) (row_Basis row))
     || (row_PriceMicrosPerUnit row <? 0) || (row_UnitDenominator row <=? 0)
  then Some "invalid normalized charge"%string
  else match row_IncludedIn row with
       | Some parent =>
         if negb (isBasis parent) || String.eqb parent (row_Basis row) || negb (row_PriceMicrosPerUnit row =? 0)
         then Some "invalid included charge"%string else None
       | None =>
         if (String.eqb (row_Basis row) ProviderBasisCachedInputTokens
             || String.eqb (row_Basis row) ProviderBasisReasoningTokens) && negb (row_DisjointUsage row)
         then Some "overlapping detail charge"%string
         else if String.eqb (row_Applicability row) ProviderChargeRequestDeclared
                 && negb (validRequestBound (row_Basis row) (row_RequestBoundField row))
         then Some "unmapped request charge"%string
         else if negb (String.eqb (row_Applicability row) ProviderChargeRequestDeclared)
                 && negb (bool_decide (is_Some (row_MaximumQuantity row)))
         then Some "unbounded non-request charge"%string
         else None
       end.

Fixpoint check_rows (seen : gset string) (rows : list NormalizedCharge) : result (gset string) :=
  match rows with
  | [] => Ok seen
  | row :: rest =>
    match check_row seen row with
    | Some m => Err m
    | None => check_rows ({[row_Basis row]} ∪ seen) rest
    end
  end.

Fixpoint check_inapplicable (seen : gset string) (bases : list Basis) : result (gset string) :=
  match bases with
  | [] => Ok seen
  | basis :: rest =>
    if negb (isBasis basis) || bool_decide (basis ∈ seen) then Err "invalid inapplicable basis"
    else check_inapplicable ({[basis]} ∪ seen) rest
  end.

Definition all_seen (seen : gset string) : bool := forallb (fun b => bool_decide (b ∈ seen)) AllBases.

Definition ValidateSnapshotIntegrity (s : NormalizedPricingSnapshot) : option error :=
  if negb (snapshot_header_ok s) then Some "pricing snapshot digest or completeness is invalid"%string
  else match check_rows ∅ (snap_Charges s) with
       | Err m => Some m
       | Ok seen =>
         match check_inapplicable seen (snap_InapplicableBases s) with
         | Err m => Some m
         | Ok seen =>
           if negb (all_seen seen) then Some "unpartitioned basis"%string
           else validateIncludedChargeGraph (snap_Charges s) (snap_InapplicableBases s)
         end
       end.

Definition ValidateSnapshot (s : NormalizedPricingSnapshot) (generation : Z) (at_ : Time) : option error :=
  match ValidateSnapshotIntegrity s with
  | None =>
    if negb (snap_SpecGeneration s =? generation) || IsZero at_ || negb (After (snap_ValidUntil s) at_)
       || After (snap_ObservedAt s) (time_add at_ Minute)
    then Some "normalized pricing snapshot is stale, incomplete, or has an invalid digest"%string else None
  | Some _ => Some "normalized pricing snapshot is stale, incomplete, or has an invalid digest"%string
  end.
End pricing.

(** ** Usage vectors *)

Fixpoint canonical_from (out : gmap string Z) (values : list UsageQuantity) : result (gmap string Z) :=
  match values with
  | [] => Ok out
  | value :: rest =>
    if negb (isBasis (uq_Basis value)) || (uq_Quantity value <? 0) then Err "invalid usage quantity"
    else match out !! uq_Basis value with
         | Some _ => Err "duplicate usage basis"
         | None => canonical_from (<[uq_Basis value := uq_Quantity value]> out) rest
         end
  end.
Definition canonicalUsage (values : list UsageQuantity) : result (gmap string Z) := canonical_from ∅ values.

Definition requiredDeclared (basis : Basis) (declared : gmap string Z) : result Z :=
  match declared !! basis with
  | Some q => Ok q
  | None => Err "request-declared charge has no proven bound"
  end.

Definition requestQuantity (row : NormalizedCharge) (ctx : RequestChargeContext) (declared : gmap string Z)
    : result Z :=
  if String.eqb (row_Applicability row) ProviderChargeAlways
     || String.eqb (row_Applicability row) ProviderChargeProviderResponse
  then match row_MaximumQuantity row with
       | None => Err "charge lacks an enforced maximum"
       | Some q => Ok q
       end
  else
    let field := row_RequestBoundField row in
    if String.eqb field "input_tokens" then Ok (ctx_InputTokens ctx)
    else if String.eqb field "max_cached_input_tokens" then requiredDeclared (row_Basis row) declared
    else if String.eqb field "max_output_tokens" then Ok (ctx_OutputTokens ctx)
    else if String.eqb field "max_reasoning_tokens" then requiredDeclared (row_Basis row) declared
    else if existsb (String.eqb field)
              ["max_tool_calls"; "max_media_units"; "timeout_seconds"; "max_retry_attempts"; "cancellation_possible"]%string
    then requiredDeclared (row_Basis row) declared
    else if String.eqb field "" then Err "charge has no request-bound mapping"
    else Err "unknown request bound field".

(** ** Reservation *)

Definition reserve_row (ctx : RequestChargeContext) (declared : gmap string Z) (row : NormalizedCharge)
    : result ChargeComponent :=
  let? q := requestQuantity row ctx declared in
  let q := match row_MaximumQuantity row with Some m => m | None => q end in
  if q <? 0 then Err "negative quantity"
  else
    let? cost := ceilingProduct (row_PriceMicrosPerUnit row) q (row_UnitDenominator row) in
    Ok (Build_ChargeComponent (row_Basis row) q (row_PriceMicrosPerUnit row) (row_UnitDenominator row) cost).

Fixpoint reserve_rows (ctx : RequestChargeContext) (declared : gmap string Z) (rows : list NormalizedCharge)
    : result (list ChargeComponent) :=
  match rows with
  | [] => Ok []
  | row :: rest =>
    match row_IncludedIn row with
    | Some _ => reserve_rows ctx declared rest
    | None =>
      let? c := reserve_row ctx declared row in
      let? out := reserve_rows ctx declared rest in
      Ok (c :: out)
    end
  end.

Section reserve.
Context `{Crypto}.

Definition ReserveComponents (s : NormalizedPricingSnapshot) (ctx : RequestChargeContext) (at_ : Time)
    : result (list ChargeComponent) :=
  match ValidateSnapshot s (snap_SpecGeneration s) at_ with
  | Some m => Err m
  | None =>
    let? declared := canonicalUsage (ctx_DeclaredBounds ctx) in
    reserve_rows ctx declared (snap_Charges s)
  end.
End reserve.

(** ** Settlement *)

Fixpoint reserved_index (m : gmap string ChargeComponent) (reserved : list ChargeComponent)
    : result (gmap string ChargeComponent) :=
  match reserved with
  | [] => Ok m
  | c :: rest =>
    match m !! cc_Basis c with
    | Some _ => Err "duplicate reserved component"
    | None => reserved_index (<[cc_Basis c := c]> m) rest
    end
  end.

Record settle_state : Type := Build_settle_state {
  st_quantities : gmap string Z;
  st_actual : list ActualChargeComponent;
  st_missing : list Basis;
  st_exceeded : bool
}.

Definition settle_row (reservedByBasis : gmap string ChargeComponent) (st : settle_state) (row : NormalizedCharge)
    : result settle_state :=
  match reservedByBasis !! row_Basis row with
  | None => Err "reserved component does not match frozen row"
  | Some bound =>
    if negb (cc_PriceMicrosPerUnit bound =? row_PriceMicrosPerUnit row)
       || negb (cc_UnitDenominator bound =? row_UnitDenominator row)
    then Err "reserved component does not match frozen row"
    else match st_quantities st !! row_SettlementUsageField row with
         | None => Ok (Build_settle_state (st_quantities st) (st_actual st)
                         (st_missing st ++ [row_Basis row]) (st_exceeded st))
         | Some q =>
           let? cost := ceilingProduct (row_PriceMicrosPerUnit row) q (row_UnitDenominator row) in
           let over := cc_Quantity bound <? q in
           Ok (Build_settle_state (delete (row_SettlementUsageField row) (st_quantities st))
                 (st_actual st ++ [Build_ActualChargeComponent (row_Basis row) q (row_PriceMicrosPerUnit row)
                                     (row_UnitDenominator row) cost (cc_Quantity bound) over])
                 (st_missing st) (st_exceeded st || over))
         end
  end.

Fixpoint settle_rows (reservedByBasis : gmap string ChargeComponent) (st : settle_state)
    (rows : list NormalizedCharge) : result settle_state :=
  match rows with
  | [] => Ok st
  | row :: rest =>
    match row_IncludedIn row with
    | Some _ => settle_rows reservedByBasis st rest
    | None => let? st := settle_row reservedByBasis st row in settle_rows reservedByBasis st rest
    end
  end.

Section settle.
Context `{Crypto}.

(** [SettleComponents]: actual components, missing bases, exceeded. *)
Definition SettleComponents (s : NormalizedPricingSnapshot) (reserved : list ChargeComponent)
    (usage : list UsageQuantity) : result (list ActualChargeComponent * list Basis * bool) :=
  match ValidateSnapshotIntegrity s with
  | Some m => Err m
  | None =>
    let? quantities := canonicalUsage usage in
    let? reservedByBasis := reserved_index ∅ reserved in
    let? st := settle_rows reservedByBasis (Build_settle_state quantities [] [] false) (snap_Charges s) in
    if negb (size (st_quantities st) =? 0)%nat then Err "provider usage contains an unlisted billable category"
    else Ok (sort_slice (fun i j => string_ltb (ac_Basis i) (ac_Basis j)) (st_actual st),
             sort_strings (st_missing st), st_exceeded st)
  end.
End settle.

(** ** Normalization *)

Section normalize.
Context `{Crypto}.

(** The tests of one configured charge in [Normalize]. *)
Definition normalize_charge (seen : gset string) (charge : ProviderBillableCharge) : result NormalizedCharge :=
  if negb (isBasis (charge_Basis charge)) || bool_decide (charge_Basis charge ∈ seen)
     || negb (validApplicability (charge_Applicability charge))
     || negb (String.eqb (charge_SettlementUsageField charge) (charge_Basis charge))
     || (charge_UnitDenominator charge <=? 0)
  then Err "invalid or duplicate charge basis"
  else
    let? price := exactMicros (charge_Price charge) in
    let bound_error :=
      match charge_IncludedIn charge with
      | Some parent =>
        if negb (isBasis parent) || String.eqb parent (charge_Basis charge) || negb (price =? 0)
        then Some "invalid included-in semantics"%string else None
      | None =>
        if negb (bool_decide (is_Some (charge_MaximumQuantity charge)))
           && String.eqb (charge_RequestBoundField charge) ""
        then Some "charge has no pre-dispatch bound"%string else None
      end in
    match bound_error with
    | Some m => Err m
    | None =>
      if String.eqb (charge_Applicability charge) ProviderChargeProviderResponse
         && negb (bool_decide (is_Some (charge_MaximumQuantity charge)))
      then Err "response-only charge has no enforced maximum"
      else if (String.eqb (charge_Basis charge) ProviderBasisCachedInputTokens
               || String.eqb (charge_Basis charge) ProviderBasisReasoningTokens)
              && negb (bool_decide (is_Some (charge_IncludedIn charge))) && negb (charge_DisjointUsage charge)
      then Err "separately priced detail must have disjoint usage semantics"
      else if String.eqb (charge_Applicability charge) ProviderChargeRequestDeclared
              && negb (bool_decide (is_Some (charge_IncludedIn charge)))
              && String.eqb (charge_RequestBoundField charge) ""
      then Err "request-declared charge has no mapped request bound"
      else Ok (Build_NormalizedCharge (charge_Basis charge) (charge_Applicability charge) price
                 (charge_UnitDenominator charge) (charge_SettlementUsageField charge) (charge_IncludedIn charge)
                 (charge_MaximumQuantity charge) (charge_RequestBoundField charge) (charge_DisjointUsage charge))
    end.

Fixpoint normalize_charges (seen : gset string) (rows : list NormalizedCharge)
    (charges : list ProviderBillableCharge) : result (gset string * list NormalizedCharge) :=
  match charges with
  | [] => Ok (seen, rows)
  | charge :: rest =>
    let? row := normalize_charge seen charge in
    normalize_charges ({[charge_Basis charge]} ∪ seen) (rows ++ [row]) rest
  end.

Definition token_rows (input output : Z) : list NormalizedCharge :=
  [Build_NormalizedCharge ProviderBasisInputTokens ProviderChargeRequestDeclared input 1000000
     ProviderBasisInputTokens None None "input_tokens" false;
   Build_NormalizedCharge ProviderBasisOutputTokens ProviderChargeRequestDeclared output 1000000
     ProviderBasisOutputTokens None None "max_output_tokens" false].

(** The evidence and observation tests at the top of [Normalize]. *)
Definition pricing_evidence_error (provider : AIProvider) (evidence : PricingEvidenceSpec) (now : Time)
    : option error :=
  let pr := ps_Pricing (prov_Spec provider) in
  if (om_Generation (prov_Meta provider) <=? 0) || blank (pp_Version pr)
     || negb (String.eqb (pp_Completeness pr) ProviderPricingComplete)
  then Some "pricing version, generation, or completeness is invalid"%string
  else if negb (EqualFold (TrimSpace (pp_Currency pr)) "EUR")
  then Some "only EUR integer-micro snapshots are supported"%string
  else if negb (String.eqb (pev_AdapterVersion evidence) CurrentAdapterVersion)
          || negb (validEvidenceMode (pev_Mode evidence)) || negb (is_sha256 (pev_EvidenceSHA256 evidence))
          || blank (pev_SourceVersion evidence)
  then Some "pricing evidence is incomplete"%string
  else if negb (String.eqb (pev_Mode evidence) ProviderEvidenceAdminAttested)
  then Some "spec-supplied pricing evidence must be admin_attested"%string
  else if negb (After (pev_ValidUntil evidence) now) then Some "pricing evidence is stale"%string
  else match pp_ObservedAt pr with
       | None => Some "pricing observation is stale or in the future"%string
       | Some observed =>
         if After observed (time_add now Minute) || (24 * Hour <? time_sub now observed)
         then Some "pricing observation is stale or in the future"%string else None
       end.

Definition Normalize (provider : AIProvider) (now : Time) : result (NormalizedPricingSnapshot * Evidence) :=
  let spec := prov_Spec provider in
  let pr := ps_Pricing spec in
  let? _ := ForProviderType (ps_Type spec) in
  match (g ← ps_GOVAR spec; pgs_Pricing g) with
  | None => Err "typed GOV-AR pricing is absent"
  | Some pricing =>
    ensure (match pp_BillableCategories pr with [] => true | _ => false end)
      orelse "legacy free-form billable categories are not GOV-AR authority";
    let evidence := gpr_Evidence pricing in
    match pricing_evidence_error provider evidence now, pp_ObservedAt pr with
    | Some m, _ => Err m
    | None, None => Err "pricing observation is stale or in the future"
    | None, Some observed =>
      let? input := exactMicros (pp_InputTokenPricePerMillion pr) in
      let? output := exactMicros (pp_OutputTokenPricePerMillion pr) in
      let? (seen, rows) :=
        normalize_charges {[ProviderBasisInputTokens; ProviderBasisOutputTokens]} (token_rows input output)
          (gpr_Charges pricing) in
      let inapplicable := gpr_InapplicableBases pricing in
      let? seen := check_inapplicable seen inapplicable in
      if negb (all_seen seen) then Err "basis is neither priced nor explicitly inapplicable"
      else match validateIncludedChargeGraph rows inapplicable with
           | Some m => Err m
           | None =>
             if existsb (fun row => negb (String.eqb (row_RequestBoundField row) "")
                                    && negb (validRequestBound (row_Basis row) (row_RequestBoundField row))) rows
             then Err "request bound is invalid"
             else
               let snapshot := Build_NormalizedPricingSnapshot (om_Generation (prov_Meta provider))
                 (TrimSpace (pp_Version pr)) observed (pev_ValidUntil evidence) "EUR" ProviderPricingComplete ""
                 CurrentAdapterVersion (pev_Mode evidence) (pev_EvidenceSHA256 evidence)
                 (pev_SourceVersion evidence) (sort_rows rows) (sort_strings inapplicable) in
               Ok (snapshot <| snap_SnapshotSHA256 := SnapshotDigest snapshot |>,
                   Build_Evidence (pev_Mode evidence) (pev_EvidenceSHA256 evidence) (pev_SourceVersion evidence))
           end
    end
  end.
End normalize.

(** ** Arithmetic of charges *)

Lemma ceilingProduct_spec p q d c :
  ceilingProduct p q d = Ok c <->
  (0 <= p /\ 0 <= q /\ 0 < d) /\ (c - 1) * d < p * q <= c * d /\ in64 c.
Proof.
  unfold ceilingProduct.
  destruct ((p <? 0) || (q <? 0) || (d <=? 0)) eqn:Hneg.
  { split; [discriminate|]. intros [? _]. lia. }
  assert (Hpos : 0 <= p /\ 0 <= q /\ 0 < d) by lia.
  assert (Hn : 0 <= p * q) by nia. cbn zeta.
  pose proof (Z.quot_rem' (p * q) d) as Hqr. pose proof (Z.rem_bound_pos (p * q) d Hn ltac:(lia)) as Hr.
  set (x := Z.quot (p * q) d) in *. set (r := Z.rem (p * q) d) in *. clearbody x r.
  set (k := if negb (r =? 0) then x + 1 else x).
  assert (Hk : (k - 1) * d < p * q <= k * d) by (unfold k; destruct (Z.eqb_spec r 0); simpl; nia).
  assert (Huniq : forall c', (c' - 1) * d < p * q <= c' * d -> c' = k) by (intros c' Hc'; nia).
  clearbody k. destruct (is_int64 k) eqn:H64.
  - apply is_int64_spec in H64. split.
    + intros H. injection H as <-. auto.
    + intros (_ & Hc & _). f_equal. symmetry. auto.
  - split; [discriminate|]. intros (_ & Hc & H64'). rewrite (Huniq c Hc) in H64'.
    apply is_int64_spec in H64'. congruence.
Qed.

(** A quantity within a bound costs at most the bound's cost. *)
Lemma ceilingProduct_mono p q q' d c c' :
  q <= q' -> ceilingProduct p q d = Ok c -> ceilingProduct p q' d = Ok c' -> c <= c'.
Proof.
  rewrite !ceilingProduct_spec. intros Hq ((? & ? & ?) & Hc & _) (_ & Hc' & _). nia.
Qed.

Lemma ceilingProduct_nonneg p q d c : ceilingProduct p q d = Ok c -> 0 <= c.
Proof. rewrite ceilingProduct_spec. intros ((? & ? & ?) & Hc & _). nia. Qed.

Lemma exactMicros_spec q m :
  exactMicros q = Ok m ->
  0 <= m <= max_int64 /\ m * 10 ^ Z.max 0 (qty_Scale q) = qty_Unscaled q * 10 ^ Z.max 0 (- qty_Scale q) * 1000000.
Proof.
  unfold exactMicros, micro_ratio.
  set (num := (_ * 1000000)). set (den := 10 ^ Z.max 0 (qty_Scale q)).
  assert (0 < den) by (apply Z.pow_pos_nonneg; lia). clearbody num den.
  destruct (num <? 0) eqn:?; [discriminate|]. destruct (Z.rem num den =? 0) eqn:Hr; [|discriminate]. simpl.
  destruct (is_int64 _) eqn:H64; [|discriminate]. intros E. injection E as <-.
  apply is_int64_spec in H64. apply Z.eqb_eq in Hr. pose proof (Z.quot_rem' num den).
  pose proof (Z.quot_pos num den) as Hq. unfold in64 in H64. nia.
Qed.


(** The guarded sum never wraps: it succeeds exactly on non-negative micros whose
    integer sum is an int64, and then it is that sum. *)
Lemma sum_micros_ok msg l s t :
  0 <= s <= max_int64 -> Forall in64 l ->
  sum_micros msg s l = Ok t <-> Forall (fun m => 0 <= m) l /\ t = s + zsum l /\ t <= max_int64.
Proof.
  intros Hs Hl. revert s Hs. induction Hl as [|m l Hm Hl IH]; intros s Hs; simpl.
  { split; [intros E; injection E as <-; split; [constructor | lia]|].
    intros (_ & -> & _). f_equal. lia. }
  unfold in64, min_int64 in Hm.
  destruct (m <? 0) eqn:Hneg; simpl.
  { split; [discriminate|]. intros [Hall _]. inversion Hall; subst. lia. }
  rewrite sub64_id by (unfold in64, min_int64; lia).
  destruct (max_int64 - m <? s) eqn:Hover.
  { split; [discriminate|]. intros (Hall & -> & Hle). inversion Hall as [|? ? ? Hrest]; subst.
    pose proof (zsum_nonneg l Hrest). lia. }
  rewrite add64_id by (unfold in64, min_int64; lia). rewrite IH by lia. split.
  - intros (Hall & -> & Hle). split; [constructor; [lia|done] | lia].
  - intros (Hall & -> & Hle). inversion Hall; subst. repeat split; [done | lia | lia].
Qed.

Lemma sum_micros_range msg l s t : sum_micros msg s l = Ok t -> in64 s -> in64 t.
Proof.
  revert s. induction l as [|m l IH]; intros s; simpl; [congruence|].
  destruct (_ || _); [discriminate|]. intros H _. apply (IH _ H), wrap64_range.
Qed.

(** ** The closed set of bases *)

Lemma isBasis_In b : isBasis b = true <-> b ∈ AllBases.
Proof.
  unfold isBasis. rewrite existsb_exists. split.
  - intros (x & Hx & E). apply String.eqb_eq in E as ->. by apply list_elem_of_In.
  - intros Hb. exists b. rewrite String.eqb_refl. split; [by apply list_elem_of_In | done].
Qed.

Lemma all_seen_spec seen : all_seen seen = true <-> (forall b, b ∈ AllBases -> b ∈ seen).
Proof.
  unfold all_seen. rewrite forallb_forall. split; intros H b Hb.
  - apply list_elem_of_In in Hb. specialize (H b Hb). by apply bool_decide_eq_true in H.
  - apply bool_decide_eq_true. apply H. by apply list_elem_of_In.
Qed.

(** ** The included-charge graph *)

(** The walk to the root takes at most one step per charged row: the fuel is
    enough. *)
Lemma resolve_root_fuel charged fuel : forall visited current,
  (size (dom charged ∖ visited) < fuel)%nat -> resolve_root fuel charged visited current <> None.
Proof.
  induction fuel as [|fuel IH]; intros visited current Hlt; [lia|]. simpl.
  destruct (row_IncludedIn current) as [parentBasis|]; [|done].
  case_bool_decide as Hv; [done|].
  destruct (charged !! parentBasis) as [parent|] eqn:Hp; [|done].
  apply IH. assert (Hin : parentBasis ∈ dom charged) by (apply elem_of_dom; eauto).
  assert ((size (dom charged ∖ ({[parentBasis]} ∪ visited)) < size (dom charged ∖ visited))%nat); [|lia].
  apply subset_size. split; [set_solver|]. intros Hsub.
  assert (parentBasis ∈ dom charged ∖ ({[parentBasis]} ∪ visited)) by (apply Hsub; set_solver). set_solver.
Qed.

Lemma resolve_root_total charged visited current :
  exists r, resolve_root (graph_fuel charged) charged visited current = Some r.
Proof.
  destruct (resolve_root (graph_fuel charged) charged visited current) as [r|] eqn:E; [by exists r|]. exfalso. revert E.
  apply resolve_root_fuel. unfold graph_fuel. rewrite <- (size_dom charged).
  apply Nat.lt_succ_r, subseteq_size. set_solver.
Qed.

Lemma resolve_root_ok charged fuel : forall visited current root,
  resolve_root fuel charged visited current = Some (Ok root) ->
  row_IncludedIn root = None /\ (root = current \/ exists b, charged !! b = Some root).
Proof.
  induction fuel as [|fuel IH]; intros visited current root; simpl;
    destruct (row_IncludedIn current) as [parentBasis|] eqn:Hinc; try discriminate.
  - intros E. injection E as <-. auto.
  - case_bool_decide; [discriminate|]. destruct (charged !! parentBasis) as [parent|] eqn:Hp; [|discriminate].
    intros E. destruct (IH _ _ _ E) as [Hroot [->|Hin]]; eauto.
  - intros E. injection E as <-. auto.
Qed.

(** What an accepted graph guarantees of a detail row. *)
Definition detail_ok (charged : gmap string NormalizedCharge) (row : NormalizedCharge) : Prop :=
  row_IncludedIn row = None \/
  exists root b, charged !! b = Some root /\ row_IncludedIn root = None /\
    legalIncludedPair (row_Basis row) (row_Basis root) = true.

Lemma included_rows_ok_spec charged rows :
  included_rows_ok charged rows = None -> Forall (detail_ok charged) rows.
Proof.
  induction rows as [|row rows IH]; cbn [included_rows_ok]; [constructor|].
  destruct (row_IncludedIn row) eqn:Hinc.
  - destruct (resolve_root (graph_fuel charged) charged {[row_Basis row]} row) as [[root|]|] eqn:E; try discriminate.
    destruct (legalIncludedPair (row_Basis row) (row_Basis root)) eqn:Hl; [|discriminate]. intros Hrest.
    constructor; [|auto]. right. apply resolve_root_ok in E as [Hroot [->|[? Hb]]]; [congruence|eauto].
  - intros Hrest. constructor; [by left | auto].
Qed.

Lemma charged_rows_lookup rows b root :
  charged_rows rows !! b = Some root -> root ∈ rows /\ row_Basis root = b.
Proof.
  unfold charged_rows.
  assert (Hgen : forall m : gmap string NormalizedCharge, fold_left (fun m row => <[row_Basis row := row]> m) rows m !! b = Some root ->
            m !! b = Some root \/ (root ∈ rows /\ row_Basis root = b)).
  { induction rows as [|row rows IH]; intros m; simpl; [by left|]. intros Hl.
    destruct (IH _ Hl) as [Hm|[Hin Hb]].
    - destruct (decide (row_Basis row = b)) as [Heq|Hne].
      + rewrite Heq, lookup_insert_eq in Hm. injection Hm as ->. right. split; [left | done].
      + rewrite lookup_insert_ne in Hm by done. by left.
    - right. split; [by right | done]. }
  intros Hl. destruct (Hgen ∅ Hl) as [Hm|?]; [by rewrite lookup_empty in Hm | done].
Qed.

(** ** Rows of a valid snapshot *)

Lemma check_rows_spec rows : forall seen seen',
  check_rows seen rows = Ok seen' <->
  Forall (fun row => check_row ∅ row = None) rows /\ NoDup (map row_Basis rows) /\
  (forall b, b ∈ map row_Basis rows -> b ∉ seen) /\ seen' = list_to_set (map row_Basis rows) ∪ seen.
Proof.
  induction rows as [|row rows IH]; intros seen seen'; cbn [check_rows map list_to_set].
  { split.
    - intros E. injection E as <-. repeat split; [constructor | constructor | set_solver | set_solver].
    - intros (_ & _ & _ & ->). f_equal. set_solver. }
  assert (Hcheck : check_row seen row = None <-> check_row ∅ row = None /\ row_Basis row ∉ seen).
  { unfold check_row. rewrite (bool_decide_eq_false_2 (row_Basis row ∈ (∅ : gset string))) by set_solver.
    destruct (bool_decide (row_Basis row ∈ seen)) eqn:Hs.
    - apply bool_decide_eq_true in Hs. rewrite !orb_true_r. simpl. split; [discriminate | tauto].
    - apply bool_decide_eq_false in Hs. tauto. }
  destruct (check_row seen row) eqn:Hrow.
  - split; [discriminate|]. intros (Hall & _ & Hfresh & _). inversion Hall; subst.
    assert (Some e = None) by (apply Hcheck; split; [done | apply Hfresh; left]). discriminate.
  - destruct (proj1 Hcheck eq_refl) as [Hok Hns]. rewrite IH. split.
    + intros (Hall & Hnd & Hfresh & ->). repeat split.
      * by constructor.
      * constructor; [|done]. intros Hin. apply (Hfresh _ Hin). set_solver.
      * intros b Hb. apply elem_of_cons in Hb as [->|Hb]; [done|]. specialize (Hfresh _ Hb). set_solver.
      * set_solver.
    + intros (Hall & Hnd & Hfresh & ->). inversion Hall; subst. inversion Hnd; subst. repeat split.
      * done.
      * done.
      * intros b Hb. specialize (Hfresh b (list_elem_of_further _ _ _ Hb)). set_solver.
      * set_solver.
Qed.

Lemma check_inapplicable_spec bases : forall seen seen',
  check_inapplicable seen bases = Ok seen' <->
  Forall (fun b => isBasis b = true) bases /\ NoDup bases /\ (forall b, b ∈ bases -> b ∉ seen) /\
  seen' = list_to_set bases ∪ seen.
Proof.
  induction bases as [|basis bases IH]; intros seen seen'; cbn [check_inapplicable list_to_set].
  { split.
    - intros E. injection E as <-. repeat split; [constructor | constructor | set_solver | set_solver].
    - intros (_ & _ & _ & ->). f_equal. set_solver. }
  destruct (isBasis basis) eqn:Hb; simpl.
  2:{ split; [discriminate|]. intros (Hall & _). inversion Hall; congruence. }
  case_bool_decide as Hs.
  { split; [discriminate|]. intros (_ & _ & Hfresh & _). by destruct (Hfresh basis (list_elem_of_here _ _)). }
  rewrite IH. split.
  - intros (Hall & Hnd & Hfresh & ->). repeat split.
    + by constructor.
    + constructor; [|done]. intros Hin. apply (Hfresh _ Hin). set_solver.
    + intros b Hin. apply elem_of_cons in Hin as [->|Hin]; [done|]. specialize (Hfresh _ Hin). set_solver.
    + set_solver.
  - intros (Hall & Hnd & Hfresh & ->). inversion Hall; subst. inversion Hnd; subst. repeat split.
    + done.
    + done.
    + intros b Hin. specialize (Hfresh b (list_elem_of_further _ _ _ Hin)). set_solver.
    + set_solver.
Qed.

(** ** What settlement returns *)

Definition usage_pair (u : UsageQuantity) : string * Z := (uq_Basis u, uq_Quantity u).
Definition actual_pair (a : ActualChargeComponent) : string * Z := (ac_Basis a, ac_Quantity a).
Definition priced (row : NormalizedCharge) : bool := negb (bool_decide (is_Some (row_IncludedIn row))).
Definition priced_bases (rows : list NormalizedCharge) : list Basis :=
  map row_Basis (List.filter priced rows).

Lemma priced_bases_cons row rows :
  priced_bases (row :: rows) =
  match row_IncludedIn row with Some _ => priced_bases rows | None => row_Basis row :: priced_bases rows end.
Proof.
  unfold priced_bases, priced. cbn [List.filter]. destruct (row_IncludedIn row).
  - by rewrite bool_decide_eq_true_2 by eauto.
  - by rewrite bool_decide_eq_false_2 by (by intros [? ?]).
Qed.

Lemma canonical_from_pairs values : forall out q,
  canonical_from out values = Ok q -> map_to_list q ≡ₚ map usage_pair values ++ map_to_list out.
Proof.
  induction values as [|v values IH]; intros out q; cbn [canonical_from map app].
  { intros E. by injection E as <-. }
  destruct (_ || _); [discriminate|]. destruct (out !! uq_Basis v) eqn:Hout; [discriminate|].
  intros E. rewrite (IH _ _ E), map_to_list_insert by done. symmetry. apply Permutation_middle.
Qed.

Lemma canonicalUsage_pairs values q :
  canonicalUsage values = Ok q -> map_to_list q ≡ₚ map usage_pair values.
Proof. intros E%canonical_from_pairs. by rewrite map_to_list_empty, app_nil_r in E. Qed.

Lemma reserved_index_lookup reserved : forall m idx,
  reserved_index m reserved = Ok idx ->
  forall b c, idx !! b = Some c -> m !! b = Some c \/ (c ∈ reserved /\ cc_Basis c = b).
Proof.
  induction reserved as [|c0 reserved IH]; intros m idx; cbn [reserved_index].
  { intros E. injection E as <-. auto. }
  destruct (m !! cc_Basis c0) eqn:Hm; [discriminate|]. intros E b c Hl.
  destruct (IH _ _ E b c Hl) as [Hins|[? ?]]; [|right; split; [by right|done]].
  destruct (decide (cc_Basis c0 = b)) as [<-|Hne].
  - rewrite lookup_insert_eq in Hins. injection Hins as <-. right. split; [left|done].
  - rewrite lookup_insert_ne in Hins by done. auto.
Qed.

(** The relation between an actual component and the reserved one it settles. *)
Definition settles (idx : gmap string ChargeComponent) (a : ActualChargeComponent) : Prop :=
  exists bound, idx !! ac_Basis a = Some bound /\
    ceilingProduct (cc_PriceMicrosPerUnit bound) (ac_Quantity a) (cc_UnitDenominator bound) = Ok (ac_ActualMicros a) /\
    ac_ReservedQuantity a = cc_Quantity bound /\ ac_ExceededBound a = (cc_Quantity bound <? ac_Quantity a).

Record settled_by (idx : gmap string ChargeComponent) (st st' : settle_state) (rows : list NormalizedCharge)
    (acts : list ActualChargeComponent) (miss : list Basis) : Prop := {
  sb_actual : st_actual st' = st_actual st ++ acts;
  sb_missing : st_missing st' = st_missing st ++ miss;
  sb_exceeded : st_exceeded st' = st_exceeded st || existsb ac_ExceededBound acts;
  sb_settles : Forall (settles idx) acts;
  sb_bases : map ac_Basis acts ++ miss ≡ₚ priced_bases rows;
  sb_quantities : map_to_list (st_quantities st) ≡ₚ map actual_pair acts ++ map_to_list (st_quantities st')
}.

Lemma settle_rows_spec idx rows : forall st st',
  Forall (fun row => row_SettlementUsageField row = row_Basis row) rows ->
  settle_rows idx st rows = Ok st' -> exists acts miss, settled_by idx st st' rows acts miss.
Proof.
  induction rows as [|row rows IH]; intros st st' Hf; cbn [settle_rows].
  { intros E. injection E as <-. exists [], []. split; rewrite ?app_nil_r, ?orb_false_r; done. }
  inversion Hf as [|? ? Hfield Hf']; subst.
  pose proof (priced_bases_cons row rows) as Hpb.
  destruct (row_IncludedIn row) as [parent|].
  { intros Hrest. destruct (IH st st' Hf' Hrest) as (acts & miss & []). exists acts, miss.
    split; try done. by rewrite Hpb. }
  intros (st1 & Hrow & Hrest)%res_bind_ok.
  destruct (IH st1 st' Hf' Hrest) as (acts & miss & [Ha Hm He Hs Hb Hq]).
  unfold settle_row in Hrow. destruct (idx !! row_Basis row) as [bound|] eqn:Hidx; [|discriminate].
  destruct (negb (_ =? _) || negb (_ =? _)) eqn:Hmatch; [discriminate|]. bool_to_prop.
  rewrite Hfield in Hrow. destruct (st_quantities st !! row_Basis row) as [q|] eqn:Hqty.
  - apply res_bind_ok in Hrow as (cost & Hcost & E). injection E as <-.
    cbn [st_quantities st_actual st_missing st_exceeded] in *.
    eexists (_ :: acts), miss. split.
    + rewrite Ha, <- app_assoc. reflexivity.
    + done.
    + cbn [existsb ac_ExceededBound]. by rewrite He, orb_assoc.
    + constructor; [|done]. exists bound. cbn. by rewrite H, H0.
    + rewrite Hpb. cbn [map ac_Basis app]. by rewrite Hb.
    + cbn [map]. rewrite <- (insert_delete_id (st_quantities st) (row_Basis row) q Hqty).
      rewrite map_to_list_insert by apply lookup_delete_eq. rewrite Hq. done.
  - injection Hrow as <-. cbn [st_quantities st_actual st_missing st_exceeded] in *. exists acts, (row_Basis row :: miss). split.
    + done.
    + by rewrite Hm, <- app_assoc.
    + done.
    + done.
    + by rewrite Hpb, <- Permutation_middle, Hb.
    + done.
Qed.

Lemma check_row_field row : check_row ∅ row = None -> row_SettlementUsageField row = row_Basis row.
Proof.
  unfold check_row. destruct (String.eqb (row_SettlementUsageField row) (row_Basis row)) eqn:E.
  - intros _. by apply String.eqb_eq.
  - rewrite !orb_true_r. simpl. rewrite ?orb_true_r. discriminate.
Qed.

Section settlement.
Context `{Crypto}.

(** What a snapshot that passes [ValidateSnapshotIntegrity] is. *)
Record valid_snapshot (s : NormalizedPricingSnapshot) : Prop := {
  vs_header : snapshot_header_ok s = true;
  vs_rows : Forall (fun row => check_row ∅ row = None) (snap_Charges s);
  vs_bases : NoDup (map row_Basis (snap_Charges s) ++ snap_InapplicableBases s);
  vs_inapplicable : Forall (fun b => isBasis b = true) (snap_InapplicableBases s);
  vs_all : forall b, b ∈ AllBases -> b ∈ map row_Basis (snap_Charges s) ++ snap_InapplicableBases s;
  vs_graph : validateIncludedChargeGraph (snap_Charges s) (snap_InapplicableBases s) = None
}.

Lemma ValidateSnapshotIntegrity_spec s : ValidateSnapshotIntegrity s = None <-> valid_snapshot s.
Proof.
  unfold ValidateSnapshotIntegrity. destruct (snapshot_header_ok s) eqn:Hh; cbn [negb].
  2:{ split; [discriminate | intros []; congruence]. }
  destruct (check_rows ∅ (snap_Charges s)) as [seen|] eqn:Hr.
  2:{ split; [discriminate|]. intros [_ Hrows Hnd _ _ _].
      apply NoDup_app in Hnd as (Hnd & _ & _).
      assert (check_rows ∅ (snap_Charges s) = Ok (list_to_set (map row_Basis (snap_Charges s)) ∪ ∅)) as Hok
        by (apply check_rows_spec; repeat split; [done|done|set_solver]).
      congruence. }
  apply check_rows_spec in Hr as (Hrows & Hnd & _ & ->).
  destruct (check_inapplicable _ (snap_InapplicableBases s)) as [seen|] eqn:Hi.
  2:{ split; [discriminate|]. intros [_ _ Hnd' Hin _ _].
      apply NoDup_app in Hnd' as (_ & Hdisj & Hnd').
      assert (check_inapplicable (list_to_set (map row_Basis (snap_Charges s)) ∪ ∅) (snap_InapplicableBases s)
              = Ok (list_to_set (snap_InapplicableBases s) ∪ (list_to_set (map row_Basis (snap_Charges s)) ∪ ∅)))
        as Hok by (apply check_inapplicable_spec; repeat split; [done|done|];
                   intros b Hb Hb'; apply (Hdisj b); set_solver).
      congruence. }
  apply check_inapplicable_spec in Hi as (Hin & Hnd' & Hdisj & ->).
  destruct (all_seen _) eqn:Hall; cbn [negb].
  - rewrite all_seen_spec in Hall. split.
    + intros Hg. split; [done|done| |done| |done].
      * apply NoDup_app. repeat split; [done| |done]. intros b Hb Hb'. apply (Hdisj b Hb'). set_solver.
      * intros b Hb. specialize (Hall b Hb). rewrite elem_of_app. set_solver.
    + by intros [].
  - split; [discriminate|]. intros [_ _ _ _ Hcov _].
    enough (all_seen (list_to_set (snap_InapplicableBases s) ∪ (list_to_set (map row_Basis (snap_Charges s)) ∪ ∅)) = true)
      by congruence.
    apply all_seen_spec. intros b Hb. specialize (Hcov b Hb). rewrite elem_of_app in Hcov. set_solver.
Qed.
End settlement.

(** ** What a reservation returns *)

Definition priced_component (c : ChargeComponent) : Prop :=
  ceilingProduct (cc_PriceMicrosPerUnit c) (cc_Quantity c) (cc_UnitDenominator c) = Ok (cc_ReservedMicros c).

Lemma reserve_rows_spec ctx declared rows : forall out,
  reserve_rows ctx declared rows = Ok out ->
  map cc_Basis out = priced_bases rows /\ Forall priced_component out.
Proof.
  induction rows as [|row rows IH]; intros out; cbn [reserve_rows].
  { intros E. by injection E as <-. }
  rewrite priced_bases_cons. destruct (row_IncludedIn row); [auto|].
  intros (c & Hc & (rest & Hrest & E)%res_bind_ok)%res_bind_ok. injection E as <-.
  destruct (IH rest Hrest) as [Hb Hf]. unfold reserve_row in Hc.
  apply res_bind_ok in Hc as (q & _ & Hc). destruct (_ <? 0); [discriminate|].
  apply res_bind_ok in Hc as (cost & Hcost & E). injection E as <-.
  split; [cbn; by rewrite Hb | by constructor].
Qed.

Section theorems.
Context `{Crypto}.

Lemma ValidateSnapshot_integrity s g at_ : ValidateSnapshot s g at_ = None -> valid_snapshot s.
Proof.
  unfold ValidateSnapshot. destruct (ValidateSnapshotIntegrity s) eqn:E; [discriminate|].
  intros _. by apply ValidateSnapshotIntegrity_spec.
Qed.

Lemma valid_row_field s :
  valid_snapshot s -> Forall (fun row => row_SettlementUsageField row = row_Basis row) (snap_Charges s).
Proof. intros [_ Hr _ _ _ _]. eapply Forall_impl; [exact Hr|]. apply check_row_field. Qed.

Lemma valid_priced_NoDup s : valid_snapshot s -> NoDup (priced_bases (snap_Charges s)).
Proof.
  intros [_ _ Hnd _ _ _]. apply NoDup_app in Hnd as (Hnd & _ & _). revert Hnd. unfold priced_bases.
  induction (snap_Charges s) as [|row rows IH]; cbn [List.filter map]; [done|].
  intros Hnd. inversion Hnd as [|? ? Hni Hnd']; subst. destruct (priced row); [|auto].
  cbn [map]. constructor; [|auto]. intros Hin. apply Hni.
  apply list_elem_of_In, in_map_iff in Hin as (r & Hr & Hin). rewrite filter_In in Hin.
  apply list_elem_of_In, in_map_iff. exists r. tauto.
Qed.

Lemma SettleComponents_ok s reserved usage actual missing exceeded :
  SettleComponents s reserved usage = Ok (actual, missing, exceeded) ->
  valid_snapshot s /\
  exists idx, reserved_index ∅ reserved = Ok idx /\ Forall (settles idx) actual /\
    exceeded = existsb ac_ExceededBound actual /\
    map actual_pair actual ≡ₚ map usage_pair usage /\
    map ac_Basis actual ++ missing ≡ₚ priced_bases (snap_Charges s).
Proof.
  unfold SettleComponents. destruct (ValidateSnapshotIntegrity s) eqn:Hv; [discriminate|].
  apply ValidateSnapshotIntegrity_spec in Hv.
  intros (q & Hq & (idx & Hidx & (st & Hst & E)%res_bind_ok)%res_bind_ok)%res_bind_ok.
  destruct (size (st_quantities st) =? 0)%nat eqn:Hsize; [|discriminate]. cbn [negb] in E.
  injection E as <- <- <-.
  destruct (settle_rows_spec idx _ _ _ (valid_row_field s Hv) Hst) as (acts & miss & [Ha Hm He Hs Hb Hqs]).
  cbn in Ha, Hm, He, Hqs. split; [done|]. exists idx.
  assert (Hperm : sort_slice (fun i j => string_ltb (ac_Basis i) (ac_Basis j)) (st_actual st) ≡ₚ acts)
    by (by rewrite Ha, sort_slice_perm).
  repeat split; [done|..].
  - by rewrite Hperm.
  - rewrite He. apply eq_true_iff_eq. rewrite !existsb_exists.
    by setoid_rewrite <- list_elem_of_In; setoid_rewrite Hperm.
  - rewrite Hperm, <- (canonicalUsage_pairs _ _ Hq), Hqs.
    apply Nat.eqb_eq, map_size_empty_inv in Hsize. rewrite Hsize, map_to_list_empty. by rewrite app_nil_r.
  - unfold sort_strings. by rewrite Hperm, Hm, sort_slice_perm.
Qed.
End theorems.

(** ** Properties *)

Section properties.
Context `{Crypto}.

(** an accepted pricing snapshot partitions the closed set of billable bases
    into charged and inapplicable ones, and every row included in another one
    resolves, without a cycle, to a separately charged root of its own family. *)
Theorem valid_snapshot_partitions_bases s :
  ValidateSnapshotIntegrity s = None ->
  map row_Basis (snap_Charges s) ++ snap_InapplicableBases s ≡ₚ AllBases /\
  Forall (detail_ok (charged_rows (snap_Charges s))) (snap_Charges s).
Proof.
  intros [_ Hrows Hnd Hin Hall Hg]%ValidateSnapshotIntegrity_spec. split.
  - apply NoDup_Permutation; [done| apply (bool_decide_unpack _); vm_compute; exact I |].
    intros b. split; [|apply Hall]. intros [Hb|Hb]%elem_of_app; apply isBasis_In.
    + apply list_elem_of_fmap in Hb as (row & -> & Hrow). rewrite Forall_forall in Hrows.
      specialize (Hrows row Hrow). unfold check_row in Hrows.
      destruct (isBasis (row_Basis row)); [done | discriminate].
    + rewrite Forall_forall in Hin. auto.
  - unfold validateIncludedChargeGraph in Hg. destruct (existsb _ _); [discriminate|].
    by apply included_rows_ok_spec.
Qed.

(** the actual vector of a settlement is the reported usage, row by row:
    nothing reported is dropped, nothing unreported is charged, and the priced
    bases without usage are exactly the missing ones. *)
Theorem settlement_charges_the_usage s reserved usage actual missing exceeded :
  SettleComponents s reserved usage = Ok (actual, missing, exceeded) ->
  map actual_pair actual ≡ₚ map usage_pair usage /\
  map ac_Basis actual ++ missing ≡ₚ priced_bases (snap_Charges s) /\
  (exceeded = true <-> exists a, a ∈ actual /\ ac_ReservedQuantity a < ac_Quantity a).
Proof.
  intros (_ & idx & _ & Hs & -> & Hu & Hb)%SettleComponents_ok. repeat split; [done..| |].
  - intros (a & Ha & Hex)%existsb_exists. apply list_elem_of_In in Ha. exists a. split; [done|].
    rewrite Forall_forall in Hs. destruct (Hs a Ha) as (bound & _ & _ & Hr & Ho).
    rewrite Ho in Hex. apply Z.ltb_lt in Hex. congruence.
  - intros (a & Ha & Hlt). apply existsb_exists. exists a. split; [by apply list_elem_of_In|].
    rewrite Forall_forall in Hs. destruct (Hs a Ha) as (bound & _ & _ & Hr & Ho).
    rewrite Ho. apply Z.ltb_lt. congruence.
Qed.

(** C37: what a request is charged is covered by what was reserved for it: a
    settlement that stays within the reserved quantities has an actual cost,
    computed without overflow, between zero and the reservation. *)
Theorem settlement_within_reservation s ctx at_ reserved usage actual missing r :
  ReserveComponents s ctx at_ = Ok reserved ->
  SumComponents reserved = Ok r ->
  SettleComponents s reserved usage = Ok (actual, missing, false) ->
  exists a, SumActualComponents actual = Ok a /\ 0 <= a <= r.
Proof.
  unfold ReserveComponents. destruct (ValidateSnapshot _ _ _); [discriminate|].
  intros (declared & _ & Hres)%res_bind_ok Hr Hset.
  apply reserve_rows_spec in Hres as [_ Hpriced].
  apply SettleComponents_ok in Hset as (Hv & idx & Hidx & Hs & Hex & _ & Hb).
  assert (Hnd : NoDup (map ac_Basis actual)).
  { pose proof (valid_priced_NoDup s Hv) as Hnd. rewrite <- Hb in Hnd. by apply NoDup_app in Hnd as [? _]. }
  assert (Hcost : Forall (fun c => in64 (cc_ReservedMicros c) /\ 0 <= cc_ReservedMicros c) reserved).
  { eapply Forall_impl; [exact Hpriced|]. intros c Hc. split; [by apply ceilingProduct_spec in Hc as (_ & _ & ?)|].
    by eapply ceilingProduct_nonneg. }
  assert (Hact : forall a, a ∈ actual -> in64 (ac_ActualMicros a) /\ 0 <= ac_ActualMicros a /\
            exists c, c ∈ reserved /\ cc_Basis c = ac_Basis a /\ ac_ActualMicros a <= cc_ReservedMicros c).
  { intros a Ha. rewrite Forall_forall in Hs. destruct (Hs a Ha) as (bound & Hl & Hc & _ & Hover).
    split; [by apply ceilingProduct_spec in Hc as (_ & _ & ?)|]. split; [by eapply ceilingProduct_nonneg|].
    destruct (reserved_index_lookup reserved ∅ idx Hidx _ _ Hl) as [He|[Hin Hk]]; [by rewrite lookup_empty in He|].
    exists bound. repeat split; [done..|]. rewrite Forall_forall in Hpriced.
    eapply ceilingProduct_mono; [|exact Hc|exact (Hpriced bound Hin)].
    assert (Hno : ac_ExceededBound a = false).
    { symmetry in Hex. rewrite <- not_true_iff_false, existsb_exists in Hex.
      apply not_true_is_false. intros He. apply Hex. exists a. split; [by apply list_elem_of_In | done]. }
    rewrite Hover in Hno. by apply Z.ltb_ge in Hno. }
  assert (Hle : zsum (map ac_ActualMicros actual) <= zsum (map cc_ReservedMicros reserved)).
  { apply (zsum_le_by_key ac_Basis cc_Basis); [done| |].
    - eapply Forall_impl; [exact Hcost|]. by intros c [_ ?].
    - intros a Ha. by apply Hact. }
  assert (H0 : 0 <= 0 <= max_int64) by (unfold max_int64; lia).
  apply sum_micros_ok in Hr as (_ & -> & Hmax); [|done|].
  2:{ apply Forall_map. eapply Forall_impl; [exact Hcost|]. by intros c [? _]. }
  exists (zsum (map ac_ActualMicros actual)).
  assert (Hnn : Forall (fun m => 0 <= m) (map ac_ActualMicros actual)).
  { apply Forall_map, Forall_forall. intros a Ha. by apply Hact. }
  split; [|split; [by apply zsum_nonneg | lia]].
  apply sum_micros_ok; [done| |split; [done|lia]].
  apply Forall_map, Forall_forall. intros a Ha. by apply Hact.
Qed.
End properties.

(** ** Normalization produces snapshots the validator accepts *)

Lemma included_rows_ok_forall charged rows :
  included_rows_ok charged rows = None <-> Forall (fun row => included_rows_ok charged [row] = None) rows.
Proof.
  induction rows as [|row rows IH]; [split; [constructor | done]|]. rewrite Forall_cons, <- IH.
  cbn [included_rows_ok]. destruct (row_IncludedIn row); [|tauto].
  destruct (resolve_root _ _ _ _) as [[root|]|]; [|split; [discriminate | tauto]..].
  destruct (legalIncludedPair (row_Basis row) (row_Basis root)); [tauto | split; [discriminate | tauto]].
Qed.

Lemma charged_rows_spec rows b root :
  NoDup (map row_Basis rows) ->
  charged_rows rows !! b = Some root <-> root ∈ rows /\ row_Basis root = b.
Proof.
  intros Hnd. split; [apply charged_rows_lookup|]. intros [Hin <-]. unfold charged_rows.
  assert (Hgen : forall m : gmap string NormalizedCharge,
    (root ∈ rows \/ (m !! row_Basis root = Some root /\ row_Basis root ∉ map row_Basis rows)) ->
    fold_left (fun m row => <[row_Basis row := row]> m) rows m !! row_Basis root = Some root); [|auto].
  clear Hin. induction rows as [|row rows IH]; intros m Hm; simpl.
  { destruct Hm as [Hm|[Hm _]]; [by apply elem_of_nil in Hm | done]. }
  inversion Hnd as [|? ? Hni Hnd']; subst. apply IH; [done|].
  destruct Hm as [[->|Hin]%elem_of_cons|[Hm Hnot]].
  - right. by rewrite lookup_insert_eq.
  - by left.
  - right. cbn [map] in Hnot. apply not_elem_of_cons in Hnot as [Hne Hnot]. by rewrite lookup_insert_ne.
Qed.

Lemma charged_rows_perm rows rows' :
  NoDup (map row_Basis rows) -> rows ≡ₚ rows' -> charged_rows rows = charged_rows rows'.
Proof.
  intros Hnd Hp. apply map_eq. intros b. apply option_eq. intros root.
  rewrite !charged_rows_spec; [by rewrite Hp | | done].
  by rewrite <- (Permutation_map row_Basis Hp).
Qed.

Lemma validateIncludedChargeGraph_perm rows rows' bases bases' :
  NoDup (map row_Basis rows) -> rows ≡ₚ rows' -> bases ≡ₚ bases' ->
  validateIncludedChargeGraph rows bases = None -> validateIncludedChargeGraph rows' bases' = None.
Proof.
  intros Hnd Hr Hb. unfold validateIncludedChargeGraph. cbn zeta. rewrite (charged_rows_perm rows rows') by done.
  destruct (existsb _ bases) eqn:E; [discriminate|].
  assert (existsb (fun basis => bool_decide (is_Some (charged_rows rows' !! basis))) bases' = false) as ->.
  { rewrite <- not_true_iff_false, existsb_exists in E |- *. setoid_rewrite <- list_elem_of_In.
    setoid_rewrite <- Hb. by setoid_rewrite list_elem_of_In. }
  rewrite !(included_rows_ok_forall _ _). by rewrite Hr.
Qed.

(** The row tests of the validator, split into what normalization always checks
    and the two conditions it checks elsewhere or not at all. *)
Definition bound_mapped (row : NormalizedCharge) : Prop :=
  row_RequestBoundField row = "" \/ validRequestBound (row_Basis row) (row_RequestBoundField row) = true.
Definition always_bounded (row : NormalizedCharge) : Prop :=
  row_Applicability row = ProviderChargeAlways -> row_IncludedIn row = None -> is_Some (row_MaximumQuantity row).

Lemma validApplicability_cases a :
  validApplicability a = true ->
  a = ProviderChargeAlways \/ a = ProviderChargeRequestDeclared \/ a = ProviderChargeProviderResponse.
Proof.
  unfold validApplicability. intros [[H|H]%orb_true_iff|H]%orb_true_iff; apply String.eqb_eq in H; auto.
Qed.

Ltac unfold_charge :=
  cbn [charge_Basis charge_Applicability charge_Price charge_UnitDenominator charge_SettlementUsageField
       charge_IncludedIn charge_MaximumQuantity charge_RequestBoundField charge_DisjointUsage
       row_Basis row_Applicability row_PriceMicrosPerUnit row_UnitDenominator row_SettlementUsageField
       row_IncludedIn row_MaximumQuantity row_RequestBoundField row_DisjointUsage] in *.

Lemma normalize_charge_row seen charge row :
  normalize_charge seen charge = Ok row ->
  row_Basis row = charge_Basis charge /\ (charge_Basis charge ∉ seen) /\
  (bound_mapped row -> always_bounded row -> check_row ∅ row = None).
Proof.
  unfold normalize_charge. destruct (_ || _ || _ || _ || _) eqn:Hbad; [discriminate|].
  bool_to_prop. rewrite bool_decide_eq_false in *.
  intros (price & Hprice & Hrow)%res_bind_ok. apply exactMicros_spec in Hprice as [Hprice _].
  destruct charge as [basis app q den field inc mx rbf disj]. unfold_charge. subst field.
  destruct (match inc with Some parent => _ | None => _ end) eqn:Hbound; [discriminate|].
  destruct (String.eqb app ProviderChargeProviderResponse && _) eqn:Hresp; [discriminate|].
  destruct ((_ || _) && _ && negb disj) eqn:Hdet; [discriminate|].
  destruct (String.eqb app ProviderChargeRequestDeclared && _ && _) eqn:Hreq; [discriminate|].
  injection Hrow as <-. repeat split; [done|]. intros Hmapped Halways.
  unfold check_row, bound_mapped, always_bounded in *. unfold_charge.
  rewrite H, String.eqb_refl, (bool_decide_eq_false_2 (basis ∈ ∅)) by set_solver.
  match goal with Ha : validApplicability app = true |- _ => rewrite Ha; apply validApplicability_cases in Ha as Hcases end.
  replace (price <? 0) with false by lia. replace (den <=? 0) with false by lia. cbn [negb orb].
  destruct inc as [parent|].
  - by destruct (negb (isBasis parent) || String.eqb parent basis || negb (price =? 0)).
  - rewrite bool_decide_eq_false_2 in Hdet, Hreq by (by intros [? ?]). cbn [negb] in Hdet, Hreq.
    rewrite andb_true_r in Hdet, Hreq. rewrite Hdet.
    destruct Hcases as [-> | [-> | ->]]; cbn [String.eqb Ascii.eqb Bool.eqb andb negb] in Hreq, Hresp |- *.
    + by rewrite bool_decide_eq_true_2 by auto.
    + destruct Hmapped as [-> | ->]; [discriminate | done].
    + destruct (bool_decide (is_Some mx)); [done | discriminate].
Qed.

Lemma normalize_charges_spec charges : forall seen rows seen' rows',
  normalize_charges seen rows charges = Ok (seen', rows') ->
  exists new, rows' = rows ++ new /\ NoDup (map row_Basis new) /\
    (forall b, b ∈ map row_Basis new -> b ∉ seen) /\ seen' = list_to_set (map row_Basis new) ∪ seen /\
    Forall (fun row => bound_mapped row -> always_bounded row -> check_row ∅ row = None) new.
Proof.
  induction charges as [|charge charges IH]; intros seen rows seen' rows'; cbn [normalize_charges].
  { intros E. injection E as <- <-. exists []. rewrite app_nil_r.
    repeat split; [constructor | set_solver | set_solver | constructor]. }
  intros (row & (Hb & Hns & Hok)%normalize_charge_row & Hrest)%res_bind_ok.
  destruct (IH _ _ _ _ Hrest) as (new & -> & Hnd & Hfresh & -> & Hall).
  exists (row :: new). rewrite <- app_assoc. cbn [map list_to_set]. rewrite Hb.
  split; [done|]. split; [constructor; [|done]|]; [|split; [|split]].
  - intros Hin. apply (Hfresh _ Hin). set_solver.
  - intros b [->|Hin]%elem_of_cons; [done|]. specialize (Hfresh b Hin). set_solver.
  - apply leibniz_equiv. set_solver.
  - by constructor.
Qed.

Lemma token_rows_check input output :
  0 <= input -> 0 <= output -> Forall (fun row => check_row ∅ row = None) (token_rows input output).
Proof.
  intros Hi Ho. repeat constructor; unfold check_row; unfold_charge;
    rewrite (bool_decide_eq_false_2 (_ ∈ ∅)) by set_solver;
    [replace (input <? 0) with false by lia | replace (output <? 0) with false by lia]; reflexivity.
Qed.

Ltac unfold_snap :=
  cbn [set_with snap_SpecGeneration snap_Version snap_ObservedAt snap_ValidUntil snap_Currency snap_Completeness
       snap_SnapshotSHA256 snap_AdapterVersion snap_EvidenceMode snap_EvidenceSHA256 snap_SourceVersion
       snap_Charges snap_InapplicableBases] in *.

Lemma pricing_evidence_ok p evidence now :
  pricing_evidence_error p evidence now = None ->
  0 < om_Generation (prov_Meta p) /\ blank (pp_Version (ps_Pricing (prov_Spec p))) = false /\
  validEvidenceMode (pev_Mode evidence) = true /\ is_sha256 (pev_EvidenceSHA256 evidence) = true /\
  blank (pev_SourceVersion evidence) = false.
Proof.
  unfold pricing_evidence_error. intros H. cbn zeta in H.
  repeat match type of H with (if ?b then _ else _) = _ => destruct b eqn:?; [discriminate|] end.
  bool_to_prop. repeat split; try done; lia.
Qed.

Section normalize_properties.
Context `{CL : CryptoLaws}.

(** the snapshot [Normalize] publishes passes the integrity check that every
    later reader applies, provided the evidence outlives the observation and
    every always-charged row carries a maximum: the two conditions the
    validator has and [Normalize] does not test. *)
Theorem normalize_validates p now s ev :
  Normalize p now = Ok (s, ev) ->
  snap_ObservedAt s < snap_ValidUntil s ->
  Forall always_bounded (snap_Charges s) ->
  ValidateSnapshotIntegrity s = None.
Proof.
  unfold Normalize. intros (fam & _ & Hn)%res_bind_ok. revert Hn.
  destruct (ps_GOVAR (prov_Spec p) ≫= pgs_Pricing) as [pricing|]; [|discriminate].
  destruct (pp_BillableCategories _); [|discriminate].
  destruct (pricing_evidence_error p (gpr_Evidence pricing) now) eqn:Hev; [discriminate|].
  destruct (pp_ObservedAt _) as [observed|]; [|discriminate].
  intros (input & Hin & (output & Hout & ([seen rows] & Hrows & (seen' & Hinap & Hn)%res_bind_ok)%res_bind_ok)%res_bind_ok)%res_bind_ok.
  revert Hn. destruct (all_seen seen') eqn:Hall; [|discriminate]. cbn [negb].
  destruct (validateIncludedChargeGraph _ _) eqn:Hgraph; [discriminate|].
  destruct (existsb _ rows) eqn:Hbounds; [discriminate|]. intros E. injection E as <- <-.
  unfold_snap. intros Htime Halways.
  apply exactMicros_spec in Hin as [Hin _]. apply exactMicros_spec in Hout as [Hout _].
  apply normalize_charges_spec in Hrows as (new & -> & Hnd & Hfresh & -> & Hnew).
  apply check_inapplicable_spec in Hinap as (Hbases & Hndb & Hdisj & ->).
  rewrite all_seen_spec in Hall.
  assert (Hrows : NoDup (map row_Basis (token_rows input output ++ new))).
  { rewrite map_app. apply NoDup_app. repeat split; [|set_solver|done].
    apply (bool_decide_unpack _). vm_compute. exact I. }
  apply ValidateSnapshotIntegrity_spec. split; unfold_snap.
  - apply pricing_evidence_ok in Hev as (Hg & Hv & Hm & Hs & Hsv).
    unfold snapshot_header_ok. unfold_snap. rewrite blank_TrimSpace, Hv, Hm, Hs, Hsv.
    replace (om_Generation _ <=? 0) with false by lia.
    replace (After _ _) with true by (unfold After; lia).
    match goal with |- context [is_sha256 (SnapshotDigest ?x)] =>
      replace (is_sha256 (SnapshotDigest x)) with true by (symmetry; apply CL) end.
    match goal with |- context [String.eqb (SnapshotDigest ?x) (SnapshotDigest ?y)] =>
      change (SnapshotDigest y) with (SnapshotDigest x); rewrite !String.eqb_refl end.
    reflexivity.
  - unfold sort_rows. rewrite sort_slice_perm. unfold sort_rows in Halways. rewrite sort_slice_perm in Halways.
    apply Forall_app. split; [by apply token_rows_check; lia|].
    apply Forall_app in Halways as [_ Halways]. apply Forall_forall. intros row Hrow.
    rewrite Forall_forall in Hnew, Halways. apply Hnew; [done| |by apply Halways].
    rewrite <- not_true_iff_false, existsb_exists in Hbounds.
    unfold bound_mapped. destruct (String.eqb (row_RequestBoundField row) "") eqn:He; [left; by apply String.eqb_eq|].
    right. apply not_false_is_true. intros Hf. apply Hbounds. exists row.
    rewrite He, Hf. split; [|done]. apply list_elem_of_In, elem_of_app. by right.
  - unfold sort_rows, sort_strings. rewrite (Permutation_map row_Basis (sort_slice_perm _ _)), sort_slice_perm.
    apply NoDup_app. repeat split; [done| |done]. intros b Hb Hb'. apply (Hdisj b Hb').
    rewrite map_app, elem_of_app in Hb. set_solver.
  - unfold sort_strings. by rewrite sort_slice_perm.
  - intros b Hb. specialize (Hall b Hb).
    unfold sort_rows, sort_strings. rewrite (Permutation_map row_Basis (sort_slice_perm _ _)), sort_slice_perm.
    rewrite map_app, !elem_of_app. set_solver.
  - eapply validateIncludedChargeGraph_perm; [exact Hrows| | |exact Hgraph];
      unfold sort_rows, sort_strings; by rewrite sort_slice_perm.
Qed.
End normalize_properties.

(** ** A concrete provider *)

Module PricingExample.
Definition now : Time := 1784030399120000000.
(** A [metav1.Time] of a manifest has whole seconds. *)
Definition manifest_time : Time := 1784030399000000000.
Definition digest : string := "0123456789abcdef0123456789abcdef0123456789abcdef0123456789abcdef".

Definition tool_call (app bound : string) (maximum : option Z) : ProviderBillableCharge :=
  Build_ProviderBillableCharge ProviderBasisToolCall app (Build_Quantity 25 3) 1 ProviderBasisToolCall
    None maximum bound false.
Definition cached : ProviderBillableCharge :=
  Build_ProviderBillableCharge ProviderBasisCachedInputTokens ProviderChargeRequestDeclared (Build_Quantity 0 0)
    1000000 ProviderBasisCachedInputTokens (Some ProviderBasisInputTokens) None "" false.

Definition provider (charge : ProviderBillableCharge) : AIProvider :=
  Build_AIProvider (Build_ObjectMeta "acme" "ai" "uid-1" "77" 3)
    (Build_AIProviderSpec "openai" "eu-west" "EU" true
       (Build_ProviderPricing "eur" (Build_Quantity 25 1) (Build_Quantity 10 0) None " 2026-07 "
          (Some (manifest_time - Hour)) ProviderPricingComplete [])
       (Build_ProviderCompliance false [])
       (Some (Build_AIProviderGOVARSpec []
          (Some (Build_AIProviderGOVARPricingSpec
             (Build_PricingEvidenceSpec ProviderEvidenceAdminAttested "catalog-9" digest (manifest_time + Day) CurrentAdapterVersion)
             [charge; cached]
             [ProviderBasisReasoningTokens; ProviderBasisRequest; ProviderBasisMediaUnit;
              ProviderBasisBillableSecond; ProviderBasisCancellation; ProviderBasisRetryAttempt])))))
    (Build_AIProviderStatus 3 [] None).

Definition good_charge := tool_call ProviderChargeRequestDeclared "max_tool_calls" None.
Definition normalized : NormalizedPricingSnapshot := Eval vm_compute in
  (result_or (Build_NormalizedPricingSnapshot 0 "" 0 0 "" "" "" "" "" "" "" [] [], Build_Evidence "" "" "")
     (@Normalize go_crypto (provider good_charge) now)).1.
Definition context (declared : list UsageQuantity) : RequestChargeContext :=
  Build_RequestChargeContext 1000 500 3 0 0 0 false declared.
Definition bounds : list UsageQuantity := [Build_UsageQuantity ProviderBasisToolCall 3].
Definition usage : list UsageQuantity :=
  [Build_UsageQuantity ProviderBasisToolCall 1; Build_UsageQuantity ProviderBasisInputTokens 999;
   Build_UsageQuantity ProviderBasisOutputTokens 120].
Definition reserved : list ChargeComponent := Eval vm_compute in
  result_or [] (@ReserveComponents go_crypto normalized (context bounds) now).
Definition settled : list ActualChargeComponent := Eval vm_compute in
  (result_or ([], [], false) (@SettleComponents go_crypto normalized reserved usage)).1.1.

(** A charge that is always due, bounded only by a request field. *)
Definition always_charge := tool_call ProviderChargeAlways "max_tool_calls" None.
End PricingExample.

Lemma valid_snapshot_partitions_bases_witness :
  map row_Basis (snap_Charges PricingExample.normalized) ++ snap_InapplicableBases PricingExample.normalized ≡ₚ AllBases
  /\ Forall (detail_ok (charged_rows (snap_Charges PricingExample.normalized))) (snap_Charges PricingExample.normalized).
Proof.
  apply (@valid_snapshot_partitions_bases go_crypto PricingExample.normalized). vm_compute. reflexivity.
Defined.

Lemma settlement_charges_the_usage_witness :
  map actual_pair PricingExample.settled ≡ₚ map usage_pair PricingExample.usage /\
  map ac_Basis PricingExample.settled ++ [] ≡ₚ priced_bases (snap_Charges PricingExample.normalized) /\
  (false = true <-> exists a, a ∈ PricingExample.settled /\ ac_ReservedQuantity a < ac_Quantity a).
Proof.
  apply (@settlement_charges_the_usage go_crypto PricingExample.normalized PricingExample.reserved PricingExample.usage).
  vm_compute. reflexivity.
Defined.

Lemma settlement_within_reservation_witness :
  exists a, SumActualComponents PricingExample.settled = Ok a /\ 0 <= a <= 82500.
Proof.
  apply (@settlement_within_reservation go_crypto PricingExample.normalized
           (PricingExample.context PricingExample.bounds) PricingExample.now PricingExample.reserved
           PricingExample.usage PricingExample.settled []); vm_compute; reflexivity.
Defined.

Lemma normalize_validates_witness :
  @ValidateSnapshotIntegrity go_crypto PricingExample.normalized = None.
Proof.
  apply (@normalize_validates go_crypto _ (PricingExample.provider PricingExample.good_charge) PricingExample.now
           PricingExample.normalized
           (Build_Evidence ProviderEvidenceAdminAttested PricingExample.digest "catalog-9")).
  - vm_compute. reflexivity.
  - vm_compute. reflexivity.
  - vm_compute. repeat constructor; discriminate.
Defined.

(** the second condition is needed: [Normalize] publishes a snapshot with an
    always-due charge that only a request field bounds, and the validator then
    rejects that snapshot. *)
Theorem normalize_accepts_unbounded_always_charge :
  is_ok (@Normalize go_crypto (PricingExample.provider PricingExample.always_charge) PricingExample.now) = true /\
  match @Normalize go_crypto (PricingExample.provider PricingExample.always_charge) PricingExample.now with
  | Ok (s, _) => @ValidateSnapshotIntegrity go_crypto s = Some "unbounded non-request charge"%string
  | Err _ => False
  end.
Proof. split; vm_compute; reflexivity. Qed.
