(* ===== verification/Calibration.v ===== *)
(** * Calibration artifacts and drift windows

    [internal/govarcalibration]: the split-conformal order statistic that bounds
    the output tokens of a request, the immutable artifact built from it, the
    coverage-gap drift detector, and the canonical regime digests compared at
    admission. *)

From Stdlib Require Import ZArith Lia Ascii String SpecFloat.
From stdpp Require Import base gmap strings list pretty sorting.
From S2P Require Import Prelude Float64 Digest GoTime Json.

Open Scope string_scope.
Open Scope list_scope.
Open Scope Z_scope.
Open Scope go_scope.

Definition SplitTrain : string := "train".
Definition SplitDevelopment : string := "development".
Definition SplitCalibration : string := "calibration".
Definition SplitMonitoring : string := "monitoring".
Definition SplitFrozenTest : string := "frozen_test".
Definition maxArtifactSupport : Z := 10000000.
Definition PPB : Z := 1000000000.
Definition ExactMarginalBoundKind : string := "exchangeable_split_conformal_exact_rank".
Definition AuthoritativeArtifactSchema : string := "govar-calibration-authoritative-v1".

Record Observation : Type := Build_Observation {
  obs_RequestID : string;
  obs_ProviderAttemptID : string;
  obs_Split : string;
  obs_Selected : bool;
  obs_AuthoritativeFinal : bool;
  obs_Excluded : bool;
  obs_OutputTokens : Z;
  obs_FeatureSchemaVersion : string;
  obs_PriceRegimeSHA256 : string;
  obs_CapRegimeSHA256 : string;
  obs_SettledAt : Time
}.
#[export] Instance obs_eta : Eta Observation := fun o =>
  Build_Observation (obs_RequestID o) (obs_ProviderAttemptID o) (obs_Split o) (obs_Selected o)
    (obs_AuthoritativeFinal o) (obs_Excluded o) (obs_OutputTokens o) (obs_FeatureSchemaVersion o)
    (obs_PriceRegimeSHA256 o) (obs_CapRegimeSHA256 o) (obs_SettledAt o).

Record BuildConfig : Type := Build_BuildConfig {
  cfg_ArtifactRef : string;
  cfg_Version : string;
  cfg_FeatureSchemaVersion : string;
  cfg_PriceRegimeSHA256 : string;
  cfg_CapRegimeSHA256 : string;
  cfg_ProducerSoftwareSHA256 : string;
  cfg_CoverageTargetPPB : Z
}.

Record Artifact : Type := Build_Artifact {
  art_SchemaVersion : string;
  art_CalibrationMethod : string;
  art_ArtifactRef : string;
  art_Version : string;
  art_FeatureSchemaVersion : string;
  art_PriceRegimeSHA256 : string;
  art_CapRegimeSHA256 : string;
  art_ProducerSoftwareSHA256 : string;
  art_FeatureRegimeSHA256 : string;
  art_SplitOpportunityRegimeSHA256 : string;
  art_CohortRegimeSHA256 : string;
  art_CoverageTargetPPB : Z;
  art_MinimumSupport : Z;
  art_EmpiricalCoveragePPB : Z;
  art_ExchangeableMarginalCoverageLowerPPB : Z;
  art_CoverageBoundKind : string;
  art_CoverageBoundNumerator : Z;
  art_CoverageBoundDenominator : Z;
  art_CoverageIntervalLowerPPB : Z;
  art_CoverageIntervalUpperPPB : Z;
  art_CoverageConfidencePPB : Z;
  art_ConformalRank : Z;
  art_Support : Z;
  art_UpperOutputTokens : Z;
  art_WindowStart : Time;
  art_WindowEnd : Time;
  art_SourceObservationsSHA256 : string;
  art_ArtifactSHA256 : string
}.
#[export] Instance art_eta : Eta Artifact := fun a =>
  Build_Artifact (art_SchemaVersion a) (art_CalibrationMethod a) (art_ArtifactRef a) (art_Version a)
    (art_FeatureSchemaVersion a) (art_PriceRegimeSHA256 a) (art_CapRegimeSHA256 a) (art_ProducerSoftwareSHA256 a)
    (art_FeatureRegimeSHA256 a) (art_SplitOpportunityRegimeSHA256 a) (art_CohortRegimeSHA256 a)
    (art_CoverageTargetPPB a) (art_MinimumSupport a) (art_EmpiricalCoveragePPB a)
    (art_ExchangeableMarginalCoverageLowerPPB a) (art_CoverageBoundKind a) (art_CoverageBoundNumerator a)
    (art_CoverageBoundDenominator a) (art_CoverageIntervalLowerPPB a) (art_CoverageIntervalUpperPPB a)
    (art_CoverageConfidencePPB a) (art_ConformalRank a) (art_Support a) (art_UpperOutputTokens a)
    (art_WindowStart a) (art_WindowEnd a) (art_SourceObservationsSHA256 a) (art_ArtifactSHA256 a).

Record DriftResult : Type := Build_DriftResult {
  dr_Detector : string;
  dr_ThresholdPPB : Z;
  dr_MonitoringInputSHA256 : string;
  dr_Support : Z;
  dr_Covered : Z;
  dr_EmpiricalCoveragePPB : Z;
  dr_ConfidencePPB : Z;
  dr_IntervalLowerPPB : Z;
  dr_IntervalUpperPPB : Z;
  dr_CoverageGapPPB : Z;
  dr_Detected : bool;
  dr_WindowStart : Time;
  dr_WindowEnd : Time
}.

(** ** JSON of the hashed structs *)

Definition json_Observation (o : Observation) : string :=
  json_object
    [fld "request_id" (json_string (obs_RequestID o)); fld "provider_attempt_id" (json_string (obs_ProviderAttemptID o));
     fld "split" (json_string (obs_Split o)); fld "selected" (json_bool (obs_Selected o));
     fld "authoritative_final" (json_bool (obs_AuthoritativeFinal o)); fld "excluded" (json_bool (obs_Excluded o));
     fld "output_tokens" (json_int (obs_OutputTokens o));
     fld "feature_schema_version" (json_string (obs_FeatureSchemaVersion o));
     fld "price_regime_sha256" (json_string (obs_PriceRegimeSHA256 o));
     fld "cap_regime_sha256" (json_string (obs_CapRegimeSHA256 o)); fld "settled_at" (json_time (obs_SettledAt o))].

Definition json_Artifact (a : Artifact) : string :=
  json_object
    [fld "schema_version" (json_string (art_SchemaVersion a));
     fld "calibration_method" (json_string (art_CalibrationMethod a));
     fld "artifact_ref" (json_string (art_ArtifactRef a)); fld "version" (json_string (art_Version a));
     fld "feature_schema_version" (json_string (art_FeatureSchemaVersion a));
     fld "price_regime_sha256" (json_string (art_PriceRegimeSHA256 a));
     fld "cap_regime_sha256" (json_string (art_CapRegimeSHA256 a));
     fld "producer_software_sha256" (json_string (art_ProducerSoftwareSHA256 a));
     omit_string "feature_regime_sha256" (art_FeatureRegimeSHA256 a);
     omit_string "split_opportunity_regime_sha256" (art_SplitOpportunityRegimeSHA256 a);
     omit_string "cohort_regime_sha256" (art_CohortRegimeSHA256 a);
     fld "coverage_target_ppb" (json_int (art_CoverageTargetPPB a));
     omit_int "minimum_support" (art_MinimumSupport a);
     fld "empirical_coverage_ppb" (json_int (art_EmpiricalCoveragePPB a));
     fld "exchangeable_marginal_coverage_lower_ppb" (json_int (art_ExchangeableMarginalCoverageLowerPPB a));
     fld "coverage_bound_kind" (json_string (art_CoverageBoundKind a));
     fld "coverage_bound_numerator" (json_int (art_CoverageBoundNumerator a));
     fld "coverage_bound_denominator" (json_int (art_CoverageBoundDenominator a));
     fld "coverage_interval_lower_ppb" (json_int (art_CoverageIntervalLowerPPB a));
     fld "coverage_interval_upper_ppb" (json_int (art_CoverageIntervalUpperPPB a));
     fld "coverage_confidence_ppb" (json_int (art_CoverageConfidencePPB a));
     fld "conformal_rank" (json_int (art_ConformalRank a)); fld "support" (json_int (art_Support a));
     fld "upper_output_tokens" (json_int (art_UpperOutputTokens a));
     fld "window_start" (json_time (art_WindowStart a)); fld "window_end" (json_time (art_WindowEnd a));
     fld "source_observations_sha256" (json_string (art_SourceObservationsSHA256 a));
     fld "artifact_sha256" (json_string (art_ArtifactSHA256 a))].

(** ** Canonical regime digests ([authoritative.go]) *)

Record RegimeDigests : Type := Build_RegimeDigests {
  reg_FeatureSHA256 : string;
  reg_PriceSHA256 : string;
  reg_CapPathAdapterSHA256 : string;
  reg_SplitOpportunitySHA256 : string;
  reg_CohortSHA256 : string;
  reg_ProducerSoftwareSHA256 : string
}.
#[export] Instance RegimeDigests_eq_dec : EqDecision RegimeDigests.
Proof. solve_decision. Defined.

Record AuthoritativeObservation : Type := Build_AuthoritativeObservation {
  ao_RequestID : string;
  ao_ProviderAttemptID : string;
  ao_OpportunityID : string;
  ao_Split : string;
  ao_OutputTokens : Z;
  ao_SettledAt : Time;
  ao_Regimes : RegimeDigests
}.
#[export] Instance ao_eta : Eta AuthoritativeObservation := fun o =>
  Build_AuthoritativeObservation (ao_RequestID o) (ao_ProviderAttemptID o) (ao_OpportunityID o) (ao_Split o)
    (ao_OutputTokens o) (ao_SettledAt o) (ao_Regimes o).

Record AuthoritativeBuildConfig : Type := Build_AuthoritativeBuildConfig {
  acfg_ArtifactRef : string;
  acfg_Version : string;
  acfg_FeatureSchemaVersion : string;
  acfg_CoverageTargetPPB : Z;
  acfg_MinimumSupport : Z;
  acfg_Regimes : RegimeDigests
}.

Definition json_Regimes (r : RegimeDigests) : string :=
  json_object
    [fld "feature_sha256" (json_string (reg_FeatureSHA256 r)); fld "price_sha256" (json_string (reg_PriceSHA256 r));
     fld "cap_path_adapter_sha256" (json_string (reg_CapPathAdapterSHA256 r));
     fld "split_opportunity_sha256" (json_string (reg_SplitOpportunitySHA256 r));
     fld "cohort_sha256" (json_string (reg_CohortSHA256 r));
     fld "producer_software_sha256" (json_string (reg_ProducerSoftwareSHA256 r))].

Definition json_AuthoritativeObservation (o : AuthoritativeObservation) : string :=
  json_object
    [fld "request_id" (json_string (ao_RequestID o)); fld "provider_attempt_id" (json_string (ao_ProviderAttemptID o));
     fld "opportunity_id" (json_string (ao_OpportunityID o)); fld "split" (json_string (ao_Split o));
     fld "output_tokens" (json_int (ao_OutputTokens o)); fld "settled_at" (json_time (ao_SettledAt o));
     fld "regimes" (json_Regimes (ao_Regimes o))].

Definition validSplit (split : string) : bool :=
  existsb (String.eqb (ToLower (TrimSpace split)))
    [SplitTrain; SplitDevelopment; SplitCalibration; SplitMonitoring; SplitFrozenTest].

Definition ValidateRegimes (r : RegimeDigests) : option error :=
  if forallb is_sha256 [reg_FeatureSHA256 r; reg_PriceSHA256 r; reg_CapPathAdapterSHA256 r;
                        reg_SplitOpportunitySHA256 r; reg_CohortSHA256 r; reg_ProducerSoftwareSHA256 r]
  then None else Some "regime must be a lower-case SHA-256".

Definition validateAuthoritativeObservation (row : AuthoritativeObservation) : option error :=
  if blank (ao_RequestID row) || blank (ao_ProviderAttemptID row) || blank (ao_OpportunityID row)
     || (ao_OutputTokens row <? 0) || IsZero (ao_SettledAt row) || negb (validSplit (ao_Split row))
  then Some "authoritative observation is incomplete"
  else ValidateRegimes (ao_Regimes row).

(** ** Wilson interval

    The IEEE 754 operations one after the other, as on amd64; [Sqrt], [Floor]
    and [Ceil] of [math] are exact. *)

(** 1.959963984540054, rounded to the nearest double. *)
Definition wilson_z : spec_float := Float.div (Float.of_Z 1959963984540054) (Float.of_Z 1000000000000000).

Definition wilsonIntervalPPB (covered support : Z) : Z * Z :=
  if (support <=? 0) || (covered <? 0) || (support <? covered) then (0, PPB)
  else
    let z := wilson_z in
    let one := Float.of_Z 1 in
    let two := Float.of_Z 2 in
    let four := Float.of_Z 4 in
    let n := Float.of_Z support in
    let p := Float.div (Float.of_Z covered) n in
    let denominator := Float.add one (Float.div (Float.mul z z) n) in
    let center := Float.div (Float.add p (Float.div (Float.mul z z) (Float.mul two n))) denominator in
    let half :=
      Float.div
        (Float.mul z
           (Float.sqrt
              (Float.div
                 (Float.add (Float.mul p (Float.sub one p))
                    (Float.div (Float.mul z z) (Float.mul four n))) n))) denominator in
    let lower := Float.floor (Float.mul (Float.max (Float.of_Z 0) (Float.sub center half)) (Float.of_Z PPB)) in
    let upper := Float.ceil (Float.mul (Float.min one (Float.add center half)) (Float.of_Z PPB)) in
    (lower, upper).

Example wilson_example :
  wilsonIntervalPPB 95 100 = (888249530, 978456321) /\ wilsonIntervalPPB 7 9 = (452588969, 936774893).
Proof. vm_compute. split; reflexivity. Qed.

(** ** Observation digests and row validation *)

Definition validateConfig (cfg : BuildConfig) : option error :=
  if blank (cfg_ArtifactRef cfg) || blank (cfg_Version cfg) || blank (cfg_FeatureSchemaVersion cfg)
  then Some "artifact_ref, version, and feature_schema_version are required"
  else if negb (forallb is_sha256 [cfg_PriceRegimeSHA256 cfg; cfg_CapRegimeSHA256 cfg; cfg_ProducerSoftwareSHA256 cfg])
  then Some "regime must be a lower-case SHA-256"
  else if (cfg_CoverageTargetPPB cfg <? 1) || (PPB <? cfg_CoverageTargetPPB cfg)
  then Some "coverage_target_ppb must be in [1,1000000000]"
  else None.

Definition validateRow (row : Observation) (cfg : BuildConfig) (monitoring : bool) : option error :=
  if String.eqb (obs_RequestID row) "" || String.eqb (obs_ProviderAttemptID row) "" || (obs_OutputTokens row <? 0)
     || IsZero (obs_SettledAt row)
  then Some "observation has missing identity, negative output, or zero settlement time"
  else if negb (obs_Selected row) then Some "observation is an unselected counterfactual outcome"
  else if negb (obs_AuthoritativeFinal row) then Some "observation is not authoritative-final"
  else if obs_Excluded row then Some "observation is excluded"
  else if negb (String.eqb (ToLower (TrimSpace (obs_Split row)))
                  (if monitoring then SplitMonitoring else SplitCalibration))
  then Some "observation split is not monitoring or is forbidden calibration input"
  else if negb (String.eqb (obs_FeatureSchemaVersion row) (cfg_FeatureSchemaVersion cfg))
          || negb (String.eqb (obs_PriceRegimeSHA256 row) (cfg_PriceRegimeSHA256 cfg))
          || negb (String.eqb (obs_CapRegimeSHA256 row) (cfg_CapRegimeSHA256 cfg))
  then Some "observation feature/price/cap regime mismatch"
  else None.

(** The first error of a loop [for _, row := range rows]. *)
Fixpoint first_error {A} (check : A -> option error) (rows : list A) : option error :=
  match rows with
  | [] => None
  | row :: rest => match check row with Some m => Some m | None => first_error check rest end
  end.

Definition identity_less (id : string * string) (id' : string * string) : bool :=
  if negb (String.eqb id.1 id'.1) then string_ltb id.1 id'.1 else string_ltb id.2 id'.2.
Definition obs_identity (o : Observation) : string * string := (obs_RequestID o, obs_ProviderAttemptID o).

Definition normalize_observation (o : Observation) : Observation :=
  o <| obs_Split := ToLower (TrimSpace (obs_Split o)) |>.

(** The identity checks over the sorted rows; [prior] is the row before. *)
Fixpoint unique_identities (prior : option (string * string)) (rows : list Observation) : option error :=
  match rows with
  | [] => None
  | row :: rest =>
    if String.eqb (obs_RequestID row) "" || String.eqb (obs_ProviderAttemptID row) ""
    then Some "request_id and provider_attempt_id are required"
    else if bool_decide (prior = Some (obs_identity row)) then Some "duplicate observation identity"
    else unique_identities (Some (obs_identity row)) rest
  end.

(** The window [start, end] over the settlement times, from that of the first row. *)
Definition window_step (w : Time * Time) (at_ : Time) : Time * Time :=
  let '(start, end_) := w in
  ((if Before at_ start then at_ else start), (if After at_ end_ then at_ else end_)).

Definition window (times : list Time) : Time * Time :=
  match times with
  | [] => (zero_time, zero_time)
  | t0 :: _ => fold_left window_step times (t0, t0)
  end.

Definition count_covered (upper : Z) (tokens : list Z) : Z :=
  fold_left (fun covered v => if v <=? upper then covered +i 1 else covered) tokens 0.

(** [k = ceil((n+1) * target)] in parts per billion. *)
Definition conformal_rank (target n : Z) : Z := Z.quot (mul64 target (n +i 1) +i (PPB - 1)) PPB.

Section calibration.
Context `{Crypto}.

Definition CanonicalDigest (domain : string) (fields : list string) : result string :=
  let domain := TrimSpace domain in
  if String.eqb domain "" then Err "digest domain is required"
  else if existsb (fun value => (16777216 <? Z.of_nat (String.length value))) (domain :: fields)
  then Err "canonical digest field is too large"
  else Ok (sha256_hex (String.concat "" (map (fun value =>
             sprint (Z.of_nat (String.length value)) +:+ String zero (value +:+ String zero EmptyString))
             (domain :: fields)))).

Definition CanonicalFeatureRegime (featureSchemaVersion canonicalFeatureSHA256 : string) : result string :=
  if blank featureSchemaVersion || negb (is_sha256 canonicalFeatureSHA256)
  then Err "feature schema and canonical feature SHA-256 are required"
  else CanonicalDigest "govar-feature-regime-v1" [featureSchemaVersion; canonicalFeatureSHA256].

Definition CanonicalPriceRegime (pricingSnapshotSHA256 providerUID deployment : string) : result string :=
  if negb (is_sha256 pricingSnapshotSHA256) || blank providerUID || blank deployment
  then Err "price snapshot, provider UID, and deployment are required"
  else CanonicalDigest "govar-price-regime-v1" [pricingSnapshotSHA256; providerUID; deployment].

Definition CanonicalCapPathAdapterRegime (capEvidenceSHA256 providerUID : string) (providerGeneration : Z)
    (deployment pathMode adapterVersion requestParameter : string) (maxOutputTokens : Z) : result string :=
  if negb (is_sha256 capEvidenceSHA256) || blank providerUID || (providerGeneration <=? 0) || blank deployment
     || blank pathMode || blank adapterVersion || blank requestParameter || (maxOutputTokens <=? 0)
  then Err "complete verified cap and path-adapter identity is required"
  else CanonicalDigest "govar-cap-path-adapter-regime-v1"
         [capEvidenceSHA256; providerUID; sprint providerGeneration; deployment; pathMode; adapterVersion;
          requestParameter; sprint maxOutputTokens].

Definition CanonicalSplitOpportunityRegime (registrySHA256 opportunitySetSHA256 split cohortSHA256 : string)
    : result string :=
  if negb (is_sha256 registrySHA256) || negb (is_sha256 opportunitySetSHA256) || negb (is_sha256 cohortSHA256)
     || negb (validSplit split)
  then Err "registry, opportunity-set, split, and cohort identities are required"
  else CanonicalDigest "govar-split-opportunity-regime-v1" [registrySHA256; opportunitySetSHA256; split; cohortSHA256].

Definition ObservationDigest (rows : list Observation) : result string :=
  let normalized :=
    sort_slice (fun i j => identity_less (obs_identity i) (obs_identity j)) (map normalize_observation rows) in
  match unique_identities None normalized with
  | Some m => Err m
  | None => Ok (sha256_hex (json_array (map json_Observation normalized)))
  end.

(** The evidence shared by both artifact builders, from the order statistic on. *)
Definition conformal_artifact (schema ref version features price cap software featureRegime splitRegime
    cohortRegime : string) (target minimum n rank : Z) (tokens : list Z) (win : Time * Time) (digest : string)
    : Artifact :=
  let upper := nth (Z.to_nat (rank - 1)) tokens 0 in
  let covered := count_covered upper tokens in
  let artifact := Build_Artifact schema "split_conformal_order_statistic_v1" ref version features price cap software
    featureRegime splitRegime cohortRegime target minimum
    (Z.quot (mul64 covered PPB) n) (Z.quot (mul64 rank PPB) (n +i 1)) ExactMarginalBoundKind rank (n +i 1)
    (Z.quot (mul64 rank PPB) (n +i 1)) PPB PPB rank n upper win.1 win.2 digest "" in
  artifact <| art_ArtifactSHA256 := sha256_hex (json_Artifact artifact) |>.

Definition BuildArtifact (cfg : BuildConfig) (rows : list Observation) : result Artifact :=
  match validateConfig cfg with
  | Some m => Err m
  | None =>
    if (Z.of_nat (length rows) =? 0) || (maxArtifactSupport <? Z.of_nat (length rows))
    then Err "unsupported calibration support"
    else match first_error (fun row => validateRow row cfg false) rows with
         | Some m => Err m
         | None =>
           let? digest := ObservationDigest rows in
           let tokens := sort_slice Z.ltb (map obs_OutputTokens rows) in
           let n := Z.of_nat (length tokens) in
           let rank := conformal_rank (cfg_CoverageTargetPPB cfg) n in
           if n <? rank then Err "support cannot establish target with a finite split-conformal upper bound"
           else Ok (conformal_artifact "govar-calibration-v2" (cfg_ArtifactRef cfg) (cfg_Version cfg)
                      (cfg_FeatureSchemaVersion cfg) (cfg_PriceRegimeSHA256 cfg) (cfg_CapRegimeSHA256 cfg)
                      (cfg_ProducerSoftwareSHA256 cfg) "" "" "" (cfg_CoverageTargetPPB cfg) 0 n rank tokens
                      (window (map obs_SettledAt rows)) digest)
         end
  end.

Definition DetectCoverageGap (artifact : Artifact) (thresholdPPB : Z) (rows : list Observation)
    : result DriftResult :=
  if (thresholdPPB <? 0) || (PPB <? thresholdPPB) then Err "threshold_ppb must be in [0,1000000000]"
  else if (Z.of_nat (length rows) =? 0) then Err "monitoring observation set is empty"
  else
    let cfg := Build_BuildConfig "" "" (art_FeatureSchemaVersion artifact) (art_PriceRegimeSHA256 artifact)
                 (art_CapRegimeSHA256 artifact) "" 0 in
    match first_error (fun row => validateRow row cfg true) rows with
    | Some m => Err m
    | None =>
      let? digest := ObservationDigest rows in
      let covered := count_covered (art_UpperOutputTokens artifact) (map obs_OutputTokens rows) in
      let support := Z.of_nat (length rows) in
      let coverage := Z.quot (mul64 covered PPB) support in
      let interval := wilsonIntervalPPB covered support in
      let gap := art_CoverageTargetPPB artifact -i coverage in
      let gap := if gap <? 0 then 0 else gap in
      let win := window (map obs_SettledAt rows) in
      Ok (Build_DriftResult "coverage-gap" thresholdPPB digest support covered coverage 950000000
            interval.1 interval.2 gap (thresholdPPB <? gap) win.1 win.2)
    end.

(** ** The authoritative producer *)

Definition normalize_authoritative (o : AuthoritativeObservation) : AuthoritativeObservation :=
  o <| ao_Split := ToLower (TrimSpace (ao_Split o)) |>.

Fixpoint check_authoritative (prior : option string) (rows : list AuthoritativeObservation) : option error :=
  match rows with
  | [] => None
  | row :: rest =>
    match validateAuthoritativeObservation row with
    | Some m => Some m
    | None => if bool_decide (prior = Some (ao_RequestID row)) then Some "duplicate authoritative request"
              else check_authoritative (Some (ao_RequestID row)) rest
    end
  end.

Definition AuthoritativeObservationDigest (rows : list AuthoritativeObservation) : result string :=
  let normalized := map normalize_authoritative
    (sort_slice (fun i j => identity_less (ao_RequestID i, ao_ProviderAttemptID i)
                                          (ao_RequestID j, ao_ProviderAttemptID j)) rows) in
  match check_authoritative None normalized with
  | Some m => Err m
  | None => Ok (sha256_hex (json_array (map json_AuthoritativeObservation normalized)))
  end.

Definition check_calibration_row (cfg : AuthoritativeBuildConfig) (row : AuthoritativeObservation) : option error :=
  match validateAuthoritativeObservation row with
  | Some m => Some m
  | None =>
    if negb (String.eqb (ao_Split row) SplitCalibration) then Some "split is structurally forbidden calibration input"
    else if bool_decide (ao_Regimes row = acfg_Regimes cfg) then None else Some "request has a regime mismatch"
  end.

Definition BuildAuthoritativeArtifact (cfg : AuthoritativeBuildConfig) (rows : list AuthoritativeObservation)
    : result Artifact :=
  if blank (acfg_ArtifactRef cfg) || blank (acfg_Version cfg) || blank (acfg_FeatureSchemaVersion cfg)
  then Err "artifact_ref, version, and feature schema are required"
  else match ValidateRegimes (acfg_Regimes cfg) with
  | Some m => Err m
  | None =>
    let count := Z.of_nat (length rows) in
    if (acfg_MinimumSupport cfg <=? 0) || (count <? acfg_MinimumSupport cfg)
    then Err "support is below required minimum"
    else if (maxArtifactSupport <? count) || (acfg_CoverageTargetPPB cfg <? 1) || (PPB <? acfg_CoverageTargetPPB cfg)
    then Err "coverage target or support is invalid"
    else match first_error (check_calibration_row cfg) rows with
    | Some m => Err m
    | None =>
      let? digest := AuthoritativeObservationDigest rows in
      let tokens := sort_slice Z.ltb (map ao_OutputTokens rows) in
      let n := Z.of_nat (length tokens) in
      let rank := conformal_rank (acfg_CoverageTargetPPB cfg) n in
      if n <? rank then Err "support cannot establish target with a finite split-conformal upper bound"
      else
        let r := acfg_Regimes cfg in
        Ok (conformal_artifact AuthoritativeArtifactSchema (acfg_ArtifactRef cfg) (acfg_Version cfg)
              (acfg_FeatureSchemaVersion cfg) (reg_PriceSHA256 r) (reg_CapPathAdapterSHA256 r)
              (reg_ProducerSoftwareSHA256 r) (reg_FeatureSHA256 r) (reg_SplitOpportunitySHA256 r)
              (reg_CohortSHA256 r) (acfg_CoverageTargetPPB cfg) (acfg_MinimumSupport cfg) n rank tokens
              (window (map ao_SettledAt rows)) digest)
    end
  end.
End calibration.

(** ** Order statistics *)

Definition count_if (f : Z -> bool) (l : list Z) : Z := Z.of_nat (length (List.filter f l)).

Lemma count_if_cons f x l : count_if f (x :: l) = (if f x then 1 else 0) + count_if f l.
Proof. unfold count_if. cbn [List.filter]. destruct (f x); cbn [length]; lia. Qed.

Lemma count_if_bounds f l : 0 <= count_if f l <= Z.of_nat (length l).
Proof. unfold count_if. pose proof (List.filter_length_le f l). lia. Qed.

Lemma count_if_perm f l l' : l ≡ₚ l' -> count_if f l = count_if f l'.
Proof. induction 1; rewrite ?count_if_cons; lia. Qed.

Lemma count_covered_spec upper l :
  Z.of_nat (length l) <= max_int64 -> count_covered upper l = count_if (fun v => v <=? upper) l.
Proof.
  unfold count_covered. intros Hlen.
  assert (Hgen : forall acc, 0 <= acc -> acc + Z.of_nat (length l) <= max_int64 ->
    fold_left (fun covered v => if v <=? upper then covered +i 1 else covered) l acc
    = acc + count_if (fun v => v <=? upper) l); [|apply (Hgen 0); lia].
  clear Hlen. induction l as [|v l IH]; intros acc Hacc Hlen; cbn [fold_left length] in *.
  { unfold count_if. simpl. lia. }
  rewrite count_if_cons. destruct (v <=? upper).
  - rewrite add64_id by (unfold in64, min_int64, max_int64 in *; lia). rewrite IH by lia. lia.
  - rewrite IH by lia. lia.
Qed.

Definition ascending (l : list Z) : Prop := StronglySorted (fun a b => (b <? a) = false) l.

Lemma sort_tokens_ascending l : ascending (sort_slice Z.ltb l).
Proof.
  apply (sort_slice_sorted Z.ltb (fun _ => True)); [lia | lia | by apply Forall_true].
Qed.

Lemma ascending_count_le l k :
  ascending l -> (k < length l)%nat -> Z.of_nat (S k) <= count_if (fun v => v <=? nth k l 0) l.
Proof.
  intros Hs. revert k. induction Hs as [|x l Hs IH Hall]; intros k Hk; cbn [length] in Hk; [lia|].
  rewrite count_if_cons. destruct k as [|k]; cbn [nth].
  - rewrite Z.leb_refl. pose proof (count_if_bounds (fun v => v <=? x) l). lia.
  - specialize (IH k ltac:(lia)). rewrite Forall_forall in Hall.
    assert (Hin : nth k l 0 ∈ l) by (apply list_elem_of_In, nth_In; lia).
    specialize (Hall _ Hin). replace (x <=? nth k l 0) with true by lia. lia.
Qed.

Lemma ascending_count_lt l k :
  ascending l -> (k < length l)%nat -> count_if (fun v => v <? nth k l 0) l <= Z.of_nat k.
Proof.
  intros Hs. revert k. induction Hs as [|x l Hs IH Hall]; intros k Hk; cbn [length] in Hk; [lia|].
  rewrite count_if_cons. destruct k as [|k]; cbn [nth].
  - rewrite Z.ltb_irrefl. rewrite Forall_forall in Hall. unfold count_if.
    replace (List.filter (fun v => v <? x) l) with (@nil Z); [simpl; lia|]. symmetry.
    clear -Hall. induction l as [|y l IH]; [done|]. cbn [List.filter].
    rewrite (Hall y (list_elem_of_here _ _)). apply IH. intros z Hz. apply Hall. by right.
  - specialize (IH k ltac:(lia)). destruct (x <? nth k l 0); lia.
Qed.

(** The rank is the ceiling of [target * (n + 1)] parts per billion. *)
Lemma conformal_rank_spec target n :
  1 <= target <= PPB -> 1 <= n <= maxArtifactSupport ->
  (conformal_rank target n - 1) * PPB < target * (n + 1) <= conformal_rank target n * PPB /\
  1 <= conformal_rank target n <= n + 1.
Proof.
  unfold conformal_rank, maxArtifactSupport, PPB. intros Ht Hn.
  assert (Hx : 2 <= target * (n + 1) <= 1000000000 * (n + 1)) by (clear -Ht Hn; nia).
  rewrite (add64_id n 1) by (unfold in64, min_int64, max_int64; lia).
  unfold mul64. set (x := target * (n + 1)) in *. clearbody x.
  rewrite (wrap64_id x) by (unfold in64, min_int64, max_int64; lia).
  rewrite add64_id by (unfold in64, min_int64, max_int64; lia).
  rewrite Z.quot_div_nonneg by lia. div_lia.
Qed.

(** What an artifact promises of the tokens [tokens] it was built from. *)
Record covers (a : Artifact) (target : Z) (tokens : list Z) : Prop := {
  cov_target : art_CoverageTargetPPB a = target;
  cov_support : art_Support a = Z.of_nat (length tokens);
  cov_rank : 1 <= art_ConformalRank a <= art_Support a;
  cov_lower : target <= art_CoverageIntervalLowerPPB a;
  cov_lower_exact : art_CoverageIntervalLowerPPB a = art_ConformalRank a * PPB / (art_Support a + 1);
  cov_bound : art_CoverageBoundNumerator a = art_ConformalRank a /\ art_CoverageBoundDenominator a = art_Support a + 1;
  cov_upper_observed : art_UpperOutputTokens a ∈ tokens;
  cov_upper_covers : art_ConformalRank a <= count_if (fun v => v <=? art_UpperOutputTokens a) tokens;
  cov_upper_least : count_if (fun v => v <? art_UpperOutputTokens a) tokens < art_ConformalRank a;
  cov_empirical : target <= art_EmpiricalCoveragePPB a <= PPB
}.

Section sound.
Context `{Crypto}.

Lemma conformal_artifact_covers schema ref version features price cap software fr sr cr target minimum tokens win digest :
  let n := Z.of_nat (length tokens) in
  let sorted := sort_slice Z.ltb tokens in
  let rank := conformal_rank target n in
  1 <= target <= PPB -> 1 <= n <= maxArtifactSupport -> rank <= n ->
  covers (conformal_artifact schema ref version features price cap software fr sr cr target minimum n rank
            sorted win digest) target tokens.
Proof.
  intros n sorted rank Ht Hn Hrank.
  destruct (conformal_rank_spec target n Ht Hn) as [Hceil Hr]. fold rank in Hceil, Hr.
  assert (Hperm : sorted ≡ₚ tokens) by apply sort_slice_perm.
  assert (Hlen : length sorted = length tokens) by apply sort_slice_length.
  assert (Hidx : (Z.to_nat (rank - 1) < length sorted)%nat) by (subst n; lia).
  assert (Hasc : ascending sorted) by apply sort_tokens_ascending.
  pose proof (ascending_count_le _ _ Hasc Hidx) as Hle. pose proof (ascending_count_lt _ _ Hasc Hidx) as Hlt.
  set (upper := nth (Z.to_nat (rank - 1)) sorted 0) in *.
  assert (Hcov : count_covered upper sorted = count_if (fun v => v <=? upper) sorted).
  { apply count_covered_spec. unfold maxArtifactSupport, max_int64 in *. subst n. lia. }
  pose proof (count_if_bounds (fun v => v <=? upper) sorted) as Hcb.
  assert (Hn1 : n +i 1 = n + 1) by (apply add64_id; unfold in64, min_int64, max_int64, maxArtifactSupport in *; lia).
  assert (Hq : Z.quot (mul64 rank PPB) (n +i 1) = rank * PPB / (n + 1)).
  { rewrite Hn1, mul64_id, Z.quot_div_nonneg;
      [done|unfold PPB; lia|lia|unfold in64, min_int64, max_int64, maxArtifactSupport, PPB in *; lia]. }
  unfold conformal_artifact. split; cbn; fold upper; rewrite ?Hq, ?Hn1, ?Hcov; try done.
  - lia.
  - apply Z.div_le_lower_bound; lia.
  - rewrite <- Hperm. apply list_elem_of_In, nth_In. lia.
  - rewrite <- (count_if_perm _ _ _ Hperm). lia.
  - rewrite <- (count_if_perm _ _ _ Hperm). lia.
  - rewrite mul64_id by (unfold in64, min_int64, max_int64, maxArtifactSupport, PPB in *; subst n; lia).
    rewrite Z.quot_div_nonneg by (unfold PPB; lia). split.
    + apply Z.div_le_lower_bound; nia.
    + apply Z.div_le_upper_bound; [lia|]. subst n. unfold PPB. lia.
Qed.
End sound.

(** ** Order independence *)

Lemma first_error_None {A} (check : A -> option error) rows :
  first_error check rows = None <-> Forall (fun row => check row = None) rows.
Proof.
  induction rows as [|row rows IH]; simpl; [split; [constructor | done]|].
  rewrite Forall_cons, <- IH. destruct (check row); [split; [discriminate | intros [? _]; discriminate] | tauto].
Qed.

Lemma identity_less_asym x y : identity_less x y = true -> identity_less y x = false.
Proof.
  unfold identity_less. rewrite (String.eqb_sym y.1). destruct (String.eqb x.1 y.1); apply string_ltb_asym.
Qed.

Lemma identity_less_total x y : identity_less x y = false -> identity_less y x = false -> x = y.
Proof.
  unfold identity_less. rewrite (String.eqb_sym y.1). destruct x as [x1 x2], y as [y1 y2]. simpl.
  destruct (String.eqb_spec x1 y1) as [->|Hne]; simpl; intros H1 H2.
  - by rewrite (string_ltb_total x2 y2).
  - destruct Hne. by apply string_ltb_total.
Qed.

Lemma identity_less_negtrans x y z :
  identity_less x y = false -> identity_less y z = false -> identity_less x z = false.
Proof.
  unfold identity_less. destruct x as [x1 x2], y as [y1 y2], z as [z1 z2]. simpl.
  destruct (String.eqb_spec x1 y1) as [->|Hxy], (String.eqb_spec y1 z1) as [->|Hyz]; simpl.
  - apply string_ltb_negtrans.
  - done.
  - rewrite (proj2 (String.eqb_neq x1 z1)) by done. done.
  - intros H1 H2. destruct (String.eqb_spec x1 z1) as [->|Hxz]; simpl.
    + destruct Hyz. by apply string_ltb_total.
    + by apply string_ltb_negtrans with y1.
Qed.

Lemma unique_identities_adjacent prior rows :
  unique_identities prior rows = None ->
  match rows with [] => True | row :: _ => prior <> Some (obs_identity row) end /\
  Sorted (fun x y => obs_identity x <> obs_identity y) rows.
Proof.
  revert prior. induction rows as [|row rows IH]; intros prior; simpl; [done|].
  destruct (_ || _); [discriminate|]. case_bool_decide as Hp; [discriminate|].
  intros Hrest. destruct (IH _ Hrest) as [Hhd Hs]. split; [done|].
  constructor; [done|]. destruct rows; constructor. intros E. apply Hhd. by rewrite E.
Qed.

Definition obs_less (i j : Observation) : bool := identity_less (obs_identity i) (obs_identity j).

Lemma sorted_unique_NoDup rows :
  StronglySorted (fun a b => obs_less b a = false) rows ->
  Sorted (fun x y => obs_identity x <> obs_identity y) rows -> NoDup (map obs_identity rows).
Proof.
  unfold obs_less. intros Hss Hs. induction Hss as [|x l Hss IH Hall]; [constructor|].
  inversion Hs as [|? ? Hs' Hhd]; subst. cbn [map]. constructor; [|auto].
  intros Hin. apply list_elem_of_fmap in Hin as (y & Hxy & Hy).
  destruct l as [|z l]; [by apply elem_of_nil in Hy|]. inversion Hhd as [|? ? Hne]; subst. apply Hne.
  apply elem_of_cons in Hy as [->|Hy]; [done|].
  inversion Hss as [|? ? _ Hz]; subst. inversion Hall as [|? ? Hxz _]; subst.
  rewrite Forall_forall in Hz. specialize (Hz y Hy). rewrite <- Hxy in Hz.
  symmetry. by apply identity_less_total.
Qed.

Lemma NoDup_map_inj {A B} (f : A -> B) l x y : NoDup (map f l) -> x ∈ l -> y ∈ l -> f x = f y -> x = y.
Proof.
  induction l as [|a l IH]; [by intros _ ?%elem_of_nil|]. cbn [map]. intros Hnd Hx Hy E.
  inversion Hnd as [|? ? Hni Hnd']; subst.
  apply elem_of_cons in Hx as [->|Hx]; apply elem_of_cons in Hy as [->|Hy]; [done| | |auto].
  - destruct Hni. rewrite E. by apply (list_elem_of_fmap_2 f).
  - destruct Hni. rewrite <- E. by apply (list_elem_of_fmap_2 f).
Qed.


Lemma window_fold times : forall s e,
  let w := fold_left window_step times (s, e) in
  w.1 ∈ s :: times /\ w.2 ∈ e :: times /\ (forall t, t ∈ s :: times -> w.1 <= t) /\ (forall t, t ∈ e :: times -> t <= w.2).
Proof.
  induction times as [|t times IH]; intros s e.
  { simpl. repeat split; try by left. - intros t [->|Ht%elem_of_nil]%elem_of_cons; [lia|done].
    - intros t [->|Ht%elem_of_nil]%elem_of_cons; [lia|done]. }
  cbn [fold_left window_step].
  specialize (IH (if Before t s then t else s) (if After t e then t else e)). cbn zeta in IH.
  destruct IH as (H1 & H2 & H3 & H4). unfold Before, After in *. cbn zeta. repeat split.
  - apply elem_of_cons in H1 as [H1|H1]; [|by do 2 right]. rewrite H1. destruct (t <? s); [right; left | left].
  - apply elem_of_cons in H2 as [H2|H2]; [|by do 2 right]. rewrite H2. destruct (e <? t); [right; left | left].
  - intros u Hu. pose proof (H3 _ (list_elem_of_here _ _)) as Hhd.
    apply elem_of_cons in Hu as [->|[->|Hu]%elem_of_cons]; [destruct (Z.ltb_spec t s); lia..|].
    apply H3. by right.
  - intros u Hu. pose proof (H4 _ (list_elem_of_here _ _)) as Hhd.
    apply elem_of_cons in Hu as [->|[->|Hu]%elem_of_cons]; [destruct (Z.ltb_spec e t); lia..|].
    apply H4. by right.
Qed.

(** The window is the earliest and the latest time. *)
Lemma window_spec times :
  times <> [] ->
  let w := window times in
  w.1 ∈ times /\ w.2 ∈ times /\ (forall t, t ∈ times -> w.1 <= t) /\ (forall t, t ∈ times -> t <= w.2).
Proof.
  intros Hne. destruct times as [|t times]; [done|].
  destruct (window_fold (t :: times) t t) as (H1 & H2 & H3 & H4).
  cbn zeta. unfold window. repeat split.
  - apply elem_of_cons in H1 as [->|H1]; [left | done].
  - apply elem_of_cons in H2 as [->|H2]; [left | done].
  - intros u Hu. apply H3. by right.
  - intros u Hu. apply H4. by right.
Qed.

Lemma window_perm times times' : times ≡ₚ times' -> window times = window times'.
Proof.
  intros Hp. destruct times as [|t times]; [apply Permutation_nil in Hp; by subst|].
  assert (Hne : times' <> []) by (intros ->; symmetry in Hp; by apply Permutation_nil_cons in Hp).
  destruct (window_spec (t :: times) ltac:(done)) as (H1 & H2 & H3 & H4).
  destruct (window_spec times' Hne) as (G1 & G2 & G3 & G4). cbn zeta in *.
  destruct (window (t :: times)) as [s e], (window times') as [s' e']. cbn [fst snd] in *.
  setoid_rewrite Hp in H1. setoid_rewrite Hp in H2. setoid_rewrite Hp in H3. setoid_rewrite Hp in H4.
  f_equal.
  - specialize (H3 _ G1). specialize (G3 _ H1). lia.
  - specialize (H4 _ G2). specialize (G4 _ H2). lia.
Qed.

Section order.
Context `{Crypto}.

Lemma ObservationDigest_perm rows rows' d :
  rows ≡ₚ rows' -> ObservationDigest rows = Ok d -> ObservationDigest rows' = Ok d.
Proof.
  unfold ObservationDigest. intros Hp.
  set (l := map normalize_observation rows). set (l' := map normalize_observation rows').
  assert (Hl : l ≡ₚ l') by (by apply Permutation_map).
  change (fun i j : Observation => identity_less (obs_identity i) (obs_identity j)) with obs_less.
  destruct (unique_identities None (sort_slice obs_less l)) eqn:Hu; [discriminate|].
  assert (Hnd : NoDup (map obs_identity l)).
  { rewrite <- (Permutation_map obs_identity (sort_slice_perm obs_less l)).
    apply sorted_unique_NoDup; [|by apply unique_identities_adjacent in Hu as [_ ?]].
    apply (sort_slice_sorted obs_less (fun _ => True)); unfold obs_less;
      eauto using identity_less_negtrans, identity_less_asym. by apply Forall_true. }
  rewrite <- (sort_slice_unique obs_less l l'); [by rewrite Hu| | | |done]; unfold obs_less.
  - eauto using identity_less_negtrans.
  - eauto using identity_less_asym.
  - intros x y Hx Hy H1 H2. eapply (NoDup_map_inj obs_identity); eauto using identity_less_total.
Qed.

(** an artifact is a function of the set of calibration rows: whatever the
    order in which two producers read the same rows, they publish the same
    artifact, down to its digest. *)
Theorem artifact_order_independent cfg rows rows' a :
  rows ≡ₚ rows' -> BuildArtifact cfg rows = Ok a -> BuildArtifact cfg rows' = Ok a.
Proof.
  unfold BuildArtifact. intros Hp. rewrite <- (Permutation_length Hp).
  destruct (validateConfig cfg); [done|]. destruct (_ || _); [done|].
  destruct (first_error (fun row => validateRow row cfg false) rows) eqn:Hf; [discriminate|].
  apply first_error_None in Hf. rewrite Hp in Hf. apply first_error_None in Hf. rewrite Hf.
  intros (d & Hd & Ha)%res_bind_ok. rewrite (ObservationDigest_perm rows rows' d Hp Hd). cbn [res_bind].
  rewrite (window_perm (map obs_SettledAt rows') (map obs_SettledAt rows)) by (by rewrite Hp).
  rewrite (sort_slice_unique Z.ltb (map obs_OutputTokens rows') (map obs_OutputTokens rows));
    [done | lia | lia | lia | by rewrite Hp].
Qed.

(** C39: the upper token bound of a calibration artifact is the smallest observed
    value whose rank reaches the coverage target: at least [rank] of the
    calibration outcomes are at or below it, fewer are strictly below it, the
    published lower coverage [rank/(n+1)] is at least the target, and no product
    overflows. *)
Theorem artifact_covers cfg rows a :
  BuildArtifact cfg rows = Ok a ->
  covers a (cfg_CoverageTargetPPB cfg) (map obs_OutputTokens rows).
Proof.
  unfold BuildArtifact. destruct (validateConfig cfg) eqn:Hcfg; [discriminate|].
  destruct (_ || _) eqn:Hlen; [discriminate|]. destruct (first_error _ _); [discriminate|].
  intros (d & _ & Ha)%res_bind_ok. revert Ha. rewrite sort_slice_length.
  destruct (_ <? conformal_rank _ _) eqn:Hrank; [discriminate|]. intros E. injection E as <-.
  apply conformal_artifact_covers; [|rewrite length_map; lia|lia].
  unfold validateConfig in Hcfg. destruct (_ || _ || _); [discriminate|]. destruct (negb _); [discriminate|].
  destruct (_ || _) eqn:Ht; [discriminate|]. lia.
Qed.

(** the same for the PostgreSQL producer's artifact, which in addition has at
    least the required support and was built from calibration rows of exactly
    the configured regimes. *)
Theorem authoritative_artifact_covers cfg rows a :
  BuildAuthoritativeArtifact cfg rows = Ok a ->
  covers a (acfg_CoverageTargetPPB cfg) (map ao_OutputTokens rows) /\
  0 < acfg_MinimumSupport cfg <= art_Support a /\
  Forall (fun row => ao_Split row = SplitCalibration /\ ao_Regimes row = acfg_Regimes cfg) rows.
Proof.
  unfold BuildAuthoritativeArtifact. destruct (_ || _ || _); [discriminate|].
  destruct (ValidateRegimes _); [discriminate|]. cbn zeta.
  destruct (_ || _) eqn:Hmin; [discriminate|]. destruct (_ || _ || _) eqn:Hmax; [discriminate|].
  destruct (first_error _ _) eqn:Hrows; [discriminate|].
  intros (d & _ & Ha)%res_bind_ok. revert Ha. rewrite sort_slice_length.
  destruct (_ <? conformal_rank _ _) eqn:Hrank; [discriminate|]. intros E. injection E as <-.
  rewrite length_map in Hrank. split; [|split].
  - apply conformal_artifact_covers; rewrite ?length_map; unfold PPB in *; lia.
  - cbn. rewrite length_map. lia.
  - apply first_error_None in Hrows. eapply Forall_impl; [exact Hrows|]. intros row.
    unfold check_calibration_row. destruct (validateAuthoritativeObservation row); [discriminate|].
    destruct (String.eqb_spec (ao_Split row) SplitCalibration); [|discriminate]. simpl.
    case_bool_decide; [done|discriminate].
Qed.
End order.

Section drift.
Context `{Crypto}.

(** drift is reported exactly when the share of monitoring outcomes within
    the artifact's bound falls short of the target by more than the threshold;
    with a zero threshold, no drift means the target is met. *)
Theorem drift_detected_iff artifact threshold rows r :
  DetectCoverageGap artifact threshold rows = Ok r ->
  Z.of_nat (length rows) <= maxArtifactSupport ->
  0 <= art_CoverageTargetPPB artifact <= PPB ->
  let covered := count_if (fun v => v <=? art_UpperOutputTokens artifact) (map obs_OutputTokens rows) in
  let coverage := covered * PPB / Z.of_nat (length rows) in
  dr_Covered r = covered /\ dr_EmpiricalCoveragePPB r = coverage /\ 0 <= coverage <= PPB /\
  (dr_Detected r = true <-> threshold < art_CoverageTargetPPB artifact - coverage).
Proof.
  unfold DetectCoverageGap. destruct (_ || _) eqn:Hth; [discriminate|].
  destruct (_ =? 0) eqn:Hlen; [discriminate|]. destruct (first_error _ _); [discriminate|].
  intros (d & _ & Hr)%res_bind_ok Hmax Ht. cbn zeta. revert Hr.
  rewrite count_covered_spec by (rewrite length_map; unfold maxArtifactSupport, max_int64 in *; lia).
  pose proof (count_if_bounds (fun v => v <=? art_UpperOutputTokens artifact) (map obs_OutputTokens rows)) as Hc.
  rewrite length_map in Hc. set (covered := count_if _ _) in *. clearbody covered.
  assert (Hcov : Z.quot (mul64 covered PPB) (Z.of_nat (length rows)) = covered * PPB / Z.of_nat (length rows)).
  { rewrite mul64_id by (unfold in64, min_int64, max_int64, maxArtifactSupport, PPB in *; lia).
    apply Z.quot_div_nonneg; unfold PPB; lia. }
  assert (Hrange : 0 <= covered * PPB / Z.of_nat (length rows) <= PPB).
  { split; [apply Z.div_pos; unfold PPB; lia | apply Z.div_le_upper_bound; unfold PPB; lia]. }
  intros E. injection E as <-. cbn [dr_Covered dr_EmpiricalCoveragePPB dr_Detected]. rewrite Hcov.
  set (coverage := covered * PPB / _) in *. clearbody coverage.
  rewrite sub64_id by (unfold in64, min_int64, max_int64, PPB in *; lia).
  repeat split; try done; try lia; destruct (Z.ltb_spec (art_CoverageTargetPPB artifact - coverage) 0); lia.
Qed.
End drift.

(** ** A concrete calibration set *)

Module CalibrationExample.
Definition digest : string := "0123456789abcdef0123456789abcdef0123456789abcdef0123456789abcdef".
Definition cfg : BuildConfig := Build_BuildConfig "artifact" "v1" "features-v1" digest digest digest 800000000.
Definition row (split : string) (id : string) (tokens : Z) : Observation :=
  Build_Observation id (id +:+ ":attempt:1") split true true false tokens "features-v1" digest digest
    (1784030399120000000 + tokens).
Definition rows : list Observation :=
  [row "calibration" "r1" 300; row "Calibration " "r2" 120; row "calibration" "r3" 800; row "calibration" "r4" 50;
   row "calibration" "r5" 410; row "calibration" "r6" 90; row "calibration" "r7" 275; row "calibration" "r8" 610;
   row "calibration" "r9" 33].
Definition empty_artifact : Artifact :=
  Build_Artifact "" "" "" "" "" "" "" "" "" "" "" 0 0 0 0 "" 0 0 0 0 0 0 0 0 0 0 "" "".
Definition artifact : Artifact := Eval vm_compute in result_or empty_artifact (@BuildArtifact go_crypto cfg rows).
Definition monitoring : list Observation :=
  [row "monitoring" "m1" 700; row "monitoring" "m2" 20; row "monitoring" "m3" 900].
Definition empty_drift : DriftResult := Build_DriftResult "" 0 "" 0 0 0 0 0 0 0 false 0 0.
Definition drift : DriftResult := Eval vm_compute in result_or empty_drift (@DetectCoverageGap go_crypto artifact 100000000 monitoring).

Definition regimes : RegimeDigests := Build_RegimeDigests digest digest digest digest digest digest.
Definition acfg : AuthoritativeBuildConfig :=
  Build_AuthoritativeBuildConfig "artifact" "v1" "features-v1" 500000000 2 regimes.
Definition arow (id : string) (tokens : Z) : AuthoritativeObservation :=
  Build_AuthoritativeObservation id (id +:+ ":attempt:1") "opportunity" "calibration" tokens
    (1784030399120000000 + tokens) regimes.
Definition arows : list AuthoritativeObservation := [arow "r1" 40; arow "r2" 10; arow "r3" 30].
Definition aartifact : Artifact := Eval vm_compute in result_or empty_artifact (@BuildAuthoritativeArtifact go_crypto acfg arows).
End CalibrationExample.

Example artifact_example :
  art_ConformalRank CalibrationExample.artifact = 8 /\ art_UpperOutputTokens CalibrationExample.artifact = 610 /\
  art_CoverageIntervalLowerPPB CalibrationExample.artifact = 800000000.
Proof. vm_compute. done. Qed.

Lemma artifact_covers_witness :
  covers CalibrationExample.artifact 800000000 (map obs_OutputTokens CalibrationExample.rows).
Proof.
  apply (@artifact_covers go_crypto CalibrationExample.cfg CalibrationExample.rows CalibrationExample.artifact).
  vm_compute. reflexivity.
Defined.

Lemma artifact_order_independent_witness :
  @BuildArtifact go_crypto CalibrationExample.cfg (rev CalibrationExample.rows) = Ok CalibrationExample.artifact.
Proof.
  apply (@artifact_order_independent go_crypto CalibrationExample.cfg CalibrationExample.rows).
  - apply Permutation_rev.
  - vm_compute. reflexivity.
Defined.

Lemma authoritative_artifact_covers_witness :
  covers CalibrationExample.aartifact 500000000 (map ao_OutputTokens CalibrationExample.arows) /\
  0 < 2 <= art_Support CalibrationExample.aartifact /\
  Forall (fun row => ao_Split row = SplitCalibration /\ ao_Regimes row = CalibrationExample.regimes)
    CalibrationExample.arows.
Proof.
  apply (@authoritative_artifact_covers go_crypto CalibrationExample.acfg CalibrationExample.arows
           CalibrationExample.aartifact).
  vm_compute. reflexivity.
Defined.

Lemma drift_detected_iff_witness :
  dr_Covered CalibrationExample.drift = 1 /\ dr_EmpiricalCoveragePPB CalibrationExample.drift = 333333333 /\
  0 <= 333333333 <= PPB /\ (dr_Detected CalibrationExample.drift = true <-> 100000000 < 800000000 - 333333333).
Proof.
  apply (@drift_detected_iff go_crypto CalibrationExample.artifact 100000000 CalibrationExample.monitoring).
  - vm_compute. reflexivity.
  - vm_compute. discriminate.
  - vm_compute. split; discriminate.
Defined.
