(* ===== verification/Routes.v ===== *)
(** * Candidates and immutable route snapshots ([internal/govar/snapshot.go])

    The validation of a model, its provider, its gateway binding and its pricing
    evidence into a routing candidate, and the route snapshot frozen into a
    reservation. *)

From Stdlib Require Import ZArith Lia Ascii String SpecFloat.
From stdpp Require Import base gmap strings list pretty sorting.
From S2P Require Import Prelude Digest GoTime Api Pricing.

Open Scope string_scope.
Open Scope list_scope.
Open Scope Z_scope.
Open Scope go_scope.

Definition observationFreshnessLimit : Duration := 24 * Hour.

(** ** Reason codes ([engine.go]) *)

Inductive ReasonCode : Set :=
| ReasonNone (* the zero value "" *)
| ReasonHighestUtility | ReasonNoCandidate | ReasonInsufficientEvidence | ReasonBudgetUnavailable
| ReasonDuplicateRequest | ReasonDuplicateConflict | ReasonDuplicateEvent | ReasonReservationNotFound
| ReasonSettlementDuplicate | ReasonApprovalRequired | ReasonCanceled | ReasonCancellationUnclear
| ReasonDispatchClaimed | ReasonDispatchDelivered | ReasonDispatchUnresolved | ReasonProvisionalSettlement
| ReasonLateSettlement | ReasonCorrection | ReasonFinalized | ReasonInvalidTransition | ReasonPrincipalMismatch
| ReasonReservationExceeded | ReasonPolicyNotReady | ReasonBudgetTargetMismatch | ReasonWorkloadTargetMismatch
| ReasonModelNotReady | ReasonProviderUnavailable | ReasonNotRoutable | ReasonGovernanceInfeasible
| ReasonQualityStale | ReasonQualityBelowMinimum | ReasonPricingIncomplete | ReasonPricingStale
| ReasonContextLimit | ReasonLatencyUnavailable | ReasonLatencyExceeded | ReasonStrictCapUnverified
| ReasonInsufficientCalibration | ReasonCalibrationMissing | ReasonCalibrationGeneration
| ReasonCalibrationMismatch | ReasonCalibrationRegime | ReasonCalibrationSupport | ReasonCalibrationStale
| ReasonCalibrationDrift | ReasonCalibrationUnsupported | ReasonInputBoundFallback
| ReasonReservationMethodUnknown | ReasonBudgetWindowConflict | ReasonRetriesDisabled
| ReasonExpiredUndispatched | ReasonBudgetWindowRollover.
#[export] Instance ReasonCode_eq_dec : EqDecision ReasonCode.
Proof. solve_decision. Defined.

(** [reason != ""]. *)
Definition is_reason (r : ReasonCode) : bool := negb (bool_decide (r = ReasonNone)).

(** ** Candidates *)

Record RequestContext : Type := Build_RequestContext {
  rc_Namespace : string;
  rc_Team : string;
  rc_Application : string;
  rc_SensitiveData : bool;
  rc_AllowedZones : list string
}.

Record Candidate : Type := Build_Candidate {
  cand_ModelRef : string;
  cand_ModelName : string;
  cand_ProviderRef : string;
  cand_ProviderType : string;
  cand_Region : string;
  cand_DataResidency : string;
  cand_Managed : bool;
  cand_InputPriceMicrosPerMillion : Z;
  cand_OutputPriceMicrosPerMillion : Z;
  cand_QualityTier : string;
  cand_CostTier : string;
  cand_SensitiveDataAllowed : bool;
  cand_PricingVersion : string;
  cand_SnapshotVersion : string;
  cand_ContextWindow : Z;
  cand_QualityScore : float64;
  cand_QualityObservedAt : Time;
  cand_VerifiedOutputCap : bool;
  cand_VerifiedOutputCapTokens : Z;
  cand_CapEvidenceDigest : string;
  cand_PricingSnapshot : NormalizedPricingSnapshot;
  cand_Feasible : bool;
  cand_InfeasibleReason : ReasonCode;
  cand_LatencyMillis : Z;
  cand_LatencyObservedAt : Time;
  cand_RouteSnapshot : RouteSnapshot
}.
#[export] Instance cand_eta : Eta Candidate := fun c =>
  Build_Candidate (cand_ModelRef c) (cand_ModelName c) (cand_ProviderRef c) (cand_ProviderType c) (cand_Region c)
    (cand_DataResidency c) (cand_Managed c) (cand_InputPriceMicrosPerMillion c) (cand_OutputPriceMicrosPerMillion c)
    (cand_QualityTier c) (cand_CostTier c) (cand_SensitiveDataAllowed c) (cand_PricingVersion c)
    (cand_SnapshotVersion c) (cand_ContextWindow c) (cand_QualityScore c) (cand_QualityObservedAt c)
    (cand_VerifiedOutputCap c) (cand_VerifiedOutputCapTokens c) (cand_CapEvidenceDigest c) (cand_PricingSnapshot c)
    (cand_Feasible c) (cand_InfeasibleReason c) (cand_LatencyMillis c) (cand_LatencyObservedAt c)
    (cand_RouteSnapshot c).

(** The zero values of the structs. *)
Definition zero_route : RouteSnapshot :=
  Build_RouteSnapshot "" "" "" 0 "" "" "" 0 "" "" "" "" "" "" "" "" "".
Definition zero_pricing_snapshot : NormalizedPricingSnapshot :=
  Build_NormalizedPricingSnapshot 0 "" zero_time zero_time "" "" "" "" "" "" "" [] [].
Definition zero_candidate : Candidate :=
  Build_Candidate "" "" "" "" "" "" false 0 0 "" "" false "" "" 0 (S754_zero false) zero_time false 0 ""
    zero_pricing_snapshot false ReasonNone 0 zero_time zero_route.

(** ** Tokens and zones *)

Definition route_rest (b : N) : bool :=
  alnum b || (b =? 46)%N || (b =? 95)%N || (b =? 58)%N || (b =? 47)%N || (b =? 45)%N.
Definition authority_rest (b : N) : bool :=
  alnum b || (b =? 46)%N || (b =? 95)%N || (b =? 58)%N || (b =? 45)%N.
(** [^[A-Za-z0-9][A-Za-z0-9._:/-]*$] and [^[A-Za-z0-9][A-Za-z0-9._:-]*$]. *)
Definition routeToken (s : string) : bool := match_class alnum route_rest s.
Definition routeAuthorityToken (s : string) : bool := match_class alnum authority_rest s.

Definition validPathMode (mode : string) : bool :=
  existsb (String.eqb mode) ["openai-body"; "azure-deployment-path"; "anthropic-body"; "google-generate-path"].

Definition normalizeZone (value : string) : string := ToLower (TrimSpace value).

Definition zoneAllowed (allowed : list string) (residency region : string) : bool :=
  let normalized := map normalizeZone allowed in
  existsb (String.eqb (normalizeZone residency)) normalized || existsb (String.eqb (normalizeZone region)) normalized.

Definition readyConditionTrue (conditions : list Condition) : bool :=
  existsb (fun c => String.eqb (cond_Type c) ConditionReady && String.eqb (cond_Status c) ConditionTrue) conditions.

Definition matchesTarget (req : RequestContext) (model : AIModel) : bool :=
  let spec := model_Spec model in
  let serves (selector value : string) := String.eqb selector "" || String.eqb selector value in
  serves (ms_ServesNamespace spec) (rc_Namespace req) && serves (ms_ServesTeam spec) (rc_Team req)
  && serves (ms_ServesApplication spec) (rc_Application req).

Definition providerPathCompatible (providerType pathMode : string) : bool :=
  (OutputCapRequestParameter (ToLower (TrimSpace providerType)) pathMode).2.

(** ** Gateway bindings *)

Definition zero_binding : GatewayRouteBinding := Build_GatewayRouteBinding "" "" "" "" "".

Fixpoint find_binding (name : string) (seen : gset string) (found : GatewayRouteBinding)
    (bindings : list GatewayRouteBinding) : result GatewayRouteBinding :=
  match bindings with
  | [] => Ok found
  | binding :: rest =>
    if bool_decide (bind_Name binding ∈ seen) then Err "duplicate provider route binding name"
    else find_binding name ({[bind_Name binding]} ∪ seen)
           (if String.eqb (bind_Name binding) name then binding else found) rest
  end.

Definition providerRouteBinding (provider : AIProvider) (name : string) : result GatewayRouteBinding :=
  match ps_GOVAR (prov_Spec provider) with
  | None => Err "provider route binding is absent"
  | Some govar =>
    if blank name then Err "provider route binding is absent"
    else
      let? found := find_binding name ∅ zero_binding (pgs_GatewayRoutes govar) in
      if String.eqb (bind_Name found) "" || negb (routeToken (bind_Name found))
         || negb (routeToken (bind_ProviderDeployment found)) || negb (routeAuthorityToken (bind_Cluster found))
         || negb (routeAuthorityToken (bind_Authority found)) || negb (validPathMode (bind_PathMode found))
      then Err "provider route binding is missing or malformed" else Ok found
  end.

(** ** Route snapshots *)

Definition route_fields (s : RouteSnapshot) : list string :=
  ["govar-route-snapshot-v1"; route_Namespace s; route_ModelName s; route_ModelUID s;
   sprint (route_ModelGeneration s); route_ModelResourceVersion s; route_ProviderName s; route_ProviderUID s;
   sprint (route_ProviderGeneration s); route_ProviderResourceVersion s; route_PricingVersion s;
   route_PricingComplianceHash s; route_RouteBindingName s; route_ProviderDeployment s; route_Cluster s;
   route_Authority s; route_PathMode s].

Fixpoint check_categories (lastName : string) (categories : list ProviderBillableCategory)
    : result (list ProviderBillableCategory) :=
  match categories with
  | [] => Ok []
  | category :: rest =>
    if String.eqb (cat_Name category) lastName || blank (cat_Name category) || (qty_Unscaled (cat_Price category) <? 0)
    then Err "duplicate or empty billable category"
    else let? rest := check_categories (cat_Name category) rest in Ok (category :: rest)
  end.

Fixpoint check_countries (seen : gset string) (countries : list string) : result (list string) :=
  match countries with
  | [] => Ok []
  | raw :: rest =>
    let country := normalizeZone raw in
    if String.eqb country "" then Err "empty allowed country"
    else if bool_decide (country ∈ seen) then Err "duplicate allowed country"
    else let? rest := check_countries ({[country]} ∪ seen) rest in Ok (country :: rest)
  end.

Section routes.
Context `{Crypto} `{Platform}.

Definition RouteSnapshotHash (s : RouteSnapshot) : string := fixedHash (route_fields s).

Definition ValidateRouteSnapshot (s : RouteSnapshot) : option error :=
  if String.eqb (route_Namespace s) "" || String.eqb (route_ModelName s) "" || String.eqb (route_ModelUID s) ""
     || (route_ModelGeneration s <=? 0) || String.eqb (route_ModelResourceVersion s) ""
     || String.eqb (route_ProviderName s) "" || String.eqb (route_ProviderUID s) ""
     || (route_ProviderGeneration s <=? 0) || String.eqb (route_ProviderResourceVersion s) ""
     || String.eqb (route_PricingVersion s) "" || negb (is_sha256 (route_PricingComplianceHash s))
     || negb (routeToken (route_RouteBindingName s)) || negb (routeToken (route_ProviderDeployment s))
     || negb (routeAuthorityToken (route_Cluster s)) || negb (routeAuthorityToken (route_Authority s))
     || negb (validPathMode (route_PathMode s)) || negb (is_sha256 (route_SnapshotHash s))
     || negb (String.eqb (route_SnapshotHash s) (RouteSnapshotHash s))
  then Some "route snapshot is incomplete or its digest is invalid" else None.

Definition validateCandidateSnapshot (c : Candidate) : option error :=
  match ValidateRouteSnapshot (cand_RouteSnapshot c) with
  | Some m => Some m
  | None =>
    let r := cand_RouteSnapshot c in
    if negb (String.eqb (cand_ModelRef c) (route_ModelName r)) || negb (String.eqb (cand_ProviderRef c) (route_ProviderName r))
       || negb (String.eqb (cand_PricingVersion c) (route_PricingVersion r))
       || negb (String.eqb (cand_SnapshotVersion c) (route_SnapshotHash r))
       || negb (providerPathCompatible (cand_ProviderType c) (route_PathMode r))
    then Some "candidate and route snapshot identity mismatch" else None
  end.

(** [PricingComplianceHash]: the compliance record of a provider spec. *)
Definition PricingComplianceHash (provider : AIProvider) (inputMicros outputMicros : Z) : result string :=
  let spec := prov_Spec provider in
  let pr := ps_Pricing spec in
  match pp_ObservedAt pr with
  | None => Err "pricing observation time is required"
  | Some observed =>
    let? countries := check_countries ∅ (comp_AllowedCountries (ps_Compliance spec)) in
    let countries := sort_strings countries in
    let categories := sort_slice (fun i j => string_ltb (cat_Name i) (cat_Name j)) (pp_BillableCategories pr) in
    let? fixed := match pp_FixedMonthlyCost pr with
                  | None => Ok "absent"%string
                  | Some q => let? micros := quantityToExactMicros q in Ok (sprint micros)
                  end in
    let? categories := check_categories "" categories in
    Ok (fixedHash
      (["govar-pricing-compliance-v1"; ToLower (ps_Type spec); normalizeZone (ps_Region spec);
        normalizeZone (ps_DataResidency spec); sprint_bool (ps_Managed spec); ToUpper (TrimSpace (pp_Currency pr));
        TrimSpace (pp_Version pr); RFC3339Nano observed; pp_Completeness pr; sprint inputMicros; sprint outputMicros;
        fixed]
       ++ concat (map (fun c => [cat_Name c; cat_Unit c; quantity_String (cat_Price c)]) categories)
       ++ [sprint_bool (comp_AllowedForSensitiveData (ps_Compliance spec))] ++ countries))
  end.

(** ** [BuildCandidatesAt] *)

(** The capability attestation tests of a model's verified output cap. *)
Definition verified_cap (model : AIModel) (provider : AIProvider) (binding : GatewayRouteBinding)
    (cap : VerifiedOutputCapStatus) (evaluatedAt : Time) : bool :=
  let '(expectedCapParameter, capAdapterSupported) :=
    OutputCapRequestParameter (ps_Type (prov_Spec provider)) (bind_PathMode binding) in
  match pst_GOVAR (prov_Status provider) with
  | Some (Some pricing) =>
    cap_Verified cap && (0 <? cap_MaxOutputTokens cap) && String.eqb (cap_ProviderUID cap) (om_UID (prov_Meta provider))
    && (cap_ProviderGeneration cap =? om_Generation (prov_Meta provider))
    && String.eqb (cap_ProviderDeployment cap) (bind_ProviderDeployment binding)
    && String.eqb (cap_ModelVersion cap) (ms_ModelName (model_Spec model))
    && String.eqb (cap_CapabilityAdapterVersion cap) CurrentAdapterVersion
    && capAdapterSupported && cap_EnforcedByPathAdapter cap && String.eqb (cap_RequestParameter cap) expectedCapParameter
    && (String.length (cap_EvidenceSHA256 cap) =? 64)%nat
    && String.eqb (cap_PricingSnapshotSHA256 cap) (snap_SnapshotSHA256 pricing)
    && negb (blank (cap_SourceVersion cap)) && After (cap_ValidUntil cap) evaluatedAt
    && (time_sub evaluatedAt (cap_ObservedAt cap) <=? observationFreshnessLimit)
    && (time_sub (cap_ObservedAt cap) evaluatedAt <=? Minute)
  | _ => false
  end.

Definition base_candidate (model : AIModel) (provider : AIProvider) : Candidate :=
  let ms := model_Spec model in
  let ps := prov_Spec provider in
  zero_candidate
    <| cand_ModelRef := om_Name (model_Meta model) |> <| cand_ModelName := ms_ModelName ms |>
    <| cand_ProviderRef := om_Name (prov_Meta provider) |> <| cand_ProviderType := ps_Type ps |>
    <| cand_Region := ps_Region ps |> <| cand_DataResidency := ps_DataResidency ps |>
    <| cand_Managed := ps_Managed ps |> <| cand_ContextWindow := ms_ContextWindow ms |>
    <| cand_QualityTier := ms_QualityTier ms |> <| cand_CostTier := ms_CostTier ms |>
    <| cand_QualityScore := mstat_LastQualityScore (model_Status model) |>
    <| cand_PricingVersion := TrimSpace (pp_Version (ps_Pricing ps)) |>.

(** The identity, target, readiness and binding tests, up to the gateway binding. *)
Definition resolve_binding (req : RequestContext) (model : AIModel) (provider : AIProvider)
    : ReasonCode + GatewayRouteBinding :=
  let mm := model_Meta model in
  let pm := prov_Meta provider in
  if String.eqb (om_Namespace mm) "" || negb (String.eqb (om_Namespace pm) (om_Namespace mm))
     || String.eqb (om_UID mm) "" || String.eqb (om_UID pm) "" || String.eqb (om_ResourceVersion mm) ""
     || String.eqb (om_ResourceVersion pm) "" || (om_Generation mm <=? 0) || (om_Generation pm <=? 0)
  then inl ReasonNotRoutable
  else if negb (matchesTarget req model) then inl ReasonWorkloadTargetMismatch
  else if negb (mstat_ObservedGeneration (model_Status model) =? om_Generation mm)
          || negb (readyConditionTrue (mstat_Conditions (model_Status model)))
  then inl ReasonModelNotReady
  else if negb (pst_ObservedGeneration (prov_Status provider) =? om_Generation pm)
          || negb (readyConditionTrue (pst_Conditions (prov_Status provider)))
  then inl ReasonProviderUnavailable
  else match ms_GOVAR (model_Spec model) with
       | None => inl ReasonNotRoutable
       | Some govar =>
         if negb (mgs_Routable govar) || blank (mgs_RouteBindingRef govar) then inl ReasonNotRoutable
         else match providerRouteBinding provider (mgs_RouteBindingRef govar) with
              | Err _ => inl ReasonNotRoutable
              | Ok binding =>
                if negb (providerPathCompatible (ps_Type (prov_Spec provider)) (bind_PathMode binding))
                then inl ReasonNotRoutable else inr binding
              end
       end.

(** The governance tests and the freshness of the quality observation. *)
Definition governance_reason (req : RequestContext) (model : AIModel) (provider : AIProvider) (evaluatedAt : Time)
    : ReasonCode :=
  let ps := prov_Spec provider in
  if rc_SensitiveData req && negb (ms_SensitiveDataAllowed (model_Spec model))
     && negb (comp_AllowedForSensitiveData (ps_Compliance ps))
  then ReasonGovernanceInfeasible
  else if (0 <? Z.of_nat (length (rc_AllowedZones req)))
          && negb (zoneAllowed (rc_AllowedZones req) (ps_DataResidency ps) (ps_Region ps))
  then ReasonGovernanceInfeasible
  else match mstat_LastEvaluatedAt (model_Status model) with
       | None => ReasonQualityStale
       | Some last =>
         if IsZero evaluatedAt || (observationFreshnessLimit <? time_sub evaluatedAt last)
            || (Minute <? time_sub last evaluatedAt)
         then ReasonQualityStale else ReasonNone
       end.

Definition with_observations (c : Candidate) (model : AIModel) (provider : AIProvider) (binding : GatewayRouteBinding)
    (evaluatedAt : Time) : Candidate :=
  let st := model_Status model in
  let c := match mstat_LastEvaluatedAt st with Some t => c <| cand_QualityObservedAt := t |> | None => c end in
  let c := match mstat_GOVAR st ≫= mst_Latency with
           | Some latency =>
             if (0 <? lat_SampleCount latency)
                && (time_sub evaluatedAt (lat_ObservedAt latency) <=? observationFreshnessLimit)
                && (time_sub (lat_ObservedAt latency) evaluatedAt <=? Minute)
             then c <| cand_LatencyMillis := lat_MeanMillis latency |> <| cand_LatencyObservedAt := lat_ObservedAt latency |>
             else c
           | None => c
           end in
  match mstat_GOVAR st ≫= mst_VerifiedOutputCap with
  | Some cap =>
    c <| cand_VerifiedOutputCap := verified_cap model provider binding cap evaluatedAt |>
      <| cand_VerifiedOutputCapTokens := cap_MaxOutputTokens cap |>
      <| cand_CapEvidenceDigest := cap_EvidenceSHA256 cap |>
  | None => c
  end.

(** The last row of a basis gives its price, as the loop over the charges does. *)
Definition price_of (basis : Basis) (rows : list NormalizedCharge) : Z :=
  fold_left (fun price row => if String.eqb (row_Basis row) basis then row_PriceMicrosPerUnit row else price) rows 0.

(** The route snapshot frozen for a candidate, with its own digest. *)
Definition route_of (c : Candidate) (model : AIModel) (provider : AIProvider) (binding : GatewayRouteBinding)
    : RouteSnapshot :=
  let mm := model_Meta model in
  let pm := prov_Meta provider in
  let ps := prov_Spec provider in
  let pricingHash := fixedHash
    ["govar-pricing-compliance-v2"; snap_SnapshotSHA256 (cand_PricingSnapshot c); cand_CapEvidenceDigest c;
     ToLower (ps_Type ps); normalizeZone (ps_Region ps); normalizeZone (ps_DataResidency ps);
     sprint_bool (ps_Managed ps); sprint_bool (comp_AllowedForSensitiveData (ps_Compliance ps))] in
  let route := Build_RouteSnapshot (om_Namespace mm) (om_Name mm) (om_UID mm) (om_Generation mm)
    (om_ResourceVersion mm) (om_Name pm) (om_UID pm) (om_Generation pm) (om_ResourceVersion pm)
    (cand_PricingVersion c) pricingHash (bind_Name binding) (bind_ProviderDeployment binding)
    (bind_Cluster binding) (bind_Authority binding) (bind_PathMode binding) "" in
  route <| route_SnapshotHash := RouteSnapshotHash route |>.

Definition with_route (c : Candidate) (model : AIModel) (provider : AIProvider) (binding : GatewayRouteBinding)
    : Candidate :=
  let rows := snap_Charges (cand_PricingSnapshot c) in
  let route := route_of c model provider binding in
  c <| cand_InputPriceMicrosPerMillion := price_of ProviderBasisInputTokens rows |>
    <| cand_OutputPriceMicrosPerMillion := price_of ProviderBasisOutputTokens rows |>
    <| cand_SensitiveDataAllowed := ms_SensitiveDataAllowed (model_Spec model)
                                    || comp_AllowedForSensitiveData (ps_Compliance (prov_Spec provider)) |>
    <| cand_RouteSnapshot := route |> <| cand_SnapshotVersion := route_SnapshotHash route |>.

Definition build_candidate (req : RequestContext) (providers : gmap string AIProvider) (evaluatedAt : Time)
    (model : AIModel) : Candidate :=
  match providers !! ms_ProviderRef (model_Spec model) with
  | None => zero_candidate <| cand_ModelRef := om_Name (model_Meta model) |>
                           <| cand_InfeasibleReason := ReasonProviderUnavailable |>
  | Some provider =>
    let c := base_candidate model provider in
    match resolve_binding req model provider with
    | inl reason => c <| cand_InfeasibleReason := reason |>
    | inr binding =>
      let reason := governance_reason req model provider evaluatedAt in
      if is_reason reason then c <| cand_InfeasibleReason := reason |>
      else
        let c := with_observations c model provider binding evaluatedAt in
        match pst_GOVAR (prov_Status provider) with
        | Some (Some pricing) =>
          if (cand_ContextWindow c <=? 0) || String.eqb (cand_PricingVersion c) ""
          then c <| cand_InfeasibleReason := ReasonPricingIncomplete |>
          else
            let c := c <| cand_PricingSnapshot := pricing |> in
            match ValidateSnapshot pricing (om_Generation (prov_Meta provider)) evaluatedAt with
            | Some _ => c <| cand_InfeasibleReason := ReasonPricingStale |>
            | None =>
              let c := with_route c model provider binding in
              match ValidateRouteSnapshot (cand_RouteSnapshot c) with
              | Some _ => c <| cand_InfeasibleReason := ReasonNotRoutable |>
              | None => c <| cand_Feasible := true |>
              end
            end
        | _ => c <| cand_InfeasibleReason := ReasonPricingIncomplete |>
        end
    end
  end.

Definition BuildCandidatesAt (req : RequestContext) (models : list AIModel) (providers : gmap string AIProvider)
    (evaluatedAt : Time) : list Candidate := map (build_candidate req providers evaluatedAt) models.
End routes.

(** ** Policy snapshots *)

Record PolicySnapshot : Type := Build_PolicySnapshot {
  psn_BudgetScope : BudgetTarget;
  psn_BudgetMicros : Z;
  psn_FallbackModelRef : string;
  psn_EnforcementMode : string;
  psn_FallbackOnPhase : string;
  psn_Objective : string;
  psn_MinQualityScore : float64;
  psn_MaxLatencyMillis : Z;
  psn_RequireSovereigntyCompliance : bool
}.

Definition BuildPolicySnapshot (budget : AIBudgetPolicy) (routing : AIRoutingPolicy) : PolicySnapshot :=
  let bs := bpol_Spec budget in
  let g := rs_Guardrails (rpol_Spec routing) in
  Build_PolicySnapshot (bs_Target bs) (result_or 0 (quantityToMicros (bs_BudgetEUR bs))) (bs_FallbackModelRef bs)
    (bs_EnforcementMode bs) (bs_FallbackOnPhase bs) (rs_Objective (rpol_Spec routing)) (gr_MinQualityScore g)
    (gr_MaxLatencyMillis g) (gr_RequireSovereigntyCompliance g).

(** ** Properties *)

Lemma sprint_inj a b : sprint a = sprint b -> a = b.
Proof. apply pretty_Z_inj. Qed.

Lemma route_fields_inj r s :
  route_fields r = route_fields s -> r <| route_SnapshotHash := "" |> = s <| route_SnapshotHash := "" |>.
Proof.
  destruct r, s. unfold route_fields. cbn. intros E. injection E as -> -> -> Hg -> -> -> Hp -> -> -> -> -> -> -> ->.
  apply sprint_inj in Hg as ->. by apply sprint_inj in Hp as ->.
Qed.

Section properties.
Context `{Crypto} `{Platform}.

Lemma ValidateRouteSnapshot_ok r :
  ValidateRouteSnapshot r = None ->
  route_SnapshotHash r = RouteSnapshotHash r /\ validPathMode (route_PathMode r) = true /\
  0 < route_ModelGeneration r /\ 0 < route_ProviderGeneration r.
Proof.
  unfold ValidateRouteSnapshot. destruct (_ || _) eqn:E; [discriminate|]. intros _. bool_to_prop.
  repeat split; try done; lia.
Qed.

(** the hash of a route snapshot binds every field of it: two snapshots that
    both validate and carry the same hash are the same route, or a SHA-256
    collision has been found. *)
Theorem route_hash_binds r s :
  ValidateRouteSnapshot r = None -> ValidateRouteSnapshot s = None ->
  Forall go_length (route_fields r) -> Forall go_length (route_fields s) ->
  route_SnapshotHash r = route_SnapshotHash s -> r = s \/ sha256_collision.
Proof.
  intros (Hr & _)%ValidateRouteSnapshot_ok (Hs & _)%ValidateRouteSnapshot_ok Lr Ls Heq.
  assert (Hf : fixedHash (route_fields r) = fixedHash (route_fields s)).
  { unfold RouteSnapshotHash in Hr, Hs. by rewrite <- Hr, <- Hs. }
  destruct (fixedHash_inj _ _ Lr Ls Hf) as [E|]; [left | by right].
  apply route_fields_inj in E. clear -E Heq. destruct r, s. cbn in E, Heq. by rewrite Heq; injection E as -> -> -> -> -> -> -> -> -> -> -> -> -> -> -> ->.
Qed.

(** The gateway binding that a routable model names among its provider's. *)
Definition routable_by (model : AIModel) (provider : AIProvider) (binding : GatewayRouteBinding) : Prop :=
  exists govar, ms_GOVAR (model_Spec model) = Some govar /\ mgs_Routable govar = true /\
    providerRouteBinding provider (mgs_RouteBindingRef govar) = Ok binding.

(** The quality of a model was evaluated recently, as seen at [at_]. *)
Definition fresh_quality (model : AIModel) (at_ : Time) : Prop :=
  exists last, mstat_LastEvaluatedAt (model_Status model) = Some last /\
    time_sub at_ last <= observationFreshnessLimit /\ time_sub last at_ <= Minute.

Lemma resolve_binding_ok req model provider binding :
  resolve_binding req model provider = inr binding ->
  matchesTarget req model = true /\
  om_Namespace (prov_Meta provider) = om_Namespace (model_Meta model) /\
  mstat_ObservedGeneration (model_Status model) = om_Generation (model_Meta model) /\
  pst_ObservedGeneration (prov_Status provider) = om_Generation (prov_Meta provider) /\
  readyConditionTrue (mstat_Conditions (model_Status model)) = true /\
  readyConditionTrue (pst_Conditions (prov_Status provider)) = true /\
  providerPathCompatible (ps_Type (prov_Spec provider)) (bind_PathMode binding) = true /\
  routable_by model provider binding.
Proof.
  unfold resolve_binding, routable_by. cbn zeta. intros Hb. peel_all Hb. injection Hb as ->. bool_to_prop.
  repeat split; try congruence. eauto.
Qed.

Lemma governance_ok req model provider at_ : governance_reason req model provider at_ = ReasonNone ->
  (rc_SensitiveData req = true ->
   ms_SensitiveDataAllowed (model_Spec model) = true \/ comp_AllowedForSensitiveData (ps_Compliance (prov_Spec provider)) = true) /\
  (rc_AllowedZones req = [] \/
   zoneAllowed (rc_AllowedZones req) (ps_DataResidency (prov_Spec provider)) (ps_Region (prov_Spec provider)) = true) /\
  fresh_quality model at_.
Proof.
  unfold governance_reason, fresh_quality. cbn zeta.
  destruct (rc_SensitiveData req && negb (ms_SensitiveDataAllowed (model_Spec model))
            && negb (comp_AllowedForSensitiveData (ps_Compliance (prov_Spec provider)))) eqn:Hs; [discriminate|].
  destruct ((0 <? Z.of_nat (length (rc_AllowedZones req))) && _) eqn:Hz; [discriminate|].
  destruct (mstat_LastEvaluatedAt (model_Status model)) as [last|]; [|discriminate].
  destruct (_ || _ || _) eqn:Hf; [discriminate|]. intros _. split; [|split].
  - intros Hsd. rewrite Hsd in Hs. destruct (ms_SensitiveDataAllowed _); [by left|].
    destruct (comp_AllowedForSensitiveData _); [by right | discriminate].
  - destruct (rc_AllowedZones req); [by left|]. right. by destruct (zoneAllowed _ _ _).
  - exists last. split; [done|]. bool_to_prop. lia.
Qed.

(** The fields that the observations of a model leave alone. *)
Lemma with_observations_frame c model provider binding at_ :
  let c' := with_observations c model provider binding at_ in
  cand_Feasible c' = cand_Feasible c /\ cand_ModelRef c' = cand_ModelRef c /\
  cand_ProviderRef c' = cand_ProviderRef c /\ cand_ProviderType c' = cand_ProviderType c /\
  cand_PricingVersion c' = cand_PricingVersion c.
Proof.
  unfold with_observations. cbn zeta.
  destruct (mstat_LastEvaluatedAt (model_Status model)), (mstat_GOVAR (model_Status model) ≫= mst_Latency),
    (mstat_GOVAR (model_Status model) ≫= mst_VerifiedOutputCap);
    try match goal with |- context [if ?b then _ else _] => destruct b end; repeat split.
Qed.

(** What freezing the route does to a candidate. *)
Lemma with_route_frame c model provider binding :
  let c' := with_route c model provider binding in
  let r := cand_RouteSnapshot c' in
  cand_Feasible c' = cand_Feasible c /\ cand_PricingSnapshot c' = cand_PricingSnapshot c /\
  (cand_ModelRef c' = cand_ModelRef c /\ cand_ProviderRef c' = cand_ProviderRef c /\
   cand_PricingVersion c' = cand_PricingVersion c /\
   cand_PricingVersion c' = route_PricingVersion r /\ cand_SnapshotVersion c' = route_SnapshotHash r) /\
  cand_ProviderType c' = cand_ProviderType c /\
  (route_ModelName r = om_Name (model_Meta model) /\ route_ProviderName r = om_Name (prov_Meta provider) /\
   route_PathMode r = bind_PathMode binding /\
   route_ModelUID r = om_UID (model_Meta model) /\ route_ProviderUID r = om_UID (prov_Meta provider)).
Proof.
  unfold with_route. cbn zeta.
  assert (Hr : let r := route_of c model provider binding in
    cand_PricingVersion c = route_PricingVersion r /\
    route_ModelName r = om_Name (model_Meta model) /\ route_ProviderName r = om_Name (prov_Meta provider) /\
    route_PathMode r = bind_PathMode binding /\
    route_ModelUID r = om_UID (model_Meta model) /\ route_ProviderUID r = om_UID (prov_Meta provider))
    by (repeat split).
  cbn zeta in Hr. destruct Hr as (R1 & R2 & R3 & R4 & R5 & R6).
  generalize dependent (route_of c model provider binding). intros r **.
  destruct c. cbn in *. repeat split; done.
Qed.

Lemma reason_feasible c r : cand_Feasible (c <| cand_InfeasibleReason := r |>) = cand_Feasible c.
Proof. reflexivity. Qed.

Lemma feasible_pricing c b : cand_PricingSnapshot (c <| cand_Feasible := b |>) = cand_PricingSnapshot c.
Proof. reflexivity. Qed.

(** A feasible candidate took the last branch of every test. *)
Lemma build_feasible req providers at_ model : cand_Feasible (build_candidate req providers at_ model) = true ->
  exists provider binding pricing, let c := with_route ((with_observations (base_candidate model provider) model provider binding at_)
                                                          <| cand_PricingSnapshot := pricing |>) model provider binding in
    providers !! ms_ProviderRef (model_Spec model) = Some provider /\
    resolve_binding req model provider = inr binding /\ governance_reason req model provider at_ = ReasonNone /\
    ValidateSnapshot pricing (om_Generation (prov_Meta provider)) at_ = None /\
    ValidateRouteSnapshot (cand_RouteSnapshot c) = None /\
    build_candidate req providers at_ model = c <| cand_Feasible := true |>.
Proof.
  unfold build_candidate. destruct (providers !! _) as [provider|] eqn:Hp; [|discriminate].
  destruct (resolve_binding req model provider) as [reason|binding] eqn:Hb; cbn zeta; [rewrite reason_feasible; discriminate|].
  destruct (is_reason (governance_reason req model provider at_)) eqn:Hg; [rewrite reason_feasible; discriminate|].
  destruct (with_observations_frame (base_candidate model provider) model provider binding at_) as (Hfe & _).
  change (cand_Feasible (base_candidate model provider)) with false in Hfe.
  set (c1 := with_observations (base_candidate model provider) model provider binding at_) in *.
  destruct (pst_GOVAR (prov_Status provider)) as [[pricing|]|]; [|rewrite reason_feasible; congruence..].
  destruct (_ || _); [rewrite reason_feasible; congruence|].
  destruct (ValidateSnapshot pricing _ at_) eqn:Hv.
  { rewrite reason_feasible. change (cand_Feasible (c1 <| cand_PricingSnapshot := pricing |>)) with (cand_Feasible c1). congruence. }
  destruct (with_route_frame (c1 <| cand_PricingSnapshot := pricing |>) model provider binding) as (Hc2 & _).
  change (cand_Feasible (c1 <| cand_PricingSnapshot := pricing |>)) with (cand_Feasible c1) in Hc2.
  destruct (ValidateRouteSnapshot _) eqn:Hr; [rewrite reason_feasible; congruence|]. intros _.
  assert (Hg' : governance_reason req model provider at_ = ReasonNone) by (unfold is_reason in Hg; by case_bool_decide).
  exists provider, binding, pricing. do 5 (split; [first [reflexivity | assumption]|]). reflexivity.
Qed.

(** The route frozen for a feasible candidate is that of its model and provider. *)
Lemma route_consistent c1 model provider binding at_ :
  let c := with_route c1 model provider binding in
  cand_ModelRef c1 = om_Name (model_Meta model) -> cand_ProviderRef c1 = om_Name (prov_Meta provider) ->
  cand_ProviderType c1 = ps_Type (prov_Spec provider) ->
  providerPathCompatible (ps_Type (prov_Spec provider)) (bind_PathMode binding) = true ->
  ValidateRouteSnapshot (cand_RouteSnapshot c) = None ->
  validateCandidateSnapshot (c <| cand_Feasible := at_ |>) = None /\
  route_ModelUID (cand_RouteSnapshot c) = om_UID (model_Meta model) /\
  route_ProviderUID (cand_RouteSnapshot c) = om_UID (prov_Meta provider) /\
  cand_PricingSnapshot c = cand_PricingSnapshot c1.
Proof.
  intros c Hm Hp Hty Hpath Hr. destruct (with_route_frame c1 model provider binding) as (_ & Hps & (G1 & G2 & G3 & H3 & H4) & Ht & K1 & K2 & K3 & U1 & U2).
  fold c in Hps, G1, G2, G3, H3, H4, Ht, K1, K2, K3, U1, U2. split; [|split; [exact U1 | split; [exact U2 | exact Hps]]]. clearbody c. unfold validateCandidateSnapshot.
  cbn [set_with cand_ModelRef cand_ProviderRef cand_PricingVersion cand_SnapshotVersion cand_ProviderType cand_RouteSnapshot].
  assert (E1 : cand_ModelRef c = route_ModelName (cand_RouteSnapshot c)) by congruence.
  assert (E2 : cand_ProviderRef c = route_ProviderName (cand_RouteSnapshot c)) by congruence.
  by rewrite Hr, E1, E2, H3, H4, !String.eqb_refl, Ht, Hty, K3, Hpath.
Qed.

(** C38: a candidate is feasible only if its model and its provider are ready at
    their current generation, the model is routable through a binding of the
    provider whose path the provider's type supports, the request targets the model,
    the provider may process its data in one of the allowed zones, the quality of the
    model was evaluated recently, the pricing snapshot is valid for the provider's
    generation at the evaluation instant, and the frozen route names exactly that
    model, provider and price. *)
Theorem feasible_candidate_is_governed req providers at_ model c :
  build_candidate req providers at_ model = c -> cand_Feasible c = true ->
  exists provider binding,
    providers !! ms_ProviderRef (model_Spec model) = Some provider /\
    matchesTarget req model = true /\
    mstat_ObservedGeneration (model_Status model) = om_Generation (model_Meta model) /\
    pst_ObservedGeneration (prov_Status provider) = om_Generation (prov_Meta provider) /\
    readyConditionTrue (mstat_Conditions (model_Status model)) = true /\
    readyConditionTrue (pst_Conditions (prov_Status provider)) = true /\
    routable_by model provider binding /\
    providerPathCompatible (ps_Type (prov_Spec provider)) (bind_PathMode binding) = true /\
    fresh_quality model at_ /\
    (rc_SensitiveData req = true ->
     ms_SensitiveDataAllowed (model_Spec model) = true \/
     comp_AllowedForSensitiveData (ps_Compliance (prov_Spec provider)) = true) /\
    (rc_AllowedZones req = [] \/
     zoneAllowed (rc_AllowedZones req) (ps_DataResidency (prov_Spec provider)) (ps_Region (prov_Spec provider)) = true) /\
    ValidateSnapshot (cand_PricingSnapshot c) (om_Generation (prov_Meta provider)) at_ = None /\
    validateCandidateSnapshot c = None /\
    route_ModelUID (cand_RouteSnapshot c) = om_UID (model_Meta model) /\
    route_ProviderUID (cand_RouteSnapshot c) = om_UID (prov_Meta provider).
Proof.
  intros <- Hf. destruct (build_feasible _ _ _ _ Hf) as (provider & binding & pricing & Hp & Hb & Hg & Hv & Hr & Hc).
  rewrite Hc. clear Hc Hf. apply resolve_binding_ok in Hb as (Ht & _ & Hm & Hpg & Hrm & Hrp & Hpath & Hby).
  apply governance_ok in Hg as (Hs & Hz & Hq). exists provider, binding.
  destruct (with_observations_frame (base_candidate model provider) model provider binding at_) as (_ & Hmr & Hpr & Hpt & _).
  set (c1 := with_observations (base_candidate model provider) model provider binding at_) in *. clearbody c1.
  set (c2 := set_with cand_PricingSnapshot _ c1) in *.
  destruct (route_consistent c2 model provider binding true Hmr Hpr Hpt Hpath Hr) as (Hval & Hu1 & Hu2 & Hps).
  do 11 (split; [done|]). split; [|split; [exact Hval | split; [exact Hu1 | exact Hu2]]].
  rewrite feasible_pricing, Hps. exact Hv.
Qed.
End properties.

(** ** A concrete route *)

Module RoutesExample.
(** One choice of the Kubernetes functions. *)
Definition platform : Platform := {|
  quantity_String := fun q => sprint (qty_Unscaled q) +:+ "e-" +:+ sprint (qty_Scale q);
  json_BudgetSpec := fun b => bs_Period b;
  json_GOVARSpec := fun g => match g with Some g => rp_Method (grs_Reservation g) | None => "null" end;
  json_GOVARStatus := fun g => match g with Some _ => "{}" | None => "null" end;
  sprint_float := fun f => match f with S754_finite _ m e => sprint (Z.pos m) +:+ "p" +:+ sprint e | _ => "0" end
|}.

Definition ready : list Condition := [Build_Condition ConditionReady ConditionTrue].
Definition binding : GatewayRouteBinding :=
  Build_GatewayRouteBinding "primary" "gpt-eu" "openai-eu" "api.openai.eu:443" "openai-body".

Definition provider : AIProvider :=
  let p := PricingExample.provider PricingExample.good_charge in
  let spec := prov_Spec p in
  Build_AIProvider (prov_Meta p)
    (Build_AIProviderSpec (ps_Type spec) (ps_Region spec) (ps_DataResidency spec) (ps_Managed spec) (ps_Pricing spec)
       (ps_Compliance spec)
       (Some (Build_AIProviderGOVARSpec [binding] (g ← ps_GOVAR spec; pgs_Pricing g))))
    (Build_AIProviderStatus 3 ready (Some (Some PricingExample.normalized))).

Definition cap : VerifiedOutputCapStatus :=
  Build_VerifiedOutputCapStatus true 4096 (PricingExample.now - Minute) "cap-1" "uid-1" 3 "gpt-eu" "gpt-x"
    CurrentAdapterVersion ProviderEvidenceAdminAttested PricingExample.digest
    (snap_SnapshotSHA256 PricingExample.normalized) (PricingExample.now + Hour) "max_output_tokens" true.

Definition model : AIModel :=
  Build_AIModel (Build_ObjectMeta "gpt-fr" "ai" "uid-m" "91" 2)
    (Build_AIModelSpec "acme" "gpt-x" "chat" 128000 "high" "medium" false "team-a" "" ""
       (Some (Build_AIModelGOVARSpec true "primary")))
    (Build_AIModelStatus 2 (S754_finite false 8 (-3)) (Some (PricingExample.now - Hour)) ready
       (Some (Build_AIModelGOVARStatus (Some cap)
                (Some (Build_LatencyObservation 240 400 600 12 (PricingExample.now - Minute)))))).

Definition request : RequestContext := Build_RequestContext "team-a" "red" "chat" false ["eu"; "fr"].
Definition providers : gmap string AIProvider := <["acme" := provider]> ∅.
Definition candidate : Candidate := Eval vm_compute in @build_candidate go_crypto request providers PricingExample.now model.
End RoutesExample.

Example candidate_feasible :
  cand_Feasible RoutesExample.candidate = true /\ cand_VerifiedOutputCap RoutesExample.candidate = true /\
  cand_InputPriceMicrosPerMillion RoutesExample.candidate = 2500000.
Proof. vm_compute. done. Qed.

Lemma feasible_candidate_is_governed_witness :
  exists provider,
    RoutesExample.providers !! ms_ProviderRef (model_Spec RoutesExample.model) = Some provider /\
    readyConditionTrue (pst_Conditions (prov_Status provider)) = true /\
    @validateCandidateSnapshot go_crypto RoutesExample.candidate = None.
Proof.
  destruct (@feasible_candidate_is_governed go_crypto RoutesExample.request RoutesExample.providers
              PricingExample.now RoutesExample.model RoutesExample.candidate)
    as (p & binding & H1 & _ & _ & _ & _ & H2 & _ & _ & _ & _ & _ & _ & H3 & _).
  - unfold RoutesExample.candidate. reflexivity.
  - vm_compute. reflexivity.
  - exists p. auto.
Defined.

Lemma route_hash_binds_witness :
  cand_RouteSnapshot RoutesExample.candidate = cand_RouteSnapshot RoutesExample.candidate \/ @sha256_collision go_crypto.
Proof.
  apply (@route_hash_binds go_crypto (cand_RouteSnapshot RoutesExample.candidate)
           (cand_RouteSnapshot RoutesExample.candidate)).
  - vm_compute. reflexivity.
  - vm_compute. reflexivity.
  - apply go_length_small. vm_compute. reflexivity.
  - apply go_length_small. vm_compute. reflexivity.
  - reflexivity.
Defined.
