(* ===== verification/AdmissionPolicy.v ===== *)
(** * Admission policy ([internal/govar/admission_policy.go])

    Which candidate a request is admitted to and how many tokens and micros are
    reserved for it: readiness and target of the policies, calibration evidence,
    the reservation methods with their conservative fallback, and the choice. *)

From Stdlib Require Import ZArith Lia Ascii String SpecFloat.
From stdpp Require Import base gmap strings list pretty sorting.
From S2P Require Import Prelude Digest GoTime Float64 Api Json Pricing Calibration Routes.

Open Scope string_scope.
Open Scope list_scope.
Open Scope Z_scope.
Open Scope go_scope.

(** ** Requests *)

(** [SelectedFeedbackBinding] of selected_feedback_postgres.go. *)
Record SelectedFeedbackBinding : Type := Build_SelectedFeedbackBinding {
  sfb_RunID : string;
  sfb_DatasetID : string;
  sfb_Split : string;
  sfb_ItemID : string;
  sfb_ProtocolSHA256 : string;
  sfb_OracleArtifactSHA256 : string;
  sfb_SoftwareSHA256 : string;
  sfb_ConfigSHA256 : string
}.

Record AdmitRequest : Type := Build_AdmitRequest {
  areq_RequestID : string;
  areq_Namespace : string;
  areq_TenantID : string;
  areq_WorkloadUID : string;
  areq_Team : string;
  areq_Application : string;
  areq_SensitiveData : bool;
  areq_AllowedZones : list string;
  areq_BudgetPolicyName : string;
  areq_RoutingPolicyName : string;
  areq_InputTokens : Z;
  areq_InputTokensExact : bool;
  areq_MaxOutputTokens : Z;
  areq_MaxToolCalls : Z;
  areq_MaxMediaUnits : Z;
  areq_TimeoutSeconds : Z;
  areq_MaxRetryAttempts : Z;
  areq_CancellationPossible : bool;
  areq_ChargeBounds : list UsageQuantity;
  areq_RequireApproval : bool;
  areq_CohortID : string;
  areq_CohortIndex : Z;
  areq_SelectedFeedback : option SelectedFeedbackBinding;
  areq_AuthenticatedTenantID : string;
  areq_AuthenticatedWorkloadUID : string;
  areq_AuthenticatedNamespace : string
}.

Inductive Decision : Set :=
| DecisionNone | DecisionAdmit | DecisionQueue | DecisionReject | DecisionAbstain | DecisionRequireApproval.
#[export] Instance Decision_eq_dec : EqDecision Decision.
Proof. solve_decision. Defined.

Definition CalibrationEvidenceSourcePostgreSQLV8 : string := "postgresql-v8".
Definition CalibrationEvidenceSourceInMemoryQualificationV1 : string := "in_memory_qualification_nonfinal_v1".

Record admissionChoice : Type := Build_admissionChoice {
  ch_Candidate : Candidate;
  ch_Reservation : Z;
  ch_Method : string;
  ch_AllocatedRiskPPB : Z;
  ch_InputTokensBound : Z;
  ch_Components : list ChargeComponent;
  ch_FallbackReason : ReasonCode
}.
#[export] Instance ch_eta : Eta admissionChoice := fun c =>
  Build_admissionChoice (ch_Candidate c) (ch_Reservation c) (ch_Method c) (ch_AllocatedRiskPPB c)
    (ch_InputTokensBound c) (ch_Components c) (ch_FallbackReason c).

Definition validatePolicyAndTarget (req : AdmitRequest) (budget : AIBudgetPolicy) (routing : AIRoutingPolicy)
    (evaluatedAt : Time) : ReasonCode :=
  if negb (bst_ObservedGeneration (bpol_Status budget) =? om_Generation (bpol_Meta budget))
     || negb (readyConditionTrue (bst_Conditions (bpol_Status budget)))
     || negb (rst_ObservedGeneration (rpol_Status routing) =? om_Generation (rpol_Meta routing))
     || negb (readyConditionTrue (rst_Conditions (rpol_Status routing)))
  then ReasonPolicyNotReady
  else match rst_LastEvaluatedAt (rpol_Status routing) with
  | None => ReasonPolicyNotReady
  | Some last =>
    if After last evaluatedAt || (observationFreshnessLimit <? time_sub evaluatedAt last) then ReasonPolicyNotReady
    else
      let target := bs_Target (bpol_Spec budget) in
      let outside (selector value : string) := negb (String.eqb selector "") && negb (String.eqb selector value) in
      if outside (tgt_Namespace target) (areq_Namespace req) then ReasonBudgetTargetMismatch
      else if outside (tgt_Team target) (areq_Team req) then ReasonBudgetTargetMismatch
      else if outside (tgt_Application target) (areq_Application req) then ReasonBudgetTargetMismatch
      else ReasonNone
  end.

Definition typedReservationMethod (routing : AIRoutingPolicy) : string :=
  match rs_GOVAR (rpol_Spec routing) with
  | None => GOVARReservationStrictProviderCap
  | Some g => if blank (rp_Method (grs_Reservation g)) then GOVARReservationStrictProviderCap
              else rp_Method (grs_Reservation g)
  end.

Definition isCalibrationReason (reason : ReasonCode) : bool :=
  match reason with
  | ReasonInsufficientCalibration | ReasonCalibrationMissing | ReasonCalibrationGeneration
  | ReasonCalibrationMismatch | ReasonCalibrationRegime | ReasonCalibrationSupport
  | ReasonCalibrationStale | ReasonCalibrationDrift | ReasonCalibrationUnsupported => true
  | _ => false
  end.

Definition decisionForAdmissionFailure (routing : AIRoutingPolicy) (reason : ReasonCode) : Decision :=
  if bool_decide (reason = ReasonBudgetUnavailable) then DecisionQueue
  else match rs_GOVAR (rpol_Spec routing) with
       | Some g =>
         if isCalibrationReason reason then
           let fallback := dp_Fallback (grs_Drift g) in
           if String.eqb fallback "queue" then DecisionQueue
           else if String.eqb fallback "reject" then DecisionReject
           else if String.eqb fallback "require_approval" then DecisionRequireApproval
           else DecisionAbstain
         else DecisionAbstain
       | None => DecisionAbstain
       end.

(** [evaluatedAt.Sub(end) > time.Duration(maxAge) * time.Second], whose product wraps. *)
Definition older_than (evaluatedAt end_ : Time) (maxAgeSeconds : Z) : bool :=
  mul64 maxAgeSeconds Second <? time_sub evaluatedAt end_.

(** An observation instant that is missing or in the future, or a window that ended
    too long ago. *)
Definition stale_evidence (observedAt windowEnd evaluatedAt : Time) (maxAgeSeconds : Z) : bool :=
  IsZero observedAt || IsZero windowEnd || After observedAt evaluatedAt || After windowEnd evaluatedAt
  || older_than evaluatedAt windowEnd maxAgeSeconds.

Section admission.
Context `{Crypto}.

Definition CanonicalCandidateCapPathAdapterRegime (c : Candidate) : result string :=
  let r := cand_RouteSnapshot c in
  let '(requestParameter, ok) := OutputCapRequestParameter (cand_ProviderType c) (route_PathMode r) in
  if negb ok then Err "candidate provider/path has no supported output-cap request parameter"
  else CanonicalCapPathAdapterRegime (cand_CapEvidenceDigest c) (route_ProviderUID r) (route_ProviderGeneration r)
         (route_ProviderDeployment r) (route_PathMode r) CurrentAdapterVersion requestParameter
         (cand_VerifiedOutputCapTokens c).

Definition result_is (r : result string) (s : string) : bool :=
  match r with Ok v => String.eqb s v | Err _ => false end.

Definition validateCalibrationEvidence (routing : AIRoutingPolicy) (candidate : Candidate) (evaluatedAt : Time)
    (evidenceSource : string) : ReasonCode :=
  match rs_GOVAR (rpol_Spec routing), rst_GOVAR (rpol_Status routing) with
  | Some govar, Some gstatus =>
    match grs_Calibration govar, grst_Calibration gstatus, grst_Drift gstatus with
    | Some spec, Some status, Some drift =>
      let policy := grs_Drift govar in
      if negb (String.eqb (cs_EvidenceSource status) evidenceSource) || negb (is_sha256 (cs_PublicationSHA256 status))
         || negb (String.eqb (cs_CalibrationMethod status) "split_conformal_order_statistic_v1")
         || negb (String.eqb (cs_CoverageBoundKind status) ExactMarginalBoundKind)
         || negb (is_sha256 (cs_FeatureRegimeSHA256 status)) || negb (is_sha256 (cs_SplitOpportunityRegimeSHA256 status))
         || negb (is_sha256 (cs_CohortRegimeSHA256 status))
      then ReasonCalibrationMismatch
      else if negb (rst_ObservedGeneration (rpol_Status routing) =? om_Generation (rpol_Meta routing))
      then ReasonCalibrationGeneration
      else if negb (String.eqb (cs_ArtifactRef status) (cp_ArtifactRef spec))
              || negb (String.eqb (cs_Version status) (cp_Version spec))
              || negb (String.eqb (cs_ArtifactSHA256 status) (cp_ArtifactSHA256 spec))
              || negb (String.eqb (cs_CalibrationInputSHA256 status) (cp_CalibrationInputSHA256 spec))
              || negb (String.eqb (cs_FeatureSchemaVersion status) (cp_FeatureSchemaVersion spec))
              || negb (String.eqb (cs_PriceRegimeSHA256 status) (cp_PriceRegimeSHA256 spec))
              || negb (String.eqb (cs_CapRegimeSHA256 status) (cp_CapRegimeSHA256 spec))
              || negb (String.eqb (cs_ProducerSoftwareSHA256 status) (cp_ProducerSoftwareSHA256 spec))
              || negb (cs_CoverageTargetPPB status =? cp_CoverageTargetPPB spec)
      then ReasonCalibrationMismatch
      else
        let priceRegime := CanonicalPriceRegime (snap_SnapshotSHA256 (cand_PricingSnapshot candidate))
          (route_ProviderUID (cand_RouteSnapshot candidate)) (route_ProviderDeployment (cand_RouteSnapshot candidate)) in
        let capRegime := CanonicalCandidateCapPathAdapterRegime candidate in
        if negb (result_is priceRegime (cs_PriceRegimeSHA256 status)) || negb (result_is capRegime (cs_CapRegimeSHA256 status))
        then ReasonCalibrationRegime
        else if negb (cs_Valid status) || (cs_Support status <? cp_MinimumSupport spec)
                || (ds_Support drift <? dp_RevalidationMinimumSupport policy)
        then ReasonCalibrationSupport
        else if negb (cs_CoverageBoundNumerator status =? cs_ConformalRank status)
                || negb (cs_CoverageBoundDenominator status =? cs_Support status +i 1)
                || (cs_CoverageIntervalLowerPPB status <? cs_CoverageTargetPPB status)
                || (PPB <? cs_CoverageIntervalUpperPPB status) || negb (cs_CoverageConfidencePPB status =? PPB)
        then ReasonCalibrationMismatch
        else if stale_evidence (cs_ObservedAt status) (cs_CalibrationWindowEnd status) evaluatedAt (cp_MaxAgeSeconds spec)
        then ReasonCalibrationStale
        else if negb (String.eqb (ds_Detector drift) (dp_Detector policy))
                || negb (ds_ThresholdPPB drift =? dp_ThresholdPPB policy)
        then ReasonCalibrationMismatch
        else if negb (String.eqb (ds_Detector drift) "coverage-gap") then ReasonCalibrationUnsupported
        else if stale_evidence (ds_ObservedAt drift) (ds_MonitoringWindowEnd drift) evaluatedAt (cp_MaxAgeSeconds spec)
        then ReasonCalibrationStale
        else if ds_Detected drift || ds_ConservativeMode drift then ReasonCalibrationDrift
        else ReasonNone
    | _, _, _ => ReasonCalibrationMissing
    end
  | _, _ => ReasonCalibrationMissing
  end.

(** The result tuple of [reservationTokens]. *)
Record reservation_plan : Type := Build_reservation_plan {
  pl_Tokens : Z;
  pl_Method : string;
  pl_Fallback : ReasonCode;
  pl_Reason : ReasonCode
}.

Definition strict_plan (capTokens : Z) (candidate : Candidate) (fallback : ReasonCode) : reservation_plan :=
  if negb (cand_VerifiedOutputCap candidate) || (cand_VerifiedOutputCapTokens candidate <? capTokens)
  then Build_reservation_plan 0 "strict_provider_cap" fallback ReasonStrictCapUnverified
  else Build_reservation_plan capTokens "strict_provider_cap" fallback ReasonNone.

(** [reservationTokens]; the allocated risk it returns is always zero. [None] is a
    nil dereference. *)
Definition reservationTokens (req : AdmitRequest) (routing : AIRoutingPolicy) (candidate : Candidate)
    (evaluatedAt : Time) (evidenceSource : string) : option reservation_plan :=
  let method := typedReservationMethod routing in
  let capTokens := areq_MaxOutputTokens req in
  let refuse reason := Some (Build_reservation_plan 0 method ReasonNone reason) in
  let strict fallback := Some (strict_plan capTokens candidate fallback) in
  let clamp v := if capTokens <? v then capTokens else v in
  let grant v := Some (Build_reservation_plan (clamp v) method ReasonNone ReasonNone) in
  let policy := option_map grs_Reservation (rs_GOVAR (rpol_Spec routing)) in
  if capTokens <=? 0 then refuse ReasonInsufficientEvidence
  else if negb (areq_InputTokensExact req) && negb (String.eqb method "strict_provider_cap")
  then strict ReasonInputBoundFallback
  else if String.eqb method "strict_provider_cap" then strict ReasonNone
  else if String.eqb method "mean" then
    match policy ≫= rp_MeanOutputTokens with
    | None => refuse ReasonInsufficientCalibration
    | Some mean => if mean <? 0 then refuse ReasonInsufficientCalibration else grant mean
    end
  else if String.eqb method "fixed_margin" then
    match policy ≫= rp_MeanOutputTokens, policy ≫= rp_MarginOutputTokens with
    | Some mean, Some margin =>
      if (mean <? 0) || (margin <? 0) || (capTokens -i margin <? mean) then refuse ReasonInsufficientCalibration
      else grant (mean +i margin)
    | _, _ => refuse ReasonInsufficientCalibration
    end
  else if String.eqb method "fixed_quantile" then
    match policy ≫= rp_FixedQuantileOutputTokens with
    | None => refuse ReasonInsufficientCalibration
    | Some q => if q <? 0 then refuse ReasonInsufficientCalibration else grant q
    end
  else if String.eqb method "adaptive_quantile" || String.eqb method "govar_fixed_cohort" then
    let invalid := validateCalibrationEvidence routing candidate evaluatedAt evidenceSource in
    if is_reason invalid then
      match rs_GOVAR (rpol_Spec routing) with
      | Some g => if String.eqb (dp_Fallback (grs_Drift g)) "strict_provider_cap"
                  then strict invalid
                  else Some (Build_reservation_plan 0 method invalid invalid)
      | None => Some (Build_reservation_plan 0 method invalid invalid)
      end
    else
      match rst_GOVAR (rpol_Status routing) ≫= grst_Calibration with
      | None => None
      | Some status =>
        let adaptive := cs_AdaptiveOutputTokens status in
        if String.eqb method "adaptive_quantile" then grant adaptive
        else if String.eqb (areq_CohortID req) "" || (areq_CohortIndex req <? 0)
        then refuse ReasonInsufficientCalibration
        else grant adaptive
      end
  else refuse ReasonReservationMethodUnknown.

(** ** The choice of a candidate *)

(** Why a candidate is skipped before any reservation is computed. *)
Definition skip_reason (req : AdmitRequest) (routing : AIRoutingPolicy) (candidate : Candidate) : option ReasonCode :=
  let g := rs_Guardrails (rpol_Spec routing) in
  if negb (cand_Feasible candidate) then Some (cand_InfeasibleReason candidate)
  else if float_lt (cand_QualityScore candidate) (gr_MinQualityScore g) then Some ReasonQualityBelowMinimum
  else if ((0 <? gr_MaxLatencyMillis g) || EqualFold (rs_Objective (rpol_Spec routing)) "latency")
          && IsZero (cand_LatencyObservedAt candidate)
  then Some ReasonLatencyUnavailable
  else if (0 <? gr_MaxLatencyMillis g) && (gr_MaxLatencyMillis g <? cand_LatencyMillis candidate)
  then Some ReasonLatencyExceeded
  else if (cand_ContextWindow candidate <=? 0)
          || (areq_InputTokensExact req
              && (cand_ContextWindow candidate <? areq_InputTokens req +i areq_MaxOutputTokens req))
          || (negb (areq_InputTokensExact req) && (cand_ContextWindow candidate <=? areq_MaxOutputTokens req))
  then Some ReasonContextLimit
  else None.

Definition charge_context (req : AdmitRequest) (inputBound outputTokens : Z) : RequestChargeContext :=
  Build_RequestChargeContext inputBound outputTokens (areq_MaxToolCalls req) (areq_MaxMediaUnits req)
    (areq_TimeoutSeconds req) (areq_MaxRetryAttempts req) (areq_CancellationPossible req) (areq_ChargeBounds req).

(** The input bound and the effective method of a granted plan. *)
Definition input_bound (req : AdmitRequest) (candidate : Candidate) (plan : reservation_plan) : Z * string :=
  if HasPrefix (pl_Method plan) "strict_" && negb (areq_InputTokensExact req)
  then (cand_ContextWindow candidate -i pl_Tokens plan, "strict_context_window_bound"%string)
  else (areq_InputTokens req, pl_Method plan).

Record choose_state : Type := Build_choose_state {
  chs_choices : list admissionChoice;
  chs_lastReason : ReasonCode;
  chs_feasibleBeforeBudget : bool
}.

(** [None] is a panic. *)
Definition consider (req : AdmitRequest) (routing : AIRoutingPolicy) (available : Z) (evaluatedAt : Time)
    (evidenceSource : string) (st : choose_state) (candidate : Candidate) : option (result choose_state) :=
  match skip_reason req routing candidate with
  | Some reason =>
    Some (Ok (Build_choose_state (chs_choices st) (if is_reason reason then reason else chs_lastReason st)
                (chs_feasibleBeforeBudget st)))
  | None =>
    plan ← reservationTokens req routing candidate evaluatedAt evidenceSource;
    Some (
      if is_reason (pl_Reason plan)
      then Ok (Build_choose_state (chs_choices st) (pl_Reason plan) (chs_feasibleBeforeBudget st))
      else
        let '(inputBound, method) := input_bound req candidate plan in
        let? components := ReserveComponents (cand_PricingSnapshot candidate)
                             (charge_context req inputBound (pl_Tokens plan)) evaluatedAt in
        let? reserved := SumComponents components in
        if available <? reserved then Ok (Build_choose_state (chs_choices st) (chs_lastReason st) true)
        else Ok (Build_choose_state
                   (chs_choices st ++ [Build_admissionChoice candidate reserved method 0 inputBound components
                                         (pl_Fallback plan)])
                   (chs_lastReason st) true))
  end.

Fixpoint consider_all (req : AdmitRequest) (routing : AIRoutingPolicy) (available : Z) (evaluatedAt : Time)
    (evidenceSource : string) (st : choose_state) (candidates : list Candidate) : option (result choose_state) :=
  match candidates with
  | [] => Some (Ok st)
  | candidate :: rest =>
    considered ← consider req routing available evaluatedAt evidenceSource st candidate;
    match considered with
    | Ok st => consider_all req routing available evaluatedAt evidenceSource st rest
    | Err m => Some (Err m)
    end
  end.

(** The comparison of two choices, after that of their qualities. *)
Definition tie_less (objective : string) (i j : admissionChoice) : bool :=
  let ci := ch_Candidate i in
  let cj := ch_Candidate j in
  if EqualFold objective "latency" && negb (cand_LatencyMillis ci =? cand_LatencyMillis cj)
  then cand_LatencyMillis ci <? cand_LatencyMillis cj
  else if negb (ch_Reservation i =? ch_Reservation j) then ch_Reservation i <? ch_Reservation j
  else string_ltb (cand_ModelRef ci) (cand_ModelRef cj).
Definition choice_less (objective : string) (i j : admissionChoice) : bool :=
  let qi := cand_QualityScore (ch_Candidate i) in
  let qj := cand_QualityScore (ch_Candidate j) in
  if EqualFold objective "quality" && negb (float_eq qi qj) then float_lt qj qi else tie_less objective i j.

(** A choice, or the reason why there is none; [Err] for a pricing error, [None] for
    a panic. *)
Definition chooseAdmissionWithEvidenceSource (req : AdmitRequest) (routing : AIRoutingPolicy)
    (candidates : list Candidate) (available : Z) (evaluatedAt : Time) (evidenceSource : string)
    : option (result (admissionChoice + ReasonCode)) :=
  considered ← consider_all req routing available evaluatedAt evidenceSource
               (Build_choose_state [] ReasonNoCandidate false) candidates;
  Some (
    let? st := considered in
    match sort_slice (choice_less (rs_Objective (rpol_Spec routing))) (chs_choices st) with
    | best :: _ => Ok (inl best)
    | [] => Ok (inr (if chs_feasibleBeforeBudget st then ReasonBudgetUnavailable else chs_lastReason st))
    end).
End admission.

(** ** Reservation plans *)

(** What a granted reservation promises. *)
Record plan_bounded (req : AdmitRequest) (candidate : Candidate) (plan : reservation_plan) : Prop := {
  pb_tokens : pl_Tokens plan <= areq_MaxOutputTokens req;
  pb_positive : 0 < areq_MaxOutputTokens req;
  pb_strict : pl_Method plan = "strict_provider_cap" ->
    pl_Tokens plan = areq_MaxOutputTokens req /\ cand_VerifiedOutputCap candidate = true /\
    areq_MaxOutputTokens req <= cand_VerifiedOutputCapTokens candidate;
  pb_fallback : pl_Fallback plan <> ReasonNone -> pl_Method plan = "strict_provider_cap"
}.

Section plans.
Context `{Crypto}.

Lemma strict_plan_bounded req candidate fallback :
  0 < areq_MaxOutputTokens req ->
  let plan := strict_plan (areq_MaxOutputTokens req) candidate fallback in
  pl_Reason plan = ReasonNone -> plan_bounded req candidate plan.
Proof.
  intros Hpos. unfold strict_plan. cbn zeta. destruct (cand_VerifiedOutputCap candidate) eqn:Hv; [|discriminate].
  cbn [negb orb].
  destruct (Z.ltb_spec (cand_VerifiedOutputCapTokens candidate) (areq_MaxOutputTokens req)); [discriminate|].
  intros _. split; cbn; auto; lia.
Qed.

Lemma grant_bounded req candidate method v :
  0 < areq_MaxOutputTokens req -> method <> "strict_provider_cap" ->
  plan_bounded req candidate
    (Build_reservation_plan (if areq_MaxOutputTokens req <? v then areq_MaxOutputTokens req else v) method
       ReasonNone ReasonNone).
Proof.
  intros Hpos Hm. split; cbn; try done. destruct (Z.ltb_spec (areq_MaxOutputTokens req) v); lia.
Qed.

Lemma calibration_present routing candidate at_ src :
  is_reason (validateCalibrationEvidence routing candidate at_ src) = false ->
  exists status, (rst_GOVAR (rpol_Status routing) ≫= grst_Calibration) = Some status.
Proof.
  unfold validateCalibrationEvidence. destruct (rs_GOVAR (rpol_Spec routing)) as [g|]; [|done].
  destruct (rst_GOVAR (rpol_Status routing)) as [s|]; [|done]. cbn [mbind option_bind].
  destruct (grs_Calibration g), (grst_Calibration s) as [status|]; try done. eauto.
Qed.

(** The dereference of the calibration is guarded by the evidence. *)
Lemma reservationTokens_total req routing candidate at_ src : is_Some (reservationTokens req routing candidate at_ src).
Proof.
  unfold reservationTokens. cbn zeta. destruct (is_reason (validateCalibrationEvidence routing candidate at_ src)) eqn:E.
  2: destruct (calibration_present _ _ _ _ E) as [status ->].
  all: repeat match goal with |- is_Some (Some _) => by eexists | |- is_Some (match ?x with _ => _ end) => destruct x end.
Qed.

(** C19: a granted reservation never exceeds the request's own output bound, and a
    conservative fallback (uncertain input bound or unusable calibration) is
    granted only for the whole requested bound under a verified provider cap at
    least as large. *)
Theorem reservation_plan_bounded req routing candidate at_ src plan :
  reservationTokens req routing candidate at_ src = Some plan -> pl_Reason plan = ReasonNone -> plan_bounded req candidate plan.
Proof.
  unfold reservationTokens. cbn zeta.
  destruct (areq_MaxOutputTokens req <=? 0) eqn:Hcap; [by intros [= <-]|].
  assert (Hpos : 0 < areq_MaxOutputTokens req) by lia.
  destruct (negb (areq_InputTokensExact req) && _); [intros [= <-]; by apply strict_plan_bounded|].
  destruct (String.eqb_spec (typedReservationMethod routing) "strict_provider_cap") as [_|Hm];
    [intros [= <-]; by apply strict_plan_bounded|].
  set (policy := option_map grs_Reservation (rs_GOVAR (rpol_Spec routing))).
  repeat match goal with
  | |- context [match ?x with _ => _ end] =>
    lazymatch x with areq_MaxOutputTokens req <? _ => fail | _ => destruct x eqn:? end
  end; try discriminate; intros [= <-];
  first [ by (intros _; apply grant_bounded) | by apply strict_plan_bounded
        | intros Hr; cbn [pl_Reason] in Hr; try discriminate Hr ];
  match goal with Hi : is_reason ?r = true, Hr : ?r = ReasonNone |- _ => rewrite Hr in Hi; discriminate Hi end.
Qed.
End plans.

(** ** The choice *)

(** A quality that can be compared; every other value is ordered. *)
Definition comparable (objective : string) (c : admissionChoice) : Prop :=
  EqualFold objective "quality" = true -> cand_QualityScore (ch_Candidate c) <> S754_nan.

Lemma tie_less_asym objective i j : tie_less objective i j = true -> tie_less objective j i = false.
Proof.
  unfold tie_less. rewrite (Z.eqb_sym (cand_LatencyMillis (ch_Candidate j))), (Z.eqb_sym (ch_Reservation j)).
  destruct (EqualFold objective "latency" && _); [lia|].
  destruct (Z.eqb_spec (ch_Reservation i) (ch_Reservation j)); cbn [negb]; [apply string_ltb_asym | lia].
Qed.
Lemma tie_less_negtrans objective i j k :
  tie_less objective i j = false -> tie_less objective j k = false -> tie_less objective i k = false.
Proof.
  unfold tie_less. destruct (EqualFold objective "latency"); cbn [andb];
    destruct (Z.eqb_spec (cand_LatencyMillis (ch_Candidate i)) (cand_LatencyMillis (ch_Candidate j))),
             (Z.eqb_spec (cand_LatencyMillis (ch_Candidate j)) (cand_LatencyMillis (ch_Candidate k))),
             (Z.eqb_spec (cand_LatencyMillis (ch_Candidate i)) (cand_LatencyMillis (ch_Candidate k)));
    cbn [negb]; try lia;
    destruct (Z.eqb_spec (ch_Reservation i) (ch_Reservation j)),
             (Z.eqb_spec (ch_Reservation j) (ch_Reservation k)),
             (Z.eqb_spec (ch_Reservation i) (ch_Reservation k));
    cbn [negb]; try lia; apply string_ltb_negtrans.
Qed.

(** Under the quality objective the keys of the qualities decide first. *)
Definition quality_key (c : admissionChoice) : Z * Z * Z := Float.key (cand_QualityScore (ch_Candidate c)).
Lemma choice_less_key objective i j : comparable objective i -> comparable objective j ->
  choice_less objective i j = match (if EqualFold objective "quality" then Float.key_compare (quality_key j) (quality_key i) else Eq) with
                              | Lt => true | Gt => false | Eq => tie_less objective i j end.
Proof.
  intros Hi Hj. unfold choice_less, comparable, float_eq, float_lt, quality_key in *. destruct (EqualFold objective "quality"); [|done].
  cbn [andb]. unfold SFeqb, SFltb. rewrite !Float.compare_key by auto. rewrite (Float.key_compare_antisym (Float.key (cand_QualityScore (ch_Candidate j)))).
  by destruct (Float.key_compare (Float.key (cand_QualityScore (ch_Candidate j))) _).
Qed.
Lemma choice_less_asym objective i j : comparable objective i -> comparable objective j ->
  choice_less objective i j = true -> choice_less objective j i = false.
Proof.
  intros Hi Hj. rewrite !choice_less_key by done. destruct (EqualFold objective "quality"); [|apply tie_less_asym].
  rewrite (Float.key_compare_antisym (quality_key j) (quality_key i)).
  destruct (Float.key_compare (quality_key j) (quality_key i)); cbn [CompOpp]; [apply tie_less_asym | done..].
Qed.
Lemma choice_less_negtrans objective i j k : comparable objective i -> comparable objective j -> comparable objective k ->
  choice_less objective i j = false -> choice_less objective j k = false -> choice_less objective i k = false.
Proof.
  intros Hi Hj Hk. rewrite !choice_less_key by done. destruct (EqualFold objective "quality"); [|apply tie_less_negtrans].
  pose proof (Float.key_compare_trans (quality_key k) (quality_key j) (quality_key i)) as Ht.
  destruct (Float.key_compare (quality_key j) (quality_key i)), (Float.key_compare (quality_key k) (quality_key j)); try done;
    rewrite Ht; try done; apply tie_less_negtrans.
Qed.

Section choice.
Context `{Crypto}.
Context (req : AdmitRequest) (routing : AIRoutingPolicy) (available : Z) (at_ : Time) (src : string).

(** The choice a candidate offers, if it can be admitted within the budget. *)
Definition offer (candidate : Candidate) : option admissionChoice :=
  match consider req routing available at_ src (Build_choose_state [] ReasonNoCandidate false) candidate with
  | Some (Ok st) => head (chs_choices st)
  | _ => None
  end.

(** What an offered choice is: its candidate passed every guardrail, and it
    reserves the sum of the components priced for it, within the budget. *)
Record admissible (candidates : list Candidate) (c : admissionChoice) : Prop := {
  ad_candidate : ch_Candidate c ∈ candidates;
  ad_guardrails : skip_reason req routing (ch_Candidate c) = None;
  ad_plan : exists plan, reservationTokens req routing (ch_Candidate c) at_ src = Some plan /\
    pl_Reason plan = ReasonNone /\ ch_FallbackReason c = pl_Fallback plan /\
    (ch_InputTokensBound c, ch_Method c) = input_bound req (ch_Candidate c) plan /\
    ReserveComponents (cand_PricingSnapshot (ch_Candidate c))
      (charge_context req (ch_InputTokensBound c) (pl_Tokens plan)) at_ = Ok (ch_Components c);
  ad_sum : SumComponents (ch_Components c) = Ok (ch_Reservation c);
  ad_fits : ch_Reservation c <= available;
  ad_nonneg : 0 <= ch_Reservation c
}.

Lemma consider_spec st st' candidate :
  consider req routing available at_ src st candidate = Some (Ok st') ->
  chs_choices st' = chs_choices st ++ option_list (offer candidate) /\
  (forall c, offer candidate = Some c -> ch_Candidate c = candidate /\ admissible [candidate] c).
Proof.
  unfold offer, consider. destruct (skip_reason req routing candidate) eqn:Hskip.
  { intros [= <-]. cbn. by rewrite app_nil_r. }
  destruct (reservationTokens _ _ _ _ _) as [plan|] eqn:Hplan; [|discriminate]. cbn [mbind option_bind].
  destruct (is_reason (pl_Reason _)) eqn:Hreason.
  { intros [= <-]. cbn. by rewrite app_nil_r. }
  destruct (input_bound req candidate _) as [bound method] eqn:Hbound.
  destruct (ReserveComponents _ _ _) as [components|] eqn:Hcomp; [|discriminate]. cbn [res_bind].
  destruct (SumComponents components) as [reserved|] eqn:Hsum; [|discriminate]. cbn [res_bind].
  destruct (Z.ltb_spec available reserved) as [Hlt|Hle].
  { intros [= <-]. cbn. by rewrite app_nil_r. }
  intros [= <-]. cbn [chs_choices app head option_list]. split; [done|].
  intros c E. injection E as <-. split; [done|]. split; cbn [ch_Candidate ch_Reservation ch_Method ch_Components
    ch_InputTokensBound ch_FallbackReason]; [by left|done| |done|done|].
  - exists plan. repeat split; [done| |by rewrite Hbound|done].
    unfold is_reason in Hreason. by case_bool_decide.
  - unfold ReserveComponents in Hcomp. destruct (ValidateSnapshot _ _ _); [discriminate|].
    apply res_bind_ok in Hcomp as (d & _ & Hc). apply reserve_rows_spec in Hc as [_ Hpriced].
    unfold SumComponents in Hsum. apply sum_micros_ok in Hsum as (Hall & -> & _);
      [apply zsum_nonneg in Hall; lia | unfold max_int64; lia |].
    apply Forall_map. eapply Forall_impl; [exact Hpriced|]. by intros c (_ & _ & ?)%ceilingProduct_spec.
Qed.

Lemma consider_all_spec candidates : forall st st',
  consider_all req routing available at_ src st candidates = Some (Ok st') ->
  chs_choices st' = chs_choices st ++ omap offer candidates /\
  Forall (fun candidate => forall c, offer candidate = Some c -> ch_Candidate c = candidate /\ admissible [candidate] c)
    candidates.
Proof.
  induction candidates as [|candidate candidates IH]; intros st st'; cbn [consider_all omap].
  { intros [= <-]. by rewrite app_nil_r. }
  destruct (consider _ _ _ _ _ st candidate) as [[st1|]|] eqn:Hc; [|discriminate..]. cbn [mbind option_bind].
  apply consider_spec in Hc as (H1 & H2). intros (H3 & H4)%IH.
  rewrite H3, H1, <- app_assoc. split; [|by constructor].
  f_equal. cbn. by destruct (offer candidate).
Qed.

Lemma offer_admissible candidates c :
  Forall (fun candidate => forall c, offer candidate = Some c -> ch_Candidate c = candidate /\ admissible [candidate] c)
    candidates ->
  c ∈ omap offer candidates -> admissible candidates c.
Proof.
  intros Hall (candidate & Hin & Ho)%list_elem_of_omap. rewrite Forall_forall in Hall.
  destruct (Hall _ Hin _ Ho) as [<- [_ H2 H3 H4 H5 H6]]. by split.
Qed.

Lemma choose_considered candidates out :
  chooseAdmissionWithEvidenceSource req routing candidates available at_ src = Some (Ok out) ->
  exists st, consider_all req routing available at_ src (Build_choose_state [] ReasonNoCandidate false) candidates = Some (Ok st) /\
    match sort_slice (choice_less (rs_Objective (rpol_Spec routing))) (chs_choices st) with
    | best :: _ => inl best
    | [] => inr (if chs_feasibleBeforeBudget st then ReasonBudgetUnavailable else chs_lastReason st)
    end = out.
Proof.
  unfold chooseAdmissionWithEvidenceSource. destruct (consider_all _ _ _ _ _ _ _) as [[st|]|]; [|discriminate..].
  cbn [mbind option_bind res_bind]. intros E. exists st. split; [done|]. by destruct (sort_slice _ _); injection E as <-.
Qed.

(** No candidate makes the choice panic. *)
Lemma consider_all_total candidates : forall st, is_Some (consider_all req routing available at_ src st candidates).
Proof.
  induction candidates as [|candidate candidates IH]; intros st; cbn [consider_all]; [by eexists|].
  assert (Hc : is_Some (consider req routing available at_ src st candidate)).
  { unfold consider. destruct (skip_reason _ _ _); [by eexists|].
    destruct (reservationTokens_total req routing candidate at_ src) as [plan ->]. by eexists. }
  destruct Hc as [[st1|m] ->]; cbn [mbind option_bind]; [apply IH | by eexists].
Qed.
Lemma choose_total candidates : is_Some (chooseAdmissionWithEvidenceSource req routing candidates available at_ src).
Proof.
  unfold chooseAdmissionWithEvidenceSource. destruct (consider_all_total candidates (Build_choose_state [] ReasonNoCandidate false)) as [r ->].
  by eexists.
Qed.

Lemma choice_admissible candidates best :
  chooseAdmissionWithEvidenceSource req routing candidates available at_ src = Some (Ok (inl best)) ->
  admissible candidates best.
Proof.
  intros (st & Hst & Hbest)%choose_considered.
  destruct (consider_all_spec _ _ _ Hst) as [Hch Hall]. cbn [chs_choices app] in Hch.
  destruct (sort_slice _ (chs_choices st)) as [|b sorted] eqn:Hsort; [discriminate|]. injection Hbest as ->.
  apply offer_admissible; [done|]. rewrite <- Hch.
  rewrite <- (sort_slice_perm (choice_less (rs_Objective (rpol_Spec routing))) (chs_choices st)), Hsort. by left.
Qed.

(** What the objective prefers: the first difference of the quality (under the quality
    objective), of the latency (under the latency objective), of the reservation, of
    the model's name decides. *)
Definition preferred (objective : string) (c best : admissionChoice) : Prop :=
  let quality := EqualFold objective "quality" in
  let latency := EqualFold objective "latency" in
  let q c := cand_QualityScore (ch_Candidate c) in
  let l c := cand_LatencyMillis (ch_Candidate c) in
  (quality = true /\ SFltb (q c) (q best) = true) \/
  ((quality = true -> SFeqb (q c) (q best) = true) /\
   ((latency = true /\ l best < l c) \/
    ((latency = true -> l best = l c) /\
     (ch_Reservation best < ch_Reservation c \/
      (ch_Reservation best = ch_Reservation c /\ string_ltb (cand_ModelRef (ch_Candidate c)) (cand_ModelRef (ch_Candidate best)) = false))))).

Lemma not_less_preferred objective c best : comparable objective c -> comparable objective best ->
  choice_less objective c best = false -> preferred objective c best.
Proof.
  intros Hc Hb. unfold choice_less, preferred, comparable, float_eq, float_lt in *. cbv zeta. intros Hl.
  assert (Htie : tie_less objective c best = false ->
    (EqualFold objective "latency" = true /\ cand_LatencyMillis (ch_Candidate best) < cand_LatencyMillis (ch_Candidate c)) \/
    ((EqualFold objective "latency" = true -> cand_LatencyMillis (ch_Candidate best) = cand_LatencyMillis (ch_Candidate c)) /\
     (ch_Reservation best < ch_Reservation c \/
      (ch_Reservation best = ch_Reservation c /\ string_ltb (cand_ModelRef (ch_Candidate c)) (cand_ModelRef (ch_Candidate best)) = false)))).
  { unfold tie_less. intros Ht. destruct (EqualFold objective "latency"); cbn [andb] in Ht;
      destruct (Z.eqb_spec (cand_LatencyMillis (ch_Candidate c)) (cand_LatencyMillis (ch_Candidate best))); cbn [negb] in Ht;
      try (left; split; [done | lia]); right; (split; [done || lia|]);
      destruct (Z.eqb_spec (ch_Reservation c) (ch_Reservation best)); cbn [negb] in Ht; (left; lia) || (right; split; [lia | done]). }
  destruct (EqualFold objective "quality"); cbn [andb] in Hl; [|right; split; [done | by apply Htie]].
  specialize (Hc eq_refl). specialize (Hb eq_refl). unfold SFltb, SFeqb in *. rewrite (Float.compare_key _ _ Hb Hc) in Hl. rewrite !(Float.compare_key _ _ Hc Hb) in *.
  rewrite (Float.key_compare_antisym (Float.key (cand_QualityScore (ch_Candidate c)))) in Hl.
  destruct (Float.key_compare (Float.key (cand_QualityScore (ch_Candidate c))) (Float.key (cand_QualityScore (ch_Candidate best))));
    cbn [CompOpp negb] in *; [right; split; [done | by apply Htie] | by left | done].
Qed.

(** C18: an admission decision is admissible and best: the chosen candidate is one
    of the given ones, passed every guardrail, and its reservation is the sum of
    its components and fits the available budget; and it is preferred, under the
    objective of the policy, to every other candidate that could be admitted: by its
    quality under the quality objective (where no quality is NaN), by its latency
    under the latency objective, then by its reservation, then by its name. *)
Theorem chosen_admission_is_best candidates best :
  chooseAdmissionWithEvidenceSource req routing candidates available at_ src = Some (Ok (inl best)) ->
  admissible candidates best /\
  ((EqualFold (rs_Objective (rpol_Spec routing)) "quality" = true -> Forall (fun c => cand_QualityScore c <> S754_nan) candidates) ->
   forall c, c ∈ omap offer candidates -> preferred (rs_Objective (rpol_Spec routing)) c best).
Proof.
  intros Hchoose. pose proof (choice_admissible _ _ Hchoose) as Hadm. split; [done|].
  apply choose_considered in Hchoose as (st & Hst & Hbest).
  destruct (consider_all_spec _ _ _ Hst) as [Hch Hall]. cbn [chs_choices app] in Hch.
  destruct (sort_slice _ (chs_choices st)) as [|b sorted] eqn:Hsort; [discriminate|]. injection Hbest as ->.
  set (objective := rs_Objective (rpol_Spec routing)) in *. set (less := choice_less objective) in *.
  assert (Hperm : best :: sorted ≡ₚ omap offer candidates) by (by rewrite <- Hsort, <- Hch, sort_slice_perm).
  intros Hq c Hc.
  assert (Hcmp : forall x, x ∈ omap offer candidates -> comparable objective x).
  { intros x Hx E. specialize (Hq E). rewrite Forall_forall in Hq. apply Hq. by apply (ad_candidate _ _ (offer_admissible _ _ Hall Hx)). }
  apply not_less_preferred; [by apply Hcmp | apply Hcmp; rewrite <- Hperm; by left|]. fold less.
  assert (Hs : StronglySorted (fun a b => less b a = false) (best :: sorted)).
  { rewrite <- Hsort. apply (sort_slice_sorted less (comparable objective)).
    - intros x y z Hx Hy Hz. by apply choice_less_negtrans.
    - intros x y Hx Hy. by apply choice_less_asym.
    - rewrite Hch. apply Forall_forall. exact Hcmp. }
  rewrite <- Hperm in Hc. apply elem_of_cons in Hc as [->|Hc].
  - destruct (less best best) eqn:E; [|done]. rewrite <- E. apply choice_less_asym; [apply Hcmp; rewrite <- Hperm; by left..|done].
  - inversion Hs as [|? ? _ Hhd]; subst. rewrite Forall_forall in Hhd. auto.
Qed.

(** The candidate passed the guardrails and was granted a reservation plan. *)
Definition passes (candidate : Candidate) : bool :=
  bool_decide (skip_reason req routing candidate = None)
  && match reservationTokens req routing candidate at_ src with Some plan => negb (is_reason (pl_Reason plan)) | None => false end.

Lemma consider_feasible st st' candidate :
  consider req routing available at_ src st candidate = Some (Ok st') ->
  chs_feasibleBeforeBudget st' = chs_feasibleBeforeBudget st || passes candidate.
Proof.
  unfold consider, passes. destruct (skip_reason req routing candidate) eqn:Hskip.
  { intros [= <-]. cbn. by rewrite orb_false_r. }
  rewrite bool_decide_eq_true_2 by done. destruct (reservationTokens _ _ _ _ _) as [plan|]; [|discriminate].
  cbn [mbind option_bind]. destruct (is_reason (pl_Reason _)) eqn:Hreason.
  { intros [= <-]. cbn. by rewrite orb_false_r. }
  destruct (input_bound req candidate _) as [bound method]. intros Hst%Some_inj. revert Hst.
  intros (components & _ & (reserved & _ & Hst)%res_bind_ok)%res_bind_ok. cbn. rewrite orb_true_r.
  destruct (available <? reserved) in Hst; by injection Hst as <-.
Qed.

Lemma consider_all_feasible candidates : forall st st',
  consider_all req routing available at_ src st candidates = Some (Ok st') ->
  chs_feasibleBeforeBudget st' = chs_feasibleBeforeBudget st || existsb passes candidates.
Proof.
  induction candidates as [|candidate candidates IH]; intros st st'; cbn [consider_all existsb].
  { intros [= <-]. by rewrite orb_false_r. }
  destruct (consider _ _ _ _ _ st candidate) as [[st1|]|] eqn:Hc; [|discriminate..]. cbn [mbind option_bind].
  apply consider_feasible in Hc. intros H2%IH. by rewrite H2, Hc, orb_assoc.
Qed.

(** a request is refused only when no candidate can be admitted; the budget is
    the stated reason exactly when some candidate passed the guardrails and was
    granted a plan, whose reservation then exceeds what is available. *)
Theorem refusal_means_no_offer candidates reason :
  chooseAdmissionWithEvidenceSource req routing candidates available at_ src = Some (Ok (inr reason)) ->
  omap offer candidates = [] /\
  if existsb passes candidates then reason = ReasonBudgetUnavailable
  else Forall (fun c => passes c = false) candidates.
Proof.
  intros (st & Hst & Hbest)%choose_considered. pose proof (consider_all_feasible _ _ _ Hst) as Hf.
  apply consider_all_spec in Hst as [Hch _]. cbn [chs_choices chs_feasibleBeforeBudget app orb] in Hch, Hf.
  destruct (sort_slice _ (chs_choices st)) as [|b sorted] eqn:Hsort; [|discriminate]. split.
  - rewrite <- Hch.
    pose proof (sort_slice_perm (choice_less (rs_Objective (rpol_Spec routing))) (chs_choices st)) as Hp.
    rewrite Hsort in Hp. by apply Permutation_nil in Hp.
  - rewrite Hf in Hbest. destruct (existsb passes candidates) eqn:E; [by injection Hbest|].
    apply Forall_forall. intros c Hc. apply not_true_is_false. intros Hp.
    rewrite <- not_true_iff_false, existsb_exists in E. apply E. exists c. split; [by apply list_elem_of_In|done].
Qed.
End choice.

(** ** A concrete admission *)

Module AdmissionExample.
Definition meta (name : string) : ObjectMeta := Build_ObjectMeta name "team-a" "uid-p" "5" 4.
(** A policy that reserves the whole requested bound under the provider's cap. *)
Definition strict_policy : GOVARRoutingPolicySpec :=
  Build_GOVARRoutingPolicySpec (Build_GOVARReservationPolicy "strict_provider_cap" None None None None) None
    (Build_GOVARDriftPolicy "" 0 "" 0) None None.
Definition routing_with (govar : GOVARRoutingPolicySpec) : AIRoutingPolicy :=
  Build_AIRoutingPolicy (meta "route-policy")
    (Build_AIRoutingPolicySpec "cost" (Build_AIRoutingPolicyGuardrails (S754_zero false) 1000 true)
       (Build_AIRoutingPolicyCanary false 0) (Some govar))
    (Build_AIRoutingPolicyStatus 4 (Some (PricingExample.now - Minute)) RoutesExample.ready None).
Definition routing : AIRoutingPolicy := routing_with strict_policy.
Definition budget : AIBudgetPolicy :=
  Build_AIBudgetPolicy (meta "budget-policy")
    (Build_AIBudgetPolicySpec (Build_BudgetTarget "team-a" "" "") "daily" (Build_Quantity 1 0) 0 0 0
       (Build_BudgetActions [] [] []) "" "enforce" "" 0 0 "")
    (Build_AIBudgetPolicyStatus 4 RoutesExample.ready).
Definition request (id : string) : AdmitRequest :=
  Build_AdmitRequest id "team-a" "red" "wl-1" "red" "chat" false ["eu"] "budget-policy" "route-policy" 1000 true 500 3 0
    0 0 false PricingExample.bounds false "" 0 None "red" "wl-1" "team-a".
Definition candidates : list Candidate := [RoutesExample.candidate].
Definition source : string := CalibrationEvidenceSourcePostgreSQLV8.
Definition choose (available : Z) : option (result (admissionChoice + ReasonCode)) :=
  @chooseAdmissionWithEvidenceSource go_crypto (request "req-1") routing candidates available PricingExample.now source.
Definition best : admissionChoice := Eval vm_compute in
  match choose 1000000 with
  | Some (Ok (inl c)) => c
  | _ => Build_admissionChoice zero_candidate 0 "" 0 0 [] ReasonNone
  end.
End AdmissionExample.

Definition strict_granted : reservation_plan := Build_reservation_plan 500 "strict_provider_cap" ReasonNone ReasonNone.
Lemma reservation_plan_bounded_witness : plan_bounded (AdmissionExample.request "req-1") RoutesExample.candidate strict_granted.
Proof.
  apply (@reservation_plan_bounded go_crypto (AdmissionExample.request "req-1") AdmissionExample.routing RoutesExample.candidate
       PricingExample.now AdmissionExample.source); vm_compute; reflexivity.
Defined.

Lemma chosen_admission_is_best_witness :
  @admissible go_crypto (AdmissionExample.request "req-1") AdmissionExample.routing 1000000 PricingExample.now
    AdmissionExample.source AdmissionExample.candidates AdmissionExample.best.
Proof.
  destruct (@chosen_admission_is_best go_crypto (AdmissionExample.request "req-1") AdmissionExample.routing 1000000
              PricingExample.now AdmissionExample.source AdmissionExample.candidates AdmissionExample.best) as [Ha _].
  - vm_compute. reflexivity.
  - exact Ha.
Defined.

Lemma refusal_means_no_offer_witness :
  omap (@offer go_crypto (AdmissionExample.request "req-1") AdmissionExample.routing 1000 PricingExample.now
          AdmissionExample.source) AdmissionExample.candidates = [].
Proof.
  destruct (@refusal_means_no_offer go_crypto (AdmissionExample.request "req-1") AdmissionExample.routing 1000
              PricingExample.now AdmissionExample.source AdmissionExample.candidates ReasonBudgetUnavailable) as [Ho _].
  - vm_compute. reflexivity.
  - exact Ho.
Defined.
