(* ===== verification/Ledger.v ===== *)
(** * The reservation ledger: records and transitions ([internal/govar/engine.go])

    A reservation, the ledger of its tenant, and the three transitions that move
    money between them: [applyDispatch], [applySettlement], [applyCancel]. *)

From Stdlib Require Import ZArith Lia Ascii String SpecFloat.
From stdpp Require Import base gmap strings list pretty sorting.
From S2P Require Import Prelude Digest GoTime Api Json Pricing Calibration Routes AdmissionPolicy.

Open Scope string_scope.
Open Scope list_scope.
Open Scope Z_scope.
Open Scope go_scope.

(** ** States *)

Inductive ReservationState : Set :=
| StateNone (* the zero value "" *)
| StateReserved | StateDispatchPending | StateDispatched | StateUnresolved | StateSettledProvisional
| StateLateSettledProvisional | StateCorrectedProvisional | StateFinalized | StateLateFinalized
| StateCanceledUnbilled | StateFailedUnbilled | StateExpiredUndispatched.
#[export] Instance ReservationState_eq_dec : EqDecision ReservationState.
Proof. solve_decision. Defined.

Inductive OutboxState : Set :=
| OutboxNone | OutboxPending | OutboxClaimed | OutboxDelivered | OutboxCanceled.
#[export] Instance OutboxState_eq_dec : EqDecision OutboxState.
Proof. solve_decision. Defined.

Definition state_is (a b : ReservationState) : bool := bool_decide (a = b).
Definition outbox_is (a b : OutboxState) : bool := bool_decide (a = b).

Definition reservationIsActive (s : ReservationState) : bool :=
  match s with
  | StateCanceledUnbilled | StateFailedUnbilled | StateExpiredUndispatched | StateFinalized | StateLateFinalized => false
  | _ => true
  end.

(** The [DispatchStatus] strings of the wire. *)
Definition DispatchClaimed : string := "CLAIMED".
Definition DispatchDelivered : string := "DELIVERED".
Definition DispatchAmbiguous : string := "AMBIGUOUS".
Definition DispatchFailedUnbilled : string := "FAILED_UNBILLED".

(** ** Requests *)

Record DispatchRequest : Type := Build_DispatchRequest {
  dreq_RequestID : string;
  dreq_EventID : string;
  dreq_TenantID : string;
  dreq_WorkloadUID : string;
  dreq_ProviderAttemptID : string;
  dreq_RouteSnapshotHash : string;
  dreq_Status : string;
  dreq_AuthenticatedTenantID : string;
  dreq_AuthenticatedWorkloadUID : string
}.

Record SettleRequest : Type := Build_SettleRequest {
  sreq_RequestID : string;
  sreq_SettlementID : string;
  sreq_ProviderAttemptID : string;
  sreq_TenantID : string;
  sreq_WorkloadUID : string;
  sreq_ActualCostMicros : Z;
  sreq_LegacyActualCost : string;
  sreq_ActualInput : Z;
  sreq_ActualOutput : Z;
  sreq_Usage : list UsageQuantity;
  sreq_UsageVersion : Z;
  sreq_PredecessorEventID : string;
  sreq_Final : bool;
  sreq_ErrorStatus : string;
  sreq_AuthenticatedTenantID : string;
  sreq_AuthenticatedWorkloadUID : string
}.
#[export] Instance sreq_eta : Eta SettleRequest := fun r =>
  Build_SettleRequest (sreq_RequestID r) (sreq_SettlementID r) (sreq_ProviderAttemptID r) (sreq_TenantID r)
    (sreq_WorkloadUID r) (sreq_ActualCostMicros r) (sreq_LegacyActualCost r) (sreq_ActualInput r) (sreq_ActualOutput r)
    (sreq_Usage r) (sreq_UsageVersion r) (sreq_PredecessorEventID r) (sreq_Final r) (sreq_ErrorStatus r)
    (sreq_AuthenticatedTenantID r) (sreq_AuthenticatedWorkloadUID r).

Record CancelRequest : Type := Build_CancelRequest {
  creq_RequestID : string;
  creq_EventID : string;
  creq_ProviderAttemptID : string;
  creq_TenantID : string;
  creq_WorkloadUID : string;
  creq_Reason : string;
  creq_AuthoritativeUnbilled : bool;
  creq_AuthenticatedTenantID : string;
  creq_AuthenticatedWorkloadUID : string
}.

(** ** Reservations and tenants *)

Record Reservation : Type := Build_Reservation {
  res_RequestID : string;
  res_TenantID : string;
  res_WorkloadUID : string;
  res_SelectedDeployment : string;
  res_ProviderAttemptID : string;
  res_OutboxID : string;
  res_OutboxState : OutboxState;
  res_State : ReservationState;
  res_ReservedCostMicros : Z;
  res_ReservedComponents : list ChargeComponent;
  res_PricingSnapshot : NormalizedPricingSnapshot;
  res_PricingSnapshotSHA256 : string;
  res_CapEvidenceSHA256 : string;
  res_VerifiedOutputCapTokens : Z;
  res_ActualComponents : list ActualChargeComponent;
  res_MissingUsageBases : list Basis;
  res_ComponentBoundExceeded : bool;
  res_ProvisionalCostMicros : Z;
  res_BaseActualMicros : Z;
  res_SettledEffectMicros : Z;
  res_ResidualHoldMicros : Z;
  res_UsageVersion : Z;
  res_Finalized : bool;
  res_PolicyVersion : string;
  res_PricingVersion : string;
  res_ReservationMode : string;
  res_RiskLevel : string;
  res_AllocatedRiskPPB : Z;
  res_InputPriceMicrosPerMillion : Z;
  res_OutputPriceMicrosPerMillion : Z;
  res_AdmissionFingerprint : string;
  res_CandidateSnapshotVersion : string;
  res_RouteSnapshot : RouteSnapshot;
  res_CohortID : string;
  res_CohortIndex : Z;
  res_CohortRegistryDigest : string;
  res_CalibrationArtifactSHA256 : string;
  res_SelectedFeedback : option SelectedFeedbackBinding;
  res_SelectedFeedbackBindingSHA256 : string;
  res_OriginWindowID : string;
  res_EnforcementWindowID : string;
  res_RolloverGuardMicros : Z;
  res_CarryEffectMicros : Z;
  res_HistoricalCreditMicros : Z;
  res_Carried : bool;
  res_LastUsageEventID : string;
  res_ProviderRetryPolicy : string;
  res_LastReasonCode : ReasonCode;
  res_LastTransitionEventID : string;
  res_Expiry : Time;
  res_PreviousState : ReservationState;
  res_TransitionEffective : bool;
  res_SelectedFeedbackDispatchID : string
}.
#[export] Instance res_eta : Eta Reservation := fun r =>
  Build_Reservation (res_RequestID r) (res_TenantID r) (res_WorkloadUID r) (res_SelectedDeployment r)
    (res_ProviderAttemptID r) (res_OutboxID r) (res_OutboxState r) (res_State r) (res_ReservedCostMicros r)
    (res_ReservedComponents r) (res_PricingSnapshot r) (res_PricingSnapshotSHA256 r) (res_CapEvidenceSHA256 r)
    (res_VerifiedOutputCapTokens r) (res_ActualComponents r) (res_MissingUsageBases r) (res_ComponentBoundExceeded r)
    (res_ProvisionalCostMicros r) (res_BaseActualMicros r) (res_SettledEffectMicros r) (res_ResidualHoldMicros r)
    (res_UsageVersion r) (res_Finalized r) (res_PolicyVersion r) (res_PricingVersion r) (res_ReservationMode r)
    (res_RiskLevel r) (res_AllocatedRiskPPB r) (res_InputPriceMicrosPerMillion r) (res_OutputPriceMicrosPerMillion r)
    (res_AdmissionFingerprint r) (res_CandidateSnapshotVersion r) (res_RouteSnapshot r) (res_CohortID r)
    (res_CohortIndex r) (res_CohortRegistryDigest r) (res_CalibrationArtifactSHA256 r) (res_SelectedFeedback r)
    (res_SelectedFeedbackBindingSHA256 r) (res_OriginWindowID r) (res_EnforcementWindowID r) (res_RolloverGuardMicros r)
    (res_CarryEffectMicros r) (res_HistoricalCreditMicros r) (res_Carried r) (res_LastUsageEventID r)
    (res_ProviderRetryPolicy r) (res_LastReasonCode r) (res_LastTransitionEventID r) (res_Expiry r)
    (res_PreviousState r) (res_TransitionEffective r) (res_SelectedFeedbackDispatchID r).

(** [Reservation{}]. *)
Definition zero_reservation : Reservation :=
  Build_Reservation "" "" "" "" "" "" OutboxNone StateNone 0 [] zero_pricing_snapshot "" "" 0 [] [] false 0 0 0 0 0
    false "" "" "" "" 0 0 0 "" "" zero_route "" 0 "" "" None "" "" "" 0 0 0 false "" "" ReasonNone "" zero_time
    StateNone false "".

Definition withTransitionMetadata (res : Reservation) (previous : ReservationState) (effective : bool) : Reservation :=
  res <| res_PreviousState := previous |> <| res_TransitionEffective := effective |>.
Definition withoutTransitionMetadata (res : Reservation) : Reservation :=
  res <| res_PreviousState := StateNone |> <| res_TransitionEffective := false |>
      <| res_SelectedFeedbackDispatchID := "" |>.

Record tenantLedger : Type := Build_tenantLedger {
  tenant_BudgetMicros : Z;
  tenant_SettledMicros : Z;
  tenant_ReservedMicros : Z;
  tenant_CarriedAdjustmentMicros : Z;
  tenant_ActiveReservations : Z;
  tenant_Requests : gset string;
  tenant_BudgetIdentity : string;
  tenant_CurrentWindowID : string;
  tenant_HistoricalCreditMicros : Z;
  tenant_WindowPeriod : string
}.
#[export] Instance tenant_eta : Eta tenantLedger := fun t =>
  Build_tenantLedger (tenant_BudgetMicros t) (tenant_SettledMicros t) (tenant_ReservedMicros t)
    (tenant_CarriedAdjustmentMicros t) (tenant_ActiveReservations t) (tenant_Requests t) (tenant_BudgetIdentity t)
    (tenant_CurrentWindowID t) (tenant_HistoricalCreditMicros t) (tenant_WindowPeriod t).

(** [t.available()]. *)
Definition available (t : tenantLedger) : Z :=
  tenant_BudgetMicros t -i tenant_SettledMicros t -i tenant_ReservedMicros t -i tenant_CarriedAdjustmentMicros t.

(** ** Dispatch *)

Definition applyDispatch (res : Reservation) (status : string) : Reservation * ReasonCode * option error :=
  if String.eqb status DispatchClaimed then
    if negb (state_is (res_State res) StateReserved) || negb (outbox_is (res_OutboxState res) OutboxPending)
    then (res, ReasonInvalidTransition, Some "dispatch claim requires a pending reserved outbox"%string)
    else (res <| res_State := StateDispatchPending |> <| res_OutboxState := OutboxClaimed |>, ReasonDispatchClaimed, None)
  else if String.eqb status DispatchDelivered then
    if negb (state_is (res_State res) StateDispatchPending) || negb (outbox_is (res_OutboxState res) OutboxClaimed)
    then (res, ReasonInvalidTransition, Some "delivery requires a claimed dispatch"%string)
    else (res <| res_State := StateDispatched |> <| res_OutboxState := OutboxDelivered |>, ReasonDispatchDelivered, None)
  else if String.eqb status DispatchAmbiguous then
    if negb (state_is (res_State res) StateDispatchPending) || negb (outbox_is (res_OutboxState res) OutboxClaimed)
    then (res, ReasonInvalidTransition, Some "ambiguous result requires a claimed dispatch"%string)
    else (res <| res_State := StateUnresolved |>, ReasonDispatchUnresolved, None)
  else if String.eqb status DispatchFailedUnbilled then
    (res, ReasonInvalidTransition, Some "authoritative unbilled failure must use cancel so release is atomic"%string)
  else (res, ReasonInvalidTransition, Some "unsupported dispatch status"%string).

(** ** Cancellation *)

(** The release of the whole hold of a reservation. *)
Definition release_hold (res : Reservation) (t : tenantLedger) : Reservation * tenantLedger :=
  (res <| res_ResidualHoldMicros := 0 |> <| res_RolloverGuardMicros := 0 |>,
   t <| tenant_ReservedMicros := tenant_ReservedMicros t -i (res_ResidualHoldMicros res +i res_RolloverGuardMicros res) |>).

Definition outcome : Type := Reservation * tenantLedger * ReasonCode * option error.

Definition applyCancel (res : Reservation) (t : tenantLedger) (authoritative : bool) : outcome :=
  match res_State res with
  | StateReserved =>
    if negb (outbox_is (res_OutboxState res) OutboxPending)
    then (res, t, ReasonInvalidTransition, Some "reserved request has non-pending outbox"%string)
    else
      let res := res <| res_OutboxState := OutboxCanceled |> <| res_State := StateCanceledUnbilled |> in
      (release_hold res t, ReasonCanceled, None)
  | StateDispatchPending | StateDispatched | StateUnresolved =>
    if negb authoritative then (res <| res_State := StateUnresolved |>, t, ReasonCancellationUnclear, None)
    else
      let res := res <| res_OutboxState := OutboxCanceled |> <| res_State := StateFailedUnbilled |> in
      (release_hold res t, ReasonCanceled, None)
  | StateSettledProvisional | StateLateSettledProvisional | StateCorrectedProvisional
  | StateFinalized | StateLateFinalized =>
    (res, t, ReasonInvalidTransition, Some "settled request cannot be canceled"%string)
  | StateCanceledUnbilled | StateFailedUnbilled => (res, t, ReasonDuplicateEvent, None)
  | StateNone | StateExpiredUndispatched =>
    (res, t, ReasonInvalidTransition, Some "unsupported cancellation state"%string)
  end.

(** ** Settlement *)

(** [max(0, z)], as the code writes it. *)
Definition floor0 (z : Z) : Z := if z <? 0 then 0 else z.

(** The audit-only credit of a reservation and its tenant follow the actual cost:
    [desiredCredit := max(0, BaseActual - actual)]. *)
Definition set_credit (res : Reservation) (t : tenantLedger) (actual : Z) : Reservation * tenantLedger :=
  let desiredCredit := floor0 (res_BaseActualMicros res -i actual) in
  (res <| res_HistoricalCreditMicros := desiredCredit |>,
   t <| tenant_HistoricalCreditMicros := tenant_HistoricalCreditMicros t +i (desiredCredit -i res_HistoricalCreditMicros res) |>).

(** The usage vector of a settlement, from the legacy token counts when absent. *)
Definition settlement_usage (req : SettleRequest) : list UsageQuantity :=
  if (Z.of_nat (length (sreq_Usage req)) =? 0) && ((0 <? sreq_ActualInput req) || (0 <? sreq_ActualOutput req))
  then [Build_UsageQuantity ProviderBasisInputTokens (sreq_ActualInput req);
        Build_UsageQuantity ProviderBasisOutputTokens (sreq_ActualOutput req)]
  else sreq_Usage req.

(** The correction of a finalized request. *)
Definition correct_finalized (res : Reservation) (t : tenantLedger) (req : SettleRequest) (exceeded : bool) : outcome :=
  if negb (sreq_UsageVersion req =? res_UsageVersion res +i 1)
     || negb (String.eqb (sreq_PredecessorEventID req) (res_LastUsageEventID res))
  then (res, t, ReasonInvalidTransition,
        Some "post-finality correction requires exact next version and predecessor event"%string)
  else
    let actual := sreq_ActualCostMicros req in
    let delta := actual -i res_ProvisionalCostMicros res in
    let res := res <| res_UsageVersion := sreq_UsageVersion req |> in
    if 0 <? delta then
      let '(res, t) :=
        if res_BaseActualMicros res <? actual then
          let targetDebt := if res_Carried res then actual else actual -i res_BaseActualMicros res in
          (res <| res_CarryEffectMicros := targetDebt |>,
           t <| tenant_CarriedAdjustmentMicros :=
                  tenant_CarriedAdjustmentMicros t +i (targetDebt -i res_CarryEffectMicros res) |>)
        else (res, t) in
      let '(res, t) := set_credit res t actual in
      let res := res <| res_ProvisionalCostMicros := actual |> <| res_LastUsageEventID := sreq_SettlementID req |> in
      if (res_ReservedCostMicros res <? actual) || exceeded then (res, t, ReasonReservationExceeded, None)
      else (res, t, ReasonCorrection, None)
    else
      let '(res, t) := set_credit res t actual in
      (res <| res_ProvisionalCostMicros := actual |> <| res_LastUsageEventID := sreq_SettlementID req |>,
       t, ReasonCorrection, None).

(** A new usage version of a request that is not final falls in one of four
    accounting cases; each returns the residual hold that the version leaves. The
    first usage of a request already out of its window is carried as debt. *)
Definition account_late (res : Reservation) (t : tenantLedger) (actual newResidual : Z)
    : Reservation * tenantLedger * Z :=
  (res <| res_Carried := true |> <| res_CarryEffectMicros := actual |>
       <| res_EnforcementWindowID := tenant_CurrentWindowID t |>,
   t <| tenant_CarriedAdjustmentMicros := tenant_CarriedAdjustmentMicros t +i actual |>
     <| tenant_ReservedMicros := tenant_ReservedMicros t +i (newResidual -i res_ResidualHoldMicros res) |>,
   newResidual).

(** A later usage of a carried request raises the debt, and never lowers it. *)
Definition account_carried (res : Reservation) (t : tenantLedger) (actual newResidual : Z)
    : Reservation * tenantLedger * Z :=
  let oldHold := res_ResidualHoldMicros res in
  if res_CarryEffectMicros res <? actual then
    let enforcementDelta := actual -i res_CarryEffectMicros res in
    let targetResidual := floor0 (res_ReservedCostMicros res -i actual) in
    let t := t <| tenant_CarriedAdjustmentMicros := tenant_CarriedAdjustmentMicros t +i enforcementDelta |>
               <| tenant_ReservedMicros := tenant_ReservedMicros t +i (targetResidual -i oldHold) |> in
    let res := res <| res_CarryEffectMicros := actual |> in
    (set_credit res t actual, targetResidual)
  else if actual <? res_CarryEffectMicros res then (set_credit res t actual, oldHold)
  else (res, t, newResidual).

(** A usage whose request was provisional when the window rolled over moves the
    guard against the residual. *)
Definition account_rolled (res : Reservation) (t : tenantLedger) (actual delta newResidual : Z)
    : Reservation * tenantLedger * Z :=
  let oldHold := res_ResidualHoldMicros res in
  let '(res, t) := set_credit res t actual in
  (res <| res_RolloverGuardMicros := res_RolloverGuardMicros res +i delta |>,
   t <| tenant_ReservedMicros := tenant_ReservedMicros t +i ((newResidual -i oldHold) +i delta) |>,
   newResidual).

(** A usage inside the window settles it. *)
Definition account_current (res : Reservation) (t : tenantLedger) (actual delta newResidual : Z)
    : Reservation * tenantLedger * Z :=
  (res <| res_SettledEffectMicros := actual |>,
   t <| tenant_SettledMicros := tenant_SettledMicros t +i delta |>
     <| tenant_ReservedMicros := tenant_ReservedMicros t +i (newResidual -i res_ResidualHoldMicros res) |>,
   newResidual).

Definition observe_usage (res : Reservation) (t : tenantLedger) (req : SettleRequest) : Reservation * tenantLedger :=
  let actual := sreq_ActualCostMicros req in
  let delta := actual -i res_ProvisionalCostMicros res in
  let newResidual := floor0 (res_ReservedCostMicros res -i actual) in
  let first := res_UsageVersion res =? 0 in
  let res := if first then res <| res_BaseActualMicros := actual |> else res in
  let late := state_is (res_State res) StateUnresolved
              || negb (String.eqb (tenant_CurrentWindowID t) (res_OriginWindowID res)) in
  let rolledProvisional := negb (res_Carried res) && negb (String.eqb (res_EnforcementWindowID res) "")
                           && negb (String.eqb (res_EnforcementWindowID res) (tenant_CurrentWindowID t)) in
  let '(res, t, newResidual) :=
    if first && late then account_late res t actual newResidual
    else if res_Carried res then account_carried res t actual newResidual
    else if rolledProvisional then account_rolled res t actual delta newResidual
    else account_current res t actual delta newResidual in
  (res <| res_ProvisionalCostMicros := actual |> <| res_ResidualHoldMicros := newResidual |>
       <| res_UsageVersion := sreq_UsageVersion req |> <| res_LastUsageEventID := sreq_SettlementID req |>, t).

(** Finality, or the provisional state after a version. *)
Definition conclude (res : Reservation) (t : tenantLedger) (req : SettleRequest) (exceeded : bool) : outcome :=
  let late := res_Carried res || state_is (res_State res) StateUnresolved
              || negb (String.eqb (tenant_CurrentWindowID t) (res_OriginWindowID res)) in
  let over := (res_ReservedCostMicros res <? sreq_ActualCostMicros req) || exceeded in
  if sreq_Final req then
    let '(res, t) := release_hold res t in
    let res := res <| res_Finalized := true |> <| res_LastUsageEventID := sreq_SettlementID req |> in
    let '(res, finalCode) := if res_Carried res then (res <| res_State := StateLateFinalized |>, ReasonLateSettlement)
                             else (res <| res_State := StateFinalized |>, ReasonFinalized) in
    if over then (res, t, ReasonReservationExceeded, None) else (res, t, finalCode, None)
  else if over then (res <| res_State := StateCorrectedProvisional |>, t, ReasonReservationExceeded, None)
  else if 1 <? res_UsageVersion res then (res <| res_State := StateCorrectedProvisional |>, t, ReasonCorrection, None)
  else if late then (res <| res_State := StateLateSettledProvisional |>, t, ReasonLateSettlement, None)
  else (res <| res_State := StateSettledProvisional |>, t, ReasonProvisionalSettlement, None).

(** A settlement of a request that is not final, its cost already computed. *)
Definition settle_open (res : Reservation) (t : tenantLedger) (req : SettleRequest) (exceeded : bool) : outcome :=
  let invalid m := (res <| res_OutboxState := OutboxDelivered |>, t, ReasonInvalidTransition, Some m) in
  let res := res <| res_OutboxState := OutboxDelivered |> in
  let version := sreq_UsageVersion req in
  let predecessor_differs := negb (String.eqb (sreq_PredecessorEventID req) (res_LastUsageEventID res)) in
  if (res_UsageVersion res =? 0) && (negb (version =? 1) || negb (String.eqb (sreq_PredecessorEventID req) ""))
  then invalid "first usage requires version 1 and no predecessor"%string
  else if version <? res_UsageVersion res then invalid "usage_version is stale"%string
  else if (version =? res_UsageVersion res) && negb (res_UsageVersion res =? 0) then
    if negb (sreq_ActualCostMicros req =? res_ProvisionalCostMicros res)
    then invalid "same usage_version has conflicting cost"%string
    else if negb (sreq_Final req) then (res, t, ReasonSettlementDuplicate, None)
    else if predecessor_differs then invalid "finality requires predecessor event"%string
    else conclude res t req exceeded
  else if (0 <? res_UsageVersion res) && (negb (version =? res_UsageVersion res +i 1) || predecessor_differs)
  then invalid "correction requires exact next version and predecessor event"%string
  else let '(res, t) := observe_usage res t req in conclude res t req exceeded.

Section settlement.
Context `{Crypto}.

Definition applySettlement (res : Reservation) (t : tenantLedger) (req : SettleRequest) : outcome :=
  match SettleComponents (res_PricingSnapshot res) (res_ReservedComponents res) (settlement_usage req) with
  | Err m => (res, t, ReasonPricingIncomplete, Some m)
  | Ok (actualComponents, missing, exceeded) =>
    match SumActualComponents actualComponents with
    | Err m => (res, t, ReasonInvalidTransition, Some m)
    | Ok actualMicros =>
      if negb (sreq_ActualCostMicros req =? 0) && negb (sreq_ActualCostMicros req =? actualMicros)
      then (res, t, ReasonInvalidTransition,
            Some "client-supplied actual cost does not match the frozen component vector"%string)
      else
        let req := req <| sreq_ActualCostMicros := actualMicros |> in
        let req :=
          match missing with
          | [] => req
          | _ =>
            let req := req <| sreq_Final := false |> in
            if String.eqb (sreq_ErrorStatus req) "" then req <| sreq_ErrorStatus := "incomplete_authoritative_usage" |>
            else req
          end in
        let res := res <| res_ActualComponents := actualComponents |> <| res_MissingUsageBases := missing |>
                       <| res_ComponentBoundExceeded := res_ComponentBoundExceeded res || exceeded |> in
        if (sreq_ActualCostMicros req <? 0) || (sreq_UsageVersion req <=? 0)
        then (res, t, ReasonInvalidTransition,
              Some "actual_cost_micros must be non-negative and usage_version positive"%string)
        else if state_is (res_State res) StateCanceledUnbilled || state_is (res_State res) StateFailedUnbilled
        then (res, t, ReasonInvalidTransition,
              Some "cannot settle an authoritative unbilled terminal request"%string)
        else if state_is (res_State res) StateReserved || outbox_is (res_OutboxState res) OutboxPending
        then (res, t, ReasonInvalidTransition,
              Some "settlement requires a previously claimed provider attempt"%string)
        else if res_Finalized res then correct_finalized res t req exceeded
        else settle_open res t req exceeded
    end
  end.
End settlement.
