(* ===== verification/LedgerProofs.v ===== *)
(** * Accounting of the reservation ledger

    What the transitions of Ledger.v do to the books: the invariant of a
    reservation, the hold kept for it in its tenant's ledger, and how far each
    transition moves the tenant's exposure. *)

From Stdlib Require Import ZArith Lia Ascii String SpecFloat.
From stdpp Require Import base gmap strings list pretty sorting.
From S2P Require Import Prelude Digest GoTime Api Json Pricing Calibration Routes AdmissionPolicy Ledger.

Open Scope string_scope.
Open Scope list_scope.
Open Scope Z_scope.
Open Scope go_scope.

(** ** Accounting of one reservation *)

(** What the tenant holds for a reservation. *)
Definition held (res : Reservation) : Z := res_ResidualHoldMicros res + res_RolloverGuardMicros res.

(** The tenant's ledger entries that reduce what is available. *)
Definition exposure (t : tenantLedger) : Z :=
  tenant_SettledMicros t + tenant_ReservedMicros t + tenant_CarriedAdjustmentMicros t.

(** The cost a reservation is charged so far: its last reported cost, or for a
    carried reservation the largest one. *)
Definition level (res : Reservation) : Z :=
  if res_Carried res then res_CarryEffectMicros res else res_ProvisionalCostMicros res.

Definition closed_state (s : ReservationState) : bool :=
  match s with
  | StateFinalized | StateLateFinalized | StateCanceledUnbilled | StateFailedUnbilled | StateExpiredUndispatched => true
  | _ => false
  end.
Definition final_state (s : ReservationState) : bool :=
  match s with StateFinalized | StateLateFinalized => true | _ => false end.
(** Usage has been reported. *)
Definition settled_state (s : ReservationState) : bool :=
  match s with
  | StateSettledProvisional | StateLateSettledProvisional | StateCorrectedProvisional
  | StateFinalized | StateLateFinalized => true
  | _ => false
  end.
(** The outbox that goes with a state. *)
Definition outbox_ok (s : ReservationState) (o : OutboxState) : bool :=
  match s, o with
  | StateReserved, OutboxPending | StateDispatchPending, OutboxClaimed | StateDispatched, OutboxDelivered
  | StateUnresolved, (OutboxClaimed | OutboxDelivered)
  | (StateSettledProvisional | StateLateSettledProvisional | StateCorrectedProvisional
     | StateFinalized | StateLateFinalized), OutboxDelivered
  | (StateCanceledUnbilled | StateFailedUnbilled | StateExpiredUndispatched), OutboxCanceled => true
  | _, _ => false
  end.

Definition micros (z : Z) : Prop := 0 <= z <= max_int64.

(** Well-formed reservations. *)
Record res_wf (res : Reservation) : Prop := {
  wf_reserved : micros (res_ReservedCostMicros res);
  wf_provisional : micros (res_ProvisionalCostMicros res);
  wf_carry : micros (res_CarryEffectMicros res);
  wf_base : micros (res_BaseActualMicros res);
  wf_outbox : outbox_ok (res_State res) (res_OutboxState res) = true;
  wf_final : res_Finalized res = final_state (res_State res);
  wf_version : if settled_state (res_State res) then 0 < res_UsageVersion res else res_UsageVersion res = 0;
  wf_unused : res_UsageVersion res = 0 ->
    res_ProvisionalCostMicros res = 0 /\ res_Carried res = false /\ res_RolloverGuardMicros res = 0;
  wf_carried : res_Carried res = true ->
    res_BaseActualMicros res <= res_CarryEffectMicros res /\
    res_ProvisionalCostMicros res <= res_CarryEffectMicros res;
  wf_hold : if closed_state (res_State res) then res_ResidualHoldMicros res = 0 /\ res_RolloverGuardMicros res = 0
            else res_ResidualHoldMicros res = Z.max 0 (res_ReservedCostMicros res - level res)
}.

Lemma micros_in64 z : micros z -> in64 z.
Proof. unfold micros, in64, min_int64, max_int64. lia. Qed.

Lemma micros_diff a b : micros a -> micros b -> a -i b = a - b.
Proof. unfold micros, max_int64. intros. apply sub64_id. unfold in64, min_int64, max_int64. lia. Qed.

Lemma floor0_diff a b : micros a -> micros b -> floor0 (a -i b) = Z.max 0 (a - b).
Proof. intros Ha Hb. rewrite micros_diff by done. unfold floor0. destruct (Z.ltb_spec (a - b) 0); lia. Qed.

Lemma floor0_micros a b : micros a -> micros b -> micros (floor0 (a -i b)).
Proof. intros Ha Hb. rewrite floor0_diff by done. unfold micros in *. lia. Qed.

(** *** The four accounting cases *)

(** The cost charged once [actual] is recorded. *)
Definition level_at (res : Reservation) (actual : Z) : Z :=
  if res_Carried res then res_CarryEffectMicros res else actual.

Record accounted (res : Reservation) (t : tenantLedger) (actual : Z) (res' : Reservation) (t' : tenantLedger)
    (residual : Z) : Prop := {
  acc_state : res_State res' = res_State res;
  acc_outbox : res_OutboxState res' = res_OutboxState res;
  acc_final : res_Finalized res' = res_Finalized res;
  acc_reserved : res_ReservedCostMicros res' = res_ReservedCostMicros res;
  acc_version : res_UsageVersion res' = res_UsageVersion res;
  acc_base : res_BaseActualMicros res' = res_BaseActualMicros res;
  acc_carried : res_Carried res = true -> res_Carried res' = true;
  acc_late : res_Carried res = false -> res_Carried res' = true -> res_UsageVersion res = 0;
  acc_carry : micros (res_CarryEffectMicros res');
  acc_level : level_at res' actual = if res_Carried res then Z.max (res_CarryEffectMicros res) actual else actual;
  acc_residual : residual = Z.max 0 (res_ReservedCostMicros res - level_at res' actual);
  acc_gap : tenant_ReservedMicros t' - (residual + res_RolloverGuardMicros res') ≡64 tenant_ReservedMicros t - held res;
  acc_exposure : exposure t' - exposure t ≡64
    residual + level_at res' actual - (res_ResidualHoldMicros res + level res);
  acc_budget : tenant_BudgetMicros t' = tenant_BudgetMicros t
}.

Section account.
Context (res : Reservation) (t : tenantLedger) (actual : Z).
Context (HR : micros (res_ReservedCostMicros res)) (Ha : micros actual)
  (Hc : micros (res_CarryEffectMicros res)) (Hp : micros (res_ProvisionalCostMicros res)).

Local Abbreviation newResidual := (floor0 (res_ReservedCostMicros res -i actual)).
Local Abbreviation delta := (actual -i res_ProvisionalCostMicros res).

Local Ltac books :=
  rewrite ?(floor0_diff _ _ HR Ha); unfold held, exposure, level, level_at; upd;
  repeat match goal with H : res_Carried res = _ |- _ => rewrite H end;
  lazymatch goal with
  | |- _ ≡64 _ => first [eqm_lia | idtac]
  | |- _ => try first [reflexivity | assumption | discriminate | congruence | lia]
  end.

Lemma account_late_spec :
  res_Carried res = false -> res_ProvisionalCostMicros res = 0 -> res_UsageVersion res = 0 ->
  let '(res', t', residual) := account_late res t actual newResidual in accounted res t actual res' t' residual.
Proof. intros Hf H0 Hv. unfold account_late. split; books. Qed.

Lemma account_current_spec :
  res_Carried res = false ->
  let '(res', t', residual) := account_current res t actual delta newResidual in accounted res t actual res' t' residual.
Proof. intros Hf. unfold account_current. split; books. Qed.

Lemma account_rolled_spec :
  res_Carried res = false ->
  let '(res', t', residual) := account_rolled res t actual delta newResidual in accounted res t actual res' t' residual.
Proof. intros Hf. unfold account_rolled, set_credit. cbv zeta. split; books. Qed.

Lemma account_carried_spec :
  res_Carried res = true -> res_ResidualHoldMicros res = Z.max 0 (res_ReservedCostMicros res - level res) ->
  let '(res', t', residual) := account_carried res t actual newResidual in accounted res t actual res' t' residual.
Proof.
  intros Hf Hh. unfold level in Hh. rewrite Hf in Hh. unfold account_carried, set_credit. cbv zeta.
  destruct (Z.ltb_spec (res_CarryEffectMicros res) actual) as [Hlt|Hle];
    [|destruct (Z.ltb_spec actual (res_CarryEffectMicros res)) as [Hlt'|Hge]];
    split; books.
Qed.
End account.

(** *** A new usage version *)

Record observed (res : Reservation) (t : tenantLedger) (req : SettleRequest) (res' : Reservation) (t' : tenantLedger)
    : Prop := {
  ob_state : res_State res' = res_State res;
  ob_outbox : res_OutboxState res' = res_OutboxState res;
  ob_final : res_Finalized res' = res_Finalized res;
  ob_reserved : res_ReservedCostMicros res' = res_ReservedCostMicros res;
  ob_provisional : res_ProvisionalCostMicros res' = sreq_ActualCostMicros req;
  ob_version : res_UsageVersion res' = sreq_UsageVersion req;
  ob_event : res_LastUsageEventID res' = sreq_SettlementID req;
  ob_level : level res' =
    if res_Carried res then Z.max (res_CarryEffectMicros res) (sreq_ActualCostMicros req) else sreq_ActualCostMicros req;
  ob_carry : micros (res_CarryEffectMicros res');
  ob_base : res_BaseActualMicros res' =
    if res_UsageVersion res =? 0 then sreq_ActualCostMicros req else res_BaseActualMicros res;
  ob_carried : res_Carried res = true -> res_Carried res' = true;
  ob_late : res_Carried res = false -> res_Carried res' = true -> res_UsageVersion res = 0;
  ob_residual : res_ResidualHoldMicros res' = Z.max 0 (res_ReservedCostMicros res - level res');
  ob_gap : tenant_ReservedMicros t' - held res' ≡64 tenant_ReservedMicros t - held res;
  ob_exposure : exposure t' - exposure t ≡64
    Z.max (res_ReservedCostMicros res) (level res') - (res_ResidualHoldMicros res + level res);
  ob_budget : tenant_BudgetMicros t' = tenant_BudgetMicros t
}.

Lemma observe_usage_spec res t req :
  micros (res_ReservedCostMicros res) -> micros (sreq_ActualCostMicros req) ->
  micros (res_CarryEffectMicros res) -> micros (res_ProvisionalCostMicros res) ->
  (res_UsageVersion res = 0 -> res_ProvisionalCostMicros res = 0 /\ res_Carried res = false) ->
  (res_Carried res = true -> res_ResidualHoldMicros res = Z.max 0 (res_ReservedCostMicros res - level res)) ->
  let '(res', t') := observe_usage res t req in observed res t req res' t'.
Proof.
  intros HR Ha Hc Hp Hv Hh. unfold observe_usage. cbv zeta.
  set (res0 := if res_UsageVersion res =? 0 then _ else _).
  assert (Hframe : forall (p : Reservation -> Z), p (res <| res_BaseActualMicros := sreq_ActualCostMicros req |>) = p res
    -> p res0 = p res) by (intros p E; unfold res0; by destruct (_ =? 0)).
  assert (Hcar0 : res_Carried res0 = res_Carried res) by (unfold res0; by destruct (_ =? 0)).
  assert (HR0 : res_ReservedCostMicros res0 = res_ReservedCostMicros res) by (by apply Hframe).
  assert (Hc0 : res_CarryEffectMicros res0 = res_CarryEffectMicros res) by (by apply Hframe).
  assert (Hp0 : res_ProvisionalCostMicros res0 = res_ProvisionalCostMicros res) by (by apply Hframe).
  assert (Hr0 : res_ResidualHoldMicros res0 = res_ResidualHoldMicros res) by (by apply Hframe).
  assert (Hg0 : res_RolloverGuardMicros res0 = res_RolloverGuardMicros res) by (by apply Hframe).
  assert (Hv0 : res_UsageVersion res0 = res_UsageVersion res) by (by apply Hframe).
  assert (Hl0 : level res0 = level res) by (unfold level; by rewrite Hcar0, Hc0, Hp0).
  assert (Hheld0 : held res0 = held res) by (unfold held; by rewrite Hr0, Hg0).
  assert (Hst : res_State res0 = res_State res /\ res_OutboxState res0 = res_OutboxState res /\
    res_Finalized res0 = res_Finalized res) by (unfold res0; by destruct (_ =? 0)).
  assert (Hb0 : res_BaseActualMicros res0 =
    if res_UsageVersion res =? 0 then sreq_ActualCostMicros req else res_BaseActualMicros res)
    by (unfold res0; by destruct (_ =? 0)).
  rewrite <- HR0, <- Hp0. generalize dependent res0. intros res0 _ Hcar0 HR0 Hc0 Hp0 Hr0 Hg0 Hv0 Hl0 Hheld0 (Hs0 & Ho0 & Hf0) Hb0.
  assert (HM : micros (res_ReservedCostMicros res0) /\ micros (res_CarryEffectMicros res0)
    /\ micros (res_ProvisionalCostMicros res0)) by (by rewrite HR0, Hc0, Hp0). destruct HM as (HMR & HMc & HMp).
  assert (Hacc : let '(res1, t1, residual) :=
      if (res_UsageVersion res =? 0) && (state_is (res_State res0) StateUnresolved
           || negb (String.eqb (tenant_CurrentWindowID t) (res_OriginWindowID res0)))
      then account_late res0 t (sreq_ActualCostMicros req) (floor0 (res_ReservedCostMicros res0 -i sreq_ActualCostMicros req))
      else if res_Carried res0
      then account_carried res0 t (sreq_ActualCostMicros req) (floor0 (res_ReservedCostMicros res0 -i sreq_ActualCostMicros req))
      else if negb (res_Carried res0) && negb (String.eqb (res_EnforcementWindowID res0) "")
              && negb (String.eqb (res_EnforcementWindowID res0) (tenant_CurrentWindowID t))
      then account_rolled res0 t (sreq_ActualCostMicros req) (sreq_ActualCostMicros req -i res_ProvisionalCostMicros res0)
             (floor0 (res_ReservedCostMicros res0 -i sreq_ActualCostMicros req))
      else account_current res0 t (sreq_ActualCostMicros req) (sreq_ActualCostMicros req -i res_ProvisionalCostMicros res0)
             (floor0 (res_ReservedCostMicros res0 -i sreq_ActualCostMicros req)) in
    accounted res0 t (sreq_ActualCostMicros req) res1 t1 residual).
  { destruct (Z.eqb_spec (res_UsageVersion res) 0) as [H0|H0]; cbn [andb].
    - destruct (Hv H0) as [Hz Hcf]. rewrite Hcar0, Hcf. cbn [negb andb].
      destruct (state_is _ _ || _); [|destruct (_ && _)].
      + exact (account_late_spec res0 t _ HMR Ha (eq_trans Hcar0 Hcf) (eq_trans Hp0 Hz) (eq_trans Hv0 H0)).
      + exact (account_rolled_spec res0 t _ HMR Ha HMc (eq_trans Hcar0 Hcf)).
      + exact (account_current_spec res0 t _ HMR Ha HMc (eq_trans Hcar0 Hcf)).
    - destruct (res_Carried res0) eqn:Hcf; cbn [negb andb]; [|destruct (_ && _)].
      + refine (account_carried_spec res0 t _ HMR Ha HMc Hcf _).
        rewrite Hr0, HR0, Hl0. apply Hh. congruence.
      + exact (account_rolled_spec res0 t _ HMR Ha HMc Hcf).
      + exact (account_current_spec res0 t _ HMR Ha HMc Hcf). }
  destruct (if _ && _ then _ else _) as [[res1 t1] residual].
  destruct Hacc as [A1 A2 A3 A4 A5 A6 A7 A7' A8 A9 A10 A11 A12 A13].
  set (res' := res1 <| _ := _ |> <| _ := _ |> <| _ := _ |> <| _ := _ |>).
  assert (Hlev : level res' = level_at res1 (sreq_ActualCostMicros req)) by reflexivity.
  split; rewrite ?Hlev; unfold res'; upd; try congruence; try done.
  - by rewrite A9, Hcar0, Hc0.
  - by rewrite <- Hcar0.
  - by rewrite <- Hcar0, <- Hv0.
  - rewrite Hheld0 in A11. unfold held at 1. upd. exact A11.
  - rewrite A12, Hr0, Hl0, A10, HR0. apply eqm64_eq. lia.
Qed.

(** *** Conclusion of a version *)

Record concluded (res : Reservation) (t : tenantLedger) (req : SettleRequest) (res' : Reservation) (t' : tenantLedger)
    : Prop := {
  cn_state : settled_state (res_State res') = true;
  cn_final : final_state (res_State res') = sreq_Final req;
  cn_finalized : res_Finalized res' = res_Finalized res || sreq_Final req;
  cn_outbox : res_OutboxState res' = res_OutboxState res;
  cn_reserved : res_ReservedCostMicros res' = res_ReservedCostMicros res;
  cn_provisional : res_ProvisionalCostMicros res' = res_ProvisionalCostMicros res;
  cn_base : res_BaseActualMicros res' = res_BaseActualMicros res;
  cn_carry : res_CarryEffectMicros res' = res_CarryEffectMicros res;
  cn_carried : res_Carried res' = res_Carried res;
  cn_version : res_UsageVersion res' = res_UsageVersion res;
  cn_hold : if sreq_Final req then res_ResidualHoldMicros res' = 0 /\ res_RolloverGuardMicros res' = 0
            else res_ResidualHoldMicros res' = res_ResidualHoldMicros res /\
                 res_RolloverGuardMicros res' = res_RolloverGuardMicros res;
  cn_tenant : t' = if sreq_Final req then (release_hold res t).2 else t;
  cn_gap : tenant_ReservedMicros t' - held res' ≡64 tenant_ReservedMicros t - held res
}.

Lemma conclude_spec res t req exceeded :
  let '(res', t', _, e) := conclude res t req exceeded in e = None /\ concluded res t req res' t'.
Proof.
  unfold conclude, release_hold. cbv zeta.
  destruct (sreq_Final req) eqn:Hf; upd; [destruct (res_Carried res) eqn:Hc; destruct (_ || exceeded)|];
    repeat match goal with |- context [if ?b then _ else _] => destruct b end;
    (split; [done|]); split; rewrite ?Hf; unfold release_hold, held; cbn [fst snd]; upd; try done;
    rewrite ?orb_true_r, ?orb_false_r; try done; eqm_lia.
Qed.

Lemma conclude_eq res t req exceeded res' t' code e :
  conclude res t req exceeded = (res', t', code, e) -> concluded res t req res' t'.
Proof. intros E. pose proof (conclude_spec res t req exceeded) as Hc. rewrite E in Hc. apply Hc. Qed.

Lemma observe_eq res t req :
  micros (res_ReservedCostMicros res) -> micros (sreq_ActualCostMicros req) ->
  micros (res_CarryEffectMicros res) -> micros (res_ProvisionalCostMicros res) ->
  (res_UsageVersion res = 0 -> res_ProvisionalCostMicros res = 0 /\ res_Carried res = false) ->
  (res_Carried res = true -> res_ResidualHoldMicros res = Z.max 0 (res_ReservedCostMicros res - level res)) ->
  observed res t req (observe_usage res t req).1 (observe_usage res t req).2.
Proof.
  intros H1 H2 H3 H4 H5 H6. pose proof (observe_usage_spec res t req H1 H2 H3 H4 H5 H6) as H.
  by destruct (observe_usage res t req).
Qed.

(** *** Settlement of a request that is not final *)

Record settled (res : Reservation) (t : tenantLedger) (req : SettleRequest) (res' : Reservation) (t' : tenantLedger)
    : Prop := {
  sd_wf : res_wf res';
  sd_state : settled_state (res_State res') = true;
  sd_final : final_state (res_State res') = sreq_Final req;
  sd_reserved : res_ReservedCostMicros res' = res_ReservedCostMicros res;
  sd_level : level res' = if res_Carried res then Z.max (level res) (sreq_ActualCostMicros req)
                          else sreq_ActualCostMicros req;
  sd_version : res_UsageVersion res <= res_UsageVersion res' /\ res_UsageVersion res' = sreq_UsageVersion req;
  sd_gap : tenant_ReservedMicros t' - held res' ≡64 tenant_ReservedMicros t - held res;
  sd_exposure : sreq_Final req = false ->
    exposure t' - exposure t ≡64 Z.max (res_ReservedCostMicros res) (level res') - (res_ResidualHoldMicros res + level res);
  sd_budget : tenant_BudgetMicros t' = tenant_BudgetMicros t
}.

(** A concluded version of an open request. *)
Lemma concluded_settled req res0 t0 res' t' :
  concluded res0 t0 req res' t' ->
  res_Finalized res0 = false -> res_OutboxState res0 = OutboxDelivered -> 0 < res_UsageVersion res0 ->
  micros (res_ReservedCostMicros res0) -> micros (res_ProvisionalCostMicros res0) ->
  micros (res_CarryEffectMicros res0) -> micros (res_BaseActualMicros res0) ->
  (res_Carried res0 = true -> res_BaseActualMicros res0 <= res_CarryEffectMicros res0 /\
    res_ProvisionalCostMicros res0 <= res_CarryEffectMicros res0) ->
  res_ResidualHoldMicros res0 = Z.max 0 (res_ReservedCostMicros res0 - level res0) ->
  res_wf res' /\ level res' = level res0.
Proof.
  intros [C1 C2 C3 C4 C5 C6 C7 C8 C9 C10 C11 C12 C13] Hf Ho Hv HR Hp Hc Hb Hh.
  assert (Hl : level res' = level res0) by (unfold level; by rewrite C9, C8, C6). split; [|done].
  split.
  1-4: by rewrite ?C5, ?C6, ?C7, ?C8.
  - rewrite C4, Ho. by destruct (res_State res').
  - rewrite C3, Hf, C2. done.
  - by rewrite C1, C10.
  - rewrite C10. lia.
  - by rewrite C9, C6, C7, C8.
  - replace (closed_state (res_State res')) with (sreq_Final req)
      by (rewrite <- C2; destruct (res_State res'); done || discriminate).
    destruct (sreq_Final req); [done|]. destruct C11 as [-> _]. by rewrite C5, Hl.
Qed.

(** The components of an outcome, left unreduced. *)
Lemma outcome_eq {A B C D} (a a' : A) (b b' : B) (c c' : C) (d d' : D) :
  (a, b, c, d) = (a', b', c', d') -> a = a' /\ b = b' /\ c = c' /\ d = d'.
Proof. intros E. by simplify_eq. Qed.

(** A refusal is not an acceptance. *)
Ltac refused := let E := fresh in intros E; apply (f_equal snd) in E; discriminate E.

Lemma settle_open_spec res t req exceeded res' t' code :
  res_wf res -> res_Finalized res = false ->
  res_State res <> StateCanceledUnbilled -> res_State res <> StateFailedUnbilled ->
  micros (sreq_ActualCostMicros req) -> 0 < sreq_UsageVersion req ->
  settle_open res t req exceeded = (res', t', code, None) ->
  (code = ReasonSettlementDuplicate /\ t' = t) \/ settled res t req res' t'.
Proof.
  intros Hwf Hnf Hs1 Hs2 Ha Hv. unfold settle_open. cbv beta zeta.
  set (res0 := res <| res_OutboxState := OutboxDelivered |>).
  assert (Hopen : closed_state (res_State res) = false \/ res_State res = StateExpiredUndispatched).
  { pose proof (wf_final _ Hwf) as Hf. rewrite Hnf in Hf. destruct (res_State res); try done; auto. }
  assert (Hhold : res_Carried res = true -> res_ResidualHoldMicros res = Z.max 0 (res_ReservedCostMicros res - level res)).
  { intros Hc. pose proof (wf_hold _ Hwf) as Hh. destruct Hopen as [Ho|Ho]; [by rewrite Ho in Hh|].
    pose proof (wf_version _ Hwf) as Hver. rewrite Ho in Hver.
    destruct (wf_unused _ Hwf Hver) as (_ & Hcf & _). congruence. }
  assert (E0 : res_UsageVersion res0 = res_UsageVersion res /\ res_LastUsageEventID res0 = res_LastUsageEventID res
    /\ res_ProvisionalCostMicros res0 = res_ProvisionalCostMicros res) by done. destruct E0 as (Ev & El & Ep).
  rewrite Ev, El, Ep.
  destruct ((res_UsageVersion res =? 0) && _) eqn:E1; [refused|].
  destruct (Z.ltb_spec (sreq_UsageVersion req) (res_UsageVersion res)) as [|Hge]; [refused|].
  destruct ((sreq_UsageVersion req =? res_UsageVersion res) && negb (res_UsageVersion res =? 0)) eqn:E2.
  - apply andb_prop in E2 as [Heq%Z.eqb_eq Hnz%negb_true_iff%Z.eqb_neq].
    destruct (Z.eqb_spec (sreq_ActualCostMicros req) (res_ProvisionalCostMicros res)) as [Hcost|]; cbn [negb]; [|refused].
    destruct (sreq_Final req) eqn:Hfin; cbn [negb]; [|intros E; injection E as <- <- <-; by left].
    destruct (String.eqb _ (res_LastUsageEventID res)); cbn [negb]; [|refused].
    intros E. right. subst res0.
    apply conclude_eq in E as Hc.
    assert (Hver : 0 < res_UsageVersion res) by lia.
    assert (Hcl : closed_state (res_State res) = false).
    { destruct Hopen as [Ho|Ho]; [done|]. pose proof (wf_version _ Hwf) as H0. rewrite Ho in H0. done. }
    pose proof (wf_hold _ Hwf) as Hh. rewrite Hcl in Hh.
    destruct (concluded_settled _ _ _ _ _ Hc) as [Hwf' Hl']; upd; try done; try apply Hwf; [done..|].
    destruct Hc as [C1 C2 C3 C4 C5 C6 C7 C8 C9 C10 C11 C12 C13].
    split; try done.
    + rewrite Hl'. unfold level. upd. destruct (res_Carried res) eqn:Hcar; [|congruence].
      destruct (wf_carried _ Hwf Hcar). lia.
    + rewrite C10. upd. lia.
    + intros Hff. congruence.
    + rewrite C12. by rewrite Hfin.
  - destruct ((0 <? _) && _); [refused|]. intros E. right.
    pose proof (observe_eq res0 t req (wf_reserved _ Hwf) Ha (wf_carry _ Hwf) (wf_provisional _ Hwf)) as Ho.
    destruct (observe_usage res0 t req) as [res1 t1]. cbn [fst snd] in Ho.
    destruct Ho as [O1 O2 O3 O4 O5 O6 O7 O8 O9 O10 O11 O12 O13 O14 O15 O16];
      [intros H0; destruct (wf_unused _ Hwf H0) as (? & ? & _); by split | done |].
    apply conclude_eq in E as Hc.
    assert (Hcar1 : res_Carried res1 = true -> res_BaseActualMicros res1 <= res_CarryEffectMicros res1 /\
      res_ProvisionalCostMicros res1 <= res_CarryEffectMicros res1).
    { intros Hc1. unfold level in O8. rewrite Hc1 in O8. rewrite O10, O5, O8.
      change (res_Carried res0) with (res_Carried res) in *. rewrite Ev.
      destruct (res_Carried res) eqn:Hcar.
      - destruct (wf_carried _ Hwf Hcar). destruct (Z.eqb_spec (res_UsageVersion res) 0) as [Hz|_].
        { destruct (wf_unused _ Hwf Hz) as (_ & ? & _). congruence. }
        change (res_CarryEffectMicros res0) with (res_CarryEffectMicros res).
        change (res_BaseActualMicros res0) with (res_BaseActualMicros res). lia.
      - rewrite <- Ev, (O12 eq_refl Hc1). cbn. lia. }
    destruct (concluded_settled _ _ _ _ _ Hc) as [Hwf' Hl'].
    + by rewrite O3.
    + by rewrite O2.
    + by rewrite O6.
    + rewrite O4. apply Hwf.
    + by rewrite O5.
    + done.
    + rewrite O10. destruct (_ =? 0); [done | apply Hwf].
    + done.
    + by rewrite O13, O4.
    + destruct Hc as [C1 C2 C3 C4 C5 C6 C7 C8 C9 C10 C11 C12 C13]. split; try done.
      * by rewrite C5.
      * rewrite Hl', O8. unfold level. unfold res0. upd. by destruct (res_Carried res).
      * rewrite C10, O6. lia.
      * rewrite C13. exact O14.
      * intros Hfin. rewrite Hfin in C12. subst t'. rewrite Hl'. exact O15.
      * rewrite C12. destruct (sreq_Final req); exact O16.
Qed.

(** *** Correction of a finalized request *)

(** The debt a correction of a finalized request is charged. *)
Definition corrected_debt (res : Reservation) (actual : Z) : Z :=
  if (res_ProvisionalCostMicros res <? actual) && (res_BaseActualMicros res <? actual)
  then if res_Carried res then actual else actual - res_BaseActualMicros res
  else res_CarryEffectMicros res.

Record corrected (res : Reservation) (t : tenantLedger) (req : SettleRequest) (res' : Reservation) (t' : tenantLedger)
    : Prop := {
  cr_wf : res_wf res';
  cr_state : res_State res' = res_State res;
  cr_version : res_UsageVersion res' = res_UsageVersion res +i 1;
  cr_debt : res_CarryEffectMicros res' = corrected_debt res (sreq_ActualCostMicros req);
  cr_carried : tenant_CarriedAdjustmentMicros t' - tenant_CarriedAdjustmentMicros t
    ≡64 corrected_debt res (sreq_ActualCostMicros req) - res_CarryEffectMicros res;
  cr_settled : tenant_SettledMicros t' = tenant_SettledMicros t;
  cr_hold : tenant_ReservedMicros t' = tenant_ReservedMicros t /\ held res' = held res;
  cr_budget : tenant_BudgetMicros t' = tenant_BudgetMicros t
}.

Lemma correct_finalized_spec res t req exceeded res' t' code :
  res_wf res -> res_Finalized res = true -> micros (sreq_ActualCostMicros req) -> 0 < sreq_UsageVersion req ->
  correct_finalized res t req exceeded = (res', t', code, None) ->
  corrected res t req res' t'.
Proof.
  intros Hwf Hf Ha Hv. unfold correct_finalized, set_credit. cbv beta zeta.
  rewrite (micros_diff _ _ Ha (wf_provisional _ Hwf)). upd.
  destruct (negb _ || negb _) eqn:Hg; [refused|]. apply orb_false_elim in Hg as [Hver%negb_false_iff%Z.eqb_eq _].
  rewrite (micros_diff _ _ Ha (wf_base _ Hwf)).
  pose proof (wf_final _ Hwf) as Hfs. rewrite Hf in Hfs.
  assert (Hset : settled_state (res_State res) = true) by (by destruct (res_State res)).
  assert (Hclosed : closed_state (res_State res) = true) by (by destruct (res_State res)).
  pose proof (wf_hold _ Hwf) as Hh. rewrite Hclosed in Hh.
  pose proof (wf_carry _ Hwf) as Hc. pose proof (wf_base _ Hwf) as Hb. pose proof (wf_provisional _ Hwf) as Hp.
  assert (Hkeep : micros (if res_Carried res then sreq_ActualCostMicros req
                          else sreq_ActualCostMicros req - res_BaseActualMicros res)
                  \/ sreq_ActualCostMicros req <= res_BaseActualMicros res).
  { unfold micros in *. destruct (res_Carried res); lia. }
  assert (Hcar := wf_carried _ Hwf).
  destruct (Z.ltb_spec 0 (sreq_ActualCostMicros req - res_ProvisionalCostMicros res)) as [Hup|Hdown];
    destruct (Z.ltb_spec (res_ProvisionalCostMicros res) (sreq_ActualCostMicros req)); try lia;
    [destruct (Z.ltb_spec (res_BaseActualMicros res) (sreq_ActualCostMicros req)) as [Hover|Hunder];
     upd; destruct (_ || exceeded)|]; cbn [andb]; intros (<- & <- & <- & _)%outcome_eq.
  all: split; unfold held; upd; try done; try eqm_lia.
  all: try (split; upd; rewrite ?Hset, ?Hclosed; try apply Hwf; try done; try lia).
  all: try by destruct Hkeep; [|lia].
  all: try (intros Hcr; specialize (Hcar Hcr); rewrite ?Hcr in *; lia).
  all: unfold corrected_debt;
    repeat match goal with |- context [?a <? ?b] => destruct (Z.ltb_spec a b); try lia end; cbn [andb];
    try reflexivity; eqm_lia.
Qed.

(** *** Settlement *)

Lemma sum_micros_in64 msg l : forall s t, in64 s -> sum_micros msg s l = Ok t -> in64 t.
Proof.
  induction l as [|m l IH]; intros s t Hs; cbn [sum_micros].
  { intros E. by injection E as <-. }
  destruct (_ || _); [discriminate|]. apply IH, wrap64_range.
Qed.

(** The reservation of a settlement with its actual components. *)
Definition with_actual (res : Reservation) (components : list ActualChargeComponent) (missing : list Basis)
    (exceeded : bool) : Reservation :=
  res <| res_ActualComponents := components |> <| res_MissingUsageBases := missing |>
      <| res_ComponentBoundExceeded := res_ComponentBoundExceeded res || exceeded |>.

Lemma with_actual_wf res components missing exceeded :
  res_wf res -> res_wf (with_actual res components missing exceeded).
Proof. intros Hwf. unfold with_actual. split; upd; apply Hwf. Qed.

(** The request of a settlement with the cost the ledger computed. *)
Record priced_request (req req' : SettleRequest) : Prop := {
  pq_id : sreq_SettlementID req' = sreq_SettlementID req;
  pq_version : sreq_UsageVersion req' = sreq_UsageVersion req;
  pq_predecessor : sreq_PredecessorEventID req' = sreq_PredecessorEventID req;
  pq_final : sreq_Final req' = true -> sreq_Final req = true
}.

Section apply_settlement.
Context `{Crypto}.

Lemma applySettlement_inv res t req res' t' code :
  applySettlement res t req = (res', t', code, None) ->
  exists components missing exceeded req',
    SettleComponents (res_PricingSnapshot res) (res_ReservedComponents res) (settlement_usage req)
      = Ok (components, missing, exceeded) /\
    SumActualComponents components = Ok (sreq_ActualCostMicros req') /\
    priced_request req req' /\ (missing <> [] -> sreq_Final req' = false) /\
    micros (sreq_ActualCostMicros req') /\ 0 < sreq_UsageVersion req' /\
    (res_State res <> StateCanceledUnbilled /\ res_State res <> StateFailedUnbilled /\ res_State res <> StateReserved) /\
    let res1 := with_actual res components missing exceeded in
    (if res_Finalized res then correct_finalized res1 t req' exceeded else settle_open res1 t req' exceeded)
      = (res', t', code, None).
Proof.
  unfold applySettlement.
  destruct (SettleComponents _ _ _) as [[[components missing] exceeded]|m] eqn:Hset; [|refused].
  destruct (SumActualComponents components) as [actual|m] eqn:Hsum; [|refused].
  destruct (negb _ && negb _); [refused|]. cbv zeta.
  set (req1 := req <| sreq_ActualCostMicros := actual |>).
  set (req' := match missing with [] => req1 | _ => _ end).
  assert (Hreq : sreq_ActualCostMicros req' = actual /\ priced_request req req' /\ (missing <> [] -> sreq_Final req' = false)).
  { unfold req', req1. destruct missing; [|destruct (String.eqb _ ""%string)]; upd; (split; [done|]);
      (split; [split; upd; done | done]). }
  destruct Hreq as (Hact & Hpq & Hmiss).
  destruct (Z.ltb_spec (sreq_ActualCostMicros req') 0); cbn [orb]; [refused|].
  destruct (Z.leb_spec (sreq_UsageVersion req') 0); [refused|].
  change (res <| _ := components |> <| _ := missing |> <| _ := _ |>) with (with_actual res components missing exceeded).
  change (res_State (with_actual res components missing exceeded)) with (res_State res).
  change (res_Finalized (with_actual res components missing exceeded)) with (res_Finalized res).
  unfold state_is. destruct (bool_decide_reflect (res_State res = StateCanceledUnbilled)); [refused|].
  destruct (bool_decide_reflect (res_State res = StateFailedUnbilled)); [refused|].
  destruct (bool_decide_reflect (res_State res = StateReserved)); cbn [orb]; [refused|].
  destruct (outbox_is _ _); [refused|]. intros E.
  exists components, missing, exceeded, req'. rewrite Hact in *.
  split; [done|]. split; [done|]. split; [done|]. split; [done|].
  split; [|done]. split; [done|]. apply (sum_micros_in64 _ _ 0) in Hsum as [_ Hs]; [done|]. by split.
Qed.
End apply_settlement.

(** *** Dispatch and cancellation *)

Lemma applyDispatch_wf res status res' code :
  res_wf res -> applyDispatch res status = (res', code, None) -> res_wf res' /\ held res' = held res.
Proof.
  intros Hwf. unfold applyDispatch, state_is, outbox_is.
  assert (Hv := wf_version _ Hwf). assert (Hu := wf_unused _ Hwf). assert (Hh := wf_hold _ Hwf).
  assert (Hc := wf_carried _ Hwf). assert (Hf := wf_final _ Hwf). assert (Ho := wf_outbox _ Hwf).
  repeat match goal with
  | |- (if String.eqb ?a ?b then _ else _) = _ -> _ => destruct (String.eqb a b)
  | |- (if _ then _ else _) = _ -> _ =>
    let E := fresh in destruct (_ || _) eqn:E; [refused|];
    apply orb_false_elim in E as [?%negb_false_iff%bool_decide_eq_true ?%negb_false_iff%bool_decide_eq_true]
  | |- (_, _, Some _) = _ -> _ => refused
  end;
  intros E; (assert (E' := f_equal (fun x => x.1.1) E)); cbn [fst] in E'; clear E; rewrite <- E'; (split; [|done]);
  split; upd; try apply Hwf; try done;
  repeat match goal with H : res_State res = _ |- _ => rewrite H in * end; try done.
  all: match goal with H : res_OutboxState ?r = _ |- _ => rewrite H end; done.
Qed.

Lemma applyCancel_wf res t authoritative res' t' code :
  res_wf res -> applyCancel res t authoritative = (res', t', code, None) ->
  res_wf res' /\ tenant_ReservedMicros t' - held res' ≡64 tenant_ReservedMicros t - held res.
Proof.
  intros Hwf. unfold applyCancel, release_hold, outbox_is. cbv zeta.
  assert (Hv := wf_version _ Hwf). assert (Hu := wf_unused _ Hwf). assert (Hh := wf_hold _ Hwf).
  assert (Hc := wf_carried _ Hwf). assert (Hf := wf_final _ Hwf). assert (Ho := wf_outbox _ Hwf).
  destruct (res_State res) eqn:Hs; try refused;
    repeat match goal with |- (if ?b then _ else _) = _ -> _ => destruct b; try refused end;
    intros (E1 & E2 & _ & _)%outcome_eq; rewrite <- E1, <- E2; clear E1 E2; unfold held.
  all: (split; [split; upd; rewrite ?Hs; try apply Hwf; try done | upd; try reflexivity; eqm_lia]).
  all: try (by intros Hz; destruct (Hu Hz) as (? & ? & _)).
  all: match goal with H : outbox_ok _ ?o = true |- _ => by destruct o end.
Qed.

(** ** Properties of the transitions *)

(** The moves of the life cycle. *)
Definition may_move (s s' : ReservationState) : bool :=
  match s with
  | StateReserved =>
    match s' with StateDispatchPending | StateCanceledUnbilled | StateExpiredUndispatched => true | _ => false end
  | StateDispatchPending | StateDispatched | StateUnresolved =>
    settled_state s' || match s', s with
                        | StateUnresolved, _ | StateFailedUnbilled, _ | StateDispatched, StateDispatchPending => true
                        | _, _ => false
                        end
  | StateSettledProvisional | StateLateSettledProvisional | StateCorrectedProvisional | StateExpiredUndispatched =>
    settled_state s'
  | StateFinalized => match s' with StateFinalized => true | _ => false end
  | StateLateFinalized => match s' with StateLateFinalized => true | _ => false end
  | _ => false
  end.

Section ledger_properties.
Context `{Crypto}.

(** An accepted transition of a reservation and its tenant. *)
Inductive ledger_step : Reservation -> tenantLedger -> Reservation -> tenantLedger -> Prop :=
| step_dispatch res t status res' code :
    applyDispatch res status = (res', code, None) -> ledger_step res t res' t
| step_settle res t req res' t' code :
    applySettlement res t req = (res', t', code, None) -> code <> ReasonSettlementDuplicate ->
    ledger_step res t res' t'
| step_cancel res t authoritative res' t' code :
    applyCancel res t authoritative = (res', t', code, None) -> code <> ReasonDuplicateEvent ->
    ledger_step res t res' t'.

Lemma settle_step res t req res' t' code :
  res_wf res -> applySettlement res t req = (res', t', code, None) -> code <> ReasonSettlementDuplicate ->
  exists res1 req', res_wf res1 /\ level res1 = level res /\ held res1 = held res /\
    res_State res1 = res_State res /\ res_UsageVersion res1 = res_UsageVersion res /\
    res_ReservedCostMicros res1 = res_ReservedCostMicros res /\ res_Carried res1 = res_Carried res /\
    res_CarryEffectMicros res1 = res_CarryEffectMicros res /\
    res_ResidualHoldMicros res1 = res_ResidualHoldMicros res /\ priced_request req req' /\
    if res_Finalized res then corrected res1 t req' res' t' else settled res1 t req' res' t'.
Proof.
  intros Hwf (comps & missing & ex & req' & _ & _ & Hq & _ & Ha & Hv & (Hs1 & Hs2 & _) & E)%applySettlement_inv Hdup.
  exists (with_actual res comps missing ex), req'.
  pose proof (with_actual_wf res comps missing ex Hwf) as Hwf1.
  repeat (split; [done|]). cbv zeta in E. destruct (res_Finalized res) eqn:Hf.
  - by apply (correct_finalized_spec _ _ _ ex _ _ code).
  - destruct (settle_open_spec _ _ _ _ _ _ _ Hwf1 Hf Hs1 Hs2 Ha Hv E) as [[? _]|Hset]; done.
Qed.

Lemma ledger_step_books res t res' t' :
  ledger_step res t res' t' -> res_wf res ->
  res_wf res' /\ tenant_ReservedMicros t' - held res' ≡64 tenant_ReservedMicros t - held res /\
  tenant_BudgetMicros t' = tenant_BudgetMicros t.
Proof.
  intros [r u status r' code E | r u req r' u' code E Hd | r u a r' u' code E Hd] Hwf.
  - destruct (applyDispatch_wf _ _ _ _ Hwf E) as [Hwf' ->]. done.
  - destruct (settle_step _ _ _ _ _ _ Hwf E Hd) as (r1 & req' & _ & _ & Hh & _ & _ & _ & _ & _ & _ & _ & Hs).
    destruct (res_Finalized r).
    + destruct Hs as [S1 S2 S3 S4 S5 S6 [S7 S8] S9]. rewrite S7, S8, Hh. done.
    + destruct Hs as [S1 S2 S3 S4 S5 S6 S7 S8 S9]. rewrite S7, Hh. done.
  - destruct (applyCancel_wf _ _ _ _ _ _ Hwf E) as [Hwf' Hgap]. split; [done|split; [done|]].
    revert E. unfold applyCancel. destruct (res_State r); cbv beta zeta;
      repeat match goal with |- (if ?b then _ else _) = _ -> _ => destruct b end;
      first [refused | by intros (_ & <- & _ & _)%outcome_eq].
Qed.

Lemma ledger_step_moves res t res' t' :
  ledger_step res t res' t' -> res_wf res -> may_move (res_State res) (res_State res') = true.
Proof.
  intros [r u status r' code E | r u req r' u' code E Hd | r u a r' u' code E Hd] Hwf.
  - revert E. unfold applyDispatch, state_is.
    destruct (String.eqb status _); [|destruct (String.eqb status _);
      [|destruct (String.eqb status _); [|destruct (String.eqb status _); refused]]];
    (destruct (negb (bool_decide _) || _) eqn:Hg; [refused|]);
    apply orb_false_elim in Hg as [Hs%negb_false_iff%bool_decide_eq_true _];
    intros E; apply (f_equal (fun x => x.1.1)) in E; cbn [fst] in E; by rewrite <- E, Hs.
  - destruct (settle_step _ _ _ _ _ _ Hwf E Hd) as (r1 & req' & _ & _ & _ & Hst & _ & _ & _ & _ & _ & _ & Hs).
    pose proof (wf_final _ Hwf) as Hfin. pose proof (wf_outbox _ Hwf) as Hbox.
    apply applySettlement_inv in E as (? & ? & ? & ? & _ & _ & _ & _ & _ & _ & (N1 & N2 & N3) & _).
    destruct (res_Finalized r).
    + destruct Hs as [_ -> _ _ _ _ _ _]. rewrite Hst. by destruct (res_State r).
    + destruct Hs as [_ Hset _ _ _ _ _ _ _]. unfold may_move. rewrite Hset. by destruct (res_State r).
  - revert E. unfold applyCancel. destruct (res_State r); cbv beta zeta;
      repeat match goal with |- (if ?b then _ else _) = _ -> _ => destruct b end;
      first [refused | by intros (<- & _ & _ & _)%outcome_eq | by intros (_ & _ & <- & _)%outcome_eq].
Qed.

(** every accepted dispatch, settlement and cancellation keeps the
    reservation well formed and the books balanced: the tenant's reserved micros
    move by exactly what the reservation holds (modulo 2^64, as Go computes),
    and the budget is untouched. *)
Theorem transitions_keep_books res t res' t' :
  ledger_step res t res' t' -> res_wf res ->
  res_wf res' /\ tenant_ReservedMicros t' - held res' ≡64 tenant_ReservedMicros t - held res /\
  tenant_BudgetMicros t' = tenant_BudgetMicros t.
Proof. exact (ledger_step_books res t res' t'). Qed.

(** the life cycle is the state machine of [may_move]; in particular a
    canceled or unbilled request never moves again, and finality is never
    undone. *)
Theorem transitions_follow_life_cycle res t res' t' :
  ledger_step res t res' t' -> res_wf res -> may_move (res_State res) (res_State res') = true.
Proof. exact (ledger_step_moves res t res' t'). Qed.

(** a provisional settlement of a held request charges the tenant the larger
    of the reservation and the usage seen so far, never less than before for a
    carried request: the exposure moves from max(reserved, level) to
    max(reserved, level'). *)
Theorem provisional_settlement_exposure res t req res' t' code :
  res_wf res -> closed_state (res_State res) = false ->
  applySettlement res t req = (res', t', code, None) -> code <> ReasonSettlementDuplicate ->
  final_state (res_State res') = false ->
  exposure t' - exposure t ≡64
    Z.max (res_ReservedCostMicros res) (level res') - Z.max (res_ReservedCostMicros res) (level res) /\
  (res_Carried res = true -> level res <= level res').
Proof.
  intros Hwf Hopen E Hd Hnf.
  destruct (settle_step _ _ _ _ _ _ Hwf E Hd)
    as (r1 & req' & _ & Hl & _ & _ & _ & HR & Hc & _ & Hr & _ & Hs).
  pose proof (wf_hold _ Hwf) as Hh. rewrite Hopen in Hh.
  replace (res_Finalized res) with false in Hs
    by (rewrite (wf_final _ Hwf); by destruct (res_State res)).
  destruct Hs as [_ _ Hf _ Hlev _ _ Hexp _]. rewrite Hnf in Hf. specialize (Hexp (eq_sym Hf)). split.
  - rewrite Hexp, HR, Hr, Hl, Hh. apply eqm64_eq. lia.
  - intros Hcar. rewrite Hc, Hcar, Hl in Hlev. lia.
Qed.

(** an expired request is still settled: a provisional settlement of a
    request whose expiry already released its hold charges the tenant the whole
    reservation again, although it was never dispatched. *)
Theorem expired_request_is_settled res t req res' t' code :
  res_wf res -> res_State res = StateExpiredUndispatched ->
  applySettlement res t req = (res', t', code, None) -> code <> ReasonSettlementDuplicate ->
  final_state (res_State res') = false ->
  exposure t' - exposure t ≡64 Z.max (res_ReservedCostMicros res) (level res').
Proof.
  intros Hwf Hs E Hd Hnf.
  destruct (settle_step _ _ _ _ _ _ Hwf E Hd)
    as (r1 & req' & _ & Hl & _ & _ & _ & HR & Hc & _ & Hr & _ & Hset).
  pose proof (wf_hold _ Hwf) as Hh. pose proof (wf_version _ Hwf) as Hv. rewrite Hs in Hh, Hv.
  destruct Hh as [Hh _]. destruct (wf_unused _ Hwf Hv) as (Hp & Hcar & _).
  assert (Hl0 : level res = 0) by (unfold level; by rewrite Hcar).
  replace (res_Finalized res) with false in Hset by (by rewrite (wf_final _ Hwf), Hs).
  destruct Hset as [_ _ Hf _ Hlev _ _ Hexp _]. rewrite Hnf in Hf. specialize (Hexp (eq_sym Hf)).
  rewrite Hexp, HR, Hr, Hl, Hh, Hl0. apply eqm64_eq. lia.
Qed.

(** after finality only an upward correction above the first reported cost
    is charged, as the debt [corrected_debt]: a correction up to the first
    reported cost is free of charge even when the final cost was lower, and the
    debt of a later one replaces the previous debt instead of adding to it. *)
Theorem post_final_correction_debt res t req res' t' code :
  res_wf res -> res_Finalized res = true ->
  applySettlement res t req = (res', t', code, None) ->
  exists actual, res_ProvisionalCostMicros res' = actual /\
  tenant_CarriedAdjustmentMicros t' - tenant_CarriedAdjustmentMicros t
    ≡64 corrected_debt res actual - res_CarryEffectMicros res /\
  tenant_SettledMicros t' = tenant_SettledMicros t /\ tenant_ReservedMicros t' = tenant_ReservedMicros t.
Proof.
  intros Hwf Hf (comps & missing & ex & req' & _ & _ & Hq & _ & Ha & Hv & _ & E)%applySettlement_inv.
  cbv zeta in E. rewrite Hf in E.
  pose proof (with_actual_wf res comps missing ex Hwf) as Hwf1.
  exists (sreq_ActualCostMicros req').
  destruct (correct_finalized_spec _ _ _ _ _ _ _ Hwf1 Hf Ha Hv E) as [_ _ _ _ Hcar Hset [Hres _] _].
  split; [|done]. revert E. unfold correct_finalized, set_credit. cbv beta zeta.
  destruct (_ || _); [refused|].
  repeat match goal with |- context [if ?b then _ else _] => destruct b end; intros (<- & _)%outcome_eq; upd; done.
Qed.

(** cancellation frees the hold exactly when it is proved unbilled: a canceled
    request leaves nothing held and the exposure falls by what was held; an
    unproven cancellation of a dispatched request leaves the tenant untouched. *)
Theorem cancellation_releases_hold res t authoritative res' t' code :
  applyCancel res t authoritative = (res', t', code, None) ->
  if bool_decide (code = ReasonCanceled)
  then (res_State res = StateReserved \/ authoritative = true) /\
       held res' = 0 /\ exposure t - exposure t' ≡64 held res
  else t' = t.
Proof.
  unfold applyCancel, release_hold. cbv zeta.
  destruct (res_State res); try refused;
    repeat match goal with |- (if ?b then _ else _) = _ -> _ => destruct b eqn:?; try refused end;
    intros (E1 & E2 & <- & _)%outcome_eq; rewrite <- E1, <- E2; clear E1 E2; case_bool_decide; try done.
  all: (split; [|split]); unfold held, exposure; upd; try lia; try eqm_lia.
  all: first [by left | right; match goal with H : negb _ = false |- _ => by apply negb_false_iff in H end].
Qed.
End ledger_properties.

(** ** A concrete request *)

Module LedgerExample.
(** An admitted request with its priced components: 82500 micros on hold. *)
Definition admitted : Reservation :=
  zero_reservation <| res_RequestID := "req-1" |> <| res_TenantID := "red" |> <| res_WorkloadUID := "wl-1" |>
    <| res_ProviderAttemptID := "req-1:attempt:1" |> <| res_OutboxState := OutboxPending |>
    <| res_State := StateReserved |> <| res_ReservedCostMicros := 82500 |> <| res_ResidualHoldMicros := 82500 |>
    <| res_ReservedComponents := PricingExample.reserved |> <| res_PricingSnapshot := PricingExample.normalized |>
    <| res_OriginWindowID := "daily:2026-07-14" |> <| res_EnforcementWindowID := "daily:2026-07-14" |>.
Definition tenant : tenantLedger :=
  Build_tenantLedger 1000000 0 82500 0 0 {["req-1"]} "budget" "daily:2026-07-14" 0 "daily".
Definition next_day : tenantLedger := tenant <| tenant_CurrentWindowID := "daily:2026-07-15" |>.

Definition dispatched : Reservation :=
  admitted <| res_State := StateDispatched |> <| res_OutboxState := OutboxDelivered |>.
Definition expired : Reservation :=
  admitted <| res_State := StateExpiredUndispatched |> <| res_OutboxState := OutboxCanceled |>
    <| res_ResidualHoldMicros := 0 |>.

(** Tool calls cost 25000 micros each, input tokens 2.5, output tokens 10. *)
Definition usage (calls : Z) : list UsageQuantity :=
  [Build_UsageQuantity ProviderBasisToolCall calls; Build_UsageQuantity ProviderBasisInputTokens 0;
   Build_UsageQuantity ProviderBasisOutputTokens 0].
Definition report (event : string) (calls version : Z) (predecessor : string) (final : bool) : SettleRequest :=
  Build_SettleRequest "req-1" event "req-1:attempt:1" "red" "wl-1" 0 "" 0 0 (usage calls) version predecessor final ""
    "red" "wl-1".

Definition run (o : outcome) : Reservation * tenantLedger := (o.1.1.1, o.1.1.2).
(** The reservation and tenant after a sequence of reports. *)
Definition settle_all (res : Reservation) (t : tenantLedger) (reports : list SettleRequest)
    : Reservation * tenantLedger :=
  fold_left (fun st req => run (@applySettlement go_crypto st.1 st.2 req)) reports (res, t).

Definition first : outcome := Eval vm_compute in @applySettlement go_crypto dispatched tenant (report "s1" 1 1 "" false).
Definition late : outcome := Eval vm_compute in @applySettlement go_crypto expired tenant (report "s1" 1 1 "" false).
Definition final : outcome := Eval vm_compute in @applySettlement go_crypto dispatched tenant (report "s1" 3 1 "" true).
Definition correction : outcome := Eval vm_compute in @applySettlement go_crypto final.1.1.1 final.1.1.2 (report "s2" 4 2 "s1" true).
Definition costs (st : Reservation * tenantLedger) : list Z :=
  [tenant_SettledMicros st.2; tenant_ReservedMicros st.2; tenant_CarriedAdjustmentMicros st.2].
End LedgerExample.

Lemma outcome_split (o : outcome) : o.2 = None -> o = (o.1.1.1, o.1.1.2, o.1.2, None).
Proof. destruct o as [[[a b] c] d]. by intros [= ->]. Qed.

Lemma dispatched_wf : res_wf LedgerExample.dispatched.
Proof.
  unfold LedgerExample.dispatched, LedgerExample.admitted, zero_reservation.
  split; unfold micros, max_int64, level; upd; cbn; lia || done.
Qed.
Lemma expired_wf : res_wf LedgerExample.expired.
Proof.
  unfold LedgerExample.expired, LedgerExample.admitted, zero_reservation.
  split; unfold micros, max_int64, level; upd; cbn; lia || done.
Qed.

Lemma first_step : @ledger_step go_crypto LedgerExample.dispatched LedgerExample.tenant
  LedgerExample.first.1.1.1 LedgerExample.first.1.1.2.
Proof.
  apply (@step_settle go_crypto _ _ (LedgerExample.report "s1" 1 1 "" false) _ _ LedgerExample.first.1.2).
  - apply outcome_split. vm_compute. reflexivity.
  - vm_compute. discriminate.
Qed.
Lemma final_step : @ledger_step go_crypto LedgerExample.dispatched LedgerExample.tenant
  LedgerExample.final.1.1.1 LedgerExample.final.1.1.2.
Proof.
  apply (@step_settle go_crypto _ _ (LedgerExample.report "s1" 3 1 "" true) _ _ LedgerExample.final.1.2).
  - apply outcome_split. vm_compute. reflexivity.
  - vm_compute. discriminate.
Qed.
Lemma final_wf : res_wf LedgerExample.final.1.1.1.
Proof.
  assert (Hf : forall r, map (fun f => f r) [res_ReservedCostMicros; res_ProvisionalCostMicros; res_CarryEffectMicros;
      res_BaseActualMicros; res_UsageVersion; res_ResidualHoldMicros; res_RolloverGuardMicros]
      = [82500; 75000; 0; 75000; 1; 0; 0] ->
    (res_State r, res_OutboxState r, res_Finalized r, res_Carried r) = (StateFinalized, OutboxDelivered, true, false) ->
    res_wf r).
  { intros r H1 H2. cbn [map] in H1.
    injection H1 as E1 E2 E3 E4 E5 E6 E7. injection H2 as F1 F2 F3 F4.
    split; rewrite ?E1, ?E2, ?E3, ?E4, ?E5, ?F1, ?F2, ?F3, ?F4; unfold micros, max_int64; cbn; done || lia. }
  apply Hf; vm_compute; reflexivity.
Qed.

Lemma transitions_keep_books_witness :
  res_wf LedgerExample.first.1.1.1 /\
  tenant_ReservedMicros LedgerExample.first.1.1.2 - held LedgerExample.first.1.1.1
    ≡64 tenant_ReservedMicros LedgerExample.tenant - held LedgerExample.dispatched /\
  tenant_BudgetMicros LedgerExample.first.1.1.2 = tenant_BudgetMicros LedgerExample.tenant.
Proof. exact (@transitions_keep_books go_crypto _ _ _ _ first_step dispatched_wf). Defined.

Lemma transitions_follow_life_cycle_witness :
  may_move (res_State LedgerExample.dispatched) (res_State LedgerExample.first.1.1.1) = true.
Proof. exact (@transitions_follow_life_cycle go_crypto _ _ _ _ first_step dispatched_wf). Defined.

Lemma provisional_settlement_exposure_witness :
  exposure LedgerExample.first.1.1.2 - exposure LedgerExample.tenant
    ≡64 Z.max (res_ReservedCostMicros LedgerExample.dispatched) (level LedgerExample.first.1.1.1)
        - Z.max (res_ReservedCostMicros LedgerExample.dispatched) (level LedgerExample.dispatched).
Proof.
  apply (@provisional_settlement_exposure go_crypto LedgerExample.dispatched LedgerExample.tenant
           (LedgerExample.report "s1" 1 1 "" false) LedgerExample.first.1.1.1 _ LedgerExample.first.1.2).
  - exact dispatched_wf.
  - reflexivity.
  - apply outcome_split. vm_compute. reflexivity.
  - vm_compute. discriminate.
  - vm_compute. reflexivity.
Defined.

Lemma expired_request_is_settled_witness :
  exposure LedgerExample.late.1.1.2 - exposure LedgerExample.tenant
    ≡64 Z.max (res_ReservedCostMicros LedgerExample.expired) (level LedgerExample.late.1.1.1).
Proof.
  apply (@expired_request_is_settled go_crypto LedgerExample.expired LedgerExample.tenant
           (LedgerExample.report "s1" 1 1 "" false) LedgerExample.late.1.1.1 _ LedgerExample.late.1.2).
  - exact expired_wf.
  - reflexivity.
  - apply outcome_split. vm_compute. reflexivity.
  - vm_compute. discriminate.
  - vm_compute. reflexivity.
Defined.

Lemma post_final_correction_debt_witness :
  exists actual, res_ProvisionalCostMicros LedgerExample.correction.1.1.1 = actual /\
  tenant_CarriedAdjustmentMicros LedgerExample.correction.1.1.2 - tenant_CarriedAdjustmentMicros LedgerExample.final.1.1.2
    ≡64 corrected_debt LedgerExample.final.1.1.1 actual - res_CarryEffectMicros LedgerExample.final.1.1.1 /\
  tenant_SettledMicros LedgerExample.correction.1.1.2 = tenant_SettledMicros LedgerExample.final.1.1.2 /\
  tenant_ReservedMicros LedgerExample.correction.1.1.2 = tenant_ReservedMicros LedgerExample.final.1.1.2.
Proof.
  apply (@post_final_correction_debt go_crypto LedgerExample.final.1.1.1 LedgerExample.final.1.1.2
           (LedgerExample.report "s2" 4 2 "s1" true) LedgerExample.correction.1.1.1 LedgerExample.correction.1.1.2
           LedgerExample.correction.1.2).
  - exact final_wf.
  - vm_compute. reflexivity.
  - apply outcome_split. vm_compute. reflexivity.
Defined.

Lemma cancellation_releases_hold_witness :
  let o := applyCancel LedgerExample.dispatched LedgerExample.tenant true in
  held o.1.1.1 = 0 /\ exposure LedgerExample.tenant - exposure o.1.1.2 ≡64 held LedgerExample.dispatched.
Proof.
  exact (proj2 (cancellation_releases_hold LedgerExample.dispatched LedgerExample.tenant true _ _ ReasonCanceled eq_refl)).
Defined.

(** The two ways in which corrections after finality miss the cost: reports of
    75000, 25000 (final) and 50000 micros leave 25000 charged for a cost of 50000;
    reports of 25000, 75000 (final) and 100000 leave 150000 charged for a cost of
    100000. And a debt shrinks: 25000 (final), 75000, 0, 50000 leave 25000 of the
    50000 owed before the downward correction. *)
Example post_final_undercharge :
  LedgerExample.costs (LedgerExample.settle_all LedgerExample.dispatched LedgerExample.tenant
    [LedgerExample.report "s1" 3 1 "" false; LedgerExample.report "s2" 1 2 "s1" true;
     LedgerExample.report "s3" 2 3 "s2" true]) = [25000; 0; 0].
Proof. vm_compute. reflexivity. Qed.
Example post_final_overcharge :
  LedgerExample.costs (LedgerExample.settle_all LedgerExample.dispatched LedgerExample.tenant
    [LedgerExample.report "s1" 1 1 "" false; LedgerExample.report "s2" 3 2 "s1" true;
     LedgerExample.report "s3" 4 3 "s2" true]) = [75000; 0; 75000].
Proof. vm_compute. reflexivity. Qed.
Example post_final_debt_shrinks :
  LedgerExample.costs (LedgerExample.settle_all LedgerExample.dispatched LedgerExample.tenant
    [LedgerExample.report "s1" 1 1 "" true; LedgerExample.report "s2" 3 2 "s1" true;
     LedgerExample.report "s3" 0 3 "s2" true; LedgerExample.report "s4" 2 4 "s3" true]) = [25000; 0; 25000].
Proof. vm_compute. reflexivity. Qed.
