(* ===== verification/Cohorts.v ===== *)
(** * Frozen cohorts and budget adjustments ([internal/govar/ledger_extensions.go])

    The administrator-signed records the ledger trusts: the immutable cohorts that
    allocate a tenant's risk to opportunities, their validation, signature and
    use at admission, and the signature of a budget adjustment. *)

From Stdlib Require Import ZArith Lia Ascii String SpecFloat.
From stdpp Require Import base gmap strings list pretty sorting.
From S2P Require Import Prelude Digest GoTime Api Json Pricing Calibration Routes AdmissionPolicy Ledger.

Open Scope string_scope.
Open Scope list_scope.
Open Scope Z_scope.
Open Scope go_scope.

Record FrozenCohortSlot : Type := Build_FrozenCohortSlot {
  slot_Index : Z;
  slot_RequestID : string;
  slot_OpportunityDigest : string;
  slot_WeightPPB : Z
}.

Record FrozenCohort : Type := Build_FrozenCohort {
  coh_TenantID : string;
  coh_CohortID : string;
  coh_Size : Z;
  coh_TenantRiskPPB : Z;
  coh_Slots : list FrozenCohortSlot;
  coh_DataHash : string;
  coh_ConfigHash : string;
  coh_ProtocolHash : string;
  coh_FrozenAt : Time;
  coh_RegisteredAt : Time;
  coh_RegistryDigest : string;
  coh_AuthorityKeyID : string;
  coh_AuthorityProof : string;
  coh_LedgerLayoutID : string;
  coh_RouteSnapshotSchema : string;
  coh_SoftwareHash : string
}.
#[export] Instance coh_eta : Eta FrozenCohort := fun c =>
  Build_FrozenCohort (coh_TenantID c) (coh_CohortID c) (coh_Size c) (coh_TenantRiskPPB c) (coh_Slots c)
    (coh_DataHash c) (coh_ConfigHash c) (coh_ProtocolHash c) (coh_FrozenAt c) (coh_RegisteredAt c)
    (coh_RegistryDigest c) (coh_AuthorityKeyID c) (coh_AuthorityProof c) (coh_LedgerLayoutID c)
    (coh_RouteSnapshotSchema c) (coh_SoftwareHash c).

Definition LedgerLayoutID : string := "govar-v5-complete-liability-20260713".
Definition RouteSnapshotSchemaID : string := "govar-route-snapshot-v1".

Record BudgetAdjustment : Type := Build_BudgetAdjustment {
  adj_AdjustmentID : string;
  adj_TenantID : string;
  adj_WindowID : string;
  adj_NewBudgetMicros : Z;
  adj_DebtPaymentMicros : Z;
  adj_AuthorizedBy : string;
  adj_Reason : string;
  adj_AuthorityKeyID : string;
  adj_ApprovedAt : Time;
  adj_ExpiresAt : Time;
  adj_AuthorityProof : string
}.
#[export] Instance adj_eta : Eta BudgetAdjustment := fun a =>
  Build_BudgetAdjustment (adj_AdjustmentID a) (adj_TenantID a) (adj_WindowID a) (adj_NewBudgetMicros a)
    (adj_DebtPaymentMicros a) (adj_AuthorizedBy a) (adj_Reason a) (adj_AuthorityKeyID a) (adj_ApprovedAt a)
    (adj_ExpiresAt a) (adj_AuthorityProof a).

(** The parts one risk unit is divided in: parts per billion. *)
Definition one_ppb : Z := 1000000000.

(** Strings joined with the unit separator [\x1f]. *)
Definition unit_separator : string := String (ascii_of_N 31) EmptyString.

(** [cohortKey]: [tenant + "\x00" + cohort]. *)
Definition cohortKey (tenant cohort : string) : string := tenant +:+ String zero cohort.

(** The slots in index order: complete, unique, and weighing at most one. *)
Fixpoint check_slots (i : Z) (requests digests : gset string) (weightSum : Z) (slots : list FrozenCohortSlot) : result Z :=
  match slots with
  | [] => Ok weightSum
  | slot :: rest =>
    if negb (slot_Index slot =? i) || String.eqb (slot_RequestID slot) "" || negb (is_sha256 (slot_OpportunityDigest slot))
       || (slot_WeightPPB slot <? 0) || (one_ppb <? slot_WeightPPB slot)
    then Err "cohort slots must be complete, unique, and indexed from zero"
    else if bool_decide (slot_RequestID slot ∈ requests) then Err "duplicate cohort request_id"
    else if bool_decide (slot_OpportunityDigest slot ∈ digests) then Err "duplicate cohort opportunity digest"
    else if one_ppb -i slot_WeightPPB slot <? weightSum then Err "cohort weights exceed one"
    else check_slots (i + 1) ({[slot_RequestID slot]} ∪ requests) ({[slot_OpportunityDigest slot]} ∪ digests)
           (weightSum +i slot_WeightPPB slot) rest
  end.

Definition sorted_slots (slots : list FrozenCohortSlot) : list FrozenCohortSlot :=
  sort_slice (fun i j => slot_Index i <? slot_Index j) slots.

Definition slot_fields (slot : FrozenCohortSlot) : list string :=
  [sprint (slot_Index slot); slot_RequestID slot; slot_OpportunityDigest slot; sprint (slot_WeightPPB slot)].

(** The record a registry digest covers. *)
Definition cohort_fields (c : FrozenCohort) : list string :=
  ["govar-frozen-cohort-v2"; coh_TenantID c; coh_CohortID c; sprint (coh_Size c); sprint (coh_TenantRiskPPB c);
   coh_DataHash c; coh_ConfigHash c; coh_ProtocolHash c; coh_LedgerLayoutID c; coh_RouteSnapshotSchema c;
   coh_SoftwareHash c; RFC3339Nano (coh_FrozenAt c)]
  ++ concat (map slot_fields (coh_Slots c)).

(** The record a budget adjustment's proof covers. *)
Definition adjustment_fields (a : BudgetAdjustment) : list string :=
  [adj_AdjustmentID a; adj_TenantID a; adj_WindowID a; sprint (adj_NewBudgetMicros a); sprint (adj_DebtPaymentMicros a);
   adj_AuthorizedBy a; adj_Reason a; RFC3339Nano (adj_ApprovedAt a); RFC3339Nano (adj_ExpiresAt a)].

(** [^[A-Za-z0-9][A-Za-z0-9._:-]{2,127}$]. *)
Definition selectedFeedbackRunID (s : string) : bool :=
  match_class alnum authority_rest s && (3 <=? String.length s)%nat && (String.length s <=? 128)%nat.
Definition selectedFeedbackDataset : string := "routereval_math_outcomes".

(** [SelectedFeedbackBinding.Validate]. *)
Definition SelectedFeedbackBinding_Validate (b : SelectedFeedbackBinding) : option error :=
  if negb (selectedFeedbackRunID (sfb_RunID b)) then Some "run_id has an unsafe identity"
  else if negb (String.eqb (sfb_DatasetID b) selectedFeedbackDataset)
  then Some "dataset_id is not the selected-feedback dataset"
  else if negb (existsb (String.eqb (sfb_Split b)) ["train"; "calibration"; "development"; "frozen_test"])
  then Some "split is outside the closed selected-feedback set"
  else if forallb is_sha256 [sfb_ItemID b; sfb_ProtocolSHA256 b; sfb_OracleArtifactSHA256 b; sfb_SoftwareSHA256 b;
                             sfb_ConfigSHA256 b]
  then None else Some "value must be a lowercase SHA-256 digest".

Section cohorts.
Context `{Crypto}.

(** [selectedFeedbackBindingSHA256]: the digest of the binding's JSON. *)
Definition selectedFeedbackBindingSHA256 (binding : option SelectedFeedbackBinding) : string :=
  match binding with
  | None => ""
  | Some b => sha256_hex (json_object
      [fld "schema" (json_string "govar-selected-feedback-binding-v1"); fld "run_id" (json_string (sfb_RunID b));
       fld "dataset_id" (json_string (sfb_DatasetID b)); fld "split" (json_string (sfb_Split b));
       fld "item_id" (json_string (sfb_ItemID b)); fld "protocol_sha256" (json_string (sfb_ProtocolSHA256 b));
       fld "oracle_artifact_sha256" (json_string (sfb_OracleArtifactSHA256 b));
       fld "software_sha256" (json_string (sfb_SoftwareSHA256 b)); fld "config_sha256" (json_string (sfb_ConfigSHA256 b))])
  end.

Definition normalizeFrozenCohort (c : FrozenCohort) : result FrozenCohort :=
  if blank (coh_TenantID c) || blank (coh_CohortID c) || (coh_Size c <=? 0)
  then Err "tenant_id, cohort_id, and positive size are required"
  else if (coh_TenantRiskPPB c <? 0) || (one_ppb <? coh_TenantRiskPPB c) || IsZero (coh_FrozenAt c)
  then Err "valid tenant risk and frozen_at are required"
  else if negb (Z.of_nat (length (coh_Slots c)) =? coh_Size c) || negb (is_sha256 (coh_DataHash c))
          || negb (is_sha256 (coh_ConfigHash c)) || negb (is_sha256 (coh_ProtocolHash c))
          || negb (is_sha256 (coh_SoftwareHash c)) || negb (String.eqb (coh_LedgerLayoutID c) LedgerLayoutID)
          || negb (String.eqb (coh_RouteSnapshotSchema c) RouteSnapshotSchemaID)
  then Err "complete slots and immutable data/config/protocol hashes are required"
  else
    let slots := sorted_slots (coh_Slots c) in
    let? weightSum := check_slots 0 ∅ ∅ 0 slots in
    if negb (weightSum =? one_ppb) then Err "cohort weights do not sum to 1000000000"
    else let c := c <| coh_Slots := slots |> in
         Ok (c <| coh_RegistryDigest := eventPayloadHash (cohort_fields c) |>).

Definition cohort_proof (key : string) (c : FrozenCohort) : string :=
  authorityMAC key "govar-cohort-authority-v2" [coh_RegistryDigest c].

Definition SignFrozenCohort (cohort : FrozenCohort) (keyID key : string) : result FrozenCohort :=
  let? c := normalizeFrozenCohort cohort in
  Ok (c <| coh_AuthorityKeyID := keyID |> <| coh_AuthorityProof := cohort_proof key c |>).

Definition adjustment_proof (key : string) (a : BudgetAdjustment) : string :=
  authorityMAC key "govar-budget-adjustment-authority-v1" (adjustment_fields a).

Definition SignBudgetAdjustment (a : BudgetAdjustment) (keyID key : string) : BudgetAdjustment :=
  let a := a <| adj_AuthorityKeyID := keyID |> in
  a <| adj_AuthorityProof := adjustment_proof key a |>.

Definition OpportunityDigest (req : AdmitRequest) : string :=
  eventPayloadHash ["govar-opportunity-v1"; areq_RequestID req; areq_Namespace req; areq_TenantID req;
    areq_WorkloadUID req; areq_Team req; areq_Application req; sprint_bool (areq_SensitiveData req);
    Join (sort_strings (areq_AllowedZones req)) unit_separator; areq_BudgetPolicyName req;
    areq_RoutingPolicyName req; sprint (areq_InputTokens req); sprint_bool (areq_InputTokensExact req);
    sprint (areq_MaxOutputTokens req)].

(** The risk allocated to a slot. *)
Definition slot_risk (c : FrozenCohort) (slot : FrozenCohortSlot) : Z :=
  Z.quot (mul64 (coh_TenantRiskPPB c) (slot_WeightPPB slot)) one_ppb.

(** [None] is a panic: the division by the size, or the index of the slot. *)
Definition validateCohortAdmission (req : AdmitRequest) (routing : AIRoutingPolicy) (c : FrozenCohort) (now : Time)
    : option (result Z) :=
  if String.eqb (coh_RegistryDigest c) "" || After (coh_FrozenAt c) now || IsZero (coh_RegisteredAt c)
     || After (coh_RegisteredAt c) now || (areq_CohortIndex req <? 0) || (coh_Size c <=? areq_CohortIndex req)
  then Some (Err "cohort is absent, not frozen before admission, or slot is out of range")
  else match rs_GOVAR (rpol_Spec routing) with
  | None => Some (Err "typed fixed-cohort policy is required")
  | Some govar =>
    match grs_Cohort govar, grs_Risk govar with
    | Some cohort, Some risk =>
      if negb (String.eqb (rp_Method (grs_Reservation govar)) GOVARReservationFixedCohort)
      then Some (Err "typed fixed-cohort policy is required")
      else if negb (String.eqb (chp_RegistryRef cohort) (coh_RegistryDigest c)) || negb (chp_Size cohort =? coh_Size c)
              || negb (String.eqb (chp_OpportunitySetHash cohort) (coh_DataHash c))
              || negb (String.eqb (chp_WeightsHash cohort) (coh_ConfigHash c))
              || negb (chp_FrozenAt cohort =? coh_FrozenAt c)
      then Some (Err "typed cohort identity does not match immutable registry")
      else if negb (rkp_TenantRiskPPB risk =? coh_TenantRiskPPB c)
      then Some (Err "typed tenant risk does not match immutable registry")
      else if String.eqb (rkp_Allocation risk) "uniform" && (0 <? Z.of_nat (length (coh_Slots c))) && (coh_Size c =? 0)
      then None
      else if String.eqb (rkp_Allocation risk) "uniform"
              && negb (forallb (fun s => slot_WeightPPB s =? Z.quot one_ppb (coh_Size c)) (coh_Slots c))
      then Some (Err "uniform typed allocation does not match registry weights")
      else if negb (String.eqb (rkp_Allocation risk) "uniform") && negb (String.eqb (rkp_Allocation risk) "fixed-weights")
      then Some (Err "unsupported typed risk allocation")
      else if areq_CohortIndex req <? 0 then None
      else match coh_Slots c !! Z.to_nat (areq_CohortIndex req) with
      | None => None
      | Some slot =>
        if negb (String.eqb (slot_RequestID slot) (areq_RequestID req))
           || negb (String.eqb (slot_OpportunityDigest slot) (OpportunityDigest req))
        then Some (Err "request does not match immutable frozen cohort opportunity")
        else Some (Ok (slot_risk c slot))
      end
    | _, _ => Some (Err "typed fixed-cohort policy is required")
    end
  end.
End cohorts.

(** ** Properties of normalized cohorts *)

Definition slot_range (slot : FrozenCohortSlot) : Prop := 0 <= slot_WeightPPB slot <= one_ppb.

Lemma check_slots_ok slots : forall i requests digests w s,
  0 <= w <= one_ppb -> check_slots i requests digests w slots = Ok s ->
  s = w + zsum (map slot_WeightPPB slots) /\ s <= one_ppb /\
  map slot_Index slots = seqZ i (Z.of_nat (length slots)) /\ Forall slot_range slots /\
  NoDup (map slot_RequestID slots) /\ NoDup (map slot_OpportunityDigest slots) /\
  (forall slot, slot ∈ slots -> (slot_RequestID slot ∉ requests) /\ (slot_OpportunityDigest slot ∉ digests)).
Proof.
  induction slots as [|slot slots IH]; intros i requests digests w s Hw; cbn [check_slots map length].
  { intros E. injection E as <-. repeat split; try constructor; try done; [cbn; lia|lia|set_solver..]. }
  destruct (_ || _) eqn:Hhead; [discriminate|]. bool_to_prop.
  destruct (bool_decide_reflect (slot_RequestID slot ∈ requests)) as [|Hr]; [discriminate|].
  destruct (bool_decide_reflect (slot_OpportunityDigest slot ∈ digests)) as [|Hd]; [discriminate|].
  unfold one_ppb in *.
  rewrite sub64_id by (unfold in64, min_int64, max_int64; lia).
  destruct (Z.ltb_spec (1000000000 - slot_WeightPPB slot) w) as [|Hle]; [discriminate|].
  rewrite add64_id by (unfold in64, min_int64, max_int64; lia).
  intros (-> & Hs & Hidx & Hrange & Hnr & Hnd & Hfresh)%IH; [|lia].
  rewrite zsum_cons, seqZ_cons by lia.
  replace (Z.pred (Z.of_nat (S (length slots)))) with (Z.of_nat (length slots)) by lia.
  split; [lia|]. split; [lia|]. split; [by f_equal|].
  split; [constructor; [unfold slot_range, one_ppb; lia | done]|]. split; [|split].
  - constructor; [|done]. intros (x & Hx & Hin)%list_elem_of_fmap. apply (Hfresh x) in Hin. set_solver.
  - constructor; [|done]. intros (x & Hx & Hin)%list_elem_of_fmap. apply (Hfresh x) in Hin. set_solver.
  - intros x [->|Hin]%elem_of_cons; [done|]. apply Hfresh in Hin. set_solver.
Qed.

(** Flooring each share loses nothing but rounding: the shares of a whole never
    exceed it. *)
Lemma shares_within_whole (risk : Z) (weights : list Z) :
  0 <= risk -> Forall (fun w => 0 <= w) weights ->
  0 <= zsum (map (fun w => Z.quot (risk * w) one_ppb) weights) /\
  zsum (map (fun w => Z.quot (risk * w) one_ppb) weights) * one_ppb <= risk * zsum weights.
Proof.
  intros Hr. unfold one_ppb. induction 1 as [|w weights Hw _ IH]; cbn [map]; [cbn; lia|]. rewrite !zsum_cons.
  assert (0 <= risk * w) by nia. rewrite Z.quot_div_nonneg by lia.
  pose proof (Z.div_mod (risk * w) 1000000000 ltac:(lia)).
  pose proof (Z.mod_pos_bound (risk * w) 1000000000 ltac:(lia)).
  pose proof (Z.div_pos (risk * w) 1000000000). lia.
Qed.

Lemma slot_risk_exact c slot :
  0 <= coh_TenantRiskPPB c <= one_ppb -> slot_range slot ->
  slot_risk c slot = Z.quot (coh_TenantRiskPPB c * slot_WeightPPB slot) one_ppb.
Proof.
  unfold slot_risk, slot_range, one_ppb. intros Hr Hs. rewrite mul64_id; [done|].
  unfold in64, min_int64, max_int64. nia.
Qed.

Lemma sorted_slots_length slots : length (sorted_slots slots) = length slots.
Proof. apply sort_slice_length. Qed.

(** What normalization establishes. *)
Record normal_cohort (c : FrozenCohort) : Prop := {
  nc_risk : 0 <= coh_TenantRiskPPB c <= one_ppb;
  nc_size : Z.of_nat (length (coh_Slots c)) = coh_Size c /\ 0 < coh_Size c;
  nc_index : map slot_Index (coh_Slots c) = seqZ 0 (coh_Size c);
  nc_range : Forall slot_range (coh_Slots c);
  nc_weights : zsum (map slot_WeightPPB (coh_Slots c)) = one_ppb;
  nc_requests : NoDup (map slot_RequestID (coh_Slots c));
  nc_digests : NoDup (map slot_OpportunityDigest (coh_Slots c))
}.

Section cohort_properties.
Context `{Crypto}.

Lemma normalize_inv c n :
  normalizeFrozenCohort c = Ok n ->
  n = c <| coh_Slots := sorted_slots (coh_Slots c) |>
        <| coh_RegistryDigest := eventPayloadHash (cohort_fields (c <| coh_Slots := sorted_slots (coh_Slots c) |>)) |> /\
  check_slots 0 ∅ ∅ 0 (sorted_slots (coh_Slots c)) = Ok one_ppb /\
  0 <= coh_TenantRiskPPB c <= one_ppb /\ Z.of_nat (length (coh_Slots c)) = coh_Size c /\ 0 < coh_Size c.
Proof.
  unfold normalizeFrozenCohort. intros Hn. peel_all Hn. cbv zeta in Hn.
  apply res_bind_ok in Hn as (w & Hw & Hn). destruct (Z.eqb_spec w one_ppb) as [->|]; [|discriminate Hn].
  cbn [negb] in Hn. injection Hn as <-. bool_to_prop. repeat split; try done; lia.
Qed.

Lemma normalize_normal c n :
  normalizeFrozenCohort c = Ok n ->
  normal_cohort n /\ coh_Slots n ≡ₚ coh_Slots c /\ coh_TenantRiskPPB n = coh_TenantRiskPPB c.
Proof.
  intros (-> & Hcheck & Hrisk & Hsize & Hpos)%normalize_inv.
  apply check_slots_ok in Hcheck as (Hsum & _ & Hidx & Hrange & Hr & Hd & _); [|unfold one_ppb; lia].
  rewrite sorted_slots_length, Hsize in Hidx. upd. split; [|split; [apply sort_slice_perm | done]].
  split; upd; try done. by rewrite sorted_slots_length.
Qed.

(** A registered cohort never makes an admission panic. *)
Lemma validateCohortAdmission_total req routing c now : normal_cohort c -> is_Some (validateCohortAdmission req routing c now).
Proof.
  intros Hn. destruct (nc_size _ Hn) as [Hlen Hpos]. unfold validateCohortAdmission.
  destruct (Z.ltb_spec (areq_CohortIndex req) 0) as [|Hlo]; [rewrite orb_true_r; by eexists|].
  destruct (Z.leb_spec (coh_Size c) (areq_CohortIndex req)) as [|Hhi]; [rewrite orb_true_r; by eexists|].
  destruct (_ || _ || _); [by eexists|]. destruct (rs_GOVAR _) as [g|]; [|by eexists].
  destruct (grs_Cohort g), (grs_Risk g); try by eexists. rewrite (proj2 (Z.eqb_neq (coh_Size c) 0)) by lia. rewrite andb_false_r.
  repeat match goal with |- context [if ?b then Some (Err _) else _] => destruct b; [by eexists|] end.
  destruct (lookup_lt_is_Some_2 (coh_Slots c) (Z.to_nat (areq_CohortIndex req))) as [slot ->]; [lia|]. destruct (_ || _); by eexists.
Qed.

Lemma slot_risk_nonneg c slot : normal_cohort c -> slot ∈ coh_Slots c -> 0 <= slot_risk c slot.
Proof.
  intros Hn Hs. pose proof (nc_range _ Hn) as Hr. rewrite Forall_forall in Hr. destruct (Hr _ Hs), (nc_risk _ Hn).
  rewrite slot_risk_exact by (done || by apply Hr). apply Z.quot_pos; [nia | unfold one_ppb; lia].
Qed.

Lemma normal_risk n : normal_cohort n -> 0 <= zsum (map (slot_risk n) (coh_Slots n)) <= coh_TenantRiskPPB n.
Proof.
  intros Hn. pose proof (nc_range _ Hn) as Hrange. destruct (nc_risk _ Hn) as [Hr0 Hr1].
  assert (Hmap : map (slot_risk n) (coh_Slots n) =
    map (fun w => Z.quot (coh_TenantRiskPPB n * w) one_ppb) (map slot_WeightPPB (coh_Slots n))).
  { rewrite map_map. apply map_ext_Forall. eapply Forall_impl; [exact Hrange|].
    intros slot Hs. by rewrite slot_risk_exact. }
  rewrite Hmap. destruct (shares_within_whole (coh_TenantRiskPPB n) (map slot_WeightPPB (coh_Slots n)))
    as [Hlo Hhi]; [lia| |].
  { apply Forall_map. eapply Forall_impl; [exact Hrange|]. by intros slot [? _]. }
  rewrite (nc_weights _ Hn) in Hhi. unfold one_ppb in *. lia.
Qed.

(** a registered cohort allocates its tenant's risk and no more: slots are
    indexed from zero without gap, no request or opportunity has two of them,
    the weights add up to one, and the floors of the allocated risks add up to
    at most the tenant's risk. *)
Theorem cohort_allocates_tenant_risk c n :
  normalizeFrozenCohort c = Ok n ->
  normal_cohort n /\ coh_Slots n ≡ₚ coh_Slots c /\ coh_TenantRiskPPB n = coh_TenantRiskPPB c /\
  0 <= zsum (map (slot_risk n) (coh_Slots n)) <= coh_TenantRiskPPB n.
Proof. intros (Hn & Hp & Hr)%normalize_normal. auto using normal_risk. Qed.

Lemma sorted_slots_unique c slots n : coh_Slots c ≡ₚ slots -> normalizeFrozenCohort c = Ok n ->
  sorted_slots slots = sorted_slots (coh_Slots c).
Proof.
  intros Hp Hn. pose proof (normalize_inv _ _ Hn) as (_ & Hcheck & _).
  apply check_slots_ok in Hcheck as (_ & _ & Hidx & _); [|unfold one_ppb; lia].
  symmetry. apply sort_slice_unique; [intros; lia|intros; lia| |done].
  intros x y Hx Hy H1 H2.
  assert (Hnd : NoDup (map slot_Index (coh_Slots c))).
  { rewrite <- (Permutation_map slot_Index (sort_slice_perm (fun i j => slot_Index i <? slot_Index j) (coh_Slots c))).
    unfold sorted_slots in Hidx. rewrite Hidx. apply NoDup_seqZ. }
  apply list_elem_of_lookup in Hx as [i Hi]. apply list_elem_of_lookup in Hy as [j Hj].
  enough (i = j) by congruence.
  apply (NoDup_lookup (map slot_Index (coh_Slots c)) i j (slot_Index x)); [done|..].
  - by rewrite list_lookup_fmap, Hi.
  - rewrite list_lookup_fmap, Hj. cbn. f_equal. lia.
Qed.

(** the order in which an administrator lists the slots is irrelevant: a
    permutation of an acceptable cohort normalizes to the same cohort, with the
    same registry digest. *)
Theorem cohort_order_irrelevant c slots n :
  coh_Slots c ≡ₚ slots -> normalizeFrozenCohort c = Ok n ->
  normalizeFrozenCohort (c <| coh_Slots := slots |>) = Ok n.
Proof.
  intros Hp Hn. pose proof (sorted_slots_unique _ _ _ Hp Hn) as Hsort.
  revert Hn. unfold normalizeFrozenCohort. upd. rewrite Hsort, (Permutation_length Hp). done.
Qed.

(** A signed cohort normalizes to itself. *)
Lemma sign_normalize c keyID key s : SignFrozenCohort c keyID key = Ok s ->
  normalizeFrozenCohort s = Ok s /\ coh_AuthorityKeyID s = keyID /\ coh_AuthorityProof s = cohort_proof key s /\
  coh_TenantID s = coh_TenantID c /\ coh_CohortID s = coh_CohortID c /\ coh_FrozenAt s = coh_FrozenAt c /\
  coh_SoftwareHash s = coh_SoftwareHash c.
Proof.
  unfold SignFrozenCohort. intros (n & Hn & E)%res_bind_ok.
  apply (f_equal (result_or c)) in E. cbn [result_or] in E. subst s.
  pose proof (normalize_inv _ _ Hn) as (-> & _).
  pose proof (sort_slice_perm (fun i j => slot_Index i <? slot_Index j) (coh_Slots c)) as Hp.
  pose proof (sorted_slots_unique c (sorted_slots (coh_Slots c)) _ (symmetry Hp) Hn) as Hsort.
  split; [|done]. revert Hn. unfold normalizeFrozenCohort. upd. rewrite Hsort, sorted_slots_length.
  repeat match goal with |- context [if ?b then _ else _] =>
    lazymatch b with context [check_slots] => fail | _ => destruct b; [discriminate|] end end.
  intros (w & Hw & Hn)%res_bind_ok. rewrite Hw. cbn [res_bind]. destruct (negb (w =? one_ppb)); [discriminate|]. done.
Qed.
End cohort_properties.

(** A message authentication code is written in lower-case hexadecimal. *)
Class HmacLaws `{Crypto} : Prop := hmac_lower : forall key s, ToLower (hmac_sha256_hex key s) = hmac_sha256_hex key s.

#[export] Instance go_hmac_laws : @HmacLaws go_crypto.
Proof.
  intros key s. unfold ToLower, hmac_sha256_hex, go_crypto. set (l := hmac_sum256 _ _).
  assert (Hl : forallb lower_hex (bytes_of (hex_encode l)) = true)
    by (apply hex_encode_lower, sum256_bounded).
  generalize dependent (hex_encode l). intros t Ht. unfold string_of_bytes, bytes_of in *.
  induction t as [|c t IH]; [done|]. cbn [list_ascii_of_string map forallb] in *. bool_to_prop.
  match goal with Hc : lower_hex _ = true |- _ => unfold lower_hex in Hc; rename Hc into Hlow end.
  cbn [string_of_list_ascii]. f_equal; [|by apply IH].
  unfold lower_byte.
  match goal with |- context [if ?b then _ else _] => destruct b eqn:E end; [exfalso | apply ascii_N_embedding].
  apply andb_prop in E as [?%N.leb_le ?%N.leb_le].
  apply orb_prop in Hlow as [[?%N.leb_le ?%N.leb_le]%andb_prop | [?%N.leb_le ?%N.leb_le]%andb_prop]; lia.
Qed.

(** ** A concrete cohort *)

Module CohortExample.
Definition digit_digest (d : string) : string :=
  d +:+ "123456789abcdef0123456789abcdef0123456789abcdef0123456789abcdef".
Definition slot_a : FrozenCohortSlot := Build_FrozenCohortSlot 0 "req-a" (digit_digest "a") 333333333.
Definition slot_b : FrozenCohortSlot := Build_FrozenCohortSlot 1 "req-b" (digit_digest "b") 666666667.
Definition draft : FrozenCohort :=
  Build_FrozenCohort "red" "cohort-1" 2 50000000 [slot_b; slot_a] (digit_digest "1") (digit_digest "2")
    (digit_digest "3") 1784000000000000000 zero_time "" "" "" LedgerLayoutID RouteSnapshotSchemaID (digit_digest "4").
Definition normal : FrozenCohort := Eval vm_compute in result_or draft (@normalizeFrozenCohort go_crypto draft).
End CohortExample.

Lemma cohort_allocates_tenant_risk_witness :
  normal_cohort CohortExample.normal /\
  0 <= zsum (map (slot_risk CohortExample.normal) (coh_Slots CohortExample.normal))
    <= coh_TenantRiskPPB CohortExample.normal.
Proof.
  destruct (@cohort_allocates_tenant_risk go_crypto CohortExample.draft CohortExample.normal) as (H1 & _ & _ & H2).
  - vm_compute. reflexivity.
  - by split.
Defined.

Lemma cohort_order_irrelevant_witness :
  @normalizeFrozenCohort go_crypto
    (CohortExample.draft <| coh_Slots := [CohortExample.slot_a; CohortExample.slot_b] |>) = Ok CohortExample.normal.
Proof.
  apply (@cohort_order_irrelevant go_crypto CohortExample.draft).
  - apply perm_swap.
  - vm_compute. reflexivity.
Defined.
