(* ===== verification/Engine.v ===== *)
(** * The in-memory ledger engine ([internal/govar/engine.go], [ledger_extensions.go])

    The state of an [Engine] and its handlers. A handler takes the engine and a
    request and returns the engine after the call with the values Go returns; the
    mutex makes a call one atomic step. [engine_now] is the value of [e.now()]
    while a call runs: the fixed time of [ConfigureTrustedTime], or the reading of
    the clock at the call. *)

From Stdlib Require Import ZArith Lia Ascii String SpecFloat.
From stdpp Require Import base gmap strings list pretty sorting.
From S2P Require Import Prelude Digest GoTime Api Json Pricing Calibration Routes AdmissionPolicy Ledger Cohorts.

Open Scope string_scope.
Open Scope list_scope.
Open Scope Z_scope.
Open Scope go_scope.

(** ** State *)

Record inboxEvent : Type := Build_inboxEvent {
  inbox_RequestID : string;
  inbox_Kind : string;
  inbox_PayloadHash : string
}.

Record Engine : Type := Build_Engine {
  engine_reservations : gmap string Reservation;
  engine_inbox : gmap string inboxEvent;
  engine_tenants : gmap string tenantLedger;
  engine_cohorts : gmap string FrozenCohort;
  engine_adjustments : gmap string string;
  engine_authorityKeyID : string;
  engine_authorityKey : string;
  engine_cohortSoftwareHash : string;
  engine_calibrationEvidenceSource : string;
  engine_now : Time
}.
#[export] Instance engine_eta : Eta Engine := fun e =>
  Build_Engine (engine_reservations e) (engine_inbox e) (engine_tenants e) (engine_cohorts e) (engine_adjustments e)
    (engine_authorityKeyID e) (engine_authorityKey e) (engine_cohortSoftwareHash e)
    (engine_calibrationEvidenceSource e) (engine_now e).

Definition NewEngine (now : Time) : Engine :=
  Build_Engine ∅ ∅ ∅ ∅ ∅ "" "" "" CalibrationEvidenceSourcePostgreSQLV8 now.

Record AdmitResponse : Type := Build_AdmitResponse {
  resp_Decision : Decision;
  resp_ReasonCode : ReasonCode;
  resp_SelectedDeployment : string;
  resp_ReservationID : string;
  resp_ProviderAttemptID : string;
  resp_ProviderRetryPolicy : string;
  resp_ReservedCostMicros : Z;
  resp_ReservationMode : string;
  resp_AllocatedRiskPPB : Z;
  resp_RiskLevel : string;
  resp_PolicyVersion : string;
  resp_PricingVersion : string;
  resp_Expiry : string;
  resp_TraceID : string;
  resp_RouteSnapshot : option RouteSnapshot;
  resp_SettlementUsageBases : list Basis
}.

Record LiabilityResponse : Type := Build_LiabilityResponse {
  liab_TenantID : string;
  liab_SettledSpendMicros : Z;
  liab_OutstandingLiabilityMicros : Z;
  liab_CarriedAdjustmentMicros : Z;
  liab_AvailableBudgetMicros : Z;
  liab_ActiveReservations : Z;
  liab_CurrentWindowID : string;
  liab_HistoricalAuditCreditMicros : Z
}.

Record ReconciliationRecord : Type := Build_ReconciliationRecord {
  rec_RequestID : string;
  rec_TenantID : string;
  rec_ProviderAttemptID : string;
  rec_State : ReservationState;
  rec_OutboxState : OutboxState;
  rec_Expiry : Time;
  rec_PreviousState : ReservationState;
  rec_TransitionEffective : bool
}.

(** The values of a transition handler: [(Reservation, ReasonCode, error)]. *)
Definition reply : Type := Reservation * ReasonCode * option error.

(** [err != nil]. *)
Definition failed (e : option error) : bool := match e with Some _ => true | None => false end.

(** ** Configuration *)

Definition no_ledger_state (e : Engine) : bool :=
  (size (engine_reservations e) =? 0)%nat && (size (engine_tenants e) =? 0)%nat
  && (size (engine_cohorts e) =? 0)%nat && (size (engine_adjustments e) =? 0)%nat.

Definition ConfigureInMemoryQualificationEvidence (e : Engine) : Engine * option error :=
  if negb (no_ledger_state e) then (e, Some "qualification evidence provenance must be configured before ledger state")
  else (e <| engine_calibrationEvidenceSource := CalibrationEvidenceSourceInMemoryQualificationV1 |>, None).

Definition ConfigureTrustedTime (e : Engine) (at_ : Time) : Engine * option error :=
  if IsZero at_ then (e, Some "trusted replay time is required")
  else if negb (no_ledger_state e) then (e, Some "trusted replay time must be configured before ledger state")
  else (e <| engine_now := at_ |>, None).

Definition ConfigureLedgerAuthority (e : Engine) (keyID key : string) : Engine * option error :=
  if String.eqb keyID "" || (String.length key <? 32)%nat
  then (e, Some "ledger authority requires key id and at least 32 secret bytes")
  else (e <| engine_authorityKeyID := keyID |> <| engine_authorityKey := key |>, None).

Definition ConfigureCohortRuntime (e : Engine) (softwareHash : string) : Engine * option error :=
  if negb (is_sha256 softwareHash) then (e, Some "cohort runtime software hash must be SHA-256")
  else (e <| engine_cohortSoftwareHash := softwareHash |>, None).

(** ** Validation of requests *)

Definition validatePrincipal (tenantID workloadUID authenticatedTenantID authenticatedWorkloadUID : string)
    : option error :=
  if String.eqb tenantID "" || String.eqb workloadUID "" || String.eqb authenticatedTenantID ""
     || String.eqb authenticatedWorkloadUID ""
  then Some "tenant_id, workload_uid, and authenticated principal are required"
  else if negb (String.eqb tenantID authenticatedTenantID) || negb (String.eqb workloadUID authenticatedWorkloadUID)
  then Some "request principal does not match authenticated principal"
  else None.

Definition validateEventPrincipal (requestID eventID tenantID workloadUID authenticatedTenantID authenticatedWorkloadUID
    : string) : option error :=
  if blank requestID || blank eventID then Some "request_id and event_id are required"
  else validatePrincipal tenantID workloadUID authenticatedTenantID authenticatedWorkloadUID.

Definition validateSettleRequest (req : SettleRequest) : option error :=
  let legacy := TrimSpace (sreq_LegacyActualCost req) in
  if blank (sreq_SettlementID req) then Some "settlement_id is required"
  else if blank (sreq_ProviderAttemptID req) then Some "provider_attempt_id is required"
  else if negb (String.eqb legacy "") && negb (String.eqb legacy "0") && negb (String.eqb legacy "0.0")
  then Some "actual_cost is deprecated; send integer actual_cost_micros"
  else validateEventPrincipal (sreq_RequestID req) (sreq_SettlementID req) (sreq_TenantID req) (sreq_WorkloadUID req)
         (sreq_AuthenticatedTenantID req) (sreq_AuthenticatedWorkloadUID req).

Definition validateAdmitRequest (req : AdmitRequest) : option error :=
  if blank (areq_RequestID req) || blank (areq_TenantID req) || blank (areq_WorkloadUID req)
  then Some "request_id, tenant_id, and workload_uid are required"
  else if (areq_InputTokens req <? 0) || (areq_MaxOutputTokens req <? 0) || (areq_MaxToolCalls req <? 0)
          || (areq_MaxMediaUnits req <? 0) || (areq_TimeoutSeconds req <? 0) || (areq_MaxRetryAttempts req <? 0)
  then Some "charge bounds cannot be negative"
  else if String.eqb (areq_Namespace req) "" || negb (String.eqb (areq_Namespace req) (areq_AuthenticatedNamespace req))
  then Some "request namespace does not match authenticated namespace"
  else match areq_SelectedFeedback req ≫= SelectedFeedbackBinding_Validate with
       | Some m => Some m
       | None => validatePrincipal (areq_TenantID req) (areq_WorkloadUID req) (areq_AuthenticatedTenantID req)
                   (areq_AuthenticatedWorkloadUID req)
       end.

Definition matchPrincipal (res : Reservation) (tenantID workloadUID : string) : option error :=
  if negb (String.eqb (res_TenantID res) tenantID) || negb (String.eqb (res_WorkloadUID res) workloadUID)
  then Some "authenticated principal does not own request" else None.

(** ** Ranking of candidates *)

Definition expectedCostMicros (c : Candidate) (inputTokens maxOutputTokens : Z) : result Z :=
  costFromPriceMicros (cand_InputPriceMicrosPerMillion c) (cand_OutputPriceMicrosPerMillion c) inputTokens maxOutputTokens.

Definition qualityRank (t : string) : Z :=
  if String.eqb t TierHigh then 3 else if String.eqb t TierMedium then 2 else if String.eqb t TierLow then 1 else 0.

Definition ranked_before (inputTokens maxOutputTokens : Z) (objective : string) (i j : Candidate) : bool :=
  match expectedCostMicros i inputTokens maxOutputTokens, expectedCostMicros j inputTokens maxOutputTokens with
  | Ok costi, Ok costj =>
    if EqualFold objective "quality" && negb (String.eqb (cand_QualityTier i) (cand_QualityTier j))
    then qualityRank (cand_QualityTier j) <? qualityRank (cand_QualityTier i)
    else if negb (costi =? costj) then costi <? costj
    else string_ltb (cand_ModelRef i) (cand_ModelRef j)
  | _, _ => string_ltb (cand_ModelRef i) (cand_ModelRef j)
  end.

Definition rankedCandidates (candidates : list Candidate) (inputTokens maxOutputTokens : Z) (objective : string)
    : list Candidate := sort_slice (ranked_before inputTokens maxOutputTokens objective) candidates.

(** ** Identities *)

Definition policyVersion (budget : AIBudgetPolicy) (routing : AIRoutingPolicy) : string :=
  let part (m : ObjectMeta) := om_Name m +:+ ":" +:+ sprint (om_Generation m) +:+ "@" +:+ om_ResourceVersion m in
  part (bpol_Meta budget) +:+ "|" +:+ part (rpol_Meta routing).

Definition riskLevel (snapshot : PolicySnapshot) : string :=
  if psn_RequireSovereigntyCompliance snapshot then "strict" else "bounded".

Definition calibrationArtifactForChoice (routing : AIRoutingPolicy) (method : string) : string :=
  if negb (String.eqb method GOVARReservationAdaptiveQuantile) && negb (String.eqb method GOVARReservationFixedCohort)
  then ""
  else match rst_GOVAR (rpol_Status routing) ≫= grst_Calibration with
       | None => ""
       | Some status => cs_ArtifactSHA256 status
       end.

Definition decisionResponse (decision : Decision) (reason : ReasonCode) (budget : AIBudgetPolicy)
    (routing : AIRoutingPolicy) : AdmitResponse :=
  Build_AdmitResponse decision reason "" "" "" "" 0 "" 0 "" (policyVersion budget routing) "provider-pricing-live" "" ""
    None [].

Definition responseForReservation (res : Reservation) (reason : ReasonCode) : AdmitResponse :=
  Build_AdmitResponse DecisionAdmit reason (res_SelectedDeployment res) (res_RequestID res) (res_ProviderAttemptID res)
    (res_ProviderRetryPolicy res) (res_ReservedCostMicros res) (res_ReservationMode res) (res_AllocatedRiskPPB res)
    (res_RiskLevel res) (res_PolicyVersion res) (res_PricingVersion res) (RFC3339 (res_Expiry res)) ""
    (Some (res_RouteSnapshot res)) (sort_strings (map cc_Basis (res_ReservedComponents res))).

(** ** Tenants and their windows *)

Definition zero_tenant (budget : Z) : tenantLedger := Build_tenantLedger budget 0 0 0 0 ∅ "" "" 0 "".

Definition set_tenant (e : Engine) (tenantID : string) (t : tenantLedger) : Engine :=
  e <| engine_tenants := <[tenantID := t]> (engine_tenants e) |>.

(** [ensureTenant]: the tenant's ledger, created with the budget when absent. *)
Definition ensureTenant (e : Engine) (tenantID : string) (budget : Z) : Engine * tenantLedger :=
  match engine_tenants e !! tenantID with
  | Some t => (e, t)
  | None => let t := zero_tenant budget in (set_tenant e tenantID t, t)
  end.

(** A reservation whose provisional cost must guard the next window. *)
Definition rolls (tenantID window : string) (r : Reservation) : bool :=
  String.eqb (res_TenantID r) tenantID
  && (state_is (res_State r) StateSettledProvisional || state_is (res_State r) StateCorrectedProvisional)
  && negb (res_Carried r) && String.eqb (res_EnforcementWindowID r) window.

Definition roll_reservation (tenantID window : string) (r : Reservation) : Reservation :=
  if rolls tenantID window r
  then r <| res_RolloverGuardMicros := res_RolloverGuardMicros r +i res_ProvisionalCostMicros r |> else r.

(** The loop over the reservations when a tenant's window changes: the guards of
    the reservations and of the tenant, whose settled spend starts anew. *)
Definition roll_over (e : Engine) (tenantID : string) (t : tenantLedger) : Engine * tenantLedger :=
  let window := tenant_CurrentWindowID t in
  let reserved := map_fold (fun _ r acc => if rolls tenantID window r then acc +i res_ProvisionalCostMicros r else acc)
                    (tenant_ReservedMicros t) (engine_reservations e) in
  (e <| engine_reservations := roll_reservation tenantID window <$> engine_reservations e |>,
   t <| tenant_ReservedMicros := reserved |> <| tenant_SettledMicros := 0 |>).

Definition errBudgetWindowChanged : error := "budget policy or window changed while liabilities remain".

Definition bindTenantBudget (e : Engine) (tenantID : string) (budget : Z) (identity windowID period : string)
    : Engine * result tenantLedger :=
  let '(e, tenant) := ensureTenant e tenantID budget in
  let current := tenant_CurrentWindowID tenant in
  if negb (String.eqb (tenant_BudgetIdentity tenant) "") && String.eqb current windowID
     && negb (String.eqb (tenant_BudgetIdentity tenant) identity)
  then (e, Err errBudgetWindowChanged)
  else if negb (String.eqb current "") && String.eqb current windowID && negb (tenant_BudgetMicros tenant =? budget)
  then (e, Err errBudgetWindowChanged)
  else
    let changes := negb (String.eqb current "") && negb (String.eqb current windowID) in
    if changes && negb (windowStartsAfter windowID current) then (e, Err errBudgetWindowChanged)
    else
      let '(e, tenant) := if changes then roll_over e tenantID tenant else (e, tenant) in
      let tenant := tenant <| tenant_BudgetIdentity := identity |> <| tenant_CurrentWindowID := windowID |>
                           <| tenant_WindowPeriod := ToLower period |> <| tenant_BudgetMicros := budget |> in
      (set_tenant e tenantID tenant, Ok tenant).

Definition advanceTenantWindowLocked (e : Engine) (tenantID : string) (at_ : Time) : Engine * option error :=
  match engine_tenants e !! tenantID with
  | None => (e, None)
  | Some t =>
    if String.eqb (tenant_CurrentWindowID t) "" || String.eqb (tenant_WindowPeriod t) "" then (e, None)
    else match budgetWindowForPeriod (tenant_WindowPeriod t) at_ with
    | Err m => (e, Some m)
    | Ok next =>
      if String.eqb next (tenant_CurrentWindowID t) then (e, None)
      else if negb (windowStartsAfter next (tenant_CurrentWindowID t))
      then (e, Some "trusted clock moved before active budget window")
      else let '(e, t) := roll_over e tenantID t in
           (set_tenant e tenantID (t <| tenant_CurrentWindowID := next |>), None)
    end
  end.

(** ** Handlers *)

Section handlers.
Context `{Crypto} `{Platform}.

Definition budgetIdentity (budget : AIBudgetPolicy) : string :=
  let m := bpol_Meta budget in
  let s := bpol_Spec budget in
  eventPayloadHash ["budget-window-v1"; om_UID m; om_Namespace m; om_Name m; sprint (om_Generation m); bs_Period s;
    quantity_String (bs_BudgetEUR s); tgt_Namespace (bs_Target s); tgt_Team (bs_Target s); tgt_Application (bs_Target s)].

Definition budgetPolicyIdentity (b : AIBudgetPolicy) : string :=
  let m := bpol_Meta b in
  eventPayloadHash ["budget-policy-v2"; om_UID m; om_Namespace m; om_Name m; sprint (om_Generation m);
    json_BudgetSpec (bpol_Spec b)].

Definition bound_less (i j : UsageQuantity) : bool :=
  if String.eqb (uq_Basis i) (uq_Basis j) then uq_Quantity i <? uq_Quantity j
  else string_ltb (uq_Basis i) (uq_Basis j).

Definition candidate_fields (c : Candidate) : list string :=
  [cand_ModelRef c; cand_ProviderRef c; cand_Region c; sprint (cand_InputPriceMicrosPerMillion c);
   sprint (cand_OutputPriceMicrosPerMillion c); cand_PricingVersion c; cand_SnapshotVersion c;
   sprint (cand_ContextWindow c); sprint_float (cand_QualityScore c); sprint_bool (cand_VerifiedOutputCap c)].

Definition admissionFingerprint (req : AdmitRequest) (budget : AIBudgetPolicy) (routing : AIRoutingPolicy)
    (candidates : list Candidate) : string :=
  eventPayloadHash
    (["admission-v2"; areq_Namespace req; areq_TenantID req; areq_WorkloadUID req; areq_Team req; areq_Application req;
      sprint_bool (areq_SensitiveData req); Join (areq_AllowedZones req) unit_separator; areq_BudgetPolicyName req;
      areq_RoutingPolicyName req; sprint (areq_InputTokens req); sprint_bool (areq_InputTokensExact req);
      sprint (areq_MaxOutputTokens req); sprint (areq_MaxToolCalls req); sprint (areq_MaxMediaUnits req);
      sprint (areq_TimeoutSeconds req); sprint (areq_MaxRetryAttempts req); sprint_bool (areq_CancellationPossible req);
      sprint_bool (areq_RequireApproval req); quantity_String (bs_BudgetEUR (bpol_Spec budget));
      policyVersion budget routing; budgetIdentity budget; json_GOVARSpec (rs_GOVAR (rpol_Spec routing));
      json_GOVARStatus (rst_GOVAR (rpol_Status routing))]
     ++ concat (map (fun b => ["charge-bound"; uq_Basis b; sprint (uq_Quantity b)])
                  (sort_slice bound_less (areq_ChargeBounds req)))
     ++ [areq_CohortID req; sprint (areq_CohortIndex req); selectedFeedbackBindingSHA256 (areq_SelectedFeedback req)]
     ++ concat (map candidate_fields candidates)).

Definition settlementPayloadHash (req : SettleRequest) : string :=
  let usage := sort_slice (fun i j => string_ltb (uq_Basis i) (uq_Basis j)) (sreq_Usage req) in
  eventPayloadHash
    (["settlement"; sreq_RequestID req; sreq_TenantID req; sreq_WorkloadUID req; sreq_ProviderAttemptID req;
      sprint (sreq_ActualCostMicros req); sprint (sreq_ActualInput req); sprint (sreq_ActualOutput req);
      sprint (sreq_UsageVersion req); sreq_PredecessorEventID req; sprint_bool (sreq_Final req); sreq_ErrorStatus req]
     ++ concat (map (fun q => [uq_Basis q; sprint (uq_Quantity q)]) usage)).

Definition validatedCandidates (candidates : list Candidate) : list Candidate :=
  map (fun c =>
    if cand_Feasible c then
      match validateCandidateSnapshot c with
      | Some _ => c <| cand_Feasible := false |> <| cand_InfeasibleReason := ReasonNotRoutable |>
      | None => c
      end
    else c) candidates.

Definition validateReservationRoute (res : Reservation) : option error :=
  let route := res_RouteSnapshot res in
  match ValidateRouteSnapshot route with
  | Some m => Some m
  | None =>
    if negb (String.eqb (res_SelectedDeployment res) (route_ModelName route))
       || negb (String.eqb (res_PricingVersion res) (route_PricingVersion route))
       || negb (String.eqb (res_CandidateSnapshotVersion res) (route_SnapshotHash route))
    then Some "reservation route snapshot identity mismatch"
    else match ValidateSnapshotIntegrity (res_PricingSnapshot res) with
    | Some m => Some m
    | None =>
      if negb (String.eqb (snap_SnapshotSHA256 (res_PricingSnapshot res)) (res_PricingSnapshotSHA256 res))
      then Some "reservation pricing snapshot identity mismatch"
      else match SumComponents (res_ReservedComponents res) with
      | Err _ => Some "reservation component sum mismatch"
      | Ok reserved => if negb (reserved =? res_ReservedCostMicros res)
                       then Some "reservation component sum mismatch" else None
      end
    end
  end.

(** *** Admission *)

(** The allocated risk of a choice, from the cohort it is admitted under: [Some None]
    when the cohort does not admit it, [None] when its validation panics. *)
Definition cohort_allocation (e : Engine) (req : AdmitRequest) (routing : AIRoutingPolicy) (choice : admissionChoice)
    : option (option (Z * string)) :=
  if negb (String.eqb (ch_Method choice) GOVARReservationFixedCohort) then Some (Some (0, ""%string))
  else match engine_cohorts e !! cohortKey (areq_AuthenticatedTenantID req) (areq_CohortID req) with
  | None => Some None
  | Some cohort =>
    validated ← validateCohortAdmission req routing cohort (engine_now e);
    Some match validated with
    | Err _ => None
    | Ok risk => Some (if 0 <=? risk then risk else ch_AllocatedRiskPPB choice, coh_RegistryDigest cohort)
    end
  end.

(** Another reservation of the tenant already holds the cohort slot. *)
Definition slot_taken (e : Engine) (req : AdmitRequest) : bool :=
  existsb (fun '(_, r) => String.eqb (res_TenantID r) (areq_AuthenticatedTenantID req)
                          && String.eqb (res_CohortID r) (areq_CohortID req)
                          && (res_CohortIndex r =? areq_CohortIndex req))
    (map_to_list (engine_reservations e)).

Definition new_reservation (e : Engine) (req : AdmitRequest) (budget : AIBudgetPolicy) (routing : AIRoutingPolicy)
    (fingerprint : string) (window : string) (choice : admissionChoice) (risk : Z) (cohortDigest : string)
    : Reservation :=
  let best := ch_Candidate choice in
  let id := areq_RequestID req in
  Build_Reservation id (areq_AuthenticatedTenantID req) (areq_AuthenticatedWorkloadUID req) (cand_ModelRef best)
    (id +:+ ":attempt:1") (id +:+ ":dispatch:1") OutboxPending StateReserved (ch_Reservation choice)
    (ch_Components choice) (cand_PricingSnapshot best) (snap_SnapshotSHA256 (cand_PricingSnapshot best))
    (cand_CapEvidenceDigest best) (cand_VerifiedOutputCapTokens best) [] [] false 0 0 0 (ch_Reservation choice) 0 false
    (policyVersion budget routing) (cand_PricingVersion best) (ch_Method choice)
    (if is_reason (ch_FallbackReason choice) then "conservative"%string
     else riskLevel (BuildPolicySnapshot budget routing))
    risk (cand_InputPriceMicrosPerMillion best) (cand_OutputPriceMicrosPerMillion best) fingerprint
    (cand_SnapshotVersion best) (cand_RouteSnapshot best) (areq_CohortID req) (areq_CohortIndex req) cohortDigest
    (calibrationArtifactForChoice routing (ch_Method choice)) (areq_SelectedFeedback req)
    (selectedFeedbackBindingSHA256 (areq_SelectedFeedback req)) window window 0 0 0 false "" "NO_PROVIDER_RETRY"
    ReasonNone "" (time_add (engine_now e) (5 * Minute)) StateNone false "".

(** A request whose identifier is already reserved. *)
Definition admit_again (existing : Reservation) (req : AdmitRequest) (fingerprint : string) : result AdmitResponse :=
  match validateReservationRoute existing with
  | Some m => Err m
  | None =>
    match matchPrincipal existing (areq_AuthenticatedTenantID req) (areq_AuthenticatedWorkloadUID req) with
    | Some m => Err m
    | None =>
      if negb (String.eqb (res_AdmissionFingerprint existing) fingerprint)
      then Err "duplicate request_id has conflicting immutable admission payload"
      else if negb (reservationIsActive (res_State existing))
      then Ok (Build_AdmitResponse DecisionReject ReasonInvalidTransition "" "" "" "" 0 "" 0 "" "" "" "" "" None [])
      else Ok (responseForReservation existing ReasonDuplicateRequest)
    end
  end.

(** The admission of a new identifier; [None] is a panic. *)
Definition admit_new (e : Engine) (req : AdmitRequest) (budget : AIBudgetPolicy) (routing : AIRoutingPolicy)
    (candidates : list Candidate) (fingerprint : string) : option (Engine * result AdmitResponse) :=
  let respond e decision reason := Some (e, Ok (decisionResponse decision reason budget routing)) in
  let reason := validatePolicyAndTarget req budget routing (engine_now e) in
  if is_reason reason then respond e DecisionReject reason
  else if cn_Enabled (rs_Canary (rpol_Spec routing)) then respond e DecisionRequireApproval ReasonApprovalRequired
  else match quantityToMicros (bs_BudgetEUR (bpol_Spec budget)) with
  | Err m => Some (e, Err ("budget conversion: " +:+ m))
  | Ok budgetMicros =>
    match budgetWindowForPeriod (bs_Period (bpol_Spec budget)) (engine_now e) with
    | Err m => Some (e, Err m)
    | Ok windowID =>
      let '(e, bound) := bindTenantBudget e (areq_AuthenticatedTenantID req) budgetMicros (budgetPolicyIdentity budget)
                           windowID (bs_Period (bpol_Spec budget)) in
      match bound with
      | Err _ => respond e DecisionReject ReasonBudgetWindowConflict
      | Ok tenant =>
        chosen ← chooseAdmissionWithEvidenceSource req routing candidates (available tenant) (engine_now e)
                   (engine_calibrationEvidenceSource e);
        match chosen with
        | Err m => Some (e, Err m)
        | Ok (inr infeasible) => respond e (decisionForAdmissionFailure routing infeasible) infeasible
        | Ok (inl choice) =>
          allocation ← cohort_allocation e req routing choice;
          match allocation with
          | None => respond e DecisionAbstain ReasonInsufficientCalibration
          | Some (risk, cohortDigest) =>
            if String.eqb (ch_Method choice) GOVARReservationFixedCohort && slot_taken e req
            then respond e DecisionReject ReasonDuplicateConflict
            else
              let res := new_reservation e req budget routing fingerprint (tenant_CurrentWindowID tenant) choice risk
                           cohortDigest in
              let tenant := tenant <| tenant_ReservedMicros := tenant_ReservedMicros tenant +i ch_Reservation choice |>
                                   <| tenant_Requests := {[areq_RequestID req]} ∪ tenant_Requests tenant |> in
              let e := set_tenant e (areq_AuthenticatedTenantID req) tenant in
              let e := e <| engine_reservations := <[areq_RequestID req := res]> (engine_reservations e) |> in
              Some (e, Ok (responseForReservation res (if is_reason (ch_FallbackReason choice) then ch_FallbackReason choice
                                                  else ReasonHighestUtility)))
          end
        end
      end
    end
  end.

Definition Admit (e : Engine) (req : AdmitRequest) (budget : AIBudgetPolicy) (routing : AIRoutingPolicy)
    (candidates : list Candidate) : option (Engine * result AdmitResponse) :=
  match validateAdmitRequest req with
  | Some m => Some (e, Err m)
  | None =>
    if match areq_SelectedFeedback req with
       | Some b => negb (String.eqb (sfb_SoftwareSHA256 b) (engine_cohortSoftwareHash e))
       | None => false
       end
    then Some (e, Err "selected-feedback software binding differs from the running binary")
    else
      let candidates := validatedCandidates candidates in
      let snapshot := BuildPolicySnapshot budget routing in
      let candidates := rankedCandidates candidates (areq_InputTokens req) (areq_MaxOutputTokens req)
                          (psn_Objective snapshot) in
      let fingerprint := admissionFingerprint req budget routing candidates in
      match engine_reservations e !! areq_RequestID req with
      | Some existing => Some (e, admit_again existing req fingerprint)
      | None => admit_new e req budget routing candidates fingerprint
      end
  end.

(** *** Transitions of a reservation *)

Definition refuse (code : ReasonCode) (message : error) : reply := (zero_reservation, code, Some message).

(** A handler leaves the reservation as it was. *)
Definition unchanged (res : Reservation) (code : ReasonCode) (e : option error) : reply :=
  (withTransitionMetadata res (res_State res) false, code, e).

(** The replay of an event already in the inbox; [kind] is the word of the
    messages, [event] or [settlement]. *)
Definition replay (e : Engine) (kind : string) (prior : inboxEvent) (requestID tenantID workloadUID payloadHash : string)
    (duplicate : ReasonCode) : reply :=
  if negb (String.eqb (inbox_RequestID prior) requestID)
  then refuse ReasonDuplicateEvent (kind +:+ "_id is already bound to another request")
  else if negb (String.eqb (inbox_PayloadHash prior) payloadHash)
  then refuse ReasonDuplicateEvent (kind +:+ "_id replay has conflicting immutable payload")
  else match engine_reservations e !! requestID with
  | None => refuse duplicate ("duplicate " +:+ kind +:+ " references unknown request")
  | Some res =>
    match matchPrincipal res tenantID workloadUID with
    | Some m => refuse ReasonPrincipalMismatch m
    | None =>
      match validateReservationRoute res with
      | Some m => unchanged res ReasonInvalidTransition (Some m)
      | None => unchanged res duplicate None
      end
    end
  end.

(** The reservation an event is about, or the reply that refuses the event. *)
Definition locate (e : Engine) (requestID tenantID workloadUID attemptID : string) (route_error : Reservation -> option error)
    : Reservation + reply :=
  match engine_reservations e !! requestID with
  | None => inr (refuse ReasonReservationNotFound "reservation not found")
  | Some res =>
    match matchPrincipal res tenantID workloadUID with
    | Some m => inr (unchanged res ReasonPrincipalMismatch (Some m))
    | None =>
      if negb (String.eqb attemptID (res_ProviderAttemptID res))
      then inr (unchanged res ReasonInvalidTransition (Some "provider_attempt_id does not match the reserved attempt"%string))
      else match route_error res with
      | Some m => inr (unchanged res ReasonInvalidTransition (Some m))
      | None => inl res
      end
    end
  end.

(** Stores the reservation after an effective transition, with its event. *)
Definition commit (e : Engine) (requestID eventID kind payloadHash : string) (res : Reservation) : Engine :=
  e <| engine_reservations := <[requestID := withoutTransitionMetadata res]> (engine_reservations e) |>
    <| engine_inbox := <[eventID := Build_inboxEvent requestID kind payloadHash]> (engine_inbox e) |>.

Definition remove_request (t : tenantLedger) (requestID : string) : tenantLedger :=
  t <| tenant_Requests := tenant_Requests t ∖ {[requestID]} |>.

Definition dispatch_hash (req : DispatchRequest) : string :=
  eventPayloadHash ["dispatch"; dreq_RequestID req; dreq_TenantID req; dreq_WorkloadUID req;
    dreq_ProviderAttemptID req; dreq_RouteSnapshotHash req; dreq_Status req].

Definition dispatch_route_error (req : DispatchRequest) (res : Reservation) : option error :=
  if failed (validateReservationRoute res)
     || negb (String.eqb (dreq_RouteSnapshotHash req) (route_SnapshotHash (res_RouteSnapshot res)))
  then Some "dispatch route snapshot does not match reservation" else None.

Definition Dispatch (e : Engine) (req : DispatchRequest) : Engine * reply :=
  let id := dreq_RequestID req in
  let tenantID := dreq_AuthenticatedTenantID req in
  let workload := dreq_AuthenticatedWorkloadUID req in
  match validateEventPrincipal id (dreq_EventID req) (dreq_TenantID req) (dreq_WorkloadUID req) tenantID workload with
  | Some m => (e, refuse ReasonPrincipalMismatch m)
  | None =>
    match (if String.eqb (dreq_Status req) DispatchDelivered
           then existing ← engine_reservations e !! id; _ ← res_SelectedFeedback existing; Some existing
           else None) with
    | Some existing =>
      (e, unchanged existing ReasonInvalidTransition
            (Some "selected-feedback dispatch requires the PostgreSQL authority ledger"%string))
    | None =>
      match engine_inbox e !! dreq_EventID req with
      | Some prior => (e, replay e "event" prior id tenantID workload (dispatch_hash req) ReasonDuplicateEvent)
      | None =>
        match locate e id tenantID workload (dreq_ProviderAttemptID req) (dispatch_route_error req) with
        | inr refusal => (e, refusal)
        | inl res =>
          let '(e, clock) := advanceTenantWindowLocked e (res_TenantID res) (engine_now e) in
          match clock with
          | Some m => (e, unchanged res ReasonBudgetWindowConflict (Some m))
          | None =>
            match applyDispatch res (dreq_Status req) with
            | (res', code, Some m) => (e, (withTransitionMetadata res' (res_State res) false, code, Some m))
            | (res', code, None) =>
              let res' := res' <| res_LastReasonCode := code |> <| res_LastTransitionEventID := dreq_EventID req |> in
              (commit e id (dreq_EventID req) "dispatch" (dispatch_hash req) res',
               (withTransitionMetadata res' (res_State res) true, code, None))
            end
          end
        end
      end
    end
  end.

Definition Settle (e : Engine) (req : SettleRequest) : Engine * reply :=
  let id := sreq_RequestID req in
  let tenantID := sreq_AuthenticatedTenantID req in
  let workload := sreq_AuthenticatedWorkloadUID req in
  match validateSettleRequest req with
  | Some m => (e, refuse ReasonPrincipalMismatch m)
  | None =>
    let payloadHash := settlementPayloadHash req in
    match engine_inbox e !! sreq_SettlementID req with
    | Some prior => (e, replay e "settlement" prior id tenantID workload payloadHash ReasonSettlementDuplicate)
    | None =>
      match locate e id tenantID workload (sreq_ProviderAttemptID req) validateReservationRoute with
      | inr refusal => (e, refusal)
      | inl res =>
        let '(e, clock) := advanceTenantWindowLocked e (res_TenantID res) (engine_now e) in
        match clock with
        | Some m => (e, unchanged res ReasonBudgetWindowConflict (Some m))
        | None =>
          let '(e, tenant) := ensureTenant e (res_TenantID res) 0 in
          match applySettlement res tenant req with
          | (res', tenant', code, Some m) =>
            (set_tenant e (res_TenantID res) tenant', (withTransitionMetadata res' (res_State res) false, code, Some m))
          | (res', tenant', code, None) =>
            if bool_decide (code = ReasonSettlementDuplicate) || bool_decide (code = ReasonDuplicateEvent)
            then (set_tenant e (res_TenantID res) tenant', (withTransitionMetadata res' (res_State res) false, code, None))
            else
              let res' := res' <| res_LastReasonCode := code |> <| res_LastTransitionEventID := sreq_SettlementID req |> in
              let tenant' := if reservationIsActive (res_State res') then tenant' else remove_request tenant' id in
              (commit (set_tenant e (res_TenantID res) tenant') id (sreq_SettlementID req) "settlement" payloadHash res',
               (withTransitionMetadata res' (res_State res) true, code, None))
          end
        end
      end
    end
  end.

Definition cancel_hash (req : CancelRequest) : string :=
  eventPayloadHash ["cancel"; creq_RequestID req; creq_TenantID req; creq_WorkloadUID req;
    creq_ProviderAttemptID req; creq_Reason req; sprint_bool (creq_AuthoritativeUnbilled req)].

Definition Cancel (e : Engine) (req : CancelRequest) : Engine * reply :=
  let id := creq_RequestID req in
  let tenantID := creq_AuthenticatedTenantID req in
  let workload := creq_AuthenticatedWorkloadUID req in
  match validateEventPrincipal id (creq_EventID req) (creq_TenantID req) (creq_WorkloadUID req) tenantID workload with
  | Some m => (e, refuse ReasonPrincipalMismatch m)
  | None =>
    if blank (creq_ProviderAttemptID req)
    then (e, refuse ReasonInvalidTransition "provider_attempt_id is required")
    else match engine_inbox e !! creq_EventID req with
    | Some prior => (e, replay e "event" prior id tenantID workload (cancel_hash req) ReasonDuplicateEvent)
    | None =>
      match locate e id tenantID workload (creq_ProviderAttemptID req) validateReservationRoute with
      | inr refusal => (e, refusal)
      | inl res =>
        let '(e, clock) := advanceTenantWindowLocked e (res_TenantID res) (engine_now e) in
        match clock with
        | Some m => (e, unchanged res ReasonBudgetWindowConflict (Some m))
        | None =>
          let '(e, tenant) := ensureTenant e (res_TenantID res) 0 in
          match applyCancel res tenant (creq_AuthoritativeUnbilled req) with
          | (res', tenant', code, Some m) =>
            (set_tenant e (res_TenantID res) tenant', (withTransitionMetadata res' (res_State res) false, code, Some m))
          | (res', tenant', code, None) =>
            if bool_decide (code = ReasonDuplicateEvent) || bool_decide (code = ReasonSettlementDuplicate)
            then (set_tenant e (res_TenantID res) tenant', (withTransitionMetadata res' (res_State res) false, code, None))
            else
              let res' := res' <| res_LastReasonCode := code |> <| res_LastTransitionEventID := creq_EventID req |> in
              let tenant' := if state_is (res_State res') StateCanceledUnbilled || state_is (res_State res') StateFailedUnbilled
                             then remove_request tenant' id else tenant' in
              (commit (set_tenant e (res_TenantID res) tenant') id (creq_EventID req) "cancel" (cancel_hash req) res',
               (withTransitionMetadata res' (res_State res) true, code, None))
          end
        end
      end
    end
  end.

(** *** Liability, retries and budget adjustments *)

Definition Liability (e : Engine) (tenantID : string) : Engine * LiabilityResponse :=
  let e := (advanceTenantWindowLocked e tenantID (engine_now e)).1 in
  let '(e, t) := ensureTenant e tenantID 0 in
  (e, Build_LiabilityResponse tenantID (tenant_SettledMicros t) (tenant_ReservedMicros t)
        (tenant_CarriedAdjustmentMicros t) (available t) (Z.of_nat (size (tenant_Requests t)))
        (tenant_CurrentWindowID t) (tenant_HistoricalCreditMicros t)).

Definition ReserveRetry (requestID : string) : ReasonCode * option error :=
  (ReasonRetriesDisabled, Some "provider retry/fallback/hedge is disabled unless a separately reserved attempt API is implemented"%string).

Definition adjustment_payload (a : BudgetAdjustment) : string :=
  eventPayloadHash ["budget-adjustment-v1"; adj_TenantID a; adj_WindowID a; sprint (adj_NewBudgetMicros a);
    sprint (adj_DebtPaymentMicros a); adj_AuthorizedBy a; adj_Reason a].

Definition AdjustBudget (e : Engine) (a : BudgetAdjustment) : Engine * option error :=
  if String.eqb (adj_AdjustmentID a) "" || String.eqb (adj_AuthorizedBy a) "" || String.eqb (adj_Reason a) ""
     || (adj_NewBudgetMicros a <? 0) || (adj_DebtPaymentMicros a <? 0)
  then (e, Some "authorized non-negative budget adjustment is required"%string)
  else if negb (String.eqb (adj_AuthorityKeyID a) (engine_authorityKeyID e)) || String.eqb (engine_authorityKey e) ""
          || After (adj_ApprovedAt a) (engine_now e) || negb (After (adj_ExpiresAt a) (engine_now e))
          || negb (String.eqb (ToLower (adj_AuthorityProof a)) (adjustment_proof (engine_authorityKey e) a))
  then (e, Some "budget adjustment authority proof is invalid or expired"%string)
  else match engine_adjustments e !! adj_AdjustmentID a with
  | Some prior =>
    if String.eqb prior (adjustment_payload a) then (e, None)
    else (e, Some "adjustment_id replay has conflicting immutable payload"%string)
  | None =>
    match engine_tenants e !! adj_TenantID a with
    | None => (e, Some "tenant/window not found"%string)
    | Some t0 =>
      let '(e, clock) := advanceTenantWindowLocked e (adj_TenantID a) (engine_now e) in
      match clock with
      | Some m => (e, Some m)
      | None =>
        let t := default t0 (engine_tenants e !! adj_TenantID a) in
        if negb (String.eqb (tenant_CurrentWindowID t) (adj_WindowID a)) then (e, Some "tenant/window not found"%string)
        else if tenant_CarriedAdjustmentMicros t <? adj_DebtPaymentMicros a
        then (e, Some "debt payment exceeds carried debt"%string)
        else
          let t := t <| tenant_CarriedAdjustmentMicros := tenant_CarriedAdjustmentMicros t -i adj_DebtPaymentMicros a |>
                     <| tenant_BudgetMicros := adj_NewBudgetMicros a |> in
          let e := set_tenant e (adj_TenantID a) t in
          (e <| engine_adjustments := <[adj_AdjustmentID a := adjustment_payload a]> (engine_adjustments e) |>, None)
      end
    end
  end.

(** *** Expiry *)

Definition expiry_event (prefix : string) (res : Reservation) : string :=
  prefix +:+ res_RequestID res +:+ ":" +:+ sprint (UnixNano (res_Expiry res)).
Definition expiry_hash (domain : string) (res : Reservation) : string :=
  eventPayloadHash [domain; res_RequestID res; res_ProviderAttemptID res; RFC3339Nano (res_Expiry res)].

Definition reconciled (id : string) (res : Reservation) (previous : ReservationState) : ReconciliationRecord :=
  Build_ReconciliationRecord id (res_TenantID res) (res_ProviderAttemptID res) (res_State res) (res_OutboxState res)
    (res_Expiry res) previous true.

(** One iteration of the loop; [None] is a nil dereference: a reservation whose
    tenant has no ledger. *)
Definition expire_one (at_ : Time) (id : string) (res : Reservation) (e : Engine)
    : option (Engine * list ReconciliationRecord) :=
  if After (res_Expiry res) at_ then Some (e, [])
  else if failed (validateReservationRoute res) then Some (e, [])
  else if state_is (res_State res) StateReserved && outbox_is (res_OutboxState res) OutboxPending then
    let eventID := expiry_event "expiry:" res in
    match engine_inbox e !! eventID with
    | Some _ => Some (e, [])
    | None =>
      t ← engine_tenants e !! res_TenantID res;
      let previous := res_State res in
      let res := res <| res_State := StateExpiredUndispatched |> <| res_OutboxState := OutboxCanceled |>
                     <| res_LastReasonCode := ReasonExpiredUndispatched |> <| res_LastTransitionEventID := eventID |> in
      let event := Build_inboxEvent (res_RequestID res) "expiry" (expiry_hash "expiry-v1" res) in
      let '(res, t) := release_hold res t in
      let e := set_tenant e (res_TenantID res) (remove_request t id) in
      Some (e <| engine_inbox := <[eventID := event]> (engine_inbox e) |>
              <| engine_reservations := <[id := withoutTransitionMetadata res]> (engine_reservations e) |>,
            [reconciled id res previous])
    end
  else if state_is (res_State res) StateDispatchPending || state_is (res_State res) StateDispatched then
    let eventID := expiry_event "expiry-unresolved:" res in
    match engine_inbox e !! eventID with
    | Some _ => Some (e, [])
    | None =>
      let previous := res_State res in
      let res := res <| res_State := StateUnresolved |> <| res_LastReasonCode := ReasonDispatchUnresolved |>
                     <| res_LastTransitionEventID := eventID |> in
      let event := Build_inboxEvent (res_RequestID res) "expiry" (expiry_hash "expiry-unresolved-v1" res) in
      Some (e <| engine_inbox := <[eventID := event]> (engine_inbox e) |>
              <| engine_reservations := <[id := withoutTransitionMetadata res]> (engine_reservations e) |>,
            [reconciled id res previous])
    end
  else Some (e, []).

Fixpoint expire_all (at_ : Time) (entries : list (string * Reservation)) (e : Engine)
    : option (Engine * list ReconciliationRecord) :=
  match entries with
  | [] => Some (e, [])
  | (id, res) :: rest =>
    '(e, out) ← expire_one at_ id res e;
    '(e, more) ← expire_all at_ rest e;
    Some (e, out ++ more)
  end.

Definition sort_records (l : list ReconciliationRecord) : list ReconciliationRecord :=
  sort_slice (fun i j => string_ltb (rec_RequestID i) (rec_RequestID j)) l.

Definition ReconcileExpired (e : Engine) (at_ : Time) : option (Engine * list ReconciliationRecord) :=
  '(e, out) ← expire_all at_ (map_to_list (engine_reservations e)) e;
  Some (e, sort_records out).

Definition PendingReconciliation (e : Engine) (limit : Z) : list ReconciliationRecord :=
  let pending := omap (fun '(_, r) =>
      if outbox_is (res_OutboxState r) OutboxPending || outbox_is (res_OutboxState r) OutboxClaimed
         || state_is (res_State r) StateUnresolved
      then Some (Build_ReconciliationRecord (res_RequestID r) (res_TenantID r) (res_ProviderAttemptID r) (res_State r)
                   (res_OutboxState r) (res_Expiry r) (res_State r) false)
      else None) (map_to_list (engine_reservations e)) in
  let out := sort_records pending in
  if (0 <? limit) && (limit <? Z.of_nat (length out)) then take (Z.to_nat limit) out else out.

(** *** Cohorts *)

Definition RegisterFrozenCohort (e : Engine) (cohort : FrozenCohort) : Engine * option error :=
  match normalizeFrozenCohort cohort with
  | Err m => (e, Some m)
  | Ok normalized =>
    if After (coh_FrozenAt normalized) (engine_now e)
    then (e, Some "frozen_at must precede server registration time"%string)
    else if negb (String.eqb (coh_SoftwareHash normalized) (engine_cohortSoftwareHash e))
            || negb (String.eqb (coh_AuthorityKeyID normalized) (engine_authorityKeyID e))
            || String.eqb (engine_authorityKey e) ""
            || negb (String.eqb (ToLower (coh_AuthorityProof normalized)) (cohort_proof (engine_authorityKey e) normalized))
    then (e, Some "frozen cohort authority proof is invalid"%string)
    else
      let key := cohortKey (coh_TenantID normalized) (coh_CohortID normalized) in
      match engine_cohorts e !! key with
      | Some old =>
        if String.eqb (coh_RegistryDigest old) (coh_RegistryDigest normalized) then (e, None)
        else (e, Some "frozen cohort is immutable and conflicts with existing registration"%string)
      | None =>
        (e <| engine_cohorts := <[key := normalized <| coh_RegisteredAt := engine_now e |>]> (engine_cohorts e) |>, None)
      end
  end.

Definition ExportFrozenCohort (e : Engine) (tenant cohortID : string) : result FrozenCohort :=
  match engine_cohorts e !! cohortKey tenant cohortID with
  | None => Err "frozen cohort not found"
  | Some c => Ok c
  end.
End handlers.
