(* ===== verification/EngineProofs.v ===== *)
(** * Properties of the in-memory ledger engine

    Every handler of Engine.v is a sequence of elementary changes of the engine
    ([move]); an invariant is proved once per elementary change and holds along
    every sequence of calls. [frozen] is the part of a reservation that its
    admission fixes. *)

From Stdlib Require Import ZArith Lia Ascii String SpecFloat.
From stdpp Require Import base gmap strings list pretty sorting.
From S2P Require Import Prelude Digest GoTime Api Json Pricing Calibration Routes AdmissionPolicy Ledger LedgerProofs Cohorts Engine.

Open Scope string_scope.
Open Scope list_scope.
Open Scope Z_scope.
Open Scope go_scope.

(** ** What a transition never changes *)

(** A reservation without the fields a transition may write. *)
Definition frozen (r : Reservation) : Reservation :=
  r <| res_OutboxState := OutboxNone |> <| res_State := StateNone |> <| res_ActualComponents := [] |>
    <| res_MissingUsageBases := [] |> <| res_ComponentBoundExceeded := false |> <| res_ProvisionalCostMicros := 0 |>
    <| res_BaseActualMicros := 0 |> <| res_SettledEffectMicros := 0 |> <| res_ResidualHoldMicros := 0 |>
    <| res_UsageVersion := 0 |> <| res_Finalized := false |> <| res_EnforcementWindowID := "" |>
    <| res_RolloverGuardMicros := 0 |> <| res_CarryEffectMicros := 0 |> <| res_HistoricalCreditMicros := 0 |>
    <| res_Carried := false |> <| res_LastUsageEventID := "" |> <| res_LastReasonCode := ReasonNone |>
    <| res_LastTransitionEventID := "" |> <| res_PreviousState := StateNone |> <| res_TransitionEffective := false |>
    <| res_SelectedFeedbackDispatchID := "" |>.

Lemma frozen_eq r r' : frozen r = frozen r' ->
  res_RequestID r = res_RequestID r' /\ res_TenantID r = res_TenantID r' /\ res_WorkloadUID r = res_WorkloadUID r' /\
  res_ReservedCostMicros r = res_ReservedCostMicros r' /\ res_Expiry r = res_Expiry r' /\
  res_AllocatedRiskPPB r = res_AllocatedRiskPPB r' /\ res_CohortID r = res_CohortID r' /\
  res_CohortIndex r = res_CohortIndex r' /\ res_ReservationMode r = res_ReservationMode r' /\
  res_AdmissionFingerprint r = res_AdmissionFingerprint r' /\ res_CohortRegistryDigest r = res_CohortRegistryDigest r'.
Proof.
  intros E.
  assert (P : forall T (p : Reservation -> T), (forall x, p (frozen x) = p x) -> p r = p r').
  { intros T p Hp. by rewrite <- (Hp r), <- (Hp r'), E. }
  repeat split; by apply P.
Qed.

(** Fields of a tenant's ledger only its engine writes. *)
Definition same_terms (t t' : tenantLedger) : Prop :=
  tenant_Requests t' = tenant_Requests t /\ tenant_BudgetMicros t' = tenant_BudgetMicros t /\
  tenant_CurrentWindowID t' = tenant_CurrentWindowID t /\ tenant_WindowPeriod t' = tenant_WindowPeriod t /\
  tenant_BudgetIdentity t' = tenant_BudgetIdentity t /\ tenant_ActiveReservations t' = tenant_ActiveReservations t.

#[export] Instance same_terms_trans : Transitive same_terms.
Proof. unfold same_terms. intros a b c. intuition congruence. Qed.

Ltac terms := unfold same_terms; upd; done.

Lemma set_credit_frame r t actual :
  frozen (set_credit r t actual).1 = frozen r /\ same_terms t (set_credit r t actual).2.
Proof. split; [reflexivity | terms]. Qed.

Lemma release_hold_frame r t : frozen (release_hold r t).1 = frozen r /\ same_terms t (release_hold r t).2.
Proof. split; [reflexivity | terms]. Qed.

Lemma observe_usage_frame r t req :
  frozen (observe_usage r t req).1 = frozen r /\ same_terms t (observe_usage r t req).2.
Proof.
  unfold observe_usage, account_late, account_carried, account_rolled, account_current, set_credit. cbv zeta.
  repeat match goal with |- context [if ?b then _ else _] => destruct b end; (split; [reflexivity | terms]).
Qed.

Lemma conclude_frame r t req exceeded :
  frozen (conclude r t req exceeded).1.1.1 = frozen r /\ same_terms t (conclude r t req exceeded).1.1.2.
Proof.
  unfold conclude, release_hold. cbv zeta.
  repeat match goal with |- context [if ?b then _ else _] => destruct b end; (split; [reflexivity | terms]).
Qed.

Lemma settle_open_frame r t req exceeded :
  frozen (settle_open r t req exceeded).1.1.1 = frozen r /\ same_terms t (settle_open r t req exceeded).1.1.2.
Proof.
  unfold settle_open. cbv beta zeta.
  set (r0 := r <| res_OutboxState := OutboxDelivered |>).
  assert (Hr0 : frozen r0 = frozen r) by reflexivity.
  destruct (conclude_frame r0 t req exceeded) as [C1 C2].
  destruct (observe_usage_frame r0 t req) as [O1 O2]. destruct (observe_usage r0 t req) as [r1 t1].
  cbn [fst snd] in O1, O2. destruct (conclude_frame r1 t1 req exceeded) as [D1 D2].
  repeat match goal with |- context [if ?b then _ else _] => destruct b end; cbn [fst snd];
    try (split; [exact Hr0 | terms]).
  - split; [by rewrite C1 | exact C2].
  - split; [by rewrite D1, O1 | by transitivity t1].
Qed.

Lemma correct_finalized_frame r t req exceeded :
  frozen (correct_finalized r t req exceeded).1.1.1 = frozen r /\
  same_terms t (correct_finalized r t req exceeded).1.1.2.
Proof.
  unfold correct_finalized, set_credit. cbv beta zeta.
  repeat match goal with |- context [if ?b then _ else _] => destruct b end; cbn [fst snd]; (split; [reflexivity | terms]).
Qed.

(** The tenant and the frozen part along an accepted transition. *)
Lemma applyCancel_frame r t authoritative :
  frozen (applyCancel r t authoritative).1.1.1 = frozen r /\ same_terms t (applyCancel r t authoritative).1.1.2.
Proof.
  unfold applyCancel, release_hold. cbv zeta.
  destruct (res_State r); repeat match goal with |- context [if ?b then _ else _] => destruct b end;
    cbn [fst snd]; (split; [reflexivity | terms]).
Qed.

Lemma applyDispatch_frame r status : frozen (applyDispatch r status).1.1 = frozen r.
Proof.
  unfold applyDispatch. repeat match goal with |- context [if ?b then _ else _] => destruct b end; reflexivity.
Qed.

Section engine.
Context `{Crypto} `{Platform}.

Lemma applySettlement_frame r t req :
  frozen (applySettlement r t req).1.1.1 = frozen r /\ same_terms t (applySettlement r t req).1.1.2.
Proof.
  unfold applySettlement. destruct (SettleComponents _ _ _) as [[[c m] x]|]; [|done].
  destruct (SumActualComponents c) as [a|]; [|done]. cbv zeta.
  set (r0 := r <| res_ActualComponents := _ |> <| res_MissingUsageBases := _ |> <| res_ComponentBoundExceeded := _ |>).
  assert (Hr0 : frozen r0 = frozen r) by reflexivity. clearbody r0.
  match goal with |- context [correct_finalized _ _ ?q _] => set (req0 := q); clearbody req0 end.
  destruct (correct_finalized_frame r0 t req0 x) as [F1 F2]. destruct (settle_open_frame r0 t req0 x) as [O1 O2].
  repeat match goal with |- context [if ?b then _ else _] => destruct b end; cbn [fst snd];
    try (split; [exact Hr0 | terms]); try done; split; congruence || done.
Qed.

Lemma ledger_step_frame r t r' t' : ledger_step r t r' t' -> frozen r' = frozen r /\ same_terms t t'.
Proof.
  intros [a u status a' code E | a u req a' u' code E _ | a u auth a' u' code E _].
  - split; [|done]. change a' with (a', code, None (A:=error)).1.1. rewrite <- E. apply applyDispatch_frame.
  - pose proof (applySettlement_frame a u req) as Hf. rewrite E in Hf. exact Hf.
  - pose proof (applyCancel_frame a u auth) as Hf. rewrite E in Hf. exact Hf.
Qed.

(** ** Elementary changes of the engine *)

(** A pending request once its expiry has passed, before its hold is released. *)
Definition expired (res : Reservation) : Reservation :=
  res <| res_State := StateExpiredUndispatched |> <| res_OutboxState := OutboxCanceled |>.

(** A transition of a stored reservation and its tenant: an accepted event, or
    the expiry of a request. *)
Inductive transition (res : Reservation) (t : tenantLedger) : Reservation -> tenantLedger -> Prop :=
| transition_event res' t' : ledger_step res t res' t' -> transition res t res' t'
| transition_expired :
    res_State res = StateReserved -> res_OutboxState res = OutboxPending ->
    transition res t (release_hold (expired res) t).1 (release_hold (expired res) t).2
| transition_unresolved :
    res_State res = StateDispatchPending \/ res_State res = StateDispatched ->
    transition res t (res <| res_State := StateUnresolved |>) t.

Definition tenant_of (e : Engine) (T : string) : tenantLedger := default (zero_tenant 0) (engine_tenants e !! T).

(** A closed request leaves the active requests of its tenant. *)
Definition close (t : tenantLedger) (id : string) (res : Reservation) : tenantLedger :=
  if reservationIsActive (res_State res) then t else remove_request t id.

(** A reservation of a fixed cohort has the slot of its request in a registered
    cohort, and the risk allocated to that slot. *)
Definition cohort_backed (e : Engine) (id : string) (res : Reservation) : Prop :=
  res_ReservationMode res = GOVARReservationFixedCohort ->
  exists c slot, engine_cohorts e !! cohortKey (res_TenantID res) (res_CohortID res) = Some c /\
    slot ∈ coh_Slots c /\ slot_RequestID slot = id /\ res_AllocatedRiskPPB res = slot_risk c slot.

(** Registered cohorts stay, and new ones are normalized. *)
Definition cohorts_grow (e e' : Engine) : Prop :=
  (forall k c, engine_cohorts e !! k = Some c -> engine_cohorts e' !! k = Some c) /\
  (forall k c, engine_cohorts e' !! k = Some c -> engine_cohorts e !! k = Some c \/ normal_cohort c).

Lemma cohorts_grow_refl e e' : engine_cohorts e' = engine_cohorts e -> cohorts_grow e e'.
Proof. unfold cohorts_grow. intros ->. auto. Qed.

(** The elementary changes. The label of a committed transition is the rollover
    guard its stored reservation had gained since the handler read it: the
    handler works on the reservation [res], the engine holds
    [res <| res_RolloverGuardMicros := g |>]. *)
Inductive move (e : Engine) : option (string * Z) -> Engine -> Prop :=
| move_terms T t :
    tenant_ReservedMicros t = tenant_ReservedMicros (tenant_of e T) ->
    tenant_Requests t = tenant_Requests (tenant_of e T) ->
    move e None (set_tenant e T t)
| move_roll T t t' :
    engine_tenants e !! T = Some t ->
    tenant_ReservedMicros t' = tenant_ReservedMicros (roll_over e T t).2 ->
    tenant_Requests t' = tenant_Requests t ->
    move e None (set_tenant (roll_over e T t).1 T t')
| move_admit id res t t' :
    engine_reservations e !! id = None -> res_RequestID res = id -> res_wf res -> res_State res = StateReserved ->
    engine_tenants e !! res_TenantID res = Some t ->
    tenant_ReservedMicros t' = tenant_ReservedMicros t +i held res ->
    tenant_Requests t' = {[id]} ∪ tenant_Requests t -> cohort_backed e id res ->
    move e None ((set_tenant e (res_TenantID res) t') <| engine_reservations := <[id := res]> (engine_reservations e) |>)
| move_commit id g res t res' t' code eventID kind hash :
    engine_reservations e !! id = Some (res <| res_RolloverGuardMicros := g |>) ->
    res_wf res -> engine_tenants e !! res_TenantID res = Some t -> transition res t res' t' ->
    engine_inbox e !! eventID = None ->
    let stamped := res' <| res_LastReasonCode := code |> <| res_LastTransitionEventID := eventID |> in
    move e (Some (res_TenantID res, g - res_RolloverGuardMicros res))
      (commit (set_tenant e (res_TenantID res) (close t' id res')) id eventID kind hash stamped)
| move_other e' :
    engine_reservations e' = engine_reservations e -> engine_tenants e' = engine_tenants e ->
    engine_inbox e' = engine_inbox e -> cohorts_grow e e' ->
    (forall k p, engine_adjustments e !! k = Some p -> engine_adjustments e' !! k = Some p) ->
    move e None e'.

Inductive moves : Engine -> list (option (string * Z)) -> Engine -> Prop :=
| moves_done e : moves e [] e
| moves_step e l e1 ls e2 : move e l e1 -> moves e1 ls e2 -> moves e (l :: ls) e2.

Lemma moves_one e l e' : move e l e' -> moves e [l] e'.
Proof. intros Hm. econstructor; [exact Hm | constructor]. Qed.

Lemma moves_app e ls e1 ls' e2 : moves e ls e1 -> moves e1 ls' e2 -> moves e (ls ++ ls') e2.
Proof. induction 1; intros; [done|]. cbn [app]. econstructor; eauto. Qed.

(** ** The invariant *)

Record engine_wf (e : Engine) : Prop := {
  ew_id : forall id r, engine_reservations e !! id = Some r -> res_RequestID r = id;
  ew_tenant : forall id r, engine_reservations e !! id = Some r -> is_Some (engine_tenants e !! res_TenantID r);
  ew_res : forall id r, engine_reservations e !! id = Some r -> res_wf r;
  ew_active : forall T t id, engine_tenants e !! T = Some t -> id ∈ tenant_Requests t ->
    exists r, engine_reservations e !! id = Some r /\ res_TenantID r = T /\ reservationIsActive (res_State r) = true;
  ew_open : forall id r t, engine_reservations e !! id = Some r -> closed_state (res_State r) = false ->
    settled_state (res_State r) = false -> engine_tenants e !! res_TenantID r = Some t -> id ∈ tenant_Requests t;
  ew_backed : forall id r, engine_reservations e !! id = Some r -> cohort_backed e id r;
  ew_cohorts : forall k c, engine_cohorts e !! k = Some c -> normal_cohort c
}.

Lemma frozen_backed e e' id r r' : frozen r' = frozen r -> cohorts_grow e e' -> cohort_backed e id r -> cohort_backed e' id r'.
Proof.
  intros (_ & HT & _ & _ & _ & HR & HC & _ & HM & _)%frozen_eq [Hg _] Hb. unfold cohort_backed. rewrite HM, HT, HC, HR.
  intros Hm. destruct (Hb Hm) as (c & slot & Hc & ?). exists c, slot. auto.
Qed.

Lemma stamp_wf r code eventID :
  res_wf r -> res_wf (withoutTransitionMetadata (r <| res_LastReasonCode := code |> <| res_LastTransitionEventID := eventID |>)).
Proof. intros Hwf. unfold withoutTransitionMetadata. split; unfold level; upd; apply Hwf. Qed.

Lemma guard_wf r g : res_wf r -> settled_state (res_State r) = true -> closed_state (res_State r) = false ->
  res_wf (r <| res_RolloverGuardMicros := g |>).
Proof.
  intros Hwf Hs Hc. pose proof (wf_version _ Hwf) as Hv. pose proof (wf_hold _ Hwf) as Hh. rewrite Hs in Hv. rewrite Hc in Hh.
  split; unfold level; upd; try apply Hwf; [lia | by rewrite Hc].
Qed.

Lemma rolls_spec T w r : rolls T w r = true ->
  res_TenantID r = T /\ (res_State r = StateSettledProvisional \/ res_State r = StateCorrectedProvisional) /\
  res_Carried r = false /\ res_EnforcementWindowID r = w.
Proof.
  unfold rolls, state_is. intros E. rewrite !andb_true_iff, orb_true_iff, negb_true_iff, !bool_decide_eq_true, !String.eqb_eq in E.
  tauto.
Qed.

(** A rollover only moves the guard. *)
Lemma roll_reservation_eq T w r :
  roll_reservation T w r = r <| res_RolloverGuardMicros :=
    if rolls T w r then res_RolloverGuardMicros r +i res_ProvisionalCostMicros r else res_RolloverGuardMicros r |>.
Proof. unfold roll_reservation. destruct (rolls T w r); [done|]. by destruct r. Qed.

Lemma roll_reservation_wf T w r : res_wf r -> res_wf (roll_reservation T w r).
Proof.
  intros Hwf. unfold roll_reservation. destruct (rolls T w r) eqn:E; [|done].
  apply rolls_spec in E as (_ & Hs & _). apply guard_wf; [done|..]; by destruct Hs as [-> | ->].
Qed.

Lemma roll_reservation_frozen T w r : frozen (roll_reservation T w r) = frozen r.
Proof. by rewrite roll_reservation_eq. Qed.

Lemma roll_reservation_state T w r : res_State (roll_reservation T w r) = res_State r.
Proof. by rewrite roll_reservation_eq. Qed.

(** *** Transitions *)

Lemma transition_books res t res' t' : transition res t res' t' -> res_wf res ->
  res_wf res' /\ tenant_ReservedMicros t' - held res' ≡64 tenant_ReservedMicros t - held res.
Proof.
  intros [r' u Hs | Hs Ho | Hs] Hwf.
  - by destruct (ledger_step_books _ _ _ _ Hs Hwf) as (? & ? & _).
  - pose proof (wf_version _ Hwf) as Hv. rewrite Hs in Hv. destruct (wf_unused _ Hwf Hv) as (Hp & Hc & Hg).
    split; [|unfold release_hold, expired, held; cbn [fst snd]; upd; eqm_lia].
    unfold release_hold, expired. cbn [fst]. split; unfold level; upd; try apply Hwf; try done.
    rewrite (wf_final _ Hwf). by rewrite Hs.
  - assert (Hs' : settled_state (res_State res) = false /\ closed_state (res_State res) = false
      /\ final_state (res_State res) = false) by (by destruct Hs as [-> | ->]).
    destruct Hs' as (Hset & Hcl & Hfi). pose proof (wf_version _ Hwf) as Hv. pose proof (wf_hold _ Hwf) as Hh.
    pose proof (wf_outbox _ Hwf) as Ho. rewrite Hset in Hv. rewrite Hcl in Hh.
    split; [|done]. split; unfold level; upd; try apply Hwf; try done.
    + destruct Hs as [E | E]; rewrite E in Ho; by destruct (res_OutboxState res).
    + by rewrite (wf_final _ Hwf), Hfi.
Qed.

Lemma transition_moves res t res' t' : transition res t res' t' -> res_wf res ->
  may_move (res_State res) (res_State res') = true.
Proof.
  intros [r' u Hs | Hs Ho | Hs] Hwf.
  - exact (ledger_step_moves _ _ _ _ Hs Hwf).
  - unfold release_hold, expired. cbn [fst]. upd. by rewrite Hs.
  - upd. by destruct Hs as [-> | ->].
Qed.

Lemma transition_frame res t res' t' : transition res t res' t' -> frozen res' = frozen res /\ same_terms t t'.
Proof.
  intros [r' u Hs | Hs Ho | Hs].
  - by apply ledger_step_frame.
  - split; [reflexivity | unfold release_hold; cbn [snd]; terms].
  - split; [reflexivity | terms].
Qed.

Lemma may_move_active s s' : may_move s s' = true -> closed_state s = true -> s <> StateExpiredUndispatched ->
  closed_state s' = true.
Proof. by destruct s, s'. Qed.

Lemma active_closed s : s <> StateNone -> reservationIsActive s = negb (closed_state s).
Proof. by destruct s. Qed.

Lemma may_move_open s s' : may_move s s' = true -> closed_state s' = false -> settled_state s' = false ->
  closed_state s = false /\ settled_state s = false.
Proof. by destruct s, s'. Qed.

(** *** Lookups in the changed engine *)

Lemma lookup_set_tenant e T t T' :
  engine_tenants (set_tenant e T t) !! T' = if decide (T = T') then Some t else engine_tenants e !! T'.
Proof. unfold set_tenant. upd. case_decide; [by subst; rewrite lookup_insert_eq | by rewrite lookup_insert_ne]. Qed.

Lemma set_tenant_reservations e T t : engine_reservations (set_tenant e T t) = engine_reservations e.
Proof. reflexivity. Qed.

Lemma lookup_roll e T t id :
  engine_reservations (roll_over e T t).1 !! id
    = roll_reservation T (tenant_CurrentWindowID t) <$> engine_reservations e !! id.
Proof. unfold roll_over. cbn [fst]. upd. apply lookup_fmap. Qed.

Lemma roll_tenants e T t : engine_tenants (roll_over e T t).1 = engine_tenants e.
Proof. reflexivity. Qed.

Lemma same_requests_wf e T t e' :
  engine_wf e ->
  (forall id, match engine_reservations e !! id, engine_reservations e' !! id with
              | Some r, Some r' => frozen r' = frozen r /\ res_State r' = res_State r /\ res_wf r'
              | None, None => True
              | _, _ => False
              end) ->
  engine_tenants e' = <[T := t]> (engine_tenants e) -> tenant_Requests t = tenant_Requests (tenant_of e T) ->
  engine_cohorts e' = engine_cohorts e -> engine_wf e'.
Proof.
  intros [W1 W2 W3 W4 W5 W6 W7] Hr Ht Hq Hco.
  assert (Hback : forall id r', engine_reservations e' !! id = Some r' ->
    exists r, engine_reservations e !! id = Some r /\ frozen r' = frozen r /\ res_State r' = res_State r /\ res_wf r').
  { intros id r' E. specialize (Hr id). rewrite E in Hr. destruct (engine_reservations e !! id) as [r|]; [|done]. eauto. }
  assert (Hten : forall T' t', engine_tenants e' !! T' = Some t' ->
    tenant_Requests t' = tenant_Requests (tenant_of e T')).
  { intros T' t'. rewrite Ht. destruct (decide (T = T')) as [<-|Hne].
    - rewrite lookup_insert_eq. intros [= <-]. done.
    - rewrite lookup_insert_ne by done. unfold tenant_of. by intros ->. }
  split.
  - intros id r' (r & E & F & _)%Hback. apply frozen_eq in F as (-> & _). eauto.
  - intros id r' (r & E & F & _)%Hback. apply frozen_eq in F as (_ & -> & _). rewrite Ht.
    apply lookup_insert_is_Some'. eauto.
  - intros id r' (r & _ & _ & _ & Hwf)%Hback. done.
  - intros T' t' id E Hin. rewrite (Hten _ _ E) in Hin. unfold tenant_of in Hin.
    destruct (engine_tenants e !! T') as [t0|] eqn:E0; [|cbn in Hin; set_solver].
    destruct (W4 _ _ _ E0 Hin) as (r & Er & HT & Ha). specialize (Hr id). rewrite Er in Hr.
    destruct (engine_reservations e' !! id) as [r'|]; [|done]. destruct Hr as (F & S & _).
    exists r'. rewrite S. apply frozen_eq in F as (_ & -> & _). done.
  - intros id r' t' (r & E & F & S & _)%Hback Hc Hs E'. rewrite (Hten _ _ E').
    apply frozen_eq in F as (_ & F & _). rewrite S in Hc, Hs. rewrite F.
    destruct (W2 _ _ E) as [t0 E0]. unfold tenant_of. rewrite E0. by apply (W5 _ _ _ E).
  - intros id r' (r & E & F & _)%Hback. apply (frozen_backed e e' id r); [done | by apply cohorts_grow_refl | eauto].
  - rewrite Hco. exact W7.
Qed.

Lemma admit_wf e id res t t' :
  engine_wf e -> engine_reservations e !! id = None -> res_RequestID res = id -> res_wf res ->
  res_State res = StateReserved -> engine_tenants e !! res_TenantID res = Some t ->
  tenant_Requests t' = {[id]} ∪ tenant_Requests t -> cohort_backed e id res ->
  engine_wf ((set_tenant e (res_TenantID res) t') <| engine_reservations := <[id := res]> (engine_reservations e) |>).
Proof.
  intros [W1 W2 W3 W4 W5 W6 W7] Hnew Hid Hwf Hs Ht Hq Hb.
  split; upd; [intros *..| exact W7]; rewrite ?lookup_insert_Some; rewrite ?lookup_set_tenant.
  - intros [[<- <-] | [_ E]]; eauto.
  - intros [[<- <-] | [_ E]]; (case_decide; [eauto|]); [congruence | eauto].
  - intros [[<- <-] | [_ E]]; eauto.
  - case_decide as HT; [subst T; intros [= <-]; rewrite Hq | intros E];
      intros Hin; [apply elem_of_union in Hin as [->%elem_of_singleton | Hin]|].
    + exists res. rewrite lookup_insert_eq. by rewrite Hs.
    + destruct (W4 _ _ _ Ht Hin) as (r & Er & HT & Ha). exists r. rewrite lookup_insert_ne by congruence. done.
    + destruct (W4 _ _ _ E Hin) as (r & Er & HT' & Ha). exists r. rewrite lookup_insert_ne by congruence. done.
  - intros [[<- <-] | [Hne E]] Hc Hset; (case_decide as HT; [intros [= <-]; rewrite Hq | intros E']).
    + set_solver.
    + done.
    + apply elem_of_union_r. eapply (W5 _ _ _ E); try done. congruence.
    + by apply (W5 _ _ _ E).
  - intros [[<- <-] | [_ E]]; [exact Hb | exact (W6 _ _ E)].
Qed.

Lemma commit_wf e id g res t res' t' code eventID kind hash :
  engine_wf e -> engine_reservations e !! id = Some (res <| res_RolloverGuardMicros := g |>) ->
  res_wf res -> engine_tenants e !! res_TenantID res = Some t -> transition res t res' t' ->
  engine_wf (commit (set_tenant e (res_TenantID res) (close t' id res')) id eventID kind hash
               (res' <| res_LastReasonCode := code |> <| res_LastTransitionEventID := eventID |>)).
Proof.
  intros [W1 W2 W3 W4 W5 W6 W7] Hst Hwf Ht Htr.
  destruct (transition_books _ _ _ _ Htr Hwf) as [Hwf' _]. pose proof (transition_moves _ _ _ _ Htr Hwf) as Hmv.
  destruct (transition_frame _ _ _ _ Htr) as [Hfr (Hq & _)].
  pose proof Hfr as Hfz. apply frozen_eq in Hfr as (Hid & HT & _).
  pose proof (stamp_wf res' code eventID Hwf') as Hwfs.
  set (r := withoutTransitionMetadata _) in Hwfs.
  assert (Hr : res_State r = res_State res' /\ res_RequestID r = res_RequestID res' /\ res_TenantID r = res_TenantID res' /\
    frozen r = frozen res') by (split; [|split; [|split]]; reflexivity). destruct Hr as (Hrs & Hri & Hrt & Hrf).
  unfold commit. fold r. clearbody r.
  assert (Hne : res_State res' <> StateNone)
    by (intros E; pose proof (wf_outbox _ Hwf') as Ho; rewrite E in Ho; by destruct (res_OutboxState res')).
  assert (Hcl : forall x, x ∈ tenant_Requests (close t' id res') <->
    x ∈ tenant_Requests t /\ (x = id -> closed_state (res_State res') = false)).
  { intros x. unfold close. rewrite active_closed by done. destruct (closed_state (res_State res')); cbn [negb].
    - unfold remove_request. upd. rewrite Hq. set_solver.
    - rewrite Hq. set_solver. }
  split; upd; [intros *..| exact W7]; rewrite ?lookup_insert_Some, ?set_tenant_reservations, ?lookup_set_tenant.
  - intros [[<- <-] | [_ E]]; [|eauto]. rewrite Hri, Hid. apply (W1 _ _ Hst).
  - intros [[<- <-] | [_ E]]; (case_decide; [eauto|]); [congruence | eauto].
  - intros [[<- <-] | [_ E]]; eauto.
  - case_decide as HTd; [subst T; intros [= <-]; rewrite Hcl | intros E].
    + intros [Hin Hx]. destruct (W4 _ _ _ Ht Hin) as (r0 & Er & HT0 & Ha).
      destruct (decide (id0 = id)) as [->|Hd].
      * exists r. rewrite lookup_insert_eq, Hrs, Hrt, HT. rewrite active_closed by done. by rewrite Hx.
      * exists r0. rewrite lookup_insert_ne by done. done.
    + intros Hin. destruct (W4 _ _ _ E Hin) as (r0 & Er & HT0 & Ha).
      exists r0. rewrite lookup_insert_ne; [done|]. intros ->. rewrite Hst in Er. injection Er as <-. done.
  - intros [[<- <-] | [Hd E]] Hc Hset.
    + rewrite Hrs in Hc, Hset. rewrite Hrt, HT, decide_True by done. intros [= <-]. rewrite Hcl. split; [|done].
      destruct (may_move_open _ _ Hmv Hc Hset) as [Hc0 Hs0]. by apply (W5 _ _ _ Hst).
    + case_decide as HTd; [intros [= <-]; rewrite Hcl | intros E']; [split; [|done]|]; apply (W5 _ _ _ E); congruence.
  - intros [[<- <-] | [_ E]]; [|exact (W6 _ _ E)].
    refine (frozen_backed e _ _ _ _ _ _ (W6 _ _ Hst)); [by rewrite Hrf, Hfz | by apply cohorts_grow_refl].
Qed.

Lemma move_wf e l e' : move e l e' -> engine_wf e -> engine_wf e'.
Proof.
  intros [T t Hr Hq | T t t' Ht Hr Hq | id res t t' Hn Hid Hwf Hs Ht Hr Hq Hb | id g res t res' t' code ev kind hash
          Hst Hwf Ht Htr Hin stamped | e1 E1 E2 E3 E4 E5] W.
  - refine (same_requests_wf e T t (set_tenant e T t) W _ eq_refl Hq eq_refl). intros id. rewrite set_tenant_reservations.
    destruct (engine_reservations e !! id) as [r|] eqn:E; [|done]. split; [done|]. split; [done|]. exact (ew_res _ W _ _ E).
  - refine (same_requests_wf e T t' (set_tenant (roll_over e T t).1 T t') W _ eq_refl _ eq_refl).
    + intros id. rewrite set_tenant_reservations, lookup_roll.
      destruct (engine_reservations e !! id) as [r|] eqn:E; cbn; [|done].
      split; [apply roll_reservation_frozen|]. split; [apply roll_reservation_state|].
      apply roll_reservation_wf. exact (ew_res _ W _ _ E).
    + unfold tenant_of. by rewrite Ht.
  - by apply (admit_wf e id res t).
  - by apply (commit_wf e id g res t).
  - destruct W as [W1 W2 W3 W4 W5 W6 W7]. split; rewrite ?E1, ?E2; try done.
    + intros id r Er. apply (frozen_backed e e1 id r); eauto.
    + intros k c Hk. destruct (proj2 E4 k c Hk); eauto.
Qed.

Lemma moves_wf e ls e' : moves e ls e' -> engine_wf e -> engine_wf e'.
Proof. induction 1 as [|e l e1 ls e2 Hm Hms IH]; [done|]. intros W. by apply IH, (move_wf e l). Qed.

(** ** The books of a tenant *)

(** What the reservations of a tenant hold, and how far the tenant's reserved
    micros are from it. *)
Definition holds (e : Engine) (T : string) : Z :=
  map_sum (fun r => if String.eqb (res_TenantID r) T then held r else 0) (engine_reservations e).
Definition gap (e : Engine) (T : string) : Z := tenant_ReservedMicros (tenant_of e T) - holds e T.

Definition leak (l : option (string * Z)) (T : string) : Z :=
  match l with Some (T', d) => if String.eqb T' T then d else 0 | None => 0 end.
Definition leaked (ls : list (option (string * Z))) (T : string) : Z := zsum (map (fun l => leak l T) ls).

Lemma tenant_of_set e T t T' : tenant_of (set_tenant e T t) T' = if String.eqb T T' then t else tenant_of e T'.
Proof. unfold tenant_of. rewrite lookup_set_tenant. case_decide; destruct (String.eqb_spec T T'); done. Qed.

Lemma tenant_of_some e T t : engine_tenants e !! T = Some t -> tenant_of e T = t.
Proof. unfold tenant_of. by intros ->. Qed.

Lemma holds_roll e T t T' :
  holds (roll_over e T t).1 T' ≡64
  holds e T' + if String.eqb T T' then map_sum (fun r => if rolls T (tenant_CurrentWindowID t) r
                                                         then res_ProvisionalCostMicros r else 0) (engine_reservations e)
               else 0.
Proof.
  unfold holds, roll_over. cbn [fst]. upd. rewrite map_sum_fmap.
  set (p := fun r => if String.eqb T T' && rolls T (tenant_CurrentWindowID t) r then res_ProvisionalCostMicros r else 0).
  assert (Hp : (if String.eqb T T' then map_sum (fun r => if rolls T (tenant_CurrentWindowID t) r
      then res_ProvisionalCostMicros r else 0) (engine_reservations e) else 0) = map_sum p (engine_reservations e)).
  { unfold p. destruct (String.eqb T T'); cbn [andb]; [done|].
    induction (engine_reservations e) as [|k v m Hk IH] using map_ind; [done|]. rewrite map_sum_insert_new by done. lia. }
  rewrite Hp, <- map_sum_add. apply map_sum_eqm64. intros id r _.
  unfold p. rewrite roll_reservation_eq. upd. unfold held. upd.
  destruct (rolls T (tenant_CurrentWindowID t) r) eqn:E; rewrite ?andb_false_r, ?andb_true_r.
  - apply rolls_spec in E as (-> & _). destruct (String.eqb T T'); eqm_lia.
  - destruct (String.eqb _ _); apply eqm64_eq; lia.
Qed.

Lemma holds_insert T id r r' (m : gmap string Reservation) :
  m !! id = Some r -> res_TenantID r' = res_TenantID r ->
  map_sum (fun r => if String.eqb (res_TenantID r) T then held r else 0) (<[id := r']> m)
    = map_sum (fun r => if String.eqb (res_TenantID r) T then held r else 0) m
      + (if String.eqb (res_TenantID r) T then held r' - held r else 0).
Proof. intros E ET. rewrite (map_sum_insert _ _ _ _ _ E), ET. destruct (String.eqb _ _); lia. Qed.

Lemma move_gap e l e' T : move e l e' -> gap e' T ≡64 gap e T + leak l T.
Proof.
  intros [T0 t Hr Hq | T0 t t' Ht Hr Hq | id res t t' Hn Hid Hwf Hs Ht Hr Hq Hb | id g res t res' t' code ev kind hash
          Hst Hwf Ht Htr Hin stamped | e1 E1 E2 E3 E4 E5]; unfold gap; cbn [leak].
  - rewrite tenant_of_set. change (holds (set_tenant e T0 t) T) with (holds e T).
    destruct (String.eqb_spec T0 T) as [<-|]; [rewrite Hr|]; apply eqm64_eq; lia.
  - rewrite tenant_of_set. change (holds (set_tenant ?x T0 t') T) with (holds x T).
    rewrite holds_roll. change (tenant_of (roll_over e T0 t).1 T) with (tenant_of e T).
    destruct (String.eqb_spec T0 T) as [<-|]; [|apply eqm64_eq; lia].
    rewrite Hr, (tenant_of_some _ _ _ Ht).
    unfold roll_over. cbn [snd]. upd. rewrite map_fold_add64. apply eqm64_eq. lia.
  - change (tenant_of (_ <| engine_reservations := _ |>) T) with (tenant_of (set_tenant e (res_TenantID res) t') T).
    rewrite tenant_of_set. unfold holds. upd. rewrite map_sum_insert_new by done.
    destruct (String.eqb_spec (res_TenantID res) T) as [<-|]; [|apply eqm64_eq; lia].
    rewrite (tenant_of_some _ _ _ Ht), Hr. eqm_lia.
  - destruct (transition_books _ _ _ _ Htr Hwf) as [_ Hgap]. destruct (transition_frame _ _ _ _ Htr) as [Hfr _].
    apply frozen_eq in Hfr as (_ & HT & _).
    unfold commit. change (tenant_of (_ <| engine_reservations := _ |> <| engine_inbox := _ |>) T)
      with (tenant_of (set_tenant e (res_TenantID res) (close t' id res')) T).
    rewrite tenant_of_set. unfold holds. upd. rewrite set_tenant_reservations.
    set (r := withoutTransitionMetadata stamped).
    assert (Hr : res_TenantID r = res_TenantID res' /\ held r = held res') by (split; reflexivity).
    destruct Hr as [HrT Hrh]. clearbody r.
    rewrite (holds_insert T id _ r _ Hst) by (upd; congruence). upd.
    assert (Hc : tenant_ReservedMicros (close t' id res') = tenant_ReservedMicros t')
      by (unfold close; destruct (reservationIsActive _); [done | unfold remove_request; by upd]).
    destruct (String.eqb_spec (res_TenantID res) T) as [<-|]; [|apply eqm64_eq; lia].
    rewrite (tenant_of_some _ _ _ Ht), Hc, Hrh.
    set (S := map_sum _ _). unfold held at 2. upd.
    transitivity (tenant_ReservedMicros t' - held res' - S + (res_ResidualHoldMicros res + g)); [apply eqm64_eq; lia|].
    rewrite Hgap. unfold held. apply eqm64_eq. lia.
  - unfold tenant_of, holds. rewrite E1, E2. apply eqm64_eq. lia.
Qed.

Lemma moves_gap e ls e' T : moves e ls e' -> gap e' T ≡64 gap e T + leaked ls T.
Proof.
  induction 1 as [e | e l e1 ls e2 Hm Hms IH]; [apply eqm64_eq; unfold leaked; cbn; lia|].
  rewrite IH, (move_gap _ _ _ T Hm). unfold leaked. cbn [map]. rewrite zsum_cons. apply eqm64_eq. lia.
Qed.

(** ** Handlers as sequences of elementary changes *)

(** A sequence that leaves every tenant's books as they were. *)
Definition steps_to (e e' : Engine) : Prop := exists ls, moves e ls e' /\ forall T, leaked ls T = 0.

Lemma steps_refl e : steps_to e e.
Proof. exists []. by split; [constructor|]. Qed.
Lemma steps_trans e1 e2 e3 : steps_to e1 e2 -> steps_to e2 e3 -> steps_to e1 e3.
Proof.
  intros (l1 & M1 & L1) (l2 & M2 & L2). exists (l1 ++ l2). split; [by eapply moves_app|].
  intros T. unfold leaked in *. by rewrite map_app, zsum_app, L1, L2.
Qed.
Lemma steps_one e e' : move e None e' -> steps_to e e'.
Proof. intros Hm. exists [None]. split; [by apply moves_one | done]. Qed.

(** The reservations of two engines, up to the rollover guards of provisional
    settlements. *)
Definition guards_only (e e' : Engine) : Prop :=
  forall id, match engine_reservations e !! id with
             | Some r => exists g, engine_reservations e' !! id = Some (r <| res_RolloverGuardMicros := g |>) /\
                 (res_State r <> StateSettledProvisional -> res_State r <> StateCorrectedProvisional ->
                  g = res_RolloverGuardMicros r)
             | None => engine_reservations e' !! id = None
             end.

Lemma guard_same r : r <| res_RolloverGuardMicros := res_RolloverGuardMicros r |> = r.
Proof. by destruct r. Qed.

Lemma guards_only_refl e e' : engine_reservations e' = engine_reservations e -> guards_only e e'.
Proof.
  intros E id. rewrite E. destruct (engine_reservations e !! id) as [r|] eqn:Er; [|done].
  exists (res_RolloverGuardMicros r). by rewrite guard_same.
Qed.

Lemma guards_only_roll e T t t' : guards_only e (set_tenant (roll_over e T t).1 T t').
Proof.
  intros id. rewrite set_tenant_reservations, lookup_roll.
  destruct (engine_reservations e !! id) as [r|]; cbn; [|done]. rewrite roll_reservation_eq.
  eexists. split; [reflexivity|]. intros H1 H2. destruct (rolls _ _ r) eqn:E; [|done].
  apply rolls_spec in E as (_ & [?|?] & _); congruence.
Qed.

(** Only the ledger and the reservations of one tenant change. *)
Record touches (T : string) (e e' : Engine) : Prop := {
  to_tenants : forall T', T' <> T -> engine_tenants e' !! T' = engine_tenants e !! T';
  to_reservations : forall id r, engine_reservations e !! id = Some r -> res_TenantID r <> T ->
    engine_reservations e' !! id = Some r;
  to_new : forall id r, engine_reservations e' !! id = Some r -> res_TenantID r <> T ->
    engine_reservations e !! id = Some r
}.

Lemma touches_trans T e1 e2 e3 : touches T e1 e2 -> touches T e2 e3 -> touches T e1 e3.
Proof.
  intros [A1 A2 A3] [B1 B2 B3]. split; eauto. intros T' Hne. by rewrite B1, A1.
Qed.

Lemma touches_tenant T e t : touches T e (set_tenant e T t).
Proof. split; try done. intros T' Hne. rewrite lookup_set_tenant. by rewrite decide_False. Qed.

Lemma touches_roll T e t t' : touches T e (set_tenant (roll_over e T t).1 T t').
Proof.
  split.
  - intros T' Hne. rewrite lookup_set_tenant. by rewrite decide_False.
  - intros id r Er HT. rewrite set_tenant_reservations, lookup_roll, Er. cbn. unfold roll_reservation.
    destruct (rolls T _ r) eqn:E; [|done]. by apply rolls_spec in E as [? _].
  - intros id r. rewrite set_tenant_reservations, lookup_roll.
    destruct (engine_reservations e !! id) as [r0|]; cbn; [|done]. intros [= E] HT.
    assert (HT0 : res_TenantID r = res_TenantID r0) by (by rewrite <- E, roll_reservation_eq).
    f_equal. rewrite <- E. unfold roll_reservation. destruct (rolls T _ r0) eqn:Er; [|done].
    apply rolls_spec in Er as [? _]. congruence.
Qed.

(** What a change of the window or the terms of tenant [T] does to the engine. *)
Record retermed (T : string) (e e' : Engine) : Prop := {
  rt_steps : steps_to e e';
  rt_inbox : engine_inbox e' = engine_inbox e;
  rt_guards : guards_only e e';
  rt_tenants : forall T', is_Some (engine_tenants e !! T') -> is_Some (engine_tenants e' !! T');
  rt_touches : touches T e e';
  rt_rest : (engine_cohorts e', engine_adjustments e', engine_now e', engine_authorityKey e', engine_authorityKeyID e',
             engine_cohortSoftwareHash e', engine_calibrationEvidenceSource e')
    = (engine_cohorts e, engine_adjustments e, engine_now e, engine_authorityKey e, engine_authorityKeyID e,
       engine_cohortSoftwareHash e, engine_calibrationEvidenceSource e)
}.

Lemma retermed_refl T e : retermed T e e.
Proof. split; try done; [apply steps_refl | by apply guards_only_refl]. Qed.

Lemma retermed_terms e T t :
  tenant_ReservedMicros t = tenant_ReservedMicros (tenant_of e T) ->
  tenant_Requests t = tenant_Requests (tenant_of e T) -> retermed T e (set_tenant e T t).
Proof.
  intros Hr Hq. split; try done.
  - by apply steps_one, move_terms.
  - by apply guards_only_refl.
  - intros T' [t' E]. rewrite lookup_set_tenant. case_decide; eauto.
  - apply touches_tenant.
Qed.

Lemma retermed_roll e T t t' :
  engine_tenants e !! T = Some t -> tenant_ReservedMicros t' = tenant_ReservedMicros (roll_over e T t).2 ->
  tenant_Requests t' = tenant_Requests t -> retermed T e (set_tenant (roll_over e T t).1 T t').
Proof.
  intros Ht Hr Hq. split; try done.
  - apply steps_one. by apply (move_roll e T t).
  - apply guards_only_roll.
  - intros T' [u E]. rewrite lookup_set_tenant. case_decide; eauto.
  - apply touches_roll.
Qed.

Lemma advance_spec e T at_ : retermed T e (advanceTenantWindowLocked e T at_).1.
Proof.
  unfold advanceTenantWindowLocked. destruct (engine_tenants e !! T) as [t|] eqn:Ht; [|apply retermed_refl].
  destruct (_ || _); [apply retermed_refl|]. destruct (budgetWindowForPeriod _ _) as [next|]; [|apply retermed_refl].
  destruct (String.eqb _ _); [apply retermed_refl|]. destruct (negb _); [apply retermed_refl|].
  destruct (roll_over e T t) as [e1 t1] eqn:Er. cbn [fst].
  replace e1 with (roll_over e T t).1 by (by rewrite Er). apply retermed_roll; [done| |]; upd.
  - by rewrite Er.
  - unfold roll_over in Er. injection Er as _ <-. by upd.
Qed.

Lemma ensure_spec e T b : let '(e', t) := ensureTenant e T b in
  retermed T e e' /\ engine_tenants e' !! T = Some t /\ engine_reservations e' = engine_reservations e /\
  tenant_ReservedMicros t = tenant_ReservedMicros (tenant_of e T) /\ tenant_Requests t = tenant_Requests (tenant_of e T).
Proof.
  unfold ensureTenant, tenant_of. destruct (engine_tenants e !! T) as [t|] eqn:Ht; cbn [default from_option].
  - split; [apply retermed_refl | done].
  - split; [apply retermed_terms; unfold tenant_of; by rewrite Ht|].
    split; [rewrite lookup_set_tenant; by rewrite decide_True | done].
Qed.

Lemma ensure_known e T b t : engine_tenants e !! T = Some t -> ensureTenant e T b = (e, t).
Proof. unfold ensureTenant. by intros ->. Qed.

Lemma set_tenant_twice e T t t' : set_tenant (set_tenant e T t) T t' = set_tenant e T t'.
Proof. unfold set_tenant. upd. unfold set_with. cbn. by rewrite insert_insert_eq. Qed.

Lemma set_tenant_same e T t : engine_tenants e !! T = Some t -> set_tenant e T t = e.
Proof. intros E. unfold set_tenant. rewrite insert_id by done. by destruct e. Qed.

Lemma guards_only_trans e1 e2 e3 : guards_only e1 e2 -> guards_only e2 e3 -> guards_only e1 e3.
Proof.
  intros G1 G2 id. specialize (G1 id). specialize (G2 id).
  destruct (engine_reservations e1 !! id) as [r|].
  - destruct G1 as (g1 & E1 & K1). rewrite E1 in G2. destruct G2 as (g2 & E2 & K2).
    exists g2. split; [by rewrite E2|]. intros H1 H2. upd_in K2. rewrite <- (K1 H1 H2). by apply K2.
  - by rewrite G1 in G2.
Qed.

Lemma retermed_trans T e1 e2 e3 : retermed T e1 e2 -> retermed T e2 e3 -> retermed T e1 e3.
Proof.
  intros [A1 A2 A3 A4 A5 A6] [B1 B2 B3 B4 B5 B6]. split.
  - by eapply steps_trans.
  - congruence.
  - by eapply guards_only_trans.
  - auto.
  - by eapply touches_trans.
  - congruence.
Qed.

Lemma bind_spec e T budget identity window period :
  let '(e', bound) := bindTenantBudget e T budget identity window period in
  retermed T e e' /\ forall t, bound = Ok t ->
    engine_tenants e' !! T = Some t /\ tenant_CurrentWindowID t = window /\ tenant_BudgetMicros t = budget.
Proof.
  unfold bindTenantBudget. pose proof (ensure_spec e T budget) as He.
  destruct (ensureTenant e T budget) as [e1 t1]. destruct He as (R1 & Ht1 & _). cbv zeta.
  destruct (_ && _ && _); [by split|]. destruct (_ && _ && _); [by split|].
  destruct (_ && negb (String.eqb (tenant_CurrentWindowID t1) window)); cbn [andb].
  - destruct (negb _); [by split|]. destruct (roll_over e1 T t1) as [e2 t2] eqn:Er. split.
    + eapply retermed_trans; [exact R1|]. replace e2 with (roll_over e1 T t1).1 by (by rewrite Er).
      apply retermed_roll; [done| |]; upd; [by rewrite Er|]. unfold roll_over in Er. injection Er as _ <-. by upd.
    + intros t [= <-]. rewrite lookup_set_tenant, decide_True by done. by upd.
  - split.
    + eapply retermed_trans; [exact R1|]. apply retermed_terms; upd; by rewrite (tenant_of_some _ _ _ Ht1).
    + intros t [= <-]. rewrite lookup_set_tenant, decide_True by done. by upd.
Qed.

(** The rollover guard a stored reservation gained since a handler read it. *)
Definition guard_gain (e : Engine) (id : string) (res : Reservation) : Z :=
  match engine_reservations e !! id with
  | Some r => res_RolloverGuardMicros r - res_RolloverGuardMicros res
  | None => 0
  end.

(** A handler that read [res], advanced the window and commits its transition. *)
Lemma commit_moves e e1 id res t res' t' code ev kind hash :
  engine_wf e -> engine_reservations e !! id = Some res -> retermed (res_TenantID res) e e1 ->
  engine_tenants e1 !! res_TenantID res = Some t -> engine_inbox e !! ev = None ->
  transition res t res' t' ->
  exists ls, moves e ls (commit (set_tenant e1 (res_TenantID res) (close t' id res')) id ev kind hash
      (res' <| res_LastReasonCode := code |> <| res_LastTransitionEventID := ev |>)) /\
    forall T, leaked ls T = if String.eqb (res_TenantID res) T then guard_gain e1 id res else 0.
Proof.
  intros W Hr [(ls & Hm & Hl) Hin Hg _ _ _] Ht Hev Htr. specialize (Hg id). rewrite Hr in Hg.
  destruct Hg as (g & E1 & _).
  exists (ls ++ [Some (res_TenantID res, g - res_RolloverGuardMicros res)]). split.
  - eapply moves_app; [exact Hm|]. apply moves_one.
    apply (move_commit e1 id g res t res' t'); [done | exact (ew_res _ W _ _ Hr) | done | done | congruence].
  - intros T. unfold leaked, guard_gain in *. rewrite map_app, zsum_app, Hl, E1. upd. cbn [map leak].
    rewrite zsum_cons. cbn. destruct (String.eqb _ _); lia.
Qed.

Lemma guard_gain_none T e e1 id res : retermed T e e1 -> engine_reservations e !! id = Some res ->
  res_State res <> StateSettledProvisional -> res_State res <> StateCorrectedProvisional -> guard_gain e1 id res = 0.
Proof.
  intros [_ _ Hg _ _ _] Hr H1 H2. specialize (Hg id). rewrite Hr in Hg. destruct Hg as (g & E & Hk).
  unfold guard_gain. rewrite E. upd. rewrite Hk by done. lia.
Qed.

Lemma locate_spec e id tenantID workload attempt check res :
  locate e id tenantID workload attempt check = inl res ->
  engine_reservations e !! id = Some res /\ res_TenantID res = tenantID /\ res_WorkloadUID res = workload /\
  res_ProviderAttemptID res = attempt /\ check res = None.
Proof.
  unfold locate. destruct (engine_reservations e !! id) as [r|]; [|discriminate].
  unfold matchPrincipal. destruct (negb _ || negb _) eqn:Hp; [discriminate|]. bool_to_prop.
  destruct (String.eqb_spec attempt (res_ProviderAttemptID r)); cbn [negb]; [|discriminate].
  destruct (check r) eqn:Hc; [discriminate|]. intros E. assert (r = res) as <- by congruence. split; [done|]. split; [tauto|].
  split; [tauto|]. by split.
Qed.

(** *** Refusals leave the tenant alone *)

(** A refusal, or the report of a duplicate. *)
Definition no_effect (o : outcome) : Prop :=
  o.2 <> None \/ o.1.2 = ReasonSettlementDuplicate \/ o.1.2 = ReasonDuplicateEvent.

Lemma conclude_effect r t req x : ~ no_effect (conclude r t req x).
Proof.
  unfold no_effect, conclude, release_hold. cbv zeta.
  repeat match goal with |- context [if ?b then _ else _] => destruct b end; cbn [fst snd]; intuition discriminate.
Qed.

Lemma settle_open_refused r t req x : no_effect (settle_open r t req x) -> (settle_open r t req x).1.1.2 = t.
Proof.
  unfold settle_open. cbv beta zeta. set (r0 := r <| res_OutboxState := OutboxDelivered |>).
  repeat match goal with |- context [if ?b then _ else _] => destruct b end; try done.
  - by intros ?%conclude_effect.
  - destruct (observe_usage r0 t req). by intros ?%conclude_effect.
Qed.

Lemma correct_finalized_refused r t req x :
  no_effect (correct_finalized r t req x) -> (correct_finalized r t req x).1.1.2 = t.
Proof.
  unfold no_effect, correct_finalized, set_credit. cbv zeta.
  repeat match goal with |- context [if ?b then _ else _] => destruct b end; cbn [fst snd]; intuition discriminate.
Qed.

Lemma applySettlement_refused r t req : no_effect (applySettlement r t req) -> (applySettlement r t req).1.1.2 = t.
Proof.
  unfold applySettlement. destruct (SettleComponents _ _ _) as [[[c m] x]|]; [|done].
  destruct (SumActualComponents c) as [a|]; [|done]. cbv zeta.
  set (r0 := r <| res_ActualComponents := _ |> <| res_MissingUsageBases := _ |> <| res_ComponentBoundExceeded := _ |>).
  clearbody r0. match goal with |- context [correct_finalized _ _ ?q _] => set (req0 := q); clearbody req0 end.
  repeat match goal with |- context [if ?b then _ else _] => destruct b end; try done;
    [apply correct_finalized_refused | apply settle_open_refused].
Qed.

Lemma applyCancel_refused r t a : no_effect (applyCancel r t a) -> (applyCancel r t a).1.1.2 = t.
Proof.
  unfold no_effect, applyCancel, release_hold. cbv zeta.
  destruct (res_State r); repeat match goal with |- context [if ?b then _ else _] => destruct b end; cbn [fst snd];
    intuition discriminate.
Qed.

(** *** Transition handlers *)

(** What a transition handler does to the engine: nothing but a change of the
    tenant's window, or the commit of one transition of one of the caller's
    requests. *)
Inductive handled (e : Engine) (id ev tenantID workload kind hash : string) (settling : bool) : Engine -> Prop :=
| handled_quiet e' :
    retermed tenantID e e' ->
    (e' = e \/ exists res, engine_reservations e !! id = Some res /\ res_TenantID res = tenantID /\
       e' = (advanceTenantWindowLocked e tenantID (engine_now e)).1) ->
    handled e id ev tenantID workload kind hash settling e'
| handled_commit res e1 t res' t' code :
    engine_reservations e !! id = Some res -> res_TenantID res = tenantID -> res_WorkloadUID res = workload ->
    validateReservationRoute res = None ->
    engine_inbox e !! ev = None ->
    e1 = (advanceTenantWindowLocked e tenantID (engine_now e)).1 -> engine_tenants e1 !! tenantID = Some t ->
    ledger_step res t res' t' ->
    (settling = false -> res_State res <> StateSettledProvisional /\ res_State res <> StateCorrectedProvisional) ->
    handled e id ev tenantID workload kind hash settling
      (commit (set_tenant e1 tenantID (close t' id res')) id ev kind hash
         (res' <| res_LastReasonCode := code |> <| res_LastTransitionEventID := ev |>)).

Lemma advance_tenant e T at_ t : engine_tenants e !! T = Some t ->
  is_Some (engine_tenants (advanceTenantWindowLocked e T at_).1 !! T).
Proof. intros E. apply (rt_tenants _ _ _ (advance_spec e T at_)). eauto. Qed.

Lemma Dispatch_handled e req : engine_wf e ->
  handled e (dreq_RequestID req) (dreq_EventID req) (dreq_AuthenticatedTenantID req) (dreq_AuthenticatedWorkloadUID req)
    "dispatch" (dispatch_hash req) false (Dispatch e req).1.
Proof.
  intros W. unfold Dispatch. cbv zeta.
  destruct (validateEventPrincipal _ _ _ _ _ _); [apply handled_quiet; [apply retermed_refl | by left]|].
  match goal with |- context [match ?x with Some existing => (e, unchanged existing _ _) | None => _ end] => destruct x end;
    [apply handled_quiet; [apply retermed_refl | by left]|].
  destruct (engine_inbox e !! dreq_EventID req) eqn:Hin; [apply handled_quiet; [apply retermed_refl | by left]|].
  destruct (locate _ _ _ _ _ _) as [res|] eqn:Hl; [|apply handled_quiet; [apply retermed_refl | by left]].
  apply locate_spec in Hl as (Hr & HT & HW & _ & Hroute). rewrite HT.
  assert (Hv : validateReservationRoute res = None)
    by (revert Hroute; unfold dispatch_route_error; by destruct (validateReservationRoute res)).
  destruct (ew_tenant _ W _ _ Hr) as [t0 Ht0]. rewrite HT in Ht0.
  pose proof (advance_spec e (dreq_AuthenticatedTenantID req) (engine_now e)) as R.
  destruct (advance_tenant e _ (engine_now e) _ Ht0) as [t Ht].
  destruct (advanceTenantWindowLocked e _ _) as [e1 [m|]] eqn:Ha; cbn [fst] in R, Ht.
  { apply handled_quiet; [done | right; exists res; rewrite Ha; eauto]. }
  destruct (applyDispatch res (dreq_Status req)) as [[res' code] [m|]] eqn:Hd; cbn [fst].
  { apply handled_quiet; [done | right; exists res; rewrite Ha; eauto]. }
  assert (Hstate : (res_State res <> StateSettledProvisional /\ res_State res <> StateCorrectedProvisional) /\
    reservationIsActive (res_State res') = true).
  { revert Hd. unfold applyDispatch, state_is.
    repeat match goal with |- (if ?b then _ else _) = _ -> _ => destruct b eqn:?; try refused end;
      intros E; injection E as <- _; upd; bool_to_prop;
      repeat match goal with Hx : bool_decide _ = true |- _ => apply bool_decide_eq_true in Hx end;
      (split; [split; congruence | done]). }
  destruct Hstate as [Hs Ha'].
  assert (Hc : close t (dreq_RequestID req) res' = t) by (unfold close; by rewrite Ha').
  rewrite <- (set_tenant_same e1 (dreq_AuthenticatedTenantID req) t Ht) at 1. rewrite <- Hc at 1.
  apply (handled_commit e _ _ _ _ _ _ _ res e1 t res' t); try done; [by rewrite Ha|].
  by apply step_dispatch with (dreq_Status req) code.
Qed.

Lemma duplicate_effect (o : outcome) code :
  o.1.2 = code -> bool_decide (code = ReasonSettlementDuplicate) || bool_decide (code = ReasonDuplicateEvent) = true ->
  no_effect o.
Proof. intros <- [E|E]%orb_prop; apply bool_decide_eq_true in E; unfold no_effect; tauto. Qed.

(** The end of the settlement and cancellation handlers. *)
Lemma handled_outcome e id ev tenantID workload settling kind hash (o : Reservation -> tenantLedger -> outcome)
    res e1 t :
  engine_reservations e !! id = Some res -> res_TenantID res = tenantID -> res_WorkloadUID res = workload ->
  validateReservationRoute res = None -> engine_inbox e !! ev = None -> e1 = (advanceTenantWindowLocked e tenantID (engine_now e)).1 ->
  engine_tenants e1 !! tenantID = Some t ->
  (no_effect (o res t) -> (o res t).1.1.2 = t) ->
  (forall res' t' code, o res t = (res', t', code, None) -> code <> ReasonSettlementDuplicate ->
     code <> ReasonDuplicateEvent -> ledger_step res t res' t' /\
     (settling = false -> res_State res <> StateSettledProvisional /\ res_State res <> StateCorrectedProvisional)) ->
  let '(res', t', code, err) := o res t in
  let effective := commit (set_tenant e1 tenantID (close t' id res')) id ev kind hash
                     (res' <| res_LastReasonCode := code |> <| res_LastTransitionEventID := ev |>) in
  handled e id ev tenantID workload kind hash settling
    (match err with
     | Some _ => set_tenant e1 tenantID t'
     | None => if bool_decide (code = ReasonSettlementDuplicate) || bool_decide (code = ReasonDuplicateEvent)
               then set_tenant e1 tenantID t' else effective
     end).
Proof.
  intros Hr HT HW Hv Hin He1 Ht Href Hstep. destruct (o res t) as [[[res' t'] code] err] eqn:Ho.
  assert (Hquiet : no_effect (res', t', code, err) -> handled e id ev tenantID workload kind hash settling (set_tenant e1 tenantID t')).
  { intros Hne. rewrite (Href Hne : t' = t), (set_tenant_same _ _ _ Ht). apply handled_quiet.
    - rewrite He1. apply advance_spec.
    - right. eauto. }
  cbv zeta. destruct err as [m|]; [apply Hquiet; left; done|].
  destruct (_ || _) eqn:Hd; [apply Hquiet; by eapply duplicate_effect|].
  apply orb_false_elim in Hd as [H1%bool_decide_eq_false H2%bool_decide_eq_false].
  destruct (Hstep _ _ _ eq_refl H1 H2) as [Hs Hp].
  by apply (handled_commit e _ _ _ _ _ _ _ res e1 t res' t').
Qed.

Lemma Settle_handled e req : engine_wf e ->
  handled e (sreq_RequestID req) (sreq_SettlementID req) (sreq_AuthenticatedTenantID req)
    (sreq_AuthenticatedWorkloadUID req) "settlement" (settlementPayloadHash req) true (Settle e req).1.
Proof.
  intros W. unfold Settle. cbv zeta.
  destruct (validateSettleRequest req); [apply handled_quiet; [apply retermed_refl | by left]|].
  destruct (engine_inbox e !! sreq_SettlementID req) eqn:Hin; [apply handled_quiet; [apply retermed_refl | by left]|].
  destruct (locate _ _ _ _ _ _) as [res|] eqn:Hl; [|apply handled_quiet; [apply retermed_refl | by left]].
  apply locate_spec in Hl as (Hr & HT & HW & _ & Hv). rewrite HT.
  destruct (ew_tenant _ W _ _ Hr) as [t0 Ht0]. rewrite HT in Ht0.
  pose proof (advance_spec e (sreq_AuthenticatedTenantID req) (engine_now e)) as R.
  destruct (advance_tenant e _ (engine_now e) _ Ht0) as [t Ht].
  destruct (advanceTenantWindowLocked e _ _) as [e1 [m|]] eqn:Ha; cbn [fst] in R, Ht.
  { apply handled_quiet; [done | right; exists res; rewrite Ha; eauto]. }
  rewrite (ensure_known _ _ _ _ Ht).
  pose proof (handled_outcome e (sreq_RequestID req) (sreq_SettlementID req) (sreq_AuthenticatedTenantID req)
    (sreq_AuthenticatedWorkloadUID req) true "settlement" (settlementPayloadHash req)
    (fun r u => applySettlement r u req) res e1 t Hr HT HW Hv Hin) as Ho.
  cbv beta in Ho. rewrite Ha in Ho. specialize (Ho eq_refl Ht (applySettlement_refused res t req)).
  destruct (applySettlement res t req) as [[[res' t'] code] [m|]] eqn:He.
  - apply Ho. intros *. refused.
  - destruct (_ || _) eqn:Hd in Ho |- *; apply Ho; intros r u c Heq H1 H2; (split; [|done]);
      by apply step_settle with req c; [rewrite He|].
Qed.

Lemma Cancel_handled e req : engine_wf e ->
  handled e (creq_RequestID req) (creq_EventID req) (creq_AuthenticatedTenantID req)
    (creq_AuthenticatedWorkloadUID req) "cancel" (cancel_hash req) false (Cancel e req).1.
Proof.
  intros W. unfold Cancel. cbv zeta.
  destruct (validateEventPrincipal _ _ _ _ _ _); [apply handled_quiet; [apply retermed_refl | by left]|].
  destruct (blank _); [apply handled_quiet; [apply retermed_refl | by left]|].
  destruct (engine_inbox e !! creq_EventID req) eqn:Hin; [apply handled_quiet; [apply retermed_refl | by left]|].
  destruct (locate _ _ _ _ _ _) as [res|] eqn:Hl; [|apply handled_quiet; [apply retermed_refl | by left]].
  apply locate_spec in Hl as (Hr & HT & HW & _ & Hv). rewrite HT.
  destruct (ew_tenant _ W _ _ Hr) as [t0 Ht0]. rewrite HT in Ht0.
  pose proof (advance_spec e (creq_AuthenticatedTenantID req) (engine_now e)) as R.
  destruct (advance_tenant e _ (engine_now e) _ Ht0) as [t Ht].
  destruct (advanceTenantWindowLocked e _ _) as [e1 [m|]] eqn:Ha; cbn [fst] in R, Ht.
  { apply handled_quiet; [done | right; exists res; rewrite Ha; eauto]. }
  rewrite (ensure_known _ _ _ _ Ht).
  pose proof (handled_outcome e (creq_RequestID req) (creq_EventID req) (creq_AuthenticatedTenantID req)
    (creq_AuthenticatedWorkloadUID req) false "cancel" (cancel_hash req)
    (fun r u => applyCancel r u (creq_AuthoritativeUnbilled req)) res e1 t Hr HT HW Hv Hin) as Ho.
  cbv beta in Ho. rewrite Ha in Ho. specialize (Ho eq_refl Ht (applyCancel_refused res t _)).
  destruct (applyCancel res t _) as [[[res' t'] code] [m|]] eqn:He; [apply Ho; intros *; refused|].
  rewrite (orb_comm (bool_decide (code = ReasonDuplicateEvent))).
  assert (Hstep : forall r u c, (res', t', code, @None error) = (r, u, c, None) -> c <> ReasonDuplicateEvent ->
    ledger_step res t r u /\ (false = false -> res_State res <> StateSettledProvisional
      /\ res_State res <> StateCorrectedProvisional)).
  { intros r u c Heq H2. split; [by apply step_cancel with (creq_AuthoritativeUnbilled req) c; [rewrite He|]|].
    intros _. revert He. unfold applyCancel. destruct (res_State res); (refused || done). }
  destruct (_ || _) eqn:Hd in Ho |- *; [by apply Ho; eauto|].
  replace (if state_is _ StateCanceledUnbilled || _ then remove_request t' (creq_RequestID req) else t')
    with (close t' (creq_RequestID req) res'); [apply Ho; eauto|].
  apply orb_false_elim in Hd as [_ Hd%bool_decide_eq_false]. revert He. unfold applyCancel, release_hold, close, state_is.
  destruct (res_State res); cbv zeta;
    repeat match goal with |- (if ?b then _ else _) = _ -> _ => destruct b; try refused end; try refused;
    intros (<- & _ & Hco & _)%outcome_eq; upd; try done; congruence.
Qed.

(** *** Admission *)

(** The engine after an admission: unchanged up to the tenant's terms, or with one
    new reservation that fits the tenant's available budget. *)
Record admitted (e : Engine) (req : AdmitRequest) (budget : AIBudgetPolicy) (routing : AIRoutingPolicy)
    (e1 : Engine) (t : tenantLedger) (candidates : list Candidate) (choice : admissionChoice) (res : Reservation)
    (e' : Engine) : Prop := {
  am_new : engine_reservations e !! areq_RequestID req = None;
  am_terms : retermed (areq_AuthenticatedTenantID req) e e1;
  am_tenant : engine_tenants e1 !! areq_AuthenticatedTenantID req = Some t;
  am_budget : quantityToMicros (bs_BudgetEUR (bpol_Spec budget)) = Ok (tenant_BudgetMicros t);
  am_window : budgetWindowForPeriod (bs_Period (bpol_Spec budget)) (engine_now e) = Ok (tenant_CurrentWindowID t);
  am_choice : admissible req routing (available t) (engine_now e) (engine_calibrationEvidenceSource e) candidates choice;
  am_reservation : exists fingerprint risk digest,
    cohort_allocation e1 req routing choice = Some (Some (risk, digest)) /\
    String.eqb (ch_Method choice) GOVARReservationFixedCohort && slot_taken e1 req = false /\
    res = new_reservation e1 req budget routing fingerprint (tenant_CurrentWindowID t) choice risk digest;
  am_engine : e' = (set_tenant e1 (areq_AuthenticatedTenantID req)
      (t <| tenant_ReservedMicros := tenant_ReservedMicros t +i ch_Reservation choice |>
         <| tenant_Requests := {[areq_RequestID req]} ∪ tenant_Requests t |>))
    <| engine_reservations := <[areq_RequestID req := res]> (engine_reservations e1) |>
}.

Lemma failure_not_admitted routing reason : decisionForAdmissionFailure routing reason <> DecisionAdmit.
Proof.
  unfold decisionForAdmissionFailure. case_bool_decide; [done|]. destruct (rs_GOVAR _); [|done].
  destruct (isCalibrationReason _); [|done]. by repeat destruct (String.eqb _ _).
Qed.

(** An admission call either admits no new request, or records the reservation it
    answers with. *)
Definition admission_outcome (e : Engine) (req : AdmitRequest) (budget : AIBudgetPolicy) (routing : AIRoutingPolicy)
    (out : Engine * result AdmitResponse) : Prop :=
  (retermed (areq_AuthenticatedTenantID req) e out.1 /\
   (engine_reservations e !! areq_RequestID req = None ->
    forall resp, out.2 = Ok resp -> resp_Decision resp <> DecisionAdmit)) \/
  exists e1 t ranked choice res reason, admitted e req budget routing e1 t ranked choice res out.1 /\
    out.2 = Ok (responseForReservation res reason).

Lemma refused_outcome e e' req budget routing d reason :
  retermed (areq_AuthenticatedTenantID req) e e' -> d <> DecisionAdmit ->
  admission_outcome e req budget routing (e', Ok (decisionResponse d reason budget routing)).
Proof. intros R Hd. left. split; [exact R|]. by intros _ resp [= <-]. Qed.

Lemma error_outcome e e' req budget routing m :
  retermed (areq_AuthenticatedTenantID req) e e' -> admission_outcome e req budget routing (e', Err m).
Proof. intros R. by left. Qed.

Lemma Admit_spec e req budget routing candidates out :
  Admit e req budget routing candidates = Some out -> admission_outcome e req budget routing out.
Proof.
  unfold Admit. pose proof (retermed_refl (areq_AuthenticatedTenantID req) e) as R0.
  destruct (validateAdmitRequest req); [intros [= <-]; by apply error_outcome|].
  match goal with |- context [if ?b then _ else _] => destruct b end; [intros [= <-]; by apply error_outcome|]. cbv zeta.
  set (ranked := rankedCandidates _ _ _ _). set (fingerprint := admissionFingerprint _ _ _ _).
  clearbody ranked fingerprint.
  destruct (engine_reservations e !! areq_RequestID req) as [old|] eqn:Hnew.
  { intros [= <-]. left. split; [exact R0|]. intros E. congruence. }
  unfold admit_new. cbv zeta.
  destruct (is_reason _); [intros [= <-]; by apply refused_outcome|].
  destruct (cn_Enabled _); [intros [= <-]; by apply refused_outcome|].
  destruct (quantityToMicros _) as [micros|] eqn:Hq; [|intros [= <-]; by apply error_outcome].
  destruct (budgetWindowForPeriod _ _) as [window|] eqn:Hw; [|intros [= <-]; by apply error_outcome].
  pose proof (bind_spec e (areq_AuthenticatedTenantID req) micros (budgetPolicyIdentity budget) window
                (bs_Period (bpol_Spec budget))) as Hb.
  destruct (bindTenantBudget _ _ _ _ _ _) as [e1 [t|]]; destruct Hb as [R Ht]; [|intros [= <-]; by apply refused_outcome].
  destruct (Ht _ eq_refl) as (Ht1 & Hwin & Hbud). pose proof (rt_rest _ _ _ R) as Hrest.
  destruct (chooseAdmissionWithEvidenceSource _ _ _ _ _ _) as [[[choice|reason]|]|] eqn:Hch; cbn [mbind option_bind];
    [|intros [= <-]; by apply refused_outcome, failure_not_admitted|intros [= <-]; by apply error_outcome|discriminate].
  destruct (cohort_allocation e1 req routing choice) as [[[risk digest]|]|] eqn:Hco; cbn [mbind option_bind];
    [|intros [= <-]; by apply refused_outcome|discriminate].
  destruct (_ && slot_taken e1 req) eqn:Hslot; [intros [= <-]; by apply refused_outcome|]. intros Hout%Some_inj. rewrite <- Hout. clear Hout. right.
  apply choice_admissible in Hch. injection Hrest as _ _ Hnow _ _ _ Hsrc. rewrite Hnow, Hsrc in Hch.
  eexists e1, t, ranked, choice, _, _. split; [|reflexivity]. split; try done.
  - by rewrite Hbud.
  - by rewrite Hwin.
  - by eexists fingerprint, risk, digest.
Qed.

(** An admission never panics: the calibration was checked to be there, and a
    registered cohort has a slot for every index below its size. *)
Lemma cohort_allocation_total e req routing choice : (forall k c, engine_cohorts e !! k = Some c -> normal_cohort c) ->
  is_Some (cohort_allocation e req routing choice).
Proof.
  intros Hn. unfold cohort_allocation. destruct (negb _); [by eexists|]. destruct (engine_cohorts e !! _) as [c|] eqn:Hc; [|by eexists].
  destruct (validateCohortAdmission_total req routing c (engine_now e) (Hn _ _ Hc)) as [r ->]. by eexists.
Qed.
Lemma Admit_total e req budget routing candidates : engine_wf e -> is_Some (Admit e req budget routing candidates).
Proof.
  intros W. unfold Admit. destruct (validateAdmitRequest req); [by eexists|].
  match goal with |- context [if ?b then _ else _] => destruct b end; [by eexists|]. cbv zeta.
  set (ranked := rankedCandidates _ _ _ _). set (fingerprint := admissionFingerprint _ _ _ _). clearbody ranked fingerprint.
  destruct (engine_reservations e !! areq_RequestID req); [by eexists|]. unfold admit_new. cbv zeta.
  destruct (is_reason _); [by eexists|]. destruct (cn_Enabled _); [by eexists|].
  destruct (quantityToMicros _) as [micros|]; [|by eexists]. destruct (budgetWindowForPeriod _ _) as [window|]; [|by eexists].
  pose proof (bind_spec e (areq_AuthenticatedTenantID req) micros (budgetPolicyIdentity budget) window
                (bs_Period (bpol_Spec budget))) as Hb.
  destruct (bindTenantBudget _ _ _ _ _ _) as [e1 [t|]]; destruct Hb as [R _]; [|by eexists].
  destruct (choose_total req routing (available t) (engine_now e1) (engine_calibrationEvidenceSource e1) ranked) as [[[choice|reason]|] ->];
    cbn [mbind option_bind]; [|by eexists..].
  destruct (cohort_allocation_total e1 req routing choice) as [[[risk digest]|] ->]; cbn [mbind option_bind]; [|destruct (_ && _); by eexists|by eexists].
  intros k c. pose proof (rt_rest _ _ _ R) as Hrest. injection Hrest as -> _ _ _ _ _ _. apply (ew_cohorts _ W).
Qed.

Lemma choice_micros req routing av at_ src candidates choice :
  admissible req routing av at_ src candidates choice -> micros (ch_Reservation choice).
Proof.
  intros [_ _ _ Hsum _ Hnn]. split; [done|]. unfold SumComponents in Hsum.
  apply (sum_micros_in64 _ _ 0) in Hsum as [_ Hs]; done.
Qed.

Lemma cohort_allocation_backed e req routing choice risk digest res :
  cohort_allocation e req routing choice = Some (Some (risk, digest)) ->
  (forall k c, engine_cohorts e !! k = Some c -> normal_cohort c) ->
  res_ReservationMode res = ch_Method choice -> res_TenantID res = areq_AuthenticatedTenantID req ->
  res_CohortID res = areq_CohortID req -> res_AllocatedRiskPPB res = risk ->
  cohort_backed e (areq_RequestID req) res.
Proof.
  intros Hco Hn HM HT HC HR. unfold cohort_backed. rewrite HM, HT, HC, HR. intros Hm. revert Hco.
  unfold cohort_allocation. rewrite Hm, String.eqb_refl. cbn [negb].
  destruct (engine_cohorts e !! _) as [c|] eqn:Hc; [|done]. specialize (Hn _ _ Hc).
  unfold validateCohortAdmission. destruct (_ || _ || _); [done|].
  destruct (rs_GOVAR _) as [g|]; [|done]. destruct (grs_Cohort g), (grs_Risk g); try done.
  repeat match goal with |- context [if ?b then Some (Err _) else _] => destruct b; [done|]
    | |- context [if ?b then None else _] => destruct b; [done|] end.
  destruct (coh_Slots c !! _) as [slot|] eqn:Hs; [|done].
  destruct (String.eqb_spec (slot_RequestID slot) (areq_RequestID req)) as [Hid|]; cbn [negb orb]; [|done].
  destruct (String.eqb (slot_OpportunityDigest slot) _); cbn [negb mbind option_bind]; [|done]. intros E. apply list_elem_of_lookup_2 in Hs. exists c, slot.
  pose proof (slot_risk_nonneg _ _ Hn Hs) as Hnn.
  revert E. destruct (Z.leb_spec 0 (slot_risk c slot)); [|lia]. intros E. injection E as <- <-. done.
Qed.

Lemma admitted_move e req budget routing e1 t candidates choice res e' :
  admitted e req budget routing e1 t candidates choice res e' ->
  engine_wf e -> move e1 None e' /\ res_wf res /\ held res = ch_Reservation choice.
Proof.
  intros [Hnew R Ht Hbud Hwin Hch (fp & risk & digest & Hco & Hslot & ->) ->] W.
  pose proof (choice_micros _ _ _ _ _ _ _ Hch) as Hm.
  set (res := new_reservation _ _ _ _ _ _ _ _ _).
  assert (Hh : held res = ch_Reservation choice) by (unfold held, res, new_reservation; cbn; lia).
  assert (Hwf : res_wf res).
  { unfold res, new_reservation. split; unfold level; cbn; try done; unfold micros, max_int64 in *; lia. }
  split; [|done]. pose proof (rt_guards _ _ _ R (areq_RequestID req)) as Hg. rewrite Hnew in Hg.
  assert (Hf : res_TenantID res = areq_AuthenticatedTenantID req /\ res_RequestID res = areq_RequestID req /\
    res_State res = StateReserved) by done.
  assert (Hb : cohort_backed e1 (areq_RequestID req) res).
  { apply (cohort_allocation_backed e1 req routing choice risk digest res Hco); try done.
    intros k c. pose proof (rt_rest _ _ _ R) as Hrest. injection Hrest as -> _ _ _ _ _ _. apply (ew_cohorts _ W). }
  clearbody res. destruct Hf as (HT & Hid & Hs).
  rewrite <- HT in Ht |- *. rewrite <- Hh. by apply (move_admit e1 (areq_RequestID req) res t).
Qed.

(** *** The other handlers *)

Lemma Admit_steps e req budget routing candidates out :
  Admit e req budget routing candidates = Some out -> engine_wf e -> steps_to e out.1.
Proof.
  intros E W. destruct (Admit_spec e req budget routing candidates out E) as [[R _] | (e1 & t & ranked & choice & res & reason & Ha & _)]; [apply R|].
  eapply steps_trans; [exact (rt_steps _ _ _ (am_terms _ _ _ _ _ _ _ _ _ _ Ha))|].
  apply steps_one. by destruct (admitted_move _ _ _ _ _ _ _ _ _ _ Ha W) as [Hm _].
Qed.

Lemma Liability_retermed e T : retermed T e (Liability e T).1.
Proof.
  unfold Liability. pose proof (advance_spec e T (engine_now e)) as R.
  destruct (advanceTenantWindowLocked e T _) as [e1 o]. cbn [fst] in *. pose proof (ensure_spec e1 T 0) as He.
  destruct (ensureTenant e1 T 0) as [e2 t]. destruct He as [R2 _]. by eapply retermed_trans.
Qed.

Lemma AdjustBudget_steps e a : steps_to e (AdjustBudget e a).1.
Proof.
  unfold AdjustBudget. do 2 (match goal with |- context [if ?b then _ else _] => destruct b end; [apply steps_refl|]).
  destruct (engine_adjustments e !! _) eqn:Hadj; [destruct (String.eqb _ _); apply steps_refl|].
  destruct (engine_tenants e !! adj_TenantID a) as [t0|] eqn:Ht0; [|apply steps_refl].
  pose proof (advance_spec e (adj_TenantID a) (engine_now e)) as R.
  destruct (advance_tenant e _ (engine_now e) _ Ht0) as [t Ht].
  destruct (advanceTenantWindowLocked e _ _) as [e1 [m|]]; cbn [fst] in R, Ht; [apply R|].
  rewrite Ht. cbn [default from_option]. unfold id. cbv zeta.
  destruct (negb _); [apply R|]. destruct (_ <? _); [apply R|]. cbn [fst].
  eapply steps_trans; [apply R|]. eapply steps_trans; apply steps_one.
  - apply (move_terms e1 (adj_TenantID a) (t <| tenant_CarriedAdjustmentMicros :=
      tenant_CarriedAdjustmentMicros t -i adj_DebtPaymentMicros a |> <| tenant_BudgetMicros := adj_NewBudgetMicros a |>));
      upd; by rewrite (tenant_of_some _ _ _ Ht).
  - apply move_other; try done; [by apply cohorts_grow_refl|]. intros k p Hk. upd.
    pose proof (rt_rest _ _ _ R) as Hrest. injection Hrest as _ Ha _ _ _ _ _.
    rewrite lookup_insert_ne; [done|]. intros <-. unfold set_tenant in Hk. upd_in Hk. congruence.
Qed.

(** *** Expiry *)

(** A request whose time has passed, that its expiry may move. *)
Definition due (at_ : Time) (e : Engine) (res : Reservation) : bool :=
  negb (After (res_Expiry res) at_) && negb (failed (validateReservationRoute res)) &&
  ((state_is (res_State res) StateReserved && outbox_is (res_OutboxState res) OutboxPending
    && negb (bool_decide (is_Some (engine_inbox e !! expiry_event "expiry:" res))))
   || ((state_is (res_State res) StateDispatchPending || state_is (res_State res) StateDispatched)
       && negb (bool_decide (is_Some (engine_inbox e !! expiry_event "expiry-unresolved:" res))))).

(** What the expiry of a due request leaves. *)
Record expired_one (id : string) (res : Reservation) (e e' : Engine) (out : list ReconciliationRecord)
    (t : tenantLedger) (res' : Reservation) (t' : tenantLedger) (code : ReasonCode) (ev hash : string) : Prop := {
  xo_tenant : engine_tenants e !! res_TenantID res = Some t;
  xo_transition : transition res t res' t';
  xo_event : engine_inbox e !! ev = None /\ (ev = expiry_event "expiry:" res \/ ev = expiry_event "expiry-unresolved:" res);
  xo_engine : e' = commit (set_tenant e (res_TenantID res) (close t' id res')) id ev "expiry" hash
                     (res' <| res_LastReasonCode := code |> <| res_LastTransitionEventID := ev |>);
  xo_state : res_State res' = (if state_is (res_State res) StateReserved then StateExpiredUndispatched else StateUnresolved);
  xo_held : held res' = (if state_is (res_State res) StateReserved then 0 else held res);
  xo_out : map (fun r => (rec_RequestID r, rec_PreviousState r, rec_State r)) out = [(id, res_State res, res_State res')]
}.

Lemma expire_one_spec e at_ id res :
  engine_wf e -> engine_reservations e !! id = Some res ->
  exists e' out, expire_one at_ id res e = Some (e', out) /\
    if due at_ e res then exists t res' t' code ev hash, expired_one id res e e' out t res' t' code ev hash
    else e' = e /\ out = [].
Proof.
  intros W Hr. destruct (ew_tenant _ W _ _ Hr) as [t Ht].
  unfold expire_one, due. destruct (After _ _); cbn [negb andb]; [by eexists _, _|].
  destruct (failed _); cbn [negb andb]; [by eexists _, _|].
  pose proof (wf_outbox _ (ew_res _ W _ _ Hr)) as Hob.
  destruct (state_is (res_State res) StateReserved) eqn:Hs; cbn [andb orb].
  - apply bool_decide_eq_true in Hs as Hs'. rewrite Hs' in Hob |- *.
    destruct (outbox_is (res_OutboxState res) OutboxPending) eqn:Ho;
      [|exfalso; revert Hob Ho; clear; unfold outbox_is; destruct (res_OutboxState res); discriminate].
    apply bool_decide_eq_true in Ho as Ho'. cbn [andb]. cbv zeta.
    destruct (engine_inbox e !! expiry_event "expiry:" res) as [prior|] eqn:Hin; [by eexists _, _|].
    rewrite bool_decide_eq_false_2 by (by intros [? ?]). cbn [negb orb]. rewrite Ht. cbn [mbind option_bind].
    eexists _, _. split; [reflexivity|].
    exists t, (release_hold (expired res) t).1, (release_hold (expired res) t).2, ReasonExpiredUndispatched,
      (expiry_event "expiry:" res), (expiry_hash "expiry-v1" res).
    split; try done.
    + by apply transition_expired.
    + split; [done | by left].
    + unfold commit. rewrite <- (ew_id _ W _ _ Hr). reflexivity.
    + by rewrite Hs.
    + by rewrite Hs.
    + cbn [map]. unfold reconciled. cbn [rec_RequestID rec_PreviousState rec_State]. upd. by rewrite Hs'.
  - destruct (state_is (res_State res) StateDispatchPending || state_is (res_State res) StateDispatched) eqn:Hd;
      cbn [andb]; [|by eexists _, _]. cbv zeta.
    destruct (engine_inbox e !! expiry_event "expiry-unresolved:" res) as [prior|] eqn:Hin; [by eexists _, _|].
    rewrite bool_decide_eq_false_2 by (by intros [? ?]). cbn [negb].
    eexists _, _. split; [reflexivity|].
    exists t, (res <| res_State := StateUnresolved |>), t, ReasonDispatchUnresolved,
      (expiry_event "expiry-unresolved:" res), (expiry_hash "expiry-unresolved-v1" res).
    assert (Hc : close t id (res <| res_State := StateUnresolved |>) = t) by reflexivity.
    split; try done.
    + apply transition_unresolved. unfold state_is in Hd. apply orb_prop in Hd.
      by destruct Hd as [?%bool_decide_eq_true|?%bool_decide_eq_true]; [left | right].
    + split; [done | by right].
    + rewrite Hc, (set_tenant_same _ _ _ Ht). unfold commit. rewrite <- (ew_id _ W _ _ Hr). reflexivity.
    + by rewrite Hs.
    + by rewrite Hs.
Qed.

Lemma expired_one_steps e at_ id res e' out :
  engine_wf e -> engine_reservations e !! id = Some res -> expire_one at_ id res e = Some (e', out) ->
  steps_to e e' /\ forall id', id' <> id -> engine_reservations e' !! id' = engine_reservations e !! id'.
Proof.
  intros W Hr He. destruct (expire_one_spec e at_ id res W Hr) as (e1 & out1 & He1 & Hd).
  rewrite He in He1. injection He1 as <- <-. destruct (due at_ e res).
  - destruct Hd as (t & res' & t' & code & ev & hash & [Ht Htr [Hev _] -> _ _ _]). split.
    + exists [Some (res_TenantID res, 0)]. split.
      * apply moves_one. rewrite <- (Z.sub_diag (res_RolloverGuardMicros res)) at 1.
        apply (move_commit e id (res_RolloverGuardMicros res) res t res' t'); try done;
          [by rewrite guard_same | exact (ew_res _ W _ _ Hr)].
      * intros T. unfold leaked. cbn [map leak]. rewrite zsum_cons. cbn. by destruct (String.eqb _ _).
    + intros id' Hne. unfold commit. upd. by rewrite lookup_insert_ne.
  - destruct Hd as [-> _]. split; [apply steps_refl | done].
Qed.

Lemma steps_wf e e' : steps_to e e' -> engine_wf e -> engine_wf e'.
Proof. intros (ls & Hm & _). by apply moves_wf with ls. Qed.

Lemma expire_all_steps at_ entries : forall e, engine_wf e -> NoDup entries.*1 ->
  (forall id res, (id, res) ∈ entries -> engine_reservations e !! id = Some res) ->
  exists e' out, expire_all at_ entries e = Some (e', out) /\ steps_to e e'.
Proof.
  induction entries as [|[id res] entries IH]; intros e W Hnd Hl; cbn [expire_all].
  { eexists _, _. split; [done | apply steps_refl]. }
  apply NoDup_cons in Hnd as [Hni Hnd].
  assert (Hr : engine_reservations e !! id = Some res) by (apply Hl; by left).
  destruct (expire_one_spec e at_ id res W Hr) as (e1 & out & He & _). rewrite He. cbn [mbind option_bind].
  destruct (expired_one_steps _ _ _ _ _ _ W Hr He) as [Hs Hf].
  destruct (IH e1) as (e2 & more & He2 & Hs2); [by eapply steps_wf | done | |].
  - intros id' res' Hin. rewrite Hf; [apply Hl; by right|]. intros ->. apply Hni.
    apply list_elem_of_fmap. by exists (id, res').
  - rewrite He2. cbn [mbind option_bind]. eexists _, _. split; [done|]. by eapply steps_trans.
Qed.

Lemma ReconcileExpired_steps e at_ : engine_wf e ->
  exists e' out, ReconcileExpired e at_ = Some (e', out) /\ steps_to e e'.
Proof.
  intros W. unfold ReconcileExpired.
  destruct (expire_all_steps at_ (map_to_list (engine_reservations e)) e W) as (e' & out & He & Hs).
  - apply NoDup_fst_map_to_list.
  - intros id res. apply elem_of_map_to_list.
  - rewrite He. cbn [mbind option_bind]. eauto.
Qed.
End engine.
