(* ===== verification/EngineInvariants.v ===== *)
(** * Runs of the in-memory ledger engine

    A run is a sequence of calls of the engine's methods, in any order and with
    any arguments, each one atomic under the engine's mutex. The theorems say what
    holds after every run: no call faults, the books of every tenant, the life of
    every request, the replay of events, and what one tenant's calls can touch. *)

From Stdlib Require Import ZArith Lia Ascii String SpecFloat.
From stdpp Require Import base gmap strings list pretty sorting.
From S2P Require Import Prelude Digest GoTime Api Json Pricing Calibration Routes AdmissionPolicy Ledger LedgerProofs Cohorts Engine EngineProofs.

Open Scope string_scope.
Open Scope list_scope.
Open Scope Z_scope.
Open Scope go_scope.

Section runs.
Context `{Crypto} `{Platform}.

(** A call of a method that changes the engine, or a new reading of its clock. *)
Inductive call : Type :=
| CallAdmit (req : AdmitRequest) (budget : AIBudgetPolicy) (routing : AIRoutingPolicy) (candidates : list Candidate)
| CallDispatch (req : DispatchRequest)
| CallSettle (req : SettleRequest)
| CallCancel (req : CancelRequest)
| CallLiability (tenantID : string)
| CallAdjustBudget (a : BudgetAdjustment)
| CallReconcileExpired (at_ : Time)
| CallRegisterFrozenCohort (c : FrozenCohort)
| CallConfigureLedgerAuthority (keyID key : string)
| CallConfigureCohortRuntime (softwareHash : string)
| CallConfigureTrustedTime (at_ : Time)
| CallConfigureInMemoryQualificationEvidence
| Tick (now : Time).

(** The engine after a call; [None] is a panic. *)
Definition serve (e : Engine) (c : call) : option Engine :=
  match c with
  | CallAdmit req budget routing candidates => fst <$> Admit e req budget routing candidates
  | CallDispatch req => Some (Dispatch e req).1
  | CallSettle req => Some (Settle e req).1
  | CallCancel req => Some (Cancel e req).1
  | CallLiability tenantID => Some (Liability e tenantID).1
  | CallAdjustBudget a => Some (AdjustBudget e a).1
  | CallReconcileExpired at_ => fst <$> ReconcileExpired e at_
  | CallRegisterFrozenCohort c => Some (RegisterFrozenCohort e c).1
  | CallConfigureLedgerAuthority keyID key => Some (ConfigureLedgerAuthority e keyID key).1
  | CallConfigureCohortRuntime softwareHash => Some (ConfigureCohortRuntime e softwareHash).1
  | CallConfigureTrustedTime at_ => Some (ConfigureTrustedTime e at_).1
  | CallConfigureInMemoryQualificationEvidence => Some (ConfigureInMemoryQualificationEvidence e).1
  | Tick now => Some (e <| engine_now := now |>)
  end.

Fixpoint run (e : Engine) (calls : list call) : option Engine :=
  match calls with
  | [] => Some e
  | c :: rest => e' ← serve e c; run e' rest
  end.

(** The engine a process starts with. *)
Definition starting (e : Engine) : Prop :=
  engine_reservations e = ∅ /\ engine_inbox e = ∅ /\ engine_tenants e = ∅ /\ engine_cohorts e = ∅
  /\ engine_adjustments e = ∅.

Lemma starting_wf e : starting e -> engine_wf e.
Proof. intros (Hr & _ & Ht & Hc & _). split; intros *; rewrite ?Hr, ?Ht, ?Hc, lookup_empty; done. Qed.

(** What a settlement leaks into its tenant's reserved micros: the guard that the
    rollover of the window added to the stored reservation after the handler had
    read it, when the handler then overwrites the reservation. *)
Definition settle_leak (e : Engine) (c : call) (T : string) : Z :=
  match c with
  | CallSettle req =>
    match engine_reservations e !! sreq_RequestID req, engine_inbox e !! sreq_SettlementID req,
          engine_inbox (Settle e req).1 !! sreq_SettlementID req with
    | Some res, None, Some _ =>
      if String.eqb (res_TenantID res) T
      then guard_gain (advanceTenantWindowLocked e (res_TenantID res) (engine_now e)).1 (sreq_RequestID req) res
      else 0
    | _, _, _ => 0
    end
  | _ => 0
  end.

Fixpoint run_leak (e : Engine) (calls : list call) (T : string) : Z :=
  match calls with
  | [] => 0
  | c :: rest => settle_leak e c T + match serve e c with Some e' => run_leak e' rest T | None => 0 end
  end.

Lemma handled_moves e id ev T W kind hash settling e' : engine_wf e -> handled e id ev T W kind hash settling e' ->
  exists ls, moves e ls e' /\ forall T', leaked ls T' =
    match engine_reservations e !! id, engine_inbox e !! ev, engine_inbox e' !! ev with
    | Some res, None, Some _ =>
      if String.eqb (res_TenantID res) T' then guard_gain (advanceTenantWindowLocked e (res_TenantID res) (engine_now e)).1 id res
      else 0
    | _, _, _ => 0
    end.
Proof.
  intros Hwf [e1 R _ | res e1 t res' t' code Hr HT HW Hv Hin -> Ht Hst Hs].
  - destruct (rt_steps _ _ _ R) as (ls & Hm & Hl). exists ls. split; [done|]. intros T'. rewrite Hl, (rt_inbox _ _ _ R).
    destruct (engine_reservations e !! id); [|done]. by destruct (engine_inbox e !! ev).
  - rewrite <- HT in Ht |- *.
    destruct (commit_moves e _ id res t res' t' code ev kind hash Hwf Hr (advance_spec e (res_TenantID res) (engine_now e))
                Ht Hin (transition_event _ _ _ _ Hst)) as (ls & Hm & Hl).
    exists ls. split; [exact Hm|]. intros T'. rewrite Hl, Hr, Hin. unfold commit. upd. by rewrite lookup_insert_eq.
Qed.

Lemma handled_steps e id ev T W kind hash e' : engine_wf e -> handled e id ev T W kind hash false e' -> steps_to e e'.
Proof.
  intros Hwf Hh. destruct (handled_moves _ _ _ _ _ _ _ _ _ Hwf Hh) as (ls & Hm & Hl). exists ls. split; [done|]. intros T'.
  rewrite Hl. destruct (engine_reservations e !! id) as [res|] eqn:Hr; [|done].
  destruct (engine_inbox e !! ev) eqn:Hi; [done|]. destruct (engine_inbox e' !! ev) eqn:Hi'; [|done].
  destruct (String.eqb _ _); [|done].
  destruct Hh as [e1 R _ | res0 e1 t res' t' code Hr0 HT HW Hv Hin -> Ht Hst Hs].
  - rewrite (rt_inbox _ _ _ R) in Hi'. congruence.
  - assert (res0 = res) as -> by congruence. destruct (Hs eq_refl). rewrite HT.
    by apply (guard_gain_none T e); [apply advance_spec|..].
Qed.

Lemma same_ledger_steps e e' : engine_reservations e' = engine_reservations e -> engine_tenants e' = engine_tenants e ->
  engine_inbox e' = engine_inbox e -> engine_cohorts e' = engine_cohorts e ->
  engine_adjustments e' = engine_adjustments e -> steps_to e e'.
Proof. intros ? ? ? Hc Ha. apply steps_one, move_other; try done; [by apply cohorts_grow_refl | by rewrite Ha]. Qed.

Lemma register_steps e c : steps_to e (RegisterFrozenCohort e c).1.
Proof.
  unfold RegisterFrozenCohort. destruct (normalizeFrozenCohort c) as [n|] eqn:Hn; [|apply steps_refl].
  destruct (After _ _); [apply steps_refl|]. destruct (_ || _); [apply steps_refl|].
  destruct (engine_cohorts e !! _) as [old|] eqn:Hold; [destruct (String.eqb _ _); apply steps_refl|]. cbn [fst].
  apply steps_one, move_other; try done. apply normalize_normal in Hn as [Hn _].
  split; upd; intros k c'.
  - intros Hk. rewrite lookup_insert_ne; [done|]. congruence.
  - intros [[_ <-] | [_ Hk]]%lookup_insert_Some; [right | by left]. destruct Hn. by split.
Qed.

(** Every call is a sequence of elementary changes with the leak of [settle_leak]. *)
Lemma serve_moves e c : engine_wf e ->
  exists e' ls, serve e c = Some e' /\ moves e ls e' /\ forall T, leaked ls T = settle_leak e c T.
Proof.
  intros Hwf.
  assert (Hsteps : forall e', serve e c = Some e' -> steps_to e e' -> (forall T, settle_leak e c T = 0) ->
    exists e' ls, serve e c = Some e' /\ moves e ls e' /\ forall T, leaked ls T = settle_leak e c T).
  { intros e' Hs (ls & Hm & Hl) Hz. exists e', ls. split; [done|]. split; [done|]. intros T. by rewrite Hl, Hz. }
  destruct c as [req budget routing candidates | req | req | req | T | a | at_ | c | keyID key | sw | at_ | | now];
    cbn [serve settle_leak] in *.
  - destruct (Admit_total e req budget routing candidates Hwf) as [out Hout].
    eapply Hsteps; [by rewrite Hout | by eapply Admit_steps | done].
  - eapply Hsteps; [done | eapply handled_steps; [done | by apply Dispatch_handled] | done].
  - destruct (handled_moves _ _ _ _ _ _ _ _ _ Hwf (Settle_handled e req Hwf)) as (ls & Hm & Hl).
    eexists _, ls. split; [done|]. split; [exact Hm|]. exact Hl.
  - eapply Hsteps; [done | eapply handled_steps; [done | by apply Cancel_handled] | done].
  - eapply Hsteps; [done | apply Liability_retermed | done].
  - eapply Hsteps; [done | apply AdjustBudget_steps | done].
  - destruct (ReconcileExpired_steps e at_ Hwf) as (e' & out & He & Hs). eapply Hsteps; [by rewrite He | exact Hs | done].
  - eapply Hsteps; [done | apply register_steps | done].
  - eapply Hsteps; [done | | done]. unfold ConfigureLedgerAuthority. destruct (_ || _); by apply same_ledger_steps.
  - eapply Hsteps; [done | | done]. unfold ConfigureCohortRuntime. destruct (negb _); by apply same_ledger_steps.
  - eapply Hsteps; [done | | done]. unfold ConfigureTrustedTime. destruct (IsZero _); [|destruct (negb _)]; by apply same_ledger_steps.
  - eapply Hsteps; [done | | done]. unfold ConfigureInMemoryQualificationEvidence. destruct (negb _); by apply same_ledger_steps.
  - eapply Hsteps; [done | by apply same_ledger_steps | done].
Qed.

Lemma run_moves e calls : engine_wf e ->
  exists e', run e calls = Some e' /\ engine_wf e' /\ forall T, gap e' T ≡64 gap e T + run_leak e calls T.
Proof.
  revert e. induction calls as [|c calls IH]; intros e Hwf; cbn [run run_leak].
  { exists e. split; [done|]. split; [done|]. intros T. apply eqm64_eq. lia. }
  destruct (serve_moves e c Hwf) as (e1 & ls & Hs & Hm & Hl). rewrite Hs. cbn [mbind option_bind].
  destruct (IH e1 (moves_wf _ _ _ Hm Hwf)) as (e2 & Hr & Hwf2 & Hg). exists e2. split; [done|]. split; [done|].
  intros T. rewrite Hg, (moves_gap _ _ _ T Hm), Hl. apply eqm64_eq. lia.
Qed.

(** ** What persists along a run *)

(** A request is never forgotten, what its admission fixed never changes, and its
    state follows the life cycle; an event, a cohort or a budget adjustment once
    recorded stays as it was recorded. *)
Record persists (e e' : Engine) : Prop := {
  ps_request : forall id r, engine_reservations e !! id = Some r ->
    exists r', engine_reservations e' !! id = Some r' /\ frozen r' = frozen r /\
      rtc (fun s s' => may_move s s' = true) (res_State r) (res_State r');
  ps_event : forall ev x, engine_inbox e !! ev = Some x -> engine_inbox e' !! ev = Some x;
  ps_cohort : forall k c, engine_cohorts e !! k = Some c -> engine_cohorts e' !! k = Some c;
  ps_adjustment : forall k p, engine_adjustments e !! k = Some p -> engine_adjustments e' !! k = Some p
}.

#[export] Instance persists_refl : Reflexive persists.
Proof. intros e. split; [|done..]. intros id r Hr. exists r. by repeat split. Qed.
#[export] Instance persists_trans : Transitive persists.
Proof.
  intros e1 e2 e3 [A1 A2 A3 A4] [B1 B2 B3 B4]. split; [|auto..]. intros id r Hr.
  destruct (A1 _ _ Hr) as (r1 & E1 & F1 & S1). destruct (B1 _ _ E1) as (r2 & E2 & F2 & S2).
  exists r2. split; [done|]. split; [congruence|]. by etransitivity.
Qed.

Lemma move_persists e l e' : move e l e' -> engine_wf e -> persists e e'.
Proof.
  intros [T t Hr Hq | T t t' Ht Hr Hq | id res t t' Hn Hid Hwf Hs Ht Hr Hq Hb | id g res t res' t' code ev kind hash
          Hst Hwf Ht Htr Hin stamped | e1 E1 E2 E3 E4 E5] W.
  - split; [|done..]. intros id r. exists r. by repeat split.
  - split; [|done..]. intros id r Er. rewrite set_tenant_reservations, lookup_roll, Er. cbn. eexists. split; [done|].
    split; [apply roll_reservation_frozen|]. by rewrite roll_reservation_state.
  - split; [|done..]. intros id' r Er. upd. exists r. rewrite lookup_insert_ne by congruence. by repeat split.
  - destruct (transition_frame _ _ _ _ Htr) as [Hf _]. pose proof (transition_moves _ _ _ _ Htr Hwf) as Hmv. split; [..|done|done].
    + intros id' r Er. unfold commit. upd. destruct (decide (id = id')) as [<-|Hne].
      * rewrite lookup_insert_eq. eexists. split; [done|]. rewrite Hst in Er. injection Er as <-.
        split; [exact Hf|]. by apply rtc_once.
      * rewrite lookup_insert_ne by done. exists r. by repeat split.
    + intros ev' x Ex. unfold commit. upd. rewrite lookup_insert_ne; [done|]. intros ->. congruence.
  - split; rewrite ?E1, ?E3; [|done|apply E4|exact E5]. intros id r Hr. exists r. by repeat split.
Qed.

Lemma moves_persist e ls e' : moves e ls e' -> engine_wf e -> persists e e'.
Proof.
  induction 1 as [e | e l e1 ls e2 Hm Hms IH]; intros W; [reflexivity|].
  transitivity e1; [by eapply move_persists | apply IH; by eapply move_wf].
Qed.

Lemma serve_persists e c e' : engine_wf e -> serve e c = Some e' -> engine_wf e' /\ persists e e'.
Proof.
  intros W Hs. destruct (serve_moves e c W) as (e1 & ls & Hs1 & Hm & _). rewrite Hs1 in Hs. injection Hs as <-.
  split; [by eapply moves_wf | by eapply moves_persist].
Qed.

Lemma run_persists e calls e' : engine_wf e -> run e calls = Some e' -> engine_wf e' /\ persists e e'.
Proof.
  revert e. induction calls as [|c calls IH]; intros e W; cbn [run]; [by intros [= <-]|].
  destruct (serve e c) as [e1|] eqn:Hs; cbn [mbind option_bind]; [|done]. intros Hr.
  destruct (serve_persists _ _ _ W Hs) as [W1 P1]. destruct (IH _ W1 Hr) as [W2 P2].
  split; [done | by transitivity e1].
Qed.

(** An engine reached by some run of a process. *)
Definition reachable (e : Engine) : Prop := exists e0 calls, starting e0 /\ run e0 calls = Some e.

Lemma reachable_wf e : reachable e -> engine_wf e.
Proof. intros (e0 & calls & Hs & Hr). by destruct (run_persists _ _ _ (starting_wf _ Hs) Hr). Qed.

Lemma run_app e calls more : run e (calls ++ more) = run e calls ≫= fun e1 => run e1 more.
Proof.
  revert e. induction calls as [|c calls IH]; intros e; cbn [run app]; [done|].
  destruct (serve e c); cbn [mbind option_bind]; [apply IH | done].
Qed.

Lemma run_cons e c e1 calls e2 : serve e c = Some e1 -> run e1 calls = Some e2 -> run e (c :: calls) = Some e2.
Proof. intros E1 E2. cbn [run]. by rewrite E1. Qed.

Lemma run_step e calls e1 c e2 : run e calls = Some e1 -> serve e1 c = Some e2 -> run e (calls ++ [c]) = Some e2.
Proof. intros E1 E2. rewrite run_app, E1. cbn [mbind option_bind run]. by rewrite E2. Qed.

Lemma reachable_step e c e' : reachable e -> serve e c = Some e' -> reachable e'.
Proof. intros (e0 & calls & Hs & Hr) E. exists e0, (calls ++ [c]). split; [done | by eapply run_step]. Qed.

(** ** Replay of events *)

Lemma frozen_route r r' : frozen r = frozen r' -> validateReservationRoute r = validateReservationRoute r'.
Proof.
  intros E. change (validateReservationRoute r) with (validateReservationRoute (frozen r)). by rewrite E.
Qed.

(** A committed event, seen from a later engine. *)
Lemma committed_later e e' e2 id ev T W kind hash settling :
  engine_wf e -> handled e id ev T W kind hash settling e' ->
  engine_inbox e !! ev = None -> is_Some (engine_inbox e' !! ev) -> persists e' e2 ->
  engine_inbox e2 !! ev = Some (Build_inboxEvent id kind hash) /\
  exists r r0, engine_reservations e2 !! id = Some r /\ engine_reservations e !! id = Some r0 /\ frozen r = frozen r0 /\
    res_TenantID r = T /\ res_WorkloadUID r = W /\ validateReservationRoute r = None.
Proof.
  intros Wf [e1 R _ | res e1 t res' t' code Hr HT HW Hv Hin -> Ht Hst Hs] Hnone Hsome [P1 P2 _ _].
  - rewrite (rt_inbox _ _ _ R), Hnone in Hsome. by destruct Hsome.
  - destruct (ledger_step_frame _ _ _ _ Hst) as [Hf _].
    split; [apply P2; unfold commit; upd; by rewrite lookup_insert_eq|].
    destruct (P1 id _ (lookup_insert_eq _ id _)) as (r & Er & Fr & _).
    assert (Fr' : frozen r = frozen res) by (rewrite <- Hf; exact Fr).
    exists r, res. split; [done|]. split; [done|]. split; [done|]. rewrite (frozen_route r res Fr').
    apply frozen_eq in Fr' as (_ & -> & -> & _). done.
Qed.

Lemma replay_again e2 id ev T W kind word hash dup r :
  engine_inbox e2 !! ev = Some (Build_inboxEvent id kind hash) -> engine_reservations e2 !! id = Some r ->
  res_TenantID r = T -> res_WorkloadUID r = W -> validateReservationRoute r = None ->
  replay e2 word (Build_inboxEvent id kind hash) id T W hash dup = unchanged r dup None.
Proof.
  intros _ Er HT HW Hv. unfold replay. cbn [inbox_RequestID inbox_PayloadHash]. rewrite !String.eqb_refl, Er.
  cbn [negb]. unfold matchPrincipal. by rewrite HT, HW, !String.eqb_refl, Hv.
Qed.

(** The event and the request of a call, and what the handler answers. *)
Definition event_of (c : call) : option (string * string) :=
  match c with
  | CallDispatch req => Some (dreq_EventID req, dreq_RequestID req)
  | CallSettle req => Some (sreq_SettlementID req, sreq_RequestID req)
  | CallCancel req => Some (creq_EventID req, creq_RequestID req)
  | _ => None
  end.
Definition answer (e : Engine) (c : call) : option reply :=
  match c with
  | CallDispatch req => Some (Dispatch e req).2
  | CallSettle req => Some (Settle e req).2
  | CallCancel req => Some (Cancel e req).2
  | _ => None
  end.
Definition duplicate_reason (c : call) : ReasonCode :=
  match c with CallSettle _ => ReasonSettlementDuplicate | _ => ReasonDuplicateEvent end.

Lemma Settle_again e e' e2 req : engine_wf e -> (Settle e req).1 = e' ->
  engine_inbox e !! sreq_SettlementID req = None -> is_Some (engine_inbox e' !! sreq_SettlementID req) -> persists e' e2 ->
  exists r, engine_reservations e2 !! sreq_RequestID req = Some r /\
    Settle e2 req = (e2, unchanged r ReasonSettlementDuplicate None).
Proof.
  intros W E Hnone Hsome P. pose proof (Settle_handled e req W) as Hh. rewrite E in Hh.
  assert (Hval : validateSettleRequest req = None).
  { revert E. unfold Settle. cbv zeta. destruct (validateSettleRequest req); [|done]. cbn [fst]. intros <-.
    rewrite Hnone in Hsome. by destruct Hsome. }
  destruct (committed_later _ _ _ _ _ _ _ _ _ _ W Hh Hnone Hsome P) as (Hin & r & _ & Hr & _ & _ & HT & HW & Hv).
  exists r. split; [done|]. unfold Settle. cbv zeta. rewrite Hval, Hin. by rewrite (replay_again _ _ _ _ _ _ _ _ _ r Hin).
Qed.

Lemma Cancel_again e e' e2 req : engine_wf e -> (Cancel e req).1 = e' ->
  engine_inbox e !! creq_EventID req = None -> is_Some (engine_inbox e' !! creq_EventID req) -> persists e' e2 ->
  exists r, engine_reservations e2 !! creq_RequestID req = Some r /\
    Cancel e2 req = (e2, unchanged r ReasonDuplicateEvent None).
Proof.
  intros W E Hnone Hsome P. pose proof (Cancel_handled e req W) as Hh. rewrite E in Hh.
  assert (Hval : validateEventPrincipal (creq_RequestID req) (creq_EventID req) (creq_TenantID req)
      (creq_WorkloadUID req) (creq_AuthenticatedTenantID req) (creq_AuthenticatedWorkloadUID req) = None
      /\ blank (creq_ProviderAttemptID req) = false).
  { revert E. unfold Cancel. cbv zeta. destruct (validateEventPrincipal _ _ _ _ _ _); [|destruct (blank _); [|done]];
      cbn [fst]; intros <-; rewrite Hnone in Hsome; by destruct Hsome. }
  destruct Hval as [Hval Hblank].
  destruct (committed_later _ _ _ _ _ _ _ _ _ _ W Hh Hnone Hsome P) as (Hin & r & _ & Hr & _ & _ & HT & HW & Hv).
  exists r. split; [done|]. unfold Cancel. cbv zeta. rewrite Hval, Hblank, Hin.
  by rewrite (replay_again _ _ _ _ _ _ _ _ _ r Hin).
Qed.

Lemma Dispatch_again e e' e2 req : engine_wf e -> (Dispatch e req).1 = e' ->
  engine_inbox e !! dreq_EventID req = None -> is_Some (engine_inbox e' !! dreq_EventID req) -> persists e' e2 ->
  exists r, engine_reservations e2 !! dreq_RequestID req = Some r /\
    Dispatch e2 req = (e2, unchanged r ReasonDuplicateEvent None).
Proof.
  intros W E Hnone Hsome P. pose proof (Dispatch_handled e req W) as Hh. rewrite E in Hh.
  destruct (committed_later _ _ _ _ _ _ _ _ _ _ W Hh Hnone Hsome P) as (Hin & r & r0 & Hr & Hr0 & Hf & HT & HW & Hv).
  assert (Hfb : res_SelectedFeedback r0 = res_SelectedFeedback r)
    by (change (res_SelectedFeedback (frozen r0) = res_SelectedFeedback (frozen r)); by rewrite Hf).
  exists r. split; [done|]. revert E. unfold Dispatch. cbv zeta. rewrite Hr0, Hr. cbn [mbind option_bind]. rewrite Hfb.
  destruct (validateEventPrincipal _ _ _ _ _ _); [cbn [fst]; intros <-; rewrite Hnone in Hsome; by destruct Hsome|].
  destruct (if String.eqb (dreq_Status req) DispatchDelivered then _ ← res_SelectedFeedback r; Some r0 else None) eqn:Hs;
    [cbn [fst]; intros <-; rewrite Hnone in Hsome; by destruct Hsome|]. intros _.
  destruct (if String.eqb (dreq_Status req) DispatchDelivered then _ ← res_SelectedFeedback r; Some r else None) eqn:Hs';
    [destruct (String.eqb _ _); [|discriminate]; by destruct (res_SelectedFeedback r)|].
  rewrite Hin. by rewrite (replay_again _ _ _ _ _ _ _ _ _ r Hin).
Qed.

(** ** Isolation of tenants *)

(** The tenant on whose behalf a call is made. *)
Definition caller (c : call) : option string :=
  match c with
  | CallAdmit req _ _ _ => Some (areq_AuthenticatedTenantID req)
  | CallDispatch req => Some (dreq_AuthenticatedTenantID req)
  | CallSettle req => Some (sreq_AuthenticatedTenantID req)
  | CallCancel req => Some (creq_AuthenticatedTenantID req)
  | CallLiability tenantID => Some tenantID
  | CallAdjustBudget a => Some (adj_TenantID a)
  | _ => None
  end.

(** The tenant and the workload a call about an existing request is made for. *)
Definition principal (c : call) : option (string * string) :=
  match c with
  | CallDispatch req => Some (dreq_AuthenticatedTenantID req, dreq_AuthenticatedWorkloadUID req)
  | CallSettle req => Some (sreq_AuthenticatedTenantID req, sreq_AuthenticatedWorkloadUID req)
  | CallCancel req => Some (creq_AuthenticatedTenantID req, creq_AuthenticatedWorkloadUID req)
  | _ => None
  end.

Lemma touches_refl T e : touches T e e.
Proof. by split. Qed.

Lemma touches_reservation T e id r r' : engine_reservations e !! id = Some r -> res_TenantID r = T -> res_TenantID r' = T ->
  touches T e (e <| engine_reservations := <[id := r']> (engine_reservations e) |>).
Proof.
  intros Er HT HT'. split; upd; [done|..]; intros id' r0.
  - intros E Hne. rewrite lookup_insert_ne; [done|]. intros ->. congruence.
  - intros [[<- <-] | [_ E]]%lookup_insert_Some Hne; [done | done].
Qed.

Lemma touches_commit T e id r r' t ev kind hash :
  engine_reservations e !! id = Some r -> res_TenantID r = T -> res_TenantID r' = T ->
  touches T e (commit (set_tenant e T t) id ev kind hash r').
Proof.
  intros Er HT HT'. eapply touches_trans; [apply (touches_tenant T e t)|].
  destruct (touches_reservation T (set_tenant e T t) id r (withoutTransitionMetadata r') Er HT HT') as [A1 A2 A3].
  by split.
Qed.

Lemma handled_touches e id ev T W kind hash settling e' : handled e id ev T W kind hash settling e' -> touches T e e'.
Proof.
  intros [e1 R _ | res e1 t res' t' code Hr HT HW Hv Hin -> Ht Hst Hs]; [apply R|].
  pose proof (advance_spec e T (engine_now e)) as R. eapply touches_trans; [apply R|].
  destruct (ledger_step_frame _ _ _ _ Hst) as [Hf _]. apply frozen_eq in Hf as (_ & HT' & _).
  pose proof (rt_guards _ _ _ R id) as Hg. rewrite Hr in Hg. destruct Hg as (g & Eg & _).
  eapply touches_commit; [exact Eg | exact HT | upd; congruence].
Qed.

Lemma Admit_touches e req budget routing candidates out :
  Admit e req budget routing candidates = Some out -> touches (areq_AuthenticatedTenantID req) e out.1.
Proof.
  intros E. destruct (Admit_spec e req budget routing candidates out E) as [[R _] | (e1 & t & ranked & choice & res & reason & Ha & _)]; [apply R|]. clear E.
  destruct Ha as [Hnew R Ht _ _ _ (fp & risk & digest & _ & _ & ->) ->].
  set (res := new_reservation _ _ _ _ _ _ _ _ _).
  assert (HT : res_TenantID res = areq_AuthenticatedTenantID req) by reflexivity. clearbody res.
  eapply touches_trans; [apply R|]. eapply touches_trans; [apply touches_tenant|].
  pose proof (rt_guards _ _ _ R (areq_RequestID req)) as Hg. rewrite Hnew in Hg.
  split; upd; [done|..]; intros id r.
  - intros E Hne. rewrite lookup_insert_ne; [done|]. intros <-. rewrite set_tenant_reservations in E. congruence.
  - by intros [[<- <-] | [_ E]]%lookup_insert_Some Hne.
Qed.

Lemma AdjustBudget_touches e a : touches (adj_TenantID a) e (AdjustBudget e a).1.
Proof.
  unfold AdjustBudget. do 2 (match goal with |- context [if ?b then _ else _] => destruct b end; [apply touches_refl|]).
  destruct (engine_adjustments e !! _); [destruct (String.eqb _ _); apply touches_refl|].
  destruct (engine_tenants e !! adj_TenantID a) as [t0|] eqn:Ht0; [|apply touches_refl].
  pose proof (rt_touches _ _ _ (advance_spec e (adj_TenantID a) (engine_now e))) as R.
  destruct (advanceTenantWindowLocked e _ _) as [e1 [m|]]; cbn [fst] in R; [done|]. cbv zeta.
  destruct (negb _); [done|]. destruct (_ <? _); [done|]. cbn [fst].
  eapply touches_trans; [exact R|]. set (t := _ <| tenant_BudgetMicros := _ |>).
  destruct (touches_tenant (adj_TenantID a) e1 t) as [A1 A2 A3]. by split.
Qed.

Lemma serve_touches e c e' T : engine_wf e -> caller c = Some T -> serve e c = Some e' -> touches T e e'.
Proof.
  intros W HT Hs. destruct c; cbn [caller serve] in *; try discriminate; injection HT as <-; try injection Hs as <-.
  - destruct (Admit e req budget routing candidates) as [out|] eqn:E; [|done]. injection Hs as <-. by eapply Admit_touches.
  - eapply handled_touches. by apply Dispatch_handled.
  - eapply handled_touches. by apply Settle_handled.
  - eapply handled_touches. by apply Cancel_handled.
  - apply Liability_retermed.
  - apply AdjustBudget_touches.
Qed.

(** A call about a request of another principal. *)
Lemma locate_stranger e id r T W attempt check : engine_reservations e !! id = Some r ->
  (res_TenantID r <> T \/ res_WorkloadUID r <> W) -> exists m, locate e id T W attempt check = inr (unchanged r ReasonPrincipalMismatch (Some m)).
Proof.
  intros Er Hne. unfold locate. rewrite Er. unfold matchPrincipal.
  destruct (String.eqb_spec (res_TenantID r) T), (String.eqb_spec (res_WorkloadUID r) W); cbn [negb orb]; eauto.
  tauto.
Qed.

Lemma stranger_unchanged e c T W ev id r : event_of c = Some (ev, id) -> principal c = Some (T, W) ->
  engine_reservations e !! id = Some r -> (res_TenantID r <> T \/ res_WorkloadUID r <> W) -> serve e c = Some e.
Proof.
  intros He Hp Er Hne.
  assert (Hl : forall attempt check, exists m, locate e id T W attempt check = inr (unchanged r ReasonPrincipalMismatch (Some m)))
    by (intros; by apply locate_stranger).
  destruct c as [| req | req | req | | | | | | | | |]; cbn [event_of principal serve] in *; try discriminate;
    injection He as <- <-; injection Hp as <- <-; f_equal.
  - unfold Dispatch. cbv zeta. destruct (validateEventPrincipal _ _ _ _ _ _); [done|].
    match goal with |- context [match ?x with Some existing => (e, unchanged existing _ _) | None => _ end] => destruct x end; [done|].
    destruct (engine_inbox e !! _); [done|].
    by destruct (Hl (dreq_ProviderAttemptID req) (dispatch_route_error req)) as [m ->].
  - unfold Settle. cbv zeta. destruct (validateSettleRequest _); [done|]. destruct (engine_inbox e !! _); [done|].
    by destruct (Hl (sreq_ProviderAttemptID req) validateReservationRoute) as [m ->].
  - unfold Cancel. cbv zeta. destruct (validateEventPrincipal _ _ _ _ _ _); [done|]. destruct (blank _); [done|].
    destruct (engine_inbox e !! _); [done|].
    by destruct (Hl (creq_ProviderAttemptID req) validateReservationRoute) as [m ->].
Qed.
End runs.
