(* ===== verification/EngineProperties.v ===== *)
(** * Theorems about runs of the ledger engine

    The properties of the in-memory engine over every run, in terms of the
    elementary changes of EngineProofs.v and the runs of EngineInvariants.v; the
    concrete runs that witness them are in EngineExample.v. *)

From Stdlib Require Import ZArith Lia Ascii String SpecFloat.
From stdpp Require Import base gmap strings list pretty sorting.
From S2P Require Import Prelude Digest GoTime Api Json Pricing Calibration Routes AdmissionPolicy Ledger LedgerProofs Cohorts Engine EngineProofs EngineInvariants.

Open Scope string_scope.
Open Scope list_scope.
Open Scope Z_scope.
Open Scope go_scope.

(** ** Event identifiers of expiry *)

Definition no_colon (s : string) : Prop := forall a b, s <> a +:+ ":" +:+ b.

Lemma no_colon_cons c s : no_colon (String c s) <-> c <> ":"%char /\ no_colon s.
Proof.
  split.
  - intros Hn. split; [intros ->; by apply (Hn "" s) | intros a b ->; by apply (Hn (String c a) b)].
  - intros [Hc Hn] [|d a] b E; [injection E as -> _; done|]. injection E as _ ->. by apply (Hn a b).
Qed.

Lemma split_colon (a b d d' : string) :
  no_colon d -> no_colon d' -> a +:+ ":" +:+ d = b +:+ ":" +:+ d' -> a = b /\ d = d'.
Proof.
  revert b. induction a as [|c a IH]; intros [|c' b] Hd Hd' E.
  - by injection E.
  - injection E as _ E. by destruct (Hd b d').
  - injection E as _ E. by destruct (Hd' a d).
  - injection E as -> E. by destruct (IH b Hd Hd' E) as [-> ->].
Qed.

Lemma pretty_digit_no_colon n : pretty_N_char n <> ":"%char.
Proof. unfold pretty_N_char. repeat case_match; discriminate. Qed.

Lemma pretty_go_no_colon n : forall s, no_colon s -> no_colon (pretty_N_go n s).
Proof.
  induction (N.lt_wf_0 n) as [n _ IH]. intros s Hs. destruct (decide (n = 0)%N) as [->|Hn]; [done|].
  rewrite pretty_N_go_step by lia. apply IH; [apply N.div_lt; lia|].
  apply no_colon_cons. split; [apply pretty_digit_no_colon | done].
Qed.

Lemma sprint_no_colon z : no_colon (sprint z).
Proof.
  assert (Hn : forall n : N, no_colon (pretty (n : N))).
  { intros n. unfold pretty, pretty_N. destruct (decide _); [by intros [|c [|c' a]] b|].
    apply pretty_go_no_colon. by intros [|c a] b. }
  unfold sprint, pretty, pretty_Z. destruct z as [|p|p]; [by intros [|c [|c' a]] b | apply Hn|].
  apply (no_colon_cons "-"). split; [done | apply Hn].
Qed.

Definition expiry_prefix (p : string) : Prop := p = "expiry:" \/ p = "expiry-unresolved:".

(** Two expiry events are equal only for one request and one kind of expiry. *)
Lemma expiry_events_apart p p' r r' : expiry_prefix p -> expiry_prefix p' ->
  expiry_event p r = expiry_event p' r' -> res_RequestID r = res_RequestID r' /\ p = p'.
Proof.
  intros Hp Hp' E. unfold expiry_event in E.
  pose proof (sprint_no_colon (UnixNano (res_Expiry r))) as Hd. revert E Hd. generalize (sprint (UnixNano (res_Expiry r))).
  pose proof (sprint_no_colon (UnixNano (res_Expiry r'))) as Hd'. revert Hd'. generalize (sprint (UnixNano (res_Expiry r'))).
  generalize (res_RequestID r), (res_RequestID r'). intros a b d' Hd' d E Hd.
  rewrite <- !(string_app_assoc _ _ (":" +:+ _)) in E. apply split_colon in E as [E _]; [|done..].
  destruct Hp as [-> | ->], Hp' as [-> | ->]; injection E; intros; done.
Qed.

Section properties.
Context `{Crypto} `{Platform}.

(** *** The sweep of expired requests *)

(** What a sweep at [at_] does to one request. *)
Definition swept (at_ : Time) (e e' : Engine) (id : string) (r : Reservation) : Prop :=
  if due at_ e r then
    exists r', engine_reservations e' !! id = Some r' /\ frozen r' = frozen r /\
      res_State r' = (if state_is (res_State r) StateReserved then StateExpiredUndispatched else StateUnresolved) /\
      held r' = (if state_is (res_State r) StateReserved then 0 else held r)
  else engine_reservations e' !! id = Some r.

Lemma due_inbox at_ e e' r :
  (forall p, expiry_prefix p -> engine_inbox e' !! expiry_event p r = engine_inbox e !! expiry_event p r) ->
  due at_ e' r = due at_ e r.
Proof. intros E. unfold due. by rewrite !E by (by left + by right). Qed.

Lemma due_less at_ e e' r : (forall ev x, engine_inbox e !! ev = Some x -> engine_inbox e' !! ev = Some x) ->
  due at_ e r = false -> due at_ e' r = false.
Proof.
  intros Hle. unfold due. destruct (negb (After _ _)); [|done]. destruct (negb (failed _)); [|done]. cbn [andb].
  assert (Hin : forall ev, bool_decide (is_Some (engine_inbox e !! ev)) = true -> bool_decide (is_Some (engine_inbox e' !! ev)) = true).
  { intros ev [x Hx]%bool_decide_eq_true. apply bool_decide_eq_true. eauto. }
  intros [H1 H2]%orb_false_elim. apply orb_false_intro.
  - destruct (state_is _ _ && outbox_is _ _); [|done]. cbn [andb] in *.
    apply negb_false_iff in H1. by rewrite (Hin _ H1).
  - destruct (state_is _ _ || state_is _ _); [|done]. cbn [andb] in *.
    apply negb_false_iff in H2. by rewrite (Hin _ H2).
Qed.

Lemma expire_all_sweep at_ entries : forall e e' out, engine_wf e -> NoDup entries.*1 ->
  (forall id res, (id, res) ∈ entries -> engine_reservations e !! id = Some res) ->
  expire_all at_ entries e = Some (e', out) ->
  (forall id r, (id, r) ∈ entries -> swept at_ e e' id r) /\
  (forall id, id ∉ entries.*1 -> engine_reservations e' !! id = engine_reservations e !! id).
Proof.
  induction entries as [|[id res] entries IH]; intros e e' out W Hnd Hl; cbn [expire_all].
  { intros [= <- <-]. split; [by intros * ?%elem_of_nil | done]. }
  apply NoDup_cons in Hnd as [Hni Hnd].
  assert (Hr : engine_reservations e !! id = Some res) by (apply Hl; by left).
  destruct (expire_one_spec e at_ id res W Hr) as (e1 & out1 & He & Hdue). rewrite He. cbn [mbind option_bind].
  destruct (expired_one_steps _ _ _ _ _ _ W Hr He) as [Hst Hf].
  destruct (expire_all at_ entries e1) as [[e2 more]|] eqn:He2; cbn [mbind option_bind]; [|done]. intros [= <- <-].
  assert (Hl1 : forall id' res', (id', res') ∈ entries -> engine_reservations e1 !! id' = Some res').
  { intros id' res' Hin. rewrite Hf; [apply Hl; by right|]. intros ->. apply Hni.
    apply list_elem_of_fmap. by exists (id, res'). }
  destruct (IH e1 e2 more (steps_wf _ _ Hst W) Hnd Hl1 He2) as [Hsw Hrest]. split.
  - intros id' r' [Heq | Hin]%elem_of_cons.
    + injection Heq as -> ->. unfold swept. rewrite (Hrest id) by done. destruct (due at_ e res).
      * destruct Hdue as (t & res' & t' & code & ev & hash & [Ht Htr _ -> Hs Hh _]).
        unfold commit. upd. rewrite lookup_insert_eq. eexists. split; [done|].
        split; [apply (transition_frame _ _ _ _ Htr) | done].
      * by destruct Hdue as [-> _].
    + specialize (Hsw _ _ Hin). unfold swept in *. rewrite <- (due_inbox at_ e e1 r'); [done|].
      intros p Hp. destruct (due at_ e res); [|by destruct Hdue as [-> _]].
      destruct Hdue as (t & res' & t' & code & ev & hash & [Ht Htr [Hev Hform] -> Hs Hh _]).
      unfold commit. upd. apply lookup_insert_ne. intros ->.
      assert (Hids : res_RequestID res = res_RequestID r').
      { destruct Hform as [E|E]; apply expiry_events_apart in E as [-> _]; done || by left + by right. }
      rewrite (ew_id _ W _ _ Hr), (ew_id _ W id' r') in Hids by (apply Hl; by right). subst id'.
      apply Hni. apply list_elem_of_fmap. by exists (id, r').
  - intros id' Hne. rewrite Hrest; [apply Hf|]; [intros ->; apply Hne; by left | intros Hin; apply Hne; by right].
Qed.

Lemma expire_all_quiet at_ entries e : engine_wf e ->
  (forall id r, (id, r) ∈ entries -> engine_reservations e !! id = Some r /\ due at_ e r = false) ->
  expire_all at_ entries e = Some (e, []).
Proof.
  intros W. induction entries as [|[id r] entries IH]; intros Hq; cbn [expire_all]; [done|].
  destruct (Hq id r (list_elem_of_here _ _)) as [Hr Hd].
  destruct (expire_one_spec e at_ id r W Hr) as (e1 & out & He & Hdue). rewrite Hd in Hdue. destruct Hdue as [-> ->].
  rewrite He. cbn [mbind option_bind]. rewrite IH; [done|]. intros id' r' Hin. apply Hq. by right.
Qed.

(** *** The abstract ledger

    What a caller may rely on, without windows, events or candidates: an account
    per request with the price quoted for it, a phase, and the part of the quote
    still on hold. *)
Inductive phase : Set := Waiting | InFlight | Charged | Expired | Done.

Record account : Set := Build_account {
  acc_Owner : string;
  acc_Quote : Z;
  acc_Phase : phase;
  acc_Hold : Z
}.

(** A request is sent once, charged any number of times, and closed once; an
    expired request may still be charged. *)
Definition may_advance (p p' : phase) : bool :=
  match p, p' with
  | Waiting, (InFlight | Expired | Done) | InFlight, (InFlight | Charged | Done)
  | Charged, (Charged | Done) | Expired, (Charged | Done) | Done, Done => true
  | _, _ => false
  end.

(** The hold of a phase: the whole quote before any charge, part of it while
    charges may change, nothing once closed. *)
Definition hold_ok (p : phase) (quote hold : Z) : Prop :=
  match p with
  | Waiting | InFlight => hold = quote
  | Charged => 0 <= hold <= quote
  | Expired | Done => hold = 0
  end.

Inductive ledger_move (b : gmap string account) : gmap string account -> Prop :=
| open_account id owner quote :
    b !! id = None -> 0 <= quote -> ledger_move b (<[id := Build_account owner quote Waiting quote]> b)
| advance_account id a p hold :
    b !! id = Some a -> may_advance (acc_Phase a) p = true -> hold_ok p (acc_Quote a) hold ->
    ledger_move b (<[id := Build_account (acc_Owner a) (acc_Quote a) p hold]> b).

Definition phase_of (s : ReservationState) : phase :=
  match s with
  | StateReserved => Waiting
  | StateDispatchPending | StateDispatched | StateUnresolved => InFlight
  | StateSettledProvisional | StateLateSettledProvisional | StateCorrectedProvisional => Charged
  | StateExpiredUndispatched => Expired
  | _ => Done
  end.
Definition account_of (r : Reservation) : account :=
  Build_account (res_TenantID r) (res_ReservedCostMicros r) (phase_of (res_State r)) (res_ResidualHoldMicros r).
Definition abstract (e : Engine) : gmap string account := account_of <$> engine_reservations e.

Lemma wf_hold_ok r : res_wf r -> hold_ok (phase_of (res_State r)) (res_ReservedCostMicros r) (res_ResidualHoldMicros r).
Proof.
  intros Hwf. pose proof (wf_hold _ Hwf) as Hh. pose proof (wf_version _ Hwf) as Hv.
  destruct (wf_reserved _ Hwf) as [Hr _]. destruct (wf_provisional _ Hwf) as [Hp _]. destruct (wf_carry _ Hwf) as [Hc _].
  assert (Hz : res_UsageVersion r = 0 -> level r = 0)
    by (intros Hz; destruct (wf_unused _ Hwf Hz) as (? & Hcar & _); unfold level; by rewrite Hcar).
  assert (Hl : 0 <= level r) by (unfold level; by destruct (res_Carried r)).
  destruct (res_State r) eqn:Hs; cbn [phase_of hold_ok closed_state settled_state] in *; try (destruct Hh; done);
    try lia; rewrite Hz in Hh by done; lia || (pose proof (wf_outbox _ Hwf) as Ho; rewrite Hs in Ho; by destruct (res_OutboxState r)).
Qed.

Lemma may_move_advance s s' : may_move s s' = true -> may_advance (phase_of s) (phase_of s') = true.
Proof. by destruct s, s'. Qed.

Lemma move_refines e l e' : move e l e' -> engine_wf e -> abstract e' = abstract e \/ ledger_move (abstract e) (abstract e').
Proof.
  intros [T t Hr Hq | T t t' Ht Hr Hq | id res t t' Hn Hid Hwf Hs Ht Hr Hq Hb | id g res t res' t' code ev kind hash
          Hst Hwf Ht Htr Hin stamped | e1 E1 E2 E3 E4 E5] W; unfold abstract.
  - by left.
  - left. apply map_eq. intros id. rewrite !lookup_fmap, set_tenant_reservations, lookup_roll.
    destruct (engine_reservations e !! id) as [r|]; cbn; [|done]. by rewrite roll_reservation_eq.
  - right. upd. rewrite fmap_insert.
    pose proof (wf_hold_ok _ Hwf) as Hh. unfold account_of at 2. rewrite Hs in Hh |- *. cbn [phase_of hold_ok] in *. rewrite Hh.
    apply open_account; [by rewrite lookup_fmap, Hn | apply (wf_reserved _ Hwf)].
  - right. destruct (transition_books _ _ _ _ Htr Hwf) as [Hwf' _].
    destruct (transition_frame _ _ _ _ Htr) as [Hf _]. apply frozen_eq in Hf as (_ & HT & _ & HQ & _).
    unfold commit. upd. rewrite set_tenant_reservations, fmap_insert.
    change (account_of (withoutTransitionMetadata stamped)) with (account_of res').
    set (a := account_of (res <| res_RolloverGuardMicros := g |>)).
    assert (Ha : acc_Owner a = res_TenantID res /\ acc_Quote a = res_ReservedCostMicros res /\
      acc_Phase a = phase_of (res_State res)) by done. destruct Ha as (Ho & Hqu & Hp).
    assert (Hacc : account_of res' = Build_account (acc_Owner a) (acc_Quote a) (phase_of (res_State res')) (res_ResidualHoldMicros res'))
      by (rewrite Ho, Hqu, <- HT, <- HQ; reflexivity).
    rewrite Hacc. apply advance_account.
    + by rewrite lookup_fmap, Hst.
    + rewrite Hp. apply may_move_advance. by eapply transition_moves.
    + rewrite Hqu, <- HQ. by apply wf_hold_ok.
  - left. by rewrite E1.
Qed.

Lemma moves_refine e ls e' : moves e ls e' -> engine_wf e -> rtc ledger_move (abstract e) (abstract e').
Proof.
  induction 1 as [e | e l e1 ls e2 Hm Hms IH]; intros W; [done|].
  specialize (IH (move_wf _ _ _ Hm W)). destruct (move_refines _ _ _ Hm W) as [<- | Hstep]; [done|].
  by eapply rtc_l.
Qed.

Lemma serve_refines e c e' : engine_wf e -> serve e c = Some e' -> rtc ledger_move (abstract e) (abstract e').
Proof.
  intros W Hs. destruct (serve_moves e c W) as (e1 & ls & Hs1 & Hm & _). assert (e1 = e') as -> by congruence. by eapply moves_refine.
Qed.

Lemma run_refines e calls e' : engine_wf e -> run e calls = Some e' -> rtc ledger_move (abstract e) (abstract e').
Proof.
  revert e. induction calls as [|c calls IH]; intros e W; cbn [run]; [by intros [= <-]|].
  destruct (serve_moves e c W) as (e1 & ls & Hs & Hm & _). rewrite Hs. cbn [mbind option_bind]. intros Hr.
  transitivity (abstract e1); [by eapply moves_refine | apply IH; [by eapply moves_wf | done]].
Qed.

(** ** Properties *)

(** C1: no sequence of calls makes the engine fault: from the engine a process
    starts with, every call of every run returns. Four expressions of the ledger
    can panic and are partial in the model: the calibration that an adaptive plan
    dereferences, the frozen slot that a request of a cohort indexes, the weight
    divided by the size of the cohort, and the tenant whose account an expired
    reservation releases. The invariant also holds after
    it: reservations are filed under their request id with a known tenant and
    consistent accounts, active sets list only active requests and all that were
    never closed, and cohort risk comes from registered cohorts. *)
Theorem engine_never_faults e0 calls : starting e0 -> exists e, run e0 calls = Some e /\ engine_wf e.
Proof. intros Hs. destruct (run_moves e0 calls (starting_wf _ Hs)) as (e & Hr & W & _). eauto. Qed.

(** C7: the books balance after every run: what a tenant has reserved is, modulo
    2^64, what its reservations hold plus what settlements leaked; [run_leak] is
    zero for every call but a settlement that commits in the very call that
    rolls the window over its own reservation. *)
Theorem reserved_is_held e0 calls e T : starting e0 -> run e0 calls = Some e ->
  tenant_ReservedMicros (tenant_of e T) ≡64 holds e T + run_leak e0 calls T.
Proof.
  intros Hs Hr. destruct (run_moves e0 calls (starting_wf _ Hs)) as (e' & Hr' & _ & Hg).
  assert (e' = e) as -> by congruence. specialize (Hg T). unfold gap in Hg.
  assert (Hz : tenant_ReservedMicros (tenant_of e0 T) = 0 /\ holds e0 T = 0).
  { destruct Hs as (Hres & _ & Ht & _). unfold tenant_of, holds. by rewrite Ht, Hres, lookup_empty. }
  destruct Hz as [Hz1 Hz2]. rewrite Hz1, Hz2 in Hg.
  transitivity (tenant_ReservedMicros (tenant_of e T) - holds e T + holds e T); [apply eqm64_eq; lia|].
  rewrite Hg. apply eqm64_eq. lia.
Qed.

(** C17: a settlement that is the first call of a tenant in a new window, for a
    request settled provisionally in the previous one, leaks: the rollover adds
    the provisional cost to the tenant's reserved micros and to the stored
    reservation, the handler then writes back the copy it had read before, and
    the tenant keeps the provisional cost reserved for no reservation. *)
Theorem rollover_settlement_leaks e req e' res t :
  engine_wf e -> engine_reservations e !! sreq_RequestID req = Some res ->
  engine_tenants e !! res_TenantID res = Some t -> rolls (res_TenantID res) (tenant_CurrentWindowID t) res = true ->
  advanceTenantWindowLocked e (res_TenantID res) (engine_now e) = (e', None) -> e' <> e ->
  engine_inbox e !! sreq_SettlementID req = None -> is_Some (engine_inbox (Settle e req).1 !! sreq_SettlementID req) ->
  gap (Settle e req).1 (res_TenantID res) ≡64 gap e (res_TenantID res) + res_ProvisionalCostMicros res.
Proof.
  intros W Hr Ht Hroll Ha Hne Hin [x Hin'].
  destruct (serve_moves e (CallSettle req) W) as (e1 & ls & Hs & Hm & Hl). cbn [serve] in Hs. injection Hs as <-.
  rewrite (moves_gap _ _ _ (res_TenantID res) Hm), Hl. cbn [settle_leak].
  rewrite Hr, Hin, Hin', String.eqb_refl, Ha. cbn [fst].
  assert (Hg : engine_reservations e' !! sreq_RequestID req
    = Some (roll_reservation (res_TenantID res) (tenant_CurrentWindowID t) res)).
  { revert Ha. unfold advanceTenantWindowLocked. rewrite Ht.
    destruct (_ || _); [intros [= <-]; done|]. destruct (budgetWindowForPeriod _ _) as [next|]; [|discriminate].
    destruct (String.eqb next _); [intros [= <-]; done|]. destruct (negb _); [discriminate|].
    destruct (roll_over e (res_TenantID res) t) as [e2 t2] eqn:Er. intros E. apply (f_equal fst) in E. cbn [fst] in E. subst e'.
    rewrite set_tenant_reservations. replace e2 with (roll_over e (res_TenantID res) t).1 by (by rewrite Er).
    by rewrite lookup_roll, Hr. }
  unfold guard_gain. rewrite Hg, roll_reservation_eq, Hroll. upd. eqm_lia.
Qed.

(** C16: a request is never forgotten or rewritten: after every run that follows,
    it is still there with everything its admission fixed (principal, price,
    components, route, expiry, cohort), in a state the life cycle reaches; and a
    recorded event, cohort or budget adjustment stays as it was. *)
Theorem history_is_immutable e calls e' : reachable e -> run e calls = Some e' -> persists e e'.
Proof. intros Hr%reachable_wf Hrun. by destruct (run_persists _ _ _ Hr Hrun). Qed.

(** C10: an event applies once: when a dispatch, settlement or cancellation has
    been recorded, sending the same call again after any later run changes
    nothing and answers with the duplicate code and the reservation as it is. *)
Theorem events_apply_once e c ev id e1 later e2 :
  reachable e -> event_of c = Some (ev, id) -> engine_inbox e !! ev = None -> serve e c = Some e1 ->
  is_Some (engine_inbox e1 !! ev) -> run e1 later = Some e2 ->
  serve e2 c = Some e2 /\
  exists r, engine_reservations e2 !! id = Some r /\ answer e2 c = Some (unchanged r (duplicate_reason c) None).
Proof.
  intros W%reachable_wf Hev Hin Hs Hsome Hrun.
  destruct (serve_persists _ _ _ W Hs) as [W1 _]. destruct (run_persists _ _ _ W1 Hrun) as [_ P].
  destruct c as [| req | req | req | | | | | | | | |]; cbn [event_of serve answer duplicate_reason] in *; try discriminate;
    injection Hev as <- <-; injection Hs as Hs.
  - destruct (Dispatch_again e e1 e2 req W Hs Hin Hsome P) as (r & Hr & ->). eauto.
  - destruct (Settle_again e e1 e2 req W Hs Hin Hsome P) as (r & Hr & ->). eauto.
  - destruct (Cancel_again e e1 e2 req W Hs Hin Hsome P) as (r & Hr & ->). eauto.
Qed.

(** C11: tenants are isolated: a call on behalf of one tenant leaves the ledger and
    every reservation of every other tenant exactly as they were. *)
Theorem tenants_are_isolated e c e' T : reachable e -> caller c = Some T -> serve e c = Some e' -> touches T e e'.
Proof. intros W%reachable_wf. by apply serve_touches. Qed.

(** a dispatch, settlement or cancellation by a principal that does not own
    the request changes nothing at all. *)
Theorem strangers_change_nothing e c T W ev id r :
  event_of c = Some (ev, id) -> principal c = Some (T, W) -> engine_reservations e !! id = Some r ->
  res_TenantID r <> T \/ res_WorkloadUID r <> W -> serve e c = Some e.
Proof. exact (stranger_unchanged e c T W ev id r). Qed.

(** a sweep of expired requests moves exactly the due ones: a pending request
    expires and gives up its hold, a dispatched one becomes unresolved and keeps
    it, every other reservation is untouched; a second sweep at the same time
    changes nothing. *)
Theorem expiry_sweep e at_ : reachable e ->
  exists e' out, ReconcileExpired e at_ = Some (e', out) /\
    (forall id r, engine_reservations e !! id = Some r -> swept at_ e e' id r) /\
    ReconcileExpired e' at_ = Some (e', []).
Proof.
  intros W%reachable_wf. destruct (ReconcileExpired_steps e at_ W) as (e' & out & He & Hst).
  exists e', out. split; [done|]. unfold ReconcileExpired in He.
  destruct (expire_all _ _ e) as [[e1 out1]|] eqn:Hall; cbn [mbind option_bind] in He; [|done]. injection He as -> _.
  destruct (expire_all_sweep at_ _ e e' out1 W (NoDup_fst_map_to_list _)
              (fun id r Hin => proj1 (elem_of_map_to_list _ _ _) Hin) Hall) as [Hsw Hout].
  assert (Hsw' : forall id r, engine_reservations e !! id = Some r -> swept at_ e e' id r)
    by (intros id r Hr; apply Hsw; by apply elem_of_map_to_list).
  split; [exact Hsw'|]. destruct Hst as (ls & Hm & _).
  pose proof (moves_wf _ _ _ Hm W) as W'. pose proof (ps_event _ _ (moves_persist _ _ _ Hm W)) as Hev.
  unfold ReconcileExpired. rewrite expire_all_quiet; [done | done |].
  intros id r' Hr'%elem_of_map_to_list. split; [done|].
  destruct (engine_reservations e !! id) as [r|] eqn:Hr.
  - specialize (Hsw' id r Hr). unfold swept in Hsw'. destruct (due at_ e r) eqn:Hd.
    + destruct Hsw' as (r1 & Hr1 & _ & Hs & _). assert (r1 = r') as -> by congruence.
      unfold due. rewrite Hs. destruct (state_is (res_State r) StateReserved); by rewrite andb_false_r.
    + assert (r = r') as <- by congruence. by apply (due_less at_ e).
  - rewrite Hout in Hr'; [congruence|]. intros ((id' & r) & -> & Hin)%list_elem_of_fmap.
    apply elem_of_map_to_list in Hin. cbn in Hr. congruence.
Qed.

(** C8: the engine refines the abstract ledger, call by call: forgetting windows,
    events and candidates, what a call does to the accounts of an engine that any run
    has led to is a sequence of openings of accounts at their quote and of advances
    along the phases, with the hold that the phase allows; so no call reopens, resets
    or forgets an account. *)
Theorem engine_refines_ledger e0 calls e c e' : starting e0 -> run e0 calls = Some e -> serve e c = Some e' ->
  rtc ledger_move ∅ (abstract e) /\ rtc ledger_move (abstract e) (abstract e').
Proof.
  intros Hs Hr Hc. pose proof (run_refines _ _ _ (starting_wf _ Hs) Hr) as Href.
  unfold abstract in Href at 1. rewrite (proj1 Hs), fmap_empty in Href. split; [done|].
  destruct (run_moves e0 calls (starting_wf _ Hs)) as (e1 & Hr1 & W & _). assert (e1 = e) as -> by congruence. by eapply serve_refines.
Qed.

(** *** Admission *)

(** A recorded admission: the reservation answered, held within the budget. *)
Record admission_recorded (e : Engine) (req : AdmitRequest) (budget : AIBudgetPolicy) (resp : AdmitResponse)
    (e' : Engine) (t : tenantLedger) (res : Reservation) : Prop := {
  ar_tenant : engine_tenants e' !! areq_AuthenticatedTenantID req = Some t;
  ar_reservation : engine_reservations e' !! areq_RequestID req = Some res;
  ar_budget : quantityToMicros (bs_BudgetEUR (bpol_Spec budget)) = Ok (tenant_BudgetMicros t);
  ar_window : budgetWindowForPeriod (bs_Period (bpol_Spec budget)) (engine_now e) = Ok (tenant_CurrentWindowID t);
  ar_available : 0 <= available t;
  ar_held : 0 <= held res <= available t + held res /\ held res = resp_ReservedCostMicros resp;
  ar_priced : SumComponents (res_ReservedComponents res) = Ok (resp_ReservedCostMicros resp);
  ar_state : res_State res = StateReserved /\ res_Expiry res = time_add (engine_now e) (5 * Minute)
}.

Lemma available_after t amount : 0 <= amount -> amount <= available t ->
  available (t <| tenant_ReservedMicros := tenant_ReservedMicros t +i amount |>) = available t - amount.
Proof.
  intros H1 H2. apply eqm64_in64.
  - unfold available. apply wrap64_range.
  - assert (Hr : in64 (available t)) by (unfold available; apply wrap64_range). unfold in64, min_int64 in *. lia.
  - unfold available. upd. eqm_lia.
Qed.

Lemma admitted_recorded e req budget routing e1 t candidates choice res e' reason :
  admitted e req budget routing e1 t candidates choice res e' ->
  exists t', admission_recorded e req budget (responseForReservation res reason) e' t' res.
Proof.
  intros Ha. destruct Ha as [Hnew R Ht Hbud Hwin Hch (fp & risk & digest & Hco & Hslot & Hres) ->].
  exists (t <| tenant_ReservedMicros := tenant_ReservedMicros t +i ch_Reservation choice |>
       <| tenant_Requests := {[areq_RequestID req]} ∪ tenant_Requests t |>).
  pose proof (available_after t _ (ad_nonneg _ _ _ _ _ _ _ Hch) (ad_fits _ _ _ _ _ _ _ Hch)) as Hav.
  pose proof (ad_nonneg _ _ _ _ _ _ _ Hch) as Hnn. pose proof (ad_fits _ _ _ _ _ _ _ Hch) as Hfit.
  assert (Hf : held res = ch_Reservation choice /\ resp_ReservedCostMicros (responseForReservation res reason)
      = ch_Reservation choice /\ res_ReservedComponents res = ch_Components choice /\ res_State res = StateReserved /\
      res_Expiry res = time_add (engine_now e1) (5 * Minute)).
  { rewrite Hres. unfold held. cbn. split; [lia | done]. }
  clear Hres Hco Hslot. destruct Hf as (Hh & Hc & Hcomp & Hs & Hx).
  pose proof (rt_rest _ _ _ R) as Hrest. injection Hrest as _ _ Hnow _ _ _ _.
  assert (Hav' : forall q, available (t <| tenant_ReservedMicros := tenant_ReservedMicros t +i ch_Reservation choice |>
      <| tenant_Requests := q |>) = available t - ch_Reservation choice) by (intros q; rewrite <- Hav; unfold available; by upd).
  set (t' := t <| tenant_ReservedMicros := _ |> <| tenant_Requests := _ |>).
  assert (Ht' : available t' = available t - ch_Reservation choice /\ tenant_BudgetMicros t' = tenant_BudgetMicros t /\
    tenant_CurrentWindowID t' = tenant_CurrentWindowID t) by (split; [apply Hav' | split; reflexivity]).
  clearbody t'. destruct Ht' as (Hav1 & Hb1 & Hw1).
  split.
  - change (engine_tenants (set_tenant e1 (areq_AuthenticatedTenantID req) t') !! areq_AuthenticatedTenantID req = Some t').
    rewrite lookup_set_tenant. by rewrite decide_True.
  - upd. by rewrite lookup_insert_eq.
  - by rewrite Hb1.
  - by rewrite Hw1.
  - lia.
  - rewrite Hav1, Hh, Hc. lia.
  - rewrite Hcomp, Hc. apply (ad_sum _ _ _ _ _ _ _ Hch).
  - by rewrite Hs, Hx, Hnow.
Qed.

(** C9: admission stays within the budget and is recorded: a new request is
    answered ADMIT only with a reservation on hold that is the exact sum of its
    components and leaves the tenant's available budget of the current window
    non-negative; any other answer records nothing and holds nothing. *)
Theorem admission_within_budget e req budget routing candidates e' r :
  engine_reservations e !! areq_RequestID req = None -> Admit e req budget routing candidates = Some (e', r) ->
  match r with
  | Ok resp =>
    if bool_decide (resp_Decision resp = DecisionAdmit)
    then exists t res, admission_recorded e req budget resp e' t res
    else guards_only e e' /\ forall T, gap e' T ≡64 gap e T
  | Err _ => guards_only e e' /\ forall T, gap e' T ≡64 gap e T
  end.
Proof.
  intros Hnew E. pose proof (Admit_spec e req budget routing candidates _ E) as Hout. clear E.
  destruct Hout as [[R Hno] | (e1 & t & ranked & choice & res & reason & Ha & Hr)]; cbn [fst snd] in *.
  - assert (Hq : guards_only e e' /\ forall T, gap e' T ≡64 gap e T).
    { split; [apply R|]. intros T. destruct (rt_steps _ _ _ R) as (ls & Hm & Hl).
      rewrite (moves_gap _ _ _ T Hm), Hl. apply eqm64_eq. lia. }
    destruct r as [resp|]; [|done]. case_bool_decide as Hd; [|done]. by destruct (Hno Hnew resp eq_refl).
  - subst r. destruct (admitted_recorded _ _ _ _ _ _ _ _ _ _ reason Ha) as [t' Ht']. rewrite bool_decide_eq_true_2 by done.
    eauto.
Qed.

(** *** Cohort risk *)

(** The risk allocated to the reservations of the cohort under a key. *)
Definition in_cohort (key : string) (r : Reservation) : bool :=
  String.eqb (res_ReservationMode r) GOVARReservationFixedCohort
  && String.eqb (cohortKey (res_TenantID r) (res_CohortID r)) key.
Definition allocated_risk (e : Engine) (key : string) : Z :=
  zsum (map (fun x => res_AllocatedRiskPPB x.2)
    (filter (fun x => in_cohort key x.2 = true) (map_to_list (engine_reservations e)))).

(** C15: the error budget of a cohort is never overdrawn: after every run, the risk
    allocated to the reservations admitted under a registered cohort adds up to at
    most the risk its tenant was granted, however often and in whatever order its
    requests were sent. *)
Theorem cohort_risk_within_grant e key c : reachable e -> engine_cohorts e !! key = Some c ->
  allocated_risk e key <= coh_TenantRiskPPB c.
Proof.
  intros W%reachable_wf Hc. pose proof (ew_cohorts _ W _ _ Hc) as Hn.
  destruct (normal_risk _ Hn) as [_ Hle]. etransitivity; [|exact Hle]. unfold allocated_risk.
  apply (zsum_le_by_key fst slot_RequestID).
  - assert (Hnd : NoDup (map fst (map_to_list (engine_reservations e)))) by apply NoDup_fst_map_to_list.
    revert Hnd. generalize (map_to_list (engine_reservations e)). intros l. induction l as [|x l IH]; [done|].
    rewrite filter_cons. intros Hnd. cbn [map] in Hnd. apply NoDup_cons in Hnd as [Hx Hl].
    destruct (decide _); [|by apply IH]. cbn [map]. apply NoDup_cons. split; [|by apply IH].
    intros (y & Hy & Hin)%list_elem_of_fmap. apply list_elem_of_filter in Hin as [_ Hin]. apply Hx. rewrite Hy.
    by apply list_elem_of_fmap_2.
  - apply Forall_forall. intros slot. by apply slot_risk_nonneg.
  - intros [id r] [Hin Hr%elem_of_map_to_list]%list_elem_of_filter. cbn [fst snd] in *.
    unfold in_cohort in Hin. bool_to_prop. subst key.
    destruct (ew_backed _ W _ _ Hr) as (c' & slot & Hc' & Hs & Hid & Hrisk); [done|].
    assert (c' = c) as -> by congruence. exists slot. split; [done|]. split; [done|]. lia.
Qed.

(** *** Budget adjustments and cohorts *)

(** a budget changes only under its authority: an accepted adjustment is
    either the replay of a recorded one, which changes nothing, or carries a proof
    under the engine's key that is valid now, is for the tenant's current window,
    pays at most the carried debt, and changes the budget and the debt alone. *)
Theorem adjustment_is_authorized e a e' :
  AdjustBudget e a = (e', None) ->
  (e' = e /\ engine_adjustments e !! adj_AdjustmentID a = Some (adjustment_payload a)) \/
  (engine_adjustments e !! adj_AdjustmentID a = None /\
   engine_adjustments e' !! adj_AdjustmentID a = Some (adjustment_payload a) /\
   engine_authorityKey e <> ""%string /\ ToLower (adj_AuthorityProof a) = adjustment_proof (engine_authorityKey e) a /\
   adj_ApprovedAt a <= engine_now e < adj_ExpiresAt a /\
   exists t, engine_tenants (advanceTenantWindowLocked e (adj_TenantID a) (engine_now e)).1 !! adj_TenantID a = Some t /\
     tenant_CurrentWindowID t = adj_WindowID a /\
     0 <= adj_DebtPaymentMicros a <= tenant_CarriedAdjustmentMicros t /\ 0 <= adj_NewBudgetMicros a /\
     engine_tenants e' !! adj_TenantID a = Some (t <| tenant_CarriedAdjustmentMicros :=
       tenant_CarriedAdjustmentMicros t -i adj_DebtPaymentMicros a |> <| tenant_BudgetMicros := adj_NewBudgetMicros a |>)).
Proof.
  unfold AdjustBudget.
  destruct (String.eqb (adj_AdjustmentID a) "" || _ || _ || _ || _) eqn:Hf; [discriminate|].
  destruct (negb (String.eqb (adj_AuthorityKeyID a) _) || _ || _ || _ || _) eqn:Hp; [discriminate|]. bool_to_prop.
  destruct (engine_adjustments e !! adj_AdjustmentID a) as [prior|] eqn:Hadj.
  { destruct (String.eqb_spec prior (adjustment_payload a)) as [->|]; [|discriminate]. intros [= <-]. by left. }
  destruct (engine_tenants e !! adj_TenantID a) as [t0|] eqn:Ht0; [|discriminate].
  pose proof (advance_spec e (adj_TenantID a) (engine_now e)) as R.
  destruct (advance_tenant e _ (engine_now e) _ Ht0) as [t Ht].
  destruct (advanceTenantWindowLocked e _ _) as [e1 [m|]]; cbn [fst] in R, Ht; [discriminate|].
  rewrite Ht. cbn [default from_option]. unfold id. cbv zeta.
  destruct (String.eqb_spec (tenant_CurrentWindowID t) (adj_WindowID a)); cbn [negb]; [|discriminate].
  destruct (Z.ltb_spec (tenant_CarriedAdjustmentMicros t) (adj_DebtPaymentMicros a)); [discriminate|].
  intros E. apply (f_equal fst) in E. cbn [fst] in E. subst e'. right. split; [done|].
  split; [upd; apply lookup_insert_eq|]. split; [done|]. split; [done|].
  split; [unfold After in *; bool_to_prop; lia|].
  exists t. split; [done|]. split; [done|]. split; [lia|]. split; [lia|].
  match goal with |- engine_tenants (?x <| engine_adjustments := _ |>) !! _ = _ =>
    change (engine_tenants x !! adj_TenantID a = Some (t <| tenant_CarriedAdjustmentMicros :=
      tenant_CarriedAdjustmentMicros t -i adj_DebtPaymentMicros a |> <| tenant_BudgetMicros := adj_NewBudgetMicros a |>)) end.
  rewrite lookup_set_tenant. by rewrite decide_True.
Qed.

(** a signed cohort round-trips: what [SignFrozenCohort] produces under the
    engine's key is accepted, exported as it was signed with the time of its
    registration, and accepted again without effect. *)
Theorem signed_cohort_registers `{!HmacLaws} e c s :
  SignFrozenCohort c (engine_authorityKeyID e) (engine_authorityKey e) = Ok s ->
  engine_authorityKey e <> ""%string -> coh_SoftwareHash c = engine_cohortSoftwareHash e ->
  coh_FrozenAt c <= engine_now e -> engine_cohorts e !! cohortKey (coh_TenantID c) (coh_CohortID c) = None ->
  exists e', RegisterFrozenCohort e s = (e', None) /\
    ExportFrozenCohort e' (coh_TenantID c) (coh_CohortID c) = Ok (s <| coh_RegisteredAt := engine_now e |>) /\
    RegisterFrozenCohort e' s = (e', None).
Proof.
  intros Hsign Hkey Hsw Hfz Hnone.
  destruct (sign_normalize _ _ _ _ Hsign) as (Hn & Hid & Hproof & HT & HC & HF & HS).
  set (key := cohortKey (coh_TenantID c) (coh_CohortID c)) in *.
  set (e' := e <| engine_cohorts := <[key := s <| coh_RegisteredAt := engine_now e |>]> (engine_cohorts e) |>).
  assert (Hlook : engine_cohorts e' !! key = Some (s <| coh_RegisteredAt := engine_now e |>))
    by (unfold e'; upd; apply lookup_insert_eq).
  assert (Hsame : engine_now e' = engine_now e /\ engine_cohortSoftwareHash e' = engine_cohortSoftwareHash e /\
    engine_authorityKeyID e' = engine_authorityKeyID e /\ engine_authorityKey e' = engine_authorityKey e) by done.
  assert (Hreg : forall x, engine_now x = engine_now e /\ engine_cohortSoftwareHash x = engine_cohortSoftwareHash e /\
      engine_authorityKeyID x = engine_authorityKeyID e /\ engine_authorityKey x = engine_authorityKey e ->
    RegisterFrozenCohort x s = match engine_cohorts x !! key with
      | Some old => if String.eqb (coh_RegistryDigest old) (coh_RegistryDigest s) then (x, None)
                    else (x, Some "frozen cohort is immutable and conflicts with existing registration"%string)
      | None => (x <| engine_cohorts := <[key := s <| coh_RegisteredAt := engine_now x |>]> (engine_cohorts x) |>, None)
      end).
  { intros x (X1 & X2 & X3 & X4). unfold RegisterFrozenCohort. rewrite Hn, X1, X2, X3, X4, HF, HS, Hsw, Hid, Hproof.
    unfold After. replace (engine_now e <? coh_FrozenAt c) with false by (symmetry; apply Z.ltb_ge; lia).
    rewrite !String.eqb_refl. destruct (String.eqb_spec (engine_authorityKey e) ""); [done|].
    unfold cohort_proof, authorityMAC. rewrite hmac_lower, String.eqb_refl. cbn [negb orb]. by rewrite HT, HC. }
  exists e'. split; [|split].
  - rewrite Hreg by done. by rewrite Hnone.
  - unfold ExportFrozenCohort. fold key. by rewrite Hlook.
  - rewrite Hreg by done. rewrite Hlook. upd. by rewrite String.eqb_refl.
Qed.

(** admission is idempotent: repeating an admitted request, as its principal
    and under an unchanged policy snapshot, never reserves twice: once the request
    is recorded the call leaves the engine exactly as it is, and while the request
    is active it answers with the recorded reservation. *)
Theorem admission_is_idempotent e req budget routing candidates res :
  engine_reservations e !! areq_RequestID req = Some res ->
  exists r, Admit e req budget routing candidates = Some (e, r) /\
  forall resp, r = Ok resp ->
    (resp_Decision resp = DecisionAdmit <-> reservationIsActive (res_State res) = true) /\
    (reservationIsActive (res_State res) = true -> resp = responseForReservation res ReasonDuplicateRequest /\
       res_TenantID res = areq_AuthenticatedTenantID req /\ res_WorkloadUID res = areq_AuthenticatedWorkloadUID req).
Proof.
  intros Hr. unfold Admit. destruct (validateAdmitRequest req); [by eexists|].
  match goal with |- context [if ?b then _ else _] => destruct b end; [by eexists|]. cbv zeta. rewrite Hr.
  eexists. split; [done|]. unfold admit_again, matchPrincipal. destruct (validateReservationRoute res); [discriminate|].
  destruct (negb _ || negb _) eqn:Hp; [discriminate|]. bool_to_prop. destruct (negb (String.eqb _ _)); [discriminate|].
  destruct (reservationIsActive (res_State res)); cbn [negb]; intros resp E.
  - apply (f_equal (fun r => match r with Ok x => x | Err _ => resp end)) in E. subst resp. done.
  - apply (f_equal (fun r => match r with Ok x => x | Err _ => resp end)) in E. subst resp. done.
Qed.
End properties.
