(* ===== verification/EngineExample.v ===== *)
(** * Concrete runs of the ledger engine

    Two runs with SHA-256 computed: a request admitted, sent, settled in one
    window and made final in the next, and a cohort of two members. Every engine
    of a run is computed once ([Eval vm_compute]) from the one before; the
    witnesses apply the theorems of EngineProperties.v to them. *)

From Stdlib Require Import ZArith Lia Ascii String SpecFloat.
From stdpp Require Import base gmap strings list pretty sorting.
From S2P Require Import Prelude Digest GoTime Api Json Pricing Calibration Routes AdmissionPolicy Ledger LedgerProofs Cohorts Engine EngineProofs EngineInvariants EngineProperties.

Open Scope string_scope.
Open Scope list_scope.
Open Scope Z_scope.
Open Scope go_scope.

#[local] Existing Instance go_crypto.
#[local] Existing Instance RoutesExample.platform.

Module EngineExample.
Definition empty : Engine := NewEngine PricingExample.now.
Definition the_request : AdmitRequest := AdmissionExample.request "req-1".
Definition admission_call : call :=
  CallAdmit the_request AdmissionExample.budget AdmissionExample.routing AdmissionExample.candidates.
Definition dispatch (event status : string) : call :=
  CallDispatch (Build_DispatchRequest "req-1" event "red" "wl-1" "req-1:attempt:1"
    (route_SnapshotHash (cand_RouteSnapshot RoutesExample.candidate)) status "red" "wl-1").
(** A settlement of some tool calls, which cost 25000 micros each. *)
Definition settlement (event : string) (calls version : Z) (predecessor : string) (final : bool) : SettleRequest :=
  Build_SettleRequest "req-1" event "req-1:attempt:1" "red" "wl-1" 0 "" 0 0 (LedgerExample.usage calls) version predecessor
    final "" "red" "wl-1".
Definition cancel (event tenantID workload : string) : call :=
  CallCancel (Build_CancelRequest "req-1" event "req-1:attempt:1" tenantID workload "client" false tenantID workload).

Definition next (e : Engine) (c : call) : Engine := default empty (serve e c).
Definition reserved (e : Engine) : Z := tenant_ReservedMicros (tenant_of e "red").
Definition request (e : Engine) : Reservation := default zero_reservation (engine_reservations e !! "req-1").

(** The run: admission, both dispatch events, a provisional settlement; the next
    day, the final one. *)
Definition admission : Engine * result AdmitResponse := Eval vm_compute in
  default (empty, Err "") (Admit empty the_request AdmissionExample.budget AdmissionExample.routing AdmissionExample.candidates).
Definition admitted : Engine := Eval cbv in admission.1.
Definition claimed : Engine := Eval vm_compute in next admitted (dispatch "d1" DispatchClaimed).
Definition delivered : Engine := Eval vm_compute in next claimed (dispatch "d2" DispatchDelivered).
Definition provisional : SettleRequest := settlement "s1" 1 1 "" false.
Definition settled : Engine := Eval vm_compute in next delivered (CallSettle provisional).
Definition tick : call := Tick (PricingExample.now + Day).
Definition next_day : Engine := Eval vm_compute in next settled tick.
Definition last : SettleRequest := settlement "s2" 1 2 "s1" true.
Definition closed : Engine := Eval vm_compute in next next_day (CallSettle last).

(** A cohort of two opportunities of the tenant, with a risk of 5 per cent, and a
    calibrated policy bound to it. *)
Definition key : string := "0123456789abcdef0123456789abcdef".
Definition member (id : string) (index : Z) : AdmitRequest :=
  Build_AdmitRequest id "team-a" "red" "wl-1" "red" "chat" false ["eu"] "budget-policy" "route-policy" 1000 true 500 3 0
    0 0 false PricingExample.bounds false "cohort-1" index None "red" "wl-1" "team-a".
Definition digit (d : string) : string := CohortExample.digit_digest d.
Definition draft : FrozenCohort :=
  Build_FrozenCohort "red" "cohort-1" 2 50000000
    [Build_FrozenCohortSlot 0 "req-a" (OpportunityDigest (member "req-a" 0)) 333333333;
     Build_FrozenCohortSlot 1 "req-b" (OpportunityDigest (member "req-b" 1)) 666666667]
    (digit "1") (digit "2") (digit "3") (PricingExample.now - Hour) zero_time "" "" "" LedgerLayoutID
    RouteSnapshotSchemaID (digit "4").
Definition signed : FrozenCohort := Eval vm_compute in result_or draft (SignFrozenCohort draft "key-1" key).

Definition price_regime : string := Eval vm_compute in
  let c := RoutesExample.candidate in
  result_or "" (CanonicalPriceRegime (snap_SnapshotSHA256 (cand_PricingSnapshot c)) (route_ProviderUID (cand_RouteSnapshot c))
    (route_ProviderDeployment (cand_RouteSnapshot c))).
Definition cap_regime : string := Eval vm_compute in result_or "" (CanonicalCandidateCapPathAdapterRegime RoutesExample.candidate).
Definition calibration : GOVARCalibrationPolicy :=
  Build_GOVARCalibrationPolicy "artifact" (digit "5") "" (digit "6") "" "" "v1" "features-1" price_regime cap_regime
    (digit "7") 900000000 20 86400.
Definition calibration_status : GOVARCalibrationStatus :=
  Build_GOVARCalibrationStatus CalibrationEvidenceSourcePostgreSQLV8 (digit "8") "" "artifact" "v1" (digit "5") (digit "6")
    "features-1" price_regime cap_regime (digit "7") 900000000 950000000 "split_conformal_order_statistic_v1" 904761904 19
    ExactMarginalBoundKind 19 21 904761904 PPB PPB (digit "9") (digit "a") (digit "b") 20 300 true ""
    (PricingExample.now - Day) (PricingExample.now - Hour) (PricingExample.now - Hour).
Definition drift_status : GOVARDriftStatus :=
  Build_GOVARDriftStatus (digit "c") false false "coverage-gap" 50000000 (digit "d") 20 950000000 PPB 900000000 PPB ""
    (PricingExample.now - Day) (PricingExample.now - Hour) (PricingExample.now - Hour).
Definition cohort_routing : AIRoutingPolicy :=
  let r := AdmissionExample.routing_with
    (Build_GOVARRoutingPolicySpec (Build_GOVARReservationPolicy GOVARReservationFixedCohort None None None None)
       (Some calibration) (Build_GOVARDriftPolicy "coverage-gap" 50000000 "reject" 20)
       (Some (Build_GOVARCohortPolicy (coh_RegistryDigest signed) 2 (digit "1") (digit "2") (PricingExample.now - Hour)))
       (Some (Build_GOVARRiskPolicy 50000000 "fixed-weights"))) in
  Build_AIRoutingPolicy (rpol_Meta r) (rpol_Spec r)
    (Build_AIRoutingPolicyStatus 4 (Some (PricingExample.now - Minute)) RoutesExample.ready
       (Some (Build_GOVARRoutingPolicyStatus (Some calibration_status) (Some drift_status)))).
Definition configure_key : call := CallConfigureLedgerAuthority "key-1" key.
Definition configure_runtime : call := CallConfigureCohortRuntime (digit "4").
Definition admit_member (id : string) (index : Z) : call :=
  CallAdmit (member id index) AdmissionExample.budget cohort_routing AdmissionExample.candidates.
(** Both members, and the first slot again under another identifier. *)
Definition authorised : Engine := Eval vm_compute in next empty configure_key.
Definition configured : Engine := Eval vm_compute in next authorised configure_runtime.
Definition registered : Engine := Eval vm_compute in next configured (CallRegisterFrozenCohort signed).
Definition with_a : Engine := Eval vm_compute in next registered (admit_member "req-a" 0).
Definition with_b : Engine := Eval vm_compute in next with_a (admit_member "req-b" 1).
Definition refused_c : Engine := Eval vm_compute in next with_b (admit_member "req-c" 0).

(** A budget adjustment under the same key, in the window of the settled request. *)
Definition adjustment : BudgetAdjustment := Eval vm_compute in
  SignBudgetAdjustment
    (Build_BudgetAdjustment "adj-1" "red" (tenant_CurrentWindowID (tenant_of settled "red")) 2000000 0 "cfo" "more" ""
       (PricingExample.now - Hour) (PricingExample.now + Hour) "") "key-1" key.
Definition keyed : Engine := Eval vm_compute in next settled configure_key.
Definition adjusted : Engine := Eval vm_compute in (AdjustBudget keyed adjustment).1.

(** The records the theorems are applied to. *)
Definition advanced : Engine := Eval vm_compute in (advanceTenantWindowLocked next_day "red" (engine_now next_day)).1.
Definition response : AdmitResponse := Eval vm_compute in
  match admission.2 with Ok resp => resp | Err _ => responseForReservation zero_reservation ReasonDuplicateRequest end.
Definition grant : FrozenCohort := Eval vm_compute in
  default draft (engine_cohorts refused_c !! cohortKey "red" "cohort-1").
End EngineExample.

Import EngineExample.

(** *** The first run, step by step *)

Lemma Admit_ok : Admit empty the_request AdmissionExample.budget AdmissionExample.routing AdmissionExample.candidates = Some admission.
Proof. vm_compute. reflexivity. Qed.
Lemma serve_admission : serve empty admission_call = Some admitted.
Proof. unfold serve, admission_call. rewrite Admit_ok. reflexivity. Qed.
Lemma serve_claimed : serve admitted (dispatch "d1" DispatchClaimed) = Some claimed.
Proof. vm_compute. reflexivity. Qed.
Lemma serve_delivered : serve claimed (dispatch "d2" DispatchDelivered) = Some delivered.
Proof. vm_compute. reflexivity. Qed.
Lemma serve_settled : serve delivered (CallSettle provisional) = Some settled.
Proof. vm_compute. reflexivity. Qed.
Lemma serve_tick : serve settled tick = Some next_day.
Proof. vm_compute. reflexivity. Qed.
Lemma serve_closed : serve next_day (CallSettle last) = Some closed.
Proof. vm_compute. reflexivity. Qed.

Lemma starting_empty : starting empty.
Proof. done. Qed.
Lemma reachable_empty : reachable empty.
Proof. exists empty, []. split; [exact starting_empty | reflexivity]. Qed.
Lemma reachable_admitted : reachable admitted.
Proof. exact (reachable_step _ _ _ reachable_empty serve_admission). Qed.
Lemma reachable_delivered : reachable delivered.
Proof. exact (reachable_step _ _ _ (reachable_step _ _ _ reachable_admitted serve_claimed) serve_delivered). Qed.
Lemma reachable_settled : reachable settled.
Proof. exact (reachable_step _ _ _ reachable_delivered serve_settled). Qed.
Lemma reachable_next_day : reachable next_day.
Proof. exact (reachable_step _ _ _ reachable_settled serve_tick). Qed.

(** The calls of the second day, and of the whole run. *)
Definition closing : list call := [tick; CallSettle last].
Definition whole_run : list call :=
  [admission_call; dispatch "d1" DispatchClaimed; dispatch "d2" DispatchDelivered; CallSettle provisional; tick; CallSettle last].
Lemma run_closing : run settled closing = Some closed.
Proof. exact (run_cons _ _ _ _ _ serve_tick (run_cons _ _ _ _ _ serve_closed (eq_refl : run closed [] = Some closed))). Qed.
Lemma run_whole : run empty whole_run = Some closed.
Proof.
  refine (run_cons _ _ _ _ _ serve_admission _). refine (run_cons _ _ _ _ _ serve_claimed _).
  refine (run_cons _ _ _ _ _ serve_delivered _). refine (run_cons _ _ _ _ _ serve_settled run_closing).
Qed.

(** The hold of the request, what its provisional settlement leaves of it, and the
    leak: on the next day the request is final and holds nothing, and 25000 micros
    stay reserved. *)
Example reserved_along_the_run :
  (reserved admitted, reserved settled, reserved closed, holds closed "red", res_State (request closed))
  = (82500, 57500, 25000, 0, StateFinalized).
Proof. vm_compute. reflexivity. Qed.

(** *** The second run: a cohort *)

Lemma serve_authorised : serve empty configure_key = Some authorised.
Proof. vm_compute. reflexivity. Qed.
Lemma serve_configured : serve authorised configure_runtime = Some configured.
Proof. vm_compute. reflexivity. Qed.
Lemma RegisterFrozenCohort_ok : RegisterFrozenCohort configured signed = (registered, None).
Proof. vm_compute. reflexivity. Qed.
Lemma serve_registered : serve configured (CallRegisterFrozenCohort signed) = Some registered.
Proof. unfold serve. by rewrite RegisterFrozenCohort_ok. Qed.
Lemma serve_with_a : serve registered (admit_member "req-a" 0) = Some with_a.
Proof. vm_compute. reflexivity. Qed.
Lemma serve_with_b : serve with_a (admit_member "req-b" 1) = Some with_b.
Proof. vm_compute. reflexivity. Qed.
Lemma serve_refused_c : serve with_b (admit_member "req-c" 0) = Some refused_c.
Proof. vm_compute. reflexivity. Qed.
Lemma reachable_refused_c : reachable refused_c.
Proof.
  refine (reachable_step _ _ _ _ serve_refused_c). refine (reachable_step _ _ _ _ serve_with_b).
  refine (reachable_step _ _ _ _ serve_with_a). refine (reachable_step _ _ _ _ serve_registered).
  refine (reachable_step _ _ _ _ serve_configured). exact (reachable_step _ _ _ reachable_empty serve_authorised).
Qed.

(** Two members are admitted, with all but one part per billion of the risk; a
    third request for a slot already taken is not. *)
Example cohort_risk_used :
  (allocated_risk refused_c (cohortKey "red" "cohort-1"), size (engine_reservations refused_c)) = (49999999, 2%nat).
Proof. vm_compute. reflexivity. Qed.

Lemma AdjustBudget_ok : (AdjustBudget keyed adjustment).1 = adjusted /\ (AdjustBudget keyed adjustment).2 = None.
Proof. vm_compute. split; reflexivity. Qed.

(** *** The theorems, applied to the runs *)

Lemma engine_never_faults_witness : exists e, run empty whole_run = Some e /\ engine_wf e.
Proof. apply engine_never_faults. exact starting_empty. Defined.

Lemma reserved_is_held_witness :
  tenant_ReservedMicros (tenant_of closed "red") ≡64 holds closed "red" + run_leak empty whole_run "red".
Proof. apply (reserved_is_held empty whole_run closed "red"); [exact starting_empty | exact run_whole]. Defined.

(** The premises on the stored records, as booleans and options of small values. *)
Lemma next_day_record : engine_reservations next_day !! "req-1" = Some (request next_day).
Proof. vm_compute. reflexivity. Qed.
Lemma next_day_tenant : engine_tenants next_day !! "red" = Some (tenant_of next_day "red").
Proof. vm_compute. reflexivity. Qed.
Lemma next_day_request : res_TenantID (request next_day) = "red" /\ res_ProvisionalCostMicros (request next_day) = 25000.
Proof. vm_compute. split; reflexivity. Qed.

Lemma advance_next_day : advanceTenantWindowLocked next_day "red" (engine_now next_day) = (advanced, None).
Proof. vm_compute. reflexivity. Qed.
Lemma Settle_last : (Settle next_day last).1 = closed.
Proof. exact (f_equal (default empty) serve_closed). Qed.

Lemma rollover_settlement_leaks_witness : gap (Settle next_day last).1 "red" ≡64 gap next_day "red" + 25000.
Proof.
  destruct next_day_request as [HT HP]. rewrite <- HT, <- HP.
  apply (rollover_settlement_leaks next_day last advanced (request next_day) (tenant_of next_day "red")); rewrite ?HT.
  - exact (reachable_wf _ reachable_next_day).
  - exact next_day_record.
  - exact next_day_tenant.
  - vm_compute. reflexivity.
  - exact advance_next_day.
  - intros E. apply (f_equal (fun e => tenant_CurrentWindowID (tenant_of e "red"))) in E. vm_compute in E. discriminate E.
  - vm_compute. reflexivity.
  - rewrite Settle_last. vm_compute. eexists. reflexivity.
Defined.

Lemma history_is_immutable_witness : persists settled closed.
Proof. exact (history_is_immutable settled closing closed reachable_settled run_closing). Defined.

Lemma events_apply_once_witness :
  serve closed (CallSettle provisional) = Some closed /\
  exists r, engine_reservations closed !! "req-1" = Some r /\
    answer closed (CallSettle provisional) = Some (unchanged r ReasonSettlementDuplicate None).
Proof.
  apply (events_apply_once delivered (CallSettle provisional) "s1" "req-1" settled closing closed).
  - exact reachable_delivered.
  - reflexivity.
  - vm_compute. reflexivity.
  - exact serve_settled.
  - vm_compute. eexists. reflexivity.
  - exact run_closing.
Defined.

Lemma tenants_are_isolated_witness : touches "red" next_day closed.
Proof.
  apply (tenants_are_isolated next_day (CallSettle last));
    [exact reachable_next_day | reflexivity | exact serve_closed].
Defined.

Lemma settled_record : engine_reservations settled !! "req-1" = Some (request settled).
Proof. vm_compute. reflexivity. Qed.

Lemma strangers_change_nothing_witness : serve settled (cancel "c1" "blue" "wl-9") = Some settled.
Proof.
  apply (strangers_change_nothing settled _ "blue" "wl-9" "c1" "req-1" (request settled)).
  - reflexivity.
  - reflexivity.
  - exact settled_record.
  - left. vm_compute. discriminate.
Defined.

Lemma expiry_sweep_witness : exists e' out,
  ReconcileExpired admitted (PricingExample.now + Hour) = Some (e', out) /\
  ReconcileExpired e' (PricingExample.now + Hour) = Some (e', []).
Proof.
  destruct (expiry_sweep admitted (PricingExample.now + Hour) reachable_admitted) as (e' & out & H1 & _ & H2).
  exists e', out. split; [exact H1 | exact H2].
Defined.

Lemma engine_refines_ledger_witness :
  rtc ledger_move ∅ (abstract next_day) /\ rtc ledger_move (abstract next_day) (abstract closed).
Proof.
  destruct reachable_next_day as (e0 & calls & Hs & Hr).
  exact (engine_refines_ledger e0 calls next_day (CallSettle last) closed Hs Hr serve_closed).
Defined.

Lemma Admit_response : Admit empty the_request AdmissionExample.budget AdmissionExample.routing AdmissionExample.candidates
  = Some (admitted, Ok response).
Proof. rewrite Admit_ok. vm_compute. reflexivity. Qed.

Lemma admission_within_budget_witness : exists t res,
  admission_recorded empty the_request AdmissionExample.budget response admitted t res.
Proof.
  exact (admission_within_budget empty the_request AdmissionExample.budget AdmissionExample.routing
    AdmissionExample.candidates admitted (Ok response) eq_refl Admit_response).
Defined.

Lemma admission_is_idempotent_witness : exists r,
  Admit settled the_request AdmissionExample.budget AdmissionExample.routing AdmissionExample.candidates = Some (settled, r).
Proof.
  destruct (admission_is_idempotent settled the_request AdmissionExample.budget AdmissionExample.routing
    AdmissionExample.candidates (request settled) settled_record) as (r & Hr & _). by exists r.
Defined.

Lemma cohort_risk_within_grant_witness : allocated_risk refused_c (cohortKey "red" "cohort-1") <= coh_TenantRiskPPB grant.
Proof.
  apply cohort_risk_within_grant; [exact reachable_refused_c|]. vm_compute. reflexivity.
Defined.

Lemma signed_cohort_registers_witness :
  exists e', RegisterFrozenCohort configured signed = (e', None) /\ RegisterFrozenCohort e' signed = (e', None).
Proof.
  destruct (signed_cohort_registers configured draft signed) as (e' & H1 & _ & H2).
  - vm_compute. reflexivity.
  - vm_compute. discriminate.
  - vm_compute. reflexivity.
  - vm_compute. discriminate.
  - vm_compute. reflexivity.
  - exists e'. split; [exact H1 | exact H2].
Defined.

Lemma AdjustBudget_adjusted : AdjustBudget keyed adjustment = (adjusted, None).
Proof. destruct AdjustBudget_ok as [E1 E2]. destruct (AdjustBudget keyed adjustment). cbn [fst snd] in E1, E2. by subst. Qed.

Lemma adjustment_is_authorized_witness :
  ToLower (adj_AuthorityProof adjustment) = adjustment_proof (engine_authorityKey keyed) adjustment.
Proof.
  destruct (adjustment_is_authorized keyed adjustment adjusted AdjustBudget_adjusted)
    as [[_ Hp] | (_ & _ & _ & Hp & _)].
  - vm_compute in Hp. discriminate Hp.
  - exact Hp.
Defined.
