(* ===== verification/Wire.v ===== *)
(** * The wire format of the admission service

    The JSON of the requests and responses of [cmd/gov-ar-admission] and of the types
    of [internal/govar] they carry: [decodeStrictJSON], which refuses unknown
    fields, and what [encoding/json] writes. The elements of a list whose key occurs
    twice are decoded over the elements of the first list, up to its length. *)

From Stdlib Require Import ZArith Lia Ascii String.
From stdpp Require Import base gmap strings list pretty.
From S2P Require Import Prelude Digest GoTime Api Json JsonDecode Pricing Routes AdmissionPolicy Ledger Engine.

Open Scope string_scope.
Open Scope list_scope.
Open Scope Z_scope.
Open Scope go_scope.

(** ** The texts of the enumerations *)

Definition reason_text (r : ReasonCode) : string :=
  match r with
  | ReasonNone => ""
  | ReasonHighestUtility => "highest_utility_feasible"
  | ReasonNoCandidate => "no_candidate_after_governance"
  | ReasonInsufficientEvidence => "insufficient_reservation_evidence"
  | ReasonBudgetUnavailable => "budget_unavailable"
  | ReasonDuplicateRequest => "duplicate_request"
  | ReasonDuplicateConflict => "duplicate_request_conflict"
  | ReasonDuplicateEvent => "duplicate_event"
  | ReasonReservationNotFound => "reservation_not_found"
  | ReasonSettlementDuplicate => "duplicate_settlement"
  | ReasonApprovalRequired => "approval_required"
  | ReasonCanceled => "authoritative_unbilled_cancellation"
  | ReasonCancellationUnclear => "cancellation_delivery_ambiguous"
  | ReasonDispatchClaimed => "dispatch_claimed"
  | ReasonDispatchDelivered => "dispatch_delivered"
  | ReasonDispatchUnresolved => "dispatch_delivery_ambiguous"
  | ReasonProvisionalSettlement => "provisional_settlement"
  | ReasonLateSettlement => "late_settlement"
  | ReasonCorrection => "settlement_correction"
  | ReasonFinalized => "settlement_finalized"
  | ReasonInvalidTransition => "invalid_transition"
  | ReasonPrincipalMismatch => "authenticated_principal_mismatch"
  | ReasonReservationExceeded => "reservation_exceeded"
  | ReasonPolicyNotReady => "policy_not_ready"
  | ReasonBudgetTargetMismatch => "budget_target_mismatch"
  | ReasonWorkloadTargetMismatch => "workload_target_mismatch"
  | ReasonModelNotReady => "model_not_ready"
  | ReasonProviderUnavailable => "provider_unavailable"
  | ReasonNotRoutable => "model_not_routable"
  | ReasonGovernanceInfeasible => "governance_infeasible"
  | ReasonQualityStale => "quality_observation_stale"
  | ReasonQualityBelowMinimum => "quality_below_minimum"
  | ReasonPricingIncomplete => "pricing_incomplete"
  | ReasonPricingStale => "pricing_stale"
  | ReasonContextLimit => "context_limit_exceeded"
  | ReasonLatencyUnavailable => "latency_observation_unavailable"
  | ReasonLatencyExceeded => "latency_guardrail_exceeded"
  | ReasonStrictCapUnverified => "strict_cap_unverified"
  | ReasonInsufficientCalibration => "insufficient_calibration"
  | ReasonCalibrationMissing => "calibration_status_missing"
  | ReasonCalibrationGeneration => "calibration_generation_mismatch"
  | ReasonCalibrationMismatch => "calibration_digest_mismatch"
  | ReasonCalibrationRegime => "calibration_regime_mismatch"
  | ReasonCalibrationSupport => "calibration_support_insufficient"
  | ReasonCalibrationStale => "calibration_stale"
  | ReasonCalibrationDrift => "calibration_drift_detected"
  | ReasonCalibrationUnsupported => "calibration_detector_unsupported"
  | ReasonInputBoundFallback => "input_token_bound_uncertain"
  | ReasonReservationMethodUnknown => "reservation_method_unknown"
  | ReasonBudgetWindowConflict => "budget_window_conflict"
  | ReasonRetriesDisabled => "provider_retries_disabled_unreserved"
  | ReasonExpiredUndispatched => "expired_undispatched"
  | ReasonBudgetWindowRollover => "budget_window_rollover"
  end.
Definition decision_text (d : Decision) : string :=
  match d with
  | DecisionNone => "" | DecisionAdmit => "ADMIT" | DecisionQueue => "QUEUE" | DecisionReject => "REJECT"
  | DecisionAbstain => "ABSTAIN" | DecisionRequireApproval => "REQUIRE_APPROVAL"
  end.
Definition sql_state (s : ReservationState) : string :=
  match s with
  | StateNone => "" | StateReserved => "RESERVED" | StateDispatchPending => "DISPATCH_PENDING"
  | StateDispatched => "DISPATCHED" | StateUnresolved => "UNRESOLVED" | StateSettledProvisional => "SETTLED_PROVISIONAL"
  | StateLateSettledProvisional => "LATE_SETTLED_PROVISIONAL" | StateCorrectedProvisional => "CORRECTED_PROVISIONAL"
  | StateFinalized => "FINALIZED" | StateLateFinalized => "LATE_FINALIZED" | StateCanceledUnbilled => "CANCELED_UNBILLED"
  | StateFailedUnbilled => "FAILED_UNBILLED" | StateExpiredUndispatched => "EXPIRED_UNDISPATCHED"
  end.
Definition sql_outbox (s : OutboxState) : string :=
  match s with
  | OutboxNone => "" | OutboxPending => "PENDING" | OutboxClaimed => "CLAIMED" | OutboxDelivered => "DELIVERED"
  | OutboxCanceled => "CANCELED"
  end.

(** ** Decoding *)

Definition decode_bool (old : bool) (v : jvalue) : result bool :=
  match v with JBool b => Ok b | JNull => Ok old | _ => Err json_error end.

(** A list over the elements that are there; [null] and [[]] are empty. *)
Fixpoint decode_items {A} (decode : A -> jvalue -> result A) (zero : A) (old : list A) (items : list jvalue) : result (list A) :=
  match items with
  | [] => Ok []
  | v :: items =>
    let? x := decode (match old with a :: _ => a | [] => zero end) v in
    let? l := decode_items decode zero (tail old) items in
    Ok (x :: l)
  end.
Definition decode_list {A} (decode : A -> jvalue -> result A) (zero : A) (old : list A) (v : jvalue) : result (list A) :=
  match v with
  | JArray items => decode_items decode zero old items
  | JNull => Ok []
  | _ => Err json_error
  end.
(** A pointer: [null] is [nil], anything else decodes into what it points at. *)
Definition decode_pointer {A} (decode : A -> jvalue -> result A) (zero : A) (old : option A) (v : jvalue) : result (option A) :=
  match v with
  | JNull => Ok None
  | _ => let? x := decode (default zero old) v in Ok (Some x)
  end.

(** [Decoder.DisallowUnknownFields]. *)
Fixpoint decode_known {A} (names : list string) (assign : string -> jvalue -> A -> result A) (old : A)
    (members : list (string * jvalue)) : result A :=
  match members with
  | [] => Ok old
  | (key, v) :: rest =>
    match field_named names key with
    | None => Err ("json: unknown field " +:+ Quote key)
    | Some name => let? x := assign name v old in decode_known names assign x rest
    end
  end.
Definition decode_strict {A} (names : list string) (assign : string -> jvalue -> A -> result A) (old : A) (v : jvalue) : result A :=
  match v with
  | JObject members => decode_known names assign old members
  | JNull => Ok old
  | _ => Err json_error
  end.
(** [decodeStrictJSON]: one JSON value, and nothing after it. *)
Definition decodeStrictJSON {A} (names : list string) (assign : string -> jvalue -> A -> result A) (zero : A) (body : string) : result A :=
  match json_parse body with
  | None => Err json_error
  | Some v => decode_strict names assign zero v
  end.

(** [set x := decode(...)], then the field is updated. *)
Definition assigned {A B} (r : result A) (set : A -> B) : result B := let? x := r in Ok (set x).

Definition usage_fields : list string := ["basis"; "quantity"]%string.
Definition zero_usage : UsageQuantity := Build_UsageQuantity "" 0.
Definition set_usage_field (name : string) (v : jvalue) (u : UsageQuantity) : result UsageQuantity :=
  if String.eqb name "basis" then assigned (decode_string (uq_Basis u) v) (fun s => Build_UsageQuantity s (uq_Quantity u))
  else assigned (decode_int64 (uq_Quantity u) v) (fun z => Build_UsageQuantity (uq_Basis u) z).
Definition decode_usage (old : list UsageQuantity) (v : jvalue) : result (list UsageQuantity) :=
  decode_list (decode_strict usage_fields set_usage_field) zero_usage old v.

#[export] Instance areq_eta : Eta AdmitRequest := fun r =>
  Build_AdmitRequest (areq_RequestID r) (areq_Namespace r) (areq_TenantID r) (areq_WorkloadUID r) (areq_Team r) 
    (areq_Application r) (areq_SensitiveData r) (areq_AllowedZones r) (areq_BudgetPolicyName r) 
    (areq_RoutingPolicyName r) (areq_InputTokens r) (areq_InputTokensExact r) (areq_MaxOutputTokens r) 
    (areq_MaxToolCalls r) (areq_MaxMediaUnits r) (areq_TimeoutSeconds r) (areq_MaxRetryAttempts r) 
    (areq_CancellationPossible r) (areq_ChargeBounds r) (areq_RequireApproval r) (areq_CohortID r) 
    (areq_CohortIndex r) (areq_SelectedFeedback r) (areq_AuthenticatedTenantID r) 
    (areq_AuthenticatedWorkloadUID r) (areq_AuthenticatedNamespace r).

(** *** Requests *)

#[export] Instance sfb_eta : Eta SelectedFeedbackBinding := fun r =>
  Build_SelectedFeedbackBinding (sfb_RunID r) (sfb_DatasetID r) (sfb_Split r) (sfb_ItemID r) (sfb_ProtocolSHA256 r)
    (sfb_OracleArtifactSHA256 r) (sfb_SoftwareSHA256 r) (sfb_ConfigSHA256 r).
Definition feedback_fields : list string :=
  ["run_id"; "dataset_id"; "split"; "item_id"; "protocol_sha256"; "oracle_artifact_sha256";
   "software_sha256"; "config_sha256"]%string.
Definition zero_feedback : SelectedFeedbackBinding := Build_SelectedFeedbackBinding "" "" "" "" "" "" "" "".
Definition set_feedback_field (name : string) (v : jvalue) (f : SelectedFeedbackBinding) : result SelectedFeedbackBinding :=
  if String.eqb name "run_id" then assigned (decode_string (sfb_RunID f) v) (fun x => f <| sfb_RunID := x |>)
  else if String.eqb name "dataset_id" then assigned (decode_string (sfb_DatasetID f) v) (fun x => f <| sfb_DatasetID := x |>)
  else if String.eqb name "split" then assigned (decode_string (sfb_Split f) v) (fun x => f <| sfb_Split := x |>)
  else if String.eqb name "item_id" then assigned (decode_string (sfb_ItemID f) v) (fun x => f <| sfb_ItemID := x |>)
  else if String.eqb name "protocol_sha256" then assigned (decode_string (sfb_ProtocolSHA256 f) v) (fun x => f <| sfb_ProtocolSHA256 := x |>)
  else if String.eqb name "oracle_artifact_sha256" then assigned (decode_string (sfb_OracleArtifactSHA256 f) v) (fun x => f <| sfb_OracleArtifactSHA256 := x |>)
  else if String.eqb name "software_sha256" then assigned (decode_string (sfb_SoftwareSHA256 f) v) (fun x => f <| sfb_SoftwareSHA256 := x |>)
  else assigned (decode_string (sfb_ConfigSHA256 f) v) (fun x => f <| sfb_ConfigSHA256 := x |>).
Definition decode_feedback (old : SelectedFeedbackBinding) (v : jvalue) : result SelectedFeedbackBinding :=
  decode_strict feedback_fields set_feedback_field old v.

Definition admit_fields : list string :=
  ["request_id"; "namespace"; "tenant_id"; "workload_uid"; "team"; "application"; "sensitive_data";
   "allowed_zones"; "budget_policy_name"; "routing_policy_name"; "input_tokens"; "input_tokens_exact";
   "max_output_tokens"; "max_tool_calls"; "max_media_units"; "timeout_seconds"; "max_retry_attempts";
   "cancellation_possible"; "charge_bounds"; "require_approval"; "cohort_id"; "cohort_index";
   "selected_feedback"]%string.
Definition zero_admit : AdmitRequest :=
  Build_AdmitRequest "" "" "" "" "" "" false [] "" "" 0 false 0 0 0 0 0 false [] false "" 0 None "" "" "".
Definition set_admit_field (name : string) (v : jvalue) (r : AdmitRequest) : result AdmitRequest :=
  if String.eqb name "request_id" then assigned (decode_string (areq_RequestID r) v) (fun x => r <| areq_RequestID := x |>)
  else if String.eqb name "namespace" then assigned (decode_string (areq_Namespace r) v) (fun x => r <| areq_Namespace := x |>)
  else if String.eqb name "tenant_id" then assigned (decode_string (areq_TenantID r) v) (fun x => r <| areq_TenantID := x |>)
  else if String.eqb name "workload_uid" then assigned (decode_string (areq_WorkloadUID r) v) (fun x => r <| areq_WorkloadUID := x |>)
  else if String.eqb name "team" then assigned (decode_string (areq_Team r) v) (fun x => r <| areq_Team := x |>)
  else if String.eqb name "application" then assigned (decode_string (areq_Application r) v) (fun x => r <| areq_Application := x |>)
  else if String.eqb name "sensitive_data" then assigned (decode_bool (areq_SensitiveData r) v) (fun x => r <| areq_SensitiveData := x |>)
  else if String.eqb name "allowed_zones" then assigned (decode_list decode_string "" (areq_AllowedZones r) v) (fun x => r <| areq_AllowedZones := x |>)
  else if String.eqb name "budget_policy_name" then assigned (decode_string (areq_BudgetPolicyName r) v) (fun x => r <| areq_BudgetPolicyName := x |>)
  else if String.eqb name "routing_policy_name" then assigned (decode_string (areq_RoutingPolicyName r) v) (fun x => r <| areq_RoutingPolicyName := x |>)
  else if String.eqb name "input_tokens" then assigned (decode_int64 (areq_InputTokens r) v) (fun x => r <| areq_InputTokens := x |>)
  else if String.eqb name "input_tokens_exact" then assigned (decode_bool (areq_InputTokensExact r) v) (fun x => r <| areq_InputTokensExact := x |>)
  else if String.eqb name "max_output_tokens" then assigned (decode_int64 (areq_MaxOutputTokens r) v) (fun x => r <| areq_MaxOutputTokens := x |>)
  else if String.eqb name "max_tool_calls" then assigned (decode_int64 (areq_MaxToolCalls r) v) (fun x => r <| areq_MaxToolCalls := x |>)
  else if String.eqb name "max_media_units" then assigned (decode_int64 (areq_MaxMediaUnits r) v) (fun x => r <| areq_MaxMediaUnits := x |>)
  else if String.eqb name "timeout_seconds" then assigned (decode_int64 (areq_TimeoutSeconds r) v) (fun x => r <| areq_TimeoutSeconds := x |>)
  else if String.eqb name "max_retry_attempts" then assigned (decode_int64 (areq_MaxRetryAttempts r) v) (fun x => r <| areq_MaxRetryAttempts := x |>)
  else if String.eqb name "cancellation_possible" then assigned (decode_bool (areq_CancellationPossible r) v) (fun x => r <| areq_CancellationPossible := x |>)
  else if String.eqb name "charge_bounds" then assigned (decode_usage (areq_ChargeBounds r) v) (fun x => r <| areq_ChargeBounds := x |>)
  else if String.eqb name "require_approval" then assigned (decode_bool (areq_RequireApproval r) v) (fun x => r <| areq_RequireApproval := x |>)
  else if String.eqb name "cohort_id" then assigned (decode_string (areq_CohortID r) v) (fun x => r <| areq_CohortID := x |>)
  else if String.eqb name "cohort_index" then assigned (decode_int64 (areq_CohortIndex r) v) (fun x => r <| areq_CohortIndex := x |>)
  else assigned (decode_pointer decode_feedback zero_feedback (areq_SelectedFeedback r) v) (fun x => r <| areq_SelectedFeedback := x |>).
(** The body of an admission: the request, and the approval it refers to. *)
Record AdmitApiRequest : Type := Build_AdmitApiRequest { api_AdmitRequest : AdmitRequest; api_ApprovalRef : string }.
Definition set_admit_api_field (name : string) (v : jvalue) (r : AdmitApiRequest) : result AdmitApiRequest :=
  if String.eqb name "approval_ref"
  then assigned (decode_string (api_ApprovalRef r) v) (fun s => Build_AdmitApiRequest (api_AdmitRequest r) s)
  else assigned (set_admit_field name v (api_AdmitRequest r)) (fun x => Build_AdmitApiRequest x (api_ApprovalRef r)).
Definition decode_admit (body : string) : result AdmitApiRequest :=
  decodeStrictJSON (admit_fields ++ ["approval_ref"%string]) set_admit_api_field (Build_AdmitApiRequest zero_admit "") body.

#[export] Instance dreq_eta : Eta DispatchRequest := fun r =>
  Build_DispatchRequest (dreq_RequestID r) (dreq_EventID r) (dreq_TenantID r) (dreq_WorkloadUID r)
    (dreq_ProviderAttemptID r) (dreq_RouteSnapshotHash r) (dreq_Status r)
    (dreq_AuthenticatedTenantID r) (dreq_AuthenticatedWorkloadUID r).
Definition dispatch_fields : list string :=
  ["request_id"; "event_id"; "tenant_id"; "workload_uid"; "provider_attempt_id"; "route_snapshot_hash";
   "status"]%string.
Definition set_dispatch_field (name : string) (v : jvalue) (r : DispatchRequest) : result DispatchRequest :=
  if String.eqb name "request_id" then assigned (decode_string (dreq_RequestID r) v) (fun x => r <| dreq_RequestID := x |>)
  else if String.eqb name "event_id" then assigned (decode_string (dreq_EventID r) v) (fun x => r <| dreq_EventID := x |>)
  else if String.eqb name "tenant_id" then assigned (decode_string (dreq_TenantID r) v) (fun x => r <| dreq_TenantID := x |>)
  else if String.eqb name "workload_uid" then assigned (decode_string (dreq_WorkloadUID r) v) (fun x => r <| dreq_WorkloadUID := x |>)
  else if String.eqb name "provider_attempt_id" then assigned (decode_string (dreq_ProviderAttemptID r) v) (fun x => r <| dreq_ProviderAttemptID := x |>)
  else if String.eqb name "route_snapshot_hash" then assigned (decode_string (dreq_RouteSnapshotHash r) v) (fun x => r <| dreq_RouteSnapshotHash := x |>)
  else assigned (decode_string (dreq_Status r) v) (fun x => r <| dreq_Status := x |>).
Definition decode_dispatch (body : string) : result DispatchRequest :=
  decodeStrictJSON dispatch_fields set_dispatch_field (Build_DispatchRequest "" "" "" "" "" "" "" "" "") body.

(** The text of a [RawMessage] is only compared with numerals; other values are kept
    in the encoder's spelling. *)
Definition settle_fields : list string :=
  ["request_id"; "settlement_id"; "provider_attempt_id"; "tenant_id"; "workload_uid"; "actual_cost_micros";
   "actual_cost"; "actual_input_tokens"; "actual_output_tokens"; "usage"; "usage_version";
   "predecessor_event_id"; "final"; "error_status"]%string.
Definition set_settle_field (name : string) (v : jvalue) (r : SettleRequest) : result SettleRequest :=
  if String.eqb name "request_id" then assigned (decode_string (sreq_RequestID r) v) (fun x => r <| sreq_RequestID := x |>)
  else if String.eqb name "settlement_id" then assigned (decode_string (sreq_SettlementID r) v) (fun x => r <| sreq_SettlementID := x |>)
  else if String.eqb name "provider_attempt_id" then assigned (decode_string (sreq_ProviderAttemptID r) v) (fun x => r <| sreq_ProviderAttemptID := x |>)
  else if String.eqb name "tenant_id" then assigned (decode_string (sreq_TenantID r) v) (fun x => r <| sreq_TenantID := x |>)
  else if String.eqb name "workload_uid" then assigned (decode_string (sreq_WorkloadUID r) v) (fun x => r <| sreq_WorkloadUID := x |>)
  else if String.eqb name "actual_cost_micros" then assigned (decode_int64 (sreq_ActualCostMicros r) v) (fun x => r <| sreq_ActualCostMicros := x |>)
  else if String.eqb name "actual_cost" then Ok (r <| sreq_LegacyActualCost := jtext v |>)
  else if String.eqb name "actual_input_tokens" then assigned (decode_int64 (sreq_ActualInput r) v) (fun x => r <| sreq_ActualInput := x |>)
  else if String.eqb name "actual_output_tokens" then assigned (decode_int64 (sreq_ActualOutput r) v) (fun x => r <| sreq_ActualOutput := x |>)
  else if String.eqb name "usage" then assigned (decode_usage (sreq_Usage r) v) (fun x => r <| sreq_Usage := x |>)
  else if String.eqb name "usage_version" then assigned (decode_int64 (sreq_UsageVersion r) v) (fun x => r <| sreq_UsageVersion := x |>)
  else if String.eqb name "predecessor_event_id" then assigned (decode_string (sreq_PredecessorEventID r) v) (fun x => r <| sreq_PredecessorEventID := x |>)
  else if String.eqb name "final" then assigned (decode_bool (sreq_Final r) v) (fun x => r <| sreq_Final := x |>)
  else assigned (decode_string (sreq_ErrorStatus r) v) (fun x => r <| sreq_ErrorStatus := x |>).
Definition decode_settle (body : string) : result SettleRequest :=
  decodeStrictJSON settle_fields set_settle_field (Build_SettleRequest "" "" "" "" "" 0 "" 0 0 [] 0 "" false "" "" "") body.

#[export] Instance creq_eta : Eta CancelRequest := fun r =>
  Build_CancelRequest (creq_RequestID r) (creq_EventID r) (creq_ProviderAttemptID r) (creq_TenantID r)
    (creq_WorkloadUID r) (creq_Reason r) (creq_AuthoritativeUnbilled r) (creq_AuthenticatedTenantID r)
    (creq_AuthenticatedWorkloadUID r).
Definition cancel_fields : list string :=
  ["request_id"; "event_id"; "provider_attempt_id"; "tenant_id"; "workload_uid"; "reason";
   "authoritative_unbilled"]%string.
Definition set_cancel_field (name : string) (v : jvalue) (r : CancelRequest) : result CancelRequest :=
  if String.eqb name "request_id" then assigned (decode_string (creq_RequestID r) v) (fun x => r <| creq_RequestID := x |>)
  else if String.eqb name "event_id" then assigned (decode_string (creq_EventID r) v) (fun x => r <| creq_EventID := x |>)
  else if String.eqb name "provider_attempt_id" then assigned (decode_string (creq_ProviderAttemptID r) v) (fun x => r <| creq_ProviderAttemptID := x |>)
  else if String.eqb name "tenant_id" then assigned (decode_string (creq_TenantID r) v) (fun x => r <| creq_TenantID := x |>)
  else if String.eqb name "workload_uid" then assigned (decode_string (creq_WorkloadUID r) v) (fun x => r <| creq_WorkloadUID := x |>)
  else if String.eqb name "reason" then assigned (decode_string (creq_Reason r) v) (fun x => r <| creq_Reason := x |>)
  else assigned (decode_bool (creq_AuthoritativeUnbilled r) v) (fun x => r <| creq_AuthoritativeUnbilled := x |>).
Definition decode_cancel (body : string) : result CancelRequest :=
  decodeStrictJSON cancel_fields set_cancel_field (Build_CancelRequest "" "" "" "" "" "" false "" "") body.

Definition route_fields_json : list string :=
  ["namespace"; "model_name"; "model_uid"; "model_generation"; "model_resource_version"; "provider_name";
   "provider_uid"; "provider_generation"; "provider_resource_version"; "pricing_version";
   "pricing_compliance_hash"; "route_binding_name"; "provider_deployment"; "cluster"; "authority";
   "path_mode"; "snapshot_hash"]%string.
Definition set_route_field (name : string) (v : jvalue) (r : RouteSnapshot) : result RouteSnapshot :=
  if String.eqb name "namespace" then assigned (decode_string (route_Namespace r) v) (fun x => r <| route_Namespace := x |>)
  else if String.eqb name "model_name" then assigned (decode_string (route_ModelName r) v) (fun x => r <| route_ModelName := x |>)
  else if String.eqb name "model_uid" then assigned (decode_string (route_ModelUID r) v) (fun x => r <| route_ModelUID := x |>)
  else if String.eqb name "model_generation" then assigned (decode_int64 (route_ModelGeneration r) v) (fun x => r <| route_ModelGeneration := x |>)
  else if String.eqb name "model_resource_version" then assigned (decode_string (route_ModelResourceVersion r) v) (fun x => r <| route_ModelResourceVersion := x |>)
  else if String.eqb name "provider_name" then assigned (decode_string (route_ProviderName r) v) (fun x => r <| route_ProviderName := x |>)
  else if String.eqb name "provider_uid" then assigned (decode_string (route_ProviderUID r) v) (fun x => r <| route_ProviderUID := x |>)
  else if String.eqb name "provider_generation" then assigned (decode_int64 (route_ProviderGeneration r) v) (fun x => r <| route_ProviderGeneration := x |>)
  else if String.eqb name "provider_resource_version" then assigned (decode_string (route_ProviderResourceVersion r) v) (fun x => r <| route_ProviderResourceVersion := x |>)
  else if String.eqb name "pricing_version" then assigned (decode_string (route_PricingVersion r) v) (fun x => r <| route_PricingVersion := x |>)
  else if String.eqb name "pricing_compliance_hash" then assigned (decode_string (route_PricingComplianceHash r) v) (fun x => r <| route_PricingComplianceHash := x |>)
  else if String.eqb name "route_binding_name" then assigned (decode_string (route_RouteBindingName r) v) (fun x => r <| route_RouteBindingName := x |>)
  else if String.eqb name "provider_deployment" then assigned (decode_string (route_ProviderDeployment r) v) (fun x => r <| route_ProviderDeployment := x |>)
  else if String.eqb name "cluster" then assigned (decode_string (route_Cluster r) v) (fun x => r <| route_Cluster := x |>)
  else if String.eqb name "authority" then assigned (decode_string (route_Authority r) v) (fun x => r <| route_Authority := x |>)
  else if String.eqb name "path_mode" then assigned (decode_string (route_PathMode r) v) (fun x => r <| route_PathMode := x |>)
  else assigned (decode_string (route_SnapshotHash r) v) (fun x => r <| route_SnapshotHash := x |>).

(** ** Encoding *)

Definition route_json (r : RouteSnapshot) : jvalue :=
  JObject
    [("namespace", JString (route_Namespace r)); ("model_name", JString (route_ModelName r));
     ("model_uid", JString (route_ModelUID r));
     ("model_generation", JNumber (pretty (route_ModelGeneration r)));
     ("model_resource_version", JString (route_ModelResourceVersion r));
     ("provider_name", JString (route_ProviderName r)); ("provider_uid", JString (route_ProviderUID r));
     ("provider_generation", JNumber (pretty (route_ProviderGeneration r)));
     ("provider_resource_version", JString (route_ProviderResourceVersion r));
     ("pricing_version", JString (route_PricingVersion r));
     ("pricing_compliance_hash", JString (route_PricingComplianceHash r));
     ("route_binding_name", JString (route_RouteBindingName r));
     ("provider_deployment", JString (route_ProviderDeployment r)); ("cluster", JString (route_Cluster r));
     ("authority", JString (route_Authority r)); ("path_mode", JString (route_PathMode r));
     ("snapshot_hash", JString (route_SnapshotHash r))]%string.
Definition usage_json (l : list UsageQuantity) : jvalue :=
  JArray (map (fun u => JObject [("basis", JString (uq_Basis u)); ("quantity", JNumber (pretty (uq_Quantity u)))]%string) l).

(** [omitempty] members. *)
Definition text_member (name s : string) : list (string * jvalue) := if String.eqb s "" then [] else [(name, JString s)].
Definition number_member (name : string) (z : Z) : list (string * jvalue) := if z =? 0 then [] else [(name, JNumber (pretty z))].

(** An [AdmitResponse]. *)
Definition admit_response_json (r : AdmitResponse) : jvalue :=
  JObject ([("decision", JString (decision_text (resp_Decision r))); ("reason_code", JString (reason_text (resp_ReasonCode r)))]%string ++
    text_member "selected_deployment" (resp_SelectedDeployment r) ++ text_member "reservation_id" (resp_ReservationID r) ++
    text_member "provider_attempt_id" (resp_ProviderAttemptID r) ++ text_member "provider_retry_policy" (resp_ProviderRetryPolicy r) ++
    number_member "reserved_cost_micros" (resp_ReservedCostMicros r) ++ text_member "reservation_method" (resp_ReservationMode r) ++
    number_member "allocated_risk_ppb" (resp_AllocatedRiskPPB r) ++ text_member "risk_level" (resp_RiskLevel r) ++
    text_member "policy_version" (resp_PolicyVersion r) ++ text_member "pricing_version" (resp_PricingVersion r) ++
    text_member "expiry" (resp_Expiry r) ++ text_member "trace_id" (resp_TraceID r) ++
    (match resp_RouteSnapshot r with Some route => [("route_snapshot"%string, route_json route)] | None => [] end) ++
    (match resp_SettlementUsageBases r with
     | [] => []
     | bases => [("settlement_usage_bases"%string, JArray (map JString bases))]
     end)).

(** [transitionResponse]: the members of a map are sorted by key. *)
Definition transition_json (res : Reservation) (code : ReasonCode) : jvalue :=
  JObject ([("finalized", JBool (res_Finalized res)); ("outbox_state", JString (sql_outbox (res_OutboxState res)));
    ("pricing_version", JString (res_PricingVersion res)); ("provider_attempt_id", JString (res_ProviderAttemptID res));
    ("provisional_cost_micros", JNumber (pretty (res_ProvisionalCostMicros res))); ("reason_code", JString (reason_text code));
    ("request_id", JString (res_RequestID res)); ("reserved_cost_micros", JNumber (pretty (res_ReservedCostMicros res)));
    ("residual_hold_micros", JNumber (pretty (res_ResidualHoldMicros res)))]%string ++
    text_member "selected_feedback_dispatch_id" (res_SelectedFeedbackDispatchID res) ++
    [("state", JString (sql_state (res_State res))); ("tenant_id", JString (res_TenantID res));
     ("usage_version", JNumber (pretty (res_UsageVersion res))); ("workload_uid", JString (res_WorkloadUID res))]%string).

Definition liability_json (l : LiabilityResponse) : jvalue :=
  JObject ([("tenant_id", JString (liab_TenantID l)); ("settled_spend_micros", JNumber (pretty (liab_SettledSpendMicros l)));
    ("outstanding_liability_micros", JNumber (pretty (liab_OutstandingLiabilityMicros l)));
    ("carried_adjustment_micros", JNumber (pretty (liab_CarriedAdjustmentMicros l)));
    ("available_budget_micros", JNumber (pretty (liab_AvailableBudgetMicros l)));
    ("active_reservations", JNumber (pretty (liab_ActiveReservations l)))]%string ++
    text_member "current_window_id" (liab_CurrentWindowID l) ++
    [("historical_audit_credit_micros"%string, JNumber (pretty (liab_HistoricalAuditCreditMicros l)))]).
