(* ===== verification/AuditChain.v ===== *)
(** * The audit chain of a tenant

    [internal/govaraudit/chain.go] and the part of
    [internal/govar/postgres_audit.go] that stores it: every transition of the
    ledger appends an entry that carries the digest of the one before, and a
    reader checks the whole chain. The table is the one that
    [postgres_engine.go] declares, with its constraints and its append trigger;
    a failed insertion rolls its transaction back. *)

From Stdlib Require Import ZArith Lia Ascii String.
From stdpp Require Import base gmap strings list pretty sorting.
From S2P Require Import Prelude Digest GoTime.

Open Scope string_scope.
Open Scope list_scope.
Open Scope Z_scope.
Open Scope go_scope.

Definition ActorAdmission : string := "ADMISSION".
Definition ActorGateway : string := "GATEWAY".
Definition ActorReconciler : string := "RECONCILER".
Definition ActorCorrection : string := "CORRECTION".
Definition ActorAuthority : string := "AUTHORITY".
Definition ActorRegistry : string := "REGISTRY".
Definition ActorCalibration : string := "CALIBRATION".

(** [CommittedAtUTC] is whether the location of [CommittedAt] is [time.UTC]. *)
Record Entry : Type := Build_Entry {
  ae_TenantID : string;
  ae_Sequence : Z;
  ae_EventID : string;
  ae_EventKind : string;
  ae_PayloadSHA256 : string;
  ae_RequestID : string;
  ae_WorkloadUID : string;
  ae_ProviderAttemptID : string;
  ae_ActorClass : string;
  ae_Reason : string;
  ae_BeforeStateSHA256 : string;
  ae_AfterStateSHA256 : string;
  ae_PolicyVersion : string;
  ae_PricingSnapshotSHA256 : string;
  ae_RouteSnapshotSHA256 : string;
  ae_CapEvidenceSHA256 : string;
  ae_CohortSHA256 : string;
  ae_SoftwareSHA256 : string;
  ae_CalibrationSHA256 : string;
  ae_PreviousEntrySHA256 : string;
  ae_CommittedAt : Time;
  ae_CommittedAtUTC : bool;
  ae_EntrySHA256 : string
}.

#[export] Instance eta_Entry : Eta Entry := fun e =>
  Build_Entry (ae_TenantID e) (ae_Sequence e) (ae_EventID e) (ae_EventKind e) (ae_PayloadSHA256 e) (ae_RequestID e)
    (ae_WorkloadUID e) (ae_ProviderAttemptID e) (ae_ActorClass e) (ae_Reason e) (ae_BeforeStateSHA256 e)
    (ae_AfterStateSHA256 e) (ae_PolicyVersion e) (ae_PricingSnapshotSHA256 e) (ae_RouteSnapshotSHA256 e)
    (ae_CapEvidenceSHA256 e) (ae_CohortSHA256 e) (ae_SoftwareSHA256 e) (ae_CalibrationSHA256 e)
    (ae_PreviousEntrySHA256 e) (ae_CommittedAt e) (ae_CommittedAtUTC e) (ae_EntrySHA256 e).

Definition zero_entry : Entry :=
  Build_Entry "" 0 "" "" "" "" "" "" "" "" "" "" "" "" "" "" "" "" "" "" zero_time true "".

(** ** Validation *)

Definition validKind (kind : string) : bool :=
  existsb (String.eqb kind)
    ["RESERVE"; "DISPATCH"; "SETTLE"; "CANCEL"; "EXPIRY"; "ROLLOVER"; "BUDGET_ADJUSTMENT"; "COHORT_REGISTRATION";
     "CALIBRATION_PUBLICATION"; "DRIFT_CHANGE"; "RECONCILIATION"].

Definition validActor (actor : string) : bool :=
  existsb (String.eqb actor)
    [ActorAdmission; ActorGateway; ActorReconciler; ActorCorrection; ActorAuthority; ActorRegistry; ActorCalibration].

Definition upper_token_byte (b : N) : bool :=
  ((65 <=? b) && (b <=? 90) || (48 <=? b) && (b <=? 57) || (b =? 95))%N.
Definition lower_token_byte (b : N) : bool :=
  ((97 <=? b) && (b <=? 122) || (48 <=? b) && (b <=? 57) || (b =? 95) || (b =? 45) || (b =? 58))%N.

(** A rune outside ASCII is outside both classes, and so is each of its bytes. *)
Definition boundedToken (value : string) (upper : bool) : bool :=
  forallb (if upper then upper_token_byte else lower_token_byte) (bytes_of value).

(** The digests that must be there, and those that may be empty. Go visits these
    maps in any order: with two invalid digests the message may name either. *)
Definition required_digests (e : Entry) : list (string * string) :=
  [("after state", ae_AfterStateSHA256 e); ("payload", ae_PayloadSHA256 e)].
Definition optional_digests (e : Entry) : list (string * string) :=
  [("before state", ae_BeforeStateSHA256 e); ("previous entry", ae_PreviousEntrySHA256 e);
   ("route snapshot", ae_RouteSnapshotSHA256 e); ("cap evidence", ae_CapEvidenceSHA256 e);
   ("cohort", ae_CohortSHA256 e); ("software", ae_SoftwareSHA256 e); ("calibration", ae_CalibrationSHA256 e);
   ("pricing snapshot", ae_PricingSnapshotSHA256 e)].

Definition invalid_digest (valid : string -> bool) (digests : list (string * string)) : option error :=
  match List.find (fun '(_, value) => negb (valid value)) digests with
  | Some (name, _) => Some (name +:+ " digest is invalid")
  | None => None
  end.

Definition empty_or_sha256 (value : string) : bool := String.eqb value "" || is_sha256 value.

Definition validateEntry (entry : Entry) (requireHash : bool) : option error :=
  if blank (ae_TenantID entry) || (ae_Sequence entry <=? 0) || blank (ae_EventID entry) || blank (ae_EventKind entry)
  then Some "tenant, sequence, event ID, and event kind are required"
  else if negb (validKind (ae_EventKind entry)) || (String.length (ae_Reason entry) =? 0)%nat
          || (64 <? String.length (ae_Reason entry))%nat || negb (boundedToken (ae_Reason entry) false)
  then Some "event kind or reason is outside its closed bounded representation"
  else if negb (validActor (ae_ActorClass entry)) then Some "actor class is not closed"
  else if IsZero (ae_CommittedAt entry) || negb (ae_CommittedAtUTC entry)
  then Some "committed_at must be a nonzero UTC time"
  else match invalid_digest is_sha256 (required_digests entry) with
  | Some m => Some m
  | None =>
    match invalid_digest empty_or_sha256 (optional_digests entry) with
    | Some m => Some m
    | None => if requireHash && negb (is_sha256 (ae_EntrySHA256 entry)) then Some "entry digest is invalid" else None
    end
  end.

(** ** Entries and chains *)

Definition entry_fields (e : Entry) : list string :=
  ["govar-tenant-audit-v2"; ae_TenantID e; sprint (ae_Sequence e); ae_EventID e; ae_EventKind e; ae_PayloadSHA256 e;
   ae_RequestID e; ae_WorkloadUID e; ae_ProviderAttemptID e; ae_ActorClass e; ae_Reason e; ae_BeforeStateSHA256 e;
   ae_AfterStateSHA256 e; ae_PolicyVersion e; ae_PricingSnapshotSHA256 e; ae_RouteSnapshotSHA256 e;
   ae_CapEvidenceSHA256 e; ae_CohortSHA256 e; ae_SoftwareSHA256 e; ae_CalibrationSHA256 e; ae_PreviousEntrySHA256 e;
   RFC3339Nano (ae_CommittedAt e)].

Section chain.
Context `{Crypto}.

Definition BuildEntry (entry : Entry) : result Entry :=
  let entry := entry <| ae_CommittedAtUTC := true |> <| ae_EntrySHA256 := ""%string |> in
  match validateEntry entry false with
  | Some m => Err m
  | None => Ok (entry <| ae_EntrySHA256 := fixedHash (entry_fields entry) |>)
  end.

(** One iteration of the loop of [Verify]; [index] counts the entries before. *)
Definition verify_entry (tenant : string) (eventIDs : gset string) (index : Z) (previous : string) (entry : Entry)
    : option error :=
  let sequence := "audit sequence " +:+ sprint (ae_Sequence entry) in
  if negb (String.eqb (ae_TenantID entry) tenant) then Some "audit verification input contains multiple tenants"
  else if bool_decide (ae_EventID entry ∈ eventIDs) then Some "audit event ID is not unique"
  else if negb (ae_Sequence entry =? index + 1) then Some (sequence +:+ " is not contiguous")
  else if negb (String.eqb (ae_PreviousEntrySHA256 entry) previous) then Some (sequence +:+ " has wrong predecessor")
  else match validateEntry entry true with
  | Some m => Some (sequence +:+ ": " +:+ m)
  | None =>
    match BuildEntry entry with
    | Err m => Some m
    | Ok rebuilt => if negb (String.eqb (ae_EntrySHA256 rebuilt) (ae_EntrySHA256 entry))
                    then Some (sequence +:+ " hash mismatch") else None
    end
  end.

Fixpoint verify_from (tenant : string) (eventIDs : gset string) (index : Z) (previous : string) (entries : list Entry)
    : option error :=
  match entries with
  | [] => None
  | entry :: rest =>
    match verify_entry tenant eventIDs index previous entry with
    | Some m => Some m
    | None => verify_from tenant ({[ae_EventID entry]} ∪ eventIDs) (index + 1) (ae_EntrySHA256 entry) rest
    end
  end.

Definition Verify (entries : list Entry) : option error :=
  match entries with
  | [] => Some "audit chain is empty"
  | first :: _ => verify_from (ae_TenantID first) ∅ 0 "" entries
  end.

(** ** The audit table *)

(** [govar_audit_tenant_sequences] and [govar_audit_events], the latter in the
    order of insertion. *)
Record audit_store : Type := Build_audit_store {
  as_sequences : gmap string Z;
  as_events : list Entry
}.

Definition tenant_events (s : audit_store) (tenantID : string) : list Entry :=
  List.filter (fun row => String.eqb (ae_TenantID row) tenantID) (as_events s).

(** [SELECT entry_sha256 ... WHERE tenant_id=$1 AND sequence=$2]. *)
Definition stored_digest (s : audit_store) (tenantID : string) (sequence : Z) : option string :=
  ae_EntrySHA256 <$> List.find (fun row => ae_Sequence row =? sequence) (tenant_events s tenantID).

(** The column checks of the table. *)
Definition row_checks (e : Entry) : bool :=
  (0 <? ae_Sequence e) && validKind (ae_EventKind e) && validActor (ae_ActorClass e)
  && (1 <=? String.length (ae_Reason e))%nat && (String.length (ae_Reason e) <=? 64)%nat
  && boundedToken (ae_Reason e) false
  && forallb (fun '(_, value) => is_sha256 value) (required_digests e)
  && forallb (fun '(_, value) => empty_or_sha256 value) (optional_digests e)
  && is_sha256 (ae_EntrySHA256 e).

(** The trigger [govar_validate_audit_append]; the last row of the tenant is the
    one of the largest sequence. *)
Definition largest_sequence (rows : list Entry) : option Entry :=
  foldr (fun row best => match best with
                         | Some b => Some (if ae_Sequence b <? ae_Sequence row then row else b)
                         | None => Some row
                         end) None rows.
Definition append_trigger (s : audit_store) (e : Entry) : bool :=
  match largest_sequence (tenant_events s (ae_TenantID e)) with
  | None => (ae_Sequence e =? 1) && String.eqb (ae_PreviousEntrySHA256 e) ""
  | Some prior => (ae_Sequence e =? ae_Sequence prior + 1)
                  && String.eqb (ae_PreviousEntrySHA256 e) (ae_EntrySHA256 prior)
  end.

(** [INSERT INTO govar_audit_events]: the checks, the primary key, the two unique
    columns and the trigger. *)
Definition insert_audit_event (s : audit_store) (e : Entry) : option audit_store :=
  if row_checks e
     && negb (existsb (fun row => String.eqb (ae_TenantID row) (ae_TenantID e) && (ae_Sequence row =? ae_Sequence e))
                (as_events s))
     && negb (existsb (fun row => String.eqb (ae_EventID row) (ae_EventID e)) (as_events s))
     && negb (existsb (fun row => String.eqb (ae_EntrySHA256 row) (ae_EntrySHA256 e)) (as_events s))
     && append_trigger s e
  then Some (Build_audit_store (as_sequences s) (as_events s ++ [e]))
  else None.

(** The sequence row is locked from its first read, so the final update finds the
    value that was read. *)
Definition appendAuditTx (s : audit_store) (entry : Entry) (clock_timestamp : Time) : result audit_store :=
  let tenantID := ae_TenantID entry in
  let sequence := default 1 (as_sequences s !! tenantID) in
  let entry := entry <| ae_Sequence := sequence |> in
  let previous := if 1 <? sequence then stored_digest s tenantID (sequence - 1) else Some (ae_PreviousEntrySHA256 entry) in
  match previous with
  | None => Err "no rows in result set"
  | Some previous =>
    let entry := entry <| ae_PreviousEntrySHA256 := previous |> <| ae_CommittedAt := clock_timestamp |>
                       <| ae_CommittedAtUTC := true |> in
    match BuildEntry entry with
    | Err m => Err m
    | Ok built =>
      match insert_audit_event s built with
      | None => Err "insertion into govar_audit_events rejected"
      | Some s' =>
        if 0 <? sequence +i 1
        then Ok (Build_audit_store (<[tenantID := sequence +i 1]> (as_sequences s')) (as_events s'))
        else Err "check constraint on next_sequence"
      end
    end
  end.

Definition ExportTenantAudit (s : audit_store) (tenantID : string) : result (list Entry) :=
  if String.eqb tenantID "" then Err "tenant id is required"
  else Ok (map (fun entry => entry <| ae_CommittedAtUTC := true |>)
             (sort_slice (fun i j => ae_Sequence i <? ae_Sequence j) (tenant_events s tenantID))).

Definition VerifyTenantAudit (s : audit_store) (tenantID : string) : option error :=
  match ExportTenantAudit s tenantID with
  | Err m => Some m
  | Ok [] => Some "tenant audit chain not found"
  | Ok entries => Verify entries
  end.

(** The store after a history of appends, the failed ones rolled back. *)
Definition append_all (s : audit_store) (history : list (Entry * Time)) : audit_store :=
  fold_left (fun s '(entry, at_) => result_or s (appendAuditTx s entry at_)) history s.
Definition empty_store : audit_store := Build_audit_store ∅ [].
End chain.

(** ** Theorems *)

Section theorems.
Context `{Crypto}.

Lemma entry_fields_digest e b d : entry_fields (e <| ae_CommittedAtUTC := b |> <| ae_EntrySHA256 := d |>) = entry_fields e.
Proof. reflexivity. Qed.

Lemma BuildEntry_ok e b : BuildEntry e = Ok b ->
  b = e <| ae_CommittedAtUTC := true |> <| ae_EntrySHA256 := fixedHash (entry_fields e) |>.
Proof. unfold BuildEntry. cbn zeta. destruct (validateEntry _ _); [discriminate|]. intros E. by injection E. Qed.

(** What [Verify] checks of one entry, its event identifier apart. *)
Record linked (tenant : string) (index : Z) (previous : string) (e : Entry) : Prop := {
  linked_tenant : ae_TenantID e = tenant;
  linked_sequence : ae_Sequence e = index + 1;
  linked_previous : ae_PreviousEntrySHA256 e = previous;
  linked_valid : validateEntry e true = None;
  linked_digest : ae_EntrySHA256 e = fixedHash (entry_fields e)
}.

Lemma validateEntry_utc e b : validateEntry e b = None -> ae_CommittedAtUTC e = true.
Proof.
  unfold validateEntry. intros E. destruct (ae_CommittedAtUTC e); [done|]. rewrite orb_true_r in E.
  by repeat match type of E with (if ?b then _ else _) = None => destruct b; [discriminate E|] end.
Qed.

Lemma set_utc e : ae_CommittedAtUTC e = true -> e <| ae_CommittedAtUTC := true |> = e.
Proof. intros E. destruct e. cbn in *. by subst. Qed.

Lemma validateEntry_unhashed e : validateEntry e true = None ->
  is_sha256 (ae_EntrySHA256 e) = true /\ validateEntry (e <| ae_CommittedAtUTC := true |> <| ae_EntrySHA256 := ""%string |>) false = None.
Proof.
  intros E. rewrite set_utc by by eapply validateEntry_utc. revert E.
  unfold validateEntry, required_digests, optional_digests. upd. intros E.
  repeat match type of E with
  | (if ?b then _ else _) = None => destruct b eqn:?; [discriminate E|]
  | match ?o with Some _ => _ | None => _ end = None => destruct o; [discriminate E|]
  end.
  cbn [andb] in *. by bool_to_prop.
Qed.

Lemma verify_entry_ok tenant seen index previous e :
  verify_entry tenant seen index previous e = None <-> (ae_EventID e ∉ seen) /\ linked tenant index previous e.
Proof.
  unfold verify_entry. cbn zeta. split.
  - intros E.
    repeat match type of E with (if ?b then _ else _) = None => destruct b eqn:?; [discriminate E|] end.
    destruct (validateEntry e true) eqn:Hv; [discriminate E|].
    destruct (BuildEntry e) as [b|] eqn:Hb; [|discriminate E]. apply BuildEntry_ok in Hb as ->.
    upd_in E. destruct (negb (String.eqb (fixedHash _) _)) eqn:Hd; [discriminate E|]. bool_to_prop.
    split; [by eapply bool_decide_eq_false_1 | by constructor].
  - intros [Hn [Ht Hs Hp Hv Hd]]. subst tenant previous.
    destruct (validateEntry_unhashed e Hv) as (_ & Hu). rewrite Hv, Hs.
    unfold BuildEntry. cbn zeta. rewrite Hu, Hd. upd. rewrite !String.eqb_refl, Z.eqb_refl.
    by rewrite bool_decide_eq_false_2.
Qed.

(** The digest before position [k] of a chain that starts after [previous]. *)
Definition predecessor (previous : string) (es : list Entry) (k : nat) : string :=
  match k with O => previous | S j => default ""%string (ae_EntrySHA256 <$> es !! j) end.

Lemma verify_from_cons tenant seen index previous e es :
  verify_from tenant seen index previous (e :: es) = None <->
  (ae_EventID e ∉ seen) /\ linked tenant index previous e /\
  verify_from tenant ({[ae_EventID e]} ∪ seen) (index + 1) (ae_EntrySHA256 e) es = None.
Proof.
  cbn [verify_from]. destruct (verify_entry _ _ _ _ _) eqn:E.
  - split; [discriminate|]. intros (Hn & Hl & _). assert (verify_entry tenant seen index previous e = None) by (by apply verify_entry_ok).
    congruence.
  - apply verify_entry_ok in E as [? ?]. tauto.
Qed.

Lemma verify_from_lookup tenant es : forall seen index previous k e,
  verify_from tenant seen index previous es = None -> es !! k = Some e ->
  linked tenant (index + Z.of_nat k) (predecessor previous es k) e.
Proof.
  induction es as [|e0 es IH]; intros seen index previous k e Hv Hk; [done|].
  apply verify_from_cons in Hv as (_ & Hl & Hv). destruct k as [|k]; cbn in Hk.
  - injection Hk as <-. by rewrite Z.add_0_r.
  - specialize (IH _ _ _ _ _ Hv Hk). replace (index + Z.of_nat (S k)) with (index + 1 + Z.of_nat k) by lia.
    by destruct k.
Qed.

Lemma Verify_lookup es k e : Verify es = None -> es !! k = Some e ->
  exists tenant, linked tenant (Z.of_nat k) (predecessor "" es k) e.
Proof.
  destruct es as [|e0 es]; [done|]. intros Hv Hk. exists (ae_TenantID e0).
  by apply (verify_from_lookup _ _ ∅ 0 "").
Qed.

(** The hash covers the entry. *)
Definition hashable (e : Entry) : Prop := Forall go_length (entry_fields e) /\ four_digit_year (day_number (ae_CommittedAt e)).

Lemma linked_utc t i p e : linked t i p e -> ae_CommittedAtUTC e = true.
Proof. intros [_ _ _ Hv _]. by eapply validateEntry_utc. Qed.

Lemma linked_unique t t' i i' p p' e e' : linked t i p e -> linked t' i' p' e' -> hashable e -> hashable e' ->
  ae_EntrySHA256 e = ae_EntrySHA256 e' -> e = e' \/ sha256_collision.
Proof.
  intros L L' [Hg Ht] [Hg' Ht'] E. pose proof (linked_utc _ _ _ _ L) as U. pose proof (linked_utc _ _ _ _ L') as U'.
  assert (Hf : fixedHash (entry_fields e) = fixedHash (entry_fields e')).
  { by rewrite <- (linked_digest _ _ _ _ L), <- (linked_digest _ _ _ _ L'). }
  destruct (fixedHash_inj _ _ Hg Hg' Hf) as [Ef|]; [left | by right].
  clear -Ef E U U' Ht Ht'. destruct e, e'. unfold entry_fields in Ef. cbn [ae_TenantID ae_Sequence ae_EventID ae_EventKind
    ae_PayloadSHA256 ae_RequestID ae_WorkloadUID ae_ProviderAttemptID ae_ActorClass ae_Reason ae_BeforeStateSHA256
    ae_AfterStateSHA256 ae_PolicyVersion ae_PricingSnapshotSHA256 ae_RouteSnapshotSHA256 ae_CapEvidenceSHA256
    ae_CohortSHA256 ae_SoftwareSHA256 ae_CalibrationSHA256 ae_PreviousEntrySHA256 ae_CommittedAt ae_CommittedAtUTC
    ae_EntrySHA256] in *.
  injection Ef as -> Hs -> -> -> -> -> -> -> -> -> -> -> -> -> -> -> -> -> -> Hc. subst.
  apply (inj pretty) in Hs as ->. by apply RFC3339Nano_inj in Hc as ->.
Qed.

(** Two chains that share a digest share everything up to it. *)
Lemma chains_agree es es' : Verify es = None -> Verify es' = None -> Forall hashable es -> Forall hashable es' ->
  forall k e e', es !! k = Some e -> es' !! k = Some e' -> ae_EntrySHA256 e = ae_EntrySHA256 e' ->
  take (S k) es = take (S k) es' \/ sha256_collision.
Proof.
  intros Hv Hv' Hh Hh'. induction k as [|k IH]; intros e e' Hk Hk' E;
    destruct (Verify_lookup _ _ _ Hv Hk) as [t L], (Verify_lookup _ _ _ Hv' Hk') as [t' L'];
    pose proof (Forall_lookup_1 _ _ _ _ Hh Hk) as He; pose proof (Forall_lookup_1 _ _ _ _ Hh' Hk') as He';
    (destruct (linked_unique _ _ _ _ _ _ _ _ L L' He He' E) as [->|]; [|by right]).
  - left. by rewrite (take_S_r _ _ _ Hk), (take_S_r _ _ _ Hk').
  - destruct (lookup_lt_is_Some_2 es k) as [d Hd]; [apply lookup_lt_Some in Hk; lia|].
    destruct (lookup_lt_is_Some_2 es' k) as [d' Hd']; [apply lookup_lt_Some in Hk'; lia|].
    pose proof (linked_previous _ _ _ _ L) as P. pose proof (linked_previous _ _ _ _ L') as P'.
    cbn [predecessor] in P, P'. rewrite Hd in P. rewrite Hd' in P'. cbn in P, P'.
    destruct (IH d d' Hd Hd') as [IHk|]; [congruence | left | by right].
    by rewrite (take_S_r _ _ _ Hk), (take_S_r _ _ _ Hk'), IHk.
Qed.

(** C35: the audit chain is tamper-evident: when two chains both verify and an entry
    of one has the digest of an entry of the other, the two entries stand at the
    same position and the chains are the same, entry by entry, up to it; or a
    SHA-256 collision has been found. *)
Theorem audit_chain_binds_history es es' i j e e' :
  Verify es = None -> Verify es' = None -> Forall hashable es -> Forall hashable es' ->
  es !! i = Some e -> es' !! j = Some e' -> ae_EntrySHA256 e = ae_EntrySHA256 e' ->
  (i = j /\ take (S i) es = take (S j) es') \/ sha256_collision.
Proof.
  intros Hv Hv' Hh Hh' Hi Hj E.
  destruct (Verify_lookup _ _ _ Hv Hi) as [t L], (Verify_lookup _ _ _ Hv' Hj) as [t' L'].
  pose proof (Forall_lookup_1 _ _ _ _ Hh Hi) as He. pose proof (Forall_lookup_1 _ _ _ _ Hh' Hj) as He'.
  destruct (linked_unique _ _ _ _ _ _ _ _ L L' He He' E) as [<-|]; [|by right].
  pose proof (linked_sequence _ _ _ _ L). pose proof (linked_sequence _ _ _ _ L').
  assert (i = j) as <- by lia. destruct (chains_agree es es' Hv Hv' Hh Hh' i e e Hi Hj E); auto.
Qed.

(** *** The stored chains *)

Lemma verify_from_snoc tenant es : forall seen index previous e,
  verify_from tenant seen index previous es = None -> (ae_EventID e ∉ seen) ->
  (forall x, x ∈ es -> ae_EventID x <> ae_EventID e) ->
  linked tenant (index + Z.of_nat (length es)) (predecessor previous es (length es)) e ->
  verify_from tenant seen index previous (es ++ [e]) = None.
Proof.
  induction es as [|e0 es IH]; intros seen index previous e Hv Hs Hx Hl.
  - apply verify_from_cons. split; [done|]. split; [by rewrite Z.add_0_r in Hl | done].
  - apply verify_from_cons in Hv as (Hn & Hl0 & Hv). apply verify_from_cons. split; [done|]. split; [done|].
    apply IH; [done | | | ].
    + intros [Hq|Hq]%elem_of_union; [|done]. apply elem_of_singleton in Hq. by apply (Hx e0); [left|].
    + intros x Hin. apply Hx. by right.
    + replace (index + 1 + Z.of_nat (length es)) with (index + Z.of_nat (length (e0 :: es))) by (cbn [length]; lia).
      by destruct es.
Qed.

(** The rows of a tenant, in the order of insertion, are a chain. *)
Definition tenant_chain (s : audit_store) (T : string) : Prop := verify_from T ∅ 0 "" (tenant_events s T) = None.

Lemma chain_sequences T es k e : verify_from T ∅ 0 "" es = None -> es !! k = Some e -> ae_Sequence e = Z.of_nat k + 1.
Proof. intros Hv Hk. exact (linked_sequence _ _ _ _ (verify_from_lookup _ _ _ _ _ _ _ Hv Hk)). Qed.

Lemma largest_sequence_snoc es e : Forall (fun x => ae_Sequence x < ae_Sequence e) es -> largest_sequence (es ++ [e]) = Some e.
Proof.
  induction 1 as [|x es Hx _ IH]; [done|]. cbn [app]. unfold largest_sequence in *. cbn [foldr]. rewrite IH.
  by replace (ae_Sequence e <? ae_Sequence x) with false by lia.
Qed.

Lemma largest_of_chain T es : verify_from T ∅ 0 "" es = None -> largest_sequence es = last es.
Proof.
  destruct es as [|l es _] using rev_ind; [done|]. intros Hv. rewrite last_snoc. apply largest_sequence_snoc.
  apply Forall_lookup. intros k x Hk.
  rewrite (chain_sequences T (es ++ [l]) k x), (chain_sequences T (es ++ [l]) (length es) l); try done.
  - apply lookup_lt_Some in Hk. lia.
  - by rewrite lookup_app_r, Nat.sub_diag by lia.
  - by apply lookup_app_l_Some.
Qed.

Lemma predecessor_last previous es : predecessor previous es (length es) = default previous (ae_EntrySHA256 <$> last es).
Proof.
  destruct es as [|l es _] using rev_ind; [done|]. rewrite last_snoc, length_app, Nat.add_1_r. cbn [predecessor].
  by rewrite lookup_app_r, Nat.sub_diag by lia.
Qed.

(** The trigger asks for the successor of the last row. *)
Lemma append_trigger_spec s e : tenant_chain s (ae_TenantID e) ->
  append_trigger s e = true ->
  ae_Sequence e = Z.of_nat (length (tenant_events s (ae_TenantID e))) + 1 /\
  ae_PreviousEntrySHA256 e = predecessor "" (tenant_events s (ae_TenantID e)) (length (tenant_events s (ae_TenantID e))).
Proof.
  unfold tenant_chain, append_trigger. set (es := tenant_events s (ae_TenantID e)). clearbody es. intros Hv.
  rewrite (largest_of_chain _ _ Hv), predecessor_last. destruct es as [|l es _] using rev_ind.
  - cbn. intros E. bool_to_prop. lia || auto.
  - rewrite last_snoc. intros E. bool_to_prop.
    assert (Hl : ae_Sequence l = Z.of_nat (length es) + 1).
    { apply (chain_sequences _ _ _ _ Hv). by rewrite lookup_app_r, Nat.sub_diag by lia. }
    rewrite length_app. cbn [length]. split; [lia | done].
Qed.

Lemma tenant_events_snoc s e seqs T :
  tenant_events (Build_audit_store seqs (as_events s ++ [e])) T
  = tenant_events s T ++ (if String.eqb (ae_TenantID e) T then [e] else []).
Proof.
  unfold tenant_events. cbn [as_events]. rewrite List.filter_app. cbn. done.
Qed.

Lemma validateEntry_hashed e d : validateEntry (e <| ae_EntrySHA256 := ""%string |>) false = None -> is_sha256 d = true ->
  validateEntry (e <| ae_EntrySHA256 := d |>) true = None.
Proof.
  unfold validateEntry, required_digests, optional_digests. upd. intros E Hd. rewrite Hd. cbn [negb andb].
  cbn [negb andb] in E. exact E.
Qed.

Lemma BuildEntry_fields e b : BuildEntry e = Ok b -> is_sha256 (ae_EntrySHA256 b) = true ->
  ae_TenantID b = ae_TenantID e /\ ae_EventID b = ae_EventID e /\ validateEntry b true = None /\
  ae_EntrySHA256 b = fixedHash (entry_fields b).
Proof.
  intros Hb Hd. pose proof (BuildEntry_ok _ _ Hb) as Eb. unfold BuildEntry in Hb. cbn zeta in Hb.
  destruct (validateEntry _ false) eqn:Hv in Hb; [discriminate Hb|]. clear Hb.
  assert (Hv2 : validateEntry b true = None).
  { rewrite Eb. apply validateEntry_hashed; [exact Hv|]. by rewrite Eb in Hd. }
  split; [by rewrite Eb|]. split; [by rewrite Eb|]. split; [done|]. rewrite Eb. upd. exact (f_equal fixedHash (eq_sym (entry_fields_digest e true (fixedHash (entry_fields e))))).
Qed.

Lemma insert_audit_event_ok s e s' : insert_audit_event s e = Some s' ->
  as_events s' = as_events s ++ [e] /\ (forall x, x ∈ as_events s -> ae_EventID x <> ae_EventID e) /\
  append_trigger s e = true /\ is_sha256 (ae_EntrySHA256 e) = true.
Proof.
  unfold insert_audit_event. destruct (_ && _) eqn:Hc; [|discriminate]. intros E. injection E as <-.
  bool_to_prop. split; [done|]. split; [|split; [done|]].
  - intros x Hx Heq. assert (Hex : existsb (fun row => String.eqb (ae_EventID row) (ae_EventID e)) (as_events s) = true).
    { apply existsb_exists. exists x. split; [by apply list_elem_of_In | by apply String.eqb_eq]. }
    congruence.
  - match goal with Hr : row_checks e = true |- _ => unfold row_checks in Hr end. by bool_to_prop.
Qed.

Lemma appendAuditTx_grows s entry at_ s' : appendAuditTx s entry at_ = Ok s' ->
  exists e, as_events s' = as_events s ++ [e] /\ ae_TenantID e = ae_TenantID entry /\ ae_EventID e = ae_EventID entry /\
    (forall x, x ∈ as_events s -> ae_EventID x <> ae_EventID e) /\ append_trigger s e = true /\
    validateEntry e true = None /\ ae_EntrySHA256 e = fixedHash (entry_fields e).
Proof.
  unfold appendAuditTx. cbn zeta. intros E.
  destruct (if 1 <? _ then _ else _) as [previous|]; [|discriminate E].
  destruct (BuildEntry _) as [b|] eqn:Hb in E; [|discriminate E].
  destruct (insert_audit_event s b) as [s1|] eqn:Hi; [|discriminate E].
  destruct (0 <? _) in E; [|discriminate E]. apply insert_audit_event_ok in Hi as (He & Hid & Ht & Hd).
  assert (Es : as_events s' = as_events s1) by (injection E as <-; reflexivity). clear E.
  apply BuildEntry_fields in Hb as (Hbt & Hbe & Hbv & Hbd); [|done]. upd_in Hbt. upd_in Hbe.
  exists b. by rewrite Es.
Qed.

Lemma appendAuditTx_chain s entry at_ s' T : (forall T, tenant_chain s T) -> appendAuditTx s entry at_ = Ok s' -> tenant_chain s' T.
Proof.
  intros Hc (e & Ee & _ & _ & Hid & Ht & Hv & Hd)%appendAuditTx_grows. unfold tenant_chain.
  assert (Es : tenant_events s' T = tenant_events s T ++ (if String.eqb (ae_TenantID e) T then [e] else [])).
  { rewrite <- (tenant_events_snoc s e (as_sequences s') T), <- Ee. by destruct s'. }
  rewrite Es. destruct (String.eqb_spec (ae_TenantID e) T) as [<-|]; [|rewrite app_nil_r; apply Hc].
  destruct (append_trigger_spec s e (Hc _) Ht) as [Hs Hp].
  apply verify_from_snoc; [apply Hc | set_solver | | by constructor].
  intros x Hx. apply Hid. unfold tenant_events in Hx. apply list_elem_of_In, List.filter_In in Hx as [Hx _].
  by apply list_elem_of_In.
Qed.

Lemma append_all_cons s entry at_ history :
  append_all s ((entry, at_) :: history) = append_all (result_or s (appendAuditTx s entry at_)) history.
Proof. reflexivity. Qed.

Lemma append_all_chain history : forall s, (forall T, tenant_chain s T) -> forall T, tenant_chain (append_all s history) T.
Proof.
  induction history as [|[entry at_] history IH]; intros s Hc T; [apply Hc|]. rewrite append_all_cons. apply IH.
  intros T'. destruct (appendAuditTx s entry at_) as [s'|] eqn:E; cbn [result_or]; [|apply Hc].
  by apply (appendAuditTx_chain s entry at_ s' T' Hc).
Qed.

Lemma append_all_grows history : forall s, as_events s `prefix_of` as_events (append_all s history).
Proof.
  induction history as [|[entry at_] history IH]; intros s; [done|]. rewrite append_all_cons.
  destruct (appendAuditTx s entry at_) as [s'|] eqn:E; cbn [result_or]; [|apply IH].
  apply appendAuditTx_grows in E as (e & Ee & _). etrans; [|apply IH]. rewrite Ee. by eexists.
Qed.

Lemma chain_sorted T es : verify_from T ∅ 0 "" es = None -> sort_slice (fun i j => ae_Sequence i <? ae_Sequence j) es = es.
Proof.
  intros Hv. apply sort_slice_id. revert Hv. generalize (∅ : gset string) 0 ""%string.
  induction es as [|e es IH]; intros seen i p Hv; [constructor|]. apply verify_from_cons in Hv as (_ & Hl & Hv).
  constructor; [by eapply IH|]. apply Forall_lookup. intros k x Hk.
  apply (verify_from_lookup _ _ _ _ _ _ _ Hv), linked_sequence in Hk. apply linked_sequence in Hl. lia.
Qed.

(** The events of a tenant, as [ExportTenantAudit] returns them. *)
Lemma ExportTenantAudit_chain s T : tenant_chain s T -> T <> ""%string -> ExportTenantAudit s T = Ok (tenant_events s T).
Proof.
  intros Hc HT. unfold ExportTenantAudit. apply String.eqb_neq in HT. rewrite HT. f_equal.
  rewrite (chain_sorted T _ Hc). revert Hc. unfold tenant_chain. generalize (∅ : gset string) 0 ""%string.
  induction (tenant_events s T) as [|e es IH]; intros seen i p Hv; [done|]. apply verify_from_cons in Hv as (_ & Hl & Hv).
  cbn [map]. f_equal; [apply set_utc; by eapply linked_utc | by eapply IH].
Qed.

Lemma VerifyTenantAudit_chain s T : tenant_chain s T -> T <> ""%string ->
  VerifyTenantAudit s T = match tenant_events s T with [] => Some "tenant audit chain not found"%string | _ => None end.
Proof.
  intros Hc HT. unfold VerifyTenantAudit. rewrite ExportTenantAudit_chain by done. unfold tenant_chain in Hc.
  destruct (tenant_events s T) as [|e es] eqn:E; [done|]. unfold Verify.
  pose proof Hc as Hc'. apply verify_from_cons in Hc' as (_ & Hl & _). by rewrite (linked_tenant _ _ _ _ Hl).
Qed.

(** the audit table is append-only and always verifies: whatever appends are
    attempted, and whatever the clock shows, the rows of the table are only added to,
    the ones stored keep their place, and [VerifyTenantAudit] accepts the chain of
    every tenant that has one. *)
Theorem stored_chains_verify history more T :
  let s := append_all empty_store history in
  let s' := append_all s more in
  as_events s `prefix_of` as_events s' /\
  (T <> ""%string -> VerifyTenantAudit s' T =
     match tenant_events s' T with [] => Some "tenant audit chain not found"%string | _ => None end).
Proof.
  cbn zeta. split; [apply append_all_grows|]. intros HT. apply VerifyTenantAudit_chain; [|done].
  by apply append_all_chain, append_all_chain.
Qed.

(** *** Appends succeed *)

(** The sequence row of a tenant is one more than the number of its rows. *)
Definition sequences_follow (s : audit_store) : Prop := forall T,
  default 1 (as_sequences s !! T) = Z.of_nat (length (tenant_events s T)) + 1 /\ in64 (default 1 (as_sequences s !! T)).

Lemma tenant_events_grow s s' e T : as_events s' = as_events s ++ [e] ->
  tenant_events s' T = tenant_events s T ++ (if String.eqb (ae_TenantID e) T then [e] else []).
Proof. intros E. rewrite <- (tenant_events_snoc s e (as_sequences s')), <- E. by destruct s'. Qed.

Lemma appendAuditTx_sequences s entry at_ s' : sequences_follow s -> appendAuditTx s entry at_ = Ok s' -> sequences_follow s'.
Proof.
  intros Hs E T. destruct (appendAuditTx_grows _ _ _ _ E) as (e & Ee & Et & _). rewrite (tenant_events_grow s s' e T Ee).
  assert (Eq : 0 < default 1 (as_sequences s !! ae_TenantID entry) +i 1 /\
               as_sequences s' = <[ae_TenantID entry := default 1 (as_sequences s !! ae_TenantID entry) +i 1]> (as_sequences s)).
  { unfold appendAuditTx in E. cbn zeta in E. destruct (if 1 <? _ then _ else _); [|discriminate E].
    destruct (BuildEntry _); [|discriminate E]. unfold insert_audit_event in E. destruct (_ && _) in E; [|discriminate E].
    destruct (0 <? _) eqn:Hp in E; [|discriminate E]. apply (f_equal (result_or empty_store)) in E. cbn [result_or] in E.
    rewrite <- E. split; [by apply Z.ltb_lt | reflexivity]. }
  destruct Eq as [Hp ->]. destruct (Hs T) as [HT Hr]. rewrite Et. destruct (String.eqb_spec (ae_TenantID entry) T) as [<-|Hne].
  - rewrite lookup_insert_eq, length_app. cbn [default length]. set (n := default 1 _) in *. clearbody n.
    assert (Hn : n +i 1 = n + 1).
    { destruct (Z.eq_dec n max_int64) as [->|]; [by vm_compute in Hp|]. apply add64_id. unfold in64, min_int64, max_int64 in *. lia. }
    rewrite Hn in Hp |- *. unfold in64, max_int64, id in *. split; [lia|]. split; [unfold min_int64; lia|].
    destruct (Z.eq_dec n 9223372036854775807) as [->|]; [by vm_compute in Hn | lia].
  - by rewrite lookup_insert_ne, app_nil_r by done.
Qed.

Lemma append_all_sequences history : forall s, sequences_follow s -> sequences_follow (append_all s history).
Proof.
  induction history as [|[entry at_] history IH]; intros s Hs; [done|]. rewrite append_all_cons. apply IH.
  destruct (appendAuditTx s entry at_) as [s'|] eqn:E; cbn [result_or]; [|done]. by eapply appendAuditTx_sequences.
Qed.

Lemma find_sequence T es : forall seen i p k e, verify_from T seen i p es = None -> es !! k = Some e ->
  List.find (fun row => ae_Sequence row =? i + Z.of_nat k + 1) es = Some e.
Proof.
  induction es as [|x es IH]; intros seen i p k e Hv Hk; [done|]. apply verify_from_cons in Hv as (_ & Hl & Hv).
  apply linked_sequence in Hl. cbn [List.find]. destruct k as [|k]; cbn in Hk.
  - injection Hk as <-. by rewrite (proj2 (Z.eqb_eq _ _)) by lia.
  - rewrite (proj2 (Z.eqb_neq _ _)) by lia.
    replace (i + Z.of_nat (S k) + 1) with (i + 1 + Z.of_nat k + 1) by lia. by eapply IH.
Qed.

(** The digest [appendAuditTx] reads for the entry after the last row. *)
Lemma stored_digest_last s T : tenant_chain s T -> tenant_events s T <> [] ->
  stored_digest s T (Z.of_nat (length (tenant_events s T))) =
  Some (predecessor "" (tenant_events s T) (length (tenant_events s T))).
Proof.
  unfold tenant_chain, stored_digest. rewrite predecessor_last.
  destruct (tenant_events s T) as [|l es _] using rev_ind; [done|]. intros Hv _. rewrite last_snoc.
  assert (Hk : (es ++ [l]) !! length es = Some l) by (by rewrite lookup_app_r, Nat.sub_diag by lia).
  pose proof (find_sequence T _ _ _ _ _ _ Hv Hk) as Hf.
  assert (E : Z.of_nat (length (es ++ [l])) = 0 + Z.of_nat (length es) + 1) by (rewrite length_app; cbn; lia).
  by rewrite E, Hf.
Qed.

Lemma invalid_digest_none valid digests : invalid_digest valid digests = None ->
  forallb (fun '(_, value) => valid value) digests = true.
Proof.
  unfold invalid_digest. induction digests as [|[n v] l IH]; [done|]. cbn. destruct (valid v); cbn; [done | discriminate].
Qed.

Lemma validateEntry_row_checks e : validateEntry e true = None -> row_checks e = true.
Proof.
  unfold validateEntry, row_checks. intros E.
  repeat match type of E with
  | (if ?b then _ else _) = None => destruct b eqn:?; [discriminate E|]
  | match ?o with Some _ => _ | None => _ end = None => destruct o eqn:?; [discriminate E|]
  end.
  cbn [andb] in *. bool_to_prop.
  repeat match goal with H : invalid_digest _ _ = None |- _ => apply invalid_digest_none in H; rewrite H end.
  repeat match goal with H : _ = true |- _ => rewrite H end.
  replace (0 <? ae_Sequence e) with true by lia. cbn [andb].
  repeat match goal with H : Nat.eqb _ _ = false |- _ => apply Nat.eqb_neq in H | H : Nat.ltb _ _ = false |- _ => apply Nat.ltb_ge in H end.
  by rewrite (proj2 (Nat.leb_le _ _)), (proj2 (Nat.leb_le _ _)) by lia.
Qed.

(** The entry that [appendAuditTx] adds for a draft. *)
Definition stamped (s : audit_store) (entry : Entry) (at_ : Time) : Entry :=
  let es := tenant_events s (ae_TenantID entry) in
  entry <| ae_Sequence := Z.of_nat (length es) + 1 |>
        <| ae_PreviousEntrySHA256 := match es with [] => ae_PreviousEntrySHA256 entry | _ => predecessor "" es (length es) end |>
        <| ae_CommittedAt := at_ |> <| ae_CommittedAtUTC := true |>.
Definition sealed (e : Entry) : Entry := e <| ae_EntrySHA256 := fixedHash (entry_fields e) |>.

Lemma trigger_accepts s e : tenant_chain s (ae_TenantID e) ->
  ae_Sequence e = Z.of_nat (length (tenant_events s (ae_TenantID e))) + 1 ->
  ae_PreviousEntrySHA256 e = predecessor "" (tenant_events s (ae_TenantID e)) (length (tenant_events s (ae_TenantID e))) ->
  append_trigger s e = true.
Proof.
  unfold tenant_chain, append_trigger. set (es := tenant_events s (ae_TenantID e)). clearbody es. intros Hv.
  rewrite (largest_of_chain _ _ Hv), predecessor_last. destruct es as [|l es _] using rev_ind.
  - cbn. intros -> ->. done.
  - rewrite last_snoc, length_app. cbn [length fmap option_fmap option_map default id]. intros -> ->.
    rewrite (chain_sequences _ _ (length es) l Hv) by (by rewrite lookup_app_r, Nat.sub_diag by lia).
    rewrite String.eqb_refl, andb_true_r. apply Z.eqb_eq. lia.
Qed.

Lemma insert_accepts s e : tenant_chain s (ae_TenantID e) -> validateEntry e true = None ->
  ae_Sequence e = Z.of_nat (length (tenant_events s (ae_TenantID e))) + 1 ->
  ae_PreviousEntrySHA256 e = predecessor "" (tenant_events s (ae_TenantID e)) (length (tenant_events s (ae_TenantID e))) ->
  (forall x, x ∈ as_events s -> ae_EventID x <> ae_EventID e /\ ae_EntrySHA256 x <> ae_EntrySHA256 e) ->
  insert_audit_event s e = Some (Build_audit_store (as_sequences s) (as_events s ++ [e])).
Proof.
  intros Hc Hv Hs Hp Hf. unfold insert_audit_event.
  rewrite (validateEntry_row_checks e Hv), (trigger_accepts s e Hc Hs Hp), andb_true_r.
  assert (Hnone : forall f : Entry -> bool, (forall x, x ∈ as_events s -> f x = false) -> existsb f (as_events s) = false).
  { intros f Hx. apply not_true_is_false. intros (x & Hin & Hx')%existsb_exists. apply list_elem_of_In in Hin.
    rewrite (Hx x Hin) in Hx'. discriminate. }
  rewrite !Hnone; [done|..]; intros x Hx.
  - apply String.eqb_neq. by apply Hf.
  - apply String.eqb_neq. by apply Hf.
  - destruct (String.eqb_spec (ae_TenantID x) (ae_TenantID e)) as [Et|]; [|done]. cbn [andb]. apply Z.eqb_neq. intros Es.
    assert (Hin : x ∈ tenant_events s (ae_TenantID e)).
    { apply list_elem_of_In, List.filter_In. split; [by apply list_elem_of_In | by apply String.eqb_eq]. }
    apply list_elem_of_lookup in Hin as [k Hk]. rewrite (chain_sequences _ _ _ _ Hc Hk) in Es.
    apply lookup_lt_Some in Hk. lia.
Qed.

(** no valid event is refused a place in the audit trail: after any history of
    appends, a draft whose fields are valid, whose event identifier and digest are
    new and which names no predecessor of its own is appended, sealed, as the next
    entry of its tenant. *)
Theorem valid_append_succeeds `{!CryptoLaws} history entry at_ :
  let s := append_all empty_store history in
  let e := stamped s entry at_ in
  validateEntry (e <| ae_EntrySHA256 := ""%string |>) false = None ->
  Z.of_nat (length (tenant_events s (ae_TenantID entry))) + 2 <= max_int64 ->
  (tenant_events s (ae_TenantID entry) = [] -> ae_PreviousEntrySHA256 entry = ""%string) ->
  (forall x, x ∈ as_events s -> ae_EventID x <> ae_EventID entry /\ ae_EntrySHA256 x <> ae_EntrySHA256 (sealed e)) ->
  exists s', appendAuditTx s entry at_ = Ok s' /\ as_events s' = as_events s ++ [sealed e].
Proof.
  cbn zeta. set (s := append_all empty_store history). intros Hv Hm Hp Hf.
  assert (Hc : tenant_chain s (ae_TenantID entry)) by (by apply append_all_chain).
  assert (Hq : sequences_follow s) by (by apply append_all_sequences).
  clearbody s. destruct (Hq (ae_TenantID entry)) as [Hseq _]. unfold appendAuditTx. cbn zeta. rewrite Hseq.
  set (n := length (tenant_events s (ae_TenantID entry))) in *.
  assert (Hprev : (if 1 <? Z.of_nat n + 1 then stored_digest s (ae_TenantID entry) (Z.of_nat n + 1 - 1)
                   else Some (ae_PreviousEntrySHA256 (entry <| ae_Sequence := Z.of_nat n + 1 |>)))
                  = Some (ae_PreviousEntrySHA256 (stamped s entry at_)) /\
                  ae_PreviousEntrySHA256 (stamped s entry at_) = predecessor "" (tenant_events s (ae_TenantID entry)) n).
  { pose proof (stored_digest_last s _ Hc) as Hd. fold n in Hd. unfold stamped. cbn zeta. upd. fold n.
    assert (Hn : n = length (tenant_events s (ae_TenantID entry))) by done. clearbody n.
    destruct (tenant_events s (ae_TenantID entry)) as [|x es]; subst n; [by rewrite Hp|].
    rewrite (proj2 (Z.ltb_lt _ _)) by (cbn [length]; lia). rewrite Z.add_simpl_r. by rewrite Hd. }
  destruct Hprev as [-> Hpr].
  assert (Hb : BuildEntry (entry <| ae_Sequence := Z.of_nat n + 1 |> <| ae_PreviousEntrySHA256 := ae_PreviousEntrySHA256 (stamped s entry at_) |>
                 <| ae_CommittedAt := at_ |> <| ae_CommittedAtUTC := true |>) = Ok (sealed (stamped s entry at_))).
  { unfold BuildEntry. cbn zeta. change (validateEntry _ false) with (validateEntry ((stamped s entry at_) <| ae_EntrySHA256 := ""%string |>) false).
    by rewrite Hv. }
  rewrite Hb. rewrite insert_accepts.
  - cbn [as_sequences as_events]. rewrite add64_id by (unfold in64, min_int64, max_int64 in *; lia).
    replace (0 <? Z.of_nat n + 1 + 1) with true by lia. eexists. split; reflexivity.
  - exact Hc.
  - unfold sealed. apply validateEntry_hashed; [exact Hv | apply sha256_hex_ok].
  - reflexivity.
  - exact Hpr.
  - exact Hf.
Qed.
End theorems.

(** ** Concrete chains *)

#[local] Existing Instance go_crypto.

Module AuditExample.
Definition digest : string := String.concat "" (repeat "ab01" 16).
(** A draft as [appendRequestAuditTx] fills it in. *)
Definition draft (tenant event kind : string) (actor reason : string) : Entry :=
  Build_Entry tenant 0 event kind digest "req-1" "wl-1" "req-1:attempt:1" actor reason "" digest "policy-v1"
    digest "" "" "" "" "" "" zero_time false "".
Definition at_ (n : Z) : Time := 1700000000 * Second + n * Second.
Definition history : list (Entry * Time) :=
  [(draft "red" "reserve:req-1" "RESERVE" ActorAdmission "highest_utility", at_ 0);
   (draft "blue" "reserve:req-2" "RESERVE" ActorAdmission "highest_utility", at_ 1);
   (draft "red" "reserve:req-1" "DISPATCH" ActorGateway "dispatch_claimed", at_ 2)].
Definition next : Entry := draft "red" "d1" "DISPATCH" ActorGateway "dispatch_claimed".
Definition store : audit_store := Eval vm_compute in append_all empty_store history.
Definition longer : audit_store := Eval vm_compute in append_all store [(next, at_ 3)].
(** The chain of the tenant, and the same chain with its first reason rewritten. *)
Definition chain : list Entry := Eval vm_compute in tenant_events longer "red".
Definition forged : list Entry := Eval vm_compute in
  match chain with
  | e :: rest => (sealed (e <| ae_Reason := "other"%string |>)) :: rest
  | [] => []
  end.
End AuditExample.

(** The replayed event is refused and leaves no row; the forged chain is refused at
    the entry after the forged one. *)
Example audit_example :
  (map ae_EventID (as_events AuditExample.longer), Verify AuditExample.forged)
  = (["reserve:req-1"; "reserve:req-2"; "d1"], Some "audit sequence 2 has wrong predecessor"%string).
Proof. vm_compute. reflexivity. Qed.

Lemma example_store : append_all empty_store AuditExample.history = AuditExample.store.
Proof. vm_compute. reflexivity. Qed.
Lemma example_chain : Verify AuditExample.chain = None.
Proof. vm_compute. reflexivity. Qed.
Lemma example_hashable : Forall hashable AuditExample.chain.
Proof.
  repeat constructor; try (apply go_length_small; vm_compute; reflexivity); vm_compute; discriminate.
Qed.

Lemma audit_chain_binds_history_witness :
  (1 = 1 /\ take 2 AuditExample.chain = take 2 AuditExample.chain)%nat \/ sha256_collision.
Proof.
  eapply (audit_chain_binds_history AuditExample.chain AuditExample.chain 1 1).
  - exact example_chain.
  - exact example_chain.
  - exact example_hashable.
  - exact example_hashable.
  - vm_compute. reflexivity.
  - vm_compute. reflexivity.
  - reflexivity.
Defined.

Lemma stored_chains_verify_witness : VerifyTenantAudit AuditExample.longer "red" = None.
Proof.
  destruct (stored_chains_verify AuditExample.history [(AuditExample.next, AuditExample.at_ 3)] "red") as [_ Hv].
  rewrite example_store in Hv. change AuditExample.longer with (id AuditExample.longer).
  assert (E : append_all AuditExample.store [(AuditExample.next, AuditExample.at_ 3)] = AuditExample.longer)
    by (vm_compute; reflexivity).
  rewrite E in Hv. unfold id. rewrite Hv by discriminate. vm_compute. reflexivity.
Defined.

Lemma valid_append_succeeds_witness :
  exists s', appendAuditTx AuditExample.store AuditExample.next (AuditExample.at_ 3) = Ok s' /\
    as_events s' = as_events AuditExample.store ++ [sealed (stamped AuditExample.store AuditExample.next (AuditExample.at_ 3))].
Proof.
  pose proof (valid_append_succeeds AuditExample.history AuditExample.next (AuditExample.at_ 3)) as Ha.
  cbv zeta in Ha. rewrite example_store in Ha. apply Ha.
  - vm_compute. reflexivity.
  - vm_compute. discriminate.
  - vm_compute. discriminate.
  - intros x Hx. vm_compute in Hx.
    repeat (apply elem_of_cons in Hx as [->|Hx]; [split; vm_compute; discriminate|]). by apply elem_of_nil in Hx.
Defined.
