(* ===== verification/Checkpoints.v ===== *)
(** * The checkpointed audit chain

    [pkg/audit]: audit events batched into records linked by their hashes, the
    verification of a list of records, and the checkpoints of [checkpoint.go]. The
    signature scheme is a parameter. An empty list of entries is the nil slice,
    which JSON writes as [null]. *)

From Stdlib Require Import ZArith Lia Ascii String.
From stdpp Require Import base strings list pretty.
From S2P Require Import Prelude Digest GoTime Json JsonDecode PlatformCrypto.

Open Scope string_scope.
Open Scope list_scope.
Open Scope Z_scope.
Open Scope go_scope.

Record AuditEntry : Type := Build_AuditEntry {
  aud_Timestamp : Time;
  aud_EventType : string;
  aud_Namespace : string;
  aud_PodName : string;
  aud_PodUID : string;
  aud_NodeName : string;
  aud_RuntimeClass : string;
  aud_GPUIdentity : string;
  aud_PolicyHash : string;
  aud_PodSpecHash : string;
  aud_ImageDigest : string;
  aud_ModelDigest : string;
  aud_EvidenceHash : string;
  aud_Decision : string;
  aud_Reason : string;
  aud_ComponentName : string
}.

Record BatchRecord : Type := Build_BatchRecord {
  br_Index : Z;
  br_PreviousHash : string;
  br_Entries : list AuditEntry;
  br_Hash : string
}.

Record Checkpoint : Type := Build_Checkpoint {
  cp_RecordIndex : Z;
  cp_RecordHash : string;
  cp_Timestamp : Time;
  cp_SignerID : string;
  cp_Signature : string
}.

Inductive AnomalyKind : Type :=
| AnomalyHashMismatch
| AnomalyPreviousHashMismatch
| AnomalyRewriteBeforeCheckpoint
| AnomalyMissingEntry.

(** Without the text of [Detail], which only reports the fields compared. *)
Record Anomaly : Type := Build_Anomaly { anomaly_RecordIndex : Z; anomaly_Kind : AnomalyKind }.

Record Chain : Type := Build_Chain {
  chain_records : list BatchRecord;
  chain_pending : list AuditEntry;
  chain_batchSize : Z
}.

(** ** JSON texts *)

Definition entry_names : list string :=
  ["timestamp"; "event_type"; "namespace"; "pod_name"; "pod_uid"; "node_name"; "runtime_class"; "gpu_identity";
   "policy_hash"; "pod_spec_hash"; "image_digest"; "model_digest"; "evidence_hash"; "decision"; "reason"; "component_name"].

Definition entry_json_fields (e : AuditEntry) : list field :=
  [fld "timestamp" (json_time (aud_Timestamp e)); fld "event_type" (json_string (aud_EventType e));
   fld "namespace" (json_string (aud_Namespace e)); fld "pod_name" (json_string (aud_PodName e));
   fld "pod_uid" (json_string (aud_PodUID e)); fld "node_name" (json_string (aud_NodeName e));
   fld "runtime_class" (json_string (aud_RuntimeClass e)); omit_string "gpu_identity" (aud_GPUIdentity e);
   fld "policy_hash" (json_string (aud_PolicyHash e)); fld "pod_spec_hash" (json_string (aud_PodSpecHash e));
   omit_string "image_digest" (aud_ImageDigest e); omit_string "model_digest" (aud_ModelDigest e);
   omit_string "evidence_hash" (aud_EvidenceHash e); fld "decision" (json_string (aud_Decision e));
   omit_string "reason" (aud_Reason e); fld "component_name" (json_string (aud_ComponentName e))].
Definition json_entry (e : AuditEntry) : string := json_object (entry_json_fields e).

Definition json_entries (entries : list AuditEntry) : string :=
  match entries with [] => "null" | _ => json_array (map json_entry entries) end.

Definition batch_text (index : Z) (previousHash : string) (entries : list AuditEntry) : string :=
  json_object [fld "index" (json_int index); fld "previous_hash" (json_string previousHash);
               fld "entries" (json_entries entries)].

(** The first time of a list that [json.Marshal] refuses. *)
Fixpoint first_time_error (times : list Time) : option error :=
  match times with
  | [] => None
  | t :: rest => match json_time_error t with Some m => Some m | None => first_time_error rest end
  end.

Definition checkpoint_payload (index : Z) (hash : string) (timestamp : Time) (signerID : string) : result string :=
  match json_time_error timestamp with
  | Some m => Err m
  | None => Ok (json_object [fld "record_index" (json_int index); fld "record_hash" (json_string hash);
                             fld "timestamp" (json_time timestamp); fld "signer_id" (json_string signerID)])
  end.

Section audit.
Context `{Crypto}.

Definition computeBatchHash (index : Z) (previousHash : string) (entries : list AuditEntry) : result string :=
  match first_time_error (map aud_Timestamp entries) with
  | Some m => Err ("marshal batch hash input: " +:+ m)
  | None => Ok (sha256_hex (batch_text index previousHash entries))
  end.

(** ** Verification *)

Definition record_anomalies (prevHash : string) (rec : BatchRecord) : list Anomaly :=
  (if negb (String.eqb (br_PreviousHash rec) prevHash) then [Build_Anomaly (br_Index rec) AnomalyPreviousHashMismatch] else [])
  ++ match computeBatchHash (br_Index rec) (br_PreviousHash rec) (br_Entries rec) with
     | Ok expected => if String.eqb expected (br_Hash rec) then [] else [Build_Anomaly (br_Index rec) AnomalyHashMismatch]
     | Err _ => [Build_Anomaly (br_Index rec) AnomalyHashMismatch]
     end.

Fixpoint verify_records (prevHash : string) (records : list BatchRecord) : list Anomaly :=
  match records with
  | [] => []
  | rec :: rest => record_anomalies prevHash rec ++ verify_records (br_Hash rec) rest
  end.

Definition VerifyChain (records : list BatchRecord) : list Anomaly := verify_records "" records.

Definition checkpoint_anomalies (records : list BatchRecord) (cp : Checkpoint) : list Anomaly :=
  match List.find (fun rec => br_Index rec =? cp_RecordIndex cp) records with
  | Some rec => if String.eqb (br_Hash rec) (cp_RecordHash cp) then []
                else [Build_Anomaly (br_Index rec) AnomalyRewriteBeforeCheckpoint]
  | None => match records with [] => [] | _ => [Build_Anomaly (cp_RecordIndex cp) AnomalyMissingEntry] end
  end.

Definition VerifyChainAgainstCheckpoint (records : list BatchRecord) (cp : Checkpoint) : list Anomaly :=
  VerifyChain records ++ checkpoint_anomalies records cp.

(** ** The in-memory chain *)

Definition NewChain (batchSize : Z) : Chain := Build_Chain [] [] (if batchSize <=? 0 then 10 else batchSize).

Definition HeadHash (c : Chain) : string := default ""%string (br_Hash <$> last (chain_records c)).
Definition HeadIndex (c : Chain) : Z := default (-1) (br_Index <$> last (chain_records c)).

Definition Flush (c : Chain) : Chain * option error :=
  match chain_pending c with
  | [] => (c, None)
  | _ =>
    let prevHash := HeadHash c in
    let idx := Z.of_nat (length (chain_records c)) in
    match computeBatchHash idx prevHash (chain_pending c) with
    | Err m => (c, Some ("compute batch hash: " +:+ m))
    | Ok h => (Build_Chain (chain_records c ++ [Build_BatchRecord idx prevHash (chain_pending c) h]) [] (chain_batchSize c), None)
    end
  end.

Definition Append (c : Chain) (entry : AuditEntry) : Chain * option error :=
  let c := Build_Chain (chain_records c) (chain_pending c ++ [entry]) (chain_batchSize c) in
  if chain_batchSize c <=? Z.of_nat (length (chain_pending c)) then Flush c else (c, None).

Definition Chain_Verify (c : Chain) : list Anomaly := VerifyChain (chain_records c).

(** ** Checkpoints *)

Context `{Ed25519}.

(** [None] is the nil key; [now] is the clock. *)
Definition CreateCheckpoint (c : Chain) (priv : option private_key) (signerID : string) (now : Time) : result Checkpoint :=
  if HeadIndex c <? 0 then Err "chain has no sealed records; flush pending entries first"
  else match priv with
  | None => Err "signing key is nil"
  | Some key =>
    match checkpoint_payload (HeadIndex c) (HeadHash c) now signerID with
    | Err m => Err ("marshal checkpoint payload: " +:+ m)
    | Ok data => Ok (Build_Checkpoint (HeadIndex c) (HeadHash c) now signerID (Ed25519Sign key data))
    end
  end.

Definition VerifyCheckpoint (cp : Checkpoint) (pub : option public_key) : option error :=
  match pub with
  | None => Some "public key is nil"
  | Some key =>
    match checkpoint_payload (cp_RecordIndex cp) (cp_RecordHash cp) (cp_Timestamp cp) (cp_SignerID cp) with
    | Err m => Some ("marshal checkpoint payload for verification: " +:+ m)
    | Ok data =>
      match Ed25519Verify key data (cp_Signature cp) with
      | Err m => Some ("verify checkpoint signature: " +:+ m)
      | Ok ok => if ok then None else Some "checkpoint signature invalid"
      end
    end
  end.

(** ** The anchors kept in process *)

(** [MemoryAnchorBackend]: the history of checkpoints, oldest first. *)
Definition Anchor (history : list Checkpoint) (cp : Checkpoint) : list Checkpoint := history ++ [cp].
Definition Latest (history : list Checkpoint) : result Checkpoint :=
  match last history with Some cp => Ok cp | None => Err "no checkpoint anchored yet" end.
End audit.

(** ** The hashed text determines the record *)

Lemma json_string_inj s t : json_string s = json_string t -> s = t.
Proof.
  intros E. by destruct (json_string_delimits s t "" "" I I (f_equal (fun x => x +:+ "") E)).
Qed.

Lemma omit_string_inj n s t : omit_string n s = omit_string n t -> s = t.
Proof.
  unfold omit_string. destruct (String.eqb_spec s ""), (String.eqb_spec t ""); intros E; try discriminate; [congruence|].
  apply json_string_inj. exact (f_equal (fun f => default ""%string (snd <$> f)) E).
Qed.

Lemma fld_string_inj n s t : fld n (json_string s) = fld n (json_string t) -> s = t.
Proof. intros E. apply json_string_inj. exact (f_equal (fun f => default ""%string (snd <$> f)) E). Qed.

(** A time that [json.Marshal] writes. *)
Definition marshals (t : Time) : Prop := json_time_error t = None.

Lemma marshals_year t : marshals t -> four_digit_year (day_number t).
Proof.
  unfold marshals, json_time_error, four_digit_year. cbn zeta. destruct (_ && _) eqn:E; [|discriminate]. intros _.
  bool_to_prop. lia.
Qed.

Lemma json_time_inj t u : marshals t -> marshals u -> json_time t = json_time u -> t = u.
Proof. intros Ht Hu E%json_string_inj. by apply RFC3339Nano_inj; [apply marshals_year..|]. Qed.

Lemma cons_inj {A} (x y : A) l m : x :: l = y :: m -> x = y /\ l = m.
Proof. intros E. by injection E. Qed.

Lemma entry_json_fields_inj e e' : marshals (aud_Timestamp e) -> marshals (aud_Timestamp e') ->
  entry_json_fields e = entry_json_fields e' -> e = e'.
Proof.
  intros Hm Hm' E. destruct e, e'. unfold entry_json_fields in E. cbn [aud_Timestamp aud_EventType aud_Namespace aud_PodName
    aud_PodUID aud_NodeName aud_RuntimeClass aud_GPUIdentity aud_PolicyHash aud_PodSpecHash aud_ImageDigest aud_ModelDigest
    aud_EvidenceHash aud_Decision aud_Reason aud_ComponentName] in *.
  unfold json_time in E.
  repeat match type of E with _ :: _ = _ :: _ =>
    let E1 := fresh in apply cons_inj in E as [E1 E]; first [apply fld_string_inj in E1 | apply omit_string_inj in E1]
  end.
  match goal with H : RFC3339Nano _ = RFC3339Nano _ |- _ => apply RFC3339Nano_inj in H; [|by apply marshals_year..] end.
  by subst.
Qed.

Lemma omit_string_named n s : match omit_string n s with Some (m, _) => m = n | None => True end.
Proof. unfold omit_string. by destruct (String.eqb s ""). Qed.
Lemma omit_string_field n s : string_field (omit_string n s).
Proof. unfold omit_string. destruct (String.eqb s ""); [done | by eexists]. Qed.
Lemma fld_string_field n s : string_field (fld n (json_string s)).
Proof. by eexists. Qed.

Lemma entry_json_named e : Forall2 (fun n x => match x with Some (m, _) => m = n | None => True end) entry_names (entry_json_fields e).
Proof.
  unfold entry_names, entry_json_fields.
  repeat match goal with |- Forall2 _ (_ :: _) _ => constructor; [first [exact (omit_string_named _ _) | reflexivity]|] end.
  constructor.
Qed.

Lemma entry_json_strings e : Forall string_field (entry_json_fields e).
Proof.
  unfold entry_json_fields, json_time.
  repeat match goal with |- Forall _ (_ :: _) => constructor; [first [apply omit_string_field | apply fld_string_field]|] end.
  constructor.
Qed.

Lemma json_entry_delimits : delimits (fun e => marshals (aud_Timestamp e)) json_entry.
Proof.
  intros e e' a b Hm Hm' E. apply json_object_delimits in E as [E ->]; [|apply entry_json_strings..].
  split; [|done]. apply entry_json_fields_inj; [done..|].
  apply (present_inj entry_names); [|apply entry_json_named..|done].
  apply (bool_decide_unpack _). vm_compute. done.
Qed.

(** Elements that delimit themselves, separated by commas and closed by a bracket. *)
Lemma json_array_delimits {A} (P : A -> Prop) text : delimits P text -> forall l m a b, Forall P l -> Forall P m ->
  l <> [] -> m <> [] -> json_array (map text l) +:+ a = json_array (map text m) +:+ b -> l = m /\ a = b.
Proof.
  intros Ht.
  assert (Hsplit : forall x rest tail, Join (map text (x :: rest)) "," +:+ tail
            = text x +:+ match rest with [] => tail | _ => "," +:+ Join (map text rest) "," +:+ tail end).
  { intros x [|y rest] tail; [done|]. cbn [map]. rewrite Join_cons. by rewrite !string_app_assoc. }
  assert (Hj : forall l m a b, Forall P l -> Forall P m -> l <> [] -> m <> [] ->
            Join (map text l) "," +:+ "]" +:+ a = Join (map text m) "," +:+ "]" +:+ b -> l = m /\ a = b).
  { induction l as [|x l IH]; intros [|y m] a b Hl Hm Hnl Hnm E; try done.
    apply Forall_cons in Hl as [Hx Hl], Hm as [Hy Hm]. rewrite !Hsplit in E.
    apply Ht in E as [-> E]; [|done..]. destruct l as [|x' l], m as [|y' m]; try discriminate E.
    - by injection E.
    - apply (string_app_inj "," ",") in E as [_ E]; [|done]. by destruct (IH (y' :: m) a b Hl Hm) as [-> ->]. }
  intros l m a b Hl Hm Hnl Hnm E. unfold json_array in E. rewrite !string_app_assoc in E. injection E as E. by apply Hj.
Qed.

Lemma json_entries_inj es es' a b : Forall marshals (map aud_Timestamp es) -> Forall marshals (map aud_Timestamp es') ->
  json_entries es +:+ a = json_entries es' +:+ b -> es = es' /\ a = b.
Proof.
  rewrite !Forall_map. intros Hm Hm' E. destruct es as [|e es], es' as [|e' es']; try discriminate E; [by injection E|].
  by apply (json_array_delimits _ json_entry json_entry_delimits).
Qed.

Lemma batch_text_parts i p es : batch_text i p es =
  ("{" +:+ json_string "index" +:+ ":") +:+ json_int i +:+ "," +:+ (json_string "previous_hash" +:+ ":") +:+ json_string p
  +:+ ("," +:+ json_string "entries" +:+ ":") +:+ json_entries es +:+ "}".
Proof. unfold batch_text, json_object, fld. cbn [omap list_omap mbind option_bind]. rewrite !Join_cons. by rewrite !string_app_assoc. Qed.

Lemma batch_text_inj i p es i' p' es' : Forall marshals (map aud_Timestamp es) -> Forall marshals (map aud_Timestamp es') ->
  batch_text i p es = batch_text i' p' es' -> i = i' /\ p = p' /\ es = es'.
Proof.
  intros Hm Hm'. rewrite !batch_text_parts. intros E.
  apply string_app_inj in E as [_ E]; [|done]. apply json_int_delimits in E as [-> E].
  apply string_app_inj in E as [_ E]; [|done]. apply json_string_delimits in E as [-> E]; [|done..].
  apply string_app_inj in E as [_ E]; [|done]. apply json_entries_inj in E as [-> _]; done.
Qed.

(** ** Intact chains *)

Section theorems.
Context `{Crypto} `{!NonemptyDigests}.

(** What [VerifyChain] checks of one record. *)
Record intact (prevHash : string) (r : BatchRecord) : Prop := {
  intact_previous : br_PreviousHash r = prevHash;
  intact_times : Forall marshals (map aud_Timestamp (br_Entries r));
  intact_hash : br_Hash r = sha256_hex (batch_text (br_Index r) (br_PreviousHash r) (br_Entries r))
}.

Lemma first_time_error_none times : first_time_error times = None <-> Forall marshals times.
Proof.
  induction times as [|t times IH]; [done|]. cbn [first_time_error]. rewrite Forall_cons, <- IH. unfold marshals.
  destruct (json_time_error t) as [m|].
  - split; [discriminate | intros [E _]; discriminate E].
  - tauto.
Qed.

Lemma computeBatchHash_ok i p es h : computeBatchHash i p es = Ok h <->
  Forall marshals (map aud_Timestamp es) /\ h = sha256_hex (batch_text i p es).
Proof.
  unfold computeBatchHash. rewrite <- first_time_error_none. destruct (first_time_error _).
  - split; [discriminate | intros [E _]; discriminate E].
  - split; [intros E; by injection E | by intros [_ ->]].
Qed.

Lemma record_anomalies_none prevHash r : record_anomalies prevHash r = [] <-> intact prevHash r.
Proof.
  unfold record_anomalies. split.
  - intros [E1 E2]%app_nil. destruct (String.eqb_spec (br_PreviousHash r) prevHash) as [Hp|]; [|discriminate E1].
    destruct (computeBatchHash _ _ _) as [h|] eqn:Eh; [|discriminate E2]. apply computeBatchHash_ok in Eh as [Ht ->].
    destruct (String.eqb_spec (sha256_hex (batch_text (br_Index r) (br_PreviousHash r) (br_Entries r))) (br_Hash r)); [|discriminate E2].
    by split.
  - intros [Hp Ht Hh]. apply app_nil. rewrite Hp, String.eqb_refl. split; [done|]. rewrite Hp in Hh.
    rewrite (proj2 (computeBatchHash_ok _ _ _ _) (conj Ht eq_refl)), <- Hh. by rewrite String.eqb_refl.
Qed.

(** The hash before position [k]. *)
Definition hash_before (prevHash : string) (records : list BatchRecord) (k : nat) : string :=
  match k with O => prevHash | S j => default ""%string (br_Hash <$> records !! j) end.

Lemma verify_records_lookup records : forall prevHash k r, verify_records prevHash records = [] -> records !! k = Some r ->
  intact (hash_before prevHash records k) r.
Proof.
  induction records as [|r0 records IH]; intros prevHash k r Hv Hk; [done|].
  cbn [verify_records] in Hv. apply app_nil in Hv as [Hh0%record_anomalies_none Hv].
  destruct k as [|k]; cbn in Hk; [by injection Hk as <-|]. specialize (IH _ _ _ Hv Hk). by destruct k.
Qed.

Lemma verify_records_snoc records : forall prevHash r, verify_records prevHash records = [] ->
  intact (hash_before prevHash records (length records)) r -> verify_records prevHash (records ++ [r]) = [].
Proof.
  induction records as [|r0 records IH]; intros prevHash r Hv Hr.
  - cbn. rewrite app_nil_r. by apply record_anomalies_none.
  - cbn [verify_records app] in *. apply app_nil in Hv as [Hh0 Hv]. apply app_nil. split; [done|]. apply IH; [done|].
    by destruct records.
Qed.

Lemma hash_before_last prevHash records : hash_before prevHash records (length records) = default prevHash (br_Hash <$> last records).
Proof.
  destruct records as [|r records _] using rev_ind; [done|]. rewrite last_snoc, length_app, Nat.add_1_r. cbn [hash_before].
  by rewrite lookup_app_r, Nat.sub_diag by lia.
Qed.

(** *** The chain as it is built *)

Inductive operation : Type := OpAppend (entry : AuditEntry) | OpFlush.
Definition apply_operation (c : Chain) (op : operation) : Chain :=
  match op with OpAppend entry => (Append c entry).1 | OpFlush => (Flush c).1 end.
Definition apply_all (c : Chain) (ops : list operation) : Chain := fold_left apply_operation ops c.
Definition appended (ops : list operation) : list AuditEntry :=
  omap (fun op => match op with OpAppend entry => Some entry | OpFlush => None end) ops.
Definition recorded (c : Chain) : list AuditEntry := concat (map br_Entries (chain_records c)) ++ chain_pending c.

(** The records verify and are numbered from zero. *)
Definition sound_chain (c : Chain) : Prop :=
  VerifyChain (chain_records c) = [] /\ forall k r, chain_records c !! k = Some r -> br_Index r = Z.of_nat k.

Lemma Flush_spec c : sound_chain c -> sound_chain (Flush c).1 /\ recorded (Flush c).1 = recorded c /\
  chain_records c `prefix_of` chain_records (Flush c).1.
Proof.
  intros [Hv Hi]. unfold Flush. destruct (chain_pending c) as [|e es] eqn:Ep; [done|]. cbn zeta.
  destruct (computeBatchHash _ _ _) as [h|] eqn:Eh; [|done]. apply computeBatchHash_ok in Eh as [Ht ->].
  cbn [fst]. unfold sound_chain, recorded. cbn [chain_records chain_pending]. split; [split|split].
  - apply verify_records_snoc; [done|]. rewrite hash_before_last. by split.
  - intros k r Hk. apply lookup_app_Some in Hk as [Hk | [Hge Hk]]; [by apply Hi|].
    destruct (k - length (chain_records c))%nat eqn:Ek; cbn in Hk; [|done]. injection Hk as <-. cbn [br_Index].
    f_equal. lia.
  - rewrite map_app, concat_app, Ep. cbn. by rewrite !app_nil_r.
  - by eexists.
Qed.

Lemma apply_operation_spec c op : sound_chain c -> sound_chain (apply_operation c op) /\
  recorded (apply_operation c op) = recorded c ++ appended [op] /\
  chain_records c `prefix_of` chain_records (apply_operation c op).
Proof.
  intros Hc. destruct op as [entry|]; cbn [apply_operation appended omap list_omap].
  - unfold Append. cbn zeta. set (c' := Build_Chain _ _ _).
    assert (Hc' : sound_chain c' /\ recorded c' = recorded c ++ [entry] /\ chain_records c' = chain_records c).
    { unfold c', sound_chain, recorded. cbn [chain_records chain_pending]. by rewrite app_assoc. }
    destruct Hc' as (Hs & Hr & He). rewrite <- Hr, <- He. destruct (_ <=? _); [by apply Flush_spec | done].
  - rewrite app_nil_r. by apply Flush_spec.
Qed.

Lemma apply_all_spec ops : forall c, sound_chain c -> sound_chain (apply_all c ops) /\
  recorded (apply_all c ops) = recorded c ++ appended ops /\ chain_records c `prefix_of` chain_records (apply_all c ops).
Proof.
  induction ops as [|op ops IH]; intros c Hc; [by rewrite app_nil_r|].
  destruct (apply_operation_spec c op Hc) as (Hs & Hr & Hp). destruct (IH _ Hs) as (Hs' & Hr' & Hp').
  split; [done|]. split; [|by etrans]. cbn [apply_all fold_left] in *. unfold apply_all in Hr'. rewrite Hr', Hr, <- app_assoc.
  f_equal. by destruct op.
Qed.

(** the in-memory audit chain loses nothing and always verifies: after any
    sequence of appends and flushes, failed ones included, every event appended is
    in a record or pending, once and in order, the sealed records verify without
    anomaly, and a sealed record never changes. *)
Theorem chain_records_everything batchSize ops more :
  let c := apply_all (NewChain batchSize) ops in
  Chain_Verify c = [] /\ recorded c = appended ops /\ chain_records c `prefix_of` chain_records (apply_all c more).
Proof.
  cbn zeta. destruct (apply_all_spec ops (NewChain batchSize)) as ([Hv Hi] & Hr & _).
  { split; [done|]. intros k r Hk. done. }
  split; [exact Hv|]. split; [exact Hr|]. by apply apply_all_spec.
Qed.

(** *** Checkpoints *)

Lemma intact_unique p p' r r' : intact p r -> intact p' r' -> br_Hash r = br_Hash r' -> r = r' \/ sha256_collision.
Proof.
  intros [_ Ht Hh] [_ Ht' Hh'] E.
  destruct (decide (batch_text (br_Index r) (br_PreviousHash r) (br_Entries r)
                    = batch_text (br_Index r') (br_PreviousHash r') (br_Entries r'))) as [Eb|Nb].
  - left. apply batch_text_inj in Eb as (Ei & Ep & Ee); [|done..]. destruct r, r'. cbn in *. by subst.
  - right. exists (batch_text (br_Index r) (br_PreviousHash r) (br_Entries r)), (batch_text (br_Index r') (br_PreviousHash r') (br_Entries r')).
    split; [done | congruence].
Qed.

Lemma intact_hash_not_empty p r : intact p r -> br_Hash r <> ""%string.
Proof. intros [_ _ ->]. apply sha256_not_empty. Qed.

(** Two verified chains that share a hash share everything up to it. *)
Lemma records_agree l m : VerifyChain l = [] -> VerifyChain m = [] ->
  forall k j r r', l !! k = Some r -> m !! j = Some r' -> br_Hash r = br_Hash r' ->
  (j = k /\ take (S k) l = take (S k) m) \/ sha256_collision.
Proof.
  intros Hl Hm. induction k as [|k IH]; intros j r r' Hk Hj E;
    pose proof (verify_records_lookup _ _ _ _ Hl Hk) as I; pose proof (verify_records_lookup _ _ _ _ Hm Hj) as I';
    (destruct (intact_unique _ _ _ _ I I' E) as [<-|]; [|by right]);
    pose proof (intact_previous _ _ I) as P; rewrite (intact_previous _ _ I') in P; cbn [hash_before] in P.
  - destruct j as [|j]; [left; split; [done|]; by rewrite (take_S_r _ _ _ Hk), (take_S_r _ _ _ Hj)|].
    cbn [hash_before] in P. destruct (lookup_lt_is_Some_2 m j) as [d Hd]; [apply lookup_lt_Some in Hj; lia|].
    rewrite Hd in P. cbn in P. by destruct (intact_hash_not_empty _ _ (verify_records_lookup _ _ _ _ Hm Hd)).
  - destruct (lookup_lt_is_Some_2 l k) as [d Hd]; [apply lookup_lt_Some in Hk; lia|]. rewrite Hd in P. cbn in P.
    destruct j as [|j]; cbn [hash_before] in P.
    { by destruct (intact_hash_not_empty _ _ (verify_records_lookup _ _ _ _ Hl Hd)). }
    destruct (lookup_lt_is_Some_2 m j) as [d' Hd']; [apply lookup_lt_Some in Hj; lia|]. rewrite Hd' in P. cbn in P.
    destruct (IH j d d' Hd Hd') as [[-> IHk]|]; [done | left | by right].
    split; [done|]. by rewrite (take_S_r _ _ _ Hk), (take_S_r _ _ _ Hj), IHk.
Qed.

Context `{Ed : Ed25519}.

Lemma CreateCheckpoint_ok c key signerID now cp : CreateCheckpoint c (Some key) signerID now = Ok cp ->
  exists r data, last (chain_records c) = Some r /\ cp_RecordIndex cp = br_Index r /\ cp_RecordHash cp = br_Hash r /\
    checkpoint_payload (cp_RecordIndex cp) (cp_RecordHash cp) (cp_Timestamp cp) (cp_SignerID cp) = Ok data /\
    cp_Signature cp = Ed25519Sign key data.
Proof.
  unfold CreateCheckpoint, HeadIndex, HeadHash. destruct (last (chain_records c)) as [r|] eqn:El; [|discriminate].
  cbn [fmap option_fmap option_map default]. destruct (_ <? 0); [discriminate|].
  destruct (checkpoint_payload _ _ _ _) as [data|] eqn:Ep; [|discriminate]. intros E. injection E as <-. by exists r, data.
Qed.

Lemma find_index l k r : (forall j x, l !! j = Some x -> br_Index x = Z.of_nat j) -> l !! k = Some r ->
  List.find (fun x => br_Index x =? br_Index r) l = Some r.
Proof.
  intros Hi Hk. destruct (List.find _ l) as [x|] eqn:Ef.
  - apply List.find_some in Ef as [Hin Ex]. apply list_elem_of_In, list_elem_of_lookup in Hin as [j Hj]. bool_to_prop.
    rewrite (Hi _ _ Hj), (Hi _ _ Hk) in Ex. assert (j = k) by lia. congruence.
  - apply list_elem_of_lookup_2, list_elem_of_In in Hk. apply (List.find_none _ _ Ef) in Hk. by rewrite Z.eqb_refl in Hk.
Qed.

(** a checkpoint never accuses the chain it was taken of: it verifies under the
    public key of its signer, and the chain, whatever is appended to it afterwards,
    verifies against it without anomaly. *)
Theorem checkpoint_accepts_its_chain `{!Ed25519Laws} batchSize ops key signerID now cp more :
  let c := apply_all (NewChain batchSize) ops in
  CreateCheckpoint c (Some key) signerID now = Ok cp ->
  VerifyCheckpoint cp (Some (public_of key)) = None /\
  VerifyChainAgainstCheckpoint (chain_records (apply_all c more)) cp = [].
Proof.
  cbn zeta. intros (r & data & Hl & Hi & Hh & Hp & Hs)%CreateCheckpoint_ok.
  destruct (apply_all_spec ops (NewChain batchSize)) as (Hc & _ & _); [by split|].
  destruct (apply_all_spec more _ Hc) as ([Hv Hn] & _ & [rest Hrest]).
  split.
  - unfold VerifyCheckpoint. by rewrite Hp, Hs, signature_verifies.
  - unfold VerifyChainAgainstCheckpoint, checkpoint_anomalies. rewrite Hv, Hi, Hh.
    rewrite last_lookup in Hl. rewrite (find_index _ (pred (length (chain_records (apply_all (NewChain batchSize) ops)))) r Hn).
    + by rewrite String.eqb_refl.
    + rewrite Hrest. by apply lookup_app_l_Some.
Qed.

(** C36: an anchored checkpoint bounds what can be rewritten: for any hash without an
    empty digest, any list of records that verifies against a checkpoint, and is not
    empty, begins with exactly the records the chain had when the checkpoint was taken,
    or two texts with the same digest have been found. *)
Theorem checkpoint_bounds_rewriting batchSize ops key signerID now cp tampered :
  let c := apply_all (NewChain batchSize) ops in
  CreateCheckpoint c (Some key) signerID now = Ok cp ->
  tampered <> [] -> VerifyChainAgainstCheckpoint tampered cp = [] ->
  chain_records c `prefix_of` tampered \/ sha256_collision.
Proof.
  cbn zeta. intros (r & data & Hl & Hi & Hh & _)%CreateCheckpoint_ok Hne Hv.
  destruct (apply_all_spec ops (NewChain batchSize)) as ([Hc _] & _ & _); [by split|].
  set (l := chain_records _) in *. clearbody l. unfold VerifyChainAgainstCheckpoint, checkpoint_anomalies in Hv.
  apply app_nil in Hv as [Hvc Hcp]. destruct (List.find _ tampered) as [x|] eqn:Ef; [|by destruct tampered].
  destruct (String.eqb_spec (br_Hash x) (cp_RecordHash cp)) as [Ex|]; [|discriminate Hcp].
  apply List.find_some in Ef as [Hin _]. apply list_elem_of_In, list_elem_of_lookup in Hin as [j Hj].
  rewrite last_lookup in Hl. destruct (records_agree l tampered Hc Hvc _ _ r x Hl Hj) as [[_ E]|]; [congruence | left | by right].
  rewrite take_ge in E by (apply lookup_lt_Some in Hl; lia). rewrite E. exists (drop (S (pred (length l))) tampered).
  by rewrite take_drop.
Qed.
End theorems.

(** The one list of records no checkpoint rejects is the empty one: a chain deleted
    as a whole goes unnoticed. *)
Lemma empty_chain_passes_any_checkpoint `{Crypto} cp : VerifyChainAgainstCheckpoint [] cp = [].
Proof. reflexivity. Qed.

(** ** A concrete chain *)

#[local] Existing Instance go_crypto.

Module CheckpointExample.
Import SharedKey.
Definition now : Time := 1700000000 * Second.
Definition event (kind pod : string) : AuditEntry :=
  Build_AuditEntry now kind "ml" pod (pod +:+ "-uid") "node-1" "kata-tdx" "" "policy-hash" "spec-hash" "" "" "" "allow" "" "scheduler".
Definition operations : list operation :=
  [OpAppend (event "pod_admitted" "pod-1"); OpAppend (event "node_selected" "pod-1"); OpAppend (event "pod_bound" "pod-1"); OpFlush].
Definition later : list operation := [OpAppend (event "key_released" "pod-1"); OpFlush].
Definition chain : Chain := Eval vm_compute in apply_all (NewChain 2) operations.
Definition checkpoint : Checkpoint := Eval vm_compute in
  result_or (Build_Checkpoint 0 "" now "" "") (CreateCheckpoint chain (Some "anchor-key"%string) "signer-1" now).
Definition longer : Chain := Eval vm_compute in apply_all chain later.
(** The first record rewritten and sealed again. *)
Definition rewritten : list BatchRecord := Eval vm_compute in
  match chain_records chain with
  | r :: rest =>
    let es := [event "pod_admitted" "pod-2"] in
    Build_BatchRecord 0 "" es (sha256_hex (batch_text 0 "" es)) :: rest
  | [] => []
  end.
End CheckpointExample.
Import SharedKey CheckpointExample.

Example rewriting_is_noticed :
  (map anomaly_Kind (VerifyChain rewritten), map anomaly_Kind (VerifyChainAgainstCheckpoint (chain_records chain) checkpoint))
  = ([AnomalyPreviousHashMismatch], []).
Proof. vm_compute. reflexivity. Qed.

Lemma example_batches : apply_all (NewChain 2) operations = chain.
Proof. vm_compute. reflexivity. Qed.
Lemma example_longer : apply_all chain later = longer.
Proof. vm_compute. reflexivity. Qed.
Lemma example_checkpoint : CreateCheckpoint chain (Some "anchor-key"%string) "signer-1" now = Ok checkpoint.
Proof. vm_compute. reflexivity. Qed.

Lemma example_verifies : VerifyChainAgainstCheckpoint (chain_records longer) checkpoint = [].
Proof. vm_compute. reflexivity. Qed.

Lemma checkpoint_accepts_its_chain_witness :
  VerifyCheckpoint checkpoint (Some (public_of "anchor-key"%string)) = None /\
  VerifyChainAgainstCheckpoint (chain_records longer) checkpoint = [].
Proof.
  pose proof (checkpoint_accepts_its_chain 2 operations "anchor-key"%string "signer-1" now checkpoint later) as Hc.
  cbv zeta in Hc. rewrite example_batches, example_longer in Hc. exact (Hc example_checkpoint).
Defined.

Lemma checkpoint_bounds_rewriting_witness : chain_records chain `prefix_of` chain_records longer \/ sha256_collision.
Proof.
  pose proof (checkpoint_bounds_rewriting 2 operations "anchor-key"%string "signer-1" now checkpoint (chain_records longer)) as Hc.
  cbv zeta in Hc. rewrite example_batches in Hc. apply (Hc example_checkpoint); [discriminate|].
  exact example_verifies.
Defined.
