(* ===== verification/Tokens.v ===== *)
(** * Placement tokens and key release

    [pkg/token/token.go]: signed placement tokens; [internal/keyrelease]: the
    decision whether a workload gets its key. The clock is an argument; the error
    text of a malformed token is a function of it. *)

From Stdlib Require Import ZArith Lia Ascii String.
From stdpp Require Import base gmap strings list pretty.
From S2P Require Import Prelude Digest GoTime Json JsonDecode PlatformCrypto.

Open Scope string_scope.
Open Scope list_scope.
Open Scope Z_scope.
Open Scope go_scope.

(** ** Tokens *)

Record Payload : Type := Build_Payload {
  tp_PodUID : string;
  tp_PodSpecHash : string;
  tp_ImageDigest : string;
  tp_ModelDigest : string;
  tp_NodeIdentity : string;
  tp_GPUIdentity : string;
  tp_RuntimeClass : string;
  tp_EvidenceHash : string;
  tp_PolicyHash : string;
  tp_KeyIdentifier : string;
  tp_IssuedAt : Z;
  tp_ExpiresAt : Z
}.
#[export] Instance payload_eta : Eta Payload := fun p =>
  Build_Payload (tp_PodUID p) (tp_PodSpecHash p) (tp_ImageDigest p) (tp_ModelDigest p) (tp_NodeIdentity p) (tp_GPUIdentity p)
    (tp_RuntimeClass p) (tp_EvidenceHash p) (tp_PolicyHash p) (tp_KeyIdentifier p) (tp_IssuedAt p) (tp_ExpiresAt p).
Record Token : Type := Build_Token { tok_Payload : Payload; tok_Signature : string }.
#[export] Instance token_eta : Eta Token := fun t => Build_Token (tok_Payload t) (tok_Signature t).

Definition zero_payload : Payload := Build_Payload "" "" "" "" "" "" "" "" "" "" 0 0.
Definition zero_token : Token := Build_Token zero_payload "".

(** [json.Marshal] of a payload and of a token. *)
Definition payload_json (p : Payload) : string :=
  json_object
    [fld "pod_uid" (json_string (tp_PodUID p)); fld "pod_spec_hash" (json_string (tp_PodSpecHash p));
     fld "image_digest" (json_string (tp_ImageDigest p)); fld "model_digest" (json_string (tp_ModelDigest p));
     fld "node_identity" (json_string (tp_NodeIdentity p)); omit_string "gpu_identity" (tp_GPUIdentity p);
     fld "runtime_class" (json_string (tp_RuntimeClass p)); fld "evidence_hash" (json_string (tp_EvidenceHash p));
     fld "policy_hash" (json_string (tp_PolicyHash p)); omit_string "key_identifier" (tp_KeyIdentifier p);
     fld "issued_at" (json_int (tp_IssuedAt p)); fld "expires_at" (json_int (tp_ExpiresAt p))].
Definition Encode (t : Token) : string :=
  json_object [fld "payload" (payload_json (tok_Payload t)); fld "signature" (json_string (tok_Signature t))].

Definition payload_fields : list string :=
  ["pod_uid"; "pod_spec_hash"; "image_digest"; "model_digest"; "node_identity"; "gpu_identity"; "runtime_class";
   "evidence_hash"; "policy_hash"; "key_identifier"; "issued_at"; "expires_at"]%string.
Definition set_string (old : string) (v : jvalue) (set : string -> Payload) : result Payload :=
  match decode_string old v with Ok s => Ok (set s) | Err m => Err m end.
Definition set_int (old : Z) (v : jvalue) (set : Z -> Payload) : result Payload :=
  match decode_int64 old v with Ok z => Ok (set z) | Err m => Err m end.
Definition set_payload_field (name : string) (v : jvalue) (p : Payload) : result Payload :=
  if String.eqb name "pod_uid" then set_string (tp_PodUID p) v (fun s => p <| tp_PodUID := s |>)
  else if String.eqb name "pod_spec_hash" then set_string (tp_PodSpecHash p) v (fun s => p <| tp_PodSpecHash := s |>)
  else if String.eqb name "image_digest" then set_string (tp_ImageDigest p) v (fun s => p <| tp_ImageDigest := s |>)
  else if String.eqb name "model_digest" then set_string (tp_ModelDigest p) v (fun s => p <| tp_ModelDigest := s |>)
  else if String.eqb name "node_identity" then set_string (tp_NodeIdentity p) v (fun s => p <| tp_NodeIdentity := s |>)
  else if String.eqb name "gpu_identity" then set_string (tp_GPUIdentity p) v (fun s => p <| tp_GPUIdentity := s |>)
  else if String.eqb name "runtime_class" then set_string (tp_RuntimeClass p) v (fun s => p <| tp_RuntimeClass := s |>)
  else if String.eqb name "evidence_hash" then set_string (tp_EvidenceHash p) v (fun s => p <| tp_EvidenceHash := s |>)
  else if String.eqb name "policy_hash" then set_string (tp_PolicyHash p) v (fun s => p <| tp_PolicyHash := s |>)
  else if String.eqb name "key_identifier" then set_string (tp_KeyIdentifier p) v (fun s => p <| tp_KeyIdentifier := s |>)
  else if String.eqb name "issued_at" then set_int (tp_IssuedAt p) v (fun z => p <| tp_IssuedAt := z |>)
  else set_int (tp_ExpiresAt p) v (fun z => p <| tp_ExpiresAt := z |>).
Definition set_token_field (name : string) (v : jvalue) (t : Token) : result Token :=
  if String.eqb name "payload" then
    match decode_struct payload_fields set_payload_field (tok_Payload t) v with
    | Ok p => Ok (t <| tok_Payload := p |>)
    | Err m => Err m
    end
  else match decode_string (tok_Signature t) v with Ok s => Ok (t <| tok_Signature := s |>) | Err m => Err m end.
Definition decode_token (raw : string) : result Token :=
  match json_parse raw with
  | None => Err json_error
  | Some v => decode_struct ["payload"; "signature"]%string set_token_field zero_token v
  end.

(** [t.Unix()]. *)
Definition Unix (t : Time) : Z := t / Second.

Record MintOptions : Type := Build_MintOptions { mo_GPUIdentity : string; mo_KeyIdentifier : string }.

Section tokens.
Context `{Ed25519}.
(** The text of the error [json.Unmarshal] gives for a malformed token. *)
Context (decode_error_text : string -> string).

Definition Mint (now : Time) (priv : option private_key) (podUID podSpecHash imageDigest modelDigest nodeIdentity runtimeClass
    evidenceHash policyHash : string) (ttl : Duration) (opts : MintOptions) : result Token :=
  match priv with
  | None => Err "private key is nil"
  | Some key =>
    if blank podUID then Err "podUID is required"
    else
      let payload := Build_Payload podUID podSpecHash imageDigest modelDigest nodeIdentity (mo_GPUIdentity opts) runtimeClass
        evidenceHash policyHash (mo_KeyIdentifier opts) (Unix now) (Unix (time_add now ttl)) in
      Ok (Build_Token payload (Ed25519Sign key (payload_json payload)))
  end.

Definition Verify (now : Time) (pub : option public_key) (tok : Token) : option error :=
  match pub with
  | None => Some "public key is nil"
  | Some key =>
    if tp_ExpiresAt (tok_Payload tok) <? Unix now then Some "token expired"
    else match Ed25519Verify key (payload_json (tok_Payload tok)) (tok_Signature tok) with
    | Err m => Some ("verify token signature: " +:+ m)
    | Ok ok => if ok then None else Some "token signature invalid"
    end
  end.

Definition VerifyForPod (now : Time) (pub : option public_key) (tok : Token) (podUID podSpecHash nodeIdentity evidenceHash policyHash : string)
    : option error :=
  let p := tok_Payload tok in
  match Verify now pub tok with
  | Some e => Some e
  | None =>
    if negb (String.eqb (tp_PodUID p) podUID)
    then Some ("pod UID mismatch: token=" +:+ Quote (tp_PodUID p) +:+ " request=" +:+ Quote podUID)
    else if negb (String.eqb podSpecHash "") && negb (String.eqb (tp_PodSpecHash p) podSpecHash) then Some "pod spec hash mismatch"
    else if negb (String.eqb nodeIdentity "") && negb (String.eqb (tp_NodeIdentity p) nodeIdentity) then Some "node identity mismatch"
    else if negb (String.eqb evidenceHash "") && negb (String.eqb (tp_EvidenceHash p) evidenceHash) then Some "evidence hash mismatch"
    else if negb (String.eqb policyHash "") && negb (String.eqb (tp_PolicyHash p) policyHash) then Some "policy hash mismatch"
    else None
  end.

Definition Decode (raw : string) : result Token :=
  match decode_token raw with
  | Ok t => Ok t
  | Err _ => Err ("decode token: " +:+ decode_error_text raw)
  end.
End tokens.
