(* ===== verification/KeyRelease.v ===== *)
(** * The decision to release a key

    [internal/keyrelease/keyrelease.go]: whether a workload gets its key, from the
    policy, the attestation evidence and the placement token of the request. The
    theorems compose it with the tokens of Tokens.v: which requests are granted,
    that a minted token is good until it expires, and what a token binds. *)

From Stdlib Require Import ZArith Lia Ascii String.
From stdpp Require Import base gmap strings list pretty.
From S2P Require Import Prelude Digest GoTime Json JsonDecode PlatformCrypto Tokens.

Open Scope string_scope.
Open Scope list_scope.
Open Scope Z_scope.
Open Scope go_scope.

(** ** Reasons *)

Definition ReasonAllowed : string := "ALLOWED".
Definition ReasonPolicyNotRequired : string := "POLICY_NOT_REQUIRED".
Definition ReasonEvidenceRevoked : string := "EVIDENCE_REVOKED".
Definition ReasonEvidenceExpired : string := "EVIDENCE_EXPIRED".
Definition ReasonEvidenceNotVerified : string := "EVIDENCE_NOT_VERIFIED".
Definition ReasonTokenInvalid : string := "TOKEN_INVALID".
Definition ReasonTokenExpired : string := "TOKEN_EXPIRED".
Definition ReasonPodUIDMismatch : string := "POD_UID_MISMATCH".
Definition ReasonModelDigestMismatch : string := "MODEL_DIGEST_MISMATCH".
Definition ReasonImageDigestMismatch : string := "IMAGE_DIGEST_MISMATCH".
Definition ReasonPolicyHashMismatch : string := "POLICY_HASH_MISMATCH".
Definition ReasonRevocationActive : string := "REVOCATION_ACTIVE".
Definition ReasonTTLInvalid : string := "TTL_INVALID".
Definition ReasonAuditRequired : string := "AUDIT_REQUIRED_NOT_MET".

Record Response : Type := Build_Response {
  resp_Allowed : bool;
  resp_Reason : string;
  resp_KeyMaterialRef : string;
  resp_TTLSeconds : Z
}.
Definition deny (reason : string) : Response := Build_Response false reason "" 0.

Section keyrelease.
Context `{Ed25519}.
Context (decode_error_text : string -> string).

(** The fields that [Evaluate] reads. *)
Record Request : Type := Build_Request {
  kr_PodUID : string;
  kr_KeyID : string;
  kr_ModelDigest : string;
  kr_ImageDigest : string;
  kr_PolicyHash : string;
  kr_EvidenceHash : string;
  kr_PlacementToken : string;
  kr_EvidenceVerified : bool;
  kr_EvidenceRevoked : bool;
  kr_EvidenceLastSeen : Time;
  kr_MaxEvidenceAgeSecs : Z;
  kr_PolicyRequired : bool;
  kr_PolicyTTLSeconds : Z;
  kr_PolicyAuditRequired : bool;
  kr_RevocationActive : bool;
  kr_TokenPublicKey : option public_key
}.

Definition mismatch (what token request : string) : error :=
  what +:+ " mismatch: token=" +:+ Quote token +:+ " request=" +:+ Quote request.
(** A binding that neither side leaves open, and that differs. *)
Definition unbound (token request : string) : bool :=
  negb (String.eqb request "") && negb (String.eqb token "") && negb (String.eqb token request).

Definition verifyToken (now : Time) (req : Request) : option error :=
  match Decode decode_error_text (kr_PlacementToken req) with
  | Err m => Some ("decode placement token: " +:+ m)
  | Ok tok =>
    match (match kr_TokenPublicKey req with Some key => Verify now (Some key) tok | None => None end) with
    | Some e => Some e
    | None =>
      let p := tok_Payload tok in
      if negb (String.eqb (kr_PodUID req) "") && negb (String.eqb (tp_PodUID p) (kr_PodUID req))
      then Some (mismatch "pod UID" (tp_PodUID p) (kr_PodUID req))
      else if unbound (tp_ModelDigest p) (kr_ModelDigest req)
      then Some (mismatch "model digest" (tp_ModelDigest p) (kr_ModelDigest req))
      else if unbound (tp_ImageDigest p) (kr_ImageDigest req)
      then Some (mismatch "image digest" (tp_ImageDigest p) (kr_ImageDigest req))
      else if unbound (tp_PolicyHash p) (kr_PolicyHash req)
      then Some (mismatch "policy hash" (tp_PolicyHash p) (kr_PolicyHash req))
      else None
    end
  end.

(** The reason reported for an error of [verifyToken]: by what its text contains. *)
Definition token_reason (err : error) : string :=
  if Contains err "expired" then ReasonTokenExpired
  else if Contains err "pod UID mismatch" then ReasonPodUIDMismatch
  else if Contains err "model" then ReasonModelDigestMismatch
  else if Contains err "image" then ReasonImageDigestMismatch
  else if Contains err "policy" then ReasonPolicyHashMismatch
  else ReasonTokenInvalid.

Definition evidence_too_old (now lastSeen : Time) (maxAgeSecs : Z) : bool :=
  (0 <? maxAgeSecs) && negb (IsZero lastSeen) && (maxAgeSecs * Second <? time_sub now lastSeen).

Definition Evaluate (now : Time) (req : Request) : Response :=
  if negb (kr_PolicyRequired req) then Build_Response true ReasonPolicyNotRequired "" (kr_PolicyTTLSeconds req)
  else if kr_PolicyTTLSeconds req <=? 0 then deny ReasonTTLInvalid
  else if kr_RevocationActive req then deny ReasonRevocationActive
  else if kr_EvidenceRevoked req then deny ReasonEvidenceRevoked
  else if negb (kr_EvidenceVerified req) then deny ReasonEvidenceNotVerified
  else if evidence_too_old now (kr_EvidenceLastSeen req) (kr_MaxEvidenceAgeSecs req) then deny ReasonEvidenceExpired
  else match (if negb (String.eqb (kr_PlacementToken req) "") then verifyToken now req else None) with
  | Some e => deny (token_reason e)
  | None =>
    if kr_PolicyAuditRequired req && blank (kr_EvidenceHash req) then deny ReasonAuditRequired
    else Build_Response true ReasonAllowed ("key://" +:+ kr_KeyID req) (kr_PolicyTTLSeconds req)
  end.
End keyrelease.
Arguments Request {H}.

(** ** Tokens survive their encoding *)

Definition member (name value : string) : list (string * jvalue) := [(name, JString value)].
Definition optional_member (name value : string) : list (string * jvalue) :=
  if String.eqb value "" then [] else [(name, JString value)].
Definition payload_value (p : Payload) : jvalue :=
  JObject (member "pod_uid" (tp_PodUID p) ++ member "pod_spec_hash" (tp_PodSpecHash p) ++ member "image_digest" (tp_ImageDigest p)
    ++ member "model_digest" (tp_ModelDigest p) ++ member "node_identity" (tp_NodeIdentity p)
    ++ optional_member "gpu_identity" (tp_GPUIdentity p) ++ member "runtime_class" (tp_RuntimeClass p)
    ++ member "evidence_hash" (tp_EvidenceHash p) ++ member "policy_hash" (tp_PolicyHash p)
    ++ optional_member "key_identifier" (tp_KeyIdentifier p)
    ++ [("issued_at"%string, JNumber (pretty (tp_IssuedAt p))); ("expires_at"%string, JNumber (pretty (tp_ExpiresAt p)))]).
Definition token_value (t : Token) : jvalue :=
  JObject [("payload"%string, payload_value (tok_Payload t)); ("signature"%string, JString (tok_Signature t))].

Lemma payload_json_text p : payload_json p = jtext (payload_value p).
Proof.
  unfold payload_json, payload_value. rewrite json_object_text. cbn [jtext]. do 3 f_equal.
  unfold optional_member, omit_string, member, fld, json_int.
  destruct (String.eqb (tp_GPUIdentity p) ""), (String.eqb (tp_KeyIdentifier p) ""); reflexivity.
Qed.
Lemma Encode_text t : Encode t = jtext (token_value t).
Proof. unfold Encode, token_value. rewrite json_object_text, payload_json_text. reflexivity. Qed.

(** The texts the platform writes into tokens: ASCII, and times in 64 bits. *)
Definition plain_payload (p : Payload) : bool :=
  ascii_string (tp_PodUID p) && ascii_string (tp_PodSpecHash p) && ascii_string (tp_ImageDigest p) && ascii_string (tp_ModelDigest p)
  && ascii_string (tp_NodeIdentity p) && ascii_string (tp_GPUIdentity p) && ascii_string (tp_RuntimeClass p)
  && ascii_string (tp_EvidenceHash p) && ascii_string (tp_PolicyHash p) && ascii_string (tp_KeyIdentifier p)
  && is_int64 (tp_IssuedAt p) && is_int64 (tp_ExpiresAt p).
Definition plain_token (t : Token) : bool := plain_payload (tok_Payload t) && ascii_string (tok_Signature t).

Lemma payload_value_ok depth p : depth + 1 <= maxNestingDepth -> plain_payload p = true -> jok depth (payload_value p) = true.
Proof.
  unfold plain_payload, payload_value, member, optional_member. intros Hd Hp. bool_to_prop. cbn [jok].
  rewrite (proj2 (Z.leb_le _ _)) by done. cbn [andb].
  destruct (String.eqb (tp_GPUIdentity p) ""), (String.eqb (tp_KeyIdentifier p) ""); cbn [app forallb jok];
    repeat match goal with Hx : ascii_string ?s = true |- _ => rewrite Hx; clear Hx end; rewrite !integer_pretty; reflexivity.
Qed.

Lemma decode_payload_value p : plain_payload p = true ->
  decode_struct payload_fields set_payload_field zero_payload (payload_value p) = Ok p.
Proof.
  unfold plain_payload. intros Hp. bool_to_prop.
  assert (Hi : forall old, decode_int64 old (JNumber (pretty (tp_IssuedAt p))) = Ok (tp_IssuedAt p)).
  { intros old. unfold decode_int64. by rewrite parse_int64_pretty. }
  assert (He : forall old, decode_int64 old (JNumber (pretty (tp_ExpiresAt p))) = Ok (tp_ExpiresAt p)).
  { intros old. unfold decode_int64. by rewrite parse_int64_pretty. }
  destruct p as [uid spec img mdl node gpu rc ev pol key iss exp]. cbn [tp_GPUIdentity tp_KeyIdentifier tp_IssuedAt tp_ExpiresAt] in Hi, He.
  unfold payload_value, member, optional_member.
  cbn [tp_PodUID tp_PodSpecHash tp_ImageDigest tp_ModelDigest tp_NodeIdentity tp_GPUIdentity tp_RuntimeClass tp_EvidenceHash
       tp_PolicyHash tp_KeyIdentifier tp_IssuedAt tp_ExpiresAt].
  revert Hi He. generalize (JNumber (pretty iss)) (JNumber (pretty exp)). intros vi ve Hi He.
  destruct (String.eqb_spec gpu "") as [->|_], (String.eqb_spec key "") as [->|_];
    cbn -[decode_int64]; unfold set_int; rewrite Hi; cbn -[decode_int64]; rewrite He; reflexivity.
Qed.

Lemma Decode_Encode f t : plain_token t = true -> Decode f (Encode t) = Ok t.
Proof.
  unfold plain_token. intros [Hp Hs]%andb_prop. unfold Decode, decode_token.
  rewrite Encode_text, json_parse_jtext; [|unfold token_value; cbn [jok forallb]; rewrite payload_value_ok, Hs; done].
  unfold token_value. cbn [decode_struct decode_members].
  change (field_named ["payload"; "signature"]%string "payload") with (Some "payload"%string).
  change (field_named ["payload"; "signature"]%string "signature") with (Some "signature"%string). cbv iota.
  unfold set_token_field at 1. change (String.eqb "payload" "payload") with true. cbv iota.
  change (tok_Payload zero_token) with zero_payload. rewrite decode_payload_value by done.
  unfold set_token_field. change (String.eqb "signature" "payload") with false. cbv iota. by destruct t.
Qed.

(** What a signature covers: two payloads with one text are equal. *)
Lemma payload_json_inj p q : plain_payload p = true -> plain_payload q = true -> payload_json p = payload_json q -> p = q.
Proof.
  intros Hp Hq E. rewrite !payload_json_text in E. apply (f_equal json_parse) in E.
  rewrite !json_parse_jtext in E by (by apply payload_value_ok). apply Some_inj in E.
  pose proof (decode_payload_value p Hp) as Ep. rewrite E, decode_payload_value in Ep by done. congruence.
Qed.

(** ** When a key is released *)

Section decisions.
Context `{Ed25519}.
Context (decode_error_text : string -> string).

(** What a token must satisfy for a request at a time. *)
Definition signature_valid (pub : option public_key) (now : Time) (tok : Token) : Prop :=
  match pub with
  | Some key => Unix now <= tp_ExpiresAt (tok_Payload tok) /\
                Ed25519Verify key (payload_json (tok_Payload tok)) (tok_Signature tok) = Ok true
  | None => True
  end.
Definition binds (token request : string) : Prop := request = "" \/ token = "" \/ token = request.
Definition token_fits (now : Time) (req : Request) (tok : Token) : Prop :=
  signature_valid (kr_TokenPublicKey req) now tok /\
  (kr_PodUID req = "" \/ tp_PodUID (tok_Payload tok) = kr_PodUID req) /\
  binds (tp_ModelDigest (tok_Payload tok)) (kr_ModelDigest req) /\
  binds (tp_ImageDigest (tok_Payload tok)) (kr_ImageDigest req) /\
  binds (tp_PolicyHash (tok_Payload tok)) (kr_PolicyHash req).

Lemma Verify_None now key tok : Verify now (Some key) tok = None <-> signature_valid (Some key) now tok.
Proof.
  unfold Verify, signature_valid. destruct (Z.ltb_spec (tp_ExpiresAt (tok_Payload tok)) (Unix now)); [split; [done | lia]|].
  destruct (Ed25519Verify _ _ _) as [[]|]; split; try done; intros [_ E]; discriminate E.
Qed.

Lemma unbound_false token request : unbound token request = false <-> binds token request.
Proof.
  unfold unbound, binds. destruct (String.eqb_spec request ""), (String.eqb_spec token ""), (String.eqb_spec token request);
    cbn; intuition congruence.
Qed.

Lemma verifyToken_None now req : verifyToken decode_error_text now req = None <->
  exists tok, Decode decode_error_text (kr_PlacementToken req) = Ok tok /\ token_fits now req tok.
Proof.
  unfold verifyToken, token_fits. destruct (Decode _ _) as [tok|m]; [|split; [discriminate | by intros (? & ? & _)]].
  set (sig := match kr_TokenPublicKey req with Some _ => _ | None => _ end).
  assert (Hsig : sig = None <-> signature_valid (kr_TokenPublicKey req) now tok).
  { unfold sig. destruct (kr_TokenPublicKey req); [apply Verify_None | done]. }
  clearbody sig. transitivity (signature_valid (kr_TokenPublicKey req) now tok /\
    (kr_PodUID req = "" \/ tp_PodUID (tok_Payload tok) = kr_PodUID req) /\ binds (tp_ModelDigest (tok_Payload tok)) (kr_ModelDigest req) /\
    binds (tp_ImageDigest (tok_Payload tok)) (kr_ImageDigest req) /\ binds (tp_PolicyHash (tok_Payload tok)) (kr_PolicyHash req)).
  - rewrite <- Hsig, <- !unbound_false. destruct sig; [split; [discriminate | by intros [? _]]|].
    destruct (String.eqb_spec (kr_PodUID req) ""), (String.eqb_spec (tp_PodUID (tok_Payload tok)) (kr_PodUID req)),
      (unbound (tp_ModelDigest _) _), (unbound (tp_ImageDigest _) _), (unbound (tp_PolicyHash _) _); cbn [negb andb];
      split; try discriminate; intuition (discriminate || congruence).
  - split; [intros Hf; by exists tok | intros (t & E & Hf); by injection E as ->].
Qed.

(** C31: when a key is released: exactly when the policy does not require the checks, or
    when its lifetime is positive, no revocation is active, the evidence is verified,
    not revoked and not too old, the audit evidence it asks for is there, and the
    placement token, if one is given, decodes to a token of this pod, model, image
    and policy whose signature is valid and unexpired. *)
Theorem key_release_conditions now req :
  resp_Allowed (Evaluate decode_error_text now req) = true <->
  kr_PolicyRequired req = false \/
  (0 < kr_PolicyTTLSeconds req /\ kr_RevocationActive req = false /\ kr_EvidenceRevoked req = false /\ kr_EvidenceVerified req = true /\
   evidence_too_old now (kr_EvidenceLastSeen req) (kr_MaxEvidenceAgeSecs req) = false /\
   (kr_PlacementToken req = "" \/
    exists tok, Decode decode_error_text (kr_PlacementToken req) = Ok tok /\ token_fits now req tok) /\
   (kr_PolicyAuditRequired req = true -> blank (kr_EvidenceHash req) = false)).
Proof.
  rewrite <- verifyToken_None. unfold Evaluate.
  destruct (kr_PolicyRequired req); cbn [negb]; [|split; [by left | done]].
  destruct (Z.leb_spec (kr_PolicyTTLSeconds req) 0); [split; [discriminate | intros [?|[? _]]; [discriminate | lia]]|].
  destruct (kr_RevocationActive req); [split; [discriminate | intuition discriminate]|].
  destruct (kr_EvidenceRevoked req); [split; [discriminate | intuition discriminate]|].
  destruct (kr_EvidenceVerified req); cbn [negb]; [|split; [discriminate | intuition discriminate]].
  destruct (evidence_too_old _ _ _); [split; [discriminate | intuition discriminate]|].
  destruct (String.eqb_spec (kr_PlacementToken req) ""), (verifyToken _ now req), (kr_PolicyAuditRequired req), (blank (kr_EvidenceHash req));
    cbn; split; try discriminate; intuition (discriminate || congruence).
Qed.

(** ** Minted tokens *)

Context `{!Ed25519Laws}.

Lemma Mint_ok now key uid spec img mdl node rc ev pol ttl opts tok :
  Mint now (Some key) uid spec img mdl node rc ev pol ttl opts = Ok tok ->
  tok_Payload tok = Build_Payload uid spec img mdl node (mo_GPUIdentity opts) rc ev pol (mo_KeyIdentifier opts) (Unix now) (Unix (time_add now ttl)) /\
  tok_Signature tok = Ed25519Sign key (payload_json (tok_Payload tok)).
Proof. unfold Mint. destruct (blank uid); [discriminate|]. intros E. by injection E as <-. Qed.

Lemma minted_signature_valid now at_ key uid spec img mdl node rc ev pol ttl opts tok :
  Mint now (Some key) uid spec img mdl node rc ev pol ttl opts = Ok tok -> Unix at_ <= Unix (time_add now ttl) ->
  signature_valid (Some (public_of key)) at_ tok.
Proof.
  intros [Hp Hs]%Mint_ok Ha. unfold signature_valid. rewrite Hs, signature_verifies. by rewrite Hp.
Qed.

(** a minted token is good until it expires: a request that presents it, encoded,
    for the same pod, model, image and policy gets its key at any time up to the
    expiry second, provided its policy and its evidence allow it. *)
Theorem minted_token_releases_key now at_ key uid spec img mdl node rc ev pol ttl opts tok req :
  Mint now (Some key) uid spec img mdl node rc ev pol ttl opts = Ok tok -> plain_token tok = true ->
  Unix at_ <= Unix (time_add now ttl) ->
  kr_PlacementToken req = Encode tok -> kr_TokenPublicKey req = Some (public_of key) ->
  kr_PodUID req = uid -> kr_ModelDigest req = mdl -> kr_ImageDigest req = img -> kr_PolicyHash req = pol ->
  kr_PolicyRequired req = true -> 0 < kr_PolicyTTLSeconds req -> kr_RevocationActive req = false ->
  kr_EvidenceRevoked req = false -> kr_EvidenceVerified req = true ->
  evidence_too_old at_ (kr_EvidenceLastSeen req) (kr_MaxEvidenceAgeSecs req) = false -> blank (kr_EvidenceHash req) = false ->
  Evaluate decode_error_text at_ req = Build_Response true ReasonAllowed ("key://" +:+ kr_KeyID req) (kr_PolicyTTLSeconds req).
Proof.
  intros Hm Hplain Ha Ht Hk Hu Hmd Hi Hpol Hr Httl Hrev Her Hev Hage Hb.
  assert (Hv : verifyToken decode_error_text at_ req = None).
  { apply verifyToken_None. exists tok. rewrite Ht, Decode_Encode by done. split; [done|].
    pose proof (minted_signature_valid _ _ _ _ _ _ _ _ _ _ _ _ _ _ Hm Ha) as Hs. apply Mint_ok in Hm as [Hp _].
    unfold token_fits, binds. rewrite Hk, Hp, Hu, Hmd, Hi, Hpol. cbn. repeat split; auto; apply Hs. }
  unfold Evaluate. rewrite Hr, Hrev, Her, Hev, Hage, Hv, Hb, (proj2 (Z.leb_gt _ _)) by done. cbn [negb].
  rewrite andb_false_r. by destruct (negb _).
Qed.

(** a token is bound by its signature: a token that carries the signature of a
    minted token and is accepted has the minted payload, whatever pod, node or
    evidence it is presented for, or the signature verifies for two messages. *)
Theorem token_cannot_be_rebound now at_ key uid spec img mdl node rc ev pol ttl opts tok forged :
  Mint now (Some key) uid spec img mdl node rc ev pol ttl opts = Ok tok -> plain_token tok = true -> plain_token forged = true ->
  tok_Signature forged = tok_Signature tok -> Verify at_ (Some (public_of key)) forged = None ->
  tok_Payload forged = tok_Payload tok \/
  (exists m1 m2 sig, m1 <> m2 /\ Ed25519Verify (public_of key) m1 sig = Ok true /\ Ed25519Verify (public_of key) m2 sig = Ok true).
Proof.
  intros [_ Hs]%Mint_ok [Hp _]%andb_prop [Hq _]%andb_prop Hsig [_ Hv]%Verify_None.
  destruct (decide (payload_json (tok_Payload forged) = payload_json (tok_Payload tok))) as [E|E].
  - left. by apply payload_json_inj.
  - right. exists (payload_json (tok_Payload forged)), (payload_json (tok_Payload tok)), (tok_Signature tok).
    split; [done|]. rewrite <- Hsig at 1. split; [done|]. by rewrite Hs, signature_verifies.
Qed.
End decisions.

(** ** Concrete requests *)

Module KeyReleaseExample.
Import SharedKey.
#[local] Existing Instance mac_scheme.
Definition now : Time := 1700000000 * Second.
Definition secret : @private_key mac_scheme := "node-signing-key"%string.
Definition json_text (_ : string) : string := "invalid character 'x' looking for beginning of value".
Definition minted : Token := Eval vm_compute in
  result_or zero_token (Mint now (Some secret) "pod-uid-1" "spec" "registry/model-server:v1" "sha256:m" "node-1" "kata-tdx" "evidence" "policy"
    (5 * Minute) (Build_MintOptions "" "")).
Definition request (token image : string) : Request := Build_Request
  "pod-uid-1" "key-1" "sha256:m" image "policy" "evidence" token true false now 300 true 60 true false (Some (public_of secret)).
End KeyReleaseExample.
Import KeyReleaseExample SharedKey.

Lemma example_minted : Mint now (Some secret) "pod-uid-1" "spec" "registry/model-server:v1" "sha256:m" "node-1" "kata-tdx" "evidence" "policy"
  (5 * Minute) (Build_MintOptions "" "") = Ok minted.
Proof. vm_compute. reflexivity. Qed.
Lemma example_plain : plain_token minted = true.
Proof. vm_compute. reflexivity. Qed.

Lemma minted_token_releases_key_witness :
  Evaluate json_text (now + 4 * Minute) (request (Encode minted) "registry/model-server:v1") =
  Build_Response true ReasonAllowed "key://key-1" 60.
Proof.
  refine (minted_token_releases_key json_text now (now + 4 * Minute) secret _ _ _ _ _ _ _ _ _ _ minted
    (request (Encode minted) "registry/model-server:v1") example_minted example_plain _ eq_refl eq_refl eq_refl eq_refl eq_refl eq_refl
    eq_refl eq_refl eq_refl eq_refl eq_refl _ eq_refl).
  - vm_compute. discriminate.
  - vm_compute. reflexivity.
Defined.

Lemma token_cannot_be_rebound_witness :
  tok_Payload minted = tok_Payload minted \/
  (exists m1 m2 sig, m1 <> m2 /\ Ed25519Verify (public_of secret) m1 sig = Ok true /\ Ed25519Verify (public_of secret) m2 sig = Ok true).
Proof.
  apply (token_cannot_be_rebound now (now + Minute) secret _ _ _ _ _ _ _ _ _ _ minted minted example_minted example_plain example_plain eq_refl).
  apply Verify_None. apply (minted_signature_valid now (now + Minute) secret _ _ _ _ _ _ _ _ _ _ minted example_minted).
  vm_compute. discriminate.
Defined.

(** A token for another image is refused with the wrong reason when the name of an
    image contains the word "model". *)
Lemma image_mismatch_reported_as_model :
  verifyToken json_text now (request (Encode minted) "registry/other:v2") =
    Some (mismatch "image digest" "registry/model-server:v1" "registry/other:v2") /\
  resp_Reason (Evaluate json_text now (request (Encode minted) "registry/other:v2")) = ReasonModelDigestMismatch.
Proof. split; vm_compute; reflexivity. Qed.
