(* ===== verification/Resources.v ===== *)
(** * Workload bindings, change requests and the Kubernetes API

    The custom resources of [api/v1alpha1] that give a workload its governance
    identity ([AIWorkloadBinding]) and that authorize a route ([AIChangeRequest]),
    with the digests that bind a proposal, its scope and its decision. The
    Kubernetes client is a record of the answers its reads get while a call runs;
    [metav1.Time] is written as JSON by the library, a parameter. *)

From Stdlib Require Import ZArith Lia Ascii String.
From stdpp Require Import base gmap strings list pretty.
From S2P Require Import Prelude Digest GoTime Api Json JsonDecode Routes.

Open Scope string_scope.
Open Scope list_scope.
Open Scope Z_scope.
Open Scope go_scope.

(** ** AIWorkloadBinding *)

(** [AIWorkloadBindingResolvedReference]. *)
Record ResolvedReference : Type := Build_ResolvedReference { rf_Name : string; rf_UID : string; rf_Generation : Z }.
#[export] Instance ResolvedReference_eq_dec : EqDecision ResolvedReference.
Proof. solve_decision. Defined.

Record AIWorkloadBindingSpec : Type := Build_AIWorkloadBindingSpec {
  wb_ServiceAccountName : string;
  wb_TenantID : string;
  wb_Team : string;
  wb_Application : string;
  wb_BudgetPolicyRef : string;
  wb_RoutingPolicyRef : string;
  wb_Sensitivity : string;
  wb_AllowedZones : list string;
  wb_RequireGateway : bool
}.
Record AIWorkloadBindingStatus : Type := Build_AIWorkloadBindingStatus {
  wbs_ObservedGeneration : Z;
  wbs_ResolvedServiceAccountUID : string;
  wbs_ResolvedBudgetPolicy : option ResolvedReference;
  wbs_ResolvedRoutingPolicy : option ResolvedReference;
  wbs_Conditions : list Condition
}.
Record AIWorkloadBinding : Type := Build_AIWorkloadBinding {
  wbind_Meta : ObjectMeta;
  wbind_Spec : AIWorkloadBindingSpec;
  wbind_Status : AIWorkloadBindingStatus
}.
#[export] Instance wbs_eta : Eta AIWorkloadBindingStatus := fun s =>
  Build_AIWorkloadBindingStatus (wbs_ObservedGeneration s) (wbs_ResolvedServiceAccountUID s) (wbs_ResolvedBudgetPolicy s)
    (wbs_ResolvedRoutingPolicy s) (wbs_Conditions s).
#[export] Instance wbind_eta : Eta AIWorkloadBinding := fun b =>
  Build_AIWorkloadBinding (wbind_Meta b) (wbind_Spec b) (wbind_Status b).

(** The zones of a specification, each with the reports it causes. *)
Fixpoint zone_errors (seen : list string) (zones : list string) : list string :=
  match zones with
  | [] => []
  | zone :: rest =>
    let normalized := ToLower (TrimSpace zone) in
    (if String.eqb zone "" || negb (String.eqb zone normalized) then ["allowedZones: invalid"%string] else []) ++
    (if existsb (String.eqb normalized) seen then ["allowedZones: duplicate"%string] else []) ++
    zone_errors (normalized :: seen) rest
  end.
(** [AIWorkloadBindingSpec.Validate]: the fields it reports. *)
Definition AIWorkloadBindingSpec_Validate (s : AIWorkloadBindingSpec) (objectName : string) : list string :=
  omap (fun '(name, value) => if blank value then Some (name +:+ ": required") else None)
    [("serviceAccountName", wb_ServiceAccountName s); ("tenantID", wb_TenantID s); ("team", wb_Team s);
     ("application", wb_Application s); ("budgetPolicyRef", wb_BudgetPolicyRef s); ("routingPolicyRef", wb_RoutingPolicyRef s)]%string ++
  (if negb (String.eqb objectName (wb_ServiceAccountName s)) then ["serviceAccountName: invalid"%string] else []) ++
  (match wb_AllowedZones s with [] => ["allowedZones: required"%string] | _ => [] end) ++
  zone_errors [] (wb_AllowedZones s).

(** ** AIChangeRequest *)

Definition ActionReroute : string := "reroute".
Definition ActionAuthorizeGOVARRoute : string := "authorize-gov-ar-route".
Definition ApprovalPending : string := "Pending".
Definition ApprovalApproved : string := "Approved".
Definition ApprovalRejected : string := "Rejected".
Definition PhasePending : string := "Pending".
Definition PhaseApproved : string := "Approved".
Definition PhaseActuated : string := "Actuated".
Definition PhaseRejected : string := "Rejected".
Definition PhaseExpired : string := "Expired".
Definition PhaseFailed : string := "Failed".
Definition GOVARApprovalReviewerGroup : string := "aiops.imperium.io:gov-ar-approval-reviewers".

Record GOVARRouteApprovalScope : Type := Build_GOVARRouteApprovalScope {
  scope_RoutingPolicy : ResolvedReference;
  scope_Model : ResolvedReference;
  scope_Provider : ResolvedReference;
  scope_RouteSnapshotDigest : string;
  scope_ValidUntil : Time;
  scope_ScopeDigest : string
}.
Record GOVARRouteApprovalDecision : Type := Build_GOVARRouteApprovalDecision {
  rd_Outcome : string;
  rd_ReviewerIdentity : string;
  rd_ReviewerGroup : string;
  rd_DecidedAt : Time;
  rd_ValidUntil : Time;
  rd_RequestUID : string;
  rd_AdmissionUID : string;
  rd_ProposalDigest : string;
  rd_ScopeDigest : string;
  rd_DecisionDigest : string
}.
Record AIChangeRequestSpec : Type := Build_AIChangeRequestSpec {
  crs_Action : string;
  crs_SourceModel : string;
  crs_TargetModel : string;
  crs_GOVARRouteApproval : option GOVARRouteApprovalScope;
  crs_RequestedBy : string;
  crs_ProposalDigest : string;
  crs_GOVARDecision : option GOVARRouteApprovalDecision;
  crs_Reason : string;
  crs_ExpectedSavingEUR : string;
  crs_QualityScore : string;
  crs_LatencyImpact : string;
  crs_RiskLevel : string;
  crs_ExpiresAfter : string;
  crs_Approval : string
}.
Record AIChangeRequestStatus : Type := Build_AIChangeRequestStatus {
  crst_ObservedGeneration : Z;
  crst_Phase : string;
  crst_ApprovedAt : option Time;
  crst_ApprovedScopeDigest : string;
  crst_ApprovedDecisionDigest : string;
  crst_ApprovedBy : string;
  crst_ExpiresAt : option Time;
  crst_Conditions : list Condition
}.
Record AIChangeRequest : Type := Build_AIChangeRequest {
  crq_Meta : ObjectMeta;
  crq_CreationTimestamp : Time;
  crq_DeletionTimestamp : option Time;
  crq_Spec : AIChangeRequestSpec;
  crq_Status : AIChangeRequestStatus
}.
#[export] Instance scope_eq_dec : EqDecision GOVARRouteApprovalScope.
Proof. solve_decision. Defined.
#[export] Instance rd_eq_dec : EqDecision GOVARRouteApprovalDecision.
Proof. solve_decision. Defined.
#[export] Instance crs_eq_dec : EqDecision AIChangeRequestSpec.
Proof. solve_decision. Defined.
#[export] Instance scope_eta : Eta GOVARRouteApprovalScope := fun s =>
  Build_GOVARRouteApprovalScope (scope_RoutingPolicy s) (scope_Model s) (scope_Provider s) (scope_RouteSnapshotDigest s)
    (scope_ValidUntil s) (scope_ScopeDigest s).
#[export] Instance rd_eta : Eta GOVARRouteApprovalDecision := fun d =>
  Build_GOVARRouteApprovalDecision (rd_Outcome d) (rd_ReviewerIdentity d) (rd_ReviewerGroup d) (rd_DecidedAt d) (rd_ValidUntil d)
    (rd_RequestUID d) (rd_AdmissionUID d) (rd_ProposalDigest d) (rd_ScopeDigest d) (rd_DecisionDigest d).
#[export] Instance crs_eta : Eta AIChangeRequestSpec := fun s =>
  Build_AIChangeRequestSpec (crs_Action s) (crs_SourceModel s) (crs_TargetModel s) (crs_GOVARRouteApproval s) (crs_RequestedBy s)
    (crs_ProposalDigest s) (crs_GOVARDecision s) (crs_Reason s) (crs_ExpectedSavingEUR s) (crs_QualityScore s)
    (crs_LatencyImpact s) (crs_RiskLevel s) (crs_ExpiresAfter s) (crs_Approval s).
#[export] Instance crst_eta : Eta AIChangeRequestStatus := fun s =>
  Build_AIChangeRequestStatus (crst_ObservedGeneration s) (crst_Phase s) (crst_ApprovedAt s) (crst_ApprovedScopeDigest s)
    (crst_ApprovedDecisionDigest s) (crst_ApprovedBy s) (crst_ExpiresAt s) (crst_Conditions s).
#[export] Instance crq_eta : Eta AIChangeRequest := fun c =>
  Build_AIChangeRequest (crq_Meta c) (crq_CreationTimestamp c) (crq_DeletionTimestamp c) (crq_Spec c) (crq_Status c).

(** *** Digests *)

Definition domain (tag : string) : string := tag +:+ String zero EmptyString.
Definition member_if (present : bool) (name : string) (v : jvalue) : list (string * jvalue) :=
  if present then [(name, v)] else [].
(** An [omitempty] string. *)
Definition nonempty_member (name s : string) : list (string * jvalue) := member_if (negb (String.eqb s "")) name (JString s).

Section digests.
Context `{Crypto}.
(** [metav1.Time.MarshalJSON]. *)
Context (time_json : Time -> jvalue).

Definition reference_json (r : ResolvedReference) : jvalue :=
  JObject [("name", JString (rf_Name r)); ("uid", JString (rf_UID r)); ("generation", JNumber (pretty (rf_Generation r)))]%string.
Definition scope_json (s : GOVARRouteApprovalScope) : jvalue :=
  JObject [("routingPolicy", reference_json (scope_RoutingPolicy s)); ("model", reference_json (scope_Model s));
           ("provider", reference_json (scope_Provider s)); ("routeSnapshotDigest", JString (scope_RouteSnapshotDigest s));
           ("validUntil", time_json (scope_ValidUntil s)); ("scopeDigest", JString (scope_ScopeDigest s))]%string.
(** [GOVARRouteApprovalScope.ComputeDigest]. *)
Definition scope_digest (s : GOVARRouteApprovalScope) : string :=
  sha256_hex (domain "govar-route-approval-scope-v1" +:+ jtext (scope_json (s <| scope_ScopeDigest := ""%string |>))).

Definition decision_json (d : GOVARRouteApprovalDecision) : jvalue :=
  JObject [("outcome", JString (rd_Outcome d)); ("reviewerIdentity", JString (rd_ReviewerIdentity d));
           ("reviewerGroup", JString (rd_ReviewerGroup d)); ("decidedAt", time_json (rd_DecidedAt d));
           ("validUntil", time_json (rd_ValidUntil d)); ("requestUID", JString (rd_RequestUID d));
           ("admissionUID", JString (rd_AdmissionUID d)); ("proposalDigest", JString (rd_ProposalDigest d));
           ("scopeDigest", JString (rd_ScopeDigest d)); ("decisionDigest", JString (rd_DecisionDigest d))]%string.
(** [GOVARRouteApprovalDecision.ComputeDigest]. *)
Definition decision_digest (d : GOVARRouteApprovalDecision) (namespace name requestedBy : string) : string :=
  sha256_hex (domain "govar-route-approval-decision-v1" +:+
    jtext (JObject [("namespace", JString namespace); ("name", JString name); ("requestedBy", JString requestedBy);
                    ("decision", decision_json (d <| rd_DecisionDigest := ""%string |>))]%string)).

Definition proposal_json (s : AIChangeRequestSpec) (namespace name : string) : jvalue :=
  JObject ([("namespace", JString namespace); ("name", JString name); ("action", JString (crs_Action s))]%string ++
    nonempty_member "sourceModel" (crs_SourceModel s) ++ nonempty_member "targetModel" (crs_TargetModel s) ++
    (match crs_GOVARRouteApproval s with Some scope => [("govarRouteApproval"%string, scope_json scope)] | None => [] end) ++
    nonempty_member "reason" (crs_Reason s) ++ nonempty_member "expectedSavingEUR" (crs_ExpectedSavingEUR s) ++
    nonempty_member "qualityScore" (crs_QualityScore s) ++ nonempty_member "latencyImpact" (crs_LatencyImpact s) ++
    nonempty_member "riskLevel" (crs_RiskLevel s) ++ nonempty_member "expiresAfter" (crs_ExpiresAfter s) ++
    [("requestedBy"%string, JString (crs_RequestedBy s))]).
(** [AIChangeRequestSpec.ComputeProposalDigest]. *)
Definition proposal_digest (s : AIChangeRequestSpec) (namespace name : string) : string :=
  sha256_hex (domain "govar-route-approval-proposal-v1" +:+ jtext (proposal_json s namespace name)).

(** [AIChangeRequest.ValidateGOVARDecision]. *)
Definition ValidateGOVARDecision (c : AIChangeRequest) (now : Time) : option error :=
  let s := crq_Spec c in
  let ns := om_Namespace (crq_Meta c) in
  let name := om_Name (crq_Meta c) in
  match crs_GOVARRouteApproval s with
  | None => Some "GOV-AR route approval scope is absent"%string
  | Some scope =>
    if negb (String.eqb (crs_Action s) ActionAuthorizeGOVARRoute) then Some "GOV-AR route approval scope is absent"%string
    else if blank (crs_RequestedBy s) || negb (String.eqb (crs_ProposalDigest s) (proposal_digest s ns name))
    then Some "GOV-AR proposal identity or digest is invalid"%string
    else match crs_GOVARDecision s with
    | None => Some "GOV-AR decision is absent or inconsistent"%string
    | Some d =>
      if negb (String.eqb (rd_Outcome d) (crs_Approval s))
         || (negb (String.eqb (rd_Outcome d) ApprovalApproved) && negb (String.eqb (rd_Outcome d) ApprovalRejected))
      then Some "GOV-AR decision is absent or inconsistent"%string
      else if blank (rd_ReviewerIdentity d) || String.eqb (rd_ReviewerIdentity d) (crs_RequestedBy s)
              || negb (String.eqb (rd_ReviewerGroup d) GOVARApprovalReviewerGroup)
      then Some "GOV-AR requester and authorized reviewer are not distinct"%string
      else if String.eqb (om_UID (crq_Meta c)) "" || negb (String.eqb (rd_RequestUID d) (om_UID (crq_Meta c)))
              || String.eqb (rd_AdmissionUID d) "" || negb (String.eqb (rd_ProposalDigest d) (crs_ProposalDigest s))
              || negb (String.eqb (rd_ScopeDigest d) (scope_ScopeDigest scope)) || negb (rd_ValidUntil d =? scope_ValidUntil scope)
      then Some "GOV-AR decision object, proposal, scope, or expiry binding is invalid"%string
      else if negb (String.eqb (rd_DecisionDigest d) (decision_digest d ns name (crs_RequestedBy s)))
      then Some "GOV-AR decision digest is invalid"%string
      else if IsZero (rd_DecidedAt d) || After (rd_DecidedAt d) (time_add now (5 * Second))
              || negb (Before (rd_DecidedAt d) (rd_ValidUntil d)) || negb (Before now (rd_ValidUntil d))
      then Some "GOV-AR decision time or expiry is invalid"%string
      else None
    end
  end.
End digests.

(** ** The Kubernetes API *)

Record ServiceAccount : Type := Build_ServiceAccount { sa_Meta : ObjectMeta }.
(** What admission reads of a [corev1.Pod]. *)
Record LivePod : Type := Build_LivePod {
  lp_Meta : ObjectMeta;
  lp_ServiceAccountName : string;
  lp_Annotations : gmap string string;
  lp_Labels : gmap string string
}.

(** The answers of the API server to the reads of one call: [get ... namespace name]
    and [list ... namespace]. *)
Record KubeApi : Type := Build_KubeApi {
  get_LivePod : string -> string -> result LivePod;
  get_AIWorkloadBinding : string -> string -> result AIWorkloadBinding;
  get_ServiceAccount : string -> string -> result ServiceAccount;
  get_AIBudgetPolicy : string -> string -> result AIBudgetPolicy;
  get_AIRoutingPolicy : string -> string -> result AIRoutingPolicy;
  get_AIModel : string -> string -> result AIModel;
  get_AIProvider : string -> string -> result AIProvider;
  get_AIChangeRequest : string -> string -> result AIChangeRequest;
  list_LivePods : string -> result (list LivePod);
  list_AIModels : string -> result (list AIModel);
  list_AIProviders : string -> result (list AIProvider);
  list_AIChangeRequests : string -> result (list AIChangeRequest)
}.

(** A read gives objects of the namespace, and the name, it asked for. *)
Definition answers {A} (meta : A -> ObjectMeta) (get : string -> string -> result A) : Prop :=
  forall ns name x, get ns name = Ok x -> om_Namespace (meta x) = ns /\ om_Name (meta x) = name.
Definition lists {A} (meta : A -> ObjectMeta) (list_ : string -> result (list A)) : Prop :=
  forall ns l, list_ ns = Ok l -> Forall (fun x => om_Namespace (meta x) = ns) l.
Class KubeLaws (k : KubeApi) : Prop := {
  pod_answers : answers lp_Meta (get_LivePod k);
  binding_answers : answers wbind_Meta (get_AIWorkloadBinding k);
  budget_answers : answers bpol_Meta (get_AIBudgetPolicy k);
  routing_answers : answers rpol_Meta (get_AIRoutingPolicy k);
  change_answers : answers crq_Meta (get_AIChangeRequest k);
  pod_lists : lists lp_Meta (list_LivePods k);
  change_lists : lists crq_Meta (list_AIChangeRequests k)
}.

(** A fixed set of objects, read by name. *)
Definition get_among {A} (meta : A -> ObjectMeta) (l : list A) (ns name : string) : result A :=
  match List.find (fun x => String.eqb (om_Namespace (meta x)) ns && String.eqb (om_Name (meta x)) name) l with
  | Some x => Ok x
  | None => Err "not found"
  end.
Definition list_among {A} (meta : A -> ObjectMeta) (l : list A) (ns : string) : result (list A) :=
  Ok (List.filter (fun x => String.eqb (om_Namespace (meta x)) ns) l).

Lemma get_among_answers {A} (meta : A -> ObjectMeta) l : answers meta (get_among meta l).
Proof.
  intros ns name x. unfold get_among. destruct (List.find _ l) as [y|] eqn:E; [|discriminate]. intros [= <-].
  apply find_some in E as [_ E]. by apply andb_prop in E as [?%String.eqb_eq ?%String.eqb_eq].
Qed.

Lemma list_among_lists {A} (meta : A -> ObjectMeta) l : lists meta (list_among meta l).
Proof.
  intros ns m [= <-]. apply Forall_forall. intros x Hx. apply list_elem_of_In, filter_In in Hx as [_ Hx].
  by apply String.eqb_eq.
Qed.

(** [meta.SetStatusCondition] and [meta.IsStatusConditionTrue]. *)
Fixpoint SetStatusCondition (conditions : list Condition) (c : Condition) : list Condition :=
  match conditions with
  | [] => [c]
  | x :: rest => if String.eqb (cond_Type x) (cond_Type c) then c :: rest else x :: SetStatusCondition rest c
  end.
Definition IsStatusConditionTrue (conditions : list Condition) (type_ : string) : bool :=
  match List.find (fun x => String.eqb (cond_Type x) type_) conditions with
  | Some x => String.eqb (cond_Status x) ConditionTrue
  | None => false
  end.

Lemma IsStatusConditionTrue_set conditions type_ status :
  IsStatusConditionTrue (SetStatusCondition conditions (Build_Condition type_ status)) type_ = String.eqb status ConditionTrue.
Proof.
  unfold IsStatusConditionTrue. induction conditions as [|x l IH]; cbn [SetStatusCondition cond_Type].
  - cbn. by rewrite String.eqb_refl.
  - destruct (String.eqb_spec (cond_Type x) type_) as [E|E]; cbn [List.find cond_Type].
    + by rewrite String.eqb_refl.
    + by rewrite (proj2 (String.eqb_neq _ _) E).
Qed.
