(* ===== verification/ChangeApproval.v ===== *)
(** * Two-person approval of GOV-AR routes

    [internal/webhook/changeapproval]: the mutating and the validating webhook every
    write of an [AIChangeRequest] passes, and the part of
    [internal/controller/aichangerequest_controller.go] that turns an authenticated
    decision into approval evidence. A handler takes the clock reading of its call.
    The history of an object is a step relation: writes through both webhooks, and
    status updates, which leave the specification alone. *)

From Stdlib Require Import ZArith Lia Ascii String.
From stdpp Require Import base gmap strings list pretty relations.
From S2P Require Import Prelude Digest GoTime Api Json JsonDecode Pricing Routes Resources.

Open Scope string_scope.
Open Scope list_scope.
Open Scope Z_scope.
Open Scope go_scope.

(** ** Admission reviews *)

Definition OperationCreate : string := "CREATE".
Definition OperationUpdate : string := "UPDATE".

(** [admission.Request]: the objects are what decoding their bytes gives; [None] is
    an old object without bytes. *)
Record AdmissionRequest : Type := Build_AdmissionRequest {
  ar_Group : string;
  ar_Version : string;
  ar_Resource : string;
  ar_SubResource : string;
  ar_Operation : string;
  ar_UID : string;
  ar_Username : string;
  ar_Groups : list string;
  ar_Object : result AIChangeRequest;
  ar_OldObject : option (result AIChangeRequest)
}.
#[export] Instance ar_eta : Eta AdmissionRequest := fun r =>
  Build_AdmissionRequest (ar_Group r) (ar_Version r) (ar_Resource r) (ar_SubResource r) (ar_Operation r) (ar_UID r)
    (ar_Username r) (ar_Groups r) (ar_Object r) (ar_OldObject r).

(** [admission.Response]; [Patched] carries the object the patch produces. *)
Inductive AdmissionResponse : Type :=
| Allowed (reason : string)
| Denied (reason : string)
| Errored (code : Z) (message : string)
| Patched (object : AIChangeRequest).

Definition Matches (req : AdmissionRequest) : bool :=
  String.eqb (ar_Group req) "aiops.imperium.io" && String.eqb (ar_Version req) "v1alpha1" &&
  String.eqb (ar_Resource req) "aichangerequests" && String.eqb (ar_SubResource req) "".

Definition normalizeApproval (value : string) : string := if String.eqb value "" then ApprovalPending else value.
Definition is_pending (s : AIChangeRequestSpec) : bool := String.eqb (normalizeApproval (crs_Approval s)) ApprovalPending.
Definition is_govar (c : AIChangeRequest) : bool := String.eqb (crs_Action (crq_Spec c)) ActionAuthorizeGOVARRoute.
Definition decided_outcome (approval : string) : bool :=
  String.eqb approval ApprovalApproved || String.eqb approval ApprovalRejected.

(** JSON writes [metav1.Time] to the second. *)
Definition whole_second (t : Time) : Time := t / Second * Second.
Definition patch (object : AIChangeRequest) : AdmissionResponse :=
  let s := crq_Spec object in
  let scope := match crs_GOVARRouteApproval s with
    | Some sc => Some (sc <| scope_ValidUntil := whole_second (scope_ValidUntil sc) |>) | None => None end in
  let decision := match crs_GOVARDecision s with
    | Some d => Some (d <| rd_DecidedAt := whole_second (rd_DecidedAt d) |> <| rd_ValidUntil := whole_second (rd_ValidUntil d) |>)
    | None => None end in
  Patched (object <| crq_Spec := s <| crs_GOVARRouteApproval := scope |> <| crs_GOVARDecision := decision |> |>).

Section approval.
Context `{Crypto}.
Context (time_json : Time -> jvalue).

Definition validProposal (c : AIChangeRequest) : option error :=
  let s := crq_Spec c in
  match crs_GOVARRouteApproval s with
  | None => Some "object identity or route scope is absent"%string
  | Some scope =>
    if String.eqb (om_Name (crq_Meta c)) "" || String.eqb (om_Namespace (crq_Meta c)) ""
    then Some "object identity or route scope is absent"%string
    else if blank (crs_RequestedBy s) then Some "requester identity is absent"%string
    else if String.eqb (scope_ScopeDigest scope) "" || negb (String.eqb (scope_ScopeDigest scope) (scope_digest time_json scope))
    then Some "route scope digest is invalid"%string
    else if String.eqb (crs_ProposalDigest s) ""
            || negb (String.eqb (crs_ProposalDigest s) (proposal_digest time_json s (om_Namespace (crq_Meta c)) (om_Name (crq_Meta c))))
    then Some "proposal digest is invalid"%string
    else None
  end.

Definition sameProposal (old next : AIChangeRequest) : bool :=
  let digest c := proposal_digest time_json (crq_Spec c) (om_Namespace (crq_Meta c)) (om_Name (crq_Meta c)) in
  String.eqb (om_Namespace (crq_Meta old)) (om_Namespace (crq_Meta next)) && String.eqb (om_Name (crq_Meta old)) (om_Name (crq_Meta next)) &&
  String.eqb (om_UID (crq_Meta old)) (om_UID (crq_Meta next)) &&
  (String.eqb (crs_RequestedBy (crq_Spec old)) (crs_RequestedBy (crq_Spec next)) &&
   String.eqb (crs_ProposalDigest (crq_Spec old)) (crs_ProposalDigest (crq_Spec next))) &&
  (String.eqb (crs_ProposalDigest (crq_Spec old)) (digest old) && String.eqb (crs_ProposalDigest (crq_Spec next)) (digest next)).

(** The scope an update reads through a pointer; the handlers only get here when it
    is there. *)
Definition validTransitionDecision (req : AdmissionRequest) (old next : AIChangeRequest) (now : Time) : option error :=
  match crs_GOVARDecision (crq_Spec next), crs_GOVARRouteApproval (crq_Spec old) with
  | Some d, Some scope =>
    if negb (decided_outcome (crs_Approval (crq_Spec next))) || negb (String.eqb (rd_Outcome d) (crs_Approval (crq_Spec next)))
    then Some "outcome is absent or inconsistent"%string
    else if negb (String.eqb (rd_ReviewerIdentity d) (ar_Username req)) || String.eqb (rd_ReviewerIdentity d) (crs_RequestedBy (crq_Spec old))
            || negb (String.eqb (rd_ReviewerGroup d) GOVARApprovalReviewerGroup)
    then Some "reviewer identity or group is invalid"%string
    else if negb (String.eqb (rd_RequestUID d) (om_UID (crq_Meta old))) || negb (String.eqb (rd_AdmissionUID d) (ar_UID req))
            || negb (String.eqb (rd_ProposalDigest d) (crs_ProposalDigest (crq_Spec old)))
            || negb (String.eqb (rd_ScopeDigest d) (scope_ScopeDigest scope)) || negb (rd_ValidUntil d =? scope_ValidUntil scope)
    then Some "request, admission, proposal, scope, or expiry binding is invalid"%string
    else if negb (String.eqb (rd_DecisionDigest d)
                    (decision_digest time_json d (om_Namespace (crq_Meta old)) (om_Name (crq_Meta old)) (crs_RequestedBy (crq_Spec old))))
    then Some "decision digest is invalid"%string
    else if IsZero (rd_DecidedAt d) || Before (rd_DecidedAt d) (time_add now (-30 * Second)) || After (rd_DecidedAt d) (time_add now (5 * Second))
            || negb (Before (rd_DecidedAt d) (rd_ValidUntil d)) || negb (Before now (rd_ValidUntil d))
    then Some "decision time is stale, future, or expired"%string
    else None
  | _, _ => Some "outcome is absent or inconsistent"%string
  end.

(** What both handlers do with an update up to the decision: [inl] answers, [inr] is
    the prior object of an undecided proposal that gets a decision. *)
Definition review_update (req : AdmissionRequest) (next : AIChangeRequest) (immutable : string) : AdmissionResponse + AIChangeRequest :=
  let username := TrimSpace (ar_Username req) in
  match ar_OldObject req with
  | None => inl (Denied "GOV-AR decision update lacks the prior object")
  | Some (Err m) => inl (Errored 400 ("decode prior AIChangeRequest: " +:+ m))
  | Some (Ok old) =>
    if negb (is_govar old) && negb (is_govar next) then inl (Allowed "legacy non-GOV-AR change workflow is unchanged")
    else if negb (is_govar old) || negb (is_govar next) then inl (Denied "a GOV-AR change request action is immutable")
    else if String.eqb username "" then inl (Denied "GOV-AR change requests require an authenticated Kubernetes username")
    else match validProposal old with
    | Some m => inl (Denied ("stored GOV-AR proposal is invalid: " +:+ m))
    | None =>
      if negb (sameProposal old next) then inl (Denied immutable)
      else if negb (is_pending (crq_Spec old)) then
        if negb (bool_decide (crq_Spec old = crq_Spec next)) then inl (Denied "GOV-AR decisions are immutable")
        else inl (Allowed "immutable GOV-AR decision unchanged")
      else if is_pending (crq_Spec next) then
        if bool_decide (is_Some (crs_GOVARDecision (crq_Spec next))) then inl (Denied "a Pending GOV-AR proposal cannot contain a decision")
        else inl (Allowed "GOV-AR proposal remains Pending")
      else inr old
    end
  end.

(** The decision the mutating webhook stamps. *)
Definition stamp (req : AdmissionRequest) (old : AIChangeRequest) (scope : GOVARRouteApprovalScope) (outcome : string) (now : Time)
    : GOVARRouteApprovalDecision :=
  let d := Build_GOVARRouteApprovalDecision outcome (TrimSpace (ar_Username req)) GOVARApprovalReviewerGroup now (scope_ValidUntil scope)
             (om_UID (crq_Meta old)) (ar_UID req) (crs_ProposalDigest (crq_Spec old)) (scope_ScopeDigest scope) "" in
  d <| rd_DecisionDigest := decision_digest time_json d (om_Namespace (crq_Meta old)) (om_Name (crq_Meta old)) (crs_RequestedBy (crq_Spec old)) |>.

(** [MutationHandler.Handle]. *)
Definition Mutate (now : Time) (req : AdmissionRequest) : AdmissionResponse :=
  let username := TrimSpace (ar_Username req) in
  if negb (Matches req) then Allowed "not an AIChangeRequest root-resource operation"
  else match ar_Object req with
  | Err m => Errored 400 m
  | Ok next =>
    if String.eqb (ar_Operation req) OperationCreate then
      if negb (is_govar next) then Allowed "legacy non-GOV-AR change workflow is unchanged"
      else if String.eqb username "" then Denied "GOV-AR change requests require an authenticated Kubernetes username"
      else if String.eqb (om_Name (crq_Meta next)) "" || String.eqb (om_Namespace (crq_Meta next)) ""
              || negb (bool_decide (is_Some (crs_GOVARRouteApproval (crq_Spec next))))
      then Denied "GOV-AR change request namespace, name, and route scope are required"
      else if negb (is_pending (crq_Spec next)) || bool_decide (is_Some (crs_GOVARDecision (crq_Spec next)))
      then Denied "GOV-AR change requests must be created Pending without a decision"
      else if negb (String.eqb (crs_RequestedBy (crq_Spec next)) "") && negb (String.eqb (crs_RequestedBy (crq_Spec next)) username)
      then Denied "requestedBy may only identify the authenticated creator"
      else
        let s := (crq_Spec next) <| crs_RequestedBy := username |> <| crs_Approval := ApprovalPending |> in
        let digest := proposal_digest time_json s (om_Namespace (crq_Meta next)) (om_Name (crq_Meta next)) in
        patch (next <| crq_Spec := s <| crs_ProposalDigest := digest |> |>)
    else if String.eqb (ar_Operation req) OperationUpdate then
      match review_update req next "GOV-AR proposal fields are immutable; create a new change request" with
      | inl response => response
      | inr old =>
        let outcome := normalizeApproval (crs_Approval (crq_Spec next)) in
        if negb (decided_outcome outcome) then Denied "invalid GOV-AR approval transition"
        else if bool_decide (is_Some (crs_GOVARDecision (crq_Spec next))) then Denied "clients cannot supply or replay GOV-AR decision evidence"
        else if String.eqb username (crs_RequestedBy (crq_Spec old)) then Denied "GOV-AR self-approval is forbidden"
        else if negb (existsb (String.eqb GOVARApprovalReviewerGroup) (ar_Groups req))
        then Denied "authenticated user is not in the GOV-AR approval reviewer group"
        else if String.eqb (om_UID (crq_Meta old)) "" || String.eqb (ar_UID req) ""
        then Denied "GOV-AR decision requires Kubernetes object and AdmissionReview UIDs"
        else match crs_GOVARRouteApproval (crq_Spec old) with
        | None => Denied "GOV-AR approval scope has expired"
        | Some scope =>
          if negb (Before now (scope_ValidUntil scope)) then Denied "GOV-AR approval scope has expired"
          else patch (next <| crq_Spec := (crq_Spec next) <| crs_GOVARDecision := Some (stamp req old scope outcome now) |> |>)
        end
      end
    else Allowed "no GOV-AR approval mutation for this operation"
  end.

(** [ValidationHandler.Handle]. *)
Definition Validate (now : Time) (req : AdmissionRequest) : AdmissionResponse :=
  let username := TrimSpace (ar_Username req) in
  if negb (Matches req) then Allowed "not an AIChangeRequest root-resource operation"
  else match ar_Object req with
  | Err m => Errored 400 m
  | Ok next =>
    if String.eqb (ar_Operation req) OperationCreate then
      if negb (is_govar next) then Allowed "legacy non-GOV-AR change workflow is unchanged"
      else if String.eqb username "" then Denied "GOV-AR change requests require an authenticated Kubernetes username"
      else if negb (is_pending (crq_Spec next)) || bool_decide (is_Some (crs_GOVARDecision (crq_Spec next)))
      then Denied "GOV-AR change requests must be created Pending without a decision"
      else if negb (String.eqb (crs_RequestedBy (crq_Spec next)) username)
      then Denied "requestedBy does not match the authenticated creator"
      else match validProposal next with
      | Some m => Denied ("invalid GOV-AR proposal evidence: " +:+ m)
      | None => Allowed "authenticated GOV-AR requester evidence verified"
      end
    else if String.eqb (ar_Operation req) OperationUpdate then
      match review_update req next "GOV-AR proposal fields are immutable" with
      | inl response => response
      | inr old =>
        if String.eqb username (crs_RequestedBy (crq_Spec old)) || negb (existsb (String.eqb GOVARApprovalReviewerGroup) (ar_Groups req))
        then Denied "GOV-AR decision lacks independent authenticated reviewer authority"
        else match validTransitionDecision req old next now with
        | Some m => Denied ("invalid GOV-AR decision evidence: " +:+ m)
        | None => Allowed "independent authenticated GOV-AR decision verified"
        end
      end
    else Allowed "no GOV-AR approval validation for this operation"
  end.

(** A write that passes both webhooks, and the object it leaves: the validating one
    sees what the mutating one made of it. *)
Definition guarded_write (mutatedAt validatedAt : Time) (req : AdmissionRequest) : option AIChangeRequest :=
  let validated object :=
    match Validate validatedAt (req <| ar_Object := Ok object |>) with Allowed _ => Some object | _ => None end in
  match Mutate mutatedAt req, ar_Object req with
  | Patched object, _ => validated object
  | Allowed _, Ok object => validated object
  | _, _ => None
  end.
End approval.

(** ** The controller *)

(** [readyCondition], with the fields of a condition that are modelled. *)
Definition readyCondition (status : string) : Condition := Build_Condition ConditionReady status.
Definition setPhase (c : AIChangeRequest) (phase : string) : AIChangeRequest :=
  let status := if String.eqb phase PhaseFailed || String.eqb phase PhaseExpired || String.eqb phase PhaseRejected
                then "False"%string else ConditionTrue in
  c <| crq_Status := (crq_Status c) <| crst_Phase := phase |>
         <| crst_Conditions := SetStatusCondition (crst_Conditions (crq_Status c)) (readyCondition status) |> |>.
(** Takes the approval evidence back. *)
Definition withdraw (c : AIChangeRequest) : AIChangeRequest :=
  c <| crq_Status := (crq_Status c) <| crst_ApprovedAt := None |> <| crst_ApprovedScopeDigest := ""%string |>
         <| crst_ApprovedDecisionDigest := ""%string |> <| crst_ApprovedBy := ""%string |> |>.

Section controller.
Context `{Crypto}.
Context (time_json : Time -> jvalue) (k : KubeApi).

Definition validRef (r : ResolvedReference) : bool :=
  negb (String.eqb (rf_Name r) "") && negb (String.eqb (rf_UID r) "") && (0 <? rf_Generation r).

Definition validateGOVARRouteReferences (namespace : string) (scope : GOVARRouteApprovalScope) : option error :=
  if negb (validRef (scope_RoutingPolicy scope)) || negb (validRef (scope_Model scope)) || negb (validRef (scope_Provider scope))
  then Some "GOV-AR route approval contains an empty or invalid object reference"%string
  else match get_AIRoutingPolicy k namespace (rf_Name (scope_RoutingPolicy scope)) with
  | Err m => Some ("resolve approved routing policy: " +:+ m)
  | Ok routing =>
    if negb (String.eqb (om_UID (rpol_Meta routing)) (rf_UID (scope_RoutingPolicy scope)))
       || negb (om_Generation (rpol_Meta routing) =? rf_Generation (scope_RoutingPolicy scope))
    then Some "approved routing policy UID/generation is stale"%string
    else match get_AIModel k namespace (rf_Name (scope_Model scope)) with
    | Err m => Some ("resolve approved model: " +:+ m)
    | Ok model =>
      if negb (String.eqb (om_UID (model_Meta model)) (rf_UID (scope_Model scope)))
         || negb (om_Generation (model_Meta model) =? rf_Generation (scope_Model scope))
      then Some "approved model UID/generation is stale"%string
      else match get_AIProvider k namespace (rf_Name (scope_Provider scope)) with
      | Err m => Some ("resolve approved provider: " +:+ m)
      | Ok provider =>
        if negb (String.eqb (om_UID (prov_Meta provider)) (rf_UID (scope_Provider scope)))
           || negb (om_Generation (prov_Meta provider) =? rf_Generation (scope_Provider scope))
           || negb (String.eqb (ms_ProviderRef (model_Spec model)) (om_Name (prov_Meta provider)))
        then Some "approved provider UID/generation or model ownership is stale"%string
        else None
      end
    end
  end.

(** [AIChangeRequestReconciler.approveGOVARRoute]: the object whose status it writes. *)
Definition approveGOVARRoute (now : Time) (c : AIChangeRequest) : AIChangeRequest :=
  match crs_GOVARRouteApproval (crq_Spec c), crs_GOVARDecision (crq_Spec c) with
  | Some scope, decision =>
    if negb (is_sha256 (scope_RouteSnapshotDigest scope)) || negb (is_sha256 (scope_ScopeDigest scope))
       || negb (String.eqb (scope_ScopeDigest scope) (scope_digest time_json scope))
    then withdraw (setPhase c PhaseFailed)
    else match ValidateGOVARDecision time_json c now, decision with
    | None, Some d =>
      if negb (Before now (scope_ValidUntil scope)) then withdraw (setPhase c PhaseExpired)
      else match validateGOVARRouteReferences (om_Namespace (crq_Meta c)) scope with
      | Some _ => withdraw (setPhase c PhaseFailed)
      | None =>
        let st := crq_Status c in
        let approvedAt :=
          match crst_ApprovedAt st with
          | Some at_ =>
            if String.eqb (crst_Phase st) PhaseApproved && (crst_ObservedGeneration st =? om_Generation (crq_Meta c))
               && String.eqb (crst_ApprovedScopeDigest st) (scope_ScopeDigest scope)
               && String.eqb (crst_ApprovedDecisionDigest st) (rd_DecisionDigest d) && String.eqb (crst_ApprovedBy st) (rd_ReviewerIdentity d)
            then at_ else now
          | None => now
          end in
        setPhase (c <| crq_Status := st <| crst_ApprovedAt := Some approvedAt |> <| crst_ApprovedScopeDigest := scope_ScopeDigest scope |>
                    <| crst_ApprovedDecisionDigest := rd_DecisionDigest d |> <| crst_ApprovedBy := rd_ReviewerIdentity d |> |>) PhaseApproved
      end
    | _, _ => withdraw (setPhase c PhaseFailed)
    end
  | None, _ => withdraw (setPhase c PhaseFailed)
  end.

(** [AIChangeRequestReconciler.Reconcile] of a GOV-AR request: the object with the
    last status written. *)
Definition ReconcileGOVAR (now : Time) (stored : AIChangeRequest) (scope : GOVARRouteApprovalScope) : AIChangeRequest :=
  let c := stored <| crq_Status := (crq_Status stored) <| crst_ObservedGeneration := om_Generation (crq_Meta stored) |>
                                <| crst_ExpiresAt := Some (scope_ValidUntil scope) |> |> in
  let phase := crst_Phase (crq_Status c) in
  if String.eqb phase PhaseActuated || String.eqb phase PhaseRejected || String.eqb phase PhaseExpired then
    if bool_decide (crst_ExpiresAt (crq_Status stored) = Some (scope_ValidUntil scope)) then stored else c
  else if negb (Before now (scope_ValidUntil scope)) then withdraw (setPhase c PhaseExpired)
  else if String.eqb (crs_Approval (crq_Spec c)) ApprovalRejected then
    match ValidateGOVARDecision time_json c now with
    | Some _ => withdraw (setPhase c PhaseFailed)
    | None => withdraw (setPhase c PhaseRejected)
    end
  else if String.eqb (crs_Approval (crq_Spec c)) ApprovalApproved then approveGOVARRoute now c
  else withdraw (setPhase c PhasePending).
End controller.

(** ** Histories of an object *)

Definition same_object (a b : AIChangeRequest) : Prop :=
  crq_Spec a = crq_Spec b /\ om_Namespace (crq_Meta a) = om_Namespace (crq_Meta b) /\ om_Name (crq_Meta a) = om_Name (crq_Meta b).

Section history.
Context `{Crypto}.
Context (time_json : Time -> jvalue).

(** The state of a history: the admitted writes, the last one first, and the stored
    object. What a webhook lets through is stored with metadata of the API server. *)
Definition history : Type := list AdmissionRequest * AIChangeRequest.

Inductive creation : history -> Prop :=
| created req t1 t2 object c :
    Matches req = true -> ar_Operation req = OperationCreate -> guarded_write time_json t1 t2 req = Some object -> same_object object c ->
    creation ([req], c).
Inductive step : history -> history -> Prop :=
| updated h old req t1 t2 object c :
    Matches req = true -> ar_Operation req = OperationUpdate -> ar_OldObject req = Some (Ok old) ->
    guarded_write time_json t1 t2 req = Some object -> same_object object c -> step (h, old) (req :: h, c)
| status_written h old c : same_object old c -> step (h, old) (h, c).

Definition proposal_text (c : AIChangeRequest) : string :=
  jtext (proposal_json time_json (crq_Spec c) (om_Namespace (crq_Meta c)) (om_Name (crq_Meta c))).

(** Who may be recorded for a proposal, by the requests of its history. *)
Definition requested_by (h : list AdmissionRequest) (c : AIChangeRequest) : Prop :=
  exists req, req ∈ h /\ ar_Operation req = OperationCreate /\ TrimSpace (ar_Username req) = crs_RequestedBy (crq_Spec c) /\
  crs_RequestedBy (crq_Spec c) <> ""%string.
Record reviewed_by (h : list AdmissionRequest) (c : AIChangeRequest) (d : GOVARRouteApprovalDecision) : Prop := {
  reviewed_request : exists req, req ∈ h /\ ar_Operation req = OperationUpdate /\ ar_Username req = rd_ReviewerIdentity d /\
    ar_UID req = rd_AdmissionUID d /\ GOVARApprovalReviewerGroup ∈ ar_Groups req;
  reviewed_distinct : rd_ReviewerIdentity d <> crs_RequestedBy (crq_Spec c);
  reviewed_outcome : rd_Outcome d = crs_Approval (crq_Spec c) /\ decided_outcome (rd_Outcome d) = true;
  reviewed_proposal : rd_ProposalDigest d = crs_ProposalDigest (crq_Spec c);
  reviewed_digest : rd_DecisionDigest d = decision_digest time_json d (om_Namespace (crq_Meta c)) (om_Name (crq_Meta c)) (crs_RequestedBy (crq_Spec c))
}.

(** The invariant of the histories of a GOV-AR request. *)
Record governed (h : list AdmissionRequest) (c : AIChangeRequest) : Prop := {
  governed_requested : requested_by h c;
  governed_proposal : crs_ProposalDigest (crq_Spec c) = sha256_hex (domain "govar-route-approval-proposal-v1" +:+ proposal_text c);
  governed_decision : if is_pending (crq_Spec c) then crs_GOVARDecision (crq_Spec c) = None
                      else exists d, crs_GOVARDecision (crq_Spec c) = Some d /\ reviewed_by h c d
}.

(** *** What the validating webhook has checked *)

Lemma same_object_govar a b : same_object a b -> is_govar a = is_govar b.
Proof. unfold is_govar. by intros (-> & _). Qed.

Lemma governed_same h a b : same_object a b -> governed h a -> governed h b.
Proof.
  intros (E & En & Em) [Hr Hp Hd]. constructor.
  - unfold requested_by in *. by rewrite <- E.
  - unfold proposal_text in *. by rewrite <- E, <- En, <- Em.
  - rewrite <- E. destruct (is_pending _); [done|]. destruct Hd as (d & Hd & [? ? ? ? ?]). exists d. split; [done|].
    constructor; rewrite <- ?E, <- ?En, <- ?Em; done.
Qed.

Lemma sameProposal_spec a b : sameProposal time_json a b = true ->
  om_Namespace (crq_Meta a) = om_Namespace (crq_Meta b) /\ om_Name (crq_Meta a) = om_Name (crq_Meta b) /\
  crs_RequestedBy (crq_Spec a) = crs_RequestedBy (crq_Spec b) /\ crs_ProposalDigest (crq_Spec a) = crs_ProposalDigest (crq_Spec b) /\
  sha256_hex (domain "govar-route-approval-proposal-v1" +:+ proposal_text a) = crs_ProposalDigest (crq_Spec a) /\
  sha256_hex (domain "govar-route-approval-proposal-v1" +:+ proposal_text b) = crs_ProposalDigest (crq_Spec a).
Proof.
  unfold sameProposal. rewrite !andb_true_iff, !String.eqb_eq. intros ((((? & ?) & ?) & Hr & Hp) & Ha & Hb).
  repeat split; try done. by rewrite Hp.
Qed.

Lemma validProposal_None c : validProposal time_json c = None ->
  crs_RequestedBy (crq_Spec c) <> ""%string /\
  exists scope, crs_GOVARRouteApproval (crq_Spec c) = Some scope /\ scope_ScopeDigest scope = scope_digest time_json scope.
Proof.
  unfold validProposal. destruct (crs_GOVARRouteApproval _) as [scope|]; [|discriminate].
  destruct (_ || _); [discriminate|]. destruct (blank _) eqn:Hb; [discriminate|].
  destruct (String.eqb (scope_ScopeDigest scope) ""); [discriminate|]. cbn [orb].
  destruct (String.eqb_spec (scope_ScopeDigest scope) (scope_digest time_json scope)) as [E|]; [|discriminate].
  intros _. split; [|by exists scope]. intros E2. rewrite E2 in Hb. discriminate Hb.
Qed.

Lemma guarded_write_validated t1 t2 req object : guarded_write time_json t1 t2 req = Some object ->
  exists reason, Validate time_json t2 (req <| ar_Object := Ok object |>) = Allowed reason.
Proof.
  unfold guarded_write. intros E. destruct (Mutate time_json t1 req); try discriminate E.
  - destruct (ar_Object req) as [o|]; [|discriminate E]. destruct (Validate _ _ _) eqn:Hv in E; try discriminate E. injection E as ->. by eexists.
  - destruct (Validate _ _ _) eqn:Hv in E; try discriminate E. injection E as ->. by eexists.
Qed.

(** An update of a decided request leaves its specification as it is; an update of
    an undecided one leaves it undecided or gives it a decision of the reviewer. *)
Lemma validated_update t req old next reason :
  Matches req = true -> ar_Operation req = OperationUpdate -> ar_Object req = Ok next -> ar_OldObject req = Some (Ok old) ->
  Validate time_json t req = Allowed reason -> is_govar next = true ->
  is_govar old = true /\ sameProposal time_json old next = true /\
  (if is_pending (crq_Spec old) then
     if is_pending (crq_Spec next) then crs_GOVARDecision (crq_Spec next) = None
     else GOVARApprovalReviewerGroup ∈ ar_Groups req /\ validTransitionDecision time_json req old next t = None
   else crq_Spec old = crq_Spec next).
Proof.
  intros Hm Hop Hnext Hold. unfold Validate. rewrite Hm, Hnext, Hop. cbn [negb]. rewrite (String.eqb_refl OperationUpdate).
  change (String.eqb OperationUpdate OperationCreate) with false. cbv iota. unfold review_update. rewrite Hold. intros E Hg. rewrite Hg in E.
  destruct (is_govar old); cbn [negb andb orb] in E; [|discriminate E]. split; [done|].
  destruct (String.eqb _ ""); [discriminate E|]. destruct (validProposal _ old); [discriminate E|].
  destruct (sameProposal _ _ _); cbn [negb] in E; [|discriminate E]. split; [done|].
  destruct (is_pending (crq_Spec old)); cbn [negb] in E.
  - destruct (is_pending (crq_Spec next)).
    + case_bool_decide as Hd; [discriminate E|]. by destruct (crs_GOVARDecision _); [destruct Hd|].
    + destruct (String.eqb _ _); cbn [orb] in E; [discriminate E|]. destruct (existsb _ _) eqn:Hgr; cbn [negb] in E; [|discriminate E].
      destruct (validTransitionDecision _ _ _ _ _); [discriminate E|]. split; [|done].
      apply existsb_exists in Hgr as (g & Hin & <-%String.eqb_eq). by apply list_elem_of_In.
  - by case_bool_decide.
Qed.

Lemma validated_creation t req next reason :
  Matches req = true -> ar_Operation req = OperationCreate -> ar_Object req = Ok next ->
  Validate time_json t req = Allowed reason -> is_govar next = true ->
  is_pending (crq_Spec next) = true /\ crs_GOVARDecision (crq_Spec next) = None /\
  crs_RequestedBy (crq_Spec next) = TrimSpace (ar_Username req) /\ crs_RequestedBy (crq_Spec next) <> ""%string /\
  crs_ProposalDigest (crq_Spec next) = sha256_hex (domain "govar-route-approval-proposal-v1" +:+ proposal_text next).
Proof.
  intros Hm Hop Hnext. unfold Validate. rewrite Hm, Hnext, Hop. cbn [negb]. rewrite (String.eqb_refl OperationCreate). cbv iota.
  intros E Hg. rewrite Hg in E. cbn [negb] in E. destruct (String.eqb_spec (TrimSpace (ar_Username req)) "") as [|Hu]; [discriminate E|].
  destruct (is_pending _); cbn [negb orb] in E; [|discriminate E]. case_bool_decide as Hd; [discriminate E|].
  destruct (String.eqb_spec (crs_RequestedBy (crq_Spec next)) (TrimSpace (ar_Username req))) as [Er|]; cbn [negb] in E; [|discriminate E].
  destruct (validProposal _ next) eqn:Hv; [discriminate E|]. split; [done|]. split; [by destruct (crs_GOVARDecision _); [destruct Hd|]|].
  split; [done|]. split; [by rewrite Er|]. revert Hv. unfold validProposal. destruct (crs_GOVARRouteApproval _); [|discriminate].
  destruct (_ || _); [discriminate|]. destruct (blank _); [discriminate|]. destruct (_ || _); [discriminate|].
  destruct (String.eqb (crs_ProposalDigest _) ""); [discriminate|]. cbn [orb].
  by destruct (String.eqb_spec (crs_ProposalDigest (crq_Spec next)) (proposal_digest time_json (crq_Spec next) (om_Namespace (crq_Meta next)) (om_Name (crq_Meta next)))).
Qed.

Lemma transition_reviewed t req old next h : validTransitionDecision time_json req old next t = None ->
  GOVARApprovalReviewerGroup ∈ ar_Groups req -> ar_Operation req = OperationUpdate -> req ∈ h -> sameProposal time_json old next = true ->
  exists d, crs_GOVARDecision (crq_Spec next) = Some d /\ reviewed_by h next d.
Proof.
  intros E Hg Hop Hin (En & Em & Er & Ep & _)%sameProposal_spec. revert E. unfold validTransitionDecision.
  destruct (crs_GOVARDecision (crq_Spec next)) as [d|]; [|discriminate]. destruct (crs_GOVARRouteApproval _) as [scope|]; [|discriminate].
  destruct (decided_outcome _) eqn:Hout; cbn [negb orb]; [|discriminate].
  destruct (String.eqb_spec (rd_Outcome d) (crs_Approval (crq_Spec next))) as [Ho|]; cbn [negb]; [|discriminate].
  destruct (String.eqb_spec (rd_ReviewerIdentity d) (ar_Username req)) as [Hu|]; cbn [negb orb]; [|discriminate].
  destruct (String.eqb_spec (rd_ReviewerIdentity d) (crs_RequestedBy (crq_Spec old))) as [|Hne]; cbn [orb]; [discriminate|].
  destruct (negb _); [discriminate|]. destruct (String.eqb _ _); cbn [negb orb]; [|discriminate].
  destruct (String.eqb_spec (rd_AdmissionUID d) (ar_UID req)) as [Ha|]; cbn [negb orb]; [|discriminate].
  destruct (String.eqb_spec (rd_ProposalDigest d) (crs_ProposalDigest (crq_Spec old))) as [Hp|]; cbn [negb orb]; [|discriminate].
  destruct (_ || _); [discriminate|]. destruct (String.eqb_spec (rd_DecisionDigest d) (decision_digest time_json d
    (om_Namespace (crq_Meta old)) (om_Name (crq_Meta old)) (crs_RequestedBy (crq_Spec old)))) as [Hd|]; cbn [negb]; [|discriminate].
  intros _. exists d. split; [done|]. constructor.
  - by exists req.
  - by rewrite <- Er.
  - split; [done|]. by rewrite Ho.
  - by rewrite <- Ep.
  - by rewrite <- En, <- Em, <- Er.
Qed.

Lemma governed_more req h c : governed h c -> governed (req :: h) c.
Proof.
  intros [(r & ? & ?) Hp Hd]. constructor; [exists r; split; [by right | done] | done |].
  destruct (is_pending _); [done|]. destruct Hd as (d & ? & [(q & ? & ?) ? ? ? ?]). exists d. split; [done|].
  constructor; try done. exists q. split; [by right | done].
Qed.

Lemma guarded_update t1 t2 req old object : Matches req = true -> ar_Operation req = OperationUpdate ->
  ar_OldObject req = Some (Ok old) -> guarded_write time_json t1 t2 req = Some object -> is_govar object = true ->
  is_govar old = true /\ sameProposal time_json old object = true /\
  (if is_pending (crq_Spec old) then
     if is_pending (crq_Spec object) then crs_GOVARDecision (crq_Spec object) = None
     else forall h, req ∈ h -> exists d, crs_GOVARDecision (crq_Spec object) = Some d /\ reviewed_by h object d
   else crq_Spec old = crq_Spec object).
Proof.
  intros Hm Hop Hold (reason & Hv)%guarded_write_validated Hg.
  set (seen := req <| ar_Object := Ok object |>) in *.
  assert (Hobj : ar_Object seen = Ok object) by reflexivity.
  destruct (validated_update t2 seen old object reason Hm Hop Hobj Hold Hv Hg) as (Ho & Hs & Hd).
  split; [done|]. split; [done|]. destruct (is_pending (crq_Spec old)); [|done]. destruct (is_pending _); [done|].
  intros h Hin. destruct Hd as [Hgr Ht].
  destruct (transition_reviewed t2 seen old object [seen] Ht Hgr Hop ltac:(constructor) Hs) as (d & Hd & [Hr ? ? ? ?]).
  exists d. split; [done|]. constructor; try done. destruct Hr as (q & ->%list_elem_of_singleton & Hq). by exists req.
Qed.

Lemma creation_governed s : creation s -> is_govar s.2 = true -> governed s.1 s.2.
Proof.
  intros [req t1 t2 object c Hm Hop Hw Hs] Hg. cbn [fst snd] in *. rewrite <- (same_object_govar _ _ Hs) in Hg.
  apply (governed_same _ object); [done|]. destruct (guarded_write_validated _ _ _ _ Hw) as (reason & Hv).
  set (seen := req <| ar_Object := Ok object |>) in *.
  assert (Hobj : ar_Object seen = Ok object) by reflexivity.
  destruct (validated_creation t2 seen object reason Hm Hop Hobj Hv Hg) as (Hpend & Hd & Hu & Hne & Hp). constructor.
  - exists req. split; [constructor|]. rewrite Hu in Hne |- *. done.
  - done.
  - by rewrite Hpend.
Qed.

Lemma step_governed s s' : step s s' -> is_govar s'.2 = true -> is_govar s.2 = true /\
  (governed s.1 s.2 -> governed s'.1 s'.2) /\
  (is_pending (crq_Spec s.2) = false -> crq_Spec s'.2 = crq_Spec s.2) /\
  crs_ProposalDigest (crq_Spec s'.2) = crs_ProposalDigest (crq_Spec s.2).
Proof.
  intros [h old req t1 t2 object c Hm Hop Hold Hw Hs | h old c Hs] Hg; cbn [fst snd] in *.
  - rewrite <- (same_object_govar _ _ Hs) in Hg. destruct (guarded_update _ _ _ _ _ Hm Hop Hold Hw Hg) as (Ho & Hsame & Hd).
    split; [done|]. destruct Hs as [Es Ens]. rewrite <- Es. pose proof Hsame as (En & Em & Er & Ep & _ & Hp)%sameProposal_spec.
    split; [|split; [|done]].
    + intros [Hreq Hdig Hdec]. apply (governed_same _ object); [by split|]. constructor.
      * unfold requested_by in *. rewrite <- Er. destruct Hreq as (q & ? & ?). exists q. split; [by right | done].
      * by rewrite Hp.
      * destruct (is_pending (crq_Spec old)) eqn:Hpend.
        -- destruct (is_pending (crq_Spec object)); [done|]. apply Hd. constructor.
        -- rewrite <- Hd, Hpend. destruct Hdec as (d & Hd1 & [(q & ? & ?) ? ? ? ?]). exists d. split; [done|].
           constructor; rewrite <- ?Hd, <- ?En, <- ?Em; try done. exists q. split; [by right | done].
    + intros Hpend. rewrite Hpend in Hd. done.
  - rewrite <- (same_object_govar _ _ Hs) in Hg. split; [done|]. pose proof Hs as [-> _].
    split; [|done]. by apply governed_same.
Qed.

Lemma steps_governed s s' : rtc step s s' -> is_govar s'.2 = true -> is_govar s.2 = true /\
  (governed s.1 s.2 -> governed s'.1 s'.2) /\
  (is_pending (crq_Spec s.2) = false -> crq_Spec s'.2 = crq_Spec s.2) /\
  crs_ProposalDigest (crq_Spec s'.2) = crs_ProposalDigest (crq_Spec s.2).
Proof.
  induction 1 as [s | s s1 s2 Hs _ IH]; intros Hg; [done|].
  destruct (IH Hg) as (Hg1 & Hgov1 & Hfin1 & Hdig1). destruct (step_governed _ _ Hs Hg1) as (Hg0 & Hgov0 & Hfin0 & Hdig0).
  split; [done|]. split; [by auto|]. split; [|by rewrite Hdig1].
  intros Hp. rewrite <- (Hfin0 Hp). apply Hfin1. by rewrite (Hfin0 Hp).
Qed.

(** C27: two-person control: whatever writes the webhooks let through and whatever the
    controllers record, a GOV-AR request that is decided was created by an
    authenticated user and decided by another one of the reviewer group, in an update
    the recorded decision names; the decision is bound to the request, and its
    proposal is the one that was created, or SHA-256 has a collision. *)
Theorem two_person_control s0 h c :
  creation s0 -> rtc step s0 (h, c) -> is_govar c = true -> is_pending (crq_Spec c) = false ->
  requested_by h c /\
  (exists d, crs_GOVARDecision (crq_Spec c) = Some d /\ reviewed_by h c d) /\
  (proposal_text c = proposal_text s0.2 \/ sha256_collision).
Proof.
  intros Hc Hs Hg Hp. destruct (steps_governed _ _ Hs Hg) as (Hg0 & Hgov & _ & Hdig). cbn [fst snd] in *.
  pose proof (creation_governed _ Hc Hg0) as H0. pose proof (Hgov H0) as [Hr Hpr Hd]. rewrite Hp in Hd.
  split; [done|]. split; [done|]. destruct (decide (proposal_text c = proposal_text s0.2)) as [|Hne]; [by left | right].
  rewrite Hdig, (governed_proposal _ _ H0) in Hpr.
  exists (domain "govar-route-approval-proposal-v1" +:+ proposal_text s0.2), (domain "govar-route-approval-proposal-v1" +:+ proposal_text c).
  split; [|done]. intros E. apply Hne. symmetry. by apply (string_app_inj (domain "govar-route-approval-proposal-v1") (domain "govar-route-approval-proposal-v1")).
Qed.

(** a decision is final: once a GOV-AR request is approved or rejected, no write the
    webhooks let through changes any field of its specification. *)
Theorem decision_is_final s s' :
  is_pending (crq_Spec s.2) = false -> rtc step s s' -> is_govar s'.2 = true -> crq_Spec s'.2 = crq_Spec s.2.
Proof. intros Hp Hs Hg. destruct (steps_governed _ _ Hs Hg) as (_ & _ & Hf & _). by apply Hf. Qed.
End history.

(** ** A concrete approval *)

Module ApprovalExample.
#[local] Existing Instance go_crypto.
Definition rfc3339_json (t : Time) : jvalue := if IsZero t then JNull else JString (RFC3339 t).
Definition now : Time := PricingExample.now.
Definition until : Time := whole_second (now + Hour).

(** The route of RoutesExample in the namespace of the request. *)
Definition in_team (m : ObjectMeta) : ObjectMeta :=
  Build_ObjectMeta (om_Name m) "team-a" (om_UID m) (om_ResourceVersion m) (om_Generation m).
Definition model : AIModel :=
  Build_AIModel (in_team (model_Meta RoutesExample.model)) (model_Spec RoutesExample.model) (model_Status RoutesExample.model).
Definition provider : AIProvider :=
  Build_AIProvider (in_team (prov_Meta RoutesExample.provider)) (prov_Spec RoutesExample.provider) (prov_Status RoutesExample.provider).
Definition candidate : Candidate := Eval vm_compute in
  build_candidate RoutesExample.request (<["acme" := provider]> ∅) now model.

Definition reference (m : ObjectMeta) : ResolvedReference := Build_ResolvedReference (om_Name m) (om_UID m) (om_Generation m).
Definition policy_meta : ObjectMeta := Build_ObjectMeta "route-policy" "team-a" "uid-p" "5" 4.
Definition scope : GOVARRouteApprovalScope := Eval vm_compute in
  let s := Build_GOVARRouteApprovalScope (reference policy_meta) (reference (model_Meta model)) (reference (prov_Meta provider))
             (route_SnapshotHash (cand_RouteSnapshot candidate)) until "" in
  s <| scope_ScopeDigest := scope_digest rfc3339_json s |>.
Definition proposal : AIChangeRequest :=
  Build_AIChangeRequest (Build_ObjectMeta "open-route" "team-a" "" "" 0) zero_time None
    (Build_AIChangeRequestSpec ActionAuthorizeGOVARRoute "" "" (Some scope) "" "" None "new region" "" "" "" "low" "" "")
    (Build_AIChangeRequestStatus 0 "" None "" "" "" None []).
Definition review (operation uid user : string) (groups : list string) (object : AIChangeRequest) (old : option AIChangeRequest)
    : AdmissionRequest :=
  Build_AdmissionRequest "aiops.imperium.io" "v1alpha1" "aichangerequests" "" operation uid user groups (Ok object) (option_map Ok old).

Definition create : AdmissionRequest := review OperationCreate "adm-1" "alice" [] proposal None.
Definition stored : AIChangeRequest := Eval vm_compute in
  match guarded_write rfc3339_json now now create with
  | Some c => Build_AIChangeRequest (Build_ObjectMeta "open-route" "team-a" "uid-c" "11" 1) now None (crq_Spec c) (crq_Status c)
  | None => proposal
  end.
Definition approve_as (user : string) (groups : list string) : AdmissionRequest :=
  review OperationUpdate "adm-2" user groups (stored <| crq_Spec := (crq_Spec stored) <| crs_Approval := ApprovalApproved |> |>) (Some stored).
Definition approve : AdmissionRequest := approve_as "bob" [GOVARApprovalReviewerGroup].
Definition later : Time := now + Minute.
Definition approved : AIChangeRequest := Eval vm_compute in
  match guarded_write rfc3339_json later later approve with
  | Some c => Build_AIChangeRequest (Build_ObjectMeta "open-route" "team-a" "uid-c" "12" 2) now None (crq_Spec c) (crq_Status c)
  | None => proposal
  end.

(** Alice cannot approve her own request, and nobody outside the group can. *)
Example self_approval_refused :
  guarded_write rfc3339_json later later (approve_as "alice" [GOVARApprovalReviewerGroup]) = None /\
  guarded_write rfc3339_json later later (approve_as "mallory" []) = None.
Proof. vm_compute. done. Qed.

Lemma stored_created : creation rfc3339_json ([create], stored).
Proof.
  apply (created rfc3339_json create now now
    (default proposal (guarded_write rfc3339_json now now create)) stored); try (vm_compute; reflexivity).
  split; [|split]; vm_compute; reflexivity.
Qed.
Lemma approved_step : step rfc3339_json ([create], stored) ([approve; create], approved).
Proof.
  apply (updated rfc3339_json [create] stored approve later later
    (default proposal (guarded_write rfc3339_json later later approve)) approved); try (vm_compute; reflexivity).
  split; [|split]; vm_compute; reflexivity.
Qed.
End ApprovalExample.

Lemma two_person_control_witness :
  @requested_by [ApprovalExample.approve; ApprovalExample.create] ApprovalExample.approved /\
  (exists d, crs_GOVARDecision (crq_Spec ApprovalExample.approved) = Some d /\
    @reviewed_by go_crypto ApprovalExample.rfc3339_json [ApprovalExample.approve; ApprovalExample.create] ApprovalExample.approved d) /\
  (@proposal_text ApprovalExample.rfc3339_json ApprovalExample.approved = @proposal_text ApprovalExample.rfc3339_json ApprovalExample.stored \/
   @sha256_collision go_crypto).
Proof.
  apply (@two_person_control go_crypto ApprovalExample.rfc3339_json ([ApprovalExample.create], ApprovalExample.stored)
    [ApprovalExample.approve; ApprovalExample.create] ApprovalExample.approved ApprovalExample.stored_created).
  - apply rtc_once, ApprovalExample.approved_step.
  - vm_compute. reflexivity.
  - vm_compute. reflexivity.
Defined.
