(* ===== verification/Identity.v ===== *)
(** * Authenticated principals and trusted workloads

    [cmd/gov-ar-admission/main.go]: who sent a request ([authenticate], the token
    review), which live workload that is ([resolveTrustedWorkload]), and
    [internal/controller/aiworkloadbinding_controller.go], which publishes the
    binding evidence that resolution needs; with the signature [post] of
    [internal/govarextproc] puts on its requests. *)

From Stdlib Require Import ZArith Lia Ascii String.
From stdpp Require Import base gmap strings list pretty.
From S2P Require Import Prelude Digest GoTime Api Json JsonDecode PlatformCrypto Tokens Routes Resources.

Open Scope string_scope.
Open Scope list_scope.
Open Scope Z_scope.
Open Scope go_scope.

(** ** HTTP requests *)

Record HttpRequest : Type := Build_HttpRequest {
  http_Method : string;
  http_URLPath : string;                 (* URL.Path *)
  http_Path : string;                    (* URL.EscapedPath() *)
  http_Header : gmap string string;
  http_Body : string
}.
(** [Header.Get]. *)
Definition header (r : HttpRequest) (name : string) : string := default ""%string (http_Header r !! name).

Definition MethodPost : string := "POST".
Definition MethodGet : string := "GET".
Definition h_authorization : string := "Authorization".
Definition h_tenant : string := "X-GOVAR-Tenant-ID".
Definition h_workload : string := "X-GOVAR-Workload-UID".
Definition h_namespace : string := "X-GOVAR-Namespace".
Definition h_timestamp : string := "X-GOVAR-Timestamp".
Definition h_signature : string := "X-GOVAR-Signature".

(** ** Principals *)

Inductive principalRole : Set := roleAdmissionOnly | roleGateway.
#[export] Instance principalRole_eq_dec : EqDecision principalRole.
Proof. solve_decision. Defined.

Record authenticatedPrincipal : Type := Build_authenticatedPrincipal {
  ap_tenantID : string;
  ap_workloadUID : string;
  ap_namespace : string;
  ap_podName : string;
  ap_serviceAccount : string;
  ap_role : principalRole
}.

Definition maxAuthenticatedBodyBytes : Z := 1048576.
Definition errAuthenticatedBodyTooLarge : error := "authenticated request body exceeds 1 MiB".
Definition readAuthenticatedBody (body : string) : result string :=
  if maxAuthenticatedBodyBytes <? Z.of_nat (String.length body) then Err errAuthenticatedBodyTooLarge else Ok body.

(** *** Token reviews *)

(** What the API server answers to a [TokenReview]. *)
Record TokenReviewStatus : Type := Build_TokenReviewStatus {
  tr_Authenticated : bool;
  tr_Audiences : list string;
  tr_Username : string;
  tr_Extra : gmap string (list string)
}.
Definition GOVARTokenAudience : string := "gov-ar-admission".
Definition pod_uid_key : string := "authentication.kubernetes.io/pod-uid".
Definition pod_name_key : string := "authentication.kubernetes.io/pod-name".

(** [strings.Split] at a one-byte separator. *)
Fixpoint split_on (sep : ascii) (s : string) : list string :=
  match s with
  | EmptyString => [EmptyString]
  | String c s' =>
    match split_on sep s' with
    | first :: rest => if Ascii.eqb c sep then EmptyString :: first :: rest else String c first :: rest
    | [] => [String c EmptyString]
    end
  end.

(** The only value of an extra field, trimmed, unless it is blank. *)
Definition bound_value (extra : gmap string (list string)) (key : string) : option string :=
  match extra !! key with
  | Some [v] => if blank v then None else Some (TrimSpace v)
  | _ => None
  end.

(** [tokenReviewFunc]; [review] creates the review. *)
Definition tokenReviewFunc (review : string -> result TokenReviewStatus) (token : string) : result authenticatedPrincipal :=
  if String.eqb token "" then Err "projected service-account token is empty"
  else match review token with
  | Err m => Err ("TokenReview failed: " +:+ m)
  | Ok status =>
    if negb (tr_Authenticated status) || negb (existsb (String.eqb GOVARTokenAudience) (tr_Audiences status))
    then Err "projected token was not authenticated for GOV-AR audience"
    else match bound_value (tr_Extra status) pod_uid_key with
    | None => Err "TokenReview lacks bound Pod UID"
    | Some uid =>
      match split_on ":" (tr_Username status) with
      | [system; kind; namespace; account] =>
        if negb (String.eqb system "system") || negb (String.eqb kind "serviceaccount") then Err "TokenReview user is not a service account"
        else match bound_value (tr_Extra status) pod_name_key with
        | None => Err "TokenReview lacks bound Pod name"
        | Some pod => Ok (Build_authenticatedPrincipal "" uid namespace pod account roleAdmissionOnly)
        end
      | _ => Err "TokenReview user is not a service account"
      end
    end
  end.

(** *** Signed identities *)

(** [identityAuthenticator]. *)
Record identityAuthenticator : Type := Build_identityAuthenticator {
  ia_masterSecret : string;
  ia_reviewToken : option (string -> result authenticatedPrincipal)
}.

Definition newline : string := String (ascii_of_N 10) EmptyString.
Definition nul : string := String zero EmptyString.
Definition bearer : string := "Bearer ".
(** [strings.TrimPrefix]. *)
Definition TrimPrefix (s p : string) : string := default s (strip_prefix p s).

(** [strconv.ParseInt(s, 10, 64)]: an optional sign and digits. *)
Definition ParseInt (s : string) : option Z :=
  match s with
  | String c r => if Ascii.eqb c "+" then match r with String d _ => if is_byte 45 d then None else parse_int64 r | _ => None end else parse_int64 s
  | EmptyString => None
  end.

Definition replay_window : Duration := 2 * Minute.

Section identity.
Context `{Crypto}.

(** [deriveSignerKey], and [deriveKey] of [govarextproc]. *)
Definition identity_material (namespace tenant workload : string) : string :=
  "govar-identity-v2" +:+ nul +:+ namespace +:+ nul +:+ tenant +:+ nul +:+ workload.
Definition deriveSignerKey (master namespace tenant workload : string) : string :=
  hmac_sha256_hex master (identity_material namespace tenant workload).

Definition signed_message (timestamp method path tenant workload namespace body : string) : string :=
  Join [timestamp; method; path; tenant; workload; namespace; sha256_hex body] newline.
Definition identity_signature (master namespace tenant workload timestamp method path body : string) : string :=
  hmac_sha256_hex (deriveSignerKey master namespace tenant workload) (signed_message timestamp method path tenant workload namespace body).

(** [identityAuthenticator.authenticate]. *)
Definition authenticate (a : identityAuthenticator) (now : Time) (r : HttpRequest) : result (authenticatedPrincipal * string) :=
  let authorization := TrimSpace (header r h_authorization) in
  if HasPrefix authorization bearer then
    match ia_reviewToken a with
    | None => Err "projected token review is not configured"
    | Some reviewToken =>
      match reviewToken (TrimSpace (TrimPrefix authorization bearer)) with
      | Err m => Err m
      | Ok principal => let? body := readAuthenticatedBody (http_Body r) in Ok (principal, body)
      end
    end
  else if (Z.of_nat (String.length (ia_masterSecret a)) <? 32) then Err "identity authentication is not configured"
  else
    let tenantID := TrimSpace (header r h_tenant) in
    let workloadUID := TrimSpace (header r h_workload) in
    let namespace := TrimSpace (header r h_namespace) in
    let timestamp := TrimSpace (header r h_timestamp) in
    let signature := TrimSpace (header r h_signature) in
    if String.eqb tenantID "" || String.eqb workloadUID "" || String.eqb namespace "" || String.eqb timestamp "" || String.eqb signature ""
    then Err "signed GOV-AR identity headers are required"
    else match ParseInt timestamp with
    | None => Err "invalid GOV-AR identity timestamp"
    | Some unixSeconds =>
      let delta := time_sub now (unixSeconds * Second) in
      if (delta <? - replay_window) || (replay_window <? delta) then Err "GOV-AR identity signature is outside the replay window"
      else match readAuthenticatedBody (http_Body r) with
      | Err _ => Err "read authenticated body"
      | Ok body =>
        let want := identity_signature (ia_masterSecret a) namespace tenantID workloadUID timestamp (http_Method r) (http_Path r) body in
        if negb (String.eqb (ToLower signature) want) then Err "invalid GOV-AR identity signature"
        else Ok (Build_authenticatedPrincipal tenantID workloadUID namespace "" "" roleGateway, body)
      end
    end.

(** The request [post] of [govarextproc] sends for a workload at a time. *)
Definition signed_request (master namespace tenant workload path body : string) (now : Time) : HttpRequest :=
  let timestamp := sprint (Unix now) in
  Build_HttpRequest MethodPost path path
    (<["Content-Type" := "application/json"%string]> (<[h_tenant := tenant]> (<[h_workload := workload]> (<[h_namespace := namespace]>
      (<[h_timestamp := timestamp]>
        (<[h_signature := identity_signature master namespace tenant workload timestamp MethodPost path body]> ∅)))))) body.
End identity.

(** ** Trusted workloads *)

Record trustedWorkload : Type := Build_trustedWorkload {
  tw_namespace : string;
  tw_tenant : string;
  tw_team : string;
  tw_application : string;
  tw_budgetPolicy : string;
  tw_routingPolicy : string;
  tw_serviceAccount : string;
  tw_uid : string;
  tw_resourceVersion : string;
  tw_sensitive : bool;
  tw_requireGateway : bool;
  tw_zones : list string
}.

(** [sortedCopy]; [splitAndNormalize] splits first. *)
Definition sortedCopy (values : list string) : list string :=
  sort_slice string_ltb (List.filter (fun v => negb (String.eqb v "")) (map (fun v => ToLower (TrimSpace v)) values)).
Definition splitAndNormalize (value : string) : list string := sortedCopy (split_on "," value).
Definition enabledValue (value : string) : bool :=
  existsb (String.eqb (ToLower (TrimSpace value))) ["true"; "enabled"; "1"; "yes"]%string.

Definition GOVARTenantKey : string := "aiops.imperium.io/govar-tenant".
Definition GOVARBudgetPolicyKey : string := "aiops.imperium.io/govar-budget-policy".
Definition GOVARRoutingKey : string := "aiops.imperium.io/govar-routing-policy".
Definition GOVARZonesKey : string := "aiops.imperium.io/govar-allowed-zones".
Definition GOVARSensitiveKey : string := "aiops.imperium.io/govar-sensitive-data".
Definition ApplicationKey : string := "aiops.imperium.io/application".
Definition TeamKey : string := "aiops.imperium.io/team".

Definition lookup_key (m : gmap string string) (key : string) : string := default ""%string (m !! key).
Definition pod_claims (pod : LivePod) (t : trustedWorkload) : list (string * string * string) :=
  let annotation key := lookup_key (lp_Annotations pod) key in
  [(GOVARTenantKey, annotation GOVARTenantKey, tw_tenant t);
   (GOVARBudgetPolicyKey, annotation GOVARBudgetPolicyKey, tw_budgetPolicy t);
   (GOVARRoutingKey, annotation GOVARRoutingKey, tw_routingPolicy t);
   (ApplicationKey, annotation ApplicationKey, tw_application t);
   (TeamKey, lookup_key (lp_Labels pod) TeamKey, tw_team t)].
Definition rejectConflictingPodGovernanceMetadata (pod : LivePod) (t : trustedWorkload) : option error :=
  match List.find (fun '(_, actual, expected) => negb (blank actual) && negb (String.eqb (TrimSpace actual) expected)) (pod_claims pod t) with
  | Some (name, _, _) => Some ("pod-authored " +:+ name +:+ " conflicts with operator-owned AIWorkloadBinding")
  | None =>
    let sensitive := TrimSpace (lookup_key (lp_Annotations pod) GOVARSensitiveKey) in
    let zones := TrimSpace (lookup_key (lp_Annotations pod) GOVARZonesKey) in
    if negb (String.eqb sensitive "") && negb (eqb (enabledValue sensitive) (tw_sensitive t))
    then Some "pod-authored sensitivity conflicts with operator-owned AIWorkloadBinding"%string
    else if negb (String.eqb zones "") && negb (bool_decide (splitAndNormalize zones = sortedCopy (tw_zones t)))
    then Some "pod-authored allowed zones conflict with operator-owned AIWorkloadBinding"%string
    else None
  end.

Definition resolvedReferenceMatches (reference : option ResolvedReference) (m : ObjectMeta) : bool :=
  match reference with
  | Some r => String.eqb (rf_Name r) (om_Name m) && String.eqb (rf_UID r) (om_UID m) && (rf_Generation r =? om_Generation m)
  | None => false
  end.

Section workloads.
Context (k : KubeApi).

(** The evidence of a binding that the controller observed as ready, and of the policy
    it names. *)
Definition binding_ready (b : AIWorkloadBinding) (serviceAccount : string) : bool :=
  String.eqb (om_Name (wbind_Meta b)) (wb_ServiceAccountName (wbind_Spec b)) &&
  String.eqb (wb_ServiceAccountName (wbind_Spec b)) serviceAccount &&
  negb (String.eqb (om_UID (wbind_Meta b)) "") && wb_RequireGateway (wbind_Spec b) &&
  (wbs_ObservedGeneration (wbind_Status b) =? om_Generation (wbind_Meta b)) &&
  IsStatusConditionTrue (wbs_Conditions (wbind_Status b)) ConditionReady.
Definition service_account_current (b : AIWorkloadBinding) (ns serviceAccount : string) : bool :=
  match get_ServiceAccount k ns serviceAccount with
  | Ok sa => negb (String.eqb (om_UID (sa_Meta sa)) "") &&
             String.eqb (om_UID (sa_Meta sa)) (wbs_ResolvedServiceAccountUID (wbind_Status b))
  | Err _ => false
  end.
Definition budget_current (b : AIWorkloadBinding) (ns : string) : bool :=
  match get_AIBudgetPolicy k ns (wb_BudgetPolicyRef (wbind_Spec b)) with
  | Ok p => resolvedReferenceMatches (wbs_ResolvedBudgetPolicy (wbind_Status b)) (bpol_Meta p) &&
            (bst_ObservedGeneration (bpol_Status p) =? om_Generation (bpol_Meta p)) &&
            IsStatusConditionTrue (bst_Conditions (bpol_Status p)) ConditionReady
  | Err _ => false
  end.
Definition routing_current (b : AIWorkloadBinding) (ns : string) : bool :=
  match get_AIRoutingPolicy k ns (wb_RoutingPolicyRef (wbind_Spec b)) with
  | Ok p => resolvedReferenceMatches (wbs_ResolvedRoutingPolicy (wbind_Status b)) (rpol_Meta p) &&
            (rst_ObservedGeneration (rpol_Status p) =? om_Generation (rpol_Meta p)) &&
            IsStatusConditionTrue (rst_Conditions (rpol_Status p)) ConditionReady
  | Err _ => false
  end.

Definition service_account_of (pod : LivePod) : string :=
  if blank (lp_ServiceAccountName pod) then "default" else TrimSpace (lp_ServiceAccountName pod).
Definition trusted_of (pod : LivePod) (b : AIWorkloadBinding) : trustedWorkload :=
  let s := wbind_Spec b in
  let m := wbind_Meta b in
  Build_trustedWorkload (om_Namespace (lp_Meta pod)) (wb_TenantID s) (wb_Team s) (wb_Application s) (wb_BudgetPolicyRef s)
    (wb_RoutingPolicyRef s) (service_account_of pod) (om_UID (lp_Meta pod))
    (om_ResourceVersion (lp_Meta pod) +:+ "|" +:+ om_UID m +:+ "|" +:+ sprint (om_Generation m) +:+ "|" +:+ om_ResourceVersion m)
    (negb (String.eqb (wb_Sensitivity s) TierLow)) (wb_RequireGateway s) (sortedCopy (wb_AllowedZones s)).

Definition trustedWorkloadFromPod (pod : LivePod) (p : authenticatedPrincipal) : result trustedWorkload :=
  let serviceAccount := service_account_of pod in
  let ns := om_Namespace (lp_Meta pod) in
  if negb (String.eqb (ap_serviceAccount p) "") && negb (String.eqb (ap_serviceAccount p) serviceAccount)
  then Err "TokenReview service account no longer matches live Pod"
  else match get_AIWorkloadBinding k ns serviceAccount with
  | Err m => Err ("operator-owned AIWorkloadBinding lookup failed: " +:+ m)
  | Ok b =>
    ensure binding_ready b serviceAccount orelse "AIWorkloadBinding is not observed and Ready for the live Pod service account";
    ensure service_account_current b ns serviceAccount orelse "AIWorkloadBinding ServiceAccount UID evidence is stale or missing";
    ensure budget_current b ns orelse "AIWorkloadBinding budget policy identity/readiness evidence is stale or missing";
    ensure routing_current b ns orelse "AIWorkloadBinding routing policy identity/readiness evidence is stale or missing";
    match rejectConflictingPodGovernanceMetadata pod (trusted_of pod b) with
    | Some m => Err m
    | None => Ok (trusted_of pod b)
    end
  end.

Definition resolveTrustedWorkload (p : authenticatedPrincipal) : result trustedWorkload :=
  if negb (String.eqb (ap_podName p) "") then
    match get_LivePod k (ap_namespace p) (ap_podName p) with
    | Err m => Err ("bound Pod lookup failed: " +:+ m)
    | Ok pod =>
      if negb (String.eqb (om_UID (lp_Meta pod)) (ap_workloadUID p)) then Err "TokenReview Pod UID no longer matches bound Pod"
      else trustedWorkloadFromPod pod p
    end
  else match list_LivePods k (ap_namespace p) with
  | Err m => Err ("list authenticated namespace pods: " +:+ m)
  | Ok pods =>
    match List.find (fun pod => String.eqb (om_UID (lp_Meta pod)) (ap_workloadUID p)) pods with
    | Some pod => trustedWorkloadFromPod pod p
    | None => Err "signed workload UID does not exist in signed namespace"
    end
  end.

Definition authorizeEvent (p : authenticatedPrincipal) (tenantID workloadUID : string) : result trustedWorkload :=
  match resolveTrustedWorkload p with
  | Err m => Err m
  | Ok t =>
    if negb (String.eqb tenantID (tw_tenant t)) || negb (String.eqb workloadUID (tw_uid t))
    then Err "event identity conflicts with trusted live Pod metadata"
    else Ok t
  end.

(** ** The binding controller *)

Definition ConditionValidated : string := "Validated".
Definition set_conditions (b : AIWorkloadBinding) (status : string) : list Condition :=
  SetStatusCondition (SetStatusCondition (wbs_Conditions (wbind_Status b)) (Build_Condition ConditionValidated status))
    (Build_Condition ConditionReady status).
Definition reference_to (m : ObjectMeta) : option ResolvedReference := Some (Build_ResolvedReference (om_Name m) (om_UID m) (om_Generation m)).

(** [AIWorkloadBindingReconciler.Reconcile]: the binding with the status it writes. *)
Definition ReconcileBinding (b : AIWorkloadBinding) : AIWorkloadBinding :=
  let ns := om_Namespace (wbind_Meta b) in
  let s := wbind_Spec b in
  let setFalse := b <| wbind_Status := (wbind_Status b) <| wbs_ObservedGeneration := om_Generation (wbind_Meta b) |>
                     <| wbs_ResolvedServiceAccountUID := ""%string |> <| wbs_ResolvedBudgetPolicy := None |>
                     <| wbs_ResolvedRoutingPolicy := None |> <| wbs_Conditions := set_conditions b "False" |> |> in
  match AIWorkloadBindingSpec_Validate s (om_Name (wbind_Meta b)), get_ServiceAccount k ns (wb_ServiceAccountName s),
        get_AIBudgetPolicy k ns (wb_BudgetPolicyRef s), get_AIRoutingPolicy k ns (wb_RoutingPolicyRef s) with
  | [], Ok serviceAccount, Ok budget, Ok routing =>
    b <| wbind_Status := (wbind_Status b) <| wbs_ObservedGeneration := om_Generation (wbind_Meta b) |>
           <| wbs_ResolvedServiceAccountUID := om_UID (sa_Meta serviceAccount) |>
           <| wbs_ResolvedBudgetPolicy := reference_to (bpol_Meta budget) |>
           <| wbs_ResolvedRoutingPolicy := reference_to (rpol_Meta routing) |>
           <| wbs_Conditions := set_conditions b ConditionTrue |> |>
  | _, _, _, _ => setFalse
  end.
End workloads.

(** ** Texts of the wire *)

(** Printable ASCII without the space. *)
Definition visible (c : ascii) : bool := ((33 <=? N_of_ascii c) && (N_of_ascii c <? 127))%N.
Definition plain_text (s : string) : bool := forallb visible (list_ascii_of_string s).

Lemma space_rune_ascii a r : (33 <= a < 127)%N -> is_space_rune (a :: r) = false.
Proof.
  intros [Hl Hu]. destruct r as [|b r].
  - assert (Hk : (33 <= N.to_nat a < 127)%nat) by lia. rewrite <- (N2Nat.id a). generalize dependent (N.to_nat a). clear.
    intros k Hk. do 33 (destruct k as [|k]; [lia|]). do 94 (destruct k as [|k]; [reflexivity|]). lia.
  - assert (Hk : (N.to_nat a < 127)%nat) by lia. rewrite <- (N2Nat.id a). generalize dependent (N.to_nat a). clear.
    intros k Hk. do 127 (destruct k as [|k]; [reflexivity|]). lia.
Qed.

Lemma plain_starts o l : (forall r, o r = r \/ o r = rev r) -> Forall (fun b => 33 <= b < 127)%N l -> starts_with_space o l = false.
Proof.
  intros Ho Hl. destruct l as [|a [|b [|c l]]]; cbn [starts_with_space]; [done|..]; rewrite ?Forall_cons in Hl; destruct_and?;
    rewrite ?(space_rune_ascii a) by done; cbn [orb]; [done|..];
    repeat match goal with |- context [o ?x] => destruct (Ho x) as [-> | ->] end; cbn [rev app]; by rewrite ?space_rune_ascii.
Qed.

Lemma TrimSpace_plain s : plain_text s = true -> TrimSpace s = s.
Proof.
  intros Hp. assert (Hb : Forall (fun b => 33 <= b < 127)%N (bytes_of s)).
  { unfold bytes_of. apply Forall_map, Forall_forall. intros c Hc. unfold plain_text in Hp. rewrite forallb_forall in Hp.
    specialize (Hp c (proj1 (list_elem_of_In _ _) Hc)). unfold visible in Hp. apply andb_prop in Hp as [?%N.leb_le ?%N.ltb_lt]. split; done. }
  unfold TrimSpace. rewrite (trim_from_fix id) by (apply plain_starts; [by left | done]).
  rewrite (trim_from_fix (@rev N)) by (apply plain_starts; [by right | by apply Forall_rev]).
  by rewrite rev_involutive, string_of_bytes_of.
Qed.

Lemma plain_not_blank s : plain_text s = true -> s <> "" -> blank s = false.
Proof. intros Hp Hs. unfold blank. rewrite TrimSpace_plain by done. by apply String.eqb_neq. Qed.

Lemma plain_of_numeral s : Forall (fun c => numeral c = true) (list_ascii_of_string s) -> plain_text s = true.
Proof.
  intros Hs. apply forallb_forall. intros c Hc%list_elem_of_In. rewrite Forall_forall in Hs. specialize (Hs c Hc).
  by destruct c as [[] [] [] [] [] [] [] []].
Qed.

Lemma plain_of_hex s : forallb lower_hex (bytes_of s) = true -> plain_text s = true /\ ToLower s = s.
Proof.
  unfold plain_text, ToLower. intros Hs. assert (Hl : Forall (fun c => lower_hex (N_of_ascii c) = true) (list_ascii_of_string s)).
  { apply Forall_forall. intros c Hc. rewrite forallb_forall in Hs. apply Hs. unfold bytes_of. apply in_map. by apply list_elem_of_In. }
  split.
  - apply forallb_forall. intros c Hc%list_elem_of_In. rewrite Forall_forall in Hl. specialize (Hl c Hc).
    by destruct c as [[] [] [] [] [] [] [] []].
  - rewrite <- (string_of_bytes_of s) at 2. f_equal. unfold bytes_of. induction Hl as [|c l Hc _ IH]; [done|]. cbn [map]. f_equal; [|done].
    by destruct c as [[] [] [] [] [] [] [] []].
Qed.

(** Texts of parts without the separator, joined by it. *)
Definition without (sep : ascii) (s : string) : Prop := Forall (fun c => negb (Ascii.eqb c sep) = true) (list_ascii_of_string s).

Lemma Join_inj sep (ps : list string) : forall qs, Forall (without sep) ps -> Forall (without sep) qs -> length ps = length qs ->
  Join ps (String sep "") = Join qs (String sep "") -> ps = qs.
Proof.
  induction ps as [|p ps IH]; intros [|q qs] Hp Hq Hl E; try done. apply Forall_cons in Hp as [Hp Hps], Hq as [Hq Hqs].
  destruct ps as [|p2 ps], qs as [|q2 qs]; try done.
  - cbn in E. by rewrite E.
  - rewrite !Join_cons, !string_app_cons, !string_app_nil in E.
    apply (split_first (fun c => negb (Ascii.eqb c sep))) in E; [|done..| by rewrite Ascii.eqb_refl | by rewrite Ascii.eqb_refl].
    destruct E as [-> E]. f_equal. cbn [length] in Hl. apply IH; [done..| by apply Nat.succ_inj | by injection E].
Qed.

Lemma without_plain sep s : visible sep = false -> plain_text s = true -> without sep s.
Proof.
  intros Hsep Hs. apply Forall_forall. intros c Hc%list_elem_of_In. unfold plain_text in Hs. rewrite forallb_forall in Hs.
  specialize (Hs c Hc). destruct (Ascii.eqb_spec c sep) as [->|]; [congruence | done].
Qed.

(** ** Signatures *)

(** The digests of the hash functions are lower-case hexadecimal. *)
Class MacLaws `{Crypto} : Prop := hmac_sha256_hex_ok : forall key s, is_sha256 (hmac_sha256_hex key s) = true.
#[export] Instance go_mac_laws : @MacLaws go_crypto.
Proof.
  intros key s. unfold is_sha256, hmac_sha256_hex, go_crypto, hmac_sum256. cbn zeta.
  by rewrite hex_encode_length, sum256_length, hex_encode_lower by apply sum256_bounded.
Qed.

Lemma hex_plain s : is_sha256 s = true -> plain_text s = true /\ ToLower s = s.
Proof. unfold is_sha256. intros [_ Hs]%andb_prop. by apply plain_of_hex. Qed.

Lemma ParseInt_sprint z : is_int64 z = true -> ParseInt (sprint z) = Some z.
Proof.
  intros Hz. pose proof (parse_int64_pretty z Hz) as Hp. pose proof (sprint_numeral z) as Hn. unfold ParseInt, sprint in *.
  destruct (pretty z) as [|c r] eqn:E; [discriminate Hp|]. cbn [list_ascii_of_string] in Hn. apply Forall_cons in Hn as [Hc _].
  destruct (Ascii.eqb_spec c "+") as [->|]; [discriminate Hc | done].
Qed.

Lemma plain_sprint z : plain_text (sprint z) = true.
Proof. apply plain_of_numeral, sprint_numeral. Qed.
Lemma sprint_not_empty z : is_int64 z = true -> sprint z <> "".
Proof. intros Hz E. pose proof (ParseInt_sprint z Hz) as Hp. by rewrite E in Hp. Qed.

(** The fields a transport carries: no NUL and no newline. *)
Definition transportable (s : string) : Prop := no_nul s /\ without (ascii_of_N 10) s.
Lemma plain_transportable s : plain_text s = true -> transportable s.
Proof.
  intros Hs. split; [|by apply without_plain]. pose proof (without_plain zero s eq_refl Hs) as Hw.
  eapply Forall_impl; [exact Hw|]. cbv beta. intros c Hc ->. discriminate Hc.
Qed.

Section signatures.
Context `{Crypto} `{!CryptoLaws} `{!MacLaws}.

(** The headers of a signed request. *)
Lemma signed_headers master ns tenant workload path body now :
  let r := signed_request master ns tenant workload path body now in
  header r h_authorization = "" /\ header r h_tenant = tenant /\ header r h_workload = workload /\ header r h_namespace = ns /\
  header r h_timestamp = sprint (Unix now) /\
  header r h_signature = identity_signature master ns tenant workload (sprint (Unix now)) MethodPost path body.
Proof. cbn. repeat split. Qed.

Lemma mac_not_empty key s : hmac_sha256_hex key s <> "".
Proof. intros E. pose proof (hmac_sha256_hex_ok key s) as Hok. rewrite E in Hok. discriminate Hok. Qed.

(** C28: what the filter signs is accepted: the request it sends for a workload is
    authenticated as that workload, with its body, by an authenticator of the same
    secret whose clock is at most two minutes away. *)
Theorem signed_request_authenticates a ns tenant workload path body sent received :
  32 <= Z.of_nat (String.length (ia_masterSecret a)) ->
  forallb (fun s => plain_text s && negb (String.eqb s "")) [ns; tenant; workload] = true ->
  Z.of_nat (String.length body) <= maxAuthenticatedBodyBytes -> is_int64 (Unix sent) = true ->
  - replay_window <= time_sub received (Unix sent * Second) <= replay_window ->
  authenticate a received (signed_request (ia_masterSecret a) ns tenant workload path body sent) =
    Ok (Build_authenticatedPrincipal tenant workload ns "" "" roleGateway, body).
Proof.
  intros Hm Hp Hb Hi Hd. cbn [forallb] in Hp. rewrite !andb_true_iff, !negb_true_iff, !String.eqb_neq in Hp.
  destruct Hp as ((Hns & Hns') & (Ht & Ht') & (Hw & Hw') & _).
  pose proof (hex_plain _ (hmac_sha256_hex_ok (deriveSignerKey (ia_masterSecret a) ns tenant workload)
    (signed_message (sprint (Unix sent)) MethodPost path tenant workload ns body))) as [Hsp Hsl].
  destruct (signed_headers (ia_masterSecret a) ns tenant workload path body sent) as (Ha & Hht & Hhw & Hhn & Hhts & Hhs).
  unfold authenticate. rewrite Ha, Hht, Hhw, Hhn, Hhts, Hhs. unfold identity_signature in *. change (TrimSpace "") with "".
  rewrite (TrimSpace_plain ns), (TrimSpace_plain tenant), (TrimSpace_plain workload), (TrimSpace_plain (sprint _)) by (done || apply plain_sprint).
  rewrite (TrimSpace_plain _ Hsp). change (HasPrefix "" bearer) with false. cbv iota.
  rewrite (proj2 (Z.ltb_ge _ _)) by lia. rewrite !(proj2 (String.eqb_neq _ "")) by (done || by apply sprint_not_empty).
  rewrite (proj2 (String.eqb_neq (hmac_sha256_hex _ _) "")) by apply mac_not_empty.
  cbn [orb]. rewrite ParseInt_sprint by done.
  rewrite (proj2 (Z.ltb_ge _ (- replay_window))), (proj2 (Z.ltb_ge replay_window _)) by lia. cbn [orb].
  unfold readAuthenticatedBody. change (http_Body (signed_request _ _ _ _ _ _ _)) with body. rewrite (proj2 (Z.ltb_ge _ _)) by lia.
  change (http_Method (signed_request _ _ _ _ _ _ _)) with MethodPost. change (http_Path (signed_request _ _ _ _ _ _ _)) with path.
  by rewrite Hsl, String.eqb_refl.
Qed.

Lemma authenticate_signed a now r p body : HasPrefix (TrimSpace (header r h_authorization)) bearer = false ->
  authenticate a now r = Ok (p, body) ->
  let tenant := TrimSpace (header r h_tenant) in let workload := TrimSpace (header r h_workload) in
  let ns := TrimSpace (header r h_namespace) in let ts := TrimSpace (header r h_timestamp) in
  p = Build_authenticatedPrincipal tenant workload ns "" "" roleGateway /\ body = http_Body r /\
  ToLower (TrimSpace (header r h_signature)) = identity_signature (ia_masterSecret a) ns tenant workload ts (http_Method r) (http_Path r) body.
Proof.
  unfold authenticate. intros -> E. cbv zeta. destruct (_ <? 32); [discriminate|]. destruct (_ || _); [discriminate|].
  destruct (ParseInt _); [|discriminate]. destruct (_ || _); [discriminate|]. unfold readAuthenticatedBody in E. destruct (_ <? _); [discriminate|].
  destruct (String.eqb_spec (ToLower (TrimSpace (header r h_signature))) (identity_signature (ia_masterSecret a) (TrimSpace (header r h_namespace))
    (TrimSpace (header r h_tenant)) (TrimSpace (header r h_workload)) (TrimSpace (header r h_timestamp)) (http_Method r) (http_Path r) (http_Body r)))
    as [Es|]; [|discriminate]. injection E as <- <-. by rewrite Es.
Qed.

Lemma identity_material_stream ns tenant workload :
  identity_material ns tenant workload = "govar-identity-v2" +:+ nul_stream [ns; tenant; workload].
Proof. unfold identity_material, nul_stream, nul. cbn [map]. rewrite !concat_cons. change (String.concat "" []) with "". by rewrite string_app_nil_end, !string_app_cons. Qed.

(** The message that is signed names the request, with the body by its digest. *)
Lemma signed_message_inj ts m p tenant workload ns body ts' m' p' tenant' workload' ns' body' :
  Forall (without (ascii_of_N 10)) [ts; m; p; tenant; workload; ns] -> Forall (without (ascii_of_N 10)) [ts'; m'; p'; tenant'; workload'; ns'] ->
  signed_message ts m p tenant workload ns body = signed_message ts' m' p' tenant' workload' ns' body' ->
  [ts; m; p; tenant; workload; ns; sha256_hex body] = [ts'; m'; p'; tenant'; workload'; ns'; sha256_hex body'].
Proof.
  intros Hw Hw' Em. unfold signed_message in Em.
  assert (Hd : forall s, without (ascii_of_N 10) (sha256_hex s)).
  { intros s. apply without_plain; [done|]. apply hex_plain, sha256_hex_ok. }
  apply Join_inj in Em; [| | |done].
  - by injection Em as -> -> -> -> -> -> ->.
  - rewrite !Forall_cons in Hw |- *. destruct_and!. repeat split; auto.
  - rewrite !Forall_cons in Hw' |- *. destruct_and!. repeat split; auto.
Qed.

(** a signature speaks for one workload and one request: a request that is accepted
    with a signature the filter made has the method, path and identity the filter
    signed and a body of the same digest, or else this signature is at once the MAC of
    two different messages, the accepted one and the signed one, each under the key of
    its workload. *)
Theorem signature_binds_request a now r p body ns tenant workload path signed sent :
  authenticate a now r = Ok (p, body) -> HasPrefix (TrimSpace (header r h_authorization)) bearer = false ->
  ToLower (TrimSpace (header r h_signature)) =
    header (signed_request (ia_masterSecret a) ns tenant workload path signed sent) h_signature ->
  Forall transportable (http_Method r :: http_Path r :: map (fun name => TrimSpace (header r name)) [h_timestamp; h_tenant; h_workload; h_namespace]) ->
  Forall transportable [path; ns; tenant; workload] ->
  (p = Build_authenticatedPrincipal tenant workload ns "" "" roleGateway /\ sha256_hex body = sha256_hex signed /\
   http_Method r = MethodPost /\ http_Path r = path) \/
  let accepted := signed_message (TrimSpace (header r h_timestamp)) (http_Method r) (http_Path r) (ap_tenantID p) (ap_workloadUID p) (ap_namespace p) body in
  let original := signed_message (sprint (Unix sent)) MethodPost path tenant workload ns signed in
  accepted <> original /\
  hmac_sha256_hex (deriveSignerKey (ia_masterSecret a) (ap_namespace p) (ap_tenantID p) (ap_workloadUID p)) accepted =
  hmac_sha256_hex (deriveSignerKey (ia_masterSecret a) ns tenant workload) original.
Proof.
  intros Ha Hb Hs Hr Hq. destruct (authenticate_signed _ _ _ _ _ Hb Ha) as (-> & -> & E). rewrite E in Hs.
  rewrite (proj2 (proj2 (proj2 (proj2 (proj2 (signed_headers _ _ _ _ _ _ _)))))) in Hs. cbn [map] in Hr.
  repeat match goal with HF : Forall transportable (_ :: _) |- _ => apply Forall_cons in HF as [[? ?] HF] end.
  pose proof (plain_transportable _ (plain_sprint (Unix sent))) as [_ Hts].
  assert (Hpost : without (ascii_of_N 10) MethodPost) by (by apply without_plain).
  cbv zeta. cbn [ap_tenantID ap_workloadUID ap_namespace]. unfold identity_signature in Hs.
  match goal with |- _ \/ ?m <> ?m' /\ _ => destruct (decide (m = m')) as [Em|Hne]; [left | right; by split] end.
  apply signed_message_inj in Em; [|by repeat (constructor; [done|])..]. by injection Em as _ -> -> -> -> -> ->.
Qed.
End signatures.

(** ** What a trusted workload is *)

Lemma find_uid_spec (uid : string) (pods : list LivePod) pod :
  List.find (fun pod => String.eqb (om_UID (lp_Meta pod)) uid) pods = Some pod -> pod ∈ pods /\ om_UID (lp_Meta pod) = uid.
Proof. intros [Hin E%String.eqb_eq]%find_some. split; [by apply list_elem_of_In | done]. Qed.

Section trust.
Context (k : KubeApi) `{!KubeLaws k}.

(** The pod a principal stands for: it is in the namespace the principal
    authenticated in, and has the authenticated UID. *)
Lemma resolve_pod p t : resolveTrustedWorkload k p = Ok t ->
  exists pod, om_Namespace (lp_Meta pod) = ap_namespace p /\ om_UID (lp_Meta pod) = ap_workloadUID p /\ trustedWorkloadFromPod k pod p = Ok t.
Proof.
  unfold resolveTrustedWorkload. destruct (negb (String.eqb (ap_podName p) "")).
  - destruct (get_LivePod _ _ _) as [pod|] eqn:Hp; [|discriminate].
    destruct (String.eqb_spec (om_UID (lp_Meta pod)) (ap_workloadUID p)) as [E|]; [|discriminate]. cbn [negb]. intros Ht.
    exists pod. apply pod_answers in Hp as [? _]. done.
  - destruct (list_LivePods _ _) as [pods|] eqn:Hp; [|discriminate]. destruct (List.find _ pods) as [pod|] eqn:Hf; [|discriminate].
    intros Ht. apply find_uid_spec in Hf as [Hin Hu]. exists pod. split; [|done]. apply pod_lists in Hp. rewrite Forall_forall in Hp. by apply Hp.
Qed.

(** Every condition of [trustedWorkloadFromPod], at a binding. *)
Record trusted_binding (pod : LivePod) (p : authenticatedPrincipal) (b : AIWorkloadBinding) : Prop := {
  tb_account : ap_serviceAccount p = "" \/ ap_serviceAccount p = service_account_of pod;
  tb_ready : binding_ready b (service_account_of pod) = true;
  tb_account_current : service_account_current k b (om_Namespace (lp_Meta pod)) (service_account_of pod) = true;
  tb_budget : budget_current k b (om_Namespace (lp_Meta pod)) = true;
  tb_routing : routing_current k b (om_Namespace (lp_Meta pod)) = true;
  tb_metadata : rejectConflictingPodGovernanceMetadata pod (trusted_of pod b) = None
}.

Lemma trustedWorkloadFromPod_ok pod p t : trustedWorkloadFromPod k pod p = Ok t <->
  exists b, get_AIWorkloadBinding k (om_Namespace (lp_Meta pod)) (service_account_of pod) = Ok b /\ trusted_binding pod p b /\ t = trusted_of pod b.
Proof.
  unfold trustedWorkloadFromPod. destruct (get_AIWorkloadBinding _ _ _) as [b|m].
  2:{ destruct (_ && _); split; try discriminate; by intros (? & [=] & _). }
  transitivity (trusted_binding pod p b /\ t = trusted_of pod b); [|split; [intros ?; by exists b | by intros (? & [= <-] & ?)]].
  destruct (binding_ready b (service_account_of pod)) eqn:H1; cbn [negb]; [|split; [by destruct (_ && _) | intros [[] _]; congruence]].
  destruct (service_account_current k b _ _) eqn:H2; [|split; [by destruct (_ && _) | intros [[] _]; congruence]].
  destruct (budget_current k b _) eqn:H3; [|split; [by destruct (_ && _) | intros [[] _]; congruence]].
  destruct (routing_current k b _) eqn:H4; [|split; [by destruct (_ && _) | intros [[] _]; congruence]].
  destruct (rejectConflictingPodGovernanceMetadata pod (trusted_of pod b)) eqn:H5; [split; [by destruct (_ && _) | intros [[] _]; congruence]|].
  destruct (String.eqb_spec (ap_serviceAccount p) "") as [E|E], (String.eqb_spec (ap_serviceAccount p) (service_account_of pod)) as [F|F];
    cbn [negb andb]; (split; [try discriminate; (intros [= <-]; split; [constructor; auto | done]) | intros [[[?|?] _ _ _ _ _] ->]; done]).
Qed.

(** the identity of a workload is the operator's: a principal is resolved only to a
    live pod of the namespace it authenticated in, with the authenticated UID, and
    tenant, team, application, policies and zones are those of the ready binding of
    the pod's service account, whose policies are live and unchanged. *)
Theorem trusted_workload_is_governed p t : resolveTrustedWorkload k p = Ok t ->
  tw_namespace t = ap_namespace p /\ tw_uid t = ap_workloadUID p /\
  exists b budget routing,
    get_AIWorkloadBinding k (ap_namespace p) (tw_serviceAccount t) = Ok b /\ wb_RequireGateway (wbind_Spec b) = true /\
    IsStatusConditionTrue (wbs_Conditions (wbind_Status b)) ConditionReady = true /\
    (tw_tenant t, tw_team t, tw_application t) = (wb_TenantID (wbind_Spec b), wb_Team (wbind_Spec b), wb_Application (wbind_Spec b)) /\
    tw_zones t = sortedCopy (wb_AllowedZones (wbind_Spec b)) /\ tw_sensitive t = negb (String.eqb (wb_Sensitivity (wbind_Spec b)) TierLow) /\
    get_AIBudgetPolicy k (ap_namespace p) (tw_budgetPolicy t) = Ok budget /\
    wbs_ResolvedBudgetPolicy (wbind_Status b) = reference_to (bpol_Meta budget) /\
    get_AIRoutingPolicy k (ap_namespace p) (tw_routingPolicy t) = Ok routing /\
    wbs_ResolvedRoutingPolicy (wbind_Status b) = reference_to (rpol_Meta routing).
Proof.
  intros (pod & Hns & Huid & (b & Hb & [_ Hr _ Hbud Hrout _] & ->)%trustedWorkloadFromPod_ok)%resolve_pod.
  unfold trusted_of, reference_to, budget_current, routing_current, resolvedReferenceMatches in *.
  cbn [tw_namespace tw_uid tw_serviceAccount tw_tenant tw_team tw_application tw_zones tw_sensitive tw_budgetPolicy tw_routingPolicy].
  rewrite Hns in *. unfold binding_ready in Hr. rewrite !andb_true_iff in Hr. destruct Hr as (((((_ & _) & _) & Hg) & _) & Hc).
  destruct (get_AIBudgetPolicy _ _ _) as [budget|] eqn:Hbp; [|discriminate]. destruct (get_AIRoutingPolicy _ _ _) as [routing|] eqn:Hrp; [|discriminate].
  rewrite !andb_true_iff in Hbud, Hrout. destruct Hbud as ((Hbud & _) & _), Hrout as ((Hrout & _) & _).
  split; [done|]. split; [done|]. exists b, budget, routing.
  destruct (wbs_ResolvedBudgetPolicy _) as [[n1 u1 g1]|]; [|discriminate]. destruct (wbs_ResolvedRoutingPolicy _) as [[n2 u2 g2]|]; [|discriminate].
  cbn [rf_Name rf_UID rf_Generation] in *. rewrite !andb_true_iff, !String.eqb_eq, !Z.eqb_eq in Hbud, Hrout.
  destruct Hbud as ((-> & ->) & ->), Hrout as ((-> & ->) & ->). done.
Qed.

Lemma references_itself m : resolvedReferenceMatches (reference_to m) m = true.
Proof. unfold resolvedReferenceMatches, reference_to. cbn [rf_Name rf_UID rf_Generation]. by rewrite !String.eqb_refl, Z.eqb_refl. Qed.

Lemma validated_names s name : AIWorkloadBindingSpec_Validate s name = [] -> name = wb_ServiceAccountName s.
Proof.
  unfold AIWorkloadBindingSpec_Validate. intros [_ [E _]%app_nil]%app_nil.
  by destruct (String.eqb_spec name (wb_ServiceAccountName s)).
Qed.

Lemma set_conditions_ready b status : IsStatusConditionTrue (set_conditions b status) ConditionReady = String.eqb status ConditionTrue.
Proof. apply IsStatusConditionTrue_set. Qed.

Definition policy_live (generation observed : Z) (conditions : list Condition) : Prop :=
  observed = generation /\ IsStatusConditionTrue conditions ConditionReady = true.

(** What the controller must find to publish a binding as resolved. *)
Record resolvable (b : AIWorkloadBinding) : Prop := {
  resolvable_spec : AIWorkloadBindingSpec_Validate (wbind_Spec b) (om_Name (wbind_Meta b)) = [];
  resolvable_account : exists sa, get_ServiceAccount k (om_Namespace (wbind_Meta b)) (wb_ServiceAccountName (wbind_Spec b)) = Ok sa /\ om_UID (sa_Meta sa) <> "";
  resolvable_budget : exists p, get_AIBudgetPolicy k (om_Namespace (wbind_Meta b)) (wb_BudgetPolicyRef (wbind_Spec b)) = Ok p /\
    policy_live (om_Generation (bpol_Meta p)) (bst_ObservedGeneration (bpol_Status p)) (bst_Conditions (bpol_Status p));
  resolvable_routing : exists p, get_AIRoutingPolicy k (om_Namespace (wbind_Meta b)) (wb_RoutingPolicyRef (wbind_Spec b)) = Ok p /\
    policy_live (om_Generation (rpol_Meta p)) (rst_ObservedGeneration (rpol_Status p)) (rst_Conditions (rpol_Status p))
}.

(** The evidence the controller writes is the evidence admission asks for. *)
Lemma reconciled_binding_trusted pod p b :
  om_Namespace (wbind_Meta b) = om_Namespace (lp_Meta pod) -> om_Name (wbind_Meta b) = service_account_of pod ->
  trusted_binding pod p (ReconcileBinding k b) <->
  (ap_serviceAccount p = "" \/ ap_serviceAccount p = service_account_of pod) /\ om_UID (wbind_Meta b) <> "" /\
  wb_RequireGateway (wbind_Spec b) = true /\ resolvable b /\ rejectConflictingPodGovernanceMetadata pod (trusted_of pod b) = None.
Proof.
  intros Hns Hname. assert (Hspec : wbind_Spec (ReconcileBinding k b) = wbind_Spec b /\ wbind_Meta (ReconcileBinding k b) = wbind_Meta b).
  { unfold ReconcileBinding. by repeat case_match. }
  destruct Hspec as [Hspec Hmeta]. assert (Htr : trusted_of pod (ReconcileBinding k b) = trusted_of pod b) by (unfold trusted_of; by rewrite Hspec, Hmeta).
  assert (Hready : binding_ready (ReconcileBinding k b) (service_account_of pod) = true -> IsStatusConditionTrue
    (wbs_Conditions (wbind_Status (ReconcileBinding k b))) ConditionReady = true) by (unfold binding_ready; rewrite !andb_true_iff; tauto).
  split.
  - intros [Ha Hr Hs Hb Hro Hm]. rewrite Htr in Hm. specialize (Hready Hr). unfold binding_ready in Hr.
    unfold service_account_current, budget_current, routing_current in *. rewrite Hspec, Hmeta in *. rewrite <- Hns in *.
    rewrite !andb_true_iff, negb_true_iff, String.eqb_neq in Hr. destruct Hr as (((((_ & _) & Hu) & Hg) & _) & _).
    repeat (split; [done|]). split; [|done]. revert Hready. unfold ReconcileBinding. rewrite Hname in *.
    destruct (AIWorkloadBindingSpec_Validate _ _) eqn:Hv; [|upd; by rewrite set_conditions_ready].
    destruct (get_ServiceAccount k _ (wb_ServiceAccountName _)) as [sa|] eqn:Hsa; [|upd; by rewrite set_conditions_ready].
    destruct (get_AIBudgetPolicy _ _ _) as [bp|] eqn:Hbp; [|upd; by rewrite set_conditions_ready].
    destruct (get_AIRoutingPolicy _ _ _) as [rp|] eqn:Hrp; [|upd; by rewrite set_conditions_ready].
    intros _. rewrite (validated_names _ _ Hv), Hsa in Hs.
    apply andb_prop in Hs as [Hs _], Hb as [[_ Hb%Z.eqb_eq]%andb_prop Hb'], Hro as [[_ Hro%Z.eqb_eq]%andb_prop Hro'].
    apply negb_true_iff, String.eqb_neq in Hs. constructor; [by rewrite Hname | by exists sa | by exists bp | by exists rp].
  - intros (Ha & Hu & Hg & [Hv (sa & Hsa & Hsu) (bp & Hbp & Hbo & Hbr) (rp & Hrp & Hro & Hrr)] & Hm).
    pose proof (validated_names _ _ Hv) as Hn. assert (Hacc : service_account_of pod = wb_ServiceAccountName (wbind_Spec b)) by congruence.
    assert (E : ReconcileBinding k b = b <| wbind_Status := (wbind_Status b) <| wbs_ObservedGeneration := om_Generation (wbind_Meta b) |>
        <| wbs_ResolvedServiceAccountUID := om_UID (sa_Meta sa) |> <| wbs_ResolvedBudgetPolicy := reference_to (bpol_Meta bp) |>
        <| wbs_ResolvedRoutingPolicy := reference_to (rpol_Meta rp) |> <| wbs_Conditions := set_conditions b ConditionTrue |> |>).
    { unfold ReconcileBinding. by rewrite Hv, Hsa, Hbp, Hrp. }
    constructor; [done | | | | | by rewrite Htr].
    + unfold binding_ready. rewrite Hspec, Hmeta, Hname, Hacc, E. upd. rewrite set_conditions_ready, Hg, !String.eqb_refl, Z.eqb_refl.
      by rewrite (proj2 (String.eqb_neq _ _) Hu).
    + unfold service_account_current. rewrite <- Hns, Hacc, Hsa, E. upd. by rewrite String.eqb_refl, (proj2 (String.eqb_neq _ _) Hsu).
    + unfold budget_current. rewrite Hspec, <- Hns, Hbp, E. upd. by rewrite references_itself, Hbo, Z.eqb_refl, Hbr.
    + unfold routing_current. rewrite Hspec, <- Hns, Hrp, E. upd. by rewrite references_itself, Hro, Z.eqb_refl, Hrr.
Qed.

(** C30: controller and admission agree: with the binding as the controller just wrote
    it, admission trusts a pod of its service account exactly when the binding is
    valid, requires the gateway, names a live service account and live, ready policies,
    and the pod claims nothing else. *)
Theorem reconciled_binding_grants_trust pod p b :
  get_AIWorkloadBinding k (om_Namespace (lp_Meta pod)) (service_account_of pod) = Ok (ReconcileBinding k b) ->
  om_Namespace (wbind_Meta b) = om_Namespace (lp_Meta pod) -> om_Name (wbind_Meta b) = service_account_of pod ->
  trustedWorkloadFromPod k pod p = Ok (trusted_of pod b) <->
  (ap_serviceAccount p = "" \/ ap_serviceAccount p = service_account_of pod) /\ om_UID (wbind_Meta b) <> "" /\
  wb_RequireGateway (wbind_Spec b) = true /\ resolvable b /\ rejectConflictingPodGovernanceMetadata pod (trusted_of pod b) = None.
Proof.
  intros Hget Hns Hname. rewrite <- (reconciled_binding_trusted pod p b Hns Hname), trustedWorkloadFromPod_ok.
  assert (Htr : trusted_of pod (ReconcileBinding k b) = trusted_of pod b).
  { unfold trusted_of, ReconcileBinding. by repeat case_match. }
  split.
  - intros (c & Hc & Ht & _). rewrite Hget in Hc. by injection Hc as <-.
  - intros Ht. by exists (ReconcileBinding k b).
Qed.
End trust.
