(* ===== verification/AdmissionServer.v ===== *)
(** * The admission service

    The handlers of [cmd/gov-ar-admission/main.go]: authenticate a request, decode it,
    resolve the live workload behind it, bind it to that workload, and make one call
    of the ledger. The ledger is an interface, [AdmissionBackend]; the in-memory
    engine implements it. A handler takes the state of the ledger and returns it
    with the response; metrics and tracing are left out. *)

From Stdlib Require Import ZArith Lia Ascii String.
From stdpp Require Import base gmap strings list pretty.
From S2P Require Import Prelude Digest GoTime Api Json JsonDecode Pricing Routes AdmissionPolicy Ledger Engine Wire Resources ChangeApproval Identity.

Open Scope string_scope.
Open Scope list_scope.
Open Scope Z_scope.
Open Scope go_scope.

(** ** The ledger behind the service *)

(** [admissionBackend]. *)
Class AdmissionBackend (L : Type) : Type := {
  backend_Admit : L -> AdmitRequest -> AIBudgetPolicy -> AIRoutingPolicy -> list Candidate -> L * result AdmitResponse;
  backend_Dispatch : L -> DispatchRequest -> L * reply;
  backend_Settle : L -> SettleRequest -> L * reply;
  backend_Cancel : L -> CancelRequest -> L * reply;
  backend_Liability : L -> string -> L * result LiabilityResponse
}.

(** ** Responses *)

Record HttpResponse : Type := Build_HttpResponse { hr_Status : Z; hr_Body : string }.
Definition StatusOK : Z := 200.
Definition StatusBadRequest : Z := 400.
Definition StatusUnauthorized : Z := 401.
Definition StatusForbidden : Z := 403.
Definition StatusMethodNotAllowed : Z := 405.
Definition StatusConflict : Z := 409.
Definition StatusGone : Z := 410.
Definition StatusRequestEntityTooLarge : Z := 413.
Definition StatusInternalServerError : Z := 500.
Definition StatusServiceUnavailable : Z := 503.

Definition writeJSON (v : jvalue) : HttpResponse := Build_HttpResponse StatusOK (jtext v +:+ newline).
Definition writeAPIError (status : Z) (code : ReasonCode) (e : error) : HttpResponse :=
  Build_HttpResponse status (jtext (JObject [("error", JString e); ("reason_code", JString (reason_text code))]%string) +:+ newline).
(** [http.Error]. *)
Definition http_Error (message : string) (status : Z) : HttpResponse := Build_HttpResponse status (message +:+ newline).
Definition writeAuthenticationError (e : error) : HttpResponse :=
  if String.eqb e errAuthenticatedBodyTooLarge then writeAPIError StatusRequestEntityTooLarge ReasonInvalidTransition e
  else writeAPIError StatusUnauthorized ReasonPrincipalMismatch e.

(** ** Admission of the trusted workload only *)

(** [bindTrustedAdmitRequest]. *)
Definition bindTrustedAdmitRequest (req : AdmitRequest) (t : trustedWorkload) : option error :=
  if String.eqb (areq_Namespace req) (tw_namespace t) && String.eqb (areq_TenantID req) (tw_tenant t) &&
     String.eqb (areq_WorkloadUID req) (tw_uid t) && String.eqb (areq_Team req) (tw_team t) &&
     String.eqb (areq_Application req) (tw_application t) && String.eqb (areq_BudgetPolicyName req) (tw_budgetPolicy t) &&
     String.eqb (areq_RoutingPolicyName req) (tw_routingPolicy t) && eqb (areq_SensitiveData req) (tw_sensitive t) &&
     bool_decide (sortedCopy (areq_AllowedZones req) = tw_zones t)
  then None else Some "admission body conflicts with trusted Pod metadata"%string.

(** *** Route approvals *)

Inductive approval_error : Type := ApprovalRequired | ApprovalExpired | ApprovalInvalid (message : string).
Definition approval_message (e : approval_error) : error :=
  match e with
  | ApprovalRequired => "no current exact policy-level GOV-AR route approval exists"
  | ApprovalExpired => "policy-level GOV-AR route approval expired"
  | ApprovalInvalid m => m
  end.

Section server.
Context `{Crypto}.
Context (time_json : Time -> jvalue).
Context `{AdmissionBackend L}.

(** Whether a candidate is the exact route a scope authorizes. *)
Definition scope_covers (scope : GOVARRouteApprovalScope) (c : Candidate) : bool :=
  let s := cand_RouteSnapshot c in
  cand_Feasible c && match ValidateRouteSnapshot s with None => true | Some _ => false end &&
  String.eqb (rf_Name (scope_Model scope)) (route_ModelName s) && String.eqb (rf_UID (scope_Model scope)) (route_ModelUID s) &&
  (rf_Generation (scope_Model scope) =? route_ModelGeneration s) &&
  String.eqb (rf_Name (scope_Provider scope)) (route_ProviderName s) && String.eqb (rf_UID (scope_Provider scope)) (route_ProviderUID s) &&
  (rf_Generation (scope_Provider scope) =? route_ProviderGeneration s) &&
  String.eqb (scope_RouteSnapshotDigest scope) (route_SnapshotHash s) && String.eqb (scope_RouteSnapshotDigest scope) (RouteSnapshotHash s).

(** The controller's evidence on a change request. *)
Definition controller_evidence (change : AIChangeRequest) (namespace : string) : bool :=
  let m := crq_Meta change in
  let st := crq_Status change in
  String.eqb (om_Namespace m) namespace && negb (bool_decide (is_Some (crq_DeletionTimestamp change))) && negb (String.eqb (om_UID m) "") &&
  (1 <=? om_Generation m) && is_govar change && String.eqb (crs_Approval (crq_Spec change)) ApprovalApproved &&
  bool_decide (is_Some (crs_GOVARRouteApproval (crq_Spec change))) && String.eqb (crst_Phase st) PhaseApproved &&
  (crst_ObservedGeneration st =? om_Generation m) && bool_decide (is_Some (crst_ApprovedAt st)) &&
  IsStatusConditionTrue (crst_Conditions st) ConditionReady.

(** [validateGOVARRouteApproval]. *)
Definition validateGOVARRouteApproval (now : Time) (change : AIChangeRequest) (routing : AIRoutingPolicy) (candidates : list Candidate)
    : Candidate + approval_error :=
  let st := crq_Status change in
  if negb (controller_evidence change (om_Namespace (rpol_Meta routing)))
  then inr (ApprovalInvalid "AIChangeRequest lacks current controller-approved GOV-AR route evidence")
  else match crs_GOVARRouteApproval (crq_Spec change) with
  | None => inr (ApprovalInvalid "AIChangeRequest lacks current controller-approved GOV-AR route evidence")
  | Some scope =>
    if String.eqb (scope_ScopeDigest scope) "" || negb (String.eqb (scope_ScopeDigest scope) (scope_digest time_json scope))
       || negb (String.eqb (crst_ApprovedScopeDigest st) (scope_ScopeDigest scope))
       || negb (bool_decide (crst_ExpiresAt st = Some (scope_ValidUntil scope)))
    then inr (ApprovalInvalid "AIChangeRequest GOV-AR route scope digest or expiry evidence is stale")
    else if negb (Before now (scope_ValidUntil scope)) then inr ApprovalExpired
    else match crs_GOVARDecision (crq_Spec change) with
    | None => inr (ApprovalInvalid "AIChangeRequest lacks a current independently authenticated GOV-AR reviewer decision")
    | Some d =>
      if negb (String.eqb (crst_ApprovedDecisionDigest st) (rd_DecisionDigest d))
         || negb (String.eqb (crst_ApprovedBy st) (rd_ReviewerIdentity d))
         || bool_decide (is_Some (ValidateGOVARDecision time_json change now))
      then inr (ApprovalInvalid "AIChangeRequest lacks a current independently authenticated GOV-AR reviewer decision")
      else if negb (String.eqb (rf_Name (scope_RoutingPolicy scope)) (om_Name (rpol_Meta routing)))
              || negb (String.eqb (rf_UID (scope_RoutingPolicy scope)) (om_UID (rpol_Meta routing)))
              || negb (rf_Generation (scope_RoutingPolicy scope) =? om_Generation (rpol_Meta routing))
      then inr (ApprovalInvalid "approved routing-policy UID/generation does not match the live policy")
      else match List.find (scope_covers scope) candidates with
      | Some c => inl c
      | None => inr (ApprovalInvalid "approved model/provider/route snapshot is no longer a feasible exact candidate")
      end
    end
  end.

(** The first change request, by name, that authorizes a route now. *)
Fixpoint first_approval (now : Time) (routing : AIRoutingPolicy) (candidates : list Candidate) (changes : list AIChangeRequest)
    : (Candidate * AIChangeRequest) + approval_error :=
  match changes with
  | [] => inr ApprovalRequired
  | change :: rest =>
    match validateGOVARRouteApproval now change routing candidates with
    | inl c => inl (c, change)
    | inr _ => first_approval now routing candidates rest
    end
  end.

(** [resolveGOVARRouteApproval]. *)
Definition resolveGOVARRouteApproval (k : KubeApi) (now : Time) (approvalRef : string) (routing : AIRoutingPolicy) (candidates : list Candidate)
    : (Candidate * AIChangeRequest) + approval_error :=
  let ns := om_Namespace (rpol_Meta routing) in
  if negb (blank approvalRef) then
    match get_AIChangeRequest k ns (TrimSpace approvalRef) with
    | Err m => inr (ApprovalInvalid ("approved AIChangeRequest lookup failed: " +:+ m))
    | Ok change =>
      match validateGOVARRouteApproval now change routing candidates with
      | inl c => inl (c, change)
      | inr e => inr e
      end
    end
  else match list_AIChangeRequests k ns with
  | Err m => inr (ApprovalInvalid ("list policy-level GOV-AR approvals: " +:+ m))
  | Ok changes =>
    first_approval now routing candidates (sort_slice (fun a b => string_ltb (om_Name (crq_Meta a)) (om_Name (crq_Meta b))) changes)
  end.

(** [selectApprovalCandidate]. *)
Definition selectApprovalCandidate (candidates : list Candidate) : result Candidate :=
  let better best c :=
    if cand_Feasible c && match ValidateRouteSnapshot (cand_RouteSnapshot c) with None => true | Some _ => false end then
      match best with
      | Some b => if string_ltb (cand_ModelRef c) (cand_ModelRef b) then Some c else best
      | None => Some c
      end
    else best in
  match fold_left better candidates None with
  | Some c => Ok c
  | None => Err "no feasible typed candidate exists for approval"
  end.

(** [requiredGOVARRouteApproval] and the response that carries it. *)
Definition approval_required_json (routing : AIRoutingPolicy) (c : Candidate) (traceID : string) : jvalue :=
  let s := cand_RouteSnapshot c in
  let m := rpol_Meta routing in
  JObject ([("decision", JString (decision_text DecisionRequireApproval)); ("reason_code", JString (reason_text ReasonApprovalRequired));
    ("required_approval", JObject
      [("action", JString ActionAuthorizeGOVARRoute); ("kind", JString "AIChangeRequest");
       ("model", reference_json (Build_ResolvedReference (route_ModelName s) (route_ModelUID s) (route_ModelGeneration s)));
       ("provider", reference_json (Build_ResolvedReference (route_ProviderName s) (route_ProviderUID s) (route_ProviderGeneration s)));
       ("route_snapshot_digest", JString (route_SnapshotHash s));
       ("routing_policy", reference_json (Build_ResolvedReference (om_Name m) (om_UID m) (om_Generation m)))])]%string ++
    text_member "trace_id" traceID).

(** The policy handed to the ledger once a route is approved: the canary is lifted and
    the approval is part of the policy version. *)
Definition approved_routing (routing : AIRoutingPolicy) (change : AIChangeRequest) : AIRoutingPolicy :=
  let m := rpol_Meta routing in
  let s := rpol_Spec routing in
  Build_AIRoutingPolicy
    (Build_ObjectMeta (om_Name m) (om_Namespace m) (om_UID m)
       (om_ResourceVersion m +:+ "|govar-approval:" +:+ om_UID (crq_Meta change) +:+ ":" +:+ sprint (om_Generation (crq_Meta change)) +:+ ":"
        +:+ crst_ApprovedScopeDigest (crq_Status change)) (om_Generation m))
    (Build_AIRoutingPolicySpec (rs_Objective s) (rs_Guardrails s) (Build_AIRoutingPolicyCanary false (cn_Percent (rs_Canary s))) (rs_GOVAR s))
    (rpol_Status routing).

(** ** Handlers *)

(** What surrounds one call: the authenticator, the API server, the clock, and the
    trace identifier of the request ([traceIDFromContext]). *)
Record ServerContext : Type := Build_ServerContext {
  sc_auth : identityAuthenticator;
  sc_kube : KubeApi;
  sc_now : Time;
  sc_trace : string
}.

Definition not_allowed : HttpResponse := http_Error "method not allowed" StatusMethodNotAllowed.
Definition provider_map (providers : list AIProvider) : gmap string AIProvider :=
  fold_left (fun m p => <[om_Name (prov_Meta p) := p]> m) providers ∅.
Definition request_context (req : AdmitRequest) : RequestContext :=
  Build_RequestContext (areq_Namespace req) (areq_Team req) (areq_Application req) (areq_SensitiveData req) (areq_AllowedZones req).
Definition authenticated_admit (req : AdmitRequest) (t : trustedWorkload) : AdmitRequest :=
  req <| areq_AuthenticatedTenantID := tw_tenant t |> <| areq_AuthenticatedWorkloadUID := tw_uid t |>
      <| areq_AuthenticatedNamespace := tw_namespace t |>.
Definition with_trace (r : AdmitResponse) (trace : string) : AdmitResponse :=
  Build_AdmitResponse (resp_Decision r) (resp_ReasonCode r) (resp_SelectedDeployment r) (resp_ReservationID r) (resp_ProviderAttemptID r)
    (resp_ProviderRetryPolicy r) (resp_ReservedCostMicros r) (resp_ReservationMode r) (resp_AllocatedRiskPPB r) (resp_RiskLevel r)
    (resp_PolicyVersion r) (resp_PricingVersion r) (resp_Expiry r) (if String.eqb trace "" then resp_TraceID r else trace)
    (resp_RouteSnapshot r) (resp_SettlementUsageBases r).

(** The end of [handleAdmit]: the ledger's answer. *)
Definition admit_through (l : L) (trace : string) (req : AdmitRequest) (budget : AIBudgetPolicy) (routing : AIRoutingPolicy)
    (candidates : list Candidate) : L * HttpResponse :=
  let '(l, answer) := backend_Admit l req budget routing candidates in
  (l, match answer with
      | Err m => writeAPIError StatusBadRequest ReasonInvalidTransition m
      | Ok r => writeJSON (admit_response_json (with_trace r trace))
      end).

(** [handleAdmit] once the request is bound to its workload. *)
Definition admit_bound (ctx : ServerContext) (l : L) (req : AdmitRequest) (approvalRef : string) : L * HttpResponse :=
  let k := sc_kube ctx in
  let ns := areq_Namespace req in
  match get_AIBudgetPolicy k ns (areq_BudgetPolicyName req) with
  | Err m => (l, http_Error m StatusBadRequest)
  | Ok budget =>
    match get_AIRoutingPolicy k ns (areq_RoutingPolicyName req) with
    | Err m => (l, http_Error m StatusBadRequest)
    | Ok routing =>
      match list_AIModels k ns with
      | Err m => (l, http_Error m StatusInternalServerError)
      | Ok models =>
        match list_AIProviders k ns with
        | Err m => (l, http_Error m StatusInternalServerError)
        | Ok providers =>
          let candidates := BuildCandidatesAt (request_context req) models (provider_map providers) (sc_now ctx) in
          if cn_Enabled (rs_Canary (rpol_Spec routing)) then
            match resolveGOVARRouteApproval k (sc_now ctx) approvalRef routing candidates with
            | inl (c, change) => admit_through l (sc_trace ctx) req budget (approved_routing routing change) [c]
            | inr ApprovalRequired =>
              match selectApprovalCandidate candidates with
              | Err m => (l, writeAPIError StatusConflict ReasonApprovalRequired m)
              | Ok c => (l, writeJSON (approval_required_json routing c (sc_trace ctx)))
              end
            | inr ApprovalExpired => (l, writeAPIError StatusGone ReasonApprovalRequired (approval_message ApprovalExpired))
            | inr (ApprovalInvalid m) => (l, writeAPIError StatusForbidden ReasonApprovalRequired m)
            end
          else admit_through l (sc_trace ctx) req budget routing candidates
        end
      end
    end
  end.

Definition handleAdmit (ctx : ServerContext) (l : L) (r : HttpRequest) : L * HttpResponse :=
  if negb (String.eqb (http_Method r) MethodPost) then (l, not_allowed)
  else match authenticate (sc_auth ctx) (sc_now ctx) r with
  | Err m => (l, writeAuthenticationError m)
  | Ok (principal, body) =>
    match decode_admit body with
    | Err m => (l, writeAPIError StatusBadRequest ReasonInvalidTransition m)
    | Ok api =>
      match resolveTrustedWorkload (sc_kube ctx) principal with
      | Err m => (l, writeAPIError StatusForbidden ReasonPrincipalMismatch m)
      | Ok t =>
        match bindTrustedAdmitRequest (api_AdmitRequest api) t with
        | Some m => (l, writeAPIError StatusForbidden ReasonPrincipalMismatch m)
        | None => admit_bound ctx l (authenticated_admit (api_AdmitRequest api) t) (api_ApprovalRef api)
        end
      end
    end
  end.

(** The answer to a transition. *)
Definition transition_answer (a : L * reply) : L * HttpResponse :=
  let '(l, (res, code, e)) := a in
  (l, match e with
      | Some m => writeAPIError StatusConflict code m
      | None => writeJSON (transition_json res code)
      end).

(** What the three event handlers share: only the gateway may report an event, of the
    workload it authenticated as. [forbidden] is the handler's own refusal. *)
Definition handle_event {R} (decode : string -> result R) (admission_only : error) (forbidden : R -> option error)
    (identity : R -> string * string) (call : L -> R -> trustedWorkload -> L * reply)
    (ctx : ServerContext) (l : L) (r : HttpRequest) : L * HttpResponse :=
  if negb (String.eqb (http_Method r) MethodPost) then (l, not_allowed)
  else match authenticate (sc_auth ctx) (sc_now ctx) r with
  | Err m => (l, writeAuthenticationError m)
  | Ok (principal, body) =>
    if negb (bool_decide (ap_role principal = roleGateway)) then (l, writeAPIError StatusForbidden ReasonPrincipalMismatch admission_only)
    else match decode body with
    | Err m => (l, writeAPIError StatusBadRequest ReasonInvalidTransition m)
    | Ok req =>
      match forbidden req with
      | Some m => (l, writeAPIError StatusForbidden ReasonPrincipalMismatch m)
      | None =>
        match authorizeEvent (sc_kube ctx) principal (identity req).1 (identity req).2 with
        | Err m => (l, writeAPIError StatusForbidden ReasonPrincipalMismatch m)
        | Ok t => transition_answer (call l req t)
        end
      end
    end
  end.

Definition authenticated_dispatch (req : DispatchRequest) (t : trustedWorkload) : DispatchRequest :=
  req <| dreq_AuthenticatedTenantID := tw_tenant t |> <| dreq_AuthenticatedWorkloadUID := tw_uid t |>.
Definition authenticated_settle (req : SettleRequest) (t : trustedWorkload) : SettleRequest :=
  req <| sreq_AuthenticatedTenantID := tw_tenant t |> <| sreq_AuthenticatedWorkloadUID := tw_uid t |>.
Definition authenticated_cancel (req : CancelRequest) (t : trustedWorkload) : CancelRequest :=
  req <| creq_AuthenticatedTenantID := tw_tenant t |> <| creq_AuthenticatedWorkloadUID := tw_uid t |>.

Definition handleDispatch : ServerContext -> L -> HttpRequest -> L * HttpResponse :=
  handle_event decode_dispatch "projected workload identity is admission-only" (fun _ => None)
    (fun req => (dreq_TenantID req, dreq_WorkloadUID req)) (fun l req t => backend_Dispatch l (authenticated_dispatch req t)).
Definition handleSettle : ServerContext -> L -> HttpRequest -> L * HttpResponse :=
  handle_event decode_settle "projected workload identity cannot submit authoritative usage or finality"
    (fun req => if sreq_ActualCostMicros req =? 0 then None
                else Some "gateway settlement must derive cost from authoritative usage tokens"%string)
    (fun req => (sreq_TenantID req, sreq_WorkloadUID req)) (fun l req t => backend_Settle l (authenticated_settle req t)).
Definition handleCancel : ServerContext -> L -> HttpRequest -> L * HttpResponse :=
  handle_event decode_cancel "projected workload identity cannot submit delivery or cancellation transitions"
    (fun req => if creq_AuthoritativeUnbilled req then Some "gateway authority cannot release liability as authoritative unbilled"%string else None)
    (fun req => (creq_TenantID req, creq_WorkloadUID req)) (fun l req t => backend_Cancel l (authenticated_cancel req t)).

Definition liability_prefix : string := "/v1/liability/".
Definition handleLiability (ctx : ServerContext) (l : L) (r : HttpRequest) : L * HttpResponse :=
  if negb (String.eqb (http_Method r) MethodGet) then (l, not_allowed)
  else
    let tenantID := TrimPrefix (http_URLPath r) liability_prefix in
    if String.eqb tenantID "" then (l, http_Error "tenant id required" StatusBadRequest)
    else match authenticate (sc_auth ctx) (sc_now ctx) r with
    | Err m => (l, writeAuthenticationError m)
    | Ok (principal, _) =>
      match resolveTrustedWorkload (sc_kube ctx) principal with
      | Err m => (l, writeAPIError StatusForbidden ReasonPrincipalMismatch m)
      | Ok t =>
        if negb (String.eqb (tw_tenant t) tenantID)
        then (l, writeAPIError StatusForbidden ReasonPrincipalMismatch "authenticated tenant cannot read another tenant ledger")
        else
          let '(l, answer) := backend_Liability l tenantID in
          (l, match answer with
              | Err m => writeAPIError StatusServiceUnavailable ReasonInvalidTransition ("ledger query failed: " +:+ m)
              | Ok liability => writeJSON (liability_json liability)
              end)
      end
    end.

(** The routes of the ledger that [run] registers. *)
Definition admit_path : string := "/v1/admit".
Definition dispatch_path : string := "/v1/dispatch".
Definition settle_path : string := "/v1/settle".
Definition cancel_path : string := "/v1/cancel".
Definition serve_http (ctx : ServerContext) (l : L) (r : HttpRequest) : L * HttpResponse :=
  let path := http_URLPath r in
  if String.eqb path admit_path then handleAdmit ctx l r
  else if String.eqb path dispatch_path then handleDispatch ctx l r
  else if String.eqb path settle_path then handleSettle ctx l r
  else if String.eqb path cancel_path then handleCancel ctx l r
  else if HasPrefix path liability_prefix then handleLiability ctx l r
  else (l, http_Error "404 page not found" 404).
End server.

(** ** The in-memory engine as that ledger *)

(** [Engine.LiabilityWithError]. *)
Definition LiabilityWithError (e : Engine) (tenantID : string) : Engine * result LiabilityResponse :=
  let '(e, answer) := Liability e tenantID in (e, Ok answer).
(** A panic of the engine's admission ([None]) ends the request in net/http's recovery: the
    connection is closed and the ledger is as it was. *)
Definition recovered_Admit `{Crypto} `{Platform} (e : Engine) (req : AdmitRequest) (budget : AIBudgetPolicy) (routing : AIRoutingPolicy)
    (candidates : list Candidate) : Engine * result AdmitResponse :=
  default (e, Err "connection closed by a panic") (Admit e req budget routing candidates).
#[export] Instance engine_backend `{Crypto} `{Platform} : AdmissionBackend Engine := {
  backend_Admit := recovered_Admit; backend_Dispatch := Dispatch; backend_Settle := Settle; backend_Cancel := Cancel; backend_Liability := LiabilityWithError
}.
