(* ===== verification/AdmissionServerProofs.v ===== *)
(** * What the admission service lets a caller do

    Whatever a request holds, serving it is no call of the ledger or one call that the
    trusted workload behind the request is authorized to make, so a run of the
    service over the in-memory engine is a run of the engine, and everything proved
    of the engine holds behind the service. *)

From Stdlib Require Import ZArith Lia Ascii String.
From stdpp Require Import base gmap strings list pretty.
From S2P Require Import Prelude Digest GoTime Api Json JsonDecode Pricing Routes AdmissionPolicy Ledger LedgerProofs Cohorts Engine EngineProofs EngineInvariants Wire Resources ChangeApproval Identity AdmissionServer.

Open Scope string_scope.
Open Scope list_scope.
Open Scope Z_scope.
Open Scope go_scope.

Section calls.
Context `{Crypto}.
Context (time_json : Time -> jvalue).
Context `{AdmissionBackend L}.

(** The calls of the ledger a principal's workload may make. *)
Inductive authorized (ctx : ServerContext) (p : authenticatedPrincipal) (t : trustedWorkload) (l : L) : L -> Prop :=
| may_admit req budget live routing candidates : bindTrustedAdmitRequest req t = None ->
    get_AIBudgetPolicy (sc_kube ctx) (tw_namespace t) (tw_budgetPolicy t) = Ok budget ->
    get_AIRoutingPolicy (sc_kube ctx) (tw_namespace t) (tw_routingPolicy t) = Ok live ->
    authorized ctx p t l (backend_Admit l (authenticated_admit req t) budget routing candidates).1
| may_dispatch req : ap_role p = roleGateway -> dreq_TenantID req = tw_tenant t -> dreq_WorkloadUID req = tw_uid t ->
    authorized ctx p t l (backend_Dispatch l (authenticated_dispatch req t)).1
| may_settle req : ap_role p = roleGateway -> sreq_TenantID req = tw_tenant t -> sreq_WorkloadUID req = tw_uid t ->
    sreq_ActualCostMicros req = 0 -> authorized ctx p t l (backend_Settle l (authenticated_settle req t)).1
| may_cancel req : ap_role p = roleGateway -> creq_TenantID req = tw_tenant t -> creq_WorkloadUID req = tw_uid t ->
    creq_AuthoritativeUnbilled req = false -> authorized ctx p t l (backend_Cancel l (authenticated_cancel req t)).1
| may_read : authorized ctx p t l (backend_Liability l (tw_tenant t)).1.

(** The effect of a request on the ledger. *)
Inductive served (ctx : ServerContext) (r : HttpRequest) (l : L) : L -> Prop :=
| no_call : served ctx r l l
| one_call p body t l' : authenticate (sc_auth ctx) (sc_now ctx) r = Ok (p, body) -> resolveTrustedWorkload (sc_kube ctx) p = Ok t ->
    authorized ctx p t l l' -> served ctx r l l'.

Lemma reply_bind_spec req t : bindTrustedAdmitRequest req t = None ->
  areq_Namespace req = tw_namespace t /\ areq_TenantID req = tw_tenant t /\ areq_WorkloadUID req = tw_uid t /\
  areq_BudgetPolicyName req = tw_budgetPolicy t /\ areq_RoutingPolicyName req = tw_routingPolicy t.
Proof.
  unfold bindTrustedAdmitRequest. destruct (_ && _) eqn:E; [|discriminate]. intros _.
  rewrite !andb_true_iff, !String.eqb_eq in E. tauto.
Qed.

Lemma admit_through_fst l trace req budget routing candidates :
  (admit_through l trace req budget routing candidates).1 = (backend_Admit l req budget routing candidates).1.
Proof. unfold admit_through. by destruct (backend_Admit _ _ _ _ _). Qed.

Lemma transition_answer_fst (a : L * reply) : (transition_answer a).1 = a.1.
Proof. by destruct a as [l [[res code] e]]. Qed.

Lemma admit_bound_authorized ctx p t l req ref : bindTrustedAdmitRequest req t = None ->
  (admit_bound time_json ctx l (authenticated_admit req t) ref).1 = l \/
  authorized ctx p t l (admit_bound time_json ctx l (authenticated_admit req t) ref).1.
Proof.
  intros Hb. pose proof (reply_bind_spec _ _ Hb) as (Hns & _ & _ & Hbp & Hrp). unfold admit_bound. cbv zeta.
  change (areq_Namespace (authenticated_admit req t)) with (areq_Namespace req).
  change (areq_BudgetPolicyName (authenticated_admit req t)) with (areq_BudgetPolicyName req).
  change (areq_RoutingPolicyName (authenticated_admit req t)) with (areq_RoutingPolicyName req). rewrite Hns, Hbp, Hrp.
  destruct (get_AIBudgetPolicy _ _ _) as [budget|] eqn:Eb; [|by left]. destruct (get_AIRoutingPolicy _ _ _) as [live|] eqn:Er; [|by left].
  destruct (list_AIModels _ _) as [models|] eqn:Em; [|by left]. destruct (list_AIProviders _ _) as [providers|] eqn:Ep; [|by left].
  rewrite <- Hns in Em, Ep. destruct (cn_Enabled _) eqn:Ec.
  - destruct (resolveGOVARRouteApproval _ _ _ _ _ _) as [[c change] | [| |m]] eqn:Ev; [|destruct (selectApprovalCandidate _); by left|by left..].
    right. rewrite admit_through_fst. apply (may_admit ctx p t l req budget live); done.
  - right. rewrite admit_through_fst. apply (may_admit ctx p t l req budget live); done.
Qed.

Lemma handleAdmit_served ctx l r : served ctx r l (handleAdmit time_json ctx l r).1.
Proof.
  unfold handleAdmit. destruct (negb _); [apply no_call|]. destruct (authenticate _ _ _) as [[p body]|] eqn:Ha; [|apply no_call].
  destruct (decode_admit body) as [api|]; [|apply no_call]. destruct (resolveTrustedWorkload _ _) as [t|] eqn:Ht; [|apply no_call].
  destruct (bindTrustedAdmitRequest _ _) eqn:Hb; [apply no_call|].
  destruct (admit_bound_authorized ctx p t l _ (api_ApprovalRef api) Hb) as [-> | Hc]; [apply no_call | by eapply one_call].
Qed.

Lemma authorizeEvent_ok k p tenant workload t : authorizeEvent k p tenant workload = Ok t ->
  resolveTrustedWorkload k p = Ok t /\ tenant = tw_tenant t /\ workload = tw_uid t.
Proof.
  unfold authorizeEvent. destruct (resolveTrustedWorkload k p) as [t'|]; [|discriminate].
  destruct (_ || _) eqn:E; [discriminate|]. intros [= <-].
  apply orb_false_iff in E as [E1%negb_false_iff%String.eqb_eq E2%negb_false_iff%String.eqb_eq]. done.
Qed.

(** What the three event handlers share. *)
Lemma handle_event_served {R} decode message (forbidden : R -> option error) identity (call : L -> R -> trustedWorkload -> L * reply) ctx l r :
  (forall p req t, ap_role p = roleGateway -> forbidden req = None -> identity req = (tw_tenant t, tw_uid t) ->
    authorized ctx p t l (call l req t).1) ->
  served ctx r l (handle_event decode message forbidden identity call ctx l r).1.
Proof.
  intros Hcall. unfold handle_event. destruct (negb _); [apply no_call|].
  destruct (authenticate _ _ _) as [[p body]|] eqn:Ha; [|apply no_call]. destruct (bool_decide (ap_role p = roleGateway)) eqn:Hg; [|apply no_call].
  apply bool_decide_eq_true in Hg. cbn [negb]. destruct (decode body) as [req|]; [|apply no_call].
  destruct (forbidden req) eqn:Hf; [apply no_call|]. destruct (authorizeEvent _ _ _ _) as [t|] eqn:Ht; [|apply no_call].
  apply authorizeEvent_ok in Ht as (Ht & E1 & E2). rewrite transition_answer_fst. eapply one_call; [exact Ha | exact Ht|].
  apply Hcall; [done..|]. by rewrite <- E1, <- E2, <- surjective_pairing.
Qed.

Lemma handleLiability_served ctx l r : served ctx r l (handleLiability ctx l r).1.
Proof.
  unfold handleLiability. destruct (negb _); [apply no_call|]. cbv zeta. destruct (String.eqb _ ""); [apply no_call|].
  destruct (authenticate _ _ _) as [[p body]|] eqn:Ha; [|apply no_call].
  destruct (resolveTrustedWorkload _ _) as [t|] eqn:Ht; [|apply no_call].
  destruct (String.eqb_spec (tw_tenant t) (TrimPrefix (http_URLPath r) liability_prefix)) as [<-|]; [|apply no_call]. cbn [negb].
  pose proof (may_read ctx p t l) as Hm. destruct (backend_Liability l (tw_tenant t)) as [l' answer]. by eapply one_call.
Qed.

Lemma serve_http_served ctx l r : served ctx r l (serve_http time_json ctx l r).1.
Proof.
  unfold serve_http. cbv zeta. destruct (String.eqb _ admit_path); [apply handleAdmit_served|].
  destruct (String.eqb _ dispatch_path).
  { apply handle_event_served. intros p req t Hg _ [= E1 E2]. by apply may_dispatch. }
  destruct (String.eqb _ settle_path).
  { apply handle_event_served. intros p req t Hg Hf [= E1 E2]. apply may_settle; [done..|]. by destruct (Z.eqb_spec (sreq_ActualCostMicros req) 0). }
  destruct (String.eqb _ cancel_path).
  { apply handle_event_served. intros p req t Hg Hf [= E1 E2]. apply may_cancel; [done..|]. by destruct (creq_AuthoritativeUnbilled req). }
  destruct (HasPrefix _ _); [apply handleLiability_served | apply no_call].
Qed.

(** the authority of a request: serving any HTTP request makes no call of the ledger,
    or exactly one, on behalf of the workload the caller authenticated as and the cluster
    resolves: an admission of that workload under its live budget, an event of the gateway about that workload that states no cost and releases
    no liability of its own, or a read of the workload's own tenant. *)
Theorem serve_makes_one_authorized_call ctx l r : served ctx r l (serve_http time_json ctx l r).1.
Proof. apply serve_http_served. Qed.

(** *** Approved routes *)

Lemma validated_approval now change routing candidates c :
  validateGOVARRouteApproval time_json now change routing candidates = inl c ->
  c ∈ candidates /\ controller_evidence change (om_Namespace (rpol_Meta routing)) = true /\
  ValidateGOVARDecision time_json change now = None /\
  exists scope d, crs_GOVARRouteApproval (crq_Spec change) = Some scope /\ crs_GOVARDecision (crq_Spec change) = Some d /\
    Before now (scope_ValidUntil scope) = true /\ scope_ScopeDigest scope = scope_digest time_json scope /\
    crst_ApprovedScopeDigest (crq_Status change) = scope_ScopeDigest scope /\
    crst_ApprovedDecisionDigest (crq_Status change) = rd_DecisionDigest d /\
    (rf_Name (scope_RoutingPolicy scope), rf_UID (scope_RoutingPolicy scope), rf_Generation (scope_RoutingPolicy scope)) =
      (om_Name (rpol_Meta routing), om_UID (rpol_Meta routing), om_Generation (rpol_Meta routing)) /\
    scope_covers scope c = true.
Proof.
  unfold validateGOVARRouteApproval. cbv zeta. destruct (controller_evidence _ _); [|discriminate]. cbn [negb].
  destruct (crs_GOVARRouteApproval _) as [scope|]; [|discriminate].
  destruct (_ || _) eqn:E1; [discriminate|]. rewrite !orb_false_iff, !negb_false_iff, !String.eqb_eq in E1. destruct E1 as (((_ & E1) & E2) & _).
  destruct (Before now _) eqn:E3; [|discriminate]. cbn [negb].
  destruct (crs_GOVARDecision _) as [d|]; [|discriminate].
  destruct (_ || _) eqn:E4; [discriminate|]. rewrite !orb_false_iff, negb_false_iff, String.eqb_eq, bool_decide_eq_false in E4. destruct E4 as ((E4 & _) & E5).
  destruct (_ || _) eqn:E6; [discriminate|]. rewrite !orb_false_iff, !negb_false_iff, !String.eqb_eq, Z.eqb_eq in E6. destruct E6 as ((E6 & E7) & E8).
  destruct (List.find _ _) as [c'|] eqn:Hf; [|discriminate]. intros [= ->]. apply find_some in Hf as [Hin Hc].
  split; [by apply list_elem_of_In|]. split; [done|]. split; [destruct (ValidateGOVARDecision _ _ _); [destruct E5; eauto | done]|].
  exists scope, d. by rewrite E6, E7, E8.
Qed.

Lemma first_approval_validated now routing candidates changes c change :
  first_approval time_json now routing candidates changes = inl (c, change) ->
  change ∈ changes /\ validateGOVARRouteApproval time_json now change routing candidates = inl c.
Proof.
  induction changes as [|x changes IH]; cbn [first_approval]; [discriminate|].
  destruct (validateGOVARRouteApproval _ _ x _ _) as [c'|] eqn:E; [intros [= <- <-]; split; [left | done]|].
  intros Hf. destruct (IH Hf) as [Hin Hv]. split; [by right | done].
Qed.

(** A change request of the policy's namespace, as the cluster answers now. *)
Definition live_change (k : KubeApi) (ref : string) (live : AIRoutingPolicy) (change : AIChangeRequest) : Prop :=
  get_AIChangeRequest k (om_Namespace (rpol_Meta live)) (TrimSpace ref) = Ok change \/
  exists changes, list_AIChangeRequests k (om_Namespace (rpol_Meta live)) = Ok changes /\ change ∈ changes.

Lemma resolved_approval k now ref routing candidates c change :
  resolveGOVARRouteApproval time_json k now ref routing candidates = inl (c, change) ->
  live_change k ref routing change /\ validateGOVARRouteApproval time_json now change routing candidates = inl c.
Proof.
  unfold resolveGOVARRouteApproval, live_change. cbv zeta. destruct (negb (blank ref)).
  - destruct (get_AIChangeRequest _ _ _) as [x|]; [|discriminate]. destruct (validateGOVARRouteApproval _ _ x _ _) eqn:E; [|discriminate].
    intros [= <- <-]. split; [by left | done].
  - destruct (list_AIChangeRequests _ _) as [changes|]; [|discriminate]. intros [Hin E]%first_approval_validated.
    rewrite sort_slice_perm in Hin. split; [right; by exists changes | done].
Qed.

(** A route a second person opened: what stands behind a candidate under a canary. *)
Record reviewed_route (now : Time) (live : AIRoutingPolicy) (c : Candidate) (change : AIChangeRequest)
    (scope : GOVARRouteApprovalScope) (d : GOVARRouteApprovalDecision) : Prop := {
  rr_scope : crs_GOVARRouteApproval (crq_Spec change) = Some scope /\ crst_ApprovedScopeDigest (crq_Status change) = scope_digest time_json scope;
  rr_namespace : om_Namespace (crq_Meta change) = om_Namespace (rpol_Meta live);
  rr_policy : (rf_Name (scope_RoutingPolicy scope), rf_UID (scope_RoutingPolicy scope), rf_Generation (scope_RoutingPolicy scope)) =
    (om_Name (rpol_Meta live), om_UID (rpol_Meta live), om_Generation (rpol_Meta live));
  rr_snapshot : scope_RouteSnapshotDigest scope = RouteSnapshotHash (cand_RouteSnapshot c) /\ ValidateRouteSnapshot (cand_RouteSnapshot c) = None;
  rr_reviewer : rd_ReviewerIdentity d <> crs_RequestedBy (crq_Spec change) /\ rd_ReviewerGroup d = GOVARApprovalReviewerGroup;
  rr_decision : crs_GOVARDecision (crq_Spec change) = Some d /\ rd_Outcome d = ApprovalApproved /\
    rd_DecisionDigest d = decision_digest time_json d (om_Namespace (crq_Meta change)) (om_Name (crq_Meta change)) (crs_RequestedBy (crq_Spec change));
  rr_status : crst_Phase (crq_Status change) = PhaseApproved /\ crst_ObservedGeneration (crq_Status change) = om_Generation (crq_Meta change);
  rr_unexpired : now < scope_ValidUntil scope
}.

Lemma valid_decision change now d : ValidateGOVARDecision time_json change now = None -> crs_GOVARDecision (crq_Spec change) = Some d ->
  crs_Approval (crq_Spec change) = ApprovalApproved ->
  rd_ReviewerIdentity d <> crs_RequestedBy (crq_Spec change) /\ rd_ReviewerGroup d = GOVARApprovalReviewerGroup /\ rd_Outcome d = ApprovalApproved /\
  rd_DecisionDigest d = decision_digest time_json d (om_Namespace (crq_Meta change)) (om_Name (crq_Meta change)) (crs_RequestedBy (crq_Spec change)).
Proof.
  unfold ValidateGOVARDecision. cbv zeta. destruct (crs_GOVARRouteApproval _); [|discriminate]. destruct (negb _); [discriminate|].
  destruct (_ || _); [discriminate|]. intros H1 Hd Ha. rewrite Hd in H1. revert H1.
  destruct (_ || _) eqn:E1; [discriminate|]. apply orb_false_iff in E1 as [E1%negb_false_iff%String.eqb_eq _].
  destruct (_ || _) eqn:E2; [discriminate|]. rewrite !orb_false_iff, negb_false_iff, String.eqb_neq, String.eqb_eq in E2. destruct E2 as ((_ & E2) & E3).
  destruct (_ || _); [discriminate|].
  match goal with |- context [String.eqb ?a ?b] => destruct (String.eqb_spec a b) as [E4|]; cbn [negb]; [|discriminate] end.
  intros _. by rewrite E1.
Qed.

Lemma approval_reviewed now change live candidates c :
  validateGOVARRouteApproval time_json now change live candidates = inl c ->
  c ∈ candidates /\ exists scope d, reviewed_route now live c change scope d.
Proof.
  intros (Hin & Hev & Hval & scope & d & Hs & Hd & Ht & Hsd & Has & Had & Hpol & Hc)%validated_approval. split; [done|].
  unfold controller_evidence in Hev. cbv zeta in Hev. rewrite !andb_true_iff, !String.eqb_eq, Z.eqb_eq in Hev.
  destruct Hev as ((((((((((Hns & _) & _) & _) & _) & Hap) & _) & Hph) & Hgen) & _) & _).
  destruct (valid_decision _ _ _ Hval Hd Hap) as (Hr & Hg & Ho & Hdd).
  unfold scope_covers in Hc. cbv zeta in Hc. rewrite !andb_true_iff in Hc.
  destruct Hc as (((((((((_ & Hv) & _) & _) & _) & _) & _) & _) & _) & Hsn%String.eqb_eq).
  exists scope, d. unfold Before in Ht. apply Z.ltb_lt in Ht. constructor; try done.
  - by rewrite <- Hsd.
  - split; [done|]. by destruct (ValidateRouteSnapshot _).
Qed.

(** What serving an admission does to the ledger: the request is the caller's own, and the
    policy, models and providers are those of its namespace in the cluster; under a canary
    the ledger is called for one reviewed route, and else for the live candidates. *)
Definition admission_of_routes (ctx : ServerContext) (l l' : L) (req : AdmitRequest) (approvalRef : string) (live : AIRoutingPolicy) : Prop :=
  exists budget models providers,
    get_AIBudgetPolicy (sc_kube ctx) (areq_Namespace req) (areq_BudgetPolicyName req) = Ok budget /\
    list_AIModels (sc_kube ctx) (areq_Namespace req) = Ok models /\ list_AIProviders (sc_kube ctx) (areq_Namespace req) = Ok providers /\
    let candidates := BuildCandidatesAt (request_context req) models (provider_map providers) (sc_now ctx) in
    if cn_Enabled (rs_Canary (rpol_Spec live))
    then exists c change scope d, c ∈ candidates /\ live_change (sc_kube ctx) approvalRef live change /\
           reviewed_route (sc_now ctx) live c change scope d /\ l' = (backend_Admit l req budget (approved_routing live change) [c]).1
    else l' = (backend_Admit l req budget live candidates).1.

Lemma admit_bound_routes ctx l req ref : (admit_bound time_json ctx l req ref).1 = l \/
  exists live, get_AIRoutingPolicy (sc_kube ctx) (areq_Namespace req) (areq_RoutingPolicyName req) = Ok live /\
    admission_of_routes ctx l (admit_bound time_json ctx l req ref).1 req ref live.
Proof.
  unfold admit_bound, admission_of_routes. cbv zeta.
  destruct (get_AIBudgetPolicy _ _ _) as [budget|] eqn:Eb; [|by left]. destruct (get_AIRoutingPolicy _ _ _) as [live|] eqn:Er; [|by left].
  destruct (list_AIModels _ _) as [models|] eqn:Em; [|by left]. destruct (list_AIProviders _ _) as [providers|] eqn:Ep; [|by left].
  set (candidates := BuildCandidatesAt _ _ _ _). destruct (cn_Enabled _) eqn:Ec.
  - destruct (resolveGOVARRouteApproval _ _ _ _ _ _) as [[c change] | [| |m]] eqn:Ev; [|destruct (selectApprovalCandidate _); by left|by left..].
    right. exists live. split; [done|]. exists budget, models, providers. rewrite Ec. split; [done|]. split; [done|]. split; [done|].
    apply resolved_approval in Ev as [Hlive (Hin & scope & d & Hr)%approval_reviewed]. exists c, change, scope, d. by rewrite admit_through_fst.
  - right. exists live. split; [done|]. exists budget, models, providers. rewrite Ec. by rewrite admit_through_fst.
Qed.

(** C26: a policy under a canary admits only a route that a second person opened: an
    admission that moves the ledger is that of the workload its caller authenticated as,
    and when the live policy is under a canary the ledger is called with one candidate,
    a live one whose route snapshot an approved, unexpired change request of the cluster
    names exactly, for this generation of this policy, by a decision of a reviewer of
    the group who is not the requester; else it is called with the live candidates. *)
Theorem canary_admits_reviewed_routes ctx l r : (handleAdmit time_json ctx l r).1 = l \/
  exists p body api t live, authenticate (sc_auth ctx) (sc_now ctx) r = Ok (p, body) /\ decode_admit body = Ok api /\
    resolveTrustedWorkload (sc_kube ctx) p = Ok t /\ bindTrustedAdmitRequest (api_AdmitRequest api) t = None /\
    get_AIRoutingPolicy (sc_kube ctx) (tw_namespace t) (tw_routingPolicy t) = Ok live /\
    admission_of_routes ctx l (handleAdmit time_json ctx l r).1 (authenticated_admit (api_AdmitRequest api) t) (api_ApprovalRef api) live.
Proof.
  unfold handleAdmit. destruct (negb _); [by left|]. destruct (authenticate _ _ _) as [[p body]|] eqn:Ha; [|by left].
  destruct (decode_admit body) as [api|] eqn:Hd; [|by left]. destruct (resolveTrustedWorkload _ _) as [t|] eqn:Ht; [|by left].
  destruct (bindTrustedAdmitRequest _ _) eqn:Hb; [by left|].
  destruct (admit_bound_routes ctx l (authenticated_admit (api_AdmitRequest api) t) (api_ApprovalRef api)) as [-> | (live & Er & Hr)]; [by left|].
  right. exists p, body, api, t, live. pose proof (reply_bind_spec _ _ Hb) as (Hns & _ & _ & _ & Hrp). by rewrite <- Hns, <- Hrp.
Qed.
End calls.

(** ** Behind the service: the in-memory engine *)

Section engine.
Context `{Crypto} `{Platform}.
Context (time_json : Time -> jvalue).

Lemma authorized_call ctx p t e e' : authorized ctx p t e e' ->
  e' = e \/ exists c, caller c = Some (tw_tenant t) /\ serve e c = Some e'.
Proof.
  intros [req budget live routing candidates _ _ _ | req _ _ _ | req _ _ _ _ | req _ _ _ _ |].
  - cbn [backend_Admit engine_backend]. unfold recovered_Admit.
    destruct (Admit e _ budget routing candidates) as [out|] eqn:E; [right | by left].
    exists (CallAdmit (authenticated_admit req t) budget routing candidates). split; [done|]. cbn [serve]. by rewrite E.
  - right. by exists (CallDispatch (authenticated_dispatch req t)).
  - right. by exists (CallSettle (authenticated_settle req t)).
  - right. by exists (CallCancel (authenticated_cancel req t)).
  - right. exists (CallLiability (tw_tenant t)). split; [done|]. cbn [backend_Liability engine_backend serve].
    unfold LiabilityWithError. by destruct (Liability e (tw_tenant t)).
Qed.

(** One request of a service: a new reading of the engine's clock, then the request. *)
Definition exchange (e : Engine) (x : ServerContext * HttpRequest) : Engine :=
  (serve_http time_json x.1 (e <| engine_now := sc_now x.1 |>) x.2).1.
(** Calls made for the requests of a service: per request a reading of the clock, and no
    call or one on behalf of the tenant the caller authenticated as. *)
Inductive calls_for : list (ServerContext * HttpRequest) -> list call -> Prop :=
| calls_nil : calls_for [] []
| calls_none ctx r xs cs : calls_for xs cs -> calls_for ((ctx, r) :: xs) (Tick (sc_now ctx) :: cs)
| calls_one ctx r p body t c xs cs : authenticate (sc_auth ctx) (sc_now ctx) r = Ok (p, body) ->
    resolveTrustedWorkload (sc_kube ctx) p = Ok t -> caller c = Some (tw_tenant t) -> calls_for xs cs ->
    calls_for ((ctx, r) :: xs) (Tick (sc_now ctx) :: c :: cs).

(** C22: the service refines the engine: whatever requests it is sent, the ledger ends as
    after a run of the engine with at most one call per request, each on behalf of the
    tenant its caller authenticated as; so what every run keeps, the service keeps. *)
Theorem service_refines_engine e xs : exists cs, calls_for xs cs /\ run e cs = Some (fold_left exchange xs e).
Proof.
  revert e. induction xs as [|[ctx r] xs IH]; intros e; [exists []; split; [constructor | done]|].
  destruct (IH (exchange e (ctx, r))) as (cs & Hcs & Hrun). cbn [fold_left].
  pose proof (serve_http_served time_json ctx (e <| engine_now := sc_now ctx |>) r) as Hs.
  change (serve_http _ _ _ _).1 with (exchange e (ctx, r)) in Hs.
  assert (Htick : serve e (Tick (sc_now ctx)) = Some (e <| engine_now := sc_now ctx |>)) by done.
  set (e0 := e <| engine_now := sc_now ctx |>) in *. clearbody e0. inversion Hs as [E | p body t e1 Ha Ht Hc E].
  - exists (Tick (sc_now ctx) :: cs). split; [by constructor|]. eapply run_cons; [exact Htick|]. by rewrite E.
  - subst e1. apply authorized_call in Hc as [Hsame | (c & Hcaller & Hserve)].
    { exists (Tick (sc_now ctx) :: cs). split; [by constructor|]. eapply run_cons; [exact Htick|]. by rewrite <- Hsame. }
    exists (Tick (sc_now ctx) :: c :: cs).
    split; [by eapply calls_one|]. eapply run_cons; [exact Htick|]. by eapply run_cons.
Qed.

(** one tenant cannot reach another through the service: over any engine the process
    reached, a request either leaves the ledger as it was, or it authenticated as a
    workload of some tenant and leaves every other tenant's account and requests. *)
Theorem service_isolates_tenants ctx e r : reachable e ->
  (serve_http time_json ctx e r).1 = e \/
  exists p body t, authenticate (sc_auth ctx) (sc_now ctx) r = Ok (p, body) /\ resolveTrustedWorkload (sc_kube ctx) p = Ok t /\
    touches (tw_tenant t) e (serve_http time_json ctx e r).1.
Proof.
  intros Hreach. destruct (serve_http_served time_json ctx e r) as [| p body t e' Ha Ht [->|(c & Hc & Hs)]%authorized_call]; [by left..|].
  right. exists p, body, t. split; [done|]. split; [done|]. eapply serve_touches; [by apply reachable_wf | done | done].
Qed.
End engine.
