(* ===== verification/AdmissionServerExample.v ===== *)
(** * A concrete cluster behind the admission service

    One namespace with a governed pod, its binding as the controller reconciles it, the
    policies, model and provider of the earlier examples, and a change request as the
    webhook and the controller leave it; requests signed as the filter signs them,
    with SHA-256 and HMAC computed. The witnesses of the theorems on identity and on
    the service apply them here. *)

From Stdlib Require Import ZArith Lia Ascii String.
From stdpp Require Import base gmap strings list pretty.
From S2P Require Import Prelude Digest GoTime Api Json JsonDecode Pricing Routes AdmissionPolicy Ledger LedgerProofs Cohorts Engine EngineProofs EngineInvariants EngineExample Wire Resources ChangeApproval Identity AdmissionServer AdmissionServerProofs.

Open Scope string_scope.
Open Scope list_scope.
Open Scope Z_scope.
Open Scope go_scope.

#[local] Existing Instance go_crypto.
#[local] Existing Instance RoutesExample.platform.

Module ServerExample.
Definition now : Time := ApprovalExample.later.
Definition time_json : Time -> jvalue := ApprovalExample.rfc3339_json.
Definition secret : string := "0123456789abcdef0123456789abcdef".
Definition auth : identityAuthenticator := Build_identityAuthenticator secret None.

Definition meta (name uid : string) (generation : Z) : ObjectMeta := Build_ObjectMeta name "team-a" uid "7" generation.
Definition account : ServiceAccount := Build_ServiceAccount (meta "chat-sa" "uid-sa" 1).
Definition pod : LivePod := Build_LivePod (meta "chat-0" "wl-1" 1) "chat-sa" ∅ ∅.
Definition declared : AIWorkloadBinding :=
  Build_AIWorkloadBinding (meta "chat-sa" "uid-b" 2)
    (Build_AIWorkloadBindingSpec "chat-sa" "red" "red" "chat" "budget-policy" "route-policy" "low" ["eu"] true)
    (Build_AIWorkloadBindingStatus 0 "" None None []).

(** The policy with its canary open or closed. *)
Definition routing (canary : bool) : AIRoutingPolicy :=
  let p := AdmissionExample.routing in
  Build_AIRoutingPolicy (rpol_Meta p)
    (Build_AIRoutingPolicySpec (rs_Objective (rpol_Spec p)) (rs_Guardrails (rpol_Spec p)) (Build_AIRoutingPolicyCanary canary 10) (rs_GOVAR (rpol_Spec p)))
    (rpol_Status p).

Definition cluster (bindings : list AIWorkloadBinding) (changes : list AIChangeRequest) (canary : bool) : KubeApi := {|
  get_LivePod := get_among lp_Meta [pod]; get_AIWorkloadBinding := get_among wbind_Meta bindings;
  get_ServiceAccount := get_among sa_Meta [account]; get_AIBudgetPolicy := get_among bpol_Meta [AdmissionExample.budget];
  get_AIRoutingPolicy := get_among rpol_Meta [routing canary]; get_AIModel := get_among model_Meta [ApprovalExample.model];
  get_AIProvider := get_among prov_Meta [ApprovalExample.provider]; get_AIChangeRequest := get_among crq_Meta changes;
  list_LivePods := list_among lp_Meta [pod]; list_AIModels := list_among model_Meta [ApprovalExample.model];
  list_AIProviders := list_among prov_Meta [ApprovalExample.provider]; list_AIChangeRequests := list_among crq_Meta changes |}.

(** What the two controllers write. *)
Definition binding : AIWorkloadBinding := Eval vm_compute in ReconcileBinding (cluster [] [] false) declared.
Definition change : AIChangeRequest := Eval vm_compute in
  ReconcileGOVAR time_json (cluster [] [] true) now ApprovalExample.approved ApprovalExample.scope.
Definition kube (canary : bool) : KubeApi := cluster [binding] [change] canary.
Definition context (canary : bool) : ServerContext := Build_ServerContext auth (kube canary) now "trace-1".

Definition post_request (path : string) (body : jvalue) : HttpRequest :=
  signed_request secret "team-a" "red" "wl-1" path (jtext body) now.
Definition admission : jvalue :=
  JObject [("request_id", JString "req-1"); ("namespace", JString "team-a"); ("tenant_id", JString "red"); ("workload_uid", JString "wl-1");
    ("team", JString "red"); ("application", JString "chat"); ("sensitive_data", JBool false); ("allowed_zones", JArray [JString "eu"]);
    ("budget_policy_name", JString "budget-policy"); ("routing_policy_name", JString "route-policy"); ("input_tokens", JNumber "1000");
    ("input_tokens_exact", JBool true); ("max_output_tokens", JNumber "500"); ("max_tool_calls", JNumber "3");
    ("charge_bounds", usage_json PricingExample.bounds)]%string.
Definition admit_request : HttpRequest := Eval vm_compute in post_request admit_path admission.
Definition principal_of : authenticatedPrincipal := Build_authenticatedPrincipal "red" "wl-1" "team-a" "" "" roleGateway.
Definition workload : trustedWorkload := Eval vm_compute in trusted_of pod binding.

(** The ledger once the request is served. *)
Definition opened : Engine := Eval cbv in EngineExample.empty <| engine_now := now |>.
Definition admitted : Engine * HttpResponse := Eval vm_compute in serve_http time_json (context false) opened admit_request.
Definition bound : AdmitRequest := Eval vm_compute in
  match decode_admit (http_Body admit_request) with
  | Ok api => authenticated_admit (api_AdmitRequest api) workload
  | Err _ => zero_admit
  end.
Definition live : list Candidate := Eval vm_compute in
  BuildCandidatesAt (request_context bound) [ApprovalExample.model] (provider_map [ApprovalExample.provider]) now.
End ServerExample.

Import ServerExample.

#[export] Instance kube_laws bindings changes canary : KubeLaws (cluster bindings changes canary).
Proof. constructor; try apply get_among_answers; apply list_among_lists. Qed.

(** Served end to end: the request reserves its bound; under a canary the approved route
    is admitted, and without an approval the service asks for one; a signature made for
    another path is refused. *)
Example request_is_admitted : hr_Status admitted.2 = StatusOK /\
  (engine_reservations admitted.1 !! "req-1" ≫= fun r => Some (res_TenantID r, res_ReservedCostMicros r)) = Some ("red"%string, 82500).
Proof. vm_compute. done. Qed.
Example canary_is_served : hr_Status (serve_http time_json (context true) opened admit_request).2 = StatusOK.
Proof. vm_compute. done. Qed.
Example canary_without_approval_asks :
  serve_http time_json (Build_ServerContext auth (cluster [binding] [] true) now "") opened admit_request =
  (opened, writeJSON (approval_required_json (routing true) (hd zero_candidate live) "")).
Proof. vm_compute. done. Qed.
Example other_path_is_refused :
  hr_Status (serve_http time_json (context false) opened
    (Build_HttpRequest MethodPost settle_path settle_path (http_Header admit_request) (http_Body admit_request))).2 = StatusUnauthorized.
Proof. vm_compute. done. Qed.

(** *** Witnesses *)

Lemma signed_request_authenticates_witness : authenticate auth now (signed_request (ia_masterSecret auth) "team-a" "red" "wl-1"
    admit_path (jtext admission) now) = Ok (principal_of, jtext admission).
Proof.
  apply (signed_request_authenticates auth "team-a" "red" "wl-1" admit_path (jtext admission) now now); try (vm_compute; reflexivity);
    vm_compute; repeat split; discriminate.
Defined.

Lemma transportable_spec s : forallb (fun c => negb (Ascii.eqb c zero) && negb (Ascii.eqb c (ascii_of_N 10))) (list_ascii_of_string s) = true ->
  transportable s.
Proof.
  unfold transportable, no_nul, without. rewrite forallb_forall. intros Hs.
  split; apply Forall_forall; intros c Hc%list_elem_of_In%Hs%andb_prop; destruct Hc as [H1 H2]; [|done].
  by destruct (Ascii.eqb_spec c zero).
Qed.
Lemma transportable_all l :
  forallb (fun s => forallb (fun c => negb (Ascii.eqb c zero) && negb (Ascii.eqb c (ascii_of_N 10))) (list_ascii_of_string s)) l = true ->
  Forall transportable l.
Proof.
  rewrite forallb_forall. intros Hl. apply Forall_forall. intros s Hs%list_elem_of_In. by apply transportable_spec, Hl.
Qed.

Lemma signature_binds_request_witness :
  principal_of = Build_authenticatedPrincipal "red" "wl-1" "team-a" "" "" roleGateway /\
  sha256_hex (http_Body admit_request) = sha256_hex (jtext admission) /\ http_Method admit_request = MethodPost /\ http_Path admit_request = admit_path.
Proof.
  destruct (signature_binds_request auth now admit_request principal_of (http_Body admit_request) "team-a" "red" "wl-1" admit_path (jtext admission) now)
    as [Hok | [Hne _]];
    [vm_compute; reflexivity .. | apply transportable_all; vm_compute; reflexivity | apply transportable_all; vm_compute; reflexivity | exact Hok |].
  exfalso. apply Hne. vm_compute. reflexivity.
Defined.

Lemma resolved_workload canary : resolveTrustedWorkload (kube canary) principal_of = Ok workload.
Proof. destruct canary; vm_compute; reflexivity. Qed.

Lemma trusted_workload_is_governed_witness :
  tw_namespace workload = ap_namespace principal_of /\ tw_uid workload = ap_workloadUID principal_of.
Proof.
  destruct (trusted_workload_is_governed (kube true) principal_of workload (resolved_workload true)) as (H1 & H2 & _).
  by split.
Defined.

Lemma reconciled_binding_grants_trust_witness :
  trustedWorkloadFromPod (cluster [ReconcileBinding (cluster [] [] true) declared] [] true) pod principal_of = Ok (trusted_of pod declared).
Proof.
  apply (reconciled_binding_grants_trust (cluster [ReconcileBinding (cluster [] [] true) declared] [] true) pod principal_of declared);
    try (vm_compute; reflexivity).
  split; [by left|]. split; [discriminate|]. split; [reflexivity|]. split; [|vm_compute; reflexivity].
  constructor; [vm_compute; reflexivity | exists account | exists AdmissionExample.budget | exists (routing true)];
    (split; [vm_compute; reflexivity|]); [discriminate | |]; by split; vm_compute.
Defined.

Lemma opened_reachable : reachable opened.
Proof. exact (reachable_step _ (Tick now) _ reachable_empty eq_refl). Qed.

Lemma served_admission : (serve_http time_json (context false) opened admit_request).1 = admitted.1.
Proof. vm_compute. reflexivity. Qed.

Lemma service_isolates_tenants_witness : admitted.1 = opened \/ exists p body t,
  authenticate auth now admit_request = Ok (p, body) /\ resolveTrustedWorkload (kube false) p = Ok t /\ touches (tw_tenant t) opened admitted.1.
Proof.
  rewrite <- served_admission. exact (service_isolates_tenants time_json (context false) opened admit_request opened_reachable).
Defined.

(** The controller's approval is a later step of the object's history. *)
Lemma decision_is_final_witness : crq_Spec change = crq_Spec ApprovalExample.approved.
Proof.
  apply (decision_is_final time_json ([ApprovalExample.approve; ApprovalExample.create], ApprovalExample.approved)
    ([ApprovalExample.approve; ApprovalExample.create], change)).
  - vm_compute. reflexivity.
  - apply rtc_once, status_written. by repeat split.
  - vm_compute. reflexivity.
Defined.
