(* ===== verification/ExtProc.v ===== *)
(** * The external processor of the gateway

    [internal/govarextproc/server.go]: the filter Envoy consults for every request of a
    governed workload. It takes the identity of the workload from the client
    certificate, asks the admission service for a reservation, rewrites the request for
    the route it was given, claims the attempt, and reports delivery and usage. A
    stream is a sequence of messages; [step] is what [Process] does with one, and
    [Process] runs it over all of them. The admission service, reached over HTTP, is a
    parameter ([transport]) over a world that also holds the clock. Trace contexts and
    spans are left out. *)

From Stdlib Require Import ZArith Lia Ascii String.
From stdpp Require Import base gmap strings list pretty.
From S2P Require Import Prelude Digest GoTime Api Json JsonDecode PlatformCrypto Pricing Routes AdmissionPolicy Ledger Wire Identity AdmissionServer.

Open Scope string_scope.
Open Scope list_scope.
Open Scope Z_scope.
Open Scope go_scope.

(** ** Strings *)

(** [strings.HasSuffix] and [strings.TrimSuffix]. *)
Definition string_rev (s : string) : string := string_of_list_ascii (rev (list_ascii_of_string s)).
Definition HasSuffix (s p : string) : bool := String.prefix (string_rev p) (string_rev s).
Definition TrimSuffix (s p : string) : string :=
  if HasSuffix s p then String.substring 0 (String.length s - String.length p) s else s.
(** [strings.Cut] at a byte. *)
Fixpoint Cut (s : string) (sep : ascii) : string * string * bool :=
  match s with
  | EmptyString => (EmptyString, EmptyString, false)
  | String c s' => if Ascii.eqb c sep then (EmptyString, s', true) else let '(a, b, ok) := Cut s' sep in (String c a, b, ok)
  end.
(** [strings.FieldsFunc] at [;] and [,]. *)
Definition record_fields (s : string) : list string :=
  List.filter (fun p => negb (String.eqb p "")) (concat (map (split_on ",") (split_on ";" s))).
(** [strings.Trim(s, c)] of a byte. *)
Fixpoint trim_left (c : ascii) (s : string) : string :=
  match s with String d s' => if Ascii.eqb c d then trim_left c s' else s | EmptyString => s end.
Definition Trim (s : string) (c : ascii) : string := string_rev (trim_left c (string_rev (trim_left c s))).

(** [url.PathEscape]. *)
Definition path_safe (b : N) : bool :=
  alnum b || existsb (N.eqb b) [45; 95; 46; 126; 36; 38; 43; 58; 61; 64]%N.
Definition PathEscape (s : string) : string :=
  String.concat "" (map (fun b => if path_safe b then string_of_bytes [b] else "%" +:+ ToUpper (hex_encode [b])) (bytes_of s)).

Fixpoint first (values : list string) : string :=
  match values with
  | [] => ""
  | v :: rest => if String.eqb v "" then first rest else v
  end.

(** ** Objects of raw members *)

Abbreviation raw_object := (gmap string string).

(** One member after the other, from the key of the first: the value is kept as the
    text it is read from. *)
Fixpoint raw_members (n : nat) (s : string) (acc : raw_object) : option (raw_object * string) :=
  match n with
  | O => None
  | S n =>
    match skip_ws s with
    | String q s1 =>
      if negb (is_byte 34 q) then None
      else
        '(key, s2) ← string_body s1;
        if bool_decide (is_Some (acc !! key)) then None
        else match skip_ws s2 with
        | String colon s3 =>
          if negb (is_byte 58 colon) then None
          else
            let s3 := skip_ws s3 in
            match parse_value (fuel_for s3) 0 s3 with
            | Parsed _ s4 =>
              let acc := <[key := String.substring 0 (String.length s3 - String.length s4) s3]> acc in
              match skip_ws s4 with
              | String d s5 => if is_byte 125 d then Some (acc, s5) else if is_byte 44 d then raw_members n s5 acc else None
              | EmptyString => None
              end
            | Bad | Spent => None
            end
        | EmptyString => None
        end
    | EmptyString => None
    end
  end.

(** [decodeJSONObject]. *)
Definition decodeJSONObject (body : string) : option raw_object :=
  match skip_ws body with
  | String brace s1 =>
    if negb (is_byte 123 brace) then None
    else
      '(members, rest) ← match skip_ws s1 with
                         | String d s2 => if is_byte 125 d then Some (∅, s2) else raw_members (S (String.length s1)) s1 ∅
                         | EmptyString => None
                         end;
      if String.eqb (skip_ws rest) "" then Some members else None
  | EmptyString => None
  end.

(** [json.Compact] with HTML escapes: blanks between tokens go, and [<], [>], [&] and the
    line separators U+2028 and U+2029 of strings are escaped. *)
Inductive scan_mode : Set := Outside | Inside | Escaped.
Definition html_byte (c : ascii) : string :=
  if is_byte 60 c || is_byte 62 c || is_byte 38 c then backslash +:+ "u00" +:+ hex_encode [code c] else String c EmptyString.
Definition next_mode (m : scan_mode) (c : ascii) : scan_mode :=
  match m with
  | Outside => if is_byte 34 c then Inside else Outside
  | Inside => if is_byte 34 c then Outside else if is_byte 92 c then Escaped else Inside
  | Escaped => Inside
  end.
Fixpoint compact_from (m : scan_mode) (s : string) : string :=
  match s with
  | EmptyString => EmptyString
  | String c s1 =>
    if match m with Outside => is_ws c | _ => false end then compact_from m s1
    else match s1 with
    | String b (String d s3) =>
      if is_byte 226 c && is_byte 128 b && (is_byte 168 d || is_byte 169 d)
      then backslash +:+ "u202" +:+ (if is_byte 168 d then "8" else "9") +:+ compact_from (next_mode m c) s3
      else html_byte c +:+ compact_from (next_mode m c) s1
    | _ => html_byte c +:+ compact_from (next_mode m c) s1
    end
  end.

(** [json.Marshal] of such an object: the members sorted by key. *)
Definition raw_sorted (m : raw_object) : list (string * string) :=
  sort_slice (fun a b => string_ltb a.1 b.1) (map_to_list m).
Definition marshal_raw (m : raw_object) : string := compact_from Outside ("{" +:+ json_pairs (raw_sorted m) +:+ "}").

(** [exactNonNegativeInt64Field]: the text of a plain number below 2^63. *)
Definition exactNonNegativeInt64Field (payload : raw_object) (name : string) (required : bool) : result Z :=
  match payload !! name with
  | None => if required then Err (name +:+ " is required") else Ok 0
  | Some text =>
    if negb (natural_text text) then Err (name +:+ " must be a non-negative exact JSON integer")
    else match parse_int64 text with
    | Some z => Ok z
    | None => Err (name +:+ " is outside the int64 monetary-bound domain")
    end
  end.

(** [json.Unmarshal] of a raw member into a boolean. *)
Definition raw_bool (text : string) : option bool :=
  match json_parse text with
  | Some v => match decode_bool false v with Ok b => Some b | Err _ => None end
  | None => None
  end.

(** ** Routes *)

Record RouteTarget : Type := Build_RouteTarget {
  rt_SelectedModel : string;
  rt_ProviderDeployment : string;
  rt_Cluster : string;
  rt_Authority : string;
  rt_PathMode : string;
  rt_Path : string;
  rt_SnapshotHash : string
}.
Definition zero_target : RouteTarget := Build_RouteTarget "" "" "" "" "" "" "".
Definition openai_body : string := "openai-body".
Definition azure_deployment_path : string := "azure-deployment-path".

(** The path of a request, with its default, before the question mark and after it. *)
Definition request_path (original : string) : string * string :=
  let '(path, query, _) := Cut (first [original; "/v1/chat/completions"]) "?" in (path, query).
Definition api_path (path : string) : string := ToLower (TrimSuffix path "/").

Definition providerOutputCapField (pathMode originalPath : string) : result string :=
  let lowerPath := api_path (request_path originalPath).1 in
  if negb (String.eqb pathMode openai_body) && negb (String.eqb pathMode azure_deployment_path)
  then Err ("route path mode " +:+ Quote pathMode +:+ " has no authoritative GOV-AR output-cap adapter")
  else if HasSuffix lowerPath "/responses" then Ok "max_output_tokens"
  else if HasSuffix lowerPath "/chat/completions" || HasSuffix lowerPath "/completions" then Ok "max_tokens"
  else Err ("path " +:+ Quote (request_path originalPath).1 +:+ " has no output-cap and authoritative-usage mapping for " +:+ pathMode).

Definition isOpenAIPath (path : string) : bool :=
  String.eqb path "/v1/chat/completions" || String.eqb path "/v1/responses" || String.eqb path "/v1/completions".

Definition routePath (original : string) (target : RouteTarget) : result string :=
  let '(path, query) := request_path original in
  let lowerPath := api_path path in
  let? path :=
    if String.eqb (rt_PathMode target) openai_body then
      if isOpenAIPath lowerPath then Ok path else Err ("OpenAI body adapter does not support request path " +:+ Quote path)
    else if String.eqb (rt_PathMode target) azure_deployment_path then
      match List.find (HasSuffix lowerPath) ["/chat/completions"; "/responses"; "/completions"] with
      | Some suffix => Ok ("/openai/deployments/" +:+ PathEscape (rt_ProviderDeployment target) +:+ suffix)
      | None => Err ("azure deployment adapter does not support request path " +:+ Quote path)
      end
    else Err ("route path mode " +:+ Quote (rt_PathMode target) +:+ " has no authoritative GOV-AR request/usage adapter") in
  Ok (if String.eqb query "" then path else path +:+ "?" +:+ query).

(** The members of the request sent to the provider. *)
Definition rewritten_members (payload : raw_object) (capValue field : string) (target : RouteTarget) : option raw_object :=
  let capped payload := <[field := capValue]> (delete "max_tokens"%string (delete "max_output_tokens"%string payload)) in
  if String.eqb (rt_PathMode target) openai_body then Some (capped (<["model"%string := json_string (rt_ProviderDeployment target)]> payload))
  else if String.eqb (rt_PathMode target) azure_deployment_path then Some (capped (delete "model"%string payload))
  else None.

Definition rewriteRequestForRoute (body originalPath : string) (target : RouteTarget) : result string :=
  match decodeJSONObject body with
  | None => Err "malformed LLM request body"
  | Some payload =>
    match payload !! "max_output_tokens"%string with
    | None => Err "canonical max_output_tokens is absent before provider rewrite"
    | Some capValue =>
      let? _ := exactNonNegativeInt64Field payload "max_output_tokens" true in
      let? field := providerOutputCapField (rt_PathMode target) originalPath in
      match rewritten_members payload capValue field target with
      | None => Err ("route path mode " +:+ Quote (rt_PathMode target) +:+ " has no authoritative GOV-AR request/usage adapter")
      | Some members => Ok (marshal_raw members)
      end
    end
  end.

(** ** Usage *)

(** The part of a provider's response that counts: the members of [usage], and how many
    tool calls each choice has. *)
Record Envelope : Type := Build_Envelope { env_Usage : option (gmap string jvalue); env_Choices : list (list jvalue) }.

Definition decode_map (old : gmap string jvalue) (v : jvalue) : result (gmap string jvalue) :=
  match v with
  | JObject members => Ok (fold_left (fun m '(k, v) => <[k := v]> m) members old)
  | JNull => Ok ∅
  | _ => Err json_error
  end.
Definition decode_tool_calls (_ : string) (v : jvalue) (old : list jvalue) : result (list jvalue) :=
  decode_list (fun _ v => Ok v) JNull old v.
Definition decode_message (_ : string) (v : jvalue) (old : list jvalue) : result (list jvalue) :=
  decode_struct ["tool_calls"%string] decode_tool_calls old v.
Definition decode_choice (old : list jvalue) (v : jvalue) : result (list jvalue) := decode_struct ["message"%string] decode_message old v.
Definition set_envelope_field (name : string) (v : jvalue) (e : Envelope) : result Envelope :=
  if String.eqb name "usage"
  then assigned (decode_pointer decode_map ∅ (env_Usage e) v) (fun u => Build_Envelope u (env_Choices e))
  else assigned (decode_list decode_choice [] (env_Choices e) v) (fun c => Build_Envelope (env_Usage e) c).
Definition decode_envelope (body : string) : option Envelope :=
  match json_parse body with
  | Some v => match decode_struct ["usage"; "choices"]%string set_envelope_field (Build_Envelope None []) v with Ok e => Some e | Err _ => None end
  | None => None
  end.

(** A count that is there and is a non-negative integer; [null] counts as zero. *)
Definition read_count (m : gmap string jvalue) (key : string) : option Z :=
  v ← m !! key; match decode_int64 0 v with Ok n => if 0 <=? n then Some n else None | Err _ => None end.
Definition read_detail (m : gmap string jvalue) (parent detail : string) : option Z :=
  v ← m !! parent; match decode_map ∅ v with Ok nested => read_count nested detail | Err _ => None end.

(** The four counts of an envelope: input, output, cached input, reasoning. *)
Definition token_counts (path : string) (usage : gmap string jvalue) : option Z * option Z * option Z * option Z :=
  if HasSuffix (api_path (Cut path "?").1.1) "/responses"
  then (read_count usage "input_tokens", read_count usage "output_tokens",
        read_detail usage "input_tokens_details" "cached_tokens", read_detail usage "output_tokens_details" "reasoning_tokens")
  else (read_count usage "prompt_tokens", read_count usage "completion_tokens",
        read_detail usage "prompt_tokens_details" "cached_tokens", read_detail usage "completion_tokens_details" "reasoning_tokens").
(** What is left of a count once a part of it that is billed apart is taken out. *)
Definition without_part (billed : bool) (whole part : option Z) : option (option Z) :=
  match whole, part with
  | Some w, Some p => if billed then if w <? p then None else Some (Some (w - p)) else Some whole
  | _, _ => Some whole
  end.

(** The set of bases the reservation asks for. *)
Definition billed (required : list string) (basis : string) : bool := bool_decide (basis ∈ required).

(** [parseUsage]: the quantities, and whether they come from a provider's envelope. *)
Definition parseUsage (body : string) (required : list string) (route : RouteTarget) : list UsageQuantity * bool :=
  match providerOutputCapField (rt_PathMode route) (rt_Path route), decode_envelope body with
  | Ok _, Some e =>
    let '(input, output, cached, reasoning) := token_counts (rt_Path route) (default ∅ (env_Usage e)) in
    match without_part (billed required ProviderBasisCachedInputTokens) input cached, without_part (billed required ProviderBasisReasoningTokens) output reasoning with
    | Some input, Some output =>
      let toolCalls := Z.of_nat (length (concat (env_Choices e))) in
      let quantities := omap (fun '(basis, q) => q ← q; if billed required basis then Some (Build_UsageQuantity basis q) else None)
        [(ProviderBasisInputTokens, input); (ProviderBasisCachedInputTokens, cached); (ProviderBasisOutputTokens, output);
         (ProviderBasisReasoningTokens, reasoning); (ProviderBasisRequest, Some 1); (ProviderBasisToolCall, Some toolCalls)] in
      (sort_slice (fun a b => string_ltb (uq_Basis a) (uq_Basis b)) quantities, bool_decide (is_Some (env_Usage e)))
    | _, _ => ([], false)
    end
  | _, _ => ([], false)
  end.

(** ** The stream *)

Record RouteBinding : Type := Build_RouteBinding {
  rbind_Namespace : string;
  rbind_TenantID : string;
  rbind_WorkloadUID : string;
  rbind_Team : string;
  rbind_Application : string;
  rbind_BudgetPolicy : string;
  rbind_RoutingPolicy : string;
  rbind_Sensitive : bool;
  rbind_AllowedZones : list string
}.
Definition zero_binding : RouteBinding := Build_RouteBinding "" "" "" "" "" "" "" false [].

(** [Server]; [AdmissionPath] is the path of the admission URL, and [peer] what the
    transport shows of the gateway: the URIs of its certificate, once verified. *)
Record ExtProcServer : Type := Build_ExtProcServer {
  AdmissionPath : string;
  MasterSecret : string;
  PrincipalRegistry : gmap string RouteBinding;
  AllowedGatewayURIs : list string;
  AllowInsecureDev : bool
}.

Record streamState : Type := Build_streamState {
  st_started : bool;
  st_headers : gmap string string;
  st_requestBody : string;
  st_responseBody : string;
  st_requestID : string;
  st_attemptID : string;
  st_binding : RouteBinding;
  st_route : RouteTarget;
  st_routeSnapshotHash : string;
  st_settlementBases : list string
}.
Definition new_stream : streamState := Build_streamState false ∅ "" "" "" "" zero_binding zero_target "" [].
#[export] Instance stream_eta : Eta streamState := fun s =>
  Build_streamState (st_started s) (st_headers s) (st_requestBody s) (st_responseBody s) (st_requestID s) (st_attemptID s)
    (st_binding s) (st_route s) (st_routeSnapshotHash s) (st_settlementBases s).

Definition maxExtProcBodyBytes : Z := 1048576.
Definition header_of (st : streamState) (name : string) : string := default ""%string (st_headers st !! name).

(** [ProcessingRequest] and [ProcessingResponse]; a header has a value and a raw value. *)
Inductive ProcessingRequest : Type :=
| RequestHeaders (headers : list (string * string * string))
| RequestBody (body : string) (endOfStream : bool)
| ResponseHeaders
| ResponseBody (body : string) (endOfStream : bool)
| Unsupported.
Inductive ProcessingResponse : Type :=
| ContinueRequestHeaders
| ContinueRequestBody (mutation : option (RouteTarget * string))
| ContinueResponseHeaders
| ContinueResponseBody
| Immediate (status : Z) (body : string).

Definition headerMap (headers : list (string * string * string)) : gmap string string :=
  fold_left (fun m '(key, value, raw) => <[ToLower key := first [value; raw]]> m) headers ∅.

(** [authorizeGatewayTransport]. *)
Definition insecure_dev : string := "insecure-dev".
Definition authorizeGatewayTransport (s : ExtProcServer) (peer : option (list string)) : result string :=
  if AllowInsecureDev s then Ok insecure_dev
  else match peer with
  | None => Err "verified Envoy client certificate is required"
  | Some uris =>
    match List.find (fun uri => existsb (String.eqb uri) (AllowedGatewayURIs s)) uris with
    | Some uri => Ok uri
    | None => Err "envoy client certificate SPIFFE identity is not allowed"
    end
  end.

(** The fields of an [x-forwarded-client-cert] record, each at most once. *)
Fixpoint certificate_fields (parts : list string) (fields : gmap string string) : option (gmap string string) :=
  match parts with
  | [] => Some fields
  | part :: rest =>
    let '(key, value, ok) := Cut (TrimSpace part) "=" in
    if negb ok || negb (String.eqb (default ""%string (fields !! key)) "") then None
    else certificate_fields rest (<[key := Trim value "034"]> fields)
  end.
Definition is_sha256_text (s : string) : bool := match hex_decode s with Some l => (length l =? 32)%nat | None => false end.

Definition complete_binding (b : RouteBinding) : bool :=
  negb (String.eqb (rbind_Namespace b) "") && negb (String.eqb (rbind_TenantID b) "") && negb (String.eqb (rbind_WorkloadUID b) "") &&
  negb (String.eqb (rbind_BudgetPolicy b) "") && negb (String.eqb (rbind_RoutingPolicy b) "").

(** The answer to an admission, as the filter reads it. *)
Record admitResult : Type := Build_admitResult {
  ar_Decision : string;
  ar_ReasonCode : string;
  ar_SelectedDeployment : string;
  ar_ProviderAttemptID : string;
  ar_ApprovalRef : string;
  ar_PricingVersion : string;
  ar_RouteSnapshot : option RouteSnapshot;
  ar_SettlementUsageBases : list string
}.
#[export] Instance admit_result_eta : Eta admitResult := fun r =>
  Build_admitResult (ar_Decision r) (ar_ReasonCode r) (ar_SelectedDeployment r) (ar_ProviderAttemptID r) (ar_ApprovalRef r)
    (ar_PricingVersion r) (ar_RouteSnapshot r) (ar_SettlementUsageBases r).
Definition zero_admit_result : admitResult := Build_admitResult "" "" "" "" "" "" None [].
Definition zero_route : RouteSnapshot := Build_RouteSnapshot "" "" "" 0 "" "" "" 0 "" "" "" "" "" "" "" "" "".
Definition admit_result_fields : list string :=
  ["decision"; "reason_code"; "selected_deployment"; "provider_attempt_id"; "approval_ref"; "pricing_version"; "route_snapshot";
   "settlement_usage_bases"]%string.
Definition set_admit_result_field (name : string) (v : jvalue) (r : admitResult) : result admitResult :=
  if String.eqb name "decision" then assigned (decode_string (ar_Decision r) v) (fun x => r <| ar_Decision := x |>)
  else if String.eqb name "reason_code" then assigned (decode_string (ar_ReasonCode r) v) (fun x => r <| ar_ReasonCode := x |>)
  else if String.eqb name "selected_deployment" then assigned (decode_string (ar_SelectedDeployment r) v) (fun x => r <| ar_SelectedDeployment := x |>)
  else if String.eqb name "provider_attempt_id" then assigned (decode_string (ar_ProviderAttemptID r) v) (fun x => r <| ar_ProviderAttemptID := x |>)
  else if String.eqb name "approval_ref" then assigned (decode_string (ar_ApprovalRef r) v) (fun x => r <| ar_ApprovalRef := x |>)
  else if String.eqb name "pricing_version" then assigned (decode_string (ar_PricingVersion r) v) (fun x => r <| ar_PricingVersion := x |>)
  else if String.eqb name "route_snapshot"
  then assigned (decode_pointer (decode_struct route_fields_json set_route_field) zero_route (ar_RouteSnapshot r) v) (fun x => r <| ar_RouteSnapshot := x |>)
  else assigned (decode_list decode_string "" (ar_SettlementUsageBases r) v) (fun x => r <| ar_SettlementUsageBases := x |>).
(** [json.Decoder.Decode]: the first value of the body. *)
Definition decode_admit_result (body : string) : result admitResult :=
  match parse_value (fuel_for body) 0 body with
  | Parsed v _ => decode_struct admit_result_fields set_admit_result_field zero_admit_result v
  | Bad | Spent => Err json_error
  end.

(** *** What the filter sends *)

Definition number (z : Z) : jvalue := JNumber (pretty z).
(** Members of a map, sorted by key. *)
Definition dispatch_json (st : streamState) (suffix status : string) : jvalue :=
  JObject [("event_id", JString (st_requestID st +:+ ":extproc:" +:+ suffix)); ("provider_attempt_id", JString (st_attemptID st));
    ("request_id", JString (st_requestID st)); ("route_snapshot_hash", JString (st_routeSnapshotHash st)); ("status", JString status);
    ("tenant_id", JString (rbind_TenantID (st_binding st))); ("workload_uid", JString (rbind_WorkloadUID (st_binding st)))]%string.
Definition settle_json (st : streamState) (usage : list UsageQuantity) : jvalue :=
  JObject [("actual_cost_micros", number 0); ("final", JBool true); ("provider_attempt_id", JString (st_attemptID st));
    ("request_id", JString (st_requestID st)); ("settlement_id", JString (st_requestID st +:+ ":extproc:settle"));
    ("tenant_id", JString (rbind_TenantID (st_binding st))); ("usage", match usage with [] => JNull | _ => usage_json usage end);
    ("usage_version", number 1); ("workload_uid", JString (rbind_WorkloadUID (st_binding st)))]%string.

(** The bounds a request may declare, and the basis each one bounds. *)
Definition bound_fields : list (string * string) :=
  [("max_cached_input_tokens", ProviderBasisCachedInputTokens); ("max_reasoning_tokens", ProviderBasisReasoningTokens);
   ("max_tool_calls", ProviderBasisToolCall); ("max_media_units", ProviderBasisMediaUnit);
   ("timeout_seconds", ProviderBasisBillableSecond); ("max_retry_attempts", ProviderBasisRetryAttempt)]%string.
Fixpoint declared_bounds (payload : raw_object) (fields : list (string * string)) : result (list UsageQuantity) :=
  match fields with
  | [] => Ok []
  | (name, basis) :: rest =>
    match payload !! name with
    | None => declared_bounds payload rest
    | Some _ =>
      let? q := exactNonNegativeInt64Field payload name false in
      let? l := declared_bounds payload rest in
      Ok (Build_UsageQuantity basis q :: l)
    end
  end.
Definition cancellation_bound (payload : raw_object) : result (list UsageQuantity) :=
  match payload !! "cancellation_possible"%string with
  | None => Ok []
  | Some raw =>
    match raw_bool raw with
    | None => Err "cancellation_possible must be boolean"
    | Some possible => Ok [Build_UsageQuantity ProviderBasisCancellation (if possible then 1 else 0)]
    end
  end.

Definition admit_json (st : streamState) (maxOutput : Z) (bounds : list UsageQuantity) : jvalue :=
  let b := st_binding st in
  JObject ([("allowed_zones", JArray (map JString (rbind_AllowedZones b))); ("application", JString (rbind_Application b))]%string ++
    text_member "approval_ref" (TrimSpace (header_of st "x-govar-approval-ref")) ++
    [("budget_policy_name", JString (rbind_BudgetPolicy b))]%string ++
    (match bounds with [] => [] | _ => [("charge_bounds"%string, usage_json bounds)] end) ++
    [("input_tokens", number 0); ("input_tokens_exact", JBool false); ("max_output_tokens", number maxOutput);
     ("namespace", JString (rbind_Namespace b)); ("request_id", JString (st_requestID st)); ("routing_policy_name", JString (rbind_RoutingPolicy b));
     ("sensitive_data", JBool (rbind_Sensitive b)); ("team", JString (rbind_Team b)); ("tenant_id", JString (rbind_TenantID b));
     ("workload_uid", JString (rbind_WorkloadUID b))]%string).

Section filter.
Context `{Crypto}.
(** The admission service as the HTTP client sees it, the clock, and
    [Server.ResolvePrincipal] where it is set. *)
Context {W : Type} (transport : W -> HttpRequest -> W * result HttpResponse) (clock : W -> Time).
Context (ResolvePrincipal : option (W -> string -> result RouteBinding)).
Context (s : ExtProcServer).

(** [resolvePrincipal]. *)
Definition resolvePrincipal (w : W) (gatewayURI xfcc : string) : result RouteBinding :=
  match certificate_fields (record_fields xfcc) ∅ with
  | None => Err "XFCC is not a single SANITIZE_SET client certificate record"
  | Some fields =>
    let field name := default ""%string (fields !! name) in
    let uri := field "URI"%string in
    if String.eqb uri "" then Err "sanitized downstream mTLS URI identity is required"
    else if negb (String.eqb gatewayURI insecure_dev) && negb (String.eqb (field "By"%string) gatewayURI)
    then Err "XFCC By identity does not match the authenticated Envoy certificate"
    else if negb (is_sha256_text (field "Hash"%string)) then Err "XFCC client certificate hash is not a SHA-256 SANITIZE_SET value"
    else match ResolvePrincipal with
    | Some resolve => resolve w uri
    | None =>
      match PrincipalRegistry s !! uri with
      | Some b => if complete_binding b then Ok b else Err "mTLS principal is not bound to a complete server-side workload registry entry"
      | None => Err "mTLS principal is not bound to a complete server-side workload registry entry"
      end
    end
  end.

(** [post]: the answer's body, once the status says success. *)
Definition post (w : W) (b : RouteBinding) (path : string) (payload : jvalue) : W * result string :=
  let req := signed_request (MasterSecret s) (rbind_Namespace b) (rbind_TenantID b) (rbind_WorkloadUID b) (AdmissionPath s +:+ path)
               (jtext payload) (clock w) in
  match transport w req with
  | (w, Err m) => (w, Err m)
  | (w, Ok r) =>
    if (hr_Status r <? 200) || (300 <=? hr_Status r)
    then (w, Err (path +:+ " returned " +:+ sprint (hr_Status r) +:+ ": " +:+ TrimSpace (String.substring 0 1024 (hr_Body r))))
    else (w, Ok (hr_Body r))
  end.
Definition dispatch (w : W) (st : streamState) (suffix status : string) : W * option error :=
  match post w (st_binding st) dispatch_path (dispatch_json st suffix status) with
  | (w, Ok _) => (w, None)
  | (w, Err m) => (w, Some m)
  end.
Definition settle (w : W) (st : streamState) (usage : list UsageQuantity) : W * option error :=
  match post w (st_binding st) settle_path (settle_json st usage) with
  | (w, Ok _) => (w, None)
  | (w, Err m) => (w, Some m)
  end.

Definition streaming_refusal (payload : raw_object) : option error :=
  match payload !! "stream"%string with
  | None => None
  | Some raw =>
    match raw_bool raw with
    | None => Some "stream must be boolean"%string
    | Some true => Some "stream=true is unsupported until authoritative streaming settlement is implemented"%string
    | Some false => None
    end
  end.

(** [admitAndClaim], up to the admission: what is asked. *)
Definition admission_of (st : streamState) : result (streamState * jvalue) :=
  match decodeJSONObject (st_requestBody st) with
  | None => Err "malformed LLM request body"
  | Some payload =>
    match streaming_refusal payload with
    | Some m => Err m
    | None =>
      if bool_decide (is_Some (payload !! "max_tokens"%string))
      then Err "max_tokens is provider-native; governed requests must declare exact max_output_tokens for adapter rewriting"
      else match exactNonNegativeInt64Field payload "max_output_tokens" true with
      | Err _ => Err "max_output_tokens must be a positive exact JSON integer"
      | Ok maxOutput =>
        if maxOutput =? 0 then Err "max_output_tokens must be a positive exact JSON integer"
        else
          let requestID := first [header_of st "x-request-id"; header_of st "x-govar-request-id"] in
          if String.eqb requestID "" then Err "trusted Envoy route must provide x-request-id"
          else
            let st := st <| st_requestID := requestID |> in
            let? declared := declared_bounds payload bound_fields in
            let? cancellation := cancellation_bound payload in
            Ok (st, admit_json st maxOutput (declared ++ cancellation))
      end
    end
  end.

(** What the answer to the admission makes of the stream: its attempt and its route. *)
Definition admitted_stream (st : streamState) (r : admitResult) : result streamState :=
  if negb (String.eqb (ar_Decision r) "ADMIT") || String.eqb (ar_ReasonCode r) "duplicate_request"
  then Err ("admission decision=" +:+ ar_Decision r +:+ " reason=" +:+ ar_ReasonCode r +:+ " approval_ref=" +:+ ar_ApprovalRef r)
  else match ar_RouteSnapshot r with
  | None => Err "admission response route snapshot conflicts with top-level identity"
  | Some snapshot =>
    if negb (String.eqb (ar_SelectedDeployment r) (route_ModelName snapshot)) || negb (String.eqb (ar_PricingVersion r) (route_PricingVersion snapshot))
    then Err "admission response route snapshot conflicts with top-level identity"
    else match ValidateRouteSnapshot snapshot with
    | Some m => Err m
    | None =>
      let route := Build_RouteTarget (route_ModelName snapshot) (route_ProviderDeployment snapshot) (route_Cluster snapshot)
                     (route_Authority snapshot) (route_PathMode snapshot) "" (route_SnapshotHash snapshot) in
      let? rewritten := rewriteRequestForRoute (st_requestBody st) (header_of st ":path") route in
      let? path := routePath (header_of st ":path") route in
      Ok (st <| st_attemptID := ar_ProviderAttemptID r |> <| st_settlementBases := ar_SettlementUsageBases r |>
             <| st_routeSnapshotHash := route_SnapshotHash snapshot |> <| st_requestBody := rewritten |>
             <| st_route := Build_RouteTarget (rt_SelectedModel route) (rt_ProviderDeployment route) (rt_Cluster route)
                              (rt_Authority route) (rt_PathMode route) path (rt_SnapshotHash route) |>)
    end
  end.

Definition admitAndClaim (w : W) (st : streamState) : W * result streamState :=
  match admission_of st with
  | Err m => (w, Err m)
  | Ok (st, request) =>
    match post w (st_binding st) admit_path request with
    | (w, Err m) => (w, Err m)
    | (w, Ok body) =>
      match decode_admit_result body with
      | Err m => (w, Err m)
      | Ok r =>
        match admitted_stream st r with
        | Err m => (w, Err m)
        | Ok st =>
          match dispatch w st "claim" DispatchClaimed with
          | (w, Some m) => (w, Err m)
          | (w, None) => (w, Ok st)
          end
        end
      end
    end
  end.

(** *** Messages *)

(** What one message leads to: the next state, or the end of the stream, with an error
    or without. *)
Inductive next_state : Type := Next (st : streamState) | Closed (e : option error).
Definition StatusTooLarge : Z := StatusRequestEntityTooLarge.

Definition request_headers (gatewayURI : string) (w : W) (st : streamState) (headers : list (string * string * string))
    : W * list ProcessingResponse * next_state :=
  if st_started st then (w, [], Closed (Some "duplicate ext_proc request headers"%string))
  else
    let st := st <| st_started := true |> <| st_headers := headerMap headers |> in
    match resolvePrincipal w gatewayURI (header_of st "x-forwarded-client-cert") with
    | Err m => (w, [Immediate StatusForbidden m], Closed None)
    | Ok binding => (w, [ContinueRequestHeaders], Next (st <| st_binding := binding |>))
    end.

Definition too_large (seen chunk : string) : bool :=
  maxExtProcBodyBytes <? Z.of_nat (String.length seen) + Z.of_nat (String.length chunk).
Definition request_body (w : W) (st : streamState) (chunk : string) (endOfStream : bool) : W * list ProcessingResponse * next_state :=
  if too_large (st_requestBody st) chunk
  then (w, [Immediate StatusTooLarge "governed request body exceeds 1 MiB"], Closed None)
  else
    let st := st <| st_requestBody := st_requestBody st +:+ chunk |> in
    if negb endOfStream then (w, [ContinueRequestBody None], Next st)
    else match admitAndClaim w st with
    | (w, Err m) => (w, [Immediate StatusForbidden m], Closed None)
    | (w, Ok st) =>
      (w, [ContinueRequestBody (if String.eqb (rt_SelectedModel (st_route st)) "" then None else Some (st_route st, st_requestBody st))], Next st)
    end.

Definition response_headers (w : W) (st : streamState) : W * list ProcessingResponse * next_state :=
  if String.eqb (st_requestID st) "" then (w, [ContinueResponseHeaders], Next st)
  else match dispatch w st "delivered" DispatchDelivered with
  | (w, Some m) => (w, [], Closed (Some m))
  | (w, None) => (w, [ContinueResponseHeaders], Next st)
  end.

Definition reported_usage (st : streamState) : list UsageQuantity :=
  let '(usage, validEnvelope) := parseUsage (st_responseBody st) (st_settlementBases st) (st_route st) in
  if validEnvelope then usage else [].
Definition response_body (w : W) (st : streamState) (chunk : string) (endOfStream : bool) : W * list ProcessingResponse * next_state :=
  if too_large (st_responseBody st) chunk
  then (w, [], Closed (Some "provider response body exceeds 1 MiB; liability remains unresolved"%string))
  else
    let st := st <| st_responseBody := st_responseBody st +:+ chunk |> in
    if endOfStream && negb (String.eqb (st_requestID st) "") then
      match settle w st (reported_usage st) with
      | (w, Some m) => (w, [], Closed (Some m))
      | (w, None) => (w, [ContinueResponseBody], Next st)
      end
    else (w, [ContinueResponseBody], Next st).

Definition step (gatewayURI : string) (w : W) (st : streamState) (msg : ProcessingRequest) : W * list ProcessingResponse * next_state :=
  match msg with
  | RequestHeaders headers => request_headers gatewayURI w st headers
  | RequestBody chunk endOfStream => request_body w st chunk endOfStream
  | ResponseHeaders => response_headers w st
  | ResponseBody chunk endOfStream => response_body w st chunk endOfStream
  | Unsupported => (w, [], Closed (Some "unsupported ext_proc message"%string))
  end.

(** The loop of [Process], until the gateway closes the stream. *)
Fixpoint process (gatewayURI : string) (w : W) (st : streamState) (messages : list ProcessingRequest)
    : W * list ProcessingResponse * option error :=
  match messages with
  | [] => (w, [], None)
  | msg :: rest =>
    let '(w, out, next) := step gatewayURI w st msg in
    match next with
    | Closed e => (w, out, e)
    | Next st => let '(w, more, e) := process gatewayURI w st rest in (w, out ++ more, e)
    end
  end.
Definition Process (w : W) (peer : option (list string)) (messages : list ProcessingRequest) : W * list ProcessingResponse * option error :=
  match authorizeGatewayTransport s peer with
  | Err m => (w, [], Some m)
  | Ok gatewayURI => process gatewayURI w new_stream messages
  end.
End filter.
