(* ===== verification/ExtProcProofs.v ===== *)
(** * What the external processor forwards

    The filter over the admission service, and the service over the in-memory engine:
    a request goes on to a provider only under a claim the ledger recorded, with its
    output capped at the bound that was admitted; and what the filter reports of a
    response is a well-formed usage. *)

From Stdlib Require Import ZArith Lia Ascii String.
From stdpp Require Import base gmap strings list pretty sorting.
From S2P Require Import Prelude Digest GoTime Api Json JsonDecode Pricing Routes AdmissionPolicy Ledger LedgerProofs Cohorts Engine EngineProofs EngineInvariants Wire Resources ChangeApproval Identity AdmissionServer AdmissionServerProofs ExtProc.

Open Scope string_scope.
Open Scope list_scope.
Open Scope Z_scope.
Open Scope go_scope.

(** ** The filter, the service and the engine together *)

(** What happens to one HTTP exchange. *)
Inductive network : Set := Delivered | RequestLost | ResponseLost.

Section composition.
Context `{Crypto} `{Platform}.
Context (time_json : Time -> jvalue) (ctx : nat -> ServerContext) (net : nat -> network).

(** The world of the filter: the engine, and how many exchanges there were. *)
Definition world : Type := Engine * nat.
Definition service_clock (w : world) : Time := sc_now (ctx w.2).
Definition service (w : world) (r : HttpRequest) : world * result HttpResponse :=
  let e := w.1 <| engine_now := service_clock w |> in
  match net w.2 with
  | RequestLost => ((w.1, S w.2), Err "connection refused")
  | ResponseLost => (((serve_http time_json (ctx w.2) e r).1, S w.2), Err "connection reset")
  | Delivered => let '(e, response) := serve_http time_json (ctx w.2) e r in ((e, S w.2), Ok response)
  end.

(** A claim of an attempt, as the ledger records it. *)
Record claim_recorded (e : Engine) (id tenant workload attempt snapshot : string) : Prop := {
  cr_event : exists kind, engine_inbox e !! (id +:+ ":extproc:claim") =
    Some (Build_inboxEvent id kind (dispatch_hash
      (Build_DispatchRequest id (id +:+ ":extproc:claim") tenant workload attempt snapshot DispatchClaimed tenant workload)));
  cr_request : exists r, engine_reservations e !! id = Some r /\ res_TenantID r = tenant /\ res_WorkloadUID r = workload /\
    validateReservationRoute r = None
}.

Definition succeeded (r : HttpResponse) : bool := negb ((hr_Status r <? 200) || (300 <=? hr_Status r)).

Lemma post_ok {W} transport clock (s : ExtProcServer) (w w' : W) b path payload body : post transport clock s w b path payload = (w', Ok body) ->
  exists r, transport w (signed_request (MasterSecret s) (rbind_Namespace b) (rbind_TenantID b) (rbind_WorkloadUID b)
    (AdmissionPath s +:+ path) (jtext payload) (clock w)) = (w', Ok r) /\ succeeded r = true.
Proof.
  unfold post. cbv zeta. destruct (transport w _) as [w1 [r|m]]; [|discriminate]. destruct (_ || _) eqn:E; [discriminate|].
  intros [= <- _]. exists r. split; [done|]. unfold succeeded. by rewrite E.
Qed.

Lemma service_ok w w' r response : service w r = (w', Ok response) ->
  serve_http time_json (ctx w.2) (w.1 <| engine_now := service_clock w |>) r = (w'.1, response) /\ w'.2 = S w.2.
Proof. unfold service. cbv zeta. destruct (net w.2); try discriminate. destruct (serve_http _ _ _ _) as [e res]. by intros [= <- <-]. Qed.

(** An event handler that answers with success made its call, and the call succeeded. *)
Lemma handle_event_succeeds {L R} decode message (forbidden : R -> option error) identity (call : L -> R -> trustedWorkload -> L * reply) sctx l r :
  succeeded (handle_event decode message forbidden identity call sctx l r).2 = true ->
  exists p body t req res code, authenticate (sc_auth sctx) (sc_now sctx) r = Ok (p, body) /\ decode body = Ok req /\
    authorizeEvent (sc_kube sctx) p (identity req).1 (identity req).2 = Ok t /\
    call l req t = ((handle_event decode message forbidden identity call sctx l r).1, (res, code, None)).
Proof.
  unfold handle_event. destruct (negb (String.eqb _ _)); [discriminate|]. destruct (authenticate _ _ _) as [[p body]|m].
  2:{ unfold writeAuthenticationError. by destruct (String.eqb _ _). }
  destruct (negb _); [discriminate|]. destruct (decode body) as [req|] eqn:Hd; [|discriminate]. destruct (forbidden req); [discriminate|].
  destruct (authorizeEvent _ _ _ _) as [t|] eqn:Ha; [|discriminate]. destruct (call l req t) as [l' [[res code] [m|]]] eqn:Hc; [discriminate|].
  intros _. by exists p, body, t, req, res, code.
Qed.

Lemma locate_refuses e id T W attempt check x y : locate e id T W attempt check = inr (x, y, None) -> False.
Proof.
  unfold locate. destruct (engine_reservations e !! id); [|discriminate]. destruct (matchPrincipal _ _ _); [discriminate|].
  destruct (negb _); [discriminate|]. by destruct (check _).
Qed.

(** An accepted dispatch is in the inbox, for a reservation of the caller. *)
Lemma Dispatch_accepted e req e' res code : engine_wf e -> Dispatch e req = (e', (res, code, None)) ->
  (exists kind, engine_inbox e' !! dreq_EventID req = Some (Build_inboxEvent (dreq_RequestID req) kind (dispatch_hash req))) /\
  exists r, engine_reservations e' !! dreq_RequestID req = Some r /\ res_TenantID r = dreq_AuthenticatedTenantID req /\
    res_WorkloadUID r = dreq_AuthenticatedWorkloadUID req /\ validateReservationRoute r = None.
Proof.
  intros Wf Hd0. pose proof (f_equal fst Hd0) as He. cbn [fst] in He. revert Hd0.
  unfold Dispatch. cbv zeta. destruct (validateEventPrincipal _ _ _ _ _ _); [discriminate|].
  match goal with |- context [match ?x with Some existing => (e, unchanged existing _ _) | None => _ end] => destruct x end; [discriminate|].
  destruct (engine_inbox e !! dreq_EventID req) as [[pid pkind phash]|] eqn:Hin.
  - unfold replay. cbn [inbox_RequestID inbox_PayloadHash]. destruct (String.eqb_spec pid (dreq_RequestID req)) as [->|]; [|discriminate].
    destruct (String.eqb_spec phash (dispatch_hash req)) as [->|]; [|discriminate]. cbn [negb].
    destruct (engine_reservations e !! _) as [r|] eqn:Hr; [|discriminate]. destruct (matchPrincipal r _ _) eqn:Hm; [discriminate|].
    destruct (validateReservationRoute r) eqn:Hv; [discriminate|]. intros [= <- _ _]. split; [by exists pkind|]. exists r. split; [done|].
    unfold matchPrincipal in Hm. destruct (String.eqb_spec (res_TenantID r) (dreq_AuthenticatedTenantID req)), (String.eqb_spec (res_WorkloadUID r) (dreq_AuthenticatedWorkloadUID req)); done.
  - intros Hd. assert (Hsome : is_Some (engine_inbox e' !! dreq_EventID req)).
    { revert Hd. destruct (locate _ _ _ _ _ _) as [r | [[x y] [m|]]] eqn:Hl; [|discriminate | by apply locate_refuses in Hl].
      destruct (advanceTenantWindowLocked e _ _) as [e1 [m|]]; [discriminate|]. destruct (applyDispatch r _) as [[r' c] [m|]]; [discriminate|].
      intros [= <- _ _]. unfold commit. upd. rewrite lookup_insert_eq. eauto. }
    pose proof (Dispatch_handled e req Wf) as Hh.
    rewrite He in Hh.
    destruct (committed_later _ _ _ _ _ _ _ _ _ _ Wf Hh Hin Hsome (persists_refl e')) as (Hrec & r & _ & Hr & _ & _ & HT & HW & Hv).
    split; [by exists "dispatch"%string|]. by exists r.
Qed.

(** What the filter writes is what the service reads. *)
Lemma ascii_app a b : ascii_string a = true -> ascii_string b = true -> ascii_string (a +:+ b) = true.
Proof.
  unfold ascii_string, bytes_of. induction a as [|c a IH]; [done|]. rewrite string_app_cons. cbn [list_ascii_of_string map forallb].
  intros [-> Ha]%andb_prop Hb. by apply IH.
Qed.

Lemma decode_dispatch_json st suffix status : ascii_string suffix = true -> ascii_string status = true ->
  forallb ascii_string [st_requestID st; st_attemptID st; st_routeSnapshotHash st; rbind_TenantID (st_binding st); rbind_WorkloadUID (st_binding st)] = true ->
  decode_dispatch (jtext (dispatch_json st suffix status)) =
  Ok (Build_DispatchRequest (st_requestID st) (st_requestID st +:+ ":extproc:" +:+ suffix) (rbind_TenantID (st_binding st))
        (rbind_WorkloadUID (st_binding st)) (st_attemptID st) (st_routeSnapshotHash st) status "" "").
Proof.
  intros Hsu Hst Hf. cbn [forallb] in Hf. rewrite !andb_true_iff in Hf. destruct Hf as (H1 & H2 & H3 & H4 & H5 & _).
  assert (H6 : ascii_string (st_requestID st +:+ ":extproc:" +:+ suffix) = true) by (by apply ascii_app; [|apply ascii_app]).
  unfold decode_dispatch, decodeStrictJSON. rewrite json_parse_jtext; [reflexivity|].
  unfold dispatch_json. set (event := st_requestID st +:+ ":extproc:" +:+ suffix) in *. clearbody event.
  cbn [jok forallb]. by rewrite H1, H2, H3, H4, H5, H6, Hst.
Qed.

(** A dispatch the filter got through is recorded by the engine. *)
Lemma dispatch_recorded (s : ExtProcServer) w w' st status : AdmissionPath s = "" -> engine_wf w.1 -> ascii_string status = true ->
  forallb ascii_string [st_requestID st; st_attemptID st; st_routeSnapshotHash st; rbind_TenantID (st_binding st); rbind_WorkloadUID (st_binding st)] = true ->
  dispatch service service_clock s w st "claim" status = (w', None) ->
  (exists kind, engine_inbox w'.1 !! (st_requestID st +:+ ":extproc:claim") = Some (Build_inboxEvent (st_requestID st) kind (dispatch_hash
      (Build_DispatchRequest (st_requestID st) (st_requestID st +:+ ":extproc:claim") (rbind_TenantID (st_binding st)) (rbind_WorkloadUID (st_binding st))
        (st_attemptID st) (st_routeSnapshotHash st) status (rbind_TenantID (st_binding st)) (rbind_WorkloadUID (st_binding st)))))) /\
  exists r, engine_reservations w'.1 !! st_requestID st = Some r /\ res_TenantID r = rbind_TenantID (st_binding st) /\
    res_WorkloadUID r = rbind_WorkloadUID (st_binding st) /\ validateReservationRoute r = None.
Proof.
  intros Hpath Wf Hst Hascii. unfold dispatch. destruct (post _ _ _ _ _ _ _) as [w1 [body|m]] eqn:Hp; [|discriminate]. intros [= <-].
  apply post_ok in Hp as (r & Hs & Hok). apply service_ok in Hs as [Hs _]. rewrite Hpath in Hs.
  set (e := w.1 <| engine_now := service_clock w |>) in *. assert (We : engine_wf e) by (destruct Wf; by constructor). clearbody e.
  set (req := signed_request _ _ _ _ _ _ _) in *. change (serve_http time_json (ctx w.2) e req) with (handleDispatch (ctx w.2) e req) in Hs.
  pose proof (f_equal fst Hs) as He. pose proof (f_equal snd Hs) as Hr. cbn [fst snd] in He, Hr. unfold handleDispatch in He, Hr.
  rewrite <- Hr in Hok. apply handle_event_succeeds in Hok as (p & b & t & dreq & res & code & Ha & Hd & Ht & Hc). rewrite He in Hc.
  apply authenticate_signed in Ha as (_ & -> & _); [|done]. change (http_Body req) with (jtext (dispatch_json st "claim" status)) in Hd.
  rewrite decode_dispatch_json in Hd by done. injection Hd as <-. apply authorizeEvent_ok in Ht as (_ & HT & HW). cbn in HT, HW.
  cbn [backend_Dispatch engine_backend] in Hc. unfold authenticated_dispatch in Hc. rewrite <- HT, <- HW in Hc.
  exact (Dispatch_accepted _ _ _ _ _ We Hc).
Qed.

(** The service keeps the engine well formed and forgets nothing. *)
Lemma service_persists w r w' answer : engine_wf w.1 -> service w r = (w', answer) -> engine_wf w'.1 /\ persists w.1 w'.1.
Proof.
  intros Wf. unfold service. cbv zeta.
  assert (Hserve : forall sctx, engine_wf (serve_http time_json sctx (w.1 <| engine_now := service_clock w |>) r).1 /\
    persists w.1 (serve_http time_json sctx (w.1 <| engine_now := service_clock w |>) r).1).
  { intros sctx. destruct (serve_persists w.1 (Tick (service_clock w)) _ Wf eq_refl) as [W0 P0]. revert W0 P0.
    cbn [serve]. set (e0 := w.1 <| engine_now := service_clock w |>). clearbody e0. intros W0 P0.
    destruct (serve_http_served time_json sctx e0 r) as [| p body t e1 _ _ [->|(c & _ & Hs)]%authorized_call]; [done|done|].
    destruct (serve_persists _ _ _ W0 Hs) as [W1 P1]. split; [done | by transitivity e0]. }
  specialize (Hserve (ctx w.2)). destruct (net w.2).
  - destruct (serve_http _ _ _ _) as [e res]. by intros [= <- _].
  - by intros [= <- _].
  - by intros [= <- _].
Qed.

Lemma post_persists (s : ExtProcServer) w w' b path payload answer : engine_wf w.1 -> post service service_clock s w b path payload = (w', answer) ->
  engine_wf w'.1 /\ persists w.1 w'.1.
Proof.
  intros Wf. unfold post. cbv zeta. destruct (service w _) as [w1 [r|m]] eqn:Hs; (apply service_persists in Hs; [|done]).
  - destruct (_ || _); by intros [= <- _].
  - by intros [= <- _].
Qed.

Lemma dispatch_persists (s : ExtProcServer) w w' st suffix status e : engine_wf w.1 -> dispatch service service_clock s w st suffix status = (w', e) ->
  engine_wf w'.1 /\ persists w.1 w'.1.
Proof.
  intros Wf. unfold dispatch. destruct (post _ _ _ _ _ _ _) as [w1 [x|m]] eqn:Hp; intros [= <- _]; by eapply post_persists.
Qed.
Lemma settle_persists (s : ExtProcServer) w w' st usage e : engine_wf w.1 -> settle service service_clock s w st usage = (w', e) ->
  engine_wf w'.1 /\ persists w.1 w'.1.
Proof.
  intros Wf. unfold settle. destruct (post _ _ _ _ _ _ _) as [w1 [x|m]] eqn:Hp; intros [= <- _]; by eapply post_persists.
Qed.

(** A stream that was admitted and claimed. *)
Lemma admitAndClaim_ok {W} transport clock (s : ExtProcServer) (w w' : W) st st' : admitAndClaim transport clock s w st = (w', Ok st') ->
  exists st1 request w1 answer r, admission_of st = Ok (st1, request) /\
    post transport clock s w (st_binding st1) admit_path request = (w1, Ok answer) /\ decode_admit_result answer = Ok r /\
    admitted_stream st1 r = Ok st' /\ dispatch transport clock s w1 st' "claim" DispatchClaimed = (w', None).
Proof.
  unfold admitAndClaim. destruct (admission_of st) as [[st1 request]|m]; [|discriminate].
  destruct (post _ _ _ _ _ _ _) as [w1 [answer|m]] eqn:Hp; [|discriminate]. destruct (decode_admit_result answer) as [r|] eqn:Hd; [|discriminate].
  destruct (admitted_stream st1 r) as [st2|] eqn:Ha; [|discriminate]. destruct (dispatch _ _ _ _ _ _ _) as [w2 [m|]] eqn:Hdis; [discriminate|].
  intros [= <- <-]. by exists st1, request, w1, answer, r.
Qed.

(** The route of an admitted stream is a validated snapshot. *)
Lemma admitted_stream_ok st r st' : admitted_stream st r = Ok st' ->
  exists snapshot, ar_RouteSnapshot r = Some snapshot /\ ar_Decision r = "ADMIT" /\ ValidateRouteSnapshot snapshot = None /\
    rt_SelectedModel (st_route st') = route_ModelName snapshot /\ rt_SnapshotHash (st_route st') = route_SnapshotHash snapshot /\
    st_routeSnapshotHash st' = route_SnapshotHash snapshot /\ st_binding st' = st_binding st /\ st_requestID st' = st_requestID st.
Proof.
  unfold admitted_stream. destruct (String.eqb_spec (ar_Decision r) "ADMIT") as [Ed|]; [|discriminate]. cbn [negb orb].
  destruct (String.eqb _ _); [discriminate|]. destruct (ar_RouteSnapshot r) as [snapshot|]; [|discriminate]. destruct (_ || _); [discriminate|].
  destruct (ValidateRouteSnapshot snapshot) eqn:Hv; [discriminate|]. destruct (rewriteRequestForRoute _ _ _); [|discriminate].
  cbn [res_bind]. destruct (routePath _ _); [|discriminate]. cbn [res_bind]. intros [= <-]. by exists snapshot.
Qed.

Lemma claim_persists e e' id tenant workload attempt snapshot : claim_recorded e id tenant workload attempt snapshot -> persists e e' ->
  claim_recorded e' id tenant workload attempt snapshot.
Proof.
  intros [(kind & Hk) (r & Hr & HT & HW & Hv)] [P1 P2 _ _]. split; [exists kind; by apply P2|].
  destruct (P1 _ _ Hr) as (r' & Hr' & Hf & _). exists r'. split; [done|]. rewrite (frozen_route _ _ Hf).
  apply frozen_eq in Hf as (_ & -> & -> & _). done.
Qed.

(** The identifiers a claim is made of are ASCII texts. *)
Definition identified (st : streamState) : bool :=
  forallb ascii_string [st_requestID st; st_attemptID st; rbind_TenantID (st_binding st); rbind_WorkloadUID (st_binding st)].
Definition claimed_stream (e : Engine) (st : streamState) : Prop :=
  claim_recorded e (st_requestID st) (rbind_TenantID (st_binding st)) (rbind_WorkloadUID (st_binding st)) (st_attemptID st)
    (rt_SnapshotHash (st_route st)).

Lemma sha256_ascii s : is_sha256 s = true -> ascii_string s = true.
Proof.
  unfold is_sha256, ascii_string. intros [_ Hf]%andb_prop. rewrite forallb_forall in Hf |- *. intros b Hb%Hf.
  unfold lower_hex in Hb. rewrite orb_true_iff, !andb_true_iff, !N.leb_le in Hb. apply N.ltb_lt. lia.
Qed.

Lemma claimed_by_dispatch (s : ExtProcServer) w w' st snapshot : AdmissionPath s = "" -> engine_wf w.1 -> identified st = true ->
  ValidateRouteSnapshot snapshot = None -> st_routeSnapshotHash st = route_SnapshotHash snapshot ->
  rt_SnapshotHash (st_route st) = route_SnapshotHash snapshot ->
  dispatch service service_clock s w st "claim" DispatchClaimed = (w', None) -> claimed_stream w'.1 st.
Proof.
  intros Hpath Wf Hid Hv Hh Hr Hd. unfold claimed_stream. rewrite Hr, <- Hh.
  assert (Hascii : ascii_string (st_routeSnapshotHash st) = true).
  { rewrite Hh. apply sha256_ascii. revert Hv. unfold ValidateRouteSnapshot. by destruct (is_sha256 (route_SnapshotHash snapshot)); [|rewrite orb_true_r]. }
  unfold identified in Hid. cbn [forallb] in Hid. rewrite !andb_true_iff in Hid. destruct Hid as (H1 & H2 & H3 & H4 & _).
  destruct (dispatch_recorded s w w' st DispatchClaimed Hpath Wf eq_refl) as [He Hres]; [|exact Hd|by split].
  cbn [forallb]. by rewrite H1, H2, H3, H4, Hascii.
Qed.

Lemma admitAndClaim_persists (s : ExtProcServer) w w' st r : engine_wf w.1 -> admitAndClaim service service_clock s w st = (w', r) ->
  engine_wf w'.1 /\ persists w.1 w'.1.
Proof.
  intros Wf. unfold admitAndClaim. destruct (admission_of st) as [[st1 request]|]; [|by intros [= <- _]].
  destruct (post _ _ _ _ _ _ _) as [w1 [answer|m]] eqn:Hp; (apply post_persists in Hp as [W1 P1]; [|done]); [|by intros [= <- _]].
  destruct (decode_admit_result answer) as [x|]; [|by intros [= <- _]]. destruct (admitted_stream st1 x) as [st2|]; [|by intros [= <- _]].
  destruct (dispatch _ _ _ _ _ _ _) as [w2 [m|]] eqn:Hd; (apply dispatch_persists in Hd as [W2 P2]; [|done]); intros [= <- _];
    (split; [done | by transitivity w1.1]).
Qed.

(** A message that lets nothing through. *)
Ltac quiet := split; [done|]; split; [done|]; intros ? ? Hin; exfalso;
  first [by apply not_elem_of_nil in Hin | by apply list_elem_of_singleton in Hin].

(** The request an admission is made for is the one its headers name, of the stream's
    own workload. *)
Lemma admission_identity st st1 request : admission_of st = Ok (st1, request) ->
  st_requestID st1 = first [header_of st "x-request-id"; header_of st "x-govar-request-id"] /\ st_binding st1 = st_binding st.
Proof.
  unfold admission_of. destruct (decodeJSONObject _) as [payload|]; [|discriminate]. destruct (streaming_refusal payload); [discriminate|].
  destruct (bool_decide _); [discriminate|]. destruct (exactNonNegativeInt64Field _ _ _) as [bound|]; [|discriminate].
  destruct (bound =? 0); [discriminate|]. cbv zeta. destruct (String.eqb _ ""); [discriminate|].
  destruct (declared_bounds _ _); [|discriminate]. cbn [res_bind]. destruct (cancellation_bound _); [|discriminate]. cbn [res_bind].
  by intros [= <- _].
Qed.

(** The state a stream goes on in after a message, and the claim behind it. *)
Record claimed_of (e : Engine) (st st' : streamState) : Prop := {
  cl_request : st_requestID st' = first [header_of st "x-request-id"; header_of st "x-govar-request-id"];
  cl_binding : st_binding st' = st_binding st;
  cl_recorded : identified st' = true -> claimed_stream e st'
}.

(** One message of a stream. *)
Lemma step_forwards resolve (s : ExtProcServer) uri w st msg w' out next : AdmissionPath s = "" -> engine_wf w.1 ->
  step service service_clock resolve s uri w st msg = (w', out, next) ->
  engine_wf w'.1 /\ persists w.1 w'.1 /\
  forall route body, ContinueRequestBody (Some (route, body)) ∈ out ->
    exists st', next = Next st' /\ st_route st' = route /\ st_requestBody st' = body /\ claimed_of w'.1 st st'.
Proof.
  intros Hpath Wf. destruct msg as [headers | chunk eos | | chunk eos |]; cbn [step].
  - unfold request_headers. destruct (st_started st); [intros [= <- <- _]; quiet|].
    cbv zeta. destruct (resolvePrincipal _ _ _ _ _); intros [= <- <- _]; quiet.
  - unfold request_body. destruct (too_large _ _); [intros [= <- <- _]; quiet|].
    cbv zeta. destruct eos; cbn [negb]; [|intros [= <- <- _]; quiet].
    set (st0 := st <| st_requestBody := _ |>). assert (Hst0 : st_headers st0 = st_headers st /\ st_binding st0 = st_binding st) by done.
    clearbody st0. destruct Hst0 as [Hhs Hbd]. destruct (admitAndClaim _ _ _ _ _) as [w1 [st1|m]] eqn:Ha;
      intros [= <- <- <-]; destruct (admitAndClaim_persists _ _ _ _ _ Wf Ha) as [W1 P1]; [|quiet].
    split; [done|]. split; [done|]. intros route body Hin%list_elem_of_singleton.
    destruct (String.eqb _ ""); [discriminate|]. injection Hin as -> ->. exists st1. do 3 (split; [done|]).
    apply admitAndClaim_ok in Ha as (st2 & request & w2 & answer & r & Hadm & Hp & _ & Had & Hd). apply admission_identity in Hadm as [Hid2 Hb2].
    apply admitted_stream_ok in Had as (snapshot & _ & _ & Hv & _ & Hs1 & Hs2 & Hb1 & Hid1).
    split; [rewrite Hid1, Hid2; unfold header_of; by rewrite Hhs | congruence | intros Hid].
    destruct (post_persists _ _ _ _ _ _ _ Wf Hp) as [W2 _]. by eapply claimed_by_dispatch.
  - unfold response_headers. destruct (String.eqb _ ""); [intros [= <- <- _]; quiet|].
    destruct (dispatch _ _ _ _ _ _ _) as [w1 [m|]] eqn:Hd; intros [= <- <- _]; destruct (dispatch_persists _ _ _ _ _ _ _ Wf Hd); quiet.
  - unfold response_body. destruct (too_large _ _); [intros [= <- <- _]; quiet|].
    cbv zeta. destruct (eos && _); [|intros [= <- <- _]; quiet].
    destruct (settle _ _ _ _ _ _) as [w1 [m|]] eqn:Hd; intros [= <- <- _]; destruct (settle_persists _ _ _ _ _ _ Wf Hd); quiet.
  - intros [= <- <- _]. quiet.
Qed.

(** The ledger and the state of a stream once the messages were handled, while none ended it. *)
Fixpoint stream_after resolve (s : ExtProcServer) uri (w : world) (st : streamState) (messages : list ProcessingRequest) : option (world * streamState) :=
  match messages with
  | [] => Some (w, st)
  | msg :: rest =>
    match step service service_clock resolve s uri w st msg with
    | (w, _, Next st) => stream_after resolve s uri w st rest
    | (_, _, Closed _) => None
    end
  end.

(** A body that goes on: at one message of the stream, in the state the stream had come
    to, the filter answered with this route and body, for the request that its headers
    name, whose claim the ledger had recorded by then and has still. *)
Record forwarding resolve (s : ExtProcServer) uri (w : world) (st0 : streamState) (messages : list ProcessingRequest) (w' : world)
    (route : RouteTarget) (body : string) (before after : list ProcessingRequest) (msg : ProcessingRequest) (w1 w2 : world)
    (st st' : streamState) (out : list ProcessingResponse) : Prop := {
  fw_messages : messages = before ++ msg :: after;
  fw_before : stream_after resolve s uri w st0 before = Some (w1, st);
  fw_step : step service service_clock resolve s uri w1 st msg = (w2, out, Next st');
  fw_answer : ContinueRequestBody (Some (route, body)) ∈ out /\ st_route st' = route /\ st_requestBody st' = body;
  fw_claimed : claimed_of w2.1 st st';
  fw_kept : claimed_of w'.1 st st'
}.

Lemma process_forwards resolve (s : ExtProcServer) uri messages : forall w st w' out err, AdmissionPath s = "" -> engine_wf w.1 ->
  process service service_clock resolve s uri w st messages = (w', out, err) ->
  engine_wf w'.1 /\ persists w.1 w'.1 /\
  forall route body, ContinueRequestBody (Some (route, body)) ∈ out ->
    exists before after msg w1 w2 st1 st2 out1, forwarding resolve s uri w st messages w' route body before after msg w1 w2 st1 st2 out1.
Proof.
  induction messages as [|msg messages IH]; intros w st w' out err Hpath Wf; cbn [process]; [intros [= <- <- _]; quiet|].
  destruct (step _ _ _ _ _ _ _ _) as [[w1 out1] next] eqn:Hs. destruct (step_forwards _ _ _ _ _ _ _ _ _ Hpath Wf Hs) as (W1 & P1 & F1).
  destruct next as [st1|e].
  - destruct (process _ _ _ _ _ _ _ _) as [[w2 out2] e2] eqn:Hp. intros [= <- <- _].
    destruct (IH _ _ _ _ _ Hpath W1 Hp) as (W2 & P2 & F2). split; [done|]. split; [by transitivity w1.1|].
    intros route body [Hin|Hin]%elem_of_app.
    + destruct (F1 _ _ Hin) as (st' & [= <-] & E1 & E2 & Hc). exists [], messages, msg, w, w1, st, st1, out1.
      split; [done..|]. destruct Hc as [C1 C2 C3]. split; [done..|]. intros Hid. by eapply claim_persists; [apply C3|].
    + destruct (F2 _ _ Hin) as (before & after & m & v1 & v2 & s1 & s2 & o & [G1 G2 G3 G4 G5 G6]).
      exists (msg :: before), after, m, v1, v2, s1, s2, o. split; [by rewrite G1 | cbn [stream_after]; by rewrite Hs | done..].
  - intros [= <- <- _]. split; [done|]. split; [done|]. intros route body Hin. by destruct (F1 _ _ Hin) as (st' & Hn & _).
Qed.

(** C23: nothing reaches a provider unclaimed: through any stream, over any history of the
    ledger and a network that loses what it likes, when the filter lets a request body go
    on to a route, then the request is the one the stream's headers name, for the
    workload of the client's certificate, and by then the ledger has recorded the claim
    of that attempt on that route snapshot, for a reservation of the workload, and
    keeps it. *)
Theorem forwarded_requests_are_claimed resolve (s : ExtProcServer) w peer messages w' out err route body :
  reachable w.1 -> AdmissionPath s = "" -> Process service service_clock resolve s w peer messages = (w', out, err) ->
  ContinueRequestBody (Some (route, body)) ∈ out ->
  exists uri before after msg w1 w2 st st' out1, authorizeGatewayTransport s peer = Ok uri /\
    forwarding resolve s uri w new_stream messages w' route body before after msg w1 w2 st st' out1.
Proof.
  intros Hr Hpath. unfold Process. destruct (authorizeGatewayTransport s peer) as [uri|m].
  - intros Hp Hin. destruct (process_forwards _ _ _ _ _ _ _ _ _ Hpath (reachable_wf _ Hr) Hp) as (_ & _ & F).
    destruct (F _ _ Hin) as (before & after & msg & w1 & w2 & st & st' & out1 & Hf). by exists uri, before, after, msg, w1, w2, st, st', out1.
  - by intros [= _ <- _] ?%not_elem_of_nil.
Qed.
End composition.

(** ** What is forwarded *)

Lemma digits_value_nonneg s : forall acc n, 0 <= acc -> digits_value acc s = Some n -> 0 <= n.
Proof.
  induction s as [|c s IH]; intros acc n Ha; cbn [digits_value]; [by intros [= <-]|].
  destruct (is_digit c) eqn:Hd; [|discriminate]. apply IH.
  unfold is_digit in Hd. lia.
Qed.

Lemma exact_nonnegative payload name required z : exactNonNegativeInt64Field payload name required = Ok z -> 0 <= z.
Proof.
  unfold exactNonNegativeInt64Field. destruct (payload !! name) as [text|]; [|destruct required; [discriminate | by intros [= <-]]].
  destruct (natural_text text) eqn:Ht; [|discriminate]. cbn [negb]. destruct (parse_int64 text) as [n|] eqn:Hp; [|discriminate].
  intros [= <-]. revert Hp. unfold parse_int64. destruct text as [|c t]; [discriminate|].
  destruct (is_byte 45 c) eqn:Hc.
  - apply N.eqb_eq in Hc. cbn [natural_text] in Ht. revert Ht. unfold is_byte, nonzero_digit, between. rewrite Hc. discriminate.
  - destruct (String.eqb _ _); [discriminate|]. destruct (digits_value 0 _) as [v|] eqn:Hv; [|discriminate]. cbn [mbind option_bind].
    destruct (is_int64 v); [|discriminate]. intros [= <-]. by eapply digits_value_nonneg; [|exact Hv].
Qed.

Lemma declared_admission st st1 request : admission_of st = Ok (st1, request) ->
  exists payload bound bounds, decodeJSONObject (st_requestBody st) = Some payload /\ st_requestBody st1 = st_requestBody st /\
    exactNonNegativeInt64Field payload "max_output_tokens" true = Ok bound /\ 0 < bound /\ request = admit_json st1 bound bounds.
Proof.
  unfold admission_of. destruct (decodeJSONObject _) as [payload|]; [|discriminate]. destruct (streaming_refusal payload); [discriminate|].
  destruct (bool_decide _); [discriminate|].
  destruct (exactNonNegativeInt64Field payload "max_output_tokens" true) as [bound|] eqn:Hb; [|discriminate].
  destruct (Z.eqb_spec bound 0) as [|Hnz]; [discriminate|]. cbv zeta. destruct (String.eqb _ ""); [discriminate|].
  destruct (declared_bounds _ _) as [declared|]; [|discriminate]. cbn [res_bind].
  destruct (cancellation_bound _) as [cancellation|]; [|discriminate]. cbn [res_bind]. intros [= <- <-].
  exists payload, bound, (declared ++ cancellation). do 3 (split; [done|]). split; [|done].
  pose proof (exact_nonnegative _ _ _ _ Hb). lia.
Qed.

(** The name of the member that caps the output. *)
Lemma cap_field_name mode path field : providerOutputCapField mode path = Ok field -> field = "max_output_tokens" \/ field = "max_tokens".
Proof.
  unfold providerOutputCapField. cbv zeta. destruct (_ && _); [discriminate|]. destruct (HasSuffix _ _); [intros [= <-]; by left|].
  destruct (_ || _); [intros [= <-]; by right | discriminate].
Qed.

(** The members of a rewritten request. *)
Record rewritten (payload members : raw_object) (field : string) (target : RouteTarget) : Prop := {
  rw_cap : members !! field = payload !! "max_output_tokens"%string;
  rw_only_cap : forall name, name = "max_output_tokens"%string \/ name = "max_tokens"%string -> name <> field -> members !! name = None;
  rw_model : members !! "model"%string =
    if String.eqb (rt_PathMode target) openai_body then Some (json_string (rt_ProviderDeployment target)) else None;
  rw_rest : forall name, name <> "model"%string -> name <> "max_output_tokens"%string -> name <> "max_tokens"%string ->
    members !! name = payload !! name
}.

Lemma rewrite_ok body path target out : rewriteRequestForRoute body path target = Ok out ->
  exists payload field members, decodeJSONObject body = Some payload /\ providerOutputCapField (rt_PathMode target) path = Ok field /\
    rewritten payload members field target /\ out = marshal_raw members.
Proof.
  unfold rewriteRequestForRoute. destruct (decodeJSONObject body) as [payload|]; [|discriminate].
  destruct (payload !! "max_output_tokens"%string) as [cap|] eqn:Hc; [|discriminate].
  destruct (exactNonNegativeInt64Field _ _ _); [|discriminate]. cbn [res_bind].
  destruct (providerOutputCapField _ _) as [field|] eqn:Hf; [|discriminate]. cbn [res_bind].
  destruct (rewritten_members payload cap field target) as [members|] eqn:Hm; [|discriminate]. intros [= <-].
  exists payload, field, members. split; [done|]. split; [done|]. split; [|done]. apply cap_field_name in Hf.
  revert Hm. unfold rewritten_members. cbv beta zeta. destruct (String.eqb (rt_PathMode target) openai_body) eqn:Hmode; [|destruct (String.eqb _ azure_deployment_path); [|discriminate]];
    intros [= <-]; (constructor; rewrite ?Hc, ?Hmode; [by rewrite lookup_insert_eq | | |]).
  all: try (intros name [->| ->] Hne; rewrite lookup_insert_ne by done; by simplify_map_eq).
  all: try (rewrite lookup_insert_ne by (by destruct Hf as [->| ->]); by simplify_map_eq).
  all: intros name H1 H2 H3; (rewrite lookup_insert_ne by (by destruct Hf as [->| ->]; congruence)); by simplify_map_eq.
Qed.

(** C24: the provider is held to what was admitted: the request that goes on to the route
    differs from the one that came in only in its model and its output cap, its one cap
    is the member the provider's API reads, and the value of that cap is the positive
    bound the admission was asked for. *)
Theorem forwarded_output_is_admitted `{Crypto} st st1 request r st' : admission_of st = Ok (st1, request) -> admitted_stream st1 r = Ok st' ->
  exists payload members field bound bounds, decodeJSONObject (st_requestBody st) = Some payload /\
    request = admit_json st1 bound bounds /\ 0 < bound /\
    providerOutputCapField (rt_PathMode (st_route st')) (header_of st1 ":path") = Ok field /\
    rewritten payload members field (st_route st') /\ exactNonNegativeInt64Field members field true = Ok bound /\
    st_requestBody st' = marshal_raw members.
Proof.
  intros (payload & bound & bounds & Hd & Hbody & Hb & Hpos & ->)%declared_admission.
  unfold admitted_stream. destruct (_ || _); [discriminate|]. destruct (ar_RouteSnapshot r) as [snapshot|]; [|discriminate].
  destruct (_ || _); [discriminate|]. destruct (ValidateRouteSnapshot snapshot); [discriminate|]. cbv zeta.
  destruct (rewriteRequestForRoute _ _ _) as [out|] eqn:Hw; [|discriminate]. cbn [res_bind].
  destruct (routePath _ _) as [path|]; [|discriminate]. cbn [res_bind]. intros [= <-].
  apply rewrite_ok in Hw as (payload' & field & members & Hd' & Hf & Hr & ->). rewrite Hbody, Hd in Hd'. injection Hd' as <-.
  exists payload, members, field, bound, bounds. do 4 (split; [done|]). split; [by destruct Hr; constructor|]. split; [|done].
  revert Hb. unfold exactNonNegativeInt64Field. rewrite (rw_cap _ _ _ _ Hr).
  destruct (payload !! "max_output_tokens"%string) as [text|]; [|discriminate].
  destruct (natural_text text); [|discriminate]. cbn [negb]. by destruct (parse_int64 text).
Qed.

(** ** What is reported *)

Definition total (bases : list string) (l : list UsageQuantity) : Z :=
  foldr Z.add 0 (map uq_Quantity (List.filter (fun u => existsb (String.eqb (uq_Basis u)) bases) l)).

Lemma total_perm bases l l' : l ≡ₚ l' -> total bases l = total bases l'.
Proof.
  unfold total. induction 1 as [| x l l' Hp IH | x y l | l1 l2 l3 Hp1 IH1 Hp2 IH2]; cbn [List.filter]; [done| | |congruence].
  - destruct (existsb _ bases); cbn [map foldr]; by rewrite ?IH.
  - destruct (existsb (String.eqb (uq_Basis x)) bases), (existsb (String.eqb (uq_Basis y)) bases); cbn [map foldr]; lia.
Qed.

Lemma read_count_nonneg m key n : read_count m key = Some n -> 0 <= n.
Proof.
  unfold read_count. destruct (m !! key) as [v|]; [|discriminate]. cbn [mbind option_bind].
  destruct (decode_int64 0 v) as [z|]; [|discriminate]. destruct (Z.leb_spec 0 z); [|discriminate]. by intros [= <-].
Qed.
Lemma read_detail_nonneg m parent key n : read_detail m parent key = Some n -> 0 <= n.
Proof.
  unfold read_detail. destruct (m !! parent) as [v|]; [|discriminate]. cbn [mbind option_bind].
  destruct (decode_map ∅ v); [|discriminate]. apply read_count_nonneg.
Qed.
Lemma token_counts_nonneg path usage : let '(i, o, c, r) := token_counts path usage in
  Forall (fun x : option Z => forall n, x = Some n -> 0 <= n) [i; o; c; r].
Proof.
  unfold token_counts. destruct (HasSuffix _ _); repeat constructor; intros n;
    first [apply read_count_nonneg | apply read_detail_nonneg].
Qed.

(** A usage in the form the ledger takes: bases in order, each once and among the billed
    ones, and no negative quantity. *)
Record proper_usage (required : list string) (l : list UsageQuantity) : Prop := {
  pu_sorted : StronglySorted (fun a b => string_ltb (uq_Basis b) (uq_Basis a) = false) l;
  pu_once : NoDup (map uq_Basis l);
  pu_billed : Forall (fun u => uq_Basis u ∈ required /\ 0 <= uq_Quantity u) l
}.

(** The quantities before they are sorted. *)
Definition billed_quantities (required : list string) (counts : list (string * option Z)) : list UsageQuantity :=
  omap (fun '(basis, q) => q ← q; if billed required basis then Some (Build_UsageQuantity basis q) else None) counts.

Lemma billed_proper required counts : NoDup counts.*1 -> Forall (fun p : string * option Z => forall n, p.2 = Some n -> 0 <= n) counts ->
  NoDup (map uq_Basis (billed_quantities required counts)) /\
  Forall (fun u => uq_Basis u ∈ required /\ 0 <= uq_Quantity u /\ uq_Basis u ∈ counts.*1) (billed_quantities required counts).
Proof.
  unfold billed_quantities. induction counts as [|[basis q] counts IH]; cbn [omap list_omap fmap list_fmap fst]; [by repeat constructor|].
  intros [Hnew Hnd]%NoDup_cons [Hq Hcs]%Forall_cons. destruct (IH Hnd Hcs) as [IHd IHf]. cbn [fst snd] in *.
  assert (Hrest : Forall (fun u => uq_Basis u ∈ required /\ 0 <= uq_Quantity u /\ uq_Basis u ∈ basis :: counts.*1)
    (omap (fun '(basis, q) => q ← q; if billed required basis then Some (Build_UsageQuantity basis q) else None) counts)).
  { eapply Forall_impl; [exact IHf|]. intros u (H1 & H2 & H3). repeat split; [done..|by right]. }
  destruct q as [n|]; cbn [mbind option_bind]; [|by split]. destruct (billed required basis) eqn:Hreq; [apply bool_decide_eq_true in Hreq | by split]. split.
  - cbn [map uq_Basis]. constructor; [|done]. intros (u & Hu & Hin)%list_elem_of_In%in_map_iff. apply list_elem_of_In in Hin.
    rewrite Forall_forall in IHf. destruct (IHf _ Hin) as (_ & _ & Hb). rewrite Hu in Hb. done.
  - constructor; [|done]. cbn. repeat split; [done | by apply Hq | by left].
Qed.

Lemma total_billed bases required basis q counts : total bases (billed_quantities required ((basis, q) :: counts)) =
  (if billed required basis && existsb (String.eqb basis) bases then default 0 q else 0) + total bases (billed_quantities required counts).
Proof.
  unfold billed_quantities, total. cbn [omap list_omap]. destruct q as [n|]; cbn [mbind option_bind].
  - destruct (billed required basis); [|done].
    cbn [List.filter uq_Basis andb]. by destruct (existsb _ bases).
  - by destruct (_ && _).
Qed.

Lemma without_part_nonneg billed whole part rest : without_part billed whole part = Some rest ->
  (forall n, whole = Some n -> 0 <= n) -> forall n, rest = Some n -> 0 <= n.
Proof.
  unfold without_part. destruct whole as [w|]; [|by intros [= <-]]. destruct part as [p|]; [|by intros [= <-]].
  destruct billed; [|by intros [= <-]]. destruct (Z.ltb_spec w p); [discriminate|]. intros [= <-] _ n [= <-]. lia.
Qed.

Lemma without_part_total billed w part rest : without_part billed (Some w) part = Some rest ->
  default 0 rest + (if billed then default 0 part else 0) = w.
Proof.
  unfold without_part. destruct part as [p|]; [|intros [= <-]; destruct billed; cbn; lia].
  destruct billed; [destruct (w <? p); [discriminate|]|]; intros [= <-]; cbn; lia.
Qed.

(** The text the provider reports, when [parseUsage] takes it for authoritative. *)
Lemma parseUsage_spec body required route l : parseUsage body required route = (l, true) ->
  exists e usage input output cached reasoning left_input left_output, decode_envelope body = Some e /\ env_Usage e = Some usage /\
    token_counts (rt_Path route) usage = (input, output, cached, reasoning) /\
    without_part (billed required ProviderBasisCachedInputTokens) input cached = Some left_input /\
    without_part (billed required ProviderBasisReasoningTokens) output reasoning = Some left_output /\
    l = sort_slice (fun a b => string_ltb (uq_Basis a) (uq_Basis b)) (billed_quantities required
      [(ProviderBasisInputTokens, left_input); (ProviderBasisCachedInputTokens, cached); (ProviderBasisOutputTokens, left_output);
       (ProviderBasisReasoningTokens, reasoning); (ProviderBasisRequest, Some 1);
       (ProviderBasisToolCall, Some (Z.of_nat (length (concat (env_Choices e)))))]).
Proof.
  unfold parseUsage. destruct (providerOutputCapField _ _); [|discriminate]. destruct (decode_envelope body) as [e|]; [|discriminate].
  destruct (token_counts _ _) as [[[input output] cached] reasoning] eqn:Ht.
  destruct (without_part _ input cached) as [left_input|] eqn:Hi; [|discriminate].
  destruct (without_part _ output reasoning) as [left_output|] eqn:Ho; [|discriminate]. intros [= <- Hu].
  destruct (env_Usage e) as [usage|] eqn:He; [|discriminate]. cbn [default] in Ht.
  by exists e, usage, input, output, cached, reasoning, left_input, left_output.
Qed.

(** C25: what the filter settles is a proper usage that bills every token once: the bases
    come in order, once each and only billed ones, no quantity is negative, and the
    parts billed apart (cached input, reasoning) together with the rest add up to the
    provider's own totals. *)
Theorem reported_usage_is_exact body required route l : parseUsage body required route = (l, true) ->
  proper_usage required l /\
  exists e usage input output cached reasoning, decode_envelope body = Some e /\ env_Usage e = Some usage /\
    token_counts (rt_Path route) usage = (input, output, cached, reasoning) /\
    (forall n, input = Some n -> ProviderBasisInputTokens ∈ required ->
       total [ProviderBasisInputTokens; ProviderBasisCachedInputTokens] l = n) /\
    (forall n, output = Some n -> ProviderBasisOutputTokens ∈ required ->
       total [ProviderBasisOutputTokens; ProviderBasisReasoningTokens] l = n).
Proof.
  intros (e & usage & input & output & cached & reasoning & li & lo & He & Hu & Ht & Hi & Ho & ->)%parseUsage_spec.
  pose proof (token_counts_nonneg (rt_Path route) usage) as Hn. rewrite Ht in Hn.
  repeat match goal with HF : Forall _ (_ :: _) |- _ => apply Forall_cons in HF as [? HF] end.
  set (calls := Z.of_nat _). split.
  - match goal with |- context [billed_quantities _ ?l] => set (counts := l) end.
    assert (Hd : NoDup counts.*1) by (by apply (bool_decide_unpack _)).
    assert (Hp : Forall (fun p : string * option Z => forall n, p.2 = Some n -> 0 <= n) counts).
    { repeat constructor; cbn [snd]; try done; [by eapply without_part_nonneg | by eapply without_part_nonneg | by intros ? [= <-]
      | intros ? [= <-]; unfold calls; lia]. }
    destruct (billed_proper required counts Hd Hp) as [Honce Hbilled]. split.
    + eapply (sort_slice_sorted _ (fun _ => True)); [..|by apply Forall_true]; intros; [by eapply string_ltb_negtrans | by apply string_ltb_asym].
    + by rewrite sort_slice_perm.
    + rewrite sort_slice_perm. eapply Forall_impl; [exact Hbilled|]. by intros u (? & ? & _).
  - exists e, usage, input, output, cached, reasoning. do 3 (split; [done|]).
    split; intros n -> Hb; rewrite (total_perm _ _ _ (sort_slice_perm _ _)), !total_billed, (bool_decide_eq_true_2 _ Hb : billed _ _ = true);
      repeat match goal with |- context [existsb ?f ?l] => let v := eval vm_compute in (existsb f l) in change (existsb f l) with v end;
      rewrite !andb_true_r, !andb_false_r; unfold total; cbn [billed_quantities List.filter map foldr omap list_omap].
    + apply without_part_total in Hi. lia.
    + apply without_part_total in Ho. lia.
Qed.
