(* ===== verification/ExtProcExample.v ===== *)
(** * A stream through the filter, the service and the ledger

    One request of the governed pod of ServerExample: its headers, its body, and the
    provider's response with its usage, over the in-memory engine; SHA-256 and HMAC
    are computed. The witnesses of the filter's theorems apply them to this stream. *)

From Stdlib Require Import ZArith Lia Ascii String.
From stdpp Require Import base gmap strings list pretty.
From S2P Require Import Prelude Digest GoTime Api Json JsonDecode Pricing Routes AdmissionPolicy Ledger LedgerProofs Cohorts Engine EngineProofs EngineInvariants EngineExample Wire Resources ChangeApproval Identity AdmissionServer AdmissionServerProofs AdmissionServerExample ExtProc ExtProcProofs.

Open Scope string_scope.
Open Scope list_scope.
Open Scope Z_scope.
Open Scope go_scope.

#[local] Existing Instance go_crypto.
#[local] Existing Instance RoutesExample.platform.

Module StreamExample.
Definition spiffe : string := "spiffe://govar.local/ns/team-a/pod/wl-1".
Definition gateway : string := "spiffe://govar.local/gateway".
Definition binding : RouteBinding := Build_RouteBinding "team-a" "red" "wl-1" "red" "chat" "budget-policy" "route-policy" false ["eu"].
Definition server : ExtProcServer := Build_ExtProcServer "" ServerExample.secret (<[spiffe := binding]> ∅) [gateway] false.
Definition contexts (n : nat) : ServerContext := ServerExample.context false.
Definition delivered (n : nat) : network := Delivered.

Definition certificate : string := "By=" +:+ gateway +:+ ";Hash=" +:+ sha256_hex "cert" +:+ ";URI=" +:+ spiffe.
Definition headers : ProcessingRequest :=
  RequestHeaders [("X-Request-Id", "req-1", ""); (":path", "/v1/chat/completions", ""); ("x-forwarded-client-cert", "", certificate)]%string.
Definition body : string :=
  jtext (JObject [("messages", JArray [JObject [("content", JString "a < b")]]); ("max_output_tokens", JNumber "500");
    ("max_tool_calls", JNumber "3"); ("model", JString "any")]%string).
Definition answer : string :=
  jtext (JObject [("choices", JArray [JObject [("message", JObject [("tool_calls", JArray [JNull; JNull])])]]);
    ("usage", JObject [("prompt_tokens", JNumber "800"); ("completion_tokens", JNumber "400");
       ("completion_tokens_details", JObject [("reasoning_tokens", JNumber "100")])])]%string).
Definition messages : list ProcessingRequest :=
  [headers; RequestBody body true; ResponseHeaders; ResponseBody answer true].

Definition start : world := (ServerExample.opened, 0%nat).
Definition finished : world * list ProcessingResponse * option error := Eval vm_compute in
  Process (service ServerExample.time_json contexts delivered) (service_clock contexts) None server start (Some [gateway]) messages.
End StreamExample.

Import StreamExample.

(** The stream is forwarded under its route with the cap rewritten, and its request ends
    finalized in the ledger. *)
Definition forwarded : RouteTarget * string := Eval vm_compute in
  match finished.1.2 with
  | [_; ContinueRequestBody (Some p); _; _] => p
  | _ => (zero_target, "")
  end.
Example stream_is_finalized : finished.2 = None /\
  forwarded.2 = jtext (JObject [("max_tokens", JNumber "500"); ("max_tool_calls", JNumber "3");
    ("messages", JArray [JObject [("content", JString "a < b")]]); ("model", JString "gpt-eu")]%string) /\
  (engine_reservations finished.1.1.1 !! "req-1" ≫= fun r => Some (res_State r)) = Some StateFinalized.
Proof. vm_compute. done. Qed.

(** Without a client certificate of the gateway there is no stream, without a record of
    the client's certificate no answer but a refusal, and without a bound no admission. *)
Example unverified_gateway_refused : Process (service ServerExample.time_json contexts delivered) (service_clock contexts) None server start None messages =
  (start, [], Some "verified Envoy client certificate is required"%string).
Proof. vm_compute. done. Qed.
Example unbounded_request_refused :
  (Process (service ServerExample.time_json contexts delivered) (service_clock contexts) None server start (Some [gateway])
    [headers; RequestBody "{}" true]).1.2 = [ContinueRequestHeaders; Immediate 403 "max_output_tokens must be a positive exact JSON integer"].
Proof. vm_compute. done. Qed.

(** The usage of the responses API names no choices: its tool calls count as none. A count
    that is [null] counts as zero. *)
Definition responses_route : RouteTarget := Build_RouteTarget "gpt-fr" "gpt-eu" "" "" openai_body "/v1/responses" "".
Example responses_report_no_tool_calls :
  parseUsage (jtext (JObject [("output", JArray [JObject [("type", JString "function_call")]]); ("usage", JObject [("input_tokens", JNumber "5")])]%string))
    [ProviderBasisToolCall; ProviderBasisInputTokens] responses_route =
  ([Build_UsageQuantity ProviderBasisInputTokens 5; Build_UsageQuantity ProviderBasisToolCall 0], true).
Proof. vm_compute. done. Qed.
Example null_counts_as_zero :
  parseUsage (jtext (JObject [("usage", JObject [("input_tokens", JNull)])]%string)) [ProviderBasisInputTokens] responses_route =
  ([Build_UsageQuantity ProviderBasisInputTokens 0], true).
Proof. vm_compute. done. Qed.

(** *** Witnesses *)

Lemma finished_process : Process (service ServerExample.time_json contexts delivered) (service_clock contexts) None server start (Some [gateway]) messages = finished.
Proof. vm_compute. reflexivity. Qed.
Lemma forwarded_in_finished : ContinueRequestBody (Some (forwarded.1, forwarded.2)) ∈ finished.1.2.
Proof. right. left. Qed.

Lemma forwarded_requests_are_claimed_witness : exists st, st_route st = forwarded.1 /\ st_requestBody st = forwarded.2 /\
  (identified st = true -> claimed_stream finished.1.1.1 st).
Proof.
  destruct (forwarded_requests_are_claimed ServerExample.time_json contexts delivered None server start (Some [gateway]) messages
    finished.1.1 finished.1.2 finished.2 forwarded.1 forwarded.2 opened_reachable eq_refl finished_process forwarded_in_finished)
    as (uri & before & after & msg & w1 & w2 & st & st' & out1 & _ & [_ _ _ (_ & E1 & E2) _ Hkept]).
  exists st'. split; [exact E1|]. split; [exact E2|]. exact (cl_recorded _ _ _ Hkept).
Defined.

(** The stream as it is admitted, and the service's answer. *)
Definition opened_stream : streamState := Eval vm_compute in
  new_stream <| st_headers := headerMap [("X-Request-Id", "req-1", ""); (":path", "/v1/chat/completions", "")]%string |>
             <| st_binding := binding |> <| st_requestBody := body |>.
Definition asked : streamState * jvalue := Eval vm_compute in result_or (opened_stream, JNull) (admission_of opened_stream).
Definition granted : admitResult := Eval vm_compute in
  result_or zero_admit_result
    (let? text := (post (service ServerExample.time_json contexts delivered) (service_clock contexts) server start binding admit_path asked.2).2 in
     decode_admit_result text).
Definition routed_stream : streamState := Eval vm_compute in result_or opened_stream (admitted_stream asked.1 granted).

Lemma forwarded_output_is_admitted_witness :
  exists payload members field bound bounds, decodeJSONObject body = Some payload /\
    asked.2 = admit_json asked.1 bound bounds /\ 0 < bound /\
    providerOutputCapField (rt_PathMode (st_route routed_stream)) (header_of asked.1 ":path") = Ok field /\
    rewritten payload members field (st_route routed_stream) /\ exactNonNegativeInt64Field members field true = Ok bound /\
    st_requestBody routed_stream = marshal_raw members.
Proof.
  apply (forwarded_output_is_admitted opened_stream asked.1 asked.2 granted routed_stream); vm_compute; reflexivity.
Defined.

Definition reported : list UsageQuantity := Eval vm_compute in (parseUsage answer (st_settlementBases routed_stream) (st_route routed_stream)).1.
Lemma reported_usage_is_exact_witness : proper_usage (st_settlementBases routed_stream) reported.
Proof.
  apply (reported_usage_is_exact answer (st_settlementBases routed_stream) (st_route routed_stream) reported). vm_compute. reflexivity.
Defined.
