(* ===== verification/Placement.v ===== *)
(** * Attested placement

    [internal/scheduler]: the scheduler that binds a pod only to a node with valid
    attestation evidence, and [internal/placement]. The API server is a cluster
    state; the reads of one phase see one state, different phases may see different
    ones, because others write in between. What the scheduler writes is returned in
    order. The clock readings of a phase are arguments. *)

From Stdlib Require Import ZArith Lia Ascii String SpecFloat.
From stdpp Require Import base gmap strings list pretty sorting.
From S2P Require Import Prelude Float64 Digest GoTime Json JsonDecode PlatformCrypto Tokens.

Open Scope string_scope.
Open Scope list_scope.
Open Scope Z_scope.
Open Scope go_scope.

(** ** [internal/placement] *)

Record PlacementEvidence : Type := Build_PlacementEvidence {
  pe_TEE : string; pe_AgeSeconds : Z; pe_Revoked : bool; pe_RuntimeClassName : string
}.
Record PlacementPolicy : Type := Build_PlacementPolicy {
  pp_AllowedTEEs : list string; pp_MaxEvidenceAgeSeconds : Z; pp_RequiredRuntimeClass : string
}.
Record PlacementVerdict : Type := Build_PlacementVerdict {
  pv_Allow : bool; pv_Reason : string; pv_Score : Z; pv_Runtime : string
}.
Definition refusal (reason : string) : PlacementVerdict := Build_PlacementVerdict false reason 0 "".

(** The arithmetic of [int32]. *)
Definition freshness_score (maxAge age : Z) : Z :=
  if (0 <? maxAge) && (0 <? age) then
    let score := 100 - Z.quot (wrap32 (100 * age)) maxAge in
    if score <? 1 then 1 else score
  else 100.

Definition EvaluatePlacement (policy : PlacementPolicy) (evidence : PlacementEvidence) : PlacementVerdict :=
  if pe_Revoked evidence then refusal "evidence revoked"
  else if (0 <? pp_MaxEvidenceAgeSeconds policy) && (pp_MaxEvidenceAgeSeconds policy <? pe_AgeSeconds evidence)
  then refusal "evidence expired"
  else if (0 <? Z.of_nat (length (pp_AllowedTEEs policy)))
          && negb (existsb (fun tee => EqualFold (TrimSpace tee) (TrimSpace (pe_TEE evidence))) (pp_AllowedTEEs policy))
  then refusal "TEE not allowed"
  else if negb (String.eqb (pp_RequiredRuntimeClass policy) "")
          && negb (String.eqb (pp_RequiredRuntimeClass policy) (pe_RuntimeClassName evidence))
  then refusal "runtime class mismatch"
  else Build_PlacementVerdict true "placement allowed" (freshness_score (pp_MaxEvidenceAgeSeconds policy) (pe_AgeSeconds evidence))
         (pe_RuntimeClassName evidence).

(** ** Kubernetes objects, as far as the scheduler reads them *)

Abbreviation labels := (gmap string string).

(** What the scheduler uses of the Kubernetes libraries: label selectors,
    tolerations, and the JSON encoding of the specifications it hashes. *)
Class Kubernetes : Type := {
  LabelSelector : Type;
  Toleration : Type;
  PodSpec : Type;
  selector_matches : LabelSelector -> labels -> option bool;
  set_matches : labels -> labels -> bool;
  ToleratesTaint : Toleration -> string * string * string -> bool;
  marshal_pod_spec : PodSpec -> result string
}.

Definition TaintEffectNoSchedule : string := "NoSchedule".
Definition TaintEffectNoExecute : string := "NoExecute".
Definition SchedulerName : string := "ai-attestation-scheduler".
Definition PlacementTokenAnnotation : string := "ai.sovereign.io/placement-token".
Definition model_digest_annotation : string := "ai.sovereign.io/model-digest".
Definition policy_hash_annotation : string := "ai.sovereign.io/policy-hash".
Definition evidence_age_annotation : string := "ai.sovereign.io/expected-evidence-age-seconds".

(** A taint: key, value and effect. *)
Definition taint_effect (t : string * string * string) : string := t.2.

Record ObjectReference : Type := Build_ObjectReference { ref_Name : string; ref_Namespace : string }.

Section objects.
Context `{Kubernetes}.

Record Pod : Type := Build_Pod {
  pod_Name : string;
  pod_Namespace : string;
  pod_UID : string;
  pod_Labels : labels;
  pod_Annotations : labels;
  pod_NodeName : string;
  pod_NodeSelector : labels;
  pod_RuntimeClassName : option string;
  pod_Tolerations : list Toleration;
  pod_Images : list string;
  pod_Spec : PodSpec
}.
Record Node : Type := Build_Node {
  node_Name : string;
  node_Labels : labels;
  node_Unschedulable : bool;
  node_Taints : list (string * string * string)
}.
Record Scheduling : Type := Build_Scheduling { sch_NodeSelector : labels; sch_Tolerations : list Toleration }.
(** [pol_Spec] and [ev_Object] are the JSON texts of the specification, and of the
    specification and the status, that are hashed. *)
Record ConfidentialPolicy : Type := Build_ConfidentialPolicy {
  pol_Name : string;
  pol_Namespace : string;
  pol_NamespaceSelector : option LabelSelector;
  pol_WorkloadSelector : option LabelSelector;
  pol_RequiredTEE : list string;
  pol_MaxEvidenceAgeSeconds : Z;
  pol_Spec : result string
}.
Record AttestationEvidence : Type := Build_AttestationEvidence {
  ev_Name : string;
  ev_Namespace : string;
  ev_Subject : string;
  ev_TEE : string;
  ev_Simulated : bool;
  ev_Verified : bool;
  ev_Revoked : bool;
  ev_LastVerifiedTime : option Time;
  ev_Object : result string
}.
Record PlacementDecision : Type := Build_Decision {
  dec_Name : string;
  dec_Namespace : string;
  dec_PodLabel : string;
  dec_Annotations : labels;
  dec_TargetRef : ObjectReference;
  dec_PolicyRef : ObjectReference;
  dec_EvidenceRef : option ObjectReference;
  dec_SchedulerName : string;
  dec_Decision : string;
  dec_NodeName : string;
  dec_TokenDigest : string;
  dec_Simulated : bool
}.

(** The state of the API server, and whether it answers. *)
Record Cluster : Type := Build_Cluster {
  cl_Reachable : bool;
  cl_Namespaces : gmap string labels;
  cl_RuntimeClasses : gmap string (option Scheduling);
  cl_Policies : list ConfidentialPolicy;
  cl_Evidence : list AttestationEvidence;
  cl_Nodes : list Node;
  cl_Pods : list Pod;
  cl_Decisions : list PlacementDecision
}.
Definition api_error : error := "the server could not be reached".
Definition not_found : error := "not found".

Definition get_pod (c : Cluster) (name namespace : string) : result Pod :=
  if negb (cl_Reachable c) then Err api_error
  else match List.find (fun p => String.eqb (pod_Name p) name && String.eqb (pod_Namespace p) namespace) (cl_Pods c) with
       | Some p => Ok p | None => Err not_found end.
Definition get_policy (c : Cluster) (name namespace : string) : result ConfidentialPolicy :=
  if negb (cl_Reachable c) then Err api_error
  else match List.find (fun p => String.eqb (pol_Name p) name && String.eqb (pol_Namespace p) namespace) (cl_Policies c) with
       | Some p => Ok p | None => Err not_found end.
Definition get_evidence (c : Cluster) (name namespace : string) : result AttestationEvidence :=
  if negb (cl_Reachable c) then Err api_error
  else match List.find (fun e => String.eqb (ev_Name e) name && String.eqb (ev_Namespace e) namespace) (cl_Evidence c) with
       | Some e => Ok e | None => Err not_found end.

(** ** PreFilter *)

Definition matches_selector (s : option LabelSelector) (l : labels) : bool :=
  match s with
  | None => true
  | Some s => match selector_matches s l with Some b => b | None => false end
  end.
Definition policyMatchesPod (policy : ConfidentialPolicy) (ns : labels) (pod : Pod) : bool :=
  matches_selector (pol_NamespaceSelector policy) ns && matches_selector (pol_WorkloadSelector policy) (pod_Labels pod).

Definition preFilter (c : Cluster) (pod : Pod) : result (option ConfidentialPolicy) :=
  if negb (cl_Reachable c) then Err ("read namespace " +:+ Quote (pod_Namespace pod) +:+ ": " +:+ api_error)
  else match cl_Namespaces c !! pod_Namespace pod with
  | None => Err ("read namespace " +:+ Quote (pod_Namespace pod) +:+ ": " +:+ not_found)
  | Some ns =>
    Ok (List.find (fun policy => String.eqb (pol_Namespace policy) (pod_Namespace pod) && policyMatchesPod policy ns pod) (cl_Policies c))
  end.

(** ** Filter *)

Definition runtimeClassScheduling (c : Cluster) (pod : Pod) : result (option Scheduling) :=
  match pod_RuntimeClassName pod with
  | None => Ok None
  | Some name =>
    if blank name then Ok None
    else if negb (cl_Reachable c) then Err ("read RuntimeClass " +:+ Quote (TrimSpace name) +:+ ": " +:+ api_error)
    else match cl_RuntimeClasses c !! TrimSpace name with
    | None => Err ("read RuntimeClass " +:+ Quote (TrimSpace name) +:+ ": " +:+ not_found)
    | Some scheduling => Ok scheduling
    end
  end.

Definition selects (selector : labels) (l : labels) : bool := bool_decide (selector = ∅) || set_matches selector l.
Definition tolerated (pod : Pod) (runtime : option Scheduling) (taint : string * string * string) : bool :=
  existsb (fun t => ToleratesTaint t taint) (pod_Tolerations pod)
  || match runtime with Some s => existsb (fun t => ToleratesTaint t taint) (sch_Tolerations s) | None => false end.
Definition podMatchesNodeConstraints (pod : Pod) (node : Node) (runtime : option Scheduling) : bool :=
  (String.eqb (pod_NodeName pod) "" || String.eqb (pod_NodeName pod) (node_Name node))
  && selects (pod_NodeSelector pod) (node_Labels node)
  && match runtime with Some s => selects (sch_NodeSelector s) (node_Labels node) | None => true end
  && forallb (fun taint =>
       negb (String.eqb (taint_effect taint) TaintEffectNoSchedule || String.eqb (taint_effect taint) TaintEffectNoExecute)
       || tolerated pod runtime taint) (node_Taints node).

Definition teeMatches (nodeTEE : string) (required : list string) : bool :=
  existsb (fun req => String.eqb (ToUpper (TrimSpace req)) (ToUpper (TrimSpace nodeTEE))) required.

Definition evidence_fresh (now : Time) (policy : option ConfidentialPolicy) (ev : AttestationEvidence) : bool :=
  match policy, ev_LastVerifiedTime ev with
  | Some p, Some t =>
    negb ((0 <? pol_MaxEvidenceAgeSeconds p) && (pol_MaxEvidenceAgeSeconds p * Second <? time_sub now t))
  | _, _ => true
  end.
Definition evidence_tee (policy : option ConfidentialPolicy) (ev : AttestationEvidence) : bool :=
  match policy with
  | Some p => (Z.of_nat (length (pol_RequiredTEE p)) =? 0) || teeMatches (ev_TEE ev) (pol_RequiredTEE p)
  | None => true
  end.
(** The checks of one evidence object of the node. *)
Definition evidence_valid (now : Time) (policy : option ConfidentialPolicy) (node : Node) (ev : AttestationEvidence) : bool :=
  String.eqb (ev_Subject ev) (node_Name node) && negb (ev_Revoked ev) && ev_Verified ev && evidence_fresh now policy ev
  && evidence_tee policy ev.
Definition nodeHasValidEvidence (c : Cluster) (now : Time) (node : Node) (policy : option ConfidentialPolicy)
    : option AttestationEvidence :=
  if cl_Reachable c then List.find (evidence_valid now policy node) (cl_Evidence c) else None.

Record NodeCandidate : Type := Build_NodeCandidate { nc_Node : Node; nc_Evidence : AttestationEvidence; nc_Score : Z }.

Definition filter (c : Cluster) (now : Time) (pod : Pod) (policy : option ConfidentialPolicy) (nodes : list Node)
    : result (list NodeCandidate) :=
  match runtimeClassScheduling c pod with
  | Err m => Err m
  | Ok runtime =>
    Ok (omap (fun node =>
      if node_Unschedulable node || negb (podMatchesNodeConstraints pod node runtime) then None
      else ev ← nodeHasValidEvidence c now node policy; Some (Build_NodeCandidate node ev 0)) nodes)
  end.

(** ** Permit *)

(** One poll: the state it reads, the clock of the evidence check and of the
    deadline check. The list ends when the context is done. *)
Record poll : Type := Build_poll { poll_Cluster : Cluster; poll_Now : Time; poll_After : Time }.
Definition context_done : error := "context canceled".

Fixpoint permit_loop (deadline : Time) (pod : Pod) (policy : option ConfidentialPolicy) (nodes : list Node) (polls : list poll)
    : result (list NodeCandidate) :=
  match polls with
  | [] => Err context_done
  | p :: rest =>
    match filter (poll_Cluster p) (poll_Now p) pod policy nodes with
    | Err m => Err m
    | Ok (candidate :: candidates) => Ok (candidate :: candidates)
    | Ok [] =>
      if After (poll_After p) deadline then Err "timed out waiting for valid attestation evidence"
      else permit_loop deadline pod policy nodes rest
    end
  end.
Definition permit (timeout : Duration) (start : Time) (pod : Pod) (policy : option ConfidentialPolicy) (nodes : list Node)
    (polls : list poll) : result (list NodeCandidate) :=
  if timeout <=? 0 then Ok [] else permit_loop (time_add start timeout) pod policy nodes polls.

(** ** Score *)

Definition freshness_bonus (now : Time) (maxAgeSeconds : Z) (verified : Time) : Z :=
  let fraction := Float.sub (Float.of_Z 1) (Float.div (Float.of_Z (time_sub now verified)) (Float.of_Z (maxAgeSeconds * Second))) in
  let fraction := if SFltb fraction (Float.of_Z 0) then Float.of_Z 0 else fraction in
  Float.trunc (Float.mul fraction (Float.of_Z 50)).
Definition tee_bonus (tee : string) : Z :=
  let t := ToUpper tee in
  if String.eqb t "TDX" then 10 else if String.eqb t "SEV-SNP" || String.eqb t "SEV_SNP" then 5 else 0.
Definition candidate_score (now : Time) (policy : option ConfidentialPolicy) (ev : AttestationEvidence) : Z :=
  100
  + match ev_LastVerifiedTime ev, policy with
    | Some t, Some p => if 0 <? pol_MaxEvidenceAgeSeconds p then freshness_bonus now (pol_MaxEvidenceAgeSeconds p) t else 0
    | _, _ => 0
    end
  + (if ev_Simulated ev then 0 else 20) + tee_bonus (ev_TEE ev).
(** The clock is read once for all candidates. *)
Definition score (now : Time) (policy : option ConfidentialPolicy) (candidates : list NodeCandidate) : list NodeCandidate :=
  map (fun c => Build_NodeCandidate (nc_Node c) (nc_Evidence c) (candidate_score now policy (nc_Evidence c))) candidates.
Definition by_score (a b : NodeCandidate) : bool := nc_Score b <? nc_Score a.

(** ** Reserve *)

Context `{Crypto} `{Ed25519}.
Context (float_text : string -> string).

Definition evidenceHashForPlacement (ev : AttestationEvidence) : result string := CanonicalSHA256Hex float_text (ev_Object ev).

Definition stored_among (c : Cluster) (d : PlacementDecision) : option PlacementDecision :=
  List.find (fun x => String.eqb (dec_Name x) (dec_Name d) && String.eqb (dec_Namespace x) (dec_Namespace d)) (cl_Decisions c).

(** [createOrUpdatePlacementDecision]: the object it sends, the existing one changed by
    [mutate] if there is one. *)
Definition createOrUpdatePlacementDecision (c : Cluster) (decision : PlacementDecision) (mutate : PlacementDecision -> PlacementDecision) : result PlacementDecision :=
  if negb (cl_Reachable c) then Err api_error
  else match stored_among c decision with
  | None => Ok (mutate decision)
  | Some existing => Ok (mutate existing)
  end.

(** What the API server keeps of the object it is sent. The status is a subresource of the
    CRD and the scheduler writes through [Create] and [Update]: the metadata and the spec
    are those of the object, and the status is what the server had, none for a new one. *)
Definition persisted (c : Cluster) (d : PlacementDecision) : PlacementDecision :=
  let status {A} (f : PlacementDecision -> A) (zero : A) := match stored_among c d with Some old => f old | None => zero end in
  Build_Decision (dec_Name d) (dec_Namespace d) (dec_PodLabel d) (dec_Annotations d) (dec_TargetRef d) (dec_PolicyRef d)
    (dec_EvidenceRef d) (dec_SchedulerName d) (status dec_Decision ""%string) (status dec_NodeName ""%string)
    (status dec_TokenDigest ""%string) (status dec_Simulated false).

Definition decisionName (pod : Pod) : string := String.substring 0 63 (pod_Name pod +:+ "-" +:+ pod_Namespace pod).
Definition no_ref : ObjectReference := Build_ObjectReference "" "".
Definition new_decision (pod : Pod) : PlacementDecision :=
  Build_Decision (decisionName pod) (pod_Namespace pod) (pod_Name pod) ∅ no_ref no_ref None "" "" "" "" false.

Definition applyBaseDecision (pod : Pod) (policy : option ConfidentialPolicy) (selected : NodeCandidate) (d : PlacementDecision) : PlacementDecision :=
  let ev := nc_Evidence selected in
  Build_Decision (dec_Name d) (dec_Namespace d) (dec_PodLabel d) (dec_Annotations d)
    (Build_ObjectReference (pod_Name pod) (pod_Namespace pod))
    (match policy with Some p => Build_ObjectReference (pol_Name p) (pol_Namespace p) | None => dec_PolicyRef d end)
    (Some (Build_ObjectReference (ev_Name ev) (ev_Namespace ev))) SchedulerName (dec_Decision d) (node_Name (nc_Node selected))
    (dec_TokenDigest d) (ev_Simulated ev).
Definition set_verdict (verdict digest : string) (annotations : labels) (d : PlacementDecision) : PlacementDecision :=
  Build_Decision (dec_Name d) (dec_Namespace d) (dec_PodLabel d) annotations (dec_TargetRef d) (dec_PolicyRef d) (dec_EvidenceRef d)
    (dec_SchedulerName d) verdict (dec_NodeName d) digest (dec_Simulated d).
Definition without_token (verdict : string) (d : PlacementDecision) : PlacementDecision :=
  set_verdict verdict "" (delete PlacementTokenAnnotation (dec_Annotations d)) d.
Definition with_token (token digest : string) (d : PlacementDecision) : PlacementDecision :=
  set_verdict "allow" digest
    (if String.eqb token "" then dec_Annotations d else <[PlacementTokenAnnotation := token]> (dec_Annotations d)) d.

(** *** PreBind *)

(** [fmt.Sscan] into an [int]: a sign, a base prefix, and the digits that follow, which
    underscores may separate. The value of the token from [s] on; [after] says that a
    digit or the prefix is just before it, [any] that there was a digit. *)
Fixpoint radix_value (base : N) (after any : bool) (acc : Z) (s : string) : option Z :=
  let ends := if after && any then Some acc else None in
  match s with
  | String c s' =>
    if is_byte 95 c then if after then radix_value base false any acc s' else None
    else match unhex_digit c with
    | Some d => if (d <? base)%N then radix_value base true true (acc * Z.of_N base + Z.of_N d) s' else ends
    | None => ends
    end
  | EmptyString => ends
  end.
Definition scan_unsigned (s : string) : option Z :=
  match s with
  | String z rest =>
    if is_byte 48 z then
      match rest with
      | String x digits =>
        if is_byte 98 x || is_byte 66 x then radix_value 2 true false 0 digits
        else if is_byte 111 x || is_byte 79 x then radix_value 8 true false 0 digits
        else if is_byte 120 x || is_byte 88 x then radix_value 16 true false 0 digits
        else radix_value 8 true true 0 rest
      | EmptyString => Some 0
      end
    else radix_value 10 false false 0 s
  | EmptyString => None
  end.
Definition scan_int (s : string) : option Z :=
  let '(neg, s) := match s with
    | String c r => if is_byte 45 c then (true, r) else if is_byte 43 c then (false, r) else (false, s)
    | EmptyString => (false, s)
    end in
  n ← scan_unsigned s; let z := if neg : bool then - n else n in if is_int64 z then Some z else None.

Definition annotation (pod : Pod) (key : string) : string := default ""%string (pod_Annotations pod !! key).
(** The maximal age a pod asks for; zero is none. *)
Definition expected_max_age (pod : Pod) : Duration :=
  match scan_int (TrimSpace (annotation pod evidence_age_annotation)) with
  | Some secs => if 0 <? secs then mul64 secs Second else 0
  | None => 0
  end.

Definition preBind_policy (c : Cluster) (pod : Pod) (ref : ObjectReference) : option error :=
  if String.eqb (ref_Name ref) "" then None
  else match get_policy c (ref_Name ref) (ref_Namespace ref) with
  | Err m => Some ("read policy before bind: " +:+ m)
  | Ok policy =>
    let expected := TrimSpace (annotation pod policy_hash_annotation) in
    if String.eqb expected "" then Some "missing policy hash before bind"
    else match CanonicalSHA256Hex float_text (pol_Spec policy) with
    | Err m => Some ("hash policy before bind: " +:+ m)
    | Ok current => if negb (String.eqb current expected) then Some "policy hash mismatch before bind" else None
    end
  end.

Definition preBind_evidence (c : Cluster) (now : Time) (pod : Pod) (selected : NodeCandidate) (ref : ObjectReference) : option error :=
  match get_evidence c (ref_Name ref) (ref_Namespace ref) with
  | Err m => Some ("read evidence before bind: " +:+ m)
  | Ok evidence =>
    if ev_Revoked evidence then Some "evidence revoked before bind"
    else match evidenceHashForPlacement evidence, evidenceHashForPlacement (nc_Evidence selected) with
    | Err m, _ => Some ("hash evidence before bind: " +:+ m)
    | _, Err m => Some ("hash selected evidence before bind: " +:+ m)
    | Ok current, Ok chosen =>
      if negb (String.eqb current chosen) then Some "evidence hash mismatch before bind"
      else match ev_LastVerifiedTime evidence with
      | Some t => if (0 <? expected_max_age pod) && (expected_max_age pod <? time_sub now t) then Some "evidence expired before bind" else None
      | None => None
      end
    end
  end.

Definition preBind (c : Cluster) (now : Time) (pod : Pod) (decision : PlacementDecision) (selected : NodeCandidate) : option error :=
  match get_pod c (pod_Name pod) (pod_Namespace pod) with
  | Err m => Some ("read pod before bind: " +:+ m)
  | Ok latest =>
    match preBind_policy c latest (dec_PolicyRef decision) with
    | Some e => Some e
    | None => match dec_EvidenceRef decision with Some ref => preBind_evidence c now latest selected ref | None => None end
    end
  end.

(** What the scheduler writes. *)
Inductive api_write : Type :=
| WriteDecision (d : PlacementDecision)
| WriteBinding (podName podNamespace nodeName : string).

(** The states the phases see, and the clock where they read it. *)
Record schedule_run : Type := Build_schedule_run {
  run_Prefilter : Cluster;
  run_Nodes : Cluster;
  run_Filter : Cluster; run_FilterNow : Time;
  run_PermitStart : Time; run_Polls : list poll;
  run_ScoreNow : Time;
  run_Pending : Cluster;
  run_Cancelled : bool;
  run_PreBind : Cluster; run_PreBindNow : Time;
  run_Deny : Cluster;
  run_MintNow : Time;
  run_Final : Cluster;
  run_Bind : option error
}.

Record Scheduler : Type := Build_Scheduler { s_SigningKey : option private_key; s_TokenTTL : Duration; s_PermitTimeout : Duration; s_PreBindDelay : Duration }.
Definition New (signingKey : option private_key) (tokenTTL : Duration) : Scheduler :=
  Build_Scheduler signingKey (if tokenTTL <=? 0 then 5 * Minute else tokenTTL) (15 * Second) 0.
Definition SetPreBindDelay (s : Scheduler) (delay : Duration) : Scheduler :=
  Build_Scheduler (s_SigningKey s) (s_TokenTTL s) (s_PermitTimeout s) (if delay <? 0 then 0 else delay).

Definition mint_for (s : Scheduler) (now : Time) (pod : Pod) (selected : NodeCandidate) (podSpecHash policyHash evidenceHash : string)
    : result string :=
  match s_SigningKey s with
  | None => Ok ""%string
  | Some key =>
    match Mint now (Some key) (pod_UID pod) podSpecHash (default ""%string (head (pod_Images pod))) (annotation pod model_digest_annotation)
            (node_Name (nc_Node selected)) (default ""%string (pod_RuntimeClassName pod)) evidenceHash policyHash (s_TokenTTL s)
            (Build_MintOptions "" "") with
    | Err m => Err ("mint placement token: " +:+ m)
    | Ok tok => Ok (Encode tok)
    end
  end.

(** [reserveTimed]: the writes, and the token or the error. *)
Definition reserve (s : Scheduler) (r : schedule_run) (pod : Pod) (policy : option ConfidentialPolicy) (selected : NodeCandidate)
    : list api_write * result string :=
  match CanonicalSHA256Hex float_text (marshal_pod_spec (pod_Spec pod)),
        (match policy with Some p => CanonicalSHA256Hex float_text (pol_Spec p) | None => Ok ""%string end),
        evidenceHashForPlacement (nc_Evidence selected) with
  | Err m, _, _ => ([], Err ("hash pod spec: " +:+ m))
  | _, Err m, _ => ([], Err ("hash policy spec: " +:+ m))
  | _, _, Err m => ([], Err ("hash evidence: " +:+ m))
  | Ok podSpecHash, Ok policyHash, Ok evidenceHash =>
    let base := applyBaseDecision pod policy selected in
    match createOrUpdatePlacementDecision (run_Pending r) (new_decision pod) (fun d => without_token "pending" (base d)) with
    | Err m => ([], Err ("upsert pending AIPlacementDecision: " +:+ m))
    | Ok decision =>
      if (0 <? s_PreBindDelay s) && run_Cancelled r then ([WriteDecision decision], Err context_done)
      else match preBind (run_PreBind r) (run_PreBindNow r) pod decision selected with
      | Some e =>
        (WriteDecision decision
         :: match createOrUpdatePlacementDecision (run_Deny r) decision (fun d => without_token "deny" (base d)) with
            | Ok d => [WriteDecision d] | Err _ => [] end,
         Err ("prebind: " +:+ e))
      | None =>
        match mint_for s (run_MintNow r) pod selected podSpecHash policyHash evidenceHash with
        | Err m => ([WriteDecision decision], Err m)
        | Ok token =>
          match createOrUpdatePlacementDecision (run_Final r) decision (fun d => with_token token (sha256_hex token) (base d)) with
          | Err m => ([WriteDecision decision], Err ("finalize AIPlacementDecision: " +:+ m))
          | Ok final => ([WriteDecision decision; WriteDecision final], Ok token)
          end
        end
      end
    end
  end.

(** [SchedulePod]: the writes, and the error. *)
Definition SchedulePod (s : Scheduler) (r : schedule_run) (pod : Pod) : list api_write * option error :=
  match preFilter (run_Prefilter r) pod with
  | Err m => ([], Some ("prefilter: " +:+ m))
  | Ok policy =>
    if negb (cl_Reachable (run_Nodes r)) then ([], Some ("list nodes: " +:+ api_error))
    else
      let nodes := cl_Nodes (run_Nodes r) in
      match filter (run_Filter r) (run_FilterNow r) pod policy nodes with
      | Err m => ([], Some ("filter: " +:+ m))
      | Ok candidates =>
        match (match candidates with
               | [] => match permit (s_PermitTimeout s) (run_PermitStart r) pod policy nodes (run_Polls r) with
                       | Err m => Err ("permit: " +:+ m) | Ok l => Ok l end
               | _ => Ok candidates
               end) with
        | Err m => ([], Some m)
        | Ok candidates =>
          match sort_slice by_score (score (run_ScoreNow r) policy candidates) with
          | [] => ([], Some ("no suitable node with valid AttestationEvidence for pod " +:+ pod_Namespace pod +:+ "/" +:+ pod_Name pod))
          | selected :: _ =>
            match reserve s r pod policy selected with
            | (writes, Err m) => (writes, Some ("reserve: " +:+ m))
            | (writes, Ok _) =>
              match run_Bind r with
              | Some m => (writes, Some ("bind: " +:+ m))
              | None => (writes ++ [WriteBinding (pod_Name pod) (pod_Namespace pod) (node_Name (nc_Node selected))], None)
              end
            end
          end
        end
      end
  end.
End objects.
