(* ===== verification/PlacementProofs.v ===== *)
(** * Theorems about attested placement

    A pod is bound only to a node whose evidence was valid when it was chosen and
    unchanged when it was bound; an allowing decision carries a token that verifies
    for the pod, the node and the evidence; the wait for evidence ends. *)

From Stdlib Require Import ZArith Lia Ascii String SpecFloat.
From stdpp Require Import base gmap strings list pretty sorting.
From S2P Require Import Prelude Float64 Digest GoTime Json JsonDecode PlatformCrypto Tokens KeyRelease Placement.

Open Scope string_scope.
Open Scope list_scope.
Open Scope Z_scope.
Open Scope go_scope.

Section selection.
Context `{Kubernetes}.

(** The node is eligible, and the state shows valid evidence for it. *)
Definition attested_at (c : Cluster) (now : Time) (policy : option ConfidentialPolicy) (nodes : list Node) (n : NodeCandidate) : Prop :=
  nc_Node n ∈ nodes /\ node_Unschedulable (nc_Node n) = false /\ nc_Evidence n ∈ cl_Evidence c /\
  evidence_valid now policy (nc_Node n) (nc_Evidence n) = true.

Lemma filter_spec c now pod policy nodes l n : filter c now pod policy nodes = Ok l -> n ∈ l -> attested_at c now policy nodes n.
Proof.
  unfold filter. destruct (runtimeClassScheduling c pod) as [rt|]; [|discriminate]. intros E. injection E as <-.
  intros (node & Hin & Hn)%list_elem_of_omap. destruct (node_Unschedulable node) eqn:Hu; [discriminate|].
  destruct (podMatchesNodeConstraints _ _ _); [|discriminate]. cbn [orb negb] in Hn. unfold nodeHasValidEvidence in Hn.
  destruct (cl_Reachable c); [|discriminate]. destruct (List.find _ _) as [ev|] eqn:Ef; [|discriminate]. injection Hn as <-.
  apply List.find_some in Ef as [Hev Hv]. apply list_elem_of_In in Hev. done.
Qed.

(** The states in which the candidates may have been found. *)
Definition found_in (r : schedule_run) (policy : option ConfidentialPolicy) (nodes : list Node) (n : NodeCandidate) : Prop :=
  attested_at (run_Filter r) (run_FilterNow r) policy nodes n \/
  exists p, p ∈ run_Polls r /\ attested_at (poll_Cluster p) (poll_Now p) policy nodes n.

Lemma permit_loop_spec deadline pod policy nodes polls l n : permit_loop deadline pod policy nodes polls = Ok l -> n ∈ l ->
  exists p, p ∈ polls /\ attested_at (poll_Cluster p) (poll_Now p) policy nodes n.
Proof.
  induction polls as [|p polls IH]; [discriminate|]. cbn [permit_loop].
  destruct (filter _ _ _ _ _) as [[|c cs]|] eqn:Ef; [|intros E Hn; injection E as <-|discriminate].
  - destruct (After _ _); [discriminate|]. intros E Hn. destruct (IH E Hn) as (q & Hq & Ha). exists q. split; [by right | done].
  - exists p. split; [by left | by eapply filter_spec].
Qed.

Lemma permit_spec timeout start pod policy nodes polls l n : permit timeout start pod policy nodes polls = Ok l -> n ∈ l ->
  exists p, p ∈ polls /\ attested_at (poll_Cluster p) (poll_Now p) policy nodes n.
Proof.
  unfold permit. destruct (_ <=? _); [intros E Hn; injection E as <-; by apply not_elem_of_nil in Hn | apply permit_loop_spec].
Qed.

Lemma score_attested c now policy nodes l n at_ : n ∈ score at_ policy l ->
  (forall m, m ∈ l -> attested_at c now policy nodes m) -> attested_at c now policy nodes n.
Proof. unfold score. intros (m & -> & Hm)%list_elem_of_fmap Hl. exact (Hl m Hm). Qed.

Definition permit_answers (pod : Pod) (policy : option ConfidentialPolicy) (nodes : list Node) (polls : list poll)
    (answer : result (list NodeCandidate)) : Prop :=
  (exists candidates, answer = Ok candidates /\ candidates <> []) \/
  answer = Err "timed out waiting for valid attestation evidence" \/
  (exists p m, p ∈ polls /\ filter (poll_Cluster p) (poll_Now p) pod policy nodes = Err m /\ answer = Err m).

Lemma permit_loop_ends interval deadline pod policy nodes polls : forall start,
  (forall i p, polls !! i = Some p -> start + Z.of_nat i * interval <= poll_After p) -> 0 < interval ->
  deadline < start + (Z.of_nat (length polls) - 1) * interval -> polls <> [] ->
  permit_answers pod policy nodes polls (permit_loop deadline pod policy nodes polls).
Proof.
  induction polls as [|p polls IH]; intros start Ht Hi Hd Hne; [done|]. cbn [permit_loop]. unfold permit_answers.
  destruct (filter (poll_Cluster p) (poll_Now p) pod policy nodes) as [[|c cs]|m] eqn:Ef;
    [|left; by eexists|right; right; exists p, m; split; [by left | done]].
  destruct (After (poll_After p) deadline) eqn:Ea; [by right; left|]. destruct polls as [|q polls].
  - exfalso. specialize (Ht O p eq_refl). unfold After in Ea. cbn [length] in Hd. apply Z.ltb_ge in Ea. lia.
  - destruct (IH (start + interval)) as [Hr | [Hr | (q' & m & Hq & Hf)]]; [| done | cbn [length] in *; lia | done | by left | by right; left
      | right; right; exists q', m; split; [by right | done]].
    intros i q' Hq. specialize (Ht (S i) q' Hq). lia.
Qed.

(** C40: the wait for evidence terminates: when the polls follow each other by at least
    the poll interval, as many polls as fit into the timeout, and two more, are
    enough: the wait answers with candidates, with the timeout, or with the error
    of a read, before its context has to be cancelled. *)
Theorem permit_terminates timeout interval start pod policy nodes polls :
  0 < timeout -> 0 < interval ->
  (forall i p, polls !! i = Some p -> start + Z.of_nat i * interval <= poll_After p) ->
  timeout < (Z.of_nat (length polls) - 1) * interval ->
  permit_answers pod policy nodes polls (permit timeout start pod policy nodes polls).
Proof.
  intros Ht Hi Hp Hn. unfold permit. rewrite (proj2 (Z.leb_gt _ _)) by done. apply permit_loop_ends with interval start; [done | done | |].
  - unfold time_add. lia.
  - intros ->. cbn in Hn. lia.
Qed.
End selection.

(** ** Binding *)

Section binding.
Context `{Kubernetes} `{Crypto} `{Ed25519}.
Context (float_text : string -> string).

(** The state at the re-check shows the chosen evidence unchanged and not revoked,
    and the policy the pod was admitted under. *)
Definition unchanged_at (c : Cluster) (now : Time) (pod : Pod) (decision : PlacementDecision) (n : NodeCandidate) : Prop :=
  exists latest, get_pod c (pod_Name pod) (pod_Namespace pod) = Ok latest /\
  (ref_Name (dec_PolicyRef decision) <> "" -> exists policy h,
     get_policy c (ref_Name (dec_PolicyRef decision)) (ref_Namespace (dec_PolicyRef decision)) = Ok policy /\
     CanonicalSHA256Hex float_text (pol_Spec policy) = Ok h /\ h = TrimSpace (annotation latest policy_hash_annotation) /\ h <> "") /\
  exists seen h, get_evidence c (ev_Name (nc_Evidence n)) (ev_Namespace (nc_Evidence n)) = Ok seen /\ ev_Revoked seen = false /\
    evidenceHashForPlacement float_text seen = Ok h /\ evidenceHashForPlacement float_text (nc_Evidence n) = Ok h /\
    (forall t, ev_LastVerifiedTime seen = Some t -> 0 < expected_max_age latest -> time_sub now t <= expected_max_age latest).

Lemma preBind_None c now pod policy n d : preBind float_text c now pod (without_token "pending" (applyBaseDecision pod policy n d)) n = None ->
  unchanged_at c now pod (without_token "pending" (applyBaseDecision pod policy n d)) n.
Proof.
  unfold preBind, unchanged_at. destruct (get_pod _ _ _) as [latest|]; [|discriminate]. intros E. exists latest. split; [done|].
  destruct (preBind_policy _ _ _ _) as [m|] eqn:Ep; [discriminate|]. split.
  - unfold preBind_policy in Ep. intros Hne. rewrite (proj2 (String.eqb_neq _ _) Hne) in Ep.
    destruct (get_policy _ _ _) as [p|]; [|discriminate]. destruct (String.eqb_spec (TrimSpace (annotation latest policy_hash_annotation)) ""); [discriminate|].
    destruct (CanonicalSHA256Hex _ (pol_Spec p)) as [h|] eqn:Eh; [|discriminate]. exists p, h.
    destruct (String.eqb_spec h (TrimSpace (annotation latest policy_hash_annotation))) as [->|]; [done | discriminate].
  - cbn [dec_EvidenceRef without_token set_verdict applyBaseDecision] in E. unfold preBind_evidence in E. cbn [ref_Name ref_Namespace] in E.
    destruct (get_evidence _ _ _) as [seen|] eqn:Eg; [|discriminate]. destruct (ev_Revoked seen) eqn:Er; [discriminate|].
    destruct (evidenceHashForPlacement _ seen) as [h|] eqn:Eh; [|discriminate].
    destruct (evidenceHashForPlacement _ (nc_Evidence n)) as [h'|] eqn:Eh'; [|discriminate].
    destruct (String.eqb_spec h h') as [<-|]; [|discriminate]. exists seen, h. repeat split; try done.
    intros t Ht Hm. rewrite Ht, (proj2 (Z.ltb_lt _ _) Hm) in E. cbn in E.
    destruct (Z.ltb_spec (expected_max_age latest) (time_sub now t)); [discriminate | lia].
Qed.

Definition pending_decision (pod : Pod) (policy : option ConfidentialPolicy) (n : NodeCandidate) (d : PlacementDecision) : PlacementDecision :=
  without_token "pending" (applyBaseDecision pod policy n d).
Definition allowing_decision (pod : Pod) (policy : option ConfidentialPolicy) (n : NodeCandidate) (token : string) (d : PlacementDecision) : PlacementDecision :=
  with_token token (sha256_hex token) (applyBaseDecision pod policy n d).

Lemma createOrUpdate_spec c decision mutate d : createOrUpdatePlacementDecision c decision mutate = Ok d -> exists old, d = mutate old.
Proof.
  unfold createOrUpdatePlacementDecision. destruct (negb _); [discriminate|].
  destruct (stored_among _ _); intros E; injection E as <-; by eexists.
Qed.

(** The three ways a reservation can end after its hashes: each write it makes is the
    pending decision, a denial, or the allowing decision that a passed re-check and a
    minted token precede. *)
Lemma reserve_cases s r pod policy n writes outcome : reserve float_text s r pod policy n = (writes, outcome) ->
  (forall d, WriteDecision d ∈ writes -> dec_Decision d = "pending" \/ dec_Decision d = "deny") /\ is_ok outcome = false \/
  exists podHash polHash evHash token d0 d1,
    CanonicalSHA256Hex float_text (marshal_pod_spec (pod_Spec pod)) = Ok podHash /\
    match policy with Some p => CanonicalSHA256Hex float_text (pol_Spec p) | None => Ok ""%string end = Ok polHash /\
    evidenceHashForPlacement float_text (nc_Evidence n) = Ok evHash /\
    preBind float_text (run_PreBind r) (run_PreBindNow r) pod (pending_decision pod policy n d0) n = None /\
    mint_for s (run_MintNow r) pod n podHash polHash evHash = Ok token /\
    writes = [WriteDecision (pending_decision pod policy n d0); WriteDecision (allowing_decision pod policy n token d1)] /\ outcome = Ok token.
Proof.
  unfold reserve. assert (Hnil : forall d, WriteDecision d ∈ [] -> dec_Decision d = "pending" \/ dec_Decision d = "deny")
    by (intros d Hd; by apply not_elem_of_nil in Hd).
  destruct (CanonicalSHA256Hex _ (marshal_pod_spec _)) as [podHash|] eqn:E1; [|intros E; injection E as <- <-; by left].
  destruct (match policy with Some p => _ | None => _ end) as [polHash|] eqn:E2; [|intros E; injection E as <- <-; by left].
  destruct (evidenceHashForPlacement _ _) as [evHash|] eqn:E3; [|intros E; injection E as <- <-; by left]. cbn zeta.
  destruct (createOrUpdatePlacementDecision (run_Pending r) _ _) as [pending|] eqn:E4; [|intros E; injection E as <- <-; by left].
  apply createOrUpdate_spec in E4 as [d0 ->].
  assert (Hpend : forall d, WriteDecision d ∈ [WriteDecision (without_token "pending" (applyBaseDecision pod policy n d0))] ->
            dec_Decision d = "pending" \/ dec_Decision d = "deny").
  { intros d Hd. apply list_elem_of_singleton in Hd. injection Hd as ->. by left. }
  destruct (_ && _); [intros E; injection E as <- <-; by left|].
  destruct (preBind _ _ _ _ _ _) as [m|] eqn:E5.
  { intros E. injection E as <- <-. left. split; [|done]. intros d [Hd|Hd]%elem_of_cons; [injection Hd as ->; by left|].
    destruct (createOrUpdatePlacementDecision (run_Deny r) _ _) as [dd|] eqn:E6; [|by apply not_elem_of_nil in Hd].
    apply createOrUpdate_spec in E6 as [d1 ->]. apply list_elem_of_singleton in Hd. injection Hd as ->. by right. }
  destruct (mint_for _ _ _ _ _ _ _) as [token|] eqn:E7; [|intros E; injection E as <- <-; by left].
  destruct (createOrUpdatePlacementDecision (run_Final r) _ _) as [final|] eqn:E8; [|intros E; injection E as <- <-; by left].
  apply createOrUpdate_spec in E8 as [d1 ->]. intros E. injection E as <- <-. right.
  exists podHash, polHash, evHash, token, d0, d1. done.
Qed.

(** The candidate a run reserves. *)
Lemma SchedulePod_cases s r pod writes e : SchedulePod float_text s r pod = (writes, e) ->
  (writes = [] /\ e <> None) \/
  exists policy selected w o,
    preFilter (run_Prefilter r) pod = Ok policy /\ found_in r policy (cl_Nodes (run_Nodes r)) (Build_NodeCandidate (nc_Node selected) (nc_Evidence selected) 0) /\
    reserve float_text s r pod policy selected = (w, o) /\
    ((exists m, o = Err m /\ writes = w /\ e <> None) \/
     (exists token, o = Ok token /\ (writes = w /\ e <> None \/
        writes = w ++ [WriteBinding (pod_Name pod) (pod_Namespace pod) (node_Name (nc_Node selected))] /\ e = None))).
Proof.
  unfold SchedulePod. destruct (preFilter _ _) as [policy|]; [|intros E; injection E as <- <-; by left].
  destruct (negb _); [intros E; injection E as <- <-; by left|]. cbn zeta.
  destruct (filter _ _ _ _ _) as [cands|] eqn:Ef; [|intros E; injection E as <- <-; by left].
  set (found := match cands with [] => _ | _ => _ end).
  assert (Hfound : forall l n, found = Ok l -> n ∈ l -> found_in r policy (cl_Nodes (run_Nodes r)) n).
  { unfold found. intros l n Hl Hn. destruct cands as [|c cs].
    - right. destruct (permit _ _ _ _ _ _) as [l'|] eqn:Ep; [|discriminate]. injection Hl as <-. by eapply permit_spec.
    - left. injection Hl as <-. by eapply filter_spec. }
  destruct found as [l|]; [|intros E; injection E as <- <-; by left].
  destruct (sort_slice by_score _) as [|selected rest] eqn:Es; [intros E; injection E as <- <-; by left|].
  assert (Hsel : selected ∈ sort_slice by_score (score (run_ScoreNow r) policy l)) by (rewrite Es; by left).
  apply (proj1 (sort_slice_in _ _ _)) in Hsel. unfold score in Hsel. apply list_elem_of_fmap in Hsel as (n & En & Hn).
  specialize (Hfound l n eq_refl Hn).
  destruct (reserve _ _ _ _ _ _) as [w [token|m]] eqn:Er.
  - intros E. right. exists policy, selected, w, (Ok token). split; [done|]. split; [by rewrite En; destruct n|]. split; [done|]. right. exists token.
    split; [done|]. destruct (run_Bind r); injection E as <- <-; [by left | by right].
  - intros E. injection E as <- <-. right. exists policy, selected, w, (Err m). split; [done|]. split; [by rewrite En; destruct n|].
    split; [done|]. left. by exists m.
Qed.

(** C20: a pod is bound only to an attested node: when a run writes a binding, the node
    was listed and schedulable, in a state the run looked at there was evidence for
    it that was verified, not revoked, fresh and of a required kind, and at the
    re-check before the binding that evidence was still there, unchanged and not
    revoked and the policy was the one of the pod; the writes are the pending
    decision, the allowing decision for that node, and the binding. *)
Theorem binding_is_attested s r pod writes e podName podNamespace nodeName :
  SchedulePod float_text s r pod = (writes, e) -> WriteBinding podName podNamespace nodeName ∈ writes ->
  exists policy n token d0 d1,
    preFilter (run_Prefilter r) pod = Ok policy /\ found_in r policy (cl_Nodes (run_Nodes r)) n /\
    unchanged_at (run_PreBind r) (run_PreBindNow r) pod (pending_decision pod policy n d0) n /\
    podName = pod_Name pod /\ podNamespace = pod_Namespace pod /\ nodeName = node_Name (nc_Node n) /\ e = None /\
    writes = [WriteDecision (pending_decision pod policy n d0); WriteDecision (allowing_decision pod policy n token d1);
              WriteBinding podName podNamespace nodeName].
Proof.
  intros Hs Hin. apply SchedulePod_cases in Hs as [[-> _] | (policy & n & w & o & Hp & Hf & Hr & Hw)]; [by apply not_elem_of_nil in Hin|].
  assert (Hnb : forall x, (x = WriteBinding podName podNamespace nodeName) -> x ∈ w -> False).
  { intros x -> Hx. apply reserve_cases in Hr as Hc. destruct Hc as [[Hd _] | (ph & po & eh & tk & d0 & d1 & _ & _ & _ & _ & _ & -> & _)].
    - unfold reserve in Hr. clear Hd Hw. revert Hr Hx. repeat case_match; intros E Hx; injection E as <- <-;
        repeat (apply elem_of_cons in Hx as [Hx|Hx]; [discriminate Hx|]); by apply not_elem_of_nil in Hx.
    - repeat (apply elem_of_cons in Hx as [Hx|Hx]; [discriminate Hx|]). by apply not_elem_of_nil in Hx. }
  destruct Hw as [(m & -> & -> & _) | (token & -> & [[-> _] | [-> ->]])]; [by destruct (Hnb _ eq_refl Hin)..|].
  apply elem_of_app in Hin as [Hin|Hin]; [by destruct (Hnb _ eq_refl Hin)|]. apply list_elem_of_singleton in Hin. injection Hin as -> -> ->.
  apply reserve_cases in Hr as [[_ Hr] | (ph & po & eh & tk & d0 & d1 & _ & _ & _ & Hb & _ & -> & E)]; [discriminate Hr|].
  exists policy, (Build_NodeCandidate (nc_Node n) (nc_Evidence n) 0), tk, d0, d1. split; [done|]. split; [done|].
  split; [apply preBind_None; exact Hb|]. done.
Qed.

(** The texts of a pod and of the chosen node that go into its token. *)
Definition plain_placement (pod : Pod) (n : NodeCandidate) : bool :=
  ascii_string (pod_UID pod) && ascii_string (default ""%string (head (pod_Images pod))) && ascii_string (annotation pod model_digest_annotation)
  && ascii_string (node_Name (nc_Node n)) && ascii_string (default ""%string (pod_RuntimeClassName pod)).

Context `{!CryptoLaws} `{!Ed25519Laws}.

Lemma canonical_hash_ascii raw h : CanonicalSHA256Hex float_text raw = Ok h -> ascii_string h = true.
Proof.
  unfold CanonicalSHA256Hex. destruct (CanonicalJSON _ _) as [t|]; [|discriminate]. intros E. injection E as <-.
  pose proof (sha256_hex_ok t) as Hok. apply hex_ascii. unfold is_sha256 in Hok. by apply andb_prop in Hok as [_ Hok].
Qed.

Lemma mint_for_token s key now pod n podHash polHash evHash raw : s_SigningKey s = Some key ->
  mint_for s now pod n podHash polHash evHash = Ok raw ->
  exists tok, raw = Encode tok /\
    Mint now (Some key) (pod_UID pod) podHash (default ""%string (head (pod_Images pod))) (annotation pod model_digest_annotation)
      (node_Name (nc_Node n)) (default ""%string (pod_RuntimeClassName pod)) evHash polHash (s_TokenTTL s) (Build_MintOptions "" "") = Ok tok.
Proof.
  unfold mint_for. intros ->. destruct (Mint _ _ _ _ _ _ _ _ _ _ _ _) as [tok|]; [|discriminate]. intros E. injection E as <-. by exists tok.
Qed.

Lemma Encode_nonempty t : Encode t <> "".
Proof. unfold Encode, json_object. by rewrite string_app_cons. Qed.

Lemma minted_verifies now at_ key uid spec img mdl node rc ev pol ttl opts tok :
  Mint now (Some key) uid spec img mdl node rc ev pol ttl opts = Ok tok -> Unix at_ <= Unix (time_add now ttl) ->
  VerifyForPod at_ (Some (public_of key)) tok uid spec node ev pol = None.
Proof.
  intros Hm Ha. unfold VerifyForPod.
  rewrite (proj2 (Verify_None at_ (public_of key) tok)) by (by eapply minted_signature_valid).
  apply Mint_ok in Hm as [-> _]. cbn. by rewrite !String.eqb_refl, !andb_false_r.
Qed.

(** C21: an allowing decision carries its token: the annotation it is sent and stored with
    decodes to a token that verifies, at any time until it expires, for the pod, the
    hash of its specification, the node of the decision, the hash of the evidence and
    the hash of the policy that the pod names (the empty one for a pod without a
    policy), and its digest is the one of the decision; a decision allows only after
    the re-check. *)
Theorem allowing_decision_is_verifiable f s r pod writes e key d :
  SchedulePod float_text s r pod = (writes, e) -> WriteDecision d ∈ writes -> dec_Decision d = "allow" ->
  s_SigningKey s = Some key ->
  is_int64 (Unix (run_MintNow r)) = true -> is_int64 (Unix (time_add (run_MintNow r) (s_TokenTTL s))) = true ->
  exists policy n podHash polHash evHash raw tok d0,
    preFilter (run_Prefilter r) pod = Ok policy /\ found_in r policy (cl_Nodes (run_Nodes r)) n /\ dec_NodeName d = node_Name (nc_Node n) /\
    unchanged_at (run_PreBind r) (run_PreBindNow r) pod (pending_decision pod policy n d0) n /\
    CanonicalSHA256Hex float_text (marshal_pod_spec (pod_Spec pod)) = Ok podHash /\
    match policy with Some p => CanonicalSHA256Hex float_text (pol_Spec p) = Ok polHash | None => polHash = ""%string end /\
    evidenceHashForPlacement float_text (nc_Evidence n) = Ok evHash /\
    (forall c, dec_Annotations (persisted c d) = dec_Annotations d) /\ dec_Annotations d !! PlacementTokenAnnotation = Some raw /\ dec_TokenDigest d = sha256_hex raw /\
    (plain_placement pod n = true -> Decode f raw = Ok tok) /\
    forall at_, Unix at_ <= Unix (time_add (run_MintNow r) (s_TokenTTL s)) ->
      VerifyForPod at_ (Some (public_of key)) tok (pod_UID pod) podHash (dec_NodeName d) evHash polHash = None.
Proof.
  intros Hs Hin Hd Hk Ht1 Ht2. apply SchedulePod_cases in Hs as [[-> _] | (policy & n & w & o & Hpre & Hf & Hr & Hw)]; [by apply not_elem_of_nil in Hin|].
  assert (Hdw : WriteDecision d ∈ w).
  { destruct Hw as [(m & _ & -> & _) | (token & _ & [[-> _] | [-> _]])]; [done..|].
    apply elem_of_app in Hin as [Hin|Hin]; [done|]. apply list_elem_of_singleton in Hin. discriminate Hin. }
  apply reserve_cases in Hr as [[Hno _] | (ph & po & eh & raw & d0 & d1 & Hph & Hpo & Heh & Hb & Hm & -> & _)].
  { destruct (Hno d Hdw) as [E|E]; rewrite E in Hd; discriminate Hd. }
  apply elem_of_cons in Hdw as [Hdw|Hdw]; [injection Hdw as ->; discriminate Hd|]. apply list_elem_of_singleton in Hdw. injection Hdw as ->.
  destruct (mint_for_token _ _ _ _ _ _ _ _ _ Hk Hm) as (tok & -> & Hmint).
  exists policy, (Build_NodeCandidate (nc_Node n) (nc_Evidence n) 0), ph, po, eh, (Encode tok), tok, d0.
  split; [done|]. split; [done|]. split; [done|]. split; [apply preBind_None; exact Hb|]. split; [done|].
  split; [destruct policy; [done | by injection Hpo as <-]|]. split; [done|]. split; [done|]. split; [|split; [done|split]].
  - unfold allowing_decision, with_token. rewrite (proj2 (String.eqb_neq _ _) (Encode_nonempty tok)). cbn. by rewrite lookup_insert_eq.
  - intros Hplain. apply Decode_Encode. unfold plain_token, plain_payload. apply Mint_ok in Hmint as [Ep ->].
    rewrite Ep. clear Ep. cbn [tp_PodUID tp_PodSpecHash tp_ImageDigest tp_ModelDigest tp_NodeIdentity tp_GPUIdentity tp_RuntimeClass
      tp_EvidenceHash tp_PolicyHash tp_KeyIdentifier tp_IssuedAt tp_ExpiresAt mo_GPUIdentity mo_KeyIdentifier].
    unfold plain_placement in Hplain. cbn [nc_Node] in Hplain. bool_to_prop. rewrite signature_ascii.
    assert (Hpo' : ascii_string po = true) by (destruct policy; [by eapply canonical_hash_ascii | by injection Hpo as <-]).
    rewrite Hpo', (canonical_hash_ascii _ _ Hph), (canonical_hash_ascii _ _ Heh), Ht1, Ht2.
    repeat match goal with Hx : ascii_string ?s = true |- _ => rewrite Hx; clear Hx end. done.
  - intros at_ Ha. by apply (minted_verifies _ _ _ _ _ _ _ _ _ _ _ _ _ _ Hmint).
Qed.
End binding.

(** ** Scores *)

(** The reserved candidate has the best score of those that were found. *)
Lemma best_candidate_first `{Kubernetes} candidates selected rest :
  sort_slice by_score candidates = selected :: rest -> forall m, m ∈ candidates -> nc_Score m <= nc_Score selected.
Proof.
  intros E m Hm. pose proof (sort_slice_sorted by_score (fun _ => True)) as Hs. 
  assert (Hsorted : StronglySorted (fun a b => by_score b a = false) (sort_slice by_score candidates)).
  { apply Hs; [intros x y z _ _ _ | intros x y _ _ | by apply Forall_true]; unfold by_score; intros; bool_to_prop; apply Z.ltb_ge; lia. }
  rewrite E in Hsorted. apply (proj2 (sort_slice_in by_score candidates m)) in Hm. rewrite E in Hm.
  inversion Hsorted as [|x l _ Hall]; subst. apply elem_of_cons in Hm as [->|Hm]; [done|].
  rewrite Forall_forall in Hall. specialize (Hall m Hm). unfold by_score in Hall. bool_to_prop. lia.
Qed.

(** Within the range of [int32], the score of allowed evidence lies between 1 and 100;
    beyond it, the product wraps and older evidence can score above 100. *)
Lemma freshness_score_range maxAge age : 0 <= age <= 21474836 -> 1 <= freshness_score maxAge age <= 100.
Proof.
  intros Ha. unfold freshness_score. destruct (Z.ltb_spec 0 maxAge), (Z.ltb_spec 0 age); cbn; try lia.
  unfold wrap32. rewrite Z.mod_small by lia. replace (100 * age + 2147483648 - 2147483648) with (100 * age) by lia.
  rewrite Z.quot_div_nonneg by lia. pose proof (Z.div_pos (100 * age) maxAge ltac:(lia) ltac:(lia)). destruct (Z.ltb_spec (100 - 100 * age / maxAge) 1); lia.
Qed.
Lemma old_evidence_scores_higher :
  pv_Score (EvaluatePlacement (Build_PlacementPolicy [] 30000000 "") (Build_PlacementEvidence "TDX" 21474837 false "")) = 171 /\
  pv_Score (EvaluatePlacement (Build_PlacementPolicy [] 30000000 "") (Build_PlacementEvidence "TDX" 0 false "")) = 100.
Proof. split; reflexivity. Qed.

(** ** A concrete cluster *)

Module PlacementExample.
Import SharedKey KeyReleaseExample.
#[export] Instance kubernetes : Kubernetes := {|
  LabelSelector := gmap string string; Toleration := string * string * string; PodSpec := string;
  selector_matches := fun s l => Some (bool_decide (map_Forall (fun k v => l !! k = Some v) s));
  set_matches := fun s l => bool_decide (map_Forall (fun k v => l !! k = Some v) s);
  ToleratesTaint := fun t taint => bool_decide (t = taint);
  marshal_pod_spec := fun s => Ok ("{" +:+ json_string "containers" +:+ ":[" +:+ json_string s +:+ "]}")%string
|}.
Definition float_text (t : string) : string := t.
Definition policy_text : result string := Ok ("{" +:+ json_string "maxEvidenceAgeSeconds" +:+ ":300}")%string.
Definition policy_hash : string := Eval vm_compute in result_or ""%string (@CanonicalSHA256Hex go_crypto float_text policy_text).
Definition policy : ConfidentialPolicy := Build_ConfidentialPolicy "confidential" "ml" None None ["TDX"]%string 300 policy_text.
Definition pod : Pod := Build_Pod "pod-1" "ml" "pod-uid-1" ∅ {[policy_hash_annotation := policy_hash]} "" ∅ None [] ["registry/server:v1"]%string "server".
Definition evidence (verified : Time) : AttestationEvidence :=
  Build_AttestationEvidence "ev-1" "system" "node-1" "tdx" false true false (Some verified)
    (Ok ("{" +:+ json_string "status" +:+ ":" +:+ json_int verified +:+ "}")%string).
Definition node : Node := Build_Node "node-1" ∅ false [].
Definition cluster (verified : Time) : Cluster :=
  Build_Cluster true {["ml"%string := ∅]} ∅ [policy] [evidence verified] [node] [pod] [].
Definition scheduler : Scheduler := New (Some secret) (5 * Minute).
(** The evidence is stale at first and is verified again before the second poll. *)
Definition late : Time := now + 10 * Minute.
Definition fresh : Cluster := cluster late.
Definition polls : list poll :=
  [Build_poll (cluster now) late late; Build_poll fresh (late + Second) (late + Second)].
Definition scheduling : schedule_run := Build_schedule_run fresh fresh (cluster now) late late polls (late + Second) fresh false fresh
  (late + 2 * Second) fresh (late + 2 * Second) fresh None.
Definition outcome : list api_write * option error := Eval vm_compute in @SchedulePod _ go_crypto _ float_text scheduler scheduling pod.
Definition binding : api_write := Eval cbv in WriteBinding "pod-1" "ml" "node-1".
Definition waiting (i : nat) : poll := Build_poll (cluster now) (late + Z.of_nat i * Second) (late + Z.of_nat i * Second).
End PlacementExample.
Import SharedKey KeyReleaseExample PlacementExample.
#[local] Existing Instance go_crypto.

Lemma example_scheduled : SchedulePod float_text scheduler scheduling pod = outcome.
Proof. vm_compute. reflexivity. Qed.

Lemma example_prefilter : preFilter (run_Prefilter scheduling) pod = Ok (Some policy).
Proof. reflexivity. Qed.

Lemma Ok_inj {A} (x y : A) : Ok x = Ok y -> x = y.
Proof. by intros [=]. Qed.

Lemma binding_is_attested_witness : exists n, found_in scheduling (Some policy) [node] n /\ node_Name (nc_Node n) = "node-1"%string.
Proof.
  destruct outcome as [writes e] eqn:Eo. pose proof example_scheduled as Hs. rewrite Eo in Hs.
  assert (Hin : binding ∈ writes) by (replace writes with (fst outcome) by (rewrite Eo; reflexivity);
    apply list_elem_of_In; vm_compute; right; right; left; reflexivity).
  destruct (binding_is_attested float_text scheduler scheduling pod writes e _ _ _ Hs Hin) as (p & n & _ & _ & _ & Hp & Hf & _ & _ & _ & Hn & _).
  rewrite example_prefilter in Hp. apply Ok_inj in Hp. rewrite <- Hp in Hf. exists n. split; [exact Hf | symmetry; exact Hn].
Defined.

Lemma permit_terminates_witness :
  permit_answers pod (Some policy) [node] (map waiting (seq 0 20)) (permit (15 * Second) late pod (Some policy) [node] (map waiting (seq 0 20))).
Proof.
  apply (permit_terminates (15 * Second) Second late pod (Some policy) [node] (map waiting (seq 0 20))); [reflexivity | reflexivity | | reflexivity].
  intros i p Hi. apply list_lookup_fmap_Some in Hi as (j & -> & Hj). apply lookup_seq in Hj as [-> _]. cbn. unfold Second. lia.
Defined.

Definition allowing : PlacementDecision := Eval vm_compute in
  match outcome.1 with [_; WriteDecision d; _] => d | _ => new_decision pod end.
Lemma allowing_decision_is_verifiable_witness :
  dec_Decision allowing = "allow"%string /\
  exists raw tok, dec_Annotations allowing !! PlacementTokenAnnotation = Some raw /\
    exists podHash evHash polHash, CanonicalSHA256Hex float_text (marshal_pod_spec (pod_Spec pod)) = Ok podHash /\
    forall at_, Unix at_ <= Unix (time_add (late + 2 * Second) (5 * Minute)) ->
      VerifyForPod at_ (Some (public_of secret)) tok "pod-uid-1" podHash "node-1" evHash polHash = None.
Proof.
  split; [reflexivity|]. destruct outcome as [writes e] eqn:Eo. pose proof example_scheduled as Hs. rewrite Eo in Hs.
  assert (Hin : WriteDecision allowing ∈ writes) by (replace writes with (fst outcome) by (rewrite Eo; reflexivity);
    apply list_elem_of_In; vm_compute; right; left; reflexivity).
  destruct (allowing_decision_is_verifiable float_text json_text scheduler scheduling pod writes e secret allowing Hs Hin eq_refl eq_refl
    ltac:(vm_compute; reflexivity) ltac:(vm_compute; reflexivity))
    as (p & n & ph & po & eh & raw & tok & d0 & _ & _ & _ & _ & Hph & _ & _ & _ & Hraw & _ & _ & Hv).
  exists raw, tok. split; [exact Hraw|]. exists ph, eh, po. split; [exact Hph | exact Hv].
Defined.

(** The status that the scheduler writes is not what the API server keeps: the stored
    allowing decision has its token and no verdict. *)
Example verdict_is_not_persisted : dec_Decision (persisted (run_Final scheduling) allowing) = ""%string /\
  is_Some (dec_Annotations (persisted (run_Final scheduling) allowing) !! PlacementTokenAnnotation).
Proof. vm_compute. split; [reflexivity | by eexists]. Qed.

Example scanned_ages : map scan_int ["1_000"; "-30"; "0x1f"; "0b_11"; "08"; "1__0"; "_1"; "7_"; "0x"; "60s"]%string =
  [Some 1000; Some (-30); Some 31; Some 3; Some 0; None; None; None; None; Some 60].
Proof. vm_compute. reflexivity. Qed.
