(* ===== verification/Worker.v ===== *)
(** * The durable worker

    [internal/govarworker/worker.go], and the handlers of
    [cmd/gov-ar-admission/reconciliation_worker.go]: how a claimed item is
    validated, handled, retried with backoff, and reported to the ledger. What
    other goroutines and the clock contribute to one item (the renewal loop, the
    cancellation of the parent context, the answer of the ledger) is an argument,
    in the order in which [process] looks at it. *)

From Stdlib Require Import ZArith Lia Ascii String.
From stdpp Require Import base gmap strings list pretty.
From S2P Require Import Prelude Digest GoTime Api Json Pricing Ledger Engine.

Open Scope string_scope.
Open Scope list_scope.
Open Scope Z_scope.
Open Scope go_scope.

(** ** Data *)

Definition KindExpiry : string := "expiry".
Definition KindDeliveryReconciliation : string := "delivery-reconciliation".
Definition KindOutboxRepair : string := "outbox-repair".
Definition KindCalibrationDrift : string := "calibration-drift".
Definition KindAuditCheckpoint : string := "audit-checkpoint".
Definition allKinds : list string :=
  [KindExpiry; KindDeliveryReconciliation; KindOutboxRepair; KindCalibrationDrift; KindAuditCheckpoint].
Definition Kind_Valid (kind : string) : bool := existsb (String.eqb kind) allKinds.

Definition StateCompleted : string := "COMPLETED".
Definition StateRetry : string := "RETRY".
Definition StateDeadLetter : string := "DEAD_LETTER".
Definition LiabilityPreserve : string := "PRESERVE".
Definition LiabilityAuthoritativeRelease : string := "AUTHORITATIVE_RELEASE".

Record WorkItem : Type := Build_WorkItem {
  item_ID : string;
  item_Kind : string;
  item_RequestID : string;
  item_ProviderAttemptID : string;
  item_LeaseOwner : string;
  item_LeaseUntil : Time;
  item_Attempt : Z;
  item_LiabilityHeld : bool;
  item_AuthoritativeReleaseEligible : bool;
  item_PayloadDigest : string
}.

Record WorkResult : Type := Build_WorkResult {
  wr_State : string;
  wr_ReasonCode : string;
  wr_NextAttemptAt : Time;
  wr_LiabilityDisposition : string
}.
#[export] Instance wr_eta : Eta WorkResult := fun r =>
  Build_WorkResult (wr_State r) (wr_ReasonCode r) (wr_NextAttemptAt r) (wr_LiabilityDisposition r).

(** The clock of the configuration is the times the operations are given. *)
Record Config : Type := Build_Config {
  cfg_Kind : string;
  cfg_BatchSize : Z;
  cfg_Lease : Duration;
  cfg_RenewEvery : Duration;
  cfg_PollEvery : Duration;
  cfg_MaxAttempts : Z;
  cfg_BaseBackoff : Duration;
  cfg_MaxBackoff : Duration;
  cfg_HeartbeatTTL : Duration;
  cfg_Jitter : Duration -> Duration
}.

Record Heartbeat : Type := Build_Heartbeat {
  hb_Kind : string;
  hb_LastPassStarted : Time;
  hb_LastClaimSucceeded : Time;
  hb_LastPassSucceeded : Time;
  hb_LastErrorAt : Time;
  hb_LastErrorCode : string;
  hb_Claims : Z;
  hb_Completed : Z;
  hb_Retried : Z;
  hb_DeadLettered : Z;
  hb_RenewalFailures : Z;
  hb_Active : Z;
  hb_Stopped : bool
}.
#[export] Instance hb_eta : Eta Heartbeat := fun h =>
  Build_Heartbeat (hb_Kind h) (hb_LastPassStarted h) (hb_LastClaimSucceeded h) (hb_LastPassSucceeded h) (hb_LastErrorAt h)
    (hb_LastErrorCode h) (hb_Claims h) (hb_Completed h) (hb_Retried h) (hb_DeadLettered h) (hb_RenewalFailures h)
    (hb_Active h) (hb_Stopped h).

(** An error: its text, and the code [errors.As] finds in it. *)
Record work_error : Type := Build_work_error { we_Text : string; we_ReasonCode : option string }.
Definition wrap_error (prefix : string) (e : work_error) : work_error :=
  Build_work_error (prefix +:+ ": " +:+ we_Text e) (we_ReasonCode e).

(** A counter of type [uint64]. *)
Definition inc64 (n k : Z) : Z := (n + k) mod int64_modulus.

(** ** Configuration *)

Definition DefaultConfig (kind : string) : Config :=
  Build_Config kind 32 (30 * Second) (10 * Second) Second 8 Second (5 * Minute) Minute (fun _ => 0).

Definition config_bounds_ok (c : Config) : bool :=
  negb ((cfg_BatchSize c <? 1) || (10000 <? cfg_BatchSize c) || (cfg_Lease c <=? 0) || (cfg_RenewEvery c <=? 0)
        || (cfg_Lease c <=? cfg_RenewEvery c) || (cfg_PollEvery c <=? 0) || (cfg_MaxAttempts c <? 1)
        || (cfg_BaseBackoff c <=? 0) || (cfg_MaxBackoff c <? cfg_BaseBackoff c) || (cfg_HeartbeatTTL c <=? 0)).

(** [New]; the booleans say whether the ledger, the handler and the clock are not
    nil. *)
Definition New (has_ledger has_handler has_clock : bool) (config : Config) : result (Config * Heartbeat) :=
  if negb has_ledger || negb has_handler then Err "ledger and handler are required"
  else if negb (Kind_Valid (cfg_Kind config)) then Err ("unknown worker kind " +:+ Quote (cfg_Kind config))
  else if negb (config_bounds_ok config) then Err "invalid worker timing, batch, retry, or heartbeat bounds"
  else if negb has_clock then Err "clock is required"
  else Ok (config, Build_Heartbeat (cfg_Kind config) zero_time zero_time zero_time zero_time "" 0 0 0 0 0 0 false).

(** ** Reasons *)

(** [^[a-z][a-z0-9_]{0,63}$]. *)
Definition lower_letter (b : N) : bool := ((97 <=? b) && (b <=? 122))%N.
Definition reason_rest (b : N) : bool := (lower_letter b || (48 <=? b) && (b <=? 57) || (b =? 95))%N.
Definition reasonPattern (s : string) : bool :=
  match_class lower_letter reason_rest s && (String.length s <=? 64)%nat.

Definition reasonFromError (err : work_error) (fallback : string) : string :=
  match we_ReasonCode err with
  | Some code => if reasonPattern code then code else if reasonPattern fallback then fallback else "handler_failed"
  | None => if reasonPattern fallback then fallback else "handler_failed"
  end.

(** ** Backoff *)

(** The loop of [backoff]: [n] iterations at most. *)
Fixpoint doubled (n : nat) (delay max : Duration) : Duration :=
  match n with
  | O => delay
  | S n' => if delay <? max
            then if Z.quot max 2 <? delay then max else doubled n' (mul64 delay 2) max
            else delay
  end.

Definition backoff (config : Config) (attempt : Z) : Duration :=
  let delay := doubled (Z.to_nat (attempt - 1)) (cfg_BaseBackoff config) (cfg_MaxBackoff config) in
  let remaining := cfg_MaxBackoff config -i delay in
  if remaining <=? 0 then cfg_MaxBackoff config
  else
    let jitter := cfg_Jitter config remaining in
    let jitter := if jitter <? 0 then 0 else jitter in
    let jitter := if remaining <? jitter then remaining else jitter in
    delay +i jitter.

(** ** Results *)

Definition validateClaim (config : Config) (item : WorkItem) (now : Time) : option work_error :=
  if String.eqb (item_ID item) "" || negb (String.eqb (item_Kind item) (cfg_Kind config))
     || String.eqb (item_LeaseOwner item) "" || (item_Attempt item <? 1) || IsZero (item_LeaseUntil item)
     || negb (After (item_LeaseUntil item) now)
  then Some (Build_work_error "invalid_claim" None) else None.

Definition preserve_if_held (item : WorkItem) (r : WorkResult) : WorkResult :=
  if item_LiabilityHeld item then r <| wr_LiabilityDisposition := LiabilityPreserve |> else r.

(** The first half of [normalizeResult]: the error of the handler, and defaults. *)
Definition prepareResult (config : Config) (item : WorkItem) (result : WorkResult) (handleErr : option work_error) : WorkResult :=
  let result := match handleErr with
    | Some err => result <| wr_ReasonCode := reasonFromError err (wr_ReasonCode result) |>
                         <| wr_State := if cfg_MaxAttempts config <=? item_Attempt item then StateDeadLetter else StateRetry |>
    | None => result
    end in
  let result := if String.eqb (wr_State result) "" then result <| wr_State := StateCompleted |> else result in
  if negb (reasonPattern (wr_ReasonCode result)) then result <| wr_ReasonCode := "worker_internal_error"%string |> else result.

Definition normalizeResult (config : Config) (item : WorkItem) (result : WorkResult) (handleErr : option work_error)
    (now : Time) : WorkResult :=
  let result := prepareResult config item result handleErr in
  if String.eqb (wr_State result) StateRetry then
    preserve_if_held item
      (if cfg_MaxAttempts config <=? item_Attempt item
       then result <| wr_State := StateDeadLetter |> <| wr_NextAttemptAt := zero_time |>
       else result <| wr_NextAttemptAt := time_add now (backoff config (item_Attempt item)) |>)
  else if String.eqb (wr_State result) StateDeadLetter then
    preserve_if_held item (result <| wr_NextAttemptAt := zero_time |>)
  else if String.eqb (wr_State result) StateCompleted then
    let result := result <| wr_NextAttemptAt := zero_time |> in
    if item_LiabilityHeld item then
      if String.eqb (wr_LiabilityDisposition result) LiabilityAuthoritativeRelease
         && negb (item_AuthoritativeReleaseEligible item)
      then result <| wr_State := StateDeadLetter |> <| wr_ReasonCode := "unauthorized_liability_release"%string |>
                  <| wr_LiabilityDisposition := LiabilityPreserve |>
      else if String.eqb (wr_LiabilityDisposition result) "" then result <| wr_LiabilityDisposition := LiabilityPreserve |>
      else result
    else result
  else
    preserve_if_held item
      (result <| wr_State := StateDeadLetter |> <| wr_ReasonCode := "invalid_worker_result"%string |>).

(** ** One item *)

(** What happens while an item is processed: the answer of the handler, the error
    of the renewal loop, the state of the parent context after the handler, and
    the answer of [CompleteWork]; and the readings of the clock. *)
Record execution : Type := Build_execution {
  ex_ClaimedAt : Time;
  ex_Handled : WorkResult * option work_error;
  ex_Renewal : option work_error;
  ex_Stopped : option work_error;
  ex_ReportedAt : Time;
  ex_Completed : WorkResult -> option work_error
}.

Definition count_result (h : Heartbeat) (r : WorkResult) : Heartbeat :=
  if String.eqb (wr_State r) StateCompleted then h <| hb_Completed := inc64 (hb_Completed h) 1 |>
  else if String.eqb (wr_State r) StateRetry then h <| hb_Retried := inc64 (hb_Retried h) 1 |>
  else if String.eqb (wr_State r) StateDeadLetter then h <| hb_DeadLettered := inc64 (hb_DeadLettered h) 1 |>
  else h.

Definition changeActive (h : Heartbeat) (delta : Z) : Heartbeat := h <| hb_Active := hb_Active h +i delta |>.

(** The heartbeat, the error, and the result sent to [CompleteWork] if any. *)
Definition process (config : Config) (item : WorkItem) (x : execution) (h : Heartbeat)
    : Heartbeat * option work_error * option WorkResult :=
  match validateClaim config item (ex_ClaimedAt x) with
  | Some e => (h, Some e, None)
  | None =>
    let h := changeActive (changeActive h 1) (-1) in
    match ex_Renewal x with
    | Some e => (h <| hb_RenewalFailures := inc64 (hb_RenewalFailures h) 1 |>, Some (wrap_error "lease_renewal_failed" e), None)
    | None =>
      match ex_Stopped x with
      | Some e => (h, Some e, None)
      | None =>
        let result := normalizeResult config item (ex_Handled x).1 (ex_Handled x).2 (ex_ReportedAt x) in
        match ex_Completed x result with
        | Some e => (h, Some (wrap_error "completion_failed" e), Some result)
        | None => (count_result h result, None, Some result)
        end
      end
    end
  end.

(** ** A pass *)

Definition recordError (h : Heartbeat) (code : string) (now : Time) : Heartbeat :=
  h <| hb_LastErrorAt := now |>
    <| hb_LastErrorCode := if reasonPattern code then code else "worker_internal_error"%string |>.

(** The goroutine of one item; [now] is the clock of [recordError]. *)
Definition run_item (config : Config) (h : Heartbeat) (w : WorkItem * execution * Time) : Heartbeat :=
  let '(item, x, now) := w in
  match process config item x h with
  | (h, Some e, _) => recordError h (reasonFromError e "work_failed") now
  | (h, None, _) => h
  end.

(** [runPass]: what [ClaimWork] answers, and the items whose goroutines start
    before the context is cancelled, in the order in which they finish. *)
Definition runPass (config : Config) (h : Heartbeat) (started : Time) (claimed : result (list WorkItem)) (failed_at : Time)
    (work : list (WorkItem * execution * Time)) (ended : Time) : Heartbeat :=
  let h := h <| hb_LastPassStarted := started |> <| hb_Stopped := false |> in
  match claimed with
  | Err _ => recordError h "claim_failed" failed_at
  | Ok items =>
    let h := h <| hb_LastClaimSucceeded := started |> <| hb_Claims := inc64 (hb_Claims h) (Z.of_nat (length items)) |>
               <| hb_LastErrorCode := ""%string |> in
    (fold_left (run_item config) work h) <| hb_LastPassSucceeded := ended |>
  end.

Definition markStopped (h : Heartbeat) : Heartbeat := h <| hb_Stopped := true |> <| hb_Active := 0 |>.

Definition Healthy (config : Config) (h : Heartbeat) (now : Time) : option error :=
  if IsZero (hb_LastPassStarted h) then Some "worker has no heartbeat"
  else if cfg_HeartbeatTTL config <? time_sub now (hb_LastPassStarted h) then Some "worker heartbeat is stale"
  else if negb (String.eqb (hb_LastErrorCode h) "") then Some ("worker error: " +:+ hb_LastErrorCode h)
  else None.

(** ** The handlers *)

Definition retry (reason : string) : WorkResult := Build_WorkResult StateRetry reason zero_time LiabilityPreserve.
Definition complete (reason disposition : string) : WorkResult := Build_WorkResult StateCompleted reason zero_time disposition.

(** [records] is the answer of [ReconcileExpired], [None] its failure. *)
Definition releases (item : WorkItem) (record : ReconciliationRecord) : bool :=
  rec_TransitionEffective record && String.eqb (rec_RequestID record) (item_RequestID item)
  && state_is (rec_State record) StateExpiredUndispatched && item_AuthoritativeReleaseEligible item.
Definition handleExpiry (item : WorkItem) (records : option (list ReconciliationRecord)) : WorkResult :=
  match records with
  | None => retry "expiry_reconciliation_failed"
  | Some records =>
    complete "expiry_reconciled" (if existsb (releases item) records then LiabilityAuthoritativeRelease else LiabilityPreserve)
  end.

Definition handleOutboxRepair (item : WorkItem) (pending : option (list ReconciliationRecord)) : WorkResult :=
  match pending with
  | None => retry "outbox_observation_failed"
  | Some pending =>
    if existsb (fun record => String.eqb (rec_RequestID record) (item_RequestID item)) pending
    then retry "outbox_repair_pending" else complete "outbox_state_already_terminal" LiabilityPreserve
  end.

(** [handle(kind)]: the answers of the ledger it asks are arguments. *)
Definition handle (kind : string) (item : WorkItem) (expired pending : option (list ReconciliationRecord)) (audits_verify : bool)
    : WorkResult * option work_error :=
  if String.eqb kind KindExpiry then (handleExpiry item expired, None)
  else if String.eqb kind KindDeliveryReconciliation then (retry "delivery_confirmation_pending", None)
  else if String.eqb kind KindOutboxRepair then (handleOutboxRepair item pending, None)
  else if String.eqb kind KindCalibrationDrift then (complete "calibration_conservative_mode" LiabilityPreserve, None)
  else if String.eqb kind KindAuditCheckpoint then
    (if audits_verify then complete "audit_chain_verified" LiabilityPreserve else retry "audit_verification_failed", None)
  else (Build_WorkResult "" "" zero_time "", Some (Build_work_error "unsupported durable worker kind" None)).

(** ** Theorems *)

Lemma doubled_spec n : forall d max, 0 < d <= max -> max <= max_int64 -> doubled n d max = Z.min (d * 2 ^ Z.of_nat n) max.
Proof.
  induction n as [|n IH]; intros d max Hd Hm; [cbn; lia|].
  cbn [doubled]. rewrite Nat2Z.inj_succ, Z.pow_succ_r by lia.
  assert (Hp : 1 <= 2 ^ Z.of_nat n) by lia. destruct (Z.ltb_spec d max); [|nia].
  rewrite Z.quot_div_nonneg by lia. destruct (Z.ltb_spec (max / 2) d) as [Hh|Hh].
  - assert (max < 2 * d) by div_lia. nia.
  - assert (2 * d <= max) by div_lia. unfold max_int64 in *. rewrite mul64_id by (unfold in64, min_int64, max_int64; lia).
    rewrite IH by (unfold max_int64; lia). f_equal. ring.
Qed.

Lemma backoff_range config attempt :
  config_bounds_ok config = true -> cfg_MaxBackoff config <= max_int64 ->
  let d := Z.min (cfg_BaseBackoff config * 2 ^ Z.of_nat (Z.to_nat (attempt - 1))) (cfg_MaxBackoff config) in
  d <= backoff config attempt <= cfg_MaxBackoff config /\
  ((forall r, cfg_Jitter config r = 0) -> backoff config attempt = d).
Proof.
  unfold config_bounds_ok. intros Hc Hm. apply negb_true_iff in Hc. bool_to_prop. cbn zeta. unfold backoff.
  rewrite doubled_spec by lia. set (d := Z.min _ _). assert (Hd : 0 < d <= cfg_MaxBackoff config) by (unfold d; nia).
  clearbody d. cbn zeta. unfold max_int64 in Hm. rewrite sub64_id by (unfold in64, min_int64, max_int64; lia).
  set (j := cfg_Jitter config _). assert (Hj : (forall r, cfg_Jitter config r = 0) -> j = 0) by (intros Hj; apply Hj).
  clearbody j. destruct (Z.leb_spec (cfg_MaxBackoff config - d) 0); [split; [lia | intros; lia]|].
  destruct (Z.ltb_spec j 0), (Z.ltb_spec (cfg_MaxBackoff config - d) (if j <? 0 then 0 else j)); repeat case_match; bool_to_prop;
    try (rewrite add64_id by (unfold in64, min_int64, max_int64; lia)); split; try lia; intros Hz; specialize (Hj Hz); lia.
Qed.

(** the backoff is exponential and bounded: before attempt [n+1] the worker waits
    at least [BaseBackoff * 2^(n-1)], or [MaxBackoff] when that is less, and at most
    [MaxBackoff], whatever the jitter is; without jitter it waits exactly that. *)
Theorem backoff_is_bounded_exponential config attempt :
  config_bounds_ok config = true -> cfg_MaxBackoff config <= max_int64 ->
  let d := Z.min (cfg_BaseBackoff config * 2 ^ Z.of_nat (Z.to_nat (attempt - 1))) (cfg_MaxBackoff config) in
  d <= backoff config attempt <= cfg_MaxBackoff config /\
  ((forall r, cfg_Jitter config r = 0) -> backoff config attempt = d).
Proof. apply backoff_range. Qed.

Lemma backoff_is_bounded_exponential_witness :
  config_bounds_ok (DefaultConfig KindExpiry) = true /\ backoff (DefaultConfig KindExpiry) 4 = 8 * Second /\
  backoff (DefaultConfig KindExpiry) 40 = 5 * Minute.
Proof.
  pose proof (backoff_is_bounded_exponential (DefaultConfig KindExpiry) 4 eq_refl ltac:(vm_compute; discriminate)) as [_ E4].
  pose proof (backoff_is_bounded_exponential (DefaultConfig KindExpiry) 40 eq_refl ltac:(vm_compute; discriminate)) as [_ E40].
  split; [reflexivity|]. split; [exact (E4 (fun _ => eq_refl)) | exact (E40 (fun _ => eq_refl))].
Defined.

Definition closed_state (s : string) : Prop := s = StateCompleted \/ s = StateRetry \/ s = StateDeadLetter.

Lemma backoff_bounds config attempt : config_bounds_ok config = true -> cfg_MaxBackoff config <= max_int64 ->
  0 < backoff config attempt.
Proof.
  intros Hc Hm. pose proof (backoff_range config attempt Hc Hm) as [Hr _]. unfold config_bounds_ok in Hc.
  apply negb_true_iff in Hc. bool_to_prop. nia.
Qed.

(** What the first half leaves of a result. *)
Lemma prepareResult_spec config item result err : let r := prepareResult config item result err in
  reasonPattern (wr_ReasonCode r) = true /\ wr_LiabilityDisposition r = wr_LiabilityDisposition result /\
  wr_State r = match err with
               | Some _ => if cfg_MaxAttempts config <=? item_Attempt item then StateDeadLetter else StateRetry
               | None => if String.eqb (wr_State result) "" then StateCompleted else wr_State result
               end.
Proof.
  cbn zeta. unfold prepareResult.
  set (r0 := match err with Some e => _ | None => result end).
  assert (H0 : wr_LiabilityDisposition r0 = wr_LiabilityDisposition result /\
    wr_State r0 = match err with Some _ => if cfg_MaxAttempts config <=? item_Attempt item then StateDeadLetter else StateRetry
                               | None => wr_State result end) by (unfold r0; by destruct err).
  clearbody r0. destruct H0 as [Hd Hs]. cbn zeta.
  set (r1 := if String.eqb (wr_State r0) "" then _ else r0).
  assert (H1 : wr_LiabilityDisposition r1 = wr_LiabilityDisposition result /\
    wr_State r1 = if String.eqb (wr_State r0) "" then StateCompleted else wr_State r0) by (unfold r1; destruct (String.eqb (wr_State r0) ""); upd; auto).
  clearbody r1. destruct H1 as [Hd1 Hs1]. destruct (reasonPattern (wr_ReasonCode r1)) eqn:E; cbn [negb]; upd; rewrite Hd1, Hs1, Hs;
    (split; [done || reflexivity|]); split; try done; by destruct err, (cfg_MaxAttempts config <=? item_Attempt item).
Qed.

(** what a worker reports is always safe: the state is one of the three the
    ledger knows and the reason well formed; a retry is only asked for while
    attempts are left, and after the backoff; an error of the handler never counts
    as completion; and a held liability is released only by a completion of an item
    the ledger marked as eligible. *)
Theorem worker_reports_safely config item result err now :
  let r := normalizeResult config item result err now in
  closed_state (wr_State r) /\ reasonPattern (wr_ReasonCode r) = true /\
  (wr_State r = StateRetry -> item_Attempt item < cfg_MaxAttempts config /\
     wr_NextAttemptAt r = now + backoff config (item_Attempt item)) /\
  (err <> None -> wr_State r <> StateCompleted) /\
  (item_LiabilityHeld item = true -> wr_LiabilityDisposition r = LiabilityAuthoritativeRelease ->
     wr_State r = StateCompleted /\ item_AuthoritativeReleaseEligible item = true).
Proof.
  cbn zeta. unfold normalizeResult. pose proof (prepareResult_spec config item result err) as (Hr & _ & Hs).
  set (r := prepareResult config item result err) in *. clearbody r. cbn zeta.
  assert (He : err <> None -> wr_State r <> StateCompleted).
  { intros He. rewrite Hs. destruct err; [case_match; discriminate | done]. }
  clear Hs. unfold preserve_if_held, closed_state.
  repeat case_match; bool_to_prop; upd; repeat split; intros; auto; try congruence; try discriminate; try done.
  all: try (intros Ec; by destruct He).
  all: match goal with Hb : (String.eqb _ _ && negb ?b)%bool = false |- ?b = true =>
         destruct b; [done|]; rewrite andb_true_r in Hb; apply String.eqb_neq in Hb; by destruct Hb end.
Qed.
