(* ===== verification/WorkQueue.v ===== *)
(** * The durable work queue

    [internal/govar/worker_postgres.go] over the table [govar_work_items] that
    [postgres_engine.go] declares: claiming, renewing, completing and enqueueing
    work. A statement reads the clock once, and fails as a whole when a row it
    writes violates a constraint; [locked] are the rows other transactions hold,
    which [SKIP LOCKED] leaves out. The reservations are those of the ledger. *)

From Stdlib Require Import ZArith Lia Ascii String.
From stdpp Require Import base gmap strings list pretty.
From S2P Require Import Prelude Digest GoTime Api Json Pricing Ledger Engine Wire Worker.

Open Scope string_scope.
Open Scope list_scope.
Open Scope Z_scope.
Open Scope go_scope.

(** ** The table *)

Inductive RowState : Set := RowPending | RowLeased | RowRetry | RowCompleted | RowDeadLetter.
#[export] Instance RowState_eq_dec : EqDecision RowState.
Proof. solve_decision. Defined.
Definition row_is (a b : RowState) : bool := bool_decide (a = b).
Definition row_state (s : string) : option RowState :=
  if String.eqb s StateCompleted then Some RowCompleted
  else if String.eqb s StateRetry then Some RowRetry
  else if String.eqb s StateDeadLetter then Some RowDeadLetter
  else if String.eqb s "PENDING" then Some RowPending
  else if String.eqb s "LEASED" then Some RowLeased
  else None.

Record WorkRow : Type := Build_WorkRow {
  row_Kind : string;
  row_SourceKey : string;
  row_RequestID : option string;
  row_ProviderAttemptID : string;
  row_State : RowState;
  row_LeaseOwner : string;
  row_LeaseUntil : option Time;
  row_Attempts : Z;
  row_NextAttemptAt : Time;
  row_ReasonCode : string;
  row_LiabilityHeld : bool;
  row_ReleaseEligible : bool;
  row_Disposition : string;
  row_PayloadSHA256 : string;
  row_CompletionSHA256 : string;
  row_CreatedAt : Time;
  row_CompletedAt : option Time
}.
#[export] Instance row_eta : Eta WorkRow := fun r =>
  Build_WorkRow (row_Kind r) (row_SourceKey r) (row_RequestID r) (row_ProviderAttemptID r) (row_State r) (row_LeaseOwner r)
    (row_LeaseUntil r) (row_Attempts r) (row_NextAttemptAt r) (row_ReasonCode r) (row_LiabilityHeld r) (row_ReleaseEligible r)
    (row_Disposition r) (row_PayloadSHA256 r) (row_CompletionSHA256 r) (row_CreatedAt r) (row_CompletedAt r).

Definition owner_byte (b : N) : bool := (alnum b || (b =? 95) || (b =? 46) || (b =? 58) || (b =? 45))%N.

(** The constraints on a row with primary key [id]. *)
Definition lease_coherent (r : WorkRow) : bool :=
  match row_LeaseUntil r with
  | Some _ => row_is (row_State r) RowLeased && negb (String.eqb (row_LeaseOwner r) "")
  | None => negb (row_is (row_State r) RowLeased) && String.eqb (row_LeaseOwner r) ""
  end.
Definition terminal (s : RowState) : bool := row_is s RowCompleted || row_is s RowDeadLetter.
Definition completion_coherent (r : WorkRow) : bool :=
  match row_CompletedAt r with
  | Some _ => terminal (row_State r) && negb (String.eqb (row_CompletionSHA256 r) "")
  | None => negb (terminal (row_State r))
  end.
Definition row_ok (id : string) (r : WorkRow) : bool :=
  is_sha256 id && Kind_Valid (row_Kind r) && is_sha256 (row_SourceKey r)
  && (String.eqb (row_LeaseOwner r) ""
      || (String.length (row_LeaseOwner r) <=? 128)%nat && forallb owner_byte (bytes_of (row_LeaseOwner r)))
  && (0 <=? row_Attempts r) && (row_Attempts r <=? 2147483647)
  && (String.eqb (row_ReasonCode r) "" || reasonPattern (row_ReasonCode r))
  && (String.eqb (row_Disposition r) LiabilityPreserve || String.eqb (row_Disposition r) LiabilityAuthoritativeRelease)
  && is_sha256 (row_PayloadSHA256 r) && (String.eqb (row_CompletionSHA256 r) "" || is_sha256 (row_CompletionSHA256 r))
  && lease_coherent r && completion_coherent r && (negb (row_ReleaseEligible r) || row_LiabilityHeld r).

Abbreviation work_table := (gmap string WorkRow).

(** ** Claims *)

(** [^[A-Za-z0-9][A-Za-z0-9_.:-]{0,127}$]. *)
Definition workerTokenPattern (s : string) : bool := match_class alnum owner_byte s && (String.length s <=? 128)%nat.

(** What the claim reads of the reservation of a row: whether it still holds
    liability, and whether the expiry of an undispatched reservation may release it. *)
Definition holds_liability (r : Reservation) : bool :=
  (0 <? res_ResidualHoldMicros r + res_RolloverGuardMicros r) && reservationIsActive (res_State r).
Definition release_eligible (kind : string) (r : Reservation) : bool :=
  String.eqb kind KindExpiry && state_is (res_State r) StateReserved && outbox_is (res_OutboxState r) OutboxPending.

Section queue.
Context `{Crypto}.

Definition reservation_of (reservations : gmap string Reservation) (row : WorkRow) : option Reservation :=
  id ← row_RequestID row; reservations !! id.

Definition claimable (kind : string) (now : Time) (row : WorkRow) : bool :=
  String.eqb (row_Kind row) kind
  && ((row_is (row_State row) RowPending || row_is (row_State row) RowRetry) && (row_NextAttemptAt row <=? now)
      || row_is (row_State row) RowLeased && match row_LeaseUntil row with Some until => until <? now | None => false end).

(** [ORDER BY] leased rows first, then the time of the next attempt, of creation,
    and the identifier. *)
Definition claim_before (i j : string * WorkRow) : bool :=
  let rank (r : WorkRow) := if row_is (row_State r) RowLeased then 0 else 1 in
  if rank i.2 =? rank j.2 then
    if row_NextAttemptAt i.2 =? row_NextAttemptAt j.2 then
      if row_CreatedAt i.2 =? row_CreatedAt j.2 then string_ltb i.1 j.1 else row_CreatedAt i.2 <? row_CreatedAt j.2
    else row_NextAttemptAt i.2 <? row_NextAttemptAt j.2
  else rank i.2 <? rank j.2.

Definition picked (t : work_table) (locked : gset string) (kind : string) (limit : Z) (now : Time) : list (string * WorkRow) :=
  take (Z.to_nat limit) (sort_slice claim_before
    (List.filter (fun '(id, row) => claimable kind now row && negb (bool_decide (id ∈ locked))) (map_to_list t))).

(** A timestamp as the driver stores it, in whole microseconds. *)
Definition stored_time (t : Time) : Time := Z.quot t 1000 * 1000.

(** [lease.Microseconds()] microseconds after [now]. *)
Definition lease_end (now : Time) (lease : Duration) : Time := now + Z.quot lease 1000 * 1000.

Definition claim_row (reservations : gmap string Reservation) (owner : string) (now : Time) (lease : Duration) (row : WorkRow)
    : WorkRow :=
  let res := reservation_of reservations row in
  row <| row_State := RowLeased |> <| row_LeaseOwner := owner |> <| row_LeaseUntil := Some (lease_end now lease) |>
      <| row_Attempts := row_Attempts row + 1 |>
      <| row_LiabilityHeld := match res with Some r => holds_liability r | None => row_LiabilityHeld row end |>
      <| row_ReleaseEligible := match res with Some r => release_eligible (row_Kind row) r | None => false end |>
      <| row_Disposition := LiabilityPreserve |> <| row_CompletionSHA256 := ""%string |> <| row_CompletedAt := None |>.

Definition item_of (id : string) (row : WorkRow) : WorkItem :=
  Build_WorkItem id (row_Kind row) (default ""%string (row_RequestID row)) (row_ProviderAttemptID row) (row_LeaseOwner row)
    (default zero_time (row_LeaseUntil row)) (row_Attempts row) (row_LiabilityHeld row) (row_ReleaseEligible row)
    (row_PayloadSHA256 row).

Definition store_rows (t : work_table) (rows : list (string * WorkRow)) : work_table :=
  foldr (fun '(id, row) t => <[id := row]> t) t rows.

(** The error of a statement that violates a constraint. *)
Definition constraint_error : error := "check constraint violated".
Definition lease_in_bounds (lease : Duration) : bool := (1000000 <=? lease) && (lease <=? 24 * Hour).

Definition ClaimWork (t : work_table) (reservations : gmap string Reservation) (locked : gset string) (owner : string)
    (now : Time) (kind : string) (limit : Z) (lease : Duration) : work_table * result (list WorkItem) :=
  if negb (Kind_Valid kind) || (limit <? 1) || (10000 <? limit) || negb (lease_in_bounds lease) || negb (workerTokenPattern owner)
  then (t, Err "invalid durable worker claim parameters")
  else
    let rows := map (fun '(id, row) => (id, claim_row reservations owner now lease row)) (picked t locked kind limit now) in
    if forallb (fun '(id, row) => row_ok id row) rows
    then (store_rows t rows, Ok (map (fun '(id, row) => item_of id row) rows))
    else (t, Err constraint_error).

(** ** Renewal and completion *)

Definition errWorkerLeaseLost : error := "worker lease is absent, expired, or owned by another worker".

(** The row is leased by the owner, and the lease has not run out. *)
Definition leased_by (row : WorkRow) (owner : string) (now : Time) : bool :=
  row_is (row_State row) RowLeased && String.eqb (row_LeaseOwner row) owner
  && match row_LeaseUntil row with Some until => now <=? until | None => false end.

Definition RenewWork (t : work_table) (owner : string) (now : Time) (item : WorkItem) (lease : Duration) : work_table * option error :=
  if String.eqb (item_ID item) "" || negb (String.eqb (item_LeaseOwner item) owner) || negb (lease_in_bounds lease)
  then (t, Some errWorkerLeaseLost)
  else match t !! item_ID item with
  | Some row =>
    if leased_by row (item_LeaseOwner item) now
    then (<[item_ID item := row <| row_LeaseUntil := Some (lease_end now lease) |>]> t, None)
    else (t, Some errWorkerLeaseLost)
  | None => (t, Some errWorkerLeaseLost)
  end.

Definition validWorkerResult (item : WorkItem) (result : WorkResult) : bool :=
  let held_and_not_preserved :=
    item_LiabilityHeld item && negb (String.eqb (wr_LiabilityDisposition result) LiabilityPreserve) in
  let released := String.eqb (wr_LiabilityDisposition result) LiabilityAuthoritativeRelease in
  reasonPattern (wr_ReasonCode result)
  && (if String.eqb (wr_State result) StateCompleted then IsZero (wr_NextAttemptAt result)
      else if String.eqb (wr_State result) StateRetry then negb (IsZero (wr_NextAttemptAt result)) && negb held_and_not_preserved
      else if String.eqb (wr_State result) StateDeadLetter then IsZero (wr_NextAttemptAt result) && negb held_and_not_preserved
      else false)
  && (if released
      then item_LiabilityHeld item && item_AuthoritativeReleaseEligible item && String.eqb (wr_State result) StateCompleted
      else String.eqb (wr_LiabilityDisposition result) LiabilityPreserve).

Definition workerCompletionDigest (result : WorkResult) : string :=
  sha256_hex (json_object
    [fld "State" (json_string (wr_State result)); fld "ReasonCode" (json_string (wr_ReasonCode result));
     fld "NextAttemptAt" (json_string (if IsZero (wr_NextAttemptAt result) then "" else RFC3339Nano (wr_NextAttemptAt result)));
     fld "LiabilityDisposition" (json_string (wr_LiabilityDisposition result))]).

Definition default_disposition (result : WorkResult) : WorkResult :=
  if String.eqb (wr_LiabilityDisposition result) "" then result <| wr_LiabilityDisposition := LiabilityPreserve |> else result.

Definition complete_row (now : Time) (state : RowState) (result : WorkResult) (row : WorkRow) : WorkRow :=
  row <| row_State := state |> <| row_LeaseOwner := ""%string |> <| row_LeaseUntil := None |>
      <| row_NextAttemptAt := if row_is state RowRetry then stored_time (wr_NextAttemptAt result) else row_NextAttemptAt row |>
      <| row_ReasonCode := wr_ReasonCode result |> <| row_Disposition := wr_LiabilityDisposition result |>
      <| row_CompletionSHA256 := workerCompletionDigest result |>
      <| row_CompletedAt := if terminal state then Some now else None |>.

(** The row was completed with the same result before: its answer was lost. *)
Definition completed_alike (row : WorkRow) (state : RowState) (result : WorkResult) : bool :=
  row_is (row_State row) state && String.eqb (row_CompletionSHA256 row) (workerCompletionDigest result).

Definition CompleteWork (t : work_table) (owner : string) (now : Time) (item : WorkItem) (result : WorkResult)
    : work_table * option error :=
  let result := default_disposition result in
  match row_state (wr_State result) with
  | Some state =>
    if String.eqb (item_ID item) "" || negb (String.eqb (item_LeaseOwner item) owner) || negb (validWorkerResult item result)
    then (t, Some "invalid durable worker completion"%string)
    else match t !! item_ID item with
    | None => (t, Some errWorkerLeaseLost)
    | Some row =>
      if leased_by row (item_LeaseOwner item) now && Bool.eqb (row_LiabilityHeld row) (item_LiabilityHeld item)
         && Bool.eqb (row_ReleaseEligible row) (item_AuthoritativeReleaseEligible item)
      then
        let row' := complete_row now state result row in
        if row_ok (item_ID item) row' then (<[item_ID item := row']> t, None) else (t, Some constraint_error)
      else if completed_alike row state result then (t, None) else (t, Some errWorkerLeaseLost)
    end
  | None => (t, Some "invalid durable worker completion"%string)
  end.

(** ** Enqueueing *)

Record WorkerEnqueue : Type := Build_WorkerEnqueue {
  enq_Kind : string;
  enq_SourceIdentity : string;
  enq_RequestID : string;
  enq_ProviderAttemptID : string;
  enq_DueAt : Time;
  enq_LiabilityHeld : bool;
  enq_ReleaseEligible : bool;
  enq_PayloadSHA256 : string
}.

Definition source_key (item : WorkerEnqueue) : string :=
  eventPayloadHash ["govar-work-source-v1"; enq_Kind item; enq_SourceIdentity item].
Definition work_id (item : WorkerEnqueue) : string := eventPayloadHash ["govar-work-id-v1"; enq_Kind item; source_key item].

Definition new_row (item : WorkerEnqueue) (now : Time) : WorkRow :=
  Build_WorkRow (enq_Kind item) (source_key item)
    (if String.eqb (enq_RequestID item) "" then None else Some (enq_RequestID item)) (enq_ProviderAttemptID item)
    RowPending "" None 0 (if IsZero (enq_DueAt item) then now else stored_time (enq_DueAt item)) "" (enq_LiabilityHeld item)
    (enq_ReleaseEligible item) LiabilityPreserve (enq_PayloadSHA256 item) "" now None.

(** The row with the source of the item. *)
Definition same_source (t : work_table) (item : WorkerEnqueue) : option (string * WorkRow) :=
  List.find (fun '(_, row) => String.eqb (row_Kind row) (enq_Kind item) && String.eqb (row_SourceKey row) (source_key item))
    (map_to_list t).

Definition bound_alike (row : WorkRow) (item : WorkerEnqueue) : bool :=
  String.eqb (default ""%string (row_RequestID row)) (enq_RequestID item)
  && String.eqb (row_ProviderAttemptID row) (enq_ProviderAttemptID item)
  && String.eqb (row_PayloadSHA256 row) (enq_PayloadSHA256 item)
  && Bool.eqb (row_LiabilityHeld row) (enq_LiabilityHeld item)
  && Bool.eqb (row_ReleaseEligible row) (enq_ReleaseEligible item).

Definition enqueueWorkerItemTx (t : work_table) (reservations : gmap string Reservation) (now : Time) (item : WorkerEnqueue)
    : result (work_table * bool) :=
  if negb (Kind_Valid (enq_Kind item)) || blank (enq_SourceIdentity item) || negb (is_sha256 (enq_PayloadSHA256 item))
     || (enq_ReleaseEligible item && negb (enq_LiabilityHeld item))
  then Err "invalid durable worker enqueue"
  else match same_source t item with
  | Some (_, row) =>
    if bound_alike row item then Ok (t, false) else Err "durable worker source identity conflicts with existing item"
  | None =>
    let row := new_row item now in
    if row_ok (work_id item) row && negb (bool_decide (is_Some (t !! work_id item)))
       && match row_RequestID row with Some id => bool_decide (is_Some (reservations !! id)) | None => true end
    then Ok (<[work_id item := row]> t, true) else Err constraint_error
  end.

(** [EnqueueWorkerItem]: a transaction of its own. *)
Definition EnqueueWorkerItem (t : work_table) (reservations : gmap string Reservation) (now : Time) (item : WorkerEnqueue)
    : work_table * result bool :=
  match enqueueWorkerItemTx t reservations now item with
  | Ok (t', inserted) => (t', Ok inserted)
  | Err m => (t, Err m)
  end.

(** The loop over the candidates of one transaction. *)
Fixpoint enqueue_all (t : work_table) (reservations : gmap string Reservation) (now : Time) (items : list WorkerEnqueue)
    : result (work_table * Z) :=
  match items with
  | [] => Ok (t, 0)
  | item :: rest =>
    match enqueueWorkerItemTx t reservations now item with
    | Err m => Err m
    | Ok (t, inserted) =>
      match enqueue_all t reservations now rest with
      | Err m => Err m
      | Ok (t, n) => Ok (t, n + (if inserted : bool then 1 else 0))
      end
    end
  end.

(** The expired reservations that [EnqueueExpiredWork] selects. *)
Definition expired_open (now : Time) (r : Reservation) : bool :=
  (res_Expiry r <=? now)
  && (state_is (res_State r) StateReserved && outbox_is (res_OutboxState r) OutboxPending
      || state_is (res_State r) StateDispatchPending || state_is (res_State r) StateDispatched
      || state_is (res_State r) StateUnresolved).
Definition expired_before (i j : string * Reservation) : bool :=
  if res_Expiry i.2 =? res_Expiry j.2 then string_ltb i.1 j.1 else res_Expiry i.2 <? res_Expiry j.2.
Definition expiry_item (id : string) (r : Reservation) : WorkerEnqueue :=
  Build_WorkerEnqueue KindExpiry (id +:+ String zero (RFC3339Nano (res_Expiry r))) id (res_ProviderAttemptID r) zero_time
    (0 <? res_ResidualHoldMicros r + res_RolloverGuardMicros r)
    (state_is (res_State r) StateReserved && outbox_is (res_OutboxState r) OutboxPending)
    (eventPayloadHash ["govar-expiry-work-v1"; id; res_ProviderAttemptID r; sql_state (res_State r);
                       sql_outbox (res_OutboxState r); RFC3339Nano (res_Expiry r)]).

Definition expiry_items (reservations : gmap string Reservation) (locked : gset string) (limit : Z) (now : Time)
    : list WorkerEnqueue :=
  map (fun '(id, r) => expiry_item id r)
    (take (Z.to_nat limit) (sort_slice expired_before
       (List.filter (fun '(id, r) => expired_open now r && negb (bool_decide (id ∈ locked))) (map_to_list reservations)))).

Definition EnqueueExpiredWork (t : work_table) (reservations : gmap string Reservation) (locked : gset string) (limit : Z)
    (now : Time) : work_table * result Z :=
  if (limit <? 1) || (10000 <? limit) then (t, Err "expiry enqueue limit must be in [1,10000]")
  else match enqueue_all t reservations now (expiry_items reservations locked limit now) with
  | Ok (t', n) => (t', Ok n)
  | Err m => (t, Err m)
  end.

(** The columns of an open reconciliation task and of an open outbox row that the
    two queries read, in the order in which they return them. *)
Record open_task : Type := Build_open_task { task_ID : string; task_RequestID : string; task_PayloadHash : string }.
Record open_outbox : Type := Build_open_outbox { ob_ID : string; ob_Version : Z; ob_RequestID : string; ob_State : string }.

Definition reservation_holds (r : Reservation) : bool := 0 <? res_ResidualHoldMicros r + res_RolloverGuardMicros r.

Definition task_item (reservations : gmap string Reservation) (task : open_task) : option WorkerEnqueue :=
  r ← reservations !! task_RequestID task;
  Some (Build_WorkerEnqueue KindDeliveryReconciliation (task_ID task) (task_RequestID task) (res_ProviderAttemptID r) zero_time
          (reservation_holds r) false (task_PayloadHash task)).
Definition EnqueueReconciliationWork (t : work_table) (reservations : gmap string Reservation) (tasks : list open_task)
    (limit : Z) (now : Time) : work_table * result Z :=
  if (limit <? 1) || (10000 <? limit) then (t, Err "reconciliation enqueue limit must be in [1,10000]")
  else match enqueue_all t reservations now (take (Z.to_nat limit) (omap (task_item reservations) tasks)) with
  | Ok (t', n) => (t', Ok n)
  | Err m => (t, Err m)
  end.

Definition outbox_item (reservations : gmap string Reservation) (o : open_outbox) : option WorkerEnqueue :=
  r ← reservations !! ob_RequestID o;
  Some (Build_WorkerEnqueue KindOutboxRepair (ob_ID o +:+ String zero (sprint (ob_Version o))) (ob_RequestID o)
          (res_ProviderAttemptID r) zero_time (reservation_holds r) false
          (eventPayloadHash ["govar-outbox-repair-v1"; ob_ID o; sprint (ob_Version o); ob_RequestID o; res_ProviderAttemptID r;
                             ob_State o])).
Definition EnqueueOutboxRepairWork (t : work_table) (reservations : gmap string Reservation) (outbox : list open_outbox)
    (limit : Z) (now : Time) : work_table * result Z :=
  if (limit <? 1) || (10000 <? limit) then (t, Err "outbox enqueue limit must be in [1,10000]")
  else match enqueue_all t reservations now (take (Z.to_nat limit) (omap (outbox_item reservations) outbox)) with
  | Ok (t', n) => (t', Ok n)
  | Err m => (t, Err m)
  end.

Definition EnqueuePeriodicWork (t : work_table) (reservations : gmap string Reservation) (now : Time) (kind scope : string)
    (periodStart : Time) (payloadSHA256 : string) : work_table * result bool :=
  if negb (String.eqb kind KindCalibrationDrift || String.eqb kind KindAuditCheckpoint) || blank scope || IsZero periodStart
  then (t, Err "periodic work requires calibration-drift or audit-checkpoint kind, scope, and period")
  else EnqueueWorkerItem t reservations now
         (Build_WorkerEnqueue kind (scope +:+ String zero (RFC3339Nano periodStart)) "" "" periodStart false false payloadSHA256).
End queue.

(** ** Theorems *)

Section theorems.
Context `{Crypto}.

Lemma picked_spec t locked kind limit now id row : (id, row) ∈ picked t locked kind limit now ->
  t !! id = Some row /\ claimable kind now row = true.
Proof.
  unfold picked. intros (i & Hi & _)%elem_of_take. apply list_elem_of_lookup_2, sort_slice_in in Hi as Hin.
  apply list_elem_of_In, List.filter_In in Hin as [Hin Hc]. apply list_elem_of_In, elem_of_map_to_list in Hin.
  apply andb_prop in Hc as [Hc _]. done.
Qed.

Lemma NoDup_filter_keys {A} (f : string * A -> bool) (l : list (string * A)) : NoDup l.*1 -> NoDup (List.filter f l).*1.
Proof.
  induction l as [|[id x] l IH]; [intros _; constructor|]. cbn [List.filter]. intros [Hn Hnd]%NoDup_cons.
  specialize (IH Hnd). destruct (f (id, x)); [|done]. cbn. constructor; [|done]. contradict Hn.
  apply list_elem_of_fmap in Hn as ([k r] & -> & Hin). apply list_elem_of_In, List.filter_In in Hin as [Hin _].
  apply list_elem_of_fmap. exists (k, r). split; [done | by apply list_elem_of_In].
Qed.

Lemma picked_NoDup t locked kind limit now : NoDup (picked t locked kind limit now).*1.
Proof.
  unfold picked. rewrite fmap_take. eapply sublist_NoDup; [|apply sublist_take].
  rewrite sort_slice_perm. apply NoDup_filter_keys, NoDup_fst_map_to_list.
Qed.

Lemma NoDup_map_rows (f : WorkRow -> WorkRow) (l : list (string * WorkRow)) :
  NoDup l.*1 -> NoDup (map (fun '(id, row) => (id, f row)) l).*1.
Proof.
  intros Hnd. replace (map _ l).*1 with l.*1; [done|]. clear Hnd. induction l as [|[k x] l IH]; [done|]. cbn. by f_equal.
Qed.

Lemma store_rows_lookup rows t id : NoDup rows.*1 ->
  store_rows t rows !! id = match List.find (fun '(k, _) => String.eqb k id) rows with Some (_, r) => Some r | None => t !! id end.
Proof.
  induction rows as [|[k r] rows IH]; [done|]. intros [_ Hnd]%NoDup_cons. specialize (IH Hnd).
  change (store_rows t ((k, r) :: rows)) with (<[k := r]> (store_rows t rows)). cbn [List.find]. destruct (String.eqb_spec k id) as [->|Hne].
  - by rewrite lookup_insert_eq.
  - by rewrite lookup_insert_ne.
Qed.

Lemma store_rows_cases rows t id r : NoDup rows.*1 -> store_rows t rows !! id = Some r ->
  (id, r) ∈ rows \/ ((forall x, (id, x) ∉ rows) /\ t !! id = Some r).
Proof.
  intros Hnd. rewrite store_rows_lookup by done. destruct (List.find _ rows) as [[k x]|] eqn:E.
  - apply List.find_some in E as [Hin Hk]. apply String.eqb_eq in Hk as ->. intros Hr. injection Hr as ->.
    left. by apply list_elem_of_In.
  - intros Hr. right. split; [|done]. intros x Hin. apply list_elem_of_In in Hin.
    apply (List.find_none _ _ E) in Hin. cbn in Hin. by rewrite String.eqb_refl in Hin.
Qed.

(** *** One row at a time *)

Lemma ClaimWork_lookup t rs locked owner now kind limit lease t' r id row' :
  ClaimWork t rs locked owner now kind limit lease = (t', r) -> t' !! id = Some row' ->
  t !! id = Some row' \/
  (exists row, t !! id = Some row /\ claimable kind now row = true /\ row' = claim_row rs owner now lease row /\
     row_ok id row' = true /\ workerTokenPattern owner = true).
Proof.
  unfold ClaimWork. destruct (_ || _) eqn:Hb; [intros E Hl; injection E as <- <-; auto|]. bool_to_prop.
  set (rows := map _ _). destruct (forallb _ rows) eqn:Hok; [|intros E Hl; injection E as <- <-; auto].
  intros E Hl. injection E as <- <-.
  assert (Hnd : NoDup rows.*1) by apply NoDup_map_rows, picked_NoDup.
  apply (store_rows_cases _ _ _ _ Hnd) in Hl as [Hin | [_ Hl]]; [right | by left].
  pose proof (proj1 (forallb_forall _ rows) Hok (id, row') (proj1 (list_elem_of_In _ _) Hin)) as Hr. cbn in Hr.
  unfold rows in Hin. apply list_elem_of_In, in_map_iff in Hin as ([k x] & E & Hin). injection E as -> E.
  apply list_elem_of_In, picked_spec in Hin as [Hx Hc]. exists x. by rewrite E.
Qed.

Lemma RenewWork_lookup t owner now item lease t' r id row' : RenewWork t owner now item lease = (t', r) -> t' !! id = Some row' ->
  t !! id = Some row' \/
  (exists row, t !! id = Some row /\ leased_by row owner now = true /\ row' = row <| row_LeaseUntil := Some (lease_end now lease) |>).
Proof.
  unfold RenewWork. destruct (_ || _) eqn:Hb; [intros E Hl; injection E as <- <-; auto|]. bool_to_prop.
  destruct (t !! item_ID item) as [row|] eqn:Ht; [|intros E Hl; injection E as <- <-; auto].
  destruct (leased_by row (item_LeaseOwner item) now) eqn:Hb'; [|intros E Hl; injection E as <- <-; auto].
  intros E Hl. injection E as <- <-. destruct (decide (id = item_ID item)) as [->|Hne].
  - rewrite lookup_insert_eq in Hl. injection Hl as <-. right. exists row. by replace owner with (item_LeaseOwner item).
  - rewrite lookup_insert_ne in Hl by done. by left.
Qed.

(** The row a completion writes, and under which lease. *)
Lemma CompleteWork_cases t owner now item result t' r : CompleteWork t owner now item result = (t', r) ->
  t' = t \/
  (exists row state, t !! item_ID item = Some row /\ leased_by row owner now = true /\
     row_state (wr_State (default_disposition result)) = Some state /\
     validWorkerResult item (default_disposition result) = true /\
     row_LiabilityHeld row = item_LiabilityHeld item /\ row_ReleaseEligible row = item_AuthoritativeReleaseEligible item /\
     row_ok (item_ID item) (complete_row now state (default_disposition result) row) = true /\
     t' = <[item_ID item := complete_row now state (default_disposition result) row]> t /\ r = None).
Proof.
  unfold CompleteWork. cbn zeta. destruct (row_state _) as [state|] eqn:Hs; [|intros E; injection E as <- <-; auto].
  destruct (_ || _) eqn:Hb; [intros E; injection E as <- <-; auto|]. bool_to_prop.
  destruct (t !! item_ID item) as [row|] eqn:Ht; [|intros E; injection E as <- <-; auto].
  destruct (leased_by row _ now && _ && _) eqn:Hl.
  - destruct (row_ok _ _) eqn:Ho; [|intros E; injection E as <- <-; auto]. intros E. injection E as <- <-. right.
    exists row, state. bool_to_prop. repeat match goal with H : Bool.eqb _ _ = true |- _ => apply eqb_prop in H end.
    by replace owner with (item_LeaseOwner item).
  - destruct (completed_alike _ _ _); intros E; injection E as <- <-; auto.
Qed.

Lemma enqueueWorkerItemTx_cases t rs now item t' b : enqueueWorkerItemTx t rs now item = Ok (t', b) ->
  (t' = t /\ b = false) \/
  (t !! work_id item = None /\ row_ok (work_id item) (new_row item now) = true /\ b = true /\
   t' = <[work_id item := new_row item now]> t).
Proof.
  unfold enqueueWorkerItemTx. destruct (_ || _); [discriminate|].
  destruct (same_source t item) as [[k row]|]; [destruct (bound_alike row item); [|discriminate]; intros E; injection E as <- <-; auto|].
  cbn zeta. destruct (row_ok _ _ && _ && _) eqn:Hc; [|discriminate]. intros E. injection E as <- <-. bool_to_prop. right.
  split; [|done]. destruct (t !! work_id item) eqn:Ht; [|done].
  match goal with H : bool_decide _ = false |- _ => apply bool_decide_eq_false in H; by destruct H end.
Qed.

(** *** Histories *)

(** The calls of any number of workers and enqueuers, in the order in which the
    database executes them, each with its clock and the reservations it sees. *)
Inductive queue_call : Type :=
| QClaim (owner kind : string) (limit : Z) (lease : Duration) (locked : gset string)
| QRenew (owner : string) (item : WorkItem) (lease : Duration)
| QComplete (owner : string) (item : WorkItem) (result : WorkResult)
| QEnqueue (item : WorkerEnqueue)
| QEnqueueExpired (limit : Z) (locked : gset string)
| QEnqueueReconciliation (limit : Z) (tasks : list open_task)
| QEnqueueOutboxRepair (limit : Z) (outbox : list open_outbox)
| QEnqueuePeriodic (kind scope : string) (periodStart : Time) (payload : string).

Definition queue_step (t : work_table) (c : queue_call * Time * gmap string Reservation) : work_table :=
  let '(q, now, rs) := c in
  match q with
  | QClaim owner kind limit lease locked => (ClaimWork t rs locked owner now kind limit lease).1
  | QRenew owner item lease => (RenewWork t owner now item lease).1
  | QComplete owner item result => (CompleteWork t owner now item result).1
  | QEnqueue item => (EnqueueWorkerItem t rs now item).1
  | QEnqueueExpired limit locked => (EnqueueExpiredWork t rs locked limit now).1
  | QEnqueueReconciliation limit tasks => (EnqueueReconciliationWork t rs tasks limit now).1
  | QEnqueueOutboxRepair limit outbox => (EnqueueOutboxRepairWork t rs outbox limit now).1
  | QEnqueuePeriodic kind scope period payload => (EnqueuePeriodicWork t rs now kind scope period payload).1
  end.
Definition queue_run (t : work_table) (calls : list (queue_call * Time * gmap string Reservation)) : work_table :=
  fold_left queue_step calls t.

(** How one call may change one row. *)
Inductive row_change (id : string) : option WorkRow -> option WorkRow -> Prop :=
| row_same o : row_change id o o
| row_enqueued item now : row_ok id (new_row item now) = true -> row_change id None (Some (new_row item now))
| row_claimed rs owner kind now lease row : claimable kind now row = true ->
    row_ok id (claim_row rs owner now lease row) = true -> row_change id (Some row) (Some (claim_row rs owner now lease row))
| row_renewed owner now until row : leased_by row owner now = true ->
    row_change id (Some row) (Some (row <| row_LeaseUntil := Some until |>))
| row_reported owner now item state result row : leased_by row owner now = true ->
    row_state (wr_State result) = Some state -> validWorkerResult item result = true ->
    row_LiabilityHeld row = item_LiabilityHeld item -> row_ReleaseEligible row = item_AuthoritativeReleaseEligible item ->
    row_ok id (complete_row now state result row) = true -> row_change id (Some row) (Some (complete_row now state result row)).

Definition table_change (t t' : work_table) : Prop := forall id, rtc (row_change id) (t !! id) (t' !! id).

Lemma table_change_refl t : table_change t t.
Proof. intros id. reflexivity. Qed.

Lemma table_change_trans t1 t2 t3 : table_change t1 t2 -> table_change t2 t3 -> table_change t1 t3.
Proof. intros H12 H23 id. etrans; [apply H12 | apply H23]. Qed.

(** A call that writes rows it found changes each of them once. *)
Lemma rows_change t t' : (forall id, is_Some (t !! id) -> is_Some (t' !! id)) ->
  (forall id row', t' !! id = Some row' -> row_change id (t !! id) (Some row')) -> table_change t t'.
Proof.
  intros Hs Hr id. destruct (t' !! id) as [row'|] eqn:E; [apply rtc_once; by apply Hr|].
  destruct (t !! id) as [row|] eqn:E'; [|reflexivity]. exfalso. destruct (Hs id) as [x Hx]; [by rewrite E' | congruence].
Qed.

Lemma store_rows_some rows t id : is_Some (t !! id) -> is_Some (store_rows t rows !! id).
Proof.
  intros Ht. induction rows as [|[k r] rows IH]; [done|].
  change (store_rows t ((k, r) :: rows)) with (<[k := r]> (store_rows t rows)).
  destruct (decide (k = id)) as [->|]; [by rewrite lookup_insert_eq | by rewrite lookup_insert_ne].
Qed.

Lemma insert_some (t : work_table) k r id : is_Some (t !! id) -> is_Some (<[k := r]> t !! id).
Proof. destruct (decide (k = id)) as [->|]; [by rewrite lookup_insert_eq | by rewrite lookup_insert_ne]. Qed.

Lemma ClaimWork_change t rs locked owner now kind limit lease : table_change t (ClaimWork t rs locked owner now kind limit lease).1.
Proof.
  destruct (ClaimWork _ _ _ _ _ _ _ _) as [t' r] eqn:E. cbn [fst]. apply rows_change.
  - intros id Hs. unfold ClaimWork in E. destruct (_ || _); [by injection E as <- _|]. cbn zeta in E.
    destruct (forallb _ _); injection E as <- _; [by apply store_rows_some | done].
  - intros id row' Hl. destruct (ClaimWork_lookup _ _ _ _ _ _ _ _ _ _ _ _ E Hl) as [-> | (row & -> & Hc & -> & Ho & _)];
      [apply row_same | by eapply row_claimed].
Qed.

Lemma RenewWork_change t owner now item lease : table_change t (RenewWork t owner now item lease).1.
Proof.
  destruct (RenewWork _ _ _ _ _) as [t' r] eqn:E. cbn [fst]. apply rows_change.
  - intros id Hs. unfold RenewWork in E. destruct (_ || _); [by injection E as <- _|].
    destruct (t !! item_ID item) as [row|]; [|by injection E as <- _].
    destruct (leased_by _ _ _); injection E as <- _; [by apply insert_some | done].
  - intros id row' Hl. destruct (RenewWork_lookup _ _ _ _ _ _ _ _ _ E Hl) as [-> | (row & -> & Hb & ->)];
      [apply row_same | by eapply row_renewed].
Qed.

Lemma CompleteWork_change t owner now item result : table_change t (CompleteWork t owner now item result).1.
Proof.
  destruct (CompleteWork _ _ _ _ _) as [t' r] eqn:E. cbn [fst].
  destruct (CompleteWork_cases _ _ _ _ _ _ _ E) as [-> | (row & st & Ht & Hb & Hs & Hv & Hh & He & Ho & -> & _)];
    [apply table_change_refl|]. apply rows_change; [intros id; apply insert_some|]. intros id row'.
  destruct (decide (item_ID item = id)) as [<-|Hne]; [rewrite lookup_insert_eq | rewrite lookup_insert_ne by done; intros ->; apply row_same].
  intros Hr. apply Some_inj in Hr as <-. rewrite Ht. by eapply row_reported.
Qed.

Lemma enqueue_change t rs now item t' b : enqueueWorkerItemTx t rs now item = Ok (t', b) -> table_change t t'.
Proof.
  intros [[-> _] | (Hn & Ho & _ & ->)]%enqueueWorkerItemTx_cases id; [reflexivity|].
  destruct (decide (id = work_id item)) as [->|]; [|by rewrite lookup_insert_ne].
  rewrite lookup_insert_eq, Hn. apply rtc_once. by apply row_enqueued.
Qed.

Lemma EnqueueWorkerItem_change t rs now item : table_change t (EnqueueWorkerItem t rs now item).1.
Proof.
  unfold EnqueueWorkerItem. destruct (enqueueWorkerItemTx t rs now item) as [[t' b]|] eqn:E; [by eapply enqueue_change | apply table_change_refl].
Qed.

Lemma enqueue_all_change items rs now : forall t t' n, enqueue_all t rs now items = Ok (t', n) -> table_change t t'.
Proof.
  induction items as [|item items IH]; intros t t' n; cbn [enqueue_all]; [intros E; injection E as <- _; apply table_change_refl|].
  destruct (enqueueWorkerItemTx t rs now item) as [[t1 b]|] eqn:E1; [|discriminate].
  destruct (enqueue_all t1 rs now items) as [[t2 k]|] eqn:E2; [|discriminate]. intros E. injection E as <- _.
  eapply table_change_trans; [by eapply enqueue_change | by eapply IH].
Qed.

Lemma enqueue_batch_change t rs now items (bad : bool) m :
  table_change t (if bad then (t, Err m) else match enqueue_all t rs now items with
                                              | Ok (t', n) => (t', Ok n) | Err m => (t, Err m) end).1.
Proof.
  destruct bad; [by apply table_change_refl|]. destruct (enqueue_all t rs now items) as [[t' n]|] eqn:E; [by eapply enqueue_all_change | apply table_change_refl].
Qed.

(** Every call changes each row only by the changes above, and nothing else. *)
Lemma queue_step_change t c : table_change t (queue_step t c).
Proof.
  destruct c as [[[owner kind limit lease locked|owner item lease|owner item result|item|limit locked|limit tasks|limit outbox
                  |kind scope period payload] now] rs]; cbn [queue_step].
  - apply ClaimWork_change.
  - apply RenewWork_change.
  - apply CompleteWork_change.
  - apply EnqueueWorkerItem_change.
  - apply enqueue_batch_change.
  - apply enqueue_batch_change.
  - apply enqueue_batch_change.
  - unfold EnqueuePeriodicWork. destruct (_ || _); [apply table_change_refl | apply EnqueueWorkerItem_change].
Qed.
End theorems.
