(* ===== verification/WorkQueueProofs.v ===== *)
(** * Theorems about the durable work queue

    What every history of calls keeps: rows stay valid, finished work stays
    finished, a live lease excludes every other worker; and the composition with
    the worker of Worker.v: what a worker reports of the work it claimed is
    accepted. *)

From Stdlib Require Import ZArith Lia Ascii String.
From stdpp Require Import base gmap strings list pretty.
From S2P Require Import Prelude Digest GoTime Api Json Pricing Ledger Engine Worker WorkQueue.

Open Scope string_scope.
Open Scope list_scope.
Open Scope Z_scope.
Open Scope go_scope.

Section histories.
Context `{Crypto}.

(** ** Rows along a history *)

Lemma row_change_some id row o : row_change id (Some row) o -> is_Some o.
Proof. intros Hc. inversion Hc; eauto. Qed.

Lemma rtc_change_some id o o' : rtc (row_change id) o o' -> is_Some o -> is_Some o'.
Proof. induction 1 as [|o1 o2 o3 Hc _ IH]; [done|]. intros [row ->]. apply IH. by eapply row_change_some. Qed.

(** A property of rows that every change keeps holds along every history. *)
Lemma rtc_change_keeps (P : string -> WorkRow -> Prop) id o o' :
  (forall o row', row_change id o (Some row') -> from_option (P id) True o -> P id row') ->
  rtc (row_change id) o o' -> from_option (P id) True o -> from_option (P id) True o'.
Proof.
  intros HP. induction 1 as [|o1 o2 o3 Hc _ IH]; [done|]. intros Ho. apply IH. destruct o2 as [row'|]; [|done].
  by apply (HP o1).
Qed.

Lemma queue_run_keeps (P : string -> WorkRow -> Prop) :
  (forall id o row', row_change id o (Some row') -> from_option (P id) True o -> P id row') ->
  forall calls t id, from_option (P id) True (t !! id) -> from_option (P id) True (queue_run t calls !! id).
Proof.
  intros HP calls. induction calls as [|c calls IH]; intros t id Ht; [exact Ht|].
  apply IH. by apply (rtc_change_keeps P id _ _ (HP id) (queue_step_change t c id)).
Qed.

Lemma queue_step_some t c id : is_Some (t !! id) -> is_Some (queue_step t c !! id).
Proof. eapply rtc_change_some, queue_step_change. Qed.

(** ** Finished work *)

Lemma terminal_not_leased row owner now : terminal (row_State row) = true -> leased_by row owner now = false.
Proof. unfold terminal, leased_by. by destruct (row_State row). Qed.

Lemma terminal_not_claimable row kind now : terminal (row_State row) = true -> claimable kind now row = false.
Proof. unfold terminal, claimable. destruct (row_State row); try done; intros _; apply andb_false_r. Qed.

Lemma finished_change id row o : row_change id (Some row) o -> terminal (row_State row) = true -> o = Some row.
Proof.
  intros Hc Ht. inversion Hc as [|item now Ho|rs owner kind now lease row1 Hcl|owner now until row1 Hl|owner now item st r row1 Hl]; subst;
    [done | by rewrite terminal_not_claimable in Hcl | by rewrite terminal_not_leased in Hl..].
Qed.

(** finished work stays finished: once a row is completed or dead-lettered, no
    sequence of claims, renewals, completions and enqueues, by any workers at any
    times, changes it. *)
Theorem finished_work_is_final t id row calls :
  t !! id = Some row -> terminal (row_State row) = true -> queue_run t calls !! id = Some row.
Proof.
  intros Hl Ht.
  assert (Hkeep : forall c t, t !! id = Some row -> queue_step t c !! id = Some row).
  { intros c t' Hl'. pose proof (queue_step_change t' c id) as Hc. rewrite Hl' in Hc.
    remember (Some row) as o eqn:Eo. revert Eo. induction Hc as [|o1 o2 o3 H1 _ IH]; [done|]. intros ->. subst.
    apply finished_change in H1 as ->; [by apply IH | done]. }
  revert t Hl. induction calls as [|c calls IH]; intros t Hl; [done|]. apply IH, Hkeep, Hl.
Qed.

(** ** Valid rows *)

(** A released liability was held, its release was authorised, and the work is done. *)
Definition release_sound (row : WorkRow) : Prop :=
  row_Disposition row = LiabilityAuthoritativeRelease ->
  row_State row = RowCompleted /\ row_LiabilityHeld row = true /\ row_ReleaseEligible row = true.
Definition row_valid (id : string) (row : WorkRow) : Prop := row_ok id row = true /\ release_sound row.

Lemma validWorkerResult_release item r :
  validWorkerResult item r = true -> wr_LiabilityDisposition r = LiabilityAuthoritativeRelease ->
  item_LiabilityHeld item = true /\ item_AuthoritativeReleaseEligible item = true /\ wr_State r = StateCompleted.
Proof.
  unfold validWorkerResult. intros Hv Hd. rewrite Hd in Hv. apply andb_prop in Hv as [_ Hv].
  change (String.eqb LiabilityAuthoritativeRelease LiabilityAuthoritativeRelease) with true in Hv. cbv iota in Hv.
  apply andb_prop in Hv as [Hv Hs]. apply andb_prop in Hv as [Hh He]. apply String.eqb_eq in Hs. done.
Qed.

Lemma renewed_ok id row owner now until :
  leased_by row owner now = true -> row_ok id row = true -> row_ok id (row <| row_LeaseUntil := Some until |>) = true.
Proof.
  unfold leased_by, row_ok, lease_coherent, completion_coherent, terminal. upd. intros Hl. apply andb_prop in Hl as [_ Hl].
  destruct (row_LeaseUntil row); [done | discriminate].
Qed.

Lemma valid_change id o row' : row_change id o (Some row') -> from_option (row_valid id) True o -> row_valid id row'.
Proof.
  unfold row_valid, release_sound. intros Hc Ho.
  inversion Hc as [|item now Hk|rs owner kind now lease row1 Hcl Hk|owner now until row1 Hl|owner now item st r row1 Hl Hs Hv Hh He Hk]; subst.
  - exact Ho.
  - split; [done|]. unfold new_row. cbn. discriminate.
  - split; [done|]. unfold claim_row. upd. discriminate.
  - cbn in Ho. destruct Ho as [Hok Hr]. split; [by eapply renewed_ok | upd; exact Hr].
  - split; [done|]. unfold complete_row. upd. intros Hd. apply validWorkerResult_release in Hv as (Hih & Hie & Hst); [|done].
    rewrite Hst in Hs. injection Hs as <-. by rewrite Hh, He.
Qed.

(** C34: the table stays valid: after every history every row satisfies the table's
    constraints, a completed or dead-lettered row has no lease, and an authoritative
    release is recorded only for completed work whose liability was held and whose
    release the ledger had marked as eligible. *)
Theorem queue_stays_valid t calls :
  (forall id row, t !! id = Some row -> row_valid id row) ->
  forall id row, queue_run t calls !! id = Some row ->
    row_ok id row = true /\
    (terminal (row_State row) = true -> row_LeaseOwner row = ""%string /\ row_LeaseUntil row = None) /\
    (row_Disposition row = LiabilityAuthoritativeRelease ->
       row_State row = RowCompleted /\ row_LiabilityHeld row = true /\ row_ReleaseEligible row = true).
Proof.
  intros Ht id row Hl. assert (Hv : row_valid id row).
  { pose proof (queue_run_keeps row_valid valid_change calls t id) as Hk. rewrite Hl in Hk. apply Hk.
    destruct (t !! id) as [row0|] eqn:E; [by apply Ht | done]. }
  destruct Hv as [Hok Hr]. split; [done|]. split; [|done]. intros Hterm. unfold row_ok in Hok. bool_to_prop.
  match goal with H : lease_coherent row = true |- _ => unfold lease_coherent in H; revert H end.
  destruct (row_LeaseUntil row) as [u|], (row_State row); try discriminate; intros Hc; apply andb_prop in Hc as [_ Hc];
    by apply String.eqb_eq in Hc.
Qed.

(** ** Leases *)

(** A call that another worker than [owner], or no worker at all, makes. *)
Definition foreign (owner : string) (q : queue_call) : Prop :=
  match q with QRenew o _ _ => o <> owner | QComplete o _ _ => o <> owner | _ => True end.

Lemma leased_not_claimable row owner now kind : leased_by row owner now = true -> claimable kind now row = false.
Proof.
  unfold leased_by, claimable. intros Hl. bool_to_prop. destruct (row_State row); try discriminate.
  destruct (row_LeaseUntil row) as [u|]; [|discriminate]. bool_to_prop.
  rewrite (proj2 (Z.ltb_ge _ _)) by lia. cbn. apply andb_false_r.
Qed.

Lemma leased_by_owner row a b now : leased_by row a now = true -> leased_by row b now = true -> a = b.
Proof. unfold leased_by. intros Ha Hb. bool_to_prop. congruence. Qed.

Lemma enqueue_keeps t rs now item t' b id row :
  enqueueWorkerItemTx t rs now item = Ok (t', b) -> t !! id = Some row -> t' !! id = Some row.
Proof.
  intros [[-> _] | (Hn & _ & _ & ->)]%enqueueWorkerItemTx_cases Hl; [done|]. rewrite lookup_insert_ne; congruence.
Qed.

Lemma enqueue_all_keeps items rs now id row : forall t t' n,
  enqueue_all t rs now items = Ok (t', n) -> t !! id = Some row -> t' !! id = Some row.
Proof.
  induction items as [|item items IH]; intros t t' n; cbn [enqueue_all]; [intros E; by injection E as <- _|].
  destruct (enqueueWorkerItemTx t rs now item) as [[t1 b]|] eqn:E1; [|discriminate].
  destruct (enqueue_all t1 rs now items) as [[t2 k]|] eqn:E2; [|discriminate]. intros E Hl. injection E as <- _.
  by eapply IH, enqueue_keeps.
Qed.

Lemma EnqueueWorkerItem_keeps t rs now item id row :
  t !! id = Some row -> (EnqueueWorkerItem t rs now item).1 !! id = Some row.
Proof.
  unfold EnqueueWorkerItem. destruct (enqueueWorkerItemTx t rs now item) as [[t' b]|] eqn:E; [by eapply enqueue_keeps | done].
Qed.

Lemma enqueue_batch_keeps t rs now items (bad : bool) m id row : t !! id = Some row ->
  (if bad then (t, Err m) else match enqueue_all t rs now items with
                               | Ok (t', n) => (t', Ok n) | Err m => (t, Err m) end).1 !! id = Some row.
Proof.
  intros Hl. destruct bad; [done|]. destruct (enqueue_all t rs now items) as [[t' n]|] eqn:E; [by eapply enqueue_all_keeps | done].
Qed.

(** One call of somebody else leaves a row under a live lease as it is. *)
Lemma foreign_step t q now rs id row owner :
  t !! id = Some row -> leased_by row owner now = true -> foreign owner q -> queue_step t (q, now, rs) !! id = Some row.
Proof.
  intros Hl Hb Hf. pose proof (queue_step_some t (q, now, rs) id ltac:(by rewrite Hl)) as [row' Hl']. revert Hl' Hf.
  destruct q as [o kind limit lease locked|o item lease|o item result|item|limit locked|limit tasks|limit outbox
                |kind scope period payload]; cbn [queue_step foreign]; intros Hl' Hf.
  - destruct (ClaimWork _ _ _ _ _ _ _ _) as [t' r] eqn:E. cbn [fst] in *.
    destruct (ClaimWork_lookup _ _ _ _ _ _ _ _ _ _ _ _ E Hl') as [Hs | (row1 & Hs & Hc & _)]; [congruence|].
    assert (row1 = row) as -> by congruence. by rewrite (leased_not_claimable _ _ _ _ Hb) in Hc.
  - destruct (RenewWork _ _ _ _ _) as [t' r] eqn:E. cbn [fst] in *.
    destruct (RenewWork_lookup _ _ _ _ _ _ _ _ _ E Hl') as [Hs | (row1 & Hs & Hc & _)]; [congruence|].
    assert (row1 = row) as -> by congruence. by destruct Hf; eapply leased_by_owner.
  - destruct (CompleteWork _ _ _ _ _) as [t' r] eqn:E. cbn [fst] in *.
    destruct (CompleteWork_cases _ _ _ _ _ _ _ E) as [-> | (row1 & st & Hs & Hc & _ & _ & _ & _ & _ & -> & _)]; [done|].
    destruct (decide (item_ID item = id)) as [<-|Hne]; [|by rewrite lookup_insert_ne].
    assert (row1 = row) as -> by congruence. by destruct Hf; eapply leased_by_owner.
  - by apply EnqueueWorkerItem_keeps.
  - by apply enqueue_batch_keeps.
  - by apply enqueue_batch_keeps.
  - by apply enqueue_batch_keeps.
  - unfold EnqueuePeriodicWork. destruct (_ || _); [done | by apply EnqueueWorkerItem_keeps].
Qed.

(** C33: a lease is exclusive: while it runs, no sequence of calls by other workers and
    enqueuers, whatever they claim, renew, complete or enqueue, changes the row; only
    its owner can. *)
Theorem lease_is_exclusive t id row owner until calls :
  t !! id = Some row -> row_State row = RowLeased -> row_LeaseOwner row = owner -> row_LeaseUntil row = Some until ->
  Forall (fun '(q, now, _) => foreign owner q /\ now <= until) calls -> queue_run t calls !! id = Some row.
Proof.
  intros Hl Hs Ho Hu Hc. revert t Hl. induction Hc as [|[[q now] rs] calls [Hf Hn] _ IH]; intros t Hl; [done|].
  apply IH. apply foreign_step with owner; [done | | done]. unfold leased_by.
  rewrite Hs, Ho, Hu, String.eqb_refl, (proj2 (Z.leb_le _ _)) by done. done.
Qed.

(** ** Conflicting sources *)

Definition same_key (r1 r2 : WorkRow) : Prop := row_Kind r1 = row_Kind r2 /\ row_SourceKey r1 = row_SourceKey r2.
(** [UNIQUE(kind,source_key)]. *)
Definition unique_sources (t : work_table) : Prop :=
  forall id1 id2 r1 r2, t !! id1 = Some r1 -> t !! id2 = Some r2 -> same_key r1 r2 -> id1 = id2.

Lemma same_source_none t item id row : same_source t item = None -> t !! id = Some row -> ~ same_key row (new_row item 0).
Proof.
  intros E Hl [Hk Hs]. unfold same_source in E. apply elem_of_map_to_list, list_elem_of_In in Hl.
  apply (List.find_none _ _ E) in Hl. cbn in Hl, Hk, Hs. by rewrite Hk, Hs, !String.eqb_refl in Hl.
Qed.

Lemma same_source_some t item id row : unique_sources t -> t !! id = Some row -> same_key row (new_row item 0) ->
  same_source t item = Some (id, row).
Proof.
  intros Hu Hl Hk. destruct (same_source t item) as [[k x]|] eqn:E; [|by destruct (same_source_none _ _ _ _ E Hl)].
  unfold same_source in E. apply List.find_some in E as [Hin Hx]. apply list_elem_of_In, elem_of_map_to_list in Hin.
  bool_to_prop. assert (k = id) as -> by (eapply Hu; [exact Hin | exact Hl |]; destruct Hk; cbn in *; split; congruence).
  congruence.
Qed.

Lemma enqueue_unique t rs now item t' b : enqueueWorkerItemTx t rs now item = Ok (t', b) -> unique_sources t -> unique_sources t'.
Proof.
  intros E Hu. destruct (same_source t item) as [[k x]|] eqn:Es.
  - unfold enqueueWorkerItemTx in E. destruct (_ || _); [discriminate|]. rewrite Es in E.
    destruct (bound_alike x item); [|discriminate]. by injection E as <- _.
  - apply enqueueWorkerItemTx_cases in E as [[-> _] | (_ & _ & _ & ->)]; [done|].
    intros id1 id2 r1 r2 [[<- <-] | [_ H1]]%lookup_insert_Some [[<- <-] | [_ H2]]%lookup_insert_Some Hk; [done|..|by eapply Hu].
    + destruct (same_source_none _ _ _ _ Es H2). destruct Hk as [Hk Hs]. cbn in *. by split.
    + by destruct (same_source_none _ _ _ _ Es H1).
Qed.

Lemma enqueue_all_conflict rs now id row item items : item ∈ items -> same_key row (new_row item 0) -> bound_alike row item = false ->
  forall t, unique_sources t -> t !! id = Some row -> exists m, enqueue_all t rs now items = Err m.
Proof.
  intros Hin Hk Hb. induction items as [|i items IH]; [by apply not_elem_of_nil in Hin|]. intros t Hu Hl. cbn [enqueue_all].
  destruct (enqueueWorkerItemTx t rs now i) as [[t1 b]|m] eqn:E; [|by eexists].
  apply elem_of_cons in Hin as [->|Hin].
  - exfalso. unfold enqueueWorkerItemTx in E. destruct (_ || _); [discriminate|].
    by rewrite (same_source_some _ _ _ _ Hu Hl Hk), Hb in E.
  - destruct (IH Hin t1) as [m ->]; [by eapply enqueue_unique | by eapply enqueue_keeps | by eexists].
Qed.

(** one conflict blocks the whole sweep: when the work item of an overdue
    reservation was enqueued before the reservation moved to another state, its
    payload has changed, and [EnqueueExpiredWork] enqueues nothing at all, however
    many other reservations are overdue, as long as that one stays overdue. *)
Theorem conflict_blocks_expiry_sweep t reservations locked limit now id r row :
  unique_sources t -> expiry_item id r ∈ expiry_items reservations locked limit now ->
  t !! work_id (expiry_item id r) = Some row -> same_key row (new_row (expiry_item id r) 0) ->
  row_PayloadSHA256 row <> enq_PayloadSHA256 (expiry_item id r) ->
  exists m, EnqueueExpiredWork t reservations locked limit now = (t, Err m).
Proof.
  intros Hu Hin Hl Hk Hp. unfold EnqueueExpiredWork. destruct (_ || _); [by eexists|].
  assert (Hb : bound_alike row (expiry_item id r) = false).
  { unfold bound_alike. by rewrite (proj2 (String.eqb_neq _ _) Hp), andb_false_r. }
  destruct (enqueue_all_conflict reservations now _ _ _ _ Hin Hk Hb t Hu Hl) as [m ->]. by eexists.
Qed.

(** ** What the worker reports is accepted *)

(** The dispositions a handler may answer with. *)
Definition answer_ok (item : WorkItem) (a : WorkResult * option work_error) : Prop :=
  (a.2 = None -> closed_state (wr_State a.1)) /\
  (wr_LiabilityDisposition a.1 = ""%string \/ wr_LiabilityDisposition a.1 = LiabilityPreserve \/
   wr_LiabilityDisposition a.1 = LiabilityAuthoritativeRelease /\ item_LiabilityHeld item = true /\
   item_AuthoritativeReleaseEligible item = true /\ a.2 = None /\ wr_State a.1 = StateCompleted).

Lemma handle_ok kind item expired pending audits :
  (item_AuthoritativeReleaseEligible item = true -> item_LiabilityHeld item = true) ->
  answer_ok item (handle kind item expired pending audits).
Proof.
  intros He. unfold handle, answer_ok, closed_state, handleExpiry, handleOutboxRepair, retry, complete.
  repeat case_match; cbn; (split; [auto; try discriminate|]); auto.
  all: match goal with Hx : existsb _ _ = true |- _ => apply existsb_exists in Hx as (record & _ & Hx) end.
  all: unfold releases in Hx || (match goal with Hx : releases _ _ = true |- _ => unfold releases in Hx end); bool_to_prop; right; right; auto.
Qed.

Lemma normalized_valid config item a now :
  config_bounds_ok config = true -> cfg_MaxBackoff config <= max_int64 -> 0 <= now -> answer_ok item a ->
  let r := default_disposition (normalizeResult config item a.1 a.2 now) in
  validWorkerResult item r = true /\ closed_state (wr_State r).
Proof.
  intros Hc Hm Hn [Hst Hd]. cbn zeta. unfold normalizeResult.
  pose proof (prepareResult_spec config item a.1 a.2) as (Hr & Hpd & Hs).
  pose proof (backoff_bounds config (item_Attempt item) Hc Hm) as Hb.
  set (r := prepareResult config item a.1 a.2) in *. clearbody r. cbn zeta. rewrite <- Hpd in Hd. clear Hpd.
  assert (Hcl : closed_state (wr_State r)).
  { unfold closed_state in *. rewrite Hs. destruct a.2; [case_match; auto|].
    destruct (Hst eq_refl) as [-> | [-> | ->]]; cbn; auto. }
  assert (Hrel : wr_LiabilityDisposition r = LiabilityAuthoritativeRelease ->
    item_LiabilityHeld item = true /\ item_AuthoritativeReleaseEligible item = true /\ wr_State r = StateCompleted).
  { intros E. destruct Hd as [Hd | [Hd | (_ & Hh & He & Hn2 & Hsc)]]; [by rewrite E in Hd..|]. rewrite Hs, Hn2, Hsc. by cbn. }
  assert (Hdd : wr_LiabilityDisposition r = ""%string \/ wr_LiabilityDisposition r = LiabilityPreserve \/
    wr_LiabilityDisposition r = LiabilityAuthoritativeRelease) by intuition.
  clear Hs Hst Hd a.
  assert (Hz : IsZero (time_add now (backoff config (item_Attempt item))) = false).
  { unfold IsZero, time_add. apply Z.eqb_neq. unfold zero_time, Second. lia. }
  revert Hz. generalize (time_add now (backoff config (item_Attempt item))). intros next Hz.
  unfold validWorkerResult, default_disposition, preserve_if_held, closed_state.
  pose proof (eq_refl : IsZero zero_time = true) as Hzz. revert Hr Hz Hzz.
  destruct r as [state reason at0 disposition]. cbn [wr_State wr_ReasonCode wr_NextAttemptAt wr_LiabilityDisposition] in *.
  generalize (cfg_MaxAttempts config <=? item_Attempt item). intros last Hr Hz Hzz.
  destruct Hdd as [-> | [-> | ->]]; [| |destruct (Hrel eq_refl) as (-> & -> & ->)].
  1, 2: destruct Hcl as [-> | [-> | ->]], (item_LiabilityHeld item), (item_AuthoritativeReleaseEligible item), last.
  all: cbv -[reasonPattern IsZero zero_time]; rewrite ?Hr, ?Hz, ?Hzz; auto.
Qed.
Lemma NoDup_fst_unique {A} (l : list (string * A)) k x y : NoDup l.*1 -> In (k, x) l -> In (k, y) l -> x = y.
Proof.
  intros Hnd Hx Hy. apply list_elem_of_In in Hx, Hy. apply (elem_of_list_to_map_1 (M:=gmap string)) in Hx, Hy; [congruence|done..].
Qed.

(** What a claim hands out is in the table, under a lease of the claimant. *)
Lemma ClaimWork_item t rs locked owner now kind limit lease t' items item :
  ClaimWork t rs locked owner now kind limit lease = (t', Ok items) -> item ∈ items ->
  exists row, t' !! item_ID item = Some row /\ item = item_of (item_ID item) row /\ row_ok (item_ID item) row = true /\
    row_State row = RowLeased /\ row_LeaseOwner row = owner /\ row_LeaseUntil row = Some (lease_end now lease) /\ owner <> ""%string.
Proof.
  unfold ClaimWork. destruct (_ || _) eqn:Hb; [discriminate|]. bool_to_prop. cbn zeta.
  destruct (forallb _ _) eqn:Hok; [|discriminate]. intros E Hin. injection E as <- <-.
  apply list_elem_of_In, in_map_iff in Hin as ([id row] & <- & Hin). change (item_ID (item_of id row)) with id.
  pose proof (proj1 (forallb_forall _ _) Hok _ Hin) as Hr. cbn in Hr. exists row.
  split; [|split; [done|split; [done|]]].
  - rewrite store_rows_lookup by apply NoDup_map_rows, picked_NoDup.
    destruct (List.find _ _) as [[k x]|] eqn:Ef.
    + apply List.find_some in Ef as [Hin' Hk]. apply String.eqb_eq in Hk as ->. f_equal.
      eapply NoDup_fst_unique; [apply NoDup_map_rows, picked_NoDup | exact Hin' | exact Hin].
    + apply (List.find_none _ _ Ef) in Hin. cbn in Hin. by rewrite String.eqb_refl in Hin.
  - apply in_map_iff in Hin as ([k x] & Ex & _). injection Ex as _ <-. unfold claim_row. upd. repeat split.
    intros ->. match goal with Hw : workerTokenPattern _ = true |- _ => vm_compute in Hw; discriminate Hw end.
Qed.

Lemma row_state_closed s : closed_state s -> exists st, row_state s = Some st /\ st <> RowPending /\ st <> RowLeased.
Proof. intros [-> | [-> | ->]]; eexists; (split; [reflexivity | done]). Qed.

Context `{!CryptoLaws}.

(** A completion keeps a valid row valid. *)
Lemma complete_row_ok id now st item r row : row_ok id row = true -> validWorkerResult item r = true ->
  row_state (wr_State r) = Some st -> row_ok id (complete_row now st r row) = true.
Proof.
  intros Hok Hv Hs. unfold validWorkerResult in Hv. apply andb_prop in Hv as [Hv Hd]. apply andb_prop in Hv as [Hre Hst].
  assert (Hdis : String.eqb (wr_LiabilityDisposition r) LiabilityPreserve || String.eqb (wr_LiabilityDisposition r) LiabilityAuthoritativeRelease = true).
  { destruct (String.eqb (wr_LiabilityDisposition r) LiabilityAuthoritativeRelease); [apply orb_true_r | by rewrite Hd]. }
  assert (Hst' : st = RowCompleted \/ st = RowRetry \/ st = RowDeadLetter).
  { unfold row_state in Hs.
    destruct (String.eqb (wr_State r) StateCompleted); [injection Hs as <-; auto|].
    destruct (String.eqb (wr_State r) StateRetry); [injection Hs as <-; auto|].
    destruct (String.eqb (wr_State r) StateDeadLetter); [injection Hs as <-; auto | discriminate]. }
  unfold row_ok in *. apply andb_prop in Hok as [Hok He]. apply andb_prop in Hok as [Hok Hcc].
  apply andb_prop in Hok as [Hok _]. bool_to_prop.
  unfold complete_row, lease_coherent, completion_coherent, terminal. upd.
  assert (Hdig : is_sha256 (workerCompletionDigest r) = true) by apply sha256_hex_ok.
  assert (Hne : String.eqb (workerCompletionDigest r) "" = false).
  { apply String.eqb_neq. intros E. rewrite E in Hdig. discriminate Hdig. }
  rewrite Hdig, Hne, Hre, Hdis, !(proj2 (Z.leb_le _ _)) by done.
  repeat match goal with Hx : ?b = true |- context [?b] => rewrite Hx end. rewrite !orb_true_r.
  by destruct Hst' as [-> | [-> | ->]].
Qed.

(** C32: the queue and the worker fit together: an item that a worker claimed, whatever
    the answers of the ledger its handler asks for and whatever errors they report,
    is completed, retried or dead-lettered by the call the worker makes before its
    lease ends: the call succeeds and writes exactly the reported state. *)
Theorem claimed_work_is_settled t rs locked owner now kind limit lease t' items item config expired pending audits reported at_ :
  ClaimWork t rs locked owner now kind limit lease = (t', Ok items) -> item ∈ items ->
  config_bounds_ok config = true -> cfg_MaxBackoff config <= max_int64 -> 0 <= reported -> at_ <= lease_end now lease ->
  let answer := handle (cfg_Kind config) item expired pending audits in
  let report := normalizeResult config item answer.1 answer.2 reported in
  exists row', CompleteWork t' owner at_ item report = (<[item_ID item := row']> t', None) /\
    row_state (wr_State report) = Some (row_State row') /\ row_ok (item_ID item) row' = true /\
    row_State row' <> RowPending /\ row_State row' <> RowLeased.
Proof.
  intros Hclaim Hin Hc Hm Hn Ha. cbn zeta.
  destruct (ClaimWork_item _ _ _ _ _ _ _ _ _ _ _ Hclaim Hin) as (row & Hl & Hi & Hok & Hs & Ho & Hu & Hne).
  assert (Hheld : item_AuthoritativeReleaseEligible item = true -> item_LiabilityHeld item = true).
  { rewrite Hi. cbn. intros He. unfold row_ok in Hok. apply andb_prop in Hok as [_ Hok]. by rewrite He in Hok. }
  destruct (normalized_valid config item _ reported Hc Hm Hn (handle_ok (cfg_Kind config) item expired pending audits Hheld)) as [Hv Hcl].
  set (report := normalizeResult config item _ _ reported) in *. clearbody report.
  assert (Est : wr_State (default_disposition report) = wr_State report) by (unfold default_disposition; by case_match).
  destruct (row_state_closed _ Hcl) as (st & Hst & Hp & Hle). exists (complete_row at_ st (default_disposition report) row).
  pose proof (complete_row_ok (item_ID item) at_ st item _ row Hok Hv Hst) as Hok'.
  assert (Hid : String.eqb (item_ID item) "" = false).
  { apply String.eqb_neq. intros E. rewrite E in Hok. unfold row_ok in Hok. bool_to_prop. discriminate. }
  assert (Hlb : leased_by row owner at_ = true).
  { unfold leased_by. by rewrite Hs, Ho, Hu, String.eqb_refl, (proj2 (Z.leb_le _ _)). }
  split; [|rewrite <- Est; unfold complete_row at 1 3 4; upd; by split_and!].
  unfold CompleteWork. cbn zeta. rewrite Hst, Hid, Hv, Hl.
  assert (Hio : item_LeaseOwner item = owner) by (rewrite Hi; done).
  assert (Hih : Bool.eqb (row_LiabilityHeld row) (item_LiabilityHeld item) = true) by (rewrite Hi; apply eqb_reflx).
  assert (Hie : Bool.eqb (row_ReleaseEligible row) (item_AuthoritativeReleaseEligible item) = true) by (rewrite Hi; apply eqb_reflx).
  by rewrite Hio, String.eqb_refl, Hlb, Hih, Hie, Hok'.
Qed.
End histories.
