(* ===== verification/WorkQueueExample.v ===== *)
(** * Concrete runs of the durable work queue

    An audit checkpoint that is enqueued, claimed and completed, and the expiry of
    a delivered request, over the engine of EngineExample.v; the witnesses of the
    theorems of WorkQueueProofs.v. *)

From Stdlib Require Import ZArith Lia Ascii String.
From stdpp Require Import base gmap strings list pretty.
From S2P Require Import Prelude Digest GoTime Api Json Pricing Ledger Cohorts Engine EngineExample Worker WorkQueue WorkQueueProofs.

Open Scope string_scope.
Open Scope list_scope.
Open Scope Z_scope.
Open Scope go_scope.

#[local] Existing Instance go_crypto.

Module QueueExample.
Definition now : Time := PricingExample.now.
Definition no_reservations : gmap string Reservation := ∅.
Definition enqueued : work_table := Eval vm_compute in
  (EnqueuePeriodicWork ∅ no_reservations now KindAuditCheckpoint "red" now (CohortExample.digit_digest "7")).1.
Definition claim (t : work_table) (kind : string) (rs : gmap string Reservation) (at_ : Time) : work_table * result (list WorkItem) :=
  ClaimWork t rs ∅ "worker-1" at_ kind 32 (30 * Second).
Definition claim_outcome : work_table * result (list WorkItem) := Eval vm_compute in claim enqueued KindAuditCheckpoint no_reservations now.
Definition claimed : work_table := Eval cbv in claim_outcome.1.
Definition item : WorkItem := Eval cbv in match claim_outcome.2 with Ok (i :: _) => i | _ => Build_WorkItem "" "" "" "" "" 0 0 false false "" end.
Definition row : WorkRow := Eval vm_compute in default (new_row (Build_WorkerEnqueue "" "" "" "" 0 false false "") 0) (claimed !! item_ID item).
Definition config : Config := DefaultConfig KindAuditCheckpoint.
Definition report : WorkResult := Eval vm_compute in
  let answer := handle KindAuditCheckpoint item None None true in normalizeResult config item answer.1 answer.2 now.
Definition completed : work_table := Eval vm_compute in (CompleteWork claimed "worker-1" (now + Second) item report).1.
Definition done_row : WorkRow := Eval vm_compute in default row (completed !! item_ID item).

(** The calls of another worker, while the lease runs. *)
Definition intruder : list (queue_call * Time * gmap string Reservation) :=
  [(QClaim "worker-2" KindAuditCheckpoint 10 (30 * Second) ∅, now + 10 * Second, no_reservations);
   (QRenew "worker-2" item (30 * Second), now + 20 * Second, no_reservations);
   (QComplete "worker-2" item report, now + 30 * Second, no_reservations)].

(** A delivered request that is overdue: swept, moved to [UNRESOLVED], swept again. *)
Definition late : Time := Eval vm_compute in res_Expiry (EngineExample.request EngineExample.delivered) + Second.
Definition overdue : Engine := Eval vm_compute in EngineExample.delivered <| engine_now := late |>.
Definition swept : work_table := Eval vm_compute in (EnqueueExpiredWork ∅ (engine_reservations overdue) ∅ 10 late).1.
Definition unresolved : Engine := Eval vm_compute in match ReconcileExpired overdue late with Some (e, _) => e | None => overdue end.
Definition overdue_request : Reservation := Eval vm_compute in EngineExample.request unresolved.
Definition swept_id : string := Eval vm_compute in work_id (expiry_item "req-1" overdue_request).
Definition swept_row : WorkRow := Eval vm_compute in default row (swept !! swept_id).
End QueueExample.

Import QueueExample.

Lemma finished_work_is_final_witness :
  completed !! item_ID item = Some done_row /\ terminal (row_State done_row) = true /\
  queue_run completed intruder !! item_ID item = Some done_row.
Proof.
  assert (Hl : completed !! item_ID item = Some done_row) by (vm_compute; reflexivity).
  split; [exact Hl|]. split; [reflexivity|]. exact (finished_work_is_final completed _ _ intruder Hl eq_refl).
Defined.

Lemma queue_stays_valid_witness : row_ok (item_ID item) done_row = true.
Proof.
  assert (Hl : completed !! item_ID item = Some done_row) by (vm_compute; reflexivity).
  refine (proj1 (queue_stays_valid ∅ [(QEnqueuePeriodic KindAuditCheckpoint "red" now (CohortExample.digit_digest "7"), now, no_reservations);
    (QClaim "worker-1" KindAuditCheckpoint 32 (30 * Second) ∅, now, no_reservations);
    (QComplete "worker-1" item report, now + Second, no_reservations)] _ (item_ID item) done_row _)).
  - intros id row0 Hl0. rewrite lookup_empty in Hl0. discriminate Hl0.
  - vm_compute. reflexivity.
Defined.

Lemma lease_is_exclusive_witness :
  claimed !! item_ID item = Some row /\ queue_run claimed intruder !! item_ID item = Some row.
Proof.
  assert (Hl : claimed !! item_ID item = Some row) by (vm_compute; reflexivity).
  split; [exact Hl|]. apply (lease_is_exclusive claimed _ row "worker-1" (now + 30 * Second) intruder Hl); [reflexivity..|].
  unfold intruder, foreign, Second. repeat (apply Forall_cons; split; [split; [first [exact I | discriminate] | lia]|]). apply Forall_nil_2.
Defined.

Lemma claimed_work_is_settled_witness : exists row',
  CompleteWork claimed "worker-1" (now + Second) item report = (<[item_ID item := row']> claimed, None) /\
  row_State row' = RowCompleted.
Proof.
  assert (Hc : ClaimWork enqueued no_reservations ∅ "worker-1" now KindAuditCheckpoint 32 (30 * Second) = (claimed, Ok [item]))
    by (vm_compute; reflexivity).
  assert (Hin : item ∈ [item]) by (apply list_elem_of_In; left; reflexivity).
  pose proof (claimed_work_is_settled enqueued no_reservations ∅ "worker-1" now KindAuditCheckpoint 32 (30 * Second) claimed [item] item
    config None None true now (now + Second) Hc Hin eq_refl ltac:(vm_compute; discriminate) ltac:(vm_compute; discriminate)
    ltac:(vm_compute; discriminate)) as (row' & Hw & Hs & _ & _ & _).
  exists row'. split; [exact Hw|]. change (Some RowCompleted = Some (row_State row')) in Hs. congruence.
Defined.

Lemma swept_is : swept = {[swept_id := swept_row]}.
Proof. vm_compute. reflexivity. Qed.

Lemma conflict_blocks_expiry_sweep_witness :
  res_State overdue_request = StateUnresolved /\
  exists m, EnqueueExpiredWork swept (engine_reservations unresolved) ∅ 10 (late + Minute) = (swept, Err m).
Proof.
  split; [reflexivity|].
  apply (conflict_blocks_expiry_sweep swept (engine_reservations unresolved) ∅ 10 (late + Minute) "req-1" overdue_request swept_row).
  - rewrite swept_is. intros id1 id2 r1 r2 H1 H2 _. apply lookup_singleton_Some in H1 as [<- _], H2 as [<- _]. reflexivity.
  - apply list_elem_of_In. vm_compute. left. reflexivity.
  - vm_compute. reflexivity.
  - vm_compute. split; reflexivity.
  - vm_compute. discriminate.
Defined.
