(* ===== verification/Postgres.v ===== *)
(** * The PostgreSQL ledger engine

    [internal/govar/postgres_engine.go], [ledger_extensions_postgres.go],
    [postgres_audit.go] and the selected-feedback authority of
    [selected_feedback_postgres.go]: the transactions that apply the transitions of
    [Ledger] to SQL rows, with the checks and unique indexes the schema declares.

    A transaction is a function from the database to the database it commits, or a
    failure, which leaves the database as it was. [scan_order] is the order in which
    the server returns the rows of a query without [ORDER BY]. JSONB columns hold
    the values given to the encoder (the times of a pricing snapshot in whole
    seconds), timestamps are whole microseconds, and an attempt reads its two clocks,
    [pg_now] of the process and [pg_clock] of the server, once. *)

From Stdlib Require Import ZArith Lia Ascii String.
From stdpp Require Import base gmap strings list pretty.
From S2P Require Import Prelude Digest GoTime Api Json JsonDecode Pricing Calibration Routes AdmissionPolicy Ledger Cohorts Engine Wire AuditChain WorkQueue.

Open Scope string_scope.
Open Scope list_scope.
Open Scope Z_scope.
Open Scope go_scope.

(** ** Audit digests *)

Definition json_list (l : list jvalue) : jvalue := match l with [] => JNull | _ => JArray l end.
Definition json_Z (z : Z) : jvalue := JNumber (pretty z).

(** A [metav1.Time]. *)
Definition metav1_json (t : Time) : jvalue := if IsZero t then JNull else JString (RFC3339 t).

Definition charge_json (c : NormalizedCharge) : jvalue :=
  JObject ([("basis", JString (row_Basis c)); ("applicability", JString (row_Applicability c));
    ("priceMicrosPerUnit", json_Z (row_PriceMicrosPerUnit c)); ("unitDenominator", json_Z (row_UnitDenominator c));
    ("settlementUsageField", JString (row_SettlementUsageField c))]%string ++
    match row_IncludedIn c with Some b => [("includedIn"%string, JString b)] | None => [] end ++
    match row_MaximumQuantity c with Some q => [("maximumQuantity"%string, json_Z q)] | None => [] end ++
    text_member "requestBoundField" (row_RequestBoundField c) ++
    (if row_DisjointUsage c then [("disjointUsage"%string, JBool true)] else [])).

Definition snapshot_json (s : NormalizedPricingSnapshot) : jvalue :=
  JObject ([("specGeneration", json_Z (snap_SpecGeneration s)); ("version", JString (snap_Version s));
    ("observedAt", metav1_json (snap_ObservedAt s)); ("validUntil", metav1_json (snap_ValidUntil s));
    ("currency", JString (snap_Currency s)); ("completeness", JString (snap_Completeness s));
    ("snapshotSHA256", JString (snap_SnapshotSHA256 s)); ("adapterVersion", JString (snap_AdapterVersion s));
    ("evidenceMode", JString (snap_EvidenceMode s)); ("evidenceSHA256", JString (snap_EvidenceSHA256 s));
    ("sourceVersion", JString (snap_SourceVersion s)); ("charges", json_list (map charge_json (snap_Charges s)))]%string ++
    match snap_InapplicableBases s with
    | [] => []
    | bases => [("inapplicableBases"%string, JArray (map JString bases))]
    end).

Definition component_json (c : ChargeComponent) : jvalue :=
  JObject [("basis", JString (cc_Basis c)); ("quantity", json_Z (cc_Quantity c));
    ("price_micros_per_unit", json_Z (cc_PriceMicrosPerUnit c)); ("unit_denominator", json_Z (cc_UnitDenominator c));
    ("reserved_micros", json_Z (cc_ReservedMicros c))]%string.
Definition actual_json (c : ActualChargeComponent) : jvalue :=
  JObject [("basis", JString (ac_Basis c)); ("quantity", json_Z (ac_Quantity c));
    ("price_micros_per_unit", json_Z (ac_PriceMicrosPerUnit c)); ("unit_denominator", json_Z (ac_UnitDenominator c));
    ("actual_micros", json_Z (ac_ActualMicros c)); ("reserved_quantity", json_Z (ac_ReservedQuantity c));
    ("exceeded_bound", JBool (ac_ExceededBound c))]%string.

(** [auditState]: every liability field of a reservation. *)
Definition audit_state (r : Reservation) : jvalue :=
  JObject [("RequestID", JString (res_RequestID r)); ("TenantID", JString (res_TenantID r));
    ("WorkloadUID", JString (res_WorkloadUID r)); ("SelectedDeployment", JString (res_SelectedDeployment r));
    ("ProviderAttemptID", JString (res_ProviderAttemptID r)); ("OutboxID", JString (res_OutboxID r));
    ("OutboxState", JString (sql_outbox (res_OutboxState r))); ("State", JString (sql_state (res_State r)));
    ("ReservedCostMicros", json_Z (res_ReservedCostMicros r));
    ("ReservedComponents", json_list (map component_json (res_ReservedComponents r)));
    ("PricingSnapshot", snapshot_json (res_PricingSnapshot r));
    ("PricingSnapshotSHA256", JString (res_PricingSnapshotSHA256 r)); ("CapEvidenceSHA256", JString (res_CapEvidenceSHA256 r));
    ("ActualComponents", json_list (map actual_json (res_ActualComponents r)));
    ("MissingUsageBases", json_list (map JString (res_MissingUsageBases r)));
    ("ComponentBoundExceeded", JBool (res_ComponentBoundExceeded r));
    ("ProvisionalCostMicros", json_Z (res_ProvisionalCostMicros r)); ("BaseActualMicros", json_Z (res_BaseActualMicros r));
    ("SettledEffectMicros", json_Z (res_SettledEffectMicros r)); ("ResidualHoldMicros", json_Z (res_ResidualHoldMicros r));
    ("UsageVersion", json_Z (res_UsageVersion r)); ("Finalized", JBool (res_Finalized r));
    ("PolicyVersion", JString (res_PolicyVersion r)); ("PricingVersion", JString (res_PricingVersion r));
    ("ReservationMode", JString (res_ReservationMode r)); ("RiskLevel", JString (res_RiskLevel r));
    ("AllocatedRiskPPB", json_Z (res_AllocatedRiskPPB r));
    ("InputPriceMicrosPerMillion", json_Z (res_InputPriceMicrosPerMillion r));
    ("OutputPriceMicrosPerMillion", json_Z (res_OutputPriceMicrosPerMillion r));
    ("AdmissionFingerprint", JString (res_AdmissionFingerprint r));
    ("CandidateSnapshotVersion", JString (res_CandidateSnapshotVersion r)); ("RouteSnapshot", route_json (res_RouteSnapshot r));
    ("CohortID", JString (res_CohortID r)); ("CohortIndex", json_Z (res_CohortIndex r));
    ("CohortRegistryDigest", JString (res_CohortRegistryDigest r));
    ("CalibrationArtifactSHA256", JString (res_CalibrationArtifactSHA256 r));
    ("SelectedFeedbackBindingSHA256", JString (res_SelectedFeedbackBindingSHA256 r));
    ("OriginWindowID", JString (res_OriginWindowID r)); ("EnforcementWindowID", JString (res_EnforcementWindowID r));
    ("RolloverGuardMicros", json_Z (res_RolloverGuardMicros r)); ("CarryEffectMicros", json_Z (res_CarryEffectMicros r));
    ("HistoricalCreditMicros", json_Z (res_HistoricalCreditMicros r)); ("Carried", JBool (res_Carried r));
    ("LastUsageEventID", JString (res_LastUsageEventID r)); ("ProviderRetryPolicy", JString (res_ProviderRetryPolicy r));
    ("LastReasonCode", JString (reason_text (res_LastReasonCode r)));
    ("LastTransitionEventID", JString (res_LastTransitionEventID r)); ("Expiry", JString (RFC3339Nano (res_Expiry r)))]%string.

Definition tenant_state (t : tenantLedger) : jvalue :=
  JObject [("BudgetMicros", json_Z (tenant_BudgetMicros t)); ("SettledMicros", json_Z (tenant_SettledMicros t));
    ("ReservedMicros", json_Z (tenant_ReservedMicros t)); ("CarriedAdjustmentMicros", json_Z (tenant_CarriedAdjustmentMicros t));
    ("ActiveReservations", json_Z (tenant_ActiveReservations t)); ("BudgetIdentity", JString (tenant_BudgetIdentity t));
    ("CurrentWindowID", JString (tenant_CurrentWindowID t)); ("WindowPeriod", JString (tenant_WindowPeriod t));
    ("HistoricalCreditMicros", json_Z (tenant_HistoricalCreditMicros t))]%string.

(** ** The database *)

Record outbox_row : Type := Build_outbox_row {
  obx_RequestID : string;
  obx_TenantID : string;
  obx_WorkloadUID : string;
  obx_ProviderAttemptID : string;
  obx_State : OutboxState;
  obx_Version : Z
}.
#[export] Instance eta_outbox_row : Eta outbox_row := fun o =>
  Build_outbox_row (obx_RequestID o) (obx_TenantID o) (obx_WorkloadUID o) (obx_ProviderAttemptID o) (obx_State o) (obx_Version o).

Record adjustment_row : Type := Build_adjustment_row { adr_Adjustment : BudgetAdjustment; adr_PayloadHash : string }.
Record task_row : Type := Build_task_row { tsk_RequestID : string; tsk_ReasonCode : ReasonCode; tsk_Completed : bool; tsk_PayloadHash : string }.

(** [selectedFeedbackAuthorization] with its run binding. *)
Record FeedbackAuthorization : Type := Build_FeedbackAuthorization {
  fba_DispatchID : string;
  fba_RequestID : string;
  fba_ItemID : string;
  fba_SelectedModelID : string;
  fba_SelectedDeployment : string;
  fba_AttemptID : string;
  fba_DecisionSHA256 : string;
  fba_DispatchedAt : Time;
  fba_ExpiresAt : Time;
  fba_Binding : SelectedFeedbackBinding;
  fba_AuthorizationSHA256 : string
}.

(** The tables of the schema. A cohort's row has no slots: they are rows of their
    own, in the order of their index. *)
Record database : Type := Build_database {
  db_tenants : gmap string tenantLedger;
  db_reservations : gmap string Reservation;
  db_outbox : gmap string outbox_row;
  db_inbox : gmap string inboxEvent;
  db_adjustments : gmap string adjustment_row;
  db_tasks : gmap string task_row;
  db_cohorts : gmap (string * string) FrozenCohort;
  db_slots : gmap (string * string) (list FrozenCohortSlot);
  db_audit : audit_store;
  db_feedback : list FeedbackAuthorization
}.
#[export] Instance eta_database : Eta database := fun d =>
  Build_database (db_tenants d) (db_reservations d) (db_outbox d) (db_inbox d) (db_adjustments d) (db_tasks d)
    (db_cohorts d) (db_slots d) (db_audit d) (db_feedback d).

Definition empty_database : database := Build_database ∅ ∅ ∅ ∅ ∅ ∅ ∅ ∅ empty_store [].

(** The errors that the retry loops tell apart. *)
Inductive failure : Type :=
| Serialization
| UniqueViolation (message : string)
| Failed (message : string).

Definition isRetryablePG (f : failure) : bool := match f with Serialization => true | _ => false end.
Definition isUniqueViolationPG (f : failure) : bool := match f with UniqueViolation _ => true | _ => false end.

(** *** Transactions *)

Definition tx (A : Type) : Type := database -> (A * database) + failure.
Definition tx_ret {A} (a : A) : tx A := fun db => inl (a, db).
Definition tx_fail {A} (f : failure) : tx A := fun _ => inr f.
Definition tx_bind {A B} (m : tx A) (k : A -> tx B) : tx B :=
  fun db => match m db with inl (a, db') => k a db' | inr f => inr f end.
Definition tx_read {A} (f : database -> A) : tx A := fun db => inl (f db, db).
Definition tx_write (f : database -> database) : tx unit := fun db => inl (tt, f db).
Definition tx_result {A} (r : result A) : tx A := match r with Ok a => tx_ret a | Err m => tx_fail (Failed m) end.
(** A computation that may panic ([None]): the callback of the transaction is left, the
    deferred rollback undoes its statements and the request fails. *)
Definition go_panic : failure := Failed "panic in the transaction".
Definition tx_checked {A} (r : option (result A)) : tx A := match r with Some r => tx_result r | None => tx_fail go_panic end.
Definition tx_eval {A} (f : database -> option A) : tx A := fun db =>
  match f db with Some a => inl (a, db) | None => inr go_panic end.
(** A statement that fails unless the test holds. *)
Definition tx_guard (b : bool) (f : failure) : tx unit := if b then tx_ret tt else tx_fail f.

Notation "'let*' x ':=' m 'in' k" := (tx_bind m (fun x => k))
  (at level 10, x pattern, k at level 200) : go_scope.
Notation "'run*' m ';' k" := (tx_bind m (fun _ => k)) (at level 10, m at level 100, k at level 200) : go_scope.

Definition check_violation : failure := Failed "new row violates a check constraint".
Definition duplicate_key : failure := UniqueViolation "duplicate key value violates unique constraint".
Definition out_of_range : failure := Failed "integer out of range".
Definition foreign_key : failure := Failed "insert violates foreign key constraint".

(** *** Constraints *)

Definition max_int32 : Z := 2147483647.

(** A [BIGINT] column that may not be negative. *)
Definition amount_column (z : Z) : bool := (0 <=? z) && (z <=? max_int64).

Definition tenant_checks (t : tenantLedger) : bool :=
  amount_column (tenant_BudgetMicros t) && amount_column (tenant_SettledMicros t) && amount_column (tenant_ReservedMicros t)
  && amount_column (tenant_CarriedAdjustmentMicros t) && (0 <=? tenant_ActiveReservations t)
  && (tenant_ActiveReservations t <=? max_int32) && amount_column (tenant_HistoricalCreditMicros t).

Definition feedback_coherent (r : Reservation) : bool :=
  match res_SelectedFeedback r with
  | None => String.eqb (res_SelectedFeedbackBindingSHA256 r) ""
  | Some _ => is_sha256 (res_SelectedFeedbackBindingSHA256 r)
  end.

Definition reservation_checks (r : Reservation) : bool :=
  let route := res_RouteSnapshot r in
  (0 <=? res_ReservedCostMicros r) && (0 <=? res_ProvisionalCostMicros r) && (0 <=? res_BaseActualMicros r)
  && (0 <=? res_SettledEffectMicros r) && (0 <=? res_ResidualHoldMicros r) && (0 <=? res_UsageVersion r)
  && (0 <=? res_AllocatedRiskPPB r) && (0 <=? res_RolloverGuardMicros r) && (0 <=? res_CarryEffectMicros r)
  && (0 <=? res_HistoricalCreditMicros r) && (0 <? route_ModelGeneration route) && (0 <? route_ProviderGeneration route)
  && is_sha256 (route_PricingComplianceHash route)
  && existsb (String.eqb (route_PathMode route))
       ["openai-body"; "azure-deployment-path"; "anthropic-body"; "google-generate-path"]%string
  && is_sha256 (route_SnapshotHash route) && is_sha256 (res_PricingSnapshotSHA256 r) && is_sha256 (res_CapEvidenceSHA256 r)
  && (0 <=? res_VerifiedOutputCapTokens r)
  && (String.eqb (res_CalibrationArtifactSHA256 r) "" || is_sha256 (res_CalibrationArtifactSHA256 r))
  && feedback_coherent r.

(** The unique indexes of [govar_reservations]; the last is partial. *)
Definition same_key (r old : Reservation) : bool :=
  String.eqb (res_RequestID old) (res_RequestID r)
  || String.eqb (res_ProviderAttemptID old) (res_ProviderAttemptID r)
  || String.eqb (res_OutboxID old) (res_OutboxID r)
  || (negb (String.eqb (res_CohortID r) "") && String.eqb (res_TenantID old) (res_TenantID r)
      && String.eqb (res_CohortID old) (res_CohortID r) && (res_CohortIndex old =? res_CohortIndex r)).

Definition exists_row {K A} `{Countable K} (f : K -> A -> bool) (m : gmap K A) : bool :=
  existsb (fun '(k, a) => f k a) (map_to_list m).

(** ** Statements *)

(** [UPDATE govar_tenants ... WHERE tenant_id=$1]. *)
Definition update_tenant (T : string) (f : tenantLedger -> tenantLedger) : tx unit := fun db =>
  match db_tenants db !! T with
  | None => inl (tt, db)
  | Some t => if tenant_checks (f t) then inl (tt, db <| db_tenants := <[T := f t]> (db_tenants db) |>) else inr check_violation
  end.

(** [INSERT INTO govar_tenants ... ON CONFLICT (tenant_id) DO NOTHING]. *)
Definition insert_tenant (T : string) (budget : Z) (identity window period : string) : tx unit := fun db =>
  match db_tenants db !! T with
  | Some _ => inl (tt, db)
  | None =>
    let t := Build_tenantLedger budget 0 0 0 0 ∅ identity window 0 period in
    if tenant_checks t then inl (tt, db <| db_tenants := <[T := t]> (db_tenants db) |>) else inr check_violation
  end.

(** [pgx.ErrNoRows]. *)
Definition no_rows : string := "no rows in result set".

Definition loadTenantTx (T : string) : tx tenantLedger := fun db =>
  match db_tenants db !! T with Some t => inl (t, db) | None => inr (Failed no_rows) end.

(** The pricing snapshot after [reservationComponentJSON] and
    [decodeReservationComponentJSON]: a [metav1.Time] is written in whole seconds. *)
Definition whole_seconds (t : Time) : Time := t / Second * Second.
Definition decoded_snapshot (s : NormalizedPricingSnapshot) : NormalizedPricingSnapshot :=
  s <| snap_ObservedAt := whole_seconds (snap_ObservedAt s) |> <| snap_ValidUntil := whole_seconds (snap_ValidUntil s) |>.

(** The row that the [INSERT] of an admission writes: the columns it names, and the
    defaults of the others. The route's model name and pricing version are the
    columns of the reservation, and a feedback binding is written afterwards. *)
Definition inserted_row (r : Reservation) : Reservation :=
  (withoutTransitionMetadata r)
    <| res_ProvisionalCostMicros := 0 |> <| res_BaseActualMicros := 0 |> <| res_SettledEffectMicros := 0 |>
    <| res_ResidualHoldMicros := res_ReservedCostMicros r |> <| res_UsageVersion := 0 |> <| res_Finalized := false |>
    <| res_RolloverGuardMicros := 0 |> <| res_CarryEffectMicros := 0 |> <| res_HistoricalCreditMicros := 0 |>
    <| res_Carried := false |> <| res_LastUsageEventID := "" |> <| res_ProviderRetryPolicy := "NO_PROVIDER_RETRY" |>
    <| res_LastReasonCode := ReasonNone |> <| res_LastTransitionEventID := "" |>
    <| res_SelectedFeedback := None |> <| res_SelectedFeedbackBindingSHA256 := "" |>
    <| res_Expiry := stored_time (res_Expiry r) |> <| res_PricingSnapshot := decoded_snapshot (res_PricingSnapshot r) |>
    <| res_RouteSnapshot := (res_RouteSnapshot r) <| route_ModelName := "" |> <| route_PricingVersion := "" |> |>.

Definition insert_reservation (r : Reservation) : tx unit := fun db =>
  let row := inserted_row r in
  if negb (reservation_checks row) then inr check_violation
  else if exists_row (fun _ old => same_key row old) (db_reservations db) then inr duplicate_key
  else if bool_decide (is_Some (db_tenants db !! res_TenantID r))
  then inl (tt, db <| db_reservations := <[res_RequestID r := row]> (db_reservations db) |>)
  else inr foreign_key.

Definition update_reservation (id : string) (f : Reservation -> Reservation) : tx unit := fun db =>
  match db_reservations db !! id with
  | None => inl (tt, db)
  | Some row => if reservation_checks (f row)
                then inl (tt, db <| db_reservations := <[id := f row]> (db_reservations db) |>) else inr check_violation
  end.

(** The columns that [storeReservationTx] updates. *)
Definition stored_columns (r row : Reservation) : Reservation :=
  row <| res_OutboxState := res_OutboxState r |> <| res_State := res_State r |>
      <| res_ProvisionalCostMicros := res_ProvisionalCostMicros r |> <| res_ResidualHoldMicros := res_ResidualHoldMicros r |>
      <| res_UsageVersion := res_UsageVersion r |> <| res_Finalized := res_Finalized r |>
      <| res_RolloverGuardMicros := res_RolloverGuardMicros r |> <| res_CarryEffectMicros := res_CarryEffectMicros r |>
      <| res_HistoricalCreditMicros := res_HistoricalCreditMicros r |> <| res_Carried := res_Carried r |>
      <| res_EnforcementWindowID := res_EnforcementWindowID r |> <| res_BaseActualMicros := res_BaseActualMicros r |>
      <| res_LastUsageEventID := res_LastUsageEventID r |> <| res_LastReasonCode := res_LastReasonCode r |>
      <| res_LastTransitionEventID := res_LastTransitionEventID r |> <| res_SettledEffectMicros := res_SettledEffectMicros r |>
      <| res_ActualComponents := res_ActualComponents r |> <| res_MissingUsageBases := res_MissingUsageBases r |>
      <| res_ComponentBoundExceeded := res_ComponentBoundExceeded r |>.
Definition storeReservationTx (r : Reservation) : tx unit := update_reservation (res_RequestID r) (stored_columns r).

Definition insert_outbox (id : string) (o : outbox_row) : tx unit := fun db =>
  if exists_row (fun k old => String.eqb k id || String.eqb (obx_RequestID old) (obx_RequestID o)
                              || String.eqb (obx_ProviderAttemptID old) (obx_ProviderAttemptID o)) (db_outbox db)
  then inr duplicate_key
  else if bool_decide (is_Some (db_reservations db !! obx_RequestID o))
  then inl (tt, db <| db_outbox := <[id := o]> (db_outbox db) |>)
  else inr foreign_key.

(** The compare-and-swap of the outbox. *)
Definition updateOutboxState (id : string) (previous next : OutboxState) : tx unit := fun db =>
  match db_outbox db !! id with
  | Some o => if outbox_is (obx_State o) previous
              then inl (tt, db <| db_outbox := <[id := o <| obx_State := next |> <| obx_Version := obx_Version o + 1 |>]> (db_outbox db) |>)
              else inr (Failed "outbox state compare-and-swap affected no row")
  | None => inr (Failed "outbox state compare-and-swap affected no row")
  end.

Definition insert_inbox (eventID requestID kind hash : string) : tx unit := fun db =>
  match db_inbox db !! eventID with
  | Some _ => inr duplicate_key
  | None => if bool_decide (is_Some (db_reservations db !! requestID))
            then inl (tt, db <| db_inbox := <[eventID := Build_inboxEvent requestID kind hash]> (db_inbox db) |>)
            else inr foreign_key
  end.
(** With [ON CONFLICT (event_id) DO NOTHING]. *)
Definition insert_inbox_once (eventID requestID kind hash : string) : tx unit := fun db =>
  match db_inbox db !! eventID with Some _ => inl (tt, db) | None => insert_inbox eventID requestID kind hash db end.
(** [INSERT INTO govar_reconciliation_tasks ... ON CONFLICT (task_id) DO NOTHING]. *)
Definition insert_task (id : string) (task : task_row) : tx unit := fun db =>
  match db_tasks db !! id with
  | Some _ => inl (tt, db)
  | None => if bool_decide (is_Some (db_reservations db !! tsk_RequestID task))
            then inl (tt, db <| db_tasks := <[id := task]> (db_tasks db) |>) else inr foreign_key
  end.

(** ** Selected feedback *)

Record SelectedFeedbackAuthority : Type := Build_SelectedFeedbackAuthority {
  sfa_RunID : string;
  sfa_DatasetID : string;
  sfa_Split : string;
  sfa_ProtocolSHA256 : string;
  sfa_OracleArtifactSHA256 : string;
  sfa_SoftwareSHA256 : string;
  sfa_ConfigSHA256 : string;
  sfa_ModelMapSHA256 : string;
  sfa_SelectedModelIDs : gmap string string
}.

Definition matches (a : SelectedFeedbackAuthority) (b : SelectedFeedbackBinding) : bool :=
  String.eqb (sfa_RunID a) (sfb_RunID b) && String.eqb (sfa_DatasetID a) (sfb_DatasetID b)
  && String.eqb (sfa_Split a) (sfb_Split b) && String.eqb (sfa_ProtocolSHA256 a) (sfb_ProtocolSHA256 b)
  && String.eqb (sfa_OracleArtifactSHA256 a) (sfb_OracleArtifactSHA256 b)
  && String.eqb (sfa_SoftwareSHA256 a) (sfb_SoftwareSHA256 b) && String.eqb (sfa_ConfigSHA256 a) (sfb_ConfigSHA256 b).

(** The members of a Go map, or of an object decoded into one, are encoded in the
    order of their keys. *)
Definition sorted_members {A} (l : list (string * A)) : list (string * A) := sort_slice (fun i j => string_ltb i.1 j.1) l.
Fixpoint sort_json (v : jvalue) : jvalue :=
  match v with
  | JArray l => JArray (map sort_json l)
  | JObject l => JObject (sorted_members (map (fun '(k, v) => (k, sort_json v)) l))
  | v => v
  end.

(** The process: its configuration, and the clocks it reads during an attempt. *)
Record PostgresEngine : Type := Build_PostgresEngine {
  pg_now : Time;
  pg_clock : Time;
  pg_authorityKeyID : string;
  pg_authorityKey : string;
  pg_cohortSoftwareHash : string;
  pg_selectedFeedbackAuthority : option SelectedFeedbackAuthority
}.
#[export] Instance eta_PostgresEngine : Eta PostgresEngine := fun e =>
  Build_PostgresEngine (pg_now e) (pg_clock e) (pg_authorityKeyID e) (pg_authorityKey e) (pg_cohortSoftwareHash e)
    (pg_selectedFeedbackAuthority e).

Class Postgres : Type := scan_order : list string -> list string.
Class PostgresLaws `{Postgres} : Prop := scan_order_perm : forall l, scan_order l ≡ₚ l.

Section postgres.
Context `{Crypto} `{Platform} `{Postgres}.

Definition selectedFeedbackModelMapSHA256 (models : gmap string string) : result string :=
  if bool_decide (models = ∅) then Err "selected-feedback model map is empty"
  else if negb (forallb (fun '(deployment, modelID) => negb (blank deployment)
                           && (String.length (TrimSpace deployment) <=? 256)%nat && is_sha256 modelID) (map_to_list models))
  then Err "selected-feedback model map contains an invalid deployment or model identity"
  else if negb (bool_decide (NoDup (map snd (map_to_list models))))
  then Err "selected-feedback model map contains a duplicate model identity"
  else Ok (sha256_hex (jtext (JObject [("schema", JString "govar-selected-feedback-model-map-v1");
             ("models", JObject (sorted_members (map (fun '(k, v) => (k, JString v)) (map_to_list models))))]%string))).

(** [SelectedFeedbackAuthority.Validate]. *)
Definition SelectedFeedbackAuthority_Validate (a : SelectedFeedbackAuthority) : option error :=
  match SelectedFeedbackBinding_Validate
          (Build_SelectedFeedbackBinding (sfa_RunID a) (sfa_DatasetID a) (sfa_Split a) (String.concat "" (repeat "0" 64))
             (sfa_ProtocolSHA256 a) (sfa_OracleArtifactSHA256 a) (sfa_SoftwareSHA256 a) (sfa_ConfigSHA256 a)) with
  | Some m => Some m
  | None =>
    match selectedFeedbackModelMapSHA256 (sfa_SelectedModelIDs a) with
    | Err m => Some m
    | Ok digest => if negb (is_sha256 (sfa_ModelMapSHA256 a)) || negb (String.eqb digest (sfa_ModelMapSHA256 a))
                   then Some "selected-feedback model map digest differs"%string else None
    end
  end.

Definition authority_equal (a b : SelectedFeedbackAuthority) : bool :=
  matches a (Build_SelectedFeedbackBinding (sfa_RunID b) (sfa_DatasetID b) (sfa_Split b) "" (sfa_ProtocolSHA256 b)
               (sfa_OracleArtifactSHA256 b) (sfa_SoftwareSHA256 b) (sfa_ConfigSHA256 b))
  && String.eqb (sfa_ModelMapSHA256 a) (sfa_ModelMapSHA256 b)
  && (size (sfa_SelectedModelIDs a) =? size (sfa_SelectedModelIDs b))%nat
  && forallb (fun '(deployment, modelID) =>
       String.eqb (default ""%string (sfa_SelectedModelIDs b !! deployment)) modelID) (map_to_list (sfa_SelectedModelIDs a)).

Definition ConfigureSelectedFeedbackAuthority (e : PostgresEngine) (a : SelectedFeedbackAuthority) : PostgresEngine * option error :=
  match SelectedFeedbackAuthority_Validate a with
  | Some m => (e, Some ("configure selected-feedback authority: " +:+ m))
  | None =>
    if negb (String.eqb (sfa_SoftwareSHA256 a) (pg_cohortSoftwareHash e))
    then (e, Some "selected-feedback authority software hash differs from the running binary"%string)
    else match pg_selectedFeedbackAuthority e with
    | Some old => if authority_equal old a then (e, None)
                  else (e, Some "selected-feedback run authority cannot be reconfigured after startup"%string)
    | None => (e <| pg_selectedFeedbackAuthority := Some a |>, None)
    end
  end.

(** [selectedFeedbackDomainHash] is [fixedHash] over the domain and the parts. *)
Definition selectedFeedbackDecisionSHA256 (r : Reservation) : string :=
  fixedHash ["govar-selected-feedback-decision-v1"; sha256_hex (res_RequestID r); res_SelectedFeedbackBindingSHA256 r;
    sha256_hex (res_SelectedDeployment r); sha256_hex (res_ProviderAttemptID r); route_SnapshotHash (res_RouteSnapshot r);
    res_AdmissionFingerprint r; res_PolicyVersion r; res_PricingSnapshotSHA256 r; res_CapEvidenceSHA256 r]%string.

Definition selectedFeedbackDispatchID (r : Reservation) : string :=
  match res_SelectedFeedback r with
  | None => ""
  | Some b => fixedHash ["govar-selected-feedback-dispatch-v1"; sfb_RunID b; sfb_DatasetID b; sfb_Split b;
      sha256_hex (res_RequestID r); sfb_ItemID b; sha256_hex (res_SelectedDeployment r); res_SelectedDeployment r;
      sha256_hex (res_ProviderAttemptID r); selectedFeedbackDecisionSHA256 r; sfb_ProtocolSHA256 b;
      sfb_OracleArtifactSHA256 b; sfb_SoftwareSHA256 b; sfb_ConfigSHA256 b]%string
  end.

Definition authorization_json (a : FeedbackAuthorization) : jvalue :=
  let b := fba_Binding a in
  JObject [("schema", JString "govar-selected-feedback-dispatch-v1"); ("dispatch_id", JString (fba_DispatchID a));
    ("request_id", JString (fba_RequestID a)); ("item_id", JString (fba_ItemID a));
    ("selected_model_id", JString (fba_SelectedModelID a)); ("selected_deployment", JString (fba_SelectedDeployment a));
    ("attempt_id", JString (fba_AttemptID a)); ("decision_sha256", JString (fba_DecisionSHA256 a));
    ("dispatched_at_utc", JString (RFC3339 (fba_DispatchedAt a))); ("expires_at_utc", JString (RFC3339 (fba_ExpiresAt a)));
    ("binding", JObject [("run_id", JString (sfb_RunID b)); ("dataset_id", JString (sfb_DatasetID b));
       ("split", JString (sfb_Split b)); ("protocol_sha256", JString (sfb_ProtocolSHA256 b));
       ("oracle_artifact_sha256", JString (sfb_OracleArtifactSHA256 b)); ("software_sha256", JString (sfb_SoftwareSHA256 b));
       ("config_sha256", JString (sfb_ConfigSHA256 b))])]%string.
Definition selectedFeedbackCanonicalAuthorizationSHA256 (a : FeedbackAuthorization) : string :=
  sha256_hex (jtext (sort_json (authorization_json a))).

(** [t.Truncate(time.Second)]. *)
Definition whole_second (t : Time) : Time := t - t mod Second.

Definition buildSelectedFeedbackAuthorization (r : Reservation) (dispatchedAt : Time) (authority : SelectedFeedbackAuthority)
    : result FeedbackAuthorization :=
  match res_SelectedFeedback r with
  | None => Err "selected-feedback binding is absent"
  | Some b =>
    match SelectedFeedbackBinding_Validate b with
    | Some m => Err m
    | None =>
      ensure negb (bool_decide (is_Some (SelectedFeedbackAuthority_Validate authority))) && matches authority b
        orelse "selected-feedback binding differs from the configured run authority";
      ensure String.eqb (sfb_SoftwareSHA256 b) (sfa_SoftwareSHA256 authority)
        orelse "selected-feedback software binding differs from the running binary";
      ensure String.eqb (selectedFeedbackBindingSHA256 (Some b)) (res_SelectedFeedbackBindingSHA256 r)
        orelse "selected-feedback binding digest differs from the reserved binding";
      ensure state_is (res_State r) StateDispatched && outbox_is (res_OutboxState r) OutboxDelivered
        orelse "selected-feedback authorization requires effective dispatch delivery";
      ensure negb (blank (res_SelectedDeployment r)) && negb (blank (res_ProviderAttemptID r))
        orelse "selected-feedback route or attempt identity is empty";
      let at_ := whole_second dispatchedAt in
      let expires := whole_second (res_Expiry r) in
      ensure After expires at_ orelse "selected-feedback reservation expired before delivery";
      match sfa_SelectedModelIDs authority !! res_SelectedDeployment r with
      | Some model =>
        ensure is_sha256 model orelse "selected deployment is absent from the immutable selected-feedback model map";
        let auth := Build_FeedbackAuthorization (selectedFeedbackDispatchID r) (sha256_hex (res_RequestID r)) (sfb_ItemID b)
                      model (res_SelectedDeployment r) (sha256_hex (res_ProviderAttemptID r)) (selectedFeedbackDecisionSHA256 r)
                      at_ expires b "" in
        Ok (Build_FeedbackAuthorization (fba_DispatchID auth) (fba_RequestID auth) (fba_ItemID auth) (fba_SelectedModelID auth)
              (fba_SelectedDeployment auth) (fba_AttemptID auth) (fba_DecisionSHA256 auth) at_ expires b
              (selectedFeedbackCanonicalAuthorizationSHA256 auth))
      | None => Err "selected deployment is absent from the immutable selected-feedback model map"
      end
    end
  end.

(** The unique columns of [govar_selected_feedback_dispatches]. *)
Definition same_dispatch (a old : FeedbackAuthorization) : bool :=
  let run := String.eqb (sfb_RunID (fba_Binding old)) (sfb_RunID (fba_Binding a)) in
  String.eqb (fba_DispatchID old) (fba_DispatchID a) || String.eqb (fba_AuthorizationSHA256 old) (fba_AuthorizationSHA256 a)
  || (run && String.eqb (fba_RequestID old) (fba_RequestID a)) || (run && String.eqb (fba_ItemID old) (fba_ItemID a))
  || (run && String.eqb (fba_AttemptID old) (fba_AttemptID a)).

(** The dispatch identifier that the statement leaves in the reservation. *)
Definition insertSelectedFeedbackAuthorizationTx (r : Reservation) (dispatchedAt : Time) (authority : SelectedFeedbackAuthority)
    : tx string :=
  let* auth := tx_result (buildSelectedFeedbackAuthorization r dispatchedAt authority) in
  run* tx_guard ((String.length (fba_SelectedDeployment auth) <=? 256)%nat) check_violation;
  run* (fun db => if existsb (same_dispatch auth) (db_feedback db) then inr duplicate_key else inl (tt, db));
  run* tx_write (fun db => db <| db_feedback := db_feedback db ++ [auth] |>);
  tx_ret (fba_DispatchID auth).

(** ** Audit *)

Definition reservationAuditDigest (r : Reservation) : result string :=
  match json_time_error (res_Expiry r) with
  | Some m => Err ("marshal audit state: " +:+ m)
  | None => Ok (sha256_hex (jtext (audit_state r)))
  end.
Definition tenantAuditDigest (t : tenantLedger) : string := sha256_hex (jtext (tenant_state t)).

(** [appendAuditTx] of [AuditChain], with the class of its error: the insertion
    violates a unique index when the event identifier is taken. *)
Definition append_audit (e : PostgresEngine) (entry : Entry) : tx unit := fun db =>
  match appendAuditTx (db_audit db) entry (pg_clock e) with
  | Ok s => inl (tt, db <| db_audit := s |>)
  | Err m => inr (if String.eqb m "insertion into govar_audit_events rejected"
                     && existsb (fun old => String.eqb (ae_EventID old) (ae_EventID entry)) (as_events (db_audit db))
                  then UniqueViolation m else Failed m)
  end.

Definition request_entry (r : Reservation) (eventID kind payload actor : string) (reason : ReasonCode)
    (before after software calibration : string) : Entry :=
  Build_Entry (res_TenantID r) 0 eventID kind payload (res_RequestID r) (res_WorkloadUID r) (res_ProviderAttemptID r) actor
    (reason_text reason) before after (res_PolicyVersion r) (res_PricingSnapshotSHA256 r)
    (route_SnapshotHash (res_RouteSnapshot r)) (res_CapEvidenceSHA256 r) (res_CohortRegistryDigest r) software calibration
    "" zero_time true "".

Definition appendRequestAuditTx (e : PostgresEngine) (r : Reservation) (eventID kind payload actor : string) (reason : ReasonCode)
    (before software calibration : string) : tx unit :=
  let* after := tx_result (reservationAuditDigest r) in
  append_audit e (request_entry r eventID kind payload actor reason before after software calibration).

(** ** Reading a reservation *)

Definition decodeReservationComponentJSON (r : Reservation) : option error :=
  match ValidateSnapshotIntegrity (res_PricingSnapshot r) with
  | Some m => Some m
  | None =>
    if negb (String.eqb (snap_SnapshotSHA256 (res_PricingSnapshot r)) (res_PricingSnapshotSHA256 r))
    then Some "persisted pricing snapshot hash mismatch"%string
    else match SumComponents (res_ReservedComponents r) with
    | Err _ => Some "persisted reserved component sum mismatch"%string
    | Ok reserved => if negb (reserved =? res_ReservedCostMicros r)
                     then Some "persisted reserved component sum mismatch"%string else None
    end
  end.

Definition stored_feedback_error (r : Reservation) : option error :=
  match res_SelectedFeedback r with
  | Some b =>
    match SelectedFeedbackBinding_Validate b with
    | Some m => Some m
    | None => if negb (String.eqb (selectedFeedbackBindingSHA256 (Some b)) (res_SelectedFeedbackBindingSHA256 r))
              then Some "persisted selected-feedback binding hash mismatch"%string else None
    end
  | None => if negb (String.eqb (res_SelectedFeedbackBindingSHA256 r) "")
            then Some "persisted selected-feedback digest has no binding"%string else None
  end.

(** The scanned columns. *)
Definition scanned (row : Reservation) : Reservation :=
  row <| res_RouteSnapshot := (res_RouteSnapshot row) <| route_ModelName := res_SelectedDeployment row |>
                                                      <| route_PricingVersion := res_PricingVersion row |> |>.

Definition scan_reservation (row : Reservation) : result Reservation :=
  let r := scanned row in
  match decodeReservationComponentJSON r with
  | Some m => Err m
  | None =>
    match stored_feedback_error r with
    | Some m => Err m
    | None => match validateReservationRoute r with Some m => Err m | None => Ok r end
    end
  end.

(** [None] is [pgx.ErrNoRows]. *)
Definition loadReservation (db : database) (id : string) : option (result Reservation) :=
  scan_reservation <$> db_reservations db !! id.
Definition loadReservationTx (id : string) : tx Reservation := fun db =>
  match loadReservation db id with
  | Some (Ok r) => inl (r, db)
  | Some (Err m) => inr (Failed m)
  | None => inr (Failed no_rows)
  end.

(** ** Budget windows *)

Definition rollover_event (id next : string) : string := "window-rollover:" +:+ id +:+ ":" +:+ next.

(** One iteration of the loop of [rolloverTenantTx]. *)
Definition roll_one (e : PostgresEngine) (next : string) (t : tenantLedger) (id : string) : tx tenantLedger :=
  let* r := loadReservationTx id in
  let* before := tx_result (reservationAuditDigest r) in
  let r := r <| res_RolloverGuardMicros := res_RolloverGuardMicros r +i res_ProvisionalCostMicros r |>
             <| res_LastReasonCode := ReasonBudgetWindowRollover |>
             <| res_LastTransitionEventID := rollover_event (res_RequestID r) next |> in
  let t := t <| tenant_ReservedMicros := tenant_ReservedMicros t +i res_ProvisionalCostMicros r |> in
  run* storeReservationTx r;
  let payload := eventPayloadHash ["window-rollover-v1"; res_RequestID r; res_ProviderAttemptID r; res_OriginWindowID r; next] in
  run* appendRequestAuditTx e r (res_LastTransitionEventID r) "ROLLOVER" payload ActorReconciler ReasonBudgetWindowRollover
         before "" "";
  tx_ret t.

Fixpoint roll_all (e : PostgresEngine) (next : string) (t : tenantLedger) (ids : list string) : tx tenantLedger :=
  match ids with
  | [] => tx_ret t
  | id :: rest => let* t := roll_one e next t id in roll_all e next t rest
  end.

Definition rolled_ids (db : database) (T window : string) : list string :=
  scan_order (omap (fun '(id, r) => if rolls T window r then Some id else None) (map_to_list (db_reservations db))).

Definition rolloverTenantTx (e : PostgresEngine) (T : string) (t : tenantLedger) (next : string) (budget : Z) : tx tenantLedger :=
  let* ids := tx_read (fun db => rolled_ids db T (tenant_CurrentWindowID t)) in
  let* t := roll_all e next t ids in
  let t := t <| tenant_SettledMicros := 0 |> <| tenant_CurrentWindowID := next |> <| tenant_BudgetMicros := budget |> in
  run* update_tenant T (fun row => row <| tenant_BudgetMicros := budget |> <| tenant_SettledMicros := 0 |>
                                       <| tenant_ReservedMicros := tenant_ReservedMicros t |>
                                       <| tenant_CurrentWindowID := next |>);
  tx_ret t.

Definition advanceTenantWindowTx (e : PostgresEngine) (T : string) (t : tenantLedger) : tx tenantLedger :=
  if String.eqb (tenant_CurrentWindowID t) "" || String.eqb (tenant_WindowPeriod t) "" then tx_ret t
  else
    let* next := tx_result (budgetWindowForPeriod (tenant_WindowPeriod t) (pg_now e)) in
    if String.eqb next (tenant_CurrentWindowID t) then tx_ret t
    else if negb (windowStartsAfter next (tenant_CurrentWindowID t))
    then tx_fail (Failed "trusted clock moved before active budget window")
    else rolloverTenantTx e T t next (tenant_BudgetMicros t).

(** ** Admission *)

Definition loadFrozenCohort (db : database) (tenant cohortID : string) : option FrozenCohort :=
  c ← db_cohorts db !! (tenant, cohortID);
  Some (c <| coh_Slots := default [] (db_slots db !! (tenant, cohortID)) |>).

(** The allocated risk of a choice and the digest of its cohort; [Some None] abstains,
    [None] is a panic of the validation of the cohort. *)
Definition stored_cohort_allocation (e : PostgresEngine) (db : database) (req : AdmitRequest) (routing : AIRoutingPolicy)
    (choice : admissionChoice) : option (option (Z * string)) :=
  if negb (String.eqb (ch_Method choice) GOVARReservationFixedCohort) then Some (Some (0, ""%string))
  else match loadFrozenCohort db (areq_AuthenticatedTenantID req) (areq_CohortID req) with
  | None => Some None
  | Some cohort =>
    if negb (String.eqb (coh_LedgerLayoutID cohort) LedgerLayoutID)
       || negb (String.eqb (coh_RouteSnapshotSchema cohort) RouteSnapshotSchemaID)
       || negb (String.eqb (coh_SoftwareHash cohort) (pg_cohortSoftwareHash e))
    then Some None
    else match validateCohortAdmission req routing cohort (pg_now e) with
    | None => None
    | Some (Err _) => Some None
    | Some (Ok risk) => Some (Some (if 0 <=? risk then risk else ch_AllocatedRiskPPB choice, coh_RegistryDigest cohort))
    end
  end.

Definition choice_reason (choice : admissionChoice) : ReasonCode :=
  if is_reason (ch_FallbackReason choice) then ch_FallbackReason choice else ReasonHighestUtility.

(** The reservation of an admission: that of the in-memory engine, with the event
    of its audit entry. *)
Definition reserve_event (id : string) : string := "reserve:" +:+ id.
Definition stored_reservation (e : PostgresEngine) (req : AdmitRequest) (budget : AIBudgetPolicy) (routing : AIRoutingPolicy)
    (fingerprint window : string) (choice : admissionChoice) (risk : Z) (cohortDigest : string) : Reservation :=
  (new_reservation (NewEngine (pg_now e)) req budget routing fingerprint window choice risk cohortDigest)
    <| res_LastReasonCode := choice_reason choice |> <| res_LastTransitionEventID := reserve_event (areq_RequestID req) |>.

Definition insert_admission (e : PostgresEngine) (r : Reservation) : tx unit :=
  run* insert_reservation r;
  run* insert_outbox (res_OutboxID r)
         (Build_outbox_row (res_RequestID r) (res_TenantID r) (res_WorkloadUID r) (res_ProviderAttemptID r) (res_OutboxState r) 1);
  run* (if bool_decide (is_Some (res_SelectedFeedback r))
        then update_reservation (res_RequestID r) (fun row => row <| res_SelectedFeedback := res_SelectedFeedback r |>
               <| res_SelectedFeedbackBindingSHA256 := res_SelectedFeedbackBindingSHA256 r |>)
        else tx_ret tt);
  let* t := loadTenantTx (res_TenantID r) in
  run* tx_guard (is_int64 (tenant_ReservedMicros t + res_ReservedCostMicros r)) out_of_range;
  run* update_tenant (res_TenantID r) (fun t => t
         <| tenant_ReservedMicros := tenant_ReservedMicros t + res_ReservedCostMicros r |>
         <| tenant_ActiveReservations := tenant_ActiveReservations t + 1 |>);
  run* storeReservationTx r;
  appendRequestAuditTx e r (res_LastTransitionEventID r) "RESERVE" (res_AdmissionFingerprint r) ActorAdmission
    (res_LastReasonCode r) "" (pg_cohortSoftwareHash e) (res_CalibrationArtifactSHA256 r).

(** The answer to a request whose identifier is reserved already. *)
Definition answer_again (existing : Reservation) (req : AdmitRequest) (fingerprint : string) : result AdmitResponse :=
  match matchPrincipal existing (areq_AuthenticatedTenantID req) (areq_AuthenticatedWorkloadUID req) with
  | Some m => Err m
  | None =>
    if negb (String.eqb (res_AdmissionFingerprint existing) fingerprint)
    then Err "duplicate request_id has conflicting immutable admission payload"
    else if negb (reservationIsActive (res_State existing))
    then Ok (Build_AdmitResponse DecisionReject ReasonInvalidTransition "" "" "" "" 0 "" 0 "" "" "" "" "" None [])
    else Ok (responseForReservation existing ReasonDuplicateRequest)
  end.

(** The tenant's ledger bound to the budget's window; [None] is a conflict. *)
Definition bind_window (e : PostgresEngine) (T : string) (budgetMicros : Z) (identity window period : string)
    : tx (option tenantLedger) :=
  run* insert_tenant T budgetMicros identity window (ToLower period);
  let* t := loadTenantTx T in
  let current := tenant_CurrentWindowID t in
  if String.eqb current window
     && (negb (String.eqb (tenant_BudgetIdentity t) identity) || negb (tenant_BudgetMicros t =? budgetMicros))
  then tx_ret None
  else if String.eqb current window then tx_ret (Some t)
  else if negb (windowStartsAfter window current) then tx_ret None
  else
    let* t := rolloverTenantTx e T t window budgetMicros in
    let t := t <| tenant_BudgetIdentity := identity |> <| tenant_WindowPeriod := ToLower period |> in
    run* update_tenant T (fun row => row <| tenant_BudgetIdentity := identity |> <| tenant_WindowPeriod := ToLower period |>);
    tx_ret (Some t).

(** The serializable transaction of [admitOnce]. *)
Definition admit_tx (e : PostgresEngine) (req : AdmitRequest) (budget : AIBudgetPolicy) (routing : AIRoutingPolicy)
    (candidates : list Candidate) (fingerprint : string) (budgetMicros : Z) : tx AdmitResponse :=
  let respond decision reason := tx_ret (decisionResponse decision reason budget routing) in
  let* existing := tx_read (fun db => loadReservation db (areq_RequestID req)) in
  match existing with
  | Some (Err m) => tx_fail (Failed m)
  | Some (Ok r) => tx_result (answer_again r req fingerprint)
  | None =>
    let T := areq_AuthenticatedTenantID req in
    let* windowID := tx_result (budgetWindowForPeriod (bs_Period (bpol_Spec budget)) (pg_now e)) in
    let* bound := bind_window e T budgetMicros (budgetPolicyIdentity budget) windowID (bs_Period (bpol_Spec budget)) in
    match bound with
    | None => respond DecisionReject ReasonBudgetWindowConflict
    | Some t =>
      let* chosen := tx_checked (chooseAdmissionWithEvidenceSource req routing candidates (available t) (pg_now e)
                                  CalibrationEvidenceSourcePostgreSQLV8) in
      match chosen with
      | inr reason => respond (decisionForAdmissionFailure routing reason) reason
      | inl choice =>
        let* allocation := tx_eval (fun db => stored_cohort_allocation e db req routing choice) in
        match allocation with
        | None => respond DecisionAbstain ReasonInsufficientCalibration
        | Some (risk, digest) =>
          let r := stored_reservation e req budget routing fingerprint (tenant_CurrentWindowID t) choice risk digest in
          run* insert_admission e r;
          tx_ret (responseForReservation r (choice_reason choice))
        end
      end
    end
  end.

(** One attempt: [seen] is the database of the first, read-only transaction. *)
Definition admitOnce (e : PostgresEngine) (req : AdmitRequest) (budget : AIBudgetPolicy) (routing : AIRoutingPolicy)
    (candidates : list Candidate) (seen db : database) : (AdmitResponse * database) + failure :=
  match validateAdmitRequest req with
  | Some m => inr (Failed m)
  | None =>
    if match areq_SelectedFeedback req with
       | Some b => negb (String.eqb (sfb_SoftwareSHA256 b) (pg_cohortSoftwareHash e)) | None => false end
    then inr (Failed "selected-feedback software binding differs from the running binary")
    else if match areq_SelectedFeedback req, pg_selectedFeedbackAuthority e with
       | Some b, Some a => negb (matches a b) | Some _, None => true | None, _ => false end
    then inr (Failed "selected-feedback request differs from the configured run authority")
    else
      let candidates := rankedCandidates (validatedCandidates candidates) (areq_InputTokens req) (areq_MaxOutputTokens req)
                          (psn_Objective (BuildPolicySnapshot budget routing)) in
      let fingerprint := admissionFingerprint req budget routing candidates in
      match loadReservation seen (areq_RequestID req) with
      | Some (Err m) => inr (Failed m)
      | Some (Ok r) => match answer_again r req fingerprint with Ok resp => inl (resp, db) | Err m => inr (Failed m) end
      | None =>
        let reason := validatePolicyAndTarget req budget routing (pg_now e) in
        if is_reason reason then inl (decisionResponse DecisionReject reason budget routing, db)
        else if cn_Enabled (rs_Canary (rpol_Spec routing))
        then inl (decisionResponse DecisionRequireApproval ReasonApprovalRequired budget routing, db)
        else match quantityToMicros (bs_BudgetEUR (bpol_Spec budget)) with
        | Err m => inr (Failed ("budget conversion: " +:+ m))
        | Ok budgetMicros => admit_tx e req budget routing candidates fingerprint budgetMicros db
        end
      end
  end.

(** ** Events *)

(** What a call returns: the reservation, the code and the error. *)
Definition event_reply : Type := Reservation * ReasonCode * option failure.

(** [eventMutation]: the reservation and the tenant it leaves in its arguments, the
    code, the error, and the rows it wrote. *)
Definition mutation : Type :=
  Reservation -> tenantLedger -> database -> Reservation * tenantLedger * ReasonCode * option failure * database.

Definition refuse_event (code : ReasonCode) (m : error) : event_reply := (zero_reservation, code, Some (Failed m)).
Definition broken (f : failure) : event_reply := (zero_reservation, ReasonNone, Some f).

(** The replay of an event of the inbox. *)
Definition replay_event (db : database) (prior : inboxEvent) (requestID kind payloadHash tenantID workloadUID : string)
    : event_reply :=
  if negb (String.eqb (inbox_RequestID prior) requestID)
  then refuse_event ReasonDuplicateEvent "event id is already bound to another request"
  else if negb (String.eqb (inbox_PayloadHash prior) payloadHash)
  then refuse_event ReasonDuplicateEvent "event id replay has conflicting immutable payload"
  else match loadReservation db requestID with
  | None => refuse_event ReasonDuplicateEvent no_rows
  | Some (Err m) => refuse_event ReasonDuplicateEvent m
  | Some (Ok r) =>
    match matchPrincipal r tenantID workloadUID with
    | Some m => refuse_event ReasonPrincipalMismatch m
    | None => (withTransitionMetadata r (res_State r) false,
               if String.eqb kind "settlement" then ReasonSettlementDuplicate else ReasonDuplicateEvent, None)
    end
  end.

Definition upper_kind (kind : string) : string :=
  if String.eqb kind "settlement" then "SETTLE" else if String.eqb kind "dispatch" then "DISPATCH" else "CANCEL".

(** The statements after an effective mutation. *)
Definition conclude_event (e : PostgresEngine) (eventID requestID kind payloadHash before : string) (old r : Reservation)
    (t : tenantLedger) : tx unit :=
  run* insert_inbox eventID requestID kind payloadHash;
  run* storeReservationTx r;
  let actor := if String.eqb kind "settlement"
                  && (res_Finalized old || ((0 <? res_UsageVersion old) && (res_UsageVersion old <? res_UsageVersion r)))
               then ActorCorrection else ActorGateway in
  run* appendRequestAuditTx e r eventID (upper_kind kind) payloadHash actor (res_LastReasonCode r) before
         (pg_cohortSoftwareHash e) "";
  let wasActive := reservationIsActive (res_State old) in
  let isActive := reservationIsActive (res_State r) in
  let active := if wasActive && negb isActive then tenant_ActiveReservations t - 1
                else if negb wasActive && isActive then tenant_ActiveReservations t + 1 else tenant_ActiveReservations t in
  update_tenant (res_TenantID r) (fun row => row <| tenant_SettledMicros := tenant_SettledMicros t |>
    <| tenant_ReservedMicros := tenant_ReservedMicros t |> <| tenant_CarriedAdjustmentMicros := tenant_CarriedAdjustmentMicros t |>
    <| tenant_ActiveReservations := active |> <| tenant_HistoricalCreditMicros := tenant_HistoricalCreditMicros t |>).

(** The transaction of an event that is not in the inbox, once the reservation is
    loaded and the window advanced; a failure rolls everything back. *)
Definition mutate_loaded (e : PostgresEngine) (eventID requestID kind payloadHash : string) (mutate : mutation)
    (db0 db : database) (r : Reservation) (t : tenantLedger) : database * event_reply :=
  match reservationAuditDigest r with
  | Err m => (db0, broken (Failed m))
  | Ok before =>
    match mutate r t db with
    | (r', _, code, Some f, _) => (db0, (withTransitionMetadata r' (res_State r) false, code, Some f))
    | (r', t', code, None, db) =>
      if bool_decide (code = ReasonDuplicateEvent) || bool_decide (code = ReasonSettlementDuplicate)
      then (db, (withTransitionMetadata r' (res_State r) false, code, None))
      else
        let r' := r' <| res_LastReasonCode := code |> <| res_LastTransitionEventID := eventID |> in
        match conclude_event e eventID requestID kind payloadHash before r r' t' db with
        | inr f => (db0, broken f)
        | inl (_, db) => (db, (withTransitionMetadata r' (res_State r) true, code, None))
        end
    end
  end.

Definition mutateEventOnce (e : PostgresEngine) (eventID requestID kind payloadHash : string) (mutate : mutation)
    (tenantID workloadUID : string) (db : database) : database * event_reply :=
  match db_inbox db !! eventID with
  | Some prior => (db, replay_event db prior requestID kind payloadHash tenantID workloadUID)
  | None =>
    match loadReservation db requestID with
    | Some (Ok r) =>
      match matchPrincipal r tenantID workloadUID with
      | Some m => (db, refuse_event ReasonPrincipalMismatch m)
      | None =>
        match loadTenantTx (res_TenantID r) db with
        | inr f => (db, broken f)
        | inl (t, _) =>
          match advanceTenantWindowTx e (res_TenantID r) t db with
          | inr f => (db, (zero_reservation, ReasonBudgetWindowConflict, Some f))
          | inl (t, db') =>
            match loadReservationTx requestID db' with
            | inr f => (db, broken f)
            | inl (r, _) => mutate_loaded e eventID requestID kind payloadHash mutate db db' r t
            end
          end
        end
      end
    | _ => (db, refuse_event ReasonReservationNotFound "reservation not found")
    end
  end.

(** *** The three mutations *)

Definition rejected (r : Reservation) (t : tenantLedger) (db : database) (code : ReasonCode) (f : failure)
    : Reservation * tenantLedger * ReasonCode * option failure * database := (r, t, code, Some f, db).

(** The end of a mutation: the outbox moves as the reservation did. *)
Definition move_outbox (r r' : Reservation) (t : tenantLedger) (code : ReasonCode) (db : database)
    : Reservation * tenantLedger * ReasonCode * option failure * database :=
  match updateOutboxState (res_OutboxID r') (res_OutboxState r) (res_OutboxState r') db with
  | inr f => rejected r' t db code f
  | inl (_, db) => (r', t, code, None, db)
  end.

Definition authorize_feedback (e : PostgresEngine) (r : Reservation) (t : tenantLedger) (code : ReasonCode) (db : database)
    : Reservation * tenantLedger * ReasonCode * option failure * database :=
  match pg_selectedFeedbackAuthority e with
  | None => rejected r t db ReasonInvalidTransition (Failed "selected-feedback run authority is not configured")
  | Some authority =>
    match insertSelectedFeedbackAuthorizationTx r (pg_now e) authority db with
    | inr f => rejected r t db ReasonInvalidTransition f
    | inl (id, db) => (r <| res_SelectedFeedbackDispatchID := id |>, t, code, None, db)
    end
  end.

Definition dispatch_mutation (e : PostgresEngine) (req : DispatchRequest) : mutation := fun r t db =>
  if negb (String.eqb (dreq_ProviderAttemptID req) (res_ProviderAttemptID r))
  then rejected r t db ReasonInvalidTransition (Failed "provider_attempt_id does not match the reserved attempt")
  else if negb (String.eqb (dreq_RouteSnapshotHash req) (route_SnapshotHash (res_RouteSnapshot r)))
  then rejected r t db ReasonInvalidTransition (Failed "dispatch route snapshot does not match reservation")
  else match applyDispatch r (dreq_Status req) with
  | (r', code, Some m) => rejected r' t db code (Failed m)
  | (r', code, None) =>
    match move_outbox r r' t code db with
    | (r', t, code, None, db) =>
      if String.eqb (dreq_Status req) DispatchDelivered && bool_decide (is_Some (res_SelectedFeedback r'))
      then authorize_feedback e r' t code db else (r', t, code, None, db)
    | out => out
    end
  end.

(** [fmt.Sprint] of the actual components. *)
Definition sprint_actual (c : ActualChargeComponent) : string :=
  "{" +:+ Join [ac_Basis c; sprint (ac_Quantity c); sprint (ac_PriceMicrosPerUnit c); sprint (ac_UnitDenominator c);
                sprint (ac_ActualMicros c); sprint (ac_ReservedQuantity c); sprint_bool (ac_ExceededBound c)] " " +:+ "}".
Definition exceeded_task (req : SettleRequest) (r : Reservation) : tx unit :=
  insert_task (eventPayloadHash ["component-bound-exceeded"; res_RequestID r; sreq_SettlementID req])
    (Build_task_row (res_RequestID r) ReasonReservationExceeded false
       (eventPayloadHash [res_PricingSnapshotSHA256 r; sreq_SettlementID req;
                          "[" +:+ Join (map sprint_actual (res_ActualComponents r)) " " +:+ "]"])).

Definition settle_mutation (req : SettleRequest) : mutation := fun r t db =>
  if negb (String.eqb (sreq_ProviderAttemptID req) (res_ProviderAttemptID r))
  then rejected r t db ReasonInvalidTransition (Failed "provider_attempt_id does not match the reserved attempt")
  else match applySettlement r t req with
  | (r', t', code, Some m) => rejected r' t' db code (Failed m)
  | (r', t', code, None) =>
    if bool_decide (code = ReasonSettlementDuplicate) || bool_decide (code = ReasonDuplicateEvent)
    then (r', t', code, None, db)
    else
      match (if res_ComponentBoundExceeded r' then exceeded_task req r' else tx_ret tt) db with
      | inr f => rejected r' t' db ReasonReservationExceeded f
      | inl (_, db) => move_outbox r r' t' code db
      end
  end.

Definition cancel_mutation (req : CancelRequest) : mutation := fun r t db =>
  if negb (String.eqb (creq_ProviderAttemptID req) (res_ProviderAttemptID r))
  then rejected r t db ReasonInvalidTransition (Failed "provider_attempt_id does not match the reserved attempt")
  else match applyCancel r t (creq_AuthoritativeUnbilled req) with
  | (r', t', code, Some m) => rejected r' t' db code (Failed m)
  | (r', t', code, None) =>
    if bool_decide (code = ReasonDuplicateEvent) || bool_decide (code = ReasonSettlementDuplicate)
    then (r', t', code, None, db)
    else move_outbox r r' t' code db
  end.

(** ** Attempts and retries *)

(** What becomes of an attempt: it is answered; the server aborts it with a
    serialization failure or a deadlock, at the locking read of the reservation or
    at another statement; or the answer to its commit is lost. *)
Inductive fate : Set := Answered | AbortedAtRead | Aborted | ReplyLost.

Definition connection_lost : failure := Failed "unexpected EOF".

(** An attempt of [mutateEvent]. The error of the locking read is replaced by
    another that is not retryable. *)
Definition event_attempt (f : fate) (once : database -> database * event_reply) (db : database) : database * event_reply :=
  match f with
  | Answered => once db
  | AbortedAtRead => (db, refuse_event ReasonReservationNotFound "reservation not found")
  | Aborted => (db, broken Serialization)
  | ReplyLost => match once db with (db', (_, _, None)) => (db', broken connection_lost) | out => out end
  end.

(** [n] attempts; [others i] are the transactions of other clients that commit
    before attempt [i]. *)
Fixpoint retry {A} (retryable : A -> bool) (attempt : nat -> database -> database * A) (others : nat -> database -> database)
    (n i : nat) (db : database) : database * A :=
  match attempt i (others i db) with
  | (db, a) => match n with
               | O => (db, a)
               | S n => if retryable a then retry retryable attempt others n (S i) db else (db, a)
               end
  end.

Definition event_retryable (a : event_reply) : bool := match a.2 with Some f => isRetryablePG f | None => false end.

Section calls.
Context (engine : nat -> PostgresEngine) (fates : nat -> fate) (others : nat -> database -> database).

Definition mutateEvent (eventID requestID kind payloadHash : string) (mutate : PostgresEngine -> mutation)
    (tenantID workloadUID : string) (db : database) : database * event_reply :=
  retry event_retryable
    (fun i => event_attempt (fates i)
       (mutateEventOnce (engine i) eventID requestID kind payloadHash (mutate (engine i)) tenantID workloadUID))
    others 2 0 db.

Definition PgDispatch (req : DispatchRequest) (db : database) : database * event_reply :=
  match validateEventPrincipal (dreq_RequestID req) (dreq_EventID req) (dreq_TenantID req) (dreq_WorkloadUID req)
          (dreq_AuthenticatedTenantID req) (dreq_AuthenticatedWorkloadUID req) with
  | Some m => (db, refuse_event ReasonPrincipalMismatch m)
  | None =>
    match mutateEvent (dreq_EventID req) (dreq_RequestID req) "dispatch" (dispatch_hash req) (fun e => dispatch_mutation e req)
            (dreq_AuthenticatedTenantID req) (dreq_AuthenticatedWorkloadUID req) db with
    | (db, (r, code, f)) =>
      (db, (if bool_decide (is_Some (res_SelectedFeedback r)) && String.eqb (dreq_Status req) DispatchDelivered
            then r <| res_SelectedFeedbackDispatchID := selectedFeedbackDispatchID r |> else r, code, f))
    end
  end.

Definition PgSettle (req : SettleRequest) (db : database) : database * event_reply :=
  match validateSettleRequest req with
  | Some m => (db, refuse_event ReasonPrincipalMismatch m)
  | None => mutateEvent (sreq_SettlementID req) (sreq_RequestID req) "settlement" (settlementPayloadHash req)
              (fun _ => settle_mutation req) (sreq_AuthenticatedTenantID req) (sreq_AuthenticatedWorkloadUID req) db
  end.

Definition PgCancel (req : CancelRequest) (db : database) : database * event_reply :=
  match validateEventPrincipal (creq_RequestID req) (creq_EventID req) (creq_TenantID req) (creq_WorkloadUID req)
          (creq_AuthenticatedTenantID req) (creq_AuthenticatedWorkloadUID req) with
  | Some m => (db, refuse_event ReasonPrincipalMismatch m)
  | None => mutateEvent (creq_EventID req) (creq_RequestID req) "cancel" (cancel_hash req) (fun _ => cancel_mutation req)
              (creq_AuthenticatedTenantID req) (creq_AuthenticatedWorkloadUID req) db
  end.

(** Attempts of transactions that return a value or a failure. *)
Definition tx_attempt {A} (f : fate) (once : tx A) (db : database) : database * (A + failure) :=
  match f with
  | Answered => match once db with inl (a, db') => (db', inl a) | inr x => (db, inr x) end
  | AbortedAtRead | Aborted => (db, inr Serialization)
  | ReplyLost => match once db with inl (_, db') => (db', inr connection_lost) | inr x => (db, inr x) end
  end.
Definition tx_retryable {A} (unique : bool) (a : A + failure) : bool :=
  match a with inr f => isRetryablePG f || (unique && isUniqueViolationPG f) | inl _ => false end.

(** [between i] commits between the two transactions of attempt [i]. *)
Definition PgAdmit (between : nat -> database -> database) (req : AdmitRequest) (budget : AIBudgetPolicy)
    (routing : AIRoutingPolicy) (candidates : list Candidate) (db : database) : database * (AdmitResponse + failure) :=
  retry (tx_retryable true)
    (fun i seen => tx_attempt (fates i) (admitOnce (engine i) req budget routing candidates seen) (between i seen))
    others 4 0 db.
End calls.

(** ** Liability *)

Definition liability_tx (e : PostgresEngine) (T : string) : tx LiabilityResponse :=
  let* row := tx_read (fun db => db_tenants db !! T) in
  match row with
  | None => tx_ret (Build_LiabilityResponse T 0 0 0 0 0 "" 0)
  | Some t =>
    let* t := advanceTenantWindowTx e T t in
    tx_ret (Build_LiabilityResponse T (tenant_SettledMicros t) (tenant_ReservedMicros t) (tenant_CarriedAdjustmentMicros t)
              (available t) (tenant_ActiveReservations t) (tenant_CurrentWindowID t) (tenant_HistoricalCreditMicros t))
  end.
Definition empty_liability (T : string) : LiabilityResponse := Build_LiabilityResponse T 0 0 0 0 0 "" 0.
Definition PgLiabilityWithError (f : fate) (e : PostgresEngine) (T : string) (db : database)
    : database * (LiabilityResponse * option failure) :=
  match tx_attempt f (liability_tx e T) db with
  | (db, inl resp) => (db, (resp, None))
  | (db, inr x) => (db, (empty_liability T, Some x))
  end.

(** ** Budget adjustments *)

Definition adjustment_entry (e : PostgresEngine) (a : BudgetAdjustment) (payload before after : string) : Entry :=
  Build_Entry (adj_TenantID a) 0 ("budget-adjustment:" +:+ adj_AdjustmentID a) "BUDGET_ADJUSTMENT" payload "" "" ""
    ActorAuthority "budget_adjusted" before after "" "" "" "" "" (pg_cohortSoftwareHash e) "" "" zero_time true "".

(** [UPDATE govar_tenants ... WHERE current_window_id=$2 AND carried >= $4]. *)
Definition apply_adjustment (a : BudgetAdjustment) : tx unit := fun db =>
  match db_tenants db !! adj_TenantID a with
  | Some t =>
    if String.eqb (tenant_CurrentWindowID t) (adj_WindowID a) && (adj_DebtPaymentMicros a <=? tenant_CarriedAdjustmentMicros t)
    then update_tenant (adj_TenantID a) (fun t => t <| tenant_BudgetMicros := adj_NewBudgetMicros a |>
           <| tenant_CarriedAdjustmentMicros := tenant_CarriedAdjustmentMicros t - adj_DebtPaymentMicros a |>) db
    else inr (Failed "tenant/window not found or debt payment exceeds carried debt")
  | None => inr (Failed "tenant/window not found or debt payment exceeds carried debt")
  end.

Definition stored_adjustment (a : BudgetAdjustment) : BudgetAdjustment :=
  a <| adj_ApprovedAt := stored_time (adj_ApprovedAt a) |> <| adj_ExpiresAt := stored_time (adj_ExpiresAt a) |>.

Definition adjust_tx (e : PostgresEngine) (a : BudgetAdjustment) : tx unit :=
  let payload := adjustment_payload a in
  let* prior := tx_read (fun db => db_adjustments db !! adj_AdjustmentID a) in
  match prior with
  | Some row => tx_guard (String.eqb (adr_PayloadHash row) payload)
                  (Failed "adjustment_id replay has conflicting immutable payload")
  | None =>
    let* row := tx_read (fun db => db_tenants db !! adj_TenantID a) in
    match row with
    | None => tx_fail (Failed "tenant/window not found")
    | Some t =>
      let* t := advanceTenantWindowTx e (adj_TenantID a) t in
      let before := tenantAuditDigest t in
      run* apply_adjustment a;
      run* tx_write (fun db => db <| db_adjustments :=
             <[adj_AdjustmentID a := Build_adjustment_row (stored_adjustment a) payload]> (db_adjustments db) |>);
      let t := t <| tenant_BudgetMicros := adj_NewBudgetMicros a |>
                 <| tenant_CarriedAdjustmentMicros := tenant_CarriedAdjustmentMicros t -i adj_DebtPaymentMicros a |> in
      append_audit e (adjustment_entry e a payload before (tenantAuditDigest t))
    end
  end.

Definition adjustBudgetOnce (e : PostgresEngine) (a : BudgetAdjustment) : tx unit :=
  if String.eqb (adj_AdjustmentID a) "" || String.eqb (adj_AuthorizedBy a) "" || String.eqb (adj_Reason a) ""
     || (adj_NewBudgetMicros a <? 0) || (adj_DebtPaymentMicros a <? 0)
  then tx_fail (Failed "authorized non-negative budget adjustment is required")
  else if negb (String.eqb (adj_AuthorityKeyID a) (pg_authorityKeyID e)) || String.eqb (pg_authorityKey e) ""
          || After (adj_ApprovedAt a) (pg_now e) || negb (After (adj_ExpiresAt a) (pg_now e))
          || negb (String.eqb (ToLower (adj_AuthorityProof a)) (adjustment_proof (pg_authorityKey e) a))
  then tx_fail (Failed "budget adjustment authority proof is invalid or expired")
  else adjust_tx e a.

(** ** Expiry *)

(** The reservation and the tenant after an expiry, with the audit payload. *)
Definition expire_row (r : Reservation) (t : tenantLedger) : Reservation * tenantLedger :=
  if state_is (res_State r) StateReserved && outbox_is (res_OutboxState r) OutboxPending
  then (r <| res_State := StateExpiredUndispatched |> <| res_OutboxState := OutboxCanceled |>
          <| res_LastReasonCode := ReasonExpiredUndispatched |> <| res_LastTransitionEventID := expiry_event "expiry:" r |>
          <| res_ResidualHoldMicros := 0 |> <| res_RolloverGuardMicros := 0 |>,
        t <| tenant_ReservedMicros := tenant_ReservedMicros t -i (res_ResidualHoldMicros r +i res_RolloverGuardMicros r) |>
          <| tenant_ActiveReservations := tenant_ActiveReservations t - 1 |>)
  else (r <| res_State := StateUnresolved |> <| res_LastReasonCode := ReasonDispatchUnresolved |>
          <| res_LastTransitionEventID := expiry_event "expiry-unresolved:" r |>, t).
Definition expiry_payload (r : Reservation) : string :=
  eventPayloadHash ["reconciliation-expiry-v1"; res_RequestID r; res_ProviderAttemptID r; RFC3339Nano (res_Expiry r);
    sql_state (res_State r); reason_text (res_LastReasonCode r)].

Definition expire_tx (e : PostgresEngine) (id : string) : tx ReconciliationRecord :=
  let* r := loadReservationTx id in
  let* before := tx_result (reservationAuditDigest r) in
  let* t := loadTenantTx (res_TenantID r) in
  let '(r', t') := expire_row r t in
  run* (if state_is (res_State r) StateReserved && outbox_is (res_OutboxState r) OutboxPending
        then updateOutboxState (res_OutboxID r) (res_OutboxState r) (res_OutboxState r') else tx_ret tt);
  let payload := expiry_payload r' in
  let eventID := res_LastTransitionEventID r' in
  run* insert_inbox_once eventID (res_RequestID r') "reconciliation" payload;
  run* insert_task eventID (Build_task_row (res_RequestID r') (res_LastReasonCode r') true payload);
  run* storeReservationTx r';
  run* appendRequestAuditTx e r' eventID "EXPIRY" payload ActorReconciler (res_LastReasonCode r') before
         (pg_cohortSoftwareHash e) "";
  run* update_tenant (res_TenantID r') (fun row => row <| tenant_ReservedMicros := tenant_ReservedMicros t' |>
         <| tenant_ActiveReservations := tenant_ActiveReservations t' |>);
  tx_ret (reconciled (res_RequestID r') r' (res_State r)).

Fixpoint expire_ids (e : PostgresEngine) (ids : list string) : tx (list ReconciliationRecord) :=
  match ids with
  | [] => tx_ret []
  | id :: rest => let* out := expire_tx e id in let* more := expire_ids e rest in tx_ret (out :: more)
  end.

(** [expiry <= $1] compares whole microseconds. *)
Definition expired_row (at_ : Time) (r : Reservation) : bool :=
  (res_Expiry r <=? stored_time at_)
  && ((state_is (res_State r) StateReserved && outbox_is (res_OutboxState r) OutboxPending)
      || state_is (res_State r) StateDispatchPending || state_is (res_State r) StateDispatched).
Definition sort_ids (l : list string) : list string := sort_slice string_ltb l.
Definition expired_ids (db : database) (at_ : Time) : list string :=
  sort_ids (omap (fun '(id, r) => if expired_row at_ r then Some id else None) (map_to_list (db_reservations db))).

Definition reconcileExpiredOnce (e : PostgresEngine) (at_ : Time) : tx (list ReconciliationRecord) :=
  let* ids := tx_read (fun db => expired_ids db at_) in expire_ids e ids.

Definition PgPendingReconciliation (db : database) (limit : Z) : list ReconciliationRecord :=
  let pending := omap (fun '(_, r) =>
      if outbox_is (res_OutboxState r) OutboxPending || outbox_is (res_OutboxState r) OutboxClaimed
         || state_is (res_State r) StateUnresolved
      then Some (Build_ReconciliationRecord (res_RequestID r) (res_TenantID r) (res_ProviderAttemptID r) (res_State r)
                   (res_OutboxState r) (res_Expiry r) StateNone false)
      else None) (map_to_list (db_reservations db)) in
  take (Z.to_nat (if limit <=? 0 then 1000 else limit)) (sort_records pending).

(** ** Cohorts *)

Definition cohort_row (c : FrozenCohort) : FrozenCohort :=
  c <| coh_Slots := [] |> <| coh_FrozenAt := stored_time (coh_FrozenAt c) |> <| coh_RegisteredAt := stored_time (coh_RegisteredAt c) |>.

Definition slot_json (s : FrozenCohortSlot) : jvalue :=
  JObject [("index", json_Z (slot_Index s)); ("request_id", JString (slot_RequestID s));
    ("opportunity_digest", JString (slot_OpportunityDigest s)); ("weight_ppb", json_Z (slot_WeightPPB s))]%string.
Definition cohort_json (c : FrozenCohort) : jvalue :=
  JObject [("tenant_id", JString (coh_TenantID c)); ("cohort_id", JString (coh_CohortID c)); ("size", json_Z (coh_Size c));
    ("tenant_risk_ppb", json_Z (coh_TenantRiskPPB c)); ("slots", json_list (map slot_json (coh_Slots c)));
    ("data_hash", JString (coh_DataHash c)); ("config_hash", JString (coh_ConfigHash c));
    ("protocol_hash", JString (coh_ProtocolHash c)); ("frozen_at", JString (RFC3339Nano (coh_FrozenAt c)));
    ("registered_at", JString (RFC3339Nano (coh_RegisteredAt c))); ("registry_digest", JString (coh_RegistryDigest c));
    ("authority_key_id", JString (coh_AuthorityKeyID c)); ("authority_proof", JString (coh_AuthorityProof c));
    ("ledger_layout_id", JString (coh_LedgerLayoutID c)); ("route_snapshot_schema", JString (coh_RouteSnapshotSchema c));
    ("software_hash", JString (coh_SoftwareHash c))]%string.

Definition cohort_entry (e : PostgresEngine) (c : FrozenCohort) (after : string) : Entry :=
  Build_Entry (coh_TenantID c) 0
    ("cohort-registration:" +:+ coh_TenantID c +:+ ":" +:+ coh_CohortID c +:+ ":" +:+ coh_RegistryDigest c)
    "COHORT_REGISTRATION" (coh_RegistryDigest c) "" "" "" ActorRegistry "cohort_registered" "" after "" "" "" ""
    (coh_RegistryDigest c) (coh_SoftwareHash c) "" "" zero_time true "".

Definition cohort_checks (c : FrozenCohort) : bool :=
  (0 <? coh_Size c) && (0 <=? coh_TenantRiskPPB c) && (coh_TenantRiskPPB c <=? one_ppb)
  && forallb (fun s => 0 <=? slot_WeightPPB s) (coh_Slots c).
Definition slots_unique (c : FrozenCohort) : bool :=
  bool_decide (NoDup (map slot_Index (coh_Slots c))) && bool_decide (NoDup (map slot_RequestID (coh_Slots c))).

Definition insert_cohort (c : FrozenCohort) : tx unit := fun db =>
  if negb (cohort_checks c) then inr check_violation
  else if exists_row (fun _ old => String.eqb (coh_RegistryDigest old) (coh_RegistryDigest c)) (db_cohorts db)
          || negb (slots_unique c) then inr duplicate_key
  else inl (tt, db <| db_cohorts := <[(coh_TenantID c, coh_CohortID c) := cohort_row c]> (db_cohorts db) |>
                   <| db_slots := <[(coh_TenantID c, coh_CohortID c) := coh_Slots c]> (db_slots db) |>).

(** The slots of a normalized cohort are sorted by index already. *)
Definition registerFrozenCohortOnce (e : PostgresEngine) (c : FrozenCohort) : tx unit :=
  let* old := tx_read (fun db => db_cohorts db !! (coh_TenantID c, coh_CohortID c)) in
  match old with
  | Some old => tx_guard (String.eqb (coh_RegistryDigest old) (coh_RegistryDigest c))
                  (Failed "frozen cohort is immutable and conflicts with existing registration")
  | None =>
    run* insert_cohort c;
    match json_time_error (coh_FrozenAt c), json_time_error (coh_RegisteredAt c) with
    | None, None => append_audit e (cohort_entry e c (sha256_hex (jtext (cohort_json c))))
    | _, _ => tx_fail (Failed "marshal audit state")
    end
  end.

Definition register_tx (e : PostgresEngine) (cohort : FrozenCohort) : tx unit :=
  let* c := tx_result (normalizeFrozenCohort cohort) in
  if After (coh_FrozenAt c) (pg_now e) then tx_fail (Failed "frozen_at must precede server registration time")
  else if negb (String.eqb (coh_SoftwareHash c) (pg_cohortSoftwareHash e))
          || negb (String.eqb (coh_AuthorityKeyID c) (pg_authorityKeyID e)) || String.eqb (pg_authorityKey e) ""
          || negb (String.eqb (ToLower (coh_AuthorityProof c)) (cohort_proof (pg_authorityKey e) c))
  then tx_fail (Failed "frozen cohort authority proof is invalid")
  else registerFrozenCohortOnce e (c <| coh_RegisteredAt := pg_now e |>).

Definition PgExportFrozenCohort (db : database) (tenant cohortID : string) : result FrozenCohort :=
  match loadFrozenCohort db tenant cohortID with None => Err no_rows | Some c => Ok c end.

(** The retry loops of the remaining calls. *)
Section more_calls.
Context (engine : nat -> PostgresEngine) (fates : nat -> fate) (others : nat -> database -> database).

Definition PgAdjustBudget (a : BudgetAdjustment) (db : database) : database * (unit + failure) :=
  retry (tx_retryable true) (fun i => tx_attempt (fates i) (adjustBudgetOnce (engine i) a)) others 2 0 db.
Definition PgReconcileExpired (at_ : Time) (db : database) : database * (list ReconciliationRecord + failure) :=
  retry (tx_retryable false) (fun i => tx_attempt (fates i) (reconcileExpiredOnce (engine i) at_)) others 2 0 db.
Definition PgRegisterFrozenCohort (cohort : FrozenCohort) (db : database) : database * (unit + failure) :=
  retry (tx_retryable true) (fun i => tx_attempt (fates i) (register_tx (engine i) cohort)) others 2 0 db.
End more_calls.

(** ** Start-up *)

Definition PgConfigureLedgerAuthority (e : PostgresEngine) (keyID key : string) : PostgresEngine * option error :=
  if String.eqb keyID "" || (String.length key <? 32)%nat
  then (e, Some "ledger authority requires key id and at least 32 secret bytes"%string)
  else (e <| pg_authorityKeyID := keyID |> <| pg_authorityKey := key |>, None).
Definition PgConfigureCohortRuntime (e : PostgresEngine) (softwareHash : string) : PostgresEngine * option error :=
  if negb (is_sha256 softwareHash) then (e, Some "cohort runtime software hash must be SHA-256"%string)
  else (e <| pg_cohortSoftwareHash := softwareHash |>, None).

(** The sums of the schema script, over the rows of a tenant. *)
Definition row_sum (f : Reservation -> Z) (T : string) (m : gmap string Reservation) : Z :=
  map_fold (fun _ r acc => (if String.eqb (res_TenantID r) T then f r else 0) + acc) 0 m.
Definition payments (T : string) (m : gmap string adjustment_row) : Z :=
  map_fold (fun _ a acc => (if String.eqb (adj_TenantID (adr_Adjustment a)) T
                            then adj_DebtPaymentMicros (adr_Adjustment a) else 0) + acc) 0 m.

Definition live (r : Reservation) : Z := if reservationIsActive (res_State r) then 1 else 0.
Definition live_hold (r : Reservation) : Z :=
  if reservationIsActive (res_State r) then res_ResidualHoldMicros r + res_RolloverGuardMicros r else 0.
Definition window_effect (window : string) (r : Reservation) : Z :=
  if negb (res_Carried r) && String.eqb (res_EnforcementWindowID r) window then res_SettledEffectMicros r else 0.

Definition tenant_aggregates (db : database) (T : string) (t : tenantLedger) : bool :=
  let m := db_reservations db in
  (tenant_ReservedMicros t =? row_sum live_hold T m) && (tenant_ActiveReservations t =? row_sum live T m)
  && (tenant_SettledMicros t =? row_sum (window_effect (tenant_CurrentWindowID t)) T m)
  && (tenant_CarriedAdjustmentMicros t =? row_sum res_CarryEffectMicros T m - payments T (db_adjustments db))
  && (tenant_HistoricalCreditMicros t =? row_sum res_HistoricalCreditMicros T m).

(** A reservation has one outbox row, which agrees with it: [request_id] is unique. *)
Definition outbox_agrees (db : database) (id : string) (r : Reservation) : bool :=
  match filter (fun '(_, o) => obx_RequestID o = id) (map_to_list (db_outbox db)) with
  | [(key, o)] => String.eqb key (res_OutboxID r) && String.eqb (obx_TenantID o) (res_TenantID r)
                  && String.eqb (obx_WorkloadUID o) (res_WorkloadUID r)
                  && String.eqb (obx_ProviderAttemptID o) (res_ProviderAttemptID r)
                  && outbox_is (obx_State o) (res_OutboxState r)
  | _ => false
  end.
Definition within_ceiling (r : Reservation) : bool :=
  state_is (res_State r) StateFinalized || state_is (res_State r) StateLateFinalized
  || (res_ResidualHoldMicros r + res_RolloverGuardMicros r <=? res_ReservedCostMicros r).

(** The hashes and the cap that a row must state ([is_sha256] is the script's pattern; the
    model's rows have no NULL column). *)
Definition snapshot_reconciled (r : Reservation) : bool :=
  is_sha256 (route_SnapshotHash (res_RouteSnapshot r)) && is_sha256 (route_PricingComplianceHash (res_RouteSnapshot r))
  && is_sha256 (res_PricingSnapshotSHA256 r) && is_sha256 (res_CapEvidenceSHA256 r) && (0 <? res_VerifiedOutputCapTokens r).

(** The invariants that the schema script checks over the rows it finds. *)
Definition initSchema_checks (db : database) : option error :=
  if negb (forallb (fun '(_, r) => snapshot_reconciled r) (map_to_list (db_reservations db)))
  then Some "unreconciled reservation pricing/route snapshot"%string
  else if existsb (fun '(_, r) => String.eqb (res_AdmissionFingerprint r) "") (map_to_list (db_reservations db))
  then Some "unreconciled reservation rows without immutable admission fingerprint exist"%string
  else if negb (forallb (fun '(T, t) => tenant_aggregates db T t) (map_to_list (db_tenants db)))
  then Some "tenant aggregate invariant mismatch"%string
  else if negb (forallb (fun '(id, r) => outbox_agrees db id r) (map_to_list (db_reservations db)))
  then Some "reservation/outbox invariant mismatch"%string
  else if negb (forallb (fun '(_, r) => within_ceiling r) (map_to_list (db_reservations db)))
  then Some "reservation hold exceeds ceiling"%string
  else None.

Definition validateStoredRouteSnapshots (db : database) : option error :=
  (fix go ids := match ids with
   | [] => None
   | id :: rest => match loadReservation db id with
                   | Some (Ok _) => go rest
                   | Some (Err m) => Some ("stored reservation " +:+ id +:+ " route snapshot: " +:+ m)
                   | None => Some no_rows
                   end
   end) (sort_ids (map fst (map_to_list (db_reservations db)))).

Definition validateStoredTenantAudits (db : database) : option error :=
  (fix go tenants := match tenants with
   | [] => None
   | T :: rest => match VerifyTenantAudit (db_audit db) T with
                  | Some m => Some ("stored tenant audit " +:+ T +:+ ": " +:+ m)
                  | None => go rest
                  end
   end) (sort_ids (elements (list_to_set (map ae_TenantID (as_events (db_audit db))) : gset string))).

(** What [validateRuntimeSchema] reads about its login and the schema. *)
Record RuntimeIdentity : Type := Build_RuntimeIdentity {
  rti_currentUser : string;
  rti_sessionUser : string;
  rti_auditOwner : string;
  rti_privileged : bool;
  rti_runtimeMember : bool;
  rti_canSelect : bool;
  rti_canInsert : bool;
  rti_canUpdate : bool;
  rti_canDelete : bool;
  rti_canTruncate : bool;
  rti_schemaVersion : Z;
  rti_layoutID : string;
  rti_schemaOK : bool;
  rti_calibrationOK : bool
}.
Definition CalibrationLayoutVersion : Z := 8.
Definition CalibrationLayoutID : string := "govar-v8-authoritative-calibration-20260713".

(** [rti_privileged]: any of superuser, createrole, createdb, replication and
    bypassrls. *)
Definition validateRuntimeSchema (i : RuntimeIdentity) (db : database) : option error :=
  if negb (String.eqb (rti_currentUser i) "govar_runtime") || negb (rti_runtimeMember i)
  then Some ("runtime login " +:+ Quote (rti_sessionUser i) +:+ " is not operating as required govar_runtime role")
  else if rti_privileged i || String.eqb (rti_sessionUser i) (rti_auditOwner i)
  then Some ("runtime login " +:+ Quote (rti_sessionUser i)
             +:+ " must be a distinct unprivileged login from migration/audit owner " +:+ Quote (rti_auditOwner i))
  else if negb (rti_canSelect i) || negb (rti_canInsert i) || rti_canUpdate i || rti_canDelete i || rti_canTruncate i
  then Some "runtime audit privileges invalid"%string
  else if (negb (rti_schemaVersion i =? 7) || negb (String.eqb (rti_layoutID i) "govar-v7-durable-workers-20260713"))
          && (negb (rti_schemaVersion i =? CalibrationLayoutVersion) || negb (String.eqb (rti_layoutID i) CalibrationLayoutID))
  then Some "runtime requires exact GOV-AR v7 or additive v8 layout"%string
  else if negb (rti_schemaOK i)
  then Some "runtime GOV-AR core schema, selected-feedback authority, worker lease, or audit protection identity mismatch"%string
  else if (rti_schemaVersion i =? CalibrationLayoutVersion) && negb (rti_calibrationOK i)
  then Some "runtime GOV-AR v8 calibration evidence protection mismatch"%string
  else match validateStoredRouteSnapshots db with
  | Some m => Some m
  | None => validateStoredTenantAudits db
  end.
End postgres.
