(* ===== verification/PostgresBooks.v ===== *)
(** * The rows of the SQL ledger: windows and aggregates

    How a transition of [Ledger] moves the sums that the schema script of
    [postgres_engine.go] recomputes at start-up: the settled, carried and credited
    micros of a tenant, next to the reserved ones of [LedgerProofs]. They follow
    the transitions as long as a row is placed in its tenant's windows: [windowed]
    is that invariant. *)

From Stdlib Require Import ZArith Lia Ascii String.
From stdpp Require Import base gmap strings list pretty.
From S2P Require Import Prelude Digest GoTime Api Json JsonDecode Pricing Calibration Routes AdmissionPolicy Ledger LedgerProofs Cohorts Engine EngineProofs Wire AuditChain WorkQueue Postgres.

Open Scope string_scope.
Open Scope list_scope.
Open Scope Z_scope.
Open Scope go_scope.

(** ** The place of a row in the windows *)

(** [open]: the row may still hold; [final]: its last version is final. *)
Record placed (w : string) (open final : bool) (r : Reservation) : Prop := {
  pl_named : res_EnforcementWindowID r <> ""%string;
  pl_start : res_EnforcementWindowID r = w \/ windowStartsAfter w (res_EnforcementWindowID r) = true;
  pl_origin : res_Carried r = false -> res_EnforcementWindowID r = res_OriginWindowID r;
  pl_carried : res_Carried r = true -> res_RolloverGuardMicros r = 0;
  pl_guard : res_Carried r = false -> open = true ->
    res_RolloverGuardMicros r = if String.eqb (res_EnforcementWindowID r) w then 0 else res_ProvisionalCostMicros r;
  pl_effect : res_Carried r = false -> final = false -> res_EnforcementWindowID r = w ->
    res_SettledEffectMicros r = res_ProvisionalCostMicros r;
  pl_unused : res_UsageVersion r = 0 ->
    res_SettledEffectMicros r = 0 /\ res_CarryEffectMicros r = 0 /\ res_HistoricalCreditMicros r = 0;
  pl_settled : micros (res_SettledEffectMicros r);
  pl_credit : micros (res_HistoricalCreditMicros r)
}.

(** A row of a tenant whose current window is [w]. *)
Record windowed (w : string) (r : Reservation) : Prop := {
  wd_placed : placed w (negb (closed_state (res_State r))) (final_state (res_State r)) r;
  wd_late : res_State r = StateLateSettledProvisional -> res_Carried r = true
}.

(** ** The sums that follow a transition *)

Record booked (w : string) (r : Reservation) (t : tenantLedger) (r' : Reservation) (t' : tenantLedger) : Prop := {
  bk_settled : tenant_SettledMicros t' - window_effect w r' ≡64 tenant_SettledMicros t - window_effect w r;
  bk_carry : tenant_CarriedAdjustmentMicros t' - res_CarryEffectMicros r'
             ≡64 tenant_CarriedAdjustmentMicros t - res_CarryEffectMicros r;
  bk_credit : tenant_HistoricalCreditMicros t' - res_HistoricalCreditMicros r'
              ≡64 tenant_HistoricalCreditMicros t - res_HistoricalCreditMicros r
}.

Lemma booked_same w r t r' t' :
  tenant_SettledMicros t' = tenant_SettledMicros t -> tenant_CarriedAdjustmentMicros t' = tenant_CarriedAdjustmentMicros t ->
  tenant_HistoricalCreditMicros t' = tenant_HistoricalCreditMicros t -> window_effect w r' = window_effect w r ->
  res_CarryEffectMicros r' = res_CarryEffectMicros r -> res_HistoricalCreditMicros r' = res_HistoricalCreditMicros r ->
  booked w r t r' t'.
Proof. intros E1 E2 E3 E4 E5 E6. split; by rewrite ?E1, ?E2, ?E3, ?E4, ?E5, ?E6. Qed.
Lemma booked_trans w r t r1 t1 r2 t2 : booked w r t r1 t1 -> booked w r1 t1 r2 t2 -> booked w r t r2 t2.
Proof. intros [A1 A2 A3] [B1 B2 B3]. split; etransitivity; eauto. Qed.

Lemma window_effect_in w r : res_Carried r = false -> res_EnforcementWindowID r = w -> window_effect w r = res_SettledEffectMicros r.
Proof. intros Hc He. unfold window_effect. by rewrite Hc, He, String.eqb_refl. Qed.
Lemma window_effect_out w r : res_Carried r = true \/ res_EnforcementWindowID r <> w -> window_effect w r = 0.
Proof.
  unfold window_effect. intros [-> | Hne%String.eqb_neq]; [done|]. rewrite Hne. by rewrite andb_false_r.
Qed.
Lemma window_effect_eq w r r' : res_Carried r' = res_Carried r -> res_EnforcementWindowID r' = res_EnforcementWindowID r ->
  res_SettledEffectMicros r' = res_SettledEffectMicros r -> window_effect w r' = window_effect w r.
Proof. unfold window_effect. by intros -> -> ->. Qed.

(** *** A new usage version *)

(** After a version is observed: in which cases it is not carried. *)
Definition on_time (w : string) (r : Reservation) : Prop :=
  res_Carried r = false -> state_is (res_State r) StateUnresolved = false /\ w = res_OriginWindowID r.

Lemma credit_micros a b : micros a -> micros b -> micros (floor0 (b -i a)).
Proof. intros Ha Hb. by apply floor0_micros. Qed.

(** The fields that every accounting case sets in the end. *)
Definition noted (r : Reservation) (req : SettleRequest) (residual : Z) : Reservation :=
  r <| res_ProvisionalCostMicros := sreq_ActualCostMicros req |> <| res_ResidualHoldMicros := residual |>
    <| res_UsageVersion := sreq_UsageVersion req |> <| res_LastUsageEventID := sreq_SettlementID req |>.

Definition observed_row (w : string) (r : Reservation) (t : tenantLedger) (r1 : Reservation) (t1 : tenantLedger) : Prop :=
  placed w true false r1 /\ booked w r t r1 t1 /\ (res_UsageVersion r = 0 -> on_time w r1) /\
  tenant_CurrentWindowID t1 = tenant_CurrentWindowID t.

Section observe.
Context (w : string) (r : Reservation) (t : tenantLedger) (req : SettleRequest).
Context (Hpl : placed w true false r) (Hw : tenant_CurrentWindowID t = w).
Context (Hb : micros (res_BaseActualMicros r)) (Hp : micros (res_ProvisionalCostMicros r)).
Context (Ha : micros (sreq_ActualCostMicros req)) (Hv : 0 < sreq_UsageVersion req).

Local Ltac account :=
  split; [split | split; [split | split; [|reflexivity]]];
  lazymatch goal with
  | |- window_effect _ _ = _ => idtac
  | |- _ - window_effect _ _ ≡64 _ => idtac
  | |- _ ≡64 _ => unfold noted; upd; try eqm_lia
  | |- _ => unfold noted, on_time; upd; try done; try lia; try (intros; congruence)
  end.
Local Ltac same_effect := rewrite !window_effect_out by (unfold noted; upd; tauto); upd; eqm_lia.

Lemma account_late_row : res_Carried r = false -> res_UsageVersion r = 0 -> res_RolloverGuardMicros r = 0 -> w <> ""%string ->
  forall n, let '(r1, t1, residual) := account_late r t (sreq_ActualCostMicros req) n in
  observed_row w r t (noted r1 req residual) t1.
Proof.
  intros Hcf H0 Hg Hne n. unfold account_late. destruct Hpl as [P1 P2 P3 P4 P5 P6 P7 P8 P9].
  destruct (P7 H0) as (He & Hc & Hh). rewrite Hw.
  account; try (by left); try congruence.
  - rewrite (window_effect_out w (noted _ _ _)) by (left; reflexivity).
    assert (Hwe : window_effect w r = 0) by (unfold window_effect; rewrite He; by destruct (_ && _)). rewrite Hwe. upd. eqm_lia.
Qed.

Lemma account_current_row : res_Carried r = false -> res_EnforcementWindowID r = w ->
  (res_UsageVersion r = 0 -> on_time w r) ->
  forall n, let '(r1, t1, residual) := account_current r t (sreq_ActualCostMicros req)
                                         (sreq_ActualCostMicros req -i res_ProvisionalCostMicros r) n in
  observed_row w r t (noted r1 req residual) t1.
Proof.
  intros Hcf He Hon n. unfold account_current. destruct Hpl as [P1 P2 P3 P4 P5 P6 P7 P8 P9].
  account.
  - rewrite (P5 Hcf eq_refl), He, String.eqb_refl. done.
  - rewrite (window_effect_in w r Hcf He), window_effect_in by (unfold noted; by upd). unfold noted. upd.
    rewrite (P6 Hcf eq_refl He). eqm_lia.
Qed.

Lemma account_rolled_row : res_Carried r = false -> res_EnforcementWindowID r <> w ->
  res_UsageVersion r <> 0 ->
  forall n, let '(r1, t1, residual) := account_rolled r t (sreq_ActualCostMicros req)
                                         (sreq_ActualCostMicros req -i res_ProvisionalCostMicros r) n in
  observed_row w r t (noted r1 req residual) t1.
Proof.
  intros Hcf He Hnz n. unfold account_rolled, set_credit. cbv zeta. destruct Hpl as [P1 P2 P3 P4 P5 P6 P7 P8 P9].
  pose proof (credit_micros _ _ Ha Hb). account.
  - intros _ _. rewrite (P5 Hcf eq_refl). apply String.eqb_neq in He as He'. rewrite He', (micros_diff _ _ Ha Hp).
    rewrite add64_id; [lia|]. apply micros_in64. unfold micros in *. lia.
  - same_effect.
Qed.

Lemma account_carried_row : res_Carried r = true -> res_UsageVersion r <> 0 ->
  forall n, let '(r1, t1, residual) := account_carried r t (sreq_ActualCostMicros req) n in
  observed_row w r t (noted r1 req residual) t1.
Proof.
  intros Hct Hnz n. unfold account_carried, set_credit. cbv zeta. destruct Hpl as [P1 P2 P3 P4 P5 P6 P7 P8 P9].
  pose proof (credit_micros _ _ Ha Hb).
  destruct (_ <? _); [|destruct (_ <? _)]; account; try congruence; same_effect.
Qed.
End observe.

Lemma used_open r : res_wf r -> final_state (res_State r) = false -> res_UsageVersion r <> 0 -> closed_state (res_State r) = false.
Proof.
  intros Hwf Hfin Hnz. pose proof (wf_version _ Hwf) as Hver.
  destruct (settled_state (res_State r)) eqn:Hs; [|by destruct Hnz]. destruct (res_State r); cbn in *; congruence.
Qed.

(** Usage with version 0 has charged nothing yet. *)
Definition unused_row (r : Reservation) : Prop := res_UsageVersion r = 0 ->
  res_ProvisionalCostMicros r = 0 /\ res_Carried r = false /\ res_RolloverGuardMicros r = 0.

Lemma observe_row w r t req : placed w (negb (closed_state (res_State r))) false r -> unused_row r ->
  (res_UsageVersion r <> 0 -> closed_state (res_State r) = false) ->
  micros (res_BaseActualMicros r) -> micros (res_ProvisionalCostMicros r) ->
  tenant_CurrentWindowID t = w -> w <> ""%string ->
  micros (sreq_ActualCostMicros req) -> 0 < sreq_UsageVersion req ->
  observed_row w r t (observe_usage r t req).1 (observe_usage r t req).2.
Proof.
  intros Hpl Hun Hopen Hbase Hp Hw Hne Ha Hv. unfold unused_row in Hun.
  assert (Hpl' : placed w true false r).
  { destruct Hpl as [P1 P2 P3 P4 P5 P6 P7 P8 P9]. split; try done. intros Hc _.
    destruct (Z.eq_dec (res_UsageVersion r) 0) as [H0|Hnz].
    - destruct (Hun H0) as (-> & _ & ->). by destruct (String.eqb _ _).
    - apply (P5 Hc). by rewrite Hopen. }
  clear Hpl.
  unfold observe_usage. cbv zeta. set (r0 := if res_UsageVersion r =? 0 then _ else r).
  assert (Hr0 : exists b, micros b /\ r0 = r <| res_BaseActualMicros := b |>).
  { unfold r0. destruct (_ =? 0); [by exists (sreq_ActualCostMicros req)|].
    exists (res_BaseActualMicros r). split; [done|]. by destruct r. }
  destruct Hr0 as (b & Hb & E). clearbody r0. 
  assert (Hpl0 : placed w true false r0) by (destruct Hpl'; subst r0; by split; upd).
  assert (Hbk : forall r1 t1, observed_row w r0 t r1 t1 -> observed_row w r t r1 t1).
  { intros r1 t1 (A & B & C & D). split; [done|]. split; [|subst r0; done]. destruct B. subst r0. by split. }
  assert (Hf : res_Carried r0 = res_Carried r /\ res_UsageVersion r0 = res_UsageVersion r /\ res_State r0 = res_State r /\
    res_ProvisionalCostMicros r0 = res_ProvisionalCostMicros r /\ res_RolloverGuardMicros r0 = res_RolloverGuardMicros r /\
    micros (res_BaseActualMicros r0) /\ res_ReservedCostMicros r0 = res_ReservedCostMicros r) by (by subst r0).
  clear E Hpl'. destruct Hf as (Fc & Fv & Fs & Fp & Fg & Fb & Fr). rewrite <- Fv, <- Fc, <- Fp, <- Fg in Hun. rewrite <- Fv, <- Fp in *. rewrite <- Fr.
  set (n := floor0 (res_ReservedCostMicros r0 -i sreq_ActualCostMicros req)).
  set (late := state_is (res_State r0) StateUnresolved || negb (String.eqb (tenant_CurrentWindowID t) (res_OriginWindowID r0))).
  enough (Hx : let '(r1, t1, residual) :=
      if (res_UsageVersion r0 =? 0) && late then account_late r0 t (sreq_ActualCostMicros req) n
      else if res_Carried r0 then account_carried r0 t (sreq_ActualCostMicros req) n
      else if negb (res_Carried r0) && negb (String.eqb (res_EnforcementWindowID r0) "")
              && negb (String.eqb (res_EnforcementWindowID r0) (tenant_CurrentWindowID t))
      then account_rolled r0 t (sreq_ActualCostMicros req) (sreq_ActualCostMicros req -i res_ProvisionalCostMicros r0) n
      else account_current r0 t (sreq_ActualCostMicros req) (sreq_ActualCostMicros req -i res_ProvisionalCostMicros r0) n in
    observed_row w r0 t (noted r1 req residual) t1).
  { revert Hx. destruct (if _ && late then _ else _) as [[r1 t1] residual]. intros Hx. cbn [fst snd]. apply Hbk. exact Hx. }
  pose proof (pl_named _ _ _ _ Hpl0) as Hnamed%String.eqb_neq. pose proof (pl_origin _ _ _ _ Hpl0) as Horigin.
  rewrite Hnamed. cbn [negb]. rewrite Hw.
  destruct (Z.eqb_spec (res_UsageVersion r0) 0) as [H0|Hnz]; cbn [andb].
  - destruct (Hun H0) as (Hz & Hcf & Hg). destruct late eqn:Hlate.
    + by apply account_late_row.
    + unfold late in Hlate. apply orb_false_elim in Hlate as [Hu Ho%negb_false_iff%String.eqb_eq]. rewrite Hcf. cbn [negb andb].
      rewrite (Horigin Hcf), <- Ho, Hw, String.eqb_refl. cbn [negb].
      apply account_current_row; try done; [by rewrite (Horigin Hcf), <- Ho|]. intros _ _. by rewrite <- Hw.
  - destruct (res_Carried r0) eqn:Hcf; cbn [negb andb]; [by apply account_carried_row|].
    destruct (String.eqb_spec (res_EnforcementWindowID r0) w); cbn [negb]; [by apply account_current_row | by apply account_rolled_row].
Qed.

(** *** The end of a version *)

Definition row_step (w : string) (r : Reservation) (t : tenantLedger) (r' : Reservation) (t' : tenantLedger) : Prop :=
  windowed w r' /\ booked w r t r' t' /\ tenant_CurrentWindowID t' = tenant_CurrentWindowID t.

Lemma conclude_row w r t req x : placed w true false r -> tenant_CurrentWindowID t = w ->
  (sreq_Final req = false -> res_UsageVersion r <= 1 -> on_time w r) ->
  row_step w r t (conclude r t req x).1.1.1 (conclude r t req x).1.1.2.
Proof.
  intros [P1 P2 P3 P4 P5 P6 P7 P8 P9] Hw Hlate. unfold conclude, release_hold. cbv zeta.
  assert (Hbk : forall r' t', tenant_SettledMicros t' = tenant_SettledMicros t ->
    tenant_CarriedAdjustmentMicros t' = tenant_CarriedAdjustmentMicros t ->
    tenant_HistoricalCreditMicros t' = tenant_HistoricalCreditMicros t -> tenant_CurrentWindowID t' = tenant_CurrentWindowID t ->
    window_effect w r' = window_effect w r -> res_CarryEffectMicros r' = res_CarryEffectMicros r ->
    res_HistoricalCreditMicros r' = res_HistoricalCreditMicros r -> windowed w r' -> row_step w r t r' t').
  { intros. split; [done|]. split; [by apply booked_same | done]. }
  destruct (sreq_Final req) eqn:Hf; upd.
  - destruct (res_Carried r) eqn:Hc; destruct (_ || x); cbn [fst snd]; apply Hbk; try done;
      (split; [split|]); upd; try done; try congruence; rewrite ?Hc; done.
  - destruct (_ || x); [|destruct (Z.ltb_spec 1 (res_UsageVersion r)); [|destruct (_ || _) eqn:Hl]]; cbn [fst snd];
      apply Hbk; try done; (split; [split|]); upd; try done; try congruence.
    + intros _. destruct (res_Carried r) eqn:Hc; [done|]. destruct (Hlate eq_refl ltac:(lia) Hc) as [Hu Ho].
      rewrite Hu, Hw, Ho, String.eqb_refl in Hl. done.
Qed.

(** *** Settlement *)

Lemma settle_open_row w r t req x r' t' code : res_wf r -> windowed w r -> res_Finalized r = false ->
  tenant_CurrentWindowID t = w -> w <> ""%string -> micros (sreq_ActualCostMicros req) -> 0 < sreq_UsageVersion req ->
  settle_open r t req x = (r', t', code, None) -> code <> ReasonSettlementDuplicate -> row_step w r t r' t'.
Proof.
  intros Hwf [Hpl Hwl] Hnf Hw Hne Ha Hv. unfold settle_open. cbv beta zeta.
  set (r0 := r <| res_OutboxState := OutboxDelivered |>).
  assert (Hfin : final_state (res_State r) = false) by (by rewrite <- (wf_final _ Hwf)). rewrite Hfin in Hpl.
  assert (Hpl0 : placed w (negb (closed_state (res_State r))) false r0) by (destruct Hpl; by split).
  assert (Hback : forall r1 t1, row_step w r0 t r1 t1 -> row_step w r t r1 t1).
  { intros r1 t1 (A & [B1 B2 B3] & C). split; [done|]. split; [|done]. by split. }
  destruct ((_ =? 0) && _) eqn:E1; [refused|]. destruct (Z.ltb_spec (sreq_UsageVersion req) (res_UsageVersion r0)); [refused|].
  destruct ((_ =? _) && negb _) eqn:E2.
  - destruct (Z.eqb_spec (sreq_ActualCostMicros req) (res_ProvisionalCostMicros r0)); cbn [negb]; [|refused]. destruct (sreq_Final req) eqn:Hfinal; cbn [negb];
      [|intros (_ & _ & <- & _)%outcome_eq; done].
    destruct (String.eqb _ (res_LastUsageEventID r0)); cbn [negb]; [|refused]. intros E _. apply Hback. apply andb_prop in E2 as [_ Hnz%negb_true_iff%Z.eqb_neq].
    pose proof (conclude_row w r0 t req x) as Hc. rewrite E in Hc. cbn [fst snd] in Hc. apply Hc; [|done|congruence].
    by rewrite (used_open r Hwf Hfin Hnz) in Hpl0.
  - destruct ((0 <? _) && _) eqn:E3; [refused|]. intros E _. apply Hback.
    pose proof (observe_row w r0 t req Hpl0 (wf_unused _ Hwf) (used_open r Hwf Hfin) (wf_base _ Hwf) (wf_provisional _ Hwf) Hw Hne
                  Ha Hv) as Ho.
    assert (Hver : res_UsageVersion (observe_usage r0 t req).1 = sreq_UsageVersion req).
    { unfold observe_usage. cbv zeta. by destruct (if _ && _ then _ else _) as [[? ?] ?]. }
    destruct (observe_usage r0 t req) as [r1 t1]. cbn [fst snd] in Ho, Hver. destruct Ho as (O1 & O2 & O3 & O4).
    pose proof (conclude_row w r1 t1 req x O1) as Hc. rewrite E in Hc. cbn [fst snd] in Hc.
    destruct Hc as (C1 & C2 & C3); [by rewrite O4 | |].
    + intros _ Hle. apply O3. change (res_UsageVersion r0) with (res_UsageVersion r) in *.
      destruct (Z.ltb_spec 0 (res_UsageVersion r)) as [Hpos|]; [|].
      * exfalso. cbn [andb] in E3. apply orb_false_elim in E3 as [E3%negb_false_iff%Z.eqb_eq _]. rewrite Hver in Hle.
        assert (Hone : res_UsageVersion r = 1) by lia. rewrite Hone in E3. change (1 +i 1) with 2 in E3. lia.
      * pose proof (wf_version _ Hwf) as Hv0. destruct (settled_state (res_State r)); lia.
    + split; [done|]. split; [by eapply booked_trans | congruence].
Qed.

(** The correction of a finalized request. *)
Lemma correct_finalized_row w r t req x r' t' code : res_wf r -> windowed w r -> res_Finalized r = true ->
  micros (sreq_ActualCostMicros req) -> 0 < sreq_UsageVersion req ->
  correct_finalized r t req x = (r', t', code, None) -> row_step w r t r' t'.
Proof.
  intros Hwf [Hpl Hwl] Hf Ha Hpos. pose proof (wf_final _ Hwf) as Hfs. rewrite Hf in Hfs. rewrite <- Hfs in Hpl.
  pose proof (wf_version _ Hwf) as Hver.
  assert (Hcl : closed_state (res_State r) = true /\ settled_state (res_State r) = true) by (by destruct (res_State r)).
  destruct Hcl as [Hcl Hst]. rewrite Hst in Hver. rewrite Hcl in Hpl. destruct Hpl as [P1 P2 P3 P4 P5 P6 P7 P8 P9].
  pose proof (credit_micros _ _ Ha (wf_base _ Hwf)) as Hcr.
  assert (Hk : forall r' t', res_State r' = res_State r -> res_EnforcementWindowID r' = res_EnforcementWindowID r ->
      res_OriginWindowID r' = res_OriginWindowID r -> res_Carried r' = res_Carried r ->
      res_RolloverGuardMicros r' = res_RolloverGuardMicros r -> res_SettledEffectMicros r' = res_SettledEffectMicros r ->
      0 < res_UsageVersion r' -> micros (res_HistoricalCreditMicros r') ->
      tenant_SettledMicros t' = tenant_SettledMicros t -> tenant_CurrentWindowID t' = tenant_CurrentWindowID t ->
      tenant_CarriedAdjustmentMicros t' - res_CarryEffectMicros r' ≡64 tenant_CarriedAdjustmentMicros t - res_CarryEffectMicros r ->
      tenant_HistoricalCreditMicros t' - res_HistoricalCreditMicros r' ≡64 tenant_HistoricalCreditMicros t - res_HistoricalCreditMicros r ->
      row_step w r t r' t').
  { intros q u Es Ee Eo Ec Eg Ef Ev Em Et Ew Hcar Hcre. split; [split; [split|]|split; [split|done]];
      rewrite ?Es, ?Ee, ?Eo, ?Ec, ?Eg, ?Ef, ?Hcl, ?Et; try done; try lia.
    - by rewrite <- Hfs.
    - by rewrite (window_effect_eq w r q Ec Ee Ef). }
  unfold correct_finalized, set_credit. cbv beta zeta. destruct (negb _ || negb _) eqn:Hg; [refused|].
  apply orb_false_elim in Hg as [Hv%negb_false_iff%Z.eqb_eq _]. upd.
  destruct (0 <? _); [destruct (res_BaseActualMicros r <? _); upd; destruct (_ || x)|];
    intros (<- & <- & _ & _)%outcome_eq; apply Hk; upd; try done; eqm_lia.
Qed.

Section transitions.
Context `{Crypto}.

Lemma applySettlement_row w r t req r' t' code : res_wf r -> windowed w r -> tenant_CurrentWindowID t = w -> w <> ""%string ->
  applySettlement r t req = (r', t', code, None) -> code <> ReasonSettlementDuplicate -> row_step w r t r' t'.
Proof.
  intros Hwf Hwd Hw Hne (comps & missing & ex & req' & _ & _ & _ & _ & Ha & Hv & _ & E)%applySettlement_inv Hdup.
  set (r1 := with_actual r comps missing ex) in *.
  assert (Hwf1 : res_wf r1) by (by apply with_actual_wf).
  assert (Hwd1 : windowed w r1) by (destruct Hwd as [[P1 P2 P3 P4 P5 P6 P7 P8 P9] L]; by split; [split|]).
  assert (Hback : row_step w r1 t r' t' -> row_step w r t r' t').
  { intros (A & [B1 B2 B3] & C). split; [done|]. split; [|done]. by split. }
  cbv zeta in E. apply Hback. change (res_Finalized r) with (res_Finalized r1) in E. destruct (res_Finalized r1) eqn:Hf.
  - by eapply correct_finalized_row.
  - by eapply settle_open_row.
Qed.

Lemma applyDispatch_row w r t status r' code : windowed w r -> applyDispatch r status = (r', code, None) -> row_step w r t r' t.
Proof.
  intros [[P1 P2 P3 P4 P5 P6 P7 P8 P9] Hl]. unfold applyDispatch, state_is.
  repeat match goal with
  | |- (if String.eqb ?a ?b then _ else _) = _ -> _ => destruct (String.eqb a b)
  | |- (if _ then _ else _) = _ -> _ =>
    let E := fresh in destruct (_ || _) eqn:E; [refused|];
    apply orb_false_elim in E as [Hs%negb_false_iff%bool_decide_eq_true _]
  | |- (_, _, Some _) = _ -> _ => refused
  end;
  intros E; apply (f_equal (fun x => x.1.1)) in E; cbn [fst] in E; rewrite <- E; rewrite Hs in P5, P6;
  (split; [split; [split|]; upd; done | split; [by apply booked_same | done]]).
Qed.

(** A state change that releases the hold. *)
Lemma close_row w r t s o : windowed w r -> final_state (res_State r) = false -> final_state s = false -> closed_state s = true ->
  let r' := r <| res_OutboxState := o |> <| res_State := s |> in
  row_step w r t (release_hold r' t).1 (release_hold r' t).2.
Proof.
  intros [[P1 P2 P3 P4 P5 P6 P7 P8 P9] Hl] Hfin Hfs Hcl. unfold release_hold. cbn [fst snd].
  split; [split; [split|]; upd; try done|split; [by apply booked_same|done]].
  - by rewrite Hcl.
  - intros. apply P6; auto.
  - intros ->. done.
Qed.

(** A request whose outcome is unknown. *)
Lemma unresolved_row w r t : windowed w r -> closed_state (res_State r) = false ->
  row_step w r t (r <| res_State := StateUnresolved |>) t.
Proof.
  intros [[P1 P2 P3 P4 P5 P6 P7 P8 P9] Hl] Hop.
  assert (Hfin : final_state (res_State r) = false) by (by destruct (res_State r)). rewrite Hop in P5. rewrite Hfin in P6.
  split; [split; [split|]; upd; done|split; [by apply booked_same|done]].
Qed.

Lemma row_step_refl w r t : windowed w r -> row_step w r t r t.
Proof. intros Hw. split; [done|]. split; [by apply booked_same | done]. Qed.

Lemma applyCancel_row w r t a r' t' code : windowed w r -> applyCancel r t a = (r', t', code, None) -> row_step w r t r' t'.
Proof.
  intros Hwd. unfold applyCancel.
  destruct (res_State r) eqn:Hs; cbv beta zeta; try refused;
    repeat match goal with |- (if ?b then _ else _) = _ -> _ => destruct b end; try refused;
    try (intros (<- & <- & _ & _)%outcome_eq; first [by apply row_step_refl | apply unresolved_row; [done | by rewrite Hs]]).
  all: match goal with |- (release_hold (_ <| res_OutboxState := ?o |> <| res_State := ?s |>) _, _, _) = _ -> _ =>
    intros E; pose proof (close_row w r t s o Hwd ltac:(by rewrite Hs) eq_refl eq_refl) as Hc; cbv zeta in Hc;
    destruct (release_hold _ _) as [q u]; apply outcome_eq in E as (<- & <- & _ & _); exact Hc end.
Qed.

(** Every transition of a stored row. *)
Lemma transition_row w r t r' t' : transition r t r' t' -> res_wf r -> windowed w r -> tenant_CurrentWindowID t = w -> w <> ""%string ->
  row_step w r t r' t'.
Proof.
  intros [q u [r0 t0 st q0 c E | r0 t0 req q0 u0 c E Hd | r0 t0 a q0 u0 c E Hd] | Hs Ho | Hs] Hwf Hwd Hw Hne.
  - by eapply applyDispatch_row.
  - by eapply applySettlement_row.
  - by eapply applyCancel_row.
  - pose proof (close_row w r t StateExpiredUndispatched OutboxCanceled Hwd) as Hc. rewrite Hs in Hc.
    exact (Hc eq_refl eq_refl eq_refl).
  - apply unresolved_row; [done|]. by destruct Hs as [-> | ->].
Qed.
End transitions.
