(* ===== verification/PostgresLedger.v ===== *)
(** * The books of the SQL ledger

    The elementary changes that a committed transaction of [Postgres] makes to the
    tables that hold the books - tenants, reservations, outbox, adjustments - and
    the invariant [db_wf] they keep: the amounts of a tenant's row are exactly the
    sums over its reservations, and every reservation has its outbox row. The
    engine computes modulo 2^64; the sums are exact because the checks of the
    schema refuse a negative result. *)

From Stdlib Require Import ZArith Lia Ascii String.
From stdpp Require Import base gmap strings list pretty.
From S2P Require Import Prelude Digest GoTime Api Json JsonDecode Pricing Calibration Routes AdmissionPolicy Ledger LedgerProofs Cohorts Engine EngineProofs Wire AuditChain WorkQueue Postgres PostgresBooks.

Open Scope string_scope.
Open Scope list_scope.
Open Scope Z_scope.
Open Scope go_scope.

(** ** Sums *)

(** A congruence between an amount of a column and a sum that is not too far off. *)
Lemma exact_amount a b : amount_column a = true -> - 2 ^ 63 < b < 2 ^ 64 -> a ≡64 b -> a = b.
Proof. unfold amount_column, max_int64. intros [Ha1 Ha2]%andb_prop Hb [k Hk]. unfold int64_modulus in Hk. lia. Qed.

Lemma checks_amounts t : tenant_checks t = true ->
  amount_column (tenant_SettledMicros t) = true /\ amount_column (tenant_ReservedMicros t) = true /\
  amount_column (tenant_CarriedAdjustmentMicros t) = true /\ amount_column (tenant_HistoricalCreditMicros t) = true.
Proof. unfold tenant_checks. rewrite !andb_true_iff. tauto. Qed.
Lemma amount_micros z : amount_column z = true -> micros z.
Proof. unfold amount_column, micros. rewrite andb_true_iff. lia. Qed.

Lemma map_sum_le {V} (f g : V -> Z) (m : gmap string V) :
  (forall k v, m !! k = Some v -> f v <= g v) -> map_sum f m <= map_sum g m.
Proof.
  induction m as [|k v m Hk IH] using map_ind; intros Hle; [done|]. rewrite !map_sum_insert_new by done.
  assert (f v <= g v) by (apply (Hle k); apply lookup_insert_eq).
  assert (map_sum f m <= map_sum g m); [|lia]. apply IH. intros k' v' E. apply (Hle k').
  rewrite lookup_insert_ne; [done|congruence].
Qed.
Lemma map_sum_const0 {V} (m : gmap string V) : map_sum (fun _ => 0) m = 0.
Proof. induction m as [|k v m Hk IH] using map_ind; [done|]. rewrite map_sum_insert_new by done. lia. Qed.
Lemma map_sum_nonneg {V} (f : V -> Z) (m : gmap string V) :
  (forall k v, m !! k = Some v -> 0 <= f v) -> 0 <= map_sum f m.
Proof. intros Hf. rewrite <- (map_sum_const0 m). by apply map_sum_le. Qed.

Section row_sums.
Context (f : Reservation -> Z).
Implicit Types (m : gmap string Reservation) (T : string) (r : Reservation).

Definition of_tenant T r : Z := if String.eqb (res_TenantID r) T then f r else 0.
Lemma row_sum_map T m : row_sum f T m = map_sum (of_tenant T) m.
Proof. reflexivity. Qed.

Lemma row_sum_new T m id r : m !! id = None -> row_sum f T (<[id := r]> m) = row_sum f T m + of_tenant T r.
Proof. intros E. rewrite !row_sum_map, map_sum_insert_new by done. lia. Qed.
Lemma row_sum_update T m id r r' : m !! id = Some r ->
  row_sum f T (<[id := r']> m) = row_sum f T m + (of_tenant T r' - of_tenant T r).
Proof. intros E. rewrite !row_sum_map, (map_sum_insert _ _ _ _ _ E). lia. Qed.
Lemma row_sum_nonneg T m : (forall id r, m !! id = Some r -> res_TenantID r = T -> 0 <= f r) -> 0 <= row_sum f T m.
Proof.
  intros Hf. rewrite row_sum_map. apply map_sum_nonneg. intros id r E. unfold of_tenant.
  destruct (String.eqb_spec (res_TenantID r) T); [by eapply Hf | done].
Qed.
Lemma row_sum_0 T m : (forall id r, m !! id = Some r -> res_TenantID r = T -> f r = 0) -> row_sum f T m = 0.
Proof.
  intros Hf. rewrite row_sum_map, <- (map_sum_const0 m). apply map_sum_ext. intros id r E. unfold of_tenant.
  destruct (String.eqb_spec (res_TenantID r) T); [by eapply Hf | done].
Qed.
End row_sums.
Lemma row_sum_ext f g T m : (forall id r, m !! id = Some r -> res_TenantID r = T -> f r = g r) -> row_sum f T m = row_sum g T m.
Proof.
  intros Hf. rewrite !row_sum_map. apply map_sum_ext. intros id r E. unfold of_tenant.
  destruct (String.eqb_spec (res_TenantID r) T); [by eapply Hf | done].
Qed.
Lemma row_sum_add_le f g h T m : (forall id r, m !! id = Some r -> res_TenantID r = T -> f r <= g r + h r) ->
  row_sum f T m <= row_sum g T m + row_sum h T m.
Proof.
  intros Hf. rewrite !row_sum_map, <- map_sum_add. apply map_sum_le. intros id r E. unfold of_tenant.
  destruct (String.eqb_spec (res_TenantID r) T); [by eapply Hf | done].
Qed.
Lemma row_sum_fmap f g T m : (forall r, res_TenantID (g r) = res_TenantID r) ->
  row_sum f T (g <$> m) = row_sum (fun r => f (g r)) T m.
Proof.
  intros Hg. rewrite !row_sum_map, map_sum_fmap. apply map_sum_ext. intros id r _. unfold of_tenant. by rewrite Hg.
Qed.

Lemma payments_new T m id a : m !! id = None -> payments T (<[id := a]> m)
  = payments T m + if String.eqb (adj_TenantID (adr_Adjustment a)) T then adj_DebtPaymentMicros (adr_Adjustment a) else 0.
Proof. intros E. change (payments T) with (map_sum (fun a => if String.eqb (adj_TenantID (adr_Adjustment a)) T
    then adj_DebtPaymentMicros (adr_Adjustment a) else 0)). rewrite map_sum_insert_new by done. lia. Qed.

(** ** The invariant *)

Record tenant_ok (d : database) (T : string) (t : tenantLedger) : Prop := {
  to_checks : tenant_checks t = true;
  to_window : tenant_CurrentWindowID t <> ""%string;
  to_reserved : tenant_ReservedMicros t = row_sum held T (db_reservations d);
  to_active : tenant_ActiveReservations t = row_sum live T (db_reservations d);
  to_settled : tenant_SettledMicros t = row_sum (window_effect (tenant_CurrentWindowID t)) T (db_reservations d);
  to_carried : tenant_CarriedAdjustmentMicros t = row_sum res_CarryEffectMicros T (db_reservations d) - payments T (db_adjustments d);
  to_credit : tenant_HistoricalCreditMicros t = row_sum res_HistoricalCreditMicros T (db_reservations d)
}.

Record outbox_of (o : outbox_row) (r : Reservation) : Prop := {
  oo_request : obx_RequestID o = res_RequestID r;
  oo_tenant : obx_TenantID o = res_TenantID r;
  oo_workload : obx_WorkloadUID o = res_WorkloadUID r;
  oo_attempt : obx_ProviderAttemptID o = res_ProviderAttemptID r;
  oo_state : obx_State o = res_OutboxState r
}.

Record row_ok (d : database) (id : string) (r : Reservation) : Prop := {
  ro_id : res_RequestID r = id;
  ro_wf : res_wf r;
  ro_tenant : exists t, db_tenants d !! res_TenantID r = Some t /\ windowed (tenant_CurrentWindowID t) r;
  ro_outbox : exists o, db_outbox d !! res_OutboxID r = Some o /\ outbox_of o r
}.

Record db_wf (d : database) : Prop := {
  dw_tenant : forall T t, db_tenants d !! T = Some t -> tenant_ok d T t;
  dw_row : forall id r, db_reservations d !! id = Some r -> row_ok d id r;
  dw_outbox : forall k o, db_outbox d !! k = Some o -> exists r, db_reservations d !! obx_RequestID o = Some r /\ res_OutboxID r = k;
  dw_adjusted : forall k a, db_adjustments d !! k = Some a -> is_Some (db_tenants d !! adj_TenantID (adr_Adjustment a))
}.

Lemma empty_wf : db_wf empty_database.
Proof. by split. Qed.

Lemma adjusted_keep d d' T t' : db_wf d -> db_tenants d' = <[T := t']> (db_tenants d) -> db_adjustments d' = db_adjustments d ->
  forall k a, db_adjustments d' !! k = Some a -> is_Some (db_tenants d' !! adj_TenantID (adr_Adjustment a)).
Proof. intros Hwf Ht Ha k a. rewrite Ha, Ht. intros E. apply lookup_insert_is_Some'. right. by apply (dw_adjusted _ Hwf k). Qed.
Lemma unadjusted d T : db_wf d -> db_tenants d !! T = None -> payments T (db_adjustments d) = 0.
Proof.
  intros Hwf Et. rewrite <- (map_sum_const0 (db_adjustments d)). apply map_sum_ext. intros k a E.
  destruct (String.eqb_spec (adj_TenantID (adr_Adjustment a)) T) as [HT|]; [|done].
  destruct (dw_adjusted _ Hwf _ _ E) as [u Eu]. congruence.
Qed.

(** Amounts of a row. *)
Lemma held_micros w r : res_wf r -> windowed w r -> micros (held r).
Proof.
  intros Hwf [Hpl _]. pose proof (wf_hold _ Hwf) as Hh. pose proof (wf_reserved _ Hwf) as Hr.
  pose proof (wf_provisional _ Hwf) as Hp. pose proof (wf_carry _ Hwf) as Hc. unfold micros, held in *.
  destruct (closed_state (res_State r)) eqn:Hcl; [unfold max_int64; lia|].
  destruct Hpl as [_ _ _ P4 P5 _ _ _ _]. unfold level in Hh. destruct (res_Carried r) eqn:Hcar.
  - specialize (P4 eq_refl). lia.
  - specialize (P5 eq_refl eq_refl). destruct (String.eqb _ _); lia.
Qed.
Lemma effect_micros w w' r : windowed w r -> micros (window_effect w' r).
Proof.
  intros [[_ _ _ _ _ _ _ P8 _] _]. unfold window_effect. destruct (_ && _); [done|]. unfold micros, max_int64. lia.
Qed.
Lemma live_active r : res_wf r -> live r = if closed_state (res_State r) then 0 else 1.
Proof.
  intros Hwf. unfold live. rewrite active_closed; [by destruct (closed_state _)|].
  intros E. pose proof (wf_outbox _ Hwf) as Ho. rewrite E in Ho. by destruct (res_OutboxState r).
Qed.
Lemma live_hold_held r : res_wf r -> live_hold r = held r.
Proof.
  intros Hwf. pose proof (wf_hold _ Hwf) as Hh. pose proof (live_active r Hwf) as Hl. unfold live_hold, live, held in *.
  destruct (reservationIsActive _), (closed_state _); try done; lia.
Qed.

Section wf_rows.
Context (d : database) (Hwf : db_wf d).
Lemma wf_row_windowed id r t : db_reservations d !! id = Some r -> db_tenants d !! res_TenantID r = Some t ->
  windowed (tenant_CurrentWindowID t) r.
Proof. intros Er Et. destruct (ro_tenant _ _ _ (dw_row _ Hwf _ _ Er)) as (t' & Et' & Hw). congruence. Qed.
Lemma wf_row_held id r : db_reservations d !! id = Some r -> micros (held r).
Proof. intros Er. destruct (dw_row _ Hwf _ _ Er) as [_ Hr (t & _ & Hw) _]. by eapply held_micros. Qed.
Lemma wf_row_effect id r w : db_reservations d !! id = Some r -> micros (window_effect w r).
Proof. intros Er. destruct (dw_row _ Hwf _ _ Er) as [_ _ (t & _ & Hw) _]. by eapply effect_micros. Qed.
End wf_rows.

(** ** Rows with the same amounts *)

Record same_amounts (r q : Reservation) : Prop := {
  sa_state : res_State q = res_State r /\ res_OutboxState q = res_OutboxState r /\ res_Finalized q = res_Finalized r /\
    res_UsageVersion q = res_UsageVersion r;
  sa_quote : res_ReservedCostMicros q = res_ReservedCostMicros r /\ res_ResidualHoldMicros q = res_ResidualHoldMicros r /\
    res_RolloverGuardMicros q = res_RolloverGuardMicros r;
  sa_cost : res_ProvisionalCostMicros q = res_ProvisionalCostMicros r /\ res_BaseActualMicros q = res_BaseActualMicros r /\
    res_SettledEffectMicros q = res_SettledEffectMicros r;
  sa_carry : res_CarryEffectMicros q = res_CarryEffectMicros r /\ res_HistoricalCreditMicros q = res_HistoricalCreditMicros r /\
    res_Carried q = res_Carried r;
  sa_window : res_EnforcementWindowID q = res_EnforcementWindowID r /\ res_OriginWindowID q = res_OriginWindowID r
}.

Section same_amounts.
Context (r q : Reservation) (Hs : same_amounts r q).
Local Ltac same := destruct Hs as [(A1 & A2 & A3 & A4) (B1 & B2 & B3) (C1 & C2 & C3) (D1 & D2 & D3) (E1 & E2)].

Lemma same_wf : res_wf r -> res_wf q.
Proof. same. intros []. split; unfold level in *; rewrite ?A1, ?A2, ?A3, ?A4, ?B1, ?B2, ?B3, ?C1, ?C2, ?D1, ?D3; done. Qed.
Lemma same_windowed w : windowed w r -> windowed w q.
Proof.
  same. intros [[P1 P2 P3 P4 P5 P6 P7 P8 P9] Hl].
  split; [split|]; rewrite ?A1, ?A4, ?B3, ?C1, ?C3, ?D1, ?D2, ?D3, ?E1, ?E2; done.
Qed.
Lemma same_held : held q = held r /\ live q = live r.
Proof. same. unfold held, live. by rewrite A1, B2, B3. Qed.
Lemma same_booked w p t t' : booked w p t r t' -> booked w p t q t'.
Proof. same. unfold window_effect. intros [K1 K2 K3]. split; unfold window_effect; rewrite ?C3, ?D1, ?D2, ?D3, ?E1; done. Qed.
Lemma same_booked_l w p t t' : booked w r t p t' -> booked w q t p t'.
Proof. same. unfold window_effect. intros [K1 K2 K3]. split; unfold window_effect; rewrite ?C3, ?D1, ?D2, ?D3, ?E1; done. Qed.
End same_amounts.

(** ** Elementary changes *)

(** A row of a closed window that keeps its provisional cost on hold. *)
Definition rolled (next : string) (r : Reservation) : Reservation :=
  r <| res_RolloverGuardMicros := res_RolloverGuardMicros r +i res_ProvisionalCostMicros r |>
    <| res_LastReasonCode := ReasonBudgetWindowRollover |>
    <| res_LastTransitionEventID := rollover_event (res_RequestID r) next |>.
Definition roll_row (T w next : string) (r : Reservation) : Reservation := if rolls T w r then rolled next r else r.

(** What no change of the terms touches. *)
Definition same_sums (t t' : tenantLedger) : Prop :=
  tenant_ActiveReservations t' = tenant_ActiveReservations t /\
  tenant_HistoricalCreditMicros t' = tenant_HistoricalCreditMicros t.

(** The tables of the books after a change. *)
Definition tables (d : database) (T : string) (t' : tenantLedger) (rows : gmap string Reservation)
    (boxes : gmap string outbox_row) (adjs : gmap string adjustment_row) (d' : database) : Prop :=
  db_tenants d' = <[T := t']> (db_tenants d) /\ db_reservations d' = rows /\ db_outbox d' = boxes /\ db_adjustments d' = adjs.

(** The row of a new request. *)
Record fresh_row (w : string) (r : Reservation) : Prop := {
  fr_wf : res_wf r;
  fr_windowed : windowed w r;
  fr_state : res_State r = StateReserved;
  fr_unused : res_SettledEffectMicros r = 0 /\ res_CarryEffectMicros r = 0 /\ res_HistoricalCreditMicros r = 0
}.

Inductive change (d : database) : database -> Prop :=
| change_terms T t t' d' :
    db_tenants d !! T = Some t -> same_sums t t' -> tenant_checks t' = true ->
    tenant_CurrentWindowID t' = tenant_CurrentWindowID t -> tenant_ReservedMicros t' = tenant_ReservedMicros t ->
    tenant_SettledMicros t' = tenant_SettledMicros t -> tenant_CarriedAdjustmentMicros t' = tenant_CarriedAdjustmentMicros t ->
    tables d T t' (db_reservations d) (db_outbox d) (db_adjustments d) d' -> change d d'
| change_open T t d' :
    db_tenants d !! T = None -> tenant_CurrentWindowID t <> ""%string -> tenant_checks t = true ->
    tenant_ReservedMicros t = 0 -> tenant_SettledMicros t = 0 -> tenant_CarriedAdjustmentMicros t = 0 ->
    tenant_ActiveReservations t = 0 -> tenant_HistoricalCreditMicros t = 0 ->
    tables d T t (db_reservations d) (db_outbox d) (db_adjustments d) d' -> change d d'
| change_adjust T t t' id a d' :
    db_tenants d !! T = Some t -> same_sums t t' -> tenant_checks t' = true ->
    tenant_CurrentWindowID t' = tenant_CurrentWindowID t -> tenant_ReservedMicros t' = tenant_ReservedMicros t ->
    tenant_SettledMicros t' = tenant_SettledMicros t ->
    tenant_CarriedAdjustmentMicros t' = tenant_CarriedAdjustmentMicros t - adj_DebtPaymentMicros (adr_Adjustment a) ->
    db_adjustments d !! id = None -> adj_TenantID (adr_Adjustment a) = T ->
    tables d T t' (db_reservations d) (db_outbox d) (<[id := a]> (db_adjustments d)) d' -> change d d'
| change_roll T t next t' d' :
    let rows := roll_row T (tenant_CurrentWindowID t) next <$> db_reservations d in
    db_tenants d !! T = Some t -> same_sums t t' -> tenant_checks t' = true ->
    windowStartsAfter next (tenant_CurrentWindowID t) = true -> next <> ""%string -> tenant_CurrentWindowID t' = next ->
    tenant_ReservedMicros t' - row_sum held T rows ≡64 tenant_ReservedMicros t - row_sum held T (db_reservations d) ->
    tenant_SettledMicros t' = 0 -> tenant_CarriedAdjustmentMicros t' = tenant_CarriedAdjustmentMicros t ->
    tables d T t' rows (db_outbox d) (db_adjustments d) d' -> change d d'
| change_admit r t t' o d' :
    db_tenants d !! res_TenantID r = Some t -> db_reservations d !! res_RequestID r = None ->
    db_outbox d !! res_OutboxID r = None -> fresh_row (tenant_CurrentWindowID t) r -> outbox_of o r ->
    tenant_checks t' = true -> tenant_CurrentWindowID t' = tenant_CurrentWindowID t ->
    tenant_ReservedMicros t' = tenant_ReservedMicros t + held r ->
    tenant_ActiveReservations t' = tenant_ActiveReservations t + 1 ->
    tenant_SettledMicros t' = tenant_SettledMicros t -> tenant_CarriedAdjustmentMicros t' = tenant_CarriedAdjustmentMicros t ->
    tenant_HistoricalCreditMicros t' = tenant_HistoricalCreditMicros t ->
    tables d (res_TenantID r) t' (<[res_RequestID r := r]> (db_reservations d)) (<[res_OutboxID r := o]> (db_outbox d))
      (db_adjustments d) d' -> change d d'
| change_commit id r t r' t' o d' :
    db_reservations d !! id = Some r -> db_tenants d !! res_TenantID r = Some t ->
    frozen r' = frozen r -> res_wf r' -> may_move (res_State r) (res_State r') = true ->
    row_step (tenant_CurrentWindowID t) r t r' t' -> tenant_checks t' = true ->
    tenant_ReservedMicros t' - held r' ≡64 tenant_ReservedMicros t - held r ->
    tenant_ActiveReservations t' = tenant_ActiveReservations t + (live r' - live r) -> outbox_of o r' ->
    tables d (res_TenantID r) t' (<[id := r']> (db_reservations d)) (<[res_OutboxID r := o]> (db_outbox d))
      (db_adjustments d) d' -> change d d'
| change_log d' :
    db_tenants d' = db_tenants d -> db_reservations d' = db_reservations d -> db_outbox d' = db_outbox d ->
    db_adjustments d' = db_adjustments d -> change d d'.

(** ** Changes keep the invariant *)

Lemma starts_after_irrefl w : windowStartsAfter w w = false.
Proof. unfold windowStartsAfter. destruct (parse_window w); [|done]. apply Z.ltb_irrefl. Qed.
Lemma starts_after_trans a b c : windowStartsAfter a b = true -> windowStartsAfter b c = true -> windowStartsAfter a c = true.
Proof.
  unfold windowStartsAfter. destruct (parse_window a), (parse_window b), (parse_window c); try done.
  intros H1%Z.ltb_lt H2%Z.ltb_lt. apply Z.ltb_lt. lia.
Qed.

(** *** Rollover of a row *)

Lemma roll_row_frozen T w next r : frozen (roll_row T w next r) = frozen r.
Proof. unfold roll_row. by destruct (rolls _ _ _). Qed.
Lemma roll_row_state T w next r : res_State (roll_row T w next r) = res_State r.
Proof. unfold roll_row, rolled. destruct (rolls _ _ _); by upd. Qed.
Lemma roll_row_sums T w next r : res_CarryEffectMicros (roll_row T w next r) = res_CarryEffectMicros r /\
  res_HistoricalCreditMicros (roll_row T w next r) = res_HistoricalCreditMicros r /\ live (roll_row T w next r) = live r.
Proof. unfold live. rewrite roll_row_state. unfold roll_row, rolled. destruct (rolls _ _ _); by upd. Qed.
Lemma roll_row_tenant T w next r : res_TenantID (roll_row T w next r) = res_TenantID r.
Proof. by destruct (frozen_eq _ _ (roll_row_frozen T w next r)) as (_ & -> & _). Qed.
Lemma roll_row_other T w next r : res_TenantID r <> T -> roll_row T w next r = r.
Proof. intros Hne. unfold roll_row. destruct (rolls _ _ _) eqn:E; [|done]. by apply rolls_spec in E as (? & _). Qed.

Lemma roll_row_wf T w next r : res_wf r -> res_wf (roll_row T w next r).
Proof.
  intros Hwf. unfold roll_row. destruct (rolls _ _ _) eqn:E; [|done].
  apply (stamp_wf _ ReasonBudgetWindowRollover (rollover_event (res_RequestID r) next)) in Hwf as Hst.
  apply (roll_reservation_wf T w) in Hwf. unfold roll_reservation in Hwf. rewrite E in Hwf.
  destruct Hwf. split; unfold rolled, level in *; upd; done.
Qed.

Section roll.
Context (w next : string) (Hafter : windowStartsAfter next w = true).

Lemma next_apart x : x = w \/ windowStartsAfter w x = true -> x <> next /\ windowStartsAfter next x = true.
Proof.
  intros Hx. assert (Hs : windowStartsAfter next x = true) by (destruct Hx as [-> | Hx]; [done | by eapply starts_after_trans]).
  split; [|done]. intros ->. by rewrite starts_after_irrefl in Hs.
Qed.

(** A row that does not roll has no provisional cost in the window that ends. *)
Lemma unrolled_provisional T r : res_wf r -> windowed w r -> res_TenantID r = T -> rolls T w r = false ->
  res_Carried r = false -> closed_state (res_State r) = false -> res_EnforcementWindowID r = w -> res_ProvisionalCostMicros r = 0.
Proof.
  intros Hwf [_ Hl] HT Hr Hc Hcl He. pose proof (wf_version _ Hwf) as Hv.
  assert (Hst : settled_state (res_State r) = false).
  { revert Hr. unfold rolls, state_is. rewrite HT, He, !String.eqb_refl, Hc. cbn [negb andb]. rewrite andb_true_r. intros Hr.
    destruct (res_State r); try done. by rewrite Hl in Hc. }
  rewrite Hst in Hv. by destruct (wf_unused _ Hwf Hv).
Qed.

Lemma roll_row_windowed T r : res_wf r -> windowed w r -> res_TenantID r = T -> windowed next (roll_row T w next r).
Proof.
  intros Hwf Hwd HT. pose proof Hwd as [[P1 P2 P3 P4 P5 P6 P7 P8 P9] Hl]. destruct (next_apart _ P2) as [Hne Hs].
  pose proof (proj2 (String.eqb_neq _ _) Hne) as Hneb. unfold roll_row. destruct (rolls T w r) eqn:Hr.
  - pose proof (rolls_spec _ _ _ Hr) as (_ & Hst & Hc & He).
    assert (Hop : closed_state (res_State r) = false) by (by destruct Hst as [-> | ->]). rewrite Hop in P5.
    pose proof (wf_provisional _ Hwf) as Hp.
    assert (Hg : res_RolloverGuardMicros r +i res_ProvisionalCostMicros r = res_ProvisionalCostMicros r).
    { rewrite (P5 Hc eq_refl), He, String.eqb_refl. apply add64_id, micros_in64. exact Hp. }
    unfold rolled. split; [split|]; upd; try done.
    + by right.
    + by rewrite Hc.
    + intros _ _. by rewrite Hneb, Hg.
  - split; [split|]; try done.
    + by right.
    + intros Hc Hop. rewrite Hneb. apply negb_true_iff in Hop.
      destruct (String.eqb_spec (res_EnforcementWindowID r) w) as [He|He].
      * rewrite (P5 Hc) by (by rewrite Hop). symmetry. by eapply unrolled_provisional.
      * by rewrite (P5 Hc) by (by rewrite Hop).
Qed.

Lemma roll_row_effect T r : windowed w r -> window_effect next (roll_row T w next r) = 0.
Proof.
  intros [[_ P2 _ _ _ _ _ _ _] _]. destruct (next_apart _ P2) as [Hne _]. apply window_effect_out. right.
  unfold roll_row. by destruct (rolls _ _ _).
Qed.

Lemma roll_row_held T r : res_wf r -> windowed w r -> 0 <= held (roll_row T w next r) <= held r + window_effect w r.
Proof.
  intros Hwf Hwd. pose proof (held_micros _ _ Hwf Hwd) as [Hh _]. pose proof (effect_micros _ w _ Hwd) as [He _].
  unfold roll_row. destruct (rolls T w r) eqn:Hr; [|lia]. apply rolls_spec in Hr as (_ & Hst & Hc & Hew).
  destruct Hwd as [[_ _ _ _ P5 P6 _ _ _] _].
  assert (Hs : closed_state (res_State r) = false /\ final_state (res_State r) = false) by (by destruct Hst as [-> | ->]).
  destruct Hs as [Hop Hfin]. rewrite (window_effect_in _ _ Hc Hew), (P6 Hc Hfin Hew). rewrite Hop in P5.
  assert (Hg : res_RolloverGuardMicros r = 0) by (by rewrite (P5 Hc eq_refl), Hew, String.eqb_refl).
  pose proof (wf_provisional _ Hwf) as Hp. unfold held, rolled in *. upd. rewrite Hg in *.
  rewrite add64_id; [destruct Hp; lia|]. by apply micros_in64.
Qed.
End roll.

(** *** The invariant after a change *)

(** The tenants other than [T] when only rows of [T] change. *)
Lemma other_tenant d d' T T' t : tenant_ok d T' t -> T' <> T ->
  (forall f, row_sum f T' (db_reservations d') = row_sum f T' (db_reservations d)) ->
  payments T' (db_adjustments d') = payments T' (db_adjustments d) -> tenant_ok d' T' t.
Proof. intros [O1 O2 O3 O4 O5 O6 O7] Hne Hs Hp. split; rewrite ?Hs, ?Hp; done. Qed.

(** The rows when a tenant's row is rewritten in the same window. *)
Lemma rows_keep d d' T t' : db_wf d -> db_reservations d' = db_reservations d -> db_outbox d' = db_outbox d ->
  db_tenants d' = <[T := t']> (db_tenants d) ->
  (forall t, db_tenants d !! T = Some t -> tenant_CurrentWindowID t' = tenant_CurrentWindowID t) ->
  forall id r, db_reservations d' !! id = Some r -> row_ok d' id r.
Proof.
  intros Hwf Hr Ho Ht Hw id r. rewrite Hr. intros Er. destruct (dw_row _ Hwf _ _ Er) as [R1 R2 (t & Et & Hwd) R4].
  split; rewrite ?Ho; try done. rewrite Ht. destruct (decide (res_TenantID r = T)) as [E|Hne].
  - exists t'. rewrite E, lookup_insert_eq. split; [done|]. rewrite E in Et. by rewrite (Hw _ Et).
  - exists t. by rewrite lookup_insert_ne by done.
Qed.

(** A tenant's row rewritten with the same rows. *)
Lemma tenants_keep d d' T t' : db_wf d -> db_reservations d' = db_reservations d -> db_adjustments d' = db_adjustments d ->
  db_tenants d' = <[T := t']> (db_tenants d) -> tenant_ok d' T t' ->
  forall T' u, db_tenants d' !! T' = Some u -> tenant_ok d' T' u.
Proof.
  intros Hwf Hr Ha Ht Hok T' u. rewrite Ht. intros [[<- <-] | [Hne E]]%lookup_insert_Some; [done|].
  apply (other_tenant d d' T); [by apply Hwf | done|..]; by rewrite ?Hr, ?Ha.
Qed.

Lemma boxes_keep d d' : db_wf d -> db_outbox d' = db_outbox d -> (forall id r, db_reservations d !! id = Some r ->
    exists r', db_reservations d' !! id = Some r' /\ res_OutboxID r' = res_OutboxID r) ->
  forall k o, db_outbox d' !! k = Some o -> exists r, db_reservations d' !! obx_RequestID o = Some r /\ res_OutboxID r = k.
Proof.
  intros Hwf Ho Hr k o. rewrite Ho. intros Eo. destruct (dw_outbox _ Hwf _ _ Eo) as (r & Er & <-).
  destruct (Hr _ _ Er) as (r' & Er' & <-). by exists r'.
Qed.

Lemma terms_wf d d' T t t' : db_wf d -> db_tenants d !! T = Some t -> same_sums t t' -> tenant_checks t' = true ->
  tenant_CurrentWindowID t' = tenant_CurrentWindowID t -> tenant_ReservedMicros t' = tenant_ReservedMicros t ->
  tenant_SettledMicros t' = tenant_SettledMicros t ->
  tenant_CarriedAdjustmentMicros t' - tenant_CarriedAdjustmentMicros t = payments T (db_adjustments d) - payments T (db_adjustments d') ->
  (forall T', T' <> T -> payments T' (db_adjustments d') = payments T' (db_adjustments d)) ->
  (forall k a, db_adjustments d' !! k = Some a -> db_adjustments d !! k = Some a \/ adj_TenantID (adr_Adjustment a) = T) ->
  db_tenants d' = <[T := t']> (db_tenants d) -> db_reservations d' = db_reservations d -> db_outbox d' = db_outbox d -> db_wf d'.
Proof.
  intros Hwf Et [S1 S2] Hc Hw Hr Hs Hk Hp Had Ht Hrows Hbox.
  destruct (dw_tenant _ Hwf _ _ Et) as [O1 O2 O3 O4 O5 O6 O7]. split.
  - intros T' u. rewrite Ht. intros [[<- <-] | [Hne E]]%lookup_insert_Some.
    + split; rewrite ?Hrows, ?Hw, ?Hr, ?Hs, ?S1, ?S2; try done. rewrite O6 in Hk. lia.
    + apply (other_tenant d d' T); [by apply Hwf | done|..]; [by rewrite Hrows | by apply Hp].
  - apply (rows_keep d d' T t'); try done. intros u Eu. congruence.
  - apply (boxes_keep d d'); try done. intros id r Er. exists r. by rewrite Hrows.
  - intros k a Ea. rewrite Ht. apply lookup_insert_is_Some'. destruct (Had _ _ Ea) as [E|E]; [right|by left].
    by apply (dw_adjusted _ Hwf k).
Qed.

Lemma open_wf d d' T t : db_wf d -> db_tenants d !! T = None -> tenant_CurrentWindowID t <> ""%string -> tenant_checks t = true ->
  tenant_ReservedMicros t = 0 -> tenant_SettledMicros t = 0 -> tenant_CarriedAdjustmentMicros t = 0 ->
  tenant_ActiveReservations t = 0 -> tenant_HistoricalCreditMicros t = 0 ->
  tables d T t (db_reservations d) (db_outbox d) (db_adjustments d) d' -> db_wf d'.
Proof.
  intros Hwf Et Hw Hc H1 H2 H3 H4 H5 (Ht & Hrows & Hbox & Hadj). pose proof (unadjusted _ _ Hwf Et) as Hp.
  assert (Hz : forall f, row_sum f T (db_reservations d) = 0).
  { intros f. apply row_sum_0. intros id r Er HT. destruct (dw_row _ Hwf _ _ Er) as [_ _ (u & Eu & _) _]. congruence. }
  split.
  - apply (tenants_keep d d' T t); try done. split; rewrite ?Hrows, ?Hadj, ?Hz; try done. lia.
  - apply (rows_keep d d' T t); try done. congruence.
  - apply (boxes_keep d d'); try done. intros id r Er. exists r. by rewrite Hrows.
  - by eapply adjusted_keep.
Qed.

Lemma roll_wf d d' T t t' next : db_wf d -> let rows := roll_row T (tenant_CurrentWindowID t) next <$> db_reservations d in
  db_tenants d !! T = Some t -> same_sums t t' -> tenant_checks t' = true ->
  windowStartsAfter next (tenant_CurrentWindowID t) = true -> next <> ""%string -> tenant_CurrentWindowID t' = next ->
  tenant_ReservedMicros t' - row_sum held T rows ≡64 tenant_ReservedMicros t - row_sum held T (db_reservations d) ->
  tenant_SettledMicros t' = 0 -> tenant_CarriedAdjustmentMicros t' = tenant_CarriedAdjustmentMicros t ->
  tables d T t' rows (db_outbox d) (db_adjustments d) d' -> db_wf d'.
Proof.
  intros Hwf rows Et [S1 S2] Hc Hafter Hnext Hw Hres Hset Hcar (Ht & Hrows & Hbox & Hadj).
  set (w := tenant_CurrentWindowID t) in *. pose proof (dw_tenant _ Hwf _ _ Et) as [O1 O2 O3 O4 O5 O6 O7]. fold w in O5.
  assert (Hwd : forall id r, db_reservations d !! id = Some r -> res_TenantID r = T -> res_wf r /\ windowed w r).
  { intros id r Er HT. split; [apply (ro_wf _ _ _ (dw_row _ Hwf _ _ Er))|]. eapply wf_row_windowed; [done..|]. by rewrite HT. }
  assert (Hsum : forall f T', row_sum f T' rows = row_sum (fun r => f (roll_row T w next r)) T' (db_reservations d))
    by (intros f T'; apply row_sum_fmap; intros r; apply roll_row_tenant).
  split.
  - intros T' u. rewrite Ht. intros [[<- <-] | [Hne E]]%lookup_insert_Some.
    + assert (Hheld : forall id r, db_reservations d !! id = Some r -> res_TenantID r = T ->
        0 <= held (roll_row T w next r) <= held r + window_effect w r).
      { intros id r Er HT. destruct (Hwd _ _ Er HT). by apply roll_row_held. }
      split; rewrite ?Hrows, ?Hadj, ?Hw, ?S1, ?S2, ?Hset, ?Hcar, ?Hsum; try done.
      * apply exact_amount; [by apply checks_amounts|..].
        -- pose proof (row_sum_add_le _ _ _ _ _ (fun id r E HT => proj2 (Hheld id r E HT))) as Hle. rewrite <- O3, <- O5 in Hle.
           pose proof (row_sum_nonneg _ _ _ (fun id r E HT => proj1 (Hheld id r E HT))) as Hge.
           apply checks_amounts in O1 as (A1%amount_micros & A2%amount_micros & _). unfold micros, max_int64 in *. lia.
        -- rewrite <- O3, Hsum in Hres. destruct Hres as [k Hk]. exists k. lia.
      * rewrite O4. apply row_sum_ext. intros id r _ _. by destruct (roll_row_sums T w next r) as (_ & _ & ->).
      * symmetry. apply row_sum_0. intros id r Er HT. destruct (Hwd _ _ Er HT). by apply roll_row_effect.
      * rewrite O6. f_equal. apply row_sum_ext. intros id r _ _. by destruct (roll_row_sums T w next r) as (-> & _).
      * rewrite O7. apply row_sum_ext. intros id r _ _. by destruct (roll_row_sums T w next r) as (_ & -> & _).
    + apply (other_tenant d d' T); [by apply Hwf | done|..]; [|by rewrite Hadj]. intros f. rewrite Hrows, Hsum. apply row_sum_ext.
      intros id r _ HT. by rewrite roll_row_other by congruence.
  - intros id r'. rewrite Hrows. unfold rows. rewrite lookup_fmap_Some. intros (r & <- & Er).
    destruct (dw_row _ Hwf _ _ Er) as [R1 R2 (u & Eu & Hu) (o & Eo & B)]. pose proof (roll_row_frozen T w next r) as Hf.
    split.
    + destruct (frozen_eq _ _ Hf) as (-> & _). done.
    + by apply roll_row_wf.
    + rewrite roll_row_tenant, Ht. destruct (decide (res_TenantID r = T)) as [HT|Hne].
      * exists t'. rewrite HT, lookup_insert_eq. split; [done|]. rewrite Hw. destruct (Hwd _ _ Er HT). by apply roll_row_windowed.
      * exists u. rewrite lookup_insert_ne, roll_row_other by done. done.
    + exists o. rewrite Hbox. unfold roll_row. destruct (rolls _ _ _); [|done]. destruct B. by split; [|split].
  - apply (boxes_keep d d'); try done. intros id r Er. exists (roll_row T w next r). rewrite Hrows. unfold rows.
    rewrite lookup_fmap, Er. split; [done|]. unfold roll_row. by destruct (rolls _ _ _).
  - by eapply adjusted_keep.
Qed.

Lemma frozen_keys r r' : frozen r' = frozen r ->
  res_OutboxID r' = res_OutboxID r /\ res_ProviderAttemptID r' = res_ProviderAttemptID r /\ res_WorkloadUID r' = res_WorkloadUID r.
Proof.
  intros E. assert (P : forall T (p : Reservation -> T), (forall x, p (frozen x) = p x) -> p r' = p r)
    by (intros T p Hp; by rewrite <- (Hp r), <- (Hp r'), E).
  repeat split; by apply P.
Qed.

Lemma admit_row_wf d d' r t t' o : db_wf d -> db_tenants d !! res_TenantID r = Some t ->
  db_reservations d !! res_RequestID r = None ->
  db_outbox d !! res_OutboxID r = None -> fresh_row (tenant_CurrentWindowID t) r -> outbox_of o r ->
  tenant_checks t' = true -> tenant_CurrentWindowID t' = tenant_CurrentWindowID t ->
  tenant_ReservedMicros t' = tenant_ReservedMicros t + held r -> tenant_ActiveReservations t' = tenant_ActiveReservations t + 1 ->
  tenant_SettledMicros t' = tenant_SettledMicros t -> tenant_CarriedAdjustmentMicros t' = tenant_CarriedAdjustmentMicros t ->
  tenant_HistoricalCreditMicros t' = tenant_HistoricalCreditMicros t ->
  tables d (res_TenantID r) t' (<[res_RequestID r := r]> (db_reservations d)) (<[res_OutboxID r := o]> (db_outbox d))
    (db_adjustments d) d' -> db_wf d'.
Proof.
  intros Hwf Et Enew Ebox [F1 F2 F3 (F4 & F5 & F6)] Hob Hc Hw Hres Hact Hset Hcar Hcre (Ht & Hrows & Hbox & Hadj).
  pose proof (dw_tenant _ Hwf _ _ Et) as [O1 O2 O3 O4 O5 O6 O7].
  assert (Hlive : live r = 1) by (unfold live; by rewrite F3).
  assert (Heff : window_effect (tenant_CurrentWindowID t) r = 0) by (unfold window_effect; destruct (_ && _); done).
  assert (Hsum : forall f, row_sum f (res_TenantID r) (db_reservations d') = row_sum f (res_TenantID r) (db_reservations d) + f r).
  { intros f. rewrite Hrows, row_sum_new by done. unfold of_tenant. by rewrite String.eqb_refl. }
  split.
  - intros T' u. rewrite Ht. intros [[<- <-] | [Hne E]]%lookup_insert_Some.
    + split; rewrite ?Hsum, ?Hadj, ?Hw; try done; rewrite ?Heff, ?Hlive, ?F5, ?F6; lia.
    + apply (other_tenant d d' (res_TenantID r)); [by apply Hwf | done|..]; [|by rewrite Hadj]. intros f.
      rewrite Hrows, row_sum_new by done. unfold of_tenant. apply not_eq_sym in Hne. apply String.eqb_neq in Hne.
      rewrite String.eqb_sym, Hne. lia.
  - intros id q. rewrite Hrows. intros [[<- <-] | [Hne E]]%lookup_insert_Some.
    + split; try done.
      * exists t'. rewrite Ht, lookup_insert_eq, Hw. done.
      * exists o. by rewrite Hbox, lookup_insert_eq.
    + destruct (dw_row _ Hwf _ _ E) as [R1 R2 (u & Eu & Hu) (b & Eb & B)]. split; try done.
      * rewrite Ht. destruct (decide (res_TenantID q = res_TenantID r)) as [HT|HT].
        -- exists t'. rewrite HT, lookup_insert_eq, Hw. split; [done|]. congruence.
        -- exists u. by rewrite lookup_insert_ne.
      * exists b. rewrite Hbox, lookup_insert_ne by congruence. done.
  - intros k b. rewrite Hbox. intros [[<- <-] | [Hne E]]%lookup_insert_Some.
    + exists r. rewrite (oo_request _ _ Hob), Hrows. by rewrite lookup_insert_eq.
    + destruct (dw_outbox _ Hwf _ _ E) as (q & Eq & Hk). exists q. rewrite Hrows, lookup_insert_ne by congruence. done.
  - by eapply adjusted_keep.
Qed.

Lemma commit_row_wf d d' id r t r' t' o : db_wf d ->
  db_reservations d !! id = Some r -> db_tenants d !! res_TenantID r = Some t -> frozen r' = frozen r -> res_wf r' ->
  row_step (tenant_CurrentWindowID t) r t r' t' -> tenant_checks t' = true ->
  tenant_ReservedMicros t' - held r' ≡64 tenant_ReservedMicros t - held r ->
  tenant_ActiveReservations t' = tenant_ActiveReservations t + (live r' - live r) -> outbox_of o r' ->
  tables d (res_TenantID r) t' (<[id := r']> (db_reservations d)) (<[res_OutboxID r := o]> (db_outbox d)) (db_adjustments d) d' ->
  db_wf d'.
Proof.
  intros Hwf Er Et Hf Hwf' (Hwd' & [B1 B2 B3] & Hw) Hc Hres Hact Hob (Ht & Hrows & Hbox & Hadj).
  pose proof (dw_tenant _ Hwf _ _ Et) as [O1 O2 O3 O4 O5 O6 O7]. pose proof (dw_row _ Hwf _ _ Er) as [R1 R2 (t0 & Et0 & Hwd) _].
  replace t0 with t in * by congruence. clear Et0.
  destruct (frozen_eq _ _ Hf) as (Hid & HT & _). destruct (frozen_keys _ _ Hf) as (Hkey & Hatt & Hwl).
  set (w := tenant_CurrentWindowID t) in *. set (T := res_TenantID r) in *.
  assert (Hof : forall f q, res_TenantID q = T -> of_tenant f T q = f q) by (intros f q E; unfold of_tenant; by rewrite E, String.eqb_refl).
  assert (Hsum : forall f, row_sum f T (db_reservations d') = row_sum f T (db_reservations d) + (f r' - f r)).
  { intros f. rewrite Hrows, (row_sum_update _ _ _ _ _ _ Er), !Hof; done. }
  assert (Hpos : forall f, (forall id q, db_reservations d !! id = Some q -> res_TenantID q = T -> 0 <= f q) ->
      0 <= f r' -> 0 <= row_sum f T (db_reservations d')).
  { intros f Hfp Hfr. apply row_sum_nonneg. rewrite Hrows. intros k q [[_ <-] | [_ E]]%lookup_insert_Some; [done | by eapply Hfp]. }
  apply checks_amounts in Hc as Hca. destruct Hca as (C1 & C2 & C3 & C4).
  apply checks_amounts in O1 as (A1%amount_micros & A2%amount_micros & A3%amount_micros & A4%amount_micros).
  split.
  - intros T' u. rewrite Ht. intros [[<- <-] | [Hne E]]%lookup_insert_Some.
    + split; rewrite ?Hadj, ?Hw; fold w; try done.
      * pose proof (held_micros _ _ R2 Hwd) as H1. pose proof (held_micros _ _ Hwf' Hwd') as H2.
        pose proof (Hpos held (fun k q E _ => proj1 (wf_row_held _ Hwf k q E)) (proj1 H2)) as Hge.
        unfold micros, max_int64 in *. apply exact_amount; [done|..].
        -- rewrite Hsum in *. lia.
        -- rewrite Hsum, <- O3. destruct Hres as [k Hk]. exists k. lia.
      * rewrite Hsum. lia.
      * pose proof (effect_micros _ w _ Hwd) as H1. pose proof (effect_micros _ w _ Hwd') as H2. unfold micros, max_int64 in *.
        apply exact_amount; [done|..]; rewrite Hsum, <- O5; [lia|]. destruct B1 as [k Hk]. exists k. lia.
      * pose proof (wf_carry _ R2) as H1. pose proof (wf_carry _ Hwf') as H2. unfold micros, max_int64 in *.
        apply exact_amount; [done|..]; rewrite Hsum; [lia|]. destruct B2 as [k Hk]. exists k. lia.
      * destruct Hwd as [[_ _ _ _ _ _ _ _ H1] _]. destruct Hwd' as [[_ _ _ _ _ _ _ _ H2] _]. unfold micros, max_int64 in *.
        apply exact_amount; [done|..]; rewrite Hsum, <- O7; [lia|]. destruct B3 as [k Hk]. exists k. lia.
    + apply (other_tenant d d' T); [by apply Hwf | done|..]; [|by rewrite Hadj]. intros f.
      rewrite Hrows, (row_sum_update _ _ _ _ _ _ Er). unfold of_tenant. rewrite HT. fold T. apply not_eq_sym in Hne.
      apply String.eqb_neq in Hne. rewrite String.eqb_sym, Hne. lia.
  - intros k q. rewrite Hrows. intros [[<- <-] | [Hne E]]%lookup_insert_Some.
    + split; [by rewrite Hid | done|..].
      * exists t'. rewrite Ht, HT, Hw. fold T. by rewrite lookup_insert_eq.
      * exists o. by rewrite Hbox, Hkey, lookup_insert_eq.
    + destruct (dw_row _ Hwf _ _ E) as [Q1 Q2 (u & Eu & Hu) (b & Eb & B)]. split; try done.
      * rewrite Ht. destruct (decide (res_TenantID q = T)) as [HTq|HTq].
        -- exists t'. rewrite HTq, lookup_insert_eq, Hw. split; [done|]. unfold w. by replace t with u by congruence.
        -- exists u. by rewrite lookup_insert_ne.
      * exists b. rewrite Hbox, lookup_insert_ne; [done|]. intros Ek.
        destruct (ro_outbox _ _ _ (dw_row _ Hwf _ _ Er)) as (b0 & Eb0 & B0).
        pose proof (oo_request _ _ B). pose proof (oo_request _ _ B0). congruence.
  - intros k b. rewrite Hbox. intros [[<- <-] | [Hne E]]%lookup_insert_Some.
    + exists r'. rewrite (oo_request _ _ Hob), Hrows, Hid, R1, lookup_insert_eq. done.
    + destruct (dw_outbox _ Hwf _ _ E) as (q & Eq & Hk). rewrite Hrows. destruct (decide (id = obx_RequestID b)) as [->|Hd].
      * exists r'. rewrite lookup_insert_eq. split; [done|]. rewrite Hkey. congruence.
      * exists q. by rewrite lookup_insert_ne.
  - by eapply adjusted_keep.
Qed.

Lemma change_wf d d' : change d d' -> db_wf d -> db_wf d'.
Proof.
  intros [T t t' d1 Et Hs Hc Hw Hr Hse Hk (Ht & Hrows & Hbox & Hadj) | T t d1 Et Hw Hc H1 H2 H3 H4 H5 Htab
    | T t t' id a d1 Et Hs Hc Hw Hr Hse Hk Ha HaT (Ht & Hrows & Hbox & Hadj) | T t next t' d1 rows Et Hs Hc Ha Hn Hw Hr Hse Hk Htab
    | r t t' o d1 Et En Eb Hf Ho Hc Hw Hr Ha Hse Hk Hcr Htab | id r t r' t' o d1 Er Et Hf Hwf' Hm Hrs Hc Hr Ha Ho Htab
    | d1 E1 E2 E3 E4] Hwf.
  - eapply (terms_wf d d1 T t t'); try done; rewrite Hadj; [lia | done | by left].
  - by eapply open_wf.
  - eapply (terms_wf d d1 T t t'); try done; rewrite Hadj.
    + rewrite payments_new, HaT, String.eqb_refl by done. lia.
    + intros T' Hne. rewrite payments_new, HaT by done. apply not_eq_sym in Hne. apply String.eqb_neq in Hne. rewrite Hne. lia.
    + intros k b [[_ <-] | [_ E]]%lookup_insert_Some; [by right | by left].
  - by eapply roll_wf.
  - by eapply admit_row_wf.
  - by eapply commit_row_wf.
  - destruct Hwf as [W1 W2 W3 W4]. split; rewrite ?E1, ?E2, ?E3, ?E4.
    + intros T t Et. destruct (W1 _ _ Et). split; rewrite ?E2, ?E4; done.
    + intros id r Er. destruct (W2 _ _ Er) as [R1 R2 R3 R4]. split; rewrite ?E1, ?E3; done.
    + done.
    + done.
Qed.
Lemma changes_wf d d' : rtc change d d' -> db_wf d -> db_wf d'.
Proof. induction 1; [done|]. eauto using change_wf. Qed.

(** ** What changes never undo *)

Definition kept (d d' : database) : Prop := forall id r, db_reservations d !! id = Some r ->
  exists r', db_reservations d' !! id = Some r' /\ frozen r' = frozen r /\
    rtc (fun s s' => may_move s s' = true) (res_State r) (res_State r').
#[export] Instance kept_preorder : PreOrder kept.
Proof.
  split; [intros d id r Er; exists r; by repeat split|]. intros a b c A B id r Er. destruct (A _ _ Er) as (r1 & E1 & F1 & S1).
  destruct (B _ _ E1) as (r2 & E2 & F2 & S2). exists r2. split; [done|]. split; [congruence|]. by etransitivity.
Qed.
Lemma same_rows_kept d d' : db_reservations d' = db_reservations d -> kept d d'.
Proof. intros E id r Er. exists r. rewrite E. by repeat split. Qed.

Lemma change_kept d d' : change d d' -> kept d d'.
Proof.
  intros [T t t' d1 Et Hs Hc Hw Hr Hse Hk (_ & Hrows & _) | T t d1 Et Hw Hc H1 H2 H3 H4 H5 (_ & Hrows & _)
    | T t t' id a d1 Et Hs Hc Hw Hr Hse Hk Ha HaT (_ & Hrows & _) | T t next t' d1 rows Et Hs Hc Ha Hn Hw Hr Hse Hk (_ & Hrows & _)
    | r t t' o d1 Et En Eb Hf Ho Hc Hw Hr Ha Hse Hk Hcr (_ & Hrows & _) | id r t r' t' o d1 Er Et Hf Hwf' Hm Hrs Hc Hr Ha Ho (_ & Hrows & _)
    | d1 E1 Hrows E3 E4]; try (by apply same_rows_kept); intros k q Eq; rewrite Hrows.
  - exists (roll_row T (tenant_CurrentWindowID t) next q). unfold rows. rewrite lookup_fmap, Eq. split; [done|].
    split; [apply roll_row_frozen|]. by rewrite roll_row_state.
  - exists q. rewrite lookup_insert_ne by congruence. by repeat split.
  - destruct (decide (id = k)) as [<-|Hne].
    + exists r'. rewrite lookup_insert_eq. replace q with r by congruence. split; [done|]. split; [done|]. by apply rtc_once.
    + exists q. rewrite lookup_insert_ne by done. by repeat split.
Qed.
Lemma changes_kept d d' : rtc change d d' -> kept d d'.
Proof. induction 1; [reflexivity|]. etransitivity; [by apply change_kept | done]. Qed.
