(* ===== verification/PostgresProofs.v ===== *)
(** * The transactions of the PostgreSQL ledger engine

    What the transactions of [Postgres] commit, in terms of the elementary changes
    of [PostgresLedger] and of the tables that only grow ([logs]): the statements
    first, then the rollover of a window, admission, events, expiry, adjustments
    and cohorts. *)

From Stdlib Require Import ZArith Lia Ascii String.
From stdpp Require Import base gmap strings list pretty.
From S2P Require Import Prelude Digest GoTime Api Json JsonDecode Pricing Calibration Routes AdmissionPolicy Ledger LedgerProofs Cohorts Engine EngineProofs EngineInvariants EngineProperties Wire AuditChain WorkQueue Postgres PostgresBooks PostgresLedger.

Open Scope string_scope.
Open Scope list_scope.
Open Scope Z_scope.
Open Scope go_scope.

(** ** Transactions *)

Lemma tx_bind_ok {A B} (m : tx A) (k : A -> tx B) d b d' : tx_bind m k d = inl (b, d') ->
  exists a d1, m d = inl (a, d1) /\ k a d1 = inl (b, d').
Proof. unfold tx_bind. destruct (m d) as [[a d1]|]; [|done]. eauto. Qed.
Lemma tx_checked_ok {A} (r : option (result A)) d a d' : tx_checked r d = inl (a, d') -> r = Some (Ok a) /\ d' = d.
Proof. destruct r as [[]|]; [intros [= -> ->]; done | done | done]. Qed.
Lemma tx_eval_ok {A} (f : database -> option A) d a d' : tx_eval f d = inl (a, d') -> f d = Some a /\ d' = d.
Proof. unfold tx_eval. destruct (f d); [intros [= -> ->]; done | done]. Qed.
Lemma tx_result_ok {A} (r : result A) d a d' : tx_result r d = inl (a, d') -> r = Ok a /\ d' = d.
Proof. destruct r; unfold tx_result, tx_ret, tx_fail; [|done]. by intros [= <- <-]. Qed.
Lemma tx_guard_ok b f d u d' : tx_guard b f d = inl (u, d') -> b = true /\ d' = d.
Proof. destruct b; unfold tx_guard, tx_ret, tx_fail; [|done]. by intros [= _ <-]. Qed.
Lemma tx_ret_ok {A} (a : A) d b d' : tx_ret a d = inl (b, d') -> b = a /\ d' = d.
Proof. unfold tx_ret. by intros [= <- <-]. Qed.
Lemma tx_read_ok {A} (f : database -> A) d b d' : tx_read f d = inl (b, d') -> b = f d /\ d' = d.
Proof. unfold tx_read. by intros [= <- <-]. Qed.

(** *** What every statement of a transaction keeps *)

Definition keeps (R : database -> database -> Prop) {A} (m : tx A) : Prop := forall d a d', m d = inl (a, d') -> R d d'.

Section keeps.
Context (R : database -> database -> Prop) `{!PreOrder R}.
Lemma keeps_bind {A B} (m : tx A) (k : A -> tx B) : keeps R m -> (forall a, keeps R (k a)) -> keeps R (tx_bind m k).
Proof. intros Hm Hk d b d' (a & d1 & E1 & E2)%tx_bind_ok. transitivity d1; [by eapply Hm | by eapply Hk]. Qed.
Lemma keeps_ret {A} (a : A) : keeps R (tx_ret a).
Proof. intros d b d' [_ ->]%tx_ret_ok. reflexivity. Qed.
Lemma keeps_read {A} (f : database -> A) : keeps R (tx_read f).
Proof. intros d b d' [_ ->]%tx_read_ok. reflexivity. Qed.
Lemma keeps_result {A} (r : result A) : keeps R (tx_result r).
Proof. intros d b d' [_ ->]%tx_result_ok. reflexivity. Qed.
Lemma keeps_guard b f : keeps R (tx_guard b f).
Proof. intros d u d' [_ ->]%tx_guard_ok. reflexivity. Qed.
Lemma keeps_fail {A} f : keeps R (tx_fail (A:=A) f).
Proof. by intros d a d'. Qed.
End keeps.

(** ** The tables that only grow *)

Section postgres.
Context `{Crypto} `{Platform} `{Postgres}.

Definition audit_grows (s s' : audit_store) : Prop := exists history, s' = append_all s history.
#[export] Instance audit_grows_preorder : PreOrder audit_grows.
Proof.
  split; [by exists []|]. intros a b c [h ->] [h' ->]. exists (h ++ h'). unfold append_all. by rewrite fold_left_app.
Qed.

Record logs (d d' : database) : Prop := {
  lg_inbox : db_inbox d ⊆ db_inbox d';
  lg_tasks : db_tasks d ⊆ db_tasks d';
  lg_adjustments : db_adjustments d ⊆ db_adjustments d';
  lg_cohorts : db_cohorts d ⊆ db_cohorts d';
  lg_slots : forall k, is_Some (db_cohorts d !! k) -> db_slots d' !! k = db_slots d !! k;
  lg_feedback : db_feedback d `prefix_of` db_feedback d';
  lg_audit : audit_grows (db_audit d) (db_audit d')
}.
#[export] Instance logs_preorder : PreOrder logs.
Proof.
  split; [by split|]. intros a b c [A1 A2 A3 A4 A5 A6 A7] [B1 B2 B3 B4 B5 B6 B7].
  split; try (etransitivity; eassumption). intros k [x Hk]. rewrite <- A5 by eauto. apply B5.
  exists x. by eapply lookup_weaken.
Qed.

(** A statement that writes none of them. *)
Definition same_logs (d d' : database) : Prop :=
  (db_inbox d', db_tasks d', db_adjustments d', db_cohorts d', db_slots d', db_feedback d', db_audit d')
  = (db_inbox d, db_tasks d, db_adjustments d, db_cohorts d, db_slots d, db_feedback d, db_audit d).
Lemma same_logs_logs d d' : same_logs d d' -> logs d d'.
Proof. intros [= E1 E2 E3 E4 E5 E6 E7]. split; rewrite ?E1, ?E2, ?E3, ?E4, ?E5, ?E6, ?E7; done. Qed.

Create HintDb tx.
#[local] Hint Extern 1 (keeps _ _) =>
  first [apply keeps_ret | apply keeps_read | apply keeps_result | apply keeps_guard | apply keeps_fail]; exact _ : tx.

Lemma update_tenant_logs T f : keeps logs (update_tenant T f).
Proof. intros d u d'. unfold update_tenant. destruct (_ !! T); [destruct (tenant_checks _); [|done]|]; intros [= _ <-]; by apply same_logs_logs. Qed.
Lemma insert_tenant_logs T b i w p : keeps logs (insert_tenant T b i w p).
Proof.
  intros d u d'. unfold insert_tenant. destruct (_ !! T); [|destruct (tenant_checks _); [|done]]; intros [= _ <-]; by apply same_logs_logs.
Qed.
Lemma loadTenantTx_logs T : keeps logs (loadTenantTx T).
Proof. intros d u d'. unfold loadTenantTx. destruct (_ !! T); [|done]. intros [= _ <-]. reflexivity. Qed.
Lemma loadReservationTx_logs id : keeps logs (loadReservationTx id).
Proof. intros d u d'. unfold loadReservationTx. destruct (loadReservation _ _) as [[r|]|]; try done. intros [= _ <-]. reflexivity. Qed.
Lemma insert_reservation_logs r : keeps logs (insert_reservation r).
Proof.
  intros d u d'. unfold insert_reservation. cbv zeta. destruct (negb _); [done|]. destruct (exists_row _ _); [done|].
  destruct (bool_decide _); [|done]. intros [= _ <-]. by apply same_logs_logs.
Qed.
Lemma update_reservation_logs id f : keeps logs (update_reservation id f).
Proof.
  intros d u d'. unfold update_reservation. destruct (_ !! id); [destruct (reservation_checks _); [|done]|];
    intros [= _ <-]; by apply same_logs_logs.
Qed.
Lemma storeReservationTx_logs r : keeps logs (storeReservationTx r).
Proof. apply update_reservation_logs. Qed.
Lemma insert_outbox_logs id o : keeps logs (insert_outbox id o).
Proof.
  intros d u d'. unfold insert_outbox. destruct (exists_row _ _); [done|].
  destruct (bool_decide _); [|done]. intros [= _ <-]. by apply same_logs_logs.
Qed.
Lemma updateOutboxState_logs id p n : keeps logs (updateOutboxState id p n).
Proof.
  intros d u d'. unfold updateOutboxState. destruct (_ !! id); [|done]. destruct (outbox_is _ _); [|done].
  intros [= _ <-]. by apply same_logs_logs.
Qed.
Lemma insert_inbox_logs ev id kind hash : keeps logs (insert_inbox ev id kind hash).
Proof.
  intros d u d'. unfold insert_inbox. destruct (_ !! ev) eqn:E; [done|]. destruct (bool_decide _); [|done].
  intros [= _ <-]. split; upd; try done. by apply insert_subseteq.
Qed.
Lemma insert_inbox_once_logs ev id kind hash : keeps logs (insert_inbox_once ev id kind hash).
Proof.
  intros d u d'. unfold insert_inbox_once. destruct (_ !! ev); [|apply insert_inbox_logs]. intros [= _ <-]. reflexivity.
Qed.
Lemma insert_task_logs id t : keeps logs (insert_task id t).
Proof.
  intros d u d'. unfold insert_task. destruct (_ !! id) eqn:E; [intros [= _ <-]; reflexivity|]. destruct (bool_decide _); [|done].
  intros [= _ <-]. split; upd; try done. by apply insert_subseteq.
Qed.
Lemma append_audit_ok e entry d u d' : append_audit e entry d = inl (u, d') ->
  exists s, appendAuditTx (db_audit d) entry (pg_clock e) = Ok s /\ d' = d <| db_audit := s |>.
Proof. unfold append_audit. destruct (appendAuditTx _ _ _) as [s|] eqn:E; [|done]. intros [= _ <-]. eauto. Qed.
Lemma append_audit_logs e entry : keeps logs (append_audit e entry).
Proof.
  intros d u d' (s & E & ->)%append_audit_ok. split; upd; try done. exists [(entry, pg_clock e)].
  rewrite append_all_cons, E. reflexivity.
Qed.
#[local] Hint Resolve update_tenant_logs insert_tenant_logs loadTenantTx_logs loadReservationTx_logs insert_reservation_logs
  update_reservation_logs storeReservationTx_logs insert_outbox_logs updateOutboxState_logs insert_inbox_logs
  insert_inbox_once_logs insert_task_logs append_audit_logs : tx.

Ltac keeps_logs := repeat (apply keeps_bind; [exact _ | eauto with tx | intros]); eauto with tx.

Lemma appendRequestAuditTx_logs e r ev kind payload actor reason before sw cal :
  keeps logs (appendRequestAuditTx e r ev kind payload actor reason before sw cal).
Proof. unfold appendRequestAuditTx. keeps_logs. Qed.
#[local] Hint Resolve appendRequestAuditTx_logs : tx.
Lemma roll_all_logs e next ids : forall t, keeps logs (roll_all e next t ids).
Proof.
  induction ids as [|id ids IH]; intros t; cbn [roll_all]; [keeps_logs|]. apply keeps_bind; [exact _ | | intros; apply IH].
  unfold roll_one. cbv zeta. keeps_logs.
Qed.
#[local] Hint Resolve roll_all_logs : tx.
Lemma rolloverTenantTx_logs e T t next budget : keeps logs (rolloverTenantTx e T t next budget).
Proof. unfold rolloverTenantTx. cbv zeta. keeps_logs. Qed.
#[local] Hint Resolve rolloverTenantTx_logs : tx.
Lemma advanceTenantWindowTx_logs e T t : keeps logs (advanceTenantWindowTx e T t).
Proof.
  unfold advanceTenantWindowTx. destruct (_ || _); [keeps_logs|]. apply keeps_bind; [exact _ | eauto with tx | intros next].
  destruct (String.eqb _ _); [keeps_logs|]. destruct (negb _); keeps_logs.
Qed.
#[local] Hint Resolve advanceTenantWindowTx_logs : tx.

(** ** The tables of the books after a statement *)

Lemma update_tenant_ok T f d u d' t : update_tenant T f d = inl (u, d') -> db_tenants d !! T = Some t ->
  tenant_checks (f t) = true /\ d' = d <| db_tenants := <[T := f t]> (db_tenants d) |>.
Proof. unfold update_tenant. intros E Et. rewrite Et in E. destruct (tenant_checks (f t)); [|done]. by injection E as _ <-. Qed.
Lemma loadTenantTx_ok T d t d' : loadTenantTx T d = inl (t, d') -> db_tenants d !! T = Some t /\ d' = d.
Proof. unfold loadTenantTx. destruct (_ !! T); [|done]. by intros [= <- <-]. Qed.
Lemma loadReservationTx_ok id d r d' : loadReservationTx id d = inl (r, d') ->
  exists row, db_reservations d !! id = Some row /\ r = scanned row /\ scan_reservation row = Ok r /\ d' = d.
Proof.
  unfold loadReservationTx, loadReservation. destruct (_ !! id) as [row|]; [|done]. change (scan_reservation <$> Some row) with (Some (scan_reservation row)).
  destruct (scan_reservation row) as [q|] eqn:E; [|done]. intros [= <- <-]. exists row. split; [done|]. split; [|done].
  revert E. unfold scan_reservation. cbv zeta. set (s := scanned row). clearbody s.
  destruct (decodeReservationComponentJSON _); [done|]. destruct (stored_feedback_error _); [done|].
  destruct (validateReservationRoute _); [done|]. by intros [= <-].
Qed.
Lemma update_reservation_ok id f d u d' row : update_reservation id f d = inl (u, d') -> db_reservations d !! id = Some row ->
  d' = d <| db_reservations := <[id := f row]> (db_reservations d) |>.
Proof. unfold update_reservation. intros E Er. rewrite Er in E. destruct (reservation_checks _); [|done]. by injection E as _ <-. Qed.
Lemma storeReservationTx_ok r d u d' id row : storeReservationTx r d = inl (u, d') -> db_reservations d !! id = Some row ->
  res_RequestID r = id -> d' = d <| db_reservations := <[id := stored_columns r row]> (db_reservations d) |>.
Proof. unfold storeReservationTx. intros E Er <-. by eapply update_reservation_ok in E. Qed.
Lemma appendRequestAuditTx_ok e r ev kind payload actor reason before sw cal d u d' :
  appendRequestAuditTx e r ev kind payload actor reason before sw cal d = inl (u, d') ->
  exists after s, reservationAuditDigest r = Ok after /\
    appendAuditTx (db_audit d) (request_entry r ev kind payload actor reason before after sw cal) (pg_clock e) = Ok s /\
    d' = d <| db_audit := s |>.
Proof.
  unfold appendRequestAuditTx. intros (after & d1 & [Ea ->]%tx_result_ok & E)%tx_bind_ok.
  apply append_audit_ok in E as (s & Es & ->). eauto.
Qed.

(** What a row shares with the reservation that its scan gives. *)
Lemma scanned_id row : res_RequestID (scanned row) = res_RequestID row.
Proof. reflexivity. Qed.
Lemma scanned_same row : same_amounts row (scanned row).
Proof. by split. Qed.
Lemma scanned_wf row : res_wf row -> res_wf (scanned row).
Proof. apply same_wf, scanned_same. Qed.
Lemma scanned_windowed w row : windowed w row -> windowed w (scanned row).
Proof. apply same_windowed, scanned_same. Qed.

(** ** Windows *)

Lemma stored_rolled next row :
  let r := scanned row in
  stored_columns (r <| res_RolloverGuardMicros := res_RolloverGuardMicros r +i res_ProvisionalCostMicros r |>
             <| res_LastReasonCode := ReasonBudgetWindowRollover |>
             <| res_LastTransitionEventID := rollover_event (res_RequestID r) next |>) row = rolled next row.
Proof. destruct row. reflexivity. Qed.

Lemma roll_one_ok e next t id d t' d' : roll_one e next t id d = inl (t', d') ->
  (forall row, db_reservations d !! id = Some row -> res_RequestID row = id) ->
  exists row s, db_reservations d !! id = Some row /\
    t' = t <| tenant_ReservedMicros := tenant_ReservedMicros t +i res_ProvisionalCostMicros row |> /\
    d' = d <| db_reservations := <[id := rolled next row]> (db_reservations d) |> <| db_audit := s |>.
Proof.
  unfold roll_one. cbv zeta. intros (r & d1 & (row & Er & -> & _ & ->)%loadReservationTx_ok & E)%tx_bind_ok Hid.
  apply tx_bind_ok in E as (before & d2 & [_ ->]%tx_result_ok & E). specialize (Hid _ Er).
  apply tx_bind_ok in E as (u & d3 & Est & E). eapply storeReservationTx_ok in Est; [|exact Er | exact Hid]. rewrite stored_rolled in Est.
  apply tx_bind_ok in E as (u2 & d4 & (after & s & _ & _ & ->)%appendRequestAuditTx_ok & E). apply tx_ret_ok in E as [-> ->].
  exists row, s. split; [exact Er|]. split; [reflexivity|]. by rewrite Est.
Qed.

(** The rows once the rows [ids] have rolled. *)
Definition rolled_rows (next : string) (ids : list string) (d d' : database) : Prop :=
  forall id, db_reservations d' !! id = (if bool_decide (id ∈ ids) then rolled next <$> db_reservations d !! id else db_reservations d !! id).

Lemma roll_all_ok e next T ids : forall t d t' d', roll_all e next t ids d = inl (t', d') -> NoDup ids ->
  (forall id, id ∈ ids -> exists r, db_reservations d !! id = Some r /\ res_RequestID r = id /\ res_TenantID r = T) ->
  (forall w r, db_reservations d !! w = Some r -> micros (res_ProvisionalCostMicros r)) ->
  db_tenants d' = db_tenants d /\ db_outbox d' = db_outbox d /\ db_adjustments d' = db_adjustments d /\ db_inbox d' = db_inbox d /\
  rolled_rows next ids d d' /\ t' = t <| tenant_ReservedMicros := tenant_ReservedMicros t' |> /\
  tenant_ReservedMicros t' - row_sum held T (db_reservations d') ≡64 tenant_ReservedMicros t - row_sum held T (db_reservations d).
Proof.
  induction ids as [|id ids IH]; intros t d t' d'; cbn [roll_all].
  { intros [-> ->]%tx_ret_ok _ _ _. do 4 (split; [done|]). split; [intros id; rewrite bool_decide_false; [done | apply not_elem_of_nil]|].
    split; [by destruct t | done]. }
  intros (t1 & d1 & E1 & E)%tx_bind_ok [Hni Hnd]%NoDup_cons Hids Hp.
  destruct (Hids id (list_elem_of_here _ _)) as (r & Er & Hid & HT).
  apply roll_one_ok in E1 as (row & s & Erow & Et1 & Ed1); [|intros row Erow; congruence].
  replace row with r in * by congruence. clear Erow.
  assert (Hrows : db_reservations d1 = <[id := rolled next r]> (db_reservations d)) by (rewrite Ed1; reflexivity).
  assert (Hsame : db_tenants d1 = db_tenants d /\ db_outbox d1 = db_outbox d /\ db_adjustments d1 = db_adjustments d
    /\ db_inbox d1 = db_inbox d) by (rewrite Ed1; done).
  clear Ed1. destruct Hsame as (S1 & S2 & S3 & S4).
  destruct (IH _ _ _ _ E Hnd) as (A1 & A2 & A3 & A0 & A4 & A5 & A6).
  - intros id' Hin. rewrite Hrows, lookup_insert_ne; [apply Hids; by right|]. by intros ->.
  - intros k q. rewrite Hrows. intros [[_ <-] | [_ Eq]]%lookup_insert_Some; [exact (Hp id r Er) | by eapply Hp].
  - rewrite A1, A2, A3, A0, S1, S2, S3, S4. do 4 (split; [done|]). split; [|split].
    + intros k. rewrite A4, Hrows. destruct (decide (id = k)) as [<-|Hne].
      * rewrite bool_decide_false by done. rewrite (bool_decide_true (id ∈ id :: ids)) by apply list_elem_of_here.
        by rewrite lookup_insert_eq, Er.
      * rewrite lookup_insert_ne by done. rewrite (bool_decide_ext (k ∈ id :: ids) (k ∈ ids)); [done|]. rewrite elem_of_cons. naive_solver.
    + rewrite A5, Et1. by upd.
    + rewrite A6, Et1, Hrows, (row_sum_update _ _ _ _ _ _ Er). unfold of_tenant, held, rolled. upd. rewrite HT, String.eqb_refl.
      eqm_lia.
Qed.

Lemma rolled_ids_keys {A} (f : string -> A -> bool) (l : list (string * A)) :
  NoDup l.*1 -> NoDup (omap (fun '(k, v) => if f k v then Some k else None) l).
Proof.
  induction l as [|[k v] l IH]; [intros; apply NoDup_nil_2|]. intros [Hni Hnd]%NoDup_cons. specialize (IH Hnd).
  cbn. destruct (f k v); [|done]. apply NoDup_cons. split; [|done]. intros ([k' v'] & Hin & E)%list_elem_of_omap.
  destruct (f k' v'); [|done]. injection E as ->. apply Hni. apply list_elem_of_fmap. by exists (k, v').
Qed.
Lemma elem_rolled_ids {A} (f : string -> A -> bool) (m : gmap string A) k :
  k ∈ omap (fun '(k, v) => if f k v then Some k else None) (map_to_list m) <-> exists v, m !! k = Some v /\ f k v = true.
Proof.
  rewrite list_elem_of_omap. split.
  - intros ([k' v] & Hin%elem_of_map_to_list & E). destruct (f k' v) eqn:Hf; [|done]. injection E as ->. eauto.
  - intros (v & E & Hf). exists (k, v). rewrite elem_of_map_to_list, Hf. done.
Qed.

Context `{!PostgresLaws}.

(** The accounts of the abstract ledger. *)
Definition accounts (d : database) : gmap string account := account_of <$> db_reservations d.
Lemma roll_row_accounts T w next (m : gmap string Reservation) : account_of <$> (roll_row T w next <$> m) = account_of <$> m.
Proof. rewrite <- map_fmap_compose. apply map_fmap_ext. intros id r _. unfold compose, roll_row. by destruct (rolls _ _ _). Qed.

Lemma rolloverTenantTx_ok e T t next budget d t' d' :
  rolloverTenantTx e T t next budget d = inl (t', d') -> db_wf d -> db_tenants d !! T = Some t ->
  windowStartsAfter next (tenant_CurrentWindowID t) = true -> next <> ""%string ->
  change d d' /\ (db_inbox d' = db_inbox d /\ db_adjustments d' = db_adjustments d /\ accounts d' = accounts d) /\
  db_tenants d' !! T = Some t' /\ tenant_CurrentWindowID t' = next /\
  tenant_BudgetMicros t' = budget.
Proof.
  unfold rolloverTenantTx. cbv zeta. intros (ids & d1 & [-> ->]%tx_read_ok & E)%tx_bind_ok Hwf Et Hafter Hne.
  apply tx_bind_ok in E as (t1 & d1 & E1 & E). set (w := tenant_CurrentWindowID t) in *.
  assert (Hin : forall id, id ∈ rolled_ids d T w <-> exists r, db_reservations d !! id = Some r /\ rolls T w r = true).
  { intros id. unfold rolled_ids. rewrite scan_order_perm. apply (elem_rolled_ids (fun _ => rolls T w)). }
  apply (roll_all_ok e next T) in E1 as (A1 & A2 & A3 & A0 & A4 & A5 & A6).
  2:{ unfold rolled_ids. rewrite scan_order_perm. apply (rolled_ids_keys (fun _ => rolls T w)), NoDup_fst_map_to_list. }
  2:{ intros id (r & Er & Hr)%Hin. exists r. split; [done|]. split; [apply (ro_id _ _ _ (dw_row _ Hwf _ _ Er)) | by apply rolls_spec in Hr as (? & _)]. }
  2:{ intros id r Er. apply wf_provisional, (ro_wf _ _ _ (dw_row _ Hwf _ _ Er)). }
  apply tx_bind_ok in E as (u & d2 & E2 & E). apply tx_ret_ok in E as [-> ->].
  apply (update_tenant_ok _ _ _ _ _ t) in E2 as [Hc ->]; [|by rewrite A1].
  assert (Hrows : db_reservations d1 = roll_row T w next <$> db_reservations d).
  { apply map_eq. intros id. rewrite lookup_fmap, A4. unfold roll_row. destruct (db_reservations d !! id) as [r|] eqn:Er; [|by destruct (bool_decide _)].
    case_bool_decide as Hi.
    - apply Hin in Hi as (r' & Er' & Hr). replace r' with r in Hr by congruence. cbn. by rewrite Hr.
    - cbn. destruct (rolls T w r) eqn:Hr; [|done]. destruct Hi. apply Hin. eauto. }
  match type of Hc with tenant_checks ?x = true => set (t2 := x) in * end.
  assert (Ht2 : t1 <| tenant_SettledMicros := 0 |> <| tenant_CurrentWindowID := next |> <| tenant_BudgetMicros := budget |> = t2).
  { rewrite A5. unfold t2. by destruct t. }
  rewrite Ht2. split; [|split; [split; [done | split; [done | unfold accounts; upd; rewrite Hrows; apply roll_row_accounts]] | split; [upd; by rewrite lookup_insert_eq | by unfold t2; upd]]].
  apply (change_roll d T t next t2); try done.
  - fold w. rewrite <- Hrows. unfold t2. upd. exact A6.
  - split; upd; [by rewrite A1|]. split; [exact Hrows|]. by split.
Qed.

Lemma advanceTenantWindowTx_ok e T t d t' d' :
  advanceTenantWindowTx e T t d = inl (t', d') -> db_wf d -> db_tenants d !! T = Some t ->
  rtc change d d' /\ (db_inbox d' = db_inbox d /\ db_adjustments d' = db_adjustments d /\ accounts d' = accounts d) /\
  db_tenants d' !! T = Some t'.
Proof.
  unfold advanceTenantWindowTx. intros E Hwf Et. destruct (_ || _); [apply tx_ret_ok in E as [-> ->]; by split|].
  apply tx_bind_ok in E as (next & d1 & [En ->]%tx_result_ok & E).
  destruct (String.eqb _ _); [apply tx_ret_ok in E as [-> ->]; by split|].
  destruct (windowStartsAfter next (tenant_CurrentWindowID t)) eqn:Ha; cbn [negb] in E; [|done].
  apply rolloverTenantTx_ok in E as (Hch & Hin & Ht & _); try done; [split; [by apply rtc_once | done]|].
  intros ->. done.
Qed.

(** ** Events *)

Lemma insert_inbox_ok ev id kind hash d u d' : insert_inbox ev id kind hash d = inl (u, d') ->
  db_inbox d !! ev = None /\ d' = d <| db_inbox := <[ev := Build_inboxEvent id kind hash]> (db_inbox d) |>.
Proof.
  unfold insert_inbox. destruct (_ !! ev); [done|]. destruct (bool_decide _); [|done]. by intros [= _ <-].
Qed.
Lemma updateOutboxState_ok id p n d u d' : updateOutboxState id p n d = inl (u, d') ->
  exists o, db_outbox d !! id = Some o /\ obx_State o = p /\
    d' = d <| db_outbox := <[id := o <| obx_State := n |> <| obx_Version := obx_Version o + 1 |>]> (db_outbox d) |>.
Proof.
  unfold updateOutboxState. destruct (_ !! id) as [o|]; [|done]. destruct (outbox_is _ _) eqn:E; [|done]. intros [= _ <-].
  exists o. split; [done|]. split; [|done]. unfold outbox_is in E. by apply bool_decide_eq_true in E.
Qed.

Definition replayed (code : ReasonCode) : bool := bool_decide (code = ReasonDuplicateEvent) || bool_decide (code = ReasonSettlementDuplicate).

(** The tables of the books, the outbox apart. *)
Definition same_rows (d d' : database) : Prop :=
  db_tenants d' = db_tenants d /\ db_reservations d' = db_reservations d /\ db_adjustments d' = db_adjustments d.

(** What an accepted mutation leaves: nothing for a repeated event, or a
    transition of the reservation and its outbox. *)
Inductive effect (r : Reservation) (t : tenantLedger) (d : database) : Reservation -> tenantLedger -> ReasonCode -> database -> Prop :=
| effect_repeated r' t' code : replayed code = true -> effect r t d r' t' code d
| effect_moved r0 t' code d' o id :
    replayed code = false -> transition r t r0 t' ->
    db_outbox d !! res_OutboxID r0 = Some o -> obx_State o = res_OutboxState r ->
    db_outbox d' = <[res_OutboxID r0 := o <| obx_State := res_OutboxState r0 |> <| obx_Version := obx_Version o + 1 |>]> (db_outbox d) ->
    same_rows d d' -> db_inbox d' = db_inbox d -> logs d d' ->
    effect r t d (r0 <| res_SelectedFeedbackDispatchID := id |>) t' code d'.
Definition sound (m : mutation) : Prop := forall r t d r' t' code d', m r t d = (r', t', code, None, d') -> effect r t d r' t' code d'.

Lemma dispatch_id_same r : r <| res_SelectedFeedbackDispatchID := res_SelectedFeedbackDispatchID r |> = r.
Proof. by destruct r. Qed.

Lemma move_outbox_ok r r' t code d r1 t1 code1 d' : move_outbox r r' t code d = (r1, t1, code1, None, d') ->
  r1 = r' /\ t1 = t /\ code1 = code /\ exists o, db_outbox d !! res_OutboxID r' = Some o /\ obx_State o = res_OutboxState r /\
    d' = d <| db_outbox := <[res_OutboxID r' := o <| obx_State := res_OutboxState r' |> <| obx_Version := obx_Version o + 1 |>]> (db_outbox d) |>.
Proof.
  unfold move_outbox. destruct (updateOutboxState _ _ _ _) as [[u d1]|f] eqn:E; [|done].
  apply updateOutboxState_ok in E as (o & E1 & E2 & ->). intros Eq.
  pose proof (f_equal (fun x => x.1.1.1.1) Eq) as Q1. pose proof (f_equal (fun x => x.1.1.1.2) Eq) as Q2.
  pose proof (f_equal (fun x => x.1.1.2) Eq) as Q3. pose proof (f_equal snd Eq) as Q4. cbn [fst snd] in Q1, Q2, Q3, Q4.
  split; [done|]. split; [done|]. split; [done|]. exists o. split; [done|]. split; [done|]. by rewrite <- Q4.
Qed.

Lemma moved_effect r t d r' t' code r1 t1 code1 d' : transition r t r' t' -> replayed code = false ->
  move_outbox r r' t' code d = (r1, t1, code1, None, d') -> effect r t d r1 t1 code1 d'.
Proof.
  intros Ht Hc (-> & -> & -> & o & E1 & E2 & ->)%move_outbox_ok. rewrite <- (dispatch_id_same r').
  by eapply effect_moved.
Qed.

Lemma authorize_feedback_ok e r t code d r1 t1 code1 d' : authorize_feedback e r t code d = (r1, t1, code1, None, d') ->
  t1 = t /\ code1 = code /\ exists id l, r1 = r <| res_SelectedFeedbackDispatchID := id |> /\ d' = d <| db_feedback := db_feedback d ++ l |>.
Proof.
  unfold authorize_feedback. destruct (pg_selectedFeedbackAuthority e) as [a|]; [|done].
  destruct (insertSelectedFeedbackAuthorizationTx _ _ _ _) as [[id d1]|f] eqn:E; [|done]. intros Eq.
  pose proof (f_equal (fun x => x.1.1.1.1) Eq) as Q1. pose proof (f_equal (fun x => x.1.1.1.2) Eq) as Q2.
  pose proof (f_equal (fun x => x.1.1.2) Eq) as Q3. pose proof (f_equal snd Eq) as Q4. cbn [fst snd] in Q1, Q2, Q3, Q4. clear Eq.
  revert E. unfold insertSelectedFeedbackAuthorizationTx. intros (x & d2 & [_ ->]%tx_result_ok & E)%tx_bind_ok.
  apply tx_bind_ok in E as (u & d3 & [_ ->]%tx_guard_ok & E). apply tx_bind_ok in E as (u2 & d4 & E4 & E).
  assert (d4 = d) as -> by (revert E4; destruct (existsb _ _); [done|]; by intros [= _ <-]). clear E4.
  apply tx_bind_ok in E as (u3 & d5 & E5 & E). apply tx_ret_ok in E as [-> ->].
  split; [done|]. split; [done|]. exists (fba_DispatchID x), [x]. split; [done|]. rewrite <- Q4.
  unfold tx_write in E5. by injection E5 as _ <-.
Qed.

Lemma dispatch_sound e req : sound (dispatch_mutation e req).
Proof.
  intros r t d r' t' code d'. unfold dispatch_mutation. do 2 (destruct (negb _); [done|]).
  destruct (applyDispatch r (dreq_Status req)) as [[q c] [m|]] eqn:Ha; [done|].
  assert (Ht : transition r t q t) by (apply transition_event; by eapply step_dispatch).
  assert (Hc : replayed c = false).
  { revert Ha. unfold applyDispatch. repeat match goal with |- context [if ?b then _ else _] => destruct b end;
      intros Ha; try (apply (f_equal snd) in Ha; discriminate Ha); apply (f_equal (fun x => x.1.2)) in Ha; cbn [fst snd] in Ha; by subst c. }
  destruct (move_outbox r q t c d) as [[[[q1 t1] c1] [f|]] d1] eqn:Hm; [done|].
  destruct (_ && _); [|intros Eq; rewrite <- Hm in Eq; by eapply moved_effect].
  pose proof Hm as Hm'. apply move_outbox_ok in Hm' as (-> & -> & -> & o & E1 & E2 & Ed1).
  intros (-> & -> & id & l & -> & ->)%authorize_feedback_ok.
  eapply effect_moved; try done; rewrite ?Ed1; try done.
  split; upd; try done. by eexists.
Qed.

Lemma settle_sound req : sound (settle_mutation req).
Proof.
  intros r t d r' t' code d'. unfold settle_mutation. destruct (negb _); [done|].
  destruct (applySettlement r t req) as [[[q u] c] [m|]] eqn:Ha; [done|].
  destruct (_ || _) eqn:Hdup.
  - intros Eq. pose proof (f_equal (fun x => x.1.1.2) Eq) as Q3. pose proof (f_equal snd Eq) as Q4. cbn [fst snd] in Q3, Q4. subst c d.
    apply effect_repeated. unfold replayed. by rewrite orb_comm.
  - assert (Hrep : replayed c = false) by (unfold replayed; by rewrite orb_comm).
    apply orb_false_elim in Hdup as [Hs%bool_decide_eq_false _].
    assert (Ht : transition r t q u) by (apply transition_event; by eapply step_settle).
    set (m := if res_ComponentBoundExceeded q then _ else _). 
    assert (Hk : keeps (fun d d' => logs d d' /\ same_rows d d' /\ db_inbox d' = db_inbox d /\ db_outbox d' = db_outbox d) m).
    { intros d0 x d1 E. split.
      - revert d0 x d1 E. subst m. change (keeps logs (if res_ComponentBoundExceeded q then exceeded_task req q else tx_ret tt)).
        destruct (res_ComponentBoundExceeded q); unfold exceeded_task; eauto with tx.
      - revert E. subst m. destruct (res_ComponentBoundExceeded q); [|by intros [_ ->]%tx_ret_ok].
        unfold exceeded_task, insert_task. destruct (_ !! _); [by intros [= _ <-]|]. destruct (bool_decide _); [|done]. by intros [= _ <-]. }
    destruct (m d) as [[x d1]|f] eqn:Em; [|done]. destruct (Hk _ _ _ Em) as (L1 & (S1 & S2 & S3) & S4 & S5).
    intros (-> & -> & -> & o & E1 & E2 & ->)%move_outbox_ok. rewrite <- (dispatch_id_same q). rewrite S5 in *.
    eapply effect_moved; try done. transitivity d1; [done|]. by apply same_logs_logs.
Qed.

Lemma cancel_sound req : sound (cancel_mutation req).
Proof.
  intros r t d r' t' code d'. unfold cancel_mutation. destruct (negb _); [done|].
  destruct (applyCancel r t (creq_AuthoritativeUnbilled req)) as [[[q u] c] [m|]] eqn:Ha; [done|].
  destruct (_ || _) eqn:Hdup.
  - intros Eq. pose proof (f_equal (fun x => x.1.1.2) Eq) as Q3. pose proof (f_equal snd Eq) as Q4. cbn [fst snd] in Q3, Q4. subst c d.
    by apply effect_repeated.
  - intros Eq. apply orb_false_elim in Hdup as Hd. destruct Hd as [Hs%bool_decide_eq_false _].
    eapply moved_effect; [|exact Hdup | exact Eq]. apply transition_event. by eapply step_cancel.
Qed.

(** *** The row that a transition stores *)

Section stored.
Context (w : string) (row r0 r1 : Reservation) (t t' : tenantLedger).
Context (Hr1 : exists id code ev, r1 = r0 <| res_SelectedFeedbackDispatchID := id |> <| res_LastReasonCode := code |> <| res_LastTransitionEventID := ev |>).
Context (Htr : transition (scanned row) t r0 t') (Hwf : res_wf row) (Hwd : windowed w row).
Context (Hw : tenant_CurrentWindowID t = w) (Hne : w <> ""%string).

Lemma stored_frozen : frozen (stored_columns r1 row) = frozen row.
Proof. reflexivity. Qed.

Lemma stored_same : same_amounts r0 (stored_columns r1 row).
Proof.
  destruct (transition_frame _ _ _ _ Htr) as [Hf _]. destruct (frozen_eq _ _ Hf) as (_ & _ & _ & Hres & _).
  assert (Ho : res_OriginWindowID r0 = res_OriginWindowID row).
  { change (res_OriginWindowID (frozen r0) = res_OriginWindowID (frozen (scanned row))). by rewrite Hf. }
  destruct Hr1 as (id & code & ev & ->). by split.
Qed.

Lemma stored_wf : res_wf (stored_columns r1 row).
Proof. destruct (transition_books _ _ _ _ Htr (scanned_wf _ Hwf)) as [Hq _]. by apply (same_wf _ _ stored_same). Qed.

Lemma stored_step : row_step w row t (stored_columns r1 row) t'.
Proof.
  destruct (transition_row _ _ _ _ _ Htr (scanned_wf _ Hwf) (scanned_windowed _ _ Hwd) Hw Hne) as (Hwd' & Hb & Hw').
  split; [by apply (same_windowed _ _ stored_same)|]. split; [|done]. apply (same_booked _ _ stored_same).
  destruct Hb. by split.
Qed.
End stored.

(** What an event that takes effect commits. *)
Record concluded (ev id kind hash : string) (code : ReasonCode) (row : Reservation) (d d' : database) : Prop := {
  cc_new : db_inbox d !! ev = None;
  cc_inbox : db_inbox d' = <[ev := Build_inboxEvent id kind hash]> (db_inbox d);
  cc_row : exists r0 t t' row', db_reservations d !! id = Some row /\ transition (scanned row) t r0 t' /\
    db_tenants d !! res_TenantID row = Some t /\ replayed code = false /\
    db_reservations d' !! id = Some row' /\ res_LastReasonCode row' = code /\ res_LastTransitionEventID row' = ev /\
    res_State row' = res_State r0;
  cc_change : change d d';
  cc_logs : logs d d'
}.

Lemma conclude_event_ok e ev id kind hash before row t d0 d r0 r1 t' code d' u :
  db_wf d0 -> db_reservations d0 !! id = Some row -> db_tenants d0 !! res_TenantID row = Some t ->
  effect (scanned row) t d0 r0 t' code d -> replayed code = false ->
  r1 = r0 <| res_LastReasonCode := code |> <| res_LastTransitionEventID := ev |> ->
  conclude_event e ev id kind hash before (scanned row) r1 t' d = inl (u, d') ->
  concluded ev id kind hash code row d0 d'.
Proof.
  intros Hwf Er Et Heff Hrep Er1 E. destruct Heff as [q u0 c Hc | q u0 c d o fid _ Htr Eo Eos Eoutbox (S1 & S2 & S3) S4 HL]; [congruence|].
  destruct (dw_row _ Hwf _ _ Er) as [Hid Hrw (t0 & Et0 & Hwd) (o0 & Eo0 & Hob)]. replace t0 with t in * by congruence. clear Et0.
  pose proof (dw_tenant _ Hwf _ _ Et) as Hok. pose proof (to_window _ _ _ Hok) as Hne.
  assert (Hr1 : exists id code ev, r1 = q <| res_SelectedFeedbackDispatchID := id |> <| res_LastReasonCode := code |> <| res_LastTransitionEventID := ev |>) by eauto.
  destruct (transition_frame _ _ _ _ Htr) as [Hfz Hterms]. destruct (frozen_eq _ _ Hfz) as (Fid & FT & _). destruct (frozen_keys _ _ Hfz) as (Fkey & _).
  pose proof (stored_wf row q r1 t u0 Hr1 Htr Hrw) as Hwf'.
  pose proof (stored_step _ row q r1 t u0 Hr1 Htr Hrw Hwd eq_refl Hne) as (Hwd' & [B1 B2 B3] & Hcw).
  pose proof (stored_same row q r1 t u0 Hr1 Htr) as Hsame. destruct (same_held _ _ Hsame) as [Hh Hl].
  destruct (sa_state _ _ Hsame) as (Hs & Ho & _).
  destruct (transition_books _ _ _ _ Htr (scanned_wf _ Hrw)) as [Hq Hgap].
  pose proof (transition_moves _ _ _ _ Htr (scanned_wf _ Hrw)) as Hmv.
  assert (Hf1 : res_RequestID r1 = id /\ res_TenantID r1 = res_TenantID row /\ res_State r1 = res_State q)
    by (rewrite Er1; upd; rewrite <- Hid; done). destruct Hf1 as (Hid1 & HT1 & Hs1).
  revert E. unfold conclude_event. cbv zeta. intros (u1 & d1 & E1 & E)%tx_bind_ok.
  pose proof (insert_inbox_logs _ _ _ _ _ _ _ E1) as L1. apply insert_inbox_ok in E1 as [Hnew Ed1].
  apply tx_bind_ok in E as (u2 & d2 & E2 & E). pose proof (storeReservationTx_logs _ _ _ _ E2) as L2.
  assert (R1 : db_reservations d1 !! id = Some row) by (rewrite Ed1; upd; congruence).
  eapply storeReservationTx_ok in E2 as Ed2; [|exact R1 | exact Hid1].
  set (row' := stored_columns r1 row) in *.
  apply tx_bind_ok in E as (u3 & d3 & E3 & E). pose proof (appendRequestAuditTx_logs _ _ _ _ _ _ _ _ _ _ _ _ _ E3) as L3.
  apply appendRequestAuditTx_ok in E3 as (after & s & _ & _ & Ed3). pose proof (update_tenant_logs _ _ _ _ _ E) as L4.
  rewrite HT1 in E. apply (update_tenant_ok _ _ _ _ _ t) in E as [Hc Ed4]; [|rewrite Ed3, Ed2, Ed1; upd; congruence].
  match type of Hc with tenant_checks ?x = true => set (t2 := x) in * end.
  assert (Ht2 : tenant_ReservedMicros t2 = tenant_ReservedMicros u0 /\ tenant_SettledMicros t2 = tenant_SettledMicros u0 /\
    tenant_CarriedAdjustmentMicros t2 = tenant_CarriedAdjustmentMicros u0 /\ tenant_HistoricalCreditMicros t2 = tenant_HistoricalCreditMicros u0 /\
    tenant_CurrentWindowID t2 = tenant_CurrentWindowID t /\
    tenant_ActiveReservations t2 = tenant_ActiveReservations t + (live row' - live row)).
  { assert (Hact : tenant_ActiveReservations u0 = tenant_ActiveReservations t) by apply Hterms.
    rewrite Hl. unfold t2, live. rewrite Hs1. upd. do 5 (split; [done|]). rewrite Hact. change (res_State (scanned row)) with (res_State row).
    destruct (reservationIsActive (res_State row)), (reservationIsActive (res_State q)); cbn [negb andb]; lia. }
  destruct Ht2 as (T1 & T2 & T3 & T4 & T5 & T6).
  assert (Hd' : tables d0 (res_TenantID row) t2 (<[id := row']> (db_reservations d0))
            (<[res_OutboxID row := o <| obx_State := res_OutboxState q |> <| obx_Version := obx_Version o + 1 |>]> (db_outbox d0)) (db_adjustments d0) d').
  { rewrite Ed4, Ed3, Ed2, Ed1. unfold tables. upd. rewrite S1, S2, S3, Eoutbox, Fkey. done. }
  clearbody t2. split.
  - congruence.
  - rewrite Ed4, Ed3, Ed2, Ed1. upd. by rewrite S4.
  - exists q, t, u0, row'. destruct Hd' as (_ & -> & _). rewrite lookup_insert_eq. repeat (split; [done|]).
    unfold row', stored_columns. rewrite Er1. by upd.
  - replace o0 with o in * by (change (res_OutboxID (scanned row)) with (res_OutboxID row) in *; congruence).
    eapply (change_commit d0 id row t row' t2); try done.
    + by rewrite Hs.
    + split; [done|]. split; [|congruence]. split; [by rewrite T2 | by rewrite T3 | by rewrite T4].
    + by rewrite T1, Hh.
    + by destruct Hob.
  - transitivity d; [done|]. transitivity d1; [done|]. transitivity d2; [done|]. by transitivity d3.
Qed.

(** *** One attempt of an event *)

Inductive event_outcome (ev id kind hash T W : string) (d d' : database) (reply : event_reply) : Prop :=
| event_refused : d' = d -> event_outcome ev id kind hash T W d d' reply
| event_repeated row :
    rtc change d d' -> db_inbox d' = db_inbox d -> logs d d' -> reply.2 = None -> replayed reply.1.2 = true ->
    db_reservations d' !! id = Some row -> res_TenantID row = T -> res_WorkloadUID row = W ->
    event_outcome ev id kind hash T W d d' reply
| event_effective d1 row :
    rtc change d d1 -> db_inbox d1 = db_inbox d -> logs d d1 -> concluded ev id kind hash reply.1.2 row d1 d' ->
    reply.2 = None -> res_TenantID row = T -> res_WorkloadUID row = W -> scan_reservation row = Ok (scanned row) ->
    event_outcome ev id kind hash T W d d' reply.

Lemma mutate_loaded_ok e ev id kind hash m d0 d row t d' reply : sound m -> db_wf d ->
  db_reservations d !! id = Some row -> db_tenants d !! res_TenantID row = Some t ->
  mutate_loaded e ev id kind hash m d0 d (scanned row) t = (d', reply) ->
  d' = d0 \/ (d' = d /\ reply.2 = None /\ replayed reply.1.2 = true) \/
  (concluded ev id kind hash reply.1.2 row d d' /\ reply.2 = None).
Proof.
  intros Hm Hwf Er Et. unfold mutate_loaded. destruct (reservationAuditDigest _) as [before|]; [|intros [= <- _]; by left].
  destruct (m (scanned row) t d) as [[[[r0 t'] code] [f|]] d1] eqn:E; [intros Eq; apply (f_equal fst) in Eq; cbn [fst] in Eq; by left|].
  pose proof (Hm _ _ _ _ _ _ _ E) as Heff. change (bool_decide (code = ReasonDuplicateEvent) || bool_decide (code = ReasonSettlementDuplicate)) with (replayed code).
  destruct (replayed code) eqn:Hrep.
  - intros Eq. pose proof (f_equal fst Eq) as Q1. pose proof (f_equal (fun x => x.2.2) Eq) as Q2.
    pose proof (f_equal (fun x => x.2.1.2) Eq) as Q3. cbn [fst snd] in Q1, Q2, Q3. subst d'. right. left.
    rewrite <- Q2, <- Q3. split; [|done]. destruct Heff; [done | congruence].
  - cbv zeta. destruct (conclude_event _ _ _ _ _ _ _ _ _ _) as [[u d2]|f] eqn:Ec; [|intros [= <- _]; by left].
    intros Eq. pose proof (f_equal fst Eq) as Q1. pose proof (f_equal (fun x => x.2.2) Eq) as Q2.
    pose proof (f_equal (fun x => x.2.1.2) Eq) as Q3. cbn [fst snd] in Q1, Q2, Q3. subst d'. right. right.
    rewrite <- Q2, <- Q3. split; [|done]. by eapply conclude_event_ok.
Qed.

Lemma matchPrincipal_ok r T W : matchPrincipal r T W = None -> res_TenantID r = T /\ res_WorkloadUID r = W.
Proof.
  unfold matchPrincipal. destruct (_ || _) eqn:E; [done|]. apply orb_false_elim in E as [E1 E2].
  apply negb_false_iff, String.eqb_eq in E1. apply negb_false_iff, String.eqb_eq in E2. done.
Qed.

Lemma mutateEventOnce_ok e ev id kind hash m T W d d' reply : sound m -> db_wf d ->
  mutateEventOnce e ev id kind hash m T W d = (d', reply) -> event_outcome ev id kind hash T W d d' reply.
Proof.
  intros Hm Hwf. unfold mutateEventOnce. destruct (db_inbox d !! ev); [intros [= <- _]; by apply event_refused|].
  destruct (loadReservation d id) as [[r|]|] eqn:El; [|intros [= <- _]; by apply event_refused..].
  destruct (loadReservationTx_ok id d r d) as (row & Er & -> & _ & _); [by unfold loadReservationTx; rewrite El|].
  destruct (matchPrincipal _ _ _) eqn:Ep; [intros [= <- _]; by apply event_refused|].
  apply matchPrincipal_ok in Ep as [HT HW]. change (res_TenantID row = T) in HT. change (res_WorkloadUID row = W) in HW.
  change (res_TenantID (scanned row)) with (res_TenantID row).
  destruct (loadTenantTx (res_TenantID row) d) as [[t d0]|] eqn:Et; [|intros [= <- _]; by apply event_refused].
  apply loadTenantTx_ok in Et as [Et ->].
  destruct (advanceTenantWindowTx e (res_TenantID row) t d) as [[t1 d1]|] eqn:Ea; [|intros [= <- _]; by apply event_refused].
  pose proof (advanceTenantWindowTx_logs _ _ _ _ _ _ Ea) as La. apply advanceTenantWindowTx_ok in Ea as (Hch & [Hin _] & Et1); try done.
  pose proof (changes_wf _ _ Hch Hwf) as Hwf1.
  destruct (loadReservationTx id d1) as [[r1 d2]|] eqn:El1; [|intros [= <- _]; by apply event_refused].
  apply loadReservationTx_ok in El1 as (row1 & Er1 & -> & Hscan & ->). intros E.
  assert (Hsame : res_TenantID row1 = res_TenantID row /\ res_WorkloadUID row1 = res_WorkloadUID row).
  { destruct (changes_kept _ _ Hch _ _ Er) as (q & Eq & Hf & _). replace q with row1 in Hf by congruence.
    destruct (frozen_eq _ _ Hf) as (_ & -> & -> & _). done. }
  destruct Hsame as [HT1 HW1].
  eapply mutate_loaded_ok in E as [-> | [(-> & E2 & E3) | [Hc E2]]]; [..|exact Hm|exact Hwf1|exact Er1|by rewrite HT1].
  - by apply event_refused.
  - eapply (event_repeated _ _ _ _ _ _ _ _ _ row1); try done; congruence.
  - eapply (event_effective _ _ _ _ _ _ _ _ _ d1 row1); try done; congruence.
Qed.

(** ** Admission *)

Lemma exists_row_lookup {A} (f : string -> A -> bool) (m : gmap string A) k v :
  exists_row f m = false -> m !! k = Some v -> f k v = false.
Proof.
  unfold exists_row. intros E Hk. destruct (f k v) eqn:Hf; [|done].
  assert (Ht : existsb (fun '(k, v) => f k v) (map_to_list m) = true).
  { apply existsb_exists. exists (k, v). split; [|done]. apply list_elem_of_In. by apply elem_of_map_to_list. }
  congruence.
Qed.

Lemma insert_tenant_ok T budget identity window period d u d' :
  insert_tenant T budget identity window period d = inl (u, d') -> window <> ""%string ->
  change d d' /\ db_inbox d' = db_inbox d /\ accounts d' = accounts d.
Proof.
  unfold insert_tenant. intros E Hne. destruct (db_tenants d !! T) as [t|] eqn:Et.
  - injection E as _ <-. split; [by apply change_log | done].
  - cbv zeta in E. destruct (tenant_checks _) eqn:Hc; [|done]. injection E as _ <-.
    split; [|done].
    apply (change_open d T (Build_tenantLedger budget 0 0 0 0 ∅ identity window 0 period)); try done.
Qed.

Lemma window_named period at_ w : budgetWindowForPeriod period at_ = Ok w -> w <> ""%string.
Proof.
  unfold budgetWindowForPeriod. destruct (window_start _ _); [|done]. intros [= <-].
  by destruct (ToLower period).
Qed.

Lemma bind_window_ok e T budget identity window period d bound d' :
  bind_window e T budget identity window period d = inl (bound, d') -> db_wf d -> window <> ""%string ->
  rtc change d d' /\ (db_inbox d' = db_inbox d /\ accounts d' = accounts d) /\ logs d d' /\
  match bound with
  | Some t => db_tenants d' !! T = Some t /\ tenant_CurrentWindowID t = window /\ tenant_BudgetMicros t = budget
  | None => True
  end.
Proof.
  unfold bind_window. cbv zeta. intros (u & d1 & E1 & E)%tx_bind_ok Hwf Hne.
  pose proof (insert_tenant_logs _ _ _ _ _ _ _ _ E1) as L1. apply insert_tenant_ok in E1 as (C1 & I1 & Ac1); [|done].
  pose proof (change_wf _ _ C1 Hwf) as Hwf1. apply tx_bind_ok in E as (t & d2 & [Et ->]%loadTenantTx_ok & E).
  assert (Hret : forall b, tx_ret b d1 = inl (bound, d') -> rtc change d d' /\ (db_inbox d' = db_inbox d /\ accounts d' = accounts d) /\ logs d d' /\ bound = b /\ d' = d1).
  { intros b [-> ->]%tx_ret_ok. split; [by apply rtc_once | done]. }
  destruct (String.eqb_spec (tenant_CurrentWindowID t) window) as [Hw|Hw]; cbn [andb] in E.
  - destruct (negb (String.eqb _ _) || _) eqn:Hcf; [destruct (Hret _ E) as (? & ? & ? & -> & _); done|].
    destruct (Hret _ E) as (? & ? & ? & -> & ->). repeat (split; [done|]).
    apply orb_false_elim in Hcf as [_ Hb%negb_false_iff%Z.eqb_eq]. done.
  - destruct (windowStartsAfter _ _) eqn:Ha; cbn [negb] in E; [|destruct (Hret _ E) as (? & ? & ? & -> & _); done].
    apply tx_bind_ok in E as (t1 & d2 & E2 & E). pose proof (rolloverTenantTx_logs _ _ _ _ _ _ _ _ E2) as L2.
    apply rolloverTenantTx_ok in E2 as (C2 & (I2 & _ & Ac2) & Et2 & Hcw & Hbud); try done. pose proof (change_wf _ _ C2 Hwf1) as Hwf2.
    apply tx_bind_ok in E as (u3 & d3 & E3 & E). pose proof (update_tenant_logs _ _ _ _ _ E3) as L3. apply tx_ret_ok in E as [-> ->].
    eapply update_tenant_ok in E3 as [Hc Ed3]; [|exact Et2].
    set (t2 := t1 <| tenant_BudgetIdentity := _ |> <| tenant_WindowPeriod := _ |>) in *.
    assert (Hs : same_sums t1 t2 /\ tenant_CurrentWindowID t2 = tenant_CurrentWindowID t1 /\
      tenant_ReservedMicros t2 = tenant_ReservedMicros t1 /\ tenant_SettledMicros t2 = tenant_SettledMicros t1 /\
      tenant_CarriedAdjustmentMicros t2 = tenant_CarriedAdjustmentMicros t1 /\ tenant_BudgetMicros t2 = tenant_BudgetMicros t1) by done.
    clearbody t2. destruct Hs as (S1 & S2 & S3 & S4 & S5 & S6).
    split; [|split; [|split; [|split; [|split]]]].
    + eapply rtc_l; [exact C1|]. eapply rtc_l; [exact C2|]. apply rtc_once. rewrite Ed3.
      by apply (change_terms d2 T t1 t2).
    + rewrite Ed3. unfold accounts in *. upd. split; congruence.
    + transitivity d1; [done|]. by transitivity d2.
    + rewrite Ed3. upd. by rewrite lookup_insert_eq.
    + congruence.
    + congruence.
Qed.

(** *** The new row *)

Record quoted (w : string) (r : Reservation) : Prop := {
  qt_fresh : fresh_row w r;
  qt_hold : res_ResidualHoldMicros r = res_ReservedCostMicros r /\ res_RolloverGuardMicros r = 0;
  qt_metadata : res_OutboxState r = OutboxPending
}.

Lemma stored_quoted e req budget routing fingerprint window choice risk digest :
  micros (ch_Reservation choice) -> window <> ""%string ->
  quoted window (stored_reservation e req budget routing fingerprint window choice risk digest).
Proof.
  intros Hm Hne. set (r := stored_reservation _ _ _ _ _ _ _ _ _).
  assert (Hf : res_State r = StateReserved /\ res_OutboxState r = OutboxPending /\ res_ReservedCostMicros r = ch_Reservation choice /\
    res_ResidualHoldMicros r = ch_Reservation choice /\ res_EnforcementWindowID r = window /\ res_OriginWindowID r = window /\
    res_UsageVersion r = 0 /\ res_Finalized r = false /\ res_Carried r = false) by done.
  assert (Hz : res_ProvisionalCostMicros r = 0 /\ res_CarryEffectMicros r = 0 /\ res_BaseActualMicros r = 0 /\
    res_RolloverGuardMicros r = 0 /\ res_SettledEffectMicros r = 0 /\ res_HistoricalCreditMicros r = 0) by done.
  clearbody r. destruct Hf as (F1 & F2 & F3 & F4 & F5 & F6 & F7 & F8 & F9). destruct Hz as (Z1 & Z2 & Z3 & Z4 & Z5 & Z6).
  assert (M0 : micros 0) by (by unfold micros, max_int64).
  assert (Hwf : res_wf r).
  { split; unfold level; rewrite ?F1, ?F2, ?F3, ?F4, ?F7, ?F8, ?F9, ?Z1, ?Z2, ?Z3, ?Z4; cbn; try done. destruct Hm. lia. }
  assert (Hwd : windowed window r).
  { split; [split|]; rewrite ?F1, ?F5, ?F6, ?F9, ?Z1, ?Z4, ?Z5, ?Z6, ?String.eqb_refl; try done. by left. }
  split; [by split| | done]. by rewrite F3, F4.
Qed.

Lemma stored_columns_twice r row : stored_columns r (stored_columns r row) = stored_columns r row.
Proof. destruct r, row. vm_compute. reflexivity. Qed.
(** The columns that keep the values they were inserted with. *)
Definition identity_columns (r : Reservation) : string * string * string * string * string * (Z * list ChargeComponent * string * string) :=
  (res_RequestID r, res_TenantID r, res_WorkloadUID r, res_ProviderAttemptID r, res_OutboxID r,
   (res_ReservedCostMicros r, res_ReservedComponents r, res_AdmissionFingerprint r, res_OriginWindowID r)).
Lemma stored_identity r row : identity_columns (stored_columns r row) = identity_columns row /\
  res_Expiry (stored_columns r row) = res_Expiry row.
Proof. split; reflexivity. Qed.
Lemma inserted_identity r fb fd : let row := (inserted_row r) <| res_SelectedFeedback := fb |> <| res_SelectedFeedbackBindingSHA256 := fd |> in
  identity_columns row = identity_columns r /\ res_Expiry row = stored_time (res_Expiry r).
Proof. split; reflexivity. Qed.
Lemma stored_amounts r row : res_ReservedCostMicros row = res_ReservedCostMicros r -> res_OriginWindowID row = res_OriginWindowID r ->
  same_amounts r (stored_columns r row).
Proof. intros E1 E2. by split. Qed.

Lemma insert_admission_ok e r t d u d' : insert_admission e r d = inl (u, d') -> db_wf d ->
  db_tenants d !! res_TenantID r = Some t -> quoted (tenant_CurrentWindowID t) r ->
  change d d' /\ logs d d' /\ db_inbox d' = db_inbox d /\ db_reservations d !! res_RequestID r = None /\
  db_tenants d' !! res_TenantID r = Some (t <| tenant_ReservedMicros := tenant_ReservedMicros t + res_ReservedCostMicros r |>
    <| tenant_ActiveReservations := tenant_ActiveReservations t + 1 |>) /\
  in64 (tenant_ReservedMicros t + res_ReservedCostMicros r) /\
  exists row, db_reservations d' !! res_RequestID r = Some row /\ same_amounts r row /\
    stored_columns r row = row /\ res_RequestID row = res_RequestID r /\ res_TenantID row = res_TenantID r /\
    res_ReservedCostMicros row = res_ReservedCostMicros r /\ res_ReservedComponents row = res_ReservedComponents r /\
    res_Expiry row = stored_time (res_Expiry r) /\ res_AdmissionFingerprint row = res_AdmissionFingerprint r /\
    db_outbox d' !! res_OutboxID row = Some (Build_outbox_row (res_RequestID r) (res_TenantID r) (res_WorkloadUID r)
      (res_ProviderAttemptID row) (res_OutboxState r) 1).
Proof.
  unfold insert_admission. intros (u1 & d1 & E1 & E)%tx_bind_ok Hwf Et [[Q1 Q2 Q3 Q4] [Q5 Q6] Q7].
  pose proof (insert_reservation_logs _ _ _ _ E1) as L1.
  assert (Hd1 : db_reservations d !! res_RequestID r = None /\ (forall k q, db_reservations d !! k = Some q -> same_key r q = false) /\
    d1 = d <| db_reservations := <[res_RequestID r := inserted_row r]> (db_reservations d) |>).
  { revert E1. unfold insert_reservation. cbv zeta. destruct (negb _); [done|]. destruct (exists_row _ _) eqn:Hx; [done|].
    destruct (bool_decide (is_Some (db_tenants d !! res_TenantID r))); [|done]. intros [= _ <-]. split; [|split; [|done]].
    - destruct (db_reservations d !! res_RequestID r) as [q|] eqn:Eq; [|done]. pose proof (exists_row_lookup _ _ _ _ Hx Eq) as Hk.
      cbv beta in Hk. unfold same_key in Hk. rewrite (ro_id _ _ _ (dw_row _ Hwf _ _ Eq)) in Hk.
      change (res_RequestID (inserted_row r)) with (res_RequestID r) in Hk. by rewrite String.eqb_refl in Hk.
    - intros k q Eq. exact (exists_row_lookup _ _ _ _ Hx Eq). }
  destruct Hd1 as (Hnew & Hkeys & Ed1). clear E1.
  apply tx_bind_ok in E as (u2 & d2 & E2 & E). pose proof (insert_outbox_logs _ _ _ _ _ E2) as L2.
  set (o := Build_outbox_row _ _ _ _ _ _) in *.
  assert (Hd2 : db_outbox d !! res_OutboxID r = None /\ d2 = d1 <| db_outbox := <[res_OutboxID r := o]> (db_outbox d1) |>).
  { revert E2. unfold insert_outbox. destruct (exists_row _ _) eqn:Hx; [done|].
    destruct (bool_decide (is_Some (db_reservations d1 !! obx_RequestID o))); [|done]. intros [= _ <-]. split; [|done].
    destruct (db_outbox d !! res_OutboxID r) as [b|] eqn:Eb; [|done].
    assert (Eb1 : db_outbox d1 !! res_OutboxID r = Some b) by (by rewrite Ed1). pose proof (exists_row_lookup _ _ _ _ Hx Eb1) as Hk.
    cbv beta in Hk. by rewrite String.eqb_refl in Hk. }
  destruct Hd2 as (Hbox & Ed2). clear E2.
  apply tx_bind_ok in E as (u3 & d3 & E3 & E).
  assert (L3 : logs d2 d3) by (revert E3; destruct (bool_decide _); [apply update_reservation_logs | intros [_ ->]%tx_ret_ok; reflexivity]).
  assert (Hd3 : exists fb fd, db_reservations d3 = <[res_RequestID r := (inserted_row r)
      <| res_SelectedFeedback := fb |> <| res_SelectedFeedbackBindingSHA256 := fd |>]> (db_reservations d) /\
      (db_tenants d3, db_outbox d3, db_adjustments d3, db_inbox d3) = (db_tenants d2, db_outbox d2, db_adjustments d2, db_inbox d2)).
  { revert E3. destruct (bool_decide _).
    - intros E3. exists (res_SelectedFeedback r), (res_SelectedFeedbackBindingSHA256 r).
      match type of E3 with update_reservation _ ?g _ = _ => set (f := g) in E3 end. change ((inserted_row r) <| res_SelectedFeedback := res_SelectedFeedback r |>
        <| res_SelectedFeedbackBindingSHA256 := res_SelectedFeedbackBindingSHA256 r |>) with (f (inserted_row r)).
      assert (Er2 : db_reservations d2 !! res_RequestID r = Some (inserted_row r)) by (rewrite Ed2, Ed1; apply lookup_insert_eq).
      apply (update_reservation_ok _ _ _ _ _ _ E3) in Er2 as ->. generalize (f (inserted_row r)). intros q.
      split; [|reflexivity]. rewrite Ed2, Ed1. upd. by rewrite insert_insert_eq.
    - intros [_ ->]%tx_ret_ok. exists None, ""%string. by rewrite Ed2, Ed1. }
  destruct Hd3 as (fb & fd & Er3 & Ed3). injection Ed3 as Et3 Eo3 Ea3 Ei3. clear E3.
  set (row2 := (inserted_row r) <| res_SelectedFeedback := fb |> <| res_SelectedFeedbackBindingSHA256 := fd |>) in *.
  apply tx_bind_ok in E as (t1 & d4 & [Et1 ->]%loadTenantTx_ok & E). 
  assert (t1 = t) as -> by (revert Et1; rewrite Et3, Ed2, Ed1; upd; congruence). clear Et1.
  apply tx_bind_ok in E as (u5 & d5 & [Hr64 ->]%tx_guard_ok & E). apply is_int64_spec in Hr64.
  apply tx_bind_ok in E as (u6 & d6 & E6 & E). pose proof (update_tenant_logs _ _ _ _ _ E6) as L6.
  apply (update_tenant_ok _ _ _ _ _ t) in E6 as [Hc Ed6]; [|rewrite Et3, Ed2, Ed1; upd; congruence].
  set (t2 := t <| tenant_ReservedMicros := _ |> <| tenant_ActiveReservations := _ |>) in *.
  apply tx_bind_ok in E as (u7 & d7 & E7 & E). pose proof (storeReservationTx_logs _ _ _ _ E7) as L7.
  eapply (storeReservationTx_ok _ _ _ _ (res_RequestID r) row2) in E7 as Ed7; [|rewrite Ed6; upd; by rewrite Er3, lookup_insert_eq|done].
  pose proof (appendRequestAuditTx_logs _ _ _ _ _ _ _ _ _ _ _ _ _ E) as L8.
  apply appendRequestAuditTx_ok in E as (after & s & _ & _ & Ed8).
  destruct (inserted_identity r fb fd) as [I1 I2]. fold row2 in I1, I2. destruct (stored_identity r row2) as [J1 J2].
  rewrite I1 in J1. rewrite I2 in J2. pose proof (stored_columns_twice r row2) as Htwice.
  clearbody row2. injection I1 as _ _ _ _ _ Ic _ _ Iw. pose proof (stored_amounts r row2 Ic Iw) as Hsame. clear Ic Iw I2.
  set (row := stored_columns r row2) in *. clearbody row. destruct (same_held _ _ Hsame) as [Hheld _].
  injection J1 as Hid HT Hwl Hatt Hkey X2 X3 X5 _.
  assert (Hfr : fresh_row (tenant_CurrentWindowID t) row).
  { split; [by apply (same_wf r) | by apply (same_windowed r)|..].
    - destruct (sa_state _ _ Hsame) as (-> & _). done.
    - destruct (sa_cost _ _ Hsame) as (_ & _ & ->), (sa_carry _ _ Hsame) as (-> & -> & _). done. }
  assert (Hob : outbox_of o row) by (destruct (sa_state _ _ Hsame) as (_ & Ho & _); by split).
  assert (Hrows : db_reservations d' = <[res_RequestID r := row]> (db_reservations d)).
  { rewrite Ed8, Ed7, Ed6. upd. rewrite Er3. by rewrite insert_insert_eq. }
  assert (Hts : db_tenants d' = <[res_TenantID r := t2]> (db_tenants d)) by (rewrite Ed8, Ed7, Ed6; upd; by rewrite Et3, Ed2, Ed1).
  assert (Hbs : db_outbox d' = <[res_OutboxID r := o]> (db_outbox d) /\ db_adjustments d' = db_adjustments d /\ db_inbox d' = db_inbox d)
    by (rewrite Ed8, Ed7, Ed6; upd; rewrite Eo3, Ea3, Ei3, Ed2, Ed1; by upd).
  destruct Hbs as (Hbs & Has & Hin). clear Ed8 Ed7 Ed6 Ed2 Ed1.
  split; [|split; [|split; [|split; [|split; [|split]]]]]; try done.
  - apply (change_admit d row t t2 o); rewrite ?HT, ?Hid, ?Hkey; try done. unfold t2. upd. rewrite Hheld. unfold held. lia.
  - transitivity d1; [done|]. transitivity d2; [done|]. transitivity d3; [done|]. transitivity d6; [done|]. by transitivity d7.
  - rewrite Hts. by rewrite lookup_insert_eq.
  - exists row. rewrite Hrows, lookup_insert_eq, Hbs, Hkey, lookup_insert_eq, Hatt. done.
Qed.

(** *** The transaction of an admission *)

(** A recorded admission: the row held within the budget of the tenant's window. *)
Record admission_stored (e : PostgresEngine) (req : AdmitRequest) (budget : AIBudgetPolicy) (resp : AdmitResponse)
    (d' : database) (row : Reservation) (t : tenantLedger) : Prop := {
  as_row : db_reservations d' !! areq_RequestID req = Some row;
  as_tenant : db_tenants d' !! areq_AuthenticatedTenantID req = Some t;
  as_budget : quantityToMicros (bs_BudgetEUR (bpol_Spec budget)) = Ok (tenant_BudgetMicros t);
  as_window : budgetWindowForPeriod (bs_Period (bpol_Spec budget)) (pg_now e) = Ok (tenant_CurrentWindowID t);
  as_available : 0 <= available t;
  as_held : 0 <= held row /\ held row = resp_ReservedCostMicros resp;
  as_priced : SumComponents (res_ReservedComponents row) = Ok (resp_ReservedCostMicros resp);
  as_state : res_State row = StateReserved /\ resp_Decision resp = DecisionAdmit;
  (** The row the dispatcher will find: pending, at its first version. *)
  as_outbox : db_outbox d' !! res_OutboxID row = Some (Build_outbox_row (areq_RequestID req)
    (areq_AuthenticatedTenantID req) (areq_AuthenticatedWorkloadUID req) (res_ProviderAttemptID row) OutboxPending 1)
}.

Inductive admission_outcome (e : PostgresEngine) (req : AdmitRequest) (budget : AIBudgetPolicy) (resp : AdmitResponse)
    (d d' : database) : Prop :=
| admission_same : d' = d -> (db_reservations d !! areq_RequestID req = None -> resp_Decision resp <> DecisionAdmit) ->
    admission_outcome e req budget resp d d'
| admission_refused : rtc change d d' -> logs d d' -> db_inbox d' = db_inbox d /\ accounts d' = accounts d -> resp_Decision resp <> DecisionAdmit ->
    admission_outcome e req budget resp d d'
| admission_made d1 row t : rtc change d d1 -> change d1 d' -> logs d d' -> db_inbox d' = db_inbox d ->
    db_reservations d !! areq_RequestID req = None -> admission_stored e req budget resp d' row t ->
    admission_outcome e req budget resp d d'.


Lemma admit_tx_ok e req budget routing candidates fingerprint budgetMicros d resp d' :
  admit_tx e req budget routing candidates fingerprint budgetMicros d = inl (resp, d') -> db_wf d ->
  quantityToMicros (bs_BudgetEUR (bpol_Spec budget)) = Ok budgetMicros ->
  admission_outcome e req budget resp d d'.
Proof.
  unfold admit_tx. cbv zeta. intros (existing & d0 & [-> ->]%tx_read_ok & E)%tx_bind_ok Hwf Hq.
  unfold loadReservation in E. destruct (db_reservations d !! areq_RequestID req) as [old|] eqn:Enew.
  { change (scan_reservation <$> Some old) with (Some (scan_reservation old)) in E.
    destruct (scan_reservation old) as [r|]; [|done]. apply tx_result_ok in E as [_ ->]. apply admission_same; [done|]. by rewrite Enew. }
  change (scan_reservation <$> None) with (@None (result Reservation)) in E.
  apply tx_bind_ok in E as (window & d1 & [Ew ->]%tx_result_ok & E).
  apply tx_bind_ok in E as (bound & d1 & Eb & E). apply bind_window_ok in Eb as (C1 & [I1 Ac1] & L1 & Hb); [|done | by eapply window_named].
  pose proof (changes_wf _ _ C1 Hwf) as Hwf1.
  destruct bound as [t|]; [|apply tx_ret_ok in E as [-> ->]; by apply admission_refused].
  destruct Hb as (Et & Hcw & Hbud).
  apply tx_bind_ok in E as (chosen & d2 & [Ech ->]%tx_checked_ok & E).
  destruct chosen as [choice|reason]; [|apply tx_ret_ok in E as [-> ->]; apply admission_refused; try done; apply failure_not_admitted].
  apply choice_admissible in Ech as Hch. pose proof (choice_micros _ _ _ _ _ _ _ Hch) as Hm.
  apply tx_bind_ok in E as (allocation & d2 & [Eal ->]%tx_eval_ok & E). clear Eal.
  destruct allocation as [[risk digest]|];
    [|apply tx_ret_ok in E as [-> ->]; by apply admission_refused].
  apply tx_bind_ok in E as (u & d2 & Ei & E). apply tx_ret_ok in E as [-> ->].
  set (r := stored_reservation _ _ _ _ _ _ _ _ _) in *.
  assert (Hqt : quoted (tenant_CurrentWindowID t) r) by (apply stored_quoted; [done | by apply (dw_tenant _ Hwf1 _ _ Et)]).
  assert (Hr : res_TenantID r = areq_AuthenticatedTenantID req /\ res_RequestID r = areq_RequestID req /\
    (res_WorkloadUID r = areq_AuthenticatedWorkloadUID req /\ res_OutboxState r = OutboxPending) /\ res_ReservedCostMicros r = ch_Reservation choice /\ res_ReservedComponents r = ch_Components choice) by done.
  clearbody r. destruct Hr as (HT & Hid & [Hwl Hpending] & Hcost & Hcomp). rewrite <- HT in Et.
  apply (insert_admission_ok _ _ t) in Ei as (C2 & L2 & I2 & _ & Et2 & H64 & row & Erow & Hsame & _ & _ & _ & Hc & Hcs & _ & _ & Hbox); [|done..].
  assert (Hheld : held row = ch_Reservation choice).
  { destruct (same_held _ _ Hsame) as [-> _]. destruct Hqt as [_ [Q1 Q2] _]. unfold held. lia. }
  pose proof (available_after t _ (ad_nonneg _ _ _ _ _ _ _ Hch) (ad_fits _ _ _ _ _ _ _ Hch)) as Hav.
  pose proof (ad_fits _ _ _ _ _ _ _ Hch) as Hfit. pose proof (ad_sum _ _ _ _ _ _ _ Hch) as Hsum.
  rewrite Hcost in *. rewrite <- (add64_id _ _ H64) in Et2.
  eapply admission_made; [exact C1 | exact C2 | by transitivity d1 | congruence | done|].
  split.
  - rewrite <- Hid. exact Erow.
  - rewrite <- HT. exact Et2.
  - rewrite Hq. upd. by rewrite Hbud.
  - rewrite Ew. upd. by rewrite Hcw.
  - revert Hav. unfold available. upd. intros ->. change (0 <= available t - ch_Reservation choice). lia.
  - split; [rewrite Hheld; apply Hm|]. rewrite Hheld. unfold responseForReservation. cbn. congruence.
  - rewrite Hcs, Hcomp. unfold responseForReservation. cbn. congruence.
  - split; [|done]. destruct (sa_state _ _ Hsame) as (-> & _). apply Hqt.
  - rewrite Hbox. congruence.
Qed.

Lemma admitOnce_ok e req budget routing candidates seen d resp d' :
  admitOnce e req budget routing candidates seen d = inl (resp, d') -> db_wf d -> kept seen d ->
  admission_outcome e req budget resp d d'.
Proof.
  unfold admitOnce. intros E Hwf Hk. destruct (validateAdmitRequest req); [done|].
  repeat match type of E with (if ?b then inr _ else _) = _ => destruct b; [done|] end. cbv zeta in E.
  set (fp := admissionFingerprint _ _ _ _) in E. clearbody fp. set (ranked := rankedCandidates _ _ _ _) in E. clearbody ranked.
  unfold loadReservation in E. destruct (db_reservations seen !! areq_RequestID req) as [old|] eqn:Eold.
  { change (scan_reservation <$> Some old) with (Some (scan_reservation old)) in E. destruct (scan_reservation old) as [r|]; [|done].
    destruct (answer_again _ _ _) as [a|]; [|done]. injection E as -> ->. apply admission_same; [done|].
    destruct (Hk _ _ Eold) as (q & Eq & _). congruence. }
  change (scan_reservation <$> None) with (@None (result Reservation)) in E.
  destruct (is_reason _); [injection E as <- <-; by apply admission_same|].
  destruct (cn_Enabled _); [injection E as <- <-; by apply admission_same|].
  destruct (quantityToMicros _) as [b|] eqn:Hq; [|done]. by eapply admit_tx_ok.
Qed.

(** ** Expiry *)

Definition overdue_state (r : Reservation) : Prop :=
  (res_State r = StateReserved /\ res_OutboxState r = OutboxPending) \/ res_State r = StateDispatchPending \/ res_State r = StateDispatched.
(** The row of an overdue request after a sweep. *)
Record swept_row (row row' : Reservation) : Prop := {
  sw_frozen : frozen row' = frozen row;
  sw_state : res_State row' = if state_is (res_State row) StateReserved then StateExpiredUndispatched else StateUnresolved;
  sw_held : held row' = if state_is (res_State row) StateReserved then 0 else held row;
  sw_expiry : res_Expiry row' = res_Expiry row
}.

Lemma expired_fields r ev :
  r <| res_State := StateExpiredUndispatched |> <| res_OutboxState := OutboxCanceled |>
    <| res_LastReasonCode := ReasonExpiredUndispatched |> <| res_LastTransitionEventID := ev |>
    <| res_ResidualHoldMicros := 0 |> <| res_RolloverGuardMicros := 0 |>
  = (release_hold (expired r) (zero_tenant 0)).1 <| res_SelectedFeedbackDispatchID := res_SelectedFeedbackDispatchID r |>
      <| res_LastReasonCode := ReasonExpiredUndispatched |> <| res_LastTransitionEventID := ev |>.
Proof. destruct r. vm_compute. reflexivity. Qed.

Lemma expire_row_ok r t r' t' : expire_row r t = (r', t') -> overdue_state r ->
  exists r0 u0, transition r t r0 u0 /\
    (exists id code ev, r' = r0 <| res_SelectedFeedbackDispatchID := id |> <| res_LastReasonCode := code |> <| res_LastTransitionEventID := ev |>) /\
    tenant_ReservedMicros t' = tenant_ReservedMicros u0 /\ tenant_CurrentWindowID u0 = tenant_CurrentWindowID t /\
    tenant_SettledMicros u0 = tenant_SettledMicros t /\ tenant_CarriedAdjustmentMicros u0 = tenant_CarriedAdjustmentMicros t /\
    tenant_HistoricalCreditMicros u0 = tenant_HistoricalCreditMicros t /\
    tenant_ActiveReservations t' = tenant_ActiveReservations t + (live r0 - live r) /\
    res_State r0 = (if state_is (res_State r) StateReserved then StateExpiredUndispatched else StateUnresolved) /\
    held r0 = (if state_is (res_State r) StateReserved then 0 else held r) /\
    (state_is (res_State r) StateReserved && outbox_is (res_OutboxState r) OutboxPending = false -> res_OutboxState r0 = res_OutboxState r).
Proof.
  intros E Ho. revert E. unfold expire_row. destruct (state_is (res_State r) StateReserved && outbox_is (res_OutboxState r) OutboxPending) eqn:Hb.
  - apply andb_prop in Hb as [Hs Hob]. apply bool_decide_eq_true in Hs as Hs', Hob as Hob'. rewrite Hs. 
    intros E. exists (release_hold (expired r) t).1, (release_hold (expired r) t).2. split; [by apply transition_expired|].
    pose proof (f_equal fst E) as E1. pose proof (f_equal snd E) as E2. cbn [fst snd] in E1, E2. split.
    { exists (res_SelectedFeedbackDispatchID r), ReasonExpiredUndispatched, (expiry_event "expiry:" r). rewrite <- E1. apply expired_fields. }
    rewrite <- E2. unfold release_hold, expired, live. cbn [fst snd]. upd. rewrite Hs'. by repeat split.
  - intros E. exists (r <| res_State := StateUnresolved |>), t.
    assert (Hst : res_State r = StateDispatchPending \/ res_State r = StateDispatched).
    { destruct Ho as [[H1' H2'] | Ho]; [|done]. unfold state_is, outbox_is in Hb. rewrite H1', H2' in Hb. done. }
    assert (Hsr : state_is (res_State r) StateReserved = false) by (by destruct Hst as [-> | ->]).
    pose proof (f_equal fst E) as E1. pose proof (f_equal snd E) as E2. cbn [fst snd] in E1, E2.
    split; [by apply transition_unresolved|]. split.
    { exists (res_SelectedFeedbackDispatchID r), ReasonDispatchUnresolved, (expiry_event "expiry-unresolved:" r). rewrite <- E1.
      do 2 f_equal. }
    rewrite <- E2, Hsr. unfold live, held. upd. destruct Hst as [-> | ->]; cbn; repeat split; lia.
Qed.

Lemma expire_tx_ok e id d out d' row : expire_tx e id d = inl (out, d') -> db_wf d -> db_reservations d !! id = Some row ->
  overdue_state row -> change d d' /\ logs d d' /\
  exists row', db_reservations d' = <[id := row']> (db_reservations d) /\ swept_row row row'.
Proof.
  unfold expire_tx. intros (r & d0 & (q & Eq & -> & _ & ->)%loadReservationTx_ok & E)%tx_bind_ok Hwf Er Hod.
  replace q with row in * by congruence. clear Eq q.
  apply tx_bind_ok in E as (before & d0 & [_ ->]%tx_result_ok & E). apply tx_bind_ok in E as (t & d0 & [Et ->]%loadTenantTx_ok & E).
  change (res_TenantID (scanned row)) with (res_TenantID row) in *.
  destruct (dw_row _ Hwf _ _ Er) as [Hid Hrw (t0 & Et0 & Hwd) (o & Eo & Hob)]. replace t0 with t in * by congruence. clear Et0 t0.
  pose proof (dw_tenant _ Hwf _ _ Et) as Hok. pose proof (to_window _ _ _ Hok) as Hne.
  destruct (expire_row (scanned row) t) as [r1 t1] eqn:Ex.
  destruct (expire_row_ok _ _ _ _ Ex Hod) as (r0 & u0 & Htr & Hr1 & X1 & X2 & X3 & X4 & X5 & X6 & X7 & X8 & X9).
  destruct (transition_frame _ _ _ _ Htr) as [Hfz _]. destruct (frozen_eq _ _ Hfz) as (Fid & FT & _ & _ & Fx & _).
  pose proof (stored_wf row r0 r1 t u0 Hr1 Htr Hrw) as Hwf'.
  pose proof (stored_step _ row r0 r1 t u0 Hr1 Htr Hrw Hwd eq_refl Hne) as (Hwd' & [B1 B2 B3] & Hcw).
  pose proof (stored_same row r0 r1 t u0 Hr1 Htr) as Hsame. destruct (same_held _ _ Hsame) as [Hh Hl].
  destruct (sa_state _ _ Hsame) as (Hs & Ho & _).
  destruct (transition_books _ _ _ _ Htr (scanned_wf _ Hrw)) as [Hq Hgap].
  pose proof (transition_moves _ _ _ _ Htr (scanned_wf _ Hrw)) as Hmv.
  assert (Hf1 : res_RequestID r1 = id /\ res_TenantID r1 = res_TenantID row /\ res_OutboxState r1 = res_OutboxState r0).
  { destruct Hr1 as (i & c & ev & ->). upd. rewrite Fid, FT. by rewrite <- Hid. }
  destruct Hf1 as (Hid1 & HT1 & Ho1). set (row' := stored_columns r1 row) in *.
  assert (Hfr : frozen row' = frozen row /\ res_Expiry row' = res_Expiry row) by done. 
  apply tx_bind_ok in E as (u1 & d1 & E1 & E).
  assert (H1d : logs d d1 /\ exists o', db_outbox d1 = <[res_OutboxID row := o']> (db_outbox d) /\ outbox_of o' row' /\
    same_rows d d1 /\ db_inbox d1 = db_inbox d).
  { revert E1. destruct (state_is _ _ && _) eqn:Hb.
    - intros E1. split; [by eapply updateOutboxState_logs|]. apply updateOutboxState_ok in E1 as (b & Eb & _ & ->).
      change (res_OutboxID (scanned row)) with (res_OutboxID row) in *. replace b with o by congruence.
      eexists. split; [reflexivity|]. split; [|done]. destruct Hob. split; upd; try done; congruence.
    - intros [_ ->]%tx_ret_ok. split; [done|]. exists o. rewrite insert_id by done. split; [done|]. split; [|done].
      destruct Hob. split; try done. by rewrite Ho, (X9 eq_refl). }
  destruct H1d as (L1 & o' & Eo' & Hob' & (S1 & S2 & S3) & _). clear E1.
  apply tx_bind_ok in E as (u2 & d2 & E2 & E). pose proof (insert_inbox_once_logs _ _ _ _ _ _ _ E2) as L2.
  assert (S2' : same_rows d1 d2 /\ db_outbox d2 = db_outbox d1).
  { revert E2. unfold insert_inbox_once. destruct (db_inbox d1 !! _); [by intros [= _ <-]|]. intros E2%insert_inbox_ok. by destruct E2 as [_ ->]. }
  destruct S2' as ((S4 & S5 & S6) & S7). clear E2.
  apply tx_bind_ok in E as (u3 & d3 & E3 & E). pose proof (insert_task_logs _ _ _ _ _ E3) as L3.
  assert (S3' : same_rows d2 d3 /\ db_outbox d3 = db_outbox d2).
  { revert E3. unfold insert_task. destruct (db_tasks d2 !! _); [by intros [= _ <-]|]. destruct (bool_decide _); [|done]. by intros [= _ <-]. }
  destruct S3' as ((S8 & S9 & S10) & S11). clear E3.
  apply tx_bind_ok in E as (u4 & d4 & E4 & E). pose proof (storeReservationTx_logs _ _ _ _ E4) as L4.
  eapply (storeReservationTx_ok _ _ _ _ id row) in E4 as Ed4; [|congruence | done]. fold row' in Ed4.
  apply tx_bind_ok in E as (u5 & d5 & E5 & E). pose proof (appendRequestAuditTx_logs _ _ _ _ _ _ _ _ _ _ _ _ _ E5) as L5.
  apply appendRequestAuditTx_ok in E5 as (after & s & _ & _ & Ed5).
  apply tx_bind_ok in E as (u6 & d6 & E6 & E). pose proof (update_tenant_logs _ _ _ _ _ E6) as L6. apply tx_ret_ok in E as [_ ->].
  rewrite HT1 in E6. apply (update_tenant_ok _ _ _ _ _ t) in E6 as [Hc Ed6]; [|rewrite Ed5, Ed4; upd; congruence].
  set (t2 := t <| tenant_ReservedMicros := _ |> <| tenant_ActiveReservations := _ |>) in *.
  assert (Ht2 : tenant_ReservedMicros t2 = tenant_ReservedMicros t1 /\ tenant_SettledMicros t2 = tenant_SettledMicros t /\
    tenant_CarriedAdjustmentMicros t2 = tenant_CarriedAdjustmentMicros t /\ tenant_HistoricalCreditMicros t2 = tenant_HistoricalCreditMicros t /\
    tenant_CurrentWindowID t2 = tenant_CurrentWindowID t /\ tenant_ActiveReservations t2 = tenant_ActiveReservations t1) by done.
  assert (Hrows : db_reservations d6 = <[id := row']> (db_reservations d)) by (rewrite Ed6, Ed5, Ed4; upd; congruence).
  assert (Hts : db_tenants d6 = <[res_TenantID row := t2]> (db_tenants d)) by (rewrite Ed6, Ed5, Ed4; upd; congruence).
  assert (Hbs : db_outbox d6 = db_outbox d1 /\ db_adjustments d6 = db_adjustments d) by (rewrite Ed6, Ed5, Ed4; upd; split; congruence).
  destruct Hbs as (Hbs & Has). clear Ed6 Ed5 Ed4. clearbody t2 row'. destruct Ht2 as (T1 & T2 & T3 & T4 & T5 & T6). destruct Hfr as [Hfr Hxr].
  split; [|split].
  - apply (change_commit d id row t row' t2 o'); try done.
    + by rewrite Hs.
    + split; [done|]. split; [|done]. rewrite X3, X4, X5 in *. by split; rewrite ?T2, ?T3, ?T4.
    + by rewrite T1, X1, Hh.
    + rewrite T6, X6, Hl. change (live (scanned row)) with (live row). lia.
    + split; [done|]. split; [done|]. split; [congruence | done].
  - transitivity d1; [done|]. transitivity d2; [done|]. transitivity d3; [done|]. transitivity d4; [done|]. by transitivity d5.
  - exists row'. split; [done|]. split; [done | by rewrite Hs, X7 | by rewrite Hh, X8 | done].
Qed.

Lemma sort_ids_perm l : sort_ids l ≡ₚ l.
Proof. apply sort_slice_perm. Qed.

Lemma expire_ids_ok e ids : forall d out d', expire_ids e ids d = inl (out, d') -> db_wf d -> NoDup ids ->
  (forall id, id ∈ ids -> exists row, db_reservations d !! id = Some row /\ overdue_state row) ->
  rtc change d d' /\ logs d d' /\
  (forall id row, db_reservations d !! id = Some row ->
    if bool_decide (id ∈ ids) then exists row', db_reservations d' !! id = Some row' /\ swept_row row row'
    else db_reservations d' !! id = Some row) /\
  (forall id, db_reservations d !! id = None -> db_reservations d' !! id = None).
Proof.
  induction ids as [|id ids IH]; intros d out d'; cbn [expire_ids].
  { intros [_ ->]%tx_ret_ok _ _ _. split; [done|]. split; [done|]. split; [|done]. intros id row Er.
    rewrite bool_decide_false; [done | apply not_elem_of_nil]. }
  intros (x & d1 & E1 & E)%tx_bind_ok Hwf [Hni Hnd]%NoDup_cons Hids. apply tx_bind_ok in E as (more & d2 & E2 & E).
  apply tx_ret_ok in E as [_ ->]. destruct (Hids id (list_elem_of_here _ _)) as (row & Er & Hod).
  destruct (expire_tx_ok _ _ _ _ _ _ E1 Hwf Er Hod) as (C1 & L1 & row' & Hrows & Hsw).
  pose proof (change_wf _ _ C1 Hwf) as Hwf1.
  destruct (IH _ _ _ E2 Hwf1 Hnd) as (C2 & L2 & A1 & A2).
  { intros k Hk. rewrite Hrows, lookup_insert_ne by (intros ->; done). apply Hids. by right. }
  split; [by eapply rtc_l|]. split; [by transitivity d1|]. split.
  - intros k q Eq. destruct (decide (k = id)) as [->|Hne].
    + replace q with row in * by congruence. rewrite bool_decide_true by apply list_elem_of_here.
      exists row'. split; [|done]. specialize (A1 id row'). rewrite Hrows, lookup_insert_eq, bool_decide_false in A1 by done. by apply A1.
    + rewrite (bool_decide_ext (k ∈ id :: ids) (k ∈ ids)) by (rewrite elem_of_cons; naive_solver). apply A1.
      by rewrite Hrows, lookup_insert_ne.
  - intros k Ek. apply A2. rewrite Hrows, lookup_insert_ne; [done|congruence].
Qed.

Lemma expired_row_overdue at_ r : expired_row at_ r = true -> overdue_state r.
Proof.
  unfold expired_row, overdue_state, state_is, outbox_is. rewrite !andb_true_iff, !orb_true_iff, !andb_true_iff, !bool_decide_eq_true. tauto.
Qed.

(** A sweep moves exactly the overdue rows. *)
Lemma reconcileExpiredOnce_ok e at_ d out d' : reconcileExpiredOnce e at_ d = inl (out, d') -> db_wf d ->
  rtc change d d' /\ logs d d' /\
  (forall id row, db_reservations d !! id = Some row ->
    if expired_row at_ row then exists row', db_reservations d' !! id = Some row' /\ swept_row row row'
    else db_reservations d' !! id = Some row) /\
  (forall id, db_reservations d !! id = None -> db_reservations d' !! id = None).
Proof.
  unfold reconcileExpiredOnce. intros (ids & d0 & [-> ->]%tx_read_ok & E)%tx_bind_ok Hwf.
  assert (Hin : forall id, id ∈ expired_ids d at_ <-> exists r, db_reservations d !! id = Some r /\ expired_row at_ r = true).
  { intros id. unfold expired_ids. rewrite sort_ids_perm. apply (elem_rolled_ids (fun _ => expired_row at_)). }
  destruct (expire_ids_ok _ _ _ _ _ E Hwf) as (C & L & A1 & A2).
  - unfold expired_ids. rewrite sort_ids_perm. apply (rolled_ids_keys (fun _ => expired_row at_)), NoDup_fst_map_to_list.
  - intros id (r & Er & Hr)%Hin. exists r. split; [done|]. by eapply expired_row_overdue.
  - split; [done|]. split; [done|]. split; [|done]. intros id row Er. specialize (A1 _ _ Er).
    destruct (expired_row at_ row) eqn:Hx.
    + rewrite bool_decide_true in A1; [done|]. apply Hin. eauto.
    + rewrite bool_decide_false in A1; [done|]. intros (r & Er' & Hr)%Hin. congruence.
Qed.

(** ** The remaining transactions *)

Lemma liability_tx_ok e T d resp d' : liability_tx e T d = inl (resp, d') -> db_wf d -> rtc change d d' /\ logs d d'.
Proof.
  unfold liability_tx. intros (row & d0 & [-> ->]%tx_read_ok & E)%tx_bind_ok Hwf.
  destruct (db_tenants d !! T) as [t|] eqn:Et; [|apply tx_ret_ok in E as [_ ->]; by split].
  apply tx_bind_ok in E as (t1 & d1 & E1 & E). apply tx_ret_ok in E as [_ ->].
  pose proof (advanceTenantWindowTx_logs _ _ _ _ _ _ E1) as L. by apply advanceTenantWindowTx_ok in E1 as (C & _).
Qed.

Lemma adjust_tx_ok e a d u d' : adjust_tx e a d = inl (u, d') -> db_wf d -> rtc change d d' /\ logs d d'.
Proof.
  unfold adjust_tx. cbv zeta. intros (prior & d0 & [-> ->]%tx_read_ok & E)%tx_bind_ok Hwf.
  destruct (db_adjustments d !! adj_AdjustmentID a) as [p|] eqn:Ep; [apply tx_guard_ok in E as [_ ->]; by split|].
  apply tx_bind_ok in E as (row & d0 & [-> ->]%tx_read_ok & E). destruct (db_tenants d !! adj_TenantID a) as [t|] eqn:Et; [|done].
  apply tx_bind_ok in E as (t1 & d1 & E1 & E). pose proof (advanceTenantWindowTx_logs _ _ _ _ _ _ E1) as L1.
  apply advanceTenantWindowTx_ok in E1 as (C1 & (_ & Ha1 & _) & Et1); try done.
  apply tx_bind_ok in E as (u2 & d2 & E2 & E).
  set (t2 := t1 <| tenant_BudgetMicros := adj_NewBudgetMicros a |>
    <| tenant_CarriedAdjustmentMicros := tenant_CarriedAdjustmentMicros t1 - adj_DebtPaymentMicros a |>).
  assert (Hd2 : tenant_checks t2 = true /\ d2 = d1 <| db_tenants := <[adj_TenantID a := t2]> (db_tenants d1) |>).
  { revert E2. unfold apply_adjustment. rewrite Et1. destruct (_ && _); [|done]. intros E2. exact (update_tenant_ok _ _ _ _ _ _ E2 Et1). }
  destruct Hd2 as (Hc & Ed2).
  apply tx_bind_ok in E as (u3 & d3 & E3 & E). unfold tx_write in E3. injection E3 as _ <-.
  pose proof (append_audit_logs _ _ _ _ _ E) as L4. apply append_audit_ok in E as (s & _ & ->).
  assert (Hf : same_sums t1 t2 /\ tenant_CurrentWindowID t2 = tenant_CurrentWindowID t1 /\
    tenant_ReservedMicros t2 = tenant_ReservedMicros t1 /\ tenant_SettledMicros t2 = tenant_SettledMicros t1 /\
    tenant_CarriedAdjustmentMicros t2 = tenant_CarriedAdjustmentMicros t1 - adj_DebtPaymentMicros a) by done.
  clearbody t2. destruct Hf as (F1 & F2 & F3 & F4 & F5). split.
  - eapply rtc_r; [exact C1|]. set (ad := Build_adjustment_row _ _).
    apply (change_adjust d1 (adj_TenantID a) t1 t2 (adj_AdjustmentID a) ad); try done; [by rewrite Ha1|].
    rewrite Ed2. by split.
  - transitivity d1; [done|]. split; try (rewrite Ed2; done); upd.
    + rewrite Ed2. upd. apply insert_subseteq. by rewrite Ha1.
    + rewrite Ed2 in *. destruct L4 as [_ _ _ _ _ _ L4]. exact L4.
Qed.

Lemma adjustBudgetOnce_ok e a d u d' : adjustBudgetOnce e a d = inl (u, d') -> db_wf d -> rtc change d d' /\ logs d d'.
Proof. unfold adjustBudgetOnce. do 2 (destruct (_ || _); [done|]). apply adjust_tx_ok. Qed.

Lemma register_tx_ok e c d u d' : register_tx e c d = inl (u, d') ->
  change d d' /\ logs d d' /\ db_reservations d' = db_reservations d.
Proof.
  unfold register_tx. intros (n & d0 & [_ ->]%tx_result_ok & E)%tx_bind_ok.
  destruct (After _ _); [done|]. destruct (_ || _); [done|]. revert E. set (c' := n <| coh_RegisteredAt := _ |>). clearbody c'.
  unfold registerFrozenCohortOnce. intros (old & d0 & [-> ->]%tx_read_ok & E)%tx_bind_ok.
  destruct (db_cohorts d !! _) as [o|] eqn:Eo; [apply tx_guard_ok in E as [_ ->]; split; [by apply change_log | done]|].
  apply tx_bind_ok in E as (u1 & d1 & E1 & E). unfold insert_cohort in E1. destruct (negb _); [done|]. destruct (_ || negb _); [done|].
  set (row := cohort_row c') in E1. clearbody row.
  assert (Ed1 : d1 = d <| db_cohorts := <[(coh_TenantID c', coh_CohortID c') := row]> (db_cohorts d) |>
                       <| db_slots := <[(coh_TenantID c', coh_CohortID c') := coh_Slots c']> (db_slots d) |>) by congruence. clear E1.
  destruct (json_time_error (coh_FrozenAt c')), (json_time_error (coh_RegisteredAt c')); try done.
  pose proof (append_audit_logs _ _ _ _ _ E) as [_ _ _ _ _ _ L]. apply append_audit_ok in E as (s & _ & ->). rewrite Ed1 in *. upd_in L.
  split; [by apply change_log|]. split; [|done]. split; upd; try done.
  - by apply insert_subseteq.
  - intros k Hk. rewrite lookup_insert_ne; [done|]. intros <-. rewrite Eo in Hk. by destruct Hk.
Qed.

(** ** Requests that a transaction does not create, and the checks of its rows *)

(** The table's constraints hold of every row. *)
Definition rows_checked (d : database) : Prop := forall id r, db_reservations d !! id = Some r -> reservation_checks r = true.
Record known (d d' : database) : Prop := {
  kn_none : forall id, db_reservations d !! id = None -> db_reservations d' !! id = None;
  kn_checked : rows_checked d -> rows_checked d'
}.
#[export] Instance known_preorder : PreOrder known.
Proof. split; [by intros d; split|]. intros a b c [A1 A2] [B1 B2]. split; auto. Qed.
Lemma known_same d d' : db_reservations d' = db_reservations d -> known d d'.
Proof. intros E. split; [intros id | intros Hc id r]; rewrite E; [done | apply Hc]. Qed.
Lemma insert_checked d m id r : rows_checked d -> reservation_checks r = true -> db_reservations m = <[id := r]> (db_reservations d) ->
  rows_checked m.
Proof. intros Hc Hr E k q. rewrite E. intros [[_ <-]|[_ Eq]]%lookup_insert_Some; [done | by eapply Hc]. Qed.

Local Ltac same_ids := intros [= _ <-]; by apply known_same.
Lemma update_tenant_known T f : keeps known (update_tenant T f).
Proof. intros d u d'. unfold update_tenant. destruct (_ !! T); [destruct (tenant_checks _); [|done]|]; same_ids. Qed.
Lemma insert_tenant_known T b i w p : keeps known (insert_tenant T b i w p).
Proof. intros d u d'. unfold insert_tenant. destruct (_ !! T); [|destruct (tenant_checks _); [|done]]; same_ids. Qed.
Lemma loadTenantTx_known T : keeps known (loadTenantTx T).
Proof. intros d u d' [_ ->]%loadTenantTx_ok. reflexivity. Qed.
Lemma loadReservationTx_known id : keeps known (loadReservationTx id).
Proof. intros d u d' (row & _ & _ & _ & ->)%loadReservationTx_ok. reflexivity. Qed.
Lemma update_reservation_known id f : keeps known (update_reservation id f).
Proof.
  intros d u d' E. destruct (db_reservations d !! id) as [row|] eqn:Er.
  - assert (Hf : reservation_checks (f row) = true) by (revert E; unfold update_reservation; rewrite Er; by destruct (reservation_checks _)).
    rewrite (update_reservation_ok _ _ _ _ _ _ E Er). split.
    + intros k Ek. upd. rewrite lookup_insert_ne; [done|]. congruence.
    + intros Hc. by eapply (insert_checked _ _ id).
  - revert E. unfold update_reservation. rewrite Er. same_ids.
Qed.
Lemma storeReservationTx_known r : keeps known (storeReservationTx r).
Proof. apply update_reservation_known. Qed.
Lemma updateOutboxState_known id p n : keeps known (updateOutboxState id p n).
Proof. intros d u d' (o & _ & _ & ->)%updateOutboxState_ok. by apply known_same. Qed.
Lemma insert_inbox_known ev id kind hash : keeps known (insert_inbox ev id kind hash).
Proof. intros d u d' E%insert_inbox_ok. destruct E as [_ ->]. by apply known_same. Qed.
Lemma insert_inbox_once_known ev id kind hash : keeps known (insert_inbox_once ev id kind hash).
Proof. intros d u d'. unfold insert_inbox_once. destruct (_ !! ev); [|apply insert_inbox_known]. same_ids. Qed.
Lemma insert_task_known id t : keeps known (insert_task id t).
Proof. intros d u d'. unfold insert_task. destruct (_ !! id); [same_ids|]. destruct (bool_decide _); [|done]. same_ids. Qed.
Lemma append_audit_known e entry : keeps known (append_audit e entry).
Proof. intros d u d' (s & _ & ->)%append_audit_ok. by apply known_same. Qed.
#[local] Hint Resolve update_tenant_known insert_tenant_known loadTenantTx_known loadReservationTx_known storeReservationTx_known
  updateOutboxState_known insert_inbox_known insert_inbox_once_known insert_task_known append_audit_known : tx.

Lemma appendRequestAuditTx_known e r ev kind payload actor reason before sw cal :
  keeps known (appendRequestAuditTx e r ev kind payload actor reason before sw cal).
Proof. unfold appendRequestAuditTx. keeps_logs. Qed.
#[local] Hint Resolve appendRequestAuditTx_known : tx.
Lemma roll_all_known e next ids : forall t, keeps known (roll_all e next t ids).
Proof.
  induction ids as [|id ids IH]; intros t; cbn [roll_all]; [keeps_logs|]. apply keeps_bind; [exact _ | | intros; apply IH].
  unfold roll_one. cbv zeta. keeps_logs.
Qed.
#[local] Hint Resolve roll_all_known : tx.
Lemma rolloverTenantTx_known e T t next budget : keeps known (rolloverTenantTx e T t next budget).
Proof. unfold rolloverTenantTx. cbv zeta. keeps_logs. Qed.
#[local] Hint Resolve rolloverTenantTx_known : tx.
Lemma advanceTenantWindowTx_known e T t : keeps known (advanceTenantWindowTx e T t).
Proof.
  unfold advanceTenantWindowTx. destruct (_ || _); [keeps_logs|]. apply keeps_bind; [exact _ | eauto with tx | intros next].
  destruct (String.eqb _ _); [keeps_logs|]. destruct (negb _); keeps_logs.
Qed.
#[local] Hint Resolve advanceTenantWindowTx_known : tx.
Lemma conclude_event_known e ev id kind hash before old r t : keeps known (conclude_event e ev id kind hash before old r t).
Proof. unfold conclude_event. cbv zeta. keeps_logs. Qed.
Lemma bind_window_known e T budget identity window period : keeps known (bind_window e T budget identity window period).
Proof.
  unfold bind_window. apply keeps_bind; [exact _ | eauto with tx | intros _]. apply keeps_bind; [exact _ | eauto with tx | intros t].
  cbv zeta. destruct (_ && _); [keeps_logs|]. destruct (String.eqb _ _); [keeps_logs|]. destruct (negb _); keeps_logs.
Qed.
Lemma bind_window_logs e T budget identity window period : keeps logs (bind_window e T budget identity window period).
Proof.
  unfold bind_window. apply keeps_bind; [exact _ | eauto with tx | intros _]. apply keeps_bind; [exact _ | eauto with tx | intros t].
  cbv zeta. destruct (_ && _); [keeps_logs|]. destruct (String.eqb _ _); [keeps_logs|]. destruct (negb _); keeps_logs.
Qed.
#[local] Hint Resolve bind_window_known : tx.
Lemma liability_tx_known e T : keeps known (liability_tx e T).
Proof. unfold liability_tx. apply keeps_bind; [exact _ | eauto with tx | intros [t|]]; keeps_logs. Qed.
Lemma adjustBudgetOnce_known e a : keeps known (adjustBudgetOnce e a).
Proof.
  unfold adjustBudgetOnce. do 2 (destruct (_ || _); [keeps_logs|]). unfold adjust_tx. cbv zeta.
  apply keeps_bind; [exact _ | eauto with tx | intros [p|]]; [keeps_logs|].
  apply keeps_bind; [exact _ | eauto with tx | intros [t|]]; [|keeps_logs].
  apply keeps_bind; [exact _ | eauto with tx | intros t1]. apply keeps_bind; [exact _ | | intros _].
  - intros d u d'. unfold apply_adjustment. destruct (db_tenants d !! _); [|done]. destruct (_ && _); [|done]. apply update_tenant_known.
  - apply keeps_bind; [exact _ | | intros _; eauto with tx]. intros d u d'. unfold tx_write. same_ids.
Qed.
Lemma reconcileExpiredOnce_known e at_ : keeps known (reconcileExpiredOnce e at_).
Proof.
  unfold reconcileExpiredOnce. apply keeps_bind; [exact _ | eauto with tx | intros ids].
  induction ids as [|id ids IH]; cbn [expire_ids]; [keeps_logs|]. apply keeps_bind; [exact _ | | intros x; keeps_logs].
  unfold expire_tx. apply keeps_bind; [exact _ | eauto with tx | intros r]. apply keeps_bind; [exact _ | eauto with tx | intros before].
  apply keeps_bind; [exact _ | eauto with tx | intros t]. destruct (expire_row r t) as [r' t']. cbv zeta.
  apply keeps_bind; [exact _ | destruct (_ && _); eauto with tx | intros _]. keeps_logs.
Qed.
Lemma register_tx_known e c : keeps known (register_tx e c).
Proof. intros d u d' E. destruct (register_tx_ok _ _ _ _ _ E) as (_ & _ & Er). by apply known_same. Qed.

Lemma mutateEventOnce_known e ev id kind hash m T W d : sound m -> known d (mutateEventOnce e ev id kind hash m T W d).1.
Proof.
  intros Hm. unfold mutateEventOnce. destruct (db_inbox d !! ev); [reflexivity|].
  destruct (loadReservation d id) as [[r|]|]; [|reflexivity..]. destruct (matchPrincipal _ _ _); [reflexivity|].
  destruct (loadTenantTx _ _) as [[t d0]|]; [|reflexivity].
  destruct (advanceTenantWindowTx e (res_TenantID r) t d) as [[t1 d1]|] eqn:Ea; [|reflexivity]. apply advanceTenantWindowTx_known in Ea.
  destruct (loadReservationTx _ _) as [[r1 d2]|]; [|reflexivity]. unfold mutate_loaded. destruct (reservationAuditDigest r1) as [b|]; [|reflexivity].
  destruct (m r1 t1 d1) as [[[[r2 t2] code] [f|]] d3] eqn:Em; [reflexivity|].
  assert (K3 : known d1 d3) by (destruct (Hm _ _ _ _ _ _ _ Em) as [| ? ? ? ? ? ? _ _ _ _ _ (_ & S & _) _ _]; [reflexivity | by apply known_same]).
  change (bool_decide (code = ReasonDuplicateEvent) || bool_decide (code = ReasonSettlementDuplicate)) with (replayed code).
  destruct (replayed code); [cbn [fst]; by transitivity d1|]. cbv zeta.
  destruct (conclude_event _ _ _ _ _ _ _ _ _ _) as [[u d4]|] eqn:Ec; [|reflexivity]. cbn [fst]. transitivity d1; [done|].
  transitivity d3; [done|]. by apply conclude_event_known in Ec.
Qed.

(** A request is created only with the first audit event under its name. *)
Lemma insert_admission_event e r d u d' : insert_admission e r d = inl (u, d') ->
  ((forall id, id <> res_RequestID r -> db_reservations d !! id = None -> db_reservations d' !! id = None) /\
   (rows_checked d -> rows_checked d')) /\
  forall x, x ∈ as_events (db_audit d) -> ae_EventID x <> res_LastTransitionEventID r.
Proof.
  unfold insert_admission. intros (u1 & d1 & E1 & E)%tx_bind_ok. pose proof (insert_reservation_logs _ _ _ _ E1) as L1.
  assert (K1 : (forall id, id <> res_RequestID r -> db_reservations d !! id = None -> db_reservations d1 !! id = None) /\
    (rows_checked d -> rows_checked d1)).
  { revert E1. unfold insert_reservation. cbv zeta. destruct (reservation_checks (inserted_row r)) eqn:Hck; cbn [negb]; [|done]. destruct (exists_row _ _); [done|].
    destruct (bool_decide (is_Some (db_tenants d !! res_TenantID r))); [|done]. revert Hck. set (row := inserted_row r). clearbody row.
    intros Hck E1. assert (Ed : d1 = d <| db_reservations := <[res_RequestID r := row]> (db_reservations d) |>) by congruence.
    rewrite Ed. split; [intros id Hne En; upd; by rewrite lookup_insert_ne | intros Hc; by eapply (insert_checked d _ (res_RequestID r) row)]. }
  clear E1. enough (Hx : known d1 d' /\ exists d7, logs d1 d7 /\ exists after s, reservationAuditDigest r = Ok after /\
    appendAuditTx (db_audit d7) (request_entry r (res_LastTransitionEventID r) "RESERVE" (res_AdmissionFingerprint r) ActorAdmission
      (res_LastReasonCode r) "" after (pg_cohortSoftwareHash e) (res_CalibrationArtifactSHA256 r)) (pg_clock e) = Ok s).
  { destruct Hx as (K & d7 & L7 & after & s & _ & Ea). split; [split; [intros id Hne En; by apply K, K1 | intros Hc; by apply K, K1]|]. intros x Hx.
    apply appendAuditTx_grows in Ea as (en & _ & _ & Hid & Hne & _). rewrite <- (Hid : ae_EventID en = res_LastTransitionEventID r).
    apply Hne. destruct (lg_audit _ _ (transitivity L1 L7)) as [h Eh]. destruct (append_all_grows h (db_audit d)) as [more Em].
    rewrite Eh, Em. apply elem_of_app. by left. }
  apply tx_bind_ok in E as (u2 & d2 & E2 & E). pose proof (insert_outbox_logs _ _ _ _ _ E2) as L2.
  assert (K2 : known d1 d2).
  { revert E2. unfold insert_outbox. destruct (exists_row _ _); [done|].
    destruct (bool_decide (is_Some (db_reservations d1 !! _))); [|done]. same_ids. }
  apply tx_bind_ok in E as (u3 & d3 & E3 & E).
  assert (L3 : logs d2 d3 /\ known d2 d3).
  { revert E3. destruct (bool_decide _); [|by intros [_ ->]%tx_ret_ok]. intros E3.
    split; [by eapply update_reservation_logs | by eapply update_reservation_known]. }
  destruct L3 as [L3 K3]. apply tx_bind_ok in E as (t & d4 & [_ ->]%loadTenantTx_ok & E).
  apply tx_bind_ok in E as (u5 & d5 & [_ ->]%tx_guard_ok & E). apply tx_bind_ok in E as (u6 & d6 & E6 & E).
  pose proof (update_tenant_logs _ _ _ _ _ E6) as L6. apply update_tenant_known in E6 as K6.
  apply tx_bind_ok in E as (u7 & d7 & E7 & E). pose proof (storeReservationTx_logs _ _ _ _ E7) as L7. apply storeReservationTx_known in E7 as K7.
  pose proof E as E8. apply appendRequestAuditTx_ok in E8 as (after & s & Ha & Es & _). apply appendRequestAuditTx_known in E as K8.
  split.
  - transitivity d2; [done|]. transitivity d3; [done|]. transitivity d6; [done|]. by transitivity d7.
  - exists d7. split; [|by exists after, s]. transitivity d2; [done|]. transitivity d3; [done|]. by transitivity d6.
Qed.

Lemma admitOnce_event e req budget routing candidates seen d resp d' :
  admitOnce e req budget routing candidates seen d = inl (resp, d') ->
  known d d' \/
  (forall id, db_reservations d !! id = None -> db_reservations d' !! id = None \/
     (id = areq_RequestID req /\ forall x, x ∈ as_events (db_audit d) -> ae_EventID x <> reserve_event id)) /\
  (rows_checked d -> rows_checked d').
Proof.
  unfold admitOnce. intros E. destruct (validateAdmitRequest req); [done|].
  repeat match type of E with (if ?b then inr _ else _) = _ => destruct b; [done|] end. cbv zeta in E.
  set (fp := admissionFingerprint _ _ _ _) in E. clearbody fp. set (ranked := rankedCandidates _ _ _ _) in E. clearbody ranked.
  destruct (loadReservation seen _) as [[r|]|]; [destruct (answer_again _ _ _); [injection E as _ <-; by left | done] | done|].
  destruct (is_reason _); [injection E as _ <-; by left|]. destruct (cn_Enabled _); [injection E as _ <-; by left|].
  destruct (quantityToMicros _) as [b|]; [|done]. revert E. unfold admit_tx. cbv zeta. intros (ex & d0 & [-> ->]%tx_read_ok & E)%tx_bind_ok.
  destruct (loadReservation d _) as [[r|]|]; [apply tx_result_ok in E as [_ ->]; by left | done|].
  apply tx_bind_ok in E as (window & d1 & [_ ->]%tx_result_ok & E). apply tx_bind_ok in E as (bound & d1 & Eb & E).
  apply bind_window_logs in Eb as L1. apply bind_window_known in Eb as K1.
  destruct bound as [t|]; [|apply tx_ret_ok in E as [_ ->]; by left].
  apply tx_bind_ok in E as (chosen & d2 & [_ ->]%tx_checked_ok & E). destruct chosen as [choice|reason]; [|apply tx_ret_ok in E as [_ ->]; by left].
  apply tx_bind_ok in E as (allocation & d2 & [_ ->]%tx_eval_ok & E).
  destruct allocation as [[risk digest]|]; [|apply tx_ret_ok in E as [_ ->]; by left].
  apply tx_bind_ok in E as (u & d2 & Ei & E). apply tx_ret_ok in E as [_ ->]. apply insert_admission_event in Ei as [[K Kc] Hev].
  right. split; [|intros Hc; by apply Kc, K1]. intros id En. apply (kn_none _ _ K1) in En.
  destruct (decide (id = areq_RequestID req)) as [->|Hne]; [right | by left; apply K]. split; [done|]. intros x Hx.
  apply Hev. destruct (lg_audit _ _ L1) as [h Eh]. destruct (append_all_grows h (db_audit d)) as [more Em].
  rewrite Eh, Em. apply elem_of_app. by left.
Qed.
End postgres.
