(* ===== verification/PostgresProperties.v ===== *)
(** * Theorems about the PostgreSQL ledger engine

    What holds of every database that committed transactions can reach, whatever
    the clocks and configurations of the processes, the retries, and the failures
    between them: the books, the refinement of the abstract ledger of
    [EngineProperties], replayed events, admission, expiry, the audit. *)

From Stdlib Require Import ZArith Lia Ascii String.
From stdpp Require Import base gmap strings list pretty.
From S2P Require Import Prelude Digest GoTime Api Json JsonDecode Pricing Calibration Routes AdmissionPolicy Ledger LedgerProofs Cohorts Engine EngineProofs EngineInvariants EngineProperties Wire AuditChain WorkQueue Postgres PostgresBooks PostgresLedger PostgresProofs.

Open Scope string_scope.
Open Scope list_scope.
Open Scope Z_scope.
Open Scope go_scope.

Section postgres.
Context `{Crypto} `{Platform} `{Postgres} `{!PostgresLaws}.

(** ** Reachable databases *)

(** The mutation of an event, with the arguments of its attempt. *)
Inductive event_call : Type :=
| EventDispatch (req : DispatchRequest)
| EventSettle (req : SettleRequest)
| EventCancel (req : CancelRequest).
Definition event_key (c : event_call) : string * string :=
  match c with
  | EventDispatch req => (dreq_EventID req, dreq_RequestID req)
  | EventSettle req => (sreq_SettlementID req, sreq_RequestID req)
  | EventCancel req => (creq_EventID req, creq_RequestID req)
  end.
Definition event_owner (c : event_call) : string * string :=
  match c with
  | EventDispatch req => (dreq_AuthenticatedTenantID req, dreq_AuthenticatedWorkloadUID req)
  | EventSettle req => (sreq_AuthenticatedTenantID req, sreq_AuthenticatedWorkloadUID req)
  | EventCancel req => (creq_AuthenticatedTenantID req, creq_AuthenticatedWorkloadUID req)
  end.
Definition event_kind (c : event_call) : string :=
  match c with EventDispatch _ => "dispatch" | EventSettle _ => "settlement" | EventCancel _ => "cancel" end.
Definition event_hash (c : event_call) : string :=
  match c with EventDispatch req => dispatch_hash req | EventSettle req => settlementPayloadHash req | EventCancel req => cancel_hash req end.
Definition event_mutation (e : PostgresEngine) (c : event_call) : mutation :=
  match c with EventDispatch req => dispatch_mutation e req | EventSettle req => settle_mutation req | EventCancel req => cancel_mutation req end.

Definition event_once (e : PostgresEngine) (c : event_call) : database -> database * event_reply :=
  mutateEventOnce e (event_key c).1 (event_key c).2 (event_kind c) (event_hash c) (event_mutation e c) (event_owner c).1 (event_owner c).2.

(** The databases before and after a transaction that the server commits. *)
Inductive commit (d : database) : database -> Prop :=
| commit_admit e req budget routing candidates seen resp d' :
    kept seen d -> admitOnce e req budget routing candidates seen d = inl (resp, d') -> commit d d'
| commit_event e c d' reply : event_once e c d = (d', reply) -> commit d d'
| commit_liability e T resp d' : liability_tx e T d = inl (resp, d') -> commit d d'
| commit_adjust e a u d' : adjustBudgetOnce e a d = inl (u, d') -> commit d d'
| commit_expire e at_ out d' : reconcileExpiredOnce e at_ d = inl (out, d') -> commit d d'
| commit_register e c u d' : register_tx e c d = inl (u, d') -> commit d d'.

Definition stored (d : database) : Prop := rtc commit empty_database d.

Lemma event_mutation_sound e c : sound (event_mutation e c).
Proof. destruct c; [apply dispatch_sound | apply settle_sound | apply cancel_sound]. Qed.

Lemma event_outcome_steps ev id kind hash T W d d' reply : event_outcome ev id kind hash T W d d' reply -> rtc change d d' /\ logs d d'.
Proof.
  intros [-> | row C I L _ _ _ _ _ | d1 row C I L Hc _ _ _ _]; [done | done|].
  destruct Hc as [_ _ _ C2 L2]. split; [by eapply rtc_r | by transitivity d1].
Qed.

Lemma commit_steps d d' : commit d d' -> db_wf d -> rtc change d d' /\ logs d d'.
Proof.
  intros [e req budget routing candidates seen resp d1 Hk E | e c d1 reply E | e T resp d1 E | e a u d1 E | e at_ out d1 E | e c u d1 E] Hwf.
  - destruct (admitOnce_ok _ _ _ _ _ _ _ _ _ E Hwf Hk) as [-> _ | C L _ _ | d2 row t C C2 L _ _ _]; [done | done|].
    split; [by eapply rtc_r | done].
  - eapply event_outcome_steps, mutateEventOnce_ok; [apply event_mutation_sound | done | exact E].
  - by eapply liability_tx_ok.
  - by eapply adjustBudgetOnce_ok.
  - by destruct (reconcileExpiredOnce_ok _ _ _ _ _ E Hwf) as (C & L & _).
  - destruct (register_tx_ok _ _ _ _ _ E) as (C & L & _). split; [by apply rtc_once | done].
Qed.

Lemma commits_steps d d' : rtc commit d d' -> db_wf d -> rtc change d d' /\ logs d d'.
Proof.
  induction 1 as [|d d1 d2 C _ IH]; intros Hwf; [done|]. destruct (commit_steps _ _ C Hwf) as [C1 L1].
  destruct (IH (changes_wf _ _ C1 Hwf)) as [C2 L2]. split; [by transitivity d1 | by transitivity d1].
Qed.
Lemma reached_wf d : stored d -> db_wf d.
Proof. intros Hr. destruct (commits_steps _ _ Hr empty_wf) as [C _]. by apply (changes_wf _ _ C empty_wf). Qed.
Lemma reached_step d d' : stored d -> commit d d' -> stored d'.
Proof. intros. by eapply rtc_r. Qed.

(** ** The books *)

Lemma stored_aggregates d T t : db_wf d -> db_tenants d !! T = Some t -> tenant_aggregates d T t = true.
Proof.
  intros Hwf Et. destruct (dw_tenant _ Hwf _ _ Et) as [O1 O2 O3 O4 O5 O6 O7]. unfold tenant_aggregates.
  assert (Hl : row_sum live_hold T (db_reservations d) = row_sum held T (db_reservations d)).
  { apply row_sum_ext. intros id r Er _. apply live_hold_held, (dw_row _ Hwf _ _ Er). }
  rewrite Hl, O3, O4, O5, O6, O7, !Z.eqb_refl. done.
Qed.

Lemma stored_outbox d id r : db_wf d -> db_reservations d !! id = Some r -> outbox_agrees d id r = true.
Proof.
  intros Hwf Er. destruct (dw_row _ Hwf _ _ Er) as [Hid _ _ (o & Eo & [B1 B2 B3 B4 B5])]. unfold outbox_agrees.
  assert (Hin : forall k b, (k, b) ∈ filter (fun '(_, o) => obx_RequestID o = id) (map_to_list (db_outbox d)) <->
    k = res_OutboxID r /\ b = o).
  { intros k b. rewrite list_elem_of_filter, elem_of_map_to_list. split.
    - intros [Hb Eb]. destruct (dw_outbox _ Hwf _ _ Eb) as (q & Eq & <-). rewrite Hb in Eq. replace q with r in * by congruence.
      split; [done | congruence].
    - intros [-> ->]. split; [by rewrite B1 | done]. }
  assert (Hnd : NoDup (filter (fun '(_, o) => obx_RequestID o = id) (map_to_list (db_outbox d)))) by apply NoDup_filter, NoDup_map_to_list.
  destruct (filter _ _) as [|[k b] l].
  - exfalso. apply (not_elem_of_nil (A:=string * outbox_row) (res_OutboxID r, o)). by apply Hin.
  - destruct (proj1 (Hin k b) (list_elem_of_here _ _)) as [-> ->]. destruct l as [|[k' b'] l].
    + rewrite B2, B3, B4, B5, !String.eqb_refl. cbn [andb]. unfold outbox_is. by rewrite bool_decide_true.
    + exfalso. destruct (proj1 (Hin k' b')) as [-> ->]; [right; left|]. apply NoDup_cons in Hnd as [Hni _]. apply Hni. left.
Qed.

(** A provisional charge above its quote that a later window keeps on hold. *)
Definition overdrawn (r : Reservation) : Prop :=
  settled_state (res_State r) = true /\ res_ReservedCostMicros r < res_ProvisionalCostMicros r /\
  res_RolloverGuardMicros r = res_ProvisionalCostMicros r.

Lemma beyond_ceiling d id r : db_wf d -> db_reservations d !! id = Some r -> within_ceiling r = false <->
  (state_is (res_State r) StateFinalized || state_is (res_State r) StateLateFinalized = false /\ overdrawn r).
Proof.
  intros Hwf Er. destruct (dw_row _ Hwf _ _ Er) as [_ Hrw (t & _ & [[P1 P2 P3 P4 P5 P6 P7 P8 P9] Hl]) _].
  pose proof (wf_hold _ Hrw) as Hh. pose proof (wf_reserved _ Hrw) as Hr. pose proof (wf_provisional _ Hrw) as Hp.
  pose proof (wf_carry _ Hrw) as Hc. pose proof (wf_version _ Hrw) as Hv. pose proof (wf_unused _ Hrw) as Hu.
  unfold within_ceiling, overdrawn. destruct (state_is _ _ || state_is _ _) eqn:Hf; [split; [done|by intros [? _]]|].
  cbn [orb]. rewrite Z.leb_gt. split.
  - intros Hlt. split; [done|]. destruct (closed_state (res_State r)) eqn:Hcl; [unfold micros in *; lia|].
    unfold level, micros in *. destruct (res_Carried r) eqn:Hca; [rewrite (P4 eq_refl) in Hlt; lia|].
    specialize (P5 eq_refl eq_refl). destruct (String.eqb _ _); [lia|].
    destruct (settled_state (res_State r)); [split; [done|]; lia|]. destruct (Hu Hv) as (? & _ & Hg). lia.
  - intros (_ & Hs & Hlt & Hg). rewrite Hg. destruct (closed_state (res_State r)) eqn:Hcl; [|unfold micros in *; lia].
    destruct Hh as [_ Hg0]. unfold micros in *. lia.
Qed.

Lemma forallb_entries {A} (f : string -> A -> bool) m :
  forallb (fun '(k, a) => f k a) (map_to_list m) = true <-> forall k a, m !! k = Some a -> f k a = true.
Proof.
  rewrite forallb_forall. split.
  - intros Hall k a E. apply (Hall (k, a)), list_elem_of_In. by apply elem_of_map_to_list.
  - intros Hall [k a] Hin%list_elem_of_In%elem_of_map_to_list. by apply Hall.
Qed.
Lemma existsb_entries {A} (f : string -> A -> bool) m :
  existsb (fun '(k, a) => f k a) (map_to_list m) = false <-> forall k a, m !! k = Some a -> f k a = false.
Proof.
  transitivity (forallb (fun '(k, a) => negb (f k a)) (map_to_list m) = true).
  - induction (map_to_list m) as [|[k a] l IH]; [done|]. cbn [existsb forallb]. rewrite orb_false_iff, andb_true_iff, negb_true_iff. tauto.
  - rewrite (forallb_entries (fun k a => negb (f k a))). by setoid_rewrite negb_true_iff.
Qed.
(** The script passes exactly when each of its five checks finds no row. *)
Lemma initSchema_checks_none d : initSchema_checks d = None <->
  (forall id r, db_reservations d !! id = Some r -> snapshot_reconciled r = true) /\
  (forall id r, db_reservations d !! id = Some r -> String.eqb (res_AdmissionFingerprint r) "" = false) /\
  (forall T t, db_tenants d !! T = Some t -> tenant_aggregates d T t = true) /\
  (forall id r, db_reservations d !! id = Some r -> outbox_agrees d id r = true) /\
  (forall id r, db_reservations d !! id = Some r -> within_ceiling r = true).
Proof.
  unfold initSchema_checks. rewrite <- (forallb_entries (fun _ r => snapshot_reconciled r)),
    <- (existsb_entries (fun _ r => String.eqb (res_AdmissionFingerprint r) "")), <- forallb_entries, <- forallb_entries,
    <- (forallb_entries (fun _ r => within_ceiling r)).
  repeat match goal with |- context [if ?b then _ else _] => destruct b eqn:?; cbn [negb] end; rewrite ?negb_true_iff, ?negb_false_iff in *;
    split; intros; try discriminate; try done; intuition congruence.
Qed.

(** What a transaction does to the rows: it creates none and keeps the table's
    constraints, or it admits a request under a name no audit entry bears. *)
Lemma commit_known d d' : commit d d' -> known d d' \/
  (forall id, db_reservations d !! id = None ->
     db_reservations d' !! id = None \/ forall x, x ∈ as_events (db_audit d) -> ae_EventID x <> reserve_event id) /\
  (rows_checked d -> rows_checked d').
Proof.
  intros [e req budget routing candidates seen resp d1 Hk E | e c d1 reply E | e T resp d1 E | e a u d1 E | e at_ out d1 E | e c u d1 E].
  - destruct (admitOnce_event _ _ _ _ _ _ _ _ _ E) as [K | [Ha Hc]]; [by left | right]. split; [|done].
    intros id En. destruct (Ha _ En) as [|[_ Hx]]; [by left | by right].
  - left. pose proof (mutateEventOnce_known e (event_key c).1 (event_key c).2 (event_kind c) (event_hash c) (event_mutation e c)
      (event_owner c).1 (event_owner c).2 d (event_mutation_sound e c)) as K. unfold event_once in E. by rewrite E in K.
  - left. by apply liability_tx_known in E.
  - left. by apply adjustBudgetOnce_known in E.
  - left. by apply reconcileExpiredOnce_known in E.
  - left. by apply register_tx_known in E.
Qed.

Lemma stored_checked d : stored d -> rows_checked d.
Proof.
  unfold stored. assert (Hempty : rows_checked empty_database) by (intros id r E; discriminate E).
  intros C. revert Hempty. induction C as [|d d1 d2 C _ IH]; [done|]. intros Hd. apply IH. by destruct (commit_known _ _ C) as [[_ K] | [_ K]]; apply K.
Qed.

(** The constraints leave the start-up script only the cap to refuse. *)
Lemma checked_reconciled r : reservation_checks r = true -> snapshot_reconciled r = true <-> 0 < res_VerifiedOutputCapTokens r.
Proof.
  unfold reservation_checks, snapshot_reconciled. cbv zeta. rewrite !andb_true_iff, !Z.ltb_lt. tauto.
Qed.

(** C2: in every database that committed transactions reach, the invariants the
    schema script checks at start-up hold exactly - each tenant's reserved,
    active, settled, carried and credited amounts are the sums over its
    reservations, and every reservation agrees with its outbox row - and the
    script refuses such a database exactly for a row admitted without a verified
    output cap, for one without a fingerprint, and for a provisional charge above
    its quote that rolled over into a later window. *)
Theorem stored_books_balance d : stored d ->
  (forall T t, db_tenants d !! T = Some t -> tenant_aggregates d T t = true) /\
  (forall id r, db_reservations d !! id = Some r -> outbox_agrees d id r = true) /\
  ((forall id r, db_reservations d !! id = Some r ->
      0 < res_VerifiedOutputCapTokens r /\ res_AdmissionFingerprint r <> ""%string /\
      (state_is (res_State r) StateFinalized || state_is (res_State r) StateLateFinalized = true \/ ~ overdrawn r))
   <-> initSchema_checks d = None).
Proof.
  intros Hd. pose proof (reached_wf _ Hd) as Hwf. pose proof (stored_checked _ Hd) as Hck.
  assert (A1 : forall T t, db_tenants d !! T = Some t -> tenant_aggregates d T t = true) by (intros; by apply stored_aggregates).
  assert (A2 : forall id r, db_reservations d !! id = Some r -> outbox_agrees d id r = true) by (intros; by apply stored_outbox).
  split; [done|]. split; [done|]. rewrite initSchema_checks_none. split.
  - intros Hall. split; [|split; [|split; [done | split; [done|]]]]; intros id r Er; destruct (Hall _ _ Er) as (Hcap & Hfp & Hf).
    + apply checked_reconciled; [by eapply Hck | done].
    + by apply String.eqb_neq.
    + pose proof (beyond_ceiling _ _ _ Hwf Er) as Hb. destruct (within_ceiling r); [done|].
      destruct (proj1 Hb eq_refl) as [Hnf Ho]. rewrite Hnf in Hf. by destruct Hf.
  - intros (F1 & F2 & _ & _ & F3) id r Er. split; [|split].
    + apply checked_reconciled; [by eapply Hck | by eapply F1].
    + apply String.eqb_neq. by eapply F2.
    + pose proof (beyond_ceiling _ _ _ Hwf Er) as Hb. specialize (F3 _ _ Er). destruct (state_is _ _ || state_is _ _); [by left|].
      right. intros Ho. rewrite (proj2 Hb) in F3; done.
Qed.

(** ** The abstract ledger *)

Lemma change_refines d d' : change d d' -> db_wf d -> accounts d' = accounts d \/ ledger_move (accounts d) (accounts d').
Proof.
  intros [T t t' d1 Et Hs Hc Hw Hr Hse Hk (_ & Hrows & _) | T t d1 Et Hw Hc H1' H2' H3 H4 H5 (_ & Hrows & _)
    | T t t' id a d1 Et Hs Hc Hw Hr Hse Hk Ha HaT (_ & Hrows & _) | T t next t' d1 rows Et Hs Hc Ha Hn Hw Hr Hse Hk (_ & Hrows & _)
    | r t t' o d1 Et En Eb Hf Ho Hc Hw Hr Ha Hse Hk Hcr (_ & Hrows & _) | id r t r' t' o d1 Er Et Hf Hwf' Hm Hrs Hc Hr Ha Ho (_ & Hrows & _)
    | d1 E1 Hrows E3 E4] Hwf; unfold accounts; rewrite Hrows; try (by left).
  - left. apply roll_row_accounts.
  - right. rewrite fmap_insert. destruct Hf as [F1 _ F3 _]. pose proof (wf_hold_ok _ F1) as Hh. unfold account_of at 2.
    rewrite F3 in Hh |- *. cbn [phase_of hold_ok] in *. rewrite Hh.
    apply open_account; [by rewrite lookup_fmap, En | apply (wf_reserved _ F1)].
  - right. apply frozen_eq in Hf as (_ & HT & _ & HQ & _). rewrite fmap_insert.
    assert (Hacc : account_of r' = Build_account (acc_Owner (account_of r)) (acc_Quote (account_of r)) (phase_of (res_State r')) (res_ResidualHoldMicros r'))
      by (unfold account_of; cbn [acc_Owner acc_Quote]; by rewrite HT, HQ).
    rewrite Hacc. apply advance_account.
    + by rewrite lookup_fmap, Er.
    + by apply may_move_advance.
    + change (acc_Quote (account_of r)) with (res_ReservedCostMicros r). rewrite <- HQ. by apply wf_hold_ok.
Qed.
Lemma changes_refine d d' : rtc change d d' -> db_wf d -> rtc ledger_move (accounts d) (accounts d').
Proof.
  induction 1 as [|d d1 d2 C _ IH]; intros Hwf; [done|]. specialize (IH (change_wf _ _ C Hwf)).
  destruct (change_refines _ _ C Hwf) as [<- | Hm]; [done | by eapply rtc_l].
Qed.

(** ** Calls, retries and lost replies *)

(** Other clients only commit transactions. *)
Definition clients (others : nat -> database -> database) : Prop := forall i d, rtc commit d (others i d).

(** The engine of an attempt, its fate, and the transactions before it. *)
Record circumstances : Type := Build_circumstances {
  cir_engine : nat -> PostgresEngine;
  cir_fates : nat -> fate;
  cir_others : nat -> database -> database
}.

Inductive client_call : Type :=
| CallPgAdmit (between : nat -> database -> database) (req : AdmitRequest) (budget : AIBudgetPolicy) (routing : AIRoutingPolicy)
    (candidates : list Candidate)
| CallPgDispatch (req : DispatchRequest)
| CallPgSettle (req : SettleRequest)
| CallPgCancel (req : CancelRequest)
| CallPgLiability (f : fate) (e : PostgresEngine) (T : string)
| CallPgAdjustBudget (a : BudgetAdjustment)
| CallPgReconcileExpired (at_ : Time)
| CallPgRegisterFrozenCohort (c : FrozenCohort).

Definition serve_client (z : circumstances) (c : client_call) (d : database) : database :=
  match c with
  | CallPgAdmit between req budget routing candidates =>
    (PgAdmit (cir_engine z) (cir_fates z) (cir_others z) between req budget routing candidates d).1
  | CallPgDispatch req => (PgDispatch (cir_engine z) (cir_fates z) (cir_others z) req d).1
  | CallPgSettle req => (PgSettle (cir_engine z) (cir_fates z) (cir_others z) req d).1
  | CallPgCancel req => (PgCancel (cir_engine z) (cir_fates z) (cir_others z) req d).1
  | CallPgLiability f e T => (PgLiabilityWithError f e T d).1
  | CallPgAdjustBudget a => (PgAdjustBudget (cir_engine z) (cir_fates z) (cir_others z) a d).1
  | CallPgReconcileExpired at_ => (PgReconcileExpired (cir_engine z) (cir_fates z) (cir_others z) at_ d).1
  | CallPgRegisterFrozenCohort c => (PgRegisterFrozenCohort (cir_engine z) (cir_fates z) (cir_others z) c d).1
  end.
Definition between_clients (c : client_call) : Prop := match c with CallPgAdmit between _ _ _ _ => clients between | _ => True end.

(** The databases that calls reach from an empty one, in any circumstances. *)
Inductive served (d : database) : database -> Prop :=
| served_call z c : clients (cir_others z) -> between_clients c -> served d (serve_client z c d).

Lemma retry_commits {A} (retryable : A -> bool) attempt others n : clients others ->
  (forall i d, db_wf d -> rtc commit d (attempt i d).1) ->
  forall i d, db_wf d -> rtc commit d (retry retryable attempt others n i d).1.
Proof.
  intros Ho Ha. induction n as [|n IH]; intros i d Hwf; cbn [retry];
    pose proof (Ho i d) as C1; destruct (commits_steps _ _ C1 Hwf) as [S1 _]; pose proof (changes_wf _ _ S1 Hwf) as Hwf1;
    pose proof (Ha i _ Hwf1) as C2; destruct (attempt i (others i d)) as [d1 a]; cbn [fst] in C2; [by transitivity (others i d)|].
  destruct (retryable a); [|by transitivity (others i d)]. destruct (commits_steps _ _ C2 Hwf1) as [S2 _].
  transitivity (others i d); [done|]. transitivity d1; [done|]. apply IH. by apply (changes_wf _ _ S2).
Qed.

Lemma event_attempt_commits f e c d : rtc commit d (event_attempt f (event_once e c) d).1.
Proof.
  assert (C : rtc commit d (event_once e c d).1).
  { apply rtc_once. by apply (commit_event d e c _ (event_once e c d).2), surjective_pairing. }
  unfold event_attempt. destruct f; cbn [fst]; try done. destruct (event_once e c d) as [d1 [[r code] [f|]]]; done.
Qed.
Lemma tx_attempt_commits {A} f (once : tx A) d : (forall a d', once d = inl (a, d') -> commit d d') -> rtc commit d (tx_attempt f once d).1.
Proof.
  intros C. unfold tx_attempt. destruct f; try done; destruct (once d) as [[a d1]|] eqn:E; cbn [fst]; try done; apply rtc_once; by eapply C.
Qed.
Lemma commits_kept d d' : rtc commit d d' -> db_wf d -> kept d d'.
Proof. intros C Hwf. destruct (commits_steps _ _ C Hwf) as [S _]. by apply changes_kept. Qed.

Lemma mutateEvent_commits z c d : clients (cir_others z) -> db_wf d ->
  rtc commit d (mutateEvent (cir_engine z) (cir_fates z) (cir_others z) (event_key c).1 (event_key c).2 (event_kind c) (event_hash c)
    (fun e => event_mutation e c) (event_owner c).1 (event_owner c).2 d).1.
Proof. intros Ho Hwf. unfold mutateEvent. apply retry_commits; [done | | done]. intros i d1 _. apply event_attempt_commits. Qed.

Lemma served_commits d d' : served d d' -> db_wf d -> rtc commit d d'.
Proof.
  intros [z c Ho Hb] Hwf. destruct c as [between req budget routing candidates | req | req | req | f e T | a | at_ | c]; cbn [serve_client].
  - unfold PgAdmit. apply retry_commits; [done| | done]. intros i d1 Hwf1. pose proof (Hb i d1) as C. transitivity (between i d1); [done|].
    apply tx_attempt_commits. intros a d2 E. eapply commit_admit; [by eapply commits_kept | exact E].
  - unfold PgDispatch. destruct (validateEventPrincipal _ _ _ _ _ _); [done|]. pose proof (mutateEvent_commits z (EventDispatch req) d Ho Hwf) as C.
    cbn [event_key event_owner event_kind event_hash event_mutation fst snd] in C.
    destruct (mutateEvent _ _ _ _ _ _ _ _ _ _) as [d1 [[r code] f]]. exact C.
  - unfold PgSettle. destruct (validateSettleRequest _); [done|]. exact (mutateEvent_commits z (EventSettle req) d Ho Hwf).
  - unfold PgCancel. destruct (validateEventPrincipal _ _ _ _ _ _); [done|]. exact (mutateEvent_commits z (EventCancel req) d Ho Hwf).
  - unfold PgLiabilityWithError. pose proof (tx_attempt_commits f (liability_tx e T) d (commit_liability d e T)) as C.
    destruct (tx_attempt _ _ _) as [d1 [r|x]]; exact C.
  - apply retry_commits; [done| | done]. intros i d1 _. apply tx_attempt_commits. intros u d2 E. by eapply commit_adjust.
  - apply retry_commits; [done| | done]. intros i d1 _. apply tx_attempt_commits. intros u d2 E. by eapply commit_expire.
  - apply retry_commits; [done| | done]. intros i d1 _. apply tx_attempt_commits. intros u d2 E. by eapply commit_register.
Qed.

(** *** One attempt takes effect *)

(** What the other clients did before attempt [i + n]. *)
Fixpoint waited (others : nat -> database -> database) (n i : nat) (d : database) : database :=
  match n with O => others i d | S n => waited others n (S i) (others i d) end.

Lemma retry_one {A} (retryable : A -> bool) attempt others n :
  (forall i d, retryable (attempt i d).2 = true -> (attempt i d).1 = d) ->
  forall i d, exists k, (k <= n)%nat /\ retry retryable attempt others n i d = attempt (i + k)%nat (waited others k i d).
Proof.
  intros Hre. induction n as [|n IH]; intros i d; cbn [retry].
  - exists 0%nat. cbn [waited]. rewrite Nat.add_0_r. split; [lia|]. by destruct (attempt i (others i d)).
  - pose proof (Hre i (others i d)) as Hr. destruct (attempt i (others i d)) as [d1 a] eqn:E. cbn [fst snd] in Hr.
    destruct (retryable a) eqn:Hret.
    + rewrite (Hr eq_refl). destruct (IH (S i) (others i d)) as (k & Hk & ->). exists (S k). cbn [waited].
      rewrite Nat.add_succ_r. split; [lia | done].
    + exists 0%nat. cbn [waited]. rewrite Nat.add_0_r. split; [lia | by rewrite E].
Qed.

Lemma mutateEventOnce_failed e ev id kind hash m T W d : event_retryable (mutateEventOnce e ev id kind hash m T W d).2 = true ->
  (mutateEventOnce e ev id kind hash m T W d).1 = d.
Proof.
  unfold mutateEventOnce. destruct (db_inbox d !! ev); [done|]. destruct (loadReservation d id) as [[r|]|]; [|done..].
  destruct (matchPrincipal _ _ _); [done|]. destruct (loadTenantTx _ _) as [[t d0]|]; [|done].
  destruct (advanceTenantWindowTx _ _ _ _) as [[t1 d1]|]; [|done]. destruct (loadReservationTx _ _) as [[r1 d2]|]; [|done].
  unfold mutate_loaded. destruct (reservationAuditDigest r1); [|done]. destruct (m r1 t1 d1) as [[[[r2 t2] code] [f|]] d3]; [done|].
  change (bool_decide (code = ReasonDuplicateEvent) || bool_decide (code = ReasonSettlementDuplicate)) with (replayed code).
  destruct (replayed code); [done|]. cbv zeta. by destruct (conclude_event _ _ _ _ _ _ _ _ _ _) as [[u d4]|].
Qed.

Lemma event_attempt_failed f e ev id kind hash m T W d :
  event_retryable (event_attempt f (mutateEventOnce e ev id kind hash m T W) d).2 = true ->
  (event_attempt f (mutateEventOnce e ev id kind hash m T W) d).1 = d.
Proof.
  pose proof (mutateEventOnce_failed e ev id kind hash m T W d) as Hf. unfold event_attempt. destruct f; try done.
  by destruct (mutateEventOnce _ _ _ _ _ _ _ _ _) as [d1 [[r code] [x|]]].
Qed.
Lemma tx_attempt_failed {A} f unique (once : tx A) d : tx_retryable unique (tx_attempt f once d).2 = true -> (tx_attempt f once d).1 = d.
Proof. unfold tx_attempt. destruct f; try done; destruct (once d) as [[a d1]|x]; by destruct unique. Qed.

(** C4: a call of the engine takes effect at most once, however its attempts end:
    whatever other clients commit before each attempt, the loop makes at most five
    attempts of an admission and three of an event, and the call's result and
    database are those of one attempt on the database the other clients left -
    aborted attempts leave nothing behind, and an attempt whose answer was lost
    after its commit is not repeated. *)
Theorem retries_take_effect_once z c between req budget routing candidates d :
  (exists k, (k <= 2)%nat /\
    mutateEvent (cir_engine z) (cir_fates z) (cir_others z) (event_key c).1 (event_key c).2 (event_kind c) (event_hash c)
      (fun e => event_mutation e c) (event_owner c).1 (event_owner c).2 d
    = event_attempt (cir_fates z k) (event_once (cir_engine z k) c) (waited (cir_others z) k 0 d)) /\
  ((forall i d, between i d = d) ->
   exists k, (k <= 4)%nat /\
    let seen := waited (cir_others z) k 0 d in
    PgAdmit (cir_engine z) (cir_fates z) (cir_others z) between req budget routing candidates d
    = tx_attempt (cir_fates z k) (admitOnce (cir_engine z k) req budget routing candidates seen) seen).
Proof.
  split.
  - unfold mutateEvent. destruct (retry_one event_retryable (fun i => event_attempt (cir_fates z i) (event_once (cir_engine z i) c))
      (cir_others z) 2 (fun i d => event_attempt_failed _ _ _ _ _ _ _ _ _ d) 0 d) as (k & Hk & E). by exists k.
  - intros Hb. unfold PgAdmit.
    destruct (retry_one (tx_retryable true) (fun i seen => tx_attempt (cir_fates z i)
        (admitOnce (cir_engine z i) req budget routing candidates seen) (between i seen)) (cir_others z) 4) with (i := 0%nat) (d := d)
      as (k & Hk & E).
    + intros i d1 Hr. rewrite Hb in *. by eapply tx_attempt_failed.
    + exists k. split; [done|]. cbv zeta. rewrite E. cbn [Nat.add]. by rewrite Hb.
Qed.

(** C3: the engine refines the abstract ledger of accounts with phases and holds:
    every call, in any circumstances, leads from a reachable database to another
    by committed transactions, and its effect on the reservations is a sequence of
    moves of the abstract ledger, the same as the in-memory engine refines. *)
Theorem postgres_refines_ledger d d' : stored d -> served d d' ->
  stored d' /\ rtc ledger_move ∅ (accounts d) /\ rtc ledger_move (accounts d) (accounts d').
Proof.
  intros Hd Hs. pose proof (reached_wf d Hd) as Hwf. pose proof (served_commits _ _ Hs Hwf) as C.
  split; [unfold stored in *; by transitivity d|]. split.
  - destruct (commits_steps _ _ Hd empty_wf) as [S _]. exact (changes_refine _ _ S empty_wf).
  - destruct (commits_steps _ _ C Hwf) as [S _]. by apply changes_refine.
Qed.

(** ** Replay *)

Lemma frozen_scanned r : frozen (scanned r) = scanned (frozen r).
Proof. destruct r. vm_compute. reflexivity. Qed.
Lemma frozen_decode r : decodeReservationComponentJSON (frozen r) = decodeReservationComponentJSON r.
Proof. reflexivity. Qed.
Lemma frozen_feedback r : stored_feedback_error (frozen r) = stored_feedback_error r.
Proof. reflexivity. Qed.
Lemma frozen_scan r r' : frozen r = frozen r' -> scan_reservation r = Ok (scanned r) -> scan_reservation r' = Ok (scanned r').
Proof.
  intros E. pose proof (eq_trans (frozen_scanned r) (eq_trans (f_equal scanned E) (eq_sym (frozen_scanned r')))) as Es.
  unfold scan_reservation. cbv zeta. revert Es. generalize (scanned r), (scanned r'). intros q q' Es.
  rewrite (eq_trans (eq_sym (frozen_decode q)) (eq_trans (f_equal decodeReservationComponentJSON Es) (frozen_decode q'))).
  rewrite (eq_trans (eq_sym (frozen_feedback q)) (eq_trans (f_equal stored_feedback_error Es) (frozen_feedback q'))).
  rewrite (frozen_route _ _ Es). destruct (decodeReservationComponentJSON _); [done|]. destruct (stored_feedback_error _); [done|].
  by destruct (validateReservationRoute _).
Qed.

Definition repeated_code (c : event_call) : ReasonCode :=
  match c with EventSettle _ => ReasonSettlementDuplicate | _ => ReasonDuplicateEvent end.

(** C5: an event takes effect once, even when the answer to its commit is lost:
    after a transaction has recorded it, the same event sent again - by any
    process, after any other transactions - changes nothing and is answered with
    the stored reservation and the duplicate code. *)
Theorem stored_events_apply_once f e c d d1 d2 e2 :
  stored d -> (event_attempt f (event_once e c) d).1 = d1 ->
  db_inbox d !! (event_key c).1 = None -> is_Some (db_inbox d1 !! (event_key c).1) -> rtc commit d1 d2 ->
  exists r, db_reservations d2 !! (event_key c).2 = Some r /\
    event_once e2 c d2 = (d2, (withTransitionMetadata (scanned r) (res_State r) false, repeated_code c, None)).
Proof.
  intros Hd%reached_wf E Hnone Hsome Hlater.
  assert (E1 : exists reply, event_once e c d = (d1, reply)).
  { revert E. unfold event_attempt. destruct f; cbn [fst]; try (intros <-; rewrite Hnone in Hsome; by destruct Hsome).
    - intros <-. by exists (event_once e c d).2; apply surjective_pairing.
    - destruct (event_once e c d) as [d3 [[r code] [x|]]]; cbn [fst]; intros <-; by eexists. }
  destruct E1 as [reply E1]. pose proof (mutateEventOnce_ok _ _ _ _ _ _ _ _ _ _ _ (event_mutation_sound e c) Hd E1) as Hout.
  destruct Hout as [-> | row C I _ _ _ _ _ _ | d3 row C I L Hc _ HT HW Hscan]; [rewrite Hnone in Hsome; by destruct Hsome|
    rewrite I, Hnone in Hsome; by destruct Hsome|].
  destruct Hc as [_ Hin (r0 & t & t' & row' & Er & Htr & _ & _ & Er' & _) C2 _].
  pose proof (changes_wf _ _ C Hd) as Hwf3. pose proof (change_wf _ _ C2 Hwf3) as Hwf1.
  destruct (commits_steps _ _ Hlater Hwf1) as [S2 [L2 _ _ _ _ _ _]].
  destruct (change_kept _ _ C2 _ _ Er) as (q & Eq & Fq & _). replace q with row' in * by congruence. clear Eq.
  destruct (changes_kept _ _ S2 _ _ Er') as (r & Er2 & Fr & _). exists r. split; [done|].
  assert (Ein : db_inbox d2 !! (event_key c).1 = Some (Build_inboxEvent (event_key c).2 (event_kind c) (event_hash c))).
  { apply (lookup_weaken _ _ _ _ (eq_trans (f_equal (lookup _) Hin) (lookup_insert_eq _ _ _)) L2). }
  unfold event_once, mutateEventOnce. rewrite Ein. unfold replay_event. cbn [inbox_RequestID inbox_PayloadHash].
  rewrite !String.eqb_refl. cbn [negb]. unfold loadReservation. rewrite Er2.
  change (scan_reservation <$> Some r) with (Some (scan_reservation r)).
  assert (Hf : frozen row = frozen r) by congruence. rewrite (frozen_scan _ _ Hf Hscan).
  destruct (frozen_eq _ _ Hf) as (_ & HTr & HWr & _). unfold matchPrincipal.
  change (res_TenantID (scanned r)) with (res_TenantID r). change (res_WorkloadUID (scanned r)) with (res_WorkloadUID r).
  rewrite <- HTr, <- HWr, HT, HW, !String.eqb_refl. cbn [negb orb]. change (res_State (scanned r)) with (res_State r).
  by destruct c.
Qed.

(** ** Admission *)

(** C6: a new request is admitted by a transaction only with a row that holds the
    exact sum of its components, in the window its budget names, with the pending
    outbox row of that attempt, and leaves the tenant's available budget
    non-negative; any other answer leaves every account
    of the ledger as it was and records no request. *)
Theorem stored_admission_within_budget e req budget routing candidates seen d resp d' :
  stored d -> kept seen d -> db_reservations d !! areq_RequestID req = None ->
  admitOnce e req budget routing candidates seen d = inl (resp, d') ->
  if bool_decide (resp_Decision resp = DecisionAdmit) then exists row t, admission_stored e req budget resp d' row t
  else accounts d' = accounts d.
Proof.
  intros Hd%reached_wf Hk Hnew E. destruct (admitOnce_ok _ _ _ _ _ _ _ _ _ E Hd Hk) as [-> Hno | C L [_ Ha] Hno | d2 row t C C2 L I _ Has].
  - rewrite bool_decide_false; [done | auto].
  - by rewrite bool_decide_false.
  - destruct (as_state _ _ _ _ _ _ _ Has) as [_ ->]. rewrite bool_decide_true by done. eauto.
Qed.

(** *** Event identifiers of the audit *)

Lemma commit_creates d d' id : commit d d' -> db_reservations d !! id = None ->
  db_reservations d' !! id = None \/ forall x, x ∈ as_events (db_audit d) -> ae_EventID x <> reserve_event id.
Proof.
  intros [K | [Ha _]]%commit_known En; [left; by apply K|]. destruct (Ha _ En) as [|Hx]; [by left | by right].
Qed.

(** C13: event identifiers chosen by callers and by the engine share one unique
    column, and a caller can thereby refuse a stranger's request for ever: once any
    audit entry bears the identifier "reserve:" followed by a request's, no
    sequence of transactions of any client creates that request. *)
Theorem foreign_event_blocks_admission d d' id x :
  stored d -> x ∈ as_events (db_audit d) -> ae_EventID x = reserve_event id -> db_reservations d !! id = None ->
  rtc commit d d' -> db_reservations d' !! id = None.
Proof.
  intros Hd%reached_wf Hx Hid Hnew C. induction C as [|d d1 d2 C _ IH]; [done|].
  destruct (commit_steps _ _ C Hd) as [S [_ _ _ _ _ _ L]]. apply IH.
  - by apply (changes_wf _ _ S).
  - destruct L as [h ->]. destruct (append_all_grows h (db_audit d)) as [more ->]. apply elem_of_app. by left.
  - destruct (commit_creates _ _ id C Hnew) as [|Hno]; [done|]. by destruct (Hno _ Hx).
Qed.

(** ** The stored audit *)

Lemma stored_history d d' : rtc commit d d' -> db_wf d -> audit_grows (db_audit d) (db_audit d').
Proof. intros C Hwf. by destruct (commits_steps _ _ C Hwf) as [_ []]. Qed.

(** C14: the audit that transactions write always verifies: the check of the stored
    tenant audits at start-up accepts every reachable database, and later
    transactions only add entries after those it holds. *)
Theorem stored_audits_verify d d' : stored d -> rtc commit d d' ->
  validateStoredTenantAudits d' = None /\ as_events (db_audit d) `prefix_of` as_events (db_audit d').
Proof.
  intros Hd C. pose proof (reached_wf _ Hd) as Hwf.
  split; [|destruct (stored_history _ _ C Hwf) as [h ->]; apply append_all_grows].
  destruct (stored_history empty_database d' (transitivity Hd C) empty_wf) as [h Eh].
  unfold validateStoredTenantAudits. rewrite Eh. cbn [db_audit empty_database].
  set (s := append_all empty_store h).
  assert (Hc : forall T, tenant_chain s T) by (by apply append_all_chain).
  assert (Hin : forall T, T ∈ sort_ids (elements (list_to_set (map ae_TenantID (as_events s)) : gset string)) ->
    VerifyTenantAudit s T = None).
  { intros T. rewrite sort_ids_perm, elem_of_elements, elem_of_list_to_set. intros (x & -> & Hx)%list_elem_of_fmap.
    assert (Hev : x ∈ tenant_events s (ae_TenantID x)).
    { unfold tenant_events. apply list_elem_of_In, List.filter_In. split; [by apply list_elem_of_In | apply String.eqb_refl]. }
    rewrite VerifyTenantAudit_chain; [by destruct (tenant_events s (ae_TenantID x)); [apply not_elem_of_nil in Hev|] | done|].
    intros E0. apply list_elem_of_lookup in Hev as [k Hk].
    pose proof (linked_valid _ _ _ _ (verify_from_lookup _ _ _ _ _ _ _ (Hc _) Hk)) as Hv. revert Hv.
    unfold validateEntry. rewrite E0. by vm_compute (blank ""). }
  revert Hin. induction (sort_ids _) as [|T rest IH]; intros Hin; [done|]. rewrite Hin by apply list_elem_of_here.
  apply IH. intros T' HT'. apply Hin. by right.
Qed.

(** ** Expiry *)

Lemma swept_not_expired at_ row row' : swept_row row row' -> expired_row at_ row' = false.
Proof.
  intros [_ Hs _ _]. unfold expired_row. rewrite Hs. destruct (state_is (res_State row) StateReserved); cbn; by rewrite andb_false_r.
Qed.

(** C12: a committed sweep moves exactly the requests that were due: a pending one
    is closed and its hold released, a dispatched one becomes unresolved and keeps
    its hold, every other row stays as it was; and a second sweep at the same
    time, by any process, commits and changes nothing. *)
Theorem stored_expiry_sweep e e2 at_ d out d' : stored d -> reconcileExpiredOnce e at_ d = inl (out, d') ->
  (forall id row, db_reservations d !! id = Some row ->
    if expired_row at_ row then exists row', db_reservations d' !! id = Some row' /\ swept_row row row'
    else db_reservations d' !! id = Some row) /\
  reconcileExpiredOnce e2 at_ d' = inl ([], d').
Proof.
  intros Hd%reached_wf E. destruct (reconcileExpiredOnce_ok _ _ _ _ _ E Hd) as (_ & _ & A1 & A2). split; [exact A1|].
  assert (Hnone : expired_ids d' at_ = []).
  { apply elem_of_nil_inv. intros id. unfold expired_ids. rewrite sort_ids_perm.
    intros (row' & Er' & Hx)%(elem_rolled_ids (fun _ => expired_row at_)).
    destruct (db_reservations d !! id) as [row|] eqn:Er; [|rewrite (A2 _ Er) in Er'; done].
    specialize (A1 _ _ Er). destruct (expired_row at_ row) eqn:Hr; [|congruence].
    destruct A1 as (q & Eq & Hsw). replace q with row' in Hsw by congruence. by rewrite (swept_not_expired _ _ _ Hsw) in Hx. }
  unfold reconcileExpiredOnce, tx_bind, tx_read. by rewrite Hnone.
Qed.
End postgres.
