(* ===== verification/PostgresExample.v ===== *)
(** * A concrete run of the PostgreSQL ledger engine

    With SHA-256 computed: a request admitted, dispatched, settled provisionally
    above its quote, and carried by a rollover to the next day; a sweep of an
    expired request; an event named after another request. Every database of the
    run is computed once from the one before; the witnesses apply the theorems of
    [PostgresProperties] to them. *)

From Stdlib Require Import ZArith Lia Ascii String.
From stdpp Require Import base gmap strings list pretty.
From S2P Require Import Prelude Digest GoTime Api Json JsonDecode Pricing Calibration Routes AdmissionPolicy Ledger LedgerProofs Cohorts Engine EngineProofs EngineInvariants EngineProperties EngineExample Wire AuditChain WorkQueue Postgres PostgresBooks PostgresLedger PostgresProofs PostgresProperties.

Open Scope string_scope.
Open Scope list_scope.
Open Scope Z_scope.
Open Scope go_scope.

#[local] Existing Instance go_crypto.
#[local] Existing Instance RoutesExample.platform.

Module PostgresExample.
#[export] Instance in_order : Postgres := fun ids => ids.
#[export] Instance in_order_laws : PostgresLaws.
Proof. intros l. reflexivity. Qed.

Definition process (now : Time) : PostgresEngine :=
  Build_PostgresEngine now now "key-1" EngineExample.key (EngineExample.digit "4") None.
Definition today : PostgresEngine := process PricingExample.now.
Definition tomorrow : PostgresEngine := process (PricingExample.now + Day).

Definition first_attempt (id : string) (seen d : database) : (AdmitResponse * database) + failure :=
  admitOnce today (AdmissionExample.request id) AdmissionExample.budget AdmissionExample.routing AdmissionExample.candidates seen d.
Definition after {A} (out : (A * database) + failure) : database := match out with inl (_, d) => d | inr _ => empty_database end.
Definition no_answer : AdmitResponse := responseForReservation zero_reservation ReasonDuplicateRequest.
Definition dispatch (event status : string) : event_call :=
  EventDispatch (Build_DispatchRequest "req-1" event "red" "wl-1" "req-1:attempt:1"
    (route_SnapshotHash (cand_RouteSnapshot RoutesExample.candidate)) status "red" "wl-1").
Definition settlement_event (event : string) (calls version : Z) (predecessor : string) (final : bool) : event_call :=
  EventSettle (EngineExample.settlement event calls version predecessor final).

(** The run. *)
Definition admission : (AdmitResponse * database) + failure := Eval vm_compute in first_attempt "req-1" empty_database empty_database.
Definition admitted : database := Eval vm_compute in after admission.
Definition response : AdmitResponse := Eval vm_compute in match admission with inl (resp, _) => resp | inr _ => no_answer end.
Definition claimed : database := Eval vm_compute in (event_once today (dispatch "d1" DispatchClaimed) admitted).1.
Definition delivered : database := Eval vm_compute in (event_once today (dispatch "d2" DispatchDelivered) claimed).1.
Definition provisional : event_call := settlement_event "s1" 4 1 "" false.
Definition settled : database := Eval vm_compute in (event_once today provisional delivered).1.
Definition rolled : database := Eval vm_compute in after (liability_tx tomorrow "red" settled).
Definition closed : database := Eval vm_compute in (event_once tomorrow (settlement_event "s2" 4 2 "s1" true) rolled).1.

(** An event named after another request, and a sweep after the expiry. *)
Definition shadowed : database := Eval vm_compute in (event_once today (dispatch "reserve:req-2" DispatchClaimed) admitted).1.
Definition later : database := Eval vm_compute in (event_once tomorrow (dispatch "d2" DispatchDelivered) shadowed).1.
Definition shadow : Entry := Eval vm_compute in List.nth 1 (as_events (db_audit shadowed)) zero_entry.
Definition sweep_time : Time := PricingExample.now + Hour.
Definition swept : database := Eval vm_compute in after (reconcileExpiredOnce today sweep_time admitted).
Definition swept_records : list ReconciliationRecord := Eval vm_compute in
  match reconcileExpiredOnce today sweep_time admitted with inl (out, _) => out | inr _ => [] end.

(** The row of the request and the amounts of its tenant. *)
Definition row_of (d : database) : Reservation := default zero_reservation (db_reservations d !! "req-1").
Definition amounts_of (d : database) : option (Z * Z * Z * Z) :=
  (fun t => (tenant_ReservedMicros t, tenant_SettledMicros t, tenant_CarriedAdjustmentMicros t, tenant_ActiveReservations t))
  <$> db_tenants d !! "red".

Example admitted_amounts : amounts_of admitted = Some (82500, 0, 0, 1).
Proof. vm_compute. reflexivity. Qed.
Example settled_amounts : amounts_of settled = Some (0, 100000, 0, 1).
Proof. vm_compute. reflexivity. Qed.
Example rolled_amounts : amounts_of rolled = Some (100000, 0, 0, 1).
Proof. vm_compute. reflexivity. Qed.
Example closed_amounts : amounts_of closed = Some (0, 0, 0, 0).
Proof. vm_compute. reflexivity. Qed.
Example swept_amounts : amounts_of swept = Some (0, 0, 0, 0).
Proof. vm_compute. reflexivity. Qed.
Example settled_starts : initSchema_checks settled = None.
Proof. vm_compute. reflexivity. Qed.
Example rolled_does_not_start : initSchema_checks rolled = Some "reservation hold exceeds ceiling".
Proof. vm_compute. reflexivity. Qed.

(** The run commits. *)
Lemma admission_ok : admitOnce today (AdmissionExample.request "req-1") AdmissionExample.budget AdmissionExample.routing
  AdmissionExample.candidates empty_database empty_database = inl (response, admitted).
Proof. vm_compute. reflexivity. Qed.
Lemma commit_admitted : commit empty_database admitted.
Proof. eapply commit_admit; [reflexivity | exact admission_ok]. Qed.
Lemma commit_next e c d d' : (event_once e c d).1 = d' -> commit d d'.
Proof. intros <-. eapply commit_event, surjective_pairing. Qed.
Lemma commit_claimed : commit admitted claimed.
Proof. apply (commit_next today (dispatch "d1" DispatchClaimed)). vm_compute. reflexivity. Qed.
Lemma commit_delivered : commit claimed delivered.
Proof. apply (commit_next today (dispatch "d2" DispatchDelivered)). vm_compute. reflexivity. Qed.
Lemma commit_settled : commit delivered settled.
Proof. apply (commit_next today provisional). vm_compute. reflexivity. Qed.
Definition liability_answer : LiabilityResponse := Eval vm_compute in
  match liability_tx tomorrow "red" settled with inl (out, _) => out | inr _ => Build_LiabilityResponse "" 0 0 0 0 0 "" 0 end.
Lemma commit_rolled : commit settled rolled.
Proof. eapply (commit_liability _ tomorrow "red" liability_answer). vm_compute. reflexivity. Qed.
Lemma commit_shadowed : commit admitted shadowed.
Proof. apply (commit_next today (dispatch "reserve:req-2" DispatchClaimed)). vm_compute. reflexivity. Qed.
Lemma commit_later : commit shadowed later.
Proof. apply (commit_next tomorrow (dispatch "d2" DispatchDelivered)). vm_compute. reflexivity. Qed.
Lemma sweep_ok : reconcileExpiredOnce today sweep_time admitted = inl (swept_records, swept).
Proof. vm_compute. reflexivity. Qed.

Lemma reached_admitted : stored admitted.
Proof. exact (rtc_once _ _ commit_admitted). Qed.
Lemma reached_delivered : stored delivered.
Proof. exact (reached_step _ _ (reached_step _ _ reached_admitted commit_claimed) commit_delivered). Qed.
Lemma reached_settled : stored settled.
Proof. exact (reached_step _ _ reached_delivered commit_settled). Qed.
Lemma reached_rolled : stored rolled.
Proof. exact (reached_step _ _ reached_settled commit_rolled). Qed.
Lemma reached_shadowed : stored shadowed.
Proof. exact (reached_step _ _ reached_admitted commit_shadowed). Qed.
End PostgresExample.
Import PostgresExample.

Lemma stored_books_balance_witness :
  tenant_aggregates rolled "red" (default (zero_tenant 0) (db_tenants rolled !! "red")) = true /\
  ~ (forall id r, db_reservations rolled !! id = Some r -> 0 < res_VerifiedOutputCapTokens r /\ res_AdmissionFingerprint r <> ""%string /\
      (state_is (res_State r) StateFinalized || state_is (res_State r) StateLateFinalized = true \/ ~ overdrawn r)).
Proof.
  destruct (stored_books_balance rolled reached_rolled) as (H1 & _ & H3). split.
  - apply H1. vm_compute. reflexivity.
  - intros Hall. apply H3 in Hall. vm_compute in Hall. discriminate Hall.
Defined.

(** The process dies after the commit of the settlement and its client asks again. *)
Lemma stored_events_apply_once_witness : exists r, db_reservations rolled !! "req-1" = Some r /\
  event_once tomorrow provisional rolled
  = (rolled, (withTransitionMetadata (scanned r) (res_State r) false, ReasonSettlementDuplicate, None)).
Proof.
  apply (stored_events_apply_once ReplyLost today provisional delivered settled rolled tomorrow).
  - exact reached_delivered.
  - vm_compute. reflexivity.
  - vm_compute. reflexivity.
  - vm_compute. eexists. reflexivity.
  - exact (rtc_once _ _ commit_rolled).
Defined.

Lemma stored_admission_within_budget_witness :
  exists row t, admission_stored today (AdmissionExample.request "req-1") AdmissionExample.budget response admitted row t.
Proof.
  pose proof (stored_admission_within_budget today (AdmissionExample.request "req-1") AdmissionExample.budget
    AdmissionExample.routing AdmissionExample.candidates empty_database empty_database response admitted
    (rtc_refl _ _) (reflexivity _) (lookup_empty _) admission_ok) as Has.
  rewrite bool_decide_true in Has by (vm_compute; reflexivity). exact Has.
Defined.


Lemma foreign_event_blocks_admission_witness : db_reservations later !! "req-2" = None.
Proof.
  apply (foreign_event_blocks_admission shadowed later "req-2" shadow).
  - exact reached_shadowed.
  - apply (list_elem_of_lookup_2 _ 1). vm_compute. reflexivity.
  - vm_compute. reflexivity.
  - vm_compute. reflexivity.
  - exact (rtc_once _ _ commit_later).
Defined.

(** The blocked request would be admitted on a database without the event. *)
Definition decision_of (out : (AdmitResponse * database) + failure) : Decision + failure :=
  match out with inl (resp, _) => inl (resp_Decision resp) | inr f => inr f end.
Example req_2_admitted_alone : decision_of (first_attempt "req-2" empty_database empty_database) = inl DecisionAdmit.
Proof. vm_compute. reflexivity. Qed.
Example req_2_refused : decision_of (first_attempt "req-2" shadowed shadowed) = inr (UniqueViolation "insertion into govar_audit_events rejected").
Proof. vm_compute. reflexivity. Qed.

Lemma stored_audits_verify_witness :
  validateStoredTenantAudits rolled = None /\ as_events (db_audit settled) `prefix_of` as_events (db_audit rolled).
Proof. exact (stored_audits_verify settled rolled reached_settled (rtc_once _ _ commit_rolled)). Defined.

Lemma stored_expiry_sweep_witness :
  res_ResidualHoldMicros (row_of swept) = 0 /\ reconcileExpiredOnce tomorrow sweep_time swept = inl ([], swept).
Proof.
  destruct (stored_expiry_sweep today tomorrow sweep_time admitted swept_records swept reached_admitted sweep_ok) as [_ H2].
  split; [vm_compute; reflexivity | exact H2].
Defined.

(** A call whose first attempt the server aborts. *)
Definition aborted_once : circumstances :=
  Build_circumstances (fun _ => today) (fun i => if (i =? 0)%nat then Aborted else Answered) (fun _ d => d).
Lemma served_settled : served delivered settled.
Proof.
  assert (E : serve_client aborted_once (CallPgSettle (EngineExample.settlement "s1" 4 1 "" false)) delivered = settled) by (vm_compute; reflexivity).
  rewrite <- E. exact (served_call delivered aborted_once (CallPgSettle _) (fun _ d => rtc_refl _ d) I).
Qed.

Lemma postgres_refines_ledger_witness :
  stored settled /\ rtc ledger_move ∅ (accounts delivered) /\ rtc ledger_move (accounts delivered) (accounts settled).
Proof. exact (postgres_refines_ledger delivered settled reached_delivered served_settled). Defined.

Lemma waited_alone k i d : waited (fun _ d => d) k i d = d.
Proof. revert i. by induction k; cbn [waited]. Qed.

Lemma retries_take_effect_once_witness : exists k, (k <= 2)%nat /\
  PgSettle (cir_engine aborted_once) (cir_fates aborted_once) (cir_others aborted_once)
    (EngineExample.settlement "s1" 4 1 "" false) delivered
  = event_attempt (cir_fates aborted_once k) (event_once today provisional) delivered.
Proof.
  destruct (retries_take_effect_once aborted_once provisional (fun _ d => d) (AdmissionExample.request "req-1") AdmissionExample.budget
    AdmissionExample.routing AdmissionExample.candidates delivered) as [(k & Hk & E) _].
  exists k. split; [exact Hk|]. unfold PgSettle.
  assert (Ev : validateSettleRequest (EngineExample.settlement "s1" 4 1 "" false) = None) by (vm_compute; reflexivity).
  assert (Ew : waited (cir_others aborted_once) k 0 delivered = delivered) by exact (waited_alone k 0 delivered).
  rewrite Ew in E. rewrite Ev. exact E.
Defined.
