(* ===== verification/Sovereignty.v ===== *)
(** * The sovereignty engines

    [internal/sovereigntyengine] (zones, findings of providers and of traffic
    flows), [internal/enforcementengine] (what is done about a violation) and
    [internal/shadowengine] (egress that bypasses the gateway). All three are pure
    functions in the code. *)

From Stdlib Require Import ZArith Lia Ascii String.
From stdpp Require Import base gmap strings list pretty.
From S2P Require Import Prelude Digest GoTime Json.

Open Scope string_scope.
Open Scope list_scope.
Open Scope Z_scope.
Open Scope go_scope.

(** ** Data *)

Definition SeverityInfo : string := "info".
Definition SeverityWarning : string := "warning".
Definition SeverityCritical : string := "critical".

Record Finding : Type := Build_Finding {
  fnd_Severity : string;
  fnd_Message : string;
  fnd_Namespace : string;
  fnd_Application : string;
  fnd_Model : string;
  fnd_Provider : string;
  fnd_Zone : string;
  fnd_Requests : Z
}.
#[export] Instance eta_Finding : Eta Finding := fun f =>
  Build_Finding (fnd_Severity f) (fnd_Message f) (fnd_Namespace f) (fnd_Application f) (fnd_Model f) (fnd_Provider f)
    (fnd_Zone f) (fnd_Requests f).

Record ProviderInfo : Type := Build_ProviderInfo {
  pvi_Name : string;
  pvi_Zone : string;
  pvi_Managed : bool;
  pvi_AllowedForSensitiveData : bool
}.

Record Flow : Type := Build_Flow {
  flw_Namespace : string;
  flw_Application : string;
  flw_Model : string;
  flw_Provider : string;
  flw_Zone : string;
  flw_Managed : bool;
  flw_ProviderAllowsSensitive : bool;
  flw_ModelAllowsSensitive : bool;
  flw_Requests : Z
}.

Record Policy : Type := Build_Policy {
  pol_AllowedZones : list string;
  pol_ForbiddenZones : list string;
  pol_ExternalProvidersAllowed : bool;
  pol_RequireAnonymization : bool
}.

(** ** Zones *)

Definition euCountries : list string :=
  ["FR"; "DE"; "ES"; "IT"; "NL"; "BE"; "LU"; "IE"; "PT"; "AT"; "FI"; "SE"; "DK"; "PL"; "CZ"; "GR"; "RO"; "HU"].

Definition one_of (s : string) (l : list string) : bool := existsb (String.eqb s) l.

Definition NormalizeZone (z : string) : string :=
  let w := ToLower (TrimSpace z) in
  if one_of w ["fr"; "france"; "francecentral"] then "FR"
  else if one_of w ["eu"; "europe"; "european union"] then "EU"
  else if one_of w ["us"; "usa"; "united states"; "eastus"; "westus"] then "US"
  else if one_of w ["cn"; "china"] then "CN"
  else if one_of w ["uk"; "gb"; "united kingdom"] then "GB"
  else if String.eqb w "" then "" else ToUpper (TrimSpace z).

Definition toSet (zones : list string) : gset string := list_to_set (map NormalizeZone zones).

Definition zoneAllowed (zone : string) (allowed : gset string) : bool :=
  bool_decide (allowed = ∅) || bool_decide (zone ∈ allowed) || (bool_decide ("EU" ∈ allowed) && one_of zone euCountries).

Definition sortedKeys (zones : gset string) : list string := sort_slice string_ltb (elements zones).
(** The verb [%v] of a string slice. *)
Definition sprint_strings (l : list string) : string := "[" +:+ Join l " " +:+ "]".

Definition IsZoneAllowed (policy : Policy) (rawZone : string) : bool :=
  let zone := NormalizeZone rawZone in
  if bool_decide (zone ∈ toSet (pol_ForbiddenZones policy)) then false
  else zoneAllowed zone (toSet (pol_AllowedZones policy)).

(** ** Findings *)

Definition severityRank (s : string) : Z :=
  if String.eqb s SeverityCritical then 3 else if String.eqb s SeverityWarning then 2
  else if String.eqb s SeverityInfo then 1 else 0.

Definition anonymization_finding : Finding :=
  Build_Finding SeverityInfo "Policy requires prompt anonymization; ensure the gateway redacts sensitive fields before egress."
    "" "" "" "" "" 0.

(** The findings of one provider. *)
Definition provider_findings (policy : Policy) (allowed forbidden : gset string) (p : ProviderInfo) : list Finding :=
  let zone := NormalizeZone (pvi_Zone p) in
  let found severity message := Build_Finding severity message "" "" "" (pvi_Name p) zone 0 in
  (if bool_decide (zone ∈ forbidden)
   then [found SeverityCritical ("Provider " +:+ Quote (pvi_Name p) +:+ " operates in forbidden zone " +:+ zone +:+ ".")]
   else if negb (zoneAllowed zone allowed)
   then [found SeverityWarning ("Provider " +:+ Quote (pvi_Name p) +:+ " zone " +:+ zone +:+ " is outside the allowed zones "
           +:+ sprint_strings (sortedKeys allowed) +:+ ".")]
   else [])
  ++ (if negb (pol_ExternalProvidersAllowed policy) && pvi_Managed p
      then [found SeverityWarning ("External managed provider " +:+ Quote (pvi_Name p)
              +:+ " is in use while external providers are disallowed for sensitive data.")]
      else []).

Definition provider_less (a b : Finding) : bool :=
  if negb (severityRank (fnd_Severity a) =? severityRank (fnd_Severity b))
  then severityRank (fnd_Severity b) <? severityRank (fnd_Severity a)
  else string_ltb (fnd_Provider a) (fnd_Provider b).

Definition Evaluate (policy : Policy) (providers : list ProviderInfo) : list Finding :=
  let allowed := toSet (pol_AllowedZones policy) in
  let forbidden := toSet (pol_ForbiddenZones policy) in
  sort_slice provider_less (concat (map (provider_findings policy allowed forbidden) providers)
    ++ if pol_RequireAnonymization policy then [anonymization_finding] else []).

(** The findings of one flow. *)
Definition flow_findings (policy : Policy) (allowed forbidden : gset string) (fl : Flow) : list Finding :=
  let zone := NormalizeZone (flw_Zone fl) in
  let found severity message := Build_Finding severity message (flw_Namespace fl) (flw_Application fl) (flw_Model fl)
    (flw_Provider fl) zone (flw_Requests fl) in
  let who := "Namespace " +:+ Quote (flw_Namespace fl) +:+ " app " +:+ Quote (flw_Application fl) in
  let routed := who +:+ " routed model " +:+ Quote (flw_Model fl) +:+ " to provider " +:+ Quote (flw_Provider fl) in
  (if bool_decide (zone ∈ forbidden)
   then [found SeverityCritical (routed +:+ " in forbidden zone " +:+ zone +:+ ".")]
   else if negb (zoneAllowed zone allowed)
   then [found SeverityWarning (routed +:+ " in zone " +:+ zone +:+ ", outside allowed zones "
           +:+ sprint_strings (sortedKeys allowed) +:+ ".")]
   else [])
  ++ (if negb (pol_ExternalProvidersAllowed policy) && flw_Managed fl
         && (negb (flw_ProviderAllowsSensitive fl) || negb (flw_ModelAllowsSensitive fl))
      then [found SeverityWarning (who +:+ " sent traffic (model " +:+ Quote (flw_Model fl) +:+ ") to external managed provider "
              +:+ Quote (flw_Provider fl) +:+ " while external providers are disallowed for sensitive data.")]
      else []).

(** The key under which equal findings are counted together, the fields separated
    by the byte 31; the map [agg] with the slice [order] is an association list. *)
Definition separator : string := String (ascii_of_N 31) EmptyString.
Definition finding_key (f : Finding) : string :=
  Join [fnd_Severity f; fnd_Namespace f; fnd_Application f; fnd_Model f; fnd_Provider f; fnd_Message f] separator.
Fixpoint add_finding (f : Finding) (agg : list (string * Finding)) : list (string * Finding) :=
  match agg with
  | [] => [(finding_key f, f)]
  | (k, old) :: rest =>
    if String.eqb k (finding_key f) then (k, old <| fnd_Requests := fnd_Requests old +i fnd_Requests f |>) :: rest
    else (k, old) :: add_finding f rest
  end.
Definition aggregate_findings (l : list Finding) : list Finding :=
  map snd (fold_left (fun agg f => add_finding f agg) l []).

Definition flow_less (a b : Finding) : bool :=
  if negb (severityRank (fnd_Severity a) =? severityRank (fnd_Severity b))
  then severityRank (fnd_Severity b) <? severityRank (fnd_Severity a)
  else if negb (String.eqb (fnd_Namespace a) (fnd_Namespace b)) then string_ltb (fnd_Namespace a) (fnd_Namespace b)
  else if negb (String.eqb (fnd_Application a) (fnd_Application b)) then string_ltb (fnd_Application a) (fnd_Application b)
  else if negb (String.eqb (fnd_Provider a) (fnd_Provider b)) then string_ltb (fnd_Provider a) (fnd_Provider b)
  else string_ltb (fnd_Model a) (fnd_Model b).

Definition EvaluateFlows (policy : Policy) (flows : list Flow) : list Finding :=
  let allowed := toSet (pol_AllowedZones policy) in
  let forbidden := toSet (pol_ForbiddenZones policy) in
  sort_slice flow_less (aggregate_findings (concat (map (flow_findings policy allowed forbidden) flows))
    ++ if pol_RequireAnonymization policy then [anonymization_finding] else []).

Definition CountBySeverity (findings : list Finding) : gmap string Z :=
  fold_left (fun m f => <[fnd_Severity f := default 0 (m !! fnd_Severity f) + 1]> m) findings
    (<[SeverityInfo := 0]> (<[SeverityWarning := 0]> (<[SeverityCritical := 0]> ∅))).

(** ** Enforcement *)

Inductive Action : Type := ActionReport | ActionWarn | ActionBlock | ActionReroute.
#[export] Instance action_eq_dec : EqDecision Action.
Proof. solve_decision. Defined.

Record Violation : Type := Build_Violation {
  vio_Namespace : string;
  vio_Application : string;
  vio_Provider : string;
  vio_Zone : string;
  vio_Model : string;
  vio_Requests : Z
}.

Record EnforcementDecision : Type := Build_EnforcementDecision {
  dec_Mode : string;
  dec_Action : Action;
  dec_Namespace : string;
  dec_Application : string;
  dec_Provider : string;
  dec_Zone : string;
  dec_Model : string;
  dec_Requests : Z;
  dec_RerouteTo : string;
  dec_Message : string;
  dec_Actuated : bool
}.

Definition ModeReportOnly : string := "reportOnly".
Definition ModeWarn : string := "warn".
Definition ModeEnforce : string := "enforce".

Definition decide_violation (mode fallbackModel : string) (v : Violation) : EnforcementDecision :=
  let decided action target message actuated := Build_EnforcementDecision mode action (vio_Namespace v) (vio_Application v)
    (vio_Provider v) (vio_Zone v) (vio_Model v) (vio_Requests v) target message actuated in
  let who := vio_Namespace v +:+ "/" +:+ vio_Application v in
  if String.eqb mode ModeWarn
  then decided ActionWarn "" ("warn: " +:+ who +:+ " sent " +:+ sprint (vio_Requests v) +:+ " request(s) to forbidden zone "
         +:+ vio_Zone v +:+ " via " +:+ Quote (vio_Provider v) +:+ " — alert raised") true
  else if String.eqb mode ModeEnforce
  then if negb (String.eqb fallbackModel "")
       then decided ActionReroute fallbackModel ("enforce: " +:+ who +:+ " — reroute " +:+ Quote (vio_Model v) +:+ " to compliant "
              +:+ Quote fallbackModel) false
       else decided ActionBlock "" ("enforce: " +:+ who +:+ " — block traffic to forbidden zone " +:+ vio_Zone v
              +:+ ", no compliant fallback") false
  else decided ActionReport "" ("reportOnly: " +:+ who +:+ " exposure to forbidden zone " +:+ vio_Zone v
         +:+ " recorded (no action)") true.

Definition DecideSovereignty (mode : string) (violations : list Violation) (fallbackModel : string) : list EnforcementDecision :=
  map (decide_violation mode fallbackModel) violations.

Definition CountByAction (a : Action) (decisions : list EnforcementDecision) : Z :=
  Z.of_nat (length (filter (fun d => dec_Action d = a) decisions)).

(** ** Shadow traffic *)

Record Egress : Type := Build_Egress {
  egr_Namespace : string;
  egr_Application : string;
  egr_Host : string;
  egr_Connections : Z
}.

Record ShadowFinding : Type := Build_ShadowFinding {
  sha_Namespace : string;
  sha_Application : string;
  sha_Host : string;
  sha_Provider : string;
  sha_Zone : string;
  sha_Severity : string;
  sha_Message : string;
  sha_Connections : Z
}.

Definition detect_one (policy : Policy) (resolve : string -> string * string) (e : Egress) : option ShadowFinding :=
  let '(zone, provider) := resolve (egr_Host e) in
  if String.eqb zone "" && String.eqb provider "" then None
  else
    let nz := NormalizeZone zone in
    if IsZoneAllowed policy nz then None
    else
      let direct := "Shadow-AI: " +:+ egr_Namespace e +:+ "/" +:+ egr_Application e +:+ " connected directly to "
        +:+ Quote (egr_Host e) +:+ " (" +:+ provider +:+ ") in " in
      let found severity message := Build_ShadowFinding (egr_Namespace e) (egr_Application e) (egr_Host e) provider nz severity
        message (egr_Connections e) in
      if bool_decide (nz ∈ toSet (pol_ForbiddenZones policy))
      then Some (found SeverityCritical (direct +:+ "FORBIDDEN zone " +:+ nz +:+ ", bypassing the gateway."))
      else Some (found SeverityWarning (direct +:+ "zone " +:+ nz +:+ ", outside the allowed zones, bypassing the gateway.")).

(** A resolver that is nil finds nothing. *)
Definition Detect (policy : Policy) (egresses : list Egress) (resolve : option (string -> string * string)) : list ShadowFinding :=
  match resolve with None => [] | Some resolve => omap (detect_one policy resolve) egresses end.
