(* ===== verification/Catalog.v ===== *)
(** * Model catalog and usage samples

    The built-in catalog of [internal/catalog/defaults.go], the usage samples of
    [internal/collectors], the prices of [internal/costengine], and the catalog of
    a namespace with what the controllers derive from it
    ([internal/controller/catalog.go]). Prices are [float64] values; a decimal
    literal is the rounded quotient of two integers. *)

From Stdlib Require Import ZArith Lia Ascii String SpecFloat.
From stdpp Require Import base gmap strings list pretty.
From S2P Require Import Prelude Float64 Api Json Sovereignty.

Open Scope string_scope.
Open Scope list_scope.
Open Scope Z_scope.
Open Scope go_scope.

(** ** Samples and prices *)

Record UsageSample : Type := Build_UsageSample {
  smp_Namespace : string;
  smp_Application : string;
  smp_Team : string;
  smp_Provider : string;
  smp_Model : string;
  smp_Requests : Z;
  smp_InputTokens : Z;
  smp_OutputTokens : Z;
  smp_LatencyMillis : spec_float;
  smp_Errors : Z
}.

Record TokenPricing : Type := Build_TokenPricing {
  tpr_Currency : string;
  tpr_InputPerMillion : spec_float;
  tpr_OutputPerMillion : spec_float
}.
Definition PriceBook : Type := gmap string TokenPricing.

(** The decimal literal [z / 1000]. *)
Definition milli (z : Z) : spec_float := Float.div (Float.of_Z z) (Float.of_Z 1000).
Definition MaxFloat64 : spec_float := S754_finite false 9007199254740991 971.

(** ** The built-in catalog *)

Record defaultModel : Type := Build_defaultModel {
  dfm_Provider : string;
  dfm_Zone : string;
  dfm_InputUSD : spec_float;
  dfm_OutputUSD : spec_float
}.
Definition usdToEUR : spec_float := milli 920.

Definition defaultModels : gmap string defaultModel := list_to_map
  (map (fun '(id, provider, zone, input, output) => (id, Build_defaultModel provider zone (milli input) (milli output)))
    [("gpt-4o", "openai", "US", 2500, 10000); ("gpt-4o-mini", "openai", "US", 150, 600);
     ("gpt-4-turbo", "openai", "US", 10000, 30000); ("gpt-3.5-turbo", "openai", "US", 500, 1500);
     ("claude-3-5-sonnet", "anthropic", "US", 3000, 15000); ("claude-3-7-sonnet", "anthropic", "US", 3000, 15000);
     ("claude-3-5-haiku", "anthropic", "US", 800, 4000); ("claude-3-haiku", "anthropic", "US", 250, 1250);
     ("claude-3-opus", "anthropic", "US", 15000, 75000); ("mistral-large", "mistral", "EU", 2000, 6000);
     ("mistral-large-latest", "mistral", "EU", 2000, 6000); ("mistral-small", "mistral", "EU", 200, 600);
     ("mistral-small-latest", "mistral", "EU", 200, 600); ("gemini-1.5-pro", "vertex", "US", 1250, 5000);
     ("gemini-1.5-flash", "vertex", "US", 75, 300)]).

(** The text before, and after, the last byte [c]. *)
Fixpoint before_last (c : ascii) (s : string) : option string :=
  match s with
  | EmptyString => None
  | String a r => match before_last c r with
                  | Some x => Some (String a x)
                  | None => if Ascii.eqb a c then Some EmptyString else None
                  end
  end.
Fixpoint after_last (c : ascii) (s : string) : option string :=
  match s with
  | EmptyString => None
  | String a r => match after_last c r with Some x => Some x | None => if Ascii.eqb a c then Some r else None end
  end.

Definition isAllDigits (s : string) : bool :=
  negb (String.eqb s "") && forallb (fun b => (48 <=? b) && (b <=? 57))%N (bytes_of s).

Definition normalizeModel (model : string) : string :=
  let m := ToLower (TrimSpace model) in
  match before_last "-" m, after_last "-" m with
  | Some base, Some rest => if negb (String.eqb base "") && negb (String.eqb rest "") && isAllDigits rest then base else m
  | _, _ => m
  end.

Definition catalog_lookup (model : string) : option defaultModel :=
  match defaultModels !! ToLower (TrimSpace model) with Some d => Some d | None => defaultModels !! normalizeModel model end.

Definition Known (model : string) : bool := bool_decide (is_Some (catalog_lookup model)).
Definition PriceForModel (model : string) : option TokenPricing :=
  (fun d => Build_TokenPricing "EUR" (Float.mul (dfm_InputUSD d) usdToEUR) (Float.mul (dfm_OutputUSD d) usdToEUR))
  <$> catalog_lookup model.
Definition ZoneForModel (model : string) : string := match catalog_lookup model with Some d => dfm_Zone d | None => "" end.
Definition ProviderForModel (model : string) : string := match catalog_lookup model with Some d => dfm_Provider d | None => "" end.
Definition AllModelNames : gset string := dom defaultModels.
Definition DefaultPriceBook : PriceBook := map_imap (fun id _ => PriceForModel id) defaultModels.

(** ** Zones of endpoints *)

Definition knownHosts : list (string * (string * string)) :=
  [("api.openai.com", ("openai", "US")); ("api.anthropic.com", ("anthropic", "US")); ("api.mistral.ai", ("mistral", "EU"));
   ("api.cohere.ai", ("cohere", "US")); ("api.cohere.com", ("cohere", "US")); ("api.groq.com", ("groq", "US"));
   ("generativelanguage.googleapis.com", ("vertex", "US")); ("openai.azure.com", ("azure-openai", ""));
   ("cognitiveservices.azure.com", ("azure-openai", "")); ("services.ai.azure.com", ("azure-openai", ""));
   ("amazonaws.com", ("bedrock", "")); ("aiplatform.googleapis.com", ("vertex", ""))].

Definition regionPrefixes : list (string * string) :=
  [("europe", "EU"); ("eu-", "EU"); ("francecentral", "FR"); ("westeurope", "EU"); ("northeurope", "EU");
   ("swedencentral", "EU"); ("germanywestcentral", "EU"); ("us-", "US"); ("eastus", "US"); ("westus", "US");
   ("centralus", "US"); ("uksouth", "GB"); ("ukwest", "GB"); ("uk-", "GB"); ("ap-", "AP"); ("asia", "AP");
   ("australia", "AP"); ("cn-", "CN"); ("china", "CN")].

Fixpoint cut_before (stop : ascii -> bool) (s : string) : string :=
  match s with EmptyString => EmptyString | String a r => if stop a then EmptyString else String a (cut_before stop r) end.

Definition hostOf (endpoint : string) : string :=
  let h := TrimSpace (ToLower endpoint) in
  let h := match String.index 0 "://" h with
           | Some i => String.substring (i + 3) (String.length h) h
           | None => h
           end in
  let h := cut_before (fun a => Ascii.eqb a "/" || Ascii.eqb a "?" || Ascii.eqb a "#") h in
  let h := default h (after_last "@" h) in
  default h (before_last ":" h).

Fixpoint split_labels (acc : string) (s : string) : list string :=
  match s with
  | EmptyString => [acc]
  | String a r => if Ascii.eqb a "." then acc :: split_labels "" r else split_labels (acc +:+ String a EmptyString) r
  end.

(** [strings.HasSuffix]. *)
Definition has_suffix (s suffix : string) : bool :=
  (String.length suffix <=? String.length s)%nat
  && String.eqb (String.substring (String.length s - String.length suffix) (String.length suffix) s) suffix.

Definition zoneFromRegionToken (host : string) : string :=
  match List.find (fun label => existsb (fun rp => HasPrefix label rp.1) regionPrefixes) (split_labels "" host) with
  | Some label => match List.find (fun rp => HasPrefix label rp.1) regionPrefixes with
                  | Some rp => NormalizeZone rp.2
                  | None => ""
                  end
  | None => ""
  end.

Definition serves_host (host suffix : string) : bool :=
  String.eqb host suffix || has_suffix host ("." +:+ suffix) || has_suffix host ("-" +:+ suffix).
Definition longest_host (host : string) : option (string * (string * string)) :=
  fold_left (fun best kh =>
    if serves_host host kh.1
       && (match best with Some b => String.length b.1 | None => 0%nat end <? String.length kh.1)%nat
    then Some kh else best) knownHosts None.

Definition EndpointToZone (endpoint : string) : string * string :=
  let host := hostOf endpoint in
  if String.eqb host "" then ("", "")
  else match longest_host host with
  | None => ("", "")
  | Some (_, (provider, zone)) => (if String.eqb zone "" then zoneFromRegionToken host else zone, provider)
  end.

(** ** The catalog of a namespace *)

Record catalog : Type := Build_catalog {
  cat_providers : gmap string AIProvider;
  cat_models : list AIModel
}.

(** [resource.Quantity.AsApproximateFloat64], and the order in which a [range]
    visits the keys of a map. *)
Class FinOps : Type := {
  AsApproximateFloat64 : Quantity -> spec_float;
  range_order : list string -> list string
}.

Definition policyToEngine (allowedZones forbiddenZones : list string) (externalProvidersAllowed requireAnonymization : bool) : Policy :=
  Build_Policy allowedZones forbiddenZones externalProvidersAllowed requireAnonymization.

Definition orDefault (v d : string) : string := if String.eqb v "" then d else v.

Section catalog.
Context `{FinOps}.

Definition model_price (prov : AIProvider) : TokenPricing :=
  let p := ps_Pricing (prov_Spec prov) in
  Build_TokenPricing (orDefault (pp_Currency p) "EUR") (AsApproximateFloat64 (pp_InputTokenPricePerMillion p))
    (AsApproximateFloat64 (pp_OutputTokenPricePerMillion p)).

Definition priceBook (c : catalog) : PriceBook :=
  fold_left (fun pb m => match cat_providers c !! ms_ProviderRef (model_Spec m) with
                         | None => pb
                         | Some prov => <[ms_ModelName (model_Spec m) := model_price prov]> pb
                         end) (cat_models c) DefaultPriceBook.

Definition modelByName (c : catalog) (name : string) : option AIModel :=
  List.find (fun m => String.eqb (om_Name (model_Meta m)) name) (cat_models c).

Fixpoint catalog_zone (providers : gmap string AIProvider) (models : list AIModel) (modelName : string) : option string :=
  match models with
  | [] => None
  | m :: rest =>
    if negb (String.eqb (ms_ModelName (model_Spec m)) modelName) then catalog_zone providers rest modelName
    else match providers !! ms_ProviderRef (model_Spec m) with
    | Some prov => Some (NormalizeZone (ps_DataResidency (prov_Spec prov)))
    | None => catalog_zone providers rest modelName
    end
  end.
Definition zoneForModel (c : catalog) (modelName : string) : string :=
  match catalog_zone (cat_providers c) (cat_models c) modelName with Some z => z | None => ZoneForModel modelName end.

Definition cheaper (pe : Policy) (c : catalog) (pb : PriceBook) (best : string * spec_float) (name : string) : string * spec_float :=
  match pb !! name with
  | None => best
  | Some p =>
    if negb (IsZoneAllowed pe (zoneForModel c name)) then best
    else let price := Float.add (tpr_InputPerMillion p) (tpr_OutputPerMillion p) in
         if SFltb price best.2 then (name, price) else best
  end.
Definition cheapestCompliantModelName (c : catalog) (pe : Policy) : string :=
  let pb := priceBook c in
  (fold_left (cheaper pe c pb) (range_order (map fst (map_to_list pb))) ("", MaxFloat64)).1.

Definition modelSensitivity (c : catalog) (modelName : string) : bool * bool :=
  match List.find (fun m => String.eqb (ms_ModelName (model_Spec m)) modelName) (cat_models c) with
  | Some m => (ms_SensitiveDataAllowed (model_Spec m), true)
  | None => (false, false)
  end.

(** The flow of a sample; a flow that neither its provider nor its model places is
    left out. *)
Definition flow_of (c : catalog) (s : UsageSample) : option Flow :=
  let '(zone, managed, sensitive) :=
    match cat_providers c !! smp_Provider s with
    | Some p => (ps_DataResidency (prov_Spec p), ps_Managed (prov_Spec p),
                 comp_AllowedForSensitiveData (ps_Compliance (prov_Spec p)))
    | None => ("", false, false)
    end in
  let dz := ZoneForModel (smp_Model s) in
  let derived := String.eqb (NormalizeZone zone) "" && negb (String.eqb dz "") in
  let zone := if derived then dz else zone in
  let managed := derived || managed in
  let provider := if derived && String.eqb (smp_Provider s) "" then ProviderForModel (smp_Model s) else smp_Provider s in
  if String.eqb (NormalizeZone zone) "" && String.eqb (smp_Provider s) "" then None
  else Some (Build_Flow (smp_Namespace s) (smp_Application s) (smp_Model s) provider zone managed sensitive
               (modelSensitivity c (smp_Model s)).1 (smp_Requests s)).
Definition flows (c : catalog) (samples : list UsageSample) : list Flow := omap (flow_of c) samples.

Definition unknown_models (c : catalog) (samples : list UsageSample) : list string :=
  (fold_left (fun '(out, seen) s =>
     let m := smp_Model s in
     if String.eqb m "" || one_of m seen then (out, seen)
     else (if existsb (fun x => String.eqb (ms_ModelName (model_Spec x)) m) (cat_models c) || Known m then out else out ++ [m],
           m :: seen)) samples ([], [])).1.

(** [budgetTargetMatchesSample]; [filterByBudgetTarget] keeps the matching samples. *)
Definition budgetTargetMatchesSample (s : UsageSample) (t : BudgetTarget) : bool :=
  (String.eqb (tgt_Namespace t) "" || String.eqb (smp_Namespace s) (tgt_Namespace t))
  && (String.eqb (tgt_Team t) "" || String.eqb (smp_Team s) (tgt_Team t))
  && (String.eqb (tgt_Application t) "" || String.eqb (smp_Application s) (tgt_Application t)).
Definition filterByBudgetTarget (samples : list UsageSample) (t : BudgetTarget) : list UsageSample :=
  filter (fun s => budgetTargetMatchesSample s t = true) samples.
Definition filterByNamespace (samples : list UsageSample) (namespace : string) : list UsageSample :=
  if String.eqb namespace "" then samples else filter (fun s => smp_Namespace s = namespace) samples.
End catalog.

Example azure_zone : EndpointToZone "https://acme.openai.azure.com/x" = ("", "azure-openai").
Proof. vm_compute. reflexivity. Qed.
Example vertex_zone : EndpointToZone "europe-west4-aiplatform.googleapis.com:443" = ("EU", "vertex").
Proof. vm_compute. reflexivity. Qed.
Example bedrock_zone : EndpointToZone "https://user@bedrock.eu-west-1.amazonaws.com/m?x" = ("EU", "bedrock").
Proof. vm_compute. reflexivity. Qed.
Example dated_model : ZoneForModel "Claude-3-5-Sonnet-20241022" = "US".
Proof. vm_compute. reflexivity. Qed.
