(* ===== verification/GatewayRoutes.v ===== *)
(** * Gateway routes

    The rules of an Envoy AIGatewayRoute and the controls that the sovereignty and
    budget controllers apply to them: [internal/gatewayreroute] and
    [internal/controller/gatewayactuator.go]. A rule is the JSON value that the
    unstructured client decodes; a Go map is an association list whose entries are
    changed in place. The two listings of the routes in one reconciliation answer the
    same, and an annotation [null], which leaves the code a nil map to write to, is
    read as the empty map. *)

From Stdlib Require Import ZArith Lia Ascii String SpecFloat.
From stdpp Require Import base gmap strings list pretty.
From S2P Require Import Prelude Digest GoTime Json JsonDecode.

Open Scope string_scope.
Open Scope list_scope.
Open Scope Z_scope.
Open Scope go_scope.

(** ** JSON objects as maps *)

Fixpoint get_member (k : string) (l : list (string * jvalue)) : option jvalue :=
  match l with [] => None | (k', v) :: rest => if String.eqb k' k then Some v else get_member k rest end.
Fixpoint set_member (k : string) (v : jvalue) (l : list (string * jvalue)) : list (string * jvalue) :=
  match l with
  | [] => [(k, v)]
  | (k', old) :: rest => if String.eqb k' k then (k', v) :: rest else (k', old) :: set_member k v rest
  end.
Definition delete_member (k : string) (l : list (string * jvalue)) : list (string * jvalue) :=
  filter (fun m => m.1 <> k) l.

(** [unstructured.NestedSlice] and [NestedString] of one field, their error
    ignored. *)
Definition NestedSlice (l : list (string * jvalue)) (k : string) : list jvalue :=
  match get_member k l with Some (JArray items) => items | _ => [] end.
Definition NestedString (l : list (string * jvalue)) (k : string) : string :=
  match get_member k l with Some (JString s) => s | _ => "" end.

(** ** Rules *)

Definition ModelHeaderName : string := "x-ai-eg-model".
Definition BlockBackendName : string := "aiops-blocked".

Fixpoint header_model (headers : list jvalue) : option string :=
  match headers with
  | [] => None
  | JObject h :: rest =>
    if String.eqb (NestedString h "name") ModelHeaderName then Some (NestedString h "value") else header_model rest
  | _ :: rest => header_model rest
  end.
Fixpoint match_model (matches : list jvalue) : option string :=
  match matches with
  | [] => None
  | JObject m :: rest =>
    match header_model (NestedSlice m "headers") with Some v => Some v | None => match_model rest end
  | _ :: rest => match_model rest
  end.
Definition RuleModel (rule : list (string * jvalue)) : string := default "" (match_model (NestedSlice rule "matches")).

Definition firstBackend (rule : list (string * jvalue)) : option (list (string * jvalue) * list jvalue) :=
  match NestedSlice rule "backendRefs" with JObject b0 :: rest => Some (b0, rest) | _ => None end.

(** The rule with its first backend replaced. *)
Definition set_backend (rule : list (string * jvalue)) (b0 : list (string * jvalue)) (rest : list jvalue) : jvalue :=
  JObject (set_member "backendRefs" (JArray (JObject b0 :: rest)) rule).

Definition model_mutation (target : string) : jvalue :=
  JObject [("set", JArray [JObject [("path", JString "model"); ("value", JString target)]])].
Definition reroute_backend (b0 : list (string * jvalue)) (backend target : string) : list (string * jvalue) :=
  set_member "bodyMutation" (model_mutation target) (set_member "name" (JString backend) b0).
Definition plain_backend (b0 : list (string * jvalue)) (backend : string) : list (string * jvalue) :=
  delete_member "bodyMutation" (set_member "name" (JString backend) b0).

(** ** Controls *)

(** What a policy wants: the target of each rerouted model, and the blocked ones. *)
Record controls : Type := Build_controls { ctl_reroutes : gmap string string; ctl_blocked : gset string }.
Definition no_controls : controls := Build_controls ∅ ∅.

(** The state of [ApplyControls] over the rules: the saved originals and its
    result. *)
Record control_state : Type := Build_control_state {
  cs_saved : gmap string string;
  cs_rerouted : gset string;
  cs_blocked : gset string;
  cs_changed : bool
}.
Definition save_original (saved : gmap string string) (model : string) (b0 : list (string * jvalue)) : gmap string string :=
  match saved !! model with Some _ => saved | None => <[model := NestedString b0 "name"]> saved end.

Definition apply_rule (c : controls) (backends : gmap string string) (st : control_state) (value : jvalue)
    : jvalue * control_state :=
  match value with
  | JObject rule =>
    let model := RuleModel rule in
    if String.eqb model "" then (value, st)
    else match firstBackend rule with
    | None => (value, st)
    | Some (b0, rest) =>
      let saved := cs_saved st in
      match ctl_reroutes c !! model with
      | Some target =>
        let backend := default "" (backends !! target) in
        if String.eqb backend "" then (value, st)
        else (set_backend rule (reroute_backend b0 backend target) rest,
              Build_control_state (save_original saved model b0) ({[model]} ∪ cs_rerouted st) (cs_blocked st) true)
      | None =>
        if bool_decide (model ∈ ctl_blocked c)
        then (set_backend rule (plain_backend b0 BlockBackendName) rest,
              Build_control_state (save_original saved model b0) (cs_rerouted st) ({[model]} ∪ cs_blocked st) true)
        else match saved !! model with
        | Some orig => (set_backend rule (plain_backend b0 orig) rest,
                        Build_control_state (delete model saved) (cs_rerouted st) (cs_blocked st) true)
        | None => (value, st)
        end
      end
    end
  | _ => (value, st)
  end.

Fixpoint apply_rules (c : controls) (backends : gmap string string) (st : control_state) (rules : list jvalue)
    : list jvalue * control_state :=
  match rules with
  | [] => ([], st)
  | rule :: rest =>
    let '(rule, st) := apply_rule c backends st rule in
    let '(rest, st) := apply_rules c backends st rest in (rule :: rest, st)
  end.
Definition ApplyControls (rules : list jvalue) (saved : gmap string string) (c : controls) (backends : gmap string string)
    : list jvalue * control_state :=
  apply_rules c backends (Build_control_state saved ∅ ∅ false) rules.

(** ** Routes *)

Record Route : Type := Build_Route { rte_Name : string; rte_Annotations : gmap string string; rte_Rules : list jvalue }.

Definition sovereigntyRerouteAnnotation : string := "aiops.imperium.io/enforced-reroutes".
Definition budgetRerouteAnnotation : string := "aiops.imperium.io/budget-fallback-reroutes".

(** The backend that a rule serves its model from. *)
Definition served_backend (value : jvalue) : option (string * string) :=
  match value with
  | JObject rule =>
    let model := RuleModel rule in
    if String.eqb model "" then None
    else match firstBackend rule with
    | Some (b0, _) => let name := NestedString b0 "name" in
                      if String.eqb name "" || String.eqb name BlockBackendName then None else Some (model, name)
    | None => None
    end
  | _ => None
  end.
Definition add_backend (out : gmap string string) (value : jvalue) : gmap string string :=
  match served_backend value with
  | Some (model, name) => match out !! model with Some _ => out | None => <[model := name]> out end
  | None => out
  end.
Definition modelBackends (routes : list Route) : gmap string string :=
  fold_left (fun out route => fold_left add_backend (rte_Rules route) out) routes ∅.

(** [json.Unmarshal] of an annotation into a map of strings, its error ignored: a
    member that is no string becomes the empty one. *)
Definition decode_saved (text : string) : gmap string string :=
  if String.eqb text "" then ∅
  else match json_parse text with
  | Some (JObject l) => fold_left (fun m '(k, v) => <[k := match v with JString s => s | _ => "" end]> m) l ∅
  | _ => ∅
  end.
(** [json.Marshal] of a map orders its keys. *)
Definition encode_saved (saved : gmap string string) : string :=
  jtext (JObject (map (fun '(k, v) => (k, JString v)) (sort_slice (fun a b => string_ltb a.1 b.1) (map_to_list saved)))).

Definition saved_of (key : string) (route : Route) : gmap string string := decode_saved (default "" (rte_Annotations route !! key)).
Definition annotate (key : string) (saved : gmap string string) (annotations : gmap string string) : gmap string string :=
  if bool_decide (saved = ∅) then delete key annotations else <[key := encode_saved saved]> annotations.

Definition actuate_route (c : controls) (backends : gmap string string) (key : string) (route : Route) : Route * control_state :=
  let '(rules, st) := ApplyControls (rte_Rules route) (saved_of key route) c backends in
  (if cs_changed st then Build_Route (rte_Name route) (annotate key (cs_saved st) (rte_Annotations route)) rules else route, st).

(** The API server answers the listing of the routes: a kind that is not installed
    is told apart. *)
Inductive listing : Type := Listed (routes : list Route) | NoMatch | ListFailed (message : string).
Definition actuation : Type := gset string * gset string.

(** The routes in the order of the list; [update] answers the writes, and a failed
    one leaves its route and ends the loop. *)
Fixpoint actuate_routes (update : Route -> option error) (c : controls) (backends : gmap string string) (key : string)
    (out : actuation) (routes : list Route) : list Route * actuation * option error :=
  match routes with
  | [] => ([], out, None)
  | route :: rest =>
    let '(route', st) := actuate_route c backends key route in
    let out := (out.1 ∪ cs_rerouted st, out.2 ∪ cs_blocked st) in
    match (if cs_changed st then update route' else None) with
    | Some m => (route :: rest, out, Some m)
    | None =>
      let '(rest, out, err) := actuate_routes update c backends key out rest in (route' :: rest, out, err)
    end
  end.

Definition routeControlsEmpty (c : controls) : bool := bool_decide (ctl_reroutes c = ∅) && bool_decide (ctl_blocked c = ∅).

Definition actuateRouteControlsWithAnnotation (update : Route -> option error) (cluster : listing) (c : controls) (key : string)
    : listing * actuation * option error :=
  match cluster with
  | NoMatch => (cluster, (∅, ∅), if routeControlsEmpty c then None else Some "no matches for kind"%string)
  | ListFailed m => (cluster, (∅, ∅), Some m)
  | Listed routes =>
    let '(routes, out, err) := actuate_routes update c (modelBackends routes) key (∅, ∅) routes in (Listed routes, out, err)
  end.
