(* ===== verification/FinOps.v ===== *)
(** * The cost engines

    [internal/costengine], [internal/budgetengine], [internal/breakevenengine],
    [internal/routingscore] and [internal/recommendationengine]: pure functions of
    usage samples and prices, in [float64]. *)

From Stdlib Require Import ZArith Lia Ascii String SpecFloat.
From stdpp Require Import base gmap strings list pretty.
From S2P Require Import Prelude Float64 Api Json Sovereignty Catalog.

Open Scope string_scope.
Open Scope list_scope.
Open Scope Z_scope.
Open Scope go_scope.

(** ** Numbers *)

(** A finite value as a numerator and a positive denominator. *)
Definition ratio (x : spec_float) : option (Z * Z) :=
  match x with
  | S754_zero _ => Some (0, 1)
  | S754_finite s m e =>
    let v := if s then Z.neg m else Z.pos m in
    Some (if 0 <=? e then (Z.shiftl v e, 1) else (v, 2 ^ (- e)))
  | _ => None
  end.
Definition negative (x : spec_float) : bool :=
  match x with S754_zero s | S754_infinity s | S754_finite s _ _ => s | S754_nan => false end.

(** [math.Round] of a finite value: halves away from zero. *)
Definition round_half_away (n d : Z) : Z := Z.sgn n * ((2 * Z.abs n + d) / (2 * d)).
(** The nearest integer, halves to the even one. *)
Definition round_half_even (n d : Z) : Z :=
  let q := n / d in
  let r := n mod d in
  if 2 * r <? d then q else if d <? 2 * r then q + 1 else if Z.even q then q else q + 1.

Definition pad_zeros (width : nat) (s : string) : string := String.concat "" (repeat "0" (width - String.length s)) +:+ s.
(** The verb [%.nf]. *)
Definition format_f (n : nat) (x : spec_float) : string :=
  match x, ratio x with
  | S754_nan, _ => "NaN"
  | S754_infinity s, _ => if s then "-Inf" else "+Inf"
  | _, Some (p, d) =>
    let scale := 10 ^ Z.of_nat n in
    let v := round_half_even (Z.abs p * scale) d in
    (if negative x then "-" else "") +:+ sprint (v / scale)
      +:+ (if (n =? 0)%nat then "" else "." +:+ pad_zeros n (sprint (v mod scale)))
  | _, None => ""
  end.

Definition zero : spec_float := S754_zero false.
Definition one : spec_float := Float.of_Z 1.
Definition million : spec_float := Float.of_Z 1000000.
(** [float64(in)/1e6*p.In + float64(out)/1e6*p.Out]. *)
Definition token_cost (p : TokenPricing) (input output : Z) : spec_float * spec_float :=
  (Float.mul (Float.div (Float.of_Z input) million) (tpr_InputPerMillion p),
   Float.mul (Float.div (Float.of_Z output) million) (tpr_OutputPerMillion p)).
Definition priced (p : TokenPricing) (input output : Z) : spec_float :=
  let '(a, b) := token_cost p input output in Float.add a b.

(** ** Cost *)

Record LineItem : Type := Build_LineItem {
  lin_Key : string;
  lin_Requests : Z;
  lin_InputTokens : Z;
  lin_OutputTokens : Z;
  lin_CostInput : spec_float;
  lin_CostOutput : spec_float;
  lin_CostTotal : spec_float
}.
Definition zero_line : LineItem := Build_LineItem "" 0 0 0 zero zero zero.
Definition TotalTokens (l : LineItem) : Z := lin_InputTokens l +i lin_OutputTokens l.

Record Breakdown : Type := Build_Breakdown {
  brk_Currency : string;
  brk_Total : LineItem;
  brk_ByModel : gmap string LineItem;
  brk_ByProvider : gmap string LineItem;
  brk_ByNamespace : gmap string LineItem;
  brk_ByTeam : gmap string LineItem;
  brk_ByApplication : gmap string LineItem;
  brk_UnpricedModels : list string
}.

Definition no_price : TokenPricing := Build_TokenPricing "" zero zero.
Definition add_sample (l : LineItem) (key : string) (s : UsageSample) (cost : spec_float * spec_float) : LineItem :=
  Build_LineItem key (lin_Requests l +i smp_Requests s) (lin_InputTokens l +i smp_InputTokens s)
    (lin_OutputTokens l +i smp_OutputTokens s) (Float.add (lin_CostInput l) cost.1) (Float.add (lin_CostOutput l) cost.2)
    (Float.add (lin_CostTotal l) (Float.add cost.1 cost.2)).
Definition add_line (m : gmap string LineItem) (key : string) (s : UsageSample) (cost : spec_float * spec_float) : gmap string LineItem :=
  if String.eqb key "" then m else <[key := add_sample (default zero_line (m !! key)) key s cost]> m.

Definition add_to_breakdown (prices : PriceBook) (b : Breakdown) (s : UsageSample) : Breakdown :=
  let p := default no_price (prices !! smp_Model s) in
  let cost := token_cost p (smp_InputTokens s) (smp_OutputTokens s) in
  Build_Breakdown (if String.eqb (brk_Currency b) "" && negb (String.eqb (tpr_Currency p) "") then tpr_Currency p else brk_Currency b)
    (add_sample (brk_Total b) "total" s cost)
    (add_line (brk_ByModel b) (smp_Model s) s cost) (add_line (brk_ByProvider b) (smp_Provider s) s cost)
    (add_line (brk_ByNamespace b) (smp_Namespace s) s cost) (add_line (brk_ByTeam b) (smp_Team s) s cost)
    (add_line (brk_ByApplication b) (smp_Application s) s cost) (brk_UnpricedModels b).
Definition empty_breakdown : Breakdown := Build_Breakdown "" zero_line ∅ ∅ ∅ ∅ ∅ [].

Definition unpriced (samples : list UsageSample) (prices : PriceBook) : list string :=
  sort_slice string_ltb (elements (list_to_set (omap (fun s => match prices !! smp_Model s with
                                                               | Some _ => None | None => Some (smp_Model s) end) samples) : gset string)).
(** [costengine.Compute]. *)
Definition compute_costs (samples : list UsageSample) (prices : PriceBook) : Breakdown :=
  let b := fold_left (add_to_breakdown prices) samples empty_breakdown in
  Build_Breakdown (brk_Currency b) (brk_Total b) (brk_ByModel b) (brk_ByProvider b) (brk_ByNamespace b) (brk_ByTeam b)
    (brk_ByApplication b) (unpriced samples prices).

Definition AvgCostPerRequest (b : Breakdown) : spec_float :=
  if lin_Requests (brk_Total b) =? 0 then zero else Float.div (lin_CostTotal (brk_Total b)) (Float.of_Z (lin_Requests (brk_Total b))).
Definition CostPerToken (b : Breakdown) : spec_float :=
  let t := TotalTokens (brk_Total b) in if t =? 0 then zero else Float.div (lin_CostTotal (brk_Total b)) (Float.of_Z t).

Definition cost_less (a b : LineItem) : bool :=
  if negb (SFeqb (lin_CostTotal a) (lin_CostTotal b)) then SFltb (lin_CostTotal b) (lin_CostTotal a)
  else string_ltb (lin_Key a) (lin_Key b).
Definition TopByCost (m : gmap string LineItem) (n : Z) : list LineItem :=
  let items := sort_slice cost_less (map snd (map_to_list m)) in
  if (0 <? n) && (n <? Z.of_nat (length items)) then take (Z.to_nat n) items else items.

(** ** Budget *)

Definition PhaseUnknown : string := "Unknown".
Definition PhaseWithinBudget : string := "WithinBudget".
Definition PhaseWarning : string := "Warning".
Definition PhaseCritical : string := "Critical".
Definition PhaseExceeded : string := "Exceeded".

Record Thresholds : Type := Build_Thresholds { thr_WarningPct : Z; thr_CriticalPct : Z; thr_HardLimitPct : Z }.

Record BudgetResult : Type := Build_BudgetResult {
  bud_Phase : string;
  bud_UsagePercent : Z;
  bud_SpendEUR : spec_float;
  bud_BudgetEUR : spec_float;
  bud_TriggeredActions : list string;
  bud_Message : string
}.

Definition in_int32 (z : Z) : bool := (-2147483648 <=? z) && (z <=? 2147483647).

(** [int32(x)] of a value that no [int32] holds depends on the processor. *)
Class Processor : Type := overflow_int32 : spec_float -> Z.

Section budget.
Context `{Processor}.

(** [int32(math.Round(x))]. *)
Definition rounded_int32 (x : spec_float) : Z :=
  match ratio x with
  | Some (n, d) => let z := round_half_away n d in if in_int32 z then z else overflow_int32 x
  | None => overflow_int32 x
  end.

(** The phase and the actions of a percentage. *)
Definition budget_phase (pct : Z) (t : Thresholds) (a : BudgetActions) : string * list string :=
  if thr_HardLimitPct t <=? pct then (PhaseExceeded, ba_OnHardLimit a)
  else if thr_CriticalPct t <=? pct then (PhaseCritical, ba_OnCritical a)
  else if thr_WarningPct t <=? pct then (PhaseWarning, ba_OnWarning a)
  else (PhaseWithinBudget, []).

(** [budgetengine.Evaluate]. *)
Definition evaluate_budget (spend budget : spec_float) (t : Thresholds) (a : BudgetActions) : BudgetResult :=
  if SFleb budget zero
  then Build_BudgetResult PhaseUnknown 0 spend budget [] "budget not set or non-positive; cannot evaluate usage"
  else
    let pct := rounded_int32 (Float.mul (Float.div spend budget) (Float.of_Z 100)) in
    let '(phase, actions) := budget_phase pct t a in
    Build_BudgetResult phase pct spend budget actions
      (format_f 2 spend +:+ " / " +:+ format_f 2 budget +:+ " EUR consumed (" +:+ sprint pct +:+ "%) — " +:+ phase).
End budget.

(** ** Break-even *)

Record BreakEvenInputs : Type := Build_BreakEvenInputs {
  bei_ManagedTokenCostMonthly : spec_float;
  bei_ProviderFixedMonthly : spec_float;
  bei_GpuMonthly : spec_float;
  bei_OpsMonthly : spec_float;
  bei_StorageNetworkMonthly : spec_float;
  bei_MigrationCost : spec_float
}.
Record BreakEvenResult : Type := Build_BreakEvenResult {
  ber_ManagedMonthly : spec_float;
  ber_SelfHostedMonthly : spec_float;
  ber_MonthlySavings : spec_float;
  ber_PaybackMonths : spec_float;
  ber_HasPayback : bool;
  ber_Recommendation : string;
  ber_Message : string
}.

(** [math.Round]. *)
Definition math_round (x : spec_float) : spec_float :=
  match x, ratio x with
  | S754_finite s m e, Some (n, d) =>
    let z := round_half_away n d in if z =? 0 then S754_zero s else Float.of_Z z
  | _, _ => x
  end.

Definition Analyze (i : BreakEvenInputs) (paybackThreshold : spec_float) : BreakEvenResult :=
  let threshold := if SFleb paybackThreshold zero then Float.of_Z 6 else paybackThreshold in
  let managed := Float.add (bei_ManagedTokenCostMonthly i) (bei_ProviderFixedMonthly i) in
  let self := Float.add (Float.add (bei_GpuMonthly i) (bei_OpsMonthly i)) (bei_StorageNetworkMonthly i) in
  let savings := Float.sub managed self in
  if SFleb savings zero
  then Build_BreakEvenResult managed self savings zero false "keep-managed"
         ("Self-hosting costs " +:+ format_f 2 self +:+ "/mo vs managed " +:+ format_f 2 managed
          +:+ "/mo — no monthly saving; keep managed.")
  else
    let payback := if SFleb (bei_MigrationCost i) zero then zero
                   else Float.div (math_round (Float.mul (Float.div (bei_MigrationCost i) savings) (Float.of_Z 10))) (Float.of_Z 10) in
    if SFleb payback threshold
    then Build_BreakEvenResult managed self savings payback true "self-host"
           ("Self-hosting saves " +:+ format_f 2 savings +:+ "/mo; migration pays back in " +:+ format_f 1 payback
            +:+ " months — recommend self-host.")
    else Build_BreakEvenResult managed self savings payback true "investigate"
           ("Self-hosting saves " +:+ format_f 2 savings +:+ "/mo but payback is " +:+ format_f 1 payback
            +:+ " months (> " +:+ format_f 0 threshold +:+ ") — investigate.").

Definition ExtrapolateMonthly (windowCost : spec_float) (windowDays : Z) : spec_float :=
  if windowDays <=? 0 then windowCost else Float.div (Float.mul windowCost (Float.of_Z 30)) (Float.of_Z windowDays).

(** ** Routing scores *)

Record Weights : Type := Build_Weights { wgt_Cost : spec_float; wgt_Quality : spec_float; wgt_Latency : spec_float; wgt_Reliability : spec_float }.
Definition DefaultWeights : Weights := Build_Weights (milli 400) (milli 300) (milli 200) (milli 100).
(** [weights == (Weights{})]: a negative zero equals zero. *)
Definition zero_weights (w : Weights) : bool :=
  SFeqb (wgt_Cost w) zero && SFeqb (wgt_Quality w) zero && SFeqb (wgt_Latency w) zero && SFeqb (wgt_Reliability w) zero.

Record ModelInfo : Type := Build_ModelInfo { mif_QualityTier : string; mif_SovereigntyChecked : bool; mif_SovereigntyCompliant : bool }.

Record Score : Type := Build_Score {
  scr_Namespace : string;
  scr_Application : string;
  scr_Model : string;
  scr_Provider : string;
  scr_Requests : Z;
  scr_InputTokens : Z;
  scr_OutputTokens : Z;
  scr_Errors : Z;
  scr_CostEUR : spec_float;
  scr_CostPerRequestEUR : spec_float;
  scr_ObservedLatencyMillis : spec_float;
  scr_LatencyTelemetryAvailable : bool;
  scr_LatencySource : string;
  scr_CostScore : spec_float;
  scr_QualityScore : spec_float;
  scr_LatencyScore : spec_float;
  scr_ReliabilityScore : spec_float;
  scr_SovereigntyCompliant : bool;
  scr_Score : spec_float;
  scr_latencyWeight : spec_float
}.
#[export] Instance eta_Score : Eta Score := fun s =>
  Build_Score (scr_Namespace s) (scr_Application s) (scr_Model s) (scr_Provider s) (scr_Requests s) (scr_InputTokens s)
    (scr_OutputTokens s) (scr_Errors s) (scr_CostEUR s) (scr_CostPerRequestEUR s) (scr_ObservedLatencyMillis s)
    (scr_LatencyTelemetryAvailable s) (scr_LatencySource s) (scr_CostScore s) (scr_QualityScore s) (scr_LatencyScore s)
    (scr_ReliabilityScore s) (scr_SovereigntyCompliant s) (scr_Score s) (scr_latencyWeight s).

Definition clamp01 (v : spec_float) : spec_float := if SFltb v zero then zero else if SFltb one v then one else v.
Definition inverseNormalized (v lo hi : spec_float) : spec_float :=
  if SFleb hi lo then one else clamp01 (Float.sub one (Float.div (Float.sub v lo) (Float.sub hi lo))).
Definition qualityScore (tier : string) : spec_float :=
  if String.eqb tier "high" then one else if String.eqb tier "medium" then milli 750
  else if String.eqb tier "low" then milli 500 else milli 600.
Definition reliabilityScore (requests errors : Z) : spec_float :=
  if requests <=? 0 then one else clamp01 (Float.sub one (Float.div (Float.of_Z errors) (Float.of_Z requests))).

Definition group_key (s : UsageSample) : string :=
  smp_Namespace s +:+ separator +:+ smp_Application s +:+ separator +:+ smp_Model s +:+ separator +:+ smp_Provider s.
Definition new_group (models : gmap string ModelInfo) (s : UsageSample) : Score :=
  let info := models !! smp_Model s in
  let compliant := match info with Some i => if mif_SovereigntyChecked i then mif_SovereigntyCompliant i else true | None => true end in
  Build_Score (smp_Namespace s) (smp_Application s) (smp_Model s) (smp_Provider s) 0 0 0 0 zero zero zero false "" zero
    (qualityScore (match info with Some i => mif_QualityTier i | None => "" end)) zero zero compliant zero zero.
Definition add_to_group (g : Score) (s : UsageSample) : Score :=
  let g := g <| scr_Requests := scr_Requests g +i smp_Requests s |> <| scr_InputTokens := scr_InputTokens g +i smp_InputTokens s |>
             <| scr_OutputTokens := scr_OutputTokens g +i smp_OutputTokens s |> <| scr_Errors := scr_Errors g +i smp_Errors s |> in
  if SFltb zero (smp_LatencyMillis s) && (0 <? smp_Requests s)
  then g <| scr_LatencyTelemetryAvailable := true |>
         <| scr_latencyWeight := Float.add (scr_latencyWeight g) (Float.of_Z (smp_Requests s)) |>
         <| scr_ObservedLatencyMillis :=
              Float.add (scr_ObservedLatencyMillis g) (Float.mul (smp_LatencyMillis s) (Float.of_Z (smp_Requests s))) |>
  else g.
Definition group_costs (prices : PriceBook) (g : Score) : Score :=
  let cost := match prices !! scr_Model g with
              | Some p => priced p (scr_InputTokens g) (scr_OutputTokens g)
              | None => scr_CostEUR g
              end in
  g <| scr_CostEUR := cost |>
    <| scr_CostPerRequestEUR := if 0 <? scr_Requests g then Float.div cost (Float.of_Z (scr_Requests g)) else scr_CostPerRequestEUR g |>
    <| scr_ObservedLatencyMillis := if scr_LatencyTelemetryAvailable g && SFltb zero (scr_latencyWeight g)
                                    then Float.div (scr_ObservedLatencyMillis g) (scr_latencyWeight g)
                                    else scr_ObservedLatencyMillis g |>.
Definition aggregateSamples (samples : list UsageSample) (prices : PriceBook) (models : gmap string ModelInfo) : gmap string Score :=
  group_costs prices <$>
    fold_left (fun groups s => <[group_key s := add_to_group (default (new_group models s) (groups !! group_key s)) s]> groups)
      samples ∅.

Definition lower (a b : spec_float) : spec_float := if SFltb b a then b else a.
Definition higher (a b : spec_float) : spec_float := if SFltb a b then b else a.
Record bounds : Type := Build_bounds { bnd_minCost : spec_float; bnd_maxCost : spec_float; bnd_minLatency : spec_float; bnd_maxLatency : spec_float }.
Definition widen (b : bounds) (g : Score) : bounds :=
  let cost := scr_CostPerRequestEUR g in
  let latency := scr_ObservedLatencyMillis g in
  Build_bounds (lower (bnd_minCost b) cost) (higher (bnd_maxCost b) cost)
    (if scr_LatencyTelemetryAvailable g then lower (bnd_minLatency b) latency else bnd_minLatency b)
    (if scr_LatencyTelemetryAvailable g then higher (bnd_maxLatency b) latency else bnd_maxLatency b).

Definition final_score (w : Weights) (b : bounds) (g : Score) : Score :=
  let cost := inverseNormalized (scr_CostPerRequestEUR g) (bnd_minCost b) (bnd_maxCost b) in
  let reliability := reliabilityScore (scr_Requests g) (scr_Errors g) in
  let '(latency, source) := if scr_LatencyTelemetryAvailable g
    then (inverseNormalized (scr_ObservedLatencyMillis g) (bnd_minLatency b) (bnd_maxLatency b), "observed")
    else (milli 500, "unavailable") in
  g <| scr_CostScore := cost |> <| scr_ReliabilityScore := reliability |> <| scr_LatencyScore := latency |>
    <| scr_LatencySource := source |>
    <| scr_Score := if negb (scr_SovereigntyCompliant g) then zero
         else clamp01 (Float.add (Float.add (Float.add (Float.mul (wgt_Cost w) cost) (Float.mul (wgt_Quality w) (scr_QualityScore g)))
                (Float.mul (wgt_Latency w) latency)) (Float.mul (wgt_Reliability w) reliability)) |>.

Definition score_less (a b : Score) : bool :=
  if negb (String.eqb (scr_Namespace a) (scr_Namespace b)) then string_ltb (scr_Namespace a) (scr_Namespace b)
  else if negb (String.eqb (scr_Application a) (scr_Application b)) then string_ltb (scr_Application a) (scr_Application b)
  else string_ltb (scr_Model a) (scr_Model b).

(** [routingscore.Compute]: the groups in the order of a [range]. *)
Definition compute_scores `{FinOps} (samples : list UsageSample) (prices : PriceBook) (models : gmap string ModelInfo) (w : Weights)
    : list Score :=
  let w := if zero_weights w then DefaultWeights else w in
  let groups := aggregateSamples samples prices models in
  let visited := omap (fun k => groups !! k) (range_order (map fst (map_to_list groups))) in
  let b := fold_left widen visited (Build_bounds MaxFloat64 zero MaxFloat64 zero) in
  sort_slice score_less (map (final_score w b) visited).

(** ** Recommendations *)

Record Usage : Type := Build_Usage {
  usg_Namespace : string;
  usg_Application : string;
  usg_Model : string;
  usg_InputTokens : Z;
  usg_OutputTokens : Z;
  usg_Requests : Z;
  usg_CostEUR : spec_float
}.
Record SwapCandidate : Type := Build_SwapCandidate { swp_Name : string; swp_Price : TokenPricing; swp_Compliant : bool }.
Record Risk : Type := Build_Risk {
  rsk_Namespace : string;
  rsk_Application : string;
  rsk_Provider : string;
  rsk_Zone : string;
  rsk_Requests : Z;
  rsk_CostEUR : spec_float
}.
Record Recommendation : Type := Build_Recommendation {
  rcm_Type : string;
  rcm_Severity : string;
  rcm_Message : string;
  rcm_Namespace : string;
  rcm_Application : string;
  rcm_CurrentModel : string;
  rcm_RecommendedModel : string;
  rcm_EstimatedSavingsEUR : spec_float
}.

Definition minSavingFraction : spec_float := milli 200.

(** The cheapest alternative so far and its cost. *)
Definition swap (u : Usage) (best : string * spec_float) (c : SwapCandidate) : string * spec_float :=
  if String.eqb (swp_Name c) (usg_Model u) || negb (swp_Compliant c) then best
  else let cost := priced (swp_Price c) (usg_InputTokens u) (usg_OutputTokens u) in
       if SFltb cost best.2 then (swp_Name c, cost) else best.
Definition saving_of (candidates : list SwapCandidate) (u : Usage) : option Recommendation :=
  if SFleb (usg_CostEUR u) zero then None
  else
    let '(best, bestCost) := fold_left (swap u) candidates ("", usg_CostEUR u) in
    let saving := Float.sub (usg_CostEUR u) bestCost in
    if negb (String.eqb best "") && SFleb (Float.mul (usg_CostEUR u) minSavingFraction) saving
    then Some (Build_Recommendation "cost-saving" SeverityInfo
      (usg_Namespace u +:+ "/" +:+ usg_Application u +:+ ": routing low-stakes " +:+ Quote (usg_Model u) +:+ " traffic to "
       +:+ Quote best +:+ " would save ~" +:+ format_f 4 saving +:+ " EUR over the window (-"
       +:+ format_f 0 (Float.mul (Float.div saving (usg_CostEUR u)) (Float.of_Z 100)) +:+ "%).")
      (usg_Namespace u) (usg_Application u) (usg_Model u) best saving)
    else None.
Definition risk_of (hasCompliantModel : bool) (r : Risk) : option Recommendation :=
  if rsk_Requests r <=? 0 then None
  else
    let fix_ := if hasCompliantModel then "route this app to an allowed-zone model"
               else "no compliant (allowed-zone) model exists in the catalog — add an EU/allowed provider" in
    Some (Build_Recommendation "sovereignty" SeverityCritical
      (rsk_Namespace r +:+ "/" +:+ rsk_Application r +:+ ": " +:+ sprint (rsk_Requests r) +:+ " request(s) (~"
       +:+ format_f 4 (rsk_CostEUR r) +:+ " EUR) sent to non-compliant provider " +:+ Quote (rsk_Provider r) +:+ " in zone "
       +:+ rsk_Zone r +:+ " — " +:+ fix_ +:+ ".") (rsk_Namespace r) (rsk_Application r) "" "" zero).
Definition unpriced_recommendation (m : string) : Recommendation :=
  Build_Recommendation "data-quality" SeverityWarning
    ("Model " +:+ Quote m +:+ " has no price; create an AIModel/AIProvider so its cost is attributed.") "" "" "" "" zero.

Definition sevRank (s : string) : Z := if String.eqb s SeverityCritical then 3 else if String.eqb s SeverityWarning then 2 else 1.
Definition recommendation_less (a b : Recommendation) : bool :=
  if negb (sevRank (rcm_Severity a) =? sevRank (rcm_Severity b)) then sevRank (rcm_Severity b) <? sevRank (rcm_Severity a)
  else SFltb (rcm_EstimatedSavingsEUR b) (rcm_EstimatedSavingsEUR a).

Definition Recommend (usages : list Usage) (candidates : list SwapCandidate) (risks : list Risk) (unpricedModels : list string)
    (hasCompliantModel : bool) : list Recommendation * spec_float :=
  let savings := omap (saving_of candidates) usages in
  (sort_slice recommendation_less (savings ++ omap (risk_of hasCompliantModel) risks
     ++ map unpriced_recommendation (sort_slice string_ltb unpricedModels)),
   fold_left (fun total r => Float.add total (rcm_EstimatedSavingsEUR r)) savings zero).

Example formats : map (format_f 2) [milli 1005; milli 2500; milli (-10); zero] = ["1.00"; "2.50"; "-0.01"; "0.00"].
Proof. vm_compute. reflexivity. Qed.
Example phases : let processor : Processor := fun _ => -2147483648 in
  map (fun spend => bud_Phase (evaluate_budget (Float.of_Z spend) (Float.of_Z 100) (Build_Thresholds 70 90 100) (Build_BudgetActions [] [] [])))
    [10; 70; 95; 100; 10000000000] = [PhaseWithinBudget; PhaseWarning; PhaseCritical; PhaseExceeded; PhaseWithinBudget].
Proof. vm_compute. reflexivity. Qed.
