(* ===== verification/GatewayRoutesProofs.v ===== *)
(** * Proofs about gateway routes

    What one application of controls does to every rule, that the annotation reads
    back, and that controls which come and go leave a route as it was. *)

From Stdlib Require Import ZArith Lia Ascii String SpecFloat.
From stdpp Require Import base gmap strings list pretty.
From S2P Require Import Prelude Digest GoTime Json JsonDecode GatewayRoutes.

Open Scope string_scope.
Open Scope list_scope.
Open Scope Z_scope.
Open Scope go_scope.

(** ** Association lists *)

Section members.
Implicit Types (l : list (string * jvalue)) (k : string) (v w : jvalue).

Lemma get_set_eq k v l : get_member k (set_member k v l) = Some v.
Proof.
  induction l as [|[k' w] l IH]; cbn [set_member get_member]; [by rewrite String.eqb_refl|].
  destruct (String.eqb k' k) eqn:E; cbn [get_member]; by rewrite E.
Qed.
Lemma get_set_ne k k' v l : k <> k' -> get_member k' (set_member k v l) = get_member k' l.
Proof.
  intros Hne. induction l as [|[k2 w] l IH]; cbn [set_member get_member].
  - by rewrite (proj2 (String.eqb_neq k k')).
  - destruct (String.eqb_spec k2 k) as [->|]; cbn [get_member]; [by rewrite (proj2 (String.eqb_neq k k')) | by rewrite IH].
Qed.
Lemma set_set k v w l : set_member k w (set_member k v l) = set_member k w l.
Proof.
  induction l as [|[k' u] l IH]; cbn [set_member]; [by rewrite String.eqb_refl|].
  destruct (String.eqb k' k) eqn:E; cbn [set_member]; rewrite E; [done | by rewrite IH].
Qed.
Lemma set_get k v l : get_member k l = Some v -> set_member k v l = l.
Proof.
  induction l as [|[k' u] l IH]; cbn [set_member get_member]; [done|].
  destruct (String.eqb k' k); [by intros [= ->] | intros E; by rewrite IH].
Qed.
Lemma delete_set k v l : delete_member k (set_member k v l) = delete_member k l.
Proof.
  unfold delete_member. induction l as [|[k' u] l IH]; cbn [set_member].
  - by rewrite filter_cons_False by (intros Hk; by apply Hk).
  - destruct (String.eqb_spec k' k) as [->|Hne].
    + rewrite !filter_cons_False by (intros Hk; by apply Hk). done.
    + rewrite !filter_cons_True by done. by rewrite IH.
Qed.
Lemma delete_absent k l : get_member k l = None -> delete_member k l = l.
Proof.
  unfold delete_member. induction l as [|[k' u] l IH]; cbn [get_member]; [done|].
  destruct (String.eqb_spec k' k); [done|]. intros E. rewrite filter_cons_True by done. by rewrite IH.
Qed.
Lemma get_delete_ne k k' l : k <> k' -> get_member k' (delete_member k l) = get_member k' l.
Proof.
  intros Hne. unfold delete_member. induction l as [|[k2 u] l IH]; [done|]. cbn [get_member].
  destruct (String.eqb_spec k2 k) as [->|H2].
  - rewrite filter_cons_False by (intros Hk; by apply Hk). by rewrite (proj2 (String.eqb_neq k k')).
  - rewrite filter_cons_True by done. cbn [get_member]. by rewrite IH.
Qed.
Lemma get_delete_eq k l : get_member k (delete_member k l) = None.
Proof.
  unfold delete_member. induction l as [|[k2 u] l IH]; [done|].
  destruct (decide (k2 = k)) as [->|H2]; [by rewrite filter_cons_False by (intros Hk; by apply Hk)|].
  rewrite filter_cons_True by done. cbn [get_member]. by rewrite (proj2 (String.eqb_neq k2 k)).
Qed.
Lemma set_comm k k' v w l : k <> k' -> is_Some (get_member k' l) ->
  set_member k' w (set_member k v l) = set_member k v (set_member k' w l).
Proof.
  intros Hne. assert (E1 : String.eqb k k' = false) by (by apply String.eqb_neq).
  assert (E2 : String.eqb k' k = false) by (apply String.eqb_neq; congruence).
  induction l as [|[k2 u] l IH]; cbn [get_member]; [intros [? [=]]|].
  cbn [set_member]. destruct (String.eqb k2 k) eqn:H1, (String.eqb k2 k') eqn:H2; cbn [set_member]; rewrite ?H1, ?H2; try done.
  - apply String.eqb_eq in H1, H2. congruence.
  - intros Hs. by rewrite IH.
Qed.
End members.

(** ** Rules *)

Lemma RuleModel_set rule b0 rest : RuleModel (set_member "backendRefs" (JArray (JObject b0 :: rest)) rule) = RuleModel rule.
Proof. unfold RuleModel, NestedSlice. by rewrite get_set_ne. Qed.
Lemma firstBackend_set rule b0 rest : firstBackend (set_member "backendRefs" (JArray (JObject b0 :: rest)) rule) = Some (b0, rest).
Proof. unfold firstBackend, NestedSlice. by rewrite get_set_eq. Qed.
Lemma firstBackend_get rule b0 rest : firstBackend rule = Some (b0, rest) ->
  get_member "backendRefs" rule = Some (JArray (JObject b0 :: rest)).
Proof.
  unfold firstBackend, NestedSlice. destruct (get_member "backendRefs" rule) as [[| | | |[|[| | | | |b] l]|]|]; try done. by intros [= -> ->].
Qed.
Lemma set_backend_set rule b0 b1 rest : set_backend (set_member "backendRefs" (JArray (JObject b0 :: rest)) rule) b1 rest = set_backend rule b1 rest.
Proof. unfold set_backend. by rewrite set_set. Qed.
Lemma set_backend_same rule b0 rest : firstBackend rule = Some (b0, rest) -> set_backend rule b0 rest = JObject rule.
Proof. intros E%firstBackend_get. unfold set_backend. by rewrite set_get. Qed.

(** The model of a rule, where its traffic goes, and how its body is changed. *)
Definition rule_model (v : jvalue) : string := match v with JObject rule => RuleModel rule | _ => "" end.
Definition backend_of (v : jvalue) : option (list (string * jvalue) * list jvalue) :=
  match v with JObject rule => firstBackend rule | _ => None end.
Definition destination (v : jvalue) : option (string * option jvalue) :=
  (fun b => (NestedString b.1 "name", get_member "bodyMutation" b.1)) <$> backend_of v.

Lemma rule_model_set rule b0 rest : rule_model (set_backend rule b0 rest) = RuleModel rule.
Proof. apply RuleModel_set. Qed.
Lemma destination_reroute rule b0 rest backend target :
  destination (set_backend rule (reroute_backend b0 backend target) rest) = Some (backend, Some (model_mutation target)).
Proof.
  unfold destination, set_backend, backend_of. rewrite firstBackend_set. unfold reroute_backend, NestedString.
  cbn [fmap option_fmap option_map fst]. by rewrite get_set_eq, get_set_ne, get_set_eq.
Qed.
Lemma destination_plain rule b0 rest backend : destination (set_backend rule (plain_backend b0 backend) rest) = Some (backend, None).
Proof.
  unfold destination, set_backend, backend_of. rewrite firstBackend_set. unfold plain_backend, NestedString.
  cbn [fmap option_fmap option_map fst]. by rewrite get_delete_ne, get_set_eq, get_delete_eq.
Qed.

(** ** One application of controls *)

(** The rule with a saved backend put back. *)
Definition restore_rule (saved : option string) (v : jvalue) : jvalue :=
  match v with
  | JObject rule =>
    match firstBackend rule, saved with
    | Some (b0, rest), Some orig => set_backend rule (plain_backend b0 orig) rest
    | _, _ => v
    end
  | _ => v
  end.

(** What the controls [c] make of a rule: they leave a model that they do not name
    alone, or put back what was saved of it. *)
Definition rule_controlled (c : controls) (backends : gmap string string) (v v' : jvalue) : Prop :=
  rule_model v' = rule_model v /\
  match backend_of v, ctl_reroutes c !! rule_model v with
  | None, _ => v' = v
  | Some _, Some target =>
    match backends !! target with
    | Some backend => if String.eqb backend "" then v' = v else destination v' = Some (backend, Some (model_mutation target))
    | None => v' = v
    end
  | Some _, None =>
    if bool_decide (rule_model v ∈ ctl_blocked c) then destination v' = Some (BlockBackendName, None)
    else v' = v \/ exists orig, v' = restore_rule (Some orig) v
  end.

Lemma apply_rule_controlled c backends st v : rule_model v <> "" -> rule_controlled c backends v (apply_rule c backends st v).1.
Proof.
  destruct v as [| | | | |rule]; cbn [rule_model]; try done. intros Hm. unfold apply_rule, rule_controlled.
  cbn [rule_model backend_of]. rewrite (proj2 (String.eqb_neq _ _) Hm). destruct (firstBackend rule) as [[b0 rest]|] eqn:Eb; [|done].
  destruct (ctl_reroutes c !! RuleModel rule) as [target|].
  - destruct (backends !! target) as [backend|]; cbn [from_option id]; [|by split].
    destruct (String.eqb backend ""); [by split|]. cbn [fst]. by rewrite rule_model_set, destination_reroute.
  - case_bool_decide as Hin; cbn [fst]; [by rewrite rule_model_set, destination_plain|].
    destruct (cs_saved st !! RuleModel rule) as [orig|]; cbn [fst]; rewrite ?rule_model_set; split; auto.
    right. exists orig. unfold restore_rule. by rewrite Eb.
Qed.
Lemma apply_rules_controlled c backends rules : forall st,
  Forall2 (fun v v' => rule_model v <> "" -> rule_controlled c backends v v') rules (apply_rules c backends st rules).1.
Proof.
  induction rules as [|v rules IH]; intros st; cbn [apply_rules]; [constructor|].
  pose proof (apply_rule_controlled c backends st v) as Hv. destruct (apply_rule c backends st v) as [v' st'].
  specialize (IH st'). destruct (apply_rules c backends st' rules) as [rules' st2]. by constructor.
Qed.

(** Rules that are left alone leave the state alone. *)
Lemma apply_rule_changed c backends st v : cs_changed (apply_rule c backends st v).2 = false ->
  cs_changed st = false /\ (apply_rule c backends st v) = (v, st).
Proof.
  unfold apply_rule. destruct v as [| | | | |rule]; try done. destruct (String.eqb _ _); [done|].
  destruct (firstBackend rule) as [[b0 rest]|]; [|done]. destruct (ctl_reroutes c !! _) as [target|].
  - by destruct (String.eqb _ _).
  - case_bool_decide; [done|]. by destruct (cs_saved st !! _).
Qed.
Lemma apply_rules_changed c backends rules : forall st, cs_changed (apply_rules c backends st rules).2 = false ->
  cs_changed st = false /\ apply_rules c backends st rules = (rules, st).
Proof.
  induction rules as [|v rules IH]; intros st; cbn [apply_rules]; [done|].
  destruct (apply_rule c backends st v) as [v' st'] eqn:Ev. specialize (IH st').
  destruct (apply_rules c backends st' rules) as [rules' st2] eqn:Er. cbn [snd]. intros Hc.
  destruct (IH Hc) as [Hc' [= -> ->]]. pose proof (apply_rule_changed c backends st v) as Hv. rewrite Ev in Hv.
  destruct (Hv Hc') as [? [= -> ->]]. done.
Qed.

(** ** The annotation *)

Definition saved_members (saved : gmap string string) : list (string * string) :=
  sort_slice (fun a b : string * string => string_ltb a.1 b.1) (map_to_list saved).
(** The names are written as they are: ASCII ones are read back. *)
Definition ascii_saved (saved : gmap string string) : Prop :=
  forall k v, saved !! k = Some v -> ascii_string k = true /\ ascii_string v = true.

Lemma saved_members_perm saved : saved_members saved ≡ₚ map_to_list saved.
Proof. apply sort_slice_perm. Qed.
Lemma decode_members (l : list (string * string)) m :
  fold_left (fun m '(k, v) => <[k := match v with JString s => s | _ => "" end]> m) (map (fun '(k, v) => (k, JString v)) l) m
  = fold_left (fun (m : gmap string string) '(k, v) => <[k := v]> m) l m.
Proof. revert m. induction l as [|[k v] l IH]; intros m; [done|]. cbn [map fold_left]. apply IH. Qed.
Lemma fold_insert_lookup (l : list (string * string)) : forall (m : gmap string string) k, NoDup l.*1 ->
  fold_left (fun (m : gmap string string) '(k, v) => <[k := v]> m) l m !! k
  = match list_to_map (M := gmap string string) l !! k with Some v => Some v | None => m !! k end.
Proof.
  induction l as [|[k1 v1] l IH]; intros m k Hnd; cbn [fold_left list_to_map foldr]; [by rewrite lookup_empty|].
  cbn [fmap list_fmap fst] in Hnd. apply NoDup_cons in Hnd as [Hin Hnd]. rewrite IH by done. unfold uncurry. cbn [fst snd].
  destruct (decide (k1 = k)) as [->|Hne].
  - rewrite !lookup_insert_eq. by rewrite not_elem_of_list_to_map_1.
  - by rewrite !lookup_insert_ne.
Qed.
Lemma decode_encode_saved saved : ascii_saved saved -> decode_saved (encode_saved saved) = saved.
Proof.
  intros Hok. unfold decode_saved, encode_saved. fold (saved_members saved).
  rewrite json_parse_jtext.
  - cbn [jtext]. replace (String.eqb _ "") with false by done. rewrite decode_members. apply map_eq. intros k.
    assert (Hnd : NoDup (saved_members saved).*1) by (rewrite saved_members_perm; apply NoDup_fst_map_to_list).
    rewrite fold_insert_lookup, lookup_empty by done.
    rewrite (list_to_map_proper (M := gmap string) _ (map_to_list saved)) by (done || apply saved_members_perm).
    rewrite list_to_map_to_list. by destruct (saved !! k).
  - cbn [jok]. change (0 + 1 <=? maxNestingDepth) with true. cbn [andb]. apply forallb_forall. intros [k v] Hin.
    apply in_map_iff in Hin as ([k1 v1] & [= <- <-] & Hin). apply list_elem_of_In in Hin. rewrite saved_members_perm in Hin.
    apply elem_of_map_to_list in Hin. cbn [jok]. destruct (Hok _ _ Hin) as [-> ->]. done.
Qed.

(** ** Controls that come and go *)

(** The rule as it was before the controls, as far as the saved originals tell. *)
Definition restore (saved : gmap string string) (v : jvalue) : jvalue :=
  if String.eqb (rule_model v) "" then v else restore_rule (saved !! rule_model v) v.

(** A rule whose first backend has a name, and a body that only controls change;
    a rule without a backend has no original. *)
Definition clean (saved : gmap string string) (v : jvalue) : Prop :=
  match backend_of v with
  | None => rule_model v <> "" -> saved !! rule_model v = None
  | Some (b0, _) => (exists s, get_member "name" b0 = Some (JString s))
                    /\ (saved !! rule_model v = None -> get_member "bodyMutation" b0 = None)
  end.

Lemma set_delete k k' v l : k <> k' -> set_member k v (delete_member k' l) = delete_member k' (set_member k v l).
Proof.
  intros Hne. unfold delete_member. induction l as [|[k2 u] l IH]; cbn [set_member].
  - rewrite filter_cons_True by (cbn [fst]; congruence). done.
  - destruct (String.eqb_spec k2 k) as [->|H2].
    + rewrite !filter_cons_True by (cbn [fst]; congruence). cbn [set_member]. by rewrite String.eqb_refl.
    + destruct (decide (k2 = k')) as [->|H3].
      * rewrite !filter_cons_False by (intros Hk; by apply Hk). done.
      * rewrite !filter_cons_True by done. cbn [set_member]. rewrite (proj2 (String.eqb_neq k2 k)) by done. by rewrite IH.
Qed.
Lemma delete_delete k l : delete_member k (delete_member k l) = delete_member k l.
Proof. apply delete_absent, get_delete_eq. Qed.

Lemma reroute_restored b0 backend target orig : is_Some (get_member "name" b0) ->
  plain_backend (reroute_backend b0 backend target) orig = plain_backend b0 orig.
Proof.
  intros Hs. unfold plain_backend, reroute_backend. rewrite (set_comm "bodyMutation" "name").
  - by rewrite delete_set, set_set.
  - done.
  - rewrite get_set_eq. eauto.
Qed.
Lemma plain_restored b0 backend orig : plain_backend (plain_backend b0 backend) orig = plain_backend b0 orig.
Proof. unfold plain_backend. by rewrite set_delete, set_set, delete_delete. Qed.
Lemma plain_same b0 s : get_member "name" b0 = Some (JString s) -> get_member "bodyMutation" b0 = None -> plain_backend b0 s = b0.
Proof. intros Hs Hb. unfold plain_backend. by rewrite set_get, delete_absent. Qed.

Lemma backend_of_set rule b0 rest : backend_of (set_backend rule b0 rest) = Some (b0, rest).
Proof. apply firstBackend_set. Qed.
Lemma restore_set saved rule b0 rest : RuleModel rule <> ""%string ->
  restore saved (set_backend rule b0 rest)
  = match saved !! RuleModel rule with Some orig => set_backend rule (plain_backend b0 orig) rest | None => set_backend rule b0 rest end.
Proof.
  intros Hm. unfold restore. rewrite rule_model_set, (proj2 (String.eqb_neq _ _) Hm).
  unfold restore_rule. unfold set_backend at 1. rewrite firstBackend_set. destruct (saved !! RuleModel rule); [|done].
  by rewrite set_backend_set.
Qed.

(** What one rule's step does: the other models keep their originals, and the rule
    is restored to what it was restored to before. *)
Record rule_step (saved saved' : gmap string string) (v v' : jvalue) : Prop := {
  rs_model : rule_model v' = rule_model v;
  rs_others : forall m, m <> rule_model v \/ m = "" -> saved' !! m = saved !! m;
  rs_restore : restore saved' v' = restore saved v;
  rs_clean : clean saved' v'
}.

Lemma rule_step_refl saved v : clean saved v -> rule_step saved saved v v.
Proof. intros Hc. constructor; auto. Qed.

Lemma clean_reroute saved saved' rule b0 rest backend target : is_Some (saved' !! RuleModel rule) ->
  clean saved (JObject rule) -> firstBackend rule = Some (b0, rest) ->
  clean saved' (set_backend rule (reroute_backend b0 backend target) rest).
Proof.
  intros [s Hs] Hc Hb. unfold clean. rewrite backend_of_set, rule_model_set. split; [|by rewrite Hs].
  unfold reroute_backend. rewrite get_set_ne, get_set_eq by done. eauto.
Qed.
Lemma clean_plain saved' rule b0 rest backend : clean saved' (set_backend rule (plain_backend b0 backend) rest).
Proof.
  unfold clean. rewrite backend_of_set. unfold plain_backend. rewrite get_delete_ne, get_set_eq, get_delete_eq by done. eauto.
Qed.

Lemma save_original_eq saved model b0 :
  save_original saved model b0 !! model = Some (default (NestedString b0 "name") (saved !! model)).
Proof. unfold save_original. destruct (saved !! model) eqn:E; [by rewrite E | by rewrite lookup_insert_eq]. Qed.
Lemma save_original_ne saved model b0 m : m <> model -> save_original saved model b0 !! m = saved !! m.
Proof. intros Hne. unfold save_original. destruct (saved !! model); [done|]. by rewrite lookup_insert_ne. Qed.

(** A backend that some control has changed, once its original is saved. *)
Lemma controlled_restores saved rule b0 b1 rest : RuleModel rule <> ""%string -> firstBackend rule = Some (b0, rest) ->
  clean saved (JObject rule) -> (forall orig, plain_backend b1 orig = plain_backend b0 orig) ->
  restore (save_original saved (RuleModel rule) b0) (set_backend rule b1 rest) = restore saved (JObject rule).
Proof.
  intros Hm Hb Hc Hp. rewrite restore_set by done. rewrite save_original_eq. unfold restore. cbn [rule_model].
  rewrite (proj2 (String.eqb_neq _ _) Hm). unfold restore_rule. rewrite Hb, Hp.
  destruct (saved !! RuleModel rule) as [orig|] eqn:Es; cbn [from_option id]; [done|].
  unfold clean in Hc. cbn [backend_of rule_model] in Hc. rewrite Hb in Hc. destruct Hc as [[s Hs] Hn].
  unfold NestedString. rewrite Hs. rewrite plain_same by auto. by rewrite set_backend_same.
Qed.

Lemma apply_rule_step c backends st v : clean (cs_saved st) v ->
  rule_step (cs_saved st) (cs_saved (apply_rule c backends st v).2) v (apply_rule c backends st v).1.
Proof.
  intros Hc. unfold apply_rule. destruct v as [| | | | |rule]; try by apply rule_step_refl.
  destruct (String.eqb_spec (RuleModel rule) "") as [|Hm]; [by apply rule_step_refl|].
  destruct (firstBackend rule) as [[b0 rest]|] eqn:Hb; [|by apply rule_step_refl].
  assert (Hs : is_Some (get_member "name" b0)).
  { unfold clean in Hc. cbn [backend_of] in Hc. rewrite Hb in Hc. destruct Hc as [[s ->] _]. eauto. }
  destruct (ctl_reroutes c !! RuleModel rule) as [target|].
  - destruct (String.eqb _ ""); [by apply rule_step_refl|]. cbn [fst snd cs_saved]. constructor; cbn [rule_model].
    + apply rule_model_set.
    + intros m Hne. apply save_original_ne. destruct Hne; congruence.
    + apply controlled_restores; auto using reroute_restored.
    + eapply clean_reroute; eauto. rewrite save_original_eq. eauto.
  - case_bool_decide as Hin; [|destruct (cs_saved st !! RuleModel rule) as [orig|] eqn:Es; [|by apply rule_step_refl]];
      cbn [fst snd cs_saved]; constructor; cbn [rule_model]; auto using rule_model_set, clean_plain.
    + intros m Hne. apply save_original_ne. destruct Hne; congruence.
    + apply controlled_restores; auto using plain_restored.
    + intros m Hne. rewrite lookup_delete_ne; [done|]. destruct Hne; congruence.
    + rewrite restore_set, lookup_delete_eq by done. unfold restore. cbn [rule_model].
      rewrite (proj2 (String.eqb_neq _ _) Hm). unfold restore_rule. by rewrite Hb, Es.
Qed.

Lemma restore_ext saved saved' v : saved !! rule_model v = saved' !! rule_model v -> restore saved v = restore saved' v.
Proof. intros E. unfold restore. by rewrite E. Qed.
Lemma clean_ext saved saved' v : saved !! rule_model v = saved' !! rule_model v -> clean saved v -> clean saved' v.
Proof. intros E. unfold clean. by rewrite E. Qed.
Lemma rule_step_ext saved saved' saved2 v v' : saved2 !! rule_model v = saved' !! rule_model v ->
  rule_step saved saved' v v' -> restore saved2 v' = restore saved v /\ clean saved2 v'.
Proof.
  intros E [Hm _ Hr Hc]. split.
  - rewrite <- Hr. apply restore_ext. by rewrite Hm.
  - eapply clean_ext, Hc. by rewrite Hm.
Qed.

(** The models that the rules name; a route names each of them once. *)
Definition rule_models (rules : list jvalue) : list string := filter (fun m => m <> "") (map rule_model rules).
Definition one_rule_per_model (rules : list jvalue) : Prop := NoDup (rule_models rules).

Lemma rule_models_cons v rules : rule_models (v :: rules) = if String.eqb (rule_model v) "" then rule_models rules else rule_model v :: rule_models rules.
Proof.
  unfold rule_models. cbn [map]. destruct (String.eqb_spec (rule_model v) "") as [E|E].
  - by rewrite filter_cons_False by (intros Hk; by apply Hk).
  - by rewrite filter_cons_True.
Qed.
Lemma one_rule_cons v rules : one_rule_per_model (v :: rules) ->
  (rule_model v = "" \/ rule_model v ∉ rule_models rules) /\ one_rule_per_model rules.
Proof.
  unfold one_rule_per_model. rewrite rule_models_cons. destruct (String.eqb_spec (rule_model v) ""); [by auto|].
  intros [Hin Hnd]%NoDup_cons. auto.
Qed.
Lemma in_rule_models v rules : v ∈ rules -> rule_model v <> "" -> rule_model v ∈ rule_models rules.
Proof.
  intros Hin Hm. unfold rule_models. apply list_elem_of_filter. split; [done|]. apply list_elem_of_In, in_map. by apply list_elem_of_In.
Qed.

(** What an application of controls to all rules does. *)
Record rules_step (saved saved' : gmap string string) (rules rules' : list jvalue) : Prop := {
  rls_models : rule_models rules' = rule_models rules;
  rls_others : forall m, m ∉ rule_models rules \/ m = "" -> saved' !! m = saved !! m;
  rls_restore : map (restore saved') rules' = map (restore saved) rules;
  rls_clean : Forall (clean saved') rules'
}.

Lemma rest_untouched saved saved' v v' rules : rule_step saved saved' v v' ->
  rule_model v = "" \/ rule_model v ∉ rule_models rules -> forall w, w ∈ rules -> saved' !! rule_model w = saved !! rule_model w.
Proof.
  intros Hs Hv w Hw. apply (rs_others _ _ _ _ Hs). destruct (decide (rule_model w = "")) as [|Hm]; [by right | left].
  intros E. destruct Hv as [Hv|Hv]; [congruence|]. apply Hv. rewrite <- E. by apply in_rule_models.
Qed.
Lemma rest_clean saved saved' v v' rules : rule_step saved saved' v v' ->
  rule_model v = "" \/ rule_model v ∉ rule_models rules -> Forall (clean saved) rules -> Forall (clean saved') rules.
Proof.
  intros Hs Hv Hc. apply Forall_forall. intros w Hw. apply (clean_ext saved); [|by eapply Forall_forall in Hc].
  symmetry. by eapply rest_untouched.
Qed.

Lemma apply_rules_step c backends rules : forall st, one_rule_per_model rules -> Forall (clean (cs_saved st)) rules ->
  rules_step (cs_saved st) (cs_saved (apply_rules c backends st rules).2) rules (apply_rules c backends st rules).1.
Proof.
  induction rules as [|v rules IH]; intros st Hnd Hc; cbn [apply_rules]; [by constructor|].
  apply one_rule_cons in Hnd as [Hv Hnd]. apply Forall_cons_1 in Hc as [Hcv Hc].
  pose proof (apply_rule_step c backends st v Hcv) as Hs. destruct (apply_rule c backends st v) as [v' st1]. cbn [fst snd] in Hs.
  assert (Hc1 : Forall (clean (cs_saved st1)) rules) by (by eapply rest_clean).
  specialize (IH st1 Hnd Hc1). destruct (apply_rules c backends st1 rules) as [rules' st2]. cbn [fst snd] in *.
  destruct IH as [Hm2 Ho2 Hr2 Hc2].
  assert (Ev : cs_saved st2 !! rule_model v = cs_saved st1 !! rule_model v) by (apply Ho2; tauto).
  destruct (rule_step_ext _ _ _ _ _ Ev Hs) as [Hrv Hcv2]. pose proof Hs as [Hm1 Ho1 _ _]. constructor.
  - rewrite !rule_models_cons, Hm1, Hm2. done.
  - intros m Hm. rewrite rule_models_cons in Hm. destruct (String.eqb_spec (rule_model v) "") as [E|E].
    + rewrite Ho2 by done. apply Ho1. destruct (decide (m = "")); [by right | left; congruence].
    + rewrite Ho2, Ho1; [done| |]; destruct Hm as [Hm|Hm]; auto; left; set_solver.
  - cbn [map]. rewrite Hrv, Hr2. f_equal. apply map_ext_in. intros w Hw. apply list_elem_of_In in Hw. apply restore_ext.
    by eapply rest_untouched.
  - by constructor.
Qed.

(** Without controls every original goes back. *)
Lemma apply_rule_reverts backends st v : clean (cs_saved st) v -> rule_model v <> "" ->
  cs_saved (apply_rule no_controls backends st v).2 !! rule_model v = None.
Proof.
  intros Hc Hm. destruct v as [| | | | |rule]; try done. unfold apply_rule. cbn [rule_model] in *.
  rewrite (proj2 (String.eqb_neq _ _) Hm). unfold clean in Hc. cbn [backend_of rule_model] in Hc.
  destruct (firstBackend rule) as [[b0 rest]|]; [|by apply Hc]. cbn [no_controls ctl_reroutes ctl_blocked]. rewrite lookup_empty.
  rewrite bool_decide_false by set_solver. destruct (cs_saved st !! RuleModel rule) eqn:Es; cbn [snd cs_saved]; [|done].
  apply lookup_delete_eq.
Qed.
Lemma apply_rules_reverts backends rules : forall st, one_rule_per_model rules -> Forall (clean (cs_saved st)) rules ->
  forall m, m ∈ rule_models rules -> cs_saved (apply_rules no_controls backends st rules).2 !! m = None.
Proof.
  induction rules as [|v rules IH]; intros st Hnd Hc m Hin; [by apply elem_of_nil in Hin|]. cbn [apply_rules].
  apply one_rule_cons in Hnd as [Hv Hnd]. apply Forall_cons_1 in Hc as [Hcv Hc].
  pose proof (apply_rule_step no_controls backends st v Hcv) as Hs. pose proof (apply_rule_reverts backends st v Hcv) as Hr.
  destruct (apply_rule no_controls backends st v) as [v' st1]. cbn [fst snd] in Hs, Hr.
  assert (Hc1 : Forall (clean (cs_saved st1)) rules) by (by eapply rest_clean).
  specialize (IH st1 Hnd Hc1 m). pose proof (apply_rules_step no_controls backends rules st1 Hnd Hc1) as Hrs.
  destruct (apply_rules no_controls backends st1 rules) as [rules' st2]. cbn [fst snd] in *.
  rewrite rule_models_cons in Hin. destruct (String.eqb_spec (rule_model v) "") as [E|E]; [by apply IH|].
  destruct (decide (m ∈ rule_models rules)) as [|Hni]; [by apply IH|].
  apply elem_of_cons in Hin as [->|]; [|done]. rewrite (rls_others _ _ _ _ Hrs) by auto. by apply Hr.
Qed.

(** ** A route under one kind of controls *)

(** The annotation of the route, from one reconciliation to the next. *)
Definition actuate_all (key : string) (steps : list (controls * gmap string string)) (route : Route) : Route :=
  fold_left (fun route s => (actuate_route s.1 s.2 key route).1) steps route.

Definition ascii_rule (v : jvalue) : Prop :=
  ascii_string (rule_model v) = true /\ match destination v with Some (name, _) => ascii_string name = true | None => True end.

(** A route that the controls of [key] have not touched, whose rules are of the
    kind that they can put back. *)
Record reversible (key : string) (route : Route) : Prop := {
  rev_untouched : rte_Annotations route !! key = None;
  rev_models : one_rule_per_model (rte_Rules route);
  rev_clean : Forall (clean ∅) (rte_Rules route);
  rev_ascii : Forall ascii_rule (rte_Rules route)
}.

(** The saved originals lead back from a route to where it started. *)
Record tracked (key : string) (origin route : Route) (saved : gmap string string) : Prop := {
  trk_name : rte_Name route = rte_Name origin;
  trk_restore : map (restore saved) (rte_Rules route) = rte_Rules origin;
  trk_clean : Forall (clean saved) (rte_Rules route);
  trk_models : rule_models (rte_Rules route) = rule_models (rte_Rules origin);
  trk_known : forall m, is_Some (saved !! m) -> m ∈ rule_models (rte_Rules route);
  trk_annotations : rte_Annotations route = annotate key saved (rte_Annotations origin)
}.

Lemma restore_empty rules : map (restore ∅) rules = rules.
Proof.
  rewrite <- (map_id rules) at 2. apply map_ext. intros v. unfold restore, restore_rule. rewrite lookup_empty.
  destruct (String.eqb _ _); [done|]. destruct v as [| | | | |rule]; try done. by destruct (firstBackend rule) as [[]|].
Qed.
Lemma saved_ascii saved rules : Forall ascii_rule (map (restore saved) rules) -> Forall (clean saved) rules ->
  (forall m, is_Some (saved !! m) -> m ∈ rule_models rules) -> ascii_saved saved.
Proof.
  intros Ha Hc Hk m s Hs. destruct (list_elem_of_filter (fun m => m <> "") (map rule_model rules) m) as [Hf _].
  destruct Hf as [Hm Hin]; [apply Hk; eauto|]. apply list_elem_of_In, in_map_iff in Hin as (v & <- & Hin).
  rewrite Forall_forall in Ha, Hc. pose proof (Hc v) as Hcv. destruct (Ha (restore saved v)) as [H1 H2].
  { by apply list_elem_of_In, in_map. }
  apply list_elem_of_In, Hcv in Hin. unfold clean in Hin. destruct v as [| | | | |rule]; try done.
  cbn [rule_model backend_of] in *. destruct (firstBackend rule) as [[b0 rest]|] eqn:Hb; [|rewrite Hs in Hin; by specialize (Hin Hm)].
  unfold restore in H1, H2. cbn [rule_model] in H1, H2. rewrite (proj2 (String.eqb_neq _ _) Hm), Hs in H1, H2.
  unfold restore_rule in H1, H2. rewrite Hb in H1, H2. rewrite rule_model_set in H1. by rewrite destination_plain in H2.
Qed.

Lemma annotate_lookup key saved annotations : annotations !! key = None -> ascii_saved saved ->
  decode_saved (default "" (annotate key saved annotations !! key)) = saved.
Proof.
  intros Hn Ha. unfold annotate. case_bool_decide as E.
  - by rewrite lookup_delete_eq, E.
  - rewrite lookup_insert_eq. by apply decode_encode_saved.
Qed.
Lemma annotate_annotate key saved saved' annotations :
  annotate key saved' (annotate key saved annotations) = annotate key saved' annotations.
Proof.
  unfold annotate. repeat case_bool_decide; by rewrite ?delete_delete_eq, ?insert_insert_eq, ?delete_insert_eq, ?insert_delete_eq.
Qed.

Lemma tracked_start key route : reversible key route -> tracked key route route ∅.
Proof.
  intros [Hu Hm Hc Ha]. constructor; try done.
  - apply restore_empty.
  - intros m. rewrite lookup_empty. by intros [].
  - unfold annotate. rewrite bool_decide_true by done. by rewrite delete_id.
Qed.
Lemma tracked_saved key origin route saved : reversible key origin -> tracked key origin route saved ->
  saved_of key route = saved.
Proof.
  intros [Hu _ _ Ha] [_ Hr Hc _ Hk Hann]. unfold saved_of. rewrite Hann. apply annotate_lookup; [done|].
  eapply saved_ascii; eauto. by rewrite Hr.
Qed.
Lemma tracked_models key origin route saved : reversible key origin -> tracked key origin route saved ->
  one_rule_per_model (rte_Rules route).
Proof. intros [_ Hm _ _] [_ _ _ E _ _]. unfold one_rule_per_model. by rewrite E. Qed.

Lemma tracked_step key origin route saved c backends : reversible key origin -> tracked key origin route saved ->
  exists saved', tracked key origin (actuate_route c backends key route).1 saved'
    /\ (c = no_controls -> saved' = ∅).
Proof.
  intros Hrev Ht. pose proof (tracked_saved _ _ _ _ Hrev Ht) as Hs. pose proof (tracked_models _ _ _ _ Hrev Ht) as Hm.
  destruct Ht as [Hn Hr Hc He Hk Ha]. unfold actuate_route, ApplyControls. rewrite Hs.
  pose proof (apply_rules_step c backends (rte_Rules route) (Build_control_state saved ∅ ∅ false) Hm Hc) as Hstep.
  pose proof (apply_rules_changed c backends (rte_Rules route) (Build_control_state saved ∅ ∅ false)) as Hch.
  pose proof (apply_rules_reverts backends (rte_Rules route) (Build_control_state saved ∅ ∅ false) Hm Hc) as Hrv.
  exists (cs_saved (apply_rules c backends (Build_control_state saved ∅ ∅ false) (rte_Rules route)).2).
  destruct (apply_rules c backends _ _) as [rules st] eqn:E. cbn [fst snd cs_saved] in *.
  assert (Hkn : forall m, is_Some (cs_saved st !! m) -> m ∈ rule_models (rte_Rules route)).
  { intros m Hsm. destruct (decide (m ∈ rule_models (rte_Rules route))) as [|Hni]; [done|].
    apply Hk. rewrite <- (rls_others _ _ _ _ Hstep m); auto. }
  split.
  - destruct Hstep as [H1 H2 H3 H4]. destruct (cs_changed st) eqn:Ec.
    + constructor; cbn [rte_Name rte_Rules rte_Annotations]; rewrite ?H1; auto; [congruence|].
      by rewrite Ha, annotate_annotate.
    + destruct (Hch eq_refl) as [_ [= -> ->]]. by constructor.
  - intros ->. rewrite E in Hrv. apply map_eq. intros m. rewrite lookup_empty. destruct (cs_saved st !! m) eqn:Em; [|done].
    rewrite <- Em. apply Hrv, Hkn. by rewrite Em.
Qed.
Lemma tracked_all key origin steps : forall route saved, reversible key origin -> tracked key origin route saved ->
  exists saved', tracked key origin (actuate_all key steps route) saved'.
Proof.
  induction steps as [|[c b] steps IH]; intros route saved Hrev Ht; [by exists saved|].
  destruct (tracked_step key origin route saved c b Hrev Ht) as (saved' & Ht' & _). by apply (IH _ saved').
Qed.

(** C29: controls on a gateway route are reversible. Whatever controls the
    reconciliations of one controller apply to a route, in any order and against any
    backends, the reconciliation that wants no controls any more puts the route back
    exactly as it was: every backend reference, every body and the annotations. The
    route names each model in one rule, its first backends have names and no body
    mutation of their own, and the names are ASCII. *)
Theorem controls_are_reversible key steps backends route : reversible key route ->
  (actuate_route no_controls backends key (actuate_all key steps route)).1 = route.
Proof.
  intros Hrev. destruct (tracked_all key route steps route ∅ Hrev (tracked_start key route Hrev)) as [saved Ht].
  destruct (tracked_step key route _ saved no_controls backends Hrev Ht) as (saved' & Ht' & He).
  rewrite (He eq_refl) in Ht'. clear He.
  destruct Ht' as [Hn Hr _ _ _ Ha]. destruct (actuate_route _ _ _ _).1 as [name ann rules], route as [name0 ann0 rules0].
  cbn [rte_Name rte_Rules rte_Annotations] in *. rewrite restore_empty in Hr. subst. f_equal.
  unfold annotate. rewrite bool_decide_true by done. apply delete_id, Hrev.
Qed.
