(* ===== verification/PolicyControllers.v ===== *)
(** * Sovereignty and budget controllers

    The reconcilers of AISovereigntyPolicy and AIBudgetPolicy
    ([aisovereigntypolicy_controller.go], [aibudgetpolicy_controller.go] and
    [budgetfallback.go] of [internal/controller]): what they find in the observed
    traffic, what they ask of the gateway routes, and what they report. The events,
    the metrics and the detection of shadow traffic that precede the report are left
    out. *)

From Stdlib Require Import ZArith Lia Ascii String SpecFloat.
From stdpp Require Import base gmap strings list pretty.
From S2P Require Import Prelude Digest GoTime Float64 Api Json Sovereignty Catalog GatewayRoutes FinOps.

Open Scope string_scope.
Open Scope list_scope.
Open Scope Z_scope.
Open Scope go_scope.

(** ** What both read *)

(** The collector of a namespace and what it collects. *)
Inductive telemetry : Type :=
  | NoCollector (message : string)
  | CollectFailed (message : string)
  | Collected (name : string) (samples : list UsageSample).

(** The ready condition: its reason when it is false. *)
Inductive ready : Type := ReadyTrue (message : string) | ReadyFalse (reason message : string).
Definition ReasonNoTelemetry : string := "NoTelemetrySource".
Definition ReasonReconcileError : string := "ReconcileError".

(** A policy object: whether it is being deleted and carries its finalizer. *)
Record policy_object (S : Type) : Type := Build_policy_object {
  pob_Name : string;
  pob_Deleting : bool;
  pob_Finalizer : bool;
  pob_Spec : S
}.
Arguments Build_policy_object {S} _ _ _ _.
Arguments pob_Name {S} _.
Arguments pob_Deleting {S} _.
Arguments pob_Finalizer {S} _.
Arguments pob_Spec {S} _.

(** The answers of the API server to the writes of one reconciliation. *)
Record api_answers : Type := Build_api_answers {
  ans_route : Route -> option error;
  ans_policy : option error;
  ans_status : option error
}.

(** ** Sovereignty *)

Record AISovereigntyPolicySpec : Type := Build_AISovereigntyPolicySpec {
  sov_AllowedZones : list string;
  sov_ForbiddenZones : list string;
  sov_ExternalProvidersAllowed : bool;
  sov_RequireAnonymization : bool;
  sov_EnforcementMode : string
}.
Definition engine_policy (s : AISovereigntyPolicySpec) : Policy :=
  policyToEngine (sov_AllowedZones s) (sov_ForbiddenZones s) (sov_ExternalProvidersAllowed s) (sov_RequireAnonymization s).

Definition violation_of (f : Finding) : option Violation :=
  if String.eqb (fnd_Severity f) SeverityCritical
  then Some (Build_Violation (fnd_Namespace f) (fnd_Application f) (fnd_Provider f) (fnd_Zone f) (fnd_Model f) (fnd_Requests f))
  else None.

(** The controls that the decisions ask for. *)
Definition want_decision (c : controls) (d : EnforcementDecision) : controls :=
  Build_controls
    (if bool_decide (dec_Action d = ActionReroute) && negb (String.eqb (dec_RerouteTo d) "")
     then <[dec_Model d := dec_RerouteTo d]> (ctl_reroutes c) else ctl_reroutes c)
    (if bool_decide (dec_Action d = ActionBlock) then {[dec_Model d]} ∪ ctl_blocked c else ctl_blocked c).
Definition desired_controls (mode : string) (decisions : list EnforcementDecision) : controls :=
  if String.eqb mode ModeEnforce then fold_left want_decision decisions no_controls else no_controls.

(** A decision is actuated once the gateway has taken it up. *)
Definition actuated (out : actuation) (d : EnforcementDecision) : EnforcementDecision :=
  let done := match dec_Action d with
              | ActionReroute => bool_decide (dec_Model d ∈ out.1)
              | ActionBlock => bool_decide (dec_Model d ∈ out.2)
              | _ => dec_Actuated d
              end in
  Build_EnforcementDecision (dec_Mode d) (dec_Action d) (dec_Namespace d) (dec_Application d) (dec_Provider d) (dec_Zone d)
    (dec_Model d) (dec_Requests d) (dec_RerouteTo d) (dec_Message d) done.

Record sovereignty_outcome : Type := Build_sovereignty_outcome {
  sou_routes : listing;
  sou_findings : list Finding;
  sou_decisions : list EnforcementDecision;
  sou_failed : option error
}.

Section sovereignty.
Context `{FinOps}.

Definition sovereignty_decisions (spec : AISovereigntyPolicySpec) (c : catalog) (findings : list Finding) : list EnforcementDecision :=
  DecideSovereignty (sov_EnforcementMode spec) (omap violation_of findings) (cheapestCompliantModelName c (engine_policy spec)).

(** From the samples to the routes. *)
Definition enforce_sovereignty (update : Route -> option error) (spec : AISovereigntyPolicySpec) (c : catalog)
    (samples : list UsageSample) (cluster : listing) : sovereignty_outcome :=
  let findings := EvaluateFlows (engine_policy spec) (flows c samples) in
  let decisions := sovereignty_decisions spec c findings in
  let '(cluster, out, err) := actuateRouteControlsWithAnnotation update cluster
    (desired_controls (sov_EnforcementMode spec) decisions) sovereigntyRerouteAnnotation in
  Build_sovereignty_outcome cluster findings (map (actuated out) decisions) err.

Definition sovereignty_message (mode : string) (findings : list Finding) (decisions : list EnforcementDecision) : string :=
  let counts := CountBySeverity findings in
  "Evaluated (" +:+ mode +:+ "): " +:+ sprint (Z.of_nat (length findings)) +:+ " finding(s) — "
    +:+ sprint (default 0 (counts !! SeverityCritical)) +:+ " critical, " +:+ sprint (default 0 (counts !! SeverityWarning))
    +:+ " warning; enforcement: " +:+ sprint (CountByAction ActionWarn decisions) +:+ " warn, "
    +:+ sprint (CountByAction ActionReroute decisions) +:+ " reroute, " +:+ sprint (CountByAction ActionBlock decisions) +:+ " block".

Record sovereignty_result : Type := Build_sovereignty_result {
  srr_routes : listing;
  srr_finalizer : bool;
  srr_status : option (option Z * ready);
  srr_error : option error
}.

(** [Reconcile] of a policy that exists; the catalog may fail to load. The status is
    the number of findings, where it is written anew, and the ready condition. *)
Definition reconcile_sovereignty (ans : api_answers) (policy : policy_object AISovereigntyPolicySpec) (cat : string + catalog)
    (seen : telemetry) (cluster : listing) : sovereignty_result :=
  if pob_Deleting policy
  then if pob_Finalizer policy
       then let '(cluster, _, _) := actuateRouteControlsWithAnnotation (ans_route ans) cluster no_controls sovereigntyRerouteAnnotation in
            Build_sovereignty_result cluster (match ans_policy ans with Some _ => true | None => false end) None (ans_policy ans)
       else Build_sovereignty_result cluster false None None
  else match (if pob_Finalizer policy then None else ans_policy ans) with
  | Some m => Build_sovereignty_result cluster false None (Some m)
  | None =>
    match cat, seen with
    | inl m, _ => Build_sovereignty_result cluster true None (Some m)
    | _, NoCollector m => Build_sovereignty_result cluster true (Some (None, ReadyFalse ReasonNoTelemetry m)) None
    | _, CollectFailed m => Build_sovereignty_result cluster true (Some (None, ReadyFalse ReasonReconcileError m)) None
    | inr c, Collected _ samples =>
      let out := enforce_sovereignty (ans_route ans) (pob_Spec policy) c samples cluster in
      Build_sovereignty_result (sou_routes out) true
        (Some (Some (Z.of_nat (length (sou_findings out))),
               ReadyTrue (sovereignty_message (sov_EnforcementMode (pob_Spec policy)) (sou_findings out) (sou_decisions out))))
        (ans_status ans)
    end
  end.
End sovereignty.

(** ** Budget *)

Record budgetFallbackDecision : Type := Build_budgetFallbackDecision {
  bfd_desired : gmap string string;
  bfd_activeModel : string;
  bfd_reason : string
}.
Definition no_fallback (reason : string) : budgetFallbackDecision := Build_budgetFallbackDecision ∅ "" reason.

Record scopedModelUsage : Type := Build_scopedModelUsage { smu_requests : Z; smu_inputTokens : Z; smu_outputTokens : Z }.

Definition budgetPhaseRank (phase : string) : Z :=
  if String.eqb phase PhaseExceeded then 4 else if String.eqb phase PhaseCritical then 3
  else if String.eqb phase PhaseWarning then 2 else if String.eqb phase PhaseWithinBudget then 1 else 0.
Definition fallbackPhaseOrDefault (v : string) : string := if String.eqb v "" then PhaseExceeded else v.
Definition budgetFallbackPhaseReached (phase threshold : string) : bool :=
  budgetPhaseRank (fallbackPhaseOrDefault threshold) <=? budgetPhaseRank phase.
Definition collectorSupportsLatency (name : string) : bool := one_of name ["configmap"; "fake"; "prometheus"; "aigw"].
Definition collectorSupportsErrors (name : string) : bool := one_of name ["configmap"; "fake"; "prometheus"].
Definition tierRank (t : string) : Z :=
  if String.eqb t "high" then 3 else if String.eqb t "medium" then 2 else if String.eqb t "low" then 1 else 0.

Definition add_usage (out : gmap string scopedModelUsage) (s : UsageSample) : gmap string scopedModelUsage :=
  let u := default (Build_scopedModelUsage 0 0 0) (out !! smp_Model s) in
  <[smp_Model s := Build_scopedModelUsage (smu_requests u +i smp_Requests s) (smu_inputTokens u +i smp_InputTokens s)
                     (smu_outputTokens u +i smp_OutputTokens s)]> out.
Definition usageByModel (samples : list UsageSample) : gmap string scopedModelUsage := fold_left add_usage samples ∅.
Definition pricedUsage (u : scopedModelUsage) (p : TokenPricing) : spec_float := priced p (smu_inputTokens u) (smu_outputTokens u).

(** The requests, the errors and the latency of a model that some sample has. *)
Definition observe (seen : Z * Z * spec_float) (s : UsageSample) : Z * Z * spec_float :=
  let '(requests, errors, weighted) := seen in
  (requests +i smp_Requests s, errors +i smp_Errors s,
   Float.add weighted (Float.mul (smp_LatencyMillis s) (Float.of_Z (smp_Requests s)))).
Definition observedModelPerformance (samples : list UsageSample) (model : string) : option (Z * Z * spec_float) :=
  match filter (fun s => smp_Model s = model) samples with
  | [] => None
  | mine => let '(requests, errors, weighted) := fold_left observe mine (0, 0, zero) in
            Some (requests, errors, if 0 <? requests then Float.div weighted (Float.of_Z requests) else zero)
  end.

(** The models that traffic outside the target uses too: the first pass finds those
    seen in the target before, the second the others. *)
Definition share_one (target : BudgetTarget) (seen : gset string * gset string) (s : UsageSample) : gset string * gset string :=
  let '(inTarget, shared) := seen in
  if budgetTargetMatchesSample s target then ({[smp_Model s]} ∪ inTarget, shared)
  else (inTarget, if bool_decide (smp_Model s ∈ inTarget) then {[smp_Model s]} ∪ shared else shared).
Definition sharedModelsOutsideTarget (samples : list UsageSample) (target : BudgetTarget) : gset string :=
  let '(inTarget, shared) := fold_left (share_one target) samples (∅, ∅) in
  fold_left (fun shared s => if negb (budgetTargetMatchesSample s target) && bool_decide (smp_Model s ∈ inTarget)
                             then {[smp_Model s]} ∪ shared else shared) samples shared.

Definition monthlyFactor (period : string) : spec_float :=
  let avgDaysPerMonth := Float.div (Float.of_Z 304375) (Float.of_Z 10000) in
  if String.eqb period "daily" then avgDaysPerMonth
  else if String.eqb period "weekly" then Float.div (Float.of_Z 304375) (Float.of_Z 70000)
  else one.
Definition periodWindow (period : string) : Z :=
  if String.eqb period "daily" then Day else if String.eqb period "weekly" then 7 * Day else 30 * Day.

Section budget.
Context `{FinOps} `{Processor}.

(** The guardrail of latency, then that of errors: the reason not to fall back. *)
Definition latency_guardrail (samples : list UsageSample) (model collectorName : string) (limit : Z) : option string :=
  if limit <=? 0 then None
  else if negb (collectorSupportsLatency collectorName)
  then Some ("latency guardrail requires telemetry with latency; collector " +:+ Quote collectorName +:+ " does not provide it")
  else match observedModelPerformance samples model with
  | None => Some ("fallback model " +:+ Quote model +:+ " has no observed latency yet")
  | Some (_, _, lat) =>
    if SFltb (Float.of_Z limit) lat
    then Some ("fallback latency " +:+ format_f 0 lat +:+ "ms exceeds guardrail " +:+ sprint limit +:+ "ms") else None
  end.
Definition error_guardrail (samples : list UsageSample) (model collectorName : string) (limit : Z) : option string :=
  if limit <=? 0 then None
  else if negb (collectorSupportsErrors collectorName)
  then Some ("error-rate guardrail requires telemetry with errors; collector " +:+ Quote collectorName +:+ " does not provide it")
  else match observedModelPerformance samples model with
  | Some (reqs, errs, _) =>
    if reqs <=? 0 then Some ("fallback model " +:+ Quote model +:+ " has no observed error rate yet")
    else let errPct := Float.div (Float.mul (Float.of_Z errs) (Float.of_Z 100)) (Float.of_Z reqs) in
         if SFltb (Float.of_Z limit) errPct
         then Some ("fallback error rate " +:+ format_f 1 errPct +:+ "% exceeds guardrail " +:+ sprint limit +:+ "%") else None
  | None => Some ("fallback model " +:+ Quote model +:+ " has no observed error rate yet")
  end.

(** A model of the target goes to the fallback when nobody else uses it and the
    fallback costs less for its tokens. *)
Definition fallback_for (pb : PriceBook) (shared : gset string) (fallback : string) (price : TokenPricing) (model : string)
    (u : scopedModelUsage) : option string :=
  if String.eqb model fallback || bool_decide (model ∈ shared) then None
  else match pb !! model with
  | Some cur => if SFltb (pricedUsage u price) (pricedUsage u cur) then Some fallback else None
  | None => None
  end.

(** The fallback model of the specification, or why there is none. *)
Definition usable_fallback (c : catalog) (allSamples : list UsageSample) (spec : AIBudgetPolicySpec) (collectorName : string)
    : string + AIModel :=
  match modelByName c (bs_FallbackModelRef spec) with
  | None => inl ("fallback model ref " +:+ Quote (bs_FallbackModelRef spec) +:+ " was not found")
  | Some fallback =>
    let name := ms_ModelName (model_Spec fallback) in
    match cat_providers c !! ms_ProviderRef (model_Spec fallback) with
    | None => inl ("fallback provider " +:+ Quote (ms_ProviderRef (model_Spec fallback)) +:+ " was not found")
    | Some prov =>
      if negb (ps_Managed (prov_Spec prov)) then inl "fallback provider is not a managed API"
      else if negb (String.eqb (bs_MinFallbackQualityTier spec) "")
              && (tierRank (ms_QualityTier (model_Spec fallback)) <? tierRank (bs_MinFallbackQualityTier spec))
      then inl ("fallback quality tier " +:+ Quote (ms_QualityTier (model_Spec fallback)) +:+ " is below required "
                +:+ Quote (bs_MinFallbackQualityTier spec))
      else match latency_guardrail allSamples name collectorName (bs_MaxFallbackLatencyMillis spec) with
      | Some reason => inl reason
      | None =>
        match error_guardrail allSamples name collectorName (bs_MaxFallbackErrorPercent spec) with
        | Some reason => inl reason
        | None => inr fallback
        end
      end
    end
  end.

Definition budgetFallbackDesired (c : catalog) (allSamples scopedSamples : list UsageSample) (spec : AIBudgetPolicySpec)
    (phase collectorName : string) (sovereigntyEnforced : bool) : budgetFallbackDecision :=
  if String.eqb (bs_FallbackModelRef spec) "" then no_fallback "no fallback model configured"
  else if negb (String.eqb (bs_EnforcementMode spec) ModeEnforce)
  then no_fallback ("fallback remains advisory in mode " +:+ Quote (bs_EnforcementMode spec))
  else if negb (budgetFallbackPhaseReached phase (bs_FallbackOnPhase spec))
  then no_fallback ("budget phase " +:+ phase +:+ " is below fallback threshold " +:+ fallbackPhaseOrDefault (bs_FallbackOnPhase spec))
  else if sovereigntyEnforced
  then no_fallback "sovereignty enforcement is active; skip budget fallback to avoid route conflicts"
  else match usable_fallback c allSamples spec collectorName with
  | inl reason => no_fallback reason
  | inr fallback =>
    let name := ms_ModelName (model_Spec fallback) in
    let pb := priceBook c in
    match pb !! name with
    | None => no_fallback ("fallback model " +:+ Quote name +:+ " has no known price")
    | Some price =>
      let usages := usageByModel scopedSamples in
      if bool_decide (usages = ∅) then no_fallback "no scoped usage observed for the budget target"
      else
        let desired := map_imap (fallback_for pb (sharedModelsOutsideTarget allSamples (bs_Target spec)) name price) usages in
        if bool_decide (desired = ∅) then no_fallback "no dedicated scoped model is more expensive than the fallback"
        else Build_budgetFallbackDecision desired name
               ("fallback " +:+ Quote name +:+ " selected for " +:+ sprint (Z.of_nat (size desired)) +:+ " scoped model(s)")
    end
  end.

(** ** The budget reconciler *)

(** The status; an amount is the text that [resource.MustParse] reads. *)
Record BudgetStatus : Type := Build_BudgetStatus {
  bgs_Phase : string;
  bgs_UsagePercent : Z;
  bgs_CurrentSpendEUR : string;
  bgs_ProjectedMonthlySpendEUR : string;
  bgs_ActiveFallbackModel : string;
  bgs_FallbackActuated : bool;
  bgs_FallbackReason : string;
  bgs_Message : string
}.
Definition moneyQuantity (v : spec_float) : string := format_f 6 v.

Definition and_then (reason more : string) : string := if String.eqb reason "" then more else reason +:+ "; " +:+ more.

(** The spend of the target and its evaluation. *)
Definition budget_result (spec : AIBudgetPolicySpec) (c : catalog) (samples : list UsageSample) : spec_float * spec_float * BudgetResult :=
  let observed := lin_CostTotal (brk_Total (compute_costs (filterByBudgetTarget samples (bs_Target spec)) (priceBook c))) in
  let projected := Float.mul observed (monthlyFactor (bs_Period spec)) in
  (observed, projected,
   evaluate_budget projected (AsApproximateFloat64 (bs_BudgetEUR spec))
     (Build_Thresholds (bs_WarningThresholdPercent spec) (bs_CriticalThresholdPercent spec) (bs_HardLimitPercent spec)) (bs_Actions spec)).

(** The routes and the status of one reconciliation; [sovereignty] is the mode of the
    first sovereignty policy of the namespace. *)
Definition enforce_budget (update : Route -> option error) (spec : AIBudgetPolicySpec) (c : catalog) (collectorName : string)
    (samples : list UsageSample) (sovereignty : option string) (cluster : listing) : listing * BudgetStatus :=
  let '(observed, projected, result) := budget_result spec c samples in
  let decision := budgetFallbackDesired c samples (filterByBudgetTarget samples (bs_Target spec)) spec (bud_Phase result) collectorName
    (bool_decide (sovereignty = Some ModeEnforce)) in
  let desired := bfd_desired decision in
  let '(cluster, out, err) :=
    actuateRouteControlsWithAnnotation update cluster (Build_controls desired ∅) budgetRerouteAnnotation in
  let reason := match err with
                | Some m => and_then (bfd_reason decision) ("gateway actuation failed: " +:+ m)
                | None => bfd_reason decision
                end in
  let allActuated := bool_decide (err = None) && bool_decide (dom desired ⊆ out.1) in
  let wanted := negb (bool_decide (desired = ∅)) in
  let reason := if wanted && negb allActuated && bool_decide (err = None)
                then and_then reason "gateway reroute was only partially actuated" else reason in
  let message := if SFeqb (monthlyFactor (bs_Period spec)) one then bud_Message result
    else "projected " +:+ format_f 2 projected +:+ " / " +:+ format_f 2 (AsApproximateFloat64 (bs_BudgetEUR spec)) +:+ " EUR monthly ("
         +:+ sprint (bud_UsagePercent result) +:+ "%) — " +:+ bud_Phase result +:+ " [observed " +:+ format_f 4 observed +:+ " over "
         +:+ bs_Period spec +:+ " window]" in
  (cluster,
   Build_BudgetStatus (bud_Phase result) (bud_UsagePercent result) (moneyQuantity observed) (moneyQuantity projected)
     (bfd_activeModel decision) (wanted && allActuated) reason
     (if String.eqb reason "" then message else message +:+ " — " +:+ reason)).

Record budget_outcome : Type := Build_budget_outcome {
  bgo_routes : listing;
  bgo_finalizer : bool;
  bgo_status : option (option BudgetStatus * ready);
  bgo_error : option error
}.

(** [Reconcile] of a policy that exists. *)
Definition reconcile_budget (ans : api_answers) (policy : policy_object AIBudgetPolicySpec) (cat : string + catalog)
    (seen : telemetry) (sovereignty : option string) (cluster : listing) : budget_outcome :=
  if pob_Deleting policy
  then if pob_Finalizer policy
       then let '(cluster, _, _) := actuateRouteControlsWithAnnotation (ans_route ans) cluster no_controls budgetRerouteAnnotation in
            Build_budget_outcome cluster (match ans_policy ans with Some _ => true | None => false end) None (ans_policy ans)
       else Build_budget_outcome cluster false None None
  else match (if pob_Finalizer policy then None else ans_policy ans) with
  | Some m => Build_budget_outcome cluster false None (Some m)
  | None =>
    match cat, seen with
    | inl m, _ => Build_budget_outcome cluster true None (Some m)
    | _, NoCollector m => Build_budget_outcome cluster true (Some (None, ReadyFalse ReasonNoTelemetry m)) None
    | _, CollectFailed m => Build_budget_outcome cluster true (Some (None, ReadyFalse ReasonReconcileError m)) None
    | inr c, Collected name samples =>
      let '(cluster, status) := enforce_budget (ans_route ans) (pob_Spec policy) c name samples sovereignty cluster in
      Build_budget_outcome cluster true (Some (Some status, ReadyTrue (bgs_Message status))) (ans_status ans)
    end
  end.
End budget.
