(* ===== verification/PolicyProofs.v ===== *)
(** * Proofs about the sovereignty and budget controllers

    Which traffic an enforcing policy controls and where it goes, and what the
    budget fallback may touch. *)

From Stdlib Require Import ZArith Lia Ascii String SpecFloat.
From stdpp Require Import base gmap strings list pretty.
From S2P Require Import Prelude Digest GoTime Float64 Api Json JsonDecode Sovereignty Catalog GatewayRoutes FinOps PolicyControllers GatewayRoutesProofs.

Open Scope string_scope.
Open Scope list_scope.
Open Scope Z_scope.
Open Scope go_scope.

(** ** Keys of findings *)

(** A text without the byte that separates the fields of a key. *)
Fixpoint plain (s : string) : bool :=
  match s with EmptyString => true | String a r => negb (Ascii.eqb a (ascii_of_N 31)) && plain r end.

Lemma split_key a b r r' : plain a = true -> plain b = true ->
  a +:+ separator +:+ r = b +:+ separator +:+ r' -> a = b /\ r = r'.
Proof.
  unfold separator. revert b. induction a as [|x a IH]; intros [|y b] Ha Hb; rewrite !string_app_cons, ?string_app_nil.
  - by intros [= ->].
  - intros [= <- _]. by cbn in Hb.
  - intros [= -> _]. by cbn in Ha.
  - cbn [plain] in Ha, Hb. apply andb_prop in Ha as [_ Ha]. apply andb_prop in Hb as [_ Hb].
    intros [= -> E]. rewrite <- (string_app_cons _ "" r), <- (string_app_cons _ "" r') in E.
    destruct (IH b Ha Hb E) as [-> ->]. done.
Qed.

Definition plain_finding (f : Finding) : bool :=
  plain (fnd_Severity f) && plain (fnd_Namespace f) && plain (fnd_Application f) && plain (fnd_Model f).
Lemma finding_key_model f g : plain_finding f = true -> plain_finding g = true -> finding_key f = finding_key g ->
  fnd_Severity f = fnd_Severity g /\ fnd_Model f = fnd_Model g.
Proof.
  unfold plain_finding, finding_key, Join. rewrite !andb_true_iff. intros [[[Hf1 Hf2] Hf3] Hf4] [[[Hg1 Hg2] Hg3] Hg4].
  cbn [String.concat]. intros E. apply split_key in E as [E1 E]; try done. apply split_key in E as [_ E]; try done.
  apply split_key in E as [_ E]; try done. by apply split_key in E as [E4 _].
Qed.

(** ** Aggregated findings *)

(** A finding but for its count. *)
Definition same_finding (f g : Finding) : Prop :=
  fnd_Severity f = fnd_Severity g /\ fnd_Model f = fnd_Model g /\ fnd_Message f = fnd_Message g /\ finding_key f = finding_key g.

Definition keyed (agg : list (string * Finding)) : Prop := Forall (fun e => e.1 = finding_key e.2) agg.
Lemma same_refl f : same_finding f f.
Proof. done. Qed.
Lemma same_count f n : same_finding (f <| fnd_Requests := n |>) f.
Proof. by destruct f. Qed.
Lemma same_trans f g h : same_finding f g -> same_finding g h -> same_finding f h.
Proof. intros (? & ? & ? & ?) (? & ? & ? & ?). repeat split; congruence. Qed.

Lemma add_finding_keyed f agg : keyed agg -> keyed (add_finding f agg).
Proof.
  unfold keyed. induction 1 as [|[k old] agg Hk Hrest IH]; cbn [add_finding]; [by repeat constructor|].
  cbn [fst snd] in Hk. subst k. destruct (String.eqb _ _); constructor; done.
Qed.
(** Every entry comes from a finding, and every finding has an entry. *)
Lemma add_finding_from f agg e : e ∈ add_finding f agg -> same_finding e.2 f \/ exists e', e' ∈ agg /\ same_finding e.2 e'.2.
Proof.
  induction agg as [|[k old] agg IH]; cbn [add_finding].
  - intros ->%list_elem_of_singleton. by left.
  - destruct (String.eqb_spec k (finding_key f)) as [->|].
    + intros [->|Hin]%elem_of_cons.
      * right. exists (finding_key f, old). split; [apply list_elem_of_here | apply same_count].
      * right. exists e. split; [by apply elem_of_cons; right | done].
    + intros [->|Hin]%elem_of_cons.
      * right. exists (k, old). split; [apply list_elem_of_here | done].
      * destruct (IH Hin) as [|(e' & Hin' & Hs)]; [by left|]. right. exists e'. split; [by apply elem_of_cons; right | done].
Qed.
Lemma add_finding_keys f agg k : k ∈ map fst (add_finding f agg) <-> k ∈ map fst agg \/ k = finding_key f.
Proof.
  induction agg as [|[k' old] agg IH]; cbn [add_finding map fst].
  - rewrite list_elem_of_singleton. rewrite elem_of_nil. tauto.
  - destruct (String.eqb_spec k' (finding_key f)) as [->|]; cbn [map fst]; rewrite !elem_of_cons; [tauto|]. rewrite IH. tauto.
Qed.
Lemma aggregate_step l : forall agg, keyed agg ->
  let agg' := fold_left (fun agg f => add_finding f agg) l agg in
  keyed agg' /\ (forall f, f ∈ l -> finding_key f ∈ map fst agg') /\ (forall k, k ∈ map fst agg -> k ∈ map fst agg')
  /\ (forall e, e ∈ agg' -> (exists e', e' ∈ agg /\ same_finding e.2 e'.2) \/ exists f, f ∈ l /\ same_finding e.2 f).
Proof.
  induction l as [|f l IH]; intros agg Hk; cbn [fold_left].
  - repeat split; [done| |done|]; [by intros f ?%elem_of_nil | intros e Hin; left; by exists e].
  - destruct (IH (add_finding f agg) (add_finding_keyed f agg Hk)) as (H1 & H2 & H3 & H4). repeat split; [done| | |].
    + intros g [->|Hin]%elem_of_cons; [|by apply H2]. apply H3, add_finding_keys. by right.
    + intros k Hin. apply H3, add_finding_keys. by left.
    + intros e Hin. destruct (H4 e Hin) as [(e' & He & Hs)|(g & Hg & Hs)].
      * destruct (add_finding_from f agg e' He) as [Hf|(e2 & He2 & Hs2)].
        -- right. exists f. split; [apply list_elem_of_here | by eapply same_trans].
        -- left. exists e2. split; [done | by eapply same_trans].
      * right. exists g. split; [by apply elem_of_cons; right | done].
Qed.
Lemma aggregate_from l f : f ∈ aggregate_findings l -> exists g, g ∈ l /\ same_finding f g.
Proof.
  unfold aggregate_findings. intros Hin. apply list_elem_of_In, in_map_iff in Hin as (e & <- & Hin). apply list_elem_of_In in Hin.
  destruct (aggregate_step l [] (Forall_nil_2 _)) as (_ & _ & _ & H4). destruct (H4 e Hin) as [(e' & He & _)|He]; [|done].
  by apply elem_of_nil in He.
Qed.
Lemma aggregate_complete l g : g ∈ l -> exists f, f ∈ aggregate_findings l /\ finding_key f = finding_key g.
Proof.
  intros Hin. destruct (aggregate_step l [] (Forall_nil_2 _)) as (H1 & H2 & _ & _). specialize (H2 g Hin).
  apply list_elem_of_In, in_map_iff in H2 as (e & He & Hin2). exists e.2. split.
  - unfold aggregate_findings. apply list_elem_of_In. by apply in_map.
  - apply list_elem_of_In in Hin2. eapply Forall_forall in H1; [|exact Hin2]. congruence.
Qed.

(** ** Forbidden flows *)

Definition forbidden_flow (policy : Policy) (fl : Flow) : bool :=
  bool_decide (NormalizeZone (flw_Zone fl) ∈ toSet (pol_ForbiddenZones policy)).
Definition plain_flow (fl : Flow) : bool := plain (flw_Namespace fl) && plain (flw_Application fl) && plain (flw_Model fl).

Lemma flow_finding_of policy allowed fl f : f ∈ flow_findings policy allowed (toSet (pol_ForbiddenZones policy)) fl ->
  fnd_Model f = flw_Model fl /\ (fnd_Severity f = SeverityCritical -> forbidden_flow policy fl = true)
  /\ (plain_flow fl = true -> plain_finding f = true).
Proof.
  unfold flow_findings, forbidden_flow, plain_flow, plain_finding. intros [Hin|Hin]%elem_of_app.
  - destruct (bool_decide _); [|destruct (negb (zoneAllowed _ _)); [|by apply elem_of_nil in Hin]];
      apply list_elem_of_singleton in Hin as ->; cbn [fnd_Model fnd_Severity fnd_Namespace fnd_Application]; done.
  - destruct (negb _ && _ && _); [|by apply elem_of_nil in Hin]. apply list_elem_of_singleton in Hin as ->. done.
Qed.
Lemma forbidden_finding policy allowed fl : forbidden_flow policy fl = true ->
  exists f, f ∈ flow_findings policy allowed (toSet (pol_ForbiddenZones policy)) fl
    /\ fnd_Severity f = SeverityCritical /\ fnd_Model f = flw_Model fl.
Proof.
  unfold forbidden_flow, flow_findings. intros ->. eexists. split; [apply elem_of_app; left; apply list_elem_of_here | done].
Qed.

Lemma in_concat_map {A B} (g : A -> list B) l y : y ∈ concat (map g l) <-> exists x, x ∈ l /\ y ∈ g x.
Proof.
  rewrite list_elem_of_In, in_concat. split.
  - intros (ys & (x & <- & Hx)%in_map_iff & Hy). exists x. by rewrite !list_elem_of_In.
  - intros (x & Hx & Hy). exists (g x). apply list_elem_of_In in Hx. apply list_elem_of_In in Hy. split; [by apply in_map | done].
Qed.

(** The critical findings name exactly the models of the flows into forbidden zones. *)
Lemma evaluate_critical policy fls m : forallb plain_flow fls = true ->
  (exists f, f ∈ EvaluateFlows policy fls /\ fnd_Severity f = SeverityCritical /\ fnd_Model f = m)
  <-> exists fl, fl ∈ fls /\ forbidden_flow policy fl = true /\ flw_Model fl = m.
Proof.
  intros Hp. rewrite forallb_forall in Hp. unfold EvaluateFlows. split.
  - intros (f & Hin & Hsev & Hm). rewrite sort_slice_in in Hin. apply elem_of_app in Hin as [Hin|Hin].
    + apply aggregate_from in Hin as (g & Hg & Hs). apply in_concat_map in Hg as (fl & Hfl & Hg).
      destruct (flow_finding_of _ _ _ _ Hg) as (H1 & H2 & _). destruct Hs as (S1 & S2 & _). exists fl.
      repeat split; [done | apply H2; congruence | congruence].
    + destruct (pol_RequireAnonymization policy); [|by apply elem_of_nil in Hin]. apply list_elem_of_singleton in Hin as ->. done.
  - intros (fl & Hin & Hf & <-). destruct (forbidden_finding policy (toSet (pol_AllowedZones policy)) fl Hf) as (g & Hg & Hsev & Hm).
    assert (Hall : g ∈ concat (map (flow_findings policy (toSet (pol_AllowedZones policy)) (toSet (pol_ForbiddenZones policy))) fls))
      by (apply in_concat_map; eauto).
    destruct (aggregate_complete _ g Hall) as (f & Hagg & Hkey). exists f. rewrite sort_slice_in. split; [by apply elem_of_app; left|].
    destruct (aggregate_from _ f Hagg) as (g' & Hg' & S1 & S2 & _ & S4). apply in_concat_map in Hg' as (fl' & Hin' & Hg').
    destruct (finding_key_model g' g) as [E1 E2].
    + eapply flow_finding_of; [exact Hg' | apply Hp; by apply list_elem_of_In].
    + eapply flow_finding_of; [exact Hg | apply Hp; by apply list_elem_of_In].
    + congruence.
    + split; congruence.
Qed.

(** ** The compliant fallback *)

Section sovereignty.
Context `{FinOps}.

Lemma cheaper_allowed pe c pb l : forall best, (best.1 = "" \/ IsZoneAllowed pe (zoneForModel c best.1) = true) ->
  let r := fold_left (cheaper pe c pb) l best in r.1 = "" \/ IsZoneAllowed pe (zoneForModel c r.1) = true.
Proof.
  induction l as [|name l IH]; intros best Hb; cbn [fold_left]; [done|]. apply IH. unfold cheaper.
  destruct (pb !! name); [|done]. destruct (IsZoneAllowed pe (zoneForModel c name)) eqn:E; cbn [negb]; [|done].
  destruct (SFltb _ _); [by right | done].
Qed.
Lemma fallback_allowed c pe : let fallback := cheapestCompliantModelName c pe in
  fallback = "" \/ IsZoneAllowed pe (zoneForModel c fallback) = true.
Proof. unfold cheapestCompliantModelName. apply cheaper_allowed. by left. Qed.

(** ** The controls of an enforcing policy *)

Definition forbidden_model (policy : Policy) (fls : list Flow) (m : string) : Prop :=
  exists fl, fl ∈ fls /\ forbidden_flow policy fl = true /\ flw_Model fl = m.

Lemma want_reroute fallback v c : fallback <> ""%string ->
  want_decision c (decide_violation ModeEnforce fallback v) = Build_controls (<[vio_Model v := fallback]> (ctl_reroutes c)) (ctl_blocked c).
Proof.
  intros Hf. unfold decide_violation. change (String.eqb ModeEnforce ModeWarn) with false. rewrite String.eqb_refl.
  rewrite (proj2 (String.eqb_neq _ _) Hf). unfold want_decision. cbn [negb dec_Action dec_RerouteTo dec_Model].
  rewrite (proj2 (String.eqb_neq _ _) Hf). done.
Qed.
Lemma want_block v c :
  want_decision c (decide_violation ModeEnforce "" v) = Build_controls (ctl_reroutes c) ({[vio_Model v]} ∪ ctl_blocked c).
Proof. done. Qed.

Lemma reroutes_of fallback l m : fallback <> ""%string -> forall c,
  let c' := fold_left want_decision (DecideSovereignty ModeEnforce l fallback) c in
  ctl_blocked c' = ctl_blocked c
  /\ ctl_reroutes c' !! m = if bool_decide (m ∈ map vio_Model l) then Some fallback else ctl_reroutes c !! m.
Proof.
  intros Hf. unfold DecideSovereignty. induction l as [|v l IH]; intros c; cbn [map fold_left]; [done|].
  rewrite want_reroute by done. destruct (IH (Build_controls (<[vio_Model v := fallback]> (ctl_reroutes c)) (ctl_blocked c))) as [-> ->].
  split; [done|]. cbn [ctl_reroutes]. destruct (decide (m ∈ map vio_Model l)) as [Hin|Hin].
  - by rewrite !bool_decide_true by (try apply elem_of_cons; tauto).
  - rewrite (bool_decide_false (m ∈ map vio_Model l)) by done. destruct (decide (m = vio_Model v)) as [->|Hne].
    + rewrite lookup_insert_eq, bool_decide_true; [done | apply list_elem_of_here].
    + rewrite lookup_insert_ne by done. rewrite bool_decide_false; [done|]. by intros [|]%elem_of_cons.
Qed.
Lemma blocks_of l m : forall c,
  let c' := fold_left want_decision (DecideSovereignty ModeEnforce l "") c in
  ctl_reroutes c' = ctl_reroutes c /\ (m ∈ ctl_blocked c' <-> m ∈ map vio_Model l \/ m ∈ ctl_blocked c).
Proof.
  unfold DecideSovereignty. induction l as [|v l IH]; intros c; cbn [map fold_left].
  - split; [done|]. rewrite elem_of_nil. tauto.
  - rewrite want_block. destruct (IH (Build_controls (ctl_reroutes c) ({[vio_Model v]} ∪ ctl_blocked c))) as [-> ->].
    split; [done|]. cbn [ctl_blocked]. rewrite elem_of_cons, elem_of_union, elem_of_singleton. tauto.
Qed.

Lemma violations_models findings m : m ∈ map vio_Model (omap violation_of findings)
  <-> exists f, f ∈ findings /\ fnd_Severity f = SeverityCritical /\ fnd_Model f = m.
Proof.
  split.
  - intros Hin. apply list_elem_of_In, in_map_iff in Hin as (v & <- & Hin). apply list_elem_of_In, list_elem_of_omap in Hin as (f & Hf & Hv).
    exists f. unfold violation_of in Hv. destruct (String.eqb_spec (fnd_Severity f) SeverityCritical); [|done]. by injection Hv as <-.
  - intros (f & Hf & Hs & <-). apply list_elem_of_In, in_map_iff.
    exists (Build_Violation (fnd_Namespace f) (fnd_Application f) (fnd_Provider f) (fnd_Zone f) (fnd_Model f) (fnd_Requests f)).
    split; [done|]. apply list_elem_of_In, list_elem_of_omap. exists f. split; [done|]. unfold violation_of. by rewrite Hs.
Qed.

(** What an enforcing policy wants of the routes. *)
Definition sovereignty_controls (spec : AISovereigntyPolicySpec) (c : catalog) (samples : list UsageSample) : controls :=
  desired_controls (sov_EnforcementMode spec) (sovereignty_decisions spec c (EvaluateFlows (engine_policy spec) (flows c samples))).

Lemma sovereignty_controls_exact spec c samples m : sov_EnforcementMode spec = ModeEnforce ->
  forallb plain_flow (flows c samples) = true ->
  let fallback := cheapestCompliantModelName c (engine_policy spec) in
  (forbidden_model (engine_policy spec) (flows c samples) m ->
     if String.eqb fallback "" then ctl_reroutes (sovereignty_controls spec c samples) !! m = None
                                    /\ m ∈ ctl_blocked (sovereignty_controls spec c samples)
     else ctl_reroutes (sovereignty_controls spec c samples) !! m = Some fallback)
  /\ (~ forbidden_model (engine_policy spec) (flows c samples) m ->
      ctl_reroutes (sovereignty_controls spec c samples) !! m = None /\ m ∉ ctl_blocked (sovereignty_controls spec c samples)).
Proof.
  intros Hmode Hp fallback. unfold sovereignty_controls, sovereignty_decisions, desired_controls, forbidden_model. fold fallback.
  rewrite Hmode, String.eqb_refl. rewrite <- (evaluate_critical _ _ m Hp), <- violations_models.
  set (vs := omap violation_of _). destruct (String.eqb_spec fallback "") as [E|E].
  - rewrite E. destruct (blocks_of vs m no_controls) as [-> ->]. cbn [no_controls ctl_reroutes ctl_blocked]. rewrite lookup_empty. set_solver.
  - destruct (reroutes_of fallback vs m E no_controls) as [-> ->]. cbn [no_controls ctl_reroutes ctl_blocked]. split.
    + intros Hin. by rewrite bool_decide_true.
    + intros Hin. rewrite bool_decide_false by done. rewrite lookup_empty. set_solver.
Qed.

(** ** From controls to routes *)

(** The rules of a route, each against what became of it. *)
Definition route_controlled (c : controls) (backends : gmap string string) (r r' : Route) : Prop :=
  rte_Name r' = rte_Name r
  /\ Forall2 (fun v v' => rule_model v <> "" -> rule_controlled c backends v v') (rte_Rules r) (rte_Rules r').

Lemma actuate_route_controlled c backends key r : route_controlled c backends r (actuate_route c backends key r).1.
Proof.
  unfold actuate_route, ApplyControls, route_controlled. set (st := Build_control_state _ _ _ _).
  pose proof (apply_rules_controlled c backends (rte_Rules r) st) as Hc. pose proof (apply_rules_changed c backends (rte_Rules r) st) as Hch.
  destruct (apply_rules c backends st (rte_Rules r)) as [rules st']. cbn [fst snd] in *.
  destruct (cs_changed st'); [done|]. by destruct (Hch eq_refl) as [_ [= -> _]].
Qed.
Lemma actuate_routes_controlled update c backends key routes : forall out,
  (actuate_routes update c backends key out routes).2 = None ->
  Forall2 (route_controlled c backends) routes (actuate_routes update c backends key out routes).1.1.
Proof.
  induction routes as [|r routes IH]; intros out; cbn [actuate_routes]; [constructor|].
  pose proof (actuate_route_controlled c backends key r) as Hr. destruct (actuate_route c backends key r) as [r' st].
  destruct (if cs_changed st then update r' else None); [done|].
  specialize (IH (out.1 ∪ cs_rerouted st, out.2 ∪ cs_blocked st)).
  destruct (actuate_routes update c backends key _ routes) as [[routes' out'] err]. cbn [fst snd] in *. intros He. constructor; auto.
Qed.

(** A model's backend has a name that is not the blocked one. *)
Lemma modelBackends_named routes m b : modelBackends routes !! m = Some b -> b <> ""%string /\ b <> BlockBackendName.
Proof.
  unfold modelBackends. assert (Hstep : forall rules out, (forall m b, out !! m = Some b -> b <> ""%string /\ b <> BlockBackendName) ->
    forall m b, fold_left add_backend rules out !! m = Some b -> b <> ""%string /\ b <> BlockBackendName).
  { induction rules as [|v rules IH]; intros out Ho; cbn [fold_left]; [done|]. apply IH. intros m1 b1. unfold add_backend.
    destruct (served_backend v) as [[m2 b2]|] eqn:Es; [|apply Ho]. destruct (out !! m2) eqn:E2; [apply Ho|].
    destruct (decide (m1 = m2)) as [->|Hne]; [|rewrite lookup_insert_ne by done; apply Ho]. rewrite lookup_insert_eq. intros [= <-].
    unfold served_backend in Es. destruct v as [| | | | |rule]; try done. destruct (String.eqb (RuleModel rule) ""); [done|].
    destruct (firstBackend rule) as [[b0 rest]|]; [|done].
    destruct (String.eqb_spec (NestedString b0 "name") ""), (String.eqb_spec (NestedString b0 "name") BlockBackendName); cbn [orb] in Es; try done.
    injection Es as _ <-. done. }
  assert (Hall : forall routes out, (forall m b, out !! m = Some b -> b <> ""%string /\ b <> BlockBackendName) ->
    forall m b, fold_left (fun out r => fold_left add_backend (rte_Rules r) out) routes out !! m = Some b -> b <> ""%string /\ b <> BlockBackendName).
  { clear m b routes. induction routes as [|r routes IH]; intros out Ho; cbn [fold_left]; [done|]. apply IH. intros m b. by apply Hstep. }
  apply Hall. intros ? ?. by rewrite lookup_empty.
Qed.

(** Where the rule of a forbidden model goes: to the fallback's backend with the
    fallback's name in the body, to the absent backend, or, when the fallback has no
    backend in the namespace, where it went before. *)
Definition kept_out (policy : Policy) (c : catalog) (backends : gmap string string) (v v' : jvalue) : Prop :=
  let fallback := cheapestCompliantModelName c policy in
  if String.eqb fallback "" then destination v' = Some (BlockBackendName, None)
  else IsZoneAllowed policy (zoneForModel c fallback) = true
       /\ match backends !! fallback with
          | Some backend => destination v' = Some (backend, Some (model_mutation fallback))
          | None => v' = v
          end.

Lemma controlled_kept_out spec c samples routes v v' : sov_EnforcementMode spec = ModeEnforce ->
  forallb plain_flow (flows c samples) = true -> forbidden_model (engine_policy spec) (flows c samples) (rule_model v) ->
  is_Some (backend_of v) -> rule_controlled (sovereignty_controls spec c samples) (modelBackends routes) v v' ->
  kept_out (engine_policy spec) c (modelBackends routes) v v'.
Proof.
  intros Hmode Hp Hf [b0 Hb] [_ Hr]. destruct (sovereignty_controls_exact spec c samples (rule_model v) Hmode Hp) as [He _].
  specialize (He Hf). unfold kept_out. rewrite Hb in Hr. destruct (fallback_allowed c (engine_policy spec)) as [E|E].
  - rewrite E in *. cbn [String.eqb] in *. destruct He as [Hn Hbl]. rewrite Hn in Hr. by rewrite bool_decide_true in Hr.
  - destruct (String.eqb_spec (cheapestCompliantModelName c (engine_policy spec)) "") as [E1|E1].
    + destruct He as [Hn Hbl]. rewrite Hn in Hr. by rewrite bool_decide_true in Hr.
    + split; [done|]. rewrite He in Hr. destruct (modelBackends routes !! _) as [b|] eqn:Em; [|done].
      destruct (modelBackends_named _ _ _ Em) as [H1 _]. by rewrite (proj2 (String.eqb_neq _ _) H1) in Hr.
Qed.

(** enforcement keeps traffic out of forbidden zones. When a policy that enforces
    has reconciled without error, every gateway rule of a model that some observed
    flow took into a forbidden zone now sends its traffic to the backend of the
    cheapest compliant model, whose zone the policy allows, with that model's name
    written into the body; or, when the catalog has no compliant model, to the
    reserved absent backend; only when the compliant model has no backend in the
    namespace does the rule stay as it was. Rules of other models stay, or get back
    the backend that was saved for them. *)
Theorem enforcement_keeps_traffic_out update spec c samples routes :
  sov_EnforcementMode spec = ModeEnforce -> forallb plain_flow (flows c samples) = true ->
  let out := enforce_sovereignty update spec c samples (Listed routes) in
  sou_failed out = None ->
  exists routes', sou_routes out = Listed routes'
    /\ Forall2 (fun r r' => rte_Name r' = rte_Name r /\ Forall2 (fun v v' => rule_model v <> "" -> is_Some (backend_of v) ->
         rule_model v' = rule_model v
         /\ (forbidden_model (engine_policy spec) (flows c samples) (rule_model v) ->
             kept_out (engine_policy spec) c (modelBackends routes) v v')
         /\ (~ forbidden_model (engine_policy spec) (flows c samples) (rule_model v) ->
             v' = v \/ exists orig, v' = restore_rule (Some orig) v)) (rte_Rules r) (rte_Rules r')) routes routes'.
Proof.
  intros Hmode Hp. unfold enforce_sovereignty, actuateRouteControlsWithAnnotation. fold (sovereignty_controls spec c samples).
  pose proof (actuate_routes_controlled update (sovereignty_controls spec c samples) (modelBackends routes) sovereigntyRerouteAnnotation
    routes (∅, ∅)) as Hr.
  destruct (actuate_routes _ _ _ _ _ _) as [[routes' out] err]. cbn [fst snd sou_failed sou_routes] in *. intros He.
  exists routes'. split; [done|]. eapply Forall2_impl; [by apply Hr|]. intros r r' [Hn Hv]. split; [done|].
  eapply Forall2_impl; [exact Hv|]. intros v v' Hc Hm Hb. specialize (Hc Hm). pose proof Hc as [Hmod Hrule]. repeat split; [done| |].
  - intros Hf. by eapply controlled_kept_out.
  - intros Hf. destruct (sovereignty_controls_exact spec c samples (rule_model v) Hmode Hp) as [_ Hex].
    destruct (Hex Hf) as [Hn1 Hn2]. destruct Hb as [b Hb]. rewrite Hb, Hn1 in Hrule. by rewrite bool_decide_false in Hrule.
Qed.
End sovereignty.

(** ** The budget fallback *)

(** Some sample that [P] picks uses the model. *)
Definition used (P : UsageSample -> bool) (samples : list UsageSample) (m : string) : Prop :=
  exists s, s ∈ samples /\ P s = true /\ smp_Model s = m.
Lemma used_cons P s samples m : used P (s :: samples) m <-> (P s = true /\ smp_Model s = m) \/ used P samples m.
Proof.
  unfold used. split.
  - intros (s' & [->|Hin]%elem_of_cons & Hs); [by left | right; eauto].
  - intros [Hs|(s' & Hin & Hs)]; [exists s | exists s']; split; try done; [apply list_elem_of_here | by apply elem_of_cons; right].
Qed.
Lemma used_nil P m : ~ used P [] m.
Proof. by intros (s & ?%elem_of_nil & _). Qed.

Lemma share_first target samples m : forall seen, let r := fold_left (share_one target) samples seen in
  (m ∈ r.1 <-> m ∈ seen.1 \/ used (fun s => budgetTargetMatchesSample s target) samples m)
  /\ (m ∈ r.2 -> m ∈ seen.2 \/ m ∈ r.1 /\ used (fun s => negb (budgetTargetMatchesSample s target)) samples m).
Proof.
  induction samples as [|s samples IH]; intros [inT sh]; cbn [fold_left fst snd].
  - split; [|by left]. pose proof (used_nil (fun s => budgetTargetMatchesSample s target) m). tauto.
  - destruct (IH (share_one target (inT, sh) s)) as [H1 H2]. rewrite !used_cons. revert H1 H2. unfold share_one.
    destruct (budgetTargetMatchesSample s target); cbn [fst snd negb].
    + rewrite elem_of_union, elem_of_singleton. intros H1 H2. split; [rewrite H1; intuition congruence | intuition].
    + intros H1 H2. split; [rewrite H1; intuition congruence|]. intros Hin. destruct (H2 Hin) as [Hin2|?]; [|tauto].
      case_bool_decide as Hm; [|by left]. apply elem_of_union in Hin2 as [->%elem_of_singleton|]; [right; rewrite H1; tauto | by left].
Qed.
Lemma share_second target (inT : gset string) samples m : forall shared : gset string,
  m ∈ fold_left (fun shared s => if negb (budgetTargetMatchesSample s target) && bool_decide (smp_Model s ∈ inT)
                             then {[smp_Model s]} ∪ shared else shared) samples shared
  <-> m ∈ shared \/ m ∈ inT /\ used (fun s => negb (budgetTargetMatchesSample s target)) samples m.
Proof.
  induction samples as [|s samples IH]; intros shared; cbn [fold_left].
  - pose proof (used_nil (fun s => negb (budgetTargetMatchesSample s target)) m). tauto.
  - rewrite IH, used_cons. destruct (negb _); cbn [andb]; [|intuition congruence].
    case_bool_decide as Hm; [|intuition congruence]. rewrite elem_of_union, elem_of_singleton. split; [intuition congruence|].
    intros [?|[? [[_ <-]|?]]]; tauto.
Qed.
(** The shared models are exactly those that samples inside and outside the target use. *)
Lemma shared_exact samples target m : m ∈ sharedModelsOutsideTarget samples target
  <-> used (fun s => budgetTargetMatchesSample s target) samples m
      /\ used (fun s => negb (budgetTargetMatchesSample s target)) samples m.
Proof.
  unfold sharedModelsOutsideTarget. destruct (share_first target samples m (∅, ∅)) as [H1 H2].
  destruct (fold_left (share_one target) samples (∅, ∅)) as [inT sh]. cbn [fst snd] in *. rewrite share_second.
  rewrite elem_of_empty in H1, H2. tauto.
Qed.

(** What the samples of one model use together. *)
Definition usage_of (samples : list UsageSample) : scopedModelUsage :=
  fold_left (fun u s => Build_scopedModelUsage (smu_requests u +i smp_Requests s) (smu_inputTokens u +i smp_InputTokens s)
                          (smu_outputTokens u +i smp_OutputTokens s)) samples (Build_scopedModelUsage 0 0 0).
Definition samples_of (model : string) (samples : list UsageSample) : list UsageSample := filter (fun s => smp_Model s = model) samples.

(** A map filled sample by sample under a key is filled by each key's own samples. *)
Lemma fold_group {K A} `{Countable K} (key : UsageSample -> option K) (init : A) (step : A -> UsageSample -> A) samples k :
  forall m : gmap K A,
  fold_left (fun m s => match key s with Some k => <[k := step (default init (m !! k)) s]> m | None => m end) samples m !! k
  = match filter (fun s => key s = Some k) samples with
    | [] => m !! k
    | mine => Some (fold_left step mine (default init (m !! k)))
    end.
Proof.
  induction samples as [|s samples IH]; intros m; cbn [fold_left]; [done|]. rewrite IH.
  destruct (decide (key s = Some k)) as [E|E].
  - rewrite filter_cons_True by done. rewrite E, lookup_insert_eq. cbn [fold_left from_option id default].
    by destruct (filter _ samples).
  - rewrite filter_cons_False by done. destruct (key s) as [k'|]; [|done]. rewrite lookup_insert_ne by congruence. done.
Qed.
Lemma usageByModel_exact samples m :
  usageByModel samples !! m = match samples_of m samples with [] => None | mine => Some (usage_of mine) end.
Proof.
  pose proof (fold_group (fun s => Some (smp_Model s)) (Build_scopedModelUsage 0 0 0)
    (fun u s => Build_scopedModelUsage (smu_requests u +i smp_Requests s) (smu_inputTokens u +i smp_InputTokens s)
                          (smu_outputTokens u +i smp_OutputTokens s)) samples m ∅) as Hg.
  rewrite lookup_empty in Hg. unfold usageByModel, add_usage, samples_of. rewrite Hg. cbn [default from_option].
  rewrite (list_filter_iff _ (fun s => smp_Model s = m)); [done|]. intros s. split; congruence.
Qed.

(** The observed latency and error rate respect the guardrails of the specification. *)
Definition within_guardrails (samples : list UsageSample) (model : string) (spec : AIBudgetPolicySpec) : Prop :=
  (0 < bs_MaxFallbackLatencyMillis spec -> exists requests errors lat,
     observedModelPerformance samples model = Some (requests, errors, lat)
     /\ SFltb (Float.of_Z (bs_MaxFallbackLatencyMillis spec)) lat = false)
  /\ (0 < bs_MaxFallbackErrorPercent spec -> exists requests errors lat,
     observedModelPerformance samples model = Some (requests, errors, lat) /\ 0 < requests
     /\ SFltb (Float.of_Z (bs_MaxFallbackErrorPercent spec)) (Float.div (Float.mul (Float.of_Z errors) (Float.of_Z 100)) (Float.of_Z requests)) = false).

Lemma guardrails samples model collectorName spec :
  latency_guardrail samples model collectorName (bs_MaxFallbackLatencyMillis spec) = None ->
  error_guardrail samples model collectorName (bs_MaxFallbackErrorPercent spec) = None -> within_guardrails samples model spec.
Proof.
  unfold latency_guardrail, error_guardrail. intros Hl He. split; intros Hpos.
  - rewrite (proj2 (Z.leb_gt _ _) Hpos) in Hl. destruct (negb _); [done|].
    destruct (observedModelPerformance samples model) as [[[r e] lat]|]; [|done]. exists r, e, lat. by destruct (SFltb _ lat).
  - clear Hl. rewrite (proj2 (Z.leb_gt _ _) Hpos) in He. destruct (negb _); [done|].
    destruct (observedModelPerformance samples model) as [[[r e] lat]|]; [|done]. exists r, e, lat.
    destruct (Z.leb_spec r 0); [done|]. by destruct (SFltb _ _).
Qed.

Lemma usable_fallback_found `{FinOps} c samples spec collectorName fallback :
  usable_fallback c samples spec collectorName = inr fallback ->
  modelByName c (bs_FallbackModelRef spec) = Some fallback
  /\ (exists prov, cat_providers c !! ms_ProviderRef (model_Spec fallback) = Some prov /\ ps_Managed (prov_Spec prov) = true)
  /\ (bs_MinFallbackQualityTier spec = "" \/ tierRank (bs_MinFallbackQualityTier spec) <= tierRank (ms_QualityTier (model_Spec fallback)))
  /\ within_guardrails samples (ms_ModelName (model_Spec fallback)) spec.
Proof.
  unfold usable_fallback. destruct (modelByName _ _) as [f|]; [|done]. destruct (cat_providers c !! _) as [prov|] eqn:Ep; [|done].
  destruct (ps_Managed (prov_Spec prov)) eqn:Em; [|done]. cbn [negb].
  destruct (negb (String.eqb _ _) && _) eqn:Et; [done|]. destruct (latency_guardrail _ _ _ _) eqn:El; [done|].
  destruct (error_guardrail _ _ _ _) eqn:Ee; [done|]. intros [= <-]. repeat split; [eauto| |by eapply guardrails..].
  destruct (String.eqb_spec (bs_MinFallbackQualityTier spec) ""); [by left | right]. cbn [negb andb] in Et. by apply Z.ltb_ge in Et.
Qed.

Lemma samples_of_target samples target m : (forall s, s ∈ samples -> smp_Model s = m -> budgetTargetMatchesSample s target = true) ->
  samples_of m (filterByBudgetTarget samples target) = samples_of m samples.
Proof.
  unfold samples_of, filterByBudgetTarget. induction samples as [|s samples IH]; intros Hall; [done|].
  assert (IH' := IH (fun s' Hin => Hall s' (list_elem_of_further _ _ _ Hin))). clear IH.
  destruct (decide (smp_Model s = m)) as [E|E].
  - rewrite filter_cons_True by (apply Hall; [apply list_elem_of_here | done]). rewrite !filter_cons_True by done. by rewrite IH'.
  - rewrite (filter_cons_False (fun s => smp_Model s = m)) by done. destruct (decide (budgetTargetMatchesSample s target = true)).
    + rewrite filter_cons_True by done. by rewrite filter_cons_False.
    + by rewrite filter_cons_False.
Qed.
Lemma samples_of_used P samples m : samples_of m (filter (fun s => P s = true) samples) <> [] -> used P samples m.
Proof.
  unfold samples_of. destruct (filter _ (filter _ samples)) as [|s l] eqn:E; [done|]. intros _.
  assert (Hin : s ∈ filter (fun s => smp_Model s = m) (filter (fun s => P s = true) samples)) by (rewrite E; apply list_elem_of_here).
  apply list_elem_of_filter in Hin as [Hm Hin]. apply list_elem_of_filter in Hin as [HP Hin]. by exists s.
Qed.

Lemma no_fallback_lookup reason m : bfd_desired (no_fallback reason) !! m = None.
Proof. apply lookup_empty. Qed.

(** the budget fallback stays within its guardrails. A model is rerouted for a
    budget only when the policy enforces, the phase is reached and no sovereignty
    policy enforces; it goes to the configured fallback, of a managed provider, of the
    required quality, with observed latency and errors within the limits; every
    observed sample of the model belongs to the budget's target, so that nobody
    else's traffic moves; and its own observed tokens cost strictly less there. *)
Theorem budget_fallback_is_guarded `{FinOps} c samples spec phase collectorName sovereigntyEnforced m t :
  let d := budgetFallbackDesired c samples (filterByBudgetTarget samples (bs_Target spec)) spec phase collectorName sovereigntyEnforced in
  bfd_desired d !! m = Some t ->
  bs_EnforcementMode spec = ModeEnforce /\ sovereigntyEnforced = false
  /\ budgetPhaseRank (fallbackPhaseOrDefault (bs_FallbackOnPhase spec)) <= budgetPhaseRank phase
  /\ (exists fallback prov, modelByName c (bs_FallbackModelRef spec) = Some fallback /\ ms_ModelName (model_Spec fallback) = t
      /\ bfd_activeModel d = t /\ m <> t
      /\ cat_providers c !! ms_ProviderRef (model_Spec fallback) = Some prov /\ ps_Managed (prov_Spec prov) = true
      /\ (bs_MinFallbackQualityTier spec = "" \/ tierRank (bs_MinFallbackQualityTier spec) <= tierRank (ms_QualityTier (model_Spec fallback))))
  /\ within_guardrails samples t spec
  /\ (forall s, s ∈ samples -> smp_Model s = m -> budgetTargetMatchesSample s (bs_Target spec) = true)
  /\ samples_of m samples <> []
  /\ exists cur price, priceBook c !! m = Some cur /\ priceBook c !! t = Some price
     /\ SFltb (pricedUsage (usage_of (samples_of m samples)) price) (pricedUsage (usage_of (samples_of m samples)) cur) = true.
Proof.
  unfold budgetFallbackDesired. destruct (String.eqb (bs_FallbackModelRef spec) ""); [by rewrite no_fallback_lookup|].
  destruct (String.eqb_spec (bs_EnforcementMode spec) ModeEnforce) as [Hmode|]; cbn [negb]; [|by rewrite no_fallback_lookup].
  destruct (budgetFallbackPhaseReached phase _) eqn:Hph; cbn [negb]; [|by rewrite no_fallback_lookup].
  destruct sovereigntyEnforced; [by rewrite no_fallback_lookup|].
  destruct (usable_fallback _ _ _ _) as [|fallback] eqn:Hu; [by rewrite no_fallback_lookup|].
  apply usable_fallback_found in Hu as (Hf & (prov & Hp & Hman) & Htier & Hg).
  destruct (priceBook c !! _) as [price|] eqn:Hprice; [|by rewrite no_fallback_lookup].
  case_bool_decide; [by rewrite no_fallback_lookup|]. case_bool_decide; [by rewrite no_fallback_lookup|]. cbn [bfd_desired bfd_activeModel].
  rewrite map_lookup_imap, usageByModel_exact.
  destruct (samples_of m (filterByBudgetTarget samples (bs_Target spec))) as [|s0 l0] eqn:Es; [done|]. cbn [mbind option_bind].
  rewrite <- Es. unfold fallback_for. destruct (String.eqb_spec m (ms_ModelName (model_Spec fallback))) as [|Hne]; cbn [orb]; [done|].
  case_bool_decide as Hsh; [done|]. destruct (priceBook c !! m) as [cur|] eqn:Hcur; [|done].
  destruct (SFltb _ _) eqn:Hlt; [|done]. intros [= <-].
  assert (Hused : used (fun s => budgetTargetMatchesSample s (bs_Target spec)) samples m)
    by (apply samples_of_used; fold (filterByBudgetTarget samples (bs_Target spec)); by rewrite Es).
  assert (Hall : forall s, s ∈ samples -> smp_Model s = m -> budgetTargetMatchesSample s (bs_Target spec) = true).
  { intros s Hin Hm. destruct (budgetTargetMatchesSample s (bs_Target spec)) eqn:Eb; [done|]. destruct Hsh. apply shared_exact.
    split; [done|]. exists s. by rewrite Eb. }
  rewrite samples_of_target in Es, Hlt by done.
  repeat split; try done; [by apply Z.leb_le | exists fallback, prov | apply Hg | apply Hg | by rewrite Es | exists cur, price];
    repeat split; done.
Qed.
