(* ===== verification/PolicyExample.v ===== *)
(** * Sovereignty and budget policies at work

    A gateway route with a model of a forbidden zone and one of an allowed zone, and
    observed traffic to both: what the policies make of the route, and that it comes
    back. *)

From Stdlib Require Import ZArith Lia Ascii String SpecFloat.
From stdpp Require Import base gmap strings list pretty.
From S2P Require Import Prelude Digest GoTime Float64 Api Json JsonDecode Sovereignty Catalog GatewayRoutes FinOps GatewayRoutesProofs PolicyControllers PolicyProofs.

Open Scope string_scope.
Open Scope list_scope.
Open Scope Z_scope.
Open Scope go_scope.

Module PolicyExample.
#[local] Instance finops : FinOps := {| AsApproximateFloat64 := fun _ => FinOps.zero; range_order := fun l => l |}.

Definition rule (model backend : string) : jvalue :=
  JObject [("matches", JArray [JObject [("headers", JArray [JObject [("name", JString ModelHeaderName); ("value", JString model)]])]]);
    ("backendRefs", JArray [JObject [("name", JString backend); ("weight", JNumber "1")]; JObject [("name", JString "spare")]])].
Definition route : Route :=
  Build_Route "chat" (<["team" := "red"]> ∅) [rule "gpt-4o" "openai"; rule "mistral-small" "mistral"; rule "mistral-small-latest" "mistral"; JNull].

(** No provider and no model of the namespace: the built-in catalog prices and places them. *)
Definition bare : catalog := Build_catalog ∅ [].
Definition sample (model : string) (requests : Z) : UsageSample :=
  Build_UsageSample "team-a" "chat" "red" "" model requests 1000000 1000000 (Float.of_Z 120) 0.
Definition samples : list UsageSample := [sample "gpt-4o" 10; sample "mistral-small" 5].
Definition policy (allowed forbidden : list string) : AISovereigntyPolicySpec :=
  Build_AISovereigntyPolicySpec allowed forbidden true false ModeEnforce.
Definition enforced (p : AISovereigntyPolicySpec) : sovereignty_outcome := enforce_sovereignty (fun _ => None) p bare samples (Listed [route]).
Definition destinations (l : listing) : list (list (option (string * option jvalue))) :=
  match l with Listed routes => map (fun r => map destination (rte_Rules r)) routes | _ => [] end.

(** A model in a forbidden zone goes to a compliant one; when every known model is
    forbidden, it goes to the reserved backend; without the policy it comes back. *)
Example forbidden_model_is_rerouted :
  map (fun l => head l) (destinations (sou_routes (enforced (policy ["EU"] ["US"])))) =
    [Some (Some ("mistral", Some (model_mutation (cheapestCompliantModelName bare (engine_policy (policy ["EU"] ["US"]))))))] /\
  map dec_Actuated (sou_decisions (enforced (policy ["EU"] ["US"]))) = [true].
Proof. vm_compute. done. Qed.
Example forbidden_model_is_blocked :
  destinations (sou_routes (enforced (policy ["FR"] ["US"; "EU"]))) =
    [[Some ("aiops-blocked", None); Some ("aiops-blocked", None); Some ("mistral", None); None]].
Proof. vm_compute. done. Qed.
Example deleted_policy_reverts :
  let applied := sou_routes (enforced (policy ["EU"] ["US"])) in
  srr_routes (reconcile_sovereignty (Build_api_answers (fun _ => None) None None)
    (Build_policy_object "p" true true (policy ["EU"] ["US"])) (inr bare) (Collected "fake" samples) applied) = Listed [route].
Proof. vm_compute. done. Qed.

(** What two reconciliations of a policy asked of the route. *)
Definition steps : list (controls * gmap string string) :=
  [(Build_controls (<["gpt-4o" := "mistral-small"]> ∅) ∅, modelBackends [route]);
   (Build_controls ∅ {["gpt-4o"; "mistral-small"]}, modelBackends [route])].
Lemma route_reversible : reversible sovereigntyRerouteAnnotation route.
Proof.
  split.
  - vm_compute. reflexivity.
  - apply (bool_decide_unpack _). vm_compute. exact I.
  - repeat constructor; try (eexists; reflexivity).
  - repeat constructor.
Qed.
End PolicyExample.
Import PolicyExample.

Lemma controls_are_reversible_witness :
  (actuate_route no_controls ∅ sovereigntyRerouteAnnotation (actuate_all sovereigntyRerouteAnnotation steps route)).1 = route.
Proof. exact (controls_are_reversible sovereigntyRerouteAnnotation steps ∅ route route_reversible). Defined.

Lemma enforcement_keeps_traffic_out_witness : exists routes', sou_routes (enforced (policy ["EU"] ["US"])) = Listed routes' /\
  map rte_Name routes' = ["chat"].
Proof.
  destruct (@enforcement_keeps_traffic_out finops (fun _ => None) (policy ["EU"] ["US"]) bare samples [route]) as (routes' & E & F).
  - reflexivity.
  - vm_compute. reflexivity.
  - vm_compute. reflexivity.
  - exists routes'. split; [exact E|]. inversion F as [|r r' l l' [Hn _] F' E1 E2]. inversion F'. subst. cbn [map]. by rewrite Hn.
Defined.
